(* ===== verification/_CoqProject ===== *)
-Q . S2P
Prelude.v
KString.v
IoIntf.v
IoLit.v
IoTerm.v
UserProgs.v
Plic.v
Intr.v
Csr.v
Device.v
Uart.v
Console.v
Thread.v
ThreadLive.v
Lock.v
Timer.v
Heap.v
Memory.v
PageTable.v
MemInit.v
VmOps.v
UserMem.v
BootMem.v
VmClone.v
Kfs.v
KfsFiles.v
Virtio.v
Vioblk.v
VioblkFs.v
Mkfs.v
Elf.v
Process.v
Syscall.v
TrapAsm.v
Descriptors.v
FdInv.v
SyscallProps.v
TrapSyscall.v
FsWorld.v
SyscallFs.v
Shell.v
Preempt.v
KernDemo.v
Exec.v
Boot.v
BootProps.v
BootPorts.v
Start.v
UserCalls.v
