(* ===== verification/Prelude.v ===== *)
(** * The Illinix 391 kernel

    A model of the RISC-V kernel under src/src/kern (C sources and the assembly
    of traps and context switches), of the image builder src/src/util/mkfs.c and
    of the programs under src/src/user, with the theorems that make its parts
    correct.  This file is the root: it documents the development and holds
    what all of it shares (machine integers, outcomes, loops, byte strings,
    tactics and the hint database [kern]).

    ** How code becomes definitions

    A C function is a function of the same name from the state of its component
    to an [outcome]: [Ret] of the new state and the result, [Panic] for a
    failed assertion or a call of panic, [Fault] for an access the hardware or
    the language does not allow (outside an object, outside RAM, without
    permission, through a null pointer), [Blocked] for a lock that is held and
    [NoFuel] for a loop bound that was too small.  Error codes are results, as
    in the source.  Integers are [Z]; [u8] to [u64], [i32] and [i64] write out
    the conversions where the width matters.  Structures that the code links by
    pointers (threads, alarms, page tables, free pages, processes) live in
    stores indexed by address.  Hardware and what is not C code of the
    repository (the PLIC, the UART lines, the VirtIO device, the linker
    script, host files) are parameters: type classes of operations, with
    classes that state what their documentation promises, each with an
    instance.

    ** Parts and files

    - Strings and formatting, string.c: KString.
    - I/O objects, io.h and io.c: IoIntf (operation tables, the contracts of
      read and write as the classes [IoSource] and [IoSink], the complete
      transfers), IoLit (a block of memory as a file), IoTerm (terminals).
    - Interrupts, plic.c and intr.c: Plic, Intr.
    - The control registers, csr.h: Csr, over the class [Hart] with the laws of
      the privileged architecture; the components keep sstatus and sie as
      words, which Csr justifies.
    - Devices, device.c, uart.c, console.c: Device, Uart, Console.
    - Threads, thread.c, lock.h, timer.c: Thread (threads, conditions,
      scheduler, as a step relation with its reachable states), ThreadLive
      (executions of that relation), Lock, Timer.
    - Memory, ezheap.c and memory.c: Heap, Memory (the operations and the Sv39
      translation of the hardware), PageTable (the invariant of a space),
      MemInit (what memory_init establishes), VmOps (the operations against the
      translation), UserMem (user memory as bytes with permissions: the
      interface of loader and system calls, and its implementation by page
      tables), VmClone (memory_space_clone), BootMem (the allocations of the
      drivers while the kernel starts).
    - Files, kfs.c: Kfs (operations, image layout, block transfers), KfsFiles
      (mounting, opening, reading, writing over any disk that keeps the
      contract of [BlockDisk]).
    - Disk, virtio.c and vioblk.c: Virtio, Vioblk, and VioblkFs, which mounts
      the file system on the driver.
    - mkfs.c: Mkfs.
    - Programs, elf.c: Elf.
    - Assembly, trapasm.s and thrasm.s: TrapAsm, the instruction sequences of
      the source on the registers, the control registers and memory.
    - Processes, process.c: Process, whose record [kern] puts the components
      together and whose class [IoWorld] is the interface to the I/O objects.
    - System calls and exceptions, syscall.c and excp.c: Syscall (the calls
      and handlers), Descriptors and FdInv (the invariant on descriptors and
      reference counts, against the promise [IoWorldSpec]), SyscallProps,
      TrapSyscall (a call with the entry code around it),
      FsWorld (the files of kfs.c keep that promise), SyscallFs (files as a
      program sees them), KernDemo (a concrete kernel), Exec (running a
      program).
    - The main program, main.c and halt.c: Boot, whose record [world] has all
      I/O objects of the machine (files, serial ports, disks) and implements
      [IoWorld]; BootProps (what main does), BootPorts (serial ports).
    - The shell of an earlier stage, main_shell.c: Shell.
    - Preemption, intr.c with the timer, the scheduler and the assembly:
      Preempt.
    - Start-up, start.s: Start, up to the call of main.
    - User programs, src/src/user: UserProgs, each program as the tree of its
      system calls; UserCalls, the start-up code and the call stubs of a
      program (user/start.s, syscall.S) around the calls of the kernel.

    ** What the theorems show

    - The whole kernel: from main to the jump to the entry point of init7
      ([main_runs_init]), and why it stops when it cannot ([main_panics]).
    - Assembly: a trap saves and restores the program ([umode_trap_frame]), a
      system call runs from the ecall to the instruction behind it
      ([ecall_resumes]),
      the machine-mode handler passes the timer on ([mmode_trap_timer]), a
      switch gives a thread its registers back ([swtch_roundtrip]), a forked
      child starts in the state of its parent ([fork_child_starts]); start.s
      routes the traps of the levels to the entry points
      ([start_routes_traps]).  The words for sstatus and sie have the bits of the
      registers ([status_refines], a lemma on the model).
    - Assembly and C together: a program calls the kernel like a function
      ([stub_returns]), starts where exec says ([exec_enters_user]), and is
      interrupted by the timer without noticing ([timer_preempts]).
    - Formatting: [vsnprintf_correct], [format_int_correct],
      [vgprintf_terminates]; a user program built on it, [fib_prints].
    - Objects: transfers over any object that keeps the contract are complete
      ([ioread_full_complete], [iowrite_complete]); literals stay well formed
      ([iolit_safe]) as long as [IOCTL_SETLEN] is given a length that fits;
      terminals convert newlines independently of how text is cut into buffers
      for direct writes, and through iowrite when no CR LF is split
      ([ioterm_writes_crlf]); [ioterm_getsn_line].
    - Devices: the ring buffer refines a bounded queue
      ([ringbuf_refines_queue]); under every interleaving with the interrupt
      routine the UART loses and reorders nothing it accepted
      ([uart_read_fifo], [uart_write_fifo]) and does not oversleep; dispatch and the device table
      ([intr_dispatch], [device_register_open]); a serial port has one user
      ([serial_port_exclusive]).
    - Threads: in every reachable state the scheduler's lists and states agree
      and no enabled step fails ([scheduler_safe]); every ready thread runs
      after those before it in the list ([ready_thread_runs]); order and wake-ups
      ([scheduler_order], [thread_join_child], [thread_exit_wakes_parent]);
      mutual exclusion of locks ([lock_mutual_exclusion]); alarms
      ([alarm_sleep_sorted], [timer_wakes_due]).
    - Memory: heap blocks of at most a page are disjoint ([kmalloc_blocks]); pages are never
      handed out twice ([page_allocator_partition]); the identity map of
      memory_init ([memory_init_identity]); mapping ([map_range_correct]);
      copies for fork ([space_clone_copies]).
    - Files and disk: [fs_mount_open], [fs_read_file], [fs_write_read],
      [vioblk_read_correct] (the device and the interrupt line act between any
      two steps of a request), [vioblk_attach_open], [fs_on_vioblk]; images of
      mkfs mount, open and read back on any disk ([mkfs_round_trip]).
    - Programs: [elf_load_correct].
    - System calls: [fd_refcounts] over all runs in which no process exits or
      calls exec with an object it shares, [sysclose_last],
      [sysfsopen_descriptor], [syscall_errors], [fork_child], and, across
      handlers, descriptors, page tables and file system, [user_reads_file]
      and [exec_runs_program].

    Examples beside the theorems record where the code departs from its
    intent (among them [ioterm_iowrite_duplicates], [suspend_self_frees_nothing],
    [vioblk_write_partial], [mkfs_block_multiple], [elf_range_wraps],
    [exit_closes_shared]).

    ** What is assumed of the surroundings

    - The disk.  kfs.c passes the address of a [uint32_t] where the block
      driver reads a [uint64_t]; the four bytes above it are the argument [hi]
      of the file system, any value.  On the block driver ([fs_on_vioblk],
      [main_runs_init], [main_panics]) the results are stated for all of
      them: the file system works when [hi] is a multiple of 512, and fails
      with an I/O error otherwise.
    - The block device.  The driver uses indirect descriptors and never accepts
      that feature; VirtIO then promises nothing.  The class [VirtioBlk] has the
      promise of the specification and a proposition [lenient], that the device
      carries such requests out all the same; the theorems on requests need
      it, by way of [vio_ok] for an opened device.
    - Interrupts.  What the device and the interrupt line do around the requests
      is an argument ([script] of the block driver: events once the request is
      in the queue, after interrupts are disabled, after the notification and
      in the sleep; [sched] of the UART).  A thread that waits for an event that
      never comes gives [Blocked], and the theorems say exactly when.
    - The processor.  [HartLaws] and the classes on top of it state bits of the
      privileged architecture; a bit of mie or mip shows in sie or sip only when
      mideleg has it.

    ** Bounds

    Loops over data take fuel that the caller computes from the data: a turn
    per byte of a transfer ([iowrite], [ioread_full]), per block of a file
    ([turns] in Kfs) or per list element; the theorems show a result, so the
    fuel is enough.  Loops over address ranges and over user strings use
    [until] with a binary bound ([STR_MAX] is 2^32, more than the user range).
    The walk over page tables has depth [WALK_DEPTH], 3, that of Sv39.  The
    validation functions of memory.c, which do not terminate on every input,
    take their fuel as an argument.  [NTHR], [NPROC], [PROCESS_IOMAX],
    [MAX_OPEN_FILES] and the buffer sizes are those of the build.

    ** Not modelled

    The main function of main_shell.c, which calls timer_start, a function
    that does not exist (no build has the file), and the test files, which
    print what the operations return.  Debug and trace output, which the build
    leaves out.  TLB flushes: [translate] reads the tables directly.  System
    calls run to their end or to a wait; an interrupt within them is the step
    [KSwitch] between calls, and the C functions that the assembly calls are arguments
    of its model; Preempt puts an interrupt of a program together from the
    models of both, with the compiled code between them as an argument that
    keeps the calling convention.  The theorems on system calls hold for every
    [IoWorld] that keeps the promise; the instance they are shown for is the
    file system, and the world of main.c adds the devices.  A user program is
    modelled by its calls; its memory is not the one of the kernel model.  The processor of the
    assembly executes sequences of instructions, not code in memory: it fetches
    and decodes nothing. *)

From Stdlib Require Export ZArith Lia.
From stdpp Require Export base list numbers.

#[global] Open Scope Z_scope.

(** * Machine integers *)

(** Unsigned wrap-around at the widths the kernel uses. *)
Definition u8 (x : Z) : Z := x mod 2 ^ 8.
Definition u16 (x : Z) : Z := x mod 2 ^ 16.
Definition u32 (x : Z) : Z := x mod 2 ^ 32.
Definition u64 (x : Z) : Z := x mod 2 ^ 64.

(** Two's complement reinterpretation of the low bits of a word. *)
Definition i32 (x : Z) : Z := if u32 x <? 2 ^ 31 then u32 x else u32 x - 2 ^ 32.
Definition i64 (x : Z) : Z := if u64 x <? 2 ^ 63 then u64 x else u64 x - 2 ^ 64.

(** * Outcomes

    [Panic] is a call of [panic] or a failed [assert] (the machine halts),
    [Fault] an access outside the object a pointer designates (or through a
    null pointer), [Blocked] a thread that waits for an event no one
    delivers, [NoFuel] an exhausted loop bound. *)
Inductive outcome (A : Type) : Type :=
| Ret (a : A)
| Panic
| Fault
| Blocked
| NoFuel.
Arguments Ret {A} a.
Arguments Panic {A}.
Arguments Fault {A}.
Arguments Blocked {A}.
Arguments NoFuel {A}.

Definition obind {A B : Type} (m : outcome A) (k : A -> outcome B) : outcome B :=
  match m with
  | Ret a => k a
  | Panic => Panic
  | Fault => Fault
  | Blocked => Blocked
  | NoFuel => NoFuel
  end.

Declare Scope kern_scope.
Delimit Scope kern_scope with kern.
#[global] Open Scope kern_scope.

Notation "'let!' x ':=' m 'in' k" := (obind m (fun x => k))
  (at level 200, x pattern, m at level 100, k at level 200,
   format "'[v' 'let!'  x  ':='  m  'in' '/' k ']'") : kern_scope.

(** [assert (c)] of halt.h. *)
Notation "'assert!' c 'in' k" := (if c then k else Panic)
  (at level 200, c at level 99, k at level 200,
   format "'[v' 'assert!'  c  'in' '/' k ']'") : kern_scope.

(** A failed check on a pointer or index. *)
Notation "'guard!' c 'in' k" := (if c then k else Fault)
  (at level 200, c at level 99, k at level 200,
   format "'[v' 'guard!'  c  'in' '/' k ']'") : kern_scope.

Definition is_ret {A} (m : outcome A) : bool :=
  match m with Ret _ => true | _ => false end.

(** * Error numbers (error.h) *)
Definition EINVAL : Z := 1.
Definition EBUSY : Z := 2.
Definition ENOTSUP : Z := 3.
Definition ENODEV : Z := 4.
Definition EIO : Z := 5.
Definition EBADFMT : Z := 6.
Definition ENOENT : Z := 7.
Definition EACCESS : Z := 8.
Definition EBADFD : Z := 9.
Definition EMFILE : Z := 10.

(** * Page size (memory.h) *)
Definition PAGE_ORDER : Z := 12.
Definition PAGE_SIZE : Z := 4096.

(** * Buffers

    A buffer is the list of the bytes of the object a pointer designates;
    reads and writes outside it are a [Fault]. *)
Section Buffers.
Context {A : Type}.
Implicit Types (l d : list A).

Definition load (l : list A) (i : Z) : outcome A :=
  if i <? 0 then Fault
  else match l !! Z.to_nat i with Some x => Ret x | None => Fault end.

Definition store (l : list A) (i : Z) (x : A) : outcome (list A) :=
  if (i <? 0) || (Z.of_nat (length l) <=? i) then Fault
  else Ret (<[Z.to_nat i := x]> l).

(** [splice l off d]: the bytes [d] written over [l] from offset [off]. *)
Definition splice (l : list A) (off : nat) (d : list A) : list A :=
  take off l ++ d ++ drop (off + length d) l.

(** Bounds-checked block accesses, [memcpy] into and out of a buffer. *)
Definition put_block (l : list A) (off : Z) (d : list A) : outcome (list A) :=
  if (off <? 0) || (Z.of_nat (length l) <? off + Z.of_nat (length d)) then Fault
  else Ret (splice l (Z.to_nat off) d).

Definition get_block (l : list A) (off n : Z) : outcome (list A) :=
  if (off <? 0) || (n <? 0) || (Z.of_nat (length l) <? off + n) then Fault
  else Ret (take (Z.to_nat n) (drop (Z.to_nat off) l)).
End Buffers.

(** * Loops with many turns

    [until p f a] runs [f] until it gives a result, at most [p] times; the
    bound is a binary number, so that a large one costs nothing. *)
Section Until.
Context {A B : Type} (f : A -> A + B).

Fixpoint until (p : positive) (a : A) : A + B :=
  match p with
  | xH => f a
  | xO p => match until p a with inl a => until p a | inr b => inr b end
  | xI p => match f a with
            | inl a => match until p a with inl a => until p a | inr b => inr b end
            | inr b => inr b
            end
  end.

(** The same by turns. *)
Fixpoint turns_of (n : nat) (a : A) : A + B :=
  match n with
  | O => inl a
  | S n => match f a with inl a => turns_of n a | inr b => inr b end
  end.

Lemma turns_of_add n k a : turns_of (n + k) a = match turns_of n a with inl a => turns_of k a | inr b => inr b end.
Proof. revert a; induction n as [|n IH]; intros a; cbn; [done|]. destruct (f a); [apply IH|done]. Qed.

Lemma until_turns p a : until p a = turns_of (Pos.to_nat p) a.
Proof.
  revert a; induction p as [p IH|p IH|]; intros a; cbn [until].
  - replace (Pos.to_nat p~1) with (1 + (Pos.to_nat p + Pos.to_nat p))%nat by lia. rewrite turns_of_add. cbn [turns_of].
    destruct (f a) as [a1|b1]; [|reflexivity]. rewrite turns_of_add, <- IH. destruct (until p a1); [apply IH|reflexivity].
  - replace (Pos.to_nat p~0) with (Pos.to_nat p + Pos.to_nat p)%nat by lia. rewrite turns_of_add, <- IH. destruct (until p a); [apply IH|reflexivity].
  - change (Pos.to_nat 1) with 1%nat. cbn. by destruct (f a).
Qed.

Lemma until_done p n a b : (n <= Pos.to_nat p)%nat -> turns_of n a = inr b -> until p a = inr b.
Proof. intros Hn E. rewrite until_turns. replace (Pos.to_nat p) with (n + (Pos.to_nat p - n))%nat by lia. by rewrite turns_of_add, E. Qed.
End Until.

(** * Little-endian words *)

Fixpoint le_encode (n : nat) (z : Z) : list Z :=
  match n with
  | O => []
  | S n' => z mod 256 :: le_encode n' (z / 256)
  end.

Fixpoint le_decode (l : list Z) : Z :=
  match l with
  | [] => 0
  | b :: r => b + 256 * le_decode r
  end.

Definition is_byte (b : Z) : bool := (0 <=? b) && (b <? 256).
Definition bytes_ok (l : list Z) : Prop := Forall (fun b => 0 <= b < 256) l.

#[global] Arguments splice : simpl never.
#[global] Arguments load : simpl never.
#[global] Arguments store : simpl never.
#[global] Arguments put_block : simpl never.
#[global] Arguments get_block : simpl never.
#[global] Arguments u8 : simpl never.
#[global] Arguments u16 : simpl never.
#[global] Arguments u32 : simpl never.
#[global] Arguments u64 : simpl never.

(** * Tactics *)

(** Turns the boolean comparisons of the context into propositions; [lia] runs
    it first, so that it knows the sign of naturals under a comparison. *)
Ltac bool_to_prop :=
  repeat match goal with
  | H : (_ && _) = true |- _ => apply andb_true_iff in H as [? ?]
  | H : (_ || _) = false |- _ => apply orb_false_iff in H as [? ?]
  | H : negb _ = true |- _ => apply negb_true_iff in H
  | H : negb _ = false |- _ => apply negb_false_iff in H
  | H : (_ <? _) = true |- _ => apply Z.ltb_lt in H
  | H : (_ <? _) = false |- _ => apply Z.ltb_ge in H
  | H : (_ <=? _) = true |- _ => apply Z.leb_le in H
  | H : (_ <=? _) = false |- _ => apply Z.leb_gt in H
  | H : (_ =? _) = true |- _ => apply Z.eqb_eq in H
  | H : (_ =? _) = false |- _ => apply Z.eqb_neq in H
  | H : (_ <? _)%nat = true |- _ => apply Nat.ltb_lt in H
  | H : (_ <? _)%nat = false |- _ => apply Nat.ltb_ge in H
  | H : (_ <=? _)%nat = true |- _ => apply Nat.leb_le in H
  | H : (_ <=? _)%nat = false |- _ => apply Nat.leb_gt in H
  | H : (_ =? _)%nat = true |- _ => apply Nat.eqb_eq in H
  | H : (_ =? _)%nat = false |- _ => apply Nat.eqb_neq in H
  end.
Ltac Zify.zify_pre_hook ::= bool_to_prop.

(** Case analysis on the conditionals and matches of goal or hypotheses. *)
Ltac kcase :=
  match goal with
  | |- context [if ?b then _ else _] => let E := fresh "E" in destruct b eqn:E
  | |- context [match ?x with _ => _ end] => let E := fresh "E" in destruct x eqn:E
  end.
Ltac kcase_in H :=
  match type of H with
  | context [if ?b then _ else _] => let E := fresh "E" in destruct b eqn:E
  | context [match ?x with _ => _ end] => let E := fresh "E" in destruct x eqn:E
  end.

(** Splits an equation [obind m k = Ret b] into its parts. *)
Ltac obind_inv H :=
  match type of H with
  | obind ?m _ = Ret _ =>
      let x := fresh "r" in let E := fresh "Hm" in
      destruct m as [x| | | |] eqn:E; cbn [obind] in H; try discriminate H
  end.

Ltac ret_inv H := injection H as H; subst.

(** * Generic lemmas *)

Create HintDb kern.

Lemma obind_Ret_inv {A B} (m : outcome A) (k : A -> outcome B) b :
  obind m k = Ret b -> exists a, m = Ret a /\ k a = Ret b.
Proof. destruct m; cbn; try discriminate; eauto. Qed.

(** Follows a computation that returned, down every branch. *)
Ltac peel H :=
  repeat (cbv beta iota zeta in H;
    match type of H with
    | obind _ _ = Ret _ =>
        let x := fresh "r" in let E := fresh "Hm" in apply obind_Ret_inv in H as (x & E & H)
    | (if ?b then _ else _) = _ => destruct b eqn:?; try discriminate H
    | match ?x with _ => _ end = _ => first [is_var x; destruct x | destruct x eqn:?]; try discriminate H
    end).

Lemma obind_assoc {A B C} (m : outcome A) (f : A -> outcome B) (g : B -> outcome C) :
  obind (obind m f) g = obind m (fun a => obind (f a) g).
Proof. by destruct m. Qed.

Lemma obind_ext {A B} (m : outcome A) (f g : A -> outcome B) :
  (forall a, f a = g a) -> obind m f = obind m g.
Proof. intros H. destruct m; cbn; auto. Qed.

Lemma obind_ret_r {A} (m : outcome A) : obind m Ret = m.
Proof. by destruct m. Qed.

(** Machine integers. *)
Lemma u8_range x : 0 <= u8 x < 256.
Proof. unfold u8. apply Z.mod_pos_bound. lia. Qed.
Lemma u16_range x : 0 <= u16 x < 2 ^ 16.
Proof. unfold u16. apply Z.mod_pos_bound. lia. Qed.
Lemma u32_range x : 0 <= u32 x < 2 ^ 32.
Proof. unfold u32. apply Z.mod_pos_bound. lia. Qed.
Lemma u64_range x : 0 <= u64 x < 2 ^ 64.
Proof. unfold u64. apply Z.mod_pos_bound. lia. Qed.
#[export] Hint Resolve u8_range u16_range u32_range u64_range : kern.

Lemma u8_small x : 0 <= x < 256 -> u8 x = x.
Proof. intros. unfold u8. apply Z.mod_small. lia. Qed.
Lemma u16_small x : 0 <= x < 2 ^ 16 -> u16 x = x.
Proof. intros. unfold u16. apply Z.mod_small. lia. Qed.
Lemma u32_small x : 0 <= x < 2 ^ 32 -> u32 x = x.
Proof. intros. unfold u32. apply Z.mod_small. lia. Qed.
Lemma u64_small x : 0 <= x < 2 ^ 64 -> u64 x = x.
Proof. intros. unfold u64. apply Z.mod_small. lia. Qed.

Lemma u64_add_l x y : u64 (u64 x + y) = u64 (x + y).
Proof. unfold u64. by rewrite Zplus_mod_idemp_l. Qed.
Lemma u64_add_r x y : u64 (x + u64 y) = u64 (x + y).
Proof. unfold u64. by rewrite Zplus_mod_idemp_r. Qed.
Lemma u64_u64 x : u64 (u64 x) = u64 x.
Proof. unfold u64. apply Zmod_mod. Qed.

Lemma i32_small x : - 2 ^ 31 <= x < 2 ^ 31 -> i32 x = x.
Proof.
  intros H. unfold i32, u32.
  destruct (decide (0 <= x)).
  - rewrite (Z.mod_small x) by lia. kcase; lia.
  - assert (Hm : x mod 2 ^ 32 = x + 2 ^ 32)
      by (symmetry; apply (Z.mod_unique _ _ (-1)); lia).
    rewrite Hm. kcase; lia.
Qed.

(** Buffers. *)
Section BufferLemmas.
Context {A : Type}.
Implicit Types (l d : list A).

Lemma load_Ret l i x : load l i = Ret x <-> 0 <= i /\ l !! Z.to_nat i = Some x.
Proof.
  unfold load. destruct (i <? 0) eqn:E; [split; [done|lia]|].
  destruct (l !! Z.to_nat i); (split; [intros [=]|intros [_ [=]]]); subst; split_and?; done || lia.
Qed.

Lemma load_lt l i : 0 <= i < Z.of_nat (length l) -> exists x, load l i = Ret x.
Proof.
  intros H. destruct (lookup_lt_is_Some_2 l (Z.to_nat i)) as [x Hx]; [lia|].
  exists x. apply load_Ret. split; [lia|done].
Qed.

Lemma store_lt l i x :
  0 <= i < Z.of_nat (length l) -> store l i x = Ret (<[Z.to_nat i := x]> l).
Proof. intros. unfold store. kcase; [lia|done]. Qed.

Lemma store_Ret l i x l' : store l i x = Ret l' -> 0 <= i < Z.of_nat (length l) /\ l' = <[Z.to_nat i := x]> l.
Proof. unfold store. kcase; [done|]. intros [= <-]. split; [lia|done]. Qed.

Lemma length_splice l off d :
  (off + length d <= length l)%nat -> length (splice l off d) = length l.
Proof.
  intros. unfold splice. rewrite !length_app, length_take, length_drop. lia.
Qed.

Lemma lookup_splice_in l off d i :
  (off + length d <= length l)%nat -> (off <= i < off + length d)%nat ->
  splice l off d !! i = d !! (i - off)%nat.
Proof.
  intros. unfold splice.
  rewrite lookup_app_r; rewrite length_take; [|lia].
  rewrite lookup_app_l by lia. f_equal; lia.
Qed.

Lemma lookup_splice_out l off d i :
  (off + length d <= length l)%nat -> (i < off \/ off + length d <= i)%nat ->
  splice l off d !! i = l !! i.
Proof.
  intros ? [?|?]; unfold splice.
  - rewrite lookup_app_l by (rewrite length_take; lia). rewrite lookup_take_lt by lia. done.
  - rewrite lookup_app_r by (rewrite length_take; lia).
    rewrite lookup_app_r by (rewrite length_take; lia).
    rewrite lookup_drop, length_take. f_equal; lia.
Qed.

Lemma take_splice l off d n :
  (off <= length l)%nat -> (n <= off)%nat -> take n (splice l off d) = take n l.
Proof.
  intros. unfold splice. rewrite take_app_le by (rewrite length_take; lia).
  rewrite take_take. f_equal; lia.
Qed.

Lemma drop_splice l off d n :
  (off + length d <= length l)%nat -> (off + length d <= n)%nat ->
  drop n (splice l off d) = drop n l.
Proof.
  intros. unfold splice.
  rewrite drop_app_ge by (rewrite length_take; lia).
  rewrite drop_app_ge by (rewrite length_take; lia).
  rewrite drop_drop, length_take. f_equal; lia.
Qed.

Lemma splice_mid l off d :
  (off + length d <= length l)%nat ->
  take (length d) (drop off (splice l off d)) = d.
Proof.
  intros. unfold splice. rewrite drop_app_length' by (rewrite length_take; lia).
  by rewrite take_app_length.
Qed.

Lemma take_splice_0 l d :
  (length d <= length l)%nat -> take (length d) (splice l 0 d) = d.
Proof. intros. rewrite <- (splice_mid l 0 d) at 3 by lia. by rewrite drop_0. Qed.

Lemma splice_nil l off : splice l off [] = l.
Proof. unfold splice. cbn. rewrite Nat.add_0_r. apply take_drop. Qed.

Lemma insert_splice l n x : (n < length l)%nat -> <[n := x]> l = splice l n [x].
Proof.
  intros. unfold splice. rewrite insert_take_drop by done. cbn. do 3 f_equal. lia.
Qed.

(** Two adjacent writes are one. *)
Lemma splice_splice l off d1 d2 :
  (off + length d1 + length d2 <= length l)%nat ->
  splice (splice l off d1) (off + length d1) d2 = splice l off (d1 ++ d2).
Proof.
  intros. unfold splice at 1.
  rewrite drop_splice by lia. unfold splice. rewrite length_app.
  rewrite (take_app_add' (take off l)) by (rewrite length_take; lia).
  rewrite take_app_length, <- !app_assoc, Nat.add_assoc. done.
Qed.

Lemma put_block_Ret l off d :
  0 <= off -> off + Z.of_nat (length d) <= Z.of_nat (length l) ->
  put_block l off d = Ret (splice l (Z.to_nat off) d).
Proof. intros. unfold put_block. kcase; [lia|done]. Qed.

Lemma get_block_Ret l off n :
  0 <= off -> 0 <= n -> off + n <= Z.of_nat (length l) ->
  get_block l off n = Ret (take (Z.to_nat n) (drop (Z.to_nat off) l)).
Proof. intros. unfold get_block. kcase; [lia|done]. Qed.

Lemma take_add l n m : take (n + m) l = take n l ++ take m (drop n l).
Proof. by rewrite take_take_drop. Qed.
End BufferLemmas.

(** Little-endian words. *)
Lemma length_le_encode n z : length (le_encode n z) = n.
Proof. revert z; induction n; cbn; auto. Qed.

Lemma le_decode_encode n z : le_decode (le_encode n z) = z mod 256 ^ Z.of_nat n.
Proof.
  revert z; induction n as [|n IH]; intros z; cbn [le_encode le_decode].
  - by rewrite Z.mod_1_r.
  - rewrite IH, Nat2Z.inj_succ, Z.pow_succ_r by lia.
    rewrite Z.rem_mul_r; lia.
Qed.

Lemma le_encode_decode l : bytes_ok l -> le_encode (length l) (le_decode l) = l.
Proof.
  induction 1 as [|b r Hb _ IH]; cbn [length le_encode le_decode]; [done|].
  replace (b + 256 * le_decode r) with (b + le_decode r * 256) by lia.
  rewrite Z_mod_plus_full, Z.mod_small, Z.div_add, (Z.div_small b) by lia.
  by rewrite Z.add_0_l, IH.
Qed.

Lemma le_decode_range l : bytes_ok l -> 0 <= le_decode l < 256 ^ Z.of_nat (length l).
Proof.
  induction 1 as [|b r Hb _ IH]; cbn [length le_decode]; [lia|].
  rewrite Nat2Z.inj_succ, Z.pow_succ_r by lia. lia.
Qed.

Lemma bytes_ok_le_encode n z : bytes_ok (le_encode n z).
Proof.
  revert z; induction n; intros z; cbn; constructor; [|apply IHn].
  apply Z.mod_pos_bound. lia.
Qed.
#[export] Hint Resolve bytes_ok_le_encode : kern.

Lemma bytes_ok_cons b l : bytes_ok (b :: l) <-> 0 <= b < 256 /\ bytes_ok l.
Proof. apply Forall_cons_iff. Qed.
Lemma bytes_ok_app l1 l2 : bytes_ok (l1 ++ l2) <-> bytes_ok l1 /\ bytes_ok l2.
Proof. apply Forall_app. Qed.
Lemma bytes_ok_take n l : bytes_ok l -> bytes_ok (take n l).
Proof. apply Forall_take. Qed.
Lemma bytes_ok_drop n l : bytes_ok l -> bytes_ok (drop n l).
Proof. apply Forall_drop. Qed.
#[export] Hint Resolve bytes_ok_take bytes_ok_drop : kern.

Lemma bytes_ok_splice l off d : bytes_ok l -> bytes_ok d -> bytes_ok (splice l off d).
Proof. intros. unfold splice. rewrite !bytes_ok_app. auto with kern. Qed.
#[export] Hint Resolve bytes_ok_splice : kern.

Lemma bytes_ok_forallb l : forallb is_byte l = true -> bytes_ok l.
Proof.
  induction l as [|b l IH]; cbn; [constructor|]. intros [Hb Hl]%andb_true_iff. unfold is_byte in Hb.
  constructor; [lia|]. by apply IH.
Qed.
