(* ===== verification/KString.v ===== *)
(** String functions of the kernel (src/src/kern/string.c).

    A [char *] is the list of the bytes from the pointer to the end of the
    object it points into, so reading past the object is a [Fault]; [char] is
    unsigned, as it is on RISC-V.  The formatted-output engine [vgprintf] is
    parametric in its character sink, as in the source; [vsnprintf],
    [console_vprintf] and [iovprintf] instantiate it. *)

From Stdlib Require Import Ascii String.
From S2P Require Import Prelude.

(** String and character literals. *)
Definition chars (s : string) : list Z :=
  map (fun c => Z.of_N (N_of_ascii c)) (list_ascii_of_string s).
Definition cstr (s : string) : list Z := chars s ++ [0].

(** * Plain string functions *)

Fixpoint strcmp_loop (s1 s2 : list Z) : outcome Z :=
  match s1, s2 with
  | c1 :: r1, c2 :: r2 =>
      if (c1 =? c2) && negb (c1 =? 0) then strcmp_loop r1 r2
      else Ret (if c1 <? c2 then -1 else if c2 <? c1 then 1 else 0)
  | _, _ => Fault
  end.

Definition strcmp (s1 s2 : option (list Z)) : outcome Z :=
  match s1, s2 with
  | None, None => Ret 0
  | None, Some _ => Ret (-1)
  | Some _, None => Ret 1
  | Some s1, Some s2 => strcmp_loop s1 s2
  end.

Fixpoint strlen (s : list Z) : outcome Z :=
  match s with
  | [] => Fault
  | c :: r => if c =? 0 then Ret 0 else let! n := strlen r in Ret (n + 1)
  end.

Fixpoint strncmp (s1 s2 : list Z) (n : nat) {struct n} : outcome Z :=
  match n with
  | O => Ret 0
  | S n' =>
      match s1, s2 with
      | c1 :: r1, c2 :: r2 =>
          if negb (c1 =? 0) && (c1 =? c2) then strncmp r1 r2 n'
          else Ret (u8 c1 - u8 c2)
      | _, _ => Fault
      end
  end.

(** [dst] is returned as the whole object after the writes. *)
Fixpoint strncpy (dst src : list Z) (n : nat) {struct n} : outcome (list Z) :=
  match n with
  | O => Ret dst
  | S n' =>
      match src, dst with
      | [], _ => Fault
      | c :: src', _ :: dst' =>
          if c =? 0 then Ret (0 :: dst')
          else let! r := strncpy dst' src' n' in Ret (c :: r)
      | _ :: _, [] => Fault
      end
  end.

(** The second loop of [strncat], from the end of the destination string. *)
Fixpoint strncat_copy (dst src : list Z) (n : nat) : outcome (list Z) :=
  match dst with
  | [] => Fault
  | d :: dst' =>
      match n with
      | O => Ret (0 :: dst')
      | S n' =>
          match src with
          | [] => Fault
          | c :: src' =>
              if c =? 0 then Ret (0 :: dst')
              else let! r := strncat_copy dst' src' n' in Ret (c :: r)
          end
      end
  end.

Fixpoint strncat (dst src : list Z) (n : nat) : outcome (list Z) :=
  match dst with
  | [] => Fault
  | d :: dst' =>
      if d =? 0 then strncat_copy dst src n
      else let! r := strncat dst' src n in Ret (d :: r)
  end.

Fixpoint memset (s : list Z) (c : Z) (n : nat) {struct n} : outcome (list Z) :=
  match n with
  | O => Ret s
  | S n' =>
      match s with
      | [] => Fault
      | _ :: s' => let! r := memset s' c n' in Ret (u8 c :: r)
      end
  end.

Fixpoint memcpy (dst src : list Z) (n : nat) {struct n} : outcome (list Z) :=
  match n with
  | O => Ret dst
  | S n' =>
      match dst, src with
      | _ :: dst', c :: src' => let! r := memcpy dst' src' n' in Ret (c :: r)
      | _, _ => Fault
      end
  end.

Fixpoint memcmp (p1 p2 : list Z) (n : nat) {struct n} : outcome Z :=
  match n with
  | O => Ret 0
  | S n' =>
      match p1, p2 with
      | c1 :: r1, c2 :: r2 =>
          if negb (c1 =? c2) then Ret (c1 - c2) else memcmp r1 r2 n'
      | _, _ => Fault
      end
  end.

(** * Formatted output *)

(** One variadic argument: a 64-bit argument slot or a string pointer. *)
Inductive varg :=
| VWord (w : Z)
| VStr (s : option (list Z)).

(** [va_arg] at the types [vgprintf] asks for, as stored in [ival]. *)
Definition va_int (signed : bool) (lcnt : Z) (ap : list varg) : outcome (Z * list varg) :=
  match ap with
  | VWord w :: ap' =>
      Ret (if 0 <? lcnt then i64 w else if signed then i32 w else u32 w, ap')
  | _ => Fault
  end.

Definition va_str (ap : list varg) : outcome (option (list Z) * list varg) :=
  match ap with
  | VStr s :: ap' => Ret (s, ap')
  | _ => Fault
  end.

(** The width digits, the [l] prefixes and the [z]/[j] prefix after a [%]
    (size_t, intmax_t, long and long long are all 8 bytes on this target). *)
Fixpoint parse_width (p : list Z) (len : Z) : outcome (Z * list Z) :=
  match p with
  | [] => Fault
  | c :: p' =>
      if (48 <=? c) && (c <=? 57) then parse_width p' (u32 (10 * len + (c - 48)))
      else Ret (len, p)
  end.

Fixpoint parse_l (p : list Z) (lcnt : Z) : outcome (Z * list Z) :=
  match p with
  | [] => Fault
  | c :: p' => if c =? 108 then parse_l p' (u32 (lcnt + 1)) else Ret (lcnt, p)
  end.

Definition parse_zj (p : list Z) (lcnt : Z) : outcome (Z * list Z) :=
  match p with
  | [] => Fault
  | c :: p' => if (c =? 122) || (c =? 106) then Ret (2, p') else Ret (lcnt, p)
  end.

(** The digits of [val], written from the end of the 40-byte buffer: [p] is
    what has been written, [room] the bytes left below it. *)
Fixpoint format_digits (room : nat) (val base : Z) (p : list Z) : outcome (list Z) :=
  match room with
  | O => Fault
  | S room' =>
      let d := val mod base in
      let val' := val / base in
      let p' := (if d <? 10 then 48 + d else 97 + d - 10) :: p in
      if val' =? 0 then Ret p' else format_digits room' val' base p'
  end.

Section Printf.
Context {St : Type}.
Variable putcfn : Z -> St -> outcome St.

(** [while (size < len) { putcfn(c); nout += 1; len -= 1; }] *)
Fixpoint put_pad (len : nat) (c : Z) (sz : nat) (aux : St) (nout : Z) : outcome (Z * St) :=
  match len with
  | O => Ret (nout, aux)
  | S len' =>
      if (sz <? len)%nat
      then let! aux := putcfn c aux in put_pad len' c sz aux (u64 (nout + 1))
      else Ret (nout, aux)
  end.

(** The characters of [s], each counted. *)
Fixpoint put_all (s : list Z) (aux : St) (nout : Z) : outcome (Z * St) :=
  match s with
  | [] => Ret (nout, aux)
  | c :: s' => let! aux := putcfn c aux in put_all s' aux (u64 (nout + 1))
  end.

Definition format_int (aux : St) (val base : Z) (zpad : bool) (len : Z) : outcome (Z * St) :=
  let! p := format_digits 40 val base [] in
  let! (nout, aux) := put_pad (Z.to_nat len) (if zpad then 48 else 32) (length p) aux 0 in
  put_all p aux nout.

(** [while ( *s != 0) { putcfn( *s); ... }] *)
Fixpoint put_str (s : list Z) (aux : St) (nout : Z) : outcome (Z * St) :=
  match s with
  | [] => Fault
  | c :: s' =>
      if c =? 0 then Ret (nout, aux)
      else let! aux := putcfn c aux in put_str s' aux (u64 (nout + 1))
  end.

Definition format_str (aux : St) (s : option (list Z)) (len : Z) : outcome (Z * St) :=
  let s := match s with None => cstr "(null)" | Some s => s end in
  let! (nout, aux) := put_str s aux 0 in
  if nout <? len then
    let len := u32 (len - nout) in
    let! (_, aux) := put_pad (Z.to_nat len) 32 0 aux 0 in
    Ret (u64 (nout + len), aux)
  else Ret (nout, aux).

(** One conversion: [p] points just after the [%]; the result is where [p]
    points after the final [p += 1] of the loop body. *)
Definition vgprintf_conv (p : list Z) (ap : list varg) (aux : St) (nout : Z)
  : outcome (list Z * list varg * St * Z) :=
  let zpad := match p with c :: _ => c =? 48 | [] => false end in
  let! (len, p) := parse_width p 0 in
  let! (lcnt, p) := parse_l p 0 in
  let! (lcnt, p) := parse_zj p lcnt in
  match p with
  | [] => Fault
  | c :: p' =>
      if c =? 100 (* d *) then
        let! (ival, ap) := va_int true lcnt ap in
        if ival <? 0 then
          let! aux := putcfn 45 aux in
          let len := if 0 <? len then len - 1 else len in
          let! (k, aux) := format_int aux (u64 (i64 (- ival))) 10 zpad len in
          Ret (p', ap, aux, u64 (u64 (nout + 1) + k))
        else
          let! (k, aux) := format_int aux (u64 ival) 10 zpad len in
          Ret (p', ap, aux, u64 (nout + k))
      else if (c =? 117) || (c =? 120) (* u, x *) then
        let! (ival, ap) := va_int false lcnt ap in
        let! (k, aux) := format_int aux (u64 ival) (if c =? 120 then 16 else 10) zpad len in
        Ret (p', ap, aux, u64 (nout + k))
      else if c =? 115 (* s *) then
        let! (s, ap) := va_str ap in
        let! (k, aux) := format_str aux s len in
        Ret (p', ap, aux, u64 (nout + k))
      else if c =? 112 (* p *) then
        let! (ival, ap) := va_int false 1 ap in
        let! (k0, aux) := format_str aux (Some (cstr "0x")) 2 in
        let! (k, aux) := format_int aux (u64 ival) 16 zpad len in
        Ret (p', ap, aux, u64 (u64 (nout + k0) + k))
      else
        let! aux := putcfn 37 aux in
        let! aux := putcfn (if (c <? 32) || (127 <=? c) then 63 else c) aux in
        Ret (if c =? 0 then p else p', ap, aux, u64 (u64 (nout + 1) + 1))
  end.

Fixpoint vgprintf_loop (fuel : nat) (p : list Z) (ap : list varg) (aux : St) (nout : Z)
  : outcome (Z * St) :=
  match fuel with
  | O => NoFuel
  | S fuel' =>
      match p with
      | [] => Fault
      | c :: p' =>
          if c =? 0 then Ret (nout, aux)
          else if c =? 37 then
            let! (p, ap, aux, nout) := vgprintf_conv p' ap aux nout in
            vgprintf_loop fuel' p ap aux nout
          else
            let! aux := putcfn c aux in
            vgprintf_loop fuel' p' ap aux (u64 (nout + 1))
      end
  end.

(** Every turn of the loop but the last consumes a byte of the format. *)
Definition vgprintf (aux : St) (fmt : list Z) (ap : list varg) : outcome (Z * St) :=
  vgprintf_loop (S (length fmt)) fmt ap aux 0.
End Printf.

(** [struct vsnprintf_state], with the buffer [pos] points into. *)
Record vsnprintf_state := { vs_buf : list Z; vs_pos : Z; vs_rem : Z }.

Definition vsnprintf_putc (c : Z) (st : vsnprintf_state) : outcome vsnprintf_state :=
  if vs_rem st <=? 1 then Ret st
  else
    let! buf := store (vs_buf st) (vs_pos st) c in
    Ret {| vs_buf := buf; vs_pos := vs_pos st + 1; vs_rem := vs_rem st - 1 |}.

Definition vsnprintf (buf : list Z) (bufsz : Z) (fmt : list Z) (ap : list varg)
  : outcome (Z * list Z) :=
  let! (n, st) := vgprintf vsnprintf_putc {| vs_buf := buf; vs_pos := 0; vs_rem := bufsz |} fmt ap in
  if negb (vs_rem st =? 0) then
    let! buf := store (vs_buf st) (vs_pos st) 0 in Ret (n, buf)
  else Ret (n, vs_buf st).

(** The text a format denotes: the characters sent to a sink that keeps them. *)
Definition list_putc (c : Z) (l : list Z) : outcome (list Z) := Ret (l ++ [c]).
Definition text (fmt : list Z) (ap : list varg) : outcome (Z * list Z) :=
  vgprintf list_putc [] fmt ap.

Example text_demo :
  text (cstr "%s=%04x|%5d|%%%") [VStr (Some (cstr "pc")); VWord 44; VWord (-7)]
  = Ret (18, chars "pc=002c|-   7|%%%?").
Proof. vm_compute. reflexivity. Qed.

(** * Lemmas *)

(** Sends the characters of [s] to the sink. *)
Fixpoint puts {St} (putcfn : Z -> St -> outcome St) (s : list Z) (aux : St) : outcome St :=
  match s with
  | [] => Ret aux
  | c :: s' => let! aux := putcfn c aux in puts putcfn s' aux
  end.

(** What [format_int] and [format_str] send, as plain lists. *)
Definition int_text (val base : Z) (zpad : bool) (len : Z) : outcome (list Z) :=
  let! p := format_digits 40 val base [] in
  Ret (replicate (Z.to_nat len - length p) (if zpad then 48 else 32) ++ p).

(** The characters before the terminator. *)
Fixpoint until_nul (s : list Z) : option (list Z) :=
  match s with
  | [] => None
  | c :: s' => if c =? 0 then Some [] else option_map (cons c) (until_nul s')
  end.

Definition str_text (s : option (list Z)) (len : Z) : option (list Z) :=
  t ← until_nul (match s with None => cstr "(null)" | Some s => s end);
  Some (t ++ replicate (Z.to_nat (len - u64 (Z.of_nat (length t)))) 32).

Lemma puts_app {St} (putc : Z -> St -> outcome St) s1 s2 aux :
  puts putc (s1 ++ s2) aux = let! aux := puts putc s1 aux in puts putc s2 aux.
Proof.
  revert aux; induction s1 as [|c s1 IH]; intros aux; cbn; [done|].
  rewrite obind_assoc. apply obind_ext. intros. apply IH.
Qed.

Lemma puts_list s l : puts list_putc s l = Ret (l ++ s).
Proof.
  revert l; induction s as [|c s IH]; intros l; cbn; [by rewrite app_nil_r|].
  rewrite IH. by rewrite <- app_assoc.
Qed.

Section PrintfLemmas.
Context {St : Type} (putcfn : Z -> St -> outcome St).

Lemma put_all_puts s aux m :
  put_all putcfn s aux (u64 m)
  = let! a := puts putcfn s aux in Ret (u64 (m + Z.of_nat (length s)), a).
Proof.
  revert aux m; induction s as [|c s IH]; intros aux m; cbn.
  - by rewrite Z.add_0_r.
  - rewrite obind_assoc. apply obind_ext. intros a. rewrite u64_add_l, IH.
    apply obind_ext. intros a'. do 3 f_equal. lia.
Qed.

Lemma put_pad_puts len c sz aux m :
  put_pad putcfn len c sz aux (u64 m)
  = let! a := puts putcfn (replicate (len - sz) c) aux in
    Ret (u64 (m + Z.of_nat (len - sz)), a).
Proof.
  revert aux m; induction len as [|len IH]; intros aux m; cbn [put_pad].
  - cbn. by rewrite Z.add_0_r.
  - destruct (Nat.ltb_spec sz (S len)) as [Hlt|Hge].
    + replace (S len - sz)%nat with (S (len - sz)) by lia. cbn.
      rewrite obind_assoc. apply obind_ext. intros a.
      rewrite u64_add_l, IH. apply obind_ext. intros a'. do 3 f_equal. lia.
    + replace (S len - sz)%nat with 0%nat by lia. cbn. by rewrite Z.add_0_r.
Qed.

Lemma format_int_puts aux val base zpad len :
  format_int putcfn aux val base zpad len
  = let! s := int_text val base zpad len in
    let! a := puts putcfn s aux in Ret (u64 (Z.of_nat (length s)), a).
Proof.
  unfold format_int, int_text. rewrite obind_assoc. apply obind_ext. intros p.
  change 0 with (u64 0) at 1. rewrite put_pad_puts, obind_assoc. cbn [obind].
  rewrite puts_app, obind_assoc. apply obind_ext. intros a. cbn [obind].
  rewrite put_all_puts. apply obind_ext. intros a'.
  rewrite length_app, length_replicate. do 3 f_equal. lia.
Qed.

Lemma put_str_puts s t aux m :
  until_nul s = Some t ->
  put_str putcfn s aux (u64 m)
  = let! a := puts putcfn t aux in Ret (u64 (m + Z.of_nat (length t)), a).
Proof.
  revert t aux m; induction s as [|c s IH]; intros t aux m; cbn; [done|].
  destruct (c =? 0) eqn:E; [intros [= <-]; cbn; by rewrite Z.add_0_r|].
  destruct (until_nul s) as [t'|]; [|done]. intros [= <-]. cbn.
  rewrite obind_assoc. apply obind_ext. intros a. rewrite u64_add_l, (IH t') by done.
  apply obind_ext. intros a'. do 3 f_equal. lia.
Qed.

Lemma put_str_unterminated s aux m r :
  until_nul s = None -> put_str putcfn s aux m <> Ret r.
Proof.
  revert aux m; induction s as [|c s IH]; intros aux m; cbn; [done|].
  destruct (c =? 0); [done|]. intros H. destruct (putcfn c aux); cbn; try done.
  apply IH. by destruct (until_nul s).
Qed.

Lemma format_str_puts aux s len t :
  0 <= len < 2 ^ 32 -> str_text s len = Some t ->
  format_str putcfn aux s len
  = let! a := puts putcfn t aux in Ret (u64 (Z.of_nat (length t)), a).
Proof.
  intros Hlen. unfold str_text, format_str.
  set (s' := match s with None => _ | Some _ => _ end).
  destruct (until_nul s') as [t'|] eqn:Hs; cbn; [|done]. intros [= <-].
  change 0 with (u64 0) at 1. rewrite (put_str_puts _ t') by done.
  rewrite obind_assoc, puts_app, obind_assoc. apply obind_ext. intros a. cbn [obind].
  rewrite Z.add_0_l. pose proof (u64_range (Z.of_nat (length t'))) as Hr.
  destruct (u64 (Z.of_nat (length t')) <? len) eqn:E.
  - rewrite (u32_small (len - _)) by lia.
    change 0 with (u64 0) at 1. rewrite put_pad_puts, Nat.sub_0_r, obind_assoc.
    apply obind_ext. intros a'. cbn [obind].
    rewrite length_app, length_replicate, Nat2Z.inj_add, Z2Nat.id by lia.
    rewrite <- (u64_add_l (Z.of_nat (length t'))). done.
  - replace (Z.to_nat (len - u64 (Z.of_nat (length t')))) with 0%nat by lia.
    cbn. by rewrite app_nil_r.
Qed.
End PrintfLemmas.

Lemma parse_width_range p len len' p' :
  0 <= len < 2 ^ 32 -> parse_width p len = Ret (len', p') -> 0 <= len' < 2 ^ 32.
Proof.
  revert len; induction p as [|c p IH]; intros len Hl; cbn; [done|].
  destruct (_ && _); [apply IH, u32_range|]. by intros [= <- <-].
Qed.

(** Whatever the list sink receives, any sink receives. *)
Lemma format_str_list l s len k l' :
  0 <= len < 2 ^ 32 -> format_str list_putc l s len = Ret (k, l') ->
  exists t, str_text s len = Some t /\ l' = l ++ t /\ k = u64 (Z.of_nat (length t)).
Proof.
  intros Hlen H. destruct (str_text s len) as [t|] eqn:Ht.
  - rewrite (format_str_puts _ _ _ _ t), puts_list in H by done. cbn in H. injection H as <- <-. eauto.
  - exfalso. unfold format_str in H. revert Ht. unfold str_text.
    set (s' := match s with None => _ | Some _ => _ end) in *.
    destruct (until_nul s') eqn:Hs; cbn; [done|]. intros _.
    obind_inv H. by eapply put_str_unterminated in Hm.
Qed.

Lemma format_int_list l val base zpad len k l' :
  format_int list_putc l val base zpad len = Ret (k, l') ->
  exists t, int_text val base zpad len = Ret t /\ l' = l ++ t /\ k = u64 (Z.of_nat (length t)).
Proof.
  rewrite format_int_puts. intros H. obind_inv H. rewrite puts_list in H.
  injection H as <- <-. eauto.
Qed.

(** [conv] results agree on every sink. *)
Definition conv_agree (p : list Z) (ap : list varg) (nout : Z)
    (p' : list Z) (ap' : list varg) (nout' : Z) (out : list Z) : Prop :=
  nout' = u64 (nout + Z.of_nat (length out)) /\
  forall St (putc : Z -> St -> outcome St) aux,
    vgprintf_conv putc p ap aux nout
    = let! a := puts putc out aux in Ret (p', ap', a, nout').

Lemma vgprintf_conv_list p ap l nout p' ap' l' nout' :
  vgprintf_conv list_putc p ap l nout = Ret (p', ap', l', nout') ->
  exists out, l' = l ++ out /\ conv_agree p ap nout p' ap' nout' out.
Proof.
  unfold conv_agree, vgprintf_conv. intros H.
  destruct (parse_width p 0) as [[len q]| | | |] eqn:Hw; cbn [obind] in *; try done.
  apply parse_width_range in Hw; [|lia].
  destruct (parse_l q 0) as [[lc q1]| | | |]; cbn [obind] in *; try done.
  destruct (parse_zj q1 lc) as [[lc' q2]| | | |]; cbn [obind] in *; try done.
  destruct q2 as [|c q2]; [done|].
  destruct (c =? 100) eqn:Ed.
  { destruct (va_int true lc' ap) as [[iv ap1]| | | |]; cbn [obind] in *; try done.
    destruct (iv <? 0) eqn:En; cbn [obind list_putc] in H; obind_inv H;
      destruct r as [k l1]; injection H as <- <- <- <-;
      apply format_int_list in Hm as (t & Ht & -> & ->).
    - exists (45 :: t). rewrite <- app_assoc. split; [done|]. split.
      + rewrite u64_add_l, u64_add_r. f_equal. cbn [length]. lia.
      + intros. cbn [puts]. rewrite obind_assoc. apply obind_ext. intros a.
        by rewrite format_int_puts, Ht; cbn [obind]; rewrite obind_assoc.
    - exists t. split; [done|]. split; [by rewrite u64_add_r|].
      intros. by rewrite format_int_puts, Ht; cbn [obind]; rewrite obind_assoc. }
  destruct ((c =? 117) || (c =? 120)).
  { destruct (va_int false lc' ap) as [[iv ap1]| | | |]; cbn [obind] in *; try done.
    obind_inv H; destruct r as [k l1]; injection H as <- <- <- <-.
    apply format_int_list in Hm as (t & Ht & -> & ->).
    exists t. split; [done|]. split; [by rewrite u64_add_r|].
    intros. by rewrite format_int_puts, Ht; cbn [obind]; rewrite obind_assoc. }
  destruct (c =? 115).
  { destruct (va_str ap) as [[s ap1]| | | |]; cbn [obind] in *; try done.
    obind_inv H; destruct r as [k l1]; injection H as <- <- <- <-.
    apply format_str_list in Hm as (t & Ht & -> & ->); [|done].
    exists t. split; [done|]. split; [by rewrite u64_add_r|].
    intros. by rewrite (format_str_puts _ _ _ _ t), obind_assoc. }
  destruct (c =? 112).
  { destruct (va_int false 1 ap) as [[iv ap1]| | | |]; cbn [obind] in *; try done.
    obind_inv H; destruct r as [k l1]. obind_inv H; destruct r as [k2 l2].
    injection H as <- <- <- <-.
    apply format_str_list in Hm as (t & Ht & -> & ->); [|done].
    apply format_int_list in Hm0 as (t2 & Ht2 & -> & ->).
    exists (t ++ t2). rewrite <- app_assoc. split; [done|]. split.
    - rewrite u64_add_r, u64_add_r, u64_add_l, length_app. f_equal. lia.
    - intros. rewrite (format_str_puts _ _ _ _ t), puts_app, !obind_assoc by done.
      apply obind_ext. intros a. cbn [obind].
      by rewrite format_int_puts, Ht2; cbn [obind]; rewrite obind_assoc. }
  cbn [obind list_putc] in H. injection H as <- <- <- <-.
  eexists [37; _]. rewrite <- app_assoc. split; [done|]. split.
  - rewrite u64_add_l. f_equal. cbn [length]. lia.
  - intros. cbn [puts]. rewrite obind_assoc. apply obind_ext. intros a.
    rewrite obind_assoc. apply obind_ext. by intros a'.
Qed.

Lemma vgprintf_loop_list fuel p ap l m n l' :
  vgprintf_loop list_putc fuel p ap l (u64 m) = Ret (n, l') ->
  exists out, l' = l ++ out /\ n = u64 (m + Z.of_nat (length out)) /\
    forall St (putc : Z -> St -> outcome St) aux,
      vgprintf_loop putc fuel p ap aux (u64 m) = let! a := puts putc out aux in Ret (n, a).
Proof.
  revert p ap l m n l'; induction fuel as [|fuel IH]; intros p ap l m n l' H; [done|].
  destruct p as [|c p]; [done|]. cbn [vgprintf_loop] in *.
  destruct (c =? 0).
  { injection H as <- <-. exists []. rewrite app_nil_r. cbn. by rewrite Z.add_0_r. }
  destruct (c =? 37).
  - obind_inv H. destruct r as [[[p1 ap1] l1] n1].
    apply vgprintf_conv_list in Hm as (o1 & -> & -> & Hc).
    rewrite u64_add_l in H. apply IH in H as (o2 & -> & -> & Ho).
    exists (o1 ++ o2). rewrite <- app_assoc, length_app. split; [done|]. split.
    + f_equal. lia.
    + intros. rewrite Hc, u64_add_l, puts_app, !obind_assoc. apply obind_ext.
      intros a. cbn [obind]. by rewrite Ho.
  - cbn [obind list_putc] in H. rewrite u64_add_l in H.
    apply IH in H as (o2 & -> & -> & Ho).
    exists (c :: o2). rewrite <- app_assoc. split; [done|]. split.
    + f_equal. cbn [length]. lia.
    + intros. cbn [puts]. rewrite obind_assoc. apply obind_ext. intros a.
      by rewrite u64_add_l, Ho.
Qed.

Lemma text_length fmt ap n out :
  text fmt ap = Ret (n, out) -> n = u64 (Z.of_nat (length out)).
Proof.
  unfold text, vgprintf. change 0 with (u64 0) at 1.
  intros (o & -> & -> & _)%vgprintf_loop_list. done.
Qed.

Lemma vgprintf_text {St} (putc : Z -> St -> outcome St) aux fmt ap n out :
  text fmt ap = Ret (n, out) ->
  vgprintf putc aux fmt ap = let! a := puts putc out aux in Ret (n, a).
Proof.
  unfold text, vgprintf. change 0 with (u64 0) at 1 2.
  intros (o & -> & -> & Ho)%vgprintf_loop_list. by rewrite Ho.
Qed.

(** ** The digits *)

Definition digit_val (c : Z) : Z := if c <? 58 then c - 48 else c - 97 + 10.
Definition digits_val (base : Z) (ds : list Z) : Z :=
  fold_left (fun acc c => acc * base + digit_val c) ds 0.

Lemma digits_val_app base ds c :
  digits_val base (ds ++ [c]) = digits_val base ds * base + digit_val c.
Proof. unfold digits_val. by rewrite fold_left_app. Qed.

(** The digits produced are the canonical representation of the value. *)
Definition is_numeral (base val : Z) (ds : list Z) : Prop :=
  digits_val base ds = val /\ ds <> [] /\
  Forall (fun c => 48 <= c <= 57 \/ 97 <= c < 87 + base) ds /\
  (0 < val -> head ds <> Some 48).

Lemma format_digits_S room val base p :
  format_digits (S room) val base p
  = let c := if val mod base <? 10 then 48 + val mod base else 97 + val mod base - 10 in
    if val / base =? 0 then Ret (c :: p) else format_digits room (val / base) base (c :: p).
Proof. done. Qed.

Lemma format_digits_numeral room val base p :
  1 < base <= 16 -> 0 <= val < base ^ Z.of_nat (S room) ->
  exists ds, format_digits (S room) val base p = Ret (ds ++ p) /\
    is_numeral base val ds /\ (length ds <= S room)%nat.
Proof.
  revert val p; induction room as [|room IH]; intros val p Hb Hv;
    rewrite format_digits_S; cbv zeta;
    set (c := if val mod base <? 10 then _ else _);
    assert (Hm : 0 <= val mod base < base) by (apply Z.mod_pos_bound; lia);
    assert (Hc : digit_val c = val mod base)
      by (unfold digit_val, c; destruct (val mod base <? 10) eqn:E; kcase; lia);
    assert (Hcr : 48 <= c <= 57 \/ 97 <= c < 87 + base)
      by (unfold c; destruct (val mod base <? 10) eqn:E; lia);
    pose proof (Z.div_mod val base ltac:(lia)) as Hdm;
    assert (Hone : val / base = 0 -> is_numeral base val [c])
      by (intros Hd; split_and!; [unfold digits_val; cbn; lia|done|by constructor|
          intros ? [= Hc']; revert Hc; rewrite Hc'; unfold digit_val; cbn; lia]).
  - assert (Hd : val / base = 0)
      by (apply Z.div_small; change (Z.of_nat 1) with 1 in Hv; rewrite Z.pow_1_r in Hv; lia).
    rewrite Hd. exists [c]. split_and!; [done|auto|cbn; lia].
  - destruct (val / base =? 0) eqn:Hd; [exists [c]; split_and!; [done|apply Hone; lia|cbn; lia]|].
    destruct (IH (val / base) (c :: p)) as (ds & -> & (Hv1 & Hne & Hf & Hh) & Hl); [done| |].
    { split; [apply Z.div_pos; lia|]. apply Z.div_lt_upper_bound; [lia|].
      rewrite <- Z.pow_succ_r, <- Nat2Z.inj_succ by lia. lia. }
    exists (ds ++ [c]). rewrite <- app_assoc. split; [done|]. unfold is_numeral. split_and!.
    + rewrite digits_val_app, Hv1, Hc. lia.
    + by destruct ds.
    + apply Forall_app; auto.
    + intros _. assert (0 < val / base) by (pose proof (Z.div_pos val base); lia).
      destruct ds; [done|]. cbn in *. auto.
    + rewrite length_app. cbn. lia.
Qed.

(** ** Block functions *)

Lemma memcpy_spec dst src n :
  (n <= length dst)%nat -> (n <= length src)%nat ->
  memcpy dst src n = Ret (take n src ++ drop n dst).
Proof.
  revert dst src; induction n as [|n IH]; intros [|d dst] [|c src] Hd Hs; cbn in *; try lia; try done.
  by rewrite IH by lia.
Qed.

Lemma memset_spec s c n :
  (n <= length s)%nat -> memset s c n = Ret (replicate n (u8 c) ++ drop n s).
Proof.
  revert s; induction n as [|n IH]; intros [|d s] Hs; cbn in *; try lia; try done.
  by rewrite IH by lia.
Qed.

(** The bytes [strncmp] looks at: up to the terminator, at most [n]. *)
Fixpoint cprefix (n : nat) (s : list Z) : option (list Z) :=
  match n with
  | O => Some []
  | S n' =>
      match s with
      | [] => None
      | c :: s' => if c =? 0 then Some [0] else cons c <$> cprefix n' s'
      end
  end.

Lemma strncmp_cases s1 s2 n a b :
  bytes_ok s1 -> bytes_ok s2 -> cprefix n s1 = Some a -> cprefix n s2 = Some b ->
  exists z, strncmp s1 s2 n = Ret z /\ (z = 0 <-> a = b).
Proof.
  revert s1 s2 a b; induction n as [|n IH]; intros s1 s2 a b H1 H2; cbn [cprefix strncmp].
  { intros [= <-] [= <-]. exists 0. split; [done|by split]. }
  destruct s1 as [|c1 s1]; [done|]. destruct s2 as [|c2 s2]; [done|].
  apply bytes_ok_cons in H1 as [Hc1 H1]. apply bytes_ok_cons in H2 as [Hc2 H2].
  destruct (Z.eqb_spec c1 0) as [->|Hn1]; cbn [negb andb].
  { intros [= <-]. destruct (Z.eqb_spec c2 0) as [->|Hn2].
    - intros [= <-]. exists 0. split; [done|by split].
    - destruct (cprefix n s2) as [b'|]; cbn; [|done]. intros [= <-]. eexists; split; [done|].
      rewrite !u8_small by lia. split; [lia|]. intros [=]. lia. }
  destruct (cprefix n s1) as [a'|] eqn:Ha; cbn; [|done]. intros [= <-].
  destruct (Z.eqb_spec c1 c2) as [->|Hne].
  - destruct (Z.eqb_spec c2 0); [done|].
    destruct (cprefix n s2) as [b'|] eqn:Hb; cbn; [|done]. intros [= <-].
    destruct (IH s1 s2 a' b') as (z & -> & Hz); auto.
    exists z. split; [done|]. rewrite Hz. split; [by intros ->|by intros [=]].
  - intros Hb. eexists; split; [done|]. rewrite !u8_small by lia. split; [lia|].
    intros <-. destruct (Z.eqb_spec c2 0) as [->|]; [by injection Hb|].
    destruct (cprefix n s2); cbn in Hb; [|done]. by injection Hb.
Qed.

(** The text of a C string: what precedes the terminator. *)
Fixpoint ctext (s : list Z) : option (list Z) :=
  match s with
  | [] => None
  | c :: s' => if c =? 0 then Some [] else cons c <$> ctext s'
  end.

Lemma strcmp_ctext s1 s2 a b :
  ctext s1 = Some a -> ctext s2 = Some b ->
  exists z, strcmp (Some s1) (Some s2) = Ret z /\ (z =? 0) = bool_decide (a = b).
Proof.
  cbn [strcmp]. revert s2 a b; induction s1 as [|c1 s1 IH]; intros [|c2 s2] a b; try done.
  cbn [ctext strcmp_loop]. destruct (Z.eqb_spec c1 0) as [->|H1].
  - intros [= <-]. rewrite andb_false_r. intros Hb. eexists. split; [done|].
    destruct (Z.eqb_spec c2 0) as [->|H2].
    + injection Hb as <-. done.
    + destruct (ctext s2); [|done]. injection Hb as <-. rewrite bool_decide_false by done.
      destruct (0 <? c2) eqn:?; [done|]. destruct (c2 <? 0) eqn:?; [done|lia].
  - destruct (ctext s1) as [a'|] eqn:Ea; [|done]. cbn. intros [= <-].
    rewrite andb_true_r. destruct (Z.eqb_spec c1 c2) as [->|Hne].
    + destruct (Z.eqb_spec c2 0); [done|]. destruct (ctext s2) as [b'|] eqn:Eb; [|done]. cbn. intros [= <-].
      destruct (IH s2 a' b' eq_refl Eb) as (z & -> & Hz). exists z. split; [done|]. rewrite Hz.
      apply bool_decide_ext. split; [by intros ->|by intros [=]].
    + intros Hb. eexists. split; [done|]. rewrite bool_decide_false.
      * destruct (c1 <? c2) eqn:?; [done|]. destruct (c2 <? c1) eqn:?; [done|lia].
      * intros <-. destruct (c2 =? 0); [done|]. destruct (ctext s2); [|done]. by injection Hb.
Qed.

(** ** Termination of [vgprintf] *)

Lemma parse_width_len p len r : parse_width p len = Ret r -> (length r.2 <= length p)%nat.
Proof.
  revert len; induction p as [|c p IH]; intros len; cbn; [done|].
  destruct (_ && _); [intros ?%IH; lia|]. intros [= <-]. cbn. lia.
Qed.

Lemma parse_l_len p l r : parse_l p l = Ret r -> (length r.2 <= length p)%nat.
Proof.
  revert l; induction p as [|c p IH]; intros l; cbn; [done|].
  destruct (_ =? _); [intros ?%IH; lia|]. intros [= <-]. cbn. lia.
Qed.

Lemma parse_zj_len p l r : parse_zj p l = Ret r -> (length r.2 <= length p)%nat.
Proof.
  destruct p as [|c p]; cbn; [done|]. destruct (_ || _); intros [= <-]; cbn; lia.
Qed.

Lemma vgprintf_conv_len {St} (putc : Z -> St -> outcome St) p ap aux nout p' ap' aux' nout' :
  vgprintf_conv putc p ap aux nout = Ret (p', ap', aux', nout') -> (length p' <= length p)%nat.
Proof.
  unfold vgprintf_conv. intros H. obind_inv H. destruct r as [len q].
  apply parse_width_len in Hm; cbn in Hm.
  obind_inv H. destruct r as [lc q1]. apply parse_l_len in Hm0; cbn in Hm0.
  obind_inv H. destruct r as [lc' q2]. apply parse_zj_len in Hm1; cbn in Hm1.
  destruct q2 as [|c q2]; [done|]. cbn in Hm1.
  repeat (obind_inv H || (let E := fresh "E" in
    match type of H with
    | (if ?b then _ else _) = _ => destruct b eqn:E
    | (let _ := _ in _) = _ => cbv zeta in H
    | obind (let (_, _) := ?r in _) _ = _ => destruct r
    | (let (_, _) := ?r in _) = _ => destruct r
    end)); injection H as <- <- <- <-; try (destruct (c =? 0)); cbn in *; lia.
Qed.

Section Termination.
Context {St : Type} (putc : Z -> St -> outcome St).
Hypothesis putc_fuel : forall c a, putc c a <> NoFuel.

Lemma obind_NoFuel {A B} (m : outcome A) (k : A -> outcome B) :
  m <> NoFuel -> (forall a, k a <> NoFuel) -> obind m k <> NoFuel.
Proof. destruct m; cbn; auto. Qed.

Lemma puts_NoFuel s aux : puts putc s aux <> NoFuel.
Proof. revert aux; induction s; intros aux; cbn; [done|]. by apply obind_NoFuel. Qed.

Lemma format_digits_NoFuel room val base p : format_digits room val base p <> NoFuel.
Proof.
  revert val p; induction room; intros val p; cbn [format_digits]; [done|].
  destruct (_ =? 0); [done|apply IHroom].
Qed.

Lemma format_int_NoFuel aux val base zpad len :
  format_int putc aux val base zpad len <> NoFuel.
Proof.
  rewrite format_int_puts. unfold int_text.
  repeat (apply obind_NoFuel; [|intros]); auto using puts_NoFuel, format_digits_NoFuel.
Qed.

Lemma put_str_NoFuel s aux m : put_str putc s aux m <> NoFuel.
Proof.
  revert aux m; induction s; intros aux m; cbn; [done|].
  destruct (_ =? 0); [done|]. apply obind_NoFuel; auto.
Qed.

Lemma format_str_NoFuel aux s len : format_str putc aux s len <> NoFuel.
Proof.
  unfold format_str. apply obind_NoFuel; [apply put_str_NoFuel|].
  intros [n a]. destruct (_ <? _); [|done].
  apply obind_NoFuel; [|by intros [??]].
  change 0 with (u64 0) at 1. rewrite put_pad_puts. apply obind_NoFuel; [apply puts_NoFuel|done].
Qed.

Lemma vgprintf_conv_NoFuel p ap aux nout : vgprintf_conv putc p ap aux nout <> NoFuel.
Proof.
  assert (Hw : forall q l, parse_width q l <> NoFuel)
    by (induction q; intros; cbn; [done|]; destruct (_ && _); auto; done).
  assert (Hl : forall q l, parse_l q l <> NoFuel)
    by (induction q; intros; cbn; [done|]; destruct (_ =? _); auto; done).
  assert (Hz : forall q l, parse_zj q l <> NoFuel)
    by (intros [|??]; intros; cbn; [done|]; by destruct (_ || _)).
  assert (Hv : forall s l ap, va_int s l ap <> NoFuel) by (by intros ?? [|[]]).
  assert (Hs : forall ap, va_str ap <> NoFuel) by (by intros [|[]]).
  unfold vgprintf_conv.
  apply obind_NoFuel; [auto|intros [len q]]. apply obind_NoFuel; [auto|intros [lc q1]].
  apply obind_NoFuel; [auto|intros [lc' q2]]. destruct q2 as [|c q2]; [done|].
  repeat kcase; repeat (apply obind_NoFuel; [auto using format_int_NoFuel, format_str_NoFuel|];
    let r := fresh "r" in intros r; try destruct r; repeat kcase); done.
Qed.

Lemma vgprintf_loop_NoFuel fuel p ap aux nout :
  (length p < fuel)%nat -> vgprintf_loop putc fuel p ap aux nout <> NoFuel.
Proof.
  revert p ap aux nout; induction fuel as [|fuel IH]; intros [|c p] ap aux nout Hf;
    cbn [vgprintf_loop length] in *; try lia; try done.
  destruct (c =? 0); [done|]. destruct (c =? 37).
  - destruct (vgprintf_conv _ _ _ _ _) as [[[[p' ap'] aux'] nout']| | | |] eqn:E; cbn [obind];
      try done; [|by apply vgprintf_conv_NoFuel in E].
    apply IH. apply vgprintf_conv_len in E. lia.
  - apply obind_NoFuel; [done|]. intros a. apply IH. lia.
Qed.
End Termination.

(** ** [vsnprintf] *)

Lemma puts_vsnprintf out buf pos rem :
  0 <= pos -> 1 <= rem -> pos + rem <= Z.of_nat (length buf) ->
  let k := Nat.min (length out) (Z.to_nat (rem - 1)) in
  puts vsnprintf_putc out {| vs_buf := buf; vs_pos := pos; vs_rem := rem |}
  = Ret {| vs_buf := splice buf (Z.to_nat pos) (take k out);
           vs_pos := pos + Z.of_nat k; vs_rem := rem - Z.of_nat k |}.
Proof.
  revert buf pos rem; induction out as [|c out IH]; intros buf pos rem Hp Hr Hl; cbv zeta.
  { cbn [puts length Nat.min take]. rewrite splice_nil, Z.add_0_r, Z.sub_0_r. done. }
  cbn [puts]. unfold vsnprintf_putc at 1. cbn [vs_rem vs_buf vs_pos].
  destruct (rem <=? 1) eqn:E; cbn [obind].
  { rewrite IH by lia. replace (Z.to_nat (rem - 1)) with 0%nat by lia.
    by rewrite !Nat.min_0_r, !take_0. }
  rewrite store_lt by lia. cbn [obind]. rewrite IH; rewrite ?length_insert; try lia.
  replace (Nat.min (length (c :: out)) (Z.to_nat (rem - 1)))
    with (S (Nat.min (length out) (Z.to_nat (rem - 1 - 1)))) by (cbn [length]; lia).
  set (k := Nat.min _ _). cbn [take]. do 2 f_equal; [|lia|lia].
  replace (<[Z.to_nat pos:=c]> buf) with (splice buf (Z.to_nat pos) [c]).
  - replace (Z.to_nat (pos + 1)) with (Z.to_nat pos + length [c])%nat by (cbn; lia).
    rewrite splice_splice; [done|]. cbn [length]. rewrite length_take. lia.
  - unfold splice. cbn. rewrite insert_take_drop by lia. f_equal. f_equal. f_equal. lia.
Qed.

(** * Properties *)

(** For every 64-bit value and the bases the callers use, [format_int]
    never runs out of its 40-byte buffer and sends to the sink the padding
    followed by the canonical numeral of the value (read back in that base the
    digits give the value, and there is no leading zero digit unless the value
    is zero), and it returns the number of characters sent. *)
Theorem format_int_correct {St} (putcfn : Z -> St -> outcome St) aux val base (zpad : bool) len :
  base = 10 \/ base = 16 -> 0 <= val < 2 ^ 64 ->
  exists ds, is_numeral base val ds /\
    let s := replicate (Z.to_nat len - length ds) (if zpad then 48 else 32) ++ ds in
    format_int putcfn aux val base zpad len
    = let! a := puts putcfn s aux in Ret (u64 (Z.of_nat (length s)), a).
Proof.
  intros Hb Hv.
  destruct (format_digits_numeral 39 val base []) as (ds & Hds & Hn & _); [lia| |].
  { split; [lia|]. change (Z.of_nat 40) with 40. destruct Hb as [-> | ->]; lia. }
  exists ds. split; [done|]. cbv zeta. rewrite format_int_puts. unfold int_text.
  rewrite Hds, app_nil_r. done.
Qed.

Lemma format_int_correct_witness :
  exists ds, is_numeral 16 44 ds /\
    let s := replicate (4 - length ds) 48 ++ ds in
    format_int list_putc [] 44 16 true 4
    = let! a := puts list_putc s [] in Ret (u64 (Z.of_nat (length s)), a).
Proof. apply (format_int_correct list_putc [] 44 16 true 4); [by right|lia]. Defined.

Lemma vsnprintf_sent buf bufsz fmt ap n out :
  0 < bufsz <= Z.of_nat (length buf) -> text fmt ap = Ret (n, out) ->
  vsnprintf buf bufsz fmt ap = Ret (n, splice buf 0 (take (Z.to_nat (bufsz - 1)) out ++ [0])).
Proof.
  intros Hsz Ht.
  unfold vsnprintf. rewrite (vgprintf_text _ _ _ _ n out Ht), puts_vsnprintf by lia.
  cbn [obind vs_rem vs_buf vs_pos]. set (k := Nat.min _ _).
  assert (Hk : take k out = take (Z.to_nat (bufsz - 1)) out).
  { unfold k. destruct (Nat.min_spec (length out) (Z.to_nat (bufsz - 1))) as [[? ->]|[? ->]]; [|done].
    by rewrite !take_ge by lia. }
  assert (Hl : length (take k out) = k) by (rewrite length_take; lia).
  destruct (Z.eqb_spec (bufsz - Z.of_nat k) 0); [lia|]. cbn [negb].
  rewrite store_lt; rewrite ?length_splice; try lia. cbn [obind]. do 2 f_equal.
  rewrite <- Hk, Z2Nat.inj_0.
  rewrite <- (splice_splice buf 0 (take k out) [0]) by (rewrite Hl; cbn; lia).
  unfold splice at 2. cbn [length Nat.add].
  rewrite insert_take_drop by (rewrite length_splice; lia).
  rewrite Hl. replace (Z.to_nat (0 + Z.of_nat k)) with k by lia.
  cbn. do 2 f_equal. f_equal. lia.
Qed.

(** C37: [vsnprintf] writes into the first [bufsz] bytes of the buffer exactly
    the text the format denotes, cut to [bufsz - 1] characters and terminated,
    touches no other byte, and returns the length of the whole text. *)
Theorem vsnprintf_correct buf bufsz fmt ap n out :
  0 < bufsz <= Z.of_nat (length buf) -> text fmt ap = Ret (n, out) ->
  n = u64 (Z.of_nat (length out)) /\
  vsnprintf buf bufsz fmt ap = Ret (n, splice buf 0 (take (Z.to_nat (bufsz - 1)) out ++ [0])).
Proof. intros Hsz Ht. split; [by eapply text_length|by apply vsnprintf_sent]. Qed.

Lemma vsnprintf_correct_witness :
  5 = u64 (Z.of_nat (length (chars "tid=7"))) /\
  vsnprintf (replicate 8 255) 5 (cstr "tid=%d") [VWord 7]
  = Ret (5, splice (replicate 8 255) 0 (take 4 (chars "tid=7") ++ [0])).
Proof.
  apply (vsnprintf_correct (replicate 8 255) 5 (cstr "tid=%d") [VWord 7]);
    [cbn; lia|vm_compute; reflexivity].
Defined.

(** C40: [vgprintf] always terminates: for every format and argument list, and
    every sink that itself terminates, the loop stops within one turn per
    byte of the format. *)
Theorem vgprintf_terminates {St} (putcfn : Z -> St -> outcome St) aux fmt ap :
  (forall c a, putcfn c a <> NoFuel) -> vgprintf putcfn aux fmt ap <> NoFuel.
Proof. intros H. apply vgprintf_loop_NoFuel; [done|lia]. Qed.

Lemma vgprintf_terminates_witness : vgprintf list_putc [] (cstr "100%") [] <> NoFuel.
Proof. apply (vgprintf_terminates list_putc [] (cstr "100%") []). done. Defined.

(** On strings that are terminated or at least [n] bytes long, [strncmp]
    reads only bytes of its arguments and returns 0 exactly when the two agree
    on their first [n] characters, the terminator included. *)
Theorem strncmp_zero_iff s1 s2 n a b :
  bytes_ok s1 -> bytes_ok s2 -> cprefix n s1 = Some a -> cprefix n s2 = Some b ->
  is_ret (strncmp s1 s2 n) = true /\ (strncmp s1 s2 n = Ret 0 <-> a = b).
Proof.
  intros H1 H2 Ha Hb. destruct (strncmp_cases s1 s2 n a b) as (z & -> & Hz); auto.
  split; [done|]. rewrite <- Hz. split; [by intros [=]|by intros ->].
Qed.

Lemma strncmp_zero_iff_witness :
  is_ret (strncmp (cstr "init") (cstr "init0") 32) = true /\
  (strncmp (cstr "init") (cstr "init0") 32 = Ret 0 <-> cstr "init" = cstr "init0").
Proof.
  apply (strncmp_zero_iff (cstr "init") (cstr "init0") 32);
    [repeat constructor; done|repeat constructor; done|reflexivity|reflexivity].
Defined.
