(* ===== verification/IoIntf.v ===== *)
(** The abstract I/O interface (src/src/kern/io.h and the generic part of
    io.c): operation tables, reference counts, [ioread_full], [iowrite] and
    the character and formatted-output helpers, and the contracts io.h states
    for [read] and [write] as type classes that the implementations
    instantiate. *)

From Stdlib Require Import Ascii String.
From S2P Require Import Prelude KString.

(** * Data *)

(** The argument cell of an ioctl: [None] is a null pointer, [Some v] a pointer
    to a 64-bit cell holding [v]. *)
Definition ioarg := option Z.

(** [struct io_ops]; a null function pointer is [None].  A read returns the new
    object state, the C return value and the bytes stored from [buf] on. *)
Record io_ops (S : Type) := {
  op_close : option (S -> outcome S);
  op_read : option (S -> Z -> outcome (S * Z * list Z));
  op_write : option (S -> list Z -> outcome (S * Z));
  op_ctl : option (S -> Z -> ioarg -> outcome (S * Z * ioarg));
}.
Arguments op_close {S} _.
Arguments op_read {S} _.
Arguments op_write {S} _.
Arguments op_ctl {S} _.

(** [struct io_intf] with the object it is embedded in. *)
Record io_obj (S : Type) := { io_refcnt : Z; io_self : S }.
Arguments io_refcnt {S} _.
Arguments io_self {S} _.

Definition IOCTL_GETLEN : Z := 1.
Definition IOCTL_SETLEN : Z := 2.
Definition IOCTL_GETPOS : Z := 3.
Definition IOCTL_SETPOS : Z := 4.
Definition IOCTL_FLUSH : Z := 5.
Definition IOCTL_GETBLKSZ : Z := 6.

Section Generic.
Context {S : Type} (ops : io_ops S).

(** * Reference counting *)

Definition ioref (io : io_obj S) : io_obj S * Z :=
  let n := u32 (io_refcnt io + 1) in
  ({| io_refcnt := n; io_self := io_self io |}, n).

Definition ioclose (io : io_obj S) : outcome (io_obj S) :=
  let n := u32 (io_refcnt io - 1) in
  match op_close ops with
  | Some close =>
      if n =? 0 then
        let! s := close (io_self io) in Ret {| io_refcnt := n; io_self := s |}
      else Ret {| io_refcnt := n; io_self := io_self io |}
  | None => Ret {| io_refcnt := n; io_self := io_self io |}
  end.

(** * Reading and writing *)

Definition ioread (s : S) (bufsz : Z) : outcome (S * Z * list Z) :=
  match op_read ops with
  | Some read => read s bufsz
  | None => Ret (s, - ENOTSUP, [])
  end.

Fixpoint ioread_full_loop (fuel : nat) (read : S -> Z -> outcome (S * Z * list Z))
    (s : S) (buf : list Z) (bufsz acc : Z) : outcome (S * Z * list Z) :=
  match fuel with
  | O => NoFuel
  | Datatypes.S fuel' =>
      if acc <? bufsz then
        let! (s, cnt, bs) := read s (bufsz - acc) in
        let! buf := put_block buf acc bs in
        if cnt <? 0 then Ret (s, cnt, buf)
        else if cnt =? 0 then Ret (s, acc, buf)
        else ioread_full_loop fuel' read s buf bufsz (acc + cnt)
      else Ret (s, acc, buf)
  end.

(** Every turn but the last stores at least one byte. *)
Definition ioread_full (s : S) (buf : list Z) (bufsz : Z) : outcome (S * Z * list Z) :=
  match op_read ops with
  | None => Ret (s, - ENOTSUP, buf)
  | Some read => ioread_full_loop (Datatypes.S (Z.to_nat bufsz)) read s buf bufsz 0
  end.

Fixpoint iowrite_loop (fuel : nat) (write : S -> list Z -> outcome (S * Z))
    (s : S) (buf : list Z) (acc : Z) : outcome (S * Z) :=
  match fuel with
  | O => NoFuel
  | Datatypes.S fuel' =>
      if acc <? Z.of_nat (length buf) then
        let! (s, cnt) := write s (drop (Z.to_nat acc) buf) in
        if cnt <? 0 then Ret (s, cnt)
        else if cnt =? 0 then Ret (s, acc)
        else iowrite_loop fuel' write s buf (acc + cnt)
      else Ret (s, acc)
  end.

Definition iowrite (s : S) (buf : list Z) : outcome (S * Z) :=
  match op_write ops with
  | None => Ret (s, - ENOTSUP)
  | Some write => iowrite_loop (Datatypes.S (length buf)) write s buf 0
  end.

Definition ioctl (s : S) (cmd : Z) (arg : ioarg) : outcome (S * Z * ioarg) :=
  match op_ctl ops with
  | Some ctl => ctl s cmd arg
  | None => Ret (s, - ENOTSUP, arg)
  end.

Definition ioseek (s : S) (pos : Z) : outcome (S * Z) :=
  let! (s, r, _) := ioctl s IOCTL_SETPOS (Some pos) in Ret (s, r).

(** * Characters, strings, formatted output *)

Definition ioputc (s : S) (c : Z) : outcome (S * Z) :=
  let! (s, wlen) := iowrite s [c] in
  Ret (s, if wlen <? 0 then wlen else if wlen =? 0 then - EIO else u8 c).

Definition iogetc (s : S) : outcome (S * Z) :=
  let! (s, rlen, bs) := ioread s 1 in
  if rlen <? 0 then Ret (s, rlen)
  else if rlen =? 0 then Ret (s, - EIO)
  else let! c := load bs 0 in Ret (s, u8 c).

Definition ioputs (s : S) (str : list Z) : outcome (S * Z) :=
  let! slen := strlen str in
  let! (s, wlen) := iowrite s (take (Z.to_nat slen) str) in
  if wlen <? 0 then Ret (s, wlen)
  else
    let! (s, wlen) := iowrite s [10] in
    if wlen <? 0 then Ret (s, wlen) else Ret (s, 0).

(** [struct iovprintf_state] is the pair of the object and [err]. *)
Definition iovprintf_putc (c : Z) (st : S * Z) : outcome (S * Z) :=
  let (s, err) := st in
  if err =? 0 then
    let! (s, result) := ioputc s c in
    Ret (s, if result <? 0 then result else err)
  else Ret (s, err).

Definition iovprintf (s : S) (fmt : list Z) (ap : list varg) : outcome (S * Z) :=
  let! (nout, st) := vgprintf iovprintf_putc (s, 0) fmt ap in
  let (s, err) := st in
  Ret (s, if negb (err =? 0) then err else nout).

Definition ioprintf (s : S) (fmt : list Z) (ap : list varg) : outcome (S * Z) :=
  iovprintf s fmt ap.
End Generic.

(** * Contracts

    io.h: a read may return fewer bytes than asked but at least one, and 0
    only at the end of the data; likewise for writes, where 0 means that the
    object cannot grow. *)

Class IoSource {S : Type} (read : S -> Z -> outcome (S * Z * list Z)) := {
  src_wf : S -> Prop;
  src_rest : S -> list Z;
  src_read : forall s n, src_wf s -> 0 < n ->
    exists s' k, read s n = Ret (s', Z.of_nat k, take k (src_rest s)) /\
      src_wf s' /\ src_rest s' = drop k (src_rest s) /\
      (k <= length (src_rest s))%nat /\ Z.of_nat k <= n /\ (src_rest s <> [] -> (0 < k)%nat);
}.

(** [sink_cap s] is how many bytes the object still takes, if bounded. *)
Class IoSink {S : Type} (write : S -> list Z -> outcome (S * Z)) := {
  sink_wf : S -> Prop;
  sink_log : S -> list Z;
  sink_cap : S -> option nat;
  sink_write : forall s d, sink_wf s -> d <> [] ->
    exists s' k, write s d = Ret (s', Z.of_nat k) /\
      sink_wf s' /\ sink_log s' = sink_log s ++ take k d /\
      (k <= length d)%nat /\
      match sink_cap s with
      | None => sink_cap s' = None /\ (0 < k)%nat
      | Some c => sink_cap s' = Some (c - k)%nat /\ (k <= c)%nat /\ ((0 < c)%nat -> (0 < k)%nat)
      end;
}.

(** What a sink takes of [d]. *)
Definition cut (cap : option nat) (d : list Z) : list Z :=
  match cap with None => d | Some c => take c d end.

(** * Lemmas *)

Section SourceLemmas.
Context {S : Type} (read : S -> Z -> outcome (S * Z * list Z)) `{IoSource S read}.

Lemma ioread_full_loop_spec fuel s buf bufsz acc :
  src_wf s -> 0 <= acc <= bufsz -> bufsz <= Z.of_nat (length buf) ->
  (Z.to_nat (bufsz - acc) < fuel)%nat ->
  exists s', let d := take (Z.to_nat (bufsz - acc)) (src_rest s) in
    ioread_full_loop fuel read s buf bufsz acc
    = Ret (s', acc + Z.of_nat (length d), splice buf (Z.to_nat acc) d) /\
    src_wf s' /\ src_rest s' = drop (length d) (src_rest s).
Proof.
  revert s buf acc; induction fuel as [|fuel IH]; intros s buf acc Hwf Hacc Hbuf Hf; [lia|].
  cbn [ioread_full_loop]. destruct (acc <? bufsz) eqn:E.
  2:{ exists s. replace (Z.to_nat (bufsz - acc)) with 0%nat by lia.
      cbv zeta. rewrite take_0. cbn. by rewrite Z.add_0_r, splice_nil, drop_0. }
  destruct (src_read s (bufsz - acc) Hwf) as (s1 & k & -> & Hwf1 & Hr1 & Hk & Hkn & Hpos); [lia|].
  cbn [obind]. rewrite put_block_Ret by (rewrite ?length_take; lia). cbn [obind].
  destruct (Z.of_nat k <? 0) eqn:E1; [lia|]. destruct (Z.of_nat k =? 0) eqn:E2.
  - assert (k = 0%nat) as -> by lia.
    assert (Hnil : src_rest s = []) by (destruct (src_rest s); [done|]; exfalso; specialize (Hpos ltac:(done)); lia).
    exists s1. cbv zeta. rewrite Hr1, Hnil, !take_nil, !drop_nil. change (length []) with 0%nat.
    by rewrite Z.add_0_r.
  - assert (Hls : length (splice buf (Z.to_nat acc) (take k (src_rest s))) = length buf)
      by (apply length_splice; rewrite length_take; lia).
    destruct (IH s1 (splice buf (Z.to_nat acc) (take k (src_rest s))) (acc + Z.of_nat k))
      as (s2 & -> & Hwf2 & Hr2); [done|lia|lia|lia|].
    exists s2. rewrite Hr1 in *.
    assert (Hd : take (Z.to_nat (bufsz - acc)) (src_rest s)
               = take k (src_rest s) ++ take (Z.to_nat (bufsz - (acc + Z.of_nat k))) (drop k (src_rest s))).
    { rewrite <- take_add. f_equal. lia. }
    cbv zeta. rewrite Hd, length_app, (length_take_le _ k) by lia.
    split_and!; [|done|by rewrite Hr2, drop_drop].
    f_equal. f_equal; [f_equal; lia|].
    replace (Z.to_nat (acc + Z.of_nat k)) with (Z.to_nat acc + length (take k (src_rest s)))%nat
      by (rewrite length_take; lia).
    rewrite splice_splice; [done|]. rewrite !length_take, length_drop. lia.
Qed.
End SourceLemmas.

Section SinkLemmas.
Context {S : Type} (ops : io_ops S) (write : S -> list Z -> outcome (S * Z)) `{IoSink S write}.

Lemma iowrite_loop_spec fuel s buf acc :
  sink_wf s -> 0 <= acc <= Z.of_nat (length buf) ->
  (Z.to_nat (Z.of_nat (length buf) - acc) < fuel)%nat ->
  exists s', let d := cut (sink_cap s) (drop (Z.to_nat acc) buf) in
    iowrite_loop fuel write s buf acc = Ret (s', acc + Z.of_nat (length d)) /\
    sink_wf s' /\ sink_log s' = sink_log s ++ d /\
    sink_cap s' = option_map (fun c => c - length d)%nat (sink_cap s).
Proof.
  revert s acc; induction fuel as [|fuel IH]; intros s acc Hwf Hacc Hf; [lia|].
  cbn [iowrite_loop]. destruct (acc <? Z.of_nat (length buf)) eqn:E.
  2:{ exists s. rewrite (drop_ge buf) by lia. cbv zeta.
      replace (cut (sink_cap s) []) with ([] : list Z) by (destruct (sink_cap s); cbn; by rewrite ?take_nil).
      cbn. rewrite Z.add_0_r, app_nil_r. split_and!; auto.
      destruct (sink_cap s); cbn; [by rewrite Nat.sub_0_r|done]. }
  set (d := drop (Z.to_nat acc) buf).
  assert (Hd : length d = Z.to_nat (Z.of_nat (length buf) - acc)) by (unfold d; rewrite length_drop; lia).
  destruct (sink_write s d Hwf) as (s1 & k & -> & Hwf1 & Hl1 & Hk & Hcap).
  { intros Hn. rewrite Hn in Hd. cbn in Hd. lia. }
  cbn [obind]. destruct (Z.of_nat k <? 0) eqn:E1; [lia|].
  destruct (Z.of_nat k =? 0) eqn:E2.
  - assert (k = 0%nat) as -> by lia.
    destruct (sink_cap s) as [c|]; [|lia]. destruct Hcap as (Hc & _ & Hc0).
    assert (c = 0%nat) as -> by lia.
    exists s1. cbn. rewrite Z.add_0_r. split_and!; auto.
  - destruct (IH s1 (acc + Z.of_nat k)) as (s2 & -> & Hwf2 & Hl2 & Hc2); auto; [lia|lia|].
    exists s2. cbv zeta in *.
    assert (Hdr : drop (Z.to_nat (acc + Z.of_nat k)) buf = drop k d)
      by (unfold d; rewrite drop_drop; f_equal; lia).
    rewrite Hdr in *.
    assert (Hcut : cut (sink_cap s) d = take k d ++ cut (sink_cap s1) (drop k d)).
    { destruct (sink_cap s) as [c|]; cbn in Hcap.
      - destruct Hcap as (-> & ? & ?). cbn. rewrite <- take_add. f_equal. lia.
      - destruct Hcap as (-> & ?). cbn. by rewrite take_drop. }
    rewrite Hcut, length_app, (length_take_le d k) by lia. split_and!; auto.
    + do 2 f_equal. lia.
    + by rewrite Hl2, Hl1, <- app_assoc.
    + rewrite Hc2. destruct (sink_cap s) as [c|]; cbn in Hcap.
      * destruct Hcap as (-> & ? & ?). cbn. f_equal. lia.
      * destruct Hcap as (-> & ?). done.
Qed.

Lemma iowrite_spec s buf :
  op_write ops = Some write -> sink_wf s ->
  exists s', let d := cut (sink_cap s) buf in
    iowrite ops s buf = Ret (s', Z.of_nat (length d)) /\
    sink_wf s' /\ sink_log s' = sink_log s ++ d /\
    sink_cap s' = option_map (fun c => c - length d)%nat (sink_cap s).
Proof.
  intros Hw Hwf. unfold iowrite. rewrite Hw.
  destruct (iowrite_loop_spec (Datatypes.S (length buf)) s buf 0) as (s' & Hr); [done|lia|lia|].
  exists s'. rewrite Z2Nat.inj_0, drop_0 in Hr. apply Hr.
Qed.

(** Unbounded sinks take everything. *)
Lemma iowrite_unbounded s buf :
  op_write ops = Some write -> sink_wf s -> sink_cap s = None ->
  exists s', iowrite ops s buf = Ret (s', Z.of_nat (length buf)) /\
    sink_wf s' /\ sink_log s' = sink_log s ++ buf /\ sink_cap s' = None.
Proof.
  intros Hw Hwf Hc. destruct (iowrite_spec s buf Hw Hwf) as (s' & Hr).
  rewrite Hc in Hr. exists s'. apply Hr.
Qed.

Lemma ioputc_unbounded s c :
  op_write ops = Some write -> sink_wf s -> sink_cap s = None ->
  exists s', ioputc ops s c = Ret (s', u8 c) /\
    sink_wf s' /\ sink_log s' = sink_log s ++ [c] /\ sink_cap s' = None.
Proof.
  intros Hw Hwf Hc. destruct (iowrite_unbounded s [c] Hw Hwf Hc) as (s' & Hr & ?).
  exists s'. unfold ioputc. rewrite Hr. done.
Qed.

Lemma puts_iovprintf s out :
  op_write ops = Some write -> sink_wf s -> sink_cap s = None ->
  exists s', puts (iovprintf_putc ops) out (s, 0) = Ret (s', 0) /\
    sink_wf s' /\ sink_log s' = sink_log s ++ out /\ sink_cap s' = None.
Proof.
  intros Hw. revert s; induction out as [|c out IH]; intros s Hwf Hc; cbn [puts].
  { exists s. by rewrite app_nil_r. }
  destruct (ioputc_unbounded s c Hw Hwf Hc) as (s1 & H1 & Hwf1 & Hl1 & Hc1).
  cbn [iovprintf_putc Z.eqb]. rewrite H1. cbn [obind].
  pose proof (u8_range c). destruct (u8 c <? 0) eqn:E; [lia|].
  destruct (IH s1 Hwf1 Hc1) as (s2 & -> & Hwf2 & Hl2 & Hc2).
  exists s2. split_and!; auto. rewrite Hl2, Hl1, <- app_assoc. done.
Qed.
End SinkLemmas.

(** * Properties *)

(** On any object whose [read] keeps the contract of io.h, [ioread_full]
    terminates, fills the buffer with the next [bufsz] bytes of the object (or
    all that are left, at the end of file), leaves the rest of the buffer
    alone, advances the object by exactly what it stored and returns that
    count. *)
Theorem ioread_full_complete {S} (ops : io_ops S) read `{IoSource S read} s buf bufsz :
  op_read ops = Some read -> src_wf s -> 0 <= bufsz <= Z.of_nat (length buf) ->
  exists s', let d := take (Z.to_nat bufsz) (src_rest s) in
    ioread_full ops s buf bufsz = Ret (s', Z.of_nat (length d), splice buf 0 d) /\
    src_wf s' /\ src_rest s' = drop (length d) (src_rest s).
Proof.
  intros Hr Hwf Hsz. unfold ioread_full. rewrite Hr.
  destruct (ioread_full_loop_spec read (Datatypes.S (Z.to_nat bufsz)) s buf bufsz 0)
    as (s' & Hs'); [done|lia|lia|lia|].
  exists s'. rewrite Z.sub_0_r, Z2Nat.inj_0 in Hs'. apply Hs'.
Qed.

(** On any object whose [write] keeps the contract of io.h, however small
    its partial writes, [iowrite] terminates, hands over exactly the given
    bytes in order (up to what a bounded object still takes) and returns how
    many were taken. *)
Theorem iowrite_complete {S} (ops : io_ops S) write `{IoSink S write} s buf :
  op_write ops = Some write -> sink_wf s ->
  exists s', let d := cut (sink_cap s) buf in
    iowrite ops s buf = Ret (s', Z.of_nat (length d)) /\
    sink_wf s' /\ sink_log s' = sink_log s ++ d /\
    sink_cap s' = option_map (fun c => c - length d)%nat (sink_cap s).
Proof. apply (iowrite_spec ops write). Qed.

(** Formatted output to an object that takes every byte writes exactly the
    text the format denotes, reports no error and returns its length. *)
Theorem iovprintf_complete {S} (ops : io_ops S) write `{IoSink S write} s fmt ap n out :
  op_write ops = Some write -> sink_wf s -> sink_cap s = None -> text fmt ap = Ret (n, out) ->
  exists s', iovprintf ops s fmt ap = Ret (s', u64 (Z.of_nat (length out))) /\
    sink_log s' = sink_log s ++ out.
Proof.
  intros Hw Hwf Hc Ht. destruct (puts_iovprintf ops write s out Hw Hwf Hc) as (s' & Hp & _ & Hl & _).
  exists s'. unfold iovprintf. rewrite (vgprintf_text _ _ _ _ n out Ht), Hp. cbn [obind Z.eqb negb].
  by rewrite (text_length _ _ _ _ Ht).
Qed.
