(* ===== verification/IoLit.v ===== *)
(** I/O literals (src/src/kern/io.c, [iolit_*] and [lit_*]): a block of memory
    used as a file.  The object satisfies the source and sink contracts of
    IoIntf as long as its position is within its size and its size within the
    block. *)

From Stdlib Require Import Ascii String.
From S2P Require Import Prelude KString IoIntf.

(** [struct io_lit]: [lit_ops] tells whether [io_intf.ops] is set, [lit_buf] is
    the block [buf] points to. *)
Record io_lit := {
  lit_ops : bool;
  lit_buf : option (list Z);
  lit_size : Z;
  lit_pos : Z;
}.

(** [*((uint32_t* )arg) = v] on a 64-bit little-endian cell. *)
Definition set_lo32 (cell v : Z) : Z := cell / 2 ^ 32 * 2 ^ 32 + u32 v.

Definition iolit_init (lit : io_lit) (buf : list Z) (size : Z) : io_lit :=
  {| lit_ops := true; lit_buf := Some buf; lit_size := size; lit_pos := 0 |}.

Definition iolit_close (lit : io_lit) : outcome io_lit :=
  Ret {| lit_ops := false; lit_buf := None; lit_size := 0; lit_pos := 0 |}.

Definition set_lit_pos (lit : io_lit) (pos : Z) : io_lit :=
  {| lit_ops := lit_ops lit; lit_buf := lit_buf lit; lit_size := lit_size lit; lit_pos := pos |}.
Definition set_lit_size (lit : io_lit) (size : Z) : io_lit :=
  {| lit_ops := lit_ops lit; lit_buf := lit_buf lit; lit_size := size; lit_pos := lit_pos lit |}.
Definition set_lit_buf (lit : io_lit) (buf : list Z) : io_lit :=
  {| lit_ops := lit_ops lit; lit_buf := Some buf; lit_size := lit_size lit; lit_pos := lit_pos lit |}.

(** [nullbuf] tells whether the caller's [buf] is null. *)
Definition iolit_read (nullbuf : bool) (lit : io_lit) (bufsz : Z) : outcome (io_lit * Z * list Z) :=
  if nullbuf || (bufsz =? 0) then Ret (lit, - EINVAL, [])
  else
    let bytes_remaining := u64 (lit_size lit - lit_pos lit) in
    let bytes_to_read := if bufsz <? bytes_remaining then bufsz else bytes_remaining in
    match lit_buf lit with
    | None => Fault
    | Some b =>
        let! data := get_block b (lit_pos lit) bytes_to_read in
        Ret (set_lit_pos lit (u64 (lit_pos lit + bytes_to_read)), bytes_to_read, data)
    end.

Definition iolit_write (nullbuf : bool) (lit : io_lit) (buf : list Z) : outcome (io_lit * Z) :=
  let n := Z.of_nat (length buf) in
  if nullbuf || (n =? 0) then Ret (lit, - EINVAL)
  else
    let bytes_remaining := u64 (lit_size lit - lit_pos lit) in
    let bytes_to_write := if n <? bytes_remaining then n else bytes_remaining in
    match lit_buf lit with
    | None => Fault
    | Some b =>
        let! data := get_block buf 0 bytes_to_write in
        let! b := put_block b (lit_pos lit) data in
        Ret (set_lit_pos (set_lit_buf lit b) (u64 (lit_pos lit + bytes_to_write)), bytes_to_write)
    end.

Definition lit_setlen (lit : io_lit) (arg : ioarg) : io_lit * Z * ioarg :=
  match arg with
  | None => (lit, - EINVAL, None)
  | Some v => (set_lit_size lit (u32 v), 0, Some v)
  end.

Definition lit_getlen (lit : io_lit) (arg : ioarg) : io_lit * Z * ioarg :=
  match arg with
  | None => (lit, - EINVAL, None)
  | Some v => (lit, 0, Some (set_lo32 v (lit_size lit)))
  end.

Definition lit_getpos (lit : io_lit) (arg : ioarg) : io_lit * Z * ioarg :=
  match arg with
  | None => (lit, - EINVAL, None)
  | Some v => (lit, 0, Some (set_lo32 v (lit_pos lit)))
  end.

Definition lit_setpos (lit : io_lit) (arg : ioarg) : io_lit * Z * ioarg :=
  match arg with
  | None => (lit, - EINVAL, None)
  | Some v =>
      if lit_size lit <? u32 v then (lit, - EINVAL, Some v)
      else (set_lit_pos lit (u32 v), 0, Some v)
  end.

Definition iolit_ioctl (lit : io_lit) (cmd : Z) (arg : ioarg) : outcome (io_lit * Z * ioarg) :=
  match arg with
  | None => Ret (lit, - EINVAL, None)
  | Some _ =>
      Ret (if cmd =? IOCTL_SETLEN then lit_setlen lit arg
           else if cmd =? IOCTL_GETLEN then lit_getlen lit arg
           else if cmd =? IOCTL_GETPOS then lit_getpos lit arg
           else if cmd =? IOCTL_SETPOS then lit_setpos lit arg
           else (lit, - ENOTSUP, arg))
  end.

(** The static [ops] table of io.c. *)
Definition iolit_ops : io_ops io_lit := {|
  op_close := Some iolit_close;
  op_read := Some (iolit_read false);
  op_write := Some (iolit_write false);
  op_ctl := Some iolit_ioctl;
|}.

(** * Invariant *)

(** The position is within the size and the size within the block. *)
Definition lit_wf (lit : io_lit) : Prop :=
  match lit_buf lit with
  | None => False
  | Some b => 0 <= lit_pos lit <= lit_size lit /\ lit_size lit <= Z.of_nat (length b) /\ lit_size lit < 2 ^ 64
  end.

(** The block as a byte list, and the bytes still to read. *)
Definition lit_data (lit : io_lit) : list Z := default [] (lit_buf lit).
Definition lit_rest (lit : io_lit) : list Z :=
  drop (Z.to_nat (lit_pos lit)) (take (Z.to_nat (lit_size lit)) (lit_data lit)).

Lemma iolit_read_wf lit n :
  lit_wf lit -> 0 < n ->
  exists k, iolit_read false lit n = Ret (set_lit_pos lit (lit_pos lit + Z.of_nat k), Z.of_nat k, take k (lit_rest lit)) /\
    Z.of_nat k = Z.min n (lit_size lit - lit_pos lit) /\ lit_wf (set_lit_pos lit (lit_pos lit + Z.of_nat k)).
Proof.
  unfold lit_wf, iolit_read, lit_rest, lit_data. destruct (lit_buf lit) as [b|] eqn:Hb; [|done].
  intros (Hp & Hs & Hw) Hn. rewrite u64_small by lia.
  destruct (Z.eqb_spec n 0); [lia|]. cbn [orb].
  set (m := if n <? _ then _ else _). assert (Hm : m = Z.min n (lit_size lit - lit_pos lit)) by (unfold m; kcase; lia).
  exists (Z.to_nat m). rewrite get_block_Ret by lia. cbn [obind].
  rewrite u64_small, Z2Nat.id by lia. cbn [default set_lit_pos lit_buf lit_pos lit_size]. rewrite Hb.
  split_and!; try lia. do 2 f_equal.
  rewrite !take_drop_commute, take_take. do 2 f_equal. lia.
Qed.

Lemma iolit_write_wf lit b d :
  lit_wf lit -> lit_buf lit = Some b -> d <> [] ->
  exists k, let b' := splice b (Z.to_nat (lit_pos lit)) (take k d) in
    let lit' := set_lit_pos (set_lit_buf lit b') (lit_pos lit + Z.of_nat k) in
    iolit_write false lit d = Ret (lit', Z.of_nat k) /\
    Z.of_nat k = Z.min (Z.of_nat (length d)) (lit_size lit - lit_pos lit) /\ lit_wf lit'.
Proof.
  unfold lit_wf, iolit_write. intros Hwf Hb Hd. rewrite Hb in *. destruct Hwf as (Hp & Hs & Hw).
  assert (0 < length d)%nat by (destruct d; cbn; [done|lia]).
  rewrite u64_small by lia. destruct (Z.eqb_spec (Z.of_nat (length d)) 0); [lia|]. cbn [orb].
  set (m := if Z.of_nat (length d) <? _ then _ else _).
  assert (Hm : m = Z.min (Z.of_nat (length d)) (lit_size lit - lit_pos lit)) by (unfold m; kcase; lia).
  exists (Z.to_nat m). cbv zeta.
  rewrite get_block_Ret by lia. cbn [obind]. rewrite Z2Nat.inj_0, drop_0.
  rewrite put_block_Ret by (rewrite ?length_take; lia). cbn [obind].
  rewrite u64_small, Z2Nat.id by lia.
  cbn [set_lit_pos set_lit_buf lit_buf lit_pos lit_size].
  rewrite length_splice by (rewrite length_take; lia). split_and!; done || lia.
Qed.

(** * Contracts *)

#[export, program] Instance lit_source : IoSource (iolit_read false) := {
  src_wf := lit_wf;
  src_rest := lit_rest;
}.
Next Obligation.
  intros lit n Hwf Hn. destruct (iolit_read_wf lit n Hwf Hn) as (k & Hr & Hk & Hwf').
  assert (Hl : length (lit_rest lit) = Z.to_nat (lit_size lit - lit_pos lit)).
  { unfold lit_wf, lit_rest, lit_data in *. destruct (lit_buf lit); [|done]. cbn.
    rewrite length_drop, length_take. lia. }
  assert (0 <= lit_pos lit <= lit_size lit) by (unfold lit_wf in Hwf; destruct (lit_buf lit); [lia|done]).
  eexists _, k. split_and!; [exact Hr|done| |lia|lia|].
  - unfold lit_rest, lit_data. cbn. rewrite drop_drop. f_equal. lia.
  - intros Hne. destruct (lit_rest lit); [done|]. cbn in Hl. lia.
Qed.

#[export, program] Instance lit_sink : IoSink (iolit_write false) := {
  sink_wf := lit_wf;
  sink_log lit := take (Z.to_nat (lit_pos lit)) (lit_data lit);
  sink_cap lit := Some (Z.to_nat (lit_size lit - lit_pos lit));
}.
Next Obligation.
  intros lit d Hwf Hd. destruct (lit_buf lit) as [b|] eqn:Hb; [|unfold lit_wf in Hwf; by rewrite Hb in Hwf].
  destruct (iolit_write_wf lit b d Hwf Hb Hd) as (k & Hr & Hk & Hwf').
  unfold lit_wf in Hwf. rewrite Hb in Hwf.
  assert (0 < length d)%nat by (destruct d; cbn; [done|lia]).
  eexists _, k. split_and!; [exact Hr|done| |lia|cbn; f_equal; lia|lia|lia].
  unfold lit_data. cbn. rewrite Hb. cbn.
  replace (Z.to_nat (lit_pos lit + Z.of_nat k)) with (Z.to_nat (lit_pos lit) + k)%nat by lia.
  assert (Hkl : length (take k d) = k) by (rewrite length_take; lia).
  rewrite take_add, take_splice by lia. f_equal.
  rewrite <- Hkl at 1. apply splice_mid. lia.
Qed.

(** * Properties *)

(** A call through the operation table. *)
Inductive lit_call :=
| LitRead (bufsz : Z)
| LitWrite (buf : list Z)
| LitCtl (cmd : Z) (arg : ioarg).

Definition lit_run (lit : io_lit) (c : lit_call) : outcome io_lit :=
  match c with
  | LitRead n => let! (lit, _, _) := iolit_read false lit n in Ret lit
  | LitWrite d => let! (lit, _) := iolit_write false lit d in Ret lit
  | LitCtl cmd arg => let! (lit, _, _) := iolit_ioctl lit cmd arg in Ret lit
  end.

(** [IOCTL_SETLEN] is the one call that needs its argument checked by the
    caller; a read size is an unsigned long. *)
Definition lit_call_ok (lit : io_lit) (c : lit_call) : Prop :=
  match c with
  | LitRead n => 0 <= n
  | LitWrite _ => True
  | LitCtl cmd arg =>
      forall v, cmd = IOCTL_SETLEN -> arg = Some v ->
        lit_pos lit <= u32 v <= Z.of_nat (length (lit_data lit))
  end.

(** C39: from a well-formed literal no read, write or ioctl touches memory
    outside the block, and the literal stays well formed, provided
    [IOCTL_SETLEN] keeps the length between the position and the block. *)
Theorem iolit_safe lit c :
  lit_wf lit -> lit_call_ok lit c -> exists lit', lit_run lit c = Ret lit' /\ lit_wf lit'.
Proof.
  intros Hwf Hc. assert (Hwf0 := Hwf). unfold lit_wf in Hwf0.
  destruct (lit_buf lit) as [b|] eqn:Hb; [|done]. destruct c as [n|d|cmd arg]; cbn [lit_run].
  - destruct (decide (n = 0)) as [->|Hn]; [exists lit; done|].
    destruct (iolit_read_wf lit n) as (k & -> & _ & ?); [done|cbn in Hc; lia|]. eauto.
  - destruct (decide (d = [])) as [->|Hd]; [exists lit; done|].
    destruct (iolit_write_wf lit b d Hwf Hb Hd) as (k & -> & _ & ?). eauto.
  - cbn in Hc. unfold iolit_ioctl. destruct arg as [v|]; [|eauto].
    pose proof (u32_range v) as Hv.
    destruct (Z.eqb_spec cmd IOCTL_SETLEN) as [->|].
    { specialize (Hc v eq_refl eq_refl). unfold lit_data in Hc. rewrite Hb in Hc. cbn in *.
      eexists. split; [done|]. unfold lit_wf. cbn. rewrite Hb. lia. }
    destruct (cmd =? IOCTL_GETLEN); [eauto|]. destruct (cmd =? IOCTL_GETPOS); [eauto|].
    destruct (cmd =? IOCTL_SETPOS); [|eauto]. cbn.
    destruct (lit_size lit <? u32 v) eqn:E; [eauto|].
    eexists. split; [done|]. unfold lit_wf. cbn. rewrite Hb. lia.
Qed.

Definition lit_demo : io_lit := iolit_init {| lit_ops := false; lit_buf := None; lit_size := 0; lit_pos := 0 |}
  [1; 2; 3; 4; 5; 6; 7; 8] 8.

Lemma iolit_safe_witness :
  exists lit', lit_run lit_demo (LitWrite [9; 9; 9]) = Ret lit' /\ lit_wf lit'.
Proof. apply (iolit_safe lit_demo (LitWrite [9; 9; 9])); [cbn; lia|done]. Defined.

(** [IOCTL_SETLEN] below the position breaks the invariant: the remaining byte
    count wraps around and the next read leaves the block. *)
Example iolit_setlen_overread :
  (let! (lit, _, _) := iolit_read false lit_demo 4 in
   let! (lit, r, _) := iolit_ioctl lit IOCTL_SETLEN (Some 2) in
   assert! r =? 0 in
   iolit_read false lit 8) = Fault.
Proof. vm_compute. reflexivity. Qed.

(** Data written to a literal with [iowrite] is what [ioread_full] returns
    after seeking back to where it was written. *)
Theorem iolit_write_read lit d buf :
  lit_wf lit -> lit_pos lit < 2 ^ 32 ->
  Z.of_nat (length d) <= lit_size lit - lit_pos lit -> length buf = length d ->
  exists lit',
    (let! (lit1, n) := iowrite iolit_ops lit d in
     assert! n =? Z.of_nat (length d) in
     let! (lit2, r) := ioseek iolit_ops lit1 (lit_pos lit) in
     assert! r =? 0 in
     ioread_full iolit_ops lit2 buf (Z.of_nat (length d)))
    = Ret (lit', Z.of_nat (length d), d).
Proof.
  intros Hwf Hp Hd Hbuf.
  destruct (iowrite_spec iolit_ops (iolit_write false) lit d) as (l1 & -> & Hwf1 & Hlog & Hcap);
    [done|done|].
  assert (Hcut : cut (sink_cap lit) d = d) by (cbn; apply take_ge; lia).
  rewrite Hcut in *. cbn [obind]. rewrite Z.eqb_refl.
  cbn [sink_cap sink_log sink_wf lit_sink option_map] in *. injection Hcap as Hcap.
  assert (Hw : 0 <= lit_pos lit) by (unfold lit_wf in Hwf; destruct (lit_buf lit); [lia|done]).
  assert (Hb1 : 0 <= lit_pos l1 <= lit_size l1 /\ lit_size l1 <= Z.of_nat (length (lit_data l1)))
    by (unfold lit_wf, lit_data in *; destruct (lit_buf l1); cbn; [lia|done]).
  assert (Hl := f_equal length Hlog). rewrite length_app, !length_take in Hl.
  assert (Hlit : (Z.to_nat (lit_pos lit) <= length (lit_data lit))%nat)
    by (unfold lit_wf, lit_data in *; destruct (lit_buf lit); cbn; [lia|done]).
  unfold ioseek, ioctl. cbn [iolit_ops op_ctl]. unfold iolit_ioctl. cbn [Z.eqb IOCTL_SETPOS IOCTL_SETLEN IOCTL_GETLEN IOCTL_GETPOS Pos.eqb].
  unfold lit_setpos. rewrite (u32_small (lit_pos lit)) by lia.
  destruct (lit_size l1 <? lit_pos lit) eqn:E; [lia|]. cbn [obind]. rewrite Z.eqb_refl.
  set (l2 := set_lit_pos l1 (lit_pos lit)).
  assert (Hwf2 : lit_wf l2)
    by (unfold l2, lit_wf in *; cbn; destruct (lit_buf l1); [lia|done]).
  destruct (ioread_full_loop_spec (iolit_read false) (S (length d)) l2 buf (Z.of_nat (length d)) 0)
    as (l3 & Hr & _); [done|lia|lia|lia|].
  exists l3. unfold ioread_full. cbn [iolit_ops op_read]. rewrite Nat2Z.id, Hr.
  cbn [src_rest lit_source]. rewrite Z.sub_0_r, Nat2Z.id, Z.add_0_l, Z2Nat.inj_0.
  assert (Hrest : take (length d) (lit_rest l2) = d).
  { unfold lit_rest, l2, lit_data in *. cbn [set_lit_pos lit_pos lit_size lit_buf].
    rewrite take_drop_commute, take_take, Nat.min_l by lia.
    replace (Z.to_nat (lit_pos lit) + length d)%nat with (Z.to_nat (lit_pos l1)) by lia.
    rewrite Hlog, drop_app_length' by (rewrite length_take; lia). done. }
  rewrite Hrest. do 2 f_equal. unfold splice. rewrite take_0, drop_ge by lia. by rewrite app_nil_r.
Qed.

Lemma iolit_write_read_witness :
  exists lit',
    (let! (lit1, n) := iowrite iolit_ops lit_demo [7; 7] in
     assert! n =? Z.of_nat (length [7; 7]) in
     let! (lit2, r) := ioseek iolit_ops lit1 (lit_pos lit_demo) in
     assert! r =? 0 in
     ioread_full iolit_ops lit2 [0; 0] (Z.of_nat (length [7; 7])))
    = Ret (lit', Z.of_nat (length [7; 7]), [7; 7]).
Proof. apply (iolit_write_read lit_demo [7; 7] [0; 0]); [cbn; lia|cbn; lia|cbn; lia|reflexivity]. Defined.

(** * The generic theorems on a literal *)

Lemma ioread_full_complete_witness :
  exists s', let d := take 5 (lit_rest lit_demo) in
    ioread_full iolit_ops lit_demo [0; 0; 0; 0; 0; 0] 5 = Ret (s', Z.of_nat (length d), splice [0; 0; 0; 0; 0; 0] 0 d) /\
    lit_wf s' /\ lit_rest s' = drop (length d) (lit_rest lit_demo).
Proof.
  apply (@ioread_full_complete _ iolit_ops (iolit_read false) lit_source lit_demo [0; 0; 0; 0; 0; 0] 5);
    [reflexivity|cbn; lia|cbn; lia].
Defined.

Lemma iowrite_complete_witness :
  exists s', let d := cut (Some 8%nat) (chars "ten bytes!") in
    iowrite iolit_ops lit_demo (chars "ten bytes!") = Ret (s', Z.of_nat (length d)) /\
    lit_wf s' /\ take (Z.to_nat (lit_pos s')) (lit_data s') = [] ++ d /\
    Some (Z.to_nat (lit_size s' - lit_pos s')) = Some (8 - length d)%nat.
Proof.
  apply (@iowrite_complete _ iolit_ops (iolit_write false) lit_sink lit_demo (chars "ten bytes!"));
    [reflexivity|cbn; lia].
Defined.
