(* ===== verification/IoTerm.v ===== *)
(** Terminal I/O objects (src/src/kern/io.c, [ioterm_*]): newline conversion in
    both directions around a raw object and line editing.

    The two-pointer loops of [ioterm_read] and [ioterm_write] are modelled as
    they are written and shown equal to the one-bit automata that the comment
    before [ioterm_init] specifies. *)

From Stdlib Require Import Ascii String.
From S2P Require Import Prelude KString IoIntf.

Definition CR : Z := 13.
Definition LF : Z := 10.

(** [struct io_term]; the two [int8_t] flags hold 0 or 1. *)
Record io_term (S : Type) := { iot_raw : S; iot_cr_out : bool; iot_cr_in : bool }.
Arguments iot_raw {S} _.
Arguments iot_cr_out {S} _.
Arguments iot_cr_in {S} _.
Arguments Build_io_term {S} _ _ _.

(** One turn of the scan loop of [ioterm_read]: what is stored at [wp], if
    anything, and the new [cr_in]. *)
Definition scan_in_step (cr_in : bool) (ch : Z) : option Z * bool :=
  if cr_in then
    if ch =? CR then (Some LF, true)
    else if ch =? LF then (None, false)
    else (Some ch, false)
  else
    if ch =? CR then (Some LF, true) else (Some ch, false).

(** The scan: [rp] and [wp] index the buffer, of which the first [cnt] bytes
    were read; the recursion is on the bytes left. *)
Fixpoint scan_in (left : nat) (buf : list Z) (rp wp : nat) (cr_in : bool)
  : outcome (list Z * nat * bool) :=
  match left with
  | O => Ret (buf, wp, cr_in)
  | S left' =>
      let! ch := load buf (Z.of_nat rp) in
      let (st, cr_in) := scan_in_step cr_in ch in
      match st with
      | Some x =>
          let! buf := store buf (Z.of_nat wp) x in scan_in left' buf (S rp) (S wp) cr_in
      | None => scan_in left' buf (S rp) wp cr_in
      end
  end.

(** [raw_close] is [ioclose] of the raw object, whose reference count is kept
    with its state. *)
Section Term.
Context {S : Type} (raw : io_ops S) (raw_close : S -> outcome S).

Definition ioterm_init (rawio : S) : io_term S := Build_io_term rawio false false.

(** [fuel] bounds the turns of the outer do-while loop. *)
Fixpoint ioterm_read (fuel : nat) (iot : io_term S) (len : Z)
  : outcome (io_term S * Z * list Z) :=
  match fuel with
  | O => NoFuel
  | Datatypes.S fuel' =>
      let! (s, cnt, bs) := ioread raw (iot_raw iot) len in
      if cnt <? 0 then Ret (Build_io_term s (iot_cr_out iot) (iot_cr_in iot), cnt, bs)
      else
        let! (buf, wp, cr) := scan_in (Z.to_nat cnt) bs 0 0 (iot_cr_in iot) in
        let iot := Build_io_term s (iot_cr_out iot) cr in
        if (wp =? 0)%nat then ioterm_read fuel' iot len
        else Ret (iot, Z.of_nat wp, buf)
  end.

(** The statements [cnt = iowrite(iot->rawio, wp, upto - wp); if (cnt < 0)
    return cnt; else if (cnt == 0) return acc; acc += cnt; wp += cnt;], which
    occur three times; [Some r] is a return of [r]. *)
Definition drain (iot : io_term S) (buf : list Z) (acc : Z) (wp upto : nat)
  : outcome (io_term S * Z * nat * option Z) :=
  let! (s, cnt) := iowrite raw (iot_raw iot) (take (upto - wp) (drop wp buf)) in
  let iot := Build_io_term s (iot_cr_out iot) (iot_cr_in iot) in
  if cnt <? 0 then Ret (iot, acc, wp, Some cnt)
  else if cnt =? 0 then Ret (iot, acc, wp, Some acc)
  else Ret (iot, acc + cnt, (wp + Z.to_nat cnt)%nat, None).

Definition set_cr_out (iot : io_term S) (cr : bool) : io_term S :=
  Build_io_term (iot_raw iot) cr (iot_cr_in iot).

(** [ioputc(iot->rawio, c)] and the test of its result. *)
Definition echo (iot : io_term S) (c : Z) : outcome (io_term S * Z) :=
  let! (s, result) := ioputc raw (iot_raw iot) c in
  Ret (Build_io_term s (iot_cr_out iot) (iot_cr_in iot), result).

(** The loop of [ioterm_write] ends by falling out ([inr]) or by a return
    statement ([inl]). *)
Fixpoint ioterm_write_loop (fuel : nat) (iot : io_term S) (buf : list Z) (acc : Z) (wp rp : nat)
  : outcome (io_term S * Z + io_term S * Z * nat * nat) :=
  match fuel with
  | O => NoFuel
  | Datatypes.S fuel' =>
      if (length buf <=? rp)%nat then Ret (inr (iot, acc, wp, rp))
      else
        let! ch := load buf (Z.of_nat rp) in
        let rp := Datatypes.S rp in
        if ch =? CR then
          if bool_decide (buf !! rp = Some LF) then
            ioterm_write_loop fuel' (set_cr_out iot false) buf acc wp (Datatypes.S rp)
          else
            let! (iot, acc, wp, stop) := drain iot buf acc wp rp in
            match stop with
            | Some r => Ret (inl (iot, r))
            | None =>
                let! (iot, cnt) := echo iot LF in
                if cnt <? 0 then Ret (inl (iot, cnt))
                else ioterm_write_loop fuel' (set_cr_out iot true) buf acc wp rp
            end
        else if ch =? LF then
          if iot_cr_out iot then
            ioterm_write_loop fuel' (set_cr_out iot false) buf acc (Datatypes.S wp) rp
          else
            let! (iot, acc, wp, stop) :=
              if negb (wp =? rp - 1)%nat then drain iot buf acc wp (rp - 1)
              else Ret (iot, acc, wp, None) in
            match stop with
            | Some r => Ret (inl (iot, r))
            | None =>
                let! (iot, cnt) := echo iot CR in
                if cnt <? 0 then Ret (inl (iot, cnt))
                else ioterm_write_loop fuel' (set_cr_out iot false) buf acc wp rp
            end
        else ioterm_write_loop fuel' (set_cr_out iot false) buf acc wp rp
  end.

(** What follows the loop: the bytes between [wp] and [rp] are drained. *)
Definition ioterm_write_flush (buf : list Z) (r : io_term S * Z + io_term S * Z * nat * nat)
  : outcome (io_term S * Z) :=
  match r with
  | inl ret => Ret ret
  | inr (iot, acc, wp, rp) =>
      if negb (rp =? wp)%nat then
        let! (iot, acc, _, stop) := drain iot buf acc wp rp in
        Ret (iot, default acc stop)
      else Ret (iot, acc)
  end.

Definition ioterm_write (iot : io_term S) (buf : list Z) : outcome (io_term S * Z) :=
  let! r := ioterm_write_loop (Datatypes.S (length buf)) iot buf 0 0 0 in
  ioterm_write_flush buf r.

(** [ioclose(iot->rawio)] *)
Definition ioterm_close (iot : io_term S) : outcome (io_term S) :=
  let! s := raw_close (iot_raw iot) in Ret (Build_io_term s (iot_cr_out iot) (iot_cr_in iot)).

Definition ioterm_ioctl (iot : io_term S) (cmd : Z) (arg : ioarg)
  : outcome (io_term S * Z * ioarg) :=
  if negb (cmd =? IOCTL_SETPOS) then
    let! (s, r, arg) := ioctl raw (iot_raw iot) cmd arg in
    Ret (Build_io_term s (iot_cr_out iot) (iot_cr_in iot), r, arg)
  else Ret (iot, - ENOTSUP, arg).

(** The terminal as an I/O object; [fuel] bounds the retries of a read. *)
Definition ioterm_ops (fuel : nat) : io_ops (io_term S) := {|
  op_close := Some ioterm_close;
  op_read := Some (ioterm_read fuel);
  op_write := Some ioterm_write;
  op_ctl := Some ioterm_ioctl;
|}.

(** Echoes in sequence, up to the first failure. *)
Fixpoint echo_all (iot : io_term S) (cs : list Z) : outcome (io_term S * Z) :=
  match cs with
  | [] => Ret (iot, 0)
  | c :: cs' =>
      let! (iot, result) := echo iot c in
      if result <? 0 then Ret (iot, result) else echo_all iot cs'
  end.

(** Line input: [p] indexes [buf]; [None] is a null result. *)
Fixpoint getsn_loop (fuel rfuel : nat) (iot : io_term S) (buf : list Z) (p n : Z)
  : outcome (io_term S * option (list Z)) :=
  match fuel with
  | O => NoFuel
  | Datatypes.S fuel' =>
      let! (iot, r) := iogetc (ioterm_ops rfuel) iot in
      let c := u8 r in
      if c =? 91 (* '\133' *) then
        getsn_loop fuel' rfuel (Build_io_term (iot_raw iot) (iot_cr_out iot) false) buf p n
      else if (c =? CR) || (c =? LF) then
        let! (iot, result) := echo_all iot [CR; LF] in
        if result <? 0 then Ret (iot, None)
        else let! buf := store buf p 0 in Ret (iot, Some buf)
      else if (c =? 8) || (c =? 127) then
        if negb (p =? 0) then
          let! (iot, result) := echo_all iot [8; 32; 8] in
          if result <? 0 then Ret (iot, None)
          else getsn_loop fuel' rfuel iot buf (p - 1) (u64 (n + 1))
        else
          let! (iot, result) := echo iot 7 in
          if result <? 0 then Ret (iot, None) else getsn_loop fuel' rfuel iot buf p n
      else if 1 <? n then
        let! (iot, result) := echo iot c in
        let! buf := store buf p c in
        if result <? 0 then Ret (iot, None)
        else getsn_loop fuel' rfuel iot buf (p + 1) (n - 1)
      else
        let! (iot, result) := echo iot 7 in
        if result <? 0 then Ret (iot, None) else getsn_loop fuel' rfuel iot buf p n
  end.

Definition ioterm_getsn (fuel rfuel : nat) (iot : io_term S) (buf : list Z) (n : Z)
  : outcome (io_term S * option (list Z)) :=
  getsn_loop fuel rfuel iot buf 0 n.
End Term.

(** * Specification

    The automata of the comment before [ioterm_init]. *)

Fixpoint norm_in (cr : bool) (l : list Z) : list Z :=
  match l with
  | [] => []
  | ch :: l' =>
      match cr, ch =? CR, ch =? LF with
      | false, true, _ => LF :: norm_in true l'
      | false, false, _ => ch :: norm_in false l'
      | true, true, _ => LF :: norm_in true l'
      | true, false, true => norm_in false l'
      | true, false, false => ch :: norm_in false l'
      end
  end.

(** The flag after [l], in both directions: was the last character a CR? *)
Fixpoint last_cr (cr : bool) (l : list Z) : bool :=
  match l with
  | [] => cr
  | ch :: l' => last_cr (ch =? CR) l'
  end.

Fixpoint norm_out (cr : bool) (l : list Z) : list Z :=
  match l with
  | [] => []
  | ch :: l' =>
      match cr, ch =? CR, ch =? LF with
      | _, true, _ => CR :: LF :: norm_out true l'
      | false, false, true => CR :: LF :: norm_out false l'
      | true, false, true => norm_out false l'
      | _, false, false => ch :: norm_out false l'
      end
  end.

(** Feature 1 of the comment, stated on whole texts: every CR LF, lone CR and
    lone LF becomes one LF. *)
Fixpoint lines_to_lf (l : list Z) : list Z :=
  match l with
  | [] => []
  | ch :: l' =>
      if ch =? CR then
        match l' with
        | ch' :: l'' => if ch' =? LF then LF :: lines_to_lf l'' else LF :: lines_to_lf l'
        | [] => [LF]
        end
      else ch :: lines_to_lf l'
  end.

(** Feature 2: every CR LF, lone CR and lone LF becomes CR LF. *)
Fixpoint lines_to_crlf (l : list Z) : list Z :=
  match l with
  | [] => []
  | ch :: l' =>
      if ch =? CR then
        match l' with
        | ch' :: l'' => if ch' =? LF then CR :: LF :: lines_to_crlf l'' else CR :: LF :: lines_to_crlf l'
        | [] => [CR; LF]
        end
      else if ch =? LF then CR :: LF :: lines_to_crlf l'
      else ch :: lines_to_crlf l'
  end.

(** One key of the line editor on the line typed so far; [room] is the most
    characters the line may hold. *)
Definition edit_key (room : nat) (line : list Z) (c : Z) : list Z :=
  if c =? 91 then line
  else if (c =? 8) || (c =? 127) then take (length line - 1) line
  else if (length line <? room)%nat then line ++ [c] else line.

(** * Lemmas on the automata *)

Lemma norm_in_app cr l1 l2 : norm_in cr (l1 ++ l2) = norm_in cr l1 ++ norm_in (last_cr cr l1) l2.
Proof.
  revert cr; induction l1 as [|ch l1 IH]; intros cr; cbn; [done|].
  destruct cr, (Z.eqb_spec ch CR), (Z.eqb_spec ch LF); cbn; by rewrite IH.
Qed.

Lemma norm_out_app cr l1 l2 : norm_out cr (l1 ++ l2) = norm_out cr l1 ++ norm_out (last_cr cr l1) l2.
Proof.
  revert cr; induction l1 as [|ch l1 IH]; intros cr; cbn; [done|].
  destruct cr, (Z.eqb_spec ch CR), (Z.eqb_spec ch LF); cbn; by rewrite IH.
Qed.

Lemma last_cr_app cr l1 l2 : last_cr cr (l1 ++ l2) = last_cr (last_cr cr l1) l2.
Proof. revert cr; induction l1; intros cr; cbn; auto. Qed.

Lemma norm_in_length cr l : (length (norm_in cr l) <= length l)%nat.
Proof.
  revert cr; induction l as [|ch l IH]; intros cr; cbn; [lia|].
  destruct cr, (ch =? CR), (ch =? LF); cbn; pose proof (IH false); pose proof (IH true); lia.
Qed.

(** Only a lone LF after a CR is swallowed. *)
Lemma norm_in_nil cr l : norm_in cr l = [] -> l = [] \/ (l = [LF] /\ cr = true).
Proof.
  destruct l as [|ch l]; [by left|]. cbn.
  destruct cr, (Z.eqb_spec ch CR), (Z.eqb_spec ch LF); try done. subst. intros H.
  right. split; [|done]. f_equal. destruct l as [|c l]; [done|]. cbn in H.
  by destruct (c =? CR).
Qed.

Lemma norm_in_lines l : norm_in false l = lines_to_lf l /\
  norm_in true l = match l with ch :: l' => if ch =? LF then lines_to_lf l' else lines_to_lf l | [] => [] end.
Proof.
  induction l as [|ch l [IH1 IH2]]; [done|]. split; cbn.
  - destruct (Z.eqb_spec ch CR) as [->|]; [|by rewrite IH1].
    rewrite IH2. destruct l as [|c l]; [done|]. by destruct (c =? LF).
  - destruct (Z.eqb_spec ch CR) as [->|]; cbn.
    + rewrite IH2. destruct l as [|c l]; [done|]. by destruct (c =? LF).
    + destruct (Z.eqb_spec ch LF); by rewrite IH1.
Qed.

Lemma norm_out_lines l : norm_out false l = lines_to_crlf l /\
  norm_out true l = match l with ch :: l' => if ch =? LF then lines_to_crlf l' else lines_to_crlf l | [] => [] end.
Proof.
  induction l as [|ch l [IH1 IH2]]; [done|]. split; cbn.
  - destruct (Z.eqb_spec ch CR) as [->|]; [|by destruct (ch =? LF); rewrite IH1].
    rewrite IH2. destruct l as [|c l]; [done|]. by destruct (c =? LF).
  - destruct (Z.eqb_spec ch CR) as [->|]; cbn.
    + rewrite IH2. destruct l as [|c l]; [done|]. by destruct (c =? LF).
    + destruct (Z.eqb_spec ch LF); by rewrite IH1.
Qed.

(** The flag is set only after a converted line end. *)
Lemma last_cr_LF cr l : l <> [] -> last_cr cr l = true -> list.last (norm_in cr l) = Some LF.
Proof.
  destruct l as [|x l _] using rev_ind; [done|]. intros _. rewrite last_cr_app, norm_in_app. cbn.
  intros Hx. rewrite Hx. destruct (last_cr cr l), (x =? LF); by rewrite last_snoc.
Qed.

(** * Lemmas on the loops *)

Lemma scan_in_spec left buf rp wp cr :
  (wp <= rp)%nat -> (rp + left <= length buf)%nat ->
  let l := take left (drop rp buf) in
  scan_in left buf rp wp cr
  = Ret (splice buf wp (norm_in cr l), (wp + length (norm_in cr l))%nat, last_cr cr l).
Proof.
  revert buf rp wp cr; induction left as [|left IH]; intros buf rp wp cr Hw Hl; cbv zeta.
  { rewrite take_0. cbn. by rewrite splice_nil, Nat.add_0_r. }
  destruct (lookup_lt_is_Some_2 buf rp) as [ch Hch]; [lia|].
  assert (Hd : take (S left) (drop rp buf) = ch :: take left (drop (S rp) buf))
    by (by rewrite (drop_S _ _ _ Hch)).
  rewrite Hd. cbn [scan_in]. replace (load buf (Z.of_nat rp)) with (Ret ch)
    by (symmetry; apply load_Ret; rewrite Nat2Z.id; split; [lia|done]).
  cbn [obind norm_in last_cr]. set (l := take left (drop (S rp) buf)).
  assert (Hlen : (length l <= left)%nat) by (unfold l; rewrite length_take; lia).
  assert (Hstore : forall x cr', scan_in left (<[wp := x]> buf) (S rp) (S wp) cr'
    = Ret (splice buf wp (x :: norm_in cr' l), (wp + length (x :: norm_in cr' l))%nat, last_cr cr' l)).
  { intros x cr'. rewrite IH by (rewrite ?length_insert; lia).
    rewrite drop_insert_lt by lia. fold l. pose proof (norm_in_length cr' l).
    rewrite insert_splice by lia. replace (S wp) with (wp + length [x])%nat by (cbn; lia).
    rewrite splice_splice by (cbn [length]; lia). do 3 f_equal. cbn. lia. }
  unfold scan_in_step.
  destruct cr, (Z.eqb_spec ch CR), (Z.eqb_spec ch LF); subst; cbn [obind];
    rewrite ?store_lt, ?Nat2Z.id by lia; cbn [obind]; rewrite ?Hstore, ?IH by lia; done.
Qed.

Section ReadLemmas.
Context {S : Type} (raw : io_ops S) (read : S -> Z -> outcome (S * Z * list Z)) `{IoSource S read}.
Hypothesis raw_read : op_read raw = Some read.

(** One turn of the outer loop: it reads [l] and stores [o]. *)
Lemma ioterm_read_turn fuel iot len :
  src_wf (iot_raw iot) -> 0 < len ->
  exists s l, let o := norm_in (iot_cr_in iot) l in
    let iot' := Build_io_term s (iot_cr_out iot) (last_cr (iot_cr_in iot) l) in
    ioterm_read raw (Datatypes.S fuel) iot len
    = (if (length o =? 0)%nat then ioterm_read raw fuel iot' len
       else Ret (iot', Z.of_nat (length o), splice l 0 o)) /\
    src_wf s /\ src_rest (iot_raw iot) = l ++ src_rest s /\ Z.of_nat (length l) <= len /\
    (src_rest (iot_raw iot) <> [] -> l <> []).
Proof.
  intros Hwf Hlen. destruct (src_read (iot_raw iot) len Hwf Hlen) as (s & k & Hr & Hwf' & Hs & Hk & Hkl & Hp).
  exists s, (take k (src_rest (iot_raw iot))). cbv zeta.
  assert (Hlk : length (take k (src_rest (iot_raw iot))) = k) by (rewrite length_take; lia).
  split_and!; auto; [|by rewrite Hs, take_drop|lia|].
  - cbn [ioterm_read]. unfold ioread. rewrite raw_read, Hr. cbn [obind].
    destruct (Z.of_nat k <? 0) eqn:E; [lia|].
    rewrite Nat2Z.id, scan_in_spec by lia. cbn [obind Nat.add].
    rewrite drop_0, take_take, Nat.min_id. done.
  - intros Hne Hn. specialize (Hp Hne). apply (f_equal length) in Hn. cbn in Hn. lia.
Qed.

(** What a read must return: at least one byte, in order, of the converted
    text that is left. *)
Definition read_ok (iot : io_term S) (len : Z) (iot' : io_term S) (n : Z) (bs : list Z) : Prop :=
  let l := norm_in (iot_cr_in iot) (src_rest (iot_raw iot)) in
  1 <= n <= len /\ take (Z.to_nat n) bs = take (Z.to_nat n) l /\
  n <= Z.of_nat (length bs) /\ n <= Z.of_nat (length l) /\
  norm_in (iot_cr_in iot') (src_rest (iot_raw iot')) = drop (Z.to_nat n) l /\
  src_wf (iot_raw iot') /\ iot_cr_out iot' = iot_cr_out iot /\
  (iot_cr_in iot' = true -> list.last (take (Z.to_nat n) l) = Some LF).

Lemma read_ok_turn iot len s l :
  src_wf s -> src_rest (iot_raw iot) = l ++ src_rest s -> Z.of_nat (length l) <= len ->
  norm_in (iot_cr_in iot) l <> [] ->
  read_ok iot len (Build_io_term s (iot_cr_out iot) (last_cr (iot_cr_in iot) l))
    (Z.of_nat (length (norm_in (iot_cr_in iot) l))) (splice l 0 (norm_in (iot_cr_in iot) l)).
Proof.
  intros Hs Hr Hl Ho. unfold read_ok. rewrite Hr, norm_in_app, Nat2Z.id.
  pose proof (norm_in_length (iot_cr_in iot) l). set (o := norm_in _ l) in *.
  assert (0 < length o)%nat by (destruct o; cbn; [done|lia]).
  rewrite take_splice_0, take_app_length, drop_app_length, length_splice, length_app by lia.
  split_and!; try (done || lia). intros Hcr. apply last_cr_LF; [by intros ->|done].
Qed.

Lemma ioterm_read_spec fuel iot len :
  src_wf (iot_raw iot) -> 0 < len ->
  norm_in (iot_cr_in iot) (src_rest (iot_raw iot)) <> [] ->
  exists iot' n bs, ioterm_read raw (Datatypes.S (Datatypes.S fuel)) iot len = Ret (iot', n, bs) /\
    read_ok iot len iot' n bs.
Proof.
  intros Hwf Hlen Hne.
  destruct (ioterm_read_turn (Datatypes.S fuel) iot len Hwf Hlen) as (s & l & -> & Hs & Hr & Hl & Hnl).
  destruct (decide (norm_in (iot_cr_in iot) l = [])) as [Ho|Ho].
  2:{ destruct (Nat.eqb_spec (length (norm_in (iot_cr_in iot) l)) 0) as [H0|_];
        [by apply nil_length_inv in H0|]. eexists _, _, _. split; [done|]. by apply read_ok_turn. }
  rewrite Ho. cbn [length Nat.eqb].
  apply norm_in_nil in Ho as [->|[-> Hcr]].
  { exfalso. apply Hnl; [|done]. by intros Hn; rewrite Hn in Hne. }
  cbn [last_cr]. set (iot1 := Build_io_term s (iot_cr_out iot) (LF =? CR)).
  destruct (ioterm_read_turn fuel iot1 len Hs Hlen) as (s2 & l2 & -> & Hs2 & Hr2 & Hl2 & Hnl2).
  cbn [iot1 iot_cr_in iot_cr_out iot_raw] in *.
  assert (Hn2 : norm_in (LF =? CR) l2 <> []).
  { intros [->|[_ ?]]%norm_in_nil; [|done]. apply Hnl2; [|done]. intros Hz.
    rewrite Hr, Hcr, Hz in Hne. done. }
  destruct (Nat.eqb_spec (length (norm_in (LF =? CR) l2)) 0) as [H0|_];
    [by apply nil_length_inv in H0|].
  eexists _, _, _. split; [done|].
  pose proof (read_ok_turn iot1 len s2 l2 Hs2 Hr2 Hl2 Hn2) as Hok.
  unfold read_ok in *. cbn [iot1 iot_cr_in iot_cr_out iot_raw] in *.
  rewrite Hr, Hcr. exact Hok.
Qed.
End ReadLemmas.

Section WriteLemmas.
Context {S : Type} (raw : io_ops S) (write : S -> list Z -> outcome (S * Z)) `{IoSink S write}.
Hypothesis raw_write : op_write raw = Some write.

(** The raw object takes every byte. *)
Definition open_sink (s : S) : Prop := sink_wf s /\ sink_cap s = None.

(** A [\n] swallowed at the start of a buffer is not counted. *)
Definition swallowed (cr : bool) (l : list Z) : Z :=
  match cr, l with true, ch :: _ => if ch =? LF then 1 else 0 | _, _ => 0 end.

(** What a completed write did, from log [log] and flags of [iot]. *)
Definition write_ok (iot : io_term S) (out : list Z) (cr : bool) (iot' : io_term S) : Prop :=
  open_sink (iot_raw iot') /\ sink_log (iot_raw iot') = sink_log (iot_raw iot) ++ out /\
  iot_cr_out iot' = cr /\ iot_cr_in iot' = iot_cr_in iot.

Lemma raw_iowrite s d : open_sink s ->
  exists s', iowrite raw s d = Ret (s', Z.of_nat (length d)) /\ open_sink s' /\
    sink_log s' = sink_log s ++ d.
Proof.
  intros [Hwf Hc]. destruct (iowrite_unbounded raw write s d raw_write Hwf Hc) as (s' & ? & ? & ? & ?).
  exists s'. unfold open_sink. auto.
Qed.

Lemma drain_spec iot buf acc wp upto :
  open_sink (iot_raw iot) -> (wp < upto <= length buf)%nat ->
  exists iot', drain raw iot buf acc wp upto = Ret (iot', acc + Z.of_nat (upto - wp), upto, None) /\
    write_ok iot (take (upto - wp) (drop wp buf)) (iot_cr_out iot) iot'.
Proof.
  intros Ho Hle. unfold drain.
  destruct (raw_iowrite (iot_raw iot) (take (upto - wp) (drop wp buf)) Ho) as (s & -> & Hs & Hl).
  cbn [obind]. rewrite length_take, length_drop, Nat.min_l by lia.
  destruct (_ <? 0) eqn:E1; [lia|]. destruct (_ =? 0) eqn:E2; [lia|].
  eexists. rewrite Nat2Z.id. replace (wp + (upto - wp))%nat with upto by lia.
  split; [done|]. by unfold write_ok.
Qed.

Lemma echo_spec iot c :
  open_sink (iot_raw iot) ->
  exists iot', echo raw iot c = Ret (iot', u8 c) /\ write_ok iot [c] (iot_cr_out iot) iot'.
Proof.
  intros [Hwf Hc]. destruct (ioputc_unbounded raw write (iot_raw iot) c raw_write Hwf Hc) as (s' & Hs & ? & ? & ?).
  unfold echo. rewrite Hs. cbn [obind]. eexists. split; [done|]. unfold write_ok, open_sink. auto.
Qed.

Lemma u8_not_neg c : (u8 c <? 0) = false.
Proof. pose proof (u8_range c). lia. Qed.

Lemma write_ok_trans iot iot1 iot2 o1 o2 c1 c2 :
  write_ok iot o1 c1 iot1 -> write_ok iot1 o2 c2 iot2 -> write_ok iot (o1 ++ o2) c2 iot2.
Proof.
  unfold write_ok. intros (? & Hl1 & ? & ?) (? & Hl2 & ? & ?).
  split_and!; auto; [by rewrite Hl2, Hl1, app_assoc|congruence].
Qed.

Lemma write_ok_set_cr iot o cr cr' iot' :
  write_ok iot o cr iot' -> write_ok iot o cr' (set_cr_out iot' cr').
Proof. unfold write_ok. by intros (? & ? & ? & ?). Qed.

Lemma write_ok_from_cr iot o cr cr' iot' :
  write_ok (set_cr_out iot cr') o cr iot' -> write_ok iot o cr iot'.
Proof. unfold write_ok. by intros (? & ? & ? & ?). Qed.

Lemma ioterm_write_flush_spec iot buf acc wp rp :
  open_sink (iot_raw iot) -> (wp <= rp <= length buf)%nat ->
  exists iot', ioterm_write_flush raw buf (inr (iot, acc, wp, rp))
    = Ret (iot', acc + Z.of_nat (rp - wp)) /\
    write_ok iot (take (rp - wp) (drop wp buf)) (iot_cr_out iot) iot'.
Proof.
  intros Ho Hle. unfold ioterm_write_flush. destruct (Nat.eqb_spec rp wp) as [->|Hne]; cbn [negb].
  { exists iot. rewrite Nat.sub_diag, take_0, Z.add_0_r. unfold write_ok. by rewrite app_nil_r. }
  destruct (drain_spec iot buf acc wp rp Ho) as (iot' & -> & Hok); [lia|]. by exists iot'.
Qed.

Lemma take_pending (buf : list Z) wp rp ch :
  (wp <= rp)%nat -> buf !! rp = Some ch ->
  take (Datatypes.S rp - wp) (drop wp buf) = take (rp - wp) (drop wp buf) ++ [ch].
Proof.
  intros Hle Hch. replace (Datatypes.S rp - wp)%nat with (Datatypes.S (rp - wp)) by lia.
  apply take_S_r. rewrite lookup_drop. by replace (wp + (rp - wp))%nat with rp by lia.
Qed.

(** The pending bytes [wp, rp) and the converted rest are what is still to
    be written. *)
Definition loop_ok (fuel : nat) (iot : io_term S) (buf : list Z) (acc : Z) (wp rp : nat) : Prop :=
  exists iot',
    (let! r := ioterm_write_loop raw fuel iot buf acc wp rp in ioterm_write_flush raw buf r)
    = Ret (iot', acc + Z.of_nat (length buf - wp) - swallowed (iot_cr_out iot) (drop rp buf)) /\
    write_ok iot (take (rp - wp) (drop wp buf) ++ norm_out (iot_cr_out iot) (drop rp buf))
      (last_cr (iot_cr_out iot) (drop rp buf)) iot'.

Lemma ioterm_write_loop_spec fuel iot buf acc wp rp :
  open_sink (iot_raw iot) -> (wp <= rp <= length buf)%nat -> (length buf - rp < fuel)%nat ->
  (iot_cr_out iot = true -> wp = rp) -> loop_ok fuel iot buf acc wp rp.
Proof.
  revert iot acc wp rp; induction fuel as [|fuel IH]; intros iot acc wp rp Ho Hle Hf Hcr; [lia|].
  unfold loop_ok. cbn [ioterm_write_loop]. destruct (Nat.leb_spec (length buf) rp) as [Hend|Hlt].
  { cbn [obind]. destruct (ioterm_write_flush_spec iot buf acc wp rp Ho Hle) as (iot' & -> & Hok).
    exists iot'. rewrite (drop_ge buf rp) by lia. cbn. rewrite app_nil_r.
    split; [|done]. do 2 f_equal. destruct (iot_cr_out iot); cbn; lia. }
  destruct (lookup_lt_is_Some_2 buf rp) as [ch Hch]; [lia|].
  rewrite (drop_S _ _ _ Hch). replace (load buf (Z.of_nat rp)) with (Ret ch)
    by (symmetry; apply load_Ret; rewrite Nat2Z.id; split; [lia|done]).
  cbn [obind norm_out last_cr]. pose proof (take_pending buf wp rp ch ltac:(lia) Hch) as Hpend.
  destruct (Z.eqb_spec ch CR) as [->|HnCR]; [destruct (bool_decide_reflect (buf !! Datatypes.S rp = Some LF)) as [HLF|HnLF]|
    destruct (Z.eqb_spec ch LF) as [->|HnLF]; [destruct (iot_cr_out iot) eqn:Hco|]].
  - (* CR LF already in the buffer *)
    assert (Datatypes.S rp < length buf)%nat by (by eapply lookup_lt_Some).
    destruct (IH (set_cr_out iot false) acc wp (Datatypes.S (Datatypes.S rp))) as (iot' & -> & Hok);
      [done|lia|lia|done|].
    exists iot'. split; [by destruct (iot_cr_out iot)|].
    rewrite (take_pending _ _ _ LF), Hpend, <- !app_assoc in Hok by (done || lia).
    rewrite (drop_S _ _ _ HLF). apply write_ok_from_cr in Hok. by destruct (iot_cr_out iot).
  - (* lone CR *)
    destruct (drain_spec iot buf acc wp (Datatypes.S rp) Ho) as (i1 & -> & Hok1); [lia|]. cbn [obind].
    destruct (echo_spec i1 LF (proj1 Hok1)) as (i2 & -> & Hok2). cbn [obind]. rewrite u8_not_neg.
    destruct (IH (set_cr_out i2 true) (acc + Z.of_nat (Datatypes.S rp - wp)) (Datatypes.S rp) (Datatypes.S rp))
      as (iot' & -> & Hok3); [apply Hok2|lia|lia|done|].
    exists iot'. split.
    + do 2 f_equal. replace (swallowed (iot_cr_out iot) (CR :: _)) with 0 by (by destruct (iot_cr_out iot)).
      replace (swallowed _ (drop (Datatypes.S rp) buf)) with 0; [lia|].
      cbn. destruct (drop (Datatypes.S rp) buf) as [|c r] eqn:Hd; [done|].
      destruct (Z.eqb_spec c LF) as [->|]; [|done]. exfalso. apply HnLF.
      by rewrite <- (Nat.add_0_r (Datatypes.S rp)), <- lookup_drop, Hd.
    + apply write_ok_from_cr in Hok3. rewrite Nat.sub_diag, take_0 in Hok3.
      pose proof (write_ok_trans _ _ _ _ _ _ _ Hok1 (write_ok_trans _ _ _ _ _ _ _ Hok2 Hok3)) as Hok.
      rewrite Hpend, <- !app_assoc in Hok. by destruct (iot_cr_out iot).
  - (* LF after a CR that ended the previous buffer *)
    specialize (Hcr eq_refl) as ->.
    destruct (IH (set_cr_out iot false) acc (Datatypes.S rp) (Datatypes.S rp)) as (iot' & -> & Hok);
      [done|lia|lia|done|].
    exists iot'. rewrite Nat.sub_diag, take_0 in *. split; [do 2 f_equal; cbn; lia|].
    by apply write_ok_from_cr in Hok.
  - (* lone LF *)
    assert (Hstep : exists i1,
      (if negb (wp =? Datatypes.S rp - 1)%nat then drain raw iot buf acc wp (Datatypes.S rp - 1) else Ret (iot, acc, wp, None))
      = Ret (i1, acc + Z.of_nat (rp - wp), rp, None) /\
      write_ok iot (take (rp - wp) (drop wp buf)) (iot_cr_out iot) i1).
    { replace (Datatypes.S rp - 1)%nat with rp by lia. destruct (Nat.eqb_spec wp rp) as [->|Hne]; cbn [negb].
      - exists iot. rewrite Nat.sub_diag, take_0, Z.add_0_r. unfold write_ok. by rewrite app_nil_r.
      - apply drain_spec; [done|lia]. }
    destruct Hstep as (i1 & -> & Hok1). cbn [obind].
    destruct (echo_spec i1 CR (proj1 Hok1)) as (i2 & -> & Hok2). cbn [obind]. rewrite u8_not_neg.
    destruct (IH (set_cr_out i2 false) (acc + Z.of_nat (rp - wp)) rp (Datatypes.S rp))
      as (iot' & -> & Hok3); [apply Hok2|lia|lia|done|].
    exists iot'. split; [do 2 f_equal; cbn; lia|]. apply write_ok_from_cr in Hok3.
    pose proof (write_ok_trans _ _ _ _ _ _ _ Hok1 (write_ok_trans _ _ _ _ _ _ _ Hok2 Hok3)) as Hok.
    replace (Datatypes.S rp - rp)%nat with 1%nat in Hok by lia. by rewrite (drop_S _ _ _ Hch) in Hok.
  - (* any other character *)
    destruct (IH (set_cr_out iot false) acc wp (Datatypes.S rp)) as (iot' & -> & Hok); [done|lia|lia|done|].
    exists iot'. split.
    + do 2 f_equal. cbn. destruct (iot_cr_out iot); cbn; [|lia]. destruct (Z.eqb_spec ch LF); [done|lia].
    + rewrite Hpend, <- app_assoc in Hok. apply write_ok_from_cr in Hok. by destruct (iot_cr_out iot).
Qed.

Lemma ioterm_write_spec iot buf :
  open_sink (iot_raw iot) ->
  exists iot', ioterm_write raw iot buf
    = Ret (iot', Z.of_nat (length buf) - swallowed (iot_cr_out iot) buf) /\
    write_ok iot (norm_out (iot_cr_out iot) buf) (last_cr (iot_cr_out iot) buf) iot'.
Proof.
  intros Ho. destruct (ioterm_write_loop_spec (Datatypes.S (length buf)) iot buf 0 0 0)
    as (iot' & Hr & Hok); [done|lia|lia|done|].
  exists iot'. unfold ioterm_write. rewrite Hr, drop_0, Nat.sub_0_r.
  cbn [Nat.sub] in Hok. rewrite take_0, drop_0 in Hok. done.
Qed.
End WriteLemmas.

(** A raw object whose two directions do not disturb each other. *)
Class IoDuplex {S} (read : S -> Z -> outcome (S * Z * list Z)) (write : S -> list Z -> outcome (S * Z))
    `{IoSource S read} `{IoSink S write} := {
  duplex_read : forall s n s' k bs, read s n = Ret (s', k, bs) -> sink_wf s ->
    sink_wf s' /\ sink_log s' = sink_log s /\ sink_cap s' = sink_cap s;
  duplex_write : forall s d s' k, write s d = Ret (s', k) -> src_wf s ->
    src_wf s' /\ src_rest s' = src_rest s;
}.

Section LineLemmas.
Context {S : Type} (raw : io_ops S) (raw_close : S -> outcome S) (read : S -> Z -> outcome (S * Z * list Z))
  (write : S -> list Z -> outcome (S * Z)) `{IoDuplex S read write}.
Hypothesis raw_read : op_read raw = Some read.
Hypothesis raw_write : op_write raw = Some write.

Lemma iowrite_loop_frame fuel s buf acc s' r :
  iowrite_loop fuel write s buf acc = Ret (s', r) -> src_wf s -> src_wf s' /\ src_rest s' = src_rest s.
Proof.
  revert s acc; induction fuel as [|fuel IH]; intros s acc; cbn [iowrite_loop]; [done|].
  destruct (acc <? _); [|by intros [= <- <-]]. intros Hr Hwf. obind_inv Hr. destruct r0 as [s1 k].
  destruct (duplex_write _ _ _ _ Hm Hwf) as [Hwf1 Hr1]. rewrite <- Hr1.
  destruct (k <? 0); [by injection Hr as <- <-|]. destruct (k =? 0); [by injection Hr as <- <-|].
  by eapply IH.
Qed.

Lemma echo_frame iot c iot' r :
  echo raw iot c = Ret (iot', r) -> src_wf (iot_raw iot) ->
  src_wf (iot_raw iot') /\ src_rest (iot_raw iot') = src_rest (iot_raw iot).
Proof.
  unfold echo, ioputc, iowrite. rewrite raw_write. intros Hr Hwf. obind_inv Hr. destruct r0 as [s k].
  injection Hr as <- <-. obind_inv Hm. destruct r as [s1 k1]. injection Hm as <- <-.
  by apply iowrite_loop_frame in Hm0.
Qed.

(** Terminal ready for line input: [txt] is what the user is about to type. *)
Definition line_ready (iot : io_term S) (txt : list Z) : Prop :=
  src_wf (iot_raw iot) /\ open_sink write (iot_raw iot) /\
  norm_in (iot_cr_in iot) (src_rest (iot_raw iot)) = txt.

Lemma line_ready_echo iot txt c :
  line_ready iot txt -> exists iot', echo raw iot c = Ret (iot', u8 c) /\ line_ready iot' txt.
Proof.
  intros (Hs & Ho & Ht). destruct (echo_spec raw write raw_write iot c Ho) as (iot' & He & Hok & _ & _ & Hi).
  exists iot'. split; [done|]. apply echo_frame in He as [Hs' Hr]; [|done].
  unfold line_ready. by rewrite Hi, Hr.
Qed.

Lemma line_ready_echo_all iot txt cs :
  line_ready iot txt -> exists iot', echo_all raw iot cs = Ret (iot', 0) /\ line_ready iot' txt.
Proof.
  revert iot; induction cs as [|c cs IH]; intros iot Hl; cbn [echo_all]; [eauto|].
  destruct (line_ready_echo iot txt c Hl) as (iot1 & -> & Hl1). cbn [obind].
  rewrite u8_not_neg. by apply IH.
Qed.

Lemma ioterm_read_frame fuel iot len iot' n bs :
  ioterm_read raw fuel iot len = Ret (iot', n, bs) ->
  open_sink write (iot_raw iot) -> open_sink write (iot_raw iot').
Proof.
  revert iot; induction fuel as [|fuel IH]; intros iot; cbn [ioterm_read]; [done|].
  unfold ioread. rewrite raw_read. intros Hr [Hwf Hc]. obind_inv Hr. destruct r as [[s k] b].
  destruct (duplex_read _ _ _ _ _ Hm Hwf) as (Hwf1 & _ & Hc1).
  assert (open_sink write s) by (split; congruence).
  destruct (k <? 0); [by injection Hr as <- <- <-|]. obind_inv Hr. destruct r as [[b2 wp] cr].
  destruct (wp =? 0)%nat; [by apply IH in Hr|by injection Hr as <- <- <-].
Qed.

Lemma line_ready_getc rfuel iot c txt :
  line_ready iot (c :: txt) -> 0 <= c < 256 ->
  exists iot', iogetc (ioterm_ops raw raw_close (Datatypes.S (Datatypes.S rfuel))) iot = Ret (iot', c) /\
    line_ready iot' txt /\ (c <> LF -> iot_cr_in iot' = false).
Proof.
  intros (Hs & Ho & Ht) Hc.
  destruct (ioterm_read_spec raw read raw_read rfuel iot 1) as (iot' & n & bs & Hr & Hok);
    [done|lia|by rewrite Ht|].
  destruct Hok as (Hn & Htk & Hb & _ & Hrest & Hs' & _ & Hcr). assert (n = 1) as -> by lia.
  rewrite Ht in *. change (Z.to_nat 1) with 1%nat in *.
  exists iot'. unfold iogetc, ioread. cbn [ioterm_ops op_read]. rewrite Hr. cbn [obind].
  change (1 <? 0) with false. change (1 =? 0) with false. cbv iota.
  destruct bs as [|b bs]; [cbn in Hb; lia|]. cbn in Htk. rewrite !take_0 in Htk. injection Htk as ->.
  change (load (c :: bs) 0) with (Ret c). cbn [obind]. rewrite u8_small by lia. split; [done|].
  unfold line_ready. split_and!; auto; [by eapply ioterm_read_frame|].
  cbn in Hcr. rewrite take_0 in Hcr. intros Hne. destruct (iot_cr_in iot'); [|done].
  specialize (Hcr eq_refl). by injection Hcr.
Qed.

(** [p] is the length of the line so far and [p + n] never changes. *)
Lemma getsn_loop_spec keys : forall fuel rfuel iot buf line n0 tl,
  line_ready iot (keys ++ LF :: tl) -> Forall (fun c => 0 <= c < 256 /\ c <> LF /\ c <> CR) keys ->
  (length keys < fuel)%nat -> take (length line) buf = line ->
  (length line < n0)%nat -> (n0 <= length buf)%nat -> Z.of_nat n0 < 2 ^ 64 ->
  exists iot' buf', getsn_loop raw raw_close fuel (Datatypes.S (Datatypes.S rfuel)) iot buf
      (Z.of_nat (length line)) (Z.of_nat n0 - Z.of_nat (length line)) = Ret (iot', Some buf') /\
    let t := fold_left (edit_key (n0 - 1)) keys line in
    line_ready iot' tl /\ (length t < n0)%nat /\ take (length t + 1) buf' = t ++ [0] /\
    length buf' = length buf /\ drop n0 buf' = drop n0 buf.
Proof.
  induction keys as [|c keys IH]; intros fuel rfuel iot buf line n0 tl Hl Hk Hf Hline Hn0 Hb Hz;
    (destruct fuel as [|fuel]; [lia|]); cbn [getsn_loop app] in *.
  - destruct (line_ready_getc rfuel iot LF tl Hl) as (i1 & -> & Hl1 & _); [done|]. cbn [obind].
    change (u8 LF =? 91) with false. change ((u8 LF =? CR) || (u8 LF =? LF)) with true. cbv iota zeta.
    destruct (line_ready_echo_all i1 tl [CR; LF] Hl1) as (i2 & -> & Hl2). cbn [obind].
    change (0 <? 0) with false. cbv iota. rewrite store_lt, Nat2Z.id by lia. cbn [obind].
    eexists _, _. split; [done|]. cbn [fold_left]. split_and!; auto.
    + rewrite insert_splice by lia. unfold splice. rewrite Hline, take_app_add. done.
    + apply length_insert.
    + by rewrite drop_insert_lt by lia.
  - apply Forall_cons_iff in Hk as [(Hc & HcLF & HcCR) Hk]. cbn [length] in Hf.
    destruct (line_ready_getc rfuel iot c (keys ++ LF :: tl) Hl Hc) as (i1 & -> & Hl1 & Hcr1). cbn [obind].
    rewrite (u8_small c) by lia. cbn [fold_left].
    destruct (Z.eqb_spec c CR); [done|]. destruct (Z.eqb_spec c LF); [done|].
    cbn [orb].
    set (e := edit_key (n0 - 1) line c). assert (He : e = edit_key (n0 - 1) line c) by done.
    clearbody e. unfold edit_key in He.
    destruct (c =? 91) eqn:E91.
    { subst e. apply IH; auto; [|lia]. specialize (Hcr1 HcLF).
      unfold line_ready in *. cbn. by rewrite Hcr1 in Hl1. }
    destruct ((c =? 8) || (c =? 127)) eqn:Ebs.
    { subst e. destruct (Z.eqb_spec (Z.of_nat (length line)) 0) as [Hp0|Hp0]; cbn [negb].
      - destruct (line_ready_echo i1 _ 7 Hl1) as (i2 & -> & Hl2). cbn [obind]. rewrite u8_not_neg.
        destruct line; [|cbn in Hp0; lia]. rewrite take_nil. apply IH; auto; lia.
      - destruct (line_ready_echo_all i1 _ [8; 32; 8] Hl1) as (i2 & -> & Hl2). cbn [obind].
        change (0 <? 0) with false. cbv iota. rewrite u64_small by lia.
        assert (Hlen : length (take (length line - 1) line) = (length line - 1)%nat) by (rewrite length_take; lia).
        replace (Z.of_nat (length line) - 1) with (Z.of_nat (length (take (length line - 1) line))) by lia.
        replace (Z.of_nat n0 - Z.of_nat (length line) + 1)
          with (Z.of_nat n0 - Z.of_nat (length (take (length line - 1) line))) by lia.
        apply IH; auto; try lia. rewrite Hlen.
        transitivity (take (length line - 1) (take (length line) buf)); [|by rewrite Hline].
        rewrite take_take. f_equal. lia. }
    destruct (1 <? Z.of_nat n0 - Z.of_nat (length line)) eqn:En.
    + destruct (Nat.ltb_spec (length line) (n0 - 1)); [|lia]. subst e.
      destruct (line_ready_echo i1 _ c Hl1) as (i2 & -> & Hl2). cbn [obind]. rewrite u8_not_neg.
      rewrite store_lt, Nat2Z.id by lia. cbn [obind].
      assert (Hlen : length (line ++ [c]) = Datatypes.S (length line)) by (rewrite length_app; cbn; lia).
      replace (Z.of_nat (length line) + 1) with (Z.of_nat (length (line ++ [c]))) by lia.
      replace (Z.of_nat n0 - Z.of_nat (length line) - 1) with (Z.of_nat n0 - Z.of_nat (length (line ++ [c]))) by lia.
      destruct (IH fuel rfuel i2 (<[length line := c]> buf) (line ++ [c]) n0 tl) as (i3 & b3 & -> & Hok);
        auto; rewrite ?length_insert; try lia.
      * rewrite insert_splice by lia. unfold splice. rewrite Hline, Hlen.
        replace (Datatypes.S (length line)) with (length line + 1)%nat by lia. by rewrite take_app_add.
      * exists i3, b3. rewrite length_insert, drop_insert_lt in Hok by lia. done.
    + destruct (Nat.ltb_spec (length line) (n0 - 1)); [lia|]. subst e.
      destruct (line_ready_echo i1 _ 7 Hl1) as (i2 & -> & Hl2). cbn [obind]. rewrite u8_not_neg.
      apply IH; auto; lia.
Qed.
End LineLemmas.

(** * A raw terminal for the witnesses

    Keys arrive one per read, at most two bytes go out per write. *)
Module Tty.
Record tty := { tty_in : list Z; tty_out : list Z }.

Definition tty_read (t : tty) (n : Z) : outcome (tty * Z * list Z) :=
  match tty_in t with
  | [] => Ret (t, 0, [])
  | c :: r => if n <=? 0 then Ret (t, 0, []) else Ret ({| tty_in := r; tty_out := tty_out t |}, 1, [c])
  end.

Definition tty_write (t : tty) (d : list Z) : outcome (tty * Z) :=
  let k := Nat.min 2 (length d) in
  Ret ({| tty_in := tty_in t; tty_out := tty_out t ++ take k d |}, Z.of_nat k).

Definition tty_ops : io_ops tty :=
  {| op_close := None; op_read := Some tty_read; op_write := Some tty_write; op_ctl := None |}.

#[global] Program Instance tty_source : IoSource tty_read :=
  {| src_wf := fun _ => True; src_rest := tty_in |}.
Next Obligation.
  intros [[|c r] o] n _ Hn; unfold tty_read; cbn [tty_in].
  - exists {| tty_in := []; tty_out := o |}, 0%nat. cbn. split_and!; done || lia.
  - destruct (n <=? 0) eqn:E; [lia|]. exists {| tty_in := r; tty_out := o |}, 1%nat.
    cbn. split_and!; rewrite ?take_0, ?drop_0; done || lia.
Qed.

#[global] Program Instance tty_sink : IoSink tty_write :=
  {| sink_wf := fun _ => True; sink_log := tty_out; sink_cap := fun _ => None |}.
Next Obligation.
  intros [i o] d _ Hd. unfold tty_write.
  assert (0 < length d)%nat by (destruct d; cbn; [done|lia]).
  set (k := Nat.min 2 (length d)). exists {| tty_in := i; tty_out := o ++ take k d |}, k.
  cbn [tty_in tty_out]. split_and!; done || lia.
Qed.

#[global] Instance tty_duplex : IoDuplex tty_read tty_write.
Proof.
  split.
  - intros [i o] n s' k bs. unfold tty_read. cbn. destruct i; [by intros [= <- <- <-]|].
    destruct (n <=? 0); by intros [= <- <- <-].
  - intros [i o] d s' k. by intros [= <- <-].
Qed.
End Tty.

(** * Properties *)

(** Successive writes to one terminal. *)
Fixpoint ioterm_writes {S} (raw : io_ops S) (iot : io_term S) (bufs : list (list Z)) : outcome (io_term S) :=
  match bufs with
  | [] => Ret iot
  | b :: bs => let! (iot, _) := ioterm_write raw iot b in ioterm_writes raw iot bs
  end.

Lemma ioterm_writes_spec {S} (raw : io_ops S) write `{IoSink S write} bufs : forall iot,
  op_write raw = Some write -> open_sink write (iot_raw iot) ->
  exists iot', ioterm_writes raw iot bufs = Ret iot' /\
    write_ok write iot (norm_out (iot_cr_out iot) (concat bufs)) (last_cr (iot_cr_out iot) (concat bufs)) iot'.
Proof.
  induction bufs as [|b bufs IH]; intros iot Hw Ho; cbn.
  { exists iot. unfold write_ok. by rewrite app_nil_r. }
  destruct (ioterm_write_spec raw write Hw iot b Ho) as (i1 & -> & Hok1). cbn [obind].
  destruct (IH i1 Hw (proj1 Hok1)) as (i2 & -> & Hok2). exists i2. split; [done|].
  replace (iot_cr_out i1) with (last_cr (iot_cr_out iot) b) in Hok2 by (symmetry; apply Hok1).
  rewrite norm_out_app, last_cr_app. by eapply write_ok_trans.
Qed.

(** A write through [iowrite], when nothing is swallowed: complete in one
    call. *)
Lemma term_iowrite {S} (raw : io_ops S) raw_close write `{IoSink S write} rfuel iot buf :
  op_write raw = Some write -> open_sink write (iot_raw iot) -> swallowed (iot_cr_out iot) buf = 0 ->
  exists iot', iowrite (ioterm_ops raw raw_close rfuel) iot buf = Ret (iot', Z.of_nat (length buf)) /\
    write_ok write iot (norm_out (iot_cr_out iot) buf) (last_cr (iot_cr_out iot) buf) iot'.
Proof.
  intros Hw Ho Hs. destruct buf as [|c buf].
  { exists iot. split; [done|]. unfold write_ok. cbn [norm_out last_cr]. by rewrite app_nil_r. }
  set (l := c :: buf) in *. destruct (ioterm_write_spec raw write Hw iot l Ho) as (iot' & E & Hok).
  exists iot'. split; [|exact Hok]. assert (Hl : (0 < length l)%nat) by (cbn; lia). clearbody l.
  unfold iowrite. cbn [ioterm_ops op_write iowrite_loop]. replace (0 <? Z.of_nat (length l)) with true by lia. change (Z.to_nat 0) with 0%nat.
  rewrite drop_0, E, Hs, Z.sub_0_r. cbn [obind].
  replace (Z.of_nat (length l) <? 0) with false by lia. replace (Z.of_nat (length l) =? 0) with false by lia. cbn [Z.add].
  destruct (length l) as [|n] eqn:En; [lia|]. cbn [iowrite_loop]. rewrite En, Z.ltb_irrefl. done.
Qed.

(** Successive [iowrite]s to one terminal, with their results. *)
Fixpoint ioterm_iowrites {S} (ops : io_ops (io_term S)) (iot : io_term S) (bufs : list (list Z)) : outcome (io_term S * list Z) :=
  match bufs with
  | [] => Ret (iot, [])
  | b :: bs => let! (iot, n) := iowrite ops iot b in let! (iot, ns) := ioterm_iowrites ops iot bs in Ret (iot, n :: ns)
  end.

(** No CR LF is split over two buffers; [cr] tells whether a CR came before. *)
Fixpoint unsplit (cr : bool) (bufs : list (list Z)) : bool :=
  match bufs with
  | [] => true
  | b :: bs => (swallowed cr b =? 0) && unsplit (last_cr cr b) bs
  end.

Lemma ioterm_iowrites_spec {S} (raw : io_ops S) raw_close write `{IoSink S write} rfuel bufs : forall iot,
  op_write raw = Some write -> open_sink write (iot_raw iot) -> unsplit (iot_cr_out iot) bufs = true ->
  exists iot', ioterm_iowrites (ioterm_ops raw raw_close rfuel) iot bufs = Ret (iot', map (fun b => Z.of_nat (length b)) bufs) /\
    write_ok write iot (norm_out (iot_cr_out iot) (concat bufs)) (last_cr (iot_cr_out iot) (concat bufs)) iot'.
Proof.
  induction bufs as [|b bufs IH]; intros iot Hw Ho Hu; cbn [ioterm_iowrites concat map unsplit] in *.
  { exists iot. unfold write_ok. by rewrite app_nil_r. }
  apply andb_true_iff in Hu as [Hs%Z.eqb_eq Hu].
  destruct (term_iowrite raw raw_close write rfuel iot b Hw Ho Hs) as (i1 & -> & Hok1). cbn [obind].
  assert (Hcr : iot_cr_out i1 = last_cr (iot_cr_out iot) b) by apply Hok1.
  destruct (IH i1 Hw (proj1 Hok1)) as (i2 & -> & Hok2); [by rewrite Hcr|]. exists i2. split; [done|].
  rewrite Hcr in Hok2. rewrite norm_out_app, last_cr_app. by eapply write_ok_trans.
Qed.

(** C35: successive writes to a fresh terminal over an object that takes every
    byte send to that object exactly the text with every CR LF, lone CR and lone
    LF turned into CR LF.  For calls of the write operation itself this holds
    however the text is cut into buffers, a CR LF split across two of them
    included.  Through [iowrite], which repeats what the result of the operation
    does not count, it holds, and every call reports its whole buffer, when no
    CR LF is split ([ioterm_iowrite_duplicates] shows the other case). *)
Theorem ioterm_writes_crlf {S} (raw : io_ops S) raw_close write `{IoSink S write} rfuel s bufs :
  op_write raw = Some write -> sink_wf s -> sink_cap s = None ->
  (exists iot', ioterm_writes raw (ioterm_init s) bufs = Ret iot' /\
     sink_log (iot_raw iot') = sink_log s ++ lines_to_crlf (concat bufs)) /\
  (unsplit false bufs = true -> exists iot',
     ioterm_iowrites (ioterm_ops raw raw_close rfuel) (ioterm_init s) bufs = Ret (iot', map (fun b => Z.of_nat (length b)) bufs) /\
     sink_log (iot_raw iot') = sink_log s ++ lines_to_crlf (concat bufs)).
Proof.
  intros Hw Hwf Hc. rewrite <- (proj1 (norm_out_lines (concat bufs))). split.
  - destruct (ioterm_writes_spec raw write bufs (ioterm_init s) Hw (conj Hwf Hc)) as (iot' & Hr & _ & Hl & _). by exists iot'.
  - intros Hu. destruct (ioterm_iowrites_spec raw raw_close write rfuel bufs (ioterm_init s) Hw (conj Hwf Hc) Hu) as (iot' & Hr & _ & Hl & _). by exists iot'.
Qed.

Lemma ioterm_writes_crlf_witness :
  (exists iot', ioterm_writes Tty.tty_ops (ioterm_init {| Tty.tty_in := []; Tty.tty_out := [] |})
      [[65; 10; 66; 13]; [10; 67]; [13; 10; 10]] = Ret iot' /\
    Tty.tty_out (iot_raw iot') = [65; 13; 10; 66; 13; 10; 67; 13; 10; 13; 10]) /\
  exists iot', ioterm_iowrites (ioterm_ops Tty.tty_ops Ret 2) (ioterm_init {| Tty.tty_in := []; Tty.tty_out := [] |})
      [[65; 13]; [67; 10; 10]; [10]] = Ret (iot', [2; 3; 1]) /\
    Tty.tty_out (iot_raw iot') = [65; 13; 10; 67; 13; 10; 13; 10; 13; 10].
Proof.
  set (s := {| Tty.tty_in := []; Tty.tty_out := [] |}). split.
  - exact (proj1 (ioterm_writes_crlf Tty.tty_ops Ret Tty.tty_write 2 s [[65; 10; 66; 13]; [10; 67]; [13; 10; 10]] eq_refl I eq_refl)).
  - exact (proj2 (ioterm_writes_crlf Tty.tty_ops Ret Tty.tty_write 2 s [[65; 13]; [67; 10; 10]; [10]] eq_refl I eq_refl) eq_refl).
Defined.

(** While the raw object has something left that is not just the LF of a
    CR LF already reported, a terminal read of [len > 0] bytes returns between
    1 and [len] bytes, the next ones of the raw text with every CR LF, lone CR
    and lone LF turned into one LF, and what remains to be read is the rest of
    that text. *)
Theorem ioterm_read_lines {S} (raw : io_ops S) read `{IoSource S read} fuel iot len :
  op_read raw = Some read -> src_wf (iot_raw iot) -> iot_cr_in iot = false ->
  src_rest (iot_raw iot) <> [] -> 0 < len ->
  exists iot' n bs, ioterm_read raw (Datatypes.S (Datatypes.S fuel)) iot len = Ret (iot', n, bs) /\
    let txt := lines_to_lf (src_rest (iot_raw iot)) in
    1 <= n <= len /\ take (Z.to_nat n) bs = take (Z.to_nat n) txt /\
    norm_in (iot_cr_in iot') (src_rest (iot_raw iot')) = drop (Z.to_nat n) txt.
Proof.
  intros Hrd Hwf Hcr Hne Hlen. destruct (ioterm_read_spec raw read Hrd fuel iot len Hwf Hlen)
    as (iot' & n & bs & Hr & Hok).
  { rewrite Hcr. intros [|[_ ?]]%norm_in_nil; done. }
  unfold read_ok in Hok. rewrite Hcr, (proj1 (norm_in_lines _)) in Hok.
  exists iot', n, bs. split; [done|]. cbv zeta. tauto.
Qed.

Lemma ioterm_read_lines_witness :
  exists iot' n bs, ioterm_read Tty.tty_ops 2 (ioterm_init {| Tty.tty_in := [13; 10; 65]; Tty.tty_out := [] |}) 8
    = Ret (iot', n, bs) /\
    let txt := lines_to_lf [13; 10; 65] in
    1 <= n <= 8 /\ take (Z.to_nat n) bs = take (Z.to_nat n) txt /\
    norm_in (iot_cr_in iot') (Tty.tty_in (iot_raw iot')) = drop (Z.to_nat n) txt.
Proof.
  exact (@ioterm_read_lines _ Tty.tty_ops Tty.tty_read Tty.tty_source 0
    (ioterm_init {| Tty.tty_in := [13; 10; 65]; Tty.tty_out := [] |}) 8 eq_refl I eq_refl ltac:(done) ltac:(lia)).
Defined.

(** At the end of the raw data a terminal read never returns: for every
    bound on its loop the bound is exhausted, where io.h asks [read] to return
    0 at the end of the data. *)
Theorem ioterm_read_eof_diverges {S} (raw : io_ops S) read `{IoSource S read} fuel iot len :
  op_read raw = Some read -> src_wf (iot_raw iot) -> src_rest (iot_raw iot) = [] -> 0 < len ->
  ioterm_read raw fuel iot len = NoFuel.
Proof.
  intros Hrd Hwf Hr Hlen. revert iot Hwf Hr; induction fuel as [|fuel IH]; intros iot Hwf Hr; [done|].
  destruct (ioterm_read_turn raw read Hrd fuel iot len Hwf Hlen) as (s & l & -> & Hs & Hrs & _).
  rewrite Hr in Hrs. symmetry in Hrs. apply app_eq_nil in Hrs as [-> Hrs]. cbn. by apply IH.
Qed.

Lemma ioterm_read_eof_diverges_witness :
  ioterm_read Tty.tty_ops 50 (ioterm_init {| Tty.tty_in := []; Tty.tty_out := [] |}) 8 = NoFuel.
Proof.
  exact (@ioterm_read_eof_diverges _ Tty.tty_ops Tty.tty_read Tty.tty_source 50
    (ioterm_init {| Tty.tty_in := []; Tty.tty_out := [] |}) 8 eq_refl I eq_refl ltac:(lia)).
Defined.

(** When the user types [keys] and then a line end, [ioterm_getsn] returns
    in [buf] the line that the editing keys leave (backspace and delete remove
    the last character, further characters are refused once [n - 1] are held),
    terminated by a null inside the first [n] bytes; it touches nothing past
    them and leaves the rest of the input for the next line. *)
Theorem ioterm_getsn_line {S} (raw : io_ops S) raw_close read write `{IoDuplex S read write}
    fuel rfuel iot buf keys rest n :
  op_read raw = Some read -> op_write raw = Some write ->
  src_wf (iot_raw iot) -> sink_wf (iot_raw iot) -> sink_cap (iot_raw iot) = None ->
  norm_in (iot_cr_in iot) (src_rest (iot_raw iot)) = keys ++ LF :: rest ->
  Forall (fun c => 0 <= c < 256 /\ c <> LF /\ c <> CR) keys ->
  (0 < n <= length buf)%nat -> Z.of_nat n < 2 ^ 64 -> (length keys < fuel)%nat ->
  exists iot' buf', ioterm_getsn raw raw_close fuel (Datatypes.S (Datatypes.S rfuel)) iot buf (Z.of_nat n) = Ret (iot', Some buf') /\
    let line := fold_left (edit_key (n - 1)) keys [] in
    (length line < n)%nat /\ take (length line + 1) buf' = line ++ [0] /\
    length buf' = length buf /\ drop n buf' = drop n buf /\
    norm_in (iot_cr_in iot') (src_rest (iot_raw iot')) = rest.
Proof.
  intros Hrd Hwr Hs Hk Hc Ht Hkeys Hn Hz Hf.
  destruct (getsn_loop_spec raw raw_close read write Hrd Hwr keys fuel rfuel iot buf [] n rest)
    as (iot' & buf' & Hr & (_ & _ & Hrest) & Hlen & Hb & Hlb & Hd); try done; cbn [length]; try lia.
  exists iot', buf'. rewrite Z.sub_0_r in Hr. unfold ioterm_getsn. split; [done|]. cbv zeta. auto.
Qed.

(** "abx<backspace>c" and more keys than the six bytes of the buffer hold. *)
Lemma ioterm_getsn_line_witness :
  exists iot' buf', ioterm_getsn Tty.tty_ops Ret 20 2
      (ioterm_init {| Tty.tty_in := [97; 98; 120; 8; 99; 100; 101; 102; 103; 13; 10; 90]; Tty.tty_out := [] |})
      (replicate 8 255) 6 = Ret (iot', Some buf') /\
    let line := fold_left (edit_key 5) [97; 98; 120; 8; 99; 100; 101; 102; 103] [] in
    (length line < 6)%nat /\ take (length line + 1) buf' = line ++ [0] /\
    length buf' = 8%nat /\ drop 6 buf' = [255; 255] /\
    norm_in (iot_cr_in iot') (Tty.tty_in (iot_raw iot')) = [90].
Proof.
  refine (@ioterm_getsn_line _ Tty.tty_ops Ret Tty.tty_read Tty.tty_write Tty.tty_source Tty.tty_sink Tty.tty_duplex 20 0
    (ioterm_init {| Tty.tty_in := [97; 98; 120; 8; 99; 100; 101; 102; 103; 13; 10; 90]; Tty.tty_out := [] |})
    (replicate 8 255) [97; 98; 120; 8; 99; 100; 101; 102; 103] [90] 6 eq_refl eq_refl I I eq_refl _ _ _ _ _).
  - reflexivity.
  - repeat constructor; done.
  - cbn; lia.
  - lia.
  - cbn; lia.
Defined.

(** The witness of [iovprintf_complete]: "%s=%d" with "n" and -7. *)
Lemma iovprintf_complete_witness :
  exists s', iovprintf Tty.tty_ops {| Tty.tty_in := []; Tty.tty_out := [62] |} (cstr "%s=%d")
      [VStr (Some (cstr "n")); VWord (-7)] = Ret (s', u64 4) /\
    Tty.tty_out s' = [62] ++ chars "n=-7".
Proof.
  exact (@iovprintf_complete _ Tty.tty_ops Tty.tty_write Tty.tty_sink {| Tty.tty_in := []; Tty.tty_out := [62] |}
    (cstr "%s=%d") [VStr (Some (cstr "n")); VWord (-7)] 4 (chars "n=-7") eq_refl I eq_refl eq_refl).
Defined.

(** A terminal is not a sink in the sense of io.h: the LF of a CR LF split
    over two buffers is not counted, so [iowrite] repeats the last byte. *)
Example ioterm_iowrite_duplicates :
  (let ops := ioterm_ops Tty.tty_ops Ret 2 in
   let! (t, _) := iowrite ops (ioterm_init {| Tty.tty_in := []; Tty.tty_out := [] |}) [13] in
   let! (t, n) := iowrite ops t [10; 97; 98] in
   Ret (n, Tty.tty_out (iot_raw t))) = Ret (3, [13; 10; 97; 98; 98]).
Proof. vm_compute. reflexivity. Qed.

(** The editor drops an opening bracket: '\133' is octal for '['. *)
Example ioterm_getsn_bracket :
  (let! (_, r) := ioterm_getsn Tty.tty_ops Ret 9 2
     (ioterm_init {| Tty.tty_in := chars "a[1]" ++ [13]; Tty.tty_out := [] |}) (replicate 8 0) 8 in
   Ret r) = Ret (Some (chars "a1]" ++ [0; 0; 0; 0; 0])).
Proof. vm_compute. reflexivity. Qed.
