(* ===== verification/UserProgs.v ===== *)
(** User programs (src/src/user): what a program computes between its system
    calls.

    A program is the tree of its system calls: the arguments as the program
    passes them, and what it does with every answer.  A buffer is given by its
    contents; an access outside of an array is [Crash]. *)

From Stdlib Require Import Ascii String.
From S2P Require Import Prelude KString IoIntf IoTerm.
From stdpp Require Import list.
#[local] Open Scope Z_scope.

(** The calls of syscall.h. *)
Inductive ucall :=
| Exit
| Msgout (msg : list Z)
| Close (fd : Z)
| Read (fd bufsz : Z)
| Write (fd : Z) (buf : list Z) (len : Z)
| Ioctl (fd cmd arg : Z)
| Devopen (fd : Z) (name : list Z) (instno : Z)
| Fsopen (fd : Z) (name : list Z)
| Exec (fd : Z)
| Fork
| Wait (tid : Z)
| Pioref.

(** The answer: the result, what was stored into the buffer of a read, and the
    argument of an ioctl afterwards. *)
Record reply := { ret : Z; data : list Z; arg : Z }.

Inductive prog := Call (c : ucall) (k : reply -> prog) | Done | Crash.

(** Calls whose answer is not used, [_exit], and the return from [main], which
    start.s sends to [_exit]. *)
Definition call_ (c : ucall) (p : prog) : prog := Call c (fun _ => p).
Definition exit_ : prog := call_ Exit Done.
Definition msgout (msg : string) (p : prog) : prog := call_ (Msgout (cstr msg)) p.
(** [buffer[i] = c]. *)
Definition put (buffer : list Z) (i c : Z) (k : list Z -> prog) : prog :=
  match store buffer i c with Ret b => k b | _ => Crash end.
(** What a read leaves in the buffer. *)
Definition filled (buffer : list Z) (r : reply) (k : list Z -> prog) : prog :=
  if (length (data r) <=? length buffer)%nat then k (splice buffer 0 (data r)) else Crash.

(** The calls a program makes, when [o] answers the calls in order. *)
Fixpoint trace (p : prog) (o : nat -> reply) (i : nat) : list ucall :=
  match p with
  | Call c k => c :: trace (k (o i)) o (S i)
  | Done | Crash => []
  end.

(** * fib.c *)

Fixpoint fib (n : nat) : Z :=
  match n with
  | O => 0
  | S m => match m with O => 1 | S k => u32 (fib k + fib m) end
  end.

(** The loop from [n] on, [k] numbers. *)
Fixpoint fib_loop (k n : nat) (linebuf : list Z) : prog :=
  match k with
  | O => exit_
  | S k =>
      match vsnprintf linebuf 64 (chars "f(%u) = %u" ++ [10; 0]) [VWord (Z.of_nat n); VWord (fib n)] with
      | Ret (_, linebuf) => call_ (Msgout linebuf) (fib_loop k (S n) linebuf)
      | _ => Crash
      end
  end.
Definition fib_main (linebuf : list Z) : prog := fib_loop 60 0 linebuf.

(** * The first programs *)

Definition init0_main : prog := msgout "Hello, world!" exit_.

(** [n] times the write of init1.c; the delay loop has no effect. *)
Definition greeting : list Z := chars "Hello, world!" ++ [13; 10; 0].
Fixpoint init1_loop (n : nat) (slen : Z) (p : prog) : prog :=
  match n with O => p | S n => call_ (Write 0 greeting slen) (init1_loop n slen p) end.
Definition init1_main : prog :=
  Call (Devopen 0 (cstr "ser") 1) (fun r =>
    if ret r <? 0 then exit_
    else match strlen greeting with
         | Ret slen => init1_loop 100 slen (call_ (Close 0) exit_)
         | _ => Crash
         end).

Definition newline (s : string) : list Z := chars s ++ [10; 0].
Definition init2_main : prog :=
  call_ (Msgout (newline "_devopen starting...")) (
  Call (Devopen 0 (cstr "ser") 1) (fun r =>
    if ret r <? 0 then call_ (Msgout (newline "_devopen failed")) exit_
    else
      call_ (Msgout (newline "_devopen successful")) (
      call_ (Msgout (newline "_fsopen starting...")) (
      Call (Fsopen 1 (cstr "trek")) (fun r =>
        if ret r <? 0 then call_ (Msgout (newline "_fsopen failed")) exit_
        else
          call_ (Msgout (newline "_fsopen successful")) (
          call_ (Msgout (newline "_exec starting...")) (
          call_ (Exec 1) exit_))))))).

(** Opens a program at descriptor [fd] and runs it. *)
Definition run_file (fd : Z) (name : string) : prog :=
  Call (Fsopen fd (cstr name)) (fun r => if ret r <? 0 then msgout "_fsopen failed" exit_ else call_ (Exec fd) exit_).
(** The same with a serial port at descriptor 0. *)
Definition run_on_port (instno : Z) (name : string) : prog :=
  Call (Devopen 0 (cstr "ser") instno) (fun r => if ret r <? 0 then msgout "_devopen failed" exit_ else run_file 1 name).

Definition init_fib_fib_main : prog := call_ Fork (run_file 0 "init3").
Definition init_fib_rule30_main : prog :=
  Call Fork (fun r => if negb (ret r =? 0) then run_file 1 "init3" else run_on_port 1 "rule30").
Definition init_trek_rule30_main : prog :=
  Call Fork (fun r => if negb (ret r =? 0) then run_on_port 1 "trek" else run_on_port 2 "rule30").

(** * The test of locking *)

Definition BUF_SZ : Z := 256.

(** Reads into the buffer, terminates it and prints it. *)
Definition show_file (buffer : list Z) (k : list Z -> prog) : prog :=
  Call (Read 0 BUF_SZ) (fun r =>
    filled buffer r (fun buffer => put buffer (ret r) 0 (fun buffer =>
      msgout "File contents: " (call_ (Msgout buffer) (k buffer))))).
(** The loops: [n] writes of [text], the [i]-th at [first + slen * i]. *)
Fixpoint lock_writes (n : nat) (i first : Z) (text : list Z) (slen : Z) (buffer : list Z) (k : list Z -> prog) : prog :=
  match n with
  | O => k buffer
  | S n =>
      call_ (Ioctl 0 IOCTL_SETPOS (i32 (first + slen * i))) (
      call_ (Write 0 text slen) (
      show_file buffer (fun buffer => lock_writes n (i + 1) first text slen buffer k)))
  end.
Definition init_lock_test_main (buffer : list Z) : prog :=
  let buffer_parent := cstr "      " in
  let buffer_child := cstr "     " in
  match strlen buffer_parent, strlen buffer_child with
  | Ret slen_parent, Ret slen_child =>
      call_ (Fsopen 0 (cstr "test_lock.txt")) (
      Call Fork (fun r =>
        if negb (ret r =? 0) then
          lock_writes 3 0 (slen_child * 3) buffer_parent slen_parent buffer (fun buffer =>
            call_ (Wait 1) (show_file buffer (fun _ => call_ (Close 0) exit_)))
        else
          lock_writes 3 0 0 buffer_child slen_child buffer (fun _ => call_ (Close 0) exit_)))
  | _, _ => Crash
  end.

(** * The test of reference counts *)

Definition init_ref_test_main (buffer : list Z) (length0 : Z) : prog :=
  msgout "Before _fsopen (shouldn't print anything):" (
  call_ Pioref (
  call_ (Fsopen 0 (cstr "test.txt")) (
  msgout "After _fsopen:" (
  call_ Pioref (
  Call Fork (fun r =>
    if negb (ret r =? 0) then
      msgout "After forking:" (
      call_ Pioref (
      call_ (Close 0) (
      msgout "Starting to wait..." (
      call_ (Wait 1) exit_))))
    else
      msgout "After forking:" (
      call_ Pioref (
      msgout "Copy some text from file and print to console" (
      Call (Ioctl 0 IOCTL_GETLEN length0) (fun r =>
      Call (Read 0 (arg r)) (fun r1 => filled buffer r1 (fun buffer =>
      call_ (Write 0 buffer (u64 (ret r1))) (
      Call (Ioctl 0 IOCTL_GETLEN (arg r)) (fun r =>
      Call (Read 0 (arg r)) (fun r2 => filled buffer r2 (fun buffer =>
      put buffer (ret r1 + ret r2) 0 (fun buffer =>
      msgout "File contents: " (
      call_ (Msgout buffer) (
      msgout "After printing:" (
      call_ Pioref (
      call_ (Close 0) (
      msgout "After closing child: (shouldn't print anything)" (
      call_ Pioref exit_))))))))))))))))))))))).

(** * What fib.c prints *)

(** The Fibonacci numbers, two at a time. *)
Fixpoint fib_pair (n : nat) : Z * Z :=
  match n with O => (0, 1) | S n => let (a, b) := fib_pair n in (b, a + b) end.
Definition fibonacci (n : nat) : Z := (fib_pair n).1.

Lemma fib_pair_snd n : (fib_pair n).2 = fibonacci (S n).
Proof. unfold fibonacci. cbn. by destruct (fib_pair n). Qed.
Lemma fibonacci_SS n : fibonacci (S (S n)) = fibonacci n + fibonacci (S n).
Proof. rewrite <- !fib_pair_snd. unfold fibonacci. cbn [fib_pair]. by destruct (fib_pair n). Qed.

(** [fib] computes in [unsigned int]. *)
Lemma fib_spec n : fib n = u32 (fibonacci n).
Proof.
  cut (fib n = u32 (fibonacci n) /\ fib (S n) = u32 (fibonacci (S n))); [tauto|]. induction n as [|n [IH1 IH2]]; [done|]. split; [done|].
  rewrite fibonacci_SS. change (fib (S (S n))) with (u32 (fib n + fib (S n))). rewrite IH1, IH2. unfold u32. by rewrite <- Z.add_mod.
Qed.

(** The digits of a number. *)
Definition decimal (v : Z) : list Z := match format_digits 40 v 10 [] with Ret ds => ds | _ => [] end.
Lemma decimal_numeral v : 0 <= v < 2 ^ 64 -> is_numeral 10 v (decimal v).
Proof.
  intros Hv. destruct (format_digits_numeral 39 v 10 []) as (ds & E & Hn & _); [lia|change (10 ^ Z.of_nat 40) with (10 ^ 40); lia|].
  unfold decimal. rewrite E. by rewrite app_nil_r.
Qed.

Definition fib_line (n : nat) : list Z :=
  chars "f(" ++ decimal (Z.of_nat n) ++ chars ") = " ++ decimal (u32 (fibonacci n)) ++ [10].

Lemma fib_text n : (n < 60)%nat ->
  exists l, text (chars "f(%u) = %u" ++ [10; 0]) [VWord (Z.of_nat n); VWord (fib n)] = Ret (l, fib_line n) /\ (length (fib_line n) < 64)%nat /\
    Forall (fun c => c <> 0) (fib_line n).
Proof.
  intros Hn. rewrite fib_spec.
  assert (Hall : Forall (fun n => text (chars "f(%u) = %u" ++ [10; 0]) [VWord (Z.of_nat n); VWord (u32 (fibonacci n))]
      = Ret (Z.of_nat (length (fib_line n)), fib_line n) /\ (length (fib_line n) < 64)%nat /\ forallb (fun c => negb (c =? 0)) (fib_line n) = true) (seq 0 60))
    by (repeat (apply Forall_cons_2; [split_and!; [vm_compute; reflexivity|apply Nat.ltb_lt; vm_compute; reflexivity|vm_compute; reflexivity]|]); apply Forall_nil_2).
  rewrite Forall_forall in Hall. destruct (Hall n) as (E & Hl & Hz); [apply elem_of_seq; lia|]. eexists. split; [exact E|]. split; [done|].
  apply Forall_forall. intros c Hc%list_elem_of_In. rewrite forallb_forall in Hz. apply Hz in Hc. lia.
Qed.

Lemma until_nul_app l r : Forall (fun c => c <> 0) l -> until_nul (l ++ 0 :: r) = Some l.
Proof. induction 1 as [|c l Hc Hl IH]; cbn; [done|]. by rewrite (proj2 (Z.eqb_neq _ _) Hc), IH. Qed.

(** One line: the buffer holds the text and its terminator. *)
Lemma fib_step linebuf n : length linebuf = 64%nat -> (n < 60)%nat ->
  exists l b, vsnprintf linebuf 64 (chars "f(%u) = %u" ++ [10; 0]) [VWord (Z.of_nat n); VWord (fib n)] = Ret (l, b) /\
    length b = 64%nat /\ until_nul b = Some (fib_line n).
Proof.
  intros Hl Hn. destruct (fib_text n Hn) as (l & Et & Hs & Hz). pose proof (vsnprintf_sent linebuf 64 _ _ l _ ltac:(lia) Et) as E.
  change (Z.to_nat (64 - 1)) with 63%nat in E. rewrite take_ge in E by lia. exists l, (splice linebuf 0 (fib_line n ++ [0])). split; [exact E|]. split.
  - rewrite length_splice; [done|]. rewrite length_app, Hl. cbn [length]. lia.
  - unfold splice. cbn [take app]. rewrite <- app_assoc. by apply until_nul_app.
Qed.

Lemma fib_loop_trace k n linebuf o i : length linebuf = 64%nat -> (n + k <= 60)%nat ->
  exists bufs, trace (fib_loop k n linebuf) o i = map Msgout bufs ++ [Exit] /\ map until_nul bufs = map (fun n => Some (fib_line n)) (seq n k).
Proof.
  revert n linebuf i; induction k as [|k IH]; intros n linebuf i Hl Hn; [by exists []|].
  destruct (fib_step linebuf n Hl ltac:(lia)) as (l & b & E & Hb & Hu). cbn [fib_loop]. rewrite E.
  destruct (IH (S n) b (S i) Hb ltac:(lia)) as (bufs & Et & Hm). exists (b :: bufs). cbn [trace call_ map app seq]. by rewrite Et, Hu, Hm.
Qed.

(** Fib.c sends the lines f(n) = v for n from 0 to 59, in order, and then
    exits, where n and v are written in decimal and v is the n-th Fibonacci
    number modulo 2^32, which is the number itself up to n = 47. *)
Theorem fib_prints linebuf o : length linebuf = 64%nat ->
  (exists bufs, trace (fib_main linebuf) o 0 = map Msgout bufs ++ [Exit] /\ map until_nul bufs = map (fun n => Some (fib_line n)) (seq 0 60)) /\
  (forall n, (n < 60)%nat -> is_numeral 10 (Z.of_nat n) (decimal (Z.of_nat n)) /\ is_numeral 10 (fib n) (decimal (u32 (fibonacci n))) /\
     (fib n = fibonacci n <-> (n < 48)%nat)).
Proof.
  intros Hl. split; [by apply fib_loop_trace|]. intros n Hn. rewrite fib_spec. split; [apply decimal_numeral; lia|].
  assert (Hr : 0 <= u32 (fibonacci n) < 2 ^ 32) by apply Z.mod_pos_bound, eq_refl. split; [apply decimal_numeral; lia|].
  assert (Hall : Forall (fun n => bool_decide (u32 (fibonacci n) = fibonacci n) = (n <? 48)%nat) (seq 0 60))
    by (repeat (apply Forall_cons_2; [vm_compute; reflexivity|]); apply Forall_nil_2).
  rewrite Forall_forall in Hall. specialize (Hall n ltac:(apply elem_of_seq; lia)). rewrite <- Nat.ltb_lt, <- Hall. symmetry. apply bool_decide_eq_true.
Qed.

Lemma fib_prints_witness : exists bufs, trace (fib_main (replicate 64 170)) (fun _ => {| ret := 0; data := []; arg := 0 |}) 0 = map Msgout bufs ++ [Exit] /\
  option_map until_nul (nth_error bufs 10) = Some (Some (chars "f(10) = 55" ++ [10])).
Proof.
  destruct (fib_prints (replicate 64 170) (fun _ => {| ret := 0; data := []; arg := 0 |}) eq_refl) as [(bufs & E & Hm) _].
  exists bufs. split; [exact E|]. rewrite <- nth_error_map, Hm. vm_compute. reflexivity.
Defined.

(** * hello.c

    It is of a stage without system calls: [main] is called with the raw
    object and writes through a terminal. *)
Section Hello.
Context {T : Type} (raw : io_ops T) (raw_close : T -> outcome T).

Definition hello_main (rfuel : nat) (io : T) : outcome (io_term T) :=
  let! (tio, _) := ioputs (ioterm_ops raw raw_close rfuel) (ioterm_init io) (cstr "Hello, world!") in Ret tio.

Context (write : T -> list Z -> outcome (T * Z)) `{IoSink T write} (Hw : op_write raw = Some write).

Lemma hello_prints rfuel io : sink_wf io -> sink_cap io = None ->
  exists iot, hello_main rfuel io = Ret iot /\ sink_log (iot_raw iot) = sink_log io ++ chars "Hello, world!" ++ [13; 10].
Proof.
  intros Hwf Hc. unfold hello_main, ioputs. change (strlen (cstr "Hello, world!")) with (Ret 13). cbn [obind].
  change (take (Z.to_nat 13) (cstr "Hello, world!")) with (chars "Hello, world!").
  destruct (term_iowrite raw raw_close write rfuel (ioterm_init io) (chars "Hello, world!")) as (i1 & -> & O1 & L1 & C1 & _); [done|by split|done|]. cbn [obind].
  change (Z.of_nat (length (chars "Hello, world!")) <? 0) with false. cbv iota.
  destruct (term_iowrite raw raw_close write rfuel i1 [10]) as (i2 & -> & O2 & L2 & _); [done|done|by rewrite C1|].
  rewrite C1 in L2. cbn [obind].
  change (Z.of_nat (length [10]) <? 0) with false. cbv iota. cbn [obind]. exists i2. split; [done|].
  rewrite L2, L1. cbn [ioterm_init iot_raw]. by rewrite <- app_assoc.
Qed.
End Hello.

Example hello_on_tty : (let! iot := hello_main Tty.tty_ops Ret 2 {| Tty.tty_in := []; Tty.tty_out := [] |} in Ret (Tty.tty_out (iot_raw iot)))
  = Ret (chars "Hello, world!" ++ [13; 10]).
Proof. vm_compute. reflexivity. Qed.
