(* ===== verification/Plic.v ===== *)
(** The platform-level interrupt controller driver (src/src/kern/plic.c).

    The controller itself is not code of the kernel: the driver is modelled
    over any memory-mapped device [HW] (class [Mmio]); what the RISC-V PLIC
    specification says of its plain registers is the class [PlicRegs]. *)

From stdpp Require Import gmap.
From S2P Require Import Prelude.

Definition PLIC_IOBASE : Z := 0x0C000000.
Definition PLIC_SRCCNT : Z := 0x400.
Definition PLIC_CTXCNT : Z := 2.
Definition PLIC_SOURCE_PRIO : Z := 0x000004.
Definition PLIC_PENDING : Z := 0x1000.
Definition PLIC_ENABLE : Z := 0x002000.
Definition NEXT_PLIC_ENABLE : Z := 0x80.
Definition PLIC_PRIO_TR : Z := 0x200000.
Definition NEXT_PLIC_PRIO_TR : Z := 0x1000.
Definition PLIC_CLAIM_COMPLETE : Z := 0x200004.
Definition NEXT_PLIC_CLAIM_COMPLETE : Z := 0x1000.
Definition PLIC_PRIO_MAX : Z := 7.

(** 32-bit volatile accesses; a read may change the device. *)
Class Mmio (HW : Type) := {
  mrd : HW -> Z -> HW * Z;
  mwr : HW -> Z -> Z -> HW;
}.

Section Driver.
Context {HW : Type} `{Mmio HW}.

(** Address of the priority register of a source and of the word and bit of
    its enable flag for a context. *)
Definition prio_addr (srcno : Z) : Z := PLIC_IOBASE + PLIC_SOURCE_PRIO * srcno.
Definition enable_addr (ctxno srcno : Z) : Z :=
  PLIC_IOBASE + PLIC_ENABLE + ctxno * NEXT_PLIC_ENABLE + srcno / 32 * 4.
Definition claim_addr (ctxno : Z) : Z :=
  PLIC_IOBASE + PLIC_CLAIM_COMPLETE + ctxno * NEXT_PLIC_CLAIM_COMPLETE.

Definition plic_set_source_priority (hw : HW) (srcno level : Z) : HW :=
  if (srcno <? PLIC_SRCCNT) && (level <=? PLIC_PRIO_MAX) then mwr hw (prio_addr srcno) level else hw.

Definition plic_source_pending (hw : HW) (srcno : Z) : HW * Z :=
  if srcno <? PLIC_SRCCNT then
    let (hw, v) := mrd hw (PLIC_IOBASE + PLIC_PENDING + srcno / 32 * 4) in
    (hw, Z.land (Z.shiftr v (srcno mod 32)) 1)
  else (hw, 0).

Definition plic_enable_source_for_context (hw : HW) (ctxno srcno : Z) : HW :=
  if (ctxno <? PLIC_CTXCNT) && (srcno <? PLIC_SRCCNT) then
    let (hw, v) := mrd hw (enable_addr ctxno srcno) in
    mwr hw (enable_addr ctxno srcno) (Z.lor v (u32 (Z.shiftl 1 (srcno mod 32))))
  else hw.

Definition plic_disable_source_for_context (hw : HW) (ctxno srcid : Z) : HW :=
  if (ctxno <? PLIC_CTXCNT) && (srcid <? PLIC_SRCCNT) then
    let (hw, v) := mrd hw (enable_addr ctxno srcid) in
    mwr hw (enable_addr ctxno srcid) (Z.land v (u32 (Z.lnot (Z.shiftl 1 (srcid mod 32)))))
  else hw.

Definition plic_set_context_threshold (hw : HW) (ctxno level : Z) : HW :=
  if (ctxno <? PLIC_CTXCNT) && (level <=? PLIC_PRIO_MAX) then
    mwr hw (PLIC_IOBASE + PLIC_PRIO_TR + ctxno * NEXT_PLIC_PRIO_TR) level
  else hw.

Definition plic_claim_context_interrupt (hw : HW) (ctxno : Z) : HW * Z :=
  if ctxno <? PLIC_CTXCNT then mrd hw (claim_addr ctxno) else (hw, 0).

Definition plic_complete_context_interrupt (hw : HW) (ctxno srcno : Z) : HW :=
  if (ctxno <? PLIC_CTXCNT) && (srcno <? PLIC_SRCCNT) then mwr hw (claim_addr ctxno) srcno else hw.

Definition plic_init_step (i : nat) (hw : HW) : HW :=
  let hw := plic_set_source_priority hw (Z.of_nat i) 0 in
  plic_enable_source_for_context hw 1 (Z.of_nat i).

(** The loop of [plic_init], [n] turns in. *)
Fixpoint plic_init_loop (n : nat) (hw : HW) : HW :=
  match n with O => hw | S n' => plic_init_step n' (plic_init_loop n' hw) end.

Definition plic_init (hw : HW) : HW := plic_init_loop (Z.to_nat PLIC_SRCCNT) hw.

(** [int] arguments become [uint32_t]. *)
Definition plic_enable_irq (hw : HW) (irqno prio : Z) : HW :=
  plic_set_source_priority hw (u32 irqno) (u32 prio).

Definition plic_disable_irq (hw : HW) (irqno : Z) : HW :=
  if 0 <? irqno then plic_set_source_priority hw (u32 irqno) 0 else hw.

Definition plic_claim_irq (hw : HW) : HW * Z :=
  let (hw, v) := plic_claim_context_interrupt hw 1 in (hw, i32 v).

Definition plic_close_irq (hw : HW) (irqno : Z) : HW :=
  plic_complete_context_interrupt hw 1 (u32 irqno).
End Driver.

(** * The plain registers

    Priorities (of sources 1 to 1023) and enable words hold what is written,
    in the bits that exist ([wmask]: source 0 does not), and reading them has
    no effect. *)
Definition is_plain (a : Z) : bool :=
  ((PLIC_IOBASE <=? a) && (a <? PLIC_IOBASE + PLIC_PENDING)) ||
  ((PLIC_IOBASE + PLIC_ENABLE <=? a) && (a <? PLIC_IOBASE + PLIC_ENABLE + PLIC_CTXCNT * NEXT_PLIC_ENABLE)).

Class PlicRegs (HW : Type) `{Mmio HW} := {
  peek : HW -> Z -> Z;
  wmask : Z -> Z;
  mrd_plain : forall hw a, is_plain a = true -> mrd hw a = (hw, peek hw a);
  mwr_plain : forall hw a b v, is_plain a = true -> is_plain b = true ->
    peek (mwr hw a v) b = if a =? b then Z.land v (wmask a) else peek hw b;
  wmask_prio : forall s, 0 < s < PLIC_SRCCNT -> Z.land 7 (wmask (prio_addr s)) = 7;
  wmask_enable : forall c s, 0 <= c < PLIC_CTXCNT -> 0 < s < PLIC_SRCCNT ->
    Z.testbit (wmask (enable_addr c s)) (s mod 32) = true;
}.

(** Is source [s] enabled for context [c]; its priority. *)
Definition src_enabled {HW} `{PlicRegs HW} (hw : HW) (c s : Z) : bool :=
  Z.testbit (peek hw (enable_addr c s)) (s mod 32).
Definition src_prio {HW} `{PlicRegs HW} (hw : HW) (s : Z) : Z := peek hw (prio_addr s).

Ltac plic_consts :=
  unfold is_plain, prio_addr, enable_addr, PLIC_IOBASE, PLIC_PENDING, PLIC_ENABLE, PLIC_CTXCNT, PLIC_SRCCNT,
    NEXT_PLIC_ENABLE, PLIC_SOURCE_PRIO in *.

Lemma prio_plain s : 0 <= s < PLIC_SRCCNT -> is_plain (prio_addr s) = true.
Proof. plic_consts. intros. apply orb_true_iff. left. lia. Qed.
Lemma enable_plain c s : 0 <= c < PLIC_CTXCNT -> 0 <= s < PLIC_SRCCNT -> is_plain (enable_addr c s) = true.
Proof.
  plic_consts. intros. apply orb_true_iff. right.
  assert (0 <= s / 32 < 32) by (split; [apply Z.div_pos|apply Z.div_lt_upper_bound]; lia). lia.
Qed.
#[export] Hint Resolve prio_plain enable_plain : kern.

(** Different registers have different addresses. *)
Lemma prio_enable_neq s c s' : 0 <= s < PLIC_SRCCNT -> 0 <= c -> 0 <= s' -> prio_addr s <> enable_addr c s'.
Proof. plic_consts. intros. assert (0 <= s' / 32) by (apply Z.div_pos; lia). lia. Qed.
Lemma prio_addr_inj s s' : prio_addr s = prio_addr s' -> s = s'.
Proof. plic_consts. lia. Qed.
Lemma enable_addr_inj c s c' s' :
  0 <= s < PLIC_SRCCNT -> 0 <= s' < PLIC_SRCCNT ->
  enable_addr c s = enable_addr c' s' -> c = c' /\ s / 32 = s' / 32.
Proof.
  plic_consts. intros.
  assert (0 <= s / 32 < 32) by (split; [apply Z.div_pos|apply Z.div_lt_upper_bound]; lia).
  assert (0 <= s' / 32 < 32) by (split; [apply Z.div_pos|apply Z.div_lt_upper_bound]; lia). lia.
Qed.

Section Regs.
Context {HW : Type} `{PlicRegs HW}.
Implicit Types hw : HW.

Lemma set_prio_prio hw s l s' :
  0 <= s < PLIC_SRCCNT -> 0 < s' < PLIC_SRCCNT -> 0 <= l <= PLIC_PRIO_MAX ->
  src_prio (plic_set_source_priority hw s l) s' = if s =? s' then l else src_prio hw s'.
Proof.
  intros Hs Hs' Hl. unfold plic_set_source_priority, src_prio.
  replace ((s <? PLIC_SRCCNT) && (l <=? PLIC_PRIO_MAX)) with true by (symmetry; lia).
  rewrite mwr_plain by (apply prio_plain; lia).
  destruct (Z.eqb_spec s s') as [->|Hne].
  - rewrite Z.eqb_refl. rewrite <- (Z.mod_small l (2 ^ 3)) by (unfold PLIC_PRIO_MAX in *; lia).
    rewrite <- Z.land_ones, <- Z.land_assoc by lia. f_equal. by apply wmask_prio.
  - destruct (Z.eqb_spec (prio_addr s) (prio_addr s')) as [E|]; [by apply prio_addr_inj in E|done].
Qed.

Lemma set_prio_enabled hw s l c s' :
  0 <= s < PLIC_SRCCNT -> 0 <= c < PLIC_CTXCNT -> 0 <= s' < PLIC_SRCCNT ->
  src_enabled (plic_set_source_priority hw s l) c s' = src_enabled hw c s'.
Proof.
  intros. unfold plic_set_source_priority, src_enabled. destruct (_ && _); [|done].
  rewrite mwr_plain by auto with kern.
  destruct (Z.eqb_spec (prio_addr s) (enable_addr c s')) as [E|]; [|done].
  apply prio_enable_neq in E; lia.
Qed.

Lemma enable_prio hw c s s' :
  0 <= c < PLIC_CTXCNT -> 0 <= s < PLIC_SRCCNT -> 0 <= s' < PLIC_SRCCNT ->
  src_prio (plic_enable_source_for_context hw c s) s' = src_prio hw s'.
Proof.
  intros. unfold plic_enable_source_for_context, src_prio. destruct (_ && _); [|done].
  rewrite mrd_plain by auto with kern. rewrite mwr_plain by auto with kern.
  destruct (Z.eqb_spec (enable_addr c s) (prio_addr s')) as [E|]; [|done].
  symmetry in E. apply prio_enable_neq in E; lia.
Qed.

Lemma u32_bit k i : 0 <= k < 32 -> Z.testbit (u32 (Z.shiftl 1 k)) i = (i =? k).
Proof.
  intros. rewrite u32_small.
  - rewrite Z.shiftl_mul_pow2, Z.mul_1_l by lia. destruct (Z.eqb_spec i k) as [->|].
    + apply Z.pow2_bits_true. lia.
    + apply Z.pow2_bits_false. lia.
  - rewrite Z.shiftl_mul_pow2, Z.mul_1_l by lia. split; [apply Z.pow_nonneg; lia|].
    apply Z.pow_lt_mono_r; lia.
Qed.

(** Enabling sets one flag and clears none. *)
Lemma enable_enabled hw c s c' s' :
  0 <= c < PLIC_CTXCNT -> 0 <= s < PLIC_SRCCNT -> 0 <= c' < PLIC_CTXCNT -> 0 < s' < PLIC_SRCCNT ->
  (c = c' /\ s = s') \/ src_enabled hw c' s' = true ->
  src_enabled (plic_enable_source_for_context hw c s) c' s' = true.
Proof.
  intros Hc Hs Hc' Hs' Hen. unfold plic_enable_source_for_context, src_enabled in *.
  replace ((c <? PLIC_CTXCNT) && (s <? PLIC_SRCCNT)) with true by (symmetry; lia).
  rewrite mrd_plain by auto with kern. rewrite mwr_plain by (apply enable_plain; lia).
  pose proof (Z.mod_pos_bound s 32 ltac:(lia)). pose proof (Z.mod_pos_bound s' 32 ltac:(lia)).
  destruct (Z.eqb_spec (enable_addr c s) (enable_addr c' s')) as [E|E].
  - rewrite E, Z.land_spec, wmask_enable, andb_true_r by done.
    rewrite Z.lor_spec, u32_bit by lia. destruct Hen as [[-> ->]| ->]; [|done].
    by rewrite Z.eqb_refl, orb_true_r.
  - destruct Hen as [[-> ->]|Hen]; [done|exact Hen].
Qed.

Lemma plic_init_loop_spec n hw s :
  (Z.of_nat n <= PLIC_SRCCNT) -> 0 < s < Z.of_nat n ->
  src_prio (plic_init_loop n hw) s = 0 /\ src_enabled (plic_init_loop n hw) 1 s = true.
Proof.
  unfold PLIC_SRCCNT. induction n as [|n IH]; intros Hn Hs; [lia|].
  cbn [plic_init_loop]. unfold plic_init_step.
  rewrite enable_prio by (unfold PLIC_CTXCNT, PLIC_SRCCNT; lia).
  rewrite set_prio_prio by (unfold PLIC_PRIO_MAX, PLIC_SRCCNT; lia).
  destruct (Z.eqb_spec (Z.of_nat n) s) as [Heq|Hne].
  - split; [done|]. apply enable_enabled; unfold PLIC_CTXCNT, PLIC_SRCCNT; lia.
  - destruct IH as [IH1 IH2]; [lia|lia|]. split; [done|].
    apply enable_enabled; unfold PLIC_CTXCNT, PLIC_SRCCNT; try lia. right.
    by rewrite set_prio_enabled by (unfold PLIC_CTXCNT, PLIC_SRCCNT; lia).
Qed.
End Regs.

(** * A register file, for the witnesses *)
Module RegFile.
Definition reg_file := gmap Z Z.
Definition reg_peek (hw : reg_file) (a : Z) : Z := default 0 (hw !! a).

#[global] Instance reg_mmio : Mmio reg_file :=
  {| mrd := fun hw a => (hw, reg_peek hw a); mwr := fun hw a v => <[a := v]> hw |}.

(** All bits exist. *)
#[global] Program Instance reg_plic : PlicRegs reg_file := {| peek := reg_peek; wmask := fun _ => -1 |}.
Next Obligation. done. Qed.
Next Obligation.
  intros hw a b v _ _. unfold reg_peek, mwr, reg_mmio, reg_file in *. rewrite Z.land_m1_r. destruct (Z.eqb_spec a b) as [->|].
  - by rewrite lookup_insert_eq.
  - by rewrite lookup_insert_ne.
Qed.
Next Obligation. done. Qed.
Next Obligation. intros. rewrite Z.bits_m1; [done|]. apply Z.mod_pos_bound. lia. Qed.
End RegFile.

(** * Properties *)

(** After [plic_init], on any controller whose registers behave as the
    PLIC specification says, every source has priority 0 (it cannot
    interrupt) and is enabled for context 1; then [plic_enable_irq] with a
    priority from 0 to 7 changes the priority of its source to exactly that
    and of no other source, [plic_disable_irq] puts it back to 0, and neither
    touches an enable flag. *)
Theorem plic_priorities {HW} `{PlicRegs HW} (hw : HW) irq prio s :
  0 < irq < PLIC_SRCCNT -> 0 <= prio <= PLIC_PRIO_MAX -> 0 < s < PLIC_SRCCNT ->
  let hw0 := plic_init hw in let hw1 := plic_enable_irq hw0 irq prio in let hw2 := plic_disable_irq hw1 irq in
  src_prio hw0 s = 0 /\ src_prio hw1 s = (if irq =? s then prio else 0) /\ src_prio hw2 s = 0 /\
  src_enabled hw0 1 s = true /\ src_enabled hw1 1 s = true /\ src_enabled hw2 1 s = true.
Proof.
  intros Hi Hp Hs. destruct (plic_init_loop_spec (Z.to_nat PLIC_SRCCNT) hw s) as [H1 H2]; [done|lia|].
  cbv zeta. fold (plic_init hw) in *.
  assert (Hir : u32 irq = irq) by (apply u32_small; unfold PLIC_SRCCNT in *; lia).
  assert (Hpr : u32 prio = prio) by (apply u32_small; unfold PLIC_PRIO_MAX in *; lia).
  unfold plic_disable_irq, plic_enable_irq. rewrite Hir, Hpr.
  replace (0 <? irq) with true by (symmetry; lia).
  rewrite !set_prio_enabled by (unfold PLIC_CTXCNT; lia).
  rewrite !set_prio_prio by (unfold PLIC_PRIO_MAX in *; lia). rewrite H1, H2.
  split_and!; try done; by destruct (irq =? s).
Qed.

Lemma plic_priorities_witness :
  let hw0 := plic_init (∅ : RegFile.reg_file) in
  let hw1 := plic_enable_irq hw0 10 3 in let hw2 := plic_disable_irq hw1 10 in
  src_prio hw0 10 = 0 /\ src_prio hw1 10 = (if 10 =? 10 then 3 else 0) /\ src_prio hw2 10 = 0 /\
  src_enabled hw0 1 10 = true /\ src_enabled hw1 1 10 = true /\ src_enabled hw2 1 10 = true.
Proof. exact (plic_priorities (∅ : RegFile.reg_file) 10 3 10 ltac:(done) ltac:(done) ltac:(done)). Defined.
