(* ===== verification/Intr.v ===== *)
(** Interrupt management (src/src/kern/intr.c and the inline functions of
    intr.h): the interrupt-enable bit, the table of service routines and the
    dispatch of timer and external interrupts.

    [W] is the rest of the machine (devices and the state the service routines
    work on); a service routine with its [aux] argument is a function on it. *)

From S2P Require Import Prelude Plic.

Definition RISCV_SSTATUS_SIE : Z := Z.shiftl 1 1.
Definition RISCV_SSTATUS_SPIE : Z := Z.shiftl 1 5.
Definition RISCV_SSTATUS_SPP : Z := Z.shiftl 1 8.
Definition RISCV_SSTATUS_SUM : Z := Z.shiftl 1 18.
Definition RISCV_SIE_STIE : Z := Z.shiftl 1 5.
Definition RISCV_SIE_SEIE : Z := Z.shiftl 1 9.
Definition RISCV_SCAUSE_INTR_EXCODE_STI : Z := 5.
Definition RISCV_SCAUSE_INTR_EXCODE_SEI : Z := 9.

Definition NIRQ : Z := 32.

(** * The interrupt-enable bit of [sstatus] *)

(** [csrrsi]/[csrrci] return the old value, which the inline functions cast to
    [int]. *)
Definition intr_enable (sstatus : Z) : Z * Z := (Z.lor sstatus RISCV_SSTATUS_SIE, i32 sstatus).
Definition intr_disable (sstatus : Z) : Z * Z := (Z.ldiff sstatus RISCV_SSTATUS_SIE, i32 sstatus).
Definition intr_restore (sstatus saved : Z) : Z :=
  Z.lor (Z.ldiff sstatus RISCV_SSTATUS_SIE) (Z.land saved RISCV_SSTATUS_SIE).
Definition intr_enabled (sstatus : Z) : bool := negb (Z.land sstatus RISCV_SSTATUS_SIE =? 0).
Definition intr_disabled (sstatus : Z) : bool := Z.land sstatus RISCV_SSTATUS_SIE =? 0.

(** * The dispatch table *)
Section Dispatch.
Context {W : Type} `{Mmio W}.

Record isr_entry := { isr : option (Z -> W -> outcome W); isr_prio : Z }.

Record intr_state := {
  sstatus : Z;
  sie : Z;
  sip : Z;
  intr_initialized : bool;
  isrtab : list isr_entry;
}.

Definition intr_init (st : intr_state) (w : W) : intr_state * W :=
  let (s, _) := intr_disable (sstatus st) in
  ({| sstatus := s; sie := RISCV_SIE_SEIE; sip := 0; intr_initialized := true; isrtab := isrtab st |},
   plic_init w).

Definition intr_register_isr (st : intr_state) (irqno prio : Z) (f : Z -> W -> outcome W) : outcome intr_state :=
  if (irqno <? 0) || (NIRQ <=? irqno) then Panic
  else
    let prio := if prio <=? 0 then 1 else prio in
    let! tab := store (isrtab st) irqno {| isr := Some f; isr_prio := prio |} in
    Ret {| sstatus := sstatus st; sie := sie st; sip := sip st;
           intr_initialized := intr_initialized st; isrtab := tab |}.

Definition intr_enable_irq (st : intr_state) (irqno : Z) (w : W) : outcome W :=
  let! e := load (isrtab st) irqno in
  match isr e with
  | None => Panic
  | Some _ => Ret (plic_enable_irq w irqno (isr_prio e))
  end.

Definition intr_disable_irq (irqno : Z) (w : W) : W := plic_disable_irq w irqno.

Definition extern_intr_handler (st : intr_state) (w : W) : outcome W :=
  let (w, irqno) := plic_claim_irq w in
  if (irqno <? 0) || (NIRQ <=? irqno) then Panic
  else if irqno =? 0 then Ret w
  else
    let! e := load (isrtab st) irqno in
    match isr e with
    | None => Panic
    | Some f => let! w := f irqno w in Ret (plic_close_irq w irqno)
    end.

(** [code] is the interrupt cause, [tfr_sstatus] the saved status; the timer
    handler and [thread_yield] belong to other components. *)
Definition intr_handler (timer_intr_handler thread_yield : W -> outcome W)
    (st : intr_state) (code tfr_sstatus : Z) (w : W) : outcome W :=
  let! w :=
    if code =? RISCV_SCAUSE_INTR_EXCODE_SEI then extern_intr_handler st w
    else if code =? RISCV_SCAUSE_INTR_EXCODE_STI then timer_intr_handler w
    else Panic in
  if Z.land tfr_sstatus RISCV_SSTATUS_SPP =? 0 then thread_yield w else Ret w.

(** ** Lemmas *)

(** The table has its declared length. *)
Definition intr_wf (st : intr_state) : Prop := Z.of_nat (length (isrtab st)) = NIRQ.

Lemma intr_register_isr_spec st irqno prio f :
  intr_wf st -> 0 <= irqno < NIRQ ->
  exists st', intr_register_isr st irqno prio f = Ret st' /\ intr_wf st' /\
    isrtab st' !! Z.to_nat irqno = Some {| isr := Some f; isr_prio := Z.max 1 prio |} /\
    forall j, j <> Z.to_nat irqno -> isrtab st' !! j = isrtab st !! j.
Proof.
  intros Hwf Hi. unfold intr_register_isr, intr_wf in *.
  replace ((irqno <? 0) || (NIRQ <=? irqno)) with false by (symmetry; lia).
  rewrite store_lt by lia. cbn [obind]. eexists. split; [done|]. cbn [isrtab].
  rewrite length_insert. split; [done|]. split.
  - rewrite list_lookup_insert_eq by lia. do 2 f_equal. destruct (prio <=? 0) eqn:E; lia.
  - intros j Hj. by rewrite list_lookup_insert_ne.
Qed.

Lemma extern_intr_handler_run st w w1 irqno f p :
  plic_claim_irq w = (w1, irqno) -> 0 < irqno < NIRQ ->
  isrtab st !! Z.to_nat irqno = Some {| isr := Some f; isr_prio := p |} ->
  extern_intr_handler st w = (let! w2 := f irqno w1 in Ret (plic_close_irq w2 irqno)).
Proof.
  intros Hc Hi He. unfold extern_intr_handler. rewrite Hc.
  replace ((irqno <? 0) || (NIRQ <=? irqno)) with false by (symmetry; lia).
  replace (irqno =? 0) with false by (symmetry; lia).
  replace (load (isrtab st) irqno) with (Ret {| isr := Some f; isr_prio := p |})
    by (symmetry; apply load_Ret; split; [lia|done]).
  done.
Qed.
End Dispatch.
Arguments isr_entry : clear implicits.
Arguments intr_state : clear implicits.

(** ** The interrupt-enable bit *)

Lemma sie_bit x : (Z.land x RISCV_SSTATUS_SIE =? 0) = negb (Z.testbit x 1).
Proof.
  change RISCV_SSTATUS_SIE with (2 ^ 1). destruct (Z.testbit x 1) eqn:E; cbn.
  - apply Z.eqb_neq. intros H0. apply (f_equal (fun z => Z.testbit z 1)) in H0.
    rewrite Z.land_spec, E, Z.pow2_bits_true, Z.bits_0 in H0 by lia. done.
  - apply Z.eqb_eq, Z.bits_inj'. intros n Hn. rewrite Z.land_spec, Z.bits_0.
    destruct (Z.eq_dec n 1) as [->|]; [by rewrite E|]. rewrite (Z.pow2_bits_false 1) by lia. apply andb_false_r.
Qed.

Lemma intr_enabled_bit x : intr_enabled x = Z.testbit x 1.
Proof. unfold intr_enabled. by rewrite sie_bit, negb_involutive. Qed.

Lemma i32_bit1 s : Z.testbit (i32 s) 1 = Z.testbit s 1.
Proof.
  unfold i32, u32. destruct (_ <? _).
  - by rewrite Z.mod_pow2_bits_low by lia.
  - replace (s mod 2 ^ 32 - 2 ^ 32) with (s mod 2 ^ 32 + - 2 ^ 30 * 2 ^ 2) by lia.
    rewrite <- (Z.mod_pow2_bits_low _ 2 1) by lia. rewrite Z_mod_plus_full.
    by rewrite !Z.mod_pow2_bits_low by lia.
Qed.

Lemma intr_disable_restore_bit s :
  let (s1, saved) := intr_disable s in
  forall s2, intr_enabled (intr_restore s2 saved) = intr_enabled s.
Proof.
  cbn [intr_disable]. intros s2. rewrite !intr_enabled_bit. unfold intr_restore.
  rewrite Z.lor_spec, Z.ldiff_spec, Z.land_spec, i32_bit1.
  change (Z.testbit RISCV_SSTATUS_SIE 1) with true. by destruct (Z.testbit s2 1), (Z.testbit s 1).
Qed.

(** * Properties *)

(** A section of code between [intr_disable] and [intr_restore] (which may
    itself nest such sections and change any other bit of [sstatus]) runs
    with interrupts disabled at its start and ends with the interrupt-enable
    bit as it was before, all other bits untouched by the restore. *)
Theorem intr_disable_restore s :
  let (s1, saved) := intr_disable s in
  intr_disabled s1 = true /\
  forall s2, intr_enabled (intr_restore s2 saved) = intr_enabled s /\
    forall i, i <> 1 -> Z.testbit (intr_restore s2 saved) i = Z.testbit s2 i.
Proof.
  pose proof (intr_disable_restore_bit s) as Hr. cbn [intr_disable] in *. split.
  { unfold intr_disabled. rewrite sie_bit, Z.ldiff_spec. change (Z.testbit RISCV_SSTATUS_SIE 1) with true.
    by rewrite andb_false_r. }
  intros s2. split; [apply Hr|]. intros i Hi. unfold intr_restore.
  rewrite Z.lor_spec, Z.ldiff_spec, Z.land_spec. change RISCV_SSTATUS_SIE with (2 ^ 1).
  rewrite (Z.pow2_bits_false 1) by lia. by rewrite andb_false_r, andb_true_r, orb_false_r.
Qed.

(** Once two drivers have registered service routines for different
    sources, an external interrupt claimed for the first source runs its
    routine (not the other, whatever the order of registration), then completes
    that same source at the controller, and yields the processor exactly when
    user mode was interrupted. *)
Theorem intr_dispatch {W} `{Mmio W} tmr yield (st st1 st2 : intr_state W) i j p q f g w w1 w2 spp :
  intr_wf st -> 0 < i < NIRQ -> 0 <= j < NIRQ -> i <> j ->
  intr_register_isr st i p f = Ret st1 -> intr_register_isr st1 j q g = Ret st2 ->
  plic_claim_irq w = (w1, i) -> f i w1 = Ret w2 ->
  intr_handler tmr yield st2 RISCV_SCAUSE_INTR_EXCODE_SEI spp w =
  let w3 := plic_close_irq w2 i in
  if Z.land spp RISCV_SSTATUS_SPP =? 0 then yield w3 else Ret w3.
Proof.
  intros Hwf Hi Hj Hij Hr1 Hr2 Hc Hf.
  destruct (intr_register_isr_spec st i p f Hwf) as (s1 & E1 & Hwf1 & Hl1 & _); [lia|].
  rewrite Hr1 in E1. injection E1 as <-.
  destruct (intr_register_isr_spec st1 j q g Hwf1) as (s2 & E2 & Hwf2 & _ & Hl2); [lia|].
  rewrite Hr2 in E2. injection E2 as <-.
  unfold intr_handler. rewrite Z.eqb_refl.
  rewrite (extern_intr_handler_run st2 w w1 i f (Z.max 1 p) Hc Hi) by (rewrite Hl2 by lia; done).
  by rewrite Hf.
Qed.

(** A machine with one PLIC register per context for claims; the routines
    append their source to a trace. *)
Module Demo.
Record demo := { d_claim : Z; d_trace : list Z }.
#[global] Instance demo_mmio : Mmio demo :=
  {| mrd := fun w _ => (w, d_claim w); mwr := fun w a v => {| d_claim := 0; d_trace := d_trace w ++ [a; v] |} |}.
Definition demo_isr (k : Z) (irq : Z) (w : demo) : outcome demo :=
  Ret {| d_claim := d_claim w; d_trace := d_trace w ++ [k; irq] |}.
Definition demo_yield (w : demo) : outcome demo := Ret {| d_claim := d_claim w; d_trace := d_trace w ++ [-1] |}.
Definition demo_st : intr_state demo :=
  {| sstatus := 0; sie := 0; sip := 0; intr_initialized := true;
     isrtab := replicate 32 {| isr := None; isr_prio := 0 |} |}.
Definition demo_st1 : intr_state demo :=
  match intr_register_isr demo_st 10 3 (demo_isr 77) with Ret s => s | _ => demo_st end.
Definition demo_st2 : intr_state demo :=
  match intr_register_isr demo_st1 8 1 (demo_isr 88) with Ret s => s | _ => demo_st end.
End Demo.

Lemma intr_dispatch_witness :
  intr_handler Ret Demo.demo_yield Demo.demo_st2 RISCV_SCAUSE_INTR_EXCODE_SEI 0
    {| Demo.d_claim := 10; Demo.d_trace := [] |}
  = Ret {| Demo.d_claim := 0; Demo.d_trace := [77; 10; claim_addr 1; 10; -1] |}.
Proof.
  exact (intr_dispatch Ret Demo.demo_yield Demo.demo_st Demo.demo_st1 Demo.demo_st2 10 8 3 1
    (Demo.demo_isr 77) (Demo.demo_isr 88) {| Demo.d_claim := 10; Demo.d_trace := [] |}
    {| Demo.d_claim := 10; Demo.d_trace := [] |} {| Demo.d_claim := 10; Demo.d_trace := [77; 10] |} 0
    eq_refl ltac:(done) ltac:(done) ltac:(done) eq_refl eq_refl eq_refl eq_refl).
Defined.
