(* ===== verification/Csr.v ===== *)
(** Control and status registers (src/src/kern/csr.h).

    The registers are those of the processor: [Hart] is what an instruction
    can do with them, [HartLaws] what the privileged architecture says about
    the registers the kernel uses.  A supervisor register such as sstatus is a
    view of a machine register; the laws are stated bit by bit, for the bits the
    kernel uses.  A bit of mie or mip shows in sie or sip when
    mideleg delegates it.  The other components keep sstatus and sie as a word;
    [status_refines] says that the bits of the word are those of the register. *)

From S2P Require Import Prelude Plic Intr.
From stdpp Require Import list.
#[local] Open Scope Z_scope.

Inductive csr := MCAUSE | SCAUSE | MTVAL | STVAL | MEPC | SEPC | MSCRATCH | SSCRATCH | MTVEC | STVEC
  | MIE | SIE | MIP | SIP | MSTATUS | SSTATUS | SATP
  | MEDELEG | MIDELEG | PMPCFG0 | PMPADDR0 | MCOUNTEREN | SCOUNTEREN.
#[export] Instance csr_eq_dec : EqDecision csr.
Proof. solve_decision. Defined.

(** * The masks of csr.h that the other files do not define *)
Definition RISCV_MCAUSE_INTR_EXCODE_SSI : Z := 1.
Definition RISCV_MCAUSE_INTR_EXCODE_MSI : Z := 3.
Definition RISCV_MCAUSE_INTR_EXCODE_STI : Z := 5.
Definition RISCV_MCAUSE_INTR_EXCODE_MTI : Z := 7.
Definition RISCV_MCAUSE_INTR_EXCODE_SEI : Z := 9.
Definition RISCV_MCAUSE_INTR_EXCODE_MEI : Z := 11.
Definition RISCV_SCAUSE_INTR_EXCODE_SSI : Z := 1.
Definition RISCV_SCAUSE_ECALL_FROM_SMODE : Z := 9.
Definition RISCV_MIE_SSIE : Z := Z.shiftl 1 1.
Definition RISCV_MIE_MSIE : Z := Z.shiftl 1 3.
Definition RISCV_MIE_STIE : Z := Z.shiftl 1 5.
Definition RISCV_MIE_MTIE : Z := Z.shiftl 1 7.
Definition RISCV_MIE_SEIE : Z := Z.shiftl 1 9.
Definition RISCV_MIE_MEIE : Z := Z.shiftl 1 11.
Definition RISCV_SIE_SSIE : Z := Z.shiftl 1 1.
Definition RISCV_MIP_SSIP : Z := Z.shiftl 1 1.
Definition RISCV_MIP_MSIP : Z := Z.shiftl 1 3.
Definition RISCV_MIP_STIP : Z := Z.shiftl 1 5.
Definition RISCV_MIP_MTIP : Z := Z.shiftl 1 7.
Definition RISCV_MIP_SEIP : Z := Z.shiftl 1 9.
Definition RISCV_MIP_MEIP : Z := Z.shiftl 1 11.
Definition RISCV_SIP_SSIP : Z := Z.shiftl 1 1.
Definition RISCV_SIP_STIP : Z := Z.shiftl 1 5.
Definition RISCV_SIP_SEIP : Z := Z.shiftl 1 9.
Definition RISCV_MSTATUS_SIE : Z := Z.shiftl 1 1.
Definition RISCV_MSTATUS_MIE : Z := Z.shiftl 1 3.
Definition RISCV_MSTATUS_SPIE : Z := Z.shiftl 1 3.
Definition RISCV_MSTATUS_MPIE : Z := Z.shiftl 1 3.
Definition RISCV_MSTATUS_SPP : Z := Z.shiftl 1 8.
Definition RISCV_MSTATUS_SUM : Z := Z.shiftl 1 18.

(** * The processor *)

(** The machine register a register is a view of. *)
Definition csr_file (r : csr) : csr :=
  match r with SSTATUS => MSTATUS | SIE => MIE | SIP => MIP | r => r end.

(** The bits that show through, the ones a write changes to what it says, and
    the ones a write leaves alone. *)
Definition visible (r : csr) : list Z :=
  match r with SSTATUS => [1; 5; 8; 18] | SIE | SIP => [1; 5; 9] | _ => [] end.
Definition writable (r : csr) : list Z :=
  match r with
  | MSTATUS => [1; 3; 5; 7; 8; 18] | SSTATUS => [1; 5; 8; 18]
  | MIE => [1; 3; 5; 7; 9; 11] | SIE => [1; 5; 9]
  | MIP => [1; 5; 9] | SIP => [1]
  | _ => []
  end.
Definition kept (r : csr) : list Z :=
  match r with
  | SSTATUS => [3; 7; 11; 12] | SIE => [3; 7; 11] | MIP => [3; 7; 11] | SIP => [3; 5; 7; 9; 11]
  | _ => []
  end.
(** The values that a register holds as they are written: handlers and return
    addresses are aligned, the address space is bare or Sv39. *)
Definition csr_legal (r : csr) (v : Z) : bool :=
  match r with
  | MSCRATCH | SSCRATCH => true
  | MEPC | SEPC | MTVEC | STVEC => v mod 4 =? 0
  | SATP => (v =? 0) || ((v / 2 ^ 60 =? 8) && (v / 2 ^ 44 mod 2 ^ 16 =? 0))
  | _ => false
  end.

Class Hart (H : Type) := {
  csr_rd : H -> csr -> Z;
  csr_wr : H -> csr -> Z -> H;
}.
(** A bit of mie or mip shows in sie or sip when the interrupt is delegated to
    supervisor mode. *)
Definition delegated {H} `{Hart H} (h : H) (r : csr) (i : Z) : Prop :=
  match r with SIE | SIP => Z.testbit (csr_rd h MIDELEG) i = true | _ => True end.

(** Writing mideleg changes what sie and sip show. *)
Definition changes_view (r r' : csr) : bool := match r, r' with MIDELEG, (SIE | SIP) => true | _, _ => false end.

Class HartLaws (H : Type) `{Hart H} := {
  csr_view : forall h r i, i ∈ visible r -> delegated h r i -> Z.testbit (csr_rd h r) i = Z.testbit (csr_rd h (csr_file r)) i;
  csr_set : forall h r v i, i ∈ writable r -> delegated h r i -> Z.testbit (csr_rd (csr_wr h r v) (csr_file r)) i = Z.testbit v i;
  csr_keep : forall h r v i, i ∈ kept r -> Z.testbit (csr_rd (csr_wr h r v) (csr_file r)) i = Z.testbit (csr_rd h (csr_file r)) i;
  csr_same : forall h r v, 0 <= v < 2 ^ 64 -> csr_legal r v = true -> csr_rd (csr_wr h r v) r = v;
  csr_other : forall h r r' v, csr_file r <> csr_file r' -> changes_view r r' = false -> csr_rd (csr_wr h r v) r' = csr_rd h r';
  csr_width : forall h r, 0 <= csr_rd h r < 2 ^ 64;
}.

Section Access.
Context {H : Type} `{Hart H}.
Implicit Types h : H.

(** The instructions: the registers after, and the value before. *)
Definition csrrw h r v : H * Z := (csr_wr h r v, csr_rd h r).
Definition csrrs h r mask : H * Z := (csr_wr h r (Z.lor (csr_rd h r) mask), csr_rd h r).
Definition csrrc h r mask : H * Z := (csr_wr h r (Z.ldiff (csr_rd h r) mask), csr_rd h r).

(** * The inline functions of csr.h *)

Definition csrr_mcause h : Z := csr_rd h MCAUSE.
Definition csrr_scause h : Z := csr_rd h SCAUSE.
Definition csrr_mtval h : Z := csr_rd h MTVAL.
Definition csrr_stval h : Z := csr_rd h STVAL.
Definition csrw_mepc h mepc_new : H := (csrrw h MEPC mepc_new).1.
Definition csrr_mepc h : Z := csr_rd h MEPC.
Definition csrw_sepc h sepc_new : H := (csrrw h SEPC sepc_new).1.
Definition csrr_sepc h : Z := csr_rd h SEPC.
Definition csrw_mscratch h mscratch_new : H := (csrrw h MSCRATCH mscratch_new).1.
Definition csrr_mscratch h : Z := csr_rd h MSCRATCH.
Definition csrw_sscratch h sscratch_new : H := (csrrw h SSCRATCH sscratch_new).1.
Definition csrr_sscratch h : Z := csr_rd h SSCRATCH.
Definition csrw_mtvec h handler : H := (csrrw h MTVEC handler).1.
Definition csrw_stvec h handler : H := (csrrw h STVEC handler).1.

(** The [csrc] functions on mie, sie, mip and sip name the register of their
    argument as the destination too: it holds the old value afterwards, which is
    the second result. *)
Definition csrw_mie h mask : H := (csrrw h MIE mask).1.
Definition csrs_mie h mask : H := (csrrs h MIE mask).1.
Definition csrc_mie h mask : H * Z := csrrc h MIE mask.
Definition csrw_sie h mask : H := (csrrw h SIE mask).1.
Definition csrs_sie h mask : H := (csrrs h SIE mask).1.
Definition csrc_sie h mask : H * Z := csrrc h SIE mask.
Definition csrw_mip h mask : H := (csrrw h MIP mask).1.
Definition csrs_mip h mask : H := (csrrs h MIP mask).1.
Definition csrc_mip h mask : H * Z := csrrc h MIP mask.
Definition csrw_sip h mask : H := (csrrw h SIP mask).1.
Definition csrs_sip h mask : H := (csrrs h SIP mask).1.
Definition csrc_sip h mask : H * Z := csrrc h SIP mask.

Definition csrr_mstatus h : Z := csr_rd h MSTATUS.
Definition csrs_mstatus h mask : H := (csrrs h MSTATUS mask).1.
Definition csrc_mstatus h mask : H := (csrrc h MSTATUS mask).1.
Definition csrr_sstatus h : Z := csr_rd h SSTATUS.
Definition csrs_sstatus h mask : H := (csrrs h SSTATUS mask).1.
Definition csrc_sstatus h mask : H := (csrrc h SSTATUS mask).1.

Definition csrr_satp h : Z := csr_rd h SATP.
Definition csrw_satp h satp_new : H := (csrrw h SATP satp_new).1.
Definition csrrw_satp h satp_new : H * Z := csrrw h SATP satp_new.

(** The inline functions of intr.h, with the instructions they use. *)
Definition hart_intr_enable h : H * Z := let (h, s) := csrrs h SSTATUS RISCV_SSTATUS_SIE in (h, i32 s).
Definition hart_intr_disable h : H * Z := let (h, s) := csrrc h SSTATUS RISCV_SSTATUS_SIE in (h, i32 s).
Definition hart_intr_restore h (saved : Z) : H :=
  csrs_sstatus (csrc_sstatus h RISCV_SSTATUS_SIE) (Z.land saved RISCV_SSTATUS_SIE).
Definition hart_intr_enabled h : bool := negb (Z.land (csrr_sstatus h) RISCV_SSTATUS_SIE =? 0).
End Access.

(** * The status word and the interrupt-enable word of the other components *)

(** What the kernel does with the two registers, and what the components do
    with the two words. *)
Inductive status_op := IntrEnable | IntrDisable | IntrRestore (saved : Z)
  | SetStatus (mask : Z) | ClearStatus (mask : Z) | SetSie (mask : Z) | WriteSie (mask : Z).

Definition hart_op {H} `{Hart H} (h : H) (o : status_op) : H :=
  match o with
  | IntrEnable => (hart_intr_enable h).1
  | IntrDisable => (hart_intr_disable h).1
  | IntrRestore saved => hart_intr_restore h saved
  | SetStatus mask => csrs_sstatus h mask
  | ClearStatus mask => csrc_sstatus h mask
  | SetSie mask => csrs_sie h mask
  | WriteSie mask => csrw_sie h mask
  end.
Definition word_op (w : Z * Z) (o : status_op) : Z * Z :=
  let (ss, ie) := w in
  match o with
  | IntrEnable => ((intr_enable ss).1, ie)
  | IntrDisable => ((intr_disable ss).1, ie)
  | IntrRestore saved => (intr_restore ss saved, ie)
  | SetStatus mask => (Z.lor ss mask, ie)
  | ClearStatus mask => (Z.ldiff ss mask, ie)
  | SetSie mask => (ss, Z.lor ie mask)
  | WriteSie mask => (ss, mask)
  end.

(** Two words that agree on some bits. *)
Definition same_bits (l : list Z) (a b : Z) : Prop := forall i, i ∈ l -> Z.testbit a i = Z.testbit b i.
Lemma list_Forall_same l a b : Forall (fun i => Z.testbit a i = Z.testbit b i) l -> same_bits l a b.
Proof. intros Hl i Hi. rewrite Forall_forall in Hl. by apply Hl. Qed.

Section Refinement.
Context {H : Type} `{HartLaws H}.
Implicit Types h : H.

Lemma delegated_self h r i : csr_file r = r -> delegated h r i.
Proof. by destruct r. Qed.

(** The registers as the components see them, once the interrupts are delegated
    (as start.s does). *)
Record represents h (w : Z * Z) : Prop := {
  rp_delegated : forall i, i ∈ visible SIE -> Z.testbit (csr_rd h MIDELEG) i = true;
  rp_status : same_bits (visible SSTATUS) (csr_rd h SSTATUS) w.1;
  rp_sie : same_bits (visible SIE) (csr_rd h SIE) w.2;
}.

(** The bits of the machine in the two registers. *)
Record same_machine h h' : Prop := {
  sm_status : same_bits (kept SSTATUS) (csr_rd h' MSTATUS) (csr_rd h MSTATUS);
  sm_mie : same_bits (kept SIE) (csr_rd h' MIE) (csr_rd h MIE);
  sm_rest : forall r, csr_file r <> MSTATUS -> csr_file r <> MIE -> csr_rd h' r = csr_rd h r;
}.

Lemma same_machine_trans h1 h2 h3 : same_machine h1 h2 -> same_machine h2 h3 -> same_machine h1 h3.
Proof.
  intros [A1 A2 A3] [B1 B2 B3]. split.
  - intros i Hi. by rewrite (B1 i Hi), (A1 i Hi).
  - intros i Hi. by rewrite (B2 i Hi), (A2 i Hi).
  - intros r R1 R2. by rewrite (B3 r R1 R2), (A3 r R1 R2).
Qed.

(** A write to sstatus, and one to sie. *)
Lemma write_status h v ss ie v' : represents h (ss, ie) -> same_bits (visible SSTATUS) v v' ->
  represents (csr_wr h SSTATUS v) (v', ie) /\ same_machine h (csr_wr h SSTATUS v).
Proof.
  intros [Hg Hs Hi] Hv. split; split; cbn [fst snd] in *.
  - intros i Hin. rewrite csr_other by done. by apply Hg.
  - intros i Hin. rewrite (csr_view _ SSTATUS i Hin I). cbn [csr_file]. rewrite (csr_set h SSTATUS v i Hin I). by apply Hv.
  - by rewrite csr_other.
  - intros i Hin. exact (csr_keep h SSTATUS v i Hin).
  - by rewrite csr_other.
  - intros r R1 R2. rewrite csr_other; [done| |done]. cbn. congruence.
Qed.
Lemma write_sie h v ss ie v' : represents h (ss, ie) -> same_bits (visible SIE) v v' ->
  represents (csr_wr h SIE v) (ss, v') /\ same_machine h (csr_wr h SIE v).
Proof.
  intros [Hg Hs Hi] Hv. split; split; cbn [fst snd] in *.
  - intros i Hin. rewrite csr_other by done. by apply Hg.
  - by rewrite csr_other.
  - intros i Hin. rewrite (csr_view _ SIE i Hin) by (cbn; rewrite csr_other by done; by apply Hg). cbn [csr_file].
    rewrite (csr_set h SIE v i Hin) by (by apply Hg). by apply Hv.
  - by rewrite csr_other.
  - intros i Hin. exact (csr_keep h SIE v i Hin).
  - intros r R1 R2. rewrite csr_other; [done| |done]. cbn. congruence.
Qed.

Lemma same_bits_lor l a b m : same_bits l a b -> same_bits l (Z.lor a m) (Z.lor b m).
Proof. intros Hab i Hi. by rewrite !Z.lor_spec, Hab. Qed.
Lemma visible_nonneg r i : i ∈ visible r -> 0 <= i.
Proof. destruct r; cbn; rewrite ?elem_of_cons, ?elem_of_nil; intuition lia. Qed.
Lemma same_bits_ldiff r a b m : same_bits (visible r) a b -> same_bits (visible r) (Z.ldiff a m) (Z.ldiff b m).
Proof. intros Hab i Hi. pose proof (visible_nonneg r i Hi). by rewrite !Z.ldiff_spec, Hab by done. Qed.

Lemma set_status h ss ie m : represents h (ss, ie) ->
  represents (csrs_sstatus h m) (Z.lor ss m, ie) /\ same_machine h (csrs_sstatus h m).
Proof. intros Hr. apply (write_status h _ ss ie); [done|]. apply same_bits_lor, Hr. Qed.
Lemma clear_status h ss ie m : represents h (ss, ie) ->
  represents (csrc_sstatus h m) (Z.ldiff ss m, ie) /\ same_machine h (csrc_sstatus h m).
Proof. intros Hr. apply (write_status h _ ss ie); [done|]. apply same_bits_ldiff, Hr. Qed.

Lemma op_refines h w o : represents h w -> represents (hart_op h o) (word_op w o) /\ same_machine h (hart_op h o).
Proof.
  destruct w as [ss ie]. intros Hr. destruct o as [| |saved|m|m|m|m]; cbn [hart_op word_op].
  - by apply set_status.
  - by apply clear_status.
  - destruct (clear_status h ss ie RISCV_SSTATUS_SIE Hr) as [R1 M1]. destruct (set_status _ _ ie (Z.land saved RISCV_SSTATUS_SIE) R1) as [R2 M2].
    split; [exact R2|by eapply same_machine_trans].
  - by apply set_status.
  - by apply clear_status.
  - apply (write_sie h _ ss ie); [done|]. apply same_bits_lor, Hr.
  - by apply (write_sie h _ ss ie).
Qed.

(** The components may keep sstatus and sie as words: after any sequence
    of the operations of csr.h and intr.h on the two registers, the bits of the
    words are the ones of the registers, interrupts are enabled on the processor
    when they are in the word, and the bits that belong to the machine mode, with
    all other registers, are as before. *)
Theorem status_refines h w ops : represents h w ->
  let h' := fold_left hart_op ops h in let w' := fold_left word_op ops w in
  represents h' w' /\ same_machine h h' /\ hart_intr_enabled h' = intr_enabled w'.1.
Proof.
  intros Hr. cbv zeta.
  assert (Hf : represents (fold_left hart_op ops h) (fold_left word_op ops w) /\ same_machine h (fold_left hart_op ops h)).
  { revert h w Hr; induction ops as [|o ops IH]; intros h w Hr; cbn [fold_left]; [by split|].
    destruct (op_refines h w o Hr) as [R1 M1]. destruct (IH _ _ R1) as [R2 M2]. split; [done|by eapply same_machine_trans]. }
  destruct Hf as [R M]. split_and!; [done..|]. change (hart_intr_enabled ?h) with (intr_enabled (csr_rd h SSTATUS)). rewrite !intr_enabled_bit. apply R. cbn. left.
Qed.
End Refinement.

(** * A processor

    The writable bits of a register are kept in the register it is a view of. *)
Module HartDemo.
Definition hart : Type := csr -> Z.
Definition ones64 : Z := 2 ^ 64 - 1.
Definition rmask (r : csr) : Z :=
  match r with SSTATUS => 0x40122 | SIE | SIP => 0x222 | _ => ones64 end.
Definition wmask (r : csr) : Z :=
  match r with
  | SSTATUS => 0x40122 | SIE => 0x222 | SIP => 0x2 | MIP => 0x222 | MIE => 0xaaa | MSTATUS => 0x419aa
  | _ => ones64
  end.
Definition fit (r : csr) (v : Z) : Z := match r with MEPC | SEPC | MTVEC | STVEC => 4 * (v / 4) | _ => v end.
(** The delegated interrupts, for the supervisor's registers. *)
Definition deleg (h : hart) (r : csr) : Z := match r with SIE | SIP => Z.land (h MIDELEG) ones64 | _ => ones64 end.
Definition rd (h : hart) (r : csr) : Z := Z.land (h (csr_file r)) (Z.land (rmask r) (deleg h r)).
Definition wr (h : hart) (r : csr) (v : Z) : hart := let m := Z.land (wmask r) (deleg h r) in fun r' =>
  if bool_decide (r' = csr_file r) then Z.lor (Z.ldiff (h r') m) (Z.land (fit r v) m) else h r'.
#[global] Instance demo_hart : Hart hart := { csr_rd := rd; csr_wr := wr }.

Lemma testbit_ones64 i : 0 <= i -> Z.testbit ones64 i = (i <? 64).
Proof.
  intros Hi. change ones64 with (Z.pred (2 ^ 64)). rewrite <- Z.ones_equiv. destruct (Z.ltb_spec i 64); [apply Z.ones_spec_low|apply Z.ones_spec_high]; lia.
Qed.
Lemma high_bits v i : 0 <= v < 2 ^ 64 -> 64 <= i -> Z.testbit v i = false.
Proof. intros Hv Hi. apply Z.bits_above_log2; [lia|]. destruct (Z.eq_dec v 0) as [->|]; [cbn; lia|]. assert (Z.log2 v < 64) by (apply Z.log2_lt_pow2; lia). lia. Qed.

Lemma deleg_ones h r : csr_file r = r -> deleg h r = ones64.
Proof. by destruct r. Qed.
Lemma deleg_bit h r i : 0 <= i < 64 -> @delegated hart demo_hart h r i -> Z.testbit (deleg h r) i = true.
Proof.
  intros Hi Hd. assert (H1 : Z.testbit ones64 i = true) by (rewrite testbit_ones64 by lia; lia).
  destruct r; cbn [deleg delegated csr_rd demo_hart] in *; try exact H1; unfold rd in Hd; cbn in Hd; rewrite Z.land_spec in Hd;
    apply andb_true_iff in Hd as [Hd _]; by rewrite Z.land_spec, Hd.
Qed.
Lemma rd_width h r : 0 <= rd h r < 2 ^ 64.
Proof.
  unfold rd. replace (Z.land (rmask r) (deleg h r)) with (Z.land (Z.land (rmask r) (deleg h r)) (Z.ones 64)); [rewrite Z.land_assoc, Z.land_ones by lia; apply Z.mod_pos_bound; lia|].
  rewrite <- Z.land_assoc. rewrite (Z.land_comm (deleg h r)), Z.land_assoc. f_equal. by destruct r.
Qed.
Lemma testbit_merge a v m i : 0 <= i -> Z.testbit (Z.lor (Z.ldiff a m) (Z.land v m)) i = if Z.testbit m i then Z.testbit v i else Z.testbit a i.
Proof. intros Hi. rewrite Z.lor_spec, Z.ldiff_spec, Z.land_spec by done. by destruct (Z.testbit m i), (Z.testbit a i), (Z.testbit v i). Qed.
Lemma file_mask r : rmask (csr_file r) = ones64.
Proof. by destruct r. Qed.
Lemma rd_file h r i : 0 <= i < 64 -> Z.testbit (rd h (csr_file r)) i = Z.testbit (h (csr_file r)) i.
Proof.
  intros Hi. unfold rd. rewrite Z.land_spec, file_mask, deleg_ones, Z.land_diag, testbit_ones64 by (lia || by destruct r). replace (csr_file (csr_file r)) with (csr_file r) by (by destruct r).
  replace (i <? 64) with true by lia. apply andb_true_r.
Qed.
Lemma wr_file h r v i : 0 <= i < 64 ->
  Z.testbit (rd (wr h r v) (csr_file r)) i =
  if Z.testbit (wmask r) i && Z.testbit (deleg h r) i then Z.testbit (fit r v) i else Z.testbit (rd h (csr_file r)) i.
Proof. intros Hi. rewrite !rd_file by done. unfold wr. rewrite bool_decide_true by done. rewrite testbit_merge, Z.land_spec by lia. done. Qed.

(** The masks have the bits that the laws name. *)
Lemma masks_ok r i : (i ∈ writable r -> 0 <= i < 64 /\ Z.testbit (wmask r) i = true) /\
  (i ∈ kept r -> 0 <= i < 64 /\ Z.testbit (wmask r) i = false) /\ (i ∈ visible r -> 0 <= i < 64 /\ Z.testbit (rmask r) i = true).
Proof.
  assert (Hc : forallb (fun i => (0 <=? i) && (i <? 64) && Z.testbit (wmask r) i) (writable r) &&
    forallb (fun i => (0 <=? i) && (i <? 64) && negb (Z.testbit (wmask r) i)) (kept r) &&
    forallb (fun i => (0 <=? i) && (i <? 64) && Z.testbit (rmask r) i) (visible r) = true) by (by destruct r).
  rewrite !andb_true_iff, !forallb_forall in Hc. destruct Hc as [[Hw Hk] Hv].
  rewrite !list_elem_of_In. split_and!; intros Hi; [specialize (Hw i Hi)|specialize (Hk i Hi)|specialize (Hv i Hi)];
    rewrite !andb_true_iff, ?negb_true_iff in *; intuition lia.
Qed.

#[global, program] Instance demo_laws : HartLaws hart.
Next Obligation.
  intros h r i Hi Hd. destruct (proj2 (proj2 (masks_ok r i)) Hi) as [Hr Hb]. pose proof (deleg_bit h r i Hr Hd) as Hg.
  cbn [csr_rd demo_hart]. rewrite rd_file by done. unfold rd. by rewrite !Z.land_spec, Hb, Hg, andb_true_r.
Qed.
Next Obligation. intros h r v i Hi Hd. destruct (proj1 (masks_ok r i) Hi) as [Hr Hb]. pose proof (deleg_bit h r i Hr Hd) as Hg. cbn [csr_rd csr_wr demo_hart]. rewrite wr_file, Hb, Hg by done. destruct r; cbn in Hi; done || by apply elem_of_nil in Hi. Qed.
Next Obligation. intros h r v i Hi. destruct (proj1 (proj2 (masks_ok r i)) Hi) as [Hr Hb]. cbn [csr_rd csr_wr demo_hart]. by rewrite wr_file, Hb. Qed.
Next Obligation.
  intros h r v Hv Hl. cbn [csr_rd csr_wr demo_hart]. apply Z.bits_inj'. intros i Hi.
  assert (Hf : csr_file r = r) by (by destruct r). assert (Hw : wmask r = ones64) by (by destruct r).
  assert (Hfit : fit r v = v) by (destruct r; cbn in *; lia || (Z.to_euclidean_division_equations; lia)).
  destruct (Z.ltb_spec i 64) as [Hlt|Hge].
  - rewrite <- Hf at 2. rewrite wr_file, Hw, deleg_ones, andb_diag, testbit_ones64, Hfit by (lia || done). by replace (i <? 64) with true by lia.
  - rewrite (high_bits v i) by lia. apply high_bits; [apply rd_width|lia].
Qed.
Next Obligation.
  intros h r r' v Hne Hv. cbn [csr_rd csr_wr demo_hart].
  assert (Hd : deleg (wr h r v) r' = deleg h r').
  { destruct r'; try done; cbn [deleg]; unfold wr; by rewrite bool_decide_false by (intros E; by destruct r). }
  unfold rd. rewrite Hd. unfold wr. by rewrite bool_decide_false by congruence.
Qed.
Next Obligation. exact rd_width. Qed.
End HartDemo.

Lemma status_refines_witness : exists h : HartDemo.hart,
  let h' := fold_left hart_op [IntrDisable; SetStatus RISCV_SSTATUS_SUM; SetSie RISCV_SIE_STIE; IntrRestore 2] h in
  hart_intr_enabled h' = true /\ csrr_mstatus h' = 0x4188a.
Proof.
  exists (fun r => match r with MSTATUS => 0x188a | MIDELEG => 0x222 | _ => 0 end).
  pose proof (status_refines (H := HartDemo.hart) (fun r => match r with MSTATUS => 0x188a | MIDELEG => 0x222 | _ => 0 end) (2, 0)
    [IntrDisable; SetStatus RISCV_SSTATUS_SUM; SetSie RISCV_SIE_STIE; IntrRestore 2]) as HR. cbv zeta in *.
  destruct HR as (_ & _ & He); [|split; [rewrite He|]; vm_compute; reflexivity].
  split; [intros i Hi; apply list_elem_of_In in Hi; cbn in Hi; intuition (subst; vm_compute; reflexivity)|..]; apply list_Forall_same; vm_compute; repeat constructor.
Defined.
