(* ===== verification/Device.v ===== *)
(** The device manager (src/src/kern/device.c): a fixed table of devices in
    registration order; a device is opened by name and instance number. *)

From Stdlib Require Import Ascii String.
From S2P Require Import Prelude KString.

Definition NDEV : Z := 16.

(** [struct device]; an open function with its [aux] argument has type [F]. *)
Record device (F : Type) := { dname : option (list Z); openfn : option F }.
Arguments dname {F} _.
Arguments openfn {F} _.
Arguments Build_device {F} _ _.

Section Manager.
Context {F : Type}.
Definition devtab_t := list (device F).

(** The zero-initialised table. *)
Definition devtab0 : devtab_t := replicate (Z.to_nat NDEV) (Build_device None None).

(** The search of [device_register]; [rest] is the table from [devno] on. *)
Fixpoint find_slot (rest : devtab_t) (name : list Z) (devno instno : Z) : outcome (Z * Z) :=
  match rest with
  | [] => Ret (devno, instno)
  | d :: rest' =>
      match dname d with
      | None => Ret (devno, instno)
      | Some _ =>
          let! r := strcmp (dname d) (Some name) in
          find_slot rest' name (devno + 1) (if r =? 0 then instno + 1 else instno)
      end
  end.

Definition device_register (tab : devtab_t) (name : option (list Z)) (fn : option F) : outcome (devtab_t * Z) :=
  match name, fn with
  | Some name, Some fn =>
      let! (devno, instno) := find_slot tab name 0 0 in
      if devno =? NDEV then Panic
      else let! tab := store tab devno (Build_device (Some name) (Some fn)) in Ret (tab, instno)
  | _, _ => Panic
  end.

(** The search of [device_open]. *)
Fixpoint find_device (rest : devtab_t) (name : option (list Z)) (devno k instno : Z) : outcome Z :=
  match rest with
  | [] => Ret devno
  | d :: rest' =>
      let! hit := match openfn d with
                  | None => Ret false
                  | Some _ => let! r := strcmp (dname d) name in Ret (r =? 0)
                  end in
      if (hit : bool) then
        if k =? instno then Ret devno else find_device rest' name (devno + 1) (k + 1) instno
      else find_device rest' name (devno + 1) k instno
  end.

(** [call] runs an open function. *)
Definition device_open {R} (call : F -> outcome R) (enodev : Z -> R)
    (tab : devtab_t) (name : option (list Z)) (instno : Z) : outcome R :=
  let! devno := find_device tab name 0 0 instno in
  if devno =? NDEV then Ret (enodev (- ENODEV))
  else
    let! d := load tab devno in
    match openfn d with None => Fault | Some fn => call fn end.

(** * Specification: the registered devices, in order, by the text of their
    name. *)
Local Notation reg := (list Z * F)%type.

Definition named (t : list Z) (r : reg) : bool := bool_decide (ctext r.1 = Some t).

(** Devices of one name: instance [i] is the [i]-th of them. *)
Definition instances (t : list Z) (regs : list reg) : list F :=
  map snd (List.filter (named t) regs).

(** The table that holds [regs]. *)
Definition entry (r : reg) : device F := Build_device (Some r.1) (Some r.2).
Definition table_of (regs : list reg) : devtab_t :=
  map entry regs ++ replicate (Z.to_nat NDEV - length regs) (Build_device None None).

Definition names_ok (regs : list reg) : Prop := Forall (fun r => is_Some (ctext r.1)) regs.

(** Registers every device of [regs], collecting the instance numbers. *)
Fixpoint register_all (tab : devtab_t) (regs : list reg) : outcome (devtab_t * list Z) :=
  match regs with
  | [] => Ret (tab, [])
  | r :: rs =>
      let! (tab, i) := device_register tab (Some r.1) (Some r.2) in
      let! (tab, ins) := register_all tab rs in
      Ret (tab, i :: ins)
  end.

Fixpoint instance_numbers (before regs : list reg) : list Z :=
  match regs with
  | [] => []
  | r :: rs => Z.of_nat (length (instances (default [] (ctext r.1)) before)) :: instance_numbers (before ++ [r]) rs
  end.

(** * Lemmas *)

Lemma instances_app t r1 r2 : instances t (r1 ++ r2) = instances t r1 ++ instances t r2.
Proof. unfold instances. by rewrite List.filter_app, map_app. Qed.

Lemma find_slot_spec regs n name t i0 d0 :
  names_ok regs -> ctext name = Some t ->
  find_slot (map entry regs ++ replicate n (Build_device None None)) name d0 i0
  = Ret (d0 + Z.of_nat (length regs), i0 + Z.of_nat (length (instances t regs))).
Proof.
  intros Hok Ht. revert d0 i0; induction Hok as [|[s f] regs [a Ha] Hok IH]; intros d0 i0.
  - cbn. rewrite !Z.add_0_r. by destruct n.
  - cbn [map app find_slot entry dname fst]. cbn in Ha.
    destruct (strcmp_ctext s name a t Ha Ht) as (z & -> & Hz). cbn [obind].
    rewrite IH. do 2 f_equal; [cbn [length]; lia|]. rewrite Hz.
    unfold instances. cbn [List.filter]. unfold named at 2. cbn [fst]. rewrite Ha.
    rewrite (bool_decide_ext (Some a = Some t) (a = t)) by (split; congruence).
    destruct (bool_decide (a = t)); cbn [map length]; lia.
Qed.

Lemma store_table regs r n :
  (length regs < n)%nat ->
  store (map entry regs ++ replicate (n - length regs) (Build_device None None)) (Z.of_nat (length regs)) (entry r)
  = Ret (map entry (regs ++ [r]) ++ replicate (n - length (regs ++ [r])) (Build_device None None)).
Proof.
  intros Hn. rewrite store_lt, Nat2Z.id by (rewrite length_app, length_map, length_replicate; lia).
  rewrite insert_app_r_alt by (rewrite length_map; lia). rewrite length_map, Nat.sub_diag.
  rewrite map_app, <- app_assoc, length_app. cbn [length map].
  replace (n - length regs)%nat with (S (n - (length regs + 1))) by lia. done.
Qed.

Lemma device_register_spec regs r t :
  names_ok regs -> ctext r.1 = Some t -> (Z.of_nat (length regs) < NDEV) ->
  device_register (table_of regs) (Some r.1) (Some r.2)
  = Ret (table_of (regs ++ [r]), Z.of_nat (length (instances t regs))).
Proof.
  intros Hok Ht Hn. unfold device_register, table_of. rewrite (find_slot_spec regs _ _ t) by done.
  cbn [obind]. rewrite !Z.add_0_l. destruct (Z.eqb_spec (Z.of_nat (length regs)) NDEV); [lia|].
  rewrite (store_table regs r) by lia. done.
Qed.

Lemma device_register_full regs r :
  names_ok regs -> is_Some (ctext r.1) -> Z.of_nat (length regs) = NDEV ->
  device_register (table_of regs) (Some r.1) (Some r.2) = Panic.
Proof.
  intros Hok [t Ht] Hn. unfold device_register, table_of. rewrite (find_slot_spec regs _ _ t) by done.
  cbn [obind]. rewrite !Z.add_0_l. by rewrite Hn.
Qed.

Lemma register_all_spec regs : forall before,
  names_ok before -> names_ok regs -> Z.of_nat (length (before ++ regs)) <= NDEV ->
  register_all (table_of before) regs = Ret (table_of (before ++ regs), instance_numbers before regs).
Proof.
  induction regs as [|r regs IH]; intros before Hb Hr Hn; cbn [register_all instance_numbers].
  { by rewrite app_nil_r. }
  apply Forall_cons_iff in Hr as [[t Ht] Hr]. rewrite length_app in Hn. cbn [length] in Hn.
  rewrite (device_register_spec before r t) by (done || lia). cbn [obind].
  rewrite IH, <- app_assoc; [by rewrite Ht| |done|rewrite !length_app; cbn; lia].
  apply Forall_app. split; [done|]. by constructor.
Qed.

(** [find_device] stops at the slot of the wanted instance, or at the end. *)
Lemma find_device_spec regs n name t i : names_ok regs -> ctext name = Some t -> forall d0 k, k <= i ->
  exists d, find_device (map entry regs ++ replicate n (Build_device None None)) (Some name) d0 k i = Ret d /\
    match instances t regs !! Z.to_nat (i - k) with
    | Some f => exists j r, d = d0 + Z.of_nat j /\ regs !! j = Some r /\ r.2 = f
    | None => d = d0 + Z.of_nat (length regs + n)
    end.
Proof.
  intros Hok Ht. induction Hok as [|[s f] regs [a Ha] Hok IH]; intros d0 k Hk.
  - cbn [map app instances List.filter]. rewrite lookup_nil. clear Hk.
    revert d0; induction n as [|n IH]; intros d0.
    + exists d0. split; [done|]. cbn. lia.
    + cbn [replicate find_device openfn obind]. destruct (IH (d0 + 1)) as (d & -> & Hd).
      exists d. split; [done|]. rewrite Hd. cbn. lia.
  - cbn [map app find_device entry dname openfn fst snd]. cbn in Ha.
    destruct (strcmp_ctext s name a t Ha Ht) as (z & -> & Hz). cbn [obind]. rewrite Hz.
    unfold instances. cbn [List.filter]. unfold named at 1. cbn [fst]. rewrite Ha.
    rewrite (bool_decide_ext (Some a = Some t) (a = t)) by (split; congruence).
    assert (Hnext : forall k, k <= i -> exists d,
      find_device (map entry regs ++ replicate n (Build_device None None)) (Some name) (d0 + 1) k i = Ret d /\
      match instances t regs !! Z.to_nat (i - k) with
      | Some f' => exists j r, d = d0 + Z.of_nat j /\ ((s, f) :: regs) !! j = Some r /\ r.2 = f'
      | None => d = d0 + Z.of_nat (length ((s, f) :: regs) + n)
      end).
    { intros k' Hk'. destruct (IH (d0 + 1) k' Hk') as (d & Hf & Hd). exists d. split; [done|].
      destruct (instances t regs !! _).
      - destruct Hd as (j & r & -> & Hj & Hr). exists (S j), r. cbn. split_and!; auto; lia.
      - rewrite Hd. cbn [length]. lia. }
    destruct (bool_decide (a = t)); cbn [map snd]; [|by apply Hnext].
    destruct (Z.eqb_spec k i) as [->|Hne].
    + exists d0. rewrite Z.sub_diag. split; [done|]. exists 0%nat, (s, f). cbn. split_and!; auto; lia.
    + destruct (Hnext (k + 1)) as (d & Hf & Hd); [lia|]. exists d. split; [done|].
      replace (Z.to_nat (i - k)) with (S (Z.to_nat (i - (k + 1)))) by lia. exact Hd.
Qed.

Lemma device_open_spec {R} (call : F -> outcome R) enodev regs name t i :
  names_ok regs -> ctext name = Some t -> Z.of_nat (length regs) <= NDEV -> 0 <= i ->
  device_open call enodev (table_of regs) (Some name) i
  = match instances t regs !! Z.to_nat i with Some f => call f | None => Ret (enodev (- ENODEV)) end.
Proof.
  intros Hok Ht Hn Hi. unfold device_open, table_of.
  destruct (find_device_spec regs (Z.to_nat NDEV - length regs) name t i Hok Ht 0 0 Hi) as (d & -> & Hd).
  cbn [obind]. rewrite Z.sub_0_r in Hd. destruct (instances t regs !! Z.to_nat i) as [f|].
  - destruct Hd as (j & r & -> & Hj & Hr). rewrite Z.add_0_l.
    pose proof (lookup_lt_Some _ _ _ Hj). destruct (Z.eqb_spec (Z.of_nat j) NDEV); [lia|].
    replace (load _ (Z.of_nat j)) with (Ret (entry r)).
    + cbn. by rewrite Hr.
    + symmetry. apply load_Ret. rewrite Nat2Z.id. split; [lia|].
      rewrite lookup_app_l by (rewrite length_map; lia).
      rewrite list_lookup_fmap. by rewrite Hj.
  - destruct (Z.eqb_spec d NDEV); [done|lia].
Qed.
End Manager.
Arguments devtab_t : clear implicits.

(** * Properties *)

(** Registering up to 16 devices in a fresh table gives each the number of
    devices of the same name registered before it as its instance number;
    opening a name and an instance number then runs the open function that was
    registered under exactly that name and number, and answers -ENODEV when
    there is none; a seventeenth registration panics. *)
Theorem device_register_open {F R} (call : F -> outcome R) enodev (regs : list (list Z * F)) name t i extra :
  names_ok regs -> Z.of_nat (length regs) <= NDEV -> ctext name = Some t -> 0 <= i -> is_Some (ctext extra.1) ->
  exists tab, register_all devtab0 regs = Ret (tab, instance_numbers [] regs) /\
    device_open call enodev tab (Some name) i
    = match instances t regs !! Z.to_nat i with Some f => call f | None => Ret (enodev (- ENODEV)) end /\
    (Z.of_nat (length regs) = NDEV -> device_register tab (Some extra.1) (Some extra.2) = Panic).
Proof.
  intros Hok Hn Ht Hi He. exists (table_of regs).
  pose proof (register_all_spec regs [] ltac:(constructor) Hok Hn) as Hr.
  change (table_of (F:=F) []) with (devtab0 (F:=F)) in Hr. split; [exact Hr|]. split.
  - by apply device_open_spec.
  - intros Hf. by apply device_register_full.
Qed.

Lemma device_register_open_witness :
  exists tab, register_all devtab0 [(cstr "ser", 1); (cstr "blk", 2); (cstr "ser", 3)] = Ret (tab, [0; 0; 1]) /\
    device_open (fun f => Ret f) (fun e => e) tab (Some (cstr "ser")) 1 = Ret 3.
Proof.
  destruct (device_register_open (fun f => Ret f) (fun e => e) [(cstr "ser", 1); (cstr "blk", 2); (cstr "ser", 3)]
    (cstr "ser") (chars "ser") 1 (cstr "rtc", 4)) as (tab & Hr & Ho & _).
  - repeat constructor; by eexists.
  - done.
  - reflexivity.
  - lia.
  - by eexists.
  - exists tab. split; [exact Hr|exact Ho].
Defined.
