(* ===== verification/Uart.v ===== *)
(** The serial-port driver (src/src/kern/uart.c).

    The ring buffers keep their 16-bit positions, which wrap.  The driver is
    interrupted: the thread side of [uart_read] and [uart_write] runs against a
    schedule, the list of the batches of interrupts that arrive at the
    successive points where interrupts are enabled, one point before each
    access to the shared device.  Quantifying over schedules quantifies over
    all interleavings with the service routine. *)

From Stdlib Require Import Ascii String.
From S2P Require Import Prelude KString Plic Intr Device.

Definition SERIAL_RBUFSZ : Z := 64.
Definition LSR_OE : Z := Z.shiftl 1 1.
Definition LSR_DR : Z := Z.shiftl 1 0.
Definition LSR_THRE : Z := Z.shiftl 1 5.
Definition LCR_DLAB : Z := Z.shiftl 1 7.
Definition IER_DREIE : Z := Z.shiftl 1 0.
Definition IER_THREIE : Z := Z.shiftl 1 1.
Definition LONG_MAX : Z := 2 ^ 63 - 1.
Definition UART0_IOBASE : Z := 0x10000000.
Definition UART_IRQ_PRIO : Z := 3.

(** * Ring buffers *)

Record ringbuf := { hpos : Z; tpos : Z; rb_data : list Z }.

Definition rbuf_init (r : ringbuf) : ringbuf := {| hpos := 0; tpos := 0; rb_data := rb_data r |}.
Definition rbuf_empty (r : ringbuf) : bool := hpos r =? tpos r.
Definition rbuf_full (r : ringbuf) : bool := u16 (tpos r - hpos r) =? SERIAL_RBUFSZ.

Definition rbuf_put (r : ringbuf) (c : Z) : outcome ringbuf :=
  let! d := store (rb_data r) (tpos r mod SERIAL_RBUFSZ) c in
  Ret {| hpos := hpos r; tpos := u16 (tpos r + 1); rb_data := d |}.

Definition rbuf_get (r : ringbuf) : outcome (ringbuf * Z) :=
  let! c := load (rb_data r) (hpos r mod SERIAL_RBUFSZ) in
  Ret ({| hpos := u16 (hpos r + 1); tpos := tpos r; rb_data := rb_data r |}, c).

(** * The device

    Registers (the two data registers as the history of their accesses),
    reference count, overrun count, buffers, and for each condition whether
    the thread waits on it. *)
Record uart_device := {
  ier : Z; lcr : Z; dll : Z; dlm : Z;
  rbr_log : list Z;  (* bytes read from RBR *)
  thr_log : list Z;  (* bytes written to THR *)
  ud_irqno : Z;
  rxovrcnt : Z;
  refcnt : Z;
  rx_waiting : bool; (* on rxbnotempty *)
  tx_waiting : bool; (* on txbnotfull *)
  rxbuf : ringbuf;
  txbuf : ringbuf;
}.

Definition set_ier (d : uart_device) (v : Z) : uart_device :=
  {| ier := v; lcr := lcr d; dll := dll d; dlm := dlm d; rbr_log := rbr_log d; thr_log := thr_log d;
     ud_irqno := ud_irqno d; rxovrcnt := rxovrcnt d; refcnt := refcnt d; rx_waiting := rx_waiting d;
     tx_waiting := tx_waiting d; rxbuf := rxbuf d; txbuf := txbuf d |}.
Definition set_ovr (d : uart_device) (v : Z) : uart_device :=
  {| ier := ier d; lcr := lcr d; dll := dll d; dlm := dlm d; rbr_log := rbr_log d; thr_log := thr_log d;
     ud_irqno := ud_irqno d; rxovrcnt := v; refcnt := refcnt d; rx_waiting := rx_waiting d;
     tx_waiting := tx_waiting d; rxbuf := rxbuf d; txbuf := txbuf d |}.
(** The receive side: buffer, log of RBR and waiter. *)
Definition set_rx (d : uart_device) (b : ringbuf) (log : list Z) (wt : bool) : uart_device :=
  {| ier := ier d; lcr := lcr d; dll := dll d; dlm := dlm d; rbr_log := log; thr_log := thr_log d;
     ud_irqno := ud_irqno d; rxovrcnt := rxovrcnt d; refcnt := refcnt d; rx_waiting := wt;
     tx_waiting := tx_waiting d; rxbuf := b; txbuf := txbuf d |}.
(** The transmit side. *)
Definition set_tx (d : uart_device) (b : ringbuf) (log : list Z) (wt : bool) : uart_device :=
  {| ier := ier d; lcr := lcr d; dll := dll d; dlm := dlm d; rbr_log := rbr_log d; thr_log := log;
     ud_irqno := ud_irqno d; rxovrcnt := rxovrcnt d; refcnt := refcnt d; rx_waiting := rx_waiting d;
     tx_waiting := wt; rxbuf := rxbuf d; txbuf := b |}.

(** ** The service routine

    An interrupt: what LSR reads and the byte RBR holds. *)
Record irq := { irq_lsr : Z; irq_rbr : Z }.

Definition has (v bit : Z) : bool := negb (Z.land v bit =? 0).

Definition isr_rx (i : irq) (d : uart_device) : outcome uart_device :=
  if has (irq_lsr i) LSR_DR then
    if negb (rbuf_full (rxbuf d)) then
      (* condition_broadcast(&dev->rxbnotempty) *)
      let wt := if rbuf_empty (rxbuf d) then false else rx_waiting d in
      let! b := rbuf_put (rxbuf d) (irq_rbr i) in
      Ret (set_rx d b (rbr_log d ++ [irq_rbr i]) wt)
    else Ret (set_ier d (Z.ldiff (ier d) IER_DREIE))
  else Ret d.

Definition isr_tx (i : irq) (d : uart_device) : outcome uart_device :=
  if has (irq_lsr i) LSR_THRE then
    if negb (rbuf_empty (txbuf d)) then
      (* condition_broadcast(&dev->txbnotfull) *)
      let wt := if rbuf_full (txbuf d) then false else tx_waiting d in
      let! (b, c) := rbuf_get (txbuf d) in
      Ret (set_tx d b (thr_log d ++ [c]) wt)
    else Ret (set_ier d (Z.ldiff (ier d) IER_THREIE))
  else Ret d.

Definition uart_isr (i : irq) (d : uart_device) : outcome uart_device :=
  let d := if has (irq_lsr i) LSR_OE then set_ovr d (u32 (rxovrcnt d + 1)) else d in
  let! d := isr_rx i d in
  isr_tx i d.

Fixpoint run_isrs (b : list irq) (d : uart_device) : outcome uart_device :=
  match b with
  | [] => Ret d
  | i :: b' => let! d := uart_isr i d in run_isrs b' d
  end.

(** ** Interrupted execution *)
Definition sched := list (list irq).

(** A point where interrupts are enabled. *)
Definition point (d : uart_device) (s : sched) : outcome (uart_device * sched) :=
  match s with
  | [] => Ret (d, [])
  | b :: s' => let! d := run_isrs b d in Ret (d, s')
  end.

(** [condition_wait]: the thread sleeps, with interrupts enabled, until a
    broadcast wakes it; when no interrupt is left it sleeps forever. *)
Fixpoint sleep (waiting : uart_device -> bool) (d : uart_device) (s : sched) : outcome (uart_device * sched) :=
  match s with
  | [] => Blocked
  | b :: s' => let! d := run_isrs b d in if waiting d then sleep waiting d s' else Ret (d, s')
  end.

Definition wait_rx (d : uart_device) (s : sched) : outcome (uart_device * sched) :=
  sleep rx_waiting (set_rx d (rxbuf d) (rbr_log d) true) s.
Definition wait_tx (d : uart_device) (s : sched) : outcome (uart_device * sched) :=
  sleep tx_waiting (set_tx d (txbuf d) (thr_log d) true) s.

(** [while (rbuf_empty(&dev->rxbuf)) condition_wait(&dev->rxbnotempty);] with
    interrupts disabled around the test; each wait uses up a batch. *)
Fixpoint await_rx (fuel : nat) (d : uart_device) (s : sched) : outcome (uart_device * sched) :=
  match fuel with
  | O => NoFuel
  | S fuel' =>
      if rbuf_empty (rxbuf d) then let! (d, s) := wait_rx d s in await_rx fuel' d s else Ret (d, s)
  end.
Fixpoint await_tx (fuel : nat) (d : uart_device) (s : sched) : outcome (uart_device * sched) :=
  match fuel with
  | O => NoFuel
  | S fuel' =>
      if rbuf_full (txbuf d) then let! (d, s) := wait_tx d s in await_tx fuel' d s else Ret (d, s)
  end.

(** [rbuf_get(&dev->rxbuf)] and [rbuf_put(&dev->txbuf, c)] with interrupts
    before each access. *)
Definition rx_get (d : uart_device) (s : sched) : outcome (uart_device * sched * Z) :=
  let! (d, s) := point d s in
  let h := hpos (rxbuf d) in
  let! (d, s) := point d s in
  let! c := load (rb_data (rxbuf d)) (h mod SERIAL_RBUFSZ) in
  let! (d, s) := point d s in
  let b := {| hpos := u16 (h + 1); tpos := tpos (rxbuf d); rb_data := rb_data (rxbuf d) |} in
  Ret (set_rx d b (rbr_log d) (rx_waiting d), s, c).

Definition tx_put (d : uart_device) (s : sched) (c : Z) : outcome (uart_device * sched) :=
  let! (d, s) := point d s in
  let t := tpos (txbuf d) in
  let! (d, s) := point d s in
  let! dt := store (rb_data (txbuf d)) (t mod SERIAL_RBUFSZ) c in
  let d := set_tx d {| hpos := hpos (txbuf d); tpos := tpos (txbuf d); rb_data := dt |} (thr_log d) (tx_waiting d) in
  let! (d, s) := point d s in
  let b := {| hpos := hpos (txbuf d); tpos := u16 (t + 1); rb_data := rb_data (txbuf d) |} in
  Ret (set_tx d b (thr_log d) (tx_waiting d), s).

(** [dev->regs->ier |= bit]: a read, then a write. *)
Definition ier_set (d : uart_device) (s : sched) (bit : Z) : outcome (uart_device * sched) :=
  let! (d, s) := point d s in
  let v := ier d in
  let! (d, s) := point d s in
  Ret (set_ier d (Z.lor v bit), s).

(** [while (!rbuf_empty(...) && p - buf < bufsz) *p++ = rbuf_get(...);] with
    [left = bufsz - (p - buf)]. *)
Fixpoint read_drain (left : nat) (d : uart_device) (s : sched) : outcome (uart_device * sched * list Z) :=
  let! (d, s) := point d s in
  if rbuf_empty (rxbuf d) then Ret (d, s, [])
  else match left with
       | O => Ret (d, s, [])
       | S left' =>
           let! (d, s, c) := rx_get d s in
           let! (d, s, cs) := read_drain left' d s in
           Ret (d, s, c :: cs)
       end.

Definition uart_read (d : uart_device) (s : sched) (bufsz : Z) : outcome (uart_device * sched * Z * list Z) :=
  let bufsz := if LONG_MAX <? bufsz then LONG_MAX else bufsz in
  if bufsz =? 0 then Ret (d, s, 0, [])
  else
    let! (d, s) := await_rx (S (length s)) d s in
    let! (d, s, bs) := read_drain (Z.to_nat bufsz) d s in
    let! (d, s) := ier_set d s IER_DREIE in
    Ret (d, s, Z.of_nat (length bs), bs).

(** [while (!rbuf_full(...) && p - buf < n) rbuf_put(..., *p++);] returns the
    bytes still to be written. *)
Fixpoint write_fill (l : list Z) (d : uart_device) (s : sched) : outcome (uart_device * sched * list Z) :=
  let! (d, s) := point d s in
  if rbuf_full (txbuf d) then Ret (d, s, l)
  else match l with
       | [] => Ret (d, s, [])
       | c :: l' => let! (d, s) := tx_put d s c in write_fill l' d s
       end.

(** Each turn of the outer loop puts at least one byte. *)
Fixpoint uart_write_loop (fuel : nat) (d : uart_device) (s : sched) (l : list Z) : outcome (uart_device * sched) :=
  match l with
  | [] => Ret (d, s)
  | _ :: _ =>
      match fuel with
      | O => NoFuel
      | S fuel' =>
          let! (d, s) := await_tx (S (length s)) d s in
          let! (d, s, l) := write_fill l d s in
          let! (d, s) := ier_set d s IER_THREIE in
          uart_write_loop fuel' d s l
      end
  end.

Definition uart_write (d : uart_device) (s : sched) (buf : list Z) : outcome (uart_device * sched * Z) :=
  let n := Z.of_nat (length buf) in
  let n := if LONG_MAX <? n then LONG_MAX else n in
  let! (d, s) := uart_write_loop (Z.to_nat n) d s (take (Z.to_nat n) buf) in
  Ret (d, s, n).

(** ** Opening and closing; [rbr] is what the forced read of RBR returns *)
Section OpenClose.
Context {W : Type} `{Mmio W}.

Definition uart_open (st : intr_state W) (d : uart_device) (rbr : Z) (w : W) : outcome (uart_device * W * Z) :=
  if negb (refcnt d =? 0) then Ret (d, w, - EBUSY)
  else
    let d := set_rx d (rbuf_init (rxbuf d)) (rbr_log d ++ [rbr]) (rx_waiting d) in
    let d := set_tx d (rbuf_init (txbuf d)) (thr_log d) (tx_waiting d) in
    let d := set_ier d IER_DREIE in
    let! w := intr_enable_irq st (ud_irqno d) w in
    Ret ({| ier := ier d; lcr := lcr d; dll := dll d; dlm := dlm d; rbr_log := rbr_log d; thr_log := thr_log d;
            ud_irqno := ud_irqno d; rxovrcnt := rxovrcnt d; refcnt := 1; rx_waiting := rx_waiting d;
            tx_waiting := tx_waiting d; rxbuf := rxbuf d; txbuf := txbuf d |}, w, 0).

Definition uart_close (d : uart_device) (w : W) : uart_device * W :=
  (set_ier d 0, intr_disable_irq (ud_irqno d) w).

Definition uart_open_ebusy : Z := - EBUSY.
End OpenClose.

(** ** Attaching

    [uart_attach_device] is the [kcalloc]ed device after the initialisation of
    its fields and registers (ending with DLAB = 0). *)
Definition uart_attach_device (irqno : Z) : uart_device :=
  let rb := {| hpos := 0; tpos := 0; rb_data := replicate (Z.to_nat SERIAL_RBUFSZ) 0 |} in
  {| ier := 0; lcr := 0; dll := 1; dlm := 0; rbr_log := []; thr_log := [];
     ud_irqno := irqno; rxovrcnt := 0; refcnt := 0; rx_waiting := false; tx_waiting := false;
     rxbuf := rbuf_init rb; txbuf := rbuf_init rb |}.

Definition SIZEOF_uart_device : Z := 216.

(** [kcalloc] takes memory from the state [A] of the allocator; the device
    table and the interrupt table refer to [uart_open_ebusy] ([ebusy]), and to
    [uart_open] and [uart_isr] with the new device as their argument ([opn],
    [isr]).  The result has the device with its address, if there is one. *)
Definition uart_attach {W F A} (kcalloc : A -> Z -> Z -> outcome (A * Z)) (isr : Z -> Z -> W -> outcome W)
    (ebusy : F) (opn : Z -> F) (st : intr_state W) (tab : devtab_t F) (a : A) (mmio_base irqno : Z)
    : outcome (A * intr_state W * devtab_t F * option (Z * uart_device)) :=
  if mmio_base =? UART0_IOBASE then
    let! (tab, _) := device_register tab (Some (cstr "ser")) (Some ebusy) in Ret (a, st, tab, None)
  else
    let! (a, dev) := kcalloc a 1 SIZEOF_uart_device in
    let! st := intr_register_isr st irqno UART_IRQ_PRIO (isr dev) in
    let! (tab, _) := device_register tab (Some (cstr "ser")) (Some (opn dev)) in
    Ret (a, st, tab, Some (dev, uart_attach_device irqno)).

(** * Specification: a ring buffer is a queue of at most 64 bytes *)

Definition rb_count (r : ringbuf) : nat := Z.to_nat (u16 (tpos r - hpos r)).
Definition rb_slot (r : ringbuf) (i : nat) : Z :=
  default 0 (rb_data r !! Z.to_nat ((hpos r + Z.of_nat i) mod SERIAL_RBUFSZ)).
Definition rb_list (r : ringbuf) : list Z := map (rb_slot r) (seq 0 (rb_count r)).

Definition rb_wf (r : ringbuf) : Prop :=
  Z.of_nat (length (rb_data r)) = SERIAL_RBUFSZ /\ 0 <= hpos r < 2 ^ 16 /\ 0 <= tpos r < 2 ^ 16 /\
  Z.of_nat (rb_count r) <= SERIAL_RBUFSZ.

Lemma rb_list_length r : length (rb_list r) = rb_count r.
Proof. unfold rb_list. by rewrite length_map, length_seq. Qed.

(** The tail position, from the head and the count. *)
Lemma rb_tpos r : rb_wf r -> tpos r = u16 (hpos r + Z.of_nat (rb_count r)).
Proof.
  intros (_ & Hh & Ht & _). unfold rb_count. rewrite Z2Nat.id by apply u16_range.
  unfold u16. rewrite Zplus_mod_idemp_r. replace (hpos r + (tpos r - hpos r)) with (tpos r) by lia.
  symmetry. by apply Z.mod_small.
Qed.

Lemma u16_mod_64 x : u16 x mod SERIAL_RBUFSZ = x mod SERIAL_RBUFSZ.
Proof.
  unfold u16, SERIAL_RBUFSZ. change (2 ^ 16) with 65536. Z.div_mod_to_equations. lia.
Qed.

Lemma rb_tpos_slot r : rb_wf r -> tpos r mod SERIAL_RBUFSZ = (hpos r + Z.of_nat (rb_count r)) mod SERIAL_RBUFSZ.
Proof. intros Hwf. by rewrite (rb_tpos r Hwf), u16_mod_64. Qed.

(** Distinct offsets below 64 are distinct slots. *)
Lemma slot_inj h i j : 0 <= i < SERIAL_RBUFSZ -> 0 <= j < SERIAL_RBUFSZ ->
  (h + i) mod SERIAL_RBUFSZ = (h + j) mod SERIAL_RBUFSZ -> i = j.
Proof. unfold SERIAL_RBUFSZ. intros. Z.div_mod_to_equations. lia. Qed.

Lemma slot_range x : 0 <= x mod SERIAL_RBUFSZ < SERIAL_RBUFSZ.
Proof. apply Z.mod_pos_bound. done. Qed.

Lemma u16_sub x y : u16 (u16 x - y) = u16 (x - y).
Proof. unfold u16. by rewrite Zminus_mod_idemp_l. Qed.
Lemma u16_sub_r x y : u16 (x - u16 y) = u16 (x - y).
Proof. unfold u16. by rewrite Zminus_mod_idemp_r. Qed.

Lemma rb_empty_list r : rb_wf r -> rbuf_empty r = bool_decide (rb_list r = []).
Proof.
  intros Hwf. pose proof (rb_list_length r) as Hl. pose proof (rb_tpos r Hwf) as Ht.
  destruct Hwf as (_ & Hh & Htr & _). unfold rbuf_empty. destruct (Z.eqb_spec (hpos r) (tpos r)) as [He|Hne].
  - rewrite bool_decide_true; [done|]. unfold rb_list, rb_count. by rewrite He, Z.sub_diag.
  - rewrite bool_decide_false; [done|]. intros Hn. rewrite Hn in Hl. cbn in Hl. rewrite <- Hl in Ht.
    rewrite Z.add_0_r, u16_small in Ht by lia. congruence.
Qed.

Lemma rb_full_list r : rb_wf r -> rbuf_full r = (Z.of_nat (length (rb_list r)) =? SERIAL_RBUFSZ).
Proof.
  intros _. unfold rbuf_full. rewrite rb_list_length. unfold rb_count.
  by rewrite Z2Nat.id by apply u16_range.
Qed.

(** Advancing the tail over a filled slot appends. *)
Lemma rb_push r c :
  rb_wf r -> Z.of_nat (rb_count r) < SERIAL_RBUFSZ ->
  rb_data r !! Z.to_nat (tpos r mod SERIAL_RBUFSZ) = Some c ->
  let r' := {| hpos := hpos r; tpos := u16 (tpos r + 1); rb_data := rb_data r |} in
  rb_wf r' /\ rb_list r' = rb_list r ++ [c].
Proof.
  intros Hwf Hlt Hc r'.
  assert (Hn : rb_count r' = S (rb_count r)).
  { unfold r', rb_count at 1. cbn [hpos tpos]. rewrite u16_sub, (rb_tpos r Hwf).
    replace (u16 (hpos r + Z.of_nat (rb_count r)) + 1 - hpos r)
      with (u16 (hpos r + Z.of_nat (rb_count r)) - (hpos r - 1)) by lia.
    rewrite u16_sub. rewrite u16_small; unfold SERIAL_RBUFSZ in *; lia. }
  assert (Hs : forall i, rb_slot r' i = rb_slot r i) by done.
  pose proof (rb_tpos_slot r Hwf) as Ht. destruct Hwf as (Hd & Hh & Htr & Hc64). split.
  - unfold rb_wf. rewrite Hn. cbn [rb_data hpos tpos r']. split_and!; auto; try lia; apply u16_range.
  - unfold rb_list. rewrite Hn, seq_S, map_app. f_equal.
    cbn. f_equal. rewrite Hs. unfold rb_slot. rewrite <- Ht, Hc. done.
Qed.

(** Writing the slot at the tail leaves the contents alone. *)
Lemma rb_write_tail r c :
  rb_wf r -> Z.of_nat (rb_count r) < SERIAL_RBUFSZ ->
  let r' := {| hpos := hpos r; tpos := tpos r; rb_data := <[Z.to_nat (tpos r mod SERIAL_RBUFSZ) := c]> (rb_data r) |} in
  rb_wf r' /\ rb_list r' = rb_list r /\ rb_data r' !! Z.to_nat (tpos r mod SERIAL_RBUFSZ) = Some c.
Proof.
  intros Hwf Hlt r'. pose proof (rb_tpos_slot r Hwf) as Ht. destruct Hwf as (Hd & Hh & Htr & Hc64).
  pose proof (slot_range (tpos r)). split_and!.
  - unfold rb_wf. cbn [rb_data hpos tpos r']. rewrite length_insert. split_and!; done || lia.
  - apply map_ext_in. intros i Hi%in_seq. unfold rb_slot. cbn [rb_data hpos r'].
    rewrite list_lookup_insert_ne; [done|]. rewrite Ht. intros E.
    apply Z2Nat.inj, slot_inj in E; try apply slot_range; unfold rb_count in *; cbn [r' hpos tpos] in *; lia.
  - cbn [rb_data r']. rewrite list_lookup_insert_eq; [done|lia].
Qed.

Lemma rb_put_spec r c :
  rb_wf r -> Z.of_nat (length (rb_list r)) < SERIAL_RBUFSZ ->
  exists r', rbuf_put r c = Ret r' /\ rb_wf r' /\ rb_list r' = rb_list r ++ [c] /\ hpos r' = hpos r.
Proof.
  intros Hwf Hlt. rewrite rb_list_length in Hlt. unfold rbuf_put. pose proof (slot_range (tpos r)).
  destruct (rb_write_tail r c Hwf Hlt) as (Hwf1 & Hl1 & Hc).
  rewrite store_lt by (destruct Hwf as (-> & _); lia). cbn [obind]. eexists. split; [done|].
  destruct (rb_push _ c Hwf1 Hlt Hc) as [Hwf2 Hl2]. cbn [hpos tpos rb_data] in *.
  rewrite Hl1 in Hl2. done.
Qed.

(** The head slot, and advancing the head. *)
Lemma rb_head r c l : rb_wf r -> rb_list r = c :: l ->
  load (rb_data r) (hpos r mod SERIAL_RBUFSZ) = Ret c.
Proof.
  intros (Hd & Hh & _) Hl. pose proof (slot_range (hpos r)). apply load_Ret. split; [lia|].
  unfold rb_list in Hl. destruct (rb_count r) as [|n]; [done|]. cbn in Hl. injection Hl as Hc _.
  unfold rb_slot in Hc. rewrite Z.add_0_r in Hc.
  destruct (lookup_lt_is_Some_2 (rb_data r) (Z.to_nat (hpos r mod SERIAL_RBUFSZ))) as [x Hx]; [lia|].
  rewrite Hx in *. by f_equal.
Qed.

Lemma rb_pop r c l :
  rb_wf r -> rb_list r = c :: l ->
  let r' := {| hpos := u16 (hpos r + 1); tpos := tpos r; rb_data := rb_data r |} in
  rb_wf r' /\ rb_list r' = l.
Proof.
  intros Hwf Hl r'. assert (Hn : rb_count r = S (length l)) by (by rewrite <- rb_list_length, Hl).
  assert (Hn' : rb_count r' = length l).
  { unfold r', rb_count at 1. cbn [hpos tpos]. rewrite u16_sub_r, (rb_tpos r Hwf), u16_sub.
    destruct Hwf as (_ & _ & _ & Hc). unfold SERIAL_RBUFSZ in Hc. rewrite u16_small; lia. }
  destruct Hwf as (Hd & Hh & Ht & Hc). split.
  - unfold rb_wf. rewrite Hn'. cbn [rb_data hpos tpos r']. split_and!; auto; try lia; apply u16_range.
  - unfold rb_list in *. rewrite Hn in Hl. rewrite Hn'. cbn [seq map] in Hl. injection Hl as _ Hl.
    transitivity (map (rb_slot r) (seq 1 (length l))); [|exact Hl]. rewrite <- seq_shift, map_map. apply map_ext. intros i. unfold rb_slot. cbn [hpos rb_data r'].
    do 3 f_equal. rewrite <- Zplus_mod_idemp_l, u16_mod_64, Zplus_mod_idemp_l. f_equal. lia.
Qed.

Lemma rb_get_spec r c l :
  rb_wf r -> rb_list r = c :: l ->
  exists r', rbuf_get r = Ret (r', c) /\ rb_wf r' /\ rb_list r' = l /\ tpos r' = tpos r /\ rb_data r' = rb_data r.
Proof.
  intros Hwf Hl. unfold rbuf_get. rewrite (rb_head r c l) by done. cbn [obind].
  eexists. split; [done|]. destruct (rb_pop r c l Hwf Hl) as [H1 H2]. done.
Qed.

Lemma rb_init_spec r : Z.of_nat (length (rb_data r)) = SERIAL_RBUFSZ -> rb_wf (rbuf_init r) /\ rb_list (rbuf_init r) = [].
Proof. intros H. unfold rb_wf. cbn. split_and!; done || lia. Qed.

(** * What interrupts do to the device *)

Definition uart_wf (d : uart_device) : Prop := rb_wf (rxbuf d) /\ rb_wf (txbuf d).
Definition rxq (d : uart_device) : list Z := rb_list (rxbuf d).
Definition txq (d : uart_device) : list Z := rb_list (txbuf d).
Definition tx_full (d : uart_device) : Prop := Z.of_nat (length (txq d)) = SERIAL_RBUFSZ.

(** Bytes [rx] went from RBR into the receive queue and bytes [tx] from the
    transmit queue to THR; the sides the thread owns did not move.  A waiter
    still waits only if nothing came for it, and a woken one has work. *)
Record moved (d d' : uart_device) (rx tx : list Z) : Prop := {
  mv_wf : uart_wf d';
  mv_rbr : rbr_log d' = rbr_log d ++ rx;
  mv_rxq : rxq d' = rxq d ++ rx;
  mv_hpos : hpos (rxbuf d') = hpos (rxbuf d);
  mv_thr : thr_log d' = thr_log d ++ tx;
  mv_txq : txq d = tx ++ txq d';
  mv_tpos : tpos (txbuf d') = tpos (txbuf d);
  mv_data : rb_data (txbuf d') = rb_data (txbuf d);
  mv_rx_still : rx_waiting d' = true -> rx_waiting d = true /\ (rxq d = [] -> rx = []);
  mv_rx_woken : rx_waiting d = true -> rx_waiting d' = false -> rxq d' <> [];
  mv_tx_still : tx_waiting d' = true -> tx_waiting d = true /\ (tx_full d -> tx = []);
  mv_tx_woken : tx_waiting d = true -> tx_waiting d' = false -> ~ tx_full d';
}.

Lemma moved_refl d : uart_wf d -> moved d d [] [].
Proof. intros Hwf. split; rewrite ?app_nil_r; auto; congruence. Qed.

Lemma queue_le d : rb_wf (txbuf d) -> Z.of_nat (length (txq d)) <= SERIAL_RBUFSZ.
Proof. intros (_ & _ & _ & H). unfold txq. by rewrite rb_list_length. Qed.

Lemma moved_trans d1 d2 d3 r1 r2 t1 t2 :
  uart_wf d1 -> moved d1 d2 r1 t1 -> moved d2 d3 r2 t2 -> moved d1 d3 (r1 ++ r2) (t1 ++ t2).
Proof.
  intros Hwf [] []. split; try congruence.
  - rewrite mv_rbr1. by rewrite mv_rbr0, app_assoc.
  - rewrite mv_rxq1. by rewrite mv_rxq0, app_assoc.
  - rewrite mv_thr1. by rewrite mv_thr0, app_assoc.
  - rewrite mv_txq0. by rewrite mv_txq1, app_assoc.
  - intros Hw. destruct (mv_rx_still1 Hw) as [Hw2 H2]. destruct (mv_rx_still0 Hw2) as [Hw1 H1].
    split; [done|]. intros He. rewrite (H1 He). cbn. apply H2. rewrite mv_rxq0, He. by apply H1.
  - intros Hw Hn. destruct (rx_waiting d2) eqn:Hw2; [by apply mv_rx_woken1|].
    rewrite mv_rxq1. specialize (mv_rx_woken0 Hw eq_refl). by destruct (rxq d2).
  - intros Hw. destruct (mv_tx_still1 Hw) as [Hw2 H2]. destruct (mv_tx_still0 Hw2) as [Hw1 H1].
    split; [done|]. intros Hf. rewrite (H1 Hf) in *. cbn. apply H2. unfold tx_full in *. by rewrite mv_txq0 in Hf.
  - intros Hw Hn. destruct (tx_waiting d2) eqn:Hw2; [by apply mv_tx_woken1|].
    specialize (mv_tx_woken0 Hw eq_refl). pose proof (queue_le d2 (proj2 mv_wf0)) as Hle.
    unfold tx_full in *. rewrite mv_txq1, length_app in *. lia.
Qed.

Lemma moved_set_ier d v : uart_wf d -> moved d (set_ier d v) [] [].
Proof. intros [? ?]. split; rewrite ?app_nil_r; try done; cbn; congruence. Qed.
Lemma moved_set_ovr d v : uart_wf d -> moved d (set_ovr d v) [] [].
Proof. intros [? ?]. split; rewrite ?app_nil_r; try done; cbn; congruence. Qed.

Lemma isr_rx_moved i d : uart_wf d ->
  exists d' rx, isr_rx i d = Ret d' /\ moved d d' rx [] /\
    (has (irq_lsr i) LSR_DR = true -> rxq d = [] -> rx <> []).
Proof.
  intros Hwf. unfold isr_rx. destruct (has (irq_lsr i) LSR_DR).
  2:{ exists d, []. split_and!; auto using moved_refl. }
  rewrite rb_full_list by apply Hwf. destruct (_ =? SERIAL_RBUFSZ) eqn:Ef; cbn [negb].
  - exists (set_ier d (Z.ldiff (ier d) IER_DREIE)), []. split; [done|]. split; [by apply moved_set_ier|].
    intros _ He. unfold rxq in He. by rewrite He in Ef.
  - destruct (rb_put_spec (rxbuf d) (irq_rbr i)) as (b & -> & Hb & Hl & Hh); [apply Hwf| |].
    { destruct Hwf as [(_ & _ & _ & Hc) _]. rewrite rb_list_length in *. lia. }
    cbn [obind]. eexists _, [irq_rbr i]. split; [done|]. split; [|done].
    rewrite rb_empty_list by apply Hwf. fold (rxq d).
    split; cbn [set_rx rxbuf txbuf rbr_log thr_log rx_waiting tx_waiting]; rewrite ?app_nil_r; auto.
    + by split; [|apply Hwf].
    + case_bool_decide; [done|]. intros ->. split; done.
    + intros _ _. unfold rxq. cbn [set_rx rxbuf]. rewrite Hl. by destruct (rb_list (rxbuf d)).
    + congruence.
Qed.

Lemma isr_tx_moved i d : uart_wf d -> exists d' tx, isr_tx i d = Ret d' /\ moved d d' [] tx.
Proof.
  intros Hwf. unfold isr_tx. destruct (has (irq_lsr i) LSR_THRE).
  2:{ exists d, []. split; auto. by apply moved_refl. }
  rewrite rb_empty_list by apply Hwf. case_bool_decide as He; cbn [negb].
  - eexists _, []. split; [done|]. by apply moved_set_ier.
  - destruct (rb_list (txbuf d)) as [|c l] eqn:Hl; [done|].
    destruct (rb_get_spec (txbuf d) c l) as (b & -> & Hb & Hbl & Hbt & Hbd); [apply Hwf|done|].
    cbn [obind]. eexists _, [c]. split; [done|]. rewrite rb_full_list by apply Hwf. rewrite Hl.
    split; cbn [set_tx rxbuf txbuf rbr_log thr_log rx_waiting tx_waiting]; rewrite ?app_nil_r; auto.
    + by split; [apply Hwf|].
    + unfold txq. cbn [set_tx txbuf]. by rewrite Hl, Hbl.
    + congruence.
    + unfold tx_full, txq. rewrite Hl. destruct (_ =? SERIAL_RBUFSZ) eqn:Ef; [done|]. intros ->.
      split; [done|]. lia.
    + intros _ _. destruct Hwf as [_ (_ & _ & _ & Hc)]. rewrite <- rb_list_length, Hl in Hc.
      unfold tx_full, txq. cbn [set_tx txbuf length] in *. rewrite Hbl. lia.
Qed.

Lemma uart_isr_moved i d : uart_wf d ->
  exists d' rx tx, uart_isr i d = Ret d' /\ moved d d' rx tx /\
    (has (irq_lsr i) LSR_DR = true -> rxq d = [] -> rx <> []).
Proof.
  intros Hwf. unfold uart_isr. set (d0 := if has (irq_lsr i) LSR_OE then _ else d).
  assert (H0 : moved d d0 [] []) by (unfold d0; destruct (has _ _); auto using moved_refl, moved_set_ovr).
  destruct (isr_rx_moved i d0 (mv_wf _ _ _ _ H0)) as (d1 & rx & -> & H1 & Hdr). cbn [obind].
  destruct (isr_tx_moved i d1 (mv_wf _ _ _ _ H1)) as (d2 & tx & -> & H2).
  exists d2, rx, tx. split; [done|]. split.
  - pose proof (moved_trans _ _ _ _ _ _ _ Hwf H0 (moved_trans _ _ _ _ _ _ _ (mv_wf _ _ _ _ H0) H1 H2)) as H.
    cbn in H. by rewrite app_nil_r in H.
  - intros Hd He. apply Hdr; [done|]. unfold rxq in *. by rewrite <- He; unfold d0; destruct (has _ _).
Qed.

Definition has_dr (b : list irq) : bool := existsb (fun i => has (irq_lsr i) LSR_DR) b.

Lemma run_isrs_moved b : forall d, uart_wf d ->
  exists d' rx tx, run_isrs b d = Ret d' /\ moved d d' rx tx /\
    (has_dr b = true -> rxq d = [] -> rx <> []).
Proof.
  induction b as [|i b IH]; intros d Hwf; cbn [run_isrs].
  { exists d, [], []. split_and!; auto using moved_refl. }
  destruct (uart_isr_moved i d Hwf) as (d1 & r1 & t1 & -> & H1 & Hdr1). cbn [obind].
  destruct (IH d1 (mv_wf _ _ _ _ H1)) as (d2 & r2 & t2 & -> & H2 & Hdr2).
  exists d2, (r1 ++ r2), (t1 ++ t2). split; [done|]. split; [by eapply moved_trans|].
  cbn [has_dr existsb]. intros Hd He Hn. apply app_eq_nil in Hn as [-> ->].
  apply orb_true_iff in Hd as [Hd|Hd]; [by apply Hdr1|].
  apply Hdr2; [done| |done]. by rewrite (mv_rxq _ _ _ _ H1), He.
Qed.

(** A transmit interrupt takes a byte out of a full queue. *)
Definition has_thre (b : list irq) : bool := existsb (fun i => has (irq_lsr i) LSR_THRE) b.

Lemma moved_not_full d d' rx tx : uart_wf d -> moved d d' rx tx -> ~ tx_full d -> ~ tx_full d'.
Proof.
  intros [_ Hwf] H Hn. pose proof (queue_le d Hwf). unfold tx_full in *. rewrite (mv_txq _ _ _ _ H), length_app in *. lia.
Qed.

Lemma uart_isr_thre i d d' : uart_wf d -> tx_full d -> has (irq_lsr i) LSR_THRE = true -> uart_isr i d = Ret d' -> ~ tx_full d'.
Proof.
  intros Hwf Hfull Hi. unfold uart_isr. set (d0 := if has (irq_lsr i) LSR_OE then _ else d).
  assert (H0 : moved d d0 [] []) by (unfold d0; destruct (has _ LSR_OE); auto using moved_refl, moved_set_ovr).
  destruct (isr_rx_moved i d0 (mv_wf _ _ _ _ H0)) as (d1 & rx & -> & H1 & _). cbn [obind].
  pose proof (moved_trans _ _ _ _ _ _ _ Hwf H0 H1) as H01. assert (Hq : txq d1 = txq d) by (by rewrite (mv_txq _ _ _ _ H01)).
  unfold isr_tx. rewrite Hi, rb_empty_list by apply H1. fold (txq d1). unfold tx_full in *. rewrite Hq.
  destruct (txq d) as [|c l] eqn:El; [done|]. rewrite bool_decide_false by done. cbn [negb].
  destruct (rb_get_spec (txbuf d1) c l) as (b & -> & Hb & Hbl & _); [apply H1|exact Hq|].
  cbn [obind]. intros [= <-]. unfold txq. cbn [set_tx txbuf]. rewrite Hbl. cbn [length] in Hfull. lia.
Qed.

Lemma run_isrs_thre b : forall d d', uart_wf d -> tx_full d -> has_thre b = true -> run_isrs b d = Ret d' -> ~ tx_full d'.
Proof.
  induction b as [|i b IH]; intros d d' Hwf Hf Hb; [done|]. cbn [run_isrs has_thre existsb] in *.
  destruct (uart_isr_moved i d Hwf) as (d1 & r1 & t1 & E & H1 & _). rewrite E. cbn [obind].
  destruct (decide (tx_full d1)) as [Hf1|Hf1].
  - apply orb_true_iff in Hb as [Hb|Hb]; [|by apply (IH d1 d' (mv_wf _ _ _ _ H1))]. by destruct (uart_isr_thre i d d1 Hwf Hf Hb E).
  - destruct (run_isrs_moved b d1 (mv_wf _ _ _ _ H1)) as (d2 & r2 & t2 & -> & H2 & _). intros [= <-].
    by apply (moved_not_full d1 d2 r2 t2 (mv_wf _ _ _ _ H1) H2).
Qed.

(** The batches with a transmit interrupt that are still to come. *)
Definition transmits (s : sched) : nat := length (List.filter has_thre s).

Lemma transmits_cons b s : (transmits (b :: s) <= S (transmits s))%nat.
Proof. unfold transmits. cbn. destruct (has_thre b); cbn; lia. Qed.
Lemma point_transmits d s d' s' : point d s = Ret (d', s') -> (transmits s <= 1 + transmits s')%nat.
Proof.
  destruct s as [|b s]; cbn [point]; [intros [= <- <-]; lia|]. intros (d1 & _ & [= <- <-])%obind_Ret_inv. apply transmits_cons.
Qed.
Lemma tx_put_transmits d s c d' s' : tx_put d s c = Ret (d', s') -> (transmits s <= 3 + transmits s')%nat.
Proof.
  unfold tx_put. intros ([d1 s1] & H1%point_transmits & E)%obind_Ret_inv. apply obind_Ret_inv in E as ([d2 s2] & H2%point_transmits & E).
  apply obind_Ret_inv in E as (dt & _ & E). apply obind_Ret_inv in E as ([d3 s3] & H3%point_transmits & [= <- <-]). lia.
Qed.
Lemma ier_set_transmits d s bit d' s' : ier_set d s bit = Ret (d', s') -> (transmits s <= 2 + transmits s')%nat.
Proof.
  unfold ier_set. intros ([d1 s1] & H1%point_transmits & E)%obind_Ret_inv. apply obind_Ret_inv in E as ([d2 s2] & H2%point_transmits & [= <- <-]). lia.
Qed.
Lemma write_fill_transmits l : forall d s d' s' rest, write_fill l d s = Ret (d', s', rest) ->
  (transmits s + 4 * length rest <= 1 + 4 * length l + transmits s')%nat.
Proof.
  induction l as [|c l IH]; intros d s d' s' rest; cbn [write_fill]; intros ([d1 s1] & H1%point_transmits & E)%obind_Ret_inv.
  - destruct (rbuf_full _); injection E as <- <- <-; cbn; lia.
  - destruct (rbuf_full _); [injection E as <- <- <-; lia|].
    apply obind_Ret_inv in E as ([d2 s2] & H2%tx_put_transmits & E). apply IH in E. cbn [length]. lia.
Qed.

Lemma point_moved d s : uart_wf d ->
  exists d' s' rx tx, point d s = Ret (d', s') /\ moved d d' rx tx /\ (length s' <= length s)%nat.
Proof.
  intros Hwf. destruct s as [|b s]; cbn [point].
  { exists d, [], [], []. split_and!; auto. by apply moved_refl. }
  destruct (run_isrs_moved b d Hwf) as (d' & rx & tx & -> & H & _). cbn [obind length].
  exists d', s, rx, tx. split_and!; auto.
Qed.

(** * The thread side *)

(** [rx]: read from RBR; [out]: given to the reader; [inn]: taken from the
    writer; [tx]: written to THR. *)
Record flow (d d' : uart_device) (rx tx out inn : list Z) : Prop := {
  fl_wf : uart_wf d';
  fl_rbr : rbr_log d' = rbr_log d ++ rx;
  fl_rxq : rxq d ++ rx = out ++ rxq d';
  fl_thr : thr_log d' = thr_log d ++ tx;
  fl_txq : txq d ++ inn = tx ++ txq d';
}.

Lemma flow_moved d d' rx tx : moved d d' rx tx -> flow d d' rx tx [] [].
Proof. intros []. split; rewrite ?app_nil_r; auto. Qed.

Lemma flow_refl d : uart_wf d -> flow d d [] [] [] [].
Proof. intros. by apply flow_moved, moved_refl. Qed.

Lemma flow_trans d1 d2 d3 r1 r2 t1 t2 o1 o2 i1 i2 :
  flow d1 d2 r1 t1 o1 i1 -> flow d2 d3 r2 t2 o2 i2 ->
  flow d1 d3 (r1 ++ r2) (t1 ++ t2) (o1 ++ o2) (i1 ++ i2).
Proof.
  intros [] []. split; auto.
  - rewrite fl_rbr1. by rewrite fl_rbr0, app_assoc.
  - rewrite app_assoc, fl_rxq0, <- !app_assoc. by f_equal.
  - rewrite fl_thr1. by rewrite fl_thr0, app_assoc.
  - rewrite app_assoc, fl_txq0, <- !app_assoc. by f_equal.
Qed.

(** Steps that only forget or set flags. *)
Lemma flow_same d d' : uart_wf d -> rbr_log d' = rbr_log d -> thr_log d' = thr_log d ->
  rxbuf d' = rxbuf d -> txbuf d' = txbuf d -> flow d d' [] [] [] [].
Proof. intros [? ?] ? ? Hr Ht. split; unfold uart_wf, rxq, txq; rewrite ?app_nil_r, ?Hr, ?Ht; auto. Qed.

Lemma ier_set_flow d s bit : uart_wf d -> exists d' s' rx tx, ier_set d s bit = Ret (d', s') /\ flow d d' rx tx [] [].
Proof.
  intros Hwf. unfold ier_set. destruct (point_moved d s Hwf) as (d1 & s1 & r1 & t1 & -> & H1 & _). cbn [obind].
  destruct (point_moved d1 s1 (mv_wf _ _ _ _ H1)) as (d2 & s2 & r2 & t2 & -> & H2 & _). cbn [obind].
  eexists _, _, (r1 ++ r2), (t1 ++ t2). split; [done|].
  pose proof (moved_set_ier d2 (Z.lor (ier d1) bit) (mv_wf _ _ _ _ H2)) as H3.
  pose proof (flow_trans _ _ _ _ _ _ _ _ _ _ _ (flow_moved _ _ _ _ H1)
    (flow_trans _ _ _ _ _ _ _ _ _ _ _ (flow_moved _ _ _ _ H2) (flow_moved _ _ _ _ H3))) as H.
  cbn in H. by rewrite !app_nil_r in H.
Qed.

(** ** Receiving *)

Lemma sleep_rx d s : uart_wf d -> rx_waiting d = true -> rxq d = [] ->
  match sleep rx_waiting d s with
  | Ret (d', s') => (length s' < length s)%nat /\ rxq d' <> [] /\ exists rx tx, flow d d' rx tx [] []
  | Blocked => has_dr (concat s) = false
  | _ => False
  end.
Proof.
  revert d; induction s as [|b s IH]; intros d Hwf Hw He; cbn [sleep]; [done|].
  destruct (run_isrs_moved b d Hwf) as (d1 & r1 & t1 & -> & H1 & Hdr). cbn [obind].
  destruct (rx_waiting d1) eqn:Hw1.
  - destruct (mv_rx_still _ _ _ _ H1 Hw1) as [_ Hnil]. specialize (Hnil He) as ->.
    assert (He1 : rxq d1 = []) by (by rewrite (mv_rxq _ _ _ _ H1), He).
    specialize (IH d1 (mv_wf _ _ _ _ H1) Hw1 He1). destruct (sleep rx_waiting d1 s) as [[d2 s2]| | | |]; auto.
    + destruct IH as (Hl & Hne & r2 & t2 & H2). cbn [length]. split; [lia|]. split; [done|].
      exists r2, (t1 ++ t2). by apply (flow_trans _ _ _ [] r2 _ _ [] [] [] [] (flow_moved _ _ _ _ H1) H2).
    + cbn [concat]. unfold has_dr in *. rewrite existsb_app, IH, orb_false_r.
      destruct (existsb _ b); [|done]. by specialize (Hdr eq_refl He).
  - cbn [length]. split; [lia|]. split; [by apply (mv_rx_woken _ _ _ _ H1)|].
    exists r1, t1. by apply flow_moved.
Qed.

Lemma await_rx_spec fuel d s : uart_wf d -> (length s < fuel)%nat ->
  match await_rx fuel d s with
  | Ret (d', s') => rxq d' <> [] /\ exists rx tx, flow d d' rx tx [] []
  | Blocked => rxq d = [] /\ has_dr (concat s) = false
  | _ => False
  end.
Proof.
  intros Hwf Hf. destruct fuel as [|fuel]; [lia|]. cbn [await_rx].
  rewrite rb_empty_list by apply Hwf. fold (rxq d). case_bool_decide as He.
  2:{ split; [done|]. exists [], []. by apply flow_refl. }
  unfold wait_rx. set (d0 := set_rx d (rxbuf d) (rbr_log d) true).
  pose proof (sleep_rx d0 s Hwf eq_refl He) as Hs. destruct (sleep rx_waiting d0 s) as [[d1 s1]| | | |]; cbn [obind]; auto.
  destruct Hs as (Hl & Hne & rx & tx & Hfl).
  destruct fuel as [|fuel]; [lia|]. cbn [await_rx]. rewrite rb_empty_list by apply Hfl. fold (rxq d1).
  rewrite bool_decide_false by done. split; [done|]. exists rx, tx.
  by apply (flow_trans d d0 d1 [] rx [] tx [] [] [] [] (flow_same d d0 Hwf eq_refl eq_refl eq_refl eq_refl)).
Qed.

(** One byte is taken from the head, whatever arrives meanwhile. *)
Lemma rx_get_flow d s : uart_wf d -> rxq d <> [] ->
  exists d' s' c rx tx, rx_get d s = Ret (d', s', c) /\ flow d d' rx tx [c] [].
Proof.
  intros Hwf Hne. destruct (rxq d) as [|c l] eqn:Hq; [done|]. unfold rx_get.
  destruct (point_moved d s Hwf) as (d1 & s1 & r1 & t1 & -> & H1 & _). cbn [obind].
  destruct (point_moved d1 s1 (mv_wf _ _ _ _ H1)) as (d2 & s2 & r2 & t2 & -> & H2 & _). cbn [obind].
  pose proof (moved_trans _ _ _ _ _ _ _ Hwf H1 H2) as H12.
  rewrite <- (mv_hpos _ _ _ _ H2).
  rewrite (rb_head _ c (l ++ r1 ++ r2)); [|apply H2|].
  2:{ fold (rxq d2). rewrite (mv_rxq _ _ _ _ H12), Hq. done. }
  cbn [obind]. destruct (point_moved d2 s2 (mv_wf _ _ _ _ H2)) as (d3 & s3 & r3 & t3 & -> & H3 & _). cbn [obind].
  pose proof (moved_trans _ _ _ _ _ _ _ Hwf H12 H3) as H13.
  rewrite <- (mv_hpos _ _ _ _ H3). set (r := (r1 ++ r2) ++ r3) in *. set (t := (t1 ++ t2) ++ t3) in *.
  assert (Hq3 : rb_list (rxbuf d3) = c :: l ++ r) by (fold (rxq d3); rewrite (mv_rxq _ _ _ _ H13), Hq; done).
  destruct (rb_pop (rxbuf d3) c (l ++ r) (proj1 (mv_wf _ _ _ _ H13)) Hq3) as [Hwf4 Hl4].
  eexists _, _, c, r, t. split; [done|].
  split; cbn [set_rx rbr_log thr_log].
  - split; [exact Hwf4|apply H13].
  - apply H13.
  - unfold rxq at 2. cbn [set_rx rxbuf]. rewrite Hq. cbn. f_equal. symmetry. exact Hl4.
  - apply H13.
  - rewrite app_nil_r. apply H13.
Qed.

Lemma read_drain_flow left : forall d s, uart_wf d ->
  exists d' s' bs rx tx, read_drain left d s = Ret (d', s', bs) /\ flow d d' rx tx bs [] /\
    (length bs <= left)%nat /\ ((0 < left)%nat -> rxq d <> [] -> bs <> []).
Proof.
  induction left as [|left IH]; intros d s Hwf; cbn [read_drain];
    destruct (point_moved d s Hwf) as (d1 & s1 & r1 & t1 & -> & H1 & _); cbn [obind].
  - destruct (rbuf_empty _); (exists d1, s1, [], r1, t1; split; [done|]; split; [by apply flow_moved|];
      split; [done|lia]).
  - rewrite rb_empty_list by apply H1. fold (rxq d1). case_bool_decide as He.
    + exists d1, s1, [], r1, t1. split; [done|]. split; [by apply flow_moved|]. split; [cbn; lia|].
      intros _ Hne. rewrite (mv_rxq _ _ _ _ H1) in He. by apply app_eq_nil in He as [? _].
    + destruct (rx_get_flow d1 s1 (mv_wf _ _ _ _ H1) He) as (d2 & s2 & c & r2 & t2 & -> & H2). cbn [obind].
      destruct (IH d2 s2 (fl_wf _ _ _ _ _ _ H2)) as (d3 & s3 & bs & r3 & t3 & -> & H3 & Hlen & _). cbn [obind].
      eexists _, _, (c :: bs), (r1 ++ r2 ++ r3), (t1 ++ t2 ++ t3). split; [done|]. split.
      * apply (flow_trans _ _ _ _ _ _ _ _ _ _ _ (flow_moved _ _ _ _ H1) (flow_trans _ _ _ _ _ _ _ _ _ _ _ H2 H3)).
      * cbn [length]. split; [lia|done].
Qed.

(** ** Sending *)

Lemma not_full_lt d : uart_wf d -> ~ tx_full d -> Z.of_nat (length (txq d)) < SERIAL_RBUFSZ.
Proof. intros [_ Hwf] Hn. pose proof (queue_le d Hwf). unfold tx_full in Hn. lia. Qed.

Lemma rbuf_full_iff d : uart_wf d -> rbuf_full (txbuf d) = true <-> tx_full d.
Proof. intros Hwf. rewrite rb_full_list by apply Hwf. apply Z.eqb_eq. Qed.

(** Only a transmit interrupt wakes the writer, and the first one does. *)
Lemma sleep_tx d s : uart_wf d -> tx_waiting d = true -> tx_full d ->
  match sleep tx_waiting d s with
  | Ret (d', s') => (length s' < length s)%nat /\ ~ tx_full d' /\ (transmits s <= 1 + transmits s')%nat /\ exists rx tx, flow d d' rx tx [] []
  | Blocked => transmits s = 0%nat
  | _ => False
  end.
Proof.
  revert d; induction s as [|b s IH]; intros d Hwf Hw Hf; cbn [sleep]; [done|].
  destruct (run_isrs_moved b d Hwf) as (d1 & r1 & t1 & E & H1 & _). rewrite E. cbn [obind].
  destruct (tx_waiting d1) eqn:Hw1.
  - destruct (mv_tx_still _ _ _ _ H1 Hw1) as [_ Ht]. specialize (Ht Hf) as ->.
    assert (Hf1 : tx_full d1) by (unfold tx_full in *; by rewrite (mv_txq _ _ _ _ H1) in Hf).
    assert (Hb : has_thre b = false) by (apply not_true_is_false; intros Hb; by destruct (run_isrs_thre b d d1 Hwf Hf Hb E)).
    assert (Hc : transmits (b :: s) = transmits s) by (unfold transmits; cbn; by rewrite Hb). rewrite Hc.
    specialize (IH d1 (mv_wf _ _ _ _ H1) Hw1 Hf1). destruct (sleep tx_waiting d1 s) as [[d2 s2]| | | |]; auto.
    destruct IH as (Hl & Hne & Htr & r2 & t2 & H2). cbn [length]. split; [lia|]. split; [done|]. split; [done|].
    exists (r1 ++ r2), ([] ++ t2). apply (flow_trans _ _ _ _ _ _ _ [] [] [] [] (flow_moved _ _ _ _ H1) H2).
  - cbn [length]. split; [lia|]. split; [by apply (mv_tx_woken _ _ _ _ H1)|]. split; [apply transmits_cons|].
    exists r1, t1. by apply flow_moved.
Qed.

Lemma await_tx_spec fuel d s : uart_wf d -> (length s < fuel)%nat ->
  match await_tx fuel d s with
  | Ret (d', s') => ~ tx_full d' /\ (transmits s <= 1 + transmits s')%nat /\ exists rx tx, flow d d' rx tx [] []
  | Blocked => tx_full d /\ transmits s = 0%nat
  | _ => False
  end.
Proof.
  intros Hwf Hf. destruct fuel as [|fuel]; [lia|]. cbn [await_tx].
  destruct (rbuf_full (txbuf d)) eqn:Ef.
  2:{ split; [rewrite <- rbuf_full_iff by done; congruence|]. split; [lia|]. exists [], []; by apply flow_refl. }
  apply rbuf_full_iff in Ef; [|done].
  unfold wait_tx. set (d0 := set_tx d (txbuf d) (thr_log d) true).
  pose proof (sleep_tx d0 s Hwf eq_refl Ef) as Hs. destruct (sleep tx_waiting d0 s) as [[d1 s1]| | | |]; cbn [obind]; auto.
  destruct Hs as (Hl & Hne & Htr & rx & tx & Hfl).
  destruct fuel as [|fuel]; [lia|]. cbn [await_tx].
  destruct (rbuf_full (txbuf d1)) eqn:Ef1; [apply rbuf_full_iff in Ef1; [done|apply Hfl]|].
  split; [done|]. split; [done|]. exists rx, tx.
  by apply (flow_trans d d0 d1 [] rx [] tx [] [] [] [] (flow_same d d0 Hwf eq_refl eq_refl eq_refl eq_refl)).
Qed.

(** One byte is appended at the tail, whatever is sent meanwhile. *)
Lemma tx_put_flow d s c : uart_wf d -> ~ tx_full d ->
  exists d' s' rx tx, tx_put d s c = Ret (d', s') /\ flow d d' rx tx [] [c].
Proof.
  intros Hwf Hnf. unfold tx_put.
  destruct (point_moved d s Hwf) as (d1 & s1 & r1 & t1 & -> & H1 & _). cbn [obind].
  destruct (point_moved d1 s1 (mv_wf _ _ _ _ H1)) as (d2 & s2 & r2 & t2 & -> & H2 & _). cbn [obind].
  pose proof (moved_trans _ _ _ _ _ _ _ Hwf H1 H2) as H12.
  pose proof (not_full_lt d2 (mv_wf _ _ _ _ H2) (moved_not_full _ _ _ _ Hwf H12 Hnf)) as Hlt2.
  unfold txq in Hlt2. rewrite rb_list_length in Hlt2.
  destruct (mv_wf _ _ _ _ H2) as [Hrx2 Htx2]. rewrite <- (mv_tpos _ _ _ _ H2).
  destruct (rb_write_tail (txbuf d2) c Htx2 Hlt2) as (Hwf3 & Hl3 & Hc3).
  pose proof (slot_range (tpos (txbuf d2))).
  rewrite store_lt by (destruct Htx2 as (-> & _); lia). cbn [obind].
  match goal with |- context [point ?x s2] => set (d3 := x) end.
  assert (Hw3 : uart_wf d3) by (by split).
  destruct (point_moved d3 s2 Hw3) as (d4 & s4 & r4 & t4 & -> & H4 & _). cbn [obind].
  pose proof (moved_not_full _ _ _ _ Hw3 H4) as Hnf4.
  assert (Hlt4 : Z.of_nat (rb_count (txbuf d4)) < SERIAL_RBUFSZ).
  { rewrite <- rb_list_length. apply (not_full_lt d4); [apply H4|]. apply Hnf4. unfold tx_full, txq.
    change (txbuf d3) with {| hpos := hpos (txbuf d2); tpos := tpos (txbuf d2);
      rb_data := <[Z.to_nat (tpos (txbuf d2) mod SERIAL_RBUFSZ) := c]> (rb_data (txbuf d2)) |}.
    rewrite Hl3, rb_list_length. lia. }
  assert (Ht4 : tpos (txbuf d4) = tpos (txbuf d2)) by apply H4.
  destruct (rb_push (txbuf d4) c (proj2 (mv_wf _ _ _ _ H4)) Hlt4) as [Hwf5 Hl5].
  { rewrite Ht4, (mv_data _ _ _ _ H4). exact Hc3. }
  rewrite <- Ht4.
  eexists _, _, ((r1 ++ r2) ++ r4), ((t1 ++ t2) ++ t4). split; [done|].
  assert (Htq : txq d3 = txq d2) by exact Hl3.
  split; cbn [set_tx rbr_log thr_log].
  - split; [apply H4|exact Hwf5].
  - rewrite (mv_rbr _ _ _ _ H4). cbn. by rewrite (mv_rbr _ _ _ _ H12), <- !app_assoc.
  - cbn [app]. change (rxq (set_tx _ _ _ _)) with (rxq d4). rewrite (mv_rxq _ _ _ _ H4).
    change (rxq d3) with (rxq d2). by rewrite (mv_rxq _ _ _ _ H12), <- !app_assoc.
  - rewrite (mv_thr _ _ _ _ H4). cbn. by rewrite (mv_thr _ _ _ _ H12), <- !app_assoc.
  - unfold txq at 2. cbn [set_tx txbuf].
    assert (Hnew : rb_list {| hpos := hpos (txbuf d4); tpos := u16 (tpos (txbuf d4) + 1); rb_data := rb_data (txbuf d4) |}
      = txq d4 ++ [c]) by exact Hl5.
    rewrite Hnew, (mv_txq _ _ _ _ H12), <- Htq, (mv_txq _ _ _ _ H4), <- !app_assoc. done.
Qed.

Lemma write_fill_flow l : forall d s, uart_wf d ->
  exists d' s' done rest rx tx, write_fill l d s = Ret (d', s', rest) /\ flow d d' rx tx [] done /\
    l = done ++ rest /\ (l <> [] -> ~ tx_full d -> done <> []).
Proof.
  induction l as [|c l IH]; intros d s Hwf; cbn [write_fill];
    destruct (point_moved d s Hwf) as (d1 & s1 & r1 & t1 & -> & H1 & _); cbn [obind].
  - destruct (rbuf_full _); (exists d1, s1, [], [], r1, t1; split; [done|]; split; [by apply flow_moved|done]).
  - destruct (rbuf_full (txbuf d1)) eqn:Ef.
    + apply rbuf_full_iff in Ef; [|apply H1].
      exists d1, s1, [], (c :: l), r1, t1. split; [done|]. split; [by apply flow_moved|]. split; [done|].
      intros _ Hn. by pose proof (moved_not_full _ _ _ _ Hwf H1 Hn).
    + destruct (tx_put_flow d1 s1 c (mv_wf _ _ _ _ H1)) as (d2 & s2 & r2 & t2 & -> & H2).
      { rewrite <- rbuf_full_iff by apply H1. congruence. }
      cbn [obind]. destruct (IH d2 s2 (fl_wf _ _ _ _ _ _ H2)) as (d3 & s3 & dn & rest & r3 & t3 & -> & H3 & -> & _).
      eexists _, _, (c :: dn), rest, (r1 ++ r2 ++ r3), (t1 ++ t2 ++ t3). split; [done|]. split; [|done].
      apply (flow_trans _ _ _ _ _ _ _ _ _ _ _ (flow_moved _ _ _ _ H1) (flow_trans _ _ _ _ _ _ _ _ _ _ _ H2 H3)).
Qed.

Lemma uart_write_loop_flow fuel : forall d s l, uart_wf d -> (length l <= fuel)%nat ->
  match uart_write_loop fuel d s l with
  | Ret (d', s') => exists rx tx, flow d d' rx tx [] l
  | Blocked => SERIAL_RBUFSZ < Z.of_nat (length (txq d ++ l)) /\ (transmits s < 8 * length l)%nat
  | _ => False
  end.
Proof.
  induction fuel as [|fuel IH]; intros d s l Hwf Hf; (destruct l as [|c l]; [cbn; exists [], []; by apply flow_refl|]);
    [cbn in Hf; lia|].
  cbn [uart_write_loop]. pose proof (await_tx_spec (S (length s)) d s Hwf ltac:(lia)) as Ha.
  destruct (await_tx _ d s) as [[d1 s1]| | | |]; cbn [obind]; auto.
  2:{ destruct Ha as [Ha ->]. unfold tx_full in Ha. rewrite length_app. cbn [length]. lia. }
  destruct Ha as (Hnf & Htr & r1 & t1 & H1).
  destruct (write_fill_flow (c :: l) d1 s1 (fl_wf _ _ _ _ _ _ H1)) as (d2 & s2 & dn & rest & r2 & t2 & E2 & H2 & Hl & Hne).
  rewrite E2. apply write_fill_transmits in E2.
  cbn [obind]. destruct (ier_set_flow d2 s2 IER_THREIE (fl_wf _ _ _ _ _ _ H2)) as (d3 & s3 & r3 & t3 & E3 & H3).
  rewrite E3. apply ier_set_transmits in E3. cbn [obind]. specialize (Hne ltac:(done) Hnf).
  assert (Hlr : (length rest <= fuel)%nat).
  { apply (f_equal length) in Hl. rewrite length_app in Hl. cbn in *. destruct dn; [done|]. cbn in Hl. lia. }
  specialize (IH d3 s3 rest (fl_wf _ _ _ _ _ _ H3) Hlr).
  destruct (uart_write_loop fuel d3 s3 rest) as [[d4 s4]| | | |]; auto.
  2:{ pose proof (flow_trans _ _ _ _ _ _ _ [] [] [] _ H1 (flow_trans _ _ _ _ _ _ _ [] [] dn _ H2 H3)) as [_ _ _ _ Hq].
      apply (f_equal length) in Hq. destruct IH as [IHq IHt]. assert (length dn <> 0%nat) by (by destruct dn).
      rewrite Hl in E2 |- *. cbn [app] in Hq. rewrite app_nil_r in Hq. rewrite !length_app in *. lia. }
  destruct IH as (r4 & t4 & H4).
  exists (r1 ++ r2 ++ r3 ++ r4), (t1 ++ t2 ++ t3 ++ t4). rewrite Hl.
  apply (flow_trans _ _ _ _ _ _ _ [] [] [] _ H1
    (flow_trans _ _ _ _ _ _ _ [] [] dn _ H2 (flow_trans _ _ _ _ _ _ _ [] [] [] _ H3 H4))).
Qed.

(** * Properties *)

(** Calls on a ring buffer as the driver makes them: a put only when it is not
    full, a get only when it is not empty. *)
Inductive rb_op := RPut (c : Z) | RGet.

Fixpoint rb_run (ops : list rb_op) (r : ringbuf) : outcome (ringbuf * list Z) :=
  match ops with
  | [] => Ret (r, [])
  | RPut c :: ops' =>
      if rbuf_full r then rb_run ops' r else let! r := rbuf_put r c in rb_run ops' r
  | RGet :: ops' =>
      if rbuf_empty r then rb_run ops' r
      else let! (r, c) := rbuf_get r in let! (r, cs) := rb_run ops' r in Ret (r, c :: cs)
  end.

(** The abstract queue, bounded by [cap]. *)
Fixpoint queue_run (cap : nat) (ops : list rb_op) (q : list Z) : list Z * list Z :=
  match ops, q with
  | [], _ => (q, [])
  | RPut c :: ops', _ => queue_run cap ops' (if (length q <? cap)%nat then q ++ [c] else q)
  | RGet :: ops', [] => queue_run cap ops' q
  | RGet :: ops', c :: q' => let (q'', cs) := queue_run cap ops' q' in (q'', c :: cs)
  end.

Lemma rb_run_queue ops : forall r, rb_wf r ->
  exists r', rb_run ops r = Ret (r', snd (queue_run 64 ops (rb_list r))) /\ rb_wf r' /\
    rb_list r' = fst (queue_run 64 ops (rb_list r)).
Proof.
  induction ops as [|[c|] ops IH]; intros r Hwf; cbn [rb_run queue_run].
  - by exists r.
  - rewrite rb_full_list by done. assert (Hle : Z.of_nat (length (rb_list r)) <= SERIAL_RBUFSZ)
      by (rewrite rb_list_length; apply Hwf). unfold SERIAL_RBUFSZ in *.
    destruct (Z.eqb_spec (Z.of_nat (length (rb_list r))) 64) as [Hf|Hn];
      (destruct (Nat.ltb_spec (length (rb_list r)) 64) as [Hl|Hl]; try lia).
    + by apply IH.
    + destruct (rb_put_spec r c Hwf) as (r1 & -> & Hwf1 & Hl1 & _); [unfold SERIAL_RBUFSZ; lia|]. cbn [obind].
      rewrite <- Hl1. by apply IH.
  - rewrite rb_empty_list by done. case_bool_decide as He.
    + rewrite He. destruct (IH r Hwf) as (r' & Hr). by rewrite He in Hr; exists r'.
    + destruct (rb_list r) as [|c l] eqn:Hl; [done|].
      destruct (rb_get_spec r c l Hwf Hl) as (r1 & -> & Hwf1 & Hl1 & _). cbn [obind].
      destruct (IH r1 Hwf1) as (r2 & -> & Hwf2 & Hl2). rewrite Hl1 in *. cbn [obind].
      exists r2. by destruct (queue_run 64 ops l).
Qed.

(** C36: a ring buffer with its wrapping 16-bit positions is a first-in
    first-out queue of at most 64 bytes: after any sequence of guarded puts and
    gets on a freshly initialised buffer, however long, the bytes taken out and
    the bytes still held are those of the abstract queue, and no access leaves
    the data array. *)
Theorem ringbuf_refines_queue r ops :
  Z.of_nat (length (rb_data r)) = SERIAL_RBUFSZ ->
  exists r', rb_run ops (rbuf_init r) = Ret (r', snd (queue_run 64 ops [])) /\
    rb_list r' = fst (queue_run 64 ops []).
Proof.
  intros Hd. destruct (rb_init_spec r Hd) as [Hwf Hl].
  destruct (rb_run_queue ops (rbuf_init r) Hwf) as (r' & Hr & _ & Hq). rewrite Hl in *. by exists r'.
Qed.

Lemma ringbuf_refines_queue_witness :
  exists r', rb_run [RPut 1; RPut 2; RGet; RPut 3] (rbuf_init {| hpos := 9; tpos := 9; rb_data := replicate 64 0 |})
    = Ret (r', [1]) /\ rb_list r' = [2; 3].
Proof.
  exact (ringbuf_refines_queue {| hpos := 9; tpos := 9; rb_data := replicate 64 0 |}
    [RPut 1; RPut 2; RGet; RPut 3] eq_refl).
Defined.

(** C20: for every interleaving with the service routine, [uart_read] of at
    least one byte either returns between 1 and [bufsz] bytes, which together
    with what stays queued are exactly the bytes that were queued and those the
    service routine read from the device, in order (none lost, duplicated or
    invented); or it sleeps forever, which happens only when nothing was queued
    and no interrupt of the schedule reported received data (no wakeup is
    lost).  It never faults and its loops terminate. *)
Theorem uart_read_fifo d s bufsz :
  uart_wf d -> 0 < bufsz ->
  match uart_read d s bufsz with
  | Ret (d', s', n, bs) => n = Z.of_nat (length bs) /\ 1 <= n <= bufsz /\
      exists rx, rbr_log d' = rbr_log d ++ rx /\ rxq d ++ rx = bs ++ rxq d' /\ uart_wf d'
  | Blocked => rxq d = [] /\ has_dr (concat s) = false
  | _ => False
  end.
Proof.
  intros Hwf Hsz. unfold uart_read.
  assert (Hm : 0 < (if LONG_MAX <? bufsz then LONG_MAX else bufsz) <= bufsz)
    by (unfold LONG_MAX; destruct (2 ^ 63 - 1 <? bufsz) eqn:E; lia).
  set (m := if LONG_MAX <? bufsz then LONG_MAX else bufsz) in *. clearbody m.
  destruct (Z.eqb_spec m 0); [lia|].
  pose proof (await_rx_spec (S (length s)) d s Hwf ltac:(lia)) as Ha.
  destruct (await_rx _ d s) as [[d1 s1]| | | |]; cbn [obind]; auto. destruct Ha as (Hne & r1 & t1 & H1).
  destruct (read_drain_flow (Z.to_nat m) d1 s1 (fl_wf _ _ _ _ _ _ H1)) as (d2 & s2 & bs & r2 & t2 & -> & H2 & Hlen & Hbs).
  cbn [obind]. destruct (ier_set_flow d2 s2 IER_DREIE (fl_wf _ _ _ _ _ _ H2)) as (d3 & s3 & r3 & t3 & -> & H3).
  cbn [obind]. specialize (Hbs ltac:(lia) Hne).
  pose proof (flow_trans _ _ _ _ _ _ _ _ _ _ _ H1 (flow_trans _ _ _ _ _ _ _ _ _ _ _ H2 H3)) as [Hw Hr Hq _ _].
  assert (0 < length bs)%nat by (destruct bs; cbn; [done|lia]).
  split; [done|]. split; [lia|].
  exists (r1 ++ r2 ++ r3). cbn [app] in Hq. rewrite app_nil_r in Hq. done.
Qed.

(** An empty device, two received bytes while the reader sleeps and a third
    between its accesses. *)
Lemma uart_read_fifo_witness :
  match uart_read (uart_attach_device 11) [[{| irq_lsr := 1; irq_rbr := 65 |}; {| irq_lsr := 1; irq_rbr := 66 |}];
      []; [{| irq_lsr := 1; irq_rbr := 67 |}]] 2 with
  | Ret (d', s', n, bs) => n = Z.of_nat (length bs) /\ 1 <= n <= 2 /\
      exists rx, rbr_log d' = [] ++ rx /\ [] ++ rx = bs ++ rxq d' /\ uart_wf d'
  | Blocked => [] = ([] : list Z) /\ has_dr [{| irq_lsr := 1; irq_rbr := 65 |}; {| irq_lsr := 1; irq_rbr := 66 |};
      {| irq_lsr := 1; irq_rbr := 67 |}] = false
  | _ => False
  end.
Proof.
  refine (uart_read_fifo (uart_attach_device 11) [[{| irq_lsr := 1; irq_rbr := 65 |}; {| irq_lsr := 1; irq_rbr := 66 |}];
    []; [{| irq_lsr := 1; irq_rbr := 67 |}]] 2 _ _); [|lia].
  split; apply (rb_init_spec {| hpos := 0; tpos := 0; rb_data := replicate 64 0 |}); reflexivity.
Defined.

(** C30: for every interleaving with the service routine, a [uart_write] that
    returns reports all its bytes written, and the bytes sent to the device
    since the call together with those still queued are exactly what was
    queued before followed by the buffer, in order.  It sleeps forever only for
    want of transmit interrupts: only if the bytes queued and the buffer
    together exceed the 64 bytes of the queue, and fewer than eight batches of
    interrupts for each byte of the buffer hold a transmit interrupt (so with
    that many, whenever they arrive, the write returns).  It never faults and
    its loops terminate. *)
Theorem uart_write_fifo d s buf :
  uart_wf d -> Z.of_nat (length buf) <= LONG_MAX ->
  match uart_write d s buf with
  | Ret (d', s', n) => n = Z.of_nat (length buf) /\
      exists tx, thr_log d' = thr_log d ++ tx /\ txq d ++ buf = tx ++ txq d' /\ uart_wf d'
  | Blocked => SERIAL_RBUFSZ < Z.of_nat (length (txq d ++ buf)) /\ (transmits s < 8 * length buf)%nat
  | _ => False
  end.
Proof.
  intros Hwf Hsz. unfold uart_write. destruct (LONG_MAX <? _) eqn:E; [lia|].
  rewrite Nat2Z.id, firstn_all.
  pose proof (uart_write_loop_flow (length buf) d s buf Hwf ltac:(lia)) as Hl.
  destruct (uart_write_loop _ d s buf) as [[d1 s1]| | | |] eqn:Er; cbn [obind]; auto.
  destruct Hl as (rx & tx & []). split; [done|]. by exists tx.
Qed.

(** A full queue: 65 bytes, and no interrupt before the writer sleeps. *)
Definition write_sched : sched := replicate 300 [] ++ replicate 520 [{| irq_lsr := 32; irq_rbr := 0 |}].
Lemma uart_write_fifo_witness :
  exists d' s' tx, uart_write (uart_attach_device 11) write_sched (replicate 65 72) = Ret (d', s', 65) /\
    replicate 65 72 = tx ++ txq d' /\ thr_log d' = tx /\ tx <> [].
Proof.
  assert (Hwf : uart_wf (uart_attach_device 11))
    by (split; apply (rb_init_spec {| hpos := 0; tpos := 0; rb_data := replicate 64 0 |}); reflexivity).
  pose proof (uart_write_fifo (uart_attach_device 11) write_sched (replicate 65 72) Hwf ltac:(vm_compute; discriminate)) as HW.
  assert (HT : ~ (transmits write_sched < 8 * length (replicate 65 72))%nat) by (vm_compute; lia).
  destruct (uart_write (uart_attach_device 11) write_sched (replicate 65 72)) as [[[d' s'] n]| | | |].
  4: destruct HW as [_ HW]; destruct (HT HW).
  2-4: destruct HW.
  destruct HW as (-> & tx & Ht & Hq & _ & _ & _ & _ & Hc). exists d', s', tx. split; [reflexivity|]. split; [exact Hq|]. split; [exact Ht|].
  intros ->. rewrite <- rb_list_length in Hc. change (rb_list (txbuf d')) with (txq d') in Hc.
  change (replicate 65 72 = txq d') in Hq. rewrite <- Hq in Hc. vm_compute in Hc. by apply Hc.
Defined.

(** The read of the witness: both bytes that arrived while it slept. *)
Example uart_read_demo :
  (let! (d, _, n, bs) := uart_read (uart_attach_device 11)
     [[{| irq_lsr := 1; irq_rbr := 65 |}; {| irq_lsr := 1; irq_rbr := 66 |}]; []; [{| irq_lsr := 1; irq_rbr := 67 |}]] 2 in
   Ret (n, bs, rxq d)) = Ret (2, [65; 66], [67]).
Proof. vm_compute. reflexivity. Qed.
