(* ===== verification/Console.v ===== *)
(** The console (src/src/kern/console.c over the polled UART of uart.c,
    [com0_*]): newline conversion, line input and formatted output.

    The build does not define CONSOLE_RAW, so [console_getsn] does not echo. *)

From Stdlib Require Import Ascii String.
From S2P Require Import Prelude KString IoTerm Intr Uart.

(** UART0 as the console sees it: its configuration registers, the bytes to
    come from RBR and those sent through THR, with the two static [cprev]. *)
Record console := {
  c_ier : Z; c_lcr : Z; c_dll : Z; c_dlm : Z;
  c_in : list Z;
  c_out : list Z;
  put_cprev : Z;
  get_cprev : Z;
  console_initialized : bool;
}.

Definition set_put (k : console) (out : list Z) (cprev : Z) : console :=
  {| c_ier := c_ier k; c_lcr := c_lcr k; c_dll := c_dll k; c_dlm := c_dlm k; c_in := c_in k; c_out := out;
     put_cprev := cprev; get_cprev := get_cprev k; console_initialized := console_initialized k |}.
Definition set_get (k : console) (inp : list Z) (cprev : Z) : console :=
  {| c_ier := c_ier k; c_lcr := c_lcr k; c_dll := c_dll k; c_dlm := c_dlm k; c_in := inp; c_out := c_out k;
     put_cprev := put_cprev k; get_cprev := cprev; console_initialized := console_initialized k |}.

Definition com0_init (k : console) : console :=
  {| c_ier := 0; c_lcr := 0; c_dll := 1; c_dlm := 0; c_in := c_in k; c_out := c_out k;
     put_cprev := put_cprev k; get_cprev := get_cprev k; console_initialized := console_initialized k |}.

Definition console_init (k : console) : console :=
  let k := com0_init k in
  {| c_ier := c_ier k; c_lcr := c_lcr k; c_dll := c_dll k; c_dlm := c_dlm k; c_in := c_in k; c_out := c_out k;
     put_cprev := put_cprev k; get_cprev := get_cprev k; console_initialized := true |}.

(** THR always empties, so the spin ends. *)
Definition com0_putc (k : console) (c : Z) : console := set_put k (c_out k ++ [c]) (put_cprev k).

(** With no byte to come, [com0_getc] spins forever. *)
Definition com0_getc (k : console) : outcome (console * Z) :=
  match c_in k with
  | [] => Blocked
  | c :: r => Ret (set_get k r (get_cprev k), c)
  end.

Definition console_putchar (k : console) (c : Z) : console :=
  let k :=
    if c =? CR then com0_putc (com0_putc k c) LF
    else if c =? LF then
      let k := if negb (put_cprev k =? CR) then com0_putc k CR else k in com0_putc k c
    else com0_putc k c in
  set_put k (c_out k) c.

(** The do-while loop: each turn uses up an input byte. *)
Fixpoint getchar_loop (fuel : nat) (k : console) : outcome (console * Z) :=
  match fuel with
  | O => NoFuel
  | S fuel' =>
      let! (k, c) := com0_getc k in
      if (c =? LF) && (get_cprev k =? CR) then getchar_loop fuel' k else Ret (k, c)
  end.

Definition console_getchar (k : console) : outcome (console * Z) :=
  let! (k, c) := getchar_loop (S (length (c_in k))) k in
  let k := set_get k (c_in k) c in
  Ret (k, if c =? CR then LF else c).

Fixpoint console_puts (k : console) (str : list Z) : outcome console :=
  match str with
  | [] => Fault
  | c :: r => if negb (c =? 0) then console_puts (console_putchar k c) r else Ret (console_putchar k LF)
  end.

(** [p] indexes [buf]. *)
Fixpoint console_getsn_loop (fuel : nat) (k : console) (buf : list Z) (p n : Z) : outcome (console * list Z) :=
  match fuel with
  | O => NoFuel
  | S fuel' =>
      let! (k, c) := console_getchar k in
      if c =? CR then console_getsn_loop fuel' k buf p n
      else if c =? LF then let! buf := store buf p 0 in Ret (k, buf)
      else if (c =? 8) || (c =? 127) then
        if negb (p =? 0) then console_getsn_loop fuel' k buf (p - 1) (u64 (n + 1))
        else console_getsn_loop fuel' k buf p n
      else if 1 <? n then
        let! buf := store buf p c in console_getsn_loop fuel' k buf (p + 1) (n - 1)
      else console_getsn_loop fuel' k buf p n
  end.

Definition console_getsn (k : console) (buf : list Z) (n : Z) : outcome (console * list Z) :=
  console_getsn_loop (S (length (c_in k))) k buf 0 n.

Definition vprintf_putc (c : Z) (k : console) : outcome console := Ret (console_putchar k c).

(** [ini] is [intr_initialized]; [ss] is [sstatus]. *)
Definition console_vprintf (ini : bool) (ss : Z) (k : console) (fmt : list Z) (ap : list varg)
  : outcome (Z * console * Z) :=
  let (ss1, saved) := if ini then intr_disable ss else (ss, 0) in
  let! (nout, k) := vgprintf vprintf_putc k fmt ap in
  Ret (if ini then intr_restore ss1 saved else ss1, k, nout).

Definition console_printf (ini : bool) (ss : Z) (k : console) (fmt : list Z) (ap : list varg)
  : outcome (Z * console * Z) := console_vprintf ini ss k fmt ap.

Definition console_labeled_printf (ini : bool) (ss : Z) (k : console) (label src_flname : list Z) (src_lineno : Z)
    (fmt : list Z) (ap : list varg) : outcome (Z * console) :=
  let (ss, saved) := if ini then intr_disable ss else (ss, 0) in
  let! (ss, k, _) := console_printf ini ss k (cstr "%s: %s:%d: ")
    [VStr (Some label); VStr (Some src_flname); VWord src_lineno] in
  let! (ss, k, _) := console_vprintf ini ss k fmt ap in
  let k := console_putchar k LF in
  Ret (if ini then intr_restore ss saved else ss, k).

(** * Specification *)

(** What a text becomes on the wire, after a character [cprev]. *)
Fixpoint wire (cprev : Z) (l : list Z) : list Z :=
  match l with
  | [] => []
  | c :: l' =>
      (if c =? CR then [CR; LF] else if (c =? LF) && negb (cprev =? CR) then [CR; LF] else [c]) ++ wire c l'
  end.

(** One key of the line editor. *)
Definition edit_char (room : nat) (line : list Z) (c : Z) : list Z :=
  if (c =? 8) || (c =? 127) then take (length line - 1) line
  else if (length line <? room)%nat then line ++ [c] else line.

(** * Lemmas *)

Fixpoint putchars (k : console) (l : list Z) : console :=
  match l with [] => k | c :: l' => putchars (console_putchar k c) l' end.

Lemma console_putchar_wire k c :
  c_out (console_putchar k c) = c_out k ++ wire (put_cprev k) [c] /\ put_cprev (console_putchar k c) = c.
Proof.
  unfold console_putchar. cbn [wire]. rewrite app_nil_r. destruct (Z.eqb_spec c CR) as [->|Hn].
  - cbn. by rewrite <- app_assoc.
  - destruct (c =? LF) eqn:E; [|done]. apply Z.eqb_eq in E as ->. cbn [andb].
    destruct (put_cprev k =? CR); cbn; [done|]. by rewrite <- app_assoc.
Qed.

Lemma putchars_wire k l : c_out (putchars k l) = c_out k ++ wire (put_cprev k) l.
Proof.
  revert k; induction l as [|c l IH]; intros k; cbn [putchars]; [by rewrite app_nil_r|].
  rewrite IH. destruct (console_putchar_wire k c) as [-> ->]. cbn [wire].
  by rewrite app_nil_r, <- app_assoc.
Qed.

(** Without CR in the text, each line end becomes CR LF. *)
Lemma wire_lines cprev l : cprev <> CR -> Forall (fun c => c <> CR) l -> wire cprev l = lines_to_crlf l.
Proof.
  intros Hp Hl. revert cprev Hp; induction Hl as [|c l Hc Hl IH]; intros cprev Hp; cbn; [done|].
  destruct (Z.eqb_spec c CR); [done|]. rewrite IH by done.
  destruct (c =? LF); cbn; [|done]. by destruct (Z.eqb_spec cprev CR).
Qed.

Lemma puts_vprintf l k : puts vprintf_putc l k = Ret (putchars k l).
Proof. revert k; induction l as [|c l IH]; intros k; cbn; auto. Qed.

(** Text ended by its terminator. *)
Lemma console_puts_putchars l rest k :
  Forall (fun c => c <> 0) l -> console_puts k (l ++ 0 :: rest) = Ret (putchars k (l ++ [LF])).
Proof.
  intros Hl. revert k; induction Hl as [|c l Hc Hl IH]; intros k; cbn [app console_puts putchars]; [done|].
  destruct (Z.eqb_spec c 0); [done|]. cbn [negb]. apply IH.
Qed.

(** Plain input: no CR pending, the next byte is not a line end. *)
Lemma console_getchar_plain k c r :
  c_in k = c :: r -> get_cprev k <> CR -> c <> CR ->
  exists k', console_getchar k = Ret (k', c) /\ c_in k' = r /\ get_cprev k' = c /\ c_out k' = c_out k.
Proof.
  intros Hi Hp Hc. unfold console_getchar. cbn [getchar_loop]. unfold com0_getc. rewrite Hi. cbn [obind set_get get_cprev].
  destruct (Z.eqb_spec (get_cprev k) CR); [done|]. rewrite andb_false_r. cbn [obind].
  destruct (Z.eqb_spec c CR); [done|]. by eexists.
Qed.

Lemma console_getchar_cr k r :
  c_in k = CR :: r ->
  exists k', console_getchar k = Ret (k', LF) /\ c_in k' = r /\ get_cprev k' = CR /\ c_out k' = c_out k.
Proof. intros Hi. unfold console_getchar. cbn [getchar_loop]. unfold com0_getc. rewrite Hi. by eexists. Qed.

Lemma console_getsn_loop_spec keys : forall fuel k buf line n0 e tl,
  c_in k = keys ++ e :: tl -> (e = CR \/ e = LF) -> get_cprev k <> CR ->
  Forall (fun c => c <> LF /\ c <> CR) keys -> (length keys < fuel)%nat ->
  take (length line) buf = line -> (length line < n0)%nat -> (n0 <= length buf)%nat -> Z.of_nat n0 < 2 ^ 64 ->
  exists k' buf', console_getsn_loop fuel k buf (Z.of_nat (length line)) (Z.of_nat n0 - Z.of_nat (length line))
      = Ret (k', buf') /\
    let t := fold_left (edit_char (n0 - 1)) keys line in
    (length t < n0)%nat /\ take (length t + 1) buf' = t ++ [0] /\ c_in k' = tl /\
    length buf' = length buf /\ drop n0 buf' = drop n0 buf.
Proof.
  induction keys as [|c keys IH]; intros fuel k buf line n0 e tl Hin He Hcp Hk Hf Hline Hn0 Hb Hz;
    (destruct fuel as [|fuel]; [lia|]); cbn [console_getsn_loop app] in *.
  - assert (Hg : exists k', console_getchar k = Ret (k', LF) /\ c_in k' = tl).
    { destruct He as [->| ->].
      - destruct (console_getchar_cr k tl Hin) as (k' & ? & ? & _). eauto.
      - destruct (console_getchar_plain k LF tl Hin Hcp) as (k' & ? & ? & _); [done|]. eauto. }
    destruct Hg as (k' & -> & Hk'). cbn [obind]. change (LF =? CR) with false. change (LF =? LF) with true. cbv iota.
    rewrite store_lt, Nat2Z.id by lia. cbn [obind]. eexists _, _. split; [done|]. cbn [fold_left].
    split_and!; auto; rewrite ?length_insert, ?drop_insert_lt by lia; auto.
    rewrite insert_splice by lia. unfold splice. by rewrite Hline, take_app_add.
  - apply Forall_cons_iff in Hk as [[HcLF HcCR] Hk]. cbn [length] in Hf.
    destruct (console_getchar_plain k c _ Hin Hcp HcCR) as (k1 & -> & Hi1 & Hp1 & _). cbn [obind fold_left].
    assert (Hp1' : get_cprev k1 <> CR) by congruence.
    destruct (Z.eqb_spec c CR); [done|]. destruct (Z.eqb_spec c LF); [done|].
    set (l1 := edit_char (n0 - 1) line c). assert (Hl1 : l1 = edit_char (n0 - 1) line c) by done.
    clearbody l1. unfold edit_char in Hl1. destruct ((c =? 8) || (c =? 127)) eqn:Ebs.
    { subst l1. destruct (Z.eqb_spec (Z.of_nat (length line)) 0) as [Hp0|Hp0]; cbn [negb].
      - destruct line; [|cbn in Hp0; lia]. rewrite take_nil. eapply IH; eauto; lia.
      - rewrite u64_small by lia.
        assert (Hlen : length (take (length line - 1) line) = (length line - 1)%nat) by (rewrite length_take; lia).
        replace (Z.of_nat (length line) - 1) with (Z.of_nat (length (take (length line - 1) line))) by lia.
        replace (Z.of_nat n0 - Z.of_nat (length line) + 1)
          with (Z.of_nat n0 - Z.of_nat (length (take (length line - 1) line))) by lia.
        eapply IH; eauto; try lia. rewrite Hlen.
        transitivity (take (length line - 1) (take (length line) buf)); [|by rewrite Hline].
        rewrite take_take. f_equal. lia. }
    destruct (1 <? Z.of_nat n0 - Z.of_nat (length line)) eqn:En.
    + destruct (Nat.ltb_spec (length line) (n0 - 1)); [|lia]. subst l1.
      rewrite store_lt, Nat2Z.id by lia. cbn [obind].
      assert (Hlen : length (line ++ [c]) = S (length line)) by (rewrite length_app; cbn; lia).
      replace (Z.of_nat (length line) + 1) with (Z.of_nat (length (line ++ [c]))) by lia.
      replace (Z.of_nat n0 - Z.of_nat (length line) - 1) with (Z.of_nat n0 - Z.of_nat (length (line ++ [c]))) by lia.
      destruct (IH fuel k1 (<[length line := c]> buf) (line ++ [c]) n0 e tl) as (k3 & b3 & -> & Hok);
        auto; rewrite ?length_insert; try lia.
      * rewrite insert_splice by lia. unfold splice. rewrite Hline, Hlen.
        replace (S (length line)) with (length line + 1)%nat by lia. by rewrite take_app_add.
      * exists k3, b3. rewrite length_insert, drop_insert_lt in Hok by lia. done.
    + destruct (Nat.ltb_spec (length line) (n0 - 1)); [lia|]. subst l1. eapply IH; eauto; lia.
Qed.

(** * Properties *)

(** Formatted console output of a text without CR puts exactly that text
    on the serial line with every line end turned into CR LF, returns the
    length of the text and leaves the interrupt-enable bit as it found it,
    whether or not interrupt management is initialised. *)
Theorem console_vprintf_output ini ss k fmt ap n out :
  text fmt ap = Ret (n, out) -> Forall (fun c => c <> CR) out -> put_cprev k <> CR ->
  exists ss' k', console_vprintf ini ss k fmt ap = Ret (ss', k', u64 (Z.of_nat (length out))) /\
    c_out k' = c_out k ++ lines_to_crlf out /\ intr_enabled ss' = intr_enabled ss.
Proof.
  intros Ht Hcr Hp. unfold console_vprintf.
  pose proof (intr_disable_restore_bit ss) as Hi. destruct (intr_disable ss) as [ss1 saved].
  destruct ini; rewrite (vgprintf_text _ _ _ _ n out Ht), puts_vprintf; cbn [obind];
    rewrite (text_length _ _ _ _ Ht); (eexists _, _; split; [done|]);
    (split; [by rewrite putchars_wire, wire_lines|]); [by rewrite Hi|done].
Qed.

Lemma console_vprintf_output_witness :
  exists ss' k', console_vprintf true 2 (console_init {| c_ier := 0; c_lcr := 0; c_dll := 0; c_dlm := 0; c_in := [];
      c_out := []; put_cprev := 0; get_cprev := 0; console_initialized := false |}) (cstr "x=%d\") [VWord 5]
    = Ret (ss', k', u64 4) /\ c_out k' = [] ++ lines_to_crlf (chars "x=5\") /\ intr_enabled ss' = intr_enabled 2.
Proof.
  refine (console_vprintf_output true 2 (console_init {| c_ier := 0; c_lcr := 0; c_dll := 0; c_dlm := 0; c_in := [];
      c_out := []; put_cprev := 0; get_cprev := 0; console_initialized := false |}) (cstr "x=%d\") [VWord 5] 4
      (chars "x=5\") eq_refl _ _).
  - repeat constructor; done.
  - done.
Defined.

(** When the bytes to come are [keys] and then a line end (CR or LF),
    [console_getsn] returns the line that the editing keys leave, cut at
    [n - 1] characters and terminated by a null inside the first [n] bytes of
    the buffer; it consumes exactly those bytes and touches nothing else. *)
Theorem console_getsn_line k buf keys e rest n :
  c_in k = keys ++ e :: rest -> (e = CR \/ e = LF) -> get_cprev k <> CR ->
  Forall (fun c => c <> LF /\ c <> CR) keys -> (0 < n <= length buf)%nat -> Z.of_nat n < 2 ^ 64 ->
  exists k' buf', console_getsn k buf (Z.of_nat n) = Ret (k', buf') /\
    let line := fold_left (edit_char (n - 1)) keys [] in
    (length line < n)%nat /\ take (length line + 1) buf' = line ++ [0] /\ c_in k' = rest /\
    length buf' = length buf /\ drop n buf' = drop n buf.
Proof.
  intros Hi He Hp Hk Hn Hz. unfold console_getsn.
  destruct (console_getsn_loop_spec keys (S (length (c_in k))) k buf [] n e rest) as (k' & buf' & Hr & Hok);
    auto; cbn [length]; try lia.
  { rewrite Hi, length_app. lia. }
  exists k', buf'. cbn [length] in Hr. rewrite Z.sub_0_r in Hr. done.
Qed.

Lemma console_getsn_line_witness :
  exists k' buf', console_getsn {| c_ier := 0; c_lcr := 0; c_dll := 0; c_dlm := 0; c_in := [97; 8; 98; 99; 100; 13; 101];
      c_out := []; put_cprev := 0; get_cprev := 0; console_initialized := true |} [1; 1; 1; 1] 3 = Ret (k', buf') /\
    let line := fold_left (edit_char 2) [97; 8; 98; 99; 100] [] in
    (length line < 3)%nat /\ take (length line + 1) buf' = line ++ [0] /\ c_in k' = [101] /\
    length buf' = 4%nat /\ drop 3 buf' = [1].
Proof.
  refine (console_getsn_line {| c_ier := 0; c_lcr := 0; c_dll := 0; c_dlm := 0; c_in := [97; 8; 98; 99; 100; 13; 101];
      c_out := []; put_cprev := 0; get_cprev := 0; console_initialized := true |} [1; 1; 1; 1]
      [97; 8; 98; 99; 100] 13 [101] 3 eq_refl (or_introl eq_refl) _ _ _ _).
  - done.
  - repeat constructor; done.
  - cbn; lia.
  - lia.
Defined.

(** With CR in the text the conversion differs from that of terminals: CR LF
    comes out as CR LF LF. *)
Example console_putchar_crlf :
  c_out (putchars {| c_ier := 0; c_lcr := 0; c_dll := 0; c_dlm := 0; c_in := []; c_out := []; put_cprev := 0;
    get_cprev := 0; console_initialized := true |} [CR; LF]) = [CR; LF; LF].
Proof. reflexivity. Qed.
