(* ===== verification/Thread.v ===== *)
(** Threads, conditions and the scheduler (src/src/kern/thread.c).

    Thread structures live in a store indexed by their address and are linked
    through [list_next], as in the source; conditions are named by where they
    are.  What a function does up to and after the context switch of
    [suspend_self] is one transition of the machine, from the thread that
    called it to the one that resumes: a suspended thread's context records
    the interrupt state it saved in [suspend_self], a new thread has none.
    [_thread_setup] and [_thread_swtch] (thrasm.s) are modelled by that field
    and by the change of the thread pointer. *)

From Stdlib Require Import Ascii String.
From S2P Require Import Prelude KString Intr.
From stdpp Require Import gmap list.
#[local] Open Scope Z_scope.

Definition NTHR : Z := 16.
Definition MAIN_TID : Z := 0.
Definition IDLE_TID : Z := NTHR - 1.

Inductive thread_state :=
| THREAD_UNINITIALIZED | THREAD_STOPPED | THREAD_WAITING | THREAD_RUNNING | THREAD_READY | THREAD_EXITED.

#[global] Instance thread_state_eq_dec : EqDecision thread_state.
Proof. solve_decision. Defined.

(** The address of a [struct condition]: the [child_exit] member of the thread
    at an address, or anywhere else. *)
Inductive cond_id := ChildExit (p : Z) | CondAt (a : Z).

#[global] Instance cond_id_eq_dec : EqDecision cond_id.
Proof. solve_decision. Defined.
#[global] Program Instance cond_id_countable : Countable cond_id :=
  inj_countable' (fun c => match c with ChildExit p => inl p | CondAt a => inr a end)
    (fun s => match s with inl p => ChildExit p | inr a => CondAt a end) _.
Next Obligation. by intros []. Qed.

Record thread_list := { tl_head : option Z; tl_tail : option Z }.
Definition tl_nil : thread_list := {| tl_head := None; tl_tail := None |}.

Record condition := { cond_name : option (list Z); wait_list : thread_list }.

(** [struct thread]; [context] is [None] until the thread has been suspended,
    then the interrupt state that [suspend_self] saved. *)
Record thread := {
  context : option Z;
  tname : option (list Z);
  stack_base : Z;
  stack_size : Z;
  tstate : thread_state;
  tid : Z;
  proc : option Z;
  parent : option Z;
  list_next : option Z;
  wait_cond : option cond_id;
}.

(** Field updates. *)
Definition set_next (n : option Z) (t : thread) : thread :=
  {| context := context t; tname := tname t; stack_base := stack_base t; stack_size := stack_size t;
     tstate := tstate t; tid := tid t; proc := proc t; parent := parent t; list_next := n; wait_cond := wait_cond t |}.
Definition set_state (s : thread_state) (t : thread) : thread :=
  {| context := context t; tname := tname t; stack_base := stack_base t; stack_size := stack_size t;
     tstate := s; tid := tid t; proc := proc t; parent := parent t; list_next := list_next t; wait_cond := wait_cond t |}.
Definition set_wait (c : option cond_id) (t : thread) : thread :=
  {| context := context t; tname := tname t; stack_base := stack_base t; stack_size := stack_size t;
     tstate := tstate t; tid := tid t; proc := proc t; parent := parent t; list_next := list_next t; wait_cond := c |}.
Definition set_parent (p : option Z) (t : thread) : thread :=
  {| context := context t; tname := tname t; stack_base := stack_base t; stack_size := stack_size t;
     tstate := tstate t; tid := tid t; proc := proc t; parent := p; list_next := list_next t; wait_cond := wait_cond t |}.
Definition set_proc (p : option Z) (t : thread) : thread :=
  {| context := context t; tname := tname t; stack_base := stack_base t; stack_size := stack_size t;
     tstate := tstate t; tid := tid t; proc := p; parent := parent t; list_next := list_next t; wait_cond := wait_cond t |}.
Definition set_context (c : option Z) (t : thread) : thread :=
  {| context := c; tname := tname t; stack_base := stack_base t; stack_size := stack_size t;
     tstate := tstate t; tid := tid t; proc := proc t; parent := parent t; list_next := list_next t; wait_cond := wait_cond t |}.
Definition set_stack (b n : Z) (t : thread) : thread :=
  {| context := context t; tname := tname t; stack_base := b; stack_size := n;
     tstate := tstate t; tid := tid t; proc := proc t; parent := parent t; list_next := list_next t; wait_cond := wait_cond t |}.

Notation threads := (gmap Z thread).

(** Accesses through a thread pointer. *)
Definition get_thr (m : threads) (p : Z) : outcome thread :=
  match m !! p with Some t => Ret t | None => Fault end.
Definition upd_thr (m : threads) (p : Z) (f : thread -> thread) : outcome threads :=
  let! t := get_thr m p in Ret (<[p := f t]> m).

(** * Thread lists *)

Definition tlclear : thread_list := tl_nil.
Definition tlempty (l : thread_list) : bool := match tl_head l with None => true | Some _ => false end.

(** The first statement stores through [thr]; the null test comes after. *)
Definition tlinsert (m : threads) (l : thread_list) (thr : option Z) : outcome (threads * thread_list) :=
  match thr with
  | None => Fault
  | Some x =>
      let! m := upd_thr m x (set_next None) in
      match tl_tail l with
      | Some t =>
          assert! bool_decide (is_Some (tl_head l)) in
          let! m := upd_thr m t (set_next (Some x)) in
          Ret (m, {| tl_head := tl_head l; tl_tail := Some x |})
      | None =>
          assert! bool_decide (tl_head l = None) in
          Ret (m, {| tl_head := Some x; tl_tail := Some x |})
      end
  end.

Definition tlremove (m : threads) (l : thread_list) : outcome (threads * thread_list * option Z) :=
  match tl_head l with
  | None => Ret (m, l, None)
  | Some x =>
      let! t := get_thr m x in
      let l := {| tl_head := list_next t; tl_tail := tl_tail l |} in
      let l := match tl_head l with
               | Some _ => l
               | None => {| tl_head := None; tl_tail := None |}
               end in
      let! m := upd_thr m x (set_next None) in
      Ret (m, l, Some x)
  end.

Definition tlappend (m : threads) (l0 l1 : thread_list) : outcome (threads * thread_list * thread_list) :=
  match tl_head l0 with
  | Some _ =>
      match tl_tail l0 with
      | None => Panic
      | Some t0 =>
          match tl_head l1 with
          | Some h1 =>
              match tl_tail l1 with
              | None => Panic
              | Some t1 =>
                  let! m := upd_thr m t0 (set_next (Some h1)) in
                  Ret (m, {| tl_head := tl_head l0; tl_tail := Some t1 |}, tl_nil)
              end
          | None => Ret (m, l0, tl_nil)
          end
      end
  | None =>
      assert! bool_decide (tl_tail l0 = None) in
      Ret (m, l1, tl_nil)
  end.

(** * The thread manager *)

Record tsys := {
  thrs : threads;
  conds : gmap cond_id condition;
  thrtab : list (option Z);
  ready_list : thread_list;
  curthr : Z;          (* the tp register *)
  ts_sstatus : Z;
  space : Z;           (* the memory space last switched to *)
  freed : list Z;      (* pages given to memory_free_page *)
}.

Definition with_ready (st : tsys) (m : threads) (l : thread_list) : tsys :=
  {| thrs := m; conds := conds st; thrtab := thrtab st; ready_list := l; curthr := curthr st;
     ts_sstatus := ts_sstatus st; space := space st; freed := freed st |}.
Definition with_thrs (st : tsys) (m : threads) : tsys := with_ready st m (ready_list st).
Definition with_conds (st : tsys) (m : threads) (cs : gmap cond_id condition) : tsys :=
  {| thrs := m; conds := cs; thrtab := thrtab st; ready_list := ready_list st; curthr := curthr st;
     ts_sstatus := ts_sstatus st; space := space st; freed := freed st |}.
Definition with_tab (st : tsys) (m : threads) (tab : list (option Z)) : tsys :=
  {| thrs := m; conds := conds st; thrtab := tab; ready_list := ready_list st; curthr := curthr st;
     ts_sstatus := ts_sstatus st; space := space st; freed := freed st |}.
Definition with_sstatus (st : tsys) (ss : Z) : tsys :=
  {| thrs := thrs st; conds := conds st; thrtab := thrtab st; ready_list := ready_list st; curthr := curthr st;
     ts_sstatus := ss; space := space st; freed := freed st |}.
Definition with_space (st : tsys) (s : Z) : tsys :=
  {| thrs := thrs st; conds := conds st; thrtab := thrtab st; ready_list := ready_list st; curthr := curthr st;
     ts_sstatus := ts_sstatus st; space := s; freed := freed st |}.
Definition with_cur (st : tsys) (m : threads) (c : Z) (fr : list Z) : tsys :=
  {| thrs := m; conds := conds st; thrtab := thrtab st; ready_list := ready_list st; curthr := c;
     ts_sstatus := ts_sstatus st; space := space st; freed := fr |}.

Definition get_cond (st : tsys) (c : cond_id) : outcome condition :=
  match conds st !! c with Some x => Ret x | None => Fault end.

Definition running_thread (st : tsys) : outcome Z :=
  let! t := get_thr (thrs st) (curthr st) in Ret (tid t).

(** [thrtab[i]], with the bounds of the array. *)
Definition tab_get (st : tsys) (i : Z) : outcome (option Z) := load (thrtab st) i.

Definition thread_of (st : tsys) (i : Z) : outcome thread :=
  let! e := tab_get st i in
  match e with None => Panic | Some p => get_thr (thrs st) p end.

(** The first assertion of these three, [0 <= tid || tid < NTHR], always
    holds. *)
Definition thread_process (st : tsys) (i : Z) : outcome (option Z) :=
  let! t := thread_of st i in Ret (proc t).
Definition thread_set_process (st : tsys) (i : Z) (p : option Z) : outcome tsys :=
  let! e := tab_get st i in
  match e with
  | None => Panic
  | Some x => let! m := upd_thr (thrs st) x (set_proc p) in Ret (with_thrs st m)
  end.
Definition thread_name (st : tsys) (i : Z) : outcome (option (list Z)) :=
  let! t := thread_of st i in Ret (tname t).

Section Scheduler.
(** [proc->mtag] of a process. *)
Context (mtag : Z -> Z).

(** What runs after the switch, in the resumed thread [x], where
    [_thread_swtch] has returned [prev]: the rest of its own [suspend_self], or
    its entry glue. *)
Definition resume (st : tsys) (x prev : Z) : outcome tsys :=
  let! t := get_thr (thrs st) x in
  match context t with
  | None => Ret st
  | Some saved =>
      let! p := get_thr (thrs st) prev in
      let! st :=
        if decide (tstate p = THREAD_EXITED) then
          let! m := upd_thr (thrs st) prev (set_stack 0 0) in
          Ret (with_cur st m (curthr st) (freed st ++ [stack_base p - PAGE_SIZE]))
        else Ret st in
      Ret (with_sstatus st (intr_restore (ts_sstatus st) saved))
  end.

Definition suspend_self (st : tsys) : outcome tsys :=
  assert! negb (tlempty (ready_list st)) in
  let susp := curthr st in
  let (ss, saved) := intr_disable (ts_sstatus st) in
  let st := with_sstatus st ss in
  let! (m, l, nx) := tlremove (thrs st) (ready_list st) in
  match nx with
  | None => Fault
  | Some next =>
      let! nt := get_thr m next in
      assert! bool_decide (tstate nt = THREAD_READY) in
      let! m := upd_thr m next (set_state THREAD_RUNNING) in
      let! sus := get_thr m susp in
      let! (m, l) :=
        if decide (tstate sus = THREAD_RUNNING) then
          let! m := upd_thr m susp (set_state THREAD_READY) in tlinsert m l (Some susp)
        else Ret (m, l) in
      let st := with_ready st m l in
      let (ss, _) := intr_enable (ts_sstatus st) in
      let st := with_sstatus st ss in
      let st := match proc nt with Some p => with_space st (mtag p) | None => st end in
      (* _thread_swtch(next_thread): a0 still holds next_thread when it returns *)
      let! m := upd_thr (thrs st) susp (set_context (Some saved)) in
      resume (with_cur st m next (freed st)) next next
  end.

Definition thread_yield (st : tsys) : outcome tsys :=
  let! t := get_thr (thrs st) (curthr st) in
  assert! bool_decide (tstate t = THREAD_RUNNING) in
  suspend_self st.

(** ** Conditions *)

Definition condition_init (st : tsys) (c : cond_id) (name : option (list Z)) : tsys :=
  with_conds st (thrs st) (<[c := {| cond_name := name; wait_list := tlclear |}]> (conds st)).

(** Interrupts are off only around the list insertion. *)
Definition condition_wait (st : tsys) (c : cond_id) : outcome tsys :=
  let! t := get_thr (thrs st) (curthr st) in
  assert! bool_decide (tstate t = THREAD_RUNNING) in
  let! m := upd_thr (thrs st) (curthr st) (fun t => set_next None (set_wait (Some c) (set_state THREAD_WAITING t))) in
  let st := with_thrs st m in
  let (ss, saved) := intr_disable (ts_sstatus st) in
  let! cd := get_cond st c in
  let! (m, l) := tlinsert (thrs st) (wait_list cd) (Some (curthr st)) in
  let st := with_conds st m (<[c := {| cond_name := cond_name cd; wait_list := l |}]> (conds st)) in
  let st := with_sstatus st (intr_restore ss saved) in
  suspend_self st.

(** The loop over the wait list. *)
Fixpoint wake_all (fuel : nat) (m : threads) (c : cond_id) (thr : option Z) : outcome threads :=
  match thr with
  | None => Ret m
  | Some x =>
      match fuel with
      | O => NoFuel
      | S fuel' =>
          let! t := get_thr m x in
          assert! bool_decide (tstate t = THREAD_WAITING) in
          assert! bool_decide (wait_cond t = Some c) in
          let! m := upd_thr m x (fun t => set_wait None (set_state THREAD_READY t)) in
          wake_all fuel' m c (list_next t)
      end
  end.

(** A list without cycles is no longer than the number of threads. *)
Definition condition_broadcast (st : tsys) (c : cond_id) : outcome tsys :=
  let! cd := get_cond st c in
  if tlempty (wait_list cd) then Ret st
  else
    let (ss, saved) := intr_disable (ts_sstatus st) in
    let! m := wake_all (S (size (thrs st))) (thrs st) c (tl_head (wait_list cd)) in
    let! (m, l0, _) := tlappend m (ready_list st) (wait_list cd) in
    let st := with_conds (with_ready st m l0) m (<[c := {| cond_name := cond_name cd; wait_list := tlclear |}]> (conds st)) in
    Ret (with_sstatus st (intr_restore ss saved)).

(** ** Creation *)

(** The first free slot from [i] on. *)
Fixpoint find_free (rest : list (option Z)) (i : Z) : Z :=
  match rest with
  | [] => i
  | None :: _ => i
  | Some _ :: rest' => find_free rest' (i + 1)
  end.

(** [child] is the address [kmalloc] returns, [mem] and [ce] what the memory
    there held ([kmalloc] does not clear it), [page] the page from
    [memory_alloc_page]. *)
Definition create_thread (st : tsys) (child : Z) (mem : thread) (ce : condition) (page : Z)
    (name : option (list Z)) (pr : option Z) : outcome tsys :=
  let i := find_free (drop 1 (thrtab st)) 1 in
  if i =? NTHR then Panic
  else
    let anchor := page + PAGE_SIZE - 16 in
    let! tab := store (thrtab st) i (Some child) in
    let t := {| context := context mem; tname := name; stack_base := anchor; stack_size := anchor - page;
                tstate := THREAD_READY; tid := i; proc := pr; parent := Some (curthr st);
                list_next := list_next mem; wait_cond := wait_cond mem |} in
    let st := with_tab st (<[child := t]> (thrs st)) tab in
    Ret (with_conds st (thrs st) (<[ChildExit child := ce]> (conds st))).

(** [tlinsert(&ready_list, child)] between [intr_disable] and
    [intr_restore]. *)
Definition make_ready (st : tsys) (x : Z) : outcome tsys :=
  let (ss, saved) := intr_disable (ts_sstatus st) in
  let! (m, l) := tlinsert (thrs st) (ready_list st) (Some x) in
  Ret (with_sstatus (with_ready st m l) (intr_restore ss saved)).

Definition _thread_setup (st : tsys) (x : Z) : outcome tsys :=
  let! m := upd_thr (thrs st) x (set_context None) in Ret (with_thrs st m).

Definition thread_spawn (st : tsys) (child : Z) (mem : thread) (ce : condition) (page : Z)
    (name : option (list Z)) : outcome (tsys * Z) :=
  let! cur := get_thr (thrs st) (curthr st) in
  let! st := create_thread st child mem ce page name (proc cur) in
  let! st := make_ready st child in
  let! st := _thread_setup st child in
  let! t := get_thr (thrs st) child in
  Ret (st, tid t).

(** The parent's side of a fork; the child's process records its thread id,
    which is returned with the state. *)
Definition thread_fork_to_user (st : tsys) (child : Z) (mem : thread) (ce : condition) (page child_proc : Z)
  : outcome (tsys * Z) :=
  let! st := create_thread st child mem ce page (Some (cstr "fork_thread")) (Some child_proc) in
  let! t := get_thr (thrs st) child in
  let! m := upd_thr (thrs st) child (set_proc (Some child_proc)) in
  let! st := _thread_setup (with_thrs st m) child in
  let! st := make_ready st child in
  let! st := thread_yield st in
  Ret (st, tid t).

(** ** Exit and join *)

(** [None] is [halt_success]. *)
Definition thread_exit (main : Z) (st : tsys) : outcome (option tsys) :=
  if curthr st =? main then Ret None
  else
    let! m := upd_thr (thrs st) (curthr st) (set_state THREAD_EXITED) in
    let st := with_thrs st m in
    let! t := get_thr (thrs st) (curthr st) in
    match parent t with
    | None => Panic
    | Some p =>
        let! st := condition_broadcast st (ChildExit p) in
        let! st := suspend_self st in
        Ret (Some st)
    end.

(** The loop of [recycle_thread]; [rest] is [thrtab] from [ctid] on. *)
Fixpoint reparent (rest : list (option Z)) (m : threads) (thr : Z) (new : option Z) : outcome threads :=
  match rest with
  | [] => Ret m
  | None :: rest' => reparent rest' m thr new
  | Some x :: rest' =>
      let! t := get_thr m x in
      let! m := if decide (parent t = Some thr) then upd_thr m x (set_parent new) else Ret m in
      reparent rest' m thr new
  end.

Definition recycle_thread (st : tsys) (i : Z) : outcome tsys :=
  let! e := tab_get st i in
  match e with
  | None => Panic
  | Some thr =>
      assert! (0 <? i) && (i <? NTHR) in
      let! t := get_thr (thrs st) thr in
      assert! bool_decide (tstate t = THREAD_EXITED) in
      let! m := reparent (drop 1 (thrtab st)) (thrs st) thr (parent t) in
      let! tab := store (thrtab st) i None in
      (* kfree(thr) *)
      let st := with_tab st (delete thr m) tab in
      Ret (with_conds st (thrs st) (delete (ChildExit thr) (conds st)))
  end.

(** One turn of the loop of [thread_join], for the thread at [child]:
    [inl] when it returns, [inr] when it waits (it is resumed at the loop
    test). *)
Definition thread_join_turn (st : tsys) (i child : Z) : outcome (tsys * Z + tsys) :=
  let! t := get_thr (thrs st) child in
  if decide (tstate t = THREAD_EXITED) then
    let! st := recycle_thread st i in Ret (inl (st, i))
  else
    let! st := condition_wait st (ChildExit (curthr st)) in Ret (inr st).

(** [thrtab[tid]] is read before the range of [tid] is checked. *)
Definition thread_join (st : tsys) (i : Z) : outcome (tsys * Z + tsys) :=
  let! e := tab_get st i in
  if (i <=? 0) || (NTHR <=? i) then Ret (inl (st, -1))
  else
    match e with
    | None => Ret (inl (st, -1))
    | Some child =>
        let! t := get_thr (thrs st) child in
        if decide (parent t <> Some (curthr st)) then Ret (inl (st, -1))
        else thread_join_turn st i child
    end.

(** The scans of [thread_join_any]: the first exited child from slot [i] on
    and the number of the children before it. *)
Fixpoint scan_children (st : tsys) (rest : list (option Z)) (i cnt : Z) : outcome (option Z * Z) :=
  match rest with
  | [] => Ret (None, cnt)
  | None :: rest' => scan_children st rest' (i + 1) cnt
  | Some x :: rest' =>
      let! t := get_thr (thrs st) x in
      if decide (parent t = Some (curthr st)) then
        if decide (tstate t = THREAD_EXITED) then Ret (Some i, cnt)
        else scan_children st rest' (i + 1) (cnt + 1)
      else scan_children st rest' (i + 1) cnt
  end.

(** Up to the wait. *)
Definition thread_join_any (st : tsys) : outcome (tsys * Z + tsys) :=
  let! (hit, cnt) := scan_children st (drop 1 (thrtab st)) 1 0 in
  match hit with
  | Some i => thread_join st i
  | None =>
      if cnt =? 0 then Panic
      else let! st := condition_wait st (ChildExit (curthr st)) in Ret (inr st)
  end.

(** After the wait. *)
Definition thread_join_any_woken (st : tsys) : outcome (tsys * Z) :=
  let! (hit, _) := scan_children st (drop 1 (thrtab st)) 1 0 in
  match hit with
  | Some i => let! st := recycle_thread st i in Ret (st, i)
  | None => Panic
  end.

(** One turn of the inner or outer loop of the idle thread. *)
Definition idle_turn (st : tsys) : outcome tsys :=
  if negb (tlempty (ready_list st)) then thread_yield st else Ret st (* wfi *).
End Scheduler.

(** ** Initialisation

    [main] and [idle] are the addresses of the two static structures, the
    others the symbols of thrasm.s. *)
Definition main_thread_static : thread :=
  {| context := None; tname := Some (cstr "main"); stack_base := 0; stack_size := 0; tstate := THREAD_RUNNING; tid := MAIN_TID;
     proc := None; parent := None; list_next := None; wait_cond := None |}.
Definition idle_thread_static (main : Z) : thread :=
  {| context := None; tname := Some (cstr "idle"); stack_base := 0; stack_size := 0; tstate := THREAD_READY; tid := IDLE_TID;
     proc := None; parent := Some main; list_next := None; wait_cond := None |}.
Definition thrtab_static (main idle : Z) : list (option Z) := Some main :: replicate 14 None ++ [Some idle].

Definition init_main_thread (m : threads) (main anchor lowest : Z) : outcome threads :=
  upd_thr m main (set_stack anchor (anchor - lowest)).
(** A context that [_thread_setup] has made is [None]. *)
Definition init_idle_thread (m : threads) (l : thread_list) (idle anchor lowest : Z) : outcome (threads * thread_list) :=
  let! m := upd_thr m idle (set_stack anchor (anchor - lowest)) in
  let! m := upd_thr m idle (set_context None) in
  tlinsert m l (Some idle).

Definition thread_init (main idle main_anchor main_lowest idle_anchor idle_lowest sstatus0 : Z) : outcome tsys :=
  let cs := <[ChildExit main := {| cond_name := Some (cstr "main.child_exit"); wait_list := tl_nil |}]>
    {[ ChildExit idle := {| cond_name := None; wait_list := tl_nil |} ]} in
  let! m := init_main_thread (<[main := main_thread_static]> {[ idle := idle_thread_static main ]}) main main_anchor main_lowest in
  let! (m, l) := init_idle_thread m tl_nil idle idle_anchor idle_lowest in
  Ret {| thrs := m; conds := cs; thrtab := thrtab_static main idle; ready_list := l;
         curthr := main; ts_sstatus := sstatus0; space := 0; freed := [] |}.

Definition thread_state_name (s : thread_state) : list Z :=
  cstr match s with
       | THREAD_UNINITIALIZED => "UNINITIALIZED" | THREAD_STOPPED => "STOPPED" | THREAD_WAITING => "WAITING"
       | THREAD_RUNNING => "RUNNING" | THREAD_READY => "READY" | THREAD_EXITED => "EXITED"
       end.

(** * Thread lists hold lists

    [tl_rep m l xs]: the list [l] in store [m] links the threads [xs]. *)

Fixpoint links (m : threads) (xs : list Z) : Prop :=
  match xs with
  | [] => True
  | x :: r => list_next <$> m !! x = Some (head r) /\ links m r
  end.

Definition tl_rep (m : threads) (l : thread_list) (xs : list Z) : Prop :=
  tl_head l = head xs /\ tl_tail l = last xs /\ links m xs.

(** Everything but the list pointer, saved context, stack and process. *)
Record view := { v_state : thread_state; v_wait : option cond_id; v_parent : option Z; v_tid : Z }.
Definition vw (t : thread) : view :=
  {| v_state := tstate t; v_wait := wait_cond t; v_parent := parent t; v_tid := tid t |}.
Definition views (m : threads) : gmap Z view := vw <$> m.

Lemma links_frame m m' xs :
  (forall x, x ∈ xs -> list_next <$> m' !! x = list_next <$> m !! x) -> links m xs -> links m' xs.
Proof.
  induction xs as [|x xs IH]; intros Hf; cbn; [done|]. intros [Hx Hl]. split.
  - rewrite Hf; [done|]. by left.
  - apply IH; [|done]. intros y Hy. apply Hf. by right.
Qed.

Lemma links_app m xs y ys : links m (xs ++ y :: ys) -> links m (y :: ys).
Proof. induction xs as [|x xs IH]; cbn; [done|]. intros [_ H]. by apply IH. Qed.

Lemma links_last m xs x : links m (xs ++ [x]) -> list_next <$> m !! x = Some None.
Proof. intros H. apply links_app in H as [H _]. done. Qed.

(** Redirecting the last pointer to [ys] appends. *)
Lemma links_join m m' xs x ys :
  NoDup (xs ++ [x]) -> links m (xs ++ [x]) -> links m' ys ->
  list_next <$> m' !! x = Some (head ys) ->
  (forall y, y ∈ xs -> list_next <$> m' !! y = list_next <$> m !! y) ->
  links m' (xs ++ x :: ys).
Proof.
  intros Hnd. revert Hnd; induction xs as [|z xs IH]; intros Hnd Hl Hys Hx Hf; cbn in *; [done|].
  apply NoDup_cons in Hnd as [_ Hnd]. destruct Hl as [Hz Hl]. split.
  - rewrite Hf by by left. rewrite Hz. by destruct xs.
  - apply IH; auto. intros y Hy. apply Hf. by right.
Qed.

Lemma upd_thr_spec m p f t : m !! p = Some t -> upd_thr m p f = Ret (<[p := f t]> m).
Proof. intros H. unfold upd_thr, get_thr. by rewrite H. Qed.

Lemma get_thr_spec m p t : m !! p = Some t -> get_thr m p = Ret t.
Proof. intros H. unfold get_thr. by rewrite H. Qed.

Lemma views_insert_same m p t t' : m !! p = Some t -> vw t' = vw t -> views (<[p := t']> m) = views m.
Proof.
  intros Hp Hv. unfold views. rewrite fmap_insert, Hv. apply insert_id. by rewrite lookup_fmap, Hp.
Qed.

Lemma lookup_views m x : views m !! x = vw <$> m !! x.
Proof. apply lookup_fmap. Qed.

Lemma is_Some_views m x : is_Some (views m !! x) <-> is_Some (m !! x).
Proof. rewrite lookup_views. apply fmap_is_Some. Qed.

Lemma list_next_insert (m : threads) p t y :
  y <> p -> list_next <$> (<[p := t]> m) !! y = list_next <$> m !! y.
Proof. intros. by rewrite lookup_insert_ne. Qed.

Lemma links_lookup (m : threads) xs x : links m xs -> x ∈ xs -> is_Some (m !! x).
Proof.
  induction xs as [|y xs IH]; intros Hl Hx; [by apply elem_of_nil in Hx|].
  cbn in Hl. destruct Hl as [Hy Hl]. apply elem_of_cons in Hx as [->|Hx]; [|by apply IH].
  destruct (m !! y); [eauto|done].
Qed.

Lemma tlempty_rep m l xs : tl_rep m l xs -> tlempty l = bool_decide (xs = []).
Proof. intros (Hh & _ & _). unfold tlempty. rewrite Hh. by destruct xs. Qed.

(** Insertion at the tail. *)
Lemma tlinsert_spec m l xs x :
  tl_rep m l xs -> NoDup xs -> x ∉ xs -> is_Some (m !! x) ->
  exists m' l', tlinsert m l (Some x) = Ret (m', l') /\ tl_rep m' l' (xs ++ [x]) /\ views m' = views m /\
    forall y, y ∉ xs ++ [x] -> m' !! y = m !! y.
Proof.
  intros (Hh & Ht & Hl) Hnd Hx [t Hm]. unfold tlinsert. rewrite (upd_thr_spec _ _ _ t) by done. cbn [obind].
  destruct xs as [|z xs _] using rev_ind.
  - rewrite Ht, Hh. cbn. eexists _, _. split; [done|]. split; [|split].
    + unfold tl_rep. cbn. rewrite lookup_insert_eq. done.
    + by apply (views_insert_same _ _ t).
    + intros y Hy. rewrite lookup_insert_ne; [done|]. intros ->. by apply Hy; left.
  - rewrite last_snoc in Ht. rewrite Ht, Hh. destruct (links_lookup m (xs ++ [z]) z Hl) as [tz Hz]; [set_solver|].
    assert (Hzx : z <> x) by (intros ->; apply Hx; set_solver).
    rewrite bool_decide_true by (destruct xs; cbn; eauto).
    rewrite (upd_thr_spec _ z _ tz) by by rewrite lookup_insert_ne. cbn [obind].
    eexists _, _. split; [done|]. split; [|split].
    + unfold tl_rep. cbn [tl_head tl_tail]. rewrite last_snoc. split_and!; [by destruct xs|done|].
      rewrite <- app_assoc. cbn [app]. eapply links_join; eauto.
      * cbn. rewrite lookup_insert_ne, lookup_insert_eq by done. done.
      * by rewrite lookup_insert_eq.
      * intros y Hy. apply NoDup_app in Hnd as (_ & Hd & _).
        rewrite !list_next_insert; [done| |]; intros ->; [set_solver|]. apply (Hd z Hy). by left.
    + rewrite (views_insert_same _ z tz) by (by rewrite ?lookup_insert_ne). by apply (views_insert_same _ _ t).
    + intros y Hy. rewrite !lookup_insert_ne; [done| |]; intros ->; set_solver.
Qed.

(** Removal at the head. *)
Lemma tlremove_spec m l x xs :
  tl_rep m l (x :: xs) -> NoDup (x :: xs) ->
  exists m' l', tlremove m l = Ret (m', l', Some x) /\ tl_rep m' l' xs /\ views m' = views m /\
    forall y, y <> x -> m' !! y = m !! y.
Proof.
  intros (Hh & Ht & Hx & Hl) Hnd. unfold tlremove. rewrite Hh. cbn [head].
  destruct (m !! x) as [t|] eqn:Hm; [|done]. cbn in Hx. injection Hx as Hx.
  rewrite (get_thr_spec _ _ t) by done. cbn [obind]. rewrite (upd_thr_spec _ _ _ t) by done. cbn [obind].
  apply NoDup_cons in Hnd as [Hnx Hnd].
  assert (Hl' : links (<[x := set_next None t]> m) xs).
  { apply (links_frame m); [|done]. intros y Hy. apply list_next_insert. intros ->. done. }
  eexists _, _. split; [done|]. split; [|split].
  - cbn [tl_head]. rewrite Hx. destruct xs as [|z xs]; [done|]. unfold tl_rep. cbn [tl_head tl_tail head].
    split_and!; done.
  - by apply (views_insert_same _ _ t).
  - intros y Hy. by rewrite lookup_insert_ne.
Qed.

(** Concatenation. *)
Lemma tlappend_spec m l0 l1 xs ys :
  tl_rep m l0 xs -> tl_rep m l1 ys -> NoDup (xs ++ ys) ->
  exists m' l, tlappend m l0 l1 = Ret (m', l, tl_nil) /\ tl_rep m' l (xs ++ ys) /\ views m' = views m /\
    forall y, y ∉ xs -> m' !! y = m !! y.
Proof.
  intros (Hh0 & Ht0 & Hl0) (Hh1 & Ht1 & Hl1) Hnd. unfold tlappend. rewrite Hh0.
  destruct xs as [|z xs _] using rev_ind.
  { cbn. rewrite Ht0. cbn. eexists _, _. split; [done|]. unfold tl_rep. split_and!; done. }
  destruct (links_lookup m (xs ++ [z]) z Hl0) as [tz Hz]; [set_solver|].
  rewrite last_snoc in Ht0. rewrite Ht0, Hh1. replace (head (xs ++ [z])) with (Some (default z (head xs))) by by destruct xs.
  destruct ys as [|y ys]; cbn [head].
  { eexists _, _. split; [done|]. rewrite app_nil_r. split; [|done]. unfold tl_rep. rewrite last_snoc. done. }
  destruct (last (y :: ys)) as [ly|] eqn:Ely; [|by apply last_None in Ely].
  rewrite Ht1. rewrite (upd_thr_spec _ z _ tz) by done. cbn [obind].
  eexists _, _. split; [done|]. split; [|split].
  - unfold tl_rep. cbn [tl_head tl_tail]. rewrite <- app_assoc. cbn [app]. split_and!.
    + by destruct xs.
    + rewrite last_app_cons, last_cons_cons. done.
    + apply NoDup_app in Hnd as (Hnd0 & Hd & Hnd1). eapply links_join; [done|exact Hl0| | |].
      * eapply links_frame; [|exact Hl1]. intros w Hw. apply list_next_insert. intros ->.
        apply (Hd z); [set_solver|done].
      * by rewrite lookup_insert_eq.
      * intros w Hw. apply list_next_insert. intros ->. apply NoDup_app in Hnd0 as (_ & Hd0 & _).
        apply (Hd0 z Hw). by left.
  - by apply (views_insert_same _ _ tz).
  - intros w Hw. rewrite lookup_insert_ne; [done|]. intros ->. set_solver.
Qed.

(** * The invariant *)

Definition has_state (V : gmap Z view) (x : Z) (s : thread_state) : Prop :=
  exists v, V !! x = Some v /\ v_state v = s.
Definition running_in (V : gmap Z view) (x : Z) : Prop := has_state V x THREAD_RUNNING.
Definition waits_on (V : gmap Z view) (x : Z) (c : cond_id) : Prop :=
  exists v, V !! x = Some v /\ v_state v = THREAD_WAITING /\ v_wait v = Some c.

(** The main thread occupies slot 0, has no parent and never exits. *)
Definition main_ok (main : Z) (V : gmap Z view) : Prop :=
  exists v, V !! main = Some v /\ v_state v <> THREAD_EXITED /\ v_parent v = None /\ v_tid v = MAIN_TID.

(** What the states of the threads say, [ready] being the threads of the ready
    list and [waits c] those of the wait list of [c], in order. *)
Record linv (main idle : Z) (V : gmap Z view) (C : gmap cond_id condition) (tab : list (option Z)) (cur : Z)
    (ready : list Z) (waits : cond_id -> list Z) : Prop := {
  l_ready : forall x, x ∈ ready <-> has_state V x THREAD_READY;
  l_ready_nd : NoDup ready;
  l_wait : forall c x, x ∈ waits c <-> waits_on V x c;
  l_wait_nd : forall c, NoDup (waits c);
  l_wait_C : forall c x, x ∈ waits c -> is_Some (C !! c);
  l_waiting : forall x, has_state V x THREAD_WAITING -> exists c, waits_on V x c;
  l_one : forall x, has_state V x THREAD_RUNNING -> x = cur;
  l_cur : is_Some (V !! cur);
  l_idle : idle = cur \/ idle ∈ ready;
  l_child : forall x, is_Some (V !! x) -> is_Some (C !! ChildExit x);
  l_own : forall x y, y ∈ waits (ChildExit x) -> y = x;
  l_parent : forall x v, V !! x = Some v -> x <> main -> exists p, v_parent v = Some p /\ is_Some (V !! p);
  l_main : main_ok main V;
  l_tab_len : Z.of_nat (length tab) = NTHR;
  l_tab : forall i x, tab !! i = Some (Some x) <-> exists v, V !! x = Some v /\ v_tid v = Z.of_nat i;
  l_nat : forall x v, V !! x = Some v -> 0 <= v_tid v;
}.

Definition conds_rep (m : threads) (C : gmap cond_id condition) (waits : cond_id -> list Z) : Prop :=
  forall c cd, C !! c = Some cd -> tl_rep m (wait_list cd) (waits c).

(** The whole invariant, except that the current thread may have stopped
    running and be about to suspend itself. *)
Record tinv (main idle : Z) (st : tsys) (ready : list Z) (waits : cond_id -> list Z) : Prop := {
  t_linv : linv main idle (views (thrs st)) (conds st) (thrtab st) (curthr st) ready waits;
  t_ready : tl_rep (thrs st) (ready_list st) ready;
  t_conds : conds_rep (thrs st) (conds st) waits;
}.

Definition running (st : tsys) : Prop := running_in (views (thrs st)) (curthr st).

Definition sched_inv (main idle : Z) (st : tsys) (ready : list Z) (waits : cond_id -> list Z) : Prop :=
  tinv main idle st ready waits /\ running st.

(** ** Logical steps *)

Section Logic.
Context (main idle : Z).
Implicit Types (V : gmap Z view) (C : gmap cond_id condition).

Lemma has_state_insert V p v x s :
  has_state (<[p := v]> V) x s <-> (x = p /\ v_state v = s) \/ (x <> p /\ has_state V x s).
Proof.
  unfold has_state. destruct (decide (x = p)) as [->|Hne].
  - rewrite lookup_insert_eq. naive_solver.
  - rewrite lookup_insert_ne by done. naive_solver.
Qed.

Lemma waits_on_insert V p v x c :
  waits_on (<[p := v]> V) x c <->
  (x = p /\ v_state v = THREAD_WAITING /\ v_wait v = Some c) \/ (x <> p /\ waits_on V x c).
Proof.
  unfold waits_on. destruct (decide (x = p)) as [->|Hne].
  - rewrite lookup_insert_eq. naive_solver.
  - rewrite lookup_insert_ne by done. naive_solver.
Qed.

Lemma is_Some_insert_same V p v x : is_Some (V !! p) -> is_Some (<[p := v]> V !! x) <-> is_Some (V !! x).
Proof.
  intros Hp. destruct (decide (x = p)) as [->|Hne].
  - rewrite lookup_insert_eq. split; eauto.
  - by rewrite lookup_insert_ne.
Qed.

(** Changing the state or condition of a thread keeps parents and ids. *)
Definition restate (s : thread_state) (c : option cond_id) (v : view) : view :=
  {| v_state := s; v_wait := c; v_parent := v_parent v; v_tid := v_tid v |}.

Lemma parents_restate V p v s c :
  V !! p = Some v ->
  (forall x v, V !! x = Some v -> x <> main -> exists q, v_parent v = Some q /\ is_Some (V !! q)) ->
  forall x w, <[p := restate s c v]> V !! x = Some w -> x <> main ->
  exists q, v_parent w = Some q /\ is_Some (<[p := restate s c v]> V !! q).
Proof.
  intros Hp H x w Hw Hx. destruct (decide (x = p)) as [->|Hne].
  - rewrite lookup_insert_eq in Hw. injection Hw as <-. destruct (H p v Hp Hx) as (q & Hq & Hs).
    exists q. split; [done|]. apply is_Some_insert_same; eauto.
  - rewrite lookup_insert_ne in Hw by done. destruct (H x w Hw Hx) as (q & Hq & Hs).
    exists q. split; [done|]. apply is_Some_insert_same; eauto.
Qed.

Lemma main_restate V p v s c :
  V !! p = Some v -> (s = THREAD_EXITED -> p <> main) -> main_ok main V -> main_ok main (<[p := restate s c v]> V).
Proof.
  intros Hp Hs (w & Hw & Hws & Hwp & Hwt). destruct (decide (main = p)) as [<-|Hne].
  - rewrite Hp in Hw. injection Hw as <-. exists (restate s c v). rewrite lookup_insert_eq.
    split_and!; auto. cbn. intros Hse. by apply Hs in Hse.
  - exists w. by rewrite lookup_insert_ne.
Qed.

Lemma nat_restate V p v s c :
  V !! p = Some v -> (forall x v, V !! x = Some v -> 0 <= v_tid v) ->
  forall x w, <[p := restate s c v]> V !! x = Some w -> 0 <= v_tid w.
Proof.
  intros Hp H x w Hw. destruct (decide (x = p)) as [->|Hne].
  - rewrite lookup_insert_eq in Hw. injection Hw as <-. exact (H p v Hp).
  - rewrite lookup_insert_ne in Hw by done. exact (H x w Hw).
Qed.

Lemma tab_restate V p v s c (tab : list (option Z)) :
  V !! p = Some v ->
  (forall i x, tab !! i = Some (Some x) <-> exists v, V !! x = Some v /\ v_tid v = Z.of_nat i) ->
  forall i x, tab !! i = Some (Some x) <-> exists w, <[p := restate s c v]> V !! x = Some w /\ v_tid w = Z.of_nat i.
Proof.
  intros Hp H i x. rewrite H. destruct (decide (x = p)) as [->|Hne].
  - rewrite lookup_insert_eq, Hp. naive_solver.
  - by rewrite lookup_insert_ne.
Qed.

(** The parts of [linv] that concern only parents, ids and existence. *)
Ltac frame_restate H :=
  first [ exact (l_tab_len _ _ _ _ _ _ _ _ H) | exact (l_ready_nd _ _ _ _ _ _ _ _ H)
        | exact (l_wait_nd _ _ _ _ _ _ _ _ H) | exact (l_own _ _ _ _ _ _ _ _ H)
        | exact (l_wait_C _ _ _ _ _ _ _ _ H) ].

(** The head of the ready list starts running, the current thread having
    stopped. *)
Lemma linv_run V C tab cur x ready waits v :
  linv main idle V C tab cur (x :: ready) waits -> V !! x = Some v ->
  ~ has_state V cur THREAD_RUNNING -> cur <> idle ->
  linv main idle (<[x := restate THREAD_RUNNING (v_wait v) v]> V) C tab x ready waits.
Proof.
  intros H Hv Hcur Hidle. pose proof (l_ready_nd _ _ _ _ _ _ _ _ H) as [Hnx Hnd]%NoDup_cons.
  assert (Hvr : v_state v = THREAD_READY).
  { destruct (proj1 (l_ready _ _ _ _ _ _ _ _ H x)) as (w & Hw & Hs); [by left|]. congruence. }
  split; try frame_restate H; auto.
  - intros y. rewrite has_state_insert. split.
    + intros Hy. right. split; [by intros ->|]. apply (l_ready _ _ _ _ _ _ _ _ H). by right.
    + intros [[_ Hs]|[Hne Hs]]; [done|]. apply (l_ready _ _ _ _ _ _ _ _ H) in Hs.
      by apply elem_of_cons in Hs as [->|].
  - intros c y. rewrite (l_wait _ _ _ _ _ _ _ _ H), waits_on_insert. split.
    + intros Hy. right. split; [|done]. intros ->. destruct Hy as (w & Hw & Hs & _). congruence.
    + intros [(_ & Hs & _)|[_ ?]]; done.
  - intros y. rewrite has_state_insert. intros [[-> Hs]|[Hne Hs]]; [done|].
    destruct (l_waiting _ _ _ _ _ _ _ _ H y Hs) as (c & Hc). exists c. apply waits_on_insert. auto.
  - intros y. rewrite has_state_insert. intros [[-> _]|[_ Hs]]; [done|].
    apply (l_one _ _ _ _ _ _ _ _ H) in Hs as Hyc. subst y. done.
  - rewrite lookup_insert_eq. eauto.
  - destruct (l_idle _ _ _ _ _ _ _ _ H) as [Hi|Hi]; [done|]. apply elem_of_cons in Hi as [->|]; auto.
  - intros y. rewrite is_Some_insert_same by eauto. apply (l_child _ _ _ _ _ _ _ _ H).
  - by apply parents_restate; [|apply (l_parent _ _ _ _ _ _ _ _ H)].
  - by apply main_restate; [| |apply (l_main _ _ _ _ _ _ _ _ H)].
  - by apply tab_restate; [|apply (l_tab _ _ _ _ _ _ _ _ H)].
  - by apply nat_restate; [|apply (l_nat _ _ _ _ _ _ _ _ H)].
Qed.

(** The current, running thread gives way: it goes to the end of the ready
    list and the head runs. *)
Lemma linv_swap V C tab cur x ready waits v vc :
  linv main idle V C tab cur (x :: ready) waits -> V !! x = Some v -> V !! cur = Some vc ->
  v_state vc = THREAD_RUNNING ->
  linv main idle (<[cur := restate THREAD_READY (v_wait vc) vc]> (<[x := restate THREAD_RUNNING (v_wait v) v]> V))
    C tab x (ready ++ [cur]) waits.
Proof.
  intros H Hv Hvc Hcur. pose proof (l_ready_nd _ _ _ _ _ _ _ _ H) as [Hnx Hnd]%NoDup_cons.
  assert (Hvr : v_state v = THREAD_READY).
  { destruct (proj1 (l_ready _ _ _ _ _ _ _ _ H x)) as (w & Hw & Hs); [by left|]. congruence. }
  assert (Hxc : x <> cur) by (intros ->; congruence).
  assert (Hcr : cur ∉ ready).
  { intros Hin. destruct (proj1 (l_ready _ _ _ _ _ _ _ _ H cur)) as (w & Hw & Hs); [by right|]. congruence. }
  assert (Hvc' : <[x := restate THREAD_RUNNING (v_wait v) v]> V !! cur = Some vc) by by rewrite lookup_insert_ne.
  split; try frame_restate H; auto.
  - intros y. rewrite !has_state_insert, elem_of_app, list_elem_of_singleton. split.
    + intros [Hy| ->]; [|by left]. right. split; [by intros ->|]. right. split; [by intros ->|].
      apply (l_ready _ _ _ _ _ _ _ _ H). by right.
    + intros [[-> _]|[Hne [[_ Hs]|[Hne' Hs]]]]; [by right|done|]. left.
      apply (l_ready _ _ _ _ _ _ _ _ H) in Hs. by apply elem_of_cons in Hs as [->|].
  - apply NoDup_app. split; [done|]. split; [|apply NoDup_singleton]. intros y Hy ->%list_elem_of_singleton. done.
  - intros c y. rewrite (l_wait _ _ _ _ _ _ _ _ H), !waits_on_insert. split.
    + intros Hy. right. split; [|right; split; [|done]]; intros ->; destruct Hy as (w & Hw & Hs & _); congruence.
    + intros [(_ & Hs & _)|[_ [(_ & Hs & _)|[_ ?]]]]; done.
  - intros y. rewrite !has_state_insert. intros [[-> Hs]|[Hne [[_ Hs]|[Hne' Hs]]]]; [done|done|].
    destruct (l_waiting _ _ _ _ _ _ _ _ H y Hs) as (c & Hc). exists c. rewrite !waits_on_insert. auto.
  - intros y. rewrite !has_state_insert. intros [[-> Hs]|[Hne [[-> Hs]|[Hne' Hs]]]]; [done|done|].
    apply (l_one _ _ _ _ _ _ _ _ H) in Hs as Hyc. by subst y.
  - rewrite is_Some_insert_same by eauto. rewrite lookup_insert_eq. eauto.
  - rewrite elem_of_app, list_elem_of_singleton. destruct (l_idle _ _ _ _ _ _ _ _ H) as [Hi|Hi]; [by auto|].
    apply elem_of_cons in Hi as [->|]; auto.
  - intros y. rewrite !is_Some_insert_same by (rewrite ?is_Some_insert_same by eauto; eauto).
    apply (l_child _ _ _ _ _ _ _ _ H).
  - apply parents_restate; [done|]. by apply parents_restate; [|apply (l_parent _ _ _ _ _ _ _ _ H)].
  - apply main_restate; [done|done|]. by apply main_restate; [| |apply (l_main _ _ _ _ _ _ _ _ H)].
  - apply tab_restate; [done|]. by apply tab_restate; [|apply (l_tab _ _ _ _ _ _ _ _ H)].
  - apply nat_restate; [done|]. by apply nat_restate; [|apply (l_nat _ _ _ _ _ _ _ _ H)].
Qed.
(** The wait lists after [cur] joined that of [c]; after that of [c] was
    emptied. *)
Definition waits_add (waits : cond_id -> list Z) (c : cond_id) (x : Z) : cond_id -> list Z :=
  fun c' => if decide (c' = c) then waits c ++ [x] else waits c'.
Definition waits_clear (waits : cond_id -> list Z) (c : cond_id) : cond_id -> list Z :=
  fun c' => if decide (c' = c) then [] else waits c'.

(** The current thread starts to wait on [c]. *)
Lemma linv_wait V C tab cur ready waits vc c :
  linv main idle V C tab cur ready waits -> V !! cur = Some vc -> v_state vc = THREAD_RUNNING ->
  is_Some (C !! c) -> (forall p, c = ChildExit p -> p = cur) ->
  linv main idle (<[cur := restate THREAD_WAITING (Some c) vc]> V) C tab cur ready (waits_add waits c cur).
Proof.
  intros H Hvc Hrun HC Hown.
  assert (Hnw : forall c', cur ∉ waits c').
  { intros c' Hin. apply (l_wait _ _ _ _ _ _ _ _ H) in Hin as (w & Hw & Hs & _). congruence. }
  split; try frame_restate H; auto; unfold waits_add.
  - intros y. rewrite (l_ready _ _ _ _ _ _ _ _ H), has_state_insert. split.
    + intros Hy. right. split; [|done]. intros ->. destruct Hy as (w & Hw & Hs). congruence.
    + intros [[_ Hs]|[_ ?]]; done.
  - intros c' y. rewrite waits_on_insert. destruct (decide (c' = c)) as [->|Hne].
    + rewrite elem_of_app, list_elem_of_singleton, (l_wait _ _ _ _ _ _ _ _ H). split.
      * intros [Hy| ->]; [|by left]. right. split; [|done]. intros ->. apply (Hnw c).
        by apply (l_wait _ _ _ _ _ _ _ _ H).
      * intros [(-> & _)|[_ ?]]; auto.
    + rewrite (l_wait _ _ _ _ _ _ _ _ H). split.
      * intros Hy. right. split; [|done]. intros ->. apply (Hnw c'). by apply (l_wait _ _ _ _ _ _ _ _ H).
      * intros [(_ & _ & [= ->])|[_ ?]]; done.
  - intros c'. destruct (decide (c' = c)); [|apply (l_wait_nd _ _ _ _ _ _ _ _ H)].
    apply NoDup_app. split; [apply (l_wait_nd _ _ _ _ _ _ _ _ H)|]. split; [|apply NoDup_singleton].
    intros y Hy ->%list_elem_of_singleton. by apply (Hnw c).
  - intros c' y. destruct (decide (c' = c)) as [->|]; [done|apply (l_wait_C _ _ _ _ _ _ _ _ H)].
  - intros y. rewrite has_state_insert. intros [[-> _]|[Hne Hs]].
    + exists c. apply waits_on_insert. by left.
    + destruct (l_waiting _ _ _ _ _ _ _ _ H y Hs) as (c' & Hc'). exists c'. apply waits_on_insert. auto.
  - intros y. rewrite has_state_insert. intros [[-> _]|[_ Hs]]; [done|]. by apply (l_one _ _ _ _ _ _ _ _ H).
  - rewrite lookup_insert_eq. eauto.
  - apply (l_idle _ _ _ _ _ _ _ _ H).
  - intros y. rewrite is_Some_insert_same by eauto. apply (l_child _ _ _ _ _ _ _ _ H).
  - intros x y. destruct (decide (ChildExit x = c)) as [<-|]; [|apply (l_own _ _ _ _ _ _ _ _ H)].
    rewrite elem_of_app, list_elem_of_singleton. intros [Hy| ->]; [by apply (l_own _ _ _ _ _ _ _ _ H)|].
    symmetry. by apply Hown.
  - by apply parents_restate; [|apply (l_parent _ _ _ _ _ _ _ _ H)].
  - by apply main_restate; [| |apply (l_main _ _ _ _ _ _ _ _ H)].
  - by apply tab_restate; [|apply (l_tab _ _ _ _ _ _ _ _ H)].
  - by apply nat_restate; [|apply (l_nat _ _ _ _ _ _ _ _ H)].
Qed.

(** The current thread exits. *)
Lemma linv_exit V C tab cur ready waits vc :
  linv main idle V C tab cur ready waits -> V !! cur = Some vc -> v_state vc = THREAD_RUNNING -> cur <> main ->
  linv main idle (<[cur := restate THREAD_EXITED (v_wait vc) vc]> V) C tab cur ready waits.
Proof.
  intros H Hvc Hrun Hm. split; try frame_restate H; auto.
  - intros y. rewrite (l_ready _ _ _ _ _ _ _ _ H), has_state_insert. split.
    + intros Hy. right. split; [|done]. intros ->. destruct Hy as (w & Hw & Hs). congruence.
    + intros [[_ Hs]|[_ ?]]; done.
  - intros c' y. rewrite (l_wait _ _ _ _ _ _ _ _ H), waits_on_insert. split.
    + intros Hy. right. split; [|done]. intros ->. destruct Hy as (w & Hw & Hs & _). congruence.
    + intros [(_ & Hs & _)|[_ ?]]; done.
  - intros y. rewrite has_state_insert. intros [[-> Hs]|[Hne Hs]]; [done|].
    destruct (l_waiting _ _ _ _ _ _ _ _ H y Hs) as (c' & Hc'). exists c'. apply waits_on_insert. auto.
  - intros y. rewrite has_state_insert. intros [[-> _]|[_ Hs]]; [done|]. by apply (l_one _ _ _ _ _ _ _ _ H).
  - rewrite lookup_insert_eq. eauto.
  - apply (l_idle _ _ _ _ _ _ _ _ H).
  - intros y. rewrite is_Some_insert_same by eauto. apply (l_child _ _ _ _ _ _ _ _ H).
  - by apply parents_restate; [|apply (l_parent _ _ _ _ _ _ _ _ H)].
  - by apply main_restate; [| |apply (l_main _ _ _ _ _ _ _ _ H)].
  - by apply tab_restate; [|apply (l_tab _ _ _ _ _ _ _ _ H)].
  - by apply nat_restate; [|apply (l_nat _ _ _ _ _ _ _ _ H)].
Qed.

(** The waiters of [c] become ready, in order. *)
Lemma linv_wake V V' C tab cur ready waits c :
  linv main idle V C tab cur ready waits ->
  (forall y, V' !! y = if decide (y ∈ waits c) then restate THREAD_READY None <$> V !! y else V !! y) ->
  linv main idle V' C tab cur (ready ++ waits c) (waits_clear waits c).
Proof.
  intros H HV.
  assert (Hst : forall y s, has_state V' y s <->
    (y ∈ waits c /\ s = THREAD_READY) \/ (y ∉ waits c /\ has_state V y s)).
  { intros y s. unfold has_state. rewrite HV. destruct (decide (y ∈ waits c)) as [Hy|Hy].
    - pose proof (proj1 (l_wait _ _ _ _ _ _ _ _ H c y) Hy) as (w & Hw & _). rewrite Hw. cbn. naive_solver.
    - naive_solver. }
  assert (Hwt : forall y c', waits_on V' y c' <-> y ∉ waits c /\ waits_on V y c').
  { intros y c'. unfold waits_on. rewrite HV. destruct (decide (y ∈ waits c)) as [Hy|Hy]; [|naive_solver].
    split; [|naive_solver]. intros (v & Hv & Hs & _). destruct (V !! y); [|done]. cbn in Hv. by injection Hv as <-. }
  assert (Hsome : forall y, is_Some (V' !! y) <-> is_Some (V !! y)).
  { intros y. rewrite HV. destruct (decide _); [|done]. apply fmap_is_Some. }
  assert (Hdisj : forall c' y, c' <> c -> y ∈ waits c' -> y ∉ waits c).
  { intros c' y Hne Hy Hy'. apply (l_wait _ _ _ _ _ _ _ _ H) in Hy as (v & Hv & _ & Hw).
    apply (l_wait _ _ _ _ _ _ _ _ H) in Hy' as (v' & Hv' & _ & Hw'). congruence. }
  split; try frame_restate H; auto; unfold waits_clear.
  - intros y. rewrite elem_of_app, Hst, (l_ready _ _ _ _ _ _ _ _ H). split.
    + intros [Hy|Hy]; [|by left]. right. split; [|done]. intros Hy'.
      apply (l_wait _ _ _ _ _ _ _ _ H) in Hy' as (v & Hv & Hs & _). destruct Hy as (v' & Hv' & Hs'). congruence.
    + intros [[Hy _]|[_ Hy]]; auto.
  - apply NoDup_app. split; [apply (l_ready_nd _ _ _ _ _ _ _ _ H)|]. split; [|apply (l_wait_nd _ _ _ _ _ _ _ _ H)].
    intros y Hy Hy'. apply (l_ready _ _ _ _ _ _ _ _ H) in Hy as (v & Hv & Hs).
    apply (l_wait _ _ _ _ _ _ _ _ H) in Hy' as (v' & Hv' & Hs' & _). congruence.
  - intros c' y. rewrite Hwt. destruct (decide (c' = c)) as [->|Hne].
    + rewrite <- (l_wait _ _ _ _ _ _ _ _ H c y). split; [by intros ?%elem_of_nil|]. by intros [? ?].
    + rewrite (l_wait _ _ _ _ _ _ _ _ H). split; [|by intros [_ ?]]. intros Hy. split; [|done].
      apply (Hdisj c'); [done|]. by apply (l_wait _ _ _ _ _ _ _ _ H).
  - intros c'. destruct (decide _); [constructor|apply (l_wait_nd _ _ _ _ _ _ _ _ H)].
  - intros c' y. destruct (decide _); [by intros ?%elem_of_nil|apply (l_wait_C _ _ _ _ _ _ _ _ H)].
  - intros y. rewrite Hst. intros [[_ ?]|[Hy Hs]]; [done|].
    destruct (l_waiting _ _ _ _ _ _ _ _ H y Hs) as (c' & Hc'). exists c'. by apply Hwt.
  - intros y. rewrite Hst. intros [[_ ?]|[Hy Hs]]; [done|]. by apply (l_one _ _ _ _ _ _ _ _ H).
  - apply Hsome, (l_cur _ _ _ _ _ _ _ _ H).
  - rewrite elem_of_app. destruct (l_idle _ _ _ _ _ _ _ _ H); auto.
  - intros y. rewrite Hsome. apply (l_child _ _ _ _ _ _ _ _ H).
  - intros x y. destruct (decide _); [by intros ?%elem_of_nil|apply (l_own _ _ _ _ _ _ _ _ H)].
  - intros x v Hv Hx. rewrite HV in Hv.
    assert (Hp : exists v0, V !! x = Some v0 /\ v_parent v0 = v_parent v).
    { destruct (decide _); [|eauto]. destruct (V !! x) as [v0|]; [|done]. cbn in Hv. injection Hv as <-. eauto. }
    destruct Hp as (v0 & Hv0 & <-). destruct (l_parent _ _ _ _ _ _ _ _ H x v0 Hv0 Hx) as (p & Hp & Hs).
    exists p. by rewrite Hsome.
  - destruct (l_main _ _ _ _ _ _ _ _ H) as (w & Hw & Hs & Hmp & Hmt). unfold main_ok. rewrite HV, Hw.
    destruct (decide _); cbn; by eexists.
  - intros i x. rewrite (l_tab _ _ _ _ _ _ _ _ H), HV. destruct (decide _); [|done].
    destruct (V !! x); cbn; naive_solver.
  - intros x v Hv. rewrite HV in Hv. destruct (decide _); [|exact (l_nat _ _ _ _ _ _ _ _ H x v Hv)].
    destruct (V !! x) as [v0|] eqn:Hv0; [|done]. cbn in Hv. injection Hv as <-. exact (l_nat _ _ _ _ _ _ _ _ H x v0 Hv0).
Qed.

(** A new thread, child of the current one, in free slot [i]. *)
Lemma linv_spawn V C tab cur ready waits child v ce i :
  linv main idle V C tab cur ready waits -> V !! child = None -> tab !! i = Some None ->
  v_state v = THREAD_READY -> v_parent v = Some cur -> v_tid v = Z.of_nat i ->
  linv main idle (<[child := v]> V) (<[ChildExit child := ce]> C) (<[i := Some child]> tab) cur (ready ++ [child]) waits.
Proof.
  intros H Hnew Hi Hs Hp Ht. pose proof (lookup_lt_Some _ _ _ Hi) as Hlt.
  assert (Hmon : forall x, is_Some (V !! x) -> is_Some (<[child := v]> V !! x)).
  { intros x Hx. destruct (decide (x = child)) as [->|]; [rewrite lookup_insert_eq; eauto|by rewrite lookup_insert_ne]. }
  assert (Hnr : child ∉ ready).
  { intros Hin. apply (l_ready _ _ _ _ _ _ _ _ H) in Hin as (w & Hw & _). congruence. }
  split; try frame_restate H.
  - intros y. rewrite elem_of_app, list_elem_of_singleton, has_state_insert, (l_ready _ _ _ _ _ _ _ _ H). split.
    + intros [Hy| ->]; [|by left]. right. split; [|done]. intros ->. destruct Hy as (w & Hw & _). congruence.
    + intros [[-> _]|[_ ?]]; auto.
  - apply NoDup_app. split; [apply (l_ready_nd _ _ _ _ _ _ _ _ H)|]. split; [|apply NoDup_singleton].
    by intros y Hy ->%list_elem_of_singleton.
  - intros c y. rewrite (l_wait _ _ _ _ _ _ _ _ H), waits_on_insert. split.
    + intros Hy. right. split; [|done]. intros ->. destruct Hy as (w & Hw & _). congruence.
    + intros [(_ & Hw & _)|[_ ?]]; [congruence|done].
  - intros c y Hy. apply (l_wait_C _ _ _ _ _ _ _ _ H) in Hy.
    destruct (decide (c = ChildExit child)) as [->|]; [rewrite lookup_insert_eq; eauto|by rewrite lookup_insert_ne].
  - intros y. rewrite has_state_insert. intros [[-> Hw]|[Hne Hw]]; [congruence|].
    destruct (l_waiting _ _ _ _ _ _ _ _ H y Hw) as (c & Hc). exists c. apply waits_on_insert. auto.
  - intros y. rewrite has_state_insert. intros [[-> Hw]|[_ Hw]]; [congruence|]. by apply (l_one _ _ _ _ _ _ _ _ H).
  - apply Hmon, (l_cur _ _ _ _ _ _ _ _ H).
  - rewrite elem_of_app. destruct (l_idle _ _ _ _ _ _ _ _ H); auto.
  - intros x Hx. destruct (decide (x = child)) as [->|Hne]; [rewrite lookup_insert_eq; eauto|].
    rewrite lookup_insert_ne in Hx by done. rewrite lookup_insert_ne by congruence. by apply (l_child _ _ _ _ _ _ _ _ H).
  - intros x w Hw Hx. destruct (decide (x = child)) as [->|Hne].
    + rewrite lookup_insert_eq in Hw. injection Hw as <-. exists cur. split; [done|].
      apply Hmon, (l_cur _ _ _ _ _ _ _ _ H).
    + rewrite lookup_insert_ne in Hw by done. destruct (l_parent _ _ _ _ _ _ _ _ H x w Hw Hx) as (p & Hp' & Hsp). eauto.
  - destruct (l_main _ _ _ _ _ _ _ _ H) as (w & Hw & Hsw). exists w. rewrite lookup_insert_ne by congruence. eauto.
  - rewrite length_insert. apply (l_tab_len _ _ _ _ _ _ _ _ H).
  - intros j x. destruct (decide (j = i)) as [->|Hji].
    + rewrite list_lookup_insert_eq by done. split.
      * intros [= <-]. exists v. by rewrite lookup_insert_eq.
      * intros (w & Hw & Hwt). destruct (decide (x = child)) as [->|Hne]; [done|].
        rewrite lookup_insert_ne in Hw by done.
        pose proof (proj2 (l_tab _ _ _ _ _ _ _ _ H i x) (ex_intro _ w (conj Hw Hwt))). congruence.
    + rewrite list_lookup_insert_ne, (l_tab _ _ _ _ _ _ _ _ H) by done. split.
      * intros (w & Hw & Hwt). exists w. rewrite lookup_insert_ne; [done|congruence].
      * intros (w & Hw & Hwt). destruct (decide (x = child)) as [->|Hne].
        -- rewrite lookup_insert_eq in Hw. injection Hw as <-. lia.
        -- rewrite lookup_insert_ne in Hw by done. eauto.
  - intros x w Hw. destruct (decide (x = child)) as [->|Hne].
    + rewrite lookup_insert_eq in Hw. injection Hw as <-. lia.
    + rewrite lookup_insert_ne in Hw by done. exact (l_nat _ _ _ _ _ _ _ _ H x w Hw).
Qed.

Definition reparented (thr : Z) (new : option Z) (v : view) : view :=
  if decide (v_parent v = Some thr)
  then {| v_state := v_state v; v_wait := v_wait v; v_parent := new; v_tid := v_tid v |} else v.

(** An exited child [thr] of the current thread is recycled. *)
Lemma linv_recycle V V' C tab cur ready waits thr vt i :
  linv main idle V C tab cur ready waits -> running_in V cur -> V !! thr = Some vt -> v_state vt = THREAD_EXITED ->
  v_parent vt = Some cur -> tab !! i = Some (Some thr) ->
  (forall y, V' !! y = if decide (y = thr) then None else reparented thr (Some cur) <$> V !! y) ->
  linv main idle V' (delete (ChildExit thr) C) (<[i := None]> tab) cur ready waits.
Proof.
  intros H Hrun Hthr Hex Hpar Hi HV. pose proof (lookup_lt_Some _ _ _ Hi) as Hlt.
  assert (Hct : cur <> thr) by (intros ->; destruct Hrun as (w & Hw & Hs); congruence).
  assert (Hst : forall y s, has_state V' y s <-> y <> thr /\ has_state V y s).
  { intros y s. unfold has_state. rewrite HV. destruct (decide (y = thr)) as [->|Hne]; [naive_solver|].
    destruct (V !! y) as [v|]; cbn; [|naive_solver]. unfold reparented. destruct (decide _); naive_solver. }
  assert (Hwt : forall y c, waits_on V' y c <-> y <> thr /\ waits_on V y c).
  { intros y c. unfold waits_on. rewrite HV. destruct (decide (y = thr)) as [->|Hne]; [naive_solver|].
    destruct (V !! y) as [v|]; cbn; [|naive_solver]. unfold reparented. destruct (decide _); naive_solver. }
  assert (Hsome : forall y, is_Some (V' !! y) <-> y <> thr /\ is_Some (V !! y)).
  { intros y. rewrite HV. destruct (decide (y = thr)) as [->|Hne].
    - split; [by intros [? ?]|by intros [? _]].
    - rewrite fmap_is_Some. naive_solver. }
  assert (Hnt : forall s, has_state V thr s -> s = THREAD_EXITED) by (intros s (w & Hw & <-); congruence).
  split; try frame_restate H.
  - intros y. rewrite Hst, (l_ready _ _ _ _ _ _ _ _ H). split; [|by intros [_ ?]]. intros Hy.
    split; [|done]. intros ->. by apply Hnt in Hy.
  - intros c y. rewrite Hwt, (l_wait _ _ _ _ _ _ _ _ H). split; [|by intros [_ ?]]. intros Hy.
    split; [|done]. intros ->. destruct Hy as (w & Hw & Hs & _). congruence.
  - intros c y Hy. rewrite lookup_delete_ne; [by apply (l_wait_C _ _ _ _ _ _ _ _ H) in Hy|].
    intros <-. pose proof Hy as Hy'. apply (l_own _ _ _ _ _ _ _ _ H) in Hy'. subst y.
    apply (l_wait _ _ _ _ _ _ _ _ H) in Hy as (w & Hw & Hs & _). congruence.
  - intros y. rewrite Hst. intros [Hne Hs]. destruct (l_waiting _ _ _ _ _ _ _ _ H y Hs) as (c & Hc).
    exists c. by apply Hwt.
  - intros y. rewrite Hst. intros [_ Hs]. by apply (l_one _ _ _ _ _ _ _ _ H).
  - apply Hsome. split; [done|apply (l_cur _ _ _ _ _ _ _ _ H)].
  - apply (l_idle _ _ _ _ _ _ _ _ H).
  - intros y [Hne Hy]%Hsome. rewrite lookup_delete_ne by congruence. by apply (l_child _ _ _ _ _ _ _ _ H).
  - intros x v Hv Hx. rewrite HV in Hv. destruct (decide (x = thr)); [done|].
    destruct (V !! x) as [v0|] eqn:Hv0; [|done]. cbn in Hv. injection Hv as <-. unfold reparented.
    destruct (decide (v_parent v0 = Some thr)) as [Hpt|Hpt]; cbn.
    + exists cur. split; [done|]. apply Hsome. split; [done|apply (l_cur _ _ _ _ _ _ _ _ H)].
    + destruct (l_parent _ _ _ _ _ _ _ _ H x v0 Hv0 Hx) as (p & Hp & Hs). exists p. split; [done|].
      apply Hsome. split; [congruence|done].
  - destruct (l_main _ _ _ _ _ _ _ _ H) as (w & Hw & Hs & Hmp & Hmt). unfold main_ok. rewrite HV.
    destruct (decide (main = thr)) as [->|]; [congruence|]. rewrite Hw. cbn. eexists. split; [done|].
    unfold reparented. rewrite decide_False by congruence. done.
  - rewrite length_insert. apply (l_tab_len _ _ _ _ _ _ _ _ H).
  - intros j x. rewrite HV. destruct (decide (j = i)) as [->|Hji].
    + rewrite list_lookup_insert_eq by done. split; [done|]. destruct (decide (x = thr)) as [->|Hne]; [naive_solver|].
      intros (w & Hw & Hwt'). destruct (V !! x) as [v0|] eqn:Hv0; [|done]. cbn in Hw. injection Hw as <-.
      assert (v_tid v0 = Z.of_nat i) by (unfold reparented in Hwt'; by destruct (decide _)).
      pose proof (proj2 (l_tab _ _ _ _ _ _ _ _ H i x) (ex_intro _ v0 (conj Hv0 H0))). congruence.
    + rewrite list_lookup_insert_ne, (l_tab _ _ _ _ _ _ _ _ H) by done.
      destruct (decide (x = thr)) as [->|Hne].
      * split; [|naive_solver]. intros (w & Hw & Hwt').
        pose proof (proj1 (l_tab _ _ _ _ _ _ _ _ H i thr) Hi) as (w' & Hw' & Hwt''). assert (w = w') by congruence.
        subst. lia.
      * destruct (V !! x) as [v0|]; cbn; [|naive_solver]. unfold reparented. destruct (decide _); naive_solver.
  - intros x v Hv. rewrite HV in Hv. destruct (decide (x = thr)); [done|].
    destruct (V !! x) as [v0|] eqn:Hv0; [|done]. cbn in Hv. injection Hv as <-.
    unfold reparented. destruct (decide _); exact (l_nat _ _ _ _ _ _ _ _ H x v0 Hv0).
Qed.
End Logic.

(** * The operations keep the invariant *)

(** Stores that differ only in contexts, stacks and processes. *)
Definition eqv (m m' : threads) : Prop :=
  views m' = views m /\ forall y, list_next <$> m' !! y = list_next <$> m !! y.

Lemma eqv_refl m : eqv m m.
Proof. done. Qed.
Lemma eqv_trans m1 m2 m3 : eqv m1 m2 -> eqv m2 m3 -> eqv m1 m3.
Proof. intros [V1 N1] [V2 N2]. split; [congruence|]. intros y. by rewrite N2. Qed.

Lemma eqv_insert m p t t' : m !! p = Some t -> vw t' = vw t -> list_next t' = list_next t -> eqv m (<[p := t']> m).
Proof.
  intros Hp Hv Hn. split; [by eapply views_insert_same|]. intros y. destruct (decide (y = p)) as [->|Hne].
  - rewrite lookup_insert_eq, Hp. cbn. by rewrite Hn.
  - by rewrite lookup_insert_ne.
Qed.

Lemma tl_rep_frame m m' l xs :
  (forall y, y ∈ xs -> list_next <$> m' !! y = list_next <$> m !! y) -> tl_rep m l xs -> tl_rep m' l xs.
Proof. intros Hf (Hh & Ht & Hl). split_and!; auto. by eapply links_frame. Qed.

(** Updating fields other than the list pointer. *)
Lemma next_upd (m : threads) p t t' y :
  m !! p = Some t -> list_next t' = list_next t -> list_next <$> (<[p := t']> m) !! y = list_next <$> m !! y.
Proof.
  intros Hp Hn. destruct (decide (y = p)) as [->|Hne].
  - rewrite lookup_insert_eq, Hp. cbn. by rewrite Hn.
  - by rewrite lookup_insert_ne.
Qed.

(** Fields of the system that a suspension does not touch. *)
Definition same_tables (st st' : tsys) : Prop := conds st' = conds st /\ thrtab st' = thrtab st.

Lemma tinv_eqv main idle st st' ready waits :
  eqv (thrs st) (thrs st') -> same_tables st st' -> ready_list st' = ready_list st -> curthr st' = curthr st ->
  tinv main idle st ready waits -> tinv main idle st' ready waits.
Proof.
  intros [HV HN] [HC HT] HR Hcur [HL Hr Hc]. split.
  - by rewrite HV, HC, HT, Hcur.
  - rewrite HR. eapply tl_rep_frame; eauto.
  - intros c cd Hcd. rewrite HC in Hcd. eapply tl_rep_frame; [|by apply Hc]. auto.
Qed.

Section Ops.
Context (mtag : Z -> Z) (main idle : Z).

Lemma lookup_of_view (m : threads) x v : views m !! x = Some v -> exists t, m !! x = Some t /\ vw t = v.
Proof. rewrite lookup_views. destruct (m !! x) as [t|]; [|done]. cbn. intros [= <-]. eauto. Qed.

Lemma resume_spec st x prev :
  is_Some (thrs st !! x) -> is_Some (thrs st !! prev) ->
  exists st', resume st x prev = Ret st' /\ eqv (thrs st) (thrs st') /\ same_tables st st' /\
    ready_list st' = ready_list st /\ curthr st' = curthr st.
Proof.
  intros [t Ht] [p Hp]. unfold resume. rewrite (get_thr_spec _ _ t) by done. cbn [obind].
  destruct (context t) as [saved|]; [|exists st; by split_and!].
  rewrite (get_thr_spec _ _ p) by done. cbn [obind]. destruct (decide _); cbn [obind].
  - rewrite (upd_thr_spec _ _ _ p) by done. cbn [obind]. eexists. split; [done|]. split_and!; try done.
    by apply (eqv_insert _ _ p).
  - eexists. split; [done|]. by split_and!.
Qed.

(** Where the current thread goes: to the end of the ready list if it still
    runs. *)
Definition requeued (st : tsys) : list Z :=
  match thrs st !! curthr st with
  | Some t => if decide (tstate t = THREAD_RUNNING) then [curthr st] else []
  | None => []
  end.

Lemma waiter_not_ready V C tab cur ready waits c y :
  linv main idle V C tab cur ready waits -> y ∈ waits c -> y ∉ ready.
Proof.
  intros H Hy Hr. apply (l_wait _ _ _ _ _ _ _ _ H) in Hy as (v & Hv & Hs & _).
  apply (l_ready _ _ _ _ _ _ _ _ H) in Hr as (v' & Hv' & Hs'). congruence.
Qed.

Lemma views_insert (m : threads) p t : views (<[p := t]> m) = <[p := vw t]> (views m).
Proof. apply fmap_insert. Qed.

(** The part of [suspend_self] that edits states and lists. *)
Lemma switch_lists st x ready waits tc :
  tinv main idle st (x :: ready) waits -> (curthr st = idle -> running st) -> thrs st !! curthr st = Some tc ->
  tstate tc <> THREAD_READY ->
  exists m1 l1 tx, tlremove (thrs st) (ready_list st) = Ret (m1, l1, Some x) /\ m1 !! x = Some tx /\
    tstate tx = THREAD_READY /\
    exists m2 l2 sus, m2 !! x = Some (set_state THREAD_RUNNING tx) /\ m2 = <[x := set_state THREAD_RUNNING tx]> m1 /\
      m2 !! curthr st = Some sus /\ tstate sus = tstate tc /\
      exists m4, (if decide (tstate sus = THREAD_RUNNING) then
           let! m := upd_thr m2 (curthr st) (set_state THREAD_READY) in tlinsert m l1 (Some (curthr st))
         else Ret (m2, l1)) = Ret (m4, l2) /\
        linv main idle (views m4) (conds st) (thrtab st) x (ready ++ requeued st) waits /\
        tl_rep m4 l2 (ready ++ requeued st) /\ conds_rep m4 (conds st) waits /\ running_in (views m4) x /\
        is_Some (m4 !! curthr st) /\
        (tstate tc <> THREAD_RUNNING -> forall y, y <> x -> views m4 !! y = views (thrs st) !! y).
Proof.
  intros [HL Hr Hc] Hidle Htc Hnready. pose proof (l_ready_nd _ _ _ _ _ _ _ _ HL) as Hnd.
  destruct (tlremove_spec _ _ _ _ Hr Hnd) as (m1 & l1 & Hrem & Hr1 & Hv1 & Hf1).
  apply NoDup_cons in Hnd as [Hnx Hnd].
  destruct (proj1 (l_ready _ _ _ _ _ _ _ _ HL x)) as (v & Hv & Hvs); [by left|].
  pose proof Hv as Hv'. rewrite <- Hv1 in Hv'. destruct (lookup_of_view _ _ _ Hv') as (tx & Htx & Hvw).
  assert (Htxs : tstate tx = THREAD_READY) by (by rewrite <- Hvs, <- Hvw).
  exists m1, l1, tx. do 3 (split; [done|]).
  set (m2 := <[x := set_state THREAD_RUNNING tx]> m1).
  assert (HV2 : views m2 = <[x := restate THREAD_RUNNING (v_wait v) v]> (views (thrs st))).
  { unfold m2. rewrite views_insert, Hv1. f_equal. by rewrite <- Hvw. }
  assert (HN2 : forall y, y <> x -> list_next <$> m2 !! y = list_next <$> thrs st !! y).
  { intros y Hy. unfold m2. by rewrite lookup_insert_ne, Hf1. }
  assert (Hx2 : m2 !! x = Some (set_state THREAD_RUNNING tx)) by (unfold m2; by rewrite lookup_insert_eq).
  assert (Hr2 : tl_rep m2 l1 ready).
  { apply (tl_rep_frame m1); [|done]. intros y _. by apply (next_upd _ _ tx). }
  assert (Hc2 : conds_rep m2 (conds st) waits).
  { intros c cd Hcd. apply (tl_rep_frame (thrs st)); [|by apply Hc]. intros y Hy. apply HN2. intros ->.
    apply (waiter_not_ready _ _ _ _ _ _ _ _ HL Hy). by left. }
  unfold requeued. rewrite Htc.
  assert (Hcx : curthr st <> x).
  { intros Hcx. rewrite Hcx in Htc. rewrite lookup_views, Htc in Hv. cbn in Hv. injection Hv as <-. done. }
  assert (Hc1 : m2 !! curthr st = Some tc) by (unfold m2; rewrite lookup_insert_ne, Hf1 by done; done).
  assert (Hvc : views (thrs st) !! curthr st = Some (vw tc)) by (by rewrite lookup_views, Htc).
  exists m2. destruct (decide (tstate tc = THREAD_RUNNING)) as [Hrun|Hrun].
  - set (m3 := <[curthr st := set_state THREAD_READY tc]> m2).
    assert (HV3 : views m3 = <[curthr st := restate THREAD_READY (v_wait (vw tc)) (vw tc)]>
      (<[x := restate THREAD_RUNNING (v_wait v) v]> (views (thrs st)))) by (unfold m3; by rewrite views_insert, HV2).
    assert (Hcr : curthr st ∉ ready).
    { intros Hin. destruct (proj1 (l_ready _ _ _ _ _ _ _ _ HL (curthr st))) as (w & Hw & Hs); [by right|].
      rewrite Hvc in Hw. injection Hw as <-. cbn in Hs. congruence. }
    destruct (tlinsert_spec m3 l1 ready (curthr st)) as (m4 & l4 & Hins & Hr4 & Hv4 & Hf4); auto.
    { apply (tl_rep_frame m2); [|done]. intros y _. by apply (next_upd _ _ tc). }
    { unfold m3. rewrite lookup_insert_eq. eauto. }
    exists l4, tc. do 4 (split; [done|]). exists m4. rewrite decide_True by done.
    rewrite (upd_thr_spec _ _ _ tc) by done. cbn [obind]. split; [done|]. rewrite Hv4, HV3. split_and!; auto.
    + by apply linv_swap.
    + intros c cd Hcd. apply (tl_rep_frame m2); [|by apply Hc2]. intros y Hy.
      assert (y <> curthr st).
      { intros ->. apply (l_wait _ _ _ _ _ _ _ _ HL) in Hy as (w & Hw & Hs & _). rewrite Hvc in Hw.
        injection Hw as <-. cbn in Hs. congruence. }
      rewrite Hf4; [unfold m3; by rewrite lookup_insert_ne|].
      rewrite elem_of_app, list_elem_of_singleton. intros [Hin| ->]; [|done].
      apply (waiter_not_ready _ _ _ _ _ _ _ _ HL Hy). by right.
    + exists (restate THREAD_RUNNING (v_wait v) v). rewrite lookup_insert_ne by done. by rewrite lookup_insert_eq.
    + apply is_Some_views. rewrite Hv4, HV3, lookup_insert_eq. eauto.
    + done.
  - exists l1, tc. do 4 (split; [done|]). exists m2. rewrite decide_False by done. split; [done|].
    rewrite app_nil_r, HV2. split_and!; auto; try done.
    + apply linv_run with (cur := curthr st); auto.
      * intros (w & Hw & Hs). rewrite Hvc in Hw. injection Hw as <-. done.
      * intros Hi. destruct (Hidle Hi) as (w & Hw & Hs). rewrite Hvc in Hw. injection Hw as <-. done.
    + exists (restate THREAD_RUNNING (v_wait v) v). by rewrite lookup_insert_eq.
    + intros _ y Hy. by rewrite lookup_insert_ne.
Qed.

(** [suspend_self] switches to the head of the ready list. *)
Lemma suspend_self_spec st x ready waits tc :
  tinv main idle st (x :: ready) waits -> (curthr st = idle -> running st) ->
  thrs st !! curthr st = Some tc -> tstate tc <> THREAD_READY ->
  exists st', suspend_self mtag st = Ret st' /\ curthr st' = x /\ same_tables st st' /\
    sched_inv main idle st' (ready ++ requeued st) waits /\
    (tstate tc <> THREAD_RUNNING -> forall y, y <> x -> views (thrs st') !! y = views (thrs st) !! y).
Proof.
  intros HI Hidle Htc Hnr.
  destruct (switch_lists st x ready waits tc HI Hidle Htc Hnr)
    as (m1 & l1 & tx & Hrem & Htx & Htxs & m2 & l2 & sus & Hx2 & Hm2 & Hsus & Hsst & m4 & Hsw & HL4 & Hr4 & Hc4 & Hrun4 & [tc4 Htc4] & Hvf4).
  unfold suspend_self. rewrite (tlempty_rep _ _ _ (t_ready _ _ _ _ _ HI)), bool_decide_false by done. cbn [negb].
  destruct (intr_disable (ts_sstatus st)) as [ss saved] eqn:Hid. cbn [with_sstatus thrs ready_list].
  rewrite Hrem. cbn [obind]. rewrite (get_thr_spec _ _ tx) by done. cbn [obind].
  rewrite bool_decide_true by done. rewrite (upd_thr_spec _ _ _ tx), <- Hm2 by done. cbn [obind].
  rewrite (get_thr_spec _ _ sus) by done. cbn [obind]. rewrite Hsw. cbn [obind].
  lazymatch goal with |- context [intr_enable ?a] => destruct (intr_enable a) as [ss2 sv2] end.
  set (st1 := with_sstatus (with_ready (with_sstatus st ss) m4 l2) ss2).
  set (st2 := match proc tx with Some p => with_space st1 (mtag p) | None => st1 end).
  assert (H2 : thrs st2 = m4 /\ same_tables st st2 /\ ready_list st2 = l2) by (unfold st2; destruct (proc tx); done).
  destruct H2 as (Hth2 & Htab2 & Hrl2). rewrite Hth2, (upd_thr_spec _ _ _ tc4) by done. cbn [obind].
  set (st3 := with_cur st2 _ x (freed st2)).
  assert (He3 : eqv m4 (thrs st3)) by by apply (eqv_insert _ _ tc4).
  assert (Hsx : is_Some (m4 !! x)) by (apply is_Some_views; destruct Hrun4 as (w & -> & _); eauto).
  destruct (resume_spec st3 x x) as (st4 & Hres & He4 & Htab4 & Hrl4 & Hcur4).
  { apply is_Some_views. rewrite (proj1 He3). by apply is_Some_views. }
  { apply is_Some_views. rewrite (proj1 He3). by apply is_Some_views. }
  exists st4. split; [done|]. rewrite Hcur4. split; [done|].
  pose proof (eqv_trans _ _ _ He3 He4) as He. destruct Htab2 as [HC2 HT2], Htab4 as [HC4 HT4].
  cbn [st3 with_cur conds thrtab ready_list curthr] in *. split; [split; congruence|].
  split; [|by rewrite (proj1 He)]. split.
  - destruct He as [HVe HNe]. split.
    + rewrite HVe, HC4, HC2, HT4, HT2, Hcur4. exact HL4.
    + rewrite Hrl4, Hrl2. eapply tl_rep_frame; [|exact Hr4]. auto.
    + intros c cd Hcd. rewrite HC4, HC2 in Hcd. eapply tl_rep_frame; [|by apply Hc4]. auto.
  - unfold running. rewrite (proj1 He), Hcur4. exact Hrun4.
Qed.

(** ** Small facts *)

(** Conditions outside the threads stay. *)
Definition keeps (st st' : tsys) : Prop :=
  forall a, is_Some (conds st !! CondAt a) -> is_Some (conds st' !! CondAt a).
Lemma keeps_trans st1 st2 st3 : keeps st1 st2 -> keeps st2 st3 -> keeps st1 st3.
Proof. unfold keeps. auto. Qed.
Lemma keeps_eq st st' : conds st' = conds st -> keeps st st'.
Proof. unfold keeps. by intros ->. Qed.

Lemma linv_C V C C' tab cur ready waits :
  (forall c, is_Some (C !! c) -> is_Some (C' !! c)) ->
  linv main idle V C tab cur ready waits -> linv main idle V C' tab cur ready waits.
Proof. intros HC []. split; eauto. Qed.

Lemma linv_ext V C tab cur ready waits waits' :
  (forall c, waits' c = waits c) ->
  linv main idle V C tab cur ready waits -> linv main idle V C tab cur ready waits'.
Proof. intros He []. split; auto; intros; rewrite ?He in *; eauto. Qed.

Lemma running_thr st ready waits :
  sched_inv main idle st ready waits -> exists t, thrs st !! curthr st = Some t /\ tstate t = THREAD_RUNNING.
Proof.
  intros [_ (v & Hv & Hs)]. destruct (lookup_of_view _ _ _ Hv) as (t & Ht & <-). eauto.
Qed.

Lemma ready_cons st ready waits :
  tinv main idle st ready waits -> curthr st <> idle -> exists x r, ready = x :: r.
Proof.
  intros HI Hne. destruct (l_idle _ _ _ _ _ _ _ _ (t_linv _ _ _ _ _ HI)) as [Hi|Hi]; [congruence|].
  destruct ready as [|x r]; [by apply elem_of_nil in Hi|]. eauto.
Qed.

Lemma requeued_running st t : thrs st !! curthr st = Some t -> tstate t = THREAD_RUNNING -> requeued st = [curthr st].
Proof. intros Ht Hs. unfold requeued. by rewrite Ht, decide_True. Qed.
Lemma requeued_stopped st t : thrs st !! curthr st = Some t -> tstate t <> THREAD_RUNNING -> requeued st = [].
Proof. intros Ht Hs. unfold requeued. by rewrite Ht, decide_False. Qed.

Lemma insert_is_Some (C : gmap cond_id condition) c cd c' : is_Some (C !! c') -> is_Some (<[c := cd]> C !! c').
Proof. intros H. destruct (decide (c' = c)) as [->|]; [rewrite lookup_insert_eq; eauto|by rewrite lookup_insert_ne]. Qed.

(** ** Yielding and waiting *)

Lemma thread_yield_spec st x ready waits :
  sched_inv main idle st (x :: ready) waits ->
  exists st', thread_yield mtag st = Ret st' /\ curthr st' = x /\ same_tables st st' /\
    sched_inv main idle st' (ready ++ [curthr st]) waits.
Proof.
  intros HI. destruct (running_thr _ _ _ HI) as (t & Ht & Hs). unfold thread_yield.
  rewrite (get_thr_spec _ _ t) by done. cbn [obind]. rewrite bool_decide_true by done.
  destruct (suspend_self_spec st x ready waits t) as (st' & Hr & Hc & Ht' & HI' & _); [apply HI|intros _; apply HI|done|congruence|].
  rewrite (requeued_running st t) in HI' by done. eauto.
Qed.

Lemma condition_wait_spec st ready waits c :
  sched_inv main idle st ready waits -> curthr st <> idle -> is_Some (conds st !! c) ->
  (forall p, c = ChildExit p -> p = curthr st) ->
  exists x r st', ready = x :: r /\ condition_wait mtag st c = Ret st' /\ curthr st' = x /\ thrtab st' = thrtab st /\
    (forall c', is_Some (conds st !! c') -> is_Some (conds st' !! c')) /\
    sched_inv main idle st' r (waits_add waits c (curthr st)).
Proof.
  intros HI Hidle [cd Hcd] Hown. destruct (ready_cons st ready waits (proj1 HI) Hidle) as (x & r & ->).
  destruct (running_thr _ _ _ HI) as (t & Ht & Hs). destruct HI as [[HL Hr Hc] _].
  set (cur := curthr st) in *. set (t1 := set_next None (set_wait (Some c) (set_state THREAD_WAITING t))).
  set (m1 := <[cur := t1]> (thrs st)).
  assert (Hvc : views (thrs st) !! cur = Some (vw t)) by (by rewrite lookup_views, Ht).
  assert (Hnw : forall c', cur ∉ waits c').
  { intros c' Hin. apply (l_wait _ _ _ _ _ _ _ _ HL) in Hin as (w & Hw & Hs' & _). rewrite Hvc in Hw.
    injection Hw as <-. cbn in Hs'. congruence. }
  assert (Hnr : cur ∉ x :: r).
  { intros Hin. apply (l_ready _ _ _ _ _ _ _ _ HL) in Hin as (w & Hw & Hs'). rewrite Hvc in Hw.
    injection Hw as <-. cbn in Hs'. congruence. }
  assert (Hrep1 : tl_rep m1 (wait_list cd) (waits c)).
  { apply (tl_rep_frame (thrs st)); [|by apply Hc]. intros y Hy. unfold m1. rewrite lookup_insert_ne; [done|].
    intros <-. by apply (Hnw c). }
  destruct (tlinsert_spec m1 (wait_list cd) (waits c) cur Hrep1) as (m2 & l2 & Hins & Hrep2 & HV2 & Hf2);
    [apply (l_wait_nd _ _ _ _ _ _ _ _ HL)|apply Hnw|unfold m1; rewrite lookup_insert_eq; eauto|].
  unfold condition_wait. fold cur. rewrite (get_thr_spec _ _ t) by done. cbn [obind].
  rewrite bool_decide_true by done. rewrite (upd_thr_spec _ _ _ t) by done. cbn [obind]. fold t1. fold m1.
  destruct (intr_disable _) as [ss saved]. unfold get_cond. cbn [with_thrs with_ready conds].
  rewrite Hcd. cbn [obind]. change (curthr (with_thrs st m1)) with cur.
  change (thrs (with_thrs st m1)) with m1. rewrite Hins. cbn [obind].
  set (C2 := <[c := {| cond_name := cond_name cd; wait_list := l2 |}]> (conds st)).
  set (st2 := with_sstatus _ _).
  assert (Hfr : forall y, y ∉ waits c ++ [cur] -> list_next <$> m2 !! y = list_next <$> thrs st !! y).
  { intros y Hy. rewrite Hf2 by done. unfold m1. rewrite lookup_insert_ne; [done|]. intros <-. apply Hy. set_solver. }
  assert (HI2 : tinv main idle st2 (x :: r) (waits_add waits c cur)).
  { split; cbn [st2 with_sstatus with_conds thrs conds thrtab curthr ready_list].
    - rewrite HV2. unfold m1. rewrite views_insert. apply (linv_C _ (conds st)); [intros; by apply insert_is_Some|].
      apply (linv_wait main idle _ _ _ cur _ _ (vw t) c); auto; eauto.
    - apply (tl_rep_frame (thrs st)); [|done]. intros y Hy. apply Hfr. rewrite elem_of_app, list_elem_of_singleton.
      intros [Hy'| ->]; [|done]. by apply (waiter_not_ready _ _ _ _ _ _ _ _ HL Hy').
    - intros c' cd' Hcd'. unfold waits_add. destruct (decide (c' = c)) as [->|Hne].
      + unfold C2 in Hcd'. rewrite lookup_insert_eq in Hcd'. injection Hcd' as <-. exact Hrep2.
      + unfold C2 in Hcd'. rewrite lookup_insert_ne in Hcd' by done.
        apply (tl_rep_frame (thrs st)); [|by apply Hc]. intros y Hy. apply Hfr.
        rewrite elem_of_app, list_elem_of_singleton. intros [Hy'| ->]; [|by apply (Hnw c')].
        apply (l_wait _ _ _ _ _ _ _ _ HL) in Hy as (w & Hw & _ & Hwc).
        apply (l_wait _ _ _ _ _ _ _ _ HL) in Hy' as (w' & Hw' & _ & Hwc'). congruence. }
  assert (Ht2 : exists t2, thrs st2 !! curthr st2 = Some t2 /\ tstate t2 = THREAD_WAITING).
  { cbn [st2 with_sstatus with_conds thrs curthr]. fold cur.
    assert (Hv2 : views m2 !! cur = Some (vw t1)) by (rewrite HV2; unfold m1; by rewrite views_insert, lookup_insert_eq).
    destruct (lookup_of_view _ _ _ Hv2) as (t2 & Ht2 & Hvw2). exists t2. split; [done|].
    by apply (f_equal v_state) in Hvw2. }
  destruct Ht2 as (t2 & Ht2 & Hs2).
  destruct (suspend_self_spec st2 x r _ t2 HI2 (fun Hi => False_ind _ (Hidle Hi)) Ht2)
    as (st3 & Hsus & Hcur3 & [HC3 HT3] & HI3 & _); [congruence|].
  rewrite (requeued_stopped st2 t2), app_nil_r in HI3 by (done || congruence).
  exists x, r, st3. split_and!; auto. intros c' Hc'. rewrite HC3. by apply insert_is_Some.
Qed.

(** ** Broadcasting *)

Definition wake (t : thread) : thread := set_wait None (set_state THREAD_READY t).

Lemma wake_all_spec c xs : forall fuel m, (length xs <= fuel)%nat -> NoDup xs -> links m xs ->
  (forall x, x ∈ xs -> waits_on (views m) x c) ->
  exists m', wake_all fuel m c (head xs) = Ret m' /\
    forall y, m' !! y = if decide (y ∈ xs) then wake <$> m !! y else m !! y.
Proof.
  induction xs as [|x xs IH]; intros fuel m Hf Hnd Hl Hw; cbn [head].
  { exists m. split; [by destruct fuel|]. intros y. by rewrite decide_False by apply not_elem_of_nil. }
  destruct fuel as [|fuel]; [cbn in Hf; lia|]. cbn [wake_all].
  destruct (Hw x ltac:(by left)) as (v & Hv & Hs & Hc). destruct (lookup_of_view _ _ _ Hv) as (t & Ht & <-).
  rewrite (get_thr_spec _ _ t) by done. cbn [obind]. cbn in Hs, Hc. rewrite !bool_decide_true by done.
  rewrite (upd_thr_spec _ _ _ t) by done. cbn [obind]. fold (wake t).
  cbn [links] in Hl. destruct Hl as [Hx Hl]. rewrite Ht in Hx. cbn in Hx. injection Hx as ->.
  apply NoDup_cons in Hnd as [Hnx Hnd].
  destruct (IH fuel (<[x := wake t]> m)) as (m' & -> & Hm'); auto; [cbn in Hf; lia| | |].
  - eapply links_frame; [|done]. intros y Hy. apply list_next_insert. by intros ->.
  - intros y Hy. rewrite views_insert, waits_on_insert. right. split; [by intros ->|]. apply Hw. by right.
  - exists m'. split; [done|]. intros y. rewrite Hm'. destruct (decide (y = x)) as [->|Hne].
    + rewrite decide_False by done. rewrite decide_True by by left. by rewrite lookup_insert_eq, Ht.
    + rewrite lookup_insert_ne by done. apply decide_ext. rewrite elem_of_cons. naive_solver.
Qed.

Lemma waiters_bounded V C tab cur ready waits c :
  linv main idle V C tab cur ready waits -> (length (waits c) <= size V)%nat.
Proof.
  intros H. rewrite <- (size_list_to_set (C := gset Z)) by apply (l_wait_nd _ _ _ _ _ _ _ _ H).
  rewrite <- (size_dom V (D := gset Z)). apply subseteq_size. intros x. rewrite elem_of_list_to_set, elem_of_dom.
  intros (v & Hv & _)%(l_wait _ _ _ _ _ _ _ _ H). eauto.
Qed.

Lemma condition_broadcast_spec st ready waits c :
  tinv main idle st ready waits -> is_Some (conds st !! c) ->
  exists st', condition_broadcast st c = Ret st' /\ curthr st' = curthr st /\ thrtab st' = thrtab st /\
    (forall c', is_Some (conds st !! c') -> is_Some (conds st' !! c')) /\
    (forall y, y ∉ waits c -> views (thrs st') !! y = views (thrs st) !! y) /\
    tinv main idle st' (ready ++ waits c) (waits_clear waits c).
Proof.
  intros [HL Hr Hc] [cd Hcd]. pose proof (Hc c cd Hcd) as Hrep.
  unfold condition_broadcast, get_cond. rewrite Hcd. cbn [obind]. rewrite (tlempty_rep _ _ _ Hrep).
  case_bool_decide as He.
  { exists st. split_and!; auto. rewrite He, app_nil_r. split; [|done|].
    - eapply linv_ext; [|done]. intros c'. unfold waits_clear. destruct (decide _); congruence.
    - intros c' cd' Hcd'. unfold waits_clear. destruct (decide (c' = c)) as [->|]; [|by apply Hc].
      rewrite <- He. by apply Hc. }
  destruct (intr_disable _) as [ss saved].
  destruct Hrep as (Hh & Htl & Hlk).
  destruct (wake_all_spec c (waits c) (S (size (thrs st))) (thrs st)) as (m1 & Hwk & Hm1); auto.
  { pose proof (waiters_bounded _ _ _ _ _ _ c HL) as Hb. unfold views in Hb. rewrite map_size_fmap in Hb. lia. }
  { apply (l_wait_nd _ _ _ _ _ _ _ _ HL). }
  { intros x Hx. by apply (l_wait _ _ _ _ _ _ _ _ HL). }
  rewrite Hh, Hwk. cbn [obind].
  assert (HN1 : forall y, list_next <$> m1 !! y = list_next <$> thrs st !! y).
  { intros y. rewrite Hm1. destruct (decide _); [|done]. by destruct (thrs st !! y). }
  pose proof (linv_wake main idle (views (thrs st)) (views m1) _ _ _ _ _ c HL) as HL1.
  specialize (HL1 ltac:(intros y; rewrite !lookup_views, Hm1; destruct (decide _); [by destruct (thrs st !! y)|done])).
  destruct (tlappend_spec m1 (ready_list st) (wait_list cd) ready (waits c)) as (m2 & l2 & Happ & Hr2 & HV2 & Hf2).
  { apply (tl_rep_frame (thrs st)); auto. }
  { apply (tl_rep_frame (thrs st)); auto. }
  { apply (l_ready_nd _ _ _ _ _ _ _ _ HL1). }
  rewrite Happ. cbn [obind]. eexists. split; [done|]. split; [done|]. split; [done|].
  cbn [with_sstatus with_conds with_ready thrs conds thrtab curthr ready_list]. split.
  { intros c' Hc'. by apply insert_is_Some. }
  split.
  { intros y Hy. rewrite HV2, !lookup_views, Hm1. by rewrite decide_False. }
  split; cbn [with_sstatus with_conds with_ready thrs conds thrtab curthr ready_list].
  - rewrite HV2. apply (linv_C _ (conds st)); [intros; by apply insert_is_Some|exact HL1].
  - exact Hr2.
  - intros c' cd' Hcd'. unfold waits_clear. destruct (decide (c' = c)) as [->|Hne].
    + rewrite lookup_insert_eq in Hcd'. injection Hcd' as <-. done.
    + rewrite lookup_insert_ne in Hcd' by done. apply (tl_rep_frame (thrs st)); [|by apply Hc].
      intros y Hy. rewrite Hf2; [apply HN1|]. by apply (waiter_not_ready _ _ _ _ _ _ _ _ HL Hy).
Qed.

(** ** Exit *)

Lemma thread_exit_spec st ready waits :
  sched_inv main idle st ready waits -> curthr st <> idle -> curthr st <> main ->
  exists st' p x r, thread_exit mtag main st = Ret (Some st') /\ ready ++ waits (ChildExit p) = x :: r /\
    (exists t, thrs st !! curthr st = Some t /\ parent t = Some p) /\ curthr st' = x /\ thrtab st' = thrtab st /\
    has_state (views (thrs st')) (curthr st) THREAD_EXITED /\
    sched_inv main idle st' r (waits_clear waits (ChildExit p)) /\ keeps st st'.
Proof.
  intros HI Hidle Hmain. destruct (running_thr _ _ _ HI) as (t & Ht & Hs). destruct HI as [[HL Hr Hc] _].
  unfold thread_exit. replace (curthr st =? main) with false by (symmetry; lia).
  rewrite (upd_thr_spec _ _ _ t) by done. cbn [obind].
  set (cur := curthr st) in *. set (m1 := <[cur := set_state THREAD_EXITED t]> (thrs st)).
  change (thrs (with_thrs st m1)) with m1. change (curthr (with_thrs st m1)) with cur.
  rewrite (get_thr_spec m1 cur (set_state THREAD_EXITED t)) by (unfold m1; by rewrite lookup_insert_eq). cbn [obind].
  assert (Hvc : views (thrs st) !! cur = Some (vw t)) by (by rewrite lookup_views, Ht).
  destruct (l_parent _ _ _ _ _ _ _ _ HL cur (vw t) Hvc Hmain) as (p & Hp & Hps). cbn in Hp.
  change (parent (set_state THREAD_EXITED t)) with (parent t). rewrite Hp.
  assert (HI1 : tinv main idle (with_thrs st m1) ready waits).
  { assert (HN : forall y, list_next <$> m1 !! y = list_next <$> thrs st !! y) by (intros y; by apply (next_upd _ _ t)).
    split; cbn [with_thrs with_ready thrs conds thrtab curthr ready_list].
    - unfold m1. rewrite views_insert. by apply (linv_exit main idle _ _ _ _ _ _ (vw t)).
    - apply (tl_rep_frame (thrs st)); auto.
    - intros c cd Hcd. apply (tl_rep_frame (thrs st)); auto. }
  destruct (condition_broadcast_spec _ _ _ (ChildExit p) HI1) as (st2 & Hb & Hcur2 & Htab2 & HC2 & HV2 & HI2).
  { by apply (l_child _ _ _ _ _ _ _ _ HL). }
  rewrite Hb. cbn [obind]. change (curthr (with_thrs st m1)) with cur in Hcur2.
  assert (Hncur : cur ∉ waits (ChildExit p)).
  { intros Hin. apply (l_wait _ _ _ _ _ _ _ _ HL) in Hin as (w & Hw & Hs' & _). rewrite Hvc in Hw.
    injection Hw as <-. cbn in Hs'. congruence. }
  specialize (HV2 cur Hncur). cbn [with_thrs with_ready thrs] in HV2. unfold m1 in HV2.
  rewrite views_insert, lookup_insert_eq in HV2.
  destruct (lookup_of_view _ _ _ HV2) as (t2 & Ht2 & Hvw2). apply (f_equal v_state) in Hvw2. cbn in Hvw2.
  destruct (ready_cons st2 _ _ HI2) as (x & r & Hxr); [congruence|]. rewrite Hxr in HI2.
  rewrite <- Hcur2 in Ht2.
  destruct (suspend_self_spec st2 x r _ t2 HI2) as (st3 & Hsus & Hcur3 & [HC3 HT3] & HI3 & HV3);
    auto; [congruence|congruence|].
  rewrite Hsus. cbn [obind]. rewrite (requeued_stopped st2 t2), app_nil_r in HI3 by (done || congruence).
  exists st3, p, x, r. split_and!; auto; [eauto|by rewrite HT3, Htab2| |].
  2:{ intros a Ha. rewrite HC3. by apply HC2. }
  exists (vw (set_state THREAD_EXITED t)). split; [|done]. rewrite HV3; [done|congruence|].
  intros Hcx. assert (Hin : cur ∈ x :: r) by (rewrite Hcx; by left). rewrite <- Hxr in Hin.
  apply elem_of_app in Hin as [Hin|Hin]; [|done].
  apply (l_ready _ _ _ _ _ _ _ _ HL) in Hin as (w & Hw & Hs'). rewrite Hvc in Hw. injection Hw as <-. cbn in Hs'. congruence.
Qed.

(** ** Creation *)

Lemma find_free_spec rest i :
  exists k, find_free rest i = i + Z.of_nat k /\ (k <= length rest)%nat /\ ((k < length rest)%nat -> rest !! k = Some None).
Proof.
  revert i; induction rest as [|[x|] rest IH]; intros i; cbn [find_free].
  - exists 0%nat. cbn. split_and!; lia.
  - destruct (IH (i + 1)) as (k & -> & Hk & Hn). exists (S k). cbn. split_and!; [lia|lia|]. intros. apply Hn. lia.
  - exists 0%nat. cbn. split_and!; try lia. done.
Qed.

(** A thread is ready but not yet on the ready list. *)
Definition pending (st : tsys) (ready : list Z) (waits : cond_id -> list Z) (child : Z) : Prop :=
  linv main idle (views (thrs st)) (conds st) (thrtab st) (curthr st) (ready ++ [child]) waits /\
  tl_rep (thrs st) (ready_list st) ready /\ conds_rep (thrs st) (conds st) waits /\ running st.

(** Room for a thread: the slot [create_thread] will take. *)
Definition free_slot (st : tsys) : Z := find_free (drop 1 (thrtab st)) 1.

Lemma create_thread_spec st ready waits child mem ce page name pr :
  sched_inv main idle st ready waits -> thrs st !! child = None -> wait_list ce = tl_nil -> free_slot st < NTHR ->
  exists st', create_thread st child mem ce page name pr = Ret st' /\ pending st' ready waits child /\
    curthr st' = curthr st /\ ready_list st' = ready_list st /\
    0 < free_slot st /\ (exists t, thrs st' !! child = Some t /\ tid t = free_slot st /\ proc t = pr /\
      parent t = Some (curthr st) /\ stack_base t = page + PAGE_SIZE - 16) /\
    thrtab st !! Z.to_nat (free_slot st) = Some None /\
    thrtab st' = <[Z.to_nat (free_slot st) := Some child]> (thrtab st) /\ keeps st st'.
Proof.
  intros [[HL Hr Hc] Hrun] Hnew Hce Hfree. unfold create_thread. fold (free_slot st).
  assert (Hnewv : views (thrs st) !! child = None) by (by rewrite lookup_views, Hnew).
  destruct (find_free_spec (drop 1 (thrtab st)) 1) as (k & Hk & Hkl & Hkn). fold (free_slot st) in Hk.
  pose proof (l_tab_len _ _ _ _ _ _ _ _ HL) as Hlen. unfold NTHR in *. rewrite length_drop in *.
  assert (Hslot : thrtab st !! S k = Some None).
  { rewrite <- (Hkn ltac:(lia)), lookup_drop. done. }
  destruct (Z.eqb_spec (free_slot st) 16); [lia|].
  rewrite store_lt by lia. cbn [obind]. replace (Z.to_nat (free_slot st)) with (S k) by lia.
  eexists. split; [done|]. split; [|split_and!; auto; [lia| |]].
  2:{ eexists. cbn. rewrite lookup_insert_eq. split_and!; done. }
  2:{ intros a Ha. cbn. by apply insert_is_Some. }
  set (t := {| context := _ |}).
  assert (HN : forall y, y <> child -> list_next <$> (<[child := t]> (thrs st)) !! y = list_next <$> thrs st !! y)
    by (intros; by apply list_next_insert).
  split_and!; cbn [with_conds with_tab thrs conds thrtab curthr ready_list].
  - rewrite views_insert. apply (linv_spawn main idle); auto. cbn. lia.
  - apply (tl_rep_frame (thrs st)); [|done]. intros y Hy. apply HN. intros ->.
    apply (l_ready _ _ _ _ _ _ _ _ HL) in Hy as (w & Hw & _). congruence.
  - assert (Hempty : waits (ChildExit child) = []).
    { destruct (waits (ChildExit child)) as [|y ys] eqn:E; [done|]. assert (Hy : y ∈ waits (ChildExit child)) by (rewrite E; by left).
      pose proof (l_own _ _ _ _ _ _ _ _ HL _ _ Hy). subst y.
      apply (l_wait _ _ _ _ _ _ _ _ HL) in Hy as (w & Hw & _). congruence. }
    intros c cd Hcd. destruct (decide (c = ChildExit child)) as [->|Hne].
    + rewrite lookup_insert_eq in Hcd. injection Hcd as <-. by rewrite Hempty, Hce.
    + rewrite lookup_insert_ne in Hcd by done. apply (tl_rep_frame (thrs st)); [|by apply Hc].
      intros y Hy. apply HN. intros ->. apply (l_wait _ _ _ _ _ _ _ _ HL) in Hy as (w & Hw & _). congruence.
  - destruct Hrun as (v & Hv & Hs). exists v. split; [|done]. cbn. rewrite views_insert, lookup_insert_ne; [done|congruence].
Qed.

Lemma pending_eqv st st' ready waits child :
  eqv (thrs st) (thrs st') -> same_tables st st' -> ready_list st' = ready_list st -> curthr st' = curthr st ->
  pending st ready waits child -> pending st' ready waits child.
Proof.
  intros [HV HN] [HC HT] HR Hcur (HL & Hr & Hc & Hrun). unfold pending, running. rewrite HV, HC, HT, Hcur, HR. split_and!; auto.
  - eapply tl_rep_frame; eauto.
  - intros c cd Hcd. eapply tl_rep_frame; [|by apply Hc]. auto.
Qed.

Lemma make_ready_spec st ready waits child :
  pending st ready waits child ->
  exists st', make_ready st child = Ret st' /\ sched_inv main idle st' (ready ++ [child]) waits /\
    curthr st' = curthr st /\ thrtab st' = thrtab st /\ views (thrs st') = views (thrs st) /\ keeps st st'.
Proof.
  intros (HL & Hr & Hc & Hrun). unfold make_ready. destruct (intr_disable _) as [ss saved].
  pose proof (l_ready_nd _ _ _ _ _ _ _ _ HL) as Hnd. apply NoDup_app in Hnd as (Hnd & Hd & _).
  destruct (tlinsert_spec (thrs st) (ready_list st) ready child) as (m & l & Hins & Hr2 & HV & Hf); auto.
  { intros Hin. apply (Hd child Hin). by left. }
  { apply is_Some_views. destruct (proj1 (l_ready _ _ _ _ _ _ _ _ HL child)) as (w & Hw & _); [set_solver|]. eauto. }
  rewrite Hins. cbn [obind]. eexists. split; [done|]. split; [|split_and!; [done|done|exact HV|by apply keeps_eq]].
  split; [|unfold running; cbn [with_sstatus with_ready thrs curthr]; by rewrite HV].
  split; cbn [with_sstatus with_ready thrs conds thrtab curthr ready_list]; [by rewrite HV|done|].
  intros c cd Hcd. apply (tl_rep_frame (thrs st)); [|by apply Hc]. intros y Hy. rewrite Hf; [done|].
  by apply (waiter_not_ready _ _ _ _ _ _ _ _ HL Hy).
Qed.

Lemma thread_spawn_spec st ready waits child mem ce page name :
  sched_inv main idle st ready waits -> thrs st !! child = None -> wait_list ce = tl_nil -> free_slot st < NTHR ->
  exists st', thread_spawn st child mem ce page name = Ret (st', free_slot st) /\
    sched_inv main idle st' (ready ++ [child]) waits /\ curthr st' = curthr st /\
    thrtab st' = <[Z.to_nat (free_slot st) := Some child]> (thrtab st) /\ keeps st st'.
Proof.
  intros HI Hnew Hce Hfree. destruct (running_thr _ _ _ HI) as (tc & Htc & _). unfold thread_spawn.
  rewrite (get_thr_spec _ _ tc) by done. cbn [obind].
  destruct (create_thread_spec st ready waits child mem ce page name (proc tc) HI Hnew Hce Hfree)
    as (st1 & -> & Hp1 & Hcur1 & _ & _ & (t1 & Ht1 & Hid1 & _) & _ & Htab1 & Hk1). cbn [obind].
  destruct (make_ready_spec st1 ready waits child Hp1) as (st2 & -> & HI2 & Hcur2 & Htab2 & HV2 & Hk2). cbn [obind].
  unfold _thread_setup.
  assert (Hv2 : views (thrs st2) !! child = Some (vw t1)) by (by rewrite HV2, lookup_views, Ht1).
  destruct (lookup_of_view _ _ _ Hv2) as (t2 & Ht2 & Hvw2). apply (f_equal v_tid) in Hvw2. cbn in Hvw2.
  rewrite (upd_thr_spec _ _ _ t2) by done. cbn [obind].
  rewrite (get_thr_spec _ child (set_context None t2)) by (cbn; by rewrite lookup_insert_eq). cbn [obind].
  eexists. split; [by rewrite <- Hid1, <- Hvw2|]. split_and!; cbn; [|congruence|congruence|exact (keeps_trans _ _ _ Hk1 Hk2)].
  assert (He : eqv (thrs st2) (<[child := set_context None t2]> (thrs st2))) by by apply (eqv_insert _ _ t2).
  destruct HI2 as [HI2 Hrun2]. split; [by apply (tinv_eqv _ _ st2)|]. unfold running. cbn [with_thrs with_ready thrs curthr]. by rewrite (proj1 He).
Qed.

(** The parent goes behind the new child. *)
Lemma thread_fork_to_user_spec st x ready waits child mem ce page cp :
  sched_inv main idle st (x :: ready) waits -> thrs st !! child = None -> wait_list ce = tl_nil -> free_slot st < NTHR ->
  exists st', thread_fork_to_user mtag st child mem ce page cp = Ret (st', free_slot st) /\ curthr st' = x /\
    sched_inv main idle st' (ready ++ [child; curthr st]) waits /\ keeps st st'.
Proof.
  intros HI Hnew Hce Hfree. unfold thread_fork_to_user.
  destruct (create_thread_spec st (x :: ready) waits child mem ce page (Some (cstr "fork_thread")) (Some cp) HI Hnew Hce Hfree)
    as (st1 & -> & Hp1 & Hcur1 & _ & _ & (t1 & Ht1 & Hid1 & _) & _ & Htab1 & Hk1). cbn [obind].
  rewrite (get_thr_spec _ _ t1) by done. cbn [obind]. rewrite (upd_thr_spec _ _ _ t1) by done. cbn [obind].
  unfold _thread_setup. cbn [with_thrs with_ready thrs].
  rewrite (upd_thr_spec _ _ _ (set_proc (Some cp) t1)) by by rewrite lookup_insert_eq. cbn [obind].
  set (st2 := with_thrs (with_thrs st1 _) _).
  assert (Hp2 : pending st2 (x :: ready) waits child).
  { apply (pending_eqv st1); try done. cbn. rewrite insert_insert_eq. by apply (eqv_insert _ _ t1). }
  destruct (make_ready_spec st2 _ _ _ Hp2) as (st3 & -> & HI3 & Hcur3 & _ & _ & Hk3). cbn [obind].
  destruct (thread_yield_spec st3 x (ready ++ [child]) waits HI3) as (st4 & -> & Hcur4 & [HC4 _] & HI4). cbn [obind].
  exists st4. rewrite Hid1. split; [done|]. split; [done|].
  split; [|apply (keeps_trans _ _ _ Hk1), (keeps_trans _ st3); [exact Hk3|by apply keeps_eq]].
  rewrite <- app_assoc in HI4. cbn [app] in HI4. rewrite Hcur3 in HI4. cbn in HI4. by rewrite Hcur1 in HI4.
Qed.

(** ** Recycling and joining *)

Definition rp (thr : Z) (new : option Z) (t : thread) : thread :=
  if decide (parent t = Some thr) then set_parent new t else t.

Lemma reparent_spec rest : forall m thr new,
  new <> Some thr -> (forall x, Some x ∈ rest -> is_Some (m !! x)) ->
  exists m', reparent rest m thr new = Ret m' /\
    forall y, m' !! y = if decide (Some y ∈ rest) then rp thr new <$> m !! y else m !! y.
Proof.
  induction rest as [|[x|] rest IH]; intros m thr new Hne Hm; cbn [reparent].
  - exists m. split; [done|]. intros y. by rewrite decide_False by apply not_elem_of_nil.
  - destruct (Hm x ltac:(by left)) as [t Ht]. rewrite (get_thr_spec _ _ t) by done. cbn [obind].
    assert (Hstep : (if decide (parent t = Some thr) then upd_thr m x (set_parent new) else Ret m)
      = Ret (<[x := rp thr new t]> m)).
    { unfold rp. destruct (decide _); [by apply upd_thr_spec|]. by rewrite insert_id. }
    rewrite Hstep. cbn [obind].
    destruct (IH (<[x := rp thr new t]> m) thr new Hne) as (m' & -> & Hm').
    { intros y Hy. destruct (decide (y = x)) as [->|]; [rewrite lookup_insert_eq; eauto|].
      rewrite lookup_insert_ne by done. apply Hm. by right. }
    exists m'. split; [done|]. intros y. rewrite Hm'. destruct (decide (y = x)) as [->|Hyx].
    + rewrite lookup_insert_eq, Ht. rewrite (decide_True (P := Some x ∈ Some x :: rest)) by by left. cbn.
      destruct (decide (Some x ∈ rest)); [|done]. f_equal. unfold rp. destruct (decide (parent t = Some thr)) as [E|E].
      * rewrite decide_False; [done|]. done.
      * by rewrite decide_False.
    + rewrite lookup_insert_ne by done. apply decide_ext. rewrite elem_of_cons. naive_solver.
  - destruct (IH m thr new Hne) as (m' & -> & Hm'); [intros x Hx; apply Hm; by right|].
    exists m'. split; [done|]. intros y. rewrite Hm'. apply decide_ext. rewrite elem_of_cons. naive_solver.
Qed.

Lemma recycle_thread_spec st ready waits i thr t :
  sched_inv main idle st ready waits -> thrtab st !! i = Some (Some thr) -> (0 < i)%nat -> thrs st !! thr = Some t ->
  tstate t = THREAD_EXITED -> parent t = Some (curthr st) ->
  exists st', recycle_thread st (Z.of_nat i) = Ret st' /\ sched_inv main idle st' ready waits /\
    curthr st' = curthr st /\ thrtab st' = <[i := None]> (thrtab st) /\ thrs st' !! thr = None /\ keeps st st'.
Proof.
  intros [[HL Hr Hc] Hrun] Hi Hpos Hthr Hex Hpar. pose proof (lookup_lt_Some _ _ _ Hi) as Hlt.
  pose proof (l_tab_len _ _ _ _ _ _ _ _ HL) as Hlen.
  assert (Hvt : views (thrs st) !! thr = Some (vw t)) by (by rewrite lookup_views, Hthr).
  assert (Hct : curthr st <> thr).
  { intros Hct. destruct Hrun as (w & Hw & Hs). rewrite Hct in Hw. rewrite Hvt in Hw. injection Hw as <-. cbn in Hs. congruence. }
  unfold recycle_thread, tab_get.
  replace (load (thrtab st) (Z.of_nat i)) with (Ret (Some thr))
    by (symmetry; apply load_Ret; rewrite Nat2Z.id; split; [lia|done]).
  cbn [obind]. replace ((0 <? Z.of_nat i) && (Z.of_nat i <? NTHR)) with true by (symmetry; lia).
  rewrite (get_thr_spec _ _ t) by done. cbn [obind]. rewrite bool_decide_true by done. rewrite Hpar.
  destruct (reparent_spec (drop 1 (thrtab st)) (thrs st) thr (Some (curthr st))) as (m' & Hrp & Hm'); [congruence| |].
  { intros x [j Hj]%list_elem_of_lookup. rewrite lookup_drop in Hj.
    apply (l_tab _ _ _ _ _ _ _ _ HL) in Hj as (w & Hw & _). apply is_Some_views. eauto. }
  rewrite Hrp. cbn [obind]. rewrite store_lt, Nat2Z.id by lia. cbn [obind]. eexists. split; [done|].
  cbn [with_conds with_tab thrs conds thrtab curthr ready_list]. split.
  2:{ rewrite lookup_delete_eq. split_and!; [done|done|done|]. intros a Ha. cbn. by rewrite lookup_delete_ne. }
  assert (HN : forall y, y <> thr -> list_next <$> (delete thr m') !! y = list_next <$> thrs st !! y).
  { intros y Hy. rewrite lookup_delete_ne, Hm' by done. destruct (decide _); [|done].
    destruct (thrs st !! y) as [ty|]; [|done]. cbn. unfold rp. by destruct (decide _). }
  assert (HV : forall y, views (delete thr m') !! y
    = if decide (y = thr) then None else reparented thr (Some (curthr st)) <$> views (thrs st) !! y).
  { intros y. rewrite !lookup_views. destruct (decide (y = thr)) as [->|Hy]; [by rewrite lookup_delete_eq|].
    rewrite lookup_delete_ne, Hm' by done. destruct (thrs st !! y) as [ty|] eqn:Hty; [|by destruct (decide _)].
    assert (Hvy : views (thrs st) !! y = Some (vw ty)) by (by rewrite lookup_views, Hty).
    destruct (decide (Some y ∈ drop 1 (thrtab st))) as [Hin|Hin]; cbn; f_equal; unfold reparented, rp; cbn.
    - by destruct (decide _).
    - destruct (decide (parent ty = Some thr)) as [Hpt|]; [|done]. exfalso.
      destruct (decide (y = main)) as [->|Hym].
      + destruct (l_main _ _ _ _ _ _ _ _ HL) as (w & Hw & _ & Hwp & _). rewrite Hvy in Hw. injection Hw as <-. cbn in Hwp. congruence.
      + pose proof (l_nat _ _ _ _ _ _ _ _ HL y _ Hvy) as Hnat. cbn in Hnat.
        assert (Hslot : thrtab st !! Z.to_nat (tid ty) = Some (Some y)).
        { apply (l_tab _ _ _ _ _ _ _ _ HL). exists (vw ty). split; [done|]. cbn. lia. }
        destruct (Z.to_nat (tid ty)) as [|j] eqn:Hj.
        * destruct (l_main _ _ _ _ _ _ _ _ HL) as (w & Hw & _ & _ & Hwt).
          pose proof (proj2 (l_tab _ _ _ _ _ _ _ _ HL 0%nat main) (ex_intro _ w (conj Hw Hwt))). congruence.
        * apply Hin. apply list_elem_of_lookup. exists j. by rewrite lookup_drop. }
  split.
  - split; cbn [with_conds with_tab thrs conds thrtab curthr ready_list].
    + by apply (linv_recycle main idle (views (thrs st)) _ _ _ _ _ _ thr (vw t) i HL Hrun Hvt Hex Hpar Hi).
    + apply (tl_rep_frame (thrs st)); [|done]. intros y Hy. apply HN. intros ->.
      apply (l_ready _ _ _ _ _ _ _ _ HL) in Hy as (w & Hw & Hs). rewrite Hvt in Hw. injection Hw as <-. cbn in Hs. congruence.
    + intros c cd [_ Hcd]%lookup_delete_Some. apply (tl_rep_frame (thrs st)); [|by apply Hc]. intros y Hy. apply HN.
      intros ->. apply (l_wait _ _ _ _ _ _ _ _ HL) in Hy as (w & Hw & Hs & _). rewrite Hvt in Hw. injection Hw as <-.
      cbn in Hs. congruence.
  - destruct Hrun as (w & Hw & Hs). exists (reparented thr (Some (curthr st)) w). cbn. rewrite HV, decide_False, Hw by done.
    split; [done|]. unfold reparented. by destruct (decide _).
Qed.

(** [thread_join] on a child: it returns once the child has exited, with the
    slot free, and otherwise waits. *)
Lemma thread_join_spec st ready waits i thr t :
  sched_inv main idle st ready waits -> curthr st <> idle ->
  thrtab st !! i = Some (Some thr) -> (0 < i)%nat -> thrs st !! thr = Some t -> parent t = Some (curthr st) ->
  if decide (tstate t = THREAD_EXITED) then
    exists st', thread_join mtag st (Z.of_nat i) = Ret (inl (st', Z.of_nat i)) /\ sched_inv main idle st' ready waits /\
      curthr st' = curthr st /\ thrtab st' = <[i := None]> (thrtab st) /\ keeps st st'
  else
    exists st' x r, thread_join mtag st (Z.of_nat i) = Ret (inr st') /\ ready = x :: r /\ curthr st' = x /\
      thrtab st' = thrtab st /\ sched_inv main idle st' r (waits_add waits (ChildExit (curthr st)) (curthr st)) /\
      keeps st st'.
Proof.
  intros HI Hidle Hi Hpos Ht Hp. pose proof (lookup_lt_Some _ _ _ Hi) as Hlt.
  pose proof (l_tab_len _ _ _ _ _ _ _ _ (t_linv _ _ _ _ _ (proj1 HI))) as Hlen.
  assert (Hj : thread_join mtag st (Z.of_nat i) = thread_join_turn mtag st (Z.of_nat i) thr).
  { unfold thread_join, tab_get. replace (load (thrtab st) (Z.of_nat i)) with (Ret (Some thr))
      by (symmetry; apply load_Ret; rewrite Nat2Z.id; split; [lia|done]).
    cbn [obind]. replace ((Z.of_nat i <=? 0) || (NTHR <=? Z.of_nat i)) with false by (symmetry; lia).
    rewrite (get_thr_spec _ _ t) by done. cbn [obind]. by rewrite decide_False by (rewrite Hp; auto). }
  rewrite Hj. unfold thread_join_turn. rewrite (get_thr_spec _ _ t) by done. cbn [obind]. destruct (decide _) as [Hx|Hx].
  - destruct (recycle_thread_spec st ready waits i thr t HI Hi Hpos Ht Hx Hp) as (st' & -> & HI' & Hc' & Ht' & _ & Hk).
    cbn [obind]. exists st'. auto.
  - destruct (condition_wait_spec st ready waits (ChildExit (curthr st)) HI Hidle) as (x & r & st' & Hr & -> & Hc' & Ht' & Hk & HI').
    { apply (l_child _ _ _ _ _ _ _ _ (t_linv _ _ _ _ _ (proj1 HI))).
      apply (l_cur _ _ _ _ _ _ _ _ (t_linv _ _ _ _ _ (proj1 HI))). }
    { by intros p [= <-]. }
    cbn [obind]. exists st', x, r. split_and!; auto. intros a. apply Hk.
Qed.
End Ops.

(** The status register is not part of the invariant. *)
Lemma sched_inv_sstatus main idle st ss ready waits :
  sched_inv main idle st ready waits -> sched_inv main idle (with_sstatus st ss) ready waits.
Proof. intros [[HL Hr Hc] Hrun]. by split; [split|]. Qed.

(** * Executions

    The kernel runs on one hart and does not preempt kernel code, so an
    execution is a sequence of the operations of the current thread (and of
    broadcasts from service routines). *)

Inductive event :=
| EvYield
| EvWait (a : Z)
| EvBroadcast (c : cond_id)
| EvCondInit (a : Z) (name : option (list Z))
| EvSpawn (child : Z) (mem : thread) (ce : condition) (page : Z) (name : option (list Z))
| EvFork (child : Z) (mem : thread) (ce : condition) (page cp : Z)
| EvExit
| EvJoin (i : nat)
| EvIdle.

Definition do_event (mtag : Z -> Z) (main : Z) (st : tsys) (ev : event) : outcome tsys :=
  match ev with
  | EvYield => thread_yield mtag st
  | EvWait a => condition_wait mtag st (CondAt a)
  | EvBroadcast c => condition_broadcast st c
  | EvCondInit a name => Ret (condition_init st (CondAt a) name)
  | EvSpawn child mem ce page name => let! (st, _) := thread_spawn st child mem ce page name in Ret st
  | EvFork child mem ce page cp => let! (st, _) := thread_fork_to_user mtag st child mem ce page cp in Ret st
  | EvExit => let! r := thread_exit mtag main st in Ret (default st r)
  | EvJoin i => let! r := thread_join mtag st (Z.of_nat i) in Ret match r with inl (st, _) => st | inr st => st end
  | EvIdle => idle_turn mtag st
  end.

(** What the callers guarantee: only the idle thread runs [idle_turn] and it
    runs nothing else; new thread structures are fresh memory with a zero
    [child_exit] and a slot is free; conditions are initialised before use and
    not again while threads wait on them. *)
Definition enabled (main idle : Z) (st : tsys) (ev : event) : Prop :=
  match ev with
  | EvYield => curthr st <> idle
  | EvWait a => curthr st <> idle /\ is_Some (conds st !! CondAt a)
  | EvBroadcast c => is_Some (conds st !! c)
  | EvCondInit a _ => match conds st !! CondAt a with Some cd => tlempty (wait_list cd) = true | None => True end
  | EvSpawn child _ ce _ _ => thrs st !! child = None /\ wait_list ce = tl_nil /\ free_slot st < NTHR
  | EvFork child _ ce _ _ => curthr st <> idle /\ thrs st !! child = None /\ wait_list ce = tl_nil /\ free_slot st < NTHR
  | EvExit => curthr st <> idle
  | EvJoin i => curthr st <> idle /\ Z.of_nat i < NTHR
  | EvIdle => curthr st = idle
  end.

Inductive reachable (mtag : Z -> Z) (main idle : Z) : tsys -> Prop :=
| reach_init ma ml ia il ss st :
    thread_init main idle ma ml ia il ss = Ret st -> reachable mtag main idle st
| reach_step st ev st' :
    reachable mtag main idle st -> enabled main idle st ev -> do_event mtag main st ev = Ret st' ->
    reachable mtag main idle st'.

(** The two structures after the initialisation. *)
Lemma thread_init_eq main idle main_anchor main_lowest idle_anchor idle_lowest sstatus0 : main <> idle ->
  thread_init main idle main_anchor main_lowest idle_anchor idle_lowest sstatus0 =
  let main_t := {| context := None; tname := Some (cstr "main"); stack_base := main_anchor;
    stack_size := main_anchor - main_lowest; tstate := THREAD_RUNNING; tid := MAIN_TID; proc := None; parent := None;
    list_next := None; wait_cond := None |} in
  let idle_t := {| context := None; tname := Some (cstr "idle"); stack_base := idle_anchor;
    stack_size := idle_anchor - idle_lowest; tstate := THREAD_READY; tid := IDLE_TID; proc := None; parent := Some main;
    list_next := None; wait_cond := None |} in
  let m := <[main := main_t]> {[ idle := idle_t ]} in
  let cs := <[ChildExit main := {| cond_name := Some (cstr "main.child_exit"); wait_list := tl_nil |}]>
    {[ ChildExit idle := {| cond_name := None; wait_list := tl_nil |} ]} in
  let! (m, l) := tlinsert m tl_nil (Some idle) in
  Ret {| thrs := m; conds := cs; thrtab := Some main :: replicate 14 None ++ [Some idle]; ready_list := l;
         curthr := main; ts_sstatus := sstatus0; space := 0; freed := [] |}.
Proof.
  intros Hne. unfold thread_init, init_main_thread, init_idle_thread.
  rewrite (upd_thr_spec _ _ _ main_thread_static) by (by rewrite lookup_insert_eq). cbn [obind]. rewrite insert_insert_eq.
  rewrite (upd_thr_spec _ _ _ (idle_thread_static main)) by (by rewrite lookup_insert_ne, lookup_singleton_eq). cbn [obind].
  rewrite (upd_thr_spec _ _ _ (set_stack idle_anchor (idle_anchor - idle_lowest) (idle_thread_static main))) by (by rewrite lookup_insert_eq). cbn [obind].
  rewrite insert_insert_eq, (insert_insert_ne _ idle main), insert_singleton_eq by done. reflexivity.
Qed.

Section Reach.
Context (mtag : Z -> Z) (main idle : Z).

Lemma thread_init_inv ma ml ia il ss : main <> idle ->
  exists st, thread_init main idle ma ml ia il ss = Ret st /\ sched_inv main idle st [idle] (fun _ => []).
Proof.
  intros Hne. rewrite thread_init_eq by done. cbv zeta. set (main_t := {| context := _ |}). set (idle_t := {| tstate := THREAD_READY |}).
  cbn [tlinsert tl_nil tl_tail tl_head]. rewrite (upd_thr_spec _ idle _ idle_t)
    by (rewrite lookup_insert_ne, lookup_singleton_eq by done; done).
  cbn [obind]. rewrite bool_decide_true by done. cbn [obind]. eexists. split; [done|].
  set (m := <[idle := set_next None idle_t]> _).
  assert (HV : views m = <[idle := vw idle_t]> {[ main := vw main_t ]}).
  { unfold m, views. rewrite !fmap_insert. rewrite map_fmap_singleton. apply map_eq. intros y.
    destruct (decide (y = idle)) as [->|]; [by rewrite !lookup_insert_eq|]. rewrite !(lookup_insert_ne _ idle) by done.
    destruct (decide (y = main)) as [->|]; [by rewrite lookup_insert_eq, lookup_singleton_eq|].
    rewrite lookup_insert_ne by done. by rewrite !lookup_singleton_ne. }
  assert (Hlook : forall y v, views m !! y = Some v -> (y = idle /\ v = vw idle_t) \/ (y = main /\ v = vw main_t)).
  { intros y v. rewrite HV. intros [[-> ->]|[? [-> ->]%lookup_singleton_Some]]%lookup_insert_Some; auto. }
  assert (Hi : views m !! idle = Some (vw idle_t)) by (by rewrite HV, lookup_insert_eq).
  assert (Hm : views m !! main = Some (vw main_t)) by (rewrite HV, lookup_insert_ne, lookup_singleton_eq by done; done).
  split; [|exists (vw main_t); done]. split; cbn [thrs conds thrtab curthr ready_list].
  - split.
    + intros x. rewrite list_elem_of_singleton. split; [intros ->; by exists (vw idle_t)|].
      intros (v & [[-> ->]|[-> ->]]%Hlook & Hs); done.
    + apply NoDup_singleton.
    + intros c x. split; [by intros ?%elem_of_nil|]. intros (v & [[-> ->]|[-> ->]]%Hlook & Hs & _); done.
    + constructor.
    + by intros c x ?%elem_of_nil.
    + intros x (v & [[-> ->]|[-> ->]]%Hlook & Hs); done.
    + intros x (v & [[-> ->]|[-> ->]]%Hlook & Hs); done.
    + eauto.
    + right. by left.
    + intros x [v [[-> ->]|[-> ->]]%Hlook]; [|rewrite lookup_insert_eq; eauto].
      rewrite lookup_insert_ne by congruence. rewrite lookup_singleton_eq. eauto.
    + by intros x y ?%elem_of_nil.
    + intros x v [[-> ->]|[-> ->]]%Hlook Hx; [|done]. exists main. eauto.
    + by exists (vw main_t).
    + done.
    + intros i x. split.
      * intros Hx. do 16 (destruct i as [|i]; [cbn in Hx; first [discriminate Hx|injection Hx as <-; eauto]|]). done.
      * intros (v & [[-> ->]|[-> ->]]%Hlook & Ht); cbn in Ht.
        -- by replace i with 15%nat by (unfold IDLE_TID, NTHR in Ht; lia).
        -- by replace i with 0%nat by (unfold MAIN_TID in Ht; lia).
    + intros x v [[-> ->]|[-> ->]]%Hlook; done.
  - unfold tl_rep. cbn. unfold m. rewrite lookup_insert_eq. done.
  - intros c cd [[<- <-]|[_ [<- <-]%lookup_singleton_Some]]%lookup_insert_Some; done.
Qed.

Lemma condition_init_inv st ready waits a name :
  sched_inv main idle st ready waits -> enabled main idle st (EvCondInit a name) ->
  sched_inv main idle (condition_init st (CondAt a) name) ready waits.
Proof.
  intros [[HL Hr Hc] Hrun] He. cbn in He. split; [|done]. split; [|done|].
  - cbn. eapply linv_C; [|exact HL]. intros; by apply insert_is_Some.
  - intros c cd. cbn. intros [[<- <-]|[Hne Hcd]]%lookup_insert_Some; [|by apply Hc].
    assert (Hw : waits (CondAt a) = []); [|by rewrite Hw].
    destruct (conds st !! CondAt a) as [cd|] eqn:Ecd.
    + pose proof (tlempty_rep _ _ _ (Hc _ _ Ecd)) as Ht. rewrite He in Ht. symmetry in Ht. by apply bool_decide_eq_true in Ht.
    + destruct (waits (CondAt a)) as [|y ys] eqn:Ew; [done|].
      assert (Hy : y ∈ waits (CondAt a)) by (rewrite Ew; by left).
      apply (l_wait_C _ _ _ _ _ _ _ _ HL) in Hy as [? ?]. congruence.
Qed.

(** No thread starts to wait on a condition outside the threads but by
    [EvWait]; conditions outlive operations. *)
Definition quiet (st st' : tsys) (waits waits' : cond_id -> list Z) : Prop :=
  (forall a x, x ∈ waits' (CondAt a) -> x ∈ waits (CondAt a)) /\ keeps st st'.

Lemma quiet_same st st' waits : keeps st st' -> quiet st st' waits waits.
Proof. done. Qed.
Lemma quiet_clear st st' waits c : keeps st st' -> quiet st st' waits (waits_clear waits c).
Proof. intros H. split; [|done]. intros a x. unfold waits_clear. destruct (decide _); [by intros ?%elem_of_nil|done]. Qed.
Lemma quiet_child st st' waits p x : keeps st st' -> quiet st st' waits (waits_add waits (ChildExit p) x).
Proof. intros H. split; [|done]. intros a y. unfold waits_add. by rewrite decide_False. Qed.

(** Joining anything: another slot's thread, a stranger, or a child. *)
Lemma join_inv st ready waits i :
  sched_inv main idle st ready waits -> curthr st <> idle -> Z.of_nat i < NTHR ->
  exists r, thread_join mtag st (Z.of_nat i) = Ret r /\
    exists ready' waits', sched_inv main idle match r with inl (st', _) => st' | inr st' => st' end ready' waits' /\
      quiet st match r with inl (st', _) => st' | inr st' => st' end waits waits'.
Proof.
  intros HI Hidle Hi. pose proof (t_linv _ _ _ _ _ (proj1 HI)) as HL.
  pose proof (l_tab_len _ _ _ _ _ _ _ _ HL) as Hlen.
  destruct (lookup_lt_is_Some_2 (thrtab st) i) as [e He]; [lia|].
  assert (Hl : load (thrtab st) (Z.of_nat i) = Ret e) by (apply load_Ret; rewrite Nat2Z.id; split; [lia|done]).
  assert (Hno : exists r, (Ret (inl (st, -1)) : outcome (tsys * Z + tsys)) = Ret r /\
    exists ready' waits', sched_inv main idle match r with inl (st', _) => st' | inr st' => st' end ready' waits' /\
      quiet st match r with inl (st', _) => st' | inr st' => st' end waits waits')
    by (eexists; split; [done|]; exists ready, waits; split; [done|by apply quiet_same, keeps_eq]).
  destruct e as [thr|]; [destruct i as [|i]|].
  - unfold thread_join, tab_get. rewrite Hl. cbn [obind]. done.
  - pose proof (proj1 (l_tab _ _ _ _ _ _ _ _ HL _ _) He) as (v & Hv & _).
    destruct (lookup_of_view _ _ _ Hv) as (t & Ht & _).
    destruct (decide (parent t = Some (curthr st))) as [Hp|Hp].
    + pose proof (thread_join_spec mtag main idle st ready waits (S i) thr t HI Hidle He ltac:(lia) Ht Hp) as Hj.
      destruct (decide _).
      * destruct Hj as (st' & -> & HI' & _ & _ & Hk). eexists. split; [done|]. do 2 eexists. split; [exact HI'|by apply quiet_same].
      * destruct Hj as (st' & x & r & -> & _ & _ & _ & HI' & Hk). eexists. split; [done|]. do 2 eexists.
        split; [exact HI'|by apply quiet_child].
    + unfold thread_join, tab_get. rewrite Hl. cbn [obind].
      destruct (Z.leb_spec (Z.of_nat (S i)) 0); [lia|]. destruct (Z.leb_spec NTHR (Z.of_nat (S i))); [lia|]. cbn [orb].
      rewrite (get_thr_spec _ _ t) by done. cbn [obind]. by rewrite decide_True.
  - unfold thread_join, tab_get. rewrite Hl. cbn [obind]. by destruct (_ || _).
Qed.

Lemma broadcast_running st ready waits c :
  sched_inv main idle st ready waits -> is_Some (conds st !! c) ->
  exists st', condition_broadcast st c = Ret st' /\ curthr st' = curthr st /\
    sched_inv main idle st' (ready ++ waits c) (waits_clear waits c) /\ keeps st st'.
Proof.
  intros HI He.
  destruct (condition_broadcast_spec mtag main idle st ready waits c (proj1 HI) He) as (st' & Hb & Hcur & _ & Hk & HV & HI').
  exists st'. split; [done|]. split; [done|]. split; [|intros a; apply Hk]. split; [exact HI'|]. destruct HI as [HI (v & Hv & Hs)].
  exists v. split; [|done]. rewrite Hcur, HV; [done|]. intros Hin.
  apply (l_wait _ _ _ _ _ _ _ _ (t_linv _ _ _ _ _ HI)) in Hin as (w & Hw & Hs' & _). congruence.
Qed.

(** Every enabled operation succeeds and keeps the invariant. *)
Lemma do_event_inv st ready waits ev :
  sched_inv main idle st ready waits -> enabled main idle st ev ->
  exists st' ready' waits', do_event mtag main st ev = Ret st' /\ sched_inv main idle st' ready' waits' /\
    match ev with EvWait a => waits' = waits_add waits (CondAt a) (curthr st) | _ => quiet st st' waits waits' end.
Proof.
  intros HI He. destruct ev as [|a|c|a name|child mem ce page name|child mem ce page cp| |i|]; cbn [do_event enabled] in *.
  - destruct (ready_cons main idle st ready waits (proj1 HI) He) as (x & r & ->).
    destruct (thread_yield_spec mtag main idle st x r waits HI) as (st' & -> & _ & [HC _] & HI').
    do 3 eexists. split; [done|]. split; [exact HI'|]. by apply quiet_same, keeps_eq.
  - destruct He as [Hidle HC].
    destruct (condition_wait_spec mtag main idle st ready waits (CondAt a) HI Hidle HC) as (x & r & st' & _ & -> & _ & _ & _ & HI');
      [done|]. do 3 eexists. split; [done|]. split; [exact HI'|done].
  - destruct (broadcast_running st ready waits c HI He) as (st' & -> & _ & HI' & Hk).
    do 3 eexists. split; [done|]. split; [exact HI'|]. by apply quiet_clear.
  - do 3 eexists. split; [done|]. split; [by apply condition_init_inv|]. apply quiet_same. intros b Hb. cbn. by apply insert_is_Some.
  - destruct He as (Hn & Hce & Hf).
    destruct (thread_spawn_spec mtag main idle st ready waits child mem ce page name HI Hn Hce Hf) as (st' & -> & HI' & _ & _ & Hk).
    cbn. do 3 eexists. split; [done|]. split; [exact HI'|]. by apply quiet_same.
  - destruct He as (Hidle & Hn & Hce & Hf). destruct (ready_cons main idle st ready waits (proj1 HI) Hidle) as (x & r & ->).
    destruct (thread_fork_to_user_spec mtag main idle st x r waits child mem ce page cp HI Hn Hce Hf) as (st' & -> & _ & HI' & Hk).
    cbn. do 3 eexists. split; [done|]. split; [exact HI'|]. by apply quiet_same.
  - destruct (decide (curthr st = main)) as [Hm|Hm].
    + unfold thread_exit. rewrite Hm, Z.eqb_refl. cbn. do 3 eexists. split; [done|]. split; [exact HI|]. by apply quiet_same, keeps_eq.
    + destruct (thread_exit_spec mtag main idle st ready waits HI He Hm) as (st' & p & x & r & -> & _ & _ & _ & _ & _ & HI' & Hk).
      cbn. do 3 eexists. split; [done|]. split; [exact HI'|]. by apply quiet_clear.
  - destruct He as [Hidle Hi]. destruct (join_inv st ready waits i HI Hidle Hi) as (r & -> & ready' & waits' & HI' & Hq). cbn.
    do 3 eexists. split; [done|]. split; [exact HI'|exact Hq].
  - unfold idle_turn. rewrite (tlempty_rep _ _ _ (t_ready _ _ _ _ _ (proj1 HI))). case_bool_decide as Hr; cbn [negb].
    { do 3 eexists. split; [done|]. split; [exact HI|]. by apply quiet_same, keeps_eq. }
    destruct ready as [|x r]; [done|].
    destruct (thread_yield_spec mtag main idle st x r waits HI) as (st' & -> & _ & [HC _] & HI').
    do 3 eexists. split; [done|]. split; [exact HI'|]. by apply quiet_same, keeps_eq.
Qed.

Lemma reachable_inv st : main <> idle -> reachable mtag main idle st -> exists ready waits, sched_inv main idle st ready waits.
Proof.
  intros Hne. induction 1 as [ma ml ia il ss st Hi|st ev st' _ IH He Hd].
  - destruct (thread_init_inv ma ml ia il ss Hne) as (st' & Hi' & HI). rewrite Hi in Hi'. injection Hi' as <-. eauto.
  - destruct (IH) as (ready & waits & HI). destruct (do_event_inv st ready waits ev HI He) as (st2 & r2 & w2 & Hd2 & HI2 & _).
    rewrite Hd in Hd2. injection Hd2 as <-. eauto.
Qed.
End Reach.

(** * Properties *)

(** C9: in every state the kernel's threads can reach from [thread_init] by
    yielding, waiting, broadcasting (also from service routines), spawning,
    forking, exiting, joining and idling in any order, the scheduler's data
    structures are consistent (exactly the thread [tp] points to is running;
    the ready list and the wait list of each condition are well-linked, without
    repetition, and hold exactly the ready threads and the threads waiting on
    that condition; every thread sits in the slot of its id and has a living
    parent), and no operation allowed there fails: no assertion of thread.c,
    no null or dangling thread pointer, no endless walk of a list. *)
Theorem scheduler_safe mtag main idle st :
  main <> idle -> reachable mtag main idle st ->
  exists ready waits, sched_inv main idle st ready waits /\
    forall ev, enabled main idle st ev -> exists st', do_event mtag main st ev = Ret st'.
Proof.
  intros Hne Hr. destruct (reachable_inv mtag main idle st Hne Hr) as (ready & waits & HI).
  exists ready, waits. split; [done|]. intros ev He.
  destruct (do_event_inv mtag main idle st ready waits ev HI He) as (st' & _ & _ & Hd & _). eauto.
Qed.

(** A machine for the witnesses: main at 1, idle at 2. *)
Module Demo.
Definition st0 : outcome tsys := thread_init 1 2 1000 0 2000 1000 2.
Definition blank : thread :=
  {| context := None; tname := None; stack_base := 0; stack_size := 0; tstate := THREAD_UNINITIALIZED; tid := 0;
     proc := None; parent := None; list_next := None; wait_cond := None |}.
Definition ce0 : condition := {| cond_name := None; wait_list := tl_nil |}.
Definition get {A} (d : A) (m : outcome A) : A := match m with Ret a => a | _ => d end.
Definition dummy : tsys :=
  {| thrs := ∅; conds := ∅; thrtab := []; ready_list := tl_nil; curthr := 0; ts_sstatus := 0; space := 0; freed := [] |}.
(** main has spawned a thread at 3 with stack page 0x80100000. *)
Definition st1 : tsys := get dummy (let! st := st0 in do_event id 1 st (EvSpawn 3 blank ce0 0x80100000 None)).
(** main joins it, idle gives way to it. *)
Definition st2 : tsys := get dummy (do_event id 1 st1 (EvJoin 1)).
Definition st3 : tsys := get dummy (do_event id 1 st2 EvIdle).
(** The child, before and after it first runs. *)
Definition child1 : thread := default blank (thrs st1 !! 3).
Definition child3 : thread := default blank (thrs st3 !! 3).

Lemma st1_reachable : reachable id 1 2 st1.
Proof.
  eapply (reach_step _ _ _ (get dummy st0) (EvSpawn 3 blank ce0 0x80100000 None)).
  - apply (reach_init _ _ _ 1000 0 2000 1000 2). vm_compute. reflexivity.
  - split_and!; vm_compute; reflexivity.
  - vm_compute. reflexivity.
Qed.
Lemma st2_reachable : reachable id 1 2 st2.
Proof.
  eapply (reach_step _ _ _ st1 (EvJoin 1)); [apply st1_reachable| |].
  - split; vm_compute; [discriminate|reflexivity].
  - vm_compute. reflexivity.
Qed.
Lemma st3_reachable : reachable id 1 2 st3.
Proof.
  eapply (reach_step _ _ _ st2 EvIdle); [apply st2_reachable| |]; vm_compute; reflexivity.
Qed.
End Demo.

Lemma scheduler_safe_witness :
  exists ready waits, sched_inv 1 2 Demo.st3 ready waits /\
    forall ev, enabled 1 2 Demo.st3 ev -> exists st', do_event id 1 Demo.st3 ev = Ret st'.
Proof. exact (scheduler_safe id 1 2 Demo.st3 ltac:(done) Demo.st3_reachable). Defined.

(** The scheduler is first-in first-out: a broadcast appends the waiters
    of the condition to the ready list in the order they started to wait, and
    switches to none of them; a thread that waits joins the end of the wait
    list and the head of the ready list runs; a thread that yields goes to the
    end of the ready list and the head runs. *)
Theorem scheduler_order mtag main idle st ready waits c :
  sched_inv main idle st ready waits -> is_Some (conds st !! c) ->
  (exists st', condition_broadcast st c = Ret st' /\ curthr st' = curthr st /\
     sched_inv main idle st' (ready ++ waits c) (waits_clear waits c)) /\
  (curthr st <> idle -> (forall p, c = ChildExit p -> p = curthr st) ->
   exists x r st', ready = x :: r /\ condition_wait mtag st c = Ret st' /\ curthr st' = x /\
     sched_inv main idle st' r (waits_add waits c (curthr st))) /\
  (forall x r, ready = x :: r ->
   exists st', thread_yield mtag st = Ret st' /\ curthr st' = x /\ sched_inv main idle st' (r ++ [curthr st]) waits).
Proof.
  intros HI HC. split_and!.
  - destruct (broadcast_running mtag main idle st ready waits c HI HC) as (st' & ? & ? & ? & _). eauto.
  - intros Hidle Hown. destruct (condition_wait_spec mtag main idle st ready waits c HI Hidle HC Hown)
      as (x & r & st' & Hr & Hw & Hc & _ & _ & HI'). exists x, r, st'. auto.
  - intros x r ->. destruct (thread_yield_spec mtag main idle st x r waits HI) as (st' & Hy & Hc & _ & HI'). eauto.
Qed.

Lemma scheduler_order_witness :
  exists st', condition_broadcast Demo.st3 (ChildExit 1) = Ret st' /\ curthr st' = 3.
Proof.
  destruct scheduler_safe_witness as (ready & waits & HI & _).
  destruct (scheduler_order id 1 2 Demo.st3 ready waits (ChildExit 1) HI) as ((st' & Hb & Hc & _) & _).
  - vm_compute. eauto.
  - exists st'. split; [exact Hb|]. rewrite Hc. vm_compute. reflexivity.
Defined.

(** C25: when a thread other than main and idle exits, its state becomes
    EXITED, its parent is among the threads that run or are ready if it was
    waiting for a child, and the processor goes to the head of the ready
    list. *)
Theorem thread_exit_wakes_parent mtag main idle st ready waits t p :
  sched_inv main idle st ready waits -> curthr st <> idle -> curthr st <> main ->
  thrs st !! curthr st = Some t -> parent t = Some p ->
  exists st' x r, thread_exit mtag main st = Ret (Some st') /\
    ready ++ waits (ChildExit p) = x :: r /\ curthr st' = x /\
    sched_inv main idle st' r (waits_clear waits (ChildExit p)) /\
    has_state (views (thrs st')) (curthr st) THREAD_EXITED /\
    (p ∈ waits (ChildExit p) -> curthr st' = p \/ p ∈ r).
Proof.
  intros HI Hidle Hm Ht Hp.
  destruct (thread_exit_spec mtag main idle st ready waits HI Hidle Hm)
    as (st' & q & x & r & He & Hxr & (t' & Ht' & Hq) & Hc & _ & Hs & HI' & _).
  assert (q = p) as -> by congruence. exists st', x, r. split_and!; auto.
  intros Hin. assert (Hin' : p ∈ x :: r) by (rewrite <- Hxr; set_solver). apply elem_of_cons in Hin' as [->|]; auto.
Qed.

(** In [Demo.st3] the child (at 3) runs while main waits for it in
    [thread_join]. *)
Lemma thread_exit_wakes_parent_witness :
  exists st', thread_exit id 1 Demo.st3 = Ret (Some st') /\ has_state (views (thrs st')) 3 THREAD_EXITED.
Proof.
  destruct scheduler_safe_witness as (ready & waits & HI & _).
  destruct (thread_exit_wakes_parent id 1 2 Demo.st3 ready waits Demo.child3 1 HI)
    as (st' & x & r & He & _ & _ & _ & Hs & _).
  - vm_compute. discriminate.
  - vm_compute. discriminate.
  - vm_compute. reflexivity.
  - vm_compute. reflexivity.
  - exists st'. split; [exact He|]. replace (curthr Demo.st3) with 3 in Hs by (vm_compute; reflexivity). exact Hs.
Defined.

(** [thread_join] of a child that has exited returns its id at once,
    frees its slot and destroys it; of a child that has not, it puts the
    caller on its own [child_exit] list (to test again when woken) and the
    head of the ready list runs. *)
Theorem thread_join_child mtag main idle st ready waits i thr t :
  sched_inv main idle st ready waits -> curthr st <> idle ->
  thrtab st !! i = Some (Some thr) -> (0 < i)%nat -> thrs st !! thr = Some t -> parent t = Some (curthr st) ->
  if decide (tstate t = THREAD_EXITED) then
    exists st', thread_join mtag st (Z.of_nat i) = Ret (inl (st', Z.of_nat i)) /\ sched_inv main idle st' ready waits /\
      curthr st' = curthr st /\ thrtab st' = <[i := None]> (thrtab st)
  else
    exists st' x r, thread_join mtag st (Z.of_nat i) = Ret (inr st') /\ ready = x :: r /\ curthr st' = x /\
      thrtab st' = thrtab st /\ sched_inv main idle st' r (waits_add waits (ChildExit (curthr st)) (curthr st)).
Proof.
  intros HI Hidle Hi Hpos Ht Hp. pose proof (thread_join_spec mtag main idle st ready waits i thr t HI Hidle Hi Hpos Ht Hp) as Hj.
  destruct (decide _).
  - destruct Hj as (st' & ? & ? & ? & ? & _). eauto.
  - destruct Hj as (st' & x & r & ? & ? & ? & ? & ? & _). exists st', x, r. auto.
Qed.

Lemma thread_join_child_witness :
  exists st' x r ready waits, thread_join id Demo.st1 1 = Ret (inr st') /\ ready = x :: r /\ curthr st' = x /\
    sched_inv 1 2 Demo.st1 ready waits.
Proof.
  destruct (reachable_inv id 1 2 Demo.st1 ltac:(done) Demo.st1_reachable) as (ready & waits & HI).
  pose proof (thread_join_child id 1 2 Demo.st1 ready waits 1 3 Demo.child1 HI ltac:(vm_compute; discriminate)
    ltac:(vm_compute; reflexivity) ltac:(lia) ltac:(vm_compute; reflexivity) ltac:(vm_compute; reflexivity)) as Hj.
  rewrite decide_False in Hj by (vm_compute; discriminate). destruct Hj as (st' & x & r & Hj & Hr & Hc & _).
  exists st', x, r, ready, waits. auto.
Defined.

(** ** The stacks of exited threads *)

Definition alive (m : threads) (x : Z) : Prop := exists t, m !! x = Some t /\ tstate t <> THREAD_EXITED.

Lemma get_thr_inv m p t : get_thr m p = Ret t -> m !! p = Some t.
Proof. unfold get_thr. destruct (m !! p); [|discriminate]. by intros [= ->]. Qed.
Lemma upd_alive m p f m' x : upd_thr m p f = Ret m' -> (forall t, tstate t <> THREAD_EXITED -> tstate (f t) <> THREAD_EXITED) ->
  alive m x -> alive m' x.
Proof.
  intros E Hf (t & Ht & Hs). unfold upd_thr in E. apply obind_Ret_inv in E as (t' & Ht'%get_thr_inv & E). injection E as <-.
  destruct (decide (p = x)) as [->|Hne].
  - exists (f t'). rewrite lookup_insert_eq. split; [done|]. apply Hf. congruence.
  - exists t. by rewrite lookup_insert_ne.
Qed.
Lemma tlinsert_alive m l y m' l' x : tlinsert m l y = Ret (m', l') -> alive m x -> alive m' x.
Proof.
  unfold tlinsert. destruct y as [y|]; [|discriminate]. intros E Hx. apply obind_Ret_inv in E as (m1 & E1 & E).
  apply (upd_alive _ _ _ _ x E1) in Hx; [|done]. destruct (tl_tail l) as [t|].
  - destruct (bool_decide _); [|discriminate]. apply obind_Ret_inv in E as (m2 & E2 & E). injection E as <- <-. by apply (upd_alive _ _ _ _ x E2) in Hx.
  - destruct (bool_decide _); [|discriminate]. by injection E as <- <-.
Qed.

(** [_thread_swtch] returns the thread that resumes, which runs, and not the
    one before it: [suspend_self] never finds an exited thread and never frees a
    stack. *)
Lemma suspend_self_frees_nothing mtag st st' : suspend_self mtag st = Ret st' -> freed st' = freed st.
Proof.
  intros E. unfold suspend_self in E. destruct (negb _); [|discriminate]. destruct (intr_disable _) as [ss saved].
  apply obind_Ret_inv in E as ([[m1 l1] nx] & _ & E). destruct nx as [next|]; [|discriminate].
  apply obind_Ret_inv in E as (nt & _ & E). destruct (bool_decide _); [|discriminate].
  apply obind_Ret_inv in E as (m2 & E2 & E). apply obind_Ret_inv in E as (sus & _ & E). apply obind_Ret_inv in E as ([m3 l3] & E3 & E).
  assert (Ha2 : alive m2 next).
  { unfold upd_thr in E2. apply obind_Ret_inv in E2 as (t & _ & E2). injection E2 as <-. exists (set_state THREAD_RUNNING t). by rewrite lookup_insert_eq. }
  assert (Ha3 : alive m3 next).
  { destruct (decide _); [|by injection E3 as <- <-]. apply obind_Ret_inv in E3 as (m & E4 & E3). eapply tlinsert_alive; [exact E3|].
    by eapply upd_alive; [exact E4|done|]. }
  destruct (intr_enable _) as [ss2 sv]. apply obind_Ret_inv in E as (m4 & E4 & E).
  set (st2 := match proc nt with Some p => _ | None => _ end) in E, E4.
  assert (H2 : thrs st2 = m3 /\ freed st2 = freed st) by (unfold st2; by destruct (proc nt)). destruct H2 as [Hth Hfr]. rewrite Hth in E4.
  assert (Ha4 : alive m4 next) by (by eapply upd_alive; [exact E4|done|]). destruct Ha4 as (t4 & Ht4 & Hs4).
  unfold resume in E. cbn [thrs with_cur] in E. rewrite (get_thr_spec _ _ t4) in E by done. cbn [obind] in E.
  destruct (context t4); [|by injection E as <-]. rewrite decide_False in E by done. cbn [obind] in E. by injection E as <-.
Qed.

Example exited_stack_kept :
  (let! st := do_event id 1 Demo.st3 EvExit in Ret (freed st, option_map stack_base (thrs st !! 3))) = Ret ([], Some 0x80100ff0).
Proof. vm_compute. reflexivity. Qed.
