(* ===== verification/ThreadLive.v ===== *)
(** Progress of the scheduler (src/src/kern/thread.c): no ready thread starves.

    The kernel's threads give up the processor by themselves, so progress is a
    property of infinite executions in which no thread keeps it for ever: a
    ready thread then runs after as many context switches as its place in the
    ready list says, at most fifteen, one for each other slot of [thrtab]; so
    does a waiting thread whose condition is broadcast. *)

From S2P Require Import Prelude KString Intr Thread.
From stdpp Require Import gmap list.
#[local] Open Scope Z_scope.

(** * Executions without end *)

(** States [sg] and the operations [evs] that lead from one to the next. *)
Record execution (mtag : Z -> Z) (main idle : Z) (sg : nat -> tsys) (evs : nat -> event) : Prop := {
  x_start : reachable mtag main idle (sg 0%nat);
  x_enabled : forall i, enabled main idle (sg i) (evs i);
  x_step : forall i, do_event mtag main (sg i) (evs i) = Ret (sg (S i));
}.

(** Step [i] is a context switch. *)
Definition switches_at (sg : nat -> tsys) (i : nat) : bool := negb (curthr (sg (S i)) =? curthr (sg i)).

(** The context switches among the [n] steps from [i] on. *)
Fixpoint switches (sg : nat -> tsys) (i n : nat) : nat :=
  match n with
  | O => O
  | S n' => ((if switches_at sg i then 1 else 0) + switches sg (S i) n')%nat
  end.

(** The [k]-th switch after state [i] gives the processor to [x]. *)
Definition runs_after (sg : nat -> tsys) (i : nat) (x : Z) (k : nat) : Prop :=
  exists n, (0 < n)%nat /\ curthr (sg (i + n)%nat) = x /\ switches sg i n = k.

(** Always, later, the current thread gives up the processor or the idle
    thread looks at the ready list. *)
Definition cooperative (sg : nat -> tsys) (evs : nat -> event) : Prop :=
  forall k, exists j, (k <= j)%nat /\ (switches_at sg j = true \/ evs j = EvIdle).

(** * One step and the ready list *)

Section Live.
Context (mtag : Z -> Z) (main idle : Z).

(** Either the ready list only grows at its end and the current thread goes
    on, or the head of the list runs. *)
Definition advances (st : tsys) (x : Z) (r : list Z) (ev : event) (st' : tsys) : Prop :=
  exists ready' waits', sched_inv main idle st' ready' waits' /\
    ((curthr st' = curthr st /\ ev <> EvIdle /\ (x :: r) `prefix_of` ready') \/ (curthr st' = x /\ r `prefix_of` ready')).

Lemma advances_stay st x r ev st' ready' waits' :
  sched_inv main idle st' ready' waits' -> curthr st' = curthr st -> ev <> EvIdle -> (x :: r) `prefix_of` ready' ->
  advances st x r ev st'.
Proof. intros. exists ready', waits'. auto. Qed.

Lemma advances_switch st x r ev st' ready' waits' :
  sched_inv main idle st' ready' waits' -> curthr st' = x -> r `prefix_of` ready' -> advances st x r ev st'.
Proof. intros. exists ready', waits'. auto. Qed.

Lemma join_advances st x r waits i :
  sched_inv main idle st (x :: r) waits -> curthr st <> idle -> Z.of_nat i < NTHR ->
  exists o, thread_join mtag st (Z.of_nat i) = Ret o /\
    advances st x r (EvJoin i) match o with inl (st', _) => st' | inr st' => st' end.
Proof.
  intros HI Hidle Hi. pose proof (t_linv _ _ _ _ _ (proj1 HI)) as HL.
  pose proof (l_tab_len _ _ _ _ _ _ _ _ HL) as Hlen.
  destruct (lookup_lt_is_Some_2 (thrtab st) i) as [e He]; [lia|].
  assert (Hl : load (thrtab st) (Z.of_nat i) = Ret e) by (apply load_Ret; rewrite Nat2Z.id; split; [lia|done]).
  assert (Hno : exists o, (Ret (inl (st, -1)) : outcome (tsys * Z + tsys)) = Ret o /\
    advances st x r (EvJoin i) match o with inl (st', _) => st' | inr st' => st' end)
    by (eexists; split; [done|]; by apply (advances_stay _ _ _ _ _ (x :: r) waits)).
  destruct e as [thr|]; [destruct i as [|i]|].
  - unfold thread_join, tab_get. rewrite Hl. cbn [obind]. exact Hno.
  - pose proof (proj1 (l_tab _ _ _ _ _ _ _ _ HL _ _) He) as (v & Hv & _).
    destruct (lookup_of_view _ _ _ Hv) as (t & Ht & _).
    destruct (decide (parent t = Some (curthr st))) as [Hp|Hp].
    + pose proof (thread_join_spec mtag main idle st (x :: r) waits (S i) thr t HI Hidle He ltac:(lia) Ht Hp) as Hj.
      destruct (decide _).
      * destruct Hj as (st' & -> & HI' & Hc & _). eexists. split; [done|]. by apply (advances_stay _ _ _ _ _ _ _ HI').
      * destruct Hj as (st' & y & r' & -> & [= <- <-] & Hc & _ & HI' & _). eexists. split; [done|].
        by apply (advances_switch _ _ _ _ _ _ _ HI').
    + unfold thread_join, tab_get. rewrite Hl. cbn [obind].
      destruct (Z.leb_spec (Z.of_nat (S i)) 0); [lia|]. destruct (Z.leb_spec NTHR (Z.of_nat (S i))); [lia|]. cbn [orb].
      rewrite (get_thr_spec _ _ t) by done. cbn [obind]. rewrite decide_True by done. exact Hno.
  - unfold thread_join, tab_get. rewrite Hl. cbn [obind]. destruct (_ || _); exact Hno.
Qed.

Lemma event_advances st x r waits ev st' :
  sched_inv main idle st (x :: r) waits -> enabled main idle st ev -> do_event mtag main st ev = Ret st' ->
  advances st x r ev st'.
Proof.
  intros HI He. destruct ev as [|a|c|a name|child mem ce page name|child mem ce page cp| |i|]; cbn [do_event enabled] in *.
  - destruct (thread_yield_spec mtag main idle st x r waits HI) as (st1 & -> & Hc & _ & HI'). intros [= <-].
    apply (advances_switch _ _ _ _ _ _ _ HI'); [done|]. by apply prefix_app_r.
  - destruct He as [Hidle HC].
    destruct (condition_wait_spec mtag main idle st (x :: r) waits (CondAt a) HI Hidle HC)
      as (y & r' & st1 & [= <- <-] & -> & Hc & _ & _ & HI'); [done|]. intros [= <-].
    by apply (advances_switch _ _ _ _ _ _ _ HI').
  - destruct (broadcast_running mtag main idle st (x :: r) waits c HI He) as (st1 & -> & Hc & HI' & _). intros [= <-].
    apply (advances_stay _ _ _ _ _ _ _ HI'); [done|done|]. by apply prefix_app_r.
  - intros [= <-]. by apply (advances_stay _ _ _ _ _ _ _ (condition_init_inv main idle st _ waits a name HI He)).
  - destruct He as (Hn & Hce & Hf).
    destruct (thread_spawn_spec mtag main idle st (x :: r) waits child mem ce page name HI Hn Hce Hf)
      as (st1 & -> & HI' & Hc & _). intros [= <-].
    apply (advances_stay _ _ _ _ _ _ _ HI'); [done|done|]. by apply prefix_app_r.
  - destruct He as (Hidle & Hn & Hce & Hf).
    destruct (thread_fork_to_user_spec mtag main idle st x r waits child mem ce page cp HI Hn Hce Hf)
      as (st1 & -> & Hc & HI' & _). intros [= <-].
    apply (advances_switch _ _ _ _ _ _ _ HI'); [done|]. by apply prefix_app_r.
  - destruct (decide (curthr st = main)) as [Hm|Hm].
    + unfold thread_exit. rewrite Hm, Z.eqb_refl. intros [= <-]. by apply (advances_stay _ _ _ _ _ _ _ HI).
    + destruct (thread_exit_spec mtag main idle st (x :: r) waits HI He Hm)
        as (st1 & p & y & r' & -> & [= <- <-] & _ & Hc & _ & _ & HI' & _). intros [= <-].
      apply (advances_switch _ _ _ _ _ _ _ HI'); [done|]. by apply prefix_app_r.
  - destruct He as [Hidle Hi]. destruct (join_advances st x r waits i HI Hidle Hi) as (o & -> & Ha). intros [= <-]. exact Ha.
  - unfold idle_turn. rewrite (tlempty_rep _ _ _ (t_ready _ _ _ _ _ (proj1 HI))), bool_decide_false by done. cbn [negb].
    destruct (thread_yield_spec mtag main idle st x r waits HI) as (st1 & -> & Hc & _ & HI'). intros [= <-].
    apply (advances_switch _ _ _ _ _ _ _ HI'); [done|]. by apply prefix_app_r.
Qed.

(** A list in memory is one list. *)
Lemma links_det m xs : forall ys, links m xs -> links m ys -> head xs = head ys -> xs = ys.
Proof.
  induction xs as [|x xs IH]; intros [|y ys] Hx Hy Hh; try done. injection Hh as <-. destruct Hx as [Ex Hx], Hy as [Ey Hy].
  f_equal. apply IH; [done..|]. rewrite Ex in Ey. by injection Ey.
Qed.
Lemma tl_rep_det m l xs ys : tl_rep m l xs -> tl_rep m l ys -> xs = ys.
Proof. intros (Hx & _ & Lx) (Hy & _ & Ly). apply (links_det m); [done..|]. by rewrite <- Hx, Hy. Qed.

(** The current thread is not on the ready list. *)
Lemma ready_not_current st ready waits x : sched_inv main idle st ready waits -> x ∈ ready -> x <> curthr st.
Proof.
  intros [HT (v & Hv & Hs)] Hx ->. apply (l_ready _ _ _ _ _ _ _ _ (t_linv _ _ _ _ _ HT)) in Hx as (w & Hw & Hs').
  congruence.
Qed.

(** Fewer threads are ready than [thrtab] has slots. *)
Lemma ready_bound st ready waits : sched_inv main idle st ready waits -> (length ready <= 15)%nat.
Proof.
  intros HI. pose proof (t_linv _ _ _ _ _ (proj1 HI)) as HL.
  assert (Hnd : NoDup (Some <$> curthr st :: ready)).
  { apply NoDup_fmap_2; [apply _|]. apply NoDup_cons. split; [|apply (l_ready_nd _ _ _ _ _ _ _ _ HL)].
    intros Hc. by apply (ready_not_current _ _ _ _ HI Hc). }
  assert (Hle : (length (Some <$> curthr st :: ready) <= length (thrtab st))%nat).
  { apply submseteq_length, NoDup_submseteq; [done|]. intros e (x & -> & Hx)%list_elem_of_fmap.
    assert (exists v, views (thrs st) !! x = Some v) as [v Hv].
    { apply elem_of_cons in Hx as [->|Hx]; [apply (l_cur _ _ _ _ _ _ _ _ HL)|].
      apply (l_ready _ _ _ _ _ _ _ _ HL) in Hx as (v & Hv & _). eauto. }
    pose proof (l_nat _ _ _ _ _ _ _ _ HL x v Hv). apply list_elem_of_lookup. exists (Z.to_nat (v_tid v)).
    apply (l_tab _ _ _ _ _ _ _ _ HL). exists v. split; [done|lia]. }
  rewrite length_fmap in Hle. cbn in Hle. pose proof (l_tab_len _ _ _ _ _ _ _ _ HL). unfold NTHR in *. lia.
Qed.

(** * Progress *)

Section Run.
Context (sg : nat -> tsys) (evs : nat -> event) (Hrun : execution mtag main idle sg evs) (Hcoop : cooperative sg evs).

Lemma execution_reachable i : reachable mtag main idle (sg i).
Proof.
  induction i as [|i IH]; [apply Hrun|]. eapply reach_step; [exact IH|apply (x_enabled _ _ _ _ _ Hrun)|apply (x_step _ _ _ _ _ Hrun)].
Qed.

(** The head of the ready list runs at the next switch; what is behind it
    moves up. *)
Lemma head_runs k i x r waits :
  sched_inv main idle (sg i) (x :: r) waits -> (exists j, (i <= j < i + k)%nat /\ (switches_at sg j = true \/ evs j = EvIdle)) ->
  exists n ready' waits', (0 < n)%nat /\ switches sg i n = 1%nat /\ curthr (sg (i + n)) = x /\
    sched_inv main idle (sg (i + n)%nat) ready' waits' /\ r `prefix_of` ready'.
Proof.
  revert i r waits. induction k as [|k IH]; intros i r waits HI (j & Hj & Hs); [lia|].
  destruct (event_advances _ _ _ _ _ _ HI (x_enabled _ _ _ _ _ Hrun i) (x_step _ _ _ _ _ Hrun i))
    as (ready' & waits' & HI' & [(Hc & Hev & Hp)|(Hc & Hp)]).
  - assert (Hns : switches_at sg i = false) by (unfold switches_at; rewrite Hc, Z.eqb_refl; done).
    destruct Hp as [tl ->]. cbn [app] in HI'. assert (i <> j) by (intros ->; destruct Hs; congruence).
    destruct (IH (S i) (r ++ tl) waits' HI') as (n & ready2 & waits2 & Hn & Hsw & Hx & HI2 & Hp2); [exists j; split; [lia|done]|].
    exists (S n), ready2, waits2. cbn [switches]. rewrite Hns, Nat.add_succ_r. cbn [Nat.add] in *. split_and!; auto.
    etrans; [|exact Hp2]. by apply prefix_app_r.
  - assert (Hsw : switches_at sg i = true).
    { unfold switches_at. rewrite Hc. apply negb_true_iff, Z.eqb_neq, (ready_not_current _ _ _ _ HI). by left. }
    exists 1%nat, ready', waits'. cbn [switches]. rewrite Hsw, Nat.add_1_r. split_and!; auto.
Qed.

Lemma switches_app i m n : switches sg i (m + n) = (switches sg i m + switches sg (i + m) n)%nat.
Proof.
  revert i. induction m as [|m IH]; intros i; cbn [switches Nat.add]; [by rewrite Nat.add_0_r|].
  rewrite IH, Nat.add_succ_r. cbn [Nat.add]. lia.
Qed.

(** The thread at position [p] of the ready list runs after [p + 1]
    switches. *)
Lemma position_runs p : forall i ready waits x,
  sched_inv main idle (sg i) ready waits -> ready !! p = Some x ->
  exists n, (0 < n)%nat /\ curthr (sg (i + n)) = x /\ switches sg i n = S p.
Proof.
  induction p as [|p IH]; intros i [|y r] waits x HI Hp; try done; cbn in Hp;
    destruct (Hcoop i) as (j & Hj & Hs);
    destruct (head_runs (S (j - i)) i y r waits HI) as (n & ready' & waits' & Hn & Hsw & Hy & HI' & Hpre);
    try (exists j; split; [lia|done]).
  - injection Hp as <-. exists n. auto.
  - destruct Hpre as [tl ->].
    destruct (IH (i + n)%nat (r ++ tl) waits' x HI') as (n2 & Hn2 & Hx & Hsw2); [by apply lookup_app_l_Some|].
    exists (n + n2)%nat. rewrite Nat.add_assoc, switches_app, Hsw, Hsw2. split_and!; auto. lia.
Qed.
End Run.
End Live.

(** After a broadcast the threads that waited follow the ready ones. *)
Lemma broadcast_list mtag main idle sg evs i c ready waits : execution mtag main idle sg evs ->
  sched_inv main idle (sg i) ready waits -> evs i = EvBroadcast c ->
  switches_at sg i = false /\ sched_inv main idle (sg (S i)) (ready ++ waits c) (waits_clear waits c).
Proof.
  intros Hrun HI Hev. pose proof (x_enabled _ _ _ _ _ Hrun i) as He. pose proof (x_step _ _ _ _ _ Hrun i) as Hd. rewrite Hev in He, Hd.
  destruct (broadcast_running mtag main idle _ _ _ _ HI He) as (st' & Hb & Hc & HI' & _). cbn [do_event] in Hd.
  rewrite Hb in Hd. injection Hd as ->. unfold switches_at. by rewrite Hc, Z.eqb_refl.
Qed.

(** C10: no ready thread starves: in every execution of the kernel in which
    threads keep giving up the processor (and the idle thread, when it runs,
    keeps looking at the ready list), the thread at place [p] of the ready list
    (counted from 0) gets the processor with switch [p + 1], whatever the
    threads do meanwhile; a thread at place [p] of the wait list of a condition
    that is broadcast comes after all that are ready.  Every ready thread is in
    the ready list, every waiting one in its wait list, and the number of
    switches is at most fifteen. *)
Theorem ready_thread_runs mtag main idle (sg : nat -> tsys) (evs : nat -> event) (i : nat) :
  main <> idle -> execution mtag main idle sg evs -> cooperative sg evs ->
  exists ready, tl_rep (thrs (sg i)) (ready_list (sg i)) ready /\
    (forall p x, ready !! p = Some x -> runs_after sg i x (S p)) /\
    (forall x, has_state (views (thrs (sg i))) x THREAD_READY -> exists p, (p < 15)%nat /\ ready !! p = Some x) /\
    (forall c cd, evs i = EvBroadcast c -> conds (sg i) !! c = Some cd ->
       exists ws, tl_rep (thrs (sg i)) (wait_list cd) ws /\
         (forall p x, ws !! p = Some x -> runs_after sg i x (S (length ready + p))) /\
         (forall x, waits_on (views (thrs (sg i))) x c -> exists p, (length ready + p < 15)%nat /\ ws !! p = Some x)).
Proof.
  intros Hne Hrun Hcoop.
  destruct (reachable_inv mtag main idle (sg i) Hne (execution_reachable mtag main idle sg evs Hrun i)) as (ready & waits & HI).
  pose proof (t_linv _ _ _ _ _ (proj1 HI)) as HL. exists ready. split; [apply HI|]. split; [|split].
  - intros p x Hp. exact (position_runs mtag main idle sg evs Hrun Hcoop p i ready waits x HI Hp).
  - intros x Hx. apply (l_ready _ _ _ _ _ _ _ _ HL) in Hx. apply list_elem_of_lookup in Hx as [p Hp]. exists p. split; [|done].
    pose proof (ready_bound main idle _ _ _ HI). pose proof (lookup_lt_Some _ _ _ Hp). lia.
  - intros c cd Hev Hcd. exists (waits c). split; [by apply HI|].
    destruct (broadcast_list mtag main idle sg evs i c ready waits Hrun HI Hev) as [Hns HI'].
    pose proof (ready_bound main idle _ _ _ HI') as Hb. rewrite length_app in Hb. split.
    + intros p x Hp. destruct (position_runs mtag main idle sg evs Hrun Hcoop (length ready + p) (S i) _ _ x HI') as (n & Hn & Hc & Hs);
        [by rewrite lookup_app_r, Nat.add_comm, Nat.add_sub by lia|].
      exists (S n). cbn [switches]. rewrite Hns, Hs, Nat.add_succ_r. split_and!; [lia|done|done].
    + intros x Hx. apply (l_wait _ _ _ _ _ _ _ _ HL) in Hx. apply list_elem_of_lookup in Hx as [p Hp]. exists p. split; [|done].
      pose proof (lookup_lt_Some _ _ _ Hp). lia.
Qed.

(** The main and the idle thread taking turns for ever, after the first
    round. *)
Module LiveDemo.
Definition turn (st : tsys) (ev : event) : tsys := Demo.get Demo.dummy (do_event id 1 st ev).
Definition stm : tsys := turn (turn (Demo.get Demo.dummy Demo.st0) EvYield) EvIdle.
Definition sti : tsys := turn stm EvYield.
Definition sg (n : nat) : tsys := if Nat.even n then stm else sti.
Definition evs (n : nat) : event := if Nat.even n then EvYield else EvIdle.

Lemma turns : execution id 1 2 sg evs.
Proof.
  split.
  - eapply (reach_step _ _ _ (turn (Demo.get Demo.dummy Demo.st0) EvYield) EvIdle); [|vm_compute; reflexivity|vm_compute; reflexivity].
    eapply (reach_step _ _ _ (Demo.get Demo.dummy Demo.st0) EvYield); [|vm_compute; discriminate|vm_compute; reflexivity].
    apply (reach_init _ _ _ 1000 0 2000 1000 2). vm_compute. reflexivity.
  - intros i. unfold sg, evs. destruct (Nat.even i); vm_compute; [discriminate|reflexivity].
  - intros i. unfold sg, evs. rewrite Nat.even_succ, <- Nat.negb_even. destruct (Nat.even i); vm_compute; reflexivity.
Qed.

Lemma turns_cooperative : cooperative sg evs.
Proof.
  intros k. exists k. split; [lia|]. left. unfold switches_at, sg. rewrite Nat.even_succ, <- Nat.negb_even.
  destruct (Nat.even k); vm_compute; reflexivity.
Qed.
End LiveDemo.

Lemma ready_thread_runs_witness : runs_after LiveDemo.sg 0 2 1.
Proof.
  destruct (ready_thread_runs id 1 2 LiveDemo.sg LiveDemo.evs 0 ltac:(lia) LiveDemo.turns LiveDemo.turns_cooperative)
    as (ready & Hl & Hp & _).
  assert (ready = [2]) as -> by (apply (tl_rep_det _ _ _ _ Hl); vm_compute; repeat split).
  exact (Hp 0%nat 2 eq_refl).
Defined.
