(* ===== verification/Lock.v ===== *)
(** Sleep locks (src/src/kern/lock.h) over the threads of thread.c. *)

From S2P Require Import Prelude KString Intr Thread.
From stdpp Require Import gmap list.
#[local] Open Scope Z_scope.

(** [struct lock]: the address of its condition and the id of the thread that
    holds it, or -1. *)
Record lock := { lk_cond : Z; lk_tid : Z }.

Section Locks.
Context (mtag : Z -> Z).

Definition lock_init (st : tsys) (a : Z) (name : option (list Z)) : tsys * lock :=
  (condition_init st (CondAt a) name, {| lk_cond := a; lk_tid := -1 |}).

(** One turn of the loop of [lock_acquire]: [inl] when it returns with the
    lock, [inr] when the thread went to wait (it is resumed at the top of the
    loop). *)
Definition lock_acquire_turn (st : tsys) (lk : lock) : outcome (tsys * lock + tsys) :=
  let (ss, saved) := intr_disable (ts_sstatus st) in
  let st := with_sstatus st ss in
  if lk_tid lk =? -1 then
    let! i := running_thread st in
    Ret (inl (with_sstatus st (intr_restore ss saved), {| lk_cond := lk_cond lk; lk_tid := i |}))
  else
    let st := with_sstatus st (intr_restore ss saved) in
    let! st := condition_wait mtag st (CondAt (lk_cond lk)) in Ret (inr st).

Definition lock_release (st : tsys) (lk : lock) : outcome (tsys * lock) :=
  let! i := running_thread st in
  assert! lk_tid lk =? i in
  let lk := {| lk_cond := lk_cond lk; lk_tid := -1 |} in
  let! st := condition_broadcast st (CondAt (lk_cond lk)) in
  Ret (st, lk).
End Locks.

(** * Executions with a lock *)

Inductive lock_event := LThread (ev : event) | LAcquire | LRelease.

(** Other operations do not touch the condition of the lock. *)
Definition lock_enabled (main idle : Z) (st : tsys) (lk : lock) (ev : lock_event) : Prop :=
  match ev with
  | LThread ev =>
      enabled main idle st ev /\
      match ev with
      | EvWait a => a <> lk_cond lk
      | EvBroadcast c => c <> CondAt (lk_cond lk)
      | EvCondInit a _ => a <> lk_cond lk
      | _ => True
      end
  | LAcquire => curthr st <> idle
  | LRelease => running_thread st = Ret (lk_tid lk)
  end.

Definition do_lock_event (mtag : Z -> Z) (main : Z) (st : tsys) (lk : lock) (ev : lock_event) : outcome (tsys * lock) :=
  match ev with
  | LThread ev => let! st := do_event mtag main st ev in Ret (st, lk)
  | LAcquire =>
      let! r := lock_acquire_turn mtag st lk in
      Ret match r with inl (st, lk) => (st, lk) | inr st => (st, lk) end
  | LRelease => lock_release st lk
  end.

Inductive lock_reachable (mtag : Z -> Z) (main idle : Z) : tsys -> lock -> Prop :=
| lreach_init st a name :
    reachable mtag main idle st -> conds st !! CondAt a = None ->
    lock_reachable mtag main idle (fst (lock_init st a name)) (snd (lock_init st a name))
| lreach_step st lk ev st' lk' :
    lock_reachable mtag main idle st lk -> lock_enabled main idle st lk ev ->
    do_lock_event mtag main st lk ev = Ret (st', lk') -> lock_reachable mtag main idle st' lk'.

Section Inv.
Context (mtag : Z -> Z) (main idle : Z).

(** No thread sleeps on a free lock. *)
Definition lock_inv (st : tsys) (lk : lock) : Prop :=
  exists ready waits, sched_inv main idle st ready waits /\ is_Some (conds st !! CondAt (lk_cond lk)) /\
    (lk_tid lk = -1 -> waits (CondAt (lk_cond lk)) = []).

Lemma running_thread_nonneg st ready waits :
  sched_inv main idle st ready waits -> exists i, running_thread st = Ret i /\ 0 <= i.
Proof.
  intros HI. destruct (running_thr main idle st ready waits HI) as (t & Ht & _).
  unfold running_thread. rewrite (get_thr_spec _ _ t) by done. cbn. eexists. split; [done|].
  assert (Hv : views (thrs st) !! curthr st = Some (vw t)) by (by rewrite lookup_views, Ht).
  exact (l_nat _ _ _ _ _ _ _ _ (t_linv _ _ _ _ _ (proj1 HI)) _ _ Hv).
Qed.

Lemma lock_acquire_spec st lk :
  lock_inv st lk -> curthr st <> idle ->
  if lk_tid lk =? -1 then
    exists st' i, lock_acquire_turn mtag st lk = Ret (inl (st', {| lk_cond := lk_cond lk; lk_tid := i |})) /\
      running_thread st = Ret i /\ 0 <= i /\ curthr st' = curthr st /\ lock_inv st' {| lk_cond := lk_cond lk; lk_tid := i |}
  else
    exists st', lock_acquire_turn mtag st lk = Ret (inr st') /\ lock_inv st' lk /\
      waits_on (views (thrs st')) (curthr st) (CondAt (lk_cond lk)).
Proof.
  intros (ready & waits & HI & HC & Hw) Hidle. unfold lock_acquire_turn.
  destruct (intr_disable (ts_sstatus st)) as [ss saved]. destruct (Z.eqb_spec (lk_tid lk) (-1)) as [Hf|Hf].
  - destruct (running_thread_nonneg st ready waits HI) as (i & Hi & Hpos).
    change (running_thread (with_sstatus st ss)) with (running_thread st). rewrite Hi. cbn [obind].
    eexists _, i. split; [done|]. split_and!; auto. exists ready, waits. split; [by do 2 apply sched_inv_sstatus|].
    split; [done|]. cbn. lia.
  - set (st1 := with_sstatus _ _). assert (HI1 : sched_inv main idle st1 ready waits) by by do 2 apply sched_inv_sstatus.
    destruct (condition_wait_spec mtag main idle st1 ready waits (CondAt (lk_cond lk)) HI1 Hidle HC)
      as (x & r & st' & _ & -> & _ & _ & Hk & HI'); [done|].
    cbn [obind]. exists st'. split; [done|]. split.
    + exists r, (waits_add waits (CondAt (lk_cond lk)) (curthr st)). split; [done|]. split; [by apply Hk|done].
    + apply (l_wait _ _ _ _ _ _ _ _ (t_linv _ _ _ _ _ (proj1 HI'))). unfold waits_add. rewrite decide_True by done.
      rewrite elem_of_app. right. by left.
Qed.

Lemma lock_release_spec st lk :
  lock_inv st lk -> running_thread st = Ret (lk_tid lk) ->
  exists st', lock_release st lk = Ret (st', {| lk_cond := lk_cond lk; lk_tid := -1 |}) /\
    lock_inv st' {| lk_cond := lk_cond lk; lk_tid := -1 |} /\ curthr st' = curthr st /\
    forall x, waits_on (views (thrs st)) x (CondAt (lk_cond lk)) -> has_state (views (thrs st')) x THREAD_READY.
Proof.
  intros (ready & waits & HI & HC & Hw) Hrun. unfold lock_release. rewrite Hrun. cbn [obind]. rewrite Z.eqb_refl.
  cbn [lk_cond]. destruct (broadcast_running mtag main idle st ready waits _ HI HC) as (st' & -> & Hcur & HI' & Hk).
  cbn [obind]. exists st'. split; [done|]. split_and!; auto.
  - do 2 eexists. split; [exact HI'|]. split; [by apply Hk|]. intros _. cbn. unfold waits_clear. by rewrite decide_True.
  - intros x Hx. apply (l_ready _ _ _ _ _ _ _ _ (t_linv _ _ _ _ _ (proj1 HI'))). rewrite elem_of_app. right.
    by apply (l_wait _ _ _ _ _ _ _ _ (t_linv _ _ _ _ _ (proj1 HI))).
Qed.

Lemma lock_step_inv st lk ev :
  lock_inv st lk -> lock_enabled main idle st lk ev ->
  exists st' lk', do_lock_event mtag main st lk ev = Ret (st', lk') /\ lock_inv st' lk' /\
    (lk_tid lk <> -1 -> ev <> LRelease -> lk_tid lk' = lk_tid lk).
Proof.
  intros HI He. destruct ev as [ev| |]; cbn [do_lock_event lock_enabled] in *.
  - destruct HI as (ready & waits & HI & HC & Hw). destruct He as [He Hx].
    destruct (do_event_inv mtag main idle st ready waits ev HI He) as (st' & ready' & waits' & Hd & HI' & Hq).
    rewrite Hd. cbn [obind]. exists st', lk. split; [done|]. split; [|done].
    exists ready', waits'. split; [done|].
    assert (Hq' : (forall x, x ∈ waits' (CondAt (lk_cond lk)) -> x ∈ waits (CondAt (lk_cond lk))) /\
      is_Some (conds st' !! CondAt (lk_cond lk))).
    { destruct ev; try (destruct Hq as [Hq1 Hq2]; split; [apply Hq1|by apply Hq2]).
      destruct He as [Hidle HCa]. cbn [do_event] in Hd. subst waits'. split.
      - intros x. unfold waits_add. rewrite decide_False by congruence. done.
      - destruct (condition_wait_spec mtag main idle st ready waits (CondAt a) HI Hidle HCa)
          as (? & ? & st2 & _ & Hd2 & _ & _ & Hk & _); [done|]. rewrite Hd in Hd2. injection Hd2 as <-. by apply Hk. }
    destruct Hq' as [Hq1 Hq2]. split; [done|]. intros Hf. specialize (Hw Hf).
    destruct (waits' (CondAt (lk_cond lk))) as [|y ys] eqn:E; [done|]. specialize (Hq1 y ltac:(by left)).
    rewrite Hw in Hq1. by apply elem_of_nil in Hq1.
  - pose proof (lock_acquire_spec st lk HI He) as Ha. destruct (Z.eqb_spec (lk_tid lk) (-1)) as [Hf|Hf].
    + destruct Ha as (st' & i & -> & _ & _ & _ & HI'). cbn. do 2 eexists. split; [done|]. split; [done|]. done.
    + destruct Ha as (st' & -> & HI' & _). cbn. do 2 eexists. split; [done|]. split; [done|]. done.
  - destruct (lock_release_spec st lk HI He) as (st' & -> & HI' & _). do 2 eexists. split; [done|]. split; done.
Qed.

Lemma lock_reachable_inv st lk : main <> idle -> lock_reachable mtag main idle st lk -> lock_inv st lk.
Proof.
  intros Hne. induction 1 as [st a name Hr Ha|st lk ev st' lk' _ IH He Hd].
  - destruct (reachable_inv mtag main idle st Hne Hr) as (ready & waits & HI).
    exists ready, waits. cbn. split; [apply condition_init_inv; [done|]; cbn; by rewrite Ha|].
    split; [rewrite lookup_insert_eq; eauto|]. intros _.
    destruct (waits (CondAt a)) as [|y ys] eqn:E; [done|]. assert (Hy : y ∈ waits (CondAt a)) by (rewrite E; by left).
    apply (l_wait_C _ _ _ _ _ _ _ _ (t_linv _ _ _ _ _ (proj1 HI))) in Hy as [? ?]. congruence.
  - destruct (lock_step_inv st lk ev IH He) as (st2 & lk2 & Hd2 & HI2 & _). rewrite Hd in Hd2.
    injection Hd2 as <- <-. done.
Qed.
End Inv.

(** * Properties *)

(** C16: in every execution of the kernel's threads with a lock, the lock's
    operations never fail; a lock that is held is not given to another thread
    before its holder releases it (mutual exclusion); and no wakeup is lost,
    although [lock_acquire] restores interrupts before it waits: no thread
    sleeps on a lock that is free, and a release makes every sleeper ready. *)
Theorem lock_mutual_exclusion mtag main idle st lk :
  main <> idle -> lock_reachable mtag main idle st lk ->
  (forall ev, lock_enabled main idle st lk ev ->
     exists st' lk', do_lock_event mtag main st lk ev = Ret (st', lk') /\
       (lk_tid lk <> -1 -> ev <> LRelease -> lk_tid lk' = lk_tid lk)) /\
  (lk_tid lk = -1 -> forall x, ~ waits_on (views (thrs st)) x (CondAt (lk_cond lk))) /\
  (running_thread st = Ret (lk_tid lk) ->
     exists st', lock_release st lk = Ret (st', {| lk_cond := lk_cond lk; lk_tid := -1 |}) /\
       forall x, waits_on (views (thrs st)) x (CondAt (lk_cond lk)) -> has_state (views (thrs st')) x THREAD_READY).
Proof.
  intros Hne Hr. pose proof (lock_reachable_inv mtag main idle st lk Hne Hr) as HI. split_and!.
  - intros ev He. destruct (lock_step_inv mtag main idle st lk ev HI He) as (st' & lk' & Hd & _ & Hm). eauto.
  - intros Hf x Hx. destruct HI as (ready & waits & HI & _ & Hw).
    apply (l_wait _ _ _ _ _ _ _ _ (t_linv _ _ _ _ _ (proj1 HI))) in Hx. rewrite (Hw Hf) in Hx. by apply elem_of_nil in Hx.
  - intros Hrun. destruct (lock_release_spec mtag main idle st lk HI Hrun) as (st' & Hl & _ & _ & Hw). eauto.
Qed.

(** main holds a lock at address 9. *)
Module LockDemo.
Definition sl0 : tsys * lock := lock_init Demo.st1 9 None.
Definition sl1 : tsys * lock :=
  Demo.get sl0 (do_lock_event id 1 (fst sl0) (snd sl0) LAcquire).
Lemma sl1_reachable : lock_reachable id 1 2 (fst sl1) (snd sl1).
Proof.
  eapply (lreach_step _ _ _ (fst sl0) (snd sl0) LAcquire).
  - apply lreach_init; [apply Demo.st1_reachable|vm_compute; reflexivity].
  - vm_compute. discriminate.
  - vm_compute. reflexivity.
Qed.
End LockDemo.

Lemma lock_mutual_exclusion_witness :
  lk_tid (snd LockDemo.sl1) = 0 /\
  exists st', lock_release (fst LockDemo.sl1) (snd LockDemo.sl1) = Ret (st', {| lk_cond := 9; lk_tid := -1 |}).
Proof.
  split; [vm_compute; reflexivity|].
  destruct (lock_mutual_exclusion id 1 2 (fst LockDemo.sl1) (snd LockDemo.sl1) ltac:(done) LockDemo.sl1_reachable)
    as (_ & _ & Hrel).
  destruct Hrel as (st' & Hl & _); [vm_compute; reflexivity|]. exists st'. rewrite Hl. f_equal.
Defined.
