(* ===== verification/Timer.v ===== *)
(** Timer and alarms (src/src/kern/timer.c, timer.h): the list of sleeping
    alarms, linked through [next] and sorted by wake-up time, and the timer
    interrupt handler. *)

From Stdlib Require Import Ascii String.
From S2P Require Import Prelude KString Intr Thread.
From stdpp Require Import gmap list sorting.
#[local] Open Scope Z_scope.

Definition TIMER_FREQ : Z := 10000000.
Definition TICK_FREQ : Z := 50.
Definition TICK_PERIOD : Z := TIMER_FREQ / TICK_FREQ.
Definition UINT64_MAX : Z := 2 ^ 64 - 1.

(** [struct alarm]; its condition is [CondAt] of the address of the alarm. *)
Record alarm := { al_next : option Z; twake : Z }.
Notation alarms_t := (gmap Z alarm).

(** The timer registers, the static variables and the alarms. *)
Record timer := {
  mtime : Z;
  mtcmp : Z;
  next_tick : Z;
  sleep_list : option Z;
  alarms : alarms_t;
  tm_sie : Z;
  mmode_intr : bool;  (* the M-mode timer interrupt is enabled *)
  timer_initialized : bool;
}.

Definition set_mtcmp (tm : timer) (v : Z) : timer :=
  {| mtime := mtime tm; mtcmp := v; next_tick := next_tick tm; sleep_list := sleep_list tm; alarms := alarms tm;
     tm_sie := tm_sie tm; mmode_intr := mmode_intr tm; timer_initialized := timer_initialized tm |}.
Definition set_alarms (tm : timer) (m : alarms_t) (hd : option Z) : timer :=
  {| mtime := mtime tm; mtcmp := mtcmp tm; next_tick := next_tick tm; sleep_list := hd; alarms := m;
     tm_sie := tm_sie tm; mmode_intr := mmode_intr tm; timer_initialized := timer_initialized tm |}.
Definition set_tick (tm : timer) (v : Z) : timer :=
  {| mtime := mtime tm; mtcmp := mtcmp tm; next_tick := v; sleep_list := sleep_list tm; alarms := alarms tm;
     tm_sie := tm_sie tm; mmode_intr := mmode_intr tm; timer_initialized := timer_initialized tm |}.
Definition enable_mmode_timer_intr (tm : timer) : timer :=
  {| mtime := mtime tm; mtcmp := mtcmp tm; next_tick := next_tick tm; sleep_list := sleep_list tm; alarms := alarms tm;
     tm_sie := tm_sie tm; mmode_intr := true; timer_initialized := timer_initialized tm |}.
Definition csrs_sie (tm : timer) (bits : Z) : timer :=
  {| mtime := mtime tm; mtcmp := mtcmp tm; next_tick := next_tick tm; sleep_list := sleep_list tm; alarms := alarms tm;
     tm_sie := Z.lor (tm_sie tm) bits; mmode_intr := mmode_intr tm; timer_initialized := timer_initialized tm |}.

Definition get_al (m : alarms_t) (p : Z) : outcome alarm :=
  match m !! p with Some a => Ret a | None => Fault end.
Definition set_al_next (m : alarms_t) (p : Z) (n : option Z) : outcome alarms_t :=
  let! a := get_al m p in Ret (<[p := {| al_next := n; twake := twake a |}]> m).
Definition set_twake (m : alarms_t) (p : Z) (t : Z) : outcome alarms_t :=
  let! a := get_al m p in Ret (<[p := {| al_next := al_next a; twake := t |}]> m).

Definition timer_init (tm : timer) : timer :=
  let tm := {| mtime := 0; mtcmp := TICK_PERIOD; next_tick := next_tick tm; sleep_list := sleep_list tm;
               alarms := alarms tm; tm_sie := tm_sie tm; mmode_intr := mmode_intr tm;
               timer_initialized := timer_initialized tm |} in
  let tm := enable_mmode_timer_intr (csrs_sie tm RISCV_SIE_STIE) in
  {| mtime := mtime tm; mtcmp := mtcmp tm; next_tick := next_tick tm; sleep_list := sleep_list tm; alarms := alarms tm;
     tm_sie := tm_sie tm; mmode_intr := mmode_intr tm; timer_initialized := true |}.

Definition alarm_init (st : tsys) (tm : timer) (p : Z) (name : option (list Z)) : tsys * timer :=
  let name := match name with Some n => Some n | None => Some (cstr "alarm") end in
  (condition_init st (CondAt p) name,
   set_alarms tm (<[p := {| al_next := None; twake := mtime tm |}]> (alarms tm)) (sleep_list tm)).

Definition alarm_reset (tm : timer) (p : Z) : outcome timer :=
  let! m := set_twake (alarms tm) p (mtime tm) in Ret (set_alarms tm m (sleep_list tm)).

(** The wake-up time, saturating. *)
Definition wake_time (tw tcnt : Z) : Z := if UINT64_MAX - tw <? tcnt then UINT64_MAX else tw + tcnt.

(** The for loop of [alarm_sleep], with [prev] a node of the list, and the
    insertion at the tail that follows it. *)
Fixpoint insert_after (fuel : nat) (m : alarms_t) (prev al : Z) (tw : Z) : outcome alarms_t :=
  match fuel with
  | O => NoFuel
  | S fuel' =>
      let! p := get_al m prev in
      match al_next p with
      | None =>
          let! m := set_al_next m al None in set_al_next m prev (Some al)
      | Some nx =>
          let! n := get_al m nx in
          if tw <=? twake n then
            let! m := set_al_next m al (Some nx) in set_al_next m prev (Some al)
          else insert_after fuel' m nx al tw
      end
  end.

(** Insertion into the sleep list, with the update of [mtcmp] when the alarm
    comes first and is due before the next tick. *)
Definition alarm_insert (tm : timer) (al : Z) : outcome timer :=
  let! a := get_al (alarms tm) al in
  let at_head (tm : timer) : outcome timer :=
    let! m := set_al_next (alarms tm) al (sleep_list tm) in
    let tm := set_alarms tm m (Some al) in
    Ret (if twake a <? next_tick tm then
           enable_mmode_timer_intr (csrs_sie (set_mtcmp tm (twake a)) RISCV_SIE_STIE)
         else tm) in
  match sleep_list tm with
  | None => at_head tm
  | Some h =>
      let! ha := get_al (alarms tm) h in
      if twake a <=? twake ha then at_head tm
      else
        let! m := insert_after (S (size (alarms tm))) (alarms tm) h al (twake a) in
        Ret (set_alarms tm m (Some h))
  end.

Section Sleep.
Context (mtag : Z -> Z).

(** Up to the switch to another thread, whose interrupt state this one does not
    touch.  The result is what the sleeping thread has saved on its stack, or
    [None] when the time had passed and the thread did not sleep. *)
Definition alarm_sleep (st : tsys) (tm : timer) (al tcnt : Z) : outcome (tsys * timer * option Z) :=
  let now := mtime tm in
  let! a := get_al (alarms tm) al in
  let! m := set_twake (alarms tm) al (wake_time (twake a) tcnt) in
  let tm := set_alarms tm m (sleep_list tm) in
  if wake_time (twake a) tcnt <? now then Ret (st, tm, None)
  else
    let (ss, saved) := intr_disable (ts_sstatus st) in
    let st := with_sstatus st ss in
    let! tm := alarm_insert tm al in
    let! st := condition_wait mtag st (CondAt al) in
    Ret (st, tm, Some saved).

(** When the thread runs again. *)
Definition alarm_sleep_woken (st : tsys) (saved_intr_state : Z) : tsys :=
  with_sstatus st (intr_restore (ts_sstatus st) saved_intr_state).

(** [unsigned] arguments: the products wrap. *)
Definition alarm_sleep_sec (st : tsys) (tm : timer) (al sec : Z) := alarm_sleep st tm al (u64 (sec * TIMER_FREQ)).
Definition alarm_sleep_ms (st : tsys) (tm : timer) (al ms : Z) := alarm_sleep st tm al (u64 (ms * (TIMER_FREQ / 1000))).
Definition alarm_sleep_us (st : tsys) (tm : timer) (al us : Z) :=
  alarm_sleep st tm al (u64 (us * (TIMER_FREQ / 1000 / 1000))).

(** The loop of the interrupt handler. *)
Fixpoint wake_due (fuel : nat) (st : tsys) (m : alarms_t) (head : option Z) (now : Z)
  : outcome (tsys * alarms_t * option Z) :=
  match head with
  | None => Ret (st, m, None)
  | Some h =>
      match fuel with
      | O => NoFuel
      | S fuel' =>
          let! a := get_al m h in
          if twake a <=? now then
            let! st := condition_broadcast st (CondAt h) in
            let! m := set_al_next m h None in
            wake_due fuel' st m (al_next a) now
          else Ret (st, m, head)
      end
  end.

Definition timer_intr_handler (st : tsys) (tm : timer) : outcome (tsys * timer) :=
  let now := mtime tm in
  let! (st, m, head) := wake_due (S (size (alarms tm))) st (alarms tm) (sleep_list tm) now in
  let tm := if next_tick tm <? now then set_tick tm (u64 (next_tick tm + TICK_PERIOD)) else tm in
  let tm := set_alarms tm m head in
  let! tm :=
    match head with
    | Some h =>
        let! a := get_al m h in
        Ret (if twake a <? next_tick tm then set_mtcmp tm (twake a) else set_mtcmp tm (next_tick tm))
    | None => Ret (set_mtcmp tm (next_tick tm))
    end in
  Ret (st, enable_mmode_timer_intr tm).
End Sleep.

(** * Specification: the sleep list as a list *)

Fixpoint chain (m : alarms_t) (hd : option Z) (xs : list Z) : Prop :=
  match xs with
  | [] => hd = None
  | x :: r => hd = Some x /\ exists a, m !! x = Some a /\ chain m (al_next a) r
  end.

Definition key (m : alarms_t) (x : Z) : Z := from_option twake 0 (m !! x).
Definition by_key (m : alarms_t) : relation Z := fun x y => key m x <= key m y.

(** Where a new alarm goes: before the first that wakes no earlier. *)
Fixpoint insert_sorted (m : alarms_t) (al : Z) (xs : list Z) : list Z :=
  match xs with
  | [] => [al]
  | x :: r => if key m al <=? key m x then al :: x :: r else x :: insert_sorted m al r
  end.

Record sleep_ok (tm : timer) (xs : list Z) : Prop := {
  so_chain : chain (alarms tm) (sleep_list tm) xs;
  so_nodup : NoDup xs;
  so_sorted : StronglySorted (by_key (alarms tm)) xs;
}.

Lemma key_lookup (m : alarms_t) x a : m !! x = Some a -> key m x = twake a.
Proof. intros H. unfold key. by rewrite H. Qed.

(** Changing the links of others keeps a chain and all keys. *)
Lemma chain_frame m m' hd xs :
  (forall x, x ∈ xs -> m' !! x = m !! x) -> chain m hd xs -> chain m' hd xs.
Proof.
  revert hd; induction xs as [|x xs IH]; intros hd Hf; cbn; [done|].
  intros [-> (a & Ha & Hc)]. split; [done|]. exists a. rewrite Hf by by left. split; [done|].
  apply IH; [|done]. intros y Hy. apply Hf. by right.
Qed.

Lemma set_al_next_spec (m : alarms_t) p a n :
  m !! p = Some a -> set_al_next m p n = Ret (<[p := {| al_next := n; twake := twake a |}]> m).
Proof. intros H. unfold set_al_next, get_al. by rewrite H. Qed.

Lemma key_set_next (m : alarms_t) p a n x :
  m !! p = Some a -> key (<[p := {| al_next := n; twake := twake a |}]> m) x = key m x.
Proof.
  intros Hp. unfold key. destruct (decide (x = p)) as [->|]; [by rewrite lookup_insert_eq, Hp|by rewrite lookup_insert_ne].
Qed.

Lemma chain_head_lookup m hd x xs : chain m hd (x :: xs) -> hd = Some x /\ exists a, m !! x = Some a /\ chain m (al_next a) xs.
Proof. done. Qed.

Lemma chain_lookup m hd xs x : chain m hd xs -> x ∈ xs -> is_Some (m !! x).
Proof.
  revert hd; induction xs as [|y xs IH]; intros hd Hc Hx; [by apply elem_of_nil in Hx|].
  destruct Hc as [_ (a & Ha & Hc)]. apply elem_of_cons in Hx as [->|Hx]; [eauto|by eapply IH].
Qed.

(** The list insertion finds the sorted position. *)
Lemma insert_after_spec : forall xs fuel m prev ap al aa,
  m !! prev = Some ap -> m !! al = Some aa -> chain m (al_next ap) xs -> NoDup (prev :: xs) -> al ∉ prev :: xs ->
  (length xs < fuel)%nat ->
  exists m', insert_after fuel m prev al (twake aa) = Ret m' /\
    chain m' (Some prev) (prev :: insert_sorted m al xs) /\
    (forall x, key m' x = key m x) /\ (forall x, x ∉ prev :: al :: xs -> m' !! x = m !! x) /\ size m' = size m.
Proof.
  induction xs as [|x xs IH]; intros fuel m prev ap al aa Hp Ha Hc Hnd Hal Hf; (destruct fuel as [|fuel]; [lia|]);
    cbn [insert_after insert_sorted]; unfold get_al at 1; rewrite Hp; cbn [obind];
    (assert (Hpa : prev <> al) by (intros ->; apply Hal; by left)).
  - cbn in Hc. rewrite Hc. rewrite (set_al_next_spec _ _ aa) by done. cbn [obind].
    rewrite (set_al_next_spec _ prev ap) by by rewrite lookup_insert_ne. eexists. split; [done|]. split_and!.
    + cbn. split; [done|]. eexists. rewrite lookup_insert_eq. split; [done|]. cbn. split; [done|].
      rewrite lookup_insert_ne, lookup_insert_eq by done. by eexists.
    + intros y. rewrite (key_set_next _ prev ap) by by rewrite lookup_insert_ne. by apply key_set_next.
    + intros y Hy. rewrite !lookup_insert_ne; [done| |]; intros ->; apply Hy; set_solver.
    + rewrite !map_size_insert_Some; [done| |eauto]; rewrite ?lookup_insert_ne by done; eauto.
  - apply chain_head_lookup in Hc as [Hn (ax & Hax & Hc)]. rewrite Hn. unfold get_al at 1. rewrite Hax. cbn [obind].
    rewrite (key_lookup m al aa), (key_lookup m x ax) by done. destruct (twake aa <=? twake ax).
    + rewrite (set_al_next_spec _ _ aa) by done. cbn [obind].
      rewrite (set_al_next_spec _ prev ap) by by rewrite lookup_insert_ne. eexists. split; [done|].
      apply NoDup_cons in Hnd as [Hpx Hnd]. split_and!.
      * cbn. split; [done|]. eexists. rewrite lookup_insert_eq. split; [done|]. cbn. split; [done|].
        rewrite lookup_insert_ne, lookup_insert_eq by done. eexists. split; [done|]. cbn. split; [done|].
        exists ax. rewrite !lookup_insert_ne by (intros ->; set_solver). split; [done|].
        eapply chain_frame; [|exact Hc]. intros y Hy. rewrite !lookup_insert_ne; [done| |]; intros ->; set_solver.
      * intros y. rewrite (key_set_next _ prev ap) by by rewrite lookup_insert_ne. by apply key_set_next.
      * intros y Hy. rewrite !lookup_insert_ne; [done| |]; intros ->; apply Hy; set_solver.
      * rewrite !map_size_insert_Some; [done| |eauto]; rewrite ?lookup_insert_ne by done; eauto.
    + apply NoDup_cons in Hnd as [Hpx Hnd].
      destruct (IH fuel m x ax al aa Hax Ha Hc Hnd) as (m' & -> & Hc' & Hk' & Hf' & Hs'); [set_solver|cbn in Hf; lia|].
      exists m'. split; [done|]. split_and!; auto.
      * cbn [chain] in *. split; [done|]. exists ap. split; [rewrite Hf' by set_solver; done|]. by rewrite Hn.
      * intros y Hy. apply Hf'. set_solver.
Qed.

Lemma insert_sorted_perm m al xs : insert_sorted m al xs ≡ₚ al :: xs.
Proof.
  induction xs as [|x xs IH]; cbn; [done|]. destruct (_ <=? _); [done|]. rewrite IH. apply Permutation_swap.
Qed.

Lemma insert_sorted_ext m m' al xs : (forall x, key m' x = key m x) -> insert_sorted m' al xs = insert_sorted m al xs.
Proof. intros He. induction xs as [|x xs IH]; cbn; [done|]. by rewrite !He, IH. Qed.

Lemma insert_sorted_sorted m al xs :
  StronglySorted (by_key m) xs -> StronglySorted (by_key m) (insert_sorted m al xs).
Proof.
  induction 1 as [|x xs Hs IH Hf]; cbn; [constructor; [constructor|done]|].
  destruct (key m al <=? key m x) eqn:E.
  - constructor; [by constructor|]. constructor; [unfold by_key; lia|].
    eapply Forall_impl; [exact Hf|]. unfold by_key. intros y Hy. cbn in Hy. lia.
  - constructor; [done|]. rewrite insert_sorted_perm. constructor; [unfold by_key; lia|done].
Qed.

Lemma sorted_ext m m' xs : (forall x, key m' x = key m x) -> StronglySorted (by_key m) xs -> StronglySorted (by_key m') xs.
Proof.
  intros He. induction 1 as [|x xs Hs IH Hf]; constructor; [done|].
  eapply Forall_impl; [exact Hf|]. unfold by_key. intros y Hy. by rewrite !He.
Qed.

Lemma chain_bounded m hd xs : chain m hd xs -> NoDup xs -> (length xs <= size m)%nat.
Proof.
  intros Hc Hnd. rewrite <- (size_list_to_set (C := gset Z)) by done.
  rewrite <- (size_dom m (D := gset Z)). apply subseteq_size. intros x. rewrite elem_of_list_to_set, elem_of_dom.
  intros Hx. by eapply chain_lookup.
Qed.

Lemma alarm_insert_spec tm al aa xs :
  sleep_ok tm xs -> alarms tm !! al = Some aa -> al ∉ xs ->
  exists tm', alarm_insert tm al = Ret tm' /\ sleep_ok tm' (insert_sorted (alarms tm) al xs) /\
    (forall x, key (alarms tm') x = key (alarms tm) x) /\ next_tick tm' = next_tick tm /\ mtime tm' = mtime tm /\
    (mtcmp tm' = if (match xs with x :: _ => key (alarms tm) al <=? key (alarms tm) x | [] => true end)
                    && (twake aa <? next_tick tm) then twake aa else mtcmp tm).
Proof.
  intros [Hc Hnd Hs] Ha Hal. unfold alarm_insert. unfold get_al at 1. rewrite Ha. cbn [obind].
  assert (Hhead : forall hd, sleep_list tm = hd -> exists m', set_al_next (alarms tm) al hd = Ret m' /\
    (forall x, key m' x = key (alarms tm) x) /\ chain m' (Some al) (al :: xs)).
  { intros hd Hhd. rewrite (set_al_next_spec _ _ aa) by done. eexists. split; [done|]. split.
    - intros x. by apply key_set_next.
    - cbn. split; [done|]. eexists. rewrite lookup_insert_eq. split; [done|]. cbn. rewrite <- Hhd.
      eapply chain_frame; [|exact Hc]. intros y Hy. rewrite lookup_insert_ne; [done|]. intros ->. done. }
  assert (Hnd' : NoDup (al :: xs)) by (by constructor).
  pose proof (insert_sorted_sorted (alarms tm) al _ Hs) as Hss.
  (* at the head, with or without a new compare value *)
  assert (Hfin : forall m', insert_sorted (alarms tm) al xs = al :: xs -> (forall x, key m' x = key (alarms tm) x) ->
    chain m' (Some al) (al :: xs) ->
    let tm1 := set_alarms tm m' (Some al) in
    let tm2 := if twake aa <? next_tick tm1 then enable_mmode_timer_intr (csrs_sie (set_mtcmp tm1 (twake aa)) RISCV_SIE_STIE) else tm1 in
    sleep_ok tm2 (al :: xs) /\ (forall x, key (alarms tm2) x = key (alarms tm) x) /\ next_tick tm2 = next_tick tm /\
    mtime tm2 = mtime tm /\ mtcmp tm2 = if twake aa <? next_tick tm then twake aa else mtcmp tm).
  { intros m' Hi Hk Hch tm1 tm2. rewrite Hi in Hss. apply (sorted_ext _ m') in Hss; [|done].
    unfold tm2. change (next_tick tm1) with (next_tick tm).
    destruct (twake aa <? next_tick tm); (split; [by split|done]). }
  destruct xs as [|x xs].
  - rewrite Hc. destruct (Hhead None Hc) as (m' & -> & Hk & Hch). cbn [obind andb].
    eexists. split; [done|]. by apply Hfin.
  - pose proof (chain_head_lookup _ _ _ _ Hc) as [Hhd (ax & Hax & Hcx)]. rewrite Hhd.
    unfold get_al at 1. rewrite Hax. cbn [obind].
    assert (Hcmp : (key (alarms tm) al <=? key (alarms tm) x) = (twake aa <=? twake ax))
      by (by rewrite (key_lookup (alarms tm) al aa), (key_lookup (alarms tm) x ax)).
    cbn [insert_sorted] in *. rewrite Hcmp in *. destruct (twake aa <=? twake ax).
    + destruct (Hhead _ Hhd) as (m' & -> & Hk & Hch). cbn [obind andb]. eexists. split; [done|]. by apply Hfin.
    + pose proof (chain_bounded _ _ _ Hc Hnd) as Hb. cbn in Hb.
      destruct (insert_after_spec xs (S (size (alarms tm))) (alarms tm) x ax al aa Hax Ha Hcx Hnd Hal ltac:(lia))
        as (m' & -> & Hch & Hk & _ & _).
      cbn [obind andb]. eexists. split; [done|]. split; [|done]. split; [done| |].
      * rewrite insert_sorted_perm. by rewrite Permutation_swap.
      * by apply (sorted_ext (alarms tm)).
Qed.

(** ** The interrupt handler *)

(** The alarms that are due, and the others; the list is sorted. *)
Fixpoint due (m : alarms_t) (now : Z) (xs : list Z) : list Z :=
  match xs with [] => [] | x :: r => if key m x <=? now then x :: due m now r else [] end.
Fixpoint not_due (m : alarms_t) (now : Z) (xs : list Z) : list Z :=
  match xs with [] => [] | x :: r => if key m x <=? now then not_due m now r else x :: r end.

Definition cond_waiters (waits : cond_id -> list Z) (xs : list Z) : list Z := flat_map (fun x => waits (CondAt x)) xs.
Definition clear_all (waits : cond_id -> list Z) (xs : list Z) : cond_id -> list Z :=
  fold_left (fun w x => waits_clear w (CondAt x)) xs waits.

Lemma due_not_due m now xs : due m now xs ++ not_due m now xs = xs.
Proof. induction xs as [|x xs IH]; cbn; [done|]. destruct (_ <=? _); cbn; [by f_equal|done]. Qed.

Lemma due_ext m m' now xs : (forall x, key m' x = key m x) -> due m' now xs = due m now xs /\ not_due m' now xs = not_due m now xs.
Proof. intros He. induction xs as [|x xs [IH1 IH2]]; cbn; [done|]. rewrite !He. by destruct (_ <=? _); rewrite ?IH1, ?IH2. Qed.

(** In a sorted list, exactly the alarms whose time has come are due. *)
Lemma due_iff m now xs : StronglySorted (by_key m) xs ->
  (forall x, x ∈ due m now xs <-> x ∈ xs /\ key m x <= now) /\ (forall x, x ∈ not_due m now xs <-> x ∈ xs /\ now < key m x).
Proof.
  induction 1 as [|x xs Hs [IH1 IH2] Hf]; cbn; [split; set_solver|].
  rewrite Forall_forall in Hf. unfold by_key in Hf. destruct (Z.leb_spec (key m x) now) as [Hle|Hgt]; split; intros y.
  - rewrite !elem_of_cons, IH1. naive_solver.
  - rewrite elem_of_cons, IH2. split; [naive_solver|]. intros [[->|?] ?]; [lia|done].
  - split; [by intros ?%elem_of_nil|]. intros [[->|Hy]%elem_of_cons ?]; [lia|]. specialize (Hf y Hy). lia.
  - rewrite !elem_of_cons. split; [|naive_solver]. intros [->|Hy]; [auto|]. specialize (Hf y Hy). split; [auto|lia].
Qed.

Lemma cond_waiters_clear waits x xs : x ∉ xs -> cond_waiters (waits_clear waits (CondAt x)) xs = cond_waiters waits xs.
Proof.
  intros Hx. unfold cond_waiters. induction xs as [|y xs IH]; cbn; [done|]. apply not_elem_of_cons in Hx as [Hxy Hx].
  rewrite IH by done. unfold waits_clear at 1. rewrite decide_False by congruence. done.
Qed.

Section Handler.
Context (mtag : Z -> Z) (main idle : Z).

Lemma wake_due_spec xs : forall fuel st m hd now ready waits,
  sched_inv main idle st ready waits -> chain m hd xs -> NoDup xs ->
  (forall x, x ∈ xs -> is_Some (conds st !! CondAt x)) -> (length xs < fuel)%nat ->
  exists st' m' hd', wake_due fuel st m hd now = Ret (st', m', hd') /\ chain m' hd' (not_due m now xs) /\
    (forall x, key m' x = key m x) /\ size m' = size m /\ curthr st' = curthr st /\
    sched_inv main idle st' (ready ++ cond_waiters waits (due m now xs)) (clear_all waits (due m now xs)).
Proof.
  induction xs as [|x xs IH]; intros fuel st m hd now ready waits HI Hc Hnd HC Hf; (destruct fuel as [|fuel]; [lia|]).
  - cbn in Hc. subst hd. cbn. exists st, m, None. rewrite app_nil_r. split_and!; done.
  - apply chain_head_lookup in Hc as [-> (a & Ha & Hc)]. cbn [wake_due due not_due]. unfold get_al at 1. rewrite Ha.
    cbn [obind]. rewrite (key_lookup m x a) by done. destruct (twake a <=? now) eqn:E.
    + destruct (broadcast_running mtag main idle st ready waits (CondAt x) HI) as (st1 & -> & Hcur1 & HI1 & Hk1);
        [apply HC; by left|]. cbn [obind]. rewrite (set_al_next_spec _ _ a) by done. cbn [obind].
      apply NoDup_cons in Hnd as [Hx Hnd]. set (m1 := <[x := _]> m).
      assert (Hkey : forall y, key m1 y = key m y) by (intros y; by apply key_set_next).
      destruct (IH fuel st1 m1 (al_next a) now _ _ HI1) as (st2 & m2 & hd2 & -> & Hc2 & Hk2 & Hs2 & Hcur2 & HI2); auto.
      { eapply chain_frame; [|exact Hc]. intros y Hy. unfold m1. rewrite lookup_insert_ne; [done|]. by intros ->. }
      { intros y Hy. apply Hk1, HC. by right. }
      { cbn in Hf. lia. }
      destruct (due_ext m m1 now xs Hkey) as [Hd1 Hd2]. rewrite Hd1, Hd2 in *.
      exists st2, m2, hd2. split_and!; auto; [by intros; rewrite Hk2| |congruence|].
      * rewrite Hs2. unfold m1. apply map_size_insert_Some; eauto.
      * rewrite cond_waiters_clear in HI2; [by rewrite <- app_assoc in HI2|].
        intros Hin. apply Hx. rewrite <- (due_not_due m now xs). set_solver.
    + cbn [cond_waiters flat_map clear_all fold_left]. exists st, m, (Some x). rewrite app_nil_r.
      split_and!; try done. cbn. eauto.
Qed.

Lemma size_bound tm xs : sleep_ok tm xs -> (length xs < S (size (alarms tm)))%nat.
Proof. intros [Hc Hnd _]. pose proof (chain_bounded _ _ _ Hc Hnd). lia. Qed.

Lemma sorted_app_r (R : relation Z) l1 l2 : StronglySorted R (l1 ++ l2) -> StronglySorted R l2.
Proof. induction l1 as [|x l1 IH]; cbn; [done|]. intros H. apply IH. by inversion H. Qed.

Lemma timer_intr_handler_spec st tm xs ready waits :
  sched_inv main idle st ready waits -> sleep_ok tm xs ->
  (forall x, x ∈ xs -> is_Some (conds st !! CondAt x)) ->
  exists st' tm', timer_intr_handler st tm = Ret (st', tm') /\ curthr st' = curthr st /\
    sched_inv main idle st' (ready ++ cond_waiters waits (due (alarms tm) (mtime tm) xs))
      (clear_all waits (due (alarms tm) (mtime tm) xs)) /\
    sleep_ok tm' (not_due (alarms tm) (mtime tm) xs) /\ (forall x, key (alarms tm') x = key (alarms tm) x) /\
    next_tick tm' = (if next_tick tm <? mtime tm then u64 (next_tick tm + TICK_PERIOD) else next_tick tm) /\
    mtcmp tm' = match not_due (alarms tm) (mtime tm) xs with
                | x :: _ => Z.min (key (alarms tm) x) (next_tick tm')
                | [] => next_tick tm'
                end.
Proof.
  intros HI Hok HC. unfold timer_intr_handler. destruct Hok as [Hc Hnd Hs].
  destruct (wake_due_spec xs (S (size (alarms tm))) st (alarms tm) (sleep_list tm) (mtime tm) ready waits HI Hc Hnd HC)
    as (st' & m' & hd' & -> & Hc' & Hk' & _ & Hcur & HI'); [by apply size_bound|]. cbn [obind].
  set (tm1 := set_alarms _ m' hd').
  assert (Hok' : sleep_ok tm1 (not_due (alarms tm) (mtime tm) xs)).
  { split; [done| |].
    - rewrite <- (due_not_due (alarms tm) (mtime tm) xs) in Hnd. by apply NoDup_app in Hnd as (_ & _ & ?).
    - rewrite <- (due_not_due (alarms tm) (mtime tm) xs) in Hs.
      apply (sorted_ext (alarms tm)); [exact Hk'|by eapply sorted_app_r]. }
  assert (Htick : next_tick tm1 = if next_tick tm <? mtime tm then u64 (next_tick tm + TICK_PERIOD) else next_tick tm)
    by (unfold tm1; by destruct (_ <? _)).
  destruct (not_due (alarms tm) (mtime tm) xs) as [|x r].
  - cbn in Hc'. rewrite Hc'. cbn [obind]. do 2 eexists. split; [done|]. split_and!; auto. destruct Hok'. by split.
  - apply chain_head_lookup in Hc' as [-> (a & Ha & Hca)]. unfold get_al. rewrite Ha. cbn [obind].
    rewrite <- (Hk' x), (key_lookup m' x a) by done.
    destruct (Z.ltb_spec (twake a) (next_tick tm1)); cbn [obind]; (do 2 eexists; split; [done|]);
      (split_and!; auto; [destruct Hok'; by split|]); cbn [enable_mmode_timer_intr set_mtcmp mtcmp next_tick]; lia.
Qed.
End Handler.

(** * Properties *)

(** [alarm_sleep] sets the wake-up time to the previous one plus the given
    count, saturated at the largest 64-bit value; if that time has passed it
    returns at once; otherwise the alarm takes its place in the sleep list,
    which stays sorted by wake-up time, the compare register is brought forward
    exactly when the alarm is the earliest and due before the next tick, and
    the calling thread waits on the alarm's condition; interrupts are disabled
    from before the insertion until the switch, and when the thread runs again
    they are enabled exactly if they were at the call. *)
Theorem alarm_sleep_sorted mtag main idle st tm al aa tcnt xs ready waits :
  sched_inv main idle st ready waits -> sleep_ok tm xs -> alarms tm !! al = Some aa -> al ∉ xs ->
  0 <= twake aa <= UINT64_MAX -> 0 <= tcnt <= UINT64_MAX -> curthr st <> idle -> is_Some (conds st !! CondAt al) ->
  let w := Z.min UINT64_MAX (twake aa + tcnt) in
  let m1 := <[al := {| al_next := al_next aa; twake := w |}]> (alarms tm) in
  if w <? mtime tm then
    exists tm', alarm_sleep mtag st tm al tcnt = Ret (st, tm', None) /\ sleep_ok tm' xs /\ alarms tm' = m1
  else
    exists st' tm' x r saved, alarm_sleep mtag st tm al tcnt = Ret (st', tm', Some saved) /\
      (forall st2, intr_enabled (ts_sstatus (alarm_sleep_woken st2 saved)) = intr_enabled (ts_sstatus st)) /\
      sleep_ok tm' (insert_sorted m1 al xs) /\ (forall y, key (alarms tm') y = key m1 y) /\
      mtcmp tm' = (if (match xs with x :: _ => w <=? key (alarms tm) x | [] => true end) && (w <? next_tick tm)
                   then w else mtcmp tm) /\
      ready = x :: r /\ curthr st' = x /\ sched_inv main idle st' r (waits_add waits (CondAt al) (curthr st)).
Proof.
  intros HI [Hc Hnd Hs] Ha Hal Htw Htc Hidle HC w m1. unfold alarm_sleep, get_al. rewrite Ha. cbn [obind].
  assert (Hw : wake_time (twake aa) tcnt = w) by (unfold wake_time, w; destruct (Z.ltb_spec (UINT64_MAX - twake aa) tcnt); lia).
  rewrite Hw. unfold set_twake, get_al. rewrite Ha. cbn [obind]. fold m1.
  assert (Hkx : forall y, y ∈ xs -> key m1 y = key (alarms tm) y).
  { intros y Hy. unfold key, m1. rewrite lookup_insert_ne; [done|]. by intros ->. }
  assert (Hok1 : sleep_ok (set_alarms tm m1 (sleep_list tm)) xs).
  { split; cbn; [|done|].
    - eapply chain_frame; [|exact Hc]. intros y Hy. unfold m1. rewrite lookup_insert_ne; [done|]. by intros ->.
    - clear Hc Hnd. induction Hs as [|x r Hs IH Hf]; constructor.
      + apply IH; [set_solver|]. intros y Hy. apply Hkx. by right.
      + rewrite Forall_forall in *. intros y Hy. unfold by_key in *. rewrite !Hkx by (set_solver). by apply Hf. }
  destruct (w <? mtime tm); [eauto|].
  pose proof (intr_disable_restore_bit (ts_sstatus st)) as Hres.
  destruct (intr_disable (ts_sstatus st)) as [ss saved].
  destruct (alarm_insert_spec (set_alarms tm m1 (sleep_list tm)) al {| al_next := al_next aa; twake := w |} xs Hok1)
    as (tm' & -> & Hok' & Hk' & _ & _ & Hcmp); [by apply lookup_insert_eq|done|]. cbn [obind].
  apply (sched_inv_sstatus _ _ _ ss) in HI.
  destruct (condition_wait_spec mtag main idle (with_sstatus st ss) ready waits (CondAt al) HI Hidle HC)
    as (x & r & st' & Hr & -> & Hcur & _ & _ & HI'); [done|]. cbn [obind].
  exists st', tm', x, r, saved. split; [done|]. split; [intros st2; apply Hres|]. split_and!; auto.
  rewrite Hcmp. cbn [set_alarms alarms next_tick mtcmp twake]. f_equal. destruct xs as [|y ys]; [done|].
  rewrite (key_lookup m1 al {| al_next := al_next aa; twake := w |}) by apply lookup_insert_eq.
  rewrite (Hkx y) by by left. done.
Qed.

(** Alarms at 100 (due) and 200 (not due) at time 60; two conditions. *)
Module TimerDemo.
Definition st : tsys := condition_init (condition_init Demo.st1 (CondAt 100) None) (CondAt 200) None.
Definition tm : timer :=
  {| mtime := 60; mtcmp := 0; next_tick := 70; sleep_list := Some 100;
     alarms := <[100 := {| al_next := Some 200; twake := 50 |}]> (<[200 := {| al_next := None; twake := 65 |}]>
       {[ 300 := {| al_next := None; twake := 40 |} ]});
     tm_sie := 0; mmode_intr := true; timer_initialized := true |}.
Lemma st_inv : exists ready waits, sched_inv 1 2 st ready waits.
Proof.
  destruct (reachable_inv id 1 2 Demo.st1 ltac:(done) Demo.st1_reachable) as (ready & waits & HI).
  exists ready, waits. unfold st. apply condition_init_inv; [apply condition_init_inv; [exact HI|]|]; vm_compute; reflexivity.
Qed.
Lemma tm_ok : sleep_ok tm [100; 200].
Proof.
  split.
  - cbn. split; [done|]. eexists. split; [reflexivity|]. cbn. split; [done|]. eexists. split; reflexivity.
  - apply (bool_decide_eq_true_1 _). vm_compute. reflexivity.
  - repeat constructor; vm_compute; discriminate.
Qed.
Lemma conds_ok x : x ∈ [100; 200] -> is_Some (conds st !! CondAt x).
Proof.
  intros Hx. apply elem_of_cons in Hx as [->|Hx]; [vm_compute; eauto|]. apply list_elem_of_singleton in Hx as ->. vm_compute. eauto.
Qed.
End TimerDemo.

Lemma alarm_sleep_sorted_witness :
  exists st' tm' saved, alarm_sleep id (condition_init TimerDemo.st (CondAt 300) None) TimerDemo.tm 300 22 = Ret (st', tm', Some saved) /\
    sleep_ok tm' [100; 300; 200].
Proof.
  destruct TimerDemo.st_inv as (ready & waits & HI).
  pose proof (alarm_sleep_sorted id 1 2 (condition_init TimerDemo.st (CondAt 300) None) TimerDemo.tm 300
    {| al_next := None; twake := 40 |} 22 [100; 200] ready waits
    (condition_init_inv 1 2 TimerDemo.st ready waits 300 None HI ltac:(vm_compute; reflexivity)) TimerDemo.tm_ok
    ltac:(vm_compute; reflexivity) ltac:(set_solver) ltac:(unfold UINT64_MAX; cbn; lia) ltac:(unfold UINT64_MAX; lia)
    ltac:(vm_compute; discriminate) ltac:(vm_compute; eauto)) as Hs.
  destruct Hs as (st' & tm' & x & r & saved & Hs & _ & Hok & _). exists st', tm', saved. split; [exact Hs|].
  revert Hok. match goal with |- sleep_ok _ ?l -> _ => replace l with [100; 300; 200] by (vm_compute; reflexivity) end. auto.
Defined.

(** C24: a timer interrupt wakes, in order of wake-up time, the threads of
    exactly the alarms whose time has come, leaves the others sleeping in
    order, advances the tick by one period if it has passed, and programs the
    compare register with the earlier of the next tick and the first alarm
    still sleeping, so that no sleeping alarm is due before the next
    interrupt. *)
Theorem timer_wakes_due main idle st tm xs ready waits :
  sched_inv main idle st ready waits -> sleep_ok tm xs -> (forall x, x ∈ xs -> is_Some (conds st !! CondAt x)) ->
  exists st' tm' woken rest, timer_intr_handler st tm = Ret (st', tm') /\ curthr st' = curthr st /\
    (forall x, x ∈ woken <-> x ∈ xs /\ key (alarms tm) x <= mtime tm) /\
    (forall x, x ∈ rest <-> x ∈ xs /\ mtime tm < key (alarms tm) x) /\
    StronglySorted (by_key (alarms tm)) woken /\ sleep_ok tm' rest /\
    sched_inv main idle st' (ready ++ cond_waiters waits woken) (clear_all waits woken) /\
    next_tick tm' = (if next_tick tm <? mtime tm then u64 (next_tick tm + TICK_PERIOD) else next_tick tm) /\
    mtcmp tm' <= next_tick tm' /\ (forall x, x ∈ rest -> mtcmp tm' <= key (alarms tm) x).
Proof.
  intros HI Hok HC. pose proof (due_iff (alarms tm) (mtime tm) xs (so_sorted _ _ Hok)) as [Hd Hn].
  destruct (timer_intr_handler_spec id main idle st tm xs ready waits HI Hok HC)
    as (st' & tm' & Hh & Hcur & HI' & Hok' & Hk' & Htick & Hcmp).
  exists st', tm', (due (alarms tm) (mtime tm) xs), (not_due (alarms tm) (mtime tm) xs). split_and!; auto.
  - pose proof (so_sorted _ _ Hok) as Hs. clear -Hs. induction Hs as [|x xs Hs IH Hf]; cbn; [constructor|].
    destruct (_ <=? _); [|constructor]. constructor; [done|]. rewrite Forall_forall in *. intros y Hy. apply Hf.
    rewrite <- (due_not_due (alarms tm) (mtime tm) xs). set_solver.
  - rewrite Hcmp. destruct (not_due _ _ _); lia.
  - intros x Hx. destruct (not_due (alarms tm) (mtime tm) xs) as [|y r]; [by apply elem_of_nil in Hx|].
    rewrite Hcmp. apply elem_of_cons in Hx as [->|Hx]; [lia|].
    pose proof (so_sorted _ _ Hok') as Hs. inversion Hs as [|? ? _ Hf]; subst. rewrite Forall_forall in Hf.
    specialize (Hf x Hx). unfold by_key in Hf. rewrite !Hk' in Hf. lia.
Qed.

Lemma timer_wakes_due_witness :
  exists st' tm' (woken : list Z) rest, timer_intr_handler TimerDemo.st TimerDemo.tm = Ret (st', tm') /\
    (forall x, x ∈ woken <-> x ∈ [100; 200] /\ key (alarms TimerDemo.tm) x <= 60) /\ sleep_ok tm' rest.
Proof.
  destruct TimerDemo.st_inv as (ready & waits & HI).
  destruct (timer_wakes_due 1 2 TimerDemo.st TimerDemo.tm [100; 200] ready waits HI TimerDemo.tm_ok TimerDemo.conds_ok)
    as (st' & tm' & woken & rest & Hh & _ & Hw & _ & _ & Hok & _).
  exists st', tm', woken, rest. auto.
Defined.
