(* ===== verification/Heap.v ===== *)
(** The heap of small blocks (src/src/kern/ezheap.c).

    Blocks are cut from the end of one current region; when it is too small a
    page is taken from the page allocator, which is an interface here
    ([PageSource]) that memory.c implements.  [kfree] gives nothing back. *)

From Stdlib Require Import List.
From S2P Require Import Prelude.
From stdpp Require Import list.
#[local] Open Scope Z_scope.

Definition SIZE_MAX : Z := 2 ^ 64 - 1.

(** What the heap uses of the memory manager: pages, and filling
    direct-mapped memory with a byte. *)
Class PageSource (P : Type) := {
  alloc_page : P -> outcome (P * Z);
  fill_bytes : P -> Z -> Z -> Z -> outcome P;
}.

(** The promise of memory.h: [pages p l] says that [l] are the free pages;
    an allocation returns one of them and keeps the others, and panics when
    there are none. *)
Class PageSupply (P : Type) `{PageSource P} := {
  pages : P -> list Z -> Prop;
  alloc_page_some p x l : pages p (x :: l) -> exists p', alloc_page p = Ret (p', x) /\ pages p' l;
  alloc_page_none p : pages p [] -> alloc_page p = Panic;
}.

Record heap := { heap_start : Z; heap_end : Z; heap_initialized : bool }.

Definition heap_init (start end_ : Z) : outcome heap :=
  assert! start <? end_ in
  Ret {| heap_start := start; heap_end := end_; heap_initialized := true |}.

(** [(size + 16-1) / 16 * 16] on [size_t]. *)
Definition round16 (size : Z) : Z := u64 (size + 15) / 16 * 16.

Section Ops.
Context {P : Type} `{PageSource P}.

Definition kmalloc (h : heap) (p : P) (size : Z) : outcome (heap * P * Z) :=
  let size := round16 size in
  if PAGE_SIZE <? size then Panic
  else if size <=? u64 (heap_end h - heap_start h) then
    let e := heap_end h - size in
    Ret ({| heap_start := heap_start h; heap_end := e; heap_initialized := heap_initialized h |}, p, e)
  else
    let! (p, new_block) := alloc_page p in
    if u64 (heap_end h - heap_start h) <? PAGE_SIZE - size then
      let e := new_block + PAGE_SIZE - size in
      Ret ({| heap_start := new_block; heap_end := e; heap_initialized := heap_initialized h |}, p, e)
    else Ret (h, p, new_block).

(** [SIZE_MAX / size] is a division by zero when [size] is. *)
Definition kcalloc (h : heap) (p : P) (n size : Z) : outcome (heap * P * Z) :=
  guard! negb (size =? 0) in
  if SIZE_MAX / size <? n then Panic
  else
    let! (h, p, ptr) := kmalloc h p (n * size) in
    let! p := fill_bytes p ptr 0 (n * size) in
    Ret (h, p, ptr).

Definition krealloc (h : heap) (p : P) (ptr size : Z) : outcome (heap * P * Z) := Panic.

Definition kfree (h : heap) (p : P) (ptr : Z) : outcome (heap * P) := Ret (h, p).

(** A sequence of requests, and the blocks they return with their sizes. *)
Fixpoint kmalloc_all (h : heap) (p : P) (sizes : list Z) : outcome (heap * P * list (Z * Z)) :=
  match sizes with
  | [] => Ret (h, p, [])
  | n :: r =>
      let! (h, p, x) := kmalloc h p n in
      let! (h, p, bs) := kmalloc_all h p r in
      Ret (h, p, (x, round16 n) :: bs)
  end.
End Ops.

(** * Regions of memory, as a start and a length *)

Definition disj (a b : Z * Z) : Prop := a.1 + a.2 <= b.1 \/ b.1 + b.2 <= a.1.
Definition inside (a b : Z * Z) : Prop := b.1 <= a.1 /\ a.1 + a.2 <= b.1 + b.2.

Definition page_region (x : Z) : Z * Z := (x, PAGE_SIZE).
Definition region_ok (a : Z * Z) : Prop := 0 <= a.1 /\ 0 <= a.2 /\ a.1 + a.2 < 2 ^ 64 /\ (a.1 + a.2) mod 16 = 0.

(** The memory the heap may still hand out. *)
Definition regions (h : heap) (l : list Z) : list (Z * Z) :=
  (heap_start h, heap_end h - heap_start h) :: map page_region l.
Definition supply_ok (rs : list (Z * Z)) : Prop := Forall region_ok rs /\ ForallOrdPairs disj rs.

(** [blk] is cut from the regions [rs], of which [rs'] are left. *)
Record cut (blk : Z * Z) (rs rs' : list (Z * Z)) : Prop := {
  cut_ok : supply_ok rs';
  cut_from : Exists (inside blk) rs;
  cut_apart : Forall (disj blk) rs';
  cut_left : Forall (fun r => Exists (inside r) rs) rs';
}.

Lemma round16_spec n : 0 <= n <= PAGE_SIZE -> n <= round16 n <= PAGE_SIZE /\ round16 n mod 16 = 0.
Proof.
  intros. unfold round16, PAGE_SIZE in *. rewrite u64_small by lia.
  Z.to_euclidean_division_equations; lia.
Qed.

Lemma disj_sym a b : disj a b -> disj b a.
Proof. unfold disj. tauto. Qed.
Lemma disj_inside_r a b d : inside b d -> disj a d -> disj a b.
Proof. unfold inside, disj. lia. Qed.
Lemma disj_inside_l a b c : inside a c -> disj c b -> disj a b.
Proof. unfold inside, disj. lia. Qed.
Lemma inside_refl r : inside r r.
Proof. unfold inside. lia. Qed.
Lemma inside_trans a b c : inside a b -> inside b c -> inside a c.
Proof. unfold inside. lia. Qed.
#[export] Hint Resolve inside_refl disj_sym : kern.

Lemma Forall_disj_inside a c rs : inside a c -> Forall (disj c) rs -> Forall (disj a) rs.
Proof. intros. eapply Forall_impl; [done|]. intros b ?. by eapply disj_inside_l. Qed.

Lemma in_some_region rs : Forall (fun r => Exists (inside r) rs) rs.
Proof. apply Forall_forall. intros r Hr. apply Exists_exists. eauto with kern. Qed.

Lemma Exists_inside_trans a rs rs' :
  Exists (inside a) rs' -> Forall (fun r => Exists (inside r) rs) rs' -> Exists (inside a) rs.
Proof.
  intros (b & Hb & Hab)%Exists_exists HF. rewrite Forall_forall in HF.
  apply HF in Hb as (c & Hc & Hbc)%Exists_exists. apply Exists_exists. eauto using inside_trans.
Qed.

(** Part of the first region. *)
Lemma cut_head c cur blk rs :
  supply_ok (c :: rs) -> inside blk c -> inside cur c -> disj blk cur -> region_ok cur ->
  cut blk (c :: rs) (cur :: rs).
Proof.
  intros [[_ Hok]%Forall_cons Hd] Hb Hc Hbc Hcur. inversion Hd as [|? ? Hdc Hdr]; subst.
  split; [split|..].
  - by constructor.
  - constructor; [by eapply Forall_disj_inside|done].
  - by constructor.
  - constructor; [done|by eapply Forall_disj_inside].
  - constructor; [by constructor|].
    eapply Forall_impl; [apply in_some_region|]. intros r Hr. by apply Exists_cons_tl.
Qed.

(** The whole first region. *)
Lemma cut_first c blk rs : supply_ok (c :: rs) -> inside blk c -> cut blk (c :: rs) rs.
Proof.
  intros [[_ Hok]%Forall_cons Hd] Hb. inversion Hd; subst. split; [done|by constructor|by eapply Forall_disj_inside|].
  eapply Forall_impl; [apply in_some_region|]. intros r Hr. by apply Exists_cons_tl.
Qed.

(** Another region than the first, which is then kept or abandoned. *)
Lemma cut_drop c blk rs rs' : cut blk rs rs' -> cut blk (c :: rs) rs'.
Proof.
  intros [? ? ? Hl]. split; [done|by apply Exists_cons_tl|done|].
  eapply Forall_impl; [exact Hl|]. intros r Hr. by apply Exists_cons_tl.
Qed.

Lemma cut_keep c blk rs rs' : supply_ok (c :: rs) -> cut blk rs rs' -> cut blk (c :: rs) (c :: rs').
Proof.
  intros [[Hc Hok]%Forall_cons Hd] [[Hok' Hd'] Hf Ha Hl]. inversion Hd as [|? ? Hdc _]; subst.
  rewrite Forall_forall in Hdc. split; [split|..].
  - by constructor.
  - constructor; [|done]. eapply Forall_impl; [exact Hl|]. intros r (r0 & Hr0 & Hi)%Exists_exists.
    eapply disj_inside_r; [done|by apply Hdc].
  - by apply Exists_cons_tl.
  - constructor; [|done]. apply Exists_exists in Hf as (r0 & Hr0 & Hi). eapply disj_inside_l; [done|].
    by apply disj_sym, Hdc.
  - constructor; [constructor; auto with kern|].
    eapply Forall_impl; [exact Hl|]. intros r Hr. by apply Exists_cons_tl.
Qed.

Section Alloc.
Context {P : Type} `{PageSupply P}.

(** A request of at most a page is cut from the current region or from the
    next free page. *)
Lemma kmalloc_step h p l n :
  supply_ok (regions h l) -> pages p l -> 0 <= n <= PAGE_SIZE -> l <> [] ->
  exists h' p' x l', kmalloc h p n = Ret (h', p', x) /\ pages p' l' /\ (l' = l \/ exists y, l = y :: l') /\
    x mod 16 = 0 /\ cut (x, round16 n) (regions h l) (regions h' l').
Proof.
  intros Hsup Hp Hn Hl. destruct l as [|y l]; [done|]. destruct (round16_spec n Hn) as [Hr H16].
  assert (Hreg := Hsup). destruct Hreg as [[Hc [Hy Hol]%Forall_cons]%Forall_cons Hd].
  inversion Hd as [|? ? _ Hdt]; subst.
  assert (Hsupt : supply_ok (page_region y :: map page_region l)) by (split; [by constructor|done]).
  unfold region_ok, page_region, PAGE_SIZE in Hc, Hy. cbn [fst snd] in Hc, Hy.
  unfold kmalloc, PAGE_SIZE in *.
  replace (4096 <? round16 n) with false by lia. rewrite u64_small by lia.
  destruct (Z.leb_spec (round16 n) (heap_end h - heap_start h)) as [Hfit|Hfit].
  - do 4 eexists. split; [reflexivity|]. split; [exact Hp|]. split; [by left|].
    split; [Z.to_euclidean_division_equations; lia|].
    apply cut_head; unfold inside, disj, region_ok; cbn [fst snd heap_start heap_end]; [done|lia..|].
    Z.to_euclidean_division_equations; lia.
  - destruct (alloc_page_some p y l Hp) as (p' & -> & Hp'). cbn [obind].
    destruct (Z.ltb_spec (heap_end h - heap_start h) (4096 - round16 n)) as [Hsw|Hsw]; do 4 eexists;
      (split; [reflexivity|]; split; [exact Hp'|]; split; [right; by exists y|]).
    + split; [Z.to_euclidean_division_equations; lia|]. apply cut_drop, cut_head; [done|..];
        unfold inside, disj, region_ok, page_region, PAGE_SIZE; cbn [fst snd heap_start heap_end]; [lia..|].
      Z.to_euclidean_division_equations; lia.
    + split; [Z.to_euclidean_division_equations; lia|]. apply cut_keep, cut_first; [done..|].
      unfold inside, page_region, PAGE_SIZE. cbn [fst snd]. lia.
Qed.

Lemma kmalloc_all_spec sizes h p l :
  supply_ok (regions h l) -> pages p l -> Forall (fun n => 0 <= n <= PAGE_SIZE) sizes ->
  (length sizes <= length l)%nat ->
  exists h' p' bs k, kmalloc_all h p sizes = Ret (h', p', bs) /\ pages p' (drop k l) /\ (k <= length sizes)%nat /\
    bs.*2 = map round16 sizes /\ Forall (fun b => b.1 mod 16 = 0) bs /\
    ForallOrdPairs disj bs /\ Forall (fun b => Exists (inside b) (regions h l)) bs.
Proof.
  revert h p l; induction sizes as [|n sizes IH]; intros h p l Hs Hp Hn Hlen.
  { exists h, p, [], 0%nat. cbn. split_and!; try done; constructor. }
  apply Forall_cons in Hn as [Hn Hns]. cbn [length] in Hlen.
  destruct (kmalloc_step h p l n Hs Hp Hn) as (h1 & p1 & x & l1 & E1 & Hp1 & Hl1 & Hx & [Hok Hf Ha Hleft]);
    [by destruct l; cbn in *; [lia|]|].
  destruct (IH h1 p1 l1) as (h2 & p2 & bs & k & E2 & Hp2 & Hk & Hbs & Hal & Hdj & Hin); try done.
  { destruct Hl1 as [->|[y ->]]; cbn [length] in *; lia. }
  cbn [kmalloc_all]. rewrite E1. cbn [obind]. rewrite E2. cbn [obind].
  assert (Hkeep : exists k', pages p2 (drop k' l) /\ (k' <= S (length sizes))%nat).
  { destruct Hl1 as [->|[y ->]]; [exists k|exists (S k)]; (split; [done|lia]). }
  destruct Hkeep as (k' & ? & ?). exists h2, p2, ((x, round16 n) :: bs), k'. cbn [fmap list_fmap map fst snd].
  split_and!; try done.
  - cbn. by f_equal.
  - by constructor.
  - constructor; [|done]. rewrite Forall_forall in Hin, Ha |- *. intros b Hb.
    apply Hin in Hb. apply Exists_exists in Hb as (r & Hr & Hbr). eapply disj_inside_r; [exact Hbr|by apply Ha].
  - constructor; [done|]. eapply Forall_impl; [exact Hin|]. intros b Hb. eapply Exists_inside_trans; [exact Hb|exact Hleft].
Qed.

(** C38: over any page allocator that keeps the promise of memory.h, any
    sequence of at most as many requests of at most a page each as there are
    free pages succeeds; the blocks it returns, of the requested sizes rounded
    up to a multiple of 16, are aligned to 16 bytes, pairwise disjoint, and lie
    in the memory given to [heap_init] or in pages taken from the allocator. *)
Theorem kmalloc_blocks a b h p l sizes :
  heap_init a b = Ret h -> pages p l -> supply_ok ((a, b - a) :: map page_region l) ->
  Forall (fun n => 0 <= n <= PAGE_SIZE) sizes -> (length sizes <= length l)%nat ->
  exists h' p' bs, kmalloc_all h p sizes = Ret (h', p', bs) /\
    bs.*2 = map round16 sizes /\ Forall2 Z.le sizes (bs.*2) /\ Forall (fun q => q.1 mod 16 = 0) bs /\
    ForallOrdPairs disj bs /\ Forall (fun q => Exists (inside q) ((a, b - a) :: map page_region l)) bs.
Proof.
  intros Hi Hp Hs Hn Hlen. unfold heap_init in Hi. destruct (a <? b); [|done]. injection Hi as <-.
  edestruct (kmalloc_all_spec sizes {| heap_start := a; heap_end := b; heap_initialized := true |} p l)
    as (h' & p' & bs & k & E & _ & _ & Hb & Hrest); [exact Hs|done..|].
  exists h', p', bs. split; [exact E|]. split; [done|]. split; [|exact Hrest].
  rewrite Hb. clear -Hn. induction Hn; constructor; [by apply round16_spec|done].
Qed.
End Alloc.

(** A page allocator that hands out a list of pages. *)
Module PageList.
#[global] Instance source : PageSource (list Z) := {
  alloc_page p := match p with [] => Panic | x :: l => Ret (l, x) end;
  fill_bytes p _ _ _ := Ret p;
}.
#[global] Program Instance supply : PageSupply (list Z) := { pages := eq }.
Next Obligation. by intros ? x l ->; exists l. Qed.
Next Obligation. by intros ? ->. Qed.
End PageList.

Lemma kmalloc_blocks_witness : exists h h' p' bs,
  heap_init 0x80100 0x80200 = Ret h /\ kmalloc_all h [0x90000; 0x91000; 0x92000] [100; 200; 4000] = Ret (h', p', bs) /\
  ForallOrdPairs disj bs.
Proof.
  eexists. edestruct (kmalloc_blocks 0x80100 0x80200 {| heap_start := 0x80100; heap_end := 0x80200; heap_initialized := true |}
    [0x90000; 0x91000; 0x92000] [0x90000; 0x91000; 0x92000] [100; 200; 4000]) as (h' & p' & bs & E & _ & _ & _ & Hd & _).
  - reflexivity.
  - reflexivity.
  - split; [repeat (apply Forall_cons_2; [by split_and!|]); apply Forall_nil_2|].
    repeat (constructor; [repeat (apply Forall_cons_2; [unfold disj, page_region, PAGE_SIZE; cbn [fst snd]; lia|]); apply Forall_nil_2|]); constructor.
  - repeat (apply Forall_cons_2; [by split_and!|]); apply Forall_nil_2.
  - cbn. lia.
  - exists h', p', bs. split; [reflexivity|]. split; [exact E|exact Hd].
Defined.

(** Near [SIZE_MAX] the rounding wraps and the request succeeds with an empty
    block. *)
Example kmalloc_size_wraps p :
  kmalloc {| heap_start := 0x80100; heap_end := 0x80200; heap_initialized := true |} (p : list Z) SIZE_MAX
  = Ret ({| heap_start := 0x80100; heap_end := 0x80200; heap_initialized := true |}, p, 0x80200).
Proof. reflexivity. Qed.
