(* ===== verification/Memory.v ===== *)
(** Physical pages and virtual memory (src/src/kern/memory.c, memory.h).

    Physical memory is a store of 64-bit words by address; page tables and the
    links of the free page list live in it, as in the source.  A [struct pte]
    is a record of its bit fields, packed into one word.  The kernel runs in
    the direct map, so a kernel pointer is a physical address; an access
    outside RAM is a fault.  The addresses the linker script provides, and
    where it puts the three main page tables, are the record [kimg].

    [translate] is the address translation of the hardware (RISC-V privileged
    architecture, Sv39), against which the operations are specified in
    PageTable.v. *)

From S2P Require Import Prelude Heap.
From stdpp Require Import gmap list.
#[local] Open Scope Z_scope.

(** * Constants (config.h, memory.h, csr.h) *)

Definition RAM_SIZE : Z := 8 * 1024 * 1024.
Definition RAM_START_PMA : Z := 0x80000000.
Definition RAM_END_PMA : Z := RAM_START_PMA + RAM_SIZE.
Definition USER_START_VMA : Z := 0xC0000000.
Definition USER_END_VMA : Z := 0xD0000000.
Definition MEGA_SIZE : Z := 512 * PAGE_SIZE.
Definition GIGA_SIZE : Z := 512 * MEGA_SIZE.
Definition PTE_CNT : Z := PAGE_SIZE / 8.
Definition HEAP_INIT_MIN : Z := 256.

Definition PTE_V : Z := 1.
Definition PTE_R : Z := 2.
Definition PTE_W : Z := 4.
Definition PTE_X : Z := 8.
Definition PTE_U : Z := 16.
Definition PTE_G : Z := 32.
Definition PTE_A : Z := 64.
Definition PTE_D : Z := 128.

Definition RISCV_SATP_MODE_Sv39 : Z := 8.
Definition RISCV_SATP_MODE_shift : Z := 60.
Definition ASID_SHIFT : Z := 44.
Definition RISCV_SSTATUS_SUM : Z := 2 ^ 18.

Definition VPN2 (vma : Z) : Z := Z.land (Z.shiftr vma (9 + 9 + 12)) 0x1FF.
Definition VPN1 (vma : Z) : Z := Z.land (Z.shiftr vma (9 + 12)) 0x1FF.
Definition VPN0 (vma : Z) : Z := Z.land (Z.shiftr vma 12) 0x1FF.

(** Unfolds the constants of the memory map. *)
Ltac mem_consts :=
  unfold GIGA_SIZE, MEGA_SIZE, RAM_END_PMA, RAM_SIZE, RAM_START_PMA, USER_START_VMA, USER_END_VMA, PTE_CNT,
    PAGE_SIZE, PAGE_ORDER in *.

(** * Page table entries *)

Record pte := {
  pte_flags : Z;      (* 8 bits *)
  pte_rsw : Z;        (* 2 *)
  pte_ppn : Z;        (* 44 *)
  pte_reserved : Z;   (* 7 *)
  pte_pbmt : Z;       (* 2 *)
  pte_n : Z;          (* 1 *)
}.

Definition pte_decode (w : Z) : pte :=
  {| pte_flags := w mod 2 ^ 8; pte_rsw := w / 2 ^ 8 mod 2 ^ 2; pte_ppn := w / 2 ^ 10 mod 2 ^ 44;
     pte_reserved := w / 2 ^ 54 mod 2 ^ 7; pte_pbmt := w / 2 ^ 61 mod 2 ^ 2; pte_n := w / 2 ^ 63 mod 2 |}.

Definition pte_encode (e : pte) : Z :=
  pte_flags e + 2 ^ 8 * pte_rsw e + 2 ^ 10 * pte_ppn e + 2 ^ 54 * pte_reserved e + 2 ^ 61 * pte_pbmt e + 2 ^ 63 * pte_n e.

(** Assignments to a bit field keep the low bits that fit. *)
Definition set_flags (f : Z) (e : pte) : pte :=
  {| pte_flags := f mod 2 ^ 8; pte_rsw := pte_rsw e; pte_ppn := pte_ppn e;
     pte_reserved := pte_reserved e; pte_pbmt := pte_pbmt e; pte_n := pte_n e |}.
Definition set_ppn (n : Z) (e : pte) : pte :=
  {| pte_flags := pte_flags e; pte_rsw := pte_rsw e; pte_ppn := n mod 2 ^ 44;
     pte_reserved := pte_reserved e; pte_pbmt := pte_pbmt e; pte_n := pte_n e |}.

Definition null_pte : pte :=
  {| pte_flags := 0; pte_rsw := 0; pte_ppn := 0; pte_reserved := 0; pte_pbmt := 0; pte_n := 0 |}.

Definition pagenum_to_pageptr (n : Z) : Z := u64 (Z.shiftl n PAGE_ORDER).
Definition pageptr_to_pagenum (p : Z) : Z := Z.shiftr p PAGE_ORDER.

Definition leaf_pte (pptr rwxug_flags : Z) : pte :=
  set_ppn (pageptr_to_pagenum pptr)
    (set_flags (Z.lor (Z.lor (Z.lor rwxug_flags PTE_A) PTE_D) PTE_V) null_pte).
Definition ptab_pte (ptab g_flag : Z) : pte :=
  set_ppn (pageptr_to_pagenum ptab) (set_flags (Z.lor g_flag PTE_V) null_pte).

(** [flags & mask] as a condition. *)
Definition has (f mask : Z) : bool := negb (Z.land f mask =? 0).

(** * Address arithmetic *)

(** Bits 63:38 all 0 or all 1; [bits] is the arithmetic shift. *)
Definition wellformed_vma (vma : Z) : bool :=
  let bits := u64 (Z.shiftr (i64 vma) 38) in (bits =? 0) || (u64 (bits + 1) =? 0).
Definition aligned_addr (vma blksz : Z) : bool := vma mod blksz =? 0.
Definition round_up_addr (addr blksz : Z) : Z := u64 (addr + blksz - 1) / blksz * blksz.
Definition round_down_addr (addr blksz : Z) : Z := addr / blksz * blksz.
(** [x & ~(PAGE_SIZE - 1)]. *)
Definition page_mask (a : Z) : Z := Z.land a (u64 (Z.lnot (PAGE_SIZE - 1))).

Definition mtag_to_root (mtag : Z) : Z := Z.shiftr (u64 (Z.shiftl mtag 20)) 8.

(** * State *)

Record mm := {
  ram : gmap Z Z;          (* 64-bit words; a word not listed is 0 *)
  free_list : Z;
  satp : Z;
  mm_sstatus : Z;
  main_mtag : Z;
  memory_initialized : bool;
}.

Definition with_ram (m : mm) (r : gmap Z Z) : mm :=
  {| ram := r; free_list := free_list m; satp := satp m; mm_sstatus := mm_sstatus m;
     main_mtag := main_mtag m; memory_initialized := memory_initialized m |}.
Definition with_free (m : mm) (f : Z) : mm :=
  {| ram := ram m; free_list := f; satp := satp m; mm_sstatus := mm_sstatus m;
     main_mtag := main_mtag m; memory_initialized := memory_initialized m |}.
Definition with_satp (m : mm) (s : Z) : mm :=
  {| ram := ram m; free_list := free_list m; satp := s; mm_sstatus := mm_sstatus m;
     main_mtag := main_mtag m; memory_initialized := memory_initialized m |}.

(** The symbols of kernel.ld and the page tables of the image. *)
Record kimg := {
  kimg_start : Z; text_start : Z; text_end : Z; rodata_start : Z; rodata_end : Z;
  data_start : Z; kimg_end : Z;
  main_pt2 : Z; main_pt1 : Z; main_pt0 : Z;
}.

(** * Memory accesses *)

Definition in_ram (a : Z) : bool := (RAM_START_PMA <=? a) && (a <? RAM_END_PMA).
Definition word (m : mm) (a : Z) : Z := default 0 (ram m !! a).

Definition ld64 (m : mm) (a : Z) : outcome Z :=
  guard! in_ram a && (a mod 8 =? 0) in Ret (word m a).
Definition st64 (m : mm) (a w : Z) : outcome mm :=
  guard! in_ram a && (a mod 8 =? 0) in Ret (with_ram m (<[a := w]> (ram m))).

Definition ld8 (m : mm) (a : Z) : outcome Z :=
  guard! in_ram a in Ret (word m (a - a mod 8) / 256 ^ (a mod 8) mod 256).
Definition st8 (m : mm) (a b : Z) : outcome mm :=
  guard! in_ram a in
  let w := word m (a - a mod 8) in
  let s := 256 ^ (a mod 8) in
  Ret (with_ram m (<[a - a mod 8 := w - w / s mod 256 * s + b mod 256 * s]> (ram m))).

(** [tab[i]] of a [struct pte] array at address [tab]. *)
Definition ld_pte (m : mm) (tab i : Z) : outcome pte :=
  let! w := ld64 m (tab + 8 * i) in Ret (pte_decode w).
Definition st_pte (m : mm) (tab i : Z) (e : pte) : outcome mm := st64 m (tab + 8 * i) (pte_encode e).
Definition upd_pte (m : mm) (tab i : Z) (f : pte -> pte) : outcome mm :=
  let! e := ld_pte m tab i in st_pte m tab i (f e).

(** [for (x = lo; x < hi; x += step) body]. *)
Fixpoint for_loop {S : Type} (fuel : nat) (x hi step : Z) (body : Z -> S -> outcome S) (s : S) : outcome S :=
  if x <? hi then
    match fuel with
    | O => NoFuel
    | Datatypes.S fuel => let! s := body x s in for_loop fuel (x + step) hi step body s
    end
  else Ret s.
Definition for_range {S : Type} (lo hi step : Z) (body : Z -> S -> outcome S) (s : S) : outcome S :=
  for_loop (Z.to_nat ((hi - lo) / step + 1)) lo hi step body s.

(** * Pages *)

Definition memory_alloc_page (m : mm) : outcome (mm * Z) :=
  if free_list m =? 0 then Panic
  else
    let page := free_list m in
    let! next := ld64 m page in
    Ret (with_free m next, page).

Definition memory_free_page (m : mm) (pp : Z) : outcome mm :=
  let! m := st64 m pp (free_list m) in
  Ret (with_free m pp).

(** [memset] and a whole-page [memcpy] on direct-mapped memory. *)
Definition memset_bytes (m : mm) (p c n : Z) : outcome mm :=
  for_range 0 n 1 (fun i m => st8 m (p + i) c) m.
Definition copy_page (m : mm) (dst src : Z) : outcome mm :=
  for_range 0 PTE_CNT 1 (fun i m => let! w := ld64 m (src + 8 * i) in st64 m (dst + 8 * i) w) m.

(** * Memory spaces *)

Definition active_space_mtag (m : mm) : Z := satp m.
Definition active_space_root (m : mm) : Z := mtag_to_root (active_space_mtag m).
Definition active_memory_space (m : mm) : Z := satp m.
Definition memory_space_switch (m : mm) (mtag : Z) : mm * Z := (with_satp m mtag, satp m).

Definition sv39_mtag (root : Z) : Z :=
  Z.lor (Z.shiftl RISCV_SATP_MODE_Sv39 RISCV_SATP_MODE_shift) (pageptr_to_pagenum root).

(** The null pointer is 0. *)
Definition walk_pt (m : mm) (root vma : Z) (create : bool) : outcome (mm * Z) :=
  let! pte2 := ld_pte m root (VPN2 vma) in
  let! (m, pt1) :=
    if has (pte_flags pte2) PTE_V then Ret (m, pagenum_to_pageptr (pte_ppn pte2))
    else if negb create then Ret (m, 0)
    else
      let! (m, pt1) := memory_alloc_page m in
      let! m := upd_pte m root (VPN2 vma) (fun e => set_flags PTE_V (set_ppn (pageptr_to_pagenum pt1) e)) in
      Ret (m, pt1) in
  if negb (has (pte_flags pte2) PTE_V) && negb create then Ret (m, 0)
  else
    let! pte1 := ld_pte m pt1 (VPN1 vma) in
    if has (pte_flags pte1) PTE_V then Ret (m, pagenum_to_pageptr (pte_ppn pte1))
    else if negb create then Ret (m, 0)
    else
      let! (m, pt0) := memory_alloc_page m in
      let! m := upd_pte m pt1 (VPN1 vma) (fun e => set_flags PTE_V (set_ppn (pageptr_to_pagenum pt0) e)) in
      Ret (m, pt0).

Definition memory_alloc_and_map_page (m : mm) (vma rwxug_flags : Z) : outcome (mm * Z) :=
  let! (m, pt0) := walk_pt m (active_space_root m) vma true in
  if pt0 =? 0 then Panic
  else
    let! (m, page) := memory_alloc_page m in
    let ppn := pageptr_to_pagenum page in
    let! m := upd_pte m pt0 (VPN0 vma) (set_ppn ppn) in
    let! m := upd_pte m pt0 (VPN0 vma) (fun e =>
      set_flags (Z.lor (pte_flags e) (Z.lor (Z.lor (Z.lor PTE_V rwxug_flags) PTE_A) PTE_D)) e) in
    Ret (m, Z.lor page (Z.land vma 0xFFF)).

(** [for (i = 0; i < size; i += PAGE_SIZE)] with an [int] counter compared as
    [size_t]. *)
Fixpoint page_loop (fuel : nat) (i size : Z) (body : Z -> mm -> outcome mm) (m : mm) : outcome mm :=
  if u64 i <? size then
    match fuel with
    | O => NoFuel
    | S fuel => let! m := body (u64 i) m in page_loop fuel (i32 (i + PAGE_SIZE)) size body m
    end
  else Ret m.

Definition memory_alloc_and_map_range (m : mm) (vma size rwxug_flags : Z) : outcome (mm * Z) :=
  if negb (size mod PAGE_SIZE =? 0) then Panic
  else
    let! m := page_loop (Z.to_nat (size / PAGE_SIZE)) 0 size (fun i m =>
      let! (m, _) := memory_alloc_and_map_page m (u64 (vma + i)) rwxug_flags in Ret m) m in
    Ret (m, vma).

Definition memory_set_page_flags (m : mm) (vp rwxug_flags : Z) : outcome mm :=
  let! (m, pt0) := walk_pt m (active_space_root m) vp false in
  upd_pte m pt0 (VPN0 vp) (set_flags (Z.lor (Z.lor (Z.lor rwxug_flags PTE_V) PTE_A) PTE_D)).

Definition memory_set_range_flags (m : mm) (vp size rwxug_flags : Z) : outcome mm :=
  if negb (size mod PAGE_SIZE =? 0) then Panic
  else page_loop (Z.to_nat (size / PAGE_SIZE)) 0 size (fun i m =>
    memory_set_page_flags m (u64 (vp + i)) rwxug_flags) m.

(** [fuel] bounds the depth of the recursion. *)
Fixpoint walk_and_free_user (fuel : nat) (m : mm) (root : Z) : outcome mm :=
  match fuel with
  | O => NoFuel
  | S fuel =>
      for_range 0 PTE_CNT 1 (fun i m =>
        let! e := ld_pte m root i in
        if has (pte_flags e) PTE_U then
          let! m :=
            if has (pte_flags e) PTE_V && (Z.land (pte_flags e) (Z.lor (Z.lor PTE_R PTE_W) PTE_X) =? 0)
            then walk_and_free_user fuel m (pagenum_to_pageptr (pte_ppn e))
            else Ret m in
          memory_free_page m (pagenum_to_pageptr (pte_ppn e))
        else Ret m) m
  end.

Definition memory_unmap_and_free_user (fuel : nat) (m : mm) : outcome mm :=
  walk_and_free_user fuel m (active_space_root m).

Definition memory_space_reclaim (fuel : nat) (m : mm) : outcome mm :=
  let! m := memory_unmap_and_free_user fuel m in
  Ret (fst (memory_space_switch m (main_mtag m))).

(** [-EBADFMT] or 0.  The tests [flags && PTE_V] and
    [(flags && rwxug_flags) != rwxug_flags] use the logical [&&], the entry is
    entry 0 of the table [walk_pt] returns, and [len] is a [size_t]. *)
Definition land_bool (a b : Z) : Z := if negb (a =? 0) && negb (b =? 0) then 1 else 0.

Fixpoint memory_validate_vptr_len (fuel : nat) (m : mm) (vp len rwxug_flags : Z) : outcome Z :=
  if len =? 0 then Ret 0
  else
    match fuel with
    | O => NoFuel
    | S fuel =>
        let aligned_vp := page_mask vp in
        let! (m, page) := walk_pt m (active_space_root m) aligned_vp false in
        let page_addr := pagenum_to_pageptr page in
        if page_addr =? 0 then Ret (- EBADFMT)
        else
          let! e := ld_pte m page 0 in
          if land_bool (pte_flags e) PTE_V =? 0 then Ret (- EBADFMT)
          else if negb (land_bool (pte_flags e) rwxug_flags =? rwxug_flags) then Ret (- EBADFMT)
          else
            let n := PAGE_SIZE - (vp - aligned_vp) in
            memory_validate_vptr_len fuel m (u64 (aligned_vp + PAGE_SIZE)) (u64 (len - n)) rwxug_flags
    end.

(** The characters of one page: [Some true] when the null was found,
    [Some false] at the end of the page, [None] on a wrong flag. *)
Fixpoint vstr_page (n : nat) (m : mm) (p page ug_flags : Z) : outcome (option bool) :=
  match n with
  | O => Ret (Some false)
  | S n =>
      let! c := ld8 m p in
      let! e := ld_pte m page 0 in
      if negb (land_bool (pte_flags e) ug_flags =? ug_flags) then Ret None
      else if land_bool (pte_flags e) PTE_V =? 0 then Ret None
      else if c =? 0 then Ret (Some true)
      else vstr_page n m (p + 1) page ug_flags
  end.

Fixpoint memory_validate_vstr (fuel : nat) (m : mm) (vs ug_flags : Z) : outcome Z :=
  match fuel with
  | O => NoFuel
  | S fuel =>
      let aligned_vs := page_mask vs in
      let! (m, page) := walk_pt m (active_space_root m) aligned_vs false in
      let page_addr := pagenum_to_pageptr page in
      if page_addr =? 0 then Ret (- EBADFMT)
      else
        let p := page_addr + (vs - aligned_vs) in
        let n := PAGE_SIZE - (vs - aligned_vs) in
        let! r := vstr_page (Z.to_nat n) m p page ug_flags in
        match r with
        | None => Ret (- EBADFMT)
        | Some true => Ret 0
        | Some false => memory_validate_vstr fuel m (u64 (aligned_vs + PAGE_SIZE)) ug_flags
        end
  end.

Definition memory_handle_page_fault (m : mm) (vptr : Z) : outcome mm :=
  let aligned_vptr := page_mask vptr in
  if (aligned_vptr <? USER_START_VMA) || (USER_END_VMA <? u64 (aligned_vptr + PAGE_SIZE)) then Panic
  else
    let! (m, _) := memory_alloc_and_map_page m aligned_vptr (Z.lor (Z.lor PTE_R PTE_W) PTE_U) in
    Ret m.

Section Image.
Context (img : kimg).

Definition map_direct (tab : Z) (vpn : Z -> Z) (flags lo hi step : Z) (m : mm) : outcome mm :=
  for_range lo hi step (fun pp m => st_pte m tab (vpn pp) (leaf_pte pp flags)) m.

(** The links of the free pages from [first] on. *)
Definition link_pages (first page_cnt : Z) (m : mm) : outcome mm :=
  for_range 0 page_cnt 1 (fun i m =>
    let page := first + i * PAGE_SIZE in
    st64 m page (if negb (i =? page_cnt - 1) then page + PAGE_SIZE else 0)) m.

Definition memory_init (m : mm) : outcome (mm * heap) :=
  assert! RAM_START_PMA =? kimg_start img in
  if MEGA_SIZE <? kimg_end img - kimg_start img then Panic
  else
    let! m := map_direct (main_pt2 img) VPN2 (Z.lor (Z.lor PTE_R PTE_W) PTE_G) 0 RAM_START_PMA GIGA_SIZE m in
    let! m := st_pte m (main_pt2 img) (VPN2 RAM_START_PMA) (ptab_pte (main_pt1 img) PTE_G) in
    let! m := st_pte m (main_pt1 img) (VPN1 RAM_START_PMA) (ptab_pte (main_pt0 img) PTE_G) in
    let! m := map_direct (main_pt0 img) VPN0 (Z.lor (Z.lor PTE_R PTE_X) PTE_G) (text_start img) (text_end img) PAGE_SIZE m in
    let! m := map_direct (main_pt0 img) VPN0 (Z.lor PTE_R PTE_G) (rodata_start img) (rodata_end img) PAGE_SIZE m in
    let! m := map_direct (main_pt0 img) VPN0 (Z.lor (Z.lor PTE_R PTE_W) PTE_G) (data_start img) (RAM_START_PMA + MEGA_SIZE) PAGE_SIZE m in
    let! m := map_direct (main_pt1 img) VPN1 (Z.lor (Z.lor PTE_R PTE_W) PTE_G) (RAM_START_PMA + MEGA_SIZE) RAM_END_PMA MEGA_SIZE m in
    let mtag := sv39_mtag (main_pt2 img) in
    let heap_start := kimg_end img in
    let heap_end := round_up_addr heap_start PAGE_SIZE in
    let heap_end :=
      if heap_end - heap_start <? HEAP_INIT_MIN
      then heap_end + round_up_addr (HEAP_INIT_MIN - (heap_end - heap_start)) PAGE_SIZE
      else heap_end in
    if RAM_END_PMA <? heap_end then Panic
    else
      let! h := heap_init heap_start heap_end in
      let page_cnt := (RAM_END_PMA - heap_end) / PAGE_SIZE in
      let! m := link_pages heap_end page_cnt m in
      Ret ({| ram := ram m; free_list := heap_end; satp := mtag;
              mm_sstatus := Z.lor (mm_sstatus m) RISCV_SSTATUS_SUM; main_mtag := mtag;
              memory_initialized := true |}, h).

(** Copies every field of an entry. *)
Definition copy_pte (m : mm) (dst src : Z) : outcome mm :=
  let! w := ld64 m src in st64 m dst w.

(** The tables of the new space are the main ones: each entry is copied to
    itself. *)
Definition memory_space_create (m : mm) (asid : Z) : outcome (mm * Z) :=
  let new_pt2 := main_pt2 img in
  let! m := copy_pte m new_pt2 (main_pt2 img) in
  let! m := copy_pte m (main_pt1 img) (main_pt1 img) in
  let! m := copy_pte m (main_pt0 img) (main_pt0 img) in
  let new_mtag := Z.lor (Z.lor (Z.shiftl RISCV_SATP_MODE_Sv39 RISCV_SATP_MODE_shift) (u64 (Z.shiftl asid ASID_SHIFT)))
                    (pageptr_to_pagenum new_pt2) in
  Ret (with_satp m new_mtag, new_mtag).

(** One page of the copy loop of [memory_space_clone]. *)
Definition clone_page (new_mtag : Z) (i : Z) (m : mm) : outcome mm :=
  let! (m, entry) := walk_pt m (active_space_root m) i false in
  if entry =? 0 then Ret m
  else
    let! e := ld_pte m entry (VPN0 i) in
    if negb (has (pte_flags e) PTE_V) then Ret m
    else if has (pte_flags e) PTE_U then
      let pma := pagenum_to_pageptr (pte_ppn e) in
      let! (m, pp) := memory_alloc_page m in
      let! m := copy_page m pp pma in
      let! (m, new_entry) := walk_pt m (mtag_to_root new_mtag) i true in
      let! e := ld_pte m entry (VPN0 i) in
      let! m := upd_pte m new_entry (VPN0 i) (set_flags (pte_flags e)) in
      upd_pte m new_entry (VPN0 i) (set_ppn (pageptr_to_pagenum pp))
    else Ret m.

Definition memory_space_clone (m : mm) (asid : Z) : outcome (mm * Z) :=
  let! (m, new_pt2) := memory_alloc_page m in
  let! m := for_range 0 RAM_START_PMA GIGA_SIZE (fun pma m =>
    let! e := ld_pte m (main_pt2 img) (VPN2 pma) in st_pte m new_pt2 (VPN2 pma) e) m in
  let! m := st_pte m new_pt2 (VPN2 RAM_START_PMA) (ptab_pte (main_pt1 img) PTE_G) in
  let! m := copy_pte m new_pt2 (main_pt2 img) in
  let new_mtag := sv39_mtag new_pt2 in
  let! m := for_range USER_START_VMA USER_END_VMA PAGE_SIZE (clone_page new_mtag) m in
  Ret (m, new_mtag).
End Image.

#[export] Instance mm_source : PageSource mm := {
  alloc_page := memory_alloc_page;
  fill_bytes := memset_bytes;
}.

(** * Address translation (Sv39) *)

Definition is_leaf (e : pte) : bool := has (pte_flags e) (Z.lor PTE_R PTE_X).
Definition is_table (e : pte) : bool :=
  has (pte_flags e) PTE_V && negb (has (pte_flags e) (Z.lor (Z.lor PTE_R PTE_W) PTE_X)).

Definition entry (m : mm) (tab i : Z) : pte := pte_decode (word m (tab + 8 * i)).

Definition vpn (lvl : nat) (v : Z) : Z := v / 2 ^ (12 + 9 * Z.of_nat lvl) mod 512.

(** The translation a valid leaf of level [lvl] gives; a superpage must be
    aligned, and writable without readable is a reserved encoding. *)
Definition leaf_at (lvl : nat) (e : pte) (v : Z) : option (Z * Z) :=
  let sz := 2 ^ (12 + 9 * Z.of_nat lvl) in
  if has (pte_flags e) PTE_V && is_leaf e && negb (has (pte_flags e) PTE_W && negb (has (pte_flags e) PTE_R))
     && (pte_ppn e * PAGE_SIZE mod sz =? 0)
  then Some (pte_ppn e * PAGE_SIZE + v mod sz, pte_flags e) else None.

Fixpoint sv39_walk (m : mm) (lvl : nat) (tab v : Z) : option (Z * Z) :=
  let e := entry m tab (vpn lvl v) in
  match lvl with
  | S l => if is_table e then sv39_walk m l (pte_ppn e * PAGE_SIZE) v else leaf_at lvl e v
  | O => leaf_at lvl e v
  end.

Definition translate (m : mm) (v : Z) : option (Z * Z) :=
  if (satp m / 2 ^ 60 =? RISCV_SATP_MODE_Sv39) && wellformed_vma v
  then sv39_walk m 2 (satp m mod 2 ^ 44 * PAGE_SIZE) v else None.
