(* ===== verification/PageTable.v ===== *)
(** Page tables against the address translation of the hardware (memory.c).

    [space_ok] is the invariant of a memory space: its tables form a tree of
    distinct pages of RAM, none of them free.  The operations of memory.c are
    specified by their effect on [translate]. *)

From Stdlib Require Import List.
From S2P Require Import Prelude Heap Memory.
From stdpp Require Import gmap list.
#[local] Open Scope Z_scope.

(** * Bit fields *)

Definition pte_ok (e : pte) : Prop :=
  0 <= pte_flags e < 2 ^ 8 /\ 0 <= pte_rsw e < 2 ^ 2 /\ 0 <= pte_ppn e < 2 ^ 44 /\
  0 <= pte_reserved e < 2 ^ 7 /\ 0 <= pte_pbmt e < 2 ^ 2 /\ 0 <= pte_n e < 2.

Lemma pte_decode_ok w : pte_ok (pte_decode w).
Proof. unfold pte_ok, pte_decode. cbn [pte_flags pte_rsw pte_ppn pte_reserved pte_pbmt pte_n]. split_and!; apply Z.mod_pos_bound; lia. Qed.

Lemma set_flags_ok f e : pte_ok e -> pte_ok (set_flags f e).
Proof. unfold pte_ok, set_flags. cbn [pte_flags pte_rsw pte_ppn pte_reserved pte_pbmt pte_n]. intuition; try apply Z.mod_pos_bound; lia. Qed.
Lemma set_ppn_ok f e : pte_ok e -> pte_ok (set_ppn f e).
Proof. unfold pte_ok, set_ppn. cbn [pte_flags pte_rsw pte_ppn pte_reserved pte_pbmt pte_n]. intuition; try apply Z.mod_pos_bound; lia. Qed.
Lemma null_pte_ok : pte_ok null_pte.
Proof. unfold pte_ok, null_pte. cbn. lia. Qed.
#[export] Hint Resolve pte_decode_ok set_flags_ok set_ppn_ok null_pte_ok : kern.
Lemma leaf_pte_ok p f : pte_ok (leaf_pte p f).
Proof. unfold leaf_pte. auto with kern. Qed.
Lemma ptab_pte_ok p f : pte_ok (ptab_pte p f).
Proof. unfold ptab_pte. auto with kern. Qed.
#[export] Hint Resolve leaf_pte_ok ptab_pte_ok : kern.

Lemma pte_decode_encode e : pte_ok e -> pte_decode (pte_encode e) = e.
Proof.
  destruct e as [f r p v b n]. unfold pte_ok, pte_decode, pte_encode. cbn [pte_flags pte_rsw pte_ppn pte_reserved pte_pbmt pte_n].
  intros H. f_equal; Z.to_euclidean_division_equations; lia.
Qed.

(** * Pages of RAM *)

Definition page_ok (a : Z) : Prop := RAM_START_PMA <= a /\ a + PAGE_SIZE <= RAM_END_PMA /\ a mod PAGE_SIZE = 0.
Definition index_ok (i : Z) : Prop := 0 <= i < 512.

(** [m] with entry [i] of the table at [a] replaced. *)
Definition put (m : mm) (a i : Z) (e : pte) : mm := with_ram m (<[a + 8 * i := pte_encode e]> (ram m)).

Lemma word_ram m r a : word (with_ram m r) a = default 0 (r !! a).
Proof. done. Qed.

Lemma word_insert m a w b : word (with_ram m (<[a := w]> (ram m))) b = if decide (a = b) then w else word m b.
Proof.
  rewrite word_ram. destruct (decide (a = b)) as [->|Hn].
  - by rewrite lookup_insert_eq.
  - by rewrite lookup_insert_ne.
Qed.

Lemma slot_in_ram a i : page_ok a -> index_ok i -> in_ram (a + 8 * i) && ((a + 8 * i) mod 8 =? 0) = true.
Proof.
  unfold page_ok, index_ok, in_ram, PAGE_SIZE. intros (? & ? & ?) ?.
  apply andb_true_iff. split; [lia|]. apply Z.eqb_eq. Z.to_euclidean_division_equations; lia.
Qed.

Lemma ld_pte_ok m a i : page_ok a -> index_ok i -> ld_pte m a i = Ret (entry m a i).
Proof. intros. unfold ld_pte, ld64. by rewrite slot_in_ram. Qed.

Lemma st_pte_ok m a i e : page_ok a -> index_ok i -> st_pte m a i e = Ret (put m a i e).
Proof. intros. unfold st_pte, st64. by rewrite slot_in_ram. Qed.

Lemma upd_pte_ok m a i f : page_ok a -> index_ok i -> upd_pte m a i f = Ret (put m a i (f (entry m a i))).
Proof. intros. unfold upd_pte. rewrite ld_pte_ok by done. cbn [obind]. by apply st_pte_ok. Qed.

Lemma pte_slot_inj a i b j : page_ok a -> page_ok b -> index_ok i -> index_ok j -> a + 8 * i = b + 8 * j -> a = b /\ i = j.
Proof.
  unfold page_ok, index_ok, PAGE_SIZE. intros (_ & _ & Ha) (_ & _ & Hb) Hi Hj E.
  Z.to_euclidean_division_equations; lia.
Qed.

Lemma entry_put m a i e b j : page_ok a -> page_ok b -> index_ok i -> index_ok j -> pte_ok e ->
  entry (put m a i e) b j = if decide (a = b /\ i = j) then e else entry m b j.
Proof.
  intros Ha Hb Hi Hj He. unfold entry, put. rewrite word_insert.
  destruct (decide (a + 8 * i = b + 8 * j)) as [E|E].
  - apply pte_slot_inj in E as [-> ->]; auto. rewrite decide_True by done. by apply pte_decode_encode.
  - rewrite decide_False; [done|]. intros [-> ->]. done.
Qed.

Lemma entry_put_eq m a i e : pte_ok e -> entry (put m a i e) a i = e.
Proof. intros. unfold entry, put. rewrite word_insert, decide_True by done. by apply pte_decode_encode. Qed.

Lemma put_put m a i e1 e2 : put (put m a i e1) a i e2 = put m a i e2.
Proof. unfold put, with_ram. cbn. by rewrite insert_insert_eq. Qed.

(** * Virtual page numbers *)

Lemma vpn_ok l v : index_ok (vpn l v).
Proof. unfold index_ok, vpn. apply Z.mod_pos_bound. lia. Qed.
#[export] Hint Resolve vpn_ok : kern.

Lemma land_1ff x : Z.land x 0x1FF = x mod 512.
Proof. change 0x1FF with (Z.ones 9). rewrite Z.land_ones by lia. done. Qed.

Lemma VPN0_vpn v : VPN0 v = vpn 0 v.
Proof. unfold VPN0, vpn. rewrite land_1ff, Z.shiftr_div_pow2 by lia. done. Qed.
Lemma VPN1_vpn v : VPN1 v = vpn 1 v.
Proof. unfold VPN1, vpn. rewrite land_1ff, Z.shiftr_div_pow2 by lia. done. Qed.
Lemma VPN2_vpn v : VPN2 v = vpn 2 v.
Proof. unfold VPN2, vpn. rewrite land_1ff, Z.shiftr_div_pow2 by lia. done. Qed.

Lemma pageptr_pagenum a : page_ok a -> pageptr_to_pagenum a mod 2 ^ 44 * PAGE_SIZE = a.
Proof.
  unfold page_ok, pageptr_to_pagenum. intros (? & ? & ?). mem_consts.
  rewrite Z.shiftr_div_pow2 by lia. rewrite (Z.mod_small (a / 2 ^ 12)); Z.to_euclidean_division_equations; lia.
Qed.

Lemma pagenum_pageptr n : 0 <= n < 2 ^ 44 -> pagenum_to_pageptr n = n * PAGE_SIZE.
Proof.
  intros. unfold pagenum_to_pageptr, PAGE_ORDER, PAGE_SIZE. rewrite Z.shiftl_mul_pow2 by lia. apply u64_small. lia.
Qed.

Lemma entry_ppn_range m a i : 0 <= pte_ppn (entry m a i) < 2 ^ 44.
Proof. apply pte_decode_ok. Qed.

(** * The free pages *)

Fixpoint chain (m : mm) (x : Z) (l : list Z) : Prop :=
  match l with
  | [] => x = 0
  | y :: r => x = y /\ page_ok y /\ chain m (word m y) r
  end.
Definition free_pages (m : mm) (l : list Z) : Prop := chain m (free_list m) l /\ NoDup l.

Lemma page_chain_frame m m' x l : (forall y, y ∈ l -> word m' y = word m y) -> chain m x l -> chain m' x l.
Proof.
  revert x; induction l as [|y r IH]; intros x Hw; cbn [chain]; [done|]. intros (-> & Hy & Hc).
  split; [done|]. split; [done|]. rewrite Hw by constructor. apply IH; [|done]. intros. apply Hw. by constructor.
Qed.

Lemma free_pages_page_ok m l x : free_pages m l -> x ∈ l -> page_ok x.
Proof.
  intros [Hc _]. generalize (free_list m) Hc. clear. induction l as [|y r IH]; intros z; cbn [chain]; [set_solver|].
  intros (_ & Hy & Hc) [->|?]%elem_of_cons; [done|by eapply IH].
Qed.

Lemma page_ok_nonzero x : page_ok x -> x <> 0.
Proof. unfold page_ok, RAM_START_PMA. lia. Qed.

Lemma memory_alloc_page_spec m x l : free_pages m (x :: l) ->
  memory_alloc_page m = Ret (with_free m (word m x), x) /\ free_pages (with_free m (word m x)) l /\ page_ok x /\ x ∉ l.
Proof.
  intros [(Hx & Hok & Hc) Hd]. apply NoDup_cons in Hd as [Hxl Hd]. unfold memory_alloc_page. rewrite Hx.
  replace (x =? 0) with false by (apply page_ok_nonzero in Hok; lia).
  unfold ld64. rewrite <- (Z.add_0_r x), <- (Z.mul_0_r 8), slot_in_ram by (done || unfold index_ok; lia).
  rewrite Z.mul_0_r, Z.add_0_r. cbn [obind]. split_and!; try done.
  split; [|done]. cbn. revert Hc. by apply page_chain_frame.
Qed.

Lemma memory_free_page_spec m x l : free_pages m l -> page_ok x -> x ∉ l ->
  exists m', memory_free_page m x = Ret m' /\ free_pages m' (x :: l) /\ (forall a, a <> x -> word m' a = word m a).
Proof.
  intros [Hc Hd] Hok Hx. unfold memory_free_page, st64.
  assert (Hs : in_ram x && (x mod 8 =? 0) = true).
  { rewrite <- (Z.add_0_r x), <- (Z.mul_0_r 8). apply slot_in_ram; [done|unfold index_ok; lia]. }
  rewrite Hs. cbn [obind]. eexists. split; [done|]. split.
  - split; [|by constructor]. cbn [chain free_list with_free]. split; [done|]. split; [done|].
    change (word (with_free ?mm _) ?a) with (word mm a). rewrite word_insert, decide_True by done.
    eapply page_chain_frame; [|exact Hc]. intros y Hy. change (word (with_free ?mm _) ?a) with (word mm a).
    rewrite word_insert, decide_False; [done|]. set_solver.
  - intros a Ha. change (word (with_free ?mm _) ?b) with (word mm b). by rewrite word_insert, decide_False.
Qed.

#[export] Program Instance mm_supply : PageSupply mm := { pages := free_pages }.
Next Obligation. intros m x l H. apply memory_alloc_page_spec in H as (E & ? & _). eexists. split; [exact E|done]. Qed.
Next Obligation. intros m [Hc _]. cbn in Hc |- *. unfold memory_alloc_page. by rewrite Hc. Qed.

(** Writes outside the first words of the free pages keep the free list. *)
Lemma free_pages_put m a i e l : free_pages m l -> page_ok a -> index_ok i -> a ∉ l -> free_pages (put m a i e) l.
Proof.
  intros Hf Ha Hi Hl. assert (Hf' := Hf). destruct Hf' as [Hc Hd]. split; [|done]. eapply page_chain_frame; [|exact Hc].
  intros y Hy. unfold put. rewrite word_insert, decide_False; [done|]. intros E.
  destruct (pte_slot_inj a i y 0) as [-> _]; [done|by eapply free_pages_page_ok|done|unfold index_ok; lia|lia|done].
Qed.

(** * Memory spaces *)

Definition next_table (e : pte) : option Z := if is_table e then Some (pte_ppn e * PAGE_SIZE) else None.

(** The table reached from the one at [a] along the indices [p]. *)
Fixpoint tab_at (m : mm) (a : Z) (p : list Z) : option Z :=
  match p with
  | [] => Some a
  | i :: r => match next_table (entry m a i) with Some b => tab_at m b r | None => None end
  end.

Definition path_ok (p : list Z) : Prop := Forall index_ok p /\ (length p <= 2)%nat.

(** Paths into the gigabyte of the user region. *)
Definition in_user (p : list Z) : Prop := head p = Some 3.

(** Flags of a leaf: readable or executable, and not writable only. *)
Definition perm_ok (f : Z) : bool := has f (Z.lor PTE_R PTE_X) && negb (has f PTE_W && negb (has f PTE_R)).

(** An entry of a table at the end of a path: unused, or valid; a valid entry
    of a last-level table is a leaf, and the user region has no superpages. *)
Definition entry_ok (p : list Z) (i : Z) (e : pte) : Prop :=
  pte_flags e = 0 \/
  has (pte_flags e) PTE_V = true /\ (length p = 2%nat -> perm_ok (pte_flags e) = true) /\
  (length p <> 2%nat -> in_user (p ++ [i]) -> is_table e = true).

Record space_ok (m : mm) (root : Z) (free : list Z) : Prop := {
  so_tab p a : path_ok p -> tab_at m root p = Some a -> page_ok a /\ a ∉ free;
  so_inj p q a : path_ok p -> path_ok q -> tab_at m root p = Some a -> tab_at m root q = Some a -> p = q;
  so_ent p a i : path_ok p -> tab_at m root p = Some a -> index_ok i -> entry_ok p i (entry m a i);
}.

(** Free pages hold no valid entries. *)
Definition clean (m : mm) (free : list Z) : Prop :=
  forall x i, x ∈ free -> index_ok i -> pte_flags (entry m x i) = 0.

Lemma tab_at_app m a p q : tab_at m a (p ++ q) = match tab_at m a p with Some b => tab_at m b q | None => None end.
Proof. revert a; induction p as [|i p IH]; intros a; cbn; [done|]. by destruct (next_table _). Qed.

Lemma tab_at_snoc m a p i :
  tab_at m a (p ++ [i]) = match tab_at m a p with Some b => next_table (entry m b i) | None => None end.
Proof. rewrite tab_at_app. destruct (tab_at m a p); [|done]. cbn. by destruct (next_table _). Qed.

Lemma path_ok_app p q : path_ok (p ++ q) -> path_ok p.
Proof. unfold path_ok. rewrite Forall_app, length_app. intros [[? _] ?]. split; [done|lia]. Qed.
Lemma path_ok_snoc p i : path_ok p -> index_ok i -> (length p <= 1)%nat -> path_ok (p ++ [i]).
Proof. unfold path_ok. rewrite Forall_app, length_app. cbn. intros [? _] ? ?. split; [auto|lia]. Qed.
Lemma path_ok_nil : path_ok [].
Proof. split; [constructor|cbn; lia]. Qed.
#[export] Hint Resolve path_ok_nil path_ok_snoc : kern.

Lemma no_flags_no_table e : pte_flags e = 0 -> next_table e = None.
Proof. unfold next_table, is_table. by intros ->. Qed.

(** A replaced entry only changes the paths through it. *)
Lemma tab_at_put m root free p0 a i0 e q : space_ok m root free ->
  path_ok p0 -> tab_at m root p0 = Some a -> index_ok i0 -> pte_ok e -> path_ok q ->
  ~ (p0 ++ [i0]) `prefix_of` q -> tab_at (put m a i0 e) root q = tab_at m root q.
Proof.
  intros Hs Hp0 Ha Hi0 He. induction q as [|i q IH] using rev_ind; intros Hq Hnp; [done|].
  assert (Hq' := path_ok_app _ _ Hq). rewrite !tab_at_snoc, IH by (done || (intros Hp; apply Hnp; by apply prefix_app_r)).
  destruct (tab_at m root q) as [b|] eqn:Hb; [|done].
  destruct (so_tab _ _ _ Hs _ _ Hp0 Ha) as [Hpa _]. destruct (so_tab _ _ _ Hs _ _ Hq' Hb) as [Hpb _].
  assert (Hi : index_ok i) by (destruct Hq as [HF _]; apply Forall_app in HF as [_ HF]; by inversion HF).
  rewrite entry_put by done. rewrite decide_False; [done|]. intros [-> ->]. apply Hnp.
  by rewrite (so_inj _ _ _ Hs p0 q b).
Qed.

Lemma tab_at_put_self m root free p0 a i0 e : space_ok m root free ->
  path_ok p0 -> tab_at m root p0 = Some a -> index_ok i0 -> pte_ok e -> tab_at (put m a i0 e) root p0 = Some a.
Proof.
  intros Hs Hp0 Ha Hi0 He. rewrite <- Ha. eapply tab_at_put; try done.
  intros [r Hr]. apply (f_equal length) in Hr. rewrite !length_app in Hr. cbn in Hr. lia.
Qed.

Lemma entry_free m x a i : entry (with_free m x) a i = entry m a i.
Proof. done. Qed.
Lemma tab_at_free m x a p : tab_at (with_free m x) a p = tab_at m a p.
Proof. revert a; induction p as [|i p IH]; intros a; cbn; [done|]. rewrite entry_free. by destruct (next_table _). Qed.
Lemma space_ok_free m x root free : space_ok m root free -> space_ok (with_free m x) root free.
Proof.
  intros [Ht Hi He]. split.
  - intros p a. rewrite tab_at_free. apply Ht.
  - intros p q a. rewrite !tab_at_free. apply Hi.
  - intros p a i. rewrite tab_at_free, entry_free. apply He.
Qed.
Lemma space_ok_sub m root free free' : (forall x, x ∈ free' -> x ∈ free) -> space_ok m root free -> space_ok m root free'.
Proof.
  intros Hsub [Ht Hi He]. split; [|done..]. intros p a Hp Ha. destruct (Ht p a Hp Ha) as [? Hn].
  split; [done|]. intros ?. apply Hn. auto.
Qed.

(** * Linking an empty table below an unused entry *)

Section Link.
Context (m : mm) (root : Z) (x : Z) (l : list Z) (p0 : list Z) (a i0 : Z) (e : pte).
Context (Hs : space_ok m root (x :: l)) (Hp0 : path_ok p0) (Hlen : (length p0 <= 1)%nat).
Context (Ha : tab_at m root p0 = Some a) (Hi0 : index_ok i0) (Hnone : pte_flags (entry m a i0) = 0).
Context (He : pte_ok e) (Hnx : next_table e = Some x).
Context (Hx : page_ok x) (Hxl : x ∉ l) (Hclean : forall i, index_ok i -> pte_flags (entry m x i) = 0).

Let m' := put m a i0 e.

Local Lemma link_page_a : page_ok a /\ a <> x /\ a ∉ l.
Proof. destruct (so_tab _ _ _ Hs _ _ Hp0 Ha) as [? ?]. set_solver. Qed.

Lemma link_entry_new i : index_ok i -> entry m' x i = entry m x i.
Proof.
  intros Hi. destruct link_page_a as (? & ? & ?). unfold m'. rewrite entry_put by done.
  rewrite decide_False; [done|]. by intros [-> _].
Qed.

Lemma tab_at_link q : path_ok q ->
  tab_at m' root q = if decide (q = p0 ++ [i0]) then Some x else tab_at m root q.
Proof.
  intros Hq. destruct (decide ((p0 ++ [i0]) `prefix_of` q)) as [[r ->]|Hnp].
  - assert (Hpre : tab_at m' root (p0 ++ [i0]) = Some x).
    { unfold m'. rewrite tab_at_snoc, (tab_at_put_self m root (x :: l) p0) by done. by rewrite entry_put_eq. }
    rewrite tab_at_app, Hpre. destruct r as [|j r].
    + by rewrite app_nil_r, decide_True.
    + rewrite decide_False by (intros E; apply (f_equal length) in E; rewrite !length_app in E; cbn in E; lia).
      assert (Hj : index_ok j) by (destruct Hq as [HF _]; apply Forall_app in HF as [_ HF]; by inversion HF).
      cbn [tab_at]. rewrite link_entry_new, no_flags_no_table by auto.
      by rewrite tab_at_app, tab_at_snoc, Ha, no_flags_no_table.
  - unfold m'. rewrite (tab_at_put m root (x :: l) p0) by done. rewrite decide_False; [done|].
    intros ->. by apply Hnp.
Qed.

Lemma space_ok_link : space_ok m' root l.
Proof.
  destruct link_page_a as (Hpa & Hax & Hal). split.
  - intros q b Hq. rewrite tab_at_link by done. destruct (decide _) as [->|]; [by intros [= <-]|].
    intros Hb. destruct (so_tab _ _ _ Hs q b Hq Hb) as [? ?]. set_solver.
  - intros q r b Hq Hr. rewrite !tab_at_link by done.
    destruct (decide _) as [->|], (decide _) as [->|]; [done|..|].
    + intros [= <-] Hb. destruct (so_tab _ _ _ Hs r x Hr Hb). set_solver.
    + intros Hb [= <-]. destruct (so_tab _ _ _ Hs q x Hq Hb). set_solver.
    + by apply (so_inj _ _ _ Hs).
  - intros q b i Hq. rewrite tab_at_link by done. destruct (decide _) as [->|Hn]; intros Hb Hi.
    + injection Hb as <-. left. rewrite link_entry_new by done. by apply Hclean.
    + destruct (so_tab _ _ _ Hs q b Hq Hb) as [Hpb _]. unfold m'. rewrite entry_put by done.
      destruct (decide _) as [[-> ->]|_]; [|by apply (so_ent _ _ _ Hs)].
      rewrite <- (so_inj _ _ _ Hs p0 q b) by done. unfold next_table in Hnx. destruct (is_table e) eqn:Ht; [|done].
      right. split; [|split; [lia|done]]. by apply andb_true_iff in Ht as [? _].
Qed.

Lemma clean_link free : (forall y, y ∈ free -> page_ok y) -> a ∉ free -> clean m free -> clean m' free.
Proof.
  intros Hok Haf Hc y i Hy Hi. destruct link_page_a as (? & ? & ?). unfold m'.
  rewrite entry_put by auto. rewrite decide_False; [by apply Hc|]. by intros [-> _].
Qed.

End Link.

(** * Translation through the tables *)

Definition walk_from (m : mm) (root v : Z) : option (Z * Z) :=
  match tab_at m root [vpn 2 v] with
  | None => leaf_at 2 (entry m root (vpn 2 v)) v
  | Some a1 =>
      match tab_at m root [vpn 2 v; vpn 1 v] with
      | None => leaf_at 1 (entry m a1 (vpn 1 v)) v
      | Some a0 => leaf_at 0 (entry m a0 (vpn 0 v)) v
      end
  end.

Lemma sv39_walk_tabs m root v : sv39_walk m 2 root v = walk_from m root v.
Proof.
  unfold walk_from. cbn [sv39_walk tab_at]. unfold next_table.
  destruct (is_table (entry m root (vpn 2 v))); [|done].
  destruct (is_table (entry m _ (vpn 1 v))); done.
Qed.

Lemma leaf_at_none l e v : pte_flags e = 0 -> leaf_at l e v = None.
Proof. unfold leaf_at. by intros ->. Qed.

Lemma vpath_ok v : path_ok [vpn 2 v; vpn 1 v].
Proof. split; [|cbn; lia]. repeat constructor; apply vpn_ok. Qed.
Lemma vpath1_ok v : path_ok [vpn 2 v].
Proof. split; [|cbn; lia]. repeat constructor; apply vpn_ok. Qed.
#[export] Hint Resolve vpath_ok vpath1_ok : kern.

(** An empty table translates nothing, as the unused entry did. *)
Lemma walk_from_link m root x l p0 a i0 e v :
  space_ok m root (x :: l) -> path_ok p0 -> (length p0 <= 1)%nat -> tab_at m root p0 = Some a -> index_ok i0 ->
  pte_flags (entry m a i0) = 0 -> pte_ok e -> next_table e = Some x -> page_ok x -> x ∉ l ->
  (forall i, index_ok i -> pte_flags (entry m x i) = 0) ->
  walk_from (put m a i0 e) root v = walk_from m root v.
Proof.
  intros Hs Hp0 Hlen Ha Hi0 Hnone He Hnx Hx Hxl Hcl.
  destruct (so_tab _ _ _ Hs _ _ Hp0 Ha) as [Hpa Hax].
  assert (Hent : forall q b i, path_ok q -> tab_at m root q = Some b -> index_ok i -> q ++ [i] <> p0 ++ [i0] ->
    entry (put m a i0 e) b i = entry m b i).
  { intros q b i Hq Hb Hi Hne. destruct (so_tab _ _ _ Hs _ _ Hq Hb) as [Hpb _]. rewrite entry_put by done.
    rewrite decide_False; [done|]. intros [-> ->]. apply Hne. by rewrite (so_inj _ _ _ Hs q p0 b). }
  unfold walk_from. rewrite !(tab_at_link m root x l p0 a i0 e) by (done || apply vpath_ok || apply vpath1_ok).
  destruct (decide ([vpn 2 v] = p0 ++ [i0])) as [E1|E1].
  - destruct p0 as [|? [|??]]; [|by apply (f_equal length) in E1..]. injection E1 as E1. cbn in Ha. injection Ha as <-. subst i0.
    cbn [tab_at] in *. rewrite (no_flags_no_table (entry m root _)) by done.
    rewrite decide_False by done. rewrite (link_entry_new m root x l []) by (done || apply vpn_ok).
    rewrite !leaf_at_none; [done|done|apply Hcl, vpn_ok].
  - destruct (tab_at m root [vpn 2 v]) as [a1|] eqn:E2.
    + destruct (decide ([vpn 2 v; vpn 1 v] = p0 ++ [i0])) as [E3|E3].
      * change [vpn 2 v; vpn 1 v] with ([vpn 2 v] ++ [vpn 1 v]) in *. apply app_inj_tail in E3 as [<- <-].
        rewrite tab_at_snoc, E2. assert (a1 = a) as -> by congruence. rewrite (no_flags_no_table (entry m a _)) by done.
        rewrite (link_entry_new m root x l [vpn 2 v]) by (done || apply vpn_ok).
        rewrite !leaf_at_none; [done|done|apply Hcl, vpn_ok].
      * destruct (tab_at m root [vpn 2 v; vpn 1 v]) as [a0|] eqn:E4.
        -- rewrite (Hent [vpn 2 v; vpn 1 v]); auto with kern. intros E. apply (f_equal length) in E.
           rewrite !length_app in E. cbn in E. lia.
        -- rewrite (Hent [vpn 2 v]); auto with kern.
    + rewrite (Hent []); auto with kern.
Qed.

Record vm_ok (m : mm) (root : Z) (free : list Z) : Prop := {
  vo_space : space_ok m root free;
  vo_free : free_pages m free;
  vo_clean : clean m free;
}.

(** The root and the tables of the user region. *)
Definition own_path (p : list Z) : Prop := p = [] \/ in_user p.

(** The pages that are neither such tables of the space nor free keep their
    contents. *)
Definition data_kept (m m' : mm) (root : Z) (free : list Z) : Prop :=
  forall b i, page_ok b -> index_ok i -> b ∉ free -> (forall p, path_ok p -> own_path p -> tab_at m root p <> Some b) ->
    word m' (b + 8 * i) = word m (b + 8 * i).

(** What creating tables on the way may change. *)
Record walked (m m' : mm) (root : Z) (free free' : list Z) : Prop := {
  wk_ok : vm_ok m' root free';
  wk_free : exists pre, free = pre ++ free';
  wk_trans v : walk_from m' root v = walk_from m root v;
  wk_satp : satp m' = satp m;
  wk_main : main_mtag m' = main_mtag m;
  wk_data : data_kept m m' root free;
  wk_tabs p a : path_ok p -> tab_at m root p = Some a -> tab_at m' root p = Some a;
  wk_new p a : path_ok p -> tab_at m' root p = Some a -> tab_at m root p = Some a \/ a ∈ free;
}.

Lemma walked_refl m root free : vm_ok m root free -> walked m m root free free.
Proof. intros H. split; try done; [by exists []|eauto]. Qed.

Lemma walked_trans m1 m2 m3 root f1 f2 f3 :
  walked m1 m2 root f1 f2 -> walked m2 m3 root f2 f3 -> walked m1 m3 root f1 f3.
Proof.
  intros [V1 [p1 ->] T1 S1 M1 D1 U1 N1] [V2 [p2 ->] T2 S2 M2 D2 U2 N2]. split; [done|..].
  - exists (p1 ++ p2). by rewrite app_assoc.
  - intros v. by rewrite T2.
  - congruence.
  - congruence.
  - intros b i Hb Hi Hf Ht. rewrite (D2 b i), (D1 b i); auto; [set_solver|].
    intros p Hp Hu E. destruct (N1 p b Hp E); [by eapply Ht|]. set_solver.
  - eauto.
  - intros p a Hp E. destruct (N2 p a Hp E) as [E'|?]; [destruct (N1 p a Hp E') as [?|?]; [by left|right; set_solver]|right; set_solver].
Qed.

Definition table_entry (x : Z) (e : pte) : pte := set_flags PTE_V (set_ppn (pageptr_to_pagenum x) e).

Lemma table_entry_next x e : page_ok x -> next_table (table_entry x e) = Some x.
Proof. intros Hx. unfold next_table, is_table, table_entry. cbn -[Z.mul Z.modulo Z.pow]. by rewrite pageptr_pagenum. Qed.

Lemma data_kept_put m root free p a i e f : space_ok m root free -> path_ok p -> own_path p -> tab_at m root p = Some a -> index_ok i ->
  data_kept m (put (with_free m f) a i e) root free.
Proof.
  intros Hs Hp Hu Ha Hi b j Hb Hj Hf Ht. destruct (so_tab _ _ _ Hs _ _ Hp Ha) as [Hpa _]. unfold put.
  rewrite word_insert, decide_False; [done|]. intros E. apply pte_slot_inj in E as [-> _]; try done. by apply (Ht p).
Qed.

(** Allocating a table below an unused entry. *)
Lemma link_step m root x l p a i : vm_ok m root (x :: l) -> path_ok p -> own_path p -> (length p <= 1)%nat ->
  tab_at m root p = Some a -> index_ok i -> pte_flags (entry m a i) = 0 ->
  let m0 := with_free m (word m x) in let m1 := put m0 a i (table_entry x (entry m0 a i)) in
  memory_alloc_page m = Ret (m0, x) /\ walked m m1 root (x :: l) l /\ tab_at m1 root (p ++ [i]) = Some x.
Proof.
  intros [Hs Hf Hc] Hp Hu Hlen Ha Hi Hn m0 m1. destruct (memory_alloc_page_spec m x l Hf) as (Halloc & Hf0 & Hx & Hxl).
  destruct (so_tab _ _ _ Hs _ _ Hp Ha) as [Hpa Hax].
  assert (Hs0 : space_ok m0 root (x :: l)) by by apply space_ok_free.
  assert (Ha0 : tab_at m0 root p = Some a) by by unfold m0; rewrite tab_at_free.
  assert (Hpe : pte_ok (table_entry x (entry m0 a i))) by (unfold table_entry, entry; auto with kern).
  assert (Hcl : forall j, index_ok j -> pte_flags (entry m0 x j) = 0) by (intros; apply Hc; [constructor|done]).
  assert (Htab : forall q, path_ok q -> tab_at m1 root q = if decide (q = p ++ [i]) then Some x else tab_at m root q).
  { intros q Hq. unfold m1. rewrite (tab_at_link m0 root x l p a i); auto using table_entry_next.
    unfold m0. by rewrite tab_at_free. }
  split; [done|]. split.
  - split; try done.
    + split.
      * apply (space_ok_link m0 root x l p a i); auto using table_entry_next.
      * apply free_pages_put; [done..|set_solver].
      * assert (a ∉ l) by set_solver. assert (forall y, y ∈ l -> page_ok y) by (intros; by eapply free_pages_page_ok).
        assert (clean m0 l) by (intros y j Hy Hj; apply Hc; [set_solver|done]).
        apply (clean_link m0 root x l p a i); auto using table_entry_next.
    + by exists [x].
    + intros v. transitivity (walk_from m0 root v); [apply (walk_from_link m0 root x l p a i); auto using table_entry_next|].
      unfold walk_from, m0. by rewrite !tab_at_free.
    + by eapply data_kept_put.
    + intros q b Hq Hb. rewrite Htab by done. destruct (decide _) as [->|]; [|done].
      rewrite tab_at_snoc, Ha, no_flags_no_table in Hb by done. done.
    + intros q b Hq. rewrite Htab by done. destruct (decide _) as [->|]; [intros [= <-]; right; constructor|by left].
  - rewrite Htab by auto with kern. by rewrite decide_True.
Qed.

(** An entry of the user region above the last level is unused or a table. *)
Lemma user_entry m root free p a i : vm_ok m root free -> path_ok p -> (length p <= 1)%nat -> tab_at m root p = Some a ->
  index_ok i -> in_user (p ++ [i]) ->
  pte_flags (entry m a i) = 0 \/
  has (pte_flags (entry m a i)) PTE_V = true /\ tab_at m root (p ++ [i]) = Some (pagenum_to_pageptr (pte_ppn (entry m a i))).
Proof.
  intros [Hs _ _] Hp Hlen Ha Hi Hu. destruct (so_ent _ _ _ Hs p a i Hp Ha Hi) as [?|(Hv & _ & Ht)]; [by left|right].
  split; [done|]. rewrite tab_at_snoc, Ha. unfold next_table. rewrite Ht by (done || lia).
  by rewrite pagenum_pageptr by apply entry_ppn_range.
Qed.

Lemma root_page m root free : vm_ok m root free -> page_ok root.
Proof. intros [Hs _ _]. destruct (so_tab _ _ _ Hs [] root path_ok_nil) as [? _]; done. Qed.

Lemma user_vpn2 v : USER_START_VMA <= v < USER_END_VMA -> vpn 2 v = 3.
Proof. unfold vpn. mem_consts. intros. change (2 ^ (12 + 9 * Z.of_nat 2)) with (2 ^ 30). Z.to_euclidean_division_equations; lia. Qed.

Lemma walk_pt_create m root free v : vm_ok m root free -> vpn 2 v = 3 -> (2 <= length free)%nat ->
  exists m' pt0 pre free', walk_pt m root v true = Ret (m', pt0) /\ walked m m' root free free' /\
    free = pre ++ free' /\ (length pre <= 2)%nat /\
    tab_at m' root [vpn 2 v; vpn 1 v] = Some pt0.
Proof.
  intros Hok Hv Hlen. assert (Hroot := root_page _ _ _ Hok).
  assert (Hmid : forall m1 pt1 fr pre, walked m m1 root free fr -> free = pre ++ fr -> (length pre <= 1)%nat ->
    tab_at m1 root [vpn 2 v] = Some pt1 ->
    exists m' pt0 pre free', (let! pte1 := ld_pte m1 pt1 (vpn 1 v) in
      if has (pte_flags pte1) PTE_V then Ret (m1, pagenum_to_pageptr (pte_ppn pte1))
      else let! (m, pt0) := memory_alloc_page m1 in
        let! m := upd_pte m pt1 (vpn 1 v) (fun e => set_flags PTE_V (set_ppn (pageptr_to_pagenum pt0) e)) in
        Ret (m, pt0)) = Ret (m', pt0) /\ walked m m' root free free' /\
      free = pre ++ free' /\ (length pre <= 2)%nat /\ tab_at m' root [vpn 2 v; vpn 1 v] = Some pt0).
  { intros m1 pt1 fr pre Hw Hfr Hpre Ht. assert (Hok1 := wk_ok _ _ _ _ _ Hw).
    destruct (so_tab _ _ _ (vo_space _ _ _ Hok1) _ _ (vpath1_ok v) Ht) as [Hp1 _].
    rewrite ld_pte_ok by auto with kern. cbn [obind].
    destruct (user_entry m1 root fr [vpn 2 v] pt1 (vpn 1 v)) as [Hz|[HV Hn]]; auto with kern; [by rewrite Hv|..].
    - replace (has _ PTE_V) with false by (by rewrite Hz).
      destruct fr as [|y fr]; [rewrite app_nil_r in Hfr; subst; lia|].
      destruct (link_step m1 root y fr [vpn 2 v] pt1 (vpn 1 v)) as (-> & Hw' & Ht'); auto with kern; [right; by rewrite Hv|].
      cbn [obind]. rewrite upd_pte_ok by auto with kern. cbn [obind].
      eexists _, y, (pre ++ [y]), fr. split; [reflexivity|]. split; [by eapply walked_trans|].
      split; [by rewrite <- app_assoc|]. split; [rewrite length_app; cbn; lia|done].
    - rewrite HV. do 4 eexists. split; [reflexivity|]. split; [exact Hw|]. split; [exact Hfr|]. split; [lia|done]. }
  unfold walk_pt. rewrite VPN2_vpn, VPN1_vpn. cbn [negb]. rewrite ld_pte_ok by auto with kern. cbn [obind].
  rewrite andb_false_r.
  destruct (user_entry m root free [] root (vpn 2 v)) as [Hz|[HV Hn]]; auto with kern; [by rewrite Hv|..].
  - replace (has _ PTE_V) with false by (by rewrite Hz). destruct free as [|x l]; [cbn in Hlen; lia|].
    destruct (link_step m root x l [] root (vpn 2 v)) as (-> & Hw & Ht); auto with kern; [by left|].
    cbn [obind]. rewrite upd_pte_ok by auto with kern. cbn [obind].
    eapply (Hmid _ x l [x]); auto.
  - rewrite HV. cbn [obind]. apply (Hmid m _ free []); auto using walked_refl; cbn; lia.
Qed.

(** Without [create]: the last-level table, or null. *)
Lemma walk_pt_find m root free v : vm_ok m root free -> vpn 2 v = 3 ->
  walk_pt m root v false = Ret (m, default 0 (tab_at m root [vpn 2 v; vpn 1 v])).
Proof.
  intros Hok Hv. assert (Hroot := root_page _ _ _ Hok).
  unfold walk_pt. rewrite VPN2_vpn, VPN1_vpn. rewrite ld_pte_ok by auto with kern. cbn [obind negb].
  change [vpn 2 v; vpn 1 v] with ([vpn 2 v] ++ [vpn 1 v]). rewrite tab_at_snoc.
  destruct (user_entry m root free [] root (vpn 2 v)) as [Hz|[HV Hn]]; auto with kern; [by rewrite Hv|..].
  - replace (has _ PTE_V) with false by (by rewrite Hz). cbn [negb andb obind].
    cbn [tab_at]. by rewrite no_flags_no_table.
  - rewrite HV. cbn [negb andb obind]. change ([] ++ [vpn 2 v]) with [vpn 2 v] in Hn. rewrite Hn.
    destruct (so_tab _ _ _ (vo_space _ _ _ Hok) _ _ (vpath1_ok v) Hn) as [Hp1 _].
    rewrite ld_pte_ok by auto with kern. cbn [obind].
    destruct (user_entry m root free [vpn 2 v] _ (vpn 1 v) Hok (vpath1_ok v) ltac:(cbn; lia) Hn (vpn_ok _ _)) as [Hz|[HV1 Hn1]];
      [by rewrite Hv|..].
    + replace (has _ PTE_V) with false by (by rewrite Hz). by rewrite no_flags_no_table.
    + rewrite HV1. rewrite tab_at_snoc, Hn in Hn1. by rewrite Hn1.
Qed.

(** * Changing a leaf *)

Definition same_page (v v' : Z) : Prop := vpn 2 v = vpn 2 v' /\ vpn 1 v = vpn 1 v' /\ vpn 0 v = vpn 0 v'.
#[global] Instance same_page_dec v v' : Decision (same_page v v') := ltac:(unfold same_page; apply _).

Lemma long_not_prefix (p q : list Z) i : (length q <= 2)%nat -> length p = 2%nat -> ~ (p ++ [i]) `prefix_of` q.
Proof. intros Hq Hp Hpre. apply prefix_length in Hpre. rewrite length_app in Hpre. cbn in Hpre. lia. Qed.

Section Leaf.
Context (m : mm) (root : Z) (free : list Z) (v a : Z) (e : pte).
Context (Hok : vm_ok m root free) (Ha : tab_at m root [vpn 2 v; vpn 1 v] = Some a).
Context (He : pte_ok e) (Hv : has (pte_flags e) PTE_V = true) (Hl : perm_ok (pte_flags e) = true).

Let m' := put m a (vpn 0 v) e.

Lemma tab_at_leaf q : path_ok q -> tab_at m' root q = tab_at m root q.
Proof.
  intros Hq. apply (tab_at_put m root free [vpn 2 v; vpn 1 v]); auto with kern; [apply Hok|].
  apply long_not_prefix; [apply Hq|done].
Qed.

Lemma entry_leaf q b i : path_ok q -> tab_at m root q = Some b -> index_ok i ->
  entry m' b i = if decide (q = [vpn 2 v; vpn 1 v] /\ i = vpn 0 v) then e else entry m b i.
Proof.
  intros Hq Hb Hi. destruct (so_tab _ _ _ (vo_space _ _ _ Hok) _ _ Hq Hb) as [Hpb _].
  destruct (so_tab _ _ _ (vo_space _ _ _ Hok) _ _ (vpath_ok v) Ha) as [Hpa _].
  unfold m'. rewrite entry_put by auto with kern.
  destruct (decide (a = b /\ vpn 0 v = i)) as [[-> <-]|Hn].
  - rewrite decide_True; [done|]. split; [|done]. apply (so_inj _ _ _ (vo_space _ _ _ Hok) _ _ b); auto with kern.
  - rewrite decide_False; [done|]. intros [-> ->]. apply Hn. split; [congruence|done].
Qed.

Lemma vm_ok_leaf : vm_ok m' root free.
Proof.
  destruct Hok as [Hs Hf Hc]. destruct (so_tab _ _ _ Hs _ _ (vpath_ok v) Ha) as [Hpa Haf]. split.
  - split.
    + intros q b Hq. rewrite tab_at_leaf by done. by apply (so_tab _ _ _ Hs).
    + intros q r b Hq Hr. rewrite !tab_at_leaf by done. by apply (so_inj _ _ _ Hs).
    + intros q b i Hq. rewrite tab_at_leaf by done. intros Hb Hi. rewrite (entry_leaf q) by done.
      destruct (decide _) as [[-> ->]|_]; [|by apply (so_ent _ _ _ Hs)]. right. by split_and!.
  - apply free_pages_put; auto with kern.
  - intros y i Hy Hi. unfold m'. rewrite entry_put; auto with kern; [|by eapply free_pages_page_ok].
    rewrite decide_False; [by apply Hc|]. by intros [-> _].
Qed.

Lemma walk_from_leaf v' : walk_from m' root v' = if decide (same_page v v') then leaf_at 0 e v' else walk_from m root v'.
Proof.
  unfold walk_from. rewrite !tab_at_leaf by auto with kern.
  destruct (decide (same_page v v')) as [(E2 & E1 & E0)|Hn].
  - rewrite <- E2, <- E1, <- E0, Ha. assert (Hmid : exists a1, tab_at m root [vpn 2 v] = Some a1).
    { generalize Ha. change [vpn 2 v; vpn 1 v] with ([vpn 2 v] ++ [vpn 1 v]). rewrite tab_at_snoc.
      destruct (tab_at m root [vpn 2 v]); [eauto|done]. }
    destruct Hmid as [a1 ->]. rewrite (entry_leaf [vpn 2 v; vpn 1 v]) by auto with kern. by rewrite decide_True.
  - destruct (tab_at m root [vpn 2 v']) as [a1|] eqn:E2.
    + destruct (tab_at m root [vpn 2 v'; vpn 1 v']) as [a0|] eqn:E1.
      * rewrite (entry_leaf [vpn 2 v'; vpn 1 v']) by auto with kern. rewrite decide_False; [done|].
        intros [[= ? ?] ?]. apply Hn. done.
      * rewrite (entry_leaf [vpn 2 v']) by auto with kern. rewrite decide_False; [done|]. by intros [[=] _].
    + rewrite (entry_leaf []) by auto with kern. rewrite decide_False; [done|]. by intros [[=] _].
Qed.
End Leaf.

(** The page of a user address, by its number. *)
Lemma wellformed_range v : 0 <= v < 2 ^ 64 -> wellformed_vma v = true -> v < 2 ^ 38 \/ 2 ^ 64 - 2 ^ 38 <= v.
Proof.
  intros Hv. unfold wellformed_vma, i64. rewrite (u64_small v) by done.
  destruct (Z.ltb_spec v (2 ^ 63)); rewrite Z.shiftr_div_pow2 by lia.
  - intros H0. left. destruct (Z.ltb_spec v (2 ^ 38)) as [|Hge]; [done|exfalso].
    assert (1 <= v / 2 ^ 38 < 2 ^ 26) by (Z.to_euclidean_division_equations; lia).
    rewrite !u64_small in H0 by (rewrite ?u64_small; lia). lia.
  - intros H0. right. destruct (Z.leb_spec (2 ^ 64 - 2 ^ 38) v) as [|Hlt]; [done|exfalso].
    assert (Hd : - 2 ^ 26 <= (v - 2 ^ 64) / 2 ^ 38 < -1) by (Z.to_euclidean_division_equations; lia).
    assert (Hu : u64 ((v - 2 ^ 64) / 2 ^ 38) = (v - 2 ^ 64) / 2 ^ 38 + 2 ^ 64)
      by (symmetry; apply (Z.mod_unique_pos _ _ (-1)); lia).
    rewrite Hu, u64_small in H0 by lia. lia.
Qed.

Lemma user_wellformed v : USER_START_VMA <= v < USER_END_VMA -> wellformed_vma v = true.
Proof.
  mem_consts. intros Hv. unfold wellformed_vma, i64. rewrite (u64_small v) by lia.
  replace (v <? 2 ^ 63) with true by lia. rewrite Z.shiftr_div_pow2, Z.div_small by lia. done.
Qed.

Lemma same_page_iff v v' : USER_START_VMA <= v < USER_END_VMA -> 0 <= v' < 2 ^ 64 -> wellformed_vma v' = true ->
  same_page v v' <-> v / PAGE_SIZE = v' / PAGE_SIZE.
Proof.
  intros Hv Hv' Hw. apply wellformed_range in Hw; [|done]. unfold same_page, vpn.
  change (2 ^ (12 + 9 * Z.of_nat 2)) with 1073741824. change (2 ^ (12 + 9 * Z.of_nat 1)) with 2097152.
  change (2 ^ (12 + 9 * Z.of_nat 0)) with 4096. mem_consts.
  split; intros H; Z.to_euclidean_division_equations; lia.
Qed.

(** * Mapping pages *)

(** The active space; [translate] walks its tables. *)
Record active_ok (m : mm) (free : list Z) : Prop := {
  ac_range : 0 <= satp m < 2 ^ 64;
  ac_mode : satp m / 2 ^ 60 = RISCV_SATP_MODE_Sv39;
  ac_vm : vm_ok m (active_space_root m) free;
}.

Lemma mtag_to_root_eq s : 0 <= s < 2 ^ 64 -> mtag_to_root s = s mod 2 ^ 44 * PAGE_SIZE.
Proof.
  intros. unfold mtag_to_root, u64, PAGE_SIZE. rewrite Z.shiftl_mul_pow2, Z.shiftr_div_pow2 by lia.
  Z.to_euclidean_division_equations; lia.
Qed.

Lemma translate_walk m free v : active_ok m free ->
  translate m v = if wellformed_vma v then walk_from m (active_space_root m) v else None.
Proof.
  intros [Hr Hm _]. unfold translate. rewrite Hm, Z.eqb_refl. cbn [andb]. rewrite sv39_walk_tabs.
  unfold active_space_root, active_space_mtag. by rewrite mtag_to_root_eq.
Qed.

Definition map_flags (f : Z) : Z := Z.lor (Z.lor (Z.lor PTE_V f) PTE_A) PTE_D.

Lemma byte_forall (P : Z -> bool) : forallb P (seqZ 0 256) = true -> forall f, 0 <= f < 256 -> P f = true.
Proof. intros H f Hf. rewrite forallb_forall in H. apply H. apply list_elem_of_In, elem_of_seqZ. lia. Qed.

Lemma map_flags_ok f : 0 <= f < 256 -> perm_ok f = true ->
  map_flags f mod 2 ^ 8 = map_flags f /\ has (map_flags f) PTE_V = true /\ perm_ok (map_flags f) = true.
Proof.
  intros Hf Hp.
  assert (H := byte_forall (fun f => implb (perm_ok f)
    ((map_flags f mod 2 ^ 8 =? map_flags f) && has (map_flags f) PTE_V && perm_ok (map_flags f))) ltac:(by vm_compute) f Hf).
  cbn beta in H. rewrite Hp in H. cbn [implb] in H. bool_to_prop. auto.
Qed.

Lemma leaf_at_perm e v : has (pte_flags e) PTE_V = true -> perm_ok (pte_flags e) = true ->
  leaf_at 0 e v = Some (pte_ppn e * PAGE_SIZE + v mod PAGE_SIZE, pte_flags e).
Proof.
  unfold perm_ok, leaf_at, is_leaf. intros -> Hp. cbn [andb]. rewrite Hp. change (2 ^ (12 + 9 * Z.of_nat 0)) with PAGE_SIZE.
  by rewrite Z.mod_mul by done.
Qed.

Lemma alloc_vm_ok m root x l : vm_ok m root (x :: l) ->
  exists m', memory_alloc_page m = Ret (m', x) /\ vm_ok m' root l /\ page_ok x /\ x ∉ l /\
    m' = with_free m (word m x).
Proof.
  intros [Hs Hf Hc]. destruct (memory_alloc_page_spec m x l Hf) as (Ha & Hf' & Hx & Hl).
  eexists. split; [done|]. split; [|done]. split; [|done|].
  - apply space_ok_free. eapply space_ok_sub; [|done]. set_solver.
  - intros y i Hy Hi. rewrite entry_free. apply Hc; [set_solver|done].
Qed.

Lemma walk_from_free m x root v : walk_from (with_free m x) root v = walk_from m root v.
Proof. unfold walk_from. by rewrite !tab_at_free. Qed.

Lemma page_offset a v : page_ok a -> Z.lor a (Z.land v 0xFFF) = a + v mod PAGE_SIZE.
Proof.
  intros (_ & _ & Ha). change 0xFFF with (Z.ones 12). rewrite Z.land_ones by lia. change (2 ^ 12) with PAGE_SIZE.
  assert (Hb : 0 <= v mod PAGE_SIZE < 2 ^ 12) by (apply Z.mod_pos_bound; done).
  rewrite <- Z.add_lor_land. replace (Z.land a (v mod PAGE_SIZE)) with 0; [lia|]. symmetry. apply Z.bits_inj'. intros n Hn.
  rewrite Z.land_spec, Z.bits_0. destruct (Z.ltb_spec n 12).
  - replace (Z.testbit a n) with false; [done|]. rewrite (Z.div_mod a PAGE_SIZE), Ha by done.
    symmetry. change PAGE_SIZE with (2 ^ 12). rewrite Z.add_0_r, Z.mul_comm. by apply Z.mul_pow2_bits_low.
  - rewrite (Z.bits_above_log2 (v mod PAGE_SIZE)); [apply andb_false_r|lia|].
    destruct (decide (v mod PAGE_SIZE = 0)) as [->|]; [cbn; lia|]. apply Z.log2_lt_pow2; [lia|].
    apply Z.lt_le_trans with (2 ^ 12); [lia|]. apply Z.pow_le_mono_r; lia.
Qed.

Definition user_vma (v : Z) : Prop := USER_START_VMA <= v < USER_END_VMA.

(** [m'] maps the page of [v] to [page], taken from the free pages, and leaves
    the rest of the space, and the contents of the pages in use, alone. *)
Record mapped_page (m m' : mm) (free free' : list Z) (v f page : Z) : Prop := {
  mp_active : active_ok m' free';
  mp_free : exists pre, free = pre ++ page :: free' /\ (length pre <= 2)%nat;
  mp_trans v' : 0 <= v' < 2 ^ 64 ->
    translate m' v' = if decide (v' / PAGE_SIZE = v / PAGE_SIZE) then Some (page + v' mod PAGE_SIZE, map_flags f)
                      else translate m v';
  mp_satp : satp m' = satp m;
  mp_main : main_mtag m' = main_mtag m;
  mp_data : data_kept m m' (active_space_root m) free;
  mp_fresh p : path_ok p -> tab_at m' (active_space_root m) p <> Some page;
  mp_tabs p a : path_ok p -> tab_at m' (active_space_root m) p = Some a ->
    tab_at m (active_space_root m) p = Some a \/ a ∈ free;
}.

(** An unused address has an unused slot in its last-level table. *)
Lemma slot_unused m root free v a : vm_ok m root free -> tab_at m root [vpn 2 v; vpn 1 v] = Some a ->
  walk_from m root v = None -> pte_flags (entry m a (vpn 0 v)) = 0.
Proof.
  intros Hok Ha. unfold walk_from. rewrite Ha. assert (Ha' := Ha).
  change [vpn 2 v; vpn 1 v] with ([vpn 2 v] ++ [vpn 1 v]) in Ha'. rewrite tab_at_snoc in Ha'.
  destruct (tab_at m root [vpn 2 v]); [|done]. intros Hn.
  destruct (so_ent _ _ _ (vo_space _ _ _ Hok) _ _ _ (vpath_ok v) Ha (vpn_ok 0 v)) as [?|(HV & Hp & _)]; [done|].
  rewrite leaf_at_perm in Hn by auto. done.
Qed.

Lemma translate_step m m' free free' v v' (r : option (Z * Z)) :
  active_ok m free -> active_ok m' free' -> satp m' = satp m -> user_vma v -> 0 <= v' < 2 ^ 64 ->
  walk_from m' (active_space_root m) v' = (if decide (same_page v v') then r else walk_from m (active_space_root m) v') ->
  translate m' v' = if decide (v' / PAGE_SIZE = v / PAGE_SIZE) then r else translate m v'.
Proof.
  intros Hm Hm' Hs Hv Hv' Hw. rewrite (translate_walk m free), (translate_walk m' free') by done.
  replace (active_space_root m') with (active_space_root m) by (unfold active_space_root, active_space_mtag; by rewrite Hs).
  rewrite Hw. destruct (wellformed_vma v') eqn:Hwf.
  - apply same_page_iff with (v := v) in Hwf; [|done..].
    destruct (decide (same_page v v')) as [?|Hn], (decide (v' / PAGE_SIZE = v / PAGE_SIZE)) as [|Hn']; try done.
    + exfalso. apply Hn'. symmetry. by apply Hwf.
    + exfalso. apply Hn. by apply Hwf.
  - rewrite decide_False; [done|]. intros E. assert (Hu : user_vma v').
    { revert Hv E. unfold user_vma. mem_consts. intros. Z.to_euclidean_division_equations; lia. }
    by rewrite (user_wellformed v' Hu) in Hwf.
Qed.

Lemma map_page_spec m free v f : active_ok m free -> user_vma v -> (3 <= length free)%nat ->
  0 <= f < 256 -> perm_ok f = true -> translate m v = None ->
  exists m' page free', memory_alloc_and_map_page m v f = Ret (m', page + v mod PAGE_SIZE) /\
    mapped_page m m' free free' v f page.
Proof.
  intros Hac Hv Hlen Hf Hp Hn. assert (Hok := ac_vm _ _ Hac). set (root := active_space_root m) in *.
  destruct (walk_pt_create m root free v) as (m1 & pt0 & pre & fr & Hw & Hwk & Hfree & Hpre & Ht); auto using user_vpn2; [lia|].
  assert (Hok1 := wk_ok _ _ _ _ _ Hwk).
  destruct fr as [|page l]; [rewrite app_nil_r in Hfree; subst; lia|].
  destruct (so_tab _ _ _ (vo_space _ _ _ Hok1) _ _ (vpath_ok v) Ht) as [Hpt Hptl].
  assert (Hz : pte_flags (entry m1 pt0 (vpn 0 v)) = 0).
  { eapply slot_unused; [done..|]. rewrite (wk_trans _ _ _ _ _ Hwk).
    by rewrite (translate_walk m free), user_wellformed in Hn. }
  destruct (alloc_vm_ok m1 root page l Hok1) as (m2 & Hal & Hok2 & Hpg & Hpl & Em2).
  destruct (map_flags_ok f Hf Hp) as (Hmod & HV & Hpf).
  set (e := set_flags (map_flags f) (set_ppn (pageptr_to_pagenum page) (entry m1 pt0 (vpn 0 v)))).
  assert (Hflags : pte_flags e = map_flags f) by exact Hmod.
  assert (Hpte : pte_ok e) by (unfold e, entry; auto with kern).
  assert (Ht2 : tab_at m2 root [vpn 2 v; vpn 1 v] = Some pt0) by (by rewrite Em2, tab_at_free).
  exists (put m2 pt0 (vpn 0 v) e), page, l. split.
  { unfold memory_alloc_and_map_page. fold root. rewrite Hw. cbn [obind].
    replace (pt0 =? 0) with false by (apply page_ok_nonzero in Hpt; lia). rewrite Hal. cbn [obind].
    rewrite VPN0_vpn, !upd_pte_ok by auto with kern. cbn [obind]. rewrite !upd_pte_ok by auto with kern. cbn [obind].
    rewrite entry_put_eq, put_put, page_offset by (done || unfold entry; auto with kern).
    unfold e. rewrite Em2, entry_free. do 3 f_equal. cbn [pte_flags set_ppn]. by rewrite Hz. }
  assert (Hvm : vm_ok (put m2 pt0 (vpn 0 v) e) root l) by (apply (vm_ok_leaf m2 root l v pt0 e); by rewrite ?Hflags).
  assert (Hsatp : satp (put m2 pt0 (vpn 0 v) e) = satp m) by (subst m2; apply (wk_satp _ _ _ _ _ Hwk)).
  assert (Hac' : active_ok (put m2 pt0 (vpn 0 v) e) l).
  { split; rewrite ?Hsatp; [apply Hac|apply Hac|]. unfold active_space_root, active_space_mtag. rewrite Hsatp. exact Hvm. }
  split; auto.
  - by exists pre.
  - intros v' Hv'. eapply translate_step; eauto. fold root. rewrite (walk_from_leaf m2 root l v pt0 e) by (rewrite ?Hflags; done).
    rewrite Em2, walk_from_free, (wk_trans _ _ _ _ _ Hwk). destruct (decide _); [|done].
    rewrite leaf_at_perm by by rewrite Hflags. rewrite Hflags. unfold e. cbn [pte_ppn set_flags set_ppn].
    by rewrite pageptr_pagenum.
  - subst m2. apply (wk_main _ _ _ _ _ Hwk).
  - intros b i Hb Hi Hbf Hbt. fold root in Hbt. rewrite <- (wk_data _ _ _ _ _ Hwk b i) by done. subst m2. unfold put.
    rewrite word_insert, decide_False; [done|]. intros E. apply pte_slot_inj in E as [-> _]; auto with kern.
    destruct (wk_new _ _ _ _ _ Hwk _ _ (vpath_ok v) Ht) as [E|Hin]; [|done]. apply (Hbt _ (vpath_ok v)) in E; [done|]. right. by rewrite user_vpn2.
  - intros p Hpp. fold root. rewrite (tab_at_leaf m2 root l v pt0 e) by (rewrite ?Hflags; done). rewrite Em2, tab_at_free. intros E.
    destruct (so_tab _ _ _ (vo_space _ _ _ Hok1) _ _ Hpp E) as [_ Hnf]. apply Hnf. by constructor.
  - intros p a Hpp. fold root. rewrite (tab_at_leaf m2 root l v pt0 e) by (rewrite ?Hflags; done). rewrite Em2, tab_at_free.
    by apply (wk_new _ _ _ _ _ Hwk).
Qed.
