(* ===== verification/MemInit.v ===== *)
(** What [memory_init] (memory.c) establishes: the identity mapping of the
    device space and of RAM, with the permissions of the kernel image, and the
    list of free pages. *)

From Stdlib Require Import List.
From S2P Require Import Prelude Heap Memory PageTable.
From stdpp Require Import gmap list.
#[local] Open Scope Z_scope.

(** [ALIGN(4096)] of the linker script. *)
Definition align_up (a : Z) : Z := (a + PAGE_SIZE - 1) / PAGE_SIZE * PAGE_SIZE.

(** The layout kernel.ld gives the image: text, read-only data and data in
    this order, each starting on the page after the end of the one before;
    the page tables are distinct pages of the data region. *)
Record kimg_ok (img : kimg) : Prop := {
  ki_start : kimg_start img = RAM_START_PMA /\ text_start img = RAM_START_PMA;
  ki_text : text_start img <= text_end img /\ rodata_start img = align_up (text_end img);
  ki_rodata : rodata_start img <= rodata_end img /\ data_start img = align_up (rodata_end img);
  ki_end : data_start img <= kimg_end img /\ kimg_end img mod PAGE_SIZE = 0 /\
    kimg_end img <= RAM_START_PMA + MEGA_SIZE;
  ki_tables : Forall (fun t => data_start img <= t /\ t + PAGE_SIZE <= kimg_end img /\ t mod PAGE_SIZE = 0)
    [main_pt2 img; main_pt1 img; main_pt0 img] /\ NoDup [main_pt2 img; main_pt1 img; main_pt0 img];
}.

(** Memory at boot: the page tables are zero (.bss) and the memory behind the
    image holds nothing that looks like a valid entry. *)
Record boot_ok (img : kimg) (m : mm) : Prop := {
  bo_tables t i : t ∈ [main_pt2 img; main_pt1 img; main_pt0 img] -> index_ok i -> entry m t i = null_pte;
  bo_free x i : page_ok x -> kimg_end img <= x -> index_ok i -> pte_flags (entry m x i) = 0;
}.

(** The permissions of the direct map. *)
Definition direct_flags (img : kimg) (v : Z) : Z :=
  let p := if v <? RAM_START_PMA then Z.lor PTE_R PTE_W
           else if v <? rodata_start img then Z.lor PTE_R PTE_X
           else if v <? data_start img then PTE_R
           else Z.lor PTE_R PTE_W in
  map_flags (Z.lor p PTE_G).

Lemma for_loop_inv {S} (I : Z -> S -> Prop) body lo hi step fuel s :
  0 < step -> (forall x s, x < hi -> I x s -> exists s', body x s = Ret s' /\ I (x + step) s') ->
  I lo s -> hi - lo <= Z.of_nat fuel * step ->
  exists s' x, for_loop fuel lo hi step body s = Ret s' /\ I x s' /\ hi <= x.
Proof.
  intros Hst Hb. revert lo s; induction fuel as [|fuel IH]; intros lo s Hi Hf; cbn [for_loop].
  - replace (lo <? hi) with false by lia. exists s, lo. split_and!; [done|done|lia].
  - destruct (Z.ltb_spec lo hi) as [Hlt|Hge]; [|exists s, lo; done].
    destruct (Hb lo s Hlt Hi) as (s' & -> & Hi'). cbn [obind]. apply IH; [done|lia].
Qed.

Lemma for_range_inv {S} (I : Z -> S -> Prop) body lo hi step s :
  0 < step -> (forall x s, x < hi -> I x s -> exists s', body x s = Ret s' /\ I (x + step) s') ->
  I lo s -> exists s' x, for_range lo hi step body s = Ret s' /\ I x s' /\ hi <= x.
Proof.
  intros Hst Hb Hi. apply for_loop_inv; [done..|].
  destruct (Z.le_gt_cases lo hi); [|nia].
  rewrite Z2Nat.id by (assert (0 <= (hi - lo) / step) by (apply Z.div_pos; lia); lia).
  assert (H1 := Z.mod_pos_bound (hi - lo) step Hst). assert (H2 := Z.div_mod (hi - lo) step). nia.
Qed.

(** The table at [t] has been filled in; all else is as before. *)
Record only_table (m m' : mm) (t : Z) : Prop := {
  ot_word b : b < t \/ t + PAGE_SIZE <= b -> word m' b = word m b;
  ot_rest : free_list m' = free_list m /\ satp m' = satp m /\ mm_sstatus m' = mm_sstatus m /\ main_mtag m' = main_mtag m;
}.

Lemma only_table_entry m m' t b i : only_table m m' t -> page_ok t -> page_ok b -> index_ok i -> b <> t ->
  entry m' b i = entry m b i.
Proof.
  intros [Hw _] (_ & _ & Ht) (_ & _ & Hb) Hi Hn. unfold entry. rewrite Hw; [done|].
  unfold index_ok, PAGE_SIZE in *. Z.to_euclidean_division_equations; lia.
Qed.

Lemma only_table_trans m1 m2 m3 t : only_table m1 m2 t -> only_table m2 m3 t -> only_table m1 m3 t.
Proof.
  intros [Hw1 (? & ? & ? & ?)] [Hw2 (? & ? & ? & ?)]. split; [|split_and!; congruence].
  intros b Hb. by rewrite Hw2, Hw1.
Qed.

Lemma only_table_put m t i e : page_ok t -> index_ok i -> only_table m (put m t i e) t.
Proof.
  intros Ht Hi. split; [|done]. intros b Hb. unfold put. rewrite word_insert, decide_False; [done|].
  unfold index_ok, PAGE_SIZE in *. lia.
Qed.

(** [map_direct] fills consecutive entries of one table. *)
Lemma map_direct_spec tab (vpnf : Z -> Z) flags lo hi step i0 n m :
  page_ok tab -> 0 < step -> 0 <= i0 -> 0 <= n -> i0 + n <= 512 ->
  lo + (n - 1) * step < hi <= lo + n * step ->
  (forall k, 0 <= k < n -> vpnf (lo + k * step) = i0 + k) ->
  exists m', map_direct tab vpnf flags lo hi step m = Ret m' /\ only_table m m' tab /\
    forall i, index_ok i -> entry m' tab i =
      if decide (i0 <= i < i0 + n) then leaf_pte (lo + (i - i0) * step) flags else entry m tab i.
Proof.
  intros Ht Hst Hi0 Hn Hsz Hhi Hvpn.
  set (I := fun x m' => exists k, x = lo + k * step /\ 0 <= k <= n /\ only_table m m' tab /\
    forall i, index_ok i -> entry m' tab i =
      if decide (i0 <= i < i0 + k) then leaf_pte (lo + (i - i0) * step) flags else entry m tab i).
  destruct (for_range_inv I (fun pp m => st_pte m tab (vpnf pp) (leaf_pte pp flags)) lo hi step m) as (m' & x & E & HI & Hx);
    [done|..].
  - intros x m1 Hx (k & -> & Hk & Ho & He). assert (k < n) by nia. rewrite Hvpn by lia.
    assert (Hik : index_ok (i0 + k)) by (unfold index_ok; lia). rewrite st_pte_ok by done. eexists. split; [done|].
    exists (k + 1). split; [lia|]. split; [lia|]. split; [eapply only_table_trans; [done|by apply only_table_put]|].
    intros i Hi. rewrite entry_put by auto with kern. destruct (decide (tab = tab /\ i0 + k = i)) as [[_ <-]|Hne].
    + rewrite decide_True by lia. f_equal. lia.
    + rewrite He by done. destruct (decide (i0 <= i < i0 + k)), (decide (i0 <= i < i0 + (k + 1))); try done; lia.
  - exists 0. split; [lia|]. split; [lia|]. split; [by split|]. intros i _. rewrite decide_False by lia. done.
  - destruct HI as (k & -> & Hk & Ho & He). assert (k = n) as -> by nia. exists m'. done.
Qed.

(** * The free pages *)

Definition page_list (first cnt : Z) : list Z := map (fun i => first + i * PAGE_SIZE) (seqZ 0 cnt).

Lemma page_list_cons first cnt : 0 < cnt -> page_list first cnt = first :: page_list (first + PAGE_SIZE) (cnt - 1).
Proof.
  intros. unfold page_list. rewrite seqZ_cons by done. cbn [map]. f_equal; [lia|].
  change (Z.succ 0) with (0 + 1). rewrite <- (Z.add_comm 1 0), <- fmap_add_seqZ. rewrite <- list_fmap_compose.
  replace (Z.pred cnt) with (cnt - 1) by lia. apply list_fmap_ext. intros _ i _. cbn. lia.
Qed.

Lemma elem_page_list x first cnt : x ∈ page_list first cnt -> exists i, 0 <= i < cnt /\ x = first + i * PAGE_SIZE.
Proof. unfold page_list. intros (i & -> & Hi)%list_elem_of_fmap. apply elem_of_seqZ in Hi. exists i. lia. Qed.

Lemma NoDup_page_list first cnt : NoDup (page_list first cnt).
Proof. unfold page_list. apply NoDup_fmap_2; [|apply NoDup_seqZ]. intros i j. unfold PAGE_SIZE. lia. Qed.

Section Free.
Context (first cnt : Z) (Hok : RAM_START_PMA <= first) (Hal : first mod PAGE_SIZE = 0).
Context (Hend : first + cnt * PAGE_SIZE = RAM_END_PMA) (Hpos : 0 < cnt).

Lemma page_list_ok i : 0 <= i < cnt -> page_ok (first + i * PAGE_SIZE).
Proof.
  intros. assert (E := Hend). unfold page_ok. split_and!; [..|by rewrite Z_mod_plus_full]; unfold PAGE_SIZE in E |- *; lia.
Qed.

(** The link of page [i]. *)
Definition link_of (i : Z) : Z := if decide (i = cnt - 1) then 0 else first + (i + 1) * PAGE_SIZE.

Lemma link_pages_spec m : exists m', link_pages first cnt m = Ret m' /\
  satp m' = satp m /\ mm_sstatus m' = mm_sstatus m /\ main_mtag m' = main_mtag m /\
  (forall i, 0 <= i < cnt -> word m' (first + i * PAGE_SIZE) = link_of i) /\
  (forall b, (forall i, 0 <= i < cnt -> b <> first + i * PAGE_SIZE) -> word m' b = word m b).
Proof.
  set (I := fun x m' => 0 <= x <= cnt /\ satp m' = satp m /\ mm_sstatus m' = mm_sstatus m /\ main_mtag m' = main_mtag m /\
    (forall i, 0 <= i < x -> word m' (first + i * PAGE_SIZE) = link_of i) /\
    (forall b, (forall i, 0 <= i < x -> b <> first + i * PAGE_SIZE) -> word m' b = word m b)).
  destruct (for_range_inv I (fun i m => st64 m (first + i * PAGE_SIZE)
    (if negb (i =? cnt - 1) then first + i * PAGE_SIZE + PAGE_SIZE else 0)) 0 cnt 1 m) as (m' & x & E & HI & Hx); [done|..].
  - intros x m1 Hx ([Hx0 _] & Hs1 & Hs2 & Hs3 & Hl & Hw).
    assert (Hr := slot_in_ram _ 0 (page_list_ok x ltac:(lia)) ltac:(unfold index_ok; lia)).
    rewrite Z.mul_0_r, Z.add_0_r in Hr. unfold st64. rewrite Hr. eexists. split; [done|].
    split; [lia|]. split_and!; try done; intros i Hi; rewrite word_insert.
    + destruct (decide (first + x * PAGE_SIZE = first + i * PAGE_SIZE)) as [E|E].
      * assert (i = x) as -> by (unfold PAGE_SIZE in E; lia). unfold link_of.
        destruct (Z.eqb_spec x (cnt - 1)); destruct (decide (x = cnt - 1)); cbn [negb]; lia.
      * apply Hl. assert (i <> x) by (intros ->; done). lia.
    + rewrite decide_False by (intros <-; apply (Hi x); lia). apply Hw. intros j Hj. apply Hi. lia.
  - split; [lia|]. split_and!; try done. intros. lia.
  - destruct HI as ([_ Hx'] & ?). assert (x = cnt) as -> by lia. exists m'. split; [exact E|done].
Qed.

Lemma chain_links m : (forall i, 0 <= i < cnt -> word m (first + i * PAGE_SIZE) = link_of i) ->
  chain m first (page_list first cnt).
Proof.
  intros Hw. assert (H : forall k, 0 <= k <= cnt -> chain m (if decide (k = cnt) then 0 else first + k * PAGE_SIZE)
    (page_list (first + k * PAGE_SIZE) (cnt - k))).
  { intros k Hk. remember (Z.to_nat (cnt - k)) as n eqn:En. revert k Hk En; induction n as [|n IH]; intros k Hk En.
    - assert (k = cnt) as -> by lia. rewrite decide_True by done. by rewrite Z.sub_diag.
    - rewrite decide_False by lia. rewrite page_list_cons by lia. split; [done|]. split; [apply page_list_ok; lia|].
      rewrite Hw by lia. specialize (IH (k + 1) ltac:(lia) ltac:(lia)).
      replace (first + k * PAGE_SIZE + PAGE_SIZE) with (first + (k + 1) * PAGE_SIZE) by lia.
      replace (cnt - k - 1) with (cnt - (k + 1)) by lia. unfold link_of.
      destruct (decide (k = cnt - 1)), (decide (k + 1 = cnt)); try lia; exact IH. }
  specialize (H 0 ltac:(lia)). rewrite decide_False in H by lia. by rewrite Z.mul_0_l, Z.add_0_r, Z.sub_0_r in H.
Qed.
End Free.

(** * The tables of the main space *)

Definition RWG : Z := Z.lor (Z.lor PTE_R PTE_W) PTE_G.

Definition pt2_spec (img : kimg) (i : Z) : pte :=
  if decide (i < 2) then leaf_pte (i * GIGA_SIZE) RWG
  else if decide (i = 2) then ptab_pte (main_pt1 img) PTE_G else null_pte.
Definition pt1_spec (img : kimg) (i : Z) : pte :=
  if decide (i = 0) then ptab_pte (main_pt0 img) PTE_G
  else if decide (i < 4) then leaf_pte (RAM_START_PMA + i * MEGA_SIZE) RWG else null_pte.
Definition pt0_spec (img : kimg) (i : Z) : pte :=
  let pp := RAM_START_PMA + i * PAGE_SIZE in
  if decide (pp < rodata_start img) then leaf_pte pp (Z.lor (Z.lor PTE_R PTE_X) PTE_G)
  else if decide (pp < data_start img) then leaf_pte pp (Z.lor PTE_R PTE_G)
  else leaf_pte pp RWG.

Record main_tables (img : kimg) (m : mm) : Prop := {
  mt_pt2 i : index_ok i -> entry m (main_pt2 img) i = pt2_spec img i;
  mt_pt1 i : index_ok i -> entry m (main_pt1 img) i = pt1_spec img i;
  mt_pt0 i : index_ok i -> entry m (main_pt0 img) i = pt0_spec img i;
}.

Section Init.
Context (img : kimg) (Himg : kimg_ok img).

Definition first_free : Z := kimg_end img + PAGE_SIZE.
Definition free_cnt : Z := (RAM_END_PMA - first_free) / PAGE_SIZE.

Lemma table_page t : t ∈ [main_pt2 img; main_pt1 img; main_pt0 img] -> page_ok t /\ t + PAGE_SIZE <= kimg_end img.
Proof.
  destruct Himg as [[Hs Hts] [Ht1 Ht2] [Hr1 Hr2] (He1 & He2 & He3) [HF _]]. rewrite Forall_forall in HF.
  intros Hin. destruct (HF t Hin) as (? & ? & ?). unfold page_ok, align_up in *. mem_consts. split; [|done].
  split_and!; [|lia|done]. Z.to_euclidean_division_equations; lia.
Qed.

(** Where the regions of the image start. *)
Lemma image_bounds : exists nt nr, 0 <= nt /\ 0 <= nr /\ nt + nr <= 512 /\
  rodata_start img = RAM_START_PMA + nt * PAGE_SIZE /\ data_start img = RAM_START_PMA + (nt + nr) * PAGE_SIZE /\
  RAM_START_PMA + (nt - 1) * PAGE_SIZE < text_end img <= rodata_start img /\
  rodata_start img + (nr - 1) * PAGE_SIZE < rodata_end img <= data_start img.
Proof.
  destruct Himg as [[Hs Hts] [Ht1 Ht2] [Hr1 Hr2] (He1 & He2 & He3) _]. unfold align_up in *. mem_consts.
  exists ((rodata_start img - 0x80000000) / 4096), ((data_start img - rodata_start img) / 4096).
  Z.to_euclidean_division_equations; lia.
Qed.

Lemma vpn0_page n a k : a = RAM_START_PMA + n * PAGE_SIZE -> 0 <= n -> 0 <= k -> n + k < 512 ->
  VPN0 (a + k * PAGE_SIZE) = n + k.
Proof.
  intros -> ? ? ?. rewrite VPN0_vpn. unfold vpn. change (2 ^ (12 + 9 * Z.of_nat 0)) with 4096. mem_consts.
  Z.to_euclidean_division_equations; lia.
Qed.

(** The three loops over the pages of the first megabytes of RAM. *)
Lemma init_pt0 m : exists m1 m2 m3,
  map_direct (main_pt0 img) VPN0 (Z.lor (Z.lor PTE_R PTE_X) PTE_G) (text_start img) (text_end img) PAGE_SIZE m = Ret m1 /\
  map_direct (main_pt0 img) VPN0 (Z.lor PTE_R PTE_G) (rodata_start img) (rodata_end img) PAGE_SIZE m1 = Ret m2 /\
  map_direct (main_pt0 img) VPN0 RWG (data_start img) (RAM_START_PMA + MEGA_SIZE) PAGE_SIZE m2 = Ret m3 /\
  only_table m m3 (main_pt0 img) /\ forall i, index_ok i -> entry m3 (main_pt0 img) i = pt0_spec img i.
Proof.
  destruct (table_page (main_pt0 img)) as [P0 _]; [set_solver|].
  destruct image_bounds as (nt & nr & Hnt & Hnr & Hsum & Hro & Hda & Hte & Hre). destruct (ki_start _ Himg) as [_ Hts].
  destruct (map_direct_spec (main_pt0 img) VPN0 (Z.lor (Z.lor PTE_R PTE_X) PTE_G) (text_start img) (text_end img) PAGE_SIZE 0 nt m)
    as (m1 & E1 & O1 & F1); [done|done|done|done|lia|rewrite Hts in *; lia|intros; apply (vpn0_page 0); rewrite ?Hts; lia|].
  destruct (map_direct_spec (main_pt0 img) VPN0 (Z.lor PTE_R PTE_G) (rodata_start img) (rodata_end img) PAGE_SIZE nt nr m1)
    as (m2 & E2 & O2 & F2); [done|done|done|done|lia|lia|intros; apply (vpn0_page nt); lia|].
  destruct (map_direct_spec (main_pt0 img) VPN0 RWG (data_start img) (RAM_START_PMA + MEGA_SIZE) PAGE_SIZE (nt + nr) (512 - (nt + nr)) m2)
    as (m3 & E3 & O3 & F3); [done|done|lia|lia|lia|mem_consts; lia|intros; apply (vpn0_page (nt + nr)); lia|].
  exists m1, m2, m3. split_and!; [done..|by eapply only_table_trans, only_table_trans|].
  intros i Hi. rewrite F3, F2, F1 by done. unfold pt0_spec, index_ok in *. rewrite Hro, Hda, Hts.
  destruct (decide (nt + nr <= i < nt + nr + (512 - (nt + nr)))).
  { rewrite !decide_False by (mem_consts; lia). f_equal. lia. }
  destruct (decide (nt <= i < nt + nr)).
  { rewrite decide_False, decide_True by (mem_consts; lia). f_equal. lia. }
  rewrite !decide_True by (mem_consts; lia). f_equal. lia.
Qed.

(** The root table. *)
Lemma init_pt2 m : (forall i, index_ok i -> entry m (main_pt2 img) i = null_pte) -> exists m1 m2,
  map_direct (main_pt2 img) VPN2 RWG 0 RAM_START_PMA GIGA_SIZE m = Ret m1 /\
  st_pte m1 (main_pt2 img) (VPN2 RAM_START_PMA) (ptab_pte (main_pt1 img) PTE_G) = Ret m2 /\
  only_table m m2 (main_pt2 img) /\ forall i, index_ok i -> entry m2 (main_pt2 img) i = pt2_spec img i.
Proof.
  intros Hz. destruct (table_page (main_pt2 img)) as [P2 _]; [set_solver|].
  assert (H2 : index_ok 2) by (unfold index_ok; lia).
  destruct (map_direct_spec (main_pt2 img) VPN2 RWG 0 RAM_START_PMA GIGA_SIZE 0 2 m) as (m1 & E1 & O1 & F1);
    [done|done|done|done|done|by vm_compute|..].
  { intros k Hk. assert (k = 0 \/ k = 1) as [-> | ->] by lia; reflexivity. }
  exists m1. eexists. split; [done|]. change (VPN2 RAM_START_PMA) with 2. split; [by apply st_pte_ok|].
  split; [eapply only_table_trans; [done|by apply only_table_put]|].
  intros i Hi. rewrite entry_put by auto with kern. unfold pt2_spec.
  destruct (decide (main_pt2 img = main_pt2 img /\ 2 = i)) as [[_ <-]|Hn]; [done|]. rewrite F1 by done.
  assert (i <> 2) by naive_solver. unfold index_ok in Hi. destruct (decide (0 <= i < 0 + 2)).
  - rewrite decide_True by lia. f_equal. lia.
  - rewrite !decide_False by lia. by apply Hz.
Qed.

(** The first entry of the second-level table, and the megapages, which are
    mapped after the pages. *)
Lemma init_pt1_first m : exists m1, st_pte m (main_pt1 img) (VPN1 RAM_START_PMA) (ptab_pte (main_pt0 img) PTE_G) = Ret m1 /\
  only_table m m1 (main_pt1 img) /\
  forall i, index_ok i -> entry m1 (main_pt1 img) i = if decide (i = 0) then ptab_pte (main_pt0 img) PTE_G else entry m (main_pt1 img) i.
Proof.
  destruct (table_page (main_pt1 img)) as [P1 _]; [set_solver|]. assert (H0 : index_ok 0) by (unfold index_ok; lia).
  change (VPN1 RAM_START_PMA) with 0. eexists. split; [by apply st_pte_ok|]. split; [by apply only_table_put|].
  intros i Hi. rewrite entry_put by auto with kern. destruct (decide (i = 0)) as [->|]; [by rewrite decide_True|].
  rewrite decide_False; [done|lia].
Qed.

Lemma init_pt1_mega m : exists m1, map_direct (main_pt1 img) VPN1 RWG (RAM_START_PMA + MEGA_SIZE) RAM_END_PMA MEGA_SIZE m = Ret m1 /\
  only_table m m1 (main_pt1 img) /\
  forall i, index_ok i -> entry m1 (main_pt1 img) i =
    if decide (1 <= i < 4) then leaf_pte (RAM_START_PMA + i * MEGA_SIZE) RWG else entry m (main_pt1 img) i.
Proof.
  destruct (table_page (main_pt1 img)) as [P1 _]; [set_solver|].
  destruct (map_direct_spec (main_pt1 img) VPN1 RWG (RAM_START_PMA + MEGA_SIZE) RAM_END_PMA MEGA_SIZE 1 3 m)
    as (m1 & E1 & O1 & F1); [done|done|lia|lia|lia|by vm_compute|..].
  { intros k Hk. assert (k = 0 \/ k = 1 \/ k = 2) as [-> | [-> | ->]] by lia; reflexivity. }
  exists m1. split; [done|]. split; [done|]. intros i Hi. rewrite F1 by done. change (1 + 3) with 4.
  destruct (decide (1 <= i < 4)); [|done]. f_equal. mem_consts. lia.
Qed.

Lemma free_bounds : RAM_START_PMA <= first_free /\ first_free mod PAGE_SIZE = 0 /\
  first_free + free_cnt * PAGE_SIZE = RAM_END_PMA /\ 1024 <= free_cnt /\ kimg_end img = round_up_addr (kimg_end img) PAGE_SIZE.
Proof.
  destruct image_bounds as (nt & nr & Hnt & Hnr & Hsum & Hro & Hda & _).
  destruct (ki_end _ Himg) as (He1 & He2 & He3). unfold first_free, free_cnt, first_free, round_up_addr. mem_consts.
  rewrite u64_small by lia. Z.to_euclidean_division_equations; lia.
Qed.

Definition init_heap : heap := {| heap_start := kimg_end img; heap_end := first_free; heap_initialized := true |}.

Lemma flags_of_link w : w mod PAGE_SIZE = 0 -> pte_flags (pte_decode w) = 0.
Proof. intros Hw. cbn -[Z.modulo Z.pow]. unfold PAGE_SIZE in Hw. Z.to_euclidean_division_equations; lia. Qed.

Lemma memory_init_spec m : boot_ok img m -> exists m', memory_init img m = Ret (m', init_heap) /\
  main_tables img m' /\ satp m' = sv39_mtag (main_pt2 img) /\ main_mtag m' = sv39_mtag (main_pt2 img) /\
  free_pages m' (page_list first_free free_cnt) /\ clean m' (page_list first_free free_cnt).
Proof.
  intros Hboot. destruct free_bounds as (Hf1 & Hf2 & Hf3 & Hf4 & Hrnd).
  destruct (table_page (main_pt2 img)) as [P2 B2]; [set_solver|].
  destruct (table_page (main_pt1 img)) as [P1 B1]; [set_solver|].
  destruct (table_page (main_pt0 img)) as [P0 B0]; [set_solver|].
  assert (Hd := proj2 (ki_tables _ Himg)). rewrite !NoDup_cons in Hd. destruct Hd as (D2 & D1 & _).
  destruct (init_pt2 m) as (m1 & m2 & E1 & E2 & O2 & F2); [intros; apply Hboot; [set_solver|done]|].
  destruct (init_pt1_first m2) as (m3 & E3 & O3 & F3).
  destruct (init_pt0 m3) as (m4 & m5 & m6 & E4 & E5 & E6 & O6 & F6).
  destruct (init_pt1_mega m6) as (m7 & E7 & O7 & F7).
  destruct (link_pages_spec first_free free_cnt Hf1 Hf2 Hf3 ltac:(lia) m7) as (m8 & E8 & _ & _ & _ & Hlink & Hrest).
  assert (Hlow : forall b, b < first_free -> word m8 b = word m7 b).
  { intros b Hb. apply Hrest. intros i Hi. unfold PAGE_SIZE. lia. }
  assert (Hhigh : forall b, kimg_end img <= b -> word m7 b = word m b).
  { intros b Hb. rewrite (ot_word _ _ _ O7), (ot_word _ _ _ O6), (ot_word _ _ _ O3), (ot_word _ _ _ O2) by lia. done. }
  assert (Hent : forall t i, page_ok t -> t + PAGE_SIZE <= kimg_end img -> index_ok i -> entry m8 t i = entry m7 t i).
  { intros t i _ Ht Hi. unfold entry. rewrite Hlow; [done|]. unfold first_free, index_ok, PAGE_SIZE in *. lia. }
  eexists. split.
  { unfold memory_init. destruct (ki_start _ Himg) as [-> _]. destruct (ki_end _ Himg) as (_ & _ & He).
    rewrite Z.eqb_refl. replace (MEGA_SIZE <? kimg_end img - RAM_START_PMA) with false by lia.
    fold RWG. rewrite E1. cbn [obind]. rewrite E2. cbn [obind]. rewrite E3. cbn [obind]. rewrite E4. cbn [obind].
    rewrite E5. cbn [obind]. rewrite E6. cbn [obind]. rewrite E7. cbn [obind].
    rewrite <- Hrnd, Z.sub_diag. cbn [Z.ltb Z.compare HEAP_INIT_MIN].
    change (round_up_addr (HEAP_INIT_MIN - 0) PAGE_SIZE) with PAGE_SIZE. fold first_free.
    replace (RAM_END_PMA <? first_free) with false by (unfold PAGE_SIZE in Hf3; lia).
    unfold heap_init. replace (kimg_end img <? first_free) with true by (unfold first_free, PAGE_SIZE; lia). cbn [obind].
    fold free_cnt. rewrite E8. cbn [obind]. reflexivity. }
  cbn [satp main_mtag free_list]. split_and!; [..|done|done| |].
  - split; intros i Hi; etransitivity.
    + exact (Hent (main_pt2 img) i P2 B2 Hi).
    + rewrite (only_table_entry m6 m7 (main_pt1 img)), (only_table_entry m3 m6 (main_pt0 img)),
        (only_table_entry m2 m3 (main_pt1 img)) by (done || set_solver). by apply F2.
    + exact (Hent (main_pt1 img) i P1 B1 Hi).
    + rewrite F7, (only_table_entry m3 m6 (main_pt0 img)), F3, (only_table_entry m m2 (main_pt2 img)) by (done || set_solver).
      unfold pt1_spec, index_ok in *. destruct (decide (1 <= i < 4)); [rewrite decide_False, decide_True by lia; done|].
      destruct (decide (i = 0)); [done|]. rewrite decide_False by lia. apply Hboot; [set_solver|done].
    + exact (Hent (main_pt0 img) i P0 B0 Hi).
    + rewrite (only_table_entry m6 m7 (main_pt1 img)) by (done || set_solver). by apply F6.
  - split; [|apply NoDup_page_list]. cbn [free_list].
    apply (page_chain_frame m8); [done|]. apply chain_links; try done; lia.
  - intros x i Hx Hi. apply elem_page_list in Hx as (k & Hk & ->). unfold entry.
    change (word _ ?a) with (word m8 a). destruct (decide (i = 0)) as [->|Hi0].
    + rewrite Z.mul_0_r, Z.add_0_r, Hlink by done. apply flags_of_link. unfold link_of.
      destruct (decide _); [done|]. by rewrite Z_mod_plus_full.
    + rewrite Hrest, Hhigh.
      * apply (bo_free _ _ Hboot (first_free + k * PAGE_SIZE)); [apply (page_list_ok first_free free_cnt); done|..|done].
        unfold first_free, PAGE_SIZE. lia.
      * unfold first_free, index_ok, PAGE_SIZE in *. lia.
      * intros j Hj. unfold index_ok, PAGE_SIZE in *. lia.
Qed.

(** * The main space *)

Lemma leaf_ppn p f : 0 <= p < 2 ^ 56 -> p mod PAGE_SIZE = 0 -> pte_ppn (leaf_pte p f) * PAGE_SIZE = p.
Proof.
  intros. cbn -[Z.mul Z.modulo Z.pow Z.shiftr]. unfold pageptr_to_pagenum, PAGE_ORDER, PAGE_SIZE in *.
  rewrite Z.shiftr_div_pow2 by lia. Z.to_euclidean_division_equations; lia.
Qed.

(** The flags [memory_init] gives to leaves. *)
Definition kernel_flags (f : Z) : Prop := f = RWG \/ f = Z.lor (Z.lor PTE_R PTE_X) PTE_G \/ f = Z.lor PTE_R PTE_G.

Lemma kernel_leaf p f : kernel_flags f -> pte_flags (leaf_pte p f) = map_flags f /\
  has (map_flags f) PTE_V = true /\ perm_ok (map_flags f) = true /\ next_table (leaf_pte p f) = None.
Proof. intros [-> | [-> | ->]]; done. Qed.

Lemma leaf_at_direct l p f v : kernel_flags f -> 0 <= p < 2 ^ 56 -> p mod PAGE_SIZE = 0 -> p mod 2 ^ (12 + 9 * Z.of_nat l) = 0 ->
  leaf_at l (leaf_pte p f) v = Some (p + v mod 2 ^ (12 + 9 * Z.of_nat l), map_flags f).
Proof.
  intros Hf Hp Hal Hz. destruct (kernel_leaf p f Hf) as (Hfl & Hv & Hpm & _). unfold leaf_at, is_leaf.
  rewrite Hfl, Hv, leaf_ppn, Hz by done. unfold perm_ok in Hpm. cbn [andb]. rewrite Hpm. done.
Qed.

Lemma ptab_next t : page_ok t -> next_table (ptab_pte t PTE_G) = Some t.
Proof. intros Ht. unfold next_table, is_table. cbn -[Z.mul Z.modulo Z.pow]. by rewrite pageptr_pagenum. Qed.

Lemma pt0_leaf i : exists f, kernel_flags f /\ pt0_spec img i = leaf_pte (RAM_START_PMA + i * PAGE_SIZE) f.
Proof. unfold pt0_spec, kernel_flags. destruct (decide _); [eauto|]. destruct (decide _); eauto. Qed.

Lemma pt0_next i : next_table (pt0_spec img i) = None.
Proof. destruct (pt0_leaf i) as (f & Hf & ->). by apply kernel_leaf. Qed.
Lemma pt1_next i : next_table (pt1_spec img i) = if decide (i = 0) then Some (main_pt0 img) else None.
Proof.
  unfold pt1_spec. destruct (decide (i = 0)); [apply ptab_next, table_page; set_solver|].
  destruct (decide (i < 4)); [|done]. apply kernel_leaf. by left.
Qed.
Lemma pt2_next i : next_table (pt2_spec img i) = if decide (i = 2) then Some (main_pt1 img) else None.
Proof.
  unfold pt2_spec. destruct (decide (i < 2)); [rewrite decide_False by lia; apply kernel_leaf; by left|].
  destruct (decide (i = 2)); [apply ptab_next, table_page; set_solver|done].
Qed.

Lemma main_tab_at m q : main_tables img m -> path_ok q -> tab_at m (main_pt2 img) q =
  match q with
  | [] => Some (main_pt2 img)
  | [i] => if decide (i = 2) then Some (main_pt1 img) else None
  | i :: j :: _ => if decide (i = 2 /\ j = 0) then Some (main_pt0 img) else None
  end.
Proof.
  intros [H2 H1 H0] [Hq Hl]. destruct q as [|i [|j [|k q]]]; [done|..|cbn in Hl; lia]; inversion Hq as [|? ? Hi Hq']; subst.
  - cbn [tab_at]. rewrite H2, pt2_next by done. by destruct (decide (i = 2)).
  - inversion Hq'; subst. cbn [tab_at]. rewrite H2, pt2_next by done. destruct (decide (i = 2)) as [->|].
    + rewrite H1, pt1_next by done. destruct (decide (j = 0)) as [->|]; [by rewrite decide_True|].
      rewrite decide_False; [done|naive_solver].
    + rewrite decide_False; [done|naive_solver].
Qed.

Lemma main_space m free : main_tables img m -> (forall x, x ∈ free -> kimg_end img <= x) ->
  space_ok m (main_pt2 img) free.
Proof.
  intros Hm Hf.
  assert (Hfree : forall t, t ∈ [main_pt2 img; main_pt1 img; main_pt0 img] -> page_ok t /\ t ∉ free).
  { intros t Ht. destruct (table_page t Ht) as [? Hb]. split; [done|]. intros Hin%Hf. unfold PAGE_SIZE in Hb. lia. }
  assert (Hd := proj2 (ki_tables _ Himg)). rewrite !NoDup_cons in Hd. destruct Hd as (D2 & D1 & _).
  assert (main_pt2 img <> main_pt1 img) by set_solver. assert (main_pt2 img <> main_pt0 img) by set_solver.
  assert (main_pt1 img <> main_pt0 img) by set_solver. split.
  - intros q a Hq. rewrite main_tab_at by done. intros Ha. apply Hfree.
    destruct q as [|i [|j q]]; repeat destruct (decide _); try done; injection Ha as <-; set_solver.
  - intros q r a Hq Hr. rewrite !main_tab_at by done. intros Ha Hb.
    destruct Hq as [_ Hq], Hr as [_ Hr].
    destruct q as [|i [|j [|k q]]], r as [|i' [|j' [|k' r]]]; cbn in Hq, Hr; try (exfalso; lia);
      repeat destruct (decide _); destruct_and?; congruence.
  - intros q a i Hq. rewrite main_tab_at by done. intros Ha Hi. destruct Hm as [HT2 HT1 HT0].
    destruct q as [|i0 [|j0 q]]; repeat destruct (decide _); try done; injection Ha as <-.
    + rewrite HT2 by done. unfold pt2_spec, entry_ok. destruct (decide (i < 2)).
      { right. split; [done|]. split; [done|]. intros _ [=]. lia. }
      destruct (decide (i = 2)) as [->|]; [|by left]. right. split; [done|]. split; [done|]. by intros _ [=].
    + rewrite HT1 by done. unfold pt1_spec, entry_ok. destruct (decide (i = 0)); [by right; split_and!|].
      destruct (decide (i < 4)); [|by left]. right. split; [done|]. split; [done|]. intros _ [=]. lia.
    + rewrite HT0 by done. destruct (pt0_leaf i) as (f & Hf0 & ->). destruct (kernel_leaf (RAM_START_PMA + i * PAGE_SIZE) f Hf0) as (Hfl & Hv & Hpm & _).
      right. rewrite Hfl. split; [done|]. split; [done|]. destruct Hq as [_ Hq]. cbn in Hq. destruct q; cbn in *; [done|lia].
Qed.

Lemma sv39_mtag_eq r : page_ok r -> sv39_mtag r = 8 * 2 ^ 60 + r / PAGE_SIZE.
Proof.
  intros (? & ? & ?). unfold sv39_mtag, pageptr_to_pagenum, PAGE_ORDER, RISCV_SATP_MODE_Sv39, RISCV_SATP_MODE_shift.
  rewrite Z.shiftl_mul_pow2, Z.shiftr_div_pow2 by lia. change (2 ^ 12) with PAGE_SIZE.
  assert (Hr : 0 <= r / PAGE_SIZE < 2 ^ 44) by (mem_consts; Z.to_euclidean_division_equations; lia).
  rewrite <- Z.add_lor_land. replace (Z.land (8 * 2 ^ 60) (r / PAGE_SIZE)) with 0; [lia|].
  symmetry. rewrite Z.land_comm. apply Z.bits_inj'. intros n Hn. rewrite Z.land_spec, Z.bits_0. destruct (Z.ltb_spec n 60).
  - by rewrite Z.mul_pow2_bits_low, andb_false_r.
  - rewrite (Z.bits_above_log2 (r / PAGE_SIZE)); [done|lia|].
    destruct (decide (r / PAGE_SIZE = 0)) as [->|]; [cbn; lia|]. apply Z.log2_lt_pow2; [lia|].
    apply Z.lt_le_trans with (2 ^ 44); [lia|]. apply Z.pow_le_mono_r; lia.
Qed.

Lemma main_active m free : main_tables img m -> satp m = sv39_mtag (main_pt2 img) -> free_pages m free -> clean m free ->
  (forall x, x ∈ free -> kimg_end img <= x) -> active_space_root m = main_pt2 img /\ active_ok m free.
Proof.
  intros Hm Hs Hf Hc Hx. destruct (table_page (main_pt2 img)) as [P2 _]; [set_solver|].
  rewrite sv39_mtag_eq in Hs by done. assert (Hp := P2). destruct Hp as (? & ? & ?).
  assert (Hr : 0 <= satp m < 2 ^ 64 /\ satp m / 2 ^ 60 = 8 /\ satp m mod 2 ^ 44 * PAGE_SIZE = main_pt2 img)
    by (rewrite Hs; mem_consts; Z.to_euclidean_division_equations; lia).
  destruct Hr as (Hr & Hmode & Hroot).
  assert (Ha : active_space_root m = main_pt2 img) by (unfold active_space_root, active_space_mtag; by rewrite mtag_to_root_eq).
  split; [done|]. split; [done|done|]. rewrite Ha. split; [by apply main_space|done..].
Qed.

(** The regions of the direct map that a page of the first megabytes is in. *)
Lemma pt0_direct v : RAM_START_PMA <= v < RAM_START_PMA + MEGA_SIZE ->
  leaf_at 0 (pt0_spec img (vpn 0 v)) v = Some (v, direct_flags img v).
Proof.
  intros Hv. destruct image_bounds as (nt & nr & Hnt & Hnr & Hsum & Hro & Hda & _).
  assert (Hi : vpn 0 v = (v - RAM_START_PMA) / PAGE_SIZE).
  { unfold vpn. change (2 ^ (12 + 9 * Z.of_nat 0)) with 4096. mem_consts. Z.to_euclidean_division_equations; lia. }
  set (pp := RAM_START_PMA + vpn 0 v * PAGE_SIZE).
  assert (Hpp : pp <= v < pp + PAGE_SIZE /\ v - pp = v mod PAGE_SIZE /\ pp mod PAGE_SIZE = 0 /\ 0 <= pp < 2 ^ 56 /\ RAM_START_PMA <= pp)
    by (unfold pp; rewrite Hi; mem_consts; Z.to_euclidean_division_equations; lia).
  destruct Hpp as (Hle & Hoff & Hal & Hrng & Hge).
  assert (Hcmp : forall n s, s = RAM_START_PMA + n * PAGE_SIZE -> (v <? s) = bool_decide (pp < s)).
  { intros n s ->. destruct (bool_decide_reflect (pp < RAM_START_PMA + n * PAGE_SIZE)) as [H|H];
      unfold pp in *; rewrite Hi in *; mem_consts; Z.to_euclidean_division_equations; lia. }
  unfold pt0_spec, direct_flags. fold pp. replace (v <? RAM_START_PMA) with false by lia.
  rewrite (Hcmp nt (rodata_start img) Hro), (Hcmp (nt + nr) (data_start img) Hda).
  repeat case_bool_decide; repeat case_decide; try done;
    (rewrite leaf_at_direct; [change (2 ^ (12 + 9 * Z.of_nat 0)) with PAGE_SIZE; by replace (pp + v mod PAGE_SIZE) with v by lia
      |unfold kernel_flags; tauto|done..]).
Qed.

Lemma vpn_value v : 0 <= v -> vpn 2 v = v / 2 ^ 30 mod 512 /\ vpn 1 v = v / 2 ^ 21 mod 512.
Proof. done. Qed.

(** The walk through the main tables. *)
Lemma main_walk m v : main_tables img m ->
  walk_from m (main_pt2 img) v =
    if decide (vpn 2 v = 2) then
      if decide (vpn 1 v = 0) then leaf_at 0 (pt0_spec img (vpn 0 v)) v else leaf_at 1 (pt1_spec img (vpn 1 v)) v
    else leaf_at 2 (pt2_spec img (vpn 2 v)) v.
Proof.
  intros Hm. unfold walk_from. rewrite !main_tab_at by auto with kern. destruct Hm as [H2 H1 H0].
  destruct (decide (vpn 2 v = 2)) as [E2|E2].
  - destruct (decide (vpn 1 v = 0)) as [E1|E1].
    + rewrite decide_True by done. by rewrite H0 by auto with kern.
    + rewrite decide_False by tauto. by rewrite H1 by auto with kern.
  - by rewrite H2 by auto with kern.
Qed.

Lemma main_identity m v : main_tables img m -> 0 <= v < RAM_END_PMA ->
  walk_from m (main_pt2 img) v = Some (v, direct_flags img v).
Proof.
  intros Hm Hv. rewrite main_walk by done. destruct (vpn_value v) as [E2 E1]; [lia|].
  destruct (Z.ltb_spec v RAM_START_PMA) as [Hlo|Hhi].
  - assert (Hi : vpn 2 v = v / 2 ^ 30 /\ 0 <= v / 2 ^ 30 < 2) by (rewrite E2; mem_consts; Z.to_euclidean_division_equations; lia).
    destruct Hi as [Hi Hr]. rewrite decide_False by lia. rewrite Hi. unfold pt2_spec. rewrite decide_True by lia.
    rewrite leaf_at_direct; [|by left|mem_consts; lia|..].
    + change (2 ^ (12 + 9 * Z.of_nat 2)) with (2 ^ 30). unfold direct_flags. replace (v <? RAM_START_PMA) with true by lia.
      f_equal. f_equal. mem_consts. Z.to_euclidean_division_equations; lia.
    + mem_consts. Z.to_euclidean_division_equations; lia.
    + change (2 ^ (12 + 9 * Z.of_nat 2)) with GIGA_SIZE. by apply Z.mod_mul.
  - assert (Hi : vpn 2 v = 2 /\ vpn 1 v = (v - RAM_START_PMA) / 2 ^ 21 /\ 0 <= (v - RAM_START_PMA) / 2 ^ 21 < 4)
      by (rewrite E2, E1; mem_consts; Z.to_euclidean_division_equations; lia).
    destruct Hi as (Hi2 & Hi1 & Hr). rewrite decide_True by done.
    destruct (decide (vpn 1 v = 0)) as [Hz|Hz]; [apply pt0_direct; mem_consts; Z.to_euclidean_division_equations; lia|].
    rewrite Hi1 in *. unfold pt1_spec. rewrite decide_False, decide_True by lia.
    rewrite leaf_at_direct; [|by left|mem_consts; lia|..].
    + change (2 ^ (12 + 9 * Z.of_nat 1)) with (2 ^ 21). unfold direct_flags.
      destruct image_bounds as (nt & nr & Hnt & Hnr & Hsum & Hro & Hda & _).
      replace (v <? RAM_START_PMA) with false by lia.
      replace (v <? rodata_start img) with false by (mem_consts; Z.to_euclidean_division_equations; lia).
      replace (v <? data_start img) with false by (mem_consts; Z.to_euclidean_division_equations; lia).
      f_equal. f_equal. mem_consts. Z.to_euclidean_division_equations; lia.
    + mem_consts. Z.to_euclidean_division_equations; lia.
    + change (2 ^ (12 + 9 * Z.of_nat 1)) with MEGA_SIZE. mem_consts. Z.to_euclidean_division_equations; lia.
Qed.

Lemma main_unmapped m v : main_tables img m -> RAM_END_PMA <= v < 2 ^ 64 -> wellformed_vma v = true ->
  walk_from m (main_pt2 img) v = None.
Proof.
  intros Hm Hv Hw. apply wellformed_range in Hw; [|mem_consts; lia]. rewrite main_walk by done.
  destruct (vpn_value v) as [E2 E1]; [mem_consts; lia|].
  assert (Hi : 2 < vpn 2 v \/ vpn 2 v = 2 /\ 4 <= vpn 1 v) by (rewrite E2, E1; mem_consts; Z.to_euclidean_division_equations; lia).
  destruct Hi as [Hi|[-> Hi]].
  - rewrite decide_False by lia. unfold pt2_spec. by rewrite !decide_False by lia.
  - rewrite decide_True, decide_False by lia. unfold pt1_spec. by rewrite !decide_False by lia.
Qed.
End Init.

Lemma page_list_ge img x : kimg_ok img -> x ∈ page_list (first_free img) (free_cnt img) -> kimg_end img + PAGE_SIZE <= x /\ page_ok x.
Proof.
  intros Himg (i & Hi & ->)%elem_page_list. destruct (free_bounds img Himg) as (? & ? & ? & ? & _).
  split; [unfold first_free, PAGE_SIZE; lia|]. by apply (page_list_ok _ (free_cnt img)).
Qed.

Lemma page_regions_disj first cnt c : (forall x, x ∈ page_list first cnt -> c.1 + c.2 <= x) ->
  Forall (disj c) (map page_region (page_list first cnt)).
Proof.
  intros H. apply Forall_forall. intros r (x & -> & Hx)%list_elem_of_fmap. left. cbn. by apply H.
Qed.

Lemma page_list_regions first cnt : first mod 16 = 0 -> 0 <= first -> 0 <= cnt -> first + cnt * PAGE_SIZE < 2 ^ 64 ->
  supply_ok (map page_region (page_list first cnt)).
Proof.
  intros Ha H0 Hc Hb. remember (Z.to_nat cnt) as n eqn:En. revert first cnt Ha H0 Hc Hb En.
  induction n as [|n IH]; intros first cnt Ha H0 Hc Hb En.
  - replace cnt with 0 by lia. split; constructor.
  - rewrite page_list_cons by lia. cbn [map]. destruct (IH (first + PAGE_SIZE) (cnt - 1)) as [HF HD];
      [unfold PAGE_SIZE in *; Z.to_euclidean_division_equations; lia|unfold PAGE_SIZE in *; lia..|].
    split; constructor; [|done| |done].
    + unfold region_ok, page_region, PAGE_SIZE in *. cbn [fst snd]. Z.to_euclidean_division_equations; lia.
    + apply page_regions_disj. intros x (i & Hi & ->)%elem_page_list. unfold page_region, PAGE_SIZE. cbn [fst snd]. lia.
Qed.

Lemma init_supply img : kimg_ok img -> supply_ok (regions (init_heap img) (page_list (first_free img) (free_cnt img))).
Proof.
  intros Himg. destruct (free_bounds img Himg) as (Hf1 & Hf2 & Hf3 & Hf4 & _).
  destruct (table_page img Himg (main_pt2 img)) as [[Hp _] Hk]; [set_solver|].
  assert (Hfirst := Hf2). unfold first_free in Hfirst.
  destruct (page_list_regions (first_free img) (free_cnt img)) as [HF HD];
    [unfold PAGE_SIZE in Hf2; Z.to_euclidean_division_equations; lia|mem_consts; lia|lia|mem_consts; lia|].
  unfold regions, init_heap. cbn [heap_start heap_end]. split; constructor; [|done| |done].
  - unfold region_ok. cbn [fst snd]. unfold first_free in *. mem_consts. Z.to_euclidean_division_equations; lia.
  - apply page_regions_disj. intros x Hx%page_list_ge; [|done]. unfold first_free. cbn [fst snd]. lia.
Qed.

Lemma memory_init_active img m : kimg_ok img -> boot_ok img m -> exists m', memory_init img m = Ret (m', init_heap img) /\
  main_tables img m' /\ active_space_root m' = main_pt2 img /\ active_ok m' (page_list (first_free img) (free_cnt img)).
Proof.
  intros Himg Hb. destruct (memory_init_spec img Himg m Hb) as (m' & E & Hm & Hs & _ & Hf & Hc).
  destruct (main_active img Himg m' (page_list (first_free img) (free_cnt img))) as [Hr Ha]; try done.
  { intros x Hx%page_list_ge; [|done]. unfold PAGE_SIZE in Hx. lia. }
  eauto.
Qed.

(** C32: on a machine whose image is laid out by kernel.ld, [memory_init]
    succeeds and the hardware then translates every address below the end of
    RAM to itself, with execute permission on the kernel text only, no write
    permission on text and read-only data, and no address beyond; the heap and
    the free pages it hands over are disjoint. *)
Theorem memory_init_identity img m :
  kimg_ok img -> boot_ok img m ->
  exists m' h free, memory_init img m = Ret (m', h) /\ active_ok m' free /\ supply_ok (regions h free) /\
    (forall v, 0 <= v < RAM_END_PMA -> translate m' v = Some (v, direct_flags img v)) /\
    (forall v, RAM_END_PMA <= v < 2 ^ 64 -> translate m' v = None).
Proof.
  intros Himg Hb. destruct (memory_init_active img m Himg Hb) as (m' & E & Hm & Hr & Ha).
  eexists m', _, _. split; [exact E|]. split; [exact Ha|]. split; [by apply init_supply|].
  split; intros v Hv; rewrite (translate_walk _ _ _ Ha), Hr.
  - rewrite main_identity by done. replace (wellformed_vma v) with true; [done|]. symmetry.
    unfold wellformed_vma, i64. rewrite (u64_small v) by (mem_consts; lia). replace (v <? 2 ^ 63) with true by (mem_consts; lia).
    rewrite Z.shiftr_div_pow2, Z.div_small by (mem_consts; lia). done.
  - destruct (wellformed_vma v) eqn:Hw; [|done]. by apply main_unmapped.
Qed.

(** A small image and zeroed memory. *)
Module MemDemo.
Definition img : kimg :=
  {| kimg_start := 0x80000000; text_start := 0x80000000; text_end := 0x80012340; rodata_start := 0x80013000;
     rodata_end := 0x80015010; data_start := 0x80016000; kimg_end := 0x80022000;
     main_pt2 := 0x8001f000; main_pt1 := 0x80020000; main_pt0 := 0x80021000 |}.
Definition boot : mm :=
  {| ram := ∅; free_list := 0; satp := 0; mm_sstatus := 0; main_mtag := 0; memory_initialized := false |}.

Lemma img_ok : kimg_ok img.
Proof.
  split; [done|done|done|done|]. split; [repeat (apply Forall_cons_2; [done|]); apply Forall_nil_2|].
  by apply (bool_decide_unpack _).
Qed.
Lemma boot_ok_demo : boot_ok img boot.
Proof. split; done. Qed.
End MemDemo.

Lemma memory_init_identity_witness : exists m' h, memory_init MemDemo.img MemDemo.boot = Ret (m', h) /\
  translate m' 0x10000005 = Some (0x10000005, direct_flags MemDemo.img 0x10000005) /\
  translate m' 0x80012345 = Some (0x80012345, map_flags (Z.lor (Z.lor PTE_R PTE_X) PTE_G)) /\ translate m' 0xC0000000 = None.
Proof.
  destruct (memory_init_identity MemDemo.img MemDemo.boot MemDemo.img_ok MemDemo.boot_ok_demo) as (m' & h & l & E & _ & _ & Hid & Hno).
  exists m', h. split; [exact E|]. split; [|split].
  - apply Hid. mem_consts. lia.
  - rewrite Hid by (mem_consts; lia). reflexivity.
  - apply Hno. mem_consts. lia.
Defined.
