(* ===== verification/VmOps.v ===== *)
(** The operations of memory.c on a memory space, against the translation of
    the hardware: mapping pages and ranges, page faults, changing permissions,
    reclaiming, and the page allocator over its life. *)

From Stdlib Require Import List.
From S2P Require Import Prelude Heap Memory PageTable MemInit.
From stdpp Require Import gmap list.
#[local] Open Scope Z_scope.

(** * The page allocator *)

(** What clients do with pages: take one, give one back, write to one they
    hold. *)
Inductive page_op := PAlloc | PFree (k : nat) | PWrite (k : nat) (i w : Z).

Definition run_op (m : mm) (held : list Z) (op : page_op) : outcome (mm * list Z) :=
  match op with
  | PAlloc => let! (m, x) := memory_alloc_page m in Ret (m, x :: held)
  | PFree k =>
      match held !! k with
      | Some x => let! m := memory_free_page m x in Ret (m, delete k held)
      | None => Ret (m, held)
      end
  | PWrite k i w =>
      match held !! k with
      | Some x => let! m := st64 m (x + 8 * i) w in Ret (m, held)
      | None => Ret (m, held)
      end
  end.

Fixpoint run_ops (m : mm) (held : list Z) (ops : list page_op) : outcome (mm * list Z) :=
  match ops with
  | [] => Ret (m, held)
  | op :: r => let! (m, held) := run_op m held op in run_ops m held r
  end.

(** There is a page for every allocation. *)
Fixpoint enough (nfree nheld : nat) (ops : list page_op) : bool :=
  match ops with
  | [] => true
  | PAlloc :: r => match nfree with O => false | S n => enough n (S nheld) r end
  | PFree k :: r => if (k <? nheld)%nat then enough (S nfree) (nheld - 1) r else enough nfree nheld r
  | PWrite _ i _ :: r => (0 <=? i) && (i <? 512) && enough nfree nheld r
  end.

Lemma run_ops_spec ops m held free : free_pages m free -> NoDup (free ++ held) -> Forall page_ok held ->
  enough (length free) (length held) ops = true ->
  exists m' held' free', run_ops m held ops = Ret (m', held') /\ free_pages m' free' /\ Permutation (free' ++ held') (free ++ held).
Proof.
  revert m held free; induction ops as [|op ops IH]; intros m held free Hf Hd Hok He; cbn [run_ops].
  { exists m, held, free. done. }
  destruct op as [|k|k i w]; cbn [run_op enough] in *.
  - destruct free as [|x free]; [done|]. cbn [length app] in *.
    destruct (memory_alloc_page_spec m x free Hf) as (-> & Hf' & Hx & _). cbn [obind].
    destruct (IH (with_free m (word m x)) (x :: held) free) as (m' & held' & free' & -> & ? & HP); try done.
    + by rewrite <- Permutation_middle.
    + by constructor.
    + exists m', held', free'. split_and!; try done. by rewrite HP, <- Permutation_middle.
  - destruct (held !! k) as [x|] eqn:Hk.
    + assert (k < length held)%nat by by eapply lookup_lt_Some. rewrite (proj2 (Nat.ltb_lt k (length held))) in He by done.
      assert (Hperm := delete_Permutation _ _ _ Hk).
      assert (Hx : page_ok x) by by eapply Forall_lookup_1.
      assert (Hxf : x ∉ free).
      { intros Hin. apply NoDup_app in Hd as (_ & Hd & _). apply (Hd x Hin). by eapply list_elem_of_lookup_2. }
      destruct (memory_free_page_spec m x free Hf Hx Hxf) as (m1 & -> & Hf1 & _). cbn [obind].
      destruct (IH m1 (delete k held) (x :: free)) as (m' & held' & free' & -> & ? & HP); try done.
      * cbn [app]. by rewrite Permutation_middle, <- Hperm.
      * by apply Forall_delete.
      * by rewrite length_delete.
      * exists m', held', free'. split_and!; try done. rewrite HP. cbn [app]. by rewrite Permutation_middle, <- Hperm.
    + apply lookup_ge_None in Hk. rewrite (proj2 (Nat.ltb_ge k (length held))) in He by done. cbn [obind]. by apply IH.
  - bool_to_prop. destruct (held !! k) as [x|] eqn:Hk; [|cbn [obind]; by apply IH].
    assert (Hx : page_ok x) by by eapply Forall_lookup_1. unfold st64. rewrite slot_in_ram by (done || unfold index_ok; lia).
    cbn [obind]. apply IH; [|done..]. destruct Hf as [Hc Hnd]. split; [|done].
    eapply page_chain_frame; [|exact Hc]. intros y Hy. rewrite word_insert, decide_False; [done|]. intros E.
    assert (Hy' : page_ok y) by by eapply (free_pages_page_ok m free).
    destruct (pte_slot_inj x i y 0) as [-> _]; [done|done|unfold index_ok; lia|unfold index_ok; lia|lia|].
    apply NoDup_app in Hd as (_ & Hd & _). apply (Hd y Hy). by eapply list_elem_of_lookup_2.
Qed.

(** C31: over any sequence of allocations, releases of held pages and writes
    to held pages, as long as there is a page for every allocation, the page
    allocator succeeds, never hands out a page that is held, and keeps every
    page: the free pages (linked through their own first words) and the held
    pages are at all times a rearrangement, without repetition, of the initial
    ones. *)
Theorem page_allocator_partition m held free ops :
  free_pages m free -> NoDup (free ++ held) -> Forall page_ok held -> enough (length free) (length held) ops = true ->
  exists m' held' free', run_ops m held ops = Ret (m', held') /\ free_pages m' free' /\
    NoDup (free' ++ held') /\ Permutation (free' ++ held') (free ++ held).
Proof.
  intros Hf Hd Hok He. destruct (run_ops_spec ops m held free Hf Hd Hok He) as (m' & held' & free' & E & Hf' & HP).
  exists m', held', free'. split_and!; try done. by rewrite HP.
Qed.

Module PageDemo.
Definition st : mm :=
  {| ram := <[0x80400000 := 0x80401000]> ∅; free_list := 0x80400000; satp := 0; mm_sstatus := 0; main_mtag := 0;
     memory_initialized := true |}.
Lemma st_free : free_pages st [0x80400000; 0x80401000].
Proof. split; [|apply (bool_decide_unpack _); by vm_compute]. repeat (split; [done|]). done. Qed.
End PageDemo.

Lemma page_allocator_partition_witness : exists m' held' free',
  run_ops PageDemo.st [] [PAlloc; PWrite 0 0 77; PAlloc; PFree 1; PAlloc] = Ret (m', held') /\ NoDup (free' ++ held').
Proof.
  destruct (page_allocator_partition PageDemo.st [] [0x80400000; 0x80401000] [PAlloc; PWrite 0 0 77; PAlloc; PFree 1; PAlloc])
    as (m' & held' & free' & E & _ & Hd & _).
  - apply PageDemo.st_free.
  - apply (bool_decide_unpack _). by vm_compute.
  - constructor.
  - reflexivity.
  - exists m', held', free'. split; [exact E|exact Hd].
Defined.

(** * Mapping *)

(** Mapping an unmapped user page with a legal permission takes at most
    three free pages (two may become page tables), returns the physical
    address of [vma], and then the hardware translates every address of that
    page into the new page with exactly the given flags and V, A and D, and
    every other address as before; the pages in use keep their contents. *)
Theorem map_page_correct m free vma f :
  active_ok m free -> user_vma vma -> (3 <= length free)%nat -> 0 <= f < 256 -> perm_ok f = true -> translate m vma = None ->
  exists m' page free', memory_alloc_and_map_page m vma f = Ret (m', page + vma mod PAGE_SIZE) /\
    page ∈ free /\ page ∉ free' /\ active_ok m' free' /\ data_kept m m' (active_space_root m) free /\
    forall v, 0 <= v < 2 ^ 64 ->
      translate m' v = if decide (v / PAGE_SIZE = vma / PAGE_SIZE) then Some (page + v mod PAGE_SIZE, map_flags f)
                       else translate m v.
Proof.
  intros Hac Hv Hl Hf Hp Hn. destruct (map_page_spec m free vma f) as (m' & page & free' & E & [Ha' [pre [Hfr _]] Ht _ _ Hk _ _]); [done..|].
  assert (Hnd := proj2 (vo_free _ _ _ (ac_vm _ _ Hac))). rewrite Hfr in Hnd. apply NoDup_app in Hnd as (_ & _ & Hnd).
  apply NoDup_cons in Hnd as [Hpf _].
  exists m', page, free'. split_and!; try done. rewrite Hfr, elem_of_app. right. by constructor.
Qed.

Module VmDemo.
(** The memory after [memory_init] on the small image. *)
Definition st : mm := match memory_init MemDemo.img MemDemo.boot with Ret (m, _) => m | _ => MemDemo.boot end.
Definition free : list Z := page_list (first_free MemDemo.img) (free_cnt MemDemo.img).

Lemma st_active : active_ok st free.
Proof.
  destruct (memory_init_active MemDemo.img MemDemo.boot MemDemo.img_ok MemDemo.boot_ok_demo) as (m' & E & _ & _ & Ha).
  unfold st. rewrite E. exact Ha.
Qed.
Lemma free_len : length free = 2013%nat.
Proof. by vm_compute. Qed.
Lemma st_unmapped v : user_vma v -> translate st v = None.
Proof.
  intros Hv. destruct (memory_init_active MemDemo.img MemDemo.boot MemDemo.img_ok MemDemo.boot_ok_demo) as (m' & E & Hm & Hr & Ha).
  unfold st. rewrite E, (translate_walk _ _ _ Ha), Hr. unfold user_vma in Hv. destruct (wellformed_vma v) eqn:Hw; [|done].
  apply main_unmapped; [apply MemDemo.img_ok|done|mem_consts; lia|done].
Qed.
End VmDemo.

Definition RWU : Z := Z.lor (Z.lor PTE_R PTE_W) PTE_U.

Lemma map_page_correct_witness : exists m' page,
  memory_alloc_and_map_page VmDemo.st 0xC0000010 RWU = Ret (m', page + 16) /\
  translate m' 0xC0000FFF = Some (page + 4095, map_flags RWU).
Proof.
  destruct (map_page_correct VmDemo.st VmDemo.free 0xC0000010 RWU) as (m' & page & free' & E & _ & _ & _ & _ & Ht).
  - apply VmDemo.st_active.
  - unfold user_vma. mem_consts. lia.
  - rewrite VmDemo.free_len. lia.
  - vm_compute. split; [discriminate|reflexivity].
  - reflexivity.
  - apply VmDemo.st_unmapped. unfold user_vma. mem_consts. lia.
  - exists m', page. split; [exact E|]. rewrite Ht by lia. reflexivity.
Defined.

Section Range.
Context (v size f : Z) (Hv : USER_START_VMA <= v) (Hend : v + size <= USER_END_VMA) (Hal : v mod PAGE_SIZE = 0).
Context (Hf : 0 <= f < 256) (Hp : perm_ok f = true).

Let body := fun i m => let! (m, _) := memory_alloc_and_map_page m (u64 (v + i)) f in Ret m.

Lemma page_index i v' : 0 <= i -> i mod PAGE_SIZE = 0 -> v + i <= v' ->
  (v' / PAGE_SIZE = (v + i) / PAGE_SIZE <-> v' < v + i + PAGE_SIZE) /\
  (v + i + PAGE_SIZE <= v' -> (v' - (v + i)) / PAGE_SIZE = 1 + (v' - (v + (i + PAGE_SIZE))) / PAGE_SIZE).
Proof.
  intros ? Hi ?. assert (Hal' := Hal). unfold PAGE_SIZE in *. split.
  - Z.to_euclidean_division_equations; lia.
  - intros. Z.to_euclidean_division_equations; lia.
Qed.

Lemma map_loop n : forall m free i, active_ok m free -> 0 <= i -> i mod PAGE_SIZE = 0 -> i + Z.of_nat n * PAGE_SIZE = size ->
  (3 * n <= length free)%nat -> (forall v', v + i <= v' < v + size -> translate m v' = None) ->
  exists m' pgs rest free', page_loop n i size body m = Ret m' /\ length pgs = n /\ Permutation free (pgs ++ rest ++ free') /\
    active_ok m' free' /\
    forall v', 0 <= v' < 2 ^ 64 -> translate m' v' =
      if decide (v + i <= v' < v + size)
      then option_map (fun p => (p + v' mod PAGE_SIZE, map_flags f)) (pgs !! Z.to_nat ((v' - (v + i)) / PAGE_SIZE))
      else translate m v'.
Proof.
  assert (Hv' := Hv). assert (Hend' := Hend). induction n as [|n IH]; intros m free i Ha Hi Him Hsz Hlen Hun; cbn [page_loop].
  { rewrite u64_small by (mem_consts; lia). replace (i <? size) with false by lia.
    exists m, [], [], free. split_and!; try done. intros v' _. rewrite decide_False by lia. done. }
  assert (Hu : user_vma (v + i)) by (unfold user_vma; mem_consts; lia).
  rewrite (u64_small i) by (mem_consts; lia). replace (i <? size) with true by (mem_consts; lia).
  unfold body at 1. rewrite u64_small by (mem_consts; lia).
  destruct (map_page_spec m free (v + i) f) as (m1 & page & fr1 & E & [Ha1 [pre [Hfr Hpre]] Ht1 _ _ _ _ _]); [done|done|lia|done|done| |].
  { apply Hun. mem_consts. lia. }
  rewrite E. cbn [obind]. rewrite i32_small by (mem_consts; lia).
  destruct (IH m1 fr1 (i + PAGE_SIZE)) as (m2 & pgs & rest & fr2 & E2 & Hl2 & HP & Ha2 & Ht2); try done.
  - unfold PAGE_SIZE. lia.
  - unfold PAGE_SIZE in *. Z.to_euclidean_division_equations; lia.
  - lia.
  - rewrite Hfr, length_app in Hlen. cbn [length] in Hlen. lia.
  - intros v' Hv''. rewrite Ht1 by (mem_consts; lia).
    destruct (page_index i v') as [Hpi _]; [lia|done|unfold PAGE_SIZE in *; lia|].
    rewrite decide_False by (rewrite Hpi; lia). apply Hun. unfold PAGE_SIZE in *. lia.
  - exists m2, (page :: pgs), (pre ++ rest), fr2. split; [exact E2|]. split; [cbn; lia|]. split.
    { rewrite Hfr, HP. cbn [app]. rewrite <- !app_assoc. solve_Permutation. }
    split; [done|]. intros v' Hr. rewrite Ht2, Ht1 by done. destruct (decide (v + i <= v' < v + size)) as [Hin|Hout].
    + destruct (page_index i v') as [Hpi Hnx]; [lia|done|lia|].
      destruct (decide (v + (i + PAGE_SIZE) <= v' < v + size)).
      * rewrite Hnx by lia. assert (0 <= (v' - (v + (i + PAGE_SIZE))) / PAGE_SIZE) by (apply Z.div_pos; [lia|done]).
        rewrite Z2Nat.inj_add by lia. done.
      * rewrite decide_True by (rewrite Hpi; lia). rewrite Z.div_small by lia. done.
    + rewrite !decide_False; [done|..]; [|unfold PAGE_SIZE in *; lia]. intros E1. apply Hout.
      assert (Hal' := Hal). unfold PAGE_SIZE in *. Z.to_euclidean_division_equations; lia.
Qed.
End Range.

(** C21: mapping a range of unmapped user pages, with three free pages for
    every page of the range, gives every page of it a physical page of its
    own, with the given permissions, changes the translation of no other
    address, and returns the start of the range; a size that is not a multiple
    of the page size panics. *)
Theorem map_range_correct m free v n f :
  let size := Z.of_nat n * PAGE_SIZE in
  active_ok m free -> USER_START_VMA <= v -> v + size <= USER_END_VMA -> v mod PAGE_SIZE = 0 ->
  0 <= f < 256 -> perm_ok f = true -> (3 * n <= length free)%nat ->
  (forall v', v <= v' < v + size -> translate m v' = None) ->
  exists m' pgs free', memory_alloc_and_map_range m v size f = Ret (m', v) /\
    length pgs = n /\ NoDup (pgs ++ free') /\ (forall p, p ∈ pgs -> p ∈ free) /\ active_ok m' free' /\
    (forall v', 0 <= v' < 2 ^ 64 -> translate m' v' =
      if decide (v <= v' < v + size)
      then option_map (fun p => (p + v' mod PAGE_SIZE, map_flags f)) (pgs !! Z.to_nat ((v' - v) / PAGE_SIZE))
      else translate m v') /\
    (forall k, 0 < k < PAGE_SIZE -> memory_alloc_and_map_range m v (size + k) f = Panic).
Proof.
  intros size Ha Hv He Hal Hf Hp Hl Hun.
  destruct (map_loop v size f Hv He Hal Hf Hp n m free 0) as (m' & pgs & rest & free' & E & Hlen & HP & Ha' & Ht);
    rewrite ?Z.add_0_r; try done.
  assert (Hnd := proj2 (vo_free _ _ _ (ac_vm _ _ Ha))). rewrite HP in Hnd.
  exists m', pgs, free'. split.
  { unfold memory_alloc_and_map_range. unfold size at 1. rewrite Z.mod_mul by done. cbn [Z.eqb negb].
    unfold size at 1. rewrite Z.div_mul, Nat2Z.id by done. by rewrite E. }
  split; [done|]. split.
  { apply NoDup_app in Hnd as (? & Hd & [? [? ?]]%NoDup_app). apply NoDup_app. split; [done|]. split; [|done].
    intros x Hx Hx'. apply (Hd x Hx). rewrite elem_of_app. by right. }
  split; [intros p Hpg; rewrite HP, elem_of_app; by left|]. split; [done|]. split; [by rewrite Z.add_0_r in Ht|].
  intros k Hk. unfold memory_alloc_and_map_range, size. rewrite Z.add_comm, Z_mod_plus_full, Z.mod_small by lia.
  by replace (k =? 0) with false by lia.
Qed.

Lemma map_range_correct_witness : exists m' pgs,
  memory_alloc_and_map_range VmDemo.st 0xC0000000 (Z.of_nat 3 * PAGE_SIZE) RWU = Ret (m', 0xC0000000) /\ length pgs = 3%nat /\
  NoDup pgs /\ translate m' 0xC0002004 = option_map (fun p => (p + 4, map_flags RWU)) (pgs !! 2%nat).
Proof.
  destruct (map_range_correct VmDemo.st VmDemo.free 0xC0000000 3 RWU) as (m' & pgs & free' & E & Hl & Hd & _ & _ & Ht & _).
  - apply VmDemo.st_active.
  - mem_consts. lia.
  - mem_consts. lia.
  - reflexivity.
  - vm_compute. split; [discriminate|reflexivity].
  - reflexivity.
  - rewrite VmDemo.free_len. lia.
  - intros v' Hv'. apply VmDemo.st_unmapped. unfold user_vma. mem_consts. lia.
  - exists m', pgs. split; [exact E|]. split; [exact Hl|]. split; [by apply NoDup_app in Hd as [? _]|].
    rewrite Ht by lia. rewrite decide_True by (mem_consts; lia). reflexivity.
Defined.

(** * Page faults *)

Lemma page_mask_eq a : 0 <= a < 2 ^ 64 -> page_mask a = a - a mod PAGE_SIZE.
Proof.
  intros Ha. unfold page_mask. replace (u64 (Z.lnot (PAGE_SIZE - 1))) with (Z.land (Z.ones 64) (Z.lnot (Z.ones 12)))
    by (by vm_compute).
  rewrite Z.land_assoc, Z.land_ones, Z.mod_small, <- Z.ldiff_land, Z.ldiff_ones_r by lia.
  rewrite Z.shiftl_mul_pow2, Z.shiftr_div_pow2 by lia. unfold PAGE_SIZE. Z.to_euclidean_division_equations; lia.
Qed.

(** A page fault at an unmapped user address maps a fresh page, readable
    and writable from user mode, under the whole page of that address and
    changes no other translation; a fault outside the user region panics. *)
Theorem page_fault_maps m free vptr :
  active_ok m free -> (3 <= length free)%nat -> 0 <= vptr < 2 ^ 64 - PAGE_SIZE -> translate m vptr = None ->
  if decide (user_vma vptr) then
    exists m' page free', memory_handle_page_fault m vptr = Ret m' /\ page ∈ free /\ active_ok m' free' /\
      forall v, 0 <= v < 2 ^ 64 ->
        translate m' v = if decide (v / PAGE_SIZE = vptr / PAGE_SIZE) then Some (page + v mod PAGE_SIZE, map_flags RWU)
                         else translate m v
  else memory_handle_page_fault m vptr = Panic.
Proof.
  intros Ha Hl Hv Hn. unfold memory_handle_page_fault. rewrite page_mask_eq by (unfold PAGE_SIZE in Hv; lia).
  assert (Hmod := Z.mod_pos_bound vptr PAGE_SIZE ltac:(done)).
  rewrite u64_small by (unfold PAGE_SIZE in *; Z.to_euclidean_division_equations; lia).
  destruct (decide (user_vma vptr)) as [Hu|Hu].
  - set (a := vptr - vptr mod PAGE_SIZE).
    assert (Hau : user_vma a /\ a / PAGE_SIZE = vptr / PAGE_SIZE /\ a + PAGE_SIZE <= USER_END_VMA).
    { revert Hu. unfold a, user_vma. mem_consts. intros. Z.to_euclidean_division_equations; lia. }
    destruct Hau as (Hau & Hpg & Hae).
    replace ((a <? USER_START_VMA) || (USER_END_VMA <? a + PAGE_SIZE)) with false by (unfold user_vma in Hau; lia).
    destruct (map_page_spec m free a RWU) as (m' & page & free' & E & [Ha' [pre [Hfr _]] Ht _ _ _ _ _]); [done|done|done|by vm_compute|done| |].
    { assert (Hs := translate_walk m free a Ha). rewrite (user_wellformed a Hau) in Hs. rewrite Hs.
      rewrite (translate_walk m free vptr Ha), (user_wellformed vptr Hu) in Hn.
      destruct (same_page_iff vptr a Hu) as [_ Hsp]; [unfold user_vma in Hau; mem_consts; lia|by apply user_wellformed|].
      destruct Hsp as (E2 & E1 & E0); [done|]. revert Hn. unfold walk_from. rewrite E2, E1, E0.
      repeat destruct (tab_at _ _ _); unfold leaf_at; repeat destruct (_ && _); done. }
    fold RWU. rewrite E. cbn [obind]. exists m', page, free'. split; [done|]. split; [rewrite Hfr, elem_of_app; right; by constructor|]. split; [done|].
    intros v Hr. rewrite Ht, Hpg by done. done.
  - replace (_ || _) with true; [done|]. revert Hu. unfold user_vma. mem_consts. intros. symmetry.
    Z.to_euclidean_division_equations; lia.
Qed.

Lemma page_fault_maps_witness : exists m' page, memory_handle_page_fault VmDemo.st 0xCFFFFFF8 = Ret m' /\
  translate m' 0xCFFFF123 = Some (page + 0x123, map_flags RWU).
Proof.
  assert (H : if decide (user_vma 0xCFFFFFF8) then _ else _) by
    (apply (page_fault_maps VmDemo.st VmDemo.free 0xCFFFFFF8);
     [apply VmDemo.st_active|rewrite VmDemo.free_len; lia|mem_consts; lia|apply VmDemo.st_unmapped; unfold user_vma; mem_consts; lia]).
  rewrite decide_True in H by (unfold user_vma; mem_consts; lia). destruct H as (m' & page & free' & E & _ & _ & Ht).
  exists m', page. split; [exact E|]. rewrite Ht by lia. reflexivity.
Defined.

(** * Changing permissions *)

(** A translated user address has a last-level table with a valid leaf. *)
Lemma mapped_slot m root free v r : vm_ok m root free -> vpn 2 v = 3 -> walk_from m root v = Some r ->
  exists a, tab_at m root [vpn 2 v; vpn 1 v] = Some a /\ page_ok a /\
    has (pte_flags (entry m a (vpn 0 v))) PTE_V = true /\ perm_ok (pte_flags (entry m a (vpn 0 v))) = true.
Proof.
  intros Hok Hv. unfold walk_from. assert (Hroot := root_page _ _ _ Hok).
  destruct (user_entry m root free [] root (vpn 2 v)) as [Hz|[_ Hn]]; auto with kern; [by rewrite Hv|..].
  { cbn [tab_at]. by rewrite no_flags_no_table, leaf_at_none. }
  cbn [app] in Hn. rewrite Hn. set (a1 := pagenum_to_pageptr _) in *.
  change [vpn 2 v; vpn 1 v] with ([vpn 2 v] ++ [vpn 1 v]).
  destruct (user_entry m root free [vpn 2 v] a1 (vpn 1 v)) as [Hz|[_ Hn1]]; auto with kern; [by rewrite Hv|..].
  { by rewrite tab_at_snoc, Hn, no_flags_no_table, leaf_at_none. }
  cbn [app] in Hn1 |- *. rewrite Hn1. set (a0 := pagenum_to_pageptr (pte_ppn (entry m a1 (vpn 1 v)))) in *. intros Hl. exists a0.
  split; [done|]. split; [by destruct (so_tab _ _ _ (vo_space _ _ _ Hok) _ _ (vpath_ok v) Hn1)|].
  destruct (so_ent _ _ _ (vo_space _ _ _ Hok) _ _ _ (vpath_ok v) Hn1 (vpn_ok 0 v)) as [Hz|(? & Hp & _)]; [|auto].
  by rewrite leaf_at_none in Hl.
Qed.

(** The entry that changes, and what stays: tables, data and [satp]. *)
Record flags_set (m m' : mm) (free : list Z) (vp f : Z) : Prop := {
  fs_active : active_ok m' free;
  fs_trans v : 0 <= v < 2 ^ 64 -> translate m' v =
    if decide (v / PAGE_SIZE = vp / PAGE_SIZE) then option_map (fun q => (q.1, map_flags f)) (translate m v) else translate m v;
  fs_satp : satp m' = satp m;
  fs_sstatus : mm_sstatus m' = mm_sstatus m;
  fs_data : data_kept m m' (active_space_root m) free;
  fs_tabs p : path_ok p -> tab_at m' (active_space_root m) p = tab_at m (active_space_root m) p;
}.

Lemma set_page_flags_spec m free vp f r :
  active_ok m free -> user_vma vp -> 0 <= f < 256 -> perm_ok f = true -> translate m vp = Some r ->
  exists m', memory_set_page_flags m vp f = Ret m' /\ flags_set m m' free vp f.
Proof.
  intros Hac Hu Hf Hp Ht. assert (Hok := ac_vm _ _ Hac). set (root := active_space_root m) in *.
  assert (Hw := translate_walk m free vp Hac). rewrite (user_wellformed vp Hu), Ht in Hw.
  destruct (mapped_slot m root free vp r Hok (user_vpn2 vp Hu) (eq_sym Hw)) as (a & Ha & Hpa & HV & HP).
  destruct (map_flags_ok f Hf Hp) as (Hmod & HV' & HP').
  set (e := set_flags (map_flags f) (entry m a (vpn 0 vp))).
  assert (Hflags : pte_flags e = map_flags f) by exact Hmod.
  assert (He : pte_ok e) by (unfold e, entry; auto with kern).
  assert (Hvm : vm_ok (put m a (vpn 0 vp) e) root free) by (apply (vm_ok_leaf m root free vp a e); by rewrite ?Hflags).
  exists (put m a (vpn 0 vp) e). split.
  { unfold memory_set_page_flags. fold root. rewrite (walk_pt_find m root free) by auto using user_vpn2.
    rewrite Ha. cbn [default obind]. rewrite VPN0_vpn, upd_pte_ok by auto with kern.
    unfold e, map_flags. by rewrite (Z.lor_comm PTE_V f). }
  assert (Hac' : active_ok (put m a (vpn 0 vp) e) free) by (split; [apply Hac|apply Hac|exact Hvm]).
  constructor; [done| |done|done| |].
  2: { intros b i Hb Hi Hbf Hbt. unfold put. rewrite word_insert, decide_False; [done|]. intros E.
    apply pte_slot_inj in E as [-> _]; auto with kern. apply (Hbt _ (vpath_ok vp)) in Ha; [done|]. right. by rewrite user_vpn2. }
  2: { intros p Hpp. apply (tab_at_leaf m root free vp a e); by rewrite ?Hflags. }
  intros v Hv.
  rewrite (translate_step m _ free free vp v (option_map (fun q => (q.1, map_flags f)) (walk_from m root v))); try done.
  - destruct (decide _) as [Epg|]; [|done]. rewrite (translate_walk m free v Hac).
    rewrite user_wellformed; [done|]. revert Hu Epg. unfold user_vma. mem_consts. intros. Z.to_euclidean_division_equations; lia.
  - fold root. rewrite (walk_from_leaf m root free vp a e) by (rewrite ?Hflags; done).
    destruct (decide (same_page vp v)) as [(E2 & E1 & E0)|]; [|done].
    rewrite (leaf_at_perm e), Hflags by by rewrite Hflags. unfold walk_from. rewrite <- E2, <- E1, <- E0, Ha.
    change [vpn 2 vp; vpn 1 vp] with ([vpn 2 vp] ++ [vpn 1 vp]) in Ha. rewrite tab_at_snoc in Ha.
    destruct (tab_at m root [vpn 2 vp]); [|done]. by rewrite leaf_at_perm.
Qed.

(** Changing the flags of a mapped user page leaves it at its physical
    page and replaces its permissions by the given ones, and changes no other
    translation. *)
Theorem set_page_flags_correct m free vp f r :
  active_ok m free -> user_vma vp -> 0 <= f < 256 -> perm_ok f = true -> translate m vp = Some r ->
  exists m', memory_set_page_flags m vp f = Ret m' /\ active_ok m' free /\
    forall v, 0 <= v < 2 ^ 64 -> translate m' v =
      if decide (v / PAGE_SIZE = vp / PAGE_SIZE) then option_map (fun q => (q.1, map_flags f)) (translate m v) else translate m v.
Proof.
  intros Ha Hu Hf Hp Ht. destruct (set_page_flags_spec m free vp f r Ha Hu Hf Hp Ht) as (m' & E & [Ha' Ht' _ _ _ _]). by exists m'.
Qed.

Lemma set_page_flags_correct_witness : exists m1 m2 page, memory_handle_page_fault VmDemo.st 0xC0000000 = Ret m1 /\
  memory_set_page_flags m1 0xC0000000 (Z.lor PTE_R PTE_U) = Ret m2 /\
  translate m2 0xC0000004 = Some (page + 4, map_flags (Z.lor PTE_R PTE_U)).
Proof.
  destruct (map_page_spec VmDemo.st VmDemo.free 0xC0000000 RWU VmDemo.st_active) as (m1 & page & fr & E1 & [Ha _ Ht _ _ _]).
  - unfold user_vma. mem_consts. lia.
  - rewrite VmDemo.free_len. lia.
  - vm_compute. split; [discriminate|reflexivity].
  - reflexivity.
  - apply VmDemo.st_unmapped. unfold user_vma. mem_consts. lia.
  - destruct (set_page_flags_correct m1 fr 0xC0000000 (Z.lor PTE_R PTE_U) (page + 0, map_flags RWU)) as (m2 & E2 & _ & Ht2).
    + exact Ha.
    + unfold user_vma. mem_consts. lia.
    + vm_compute. split; [discriminate|reflexivity].
    + reflexivity.
    + rewrite Ht by lia. reflexivity.
    + exists m1, m2, page. split; [|split; [exact E2|]].
      * unfold memory_handle_page_fault. change (page_mask 0xC0000000) with 0xC0000000.
        change ((0xC0000000 <? USER_START_VMA) || (USER_END_VMA <? u64 (0xC0000000 + PAGE_SIZE))) with false.
        fold RWU. rewrite E1. reflexivity.
      * rewrite Ht2, Ht by lia. reflexivity.
Defined.

(** * Validation and reclaiming *)

(** Whatever is mapped, [memory_validate_vptr_len] never answers 0 for a
    non-empty range and any set of flags with R, W, X, U or G in it: it
    compares the truth value of [flags && rwxug_flags] with the flags
    themselves.  (memory.h promises 1 for a range mapped with the flags.) *)
Theorem validate_rejects fuel m vp len f :
  0 < len -> 1 < f -> memory_validate_vptr_len fuel m vp len f <> Ret 0.
Proof.
  intros Hl Hf. destruct fuel as [|fuel]; cbn [memory_validate_vptr_len]; replace (len =? 0) with false by lia; [done|].
  destruct (walk_pt _ _ _ _) as [[m1 page]| | | |]; cbn [obind]; try done. destruct (_ =? 0); [done|].
  destruct (ld_pte _ _ _) as [e| | | |]; cbn [obind]; try done. destruct (_ =? 0); [done|].
  replace (land_bool (pte_flags e) f =? f) with false; [done|]. symmetry. unfold land_bool. destruct (_ && _); lia.
Qed.

Lemma validate_rejects_witness : memory_validate_vptr_len 10 VmDemo.st 0xC0000000 16 (Z.lor PTE_R PTE_U) <> Ret 0.
Proof. apply (validate_rejects 10 VmDemo.st 0xC0000000 16 (Z.lor PTE_R PTE_U)); vm_compute; reflexivity. Defined.

(** Without the U flag in the root table no user page is freed or unmapped. *)
Lemma unmap_nothing fuel m free :
  active_ok m free -> (forall i, index_ok i -> has (pte_flags (entry m (active_space_root m) i)) PTE_U = false) ->
  memory_unmap_and_free_user (S fuel) m = Ret m.
Proof.
  intros Ha Hu. assert (Hr := root_page _ _ _ (ac_vm _ _ Ha)). unfold memory_unmap_and_free_user. cbn [walk_and_free_user].
  match goal with |- context [for_range 0 PTE_CNT 1 ?b m] =>
    destruct (for_range_inv (fun x m' => 0 <= x <= 512 /\ m' = m) b 0 PTE_CNT 1 m) as (m' & x & E & [_ ->] & _) end; [done|..|done|exact E].
  intros x m' Hx [Hx0 ->]. change PTE_CNT with 512 in Hx. assert (Hi : index_ok x) by (unfold index_ok; lia).
  rewrite ld_pte_ok by done. cbn [obind]. rewrite Hu by done. exists m. split; [done|]. split; [lia|done].
Qed.

(** When no entry of the root table has the U flag, which is so after
    [memory_init] and stays so when [walk_pt] creates tables, reclaiming a
    space frees no page: it only switches to the main space.  (memory.h
    promises that all pages of user mappings are reclaimed.) *)
Theorem reclaim_frees_nothing fuel m free :
  active_ok m free -> (forall i, index_ok i -> has (pte_flags (entry m (active_space_root m) i)) PTE_U = false) ->
  memory_space_reclaim (S fuel) m = Ret (with_satp m (main_mtag m)).
Proof. intros Ha Hu. unfold memory_space_reclaim. by rewrite (unmap_nothing fuel m free Ha Hu). Qed.

Lemma reclaim_frees_nothing_witness : exists m1, memory_handle_page_fault VmDemo.st 0xC0000000 = Ret m1 /\
  memory_space_reclaim 3 m1 = Ret (with_satp m1 (main_mtag m1)).
Proof.
  destruct (map_page_spec VmDemo.st VmDemo.free 0xC0000000 RWU VmDemo.st_active) as (m1 & page & fr & E1 & [Ha _ _ _ _ _]).
  - unfold user_vma. mem_consts. lia.
  - rewrite VmDemo.free_len. lia.
  - vm_compute. split; [discriminate|reflexivity].
  - reflexivity.
  - apply VmDemo.st_unmapped. unfold user_vma. mem_consts. lia.
  - exists m1. split; [|apply (reclaim_frees_nothing 2 m1 fr)].
    + unfold memory_handle_page_fault. change (page_mask 0xC0000000) with 0xC0000000.
      change ((0xC0000000 <? USER_START_VMA) || (USER_END_VMA <? u64 (0xC0000000 + PAGE_SIZE))) with false.
      fold RWU. rewrite E1. reflexivity.
    + exact Ha.
    + assert (Hc : match memory_alloc_and_map_page VmDemo.st 0xC0000000 RWU with
                   | Ret (m, _) => forallb (fun i => negb (has (pte_flags (entry m (active_space_root m) i)) PTE_U)) (seqZ 0 512)
                   | _ => false
                   end = true) by (vm_compute; reflexivity).
      rewrite E1, forallb_forall in Hc. intros i Hi. apply negb_true_iff, Hc, list_elem_of_In, elem_of_seqZ.
      unfold index_ok in Hi. lia.
Defined.
