(* ===== verification/UserMem.v ===== *)
(** User memory as the loader and the system calls see it: bytes at virtual
    addresses with permissions.

    Class [UserMem] has the operations (the two range operations of memory.c and
    stores through the active space, as the hardware does them with
    [sstatus.SUM] set), class [UserMemSpec] states what they promise of the
    abstract memory [um_view].  The page tables and the physical memory of
    memory.c implement it: no two user pages share a physical page, and none is
    a table or free. *)

From S2P Require Import Prelude Memory PageTable VmOps.
From stdpp Require Import gmap list.
#[local] Open Scope Z_scope.

Class UserMem (M : Type) := {
  um_map : M -> Z -> Z -> Z -> outcome (M * Z);     (* memory_alloc_and_map_range *)
  um_protect : M -> Z -> Z -> Z -> outcome M;       (* memory_set_range_flags *)
  um_store : M -> Z -> list Z -> outcome M;         (* bytes stored from an address on *)
}.

(** [um_view m v] is the byte at [v] and the flags of its page; [um_ok m k]
    that the memory is consistent and [k] pages are free. *)
Class UserMemSpec (M : Type) `{UserMem M} := {
  um_ok : M -> nat -> Prop;
  um_view : M -> Z -> option (Z * Z);
  um_map_spec : forall m k v n f, um_ok m (3 * n + k) ->
    USER_START_VMA <= v -> v + Z.of_nat n * PAGE_SIZE <= USER_END_VMA -> v mod PAGE_SIZE = 0 ->
    0 <= f < 256 -> perm_ok f = true ->
    (forall a, v <= a < v + Z.of_nat n * PAGE_SIZE -> um_view m a = None) ->
    exists m', um_map m v (Z.of_nat n * PAGE_SIZE) f = Ret (m', v) /\ um_ok m' k /\
      forall a, user_vma a ->
        if decide (v <= a < v + Z.of_nat n * PAGE_SIZE) then exists b, um_view m' a = Some (b, map_flags f)
        else um_view m' a = um_view m a;
  um_protect_spec : forall m k v n f, um_ok m k ->
    USER_START_VMA <= v -> v + Z.of_nat n * PAGE_SIZE <= USER_END_VMA -> v mod PAGE_SIZE = 0 ->
    0 <= f < 256 -> perm_ok f = true ->
    (forall a, v <= a < v + Z.of_nat n * PAGE_SIZE -> is_Some (um_view m a)) ->
    exists m', um_protect m v (Z.of_nat n * PAGE_SIZE) f = Ret m' /\ um_ok m' k /\
      forall a, user_vma a ->
        um_view m' a = if decide (v <= a < v + Z.of_nat n * PAGE_SIZE)
                       then option_map (fun bf => (bf.1, map_flags f)) (um_view m a) else um_view m a;
  um_store_spec : forall m k v bs, um_ok m k -> bytes_ok bs ->
    USER_START_VMA <= v -> v + Z.of_nat (length bs) <= USER_END_VMA ->
    (forall a, v <= a < v + Z.of_nat (length bs) -> exists b f, um_view m a = Some (b, f) /\ has f PTE_W = true) ->
    exists m', um_store m v bs = Ret m' /\ um_ok m' k /\
      forall a, user_vma a ->
        um_view m' a = if decide (v <= a < v + Z.of_nat (length bs))
                       then option_map (fun bf => (default 0 (bs !! Z.to_nat (a - v)), bf.2)) (um_view m a) else um_view m a;
}.

(** * Bytes in words *)

Definition byte_at (m : mm) (p : Z) : Z := word m (p - p mod 8) / 256 ^ (p mod 8) mod 256.

Lemma digit_set w b i j : 0 <= i -> 0 <= j -> 0 <= b < 256 ->
  (w - w / 256 ^ i mod 256 * 256 ^ i + b * 256 ^ i) / 256 ^ j mod 256 = if decide (i = j) then b else w / 256 ^ j mod 256.
Proof.
  intros Hi Hj Hb. set (s := 256 ^ i). assert (Hs : 0 < s) by (apply Z.pow_pos_nonneg; lia). set (d := w / s mod 256).
  assert (Hd : 0 <= d < 256) by (apply Z.mod_pos_bound; lia).
  assert (Hw : w = (w / s / 256) * (256 * s) + d * s + w mod s).
  { pose proof (Z.div_mod w s ltac:(lia)). pose proof (Z.div_mod (w / s) 256 ltac:(lia)). fold d in H0. nia. }
  assert (Hr : 0 <= w mod s < s) by (apply Z.mod_pos_bound; lia). set (q := w / s / 256) in *. set (r := w mod s) in *.
  replace (w - d * s + b * s) with (q * (256 * s) + b * s + r) by lia.
  destruct (decide (i = j)) as [<-|Hij].
  - fold s. replace (q * (256 * s) + b * s + r) with ((q * 256 + b) * s + r) by ring.
    rewrite Z.div_add_l, (Z.div_small r), Z.add_0_r by lia. rewrite Z.add_comm, Z_mod_plus_full. by apply Z.mod_small.
  - destruct (Z.lt_ge_cases j i) as [Hlt|Hge].
    + assert (Es : s = 256 ^ (i - j - 1) * 256 * 256 ^ j).
      { unfold s. replace i with ((i - j - 1) + 1 + j) at 1 by lia. rewrite !Z.pow_add_r by lia. ring. }
      set (t := 256 ^ (i - j - 1)) in *. assert (Hp : 0 < 256 ^ j) by (apply Z.pow_pos_nonneg; lia).
      rewrite Hw. clearbody s t q r d. rewrite Es.
      replace (q * (256 * (t * 256 * 256 ^ j)) + b * (t * 256 * 256 ^ j) + r) with ((q * 256 * t + b * t) * 256 * 256 ^ j + r) by ring.
      replace (q * (256 * (t * 256 * 256 ^ j)) + d * (t * 256 * 256 ^ j) + r) with ((q * 256 * t + d * t) * 256 * 256 ^ j + r) by ring.
      rewrite !Z.div_add_l by lia. rewrite !(Z.add_comm (_ * 256)), !Z_mod_plus_full. done.
    + assert (Ej : 256 ^ j = 256 * s * 256 ^ (j - i - 1)).
      { unfold s. replace j with (1 + i + (j - i - 1)) at 1 by lia. rewrite !Z.pow_add_r by lia. ring. }
      rewrite Ej, <- !(Z.div_div _ (256 * s) (256 ^ (j - i - 1))) by (try apply Z.pow_pos_nonneg; lia). do 2 f_equal. rewrite Hw.
      rewrite <- !Z.add_assoc, !Z.div_add_l by lia. rewrite !Z.div_small by nia. done.
Qed.

Lemma st8_spec m p b : in_ram p = true -> 0 <= b < 256 ->
  exists m', st8 m p b = Ret m' /\ (forall p', byte_at m' p' = if decide (p = p') then b else byte_at m p') /\
    (forall a, a <> p - p mod 8 -> word m' a = word m a) /\
    free_list m' = free_list m /\ satp m' = satp m /\ mm_sstatus m' = mm_sstatus m.
Proof.
  intros Hr Hb. unfold st8. rewrite Hr. eexists. split; [done|]. rewrite (Z.mod_small b 256) by done. split; [|split; [|done]].
  - intros p'. unfold byte_at. rewrite word_insert. assert (H8 := Z.mod_pos_bound p 8 ltac:(lia)). assert (H8' := Z.mod_pos_bound p' 8 ltac:(lia)).
    destruct (decide (p - p mod 8 = p' - p' mod 8)) as [E|E].
    + rewrite digit_set by lia. destruct (decide (p = p')) as [<-|Hne]; [by rewrite decide_True|].
      rewrite decide_False by lia. by rewrite <- E.
    + rewrite decide_False by congruence. done.
  - intros a Ha. rewrite word_insert, decide_False by congruence. done.
Qed.

(** * Data pages *)

(** A page that is neither free nor a table of the space. *)
Definition data_page (m : mm) (root : Z) (free : list Z) (b : Z) : Prop :=
  page_ok b /\ b ∉ free /\ forall p, path_ok p -> tab_at m root p <> Some b.

(** [m'] agrees with [m] outside the data pages. *)
Definition tables_kept (m m' : mm) (root : Z) (free : list Z) : Prop :=
  forall a i, page_ok a -> index_ok i -> ~ data_page m root free a -> word m' (a + 8 * i) = word m (a + 8 * i).

Section Kept.
Context (m m' : mm) (root : Z) (free : list Z).
Context (Hok : vm_ok m root free) (Hk : tables_kept m m' root free) (Hfl : free_list m' = free_list m).

Lemma entry_kept p a i : path_ok p -> tab_at m root p = Some a -> index_ok i -> entry m' a i = entry m a i.
Proof.
  intros Hp Ha Hi. destruct (so_tab _ _ _ (vo_space _ _ _ Hok) _ _ Hp Ha) as [Hpa _]. unfold entry. rewrite Hk; [done..|].
  intros (_ & _ & Hn). by apply (Hn p).
Qed.

Lemma tab_at_kept p : path_ok p -> tab_at m' root p = tab_at m root p.
Proof.
  induction p as [|i p IH] using rev_ind; intros Hp; [done|]. assert (Hp' := path_ok_app _ _ Hp). rewrite !tab_at_snoc, IH by done.
  destruct (tab_at m root p) as [a|] eqn:Ha; [|done]. rewrite (entry_kept p); [done..|].
  destruct Hp as [HF _]. apply Forall_app in HF as [_ HF]. by inversion HF.
Qed.

Lemma free_kept x i : x ∈ free -> index_ok i -> word m' (x + 8 * i) = word m (x + 8 * i).
Proof.
  intros Hx Hi. apply Hk; [by eapply free_pages_page_ok; [apply Hok|]|done|]. intros (_ & Hn & _). done.
Qed.

Lemma vm_ok_kept : vm_ok m' root free.
Proof.
  destruct Hok as [Hs [Hc Hnd] Hcl]. split.
  - split.
    + intros p a Hp. rewrite tab_at_kept by done. by apply (so_tab _ _ _ Hs).
    + intros p q a Hp Hq. rewrite !tab_at_kept by done. by apply (so_inj _ _ _ Hs).
    + intros p a i Hp. rewrite tab_at_kept by done. intros Ha Hi. rewrite (entry_kept p) by done. by apply (so_ent _ _ _ Hs).
  - split; [|done]. rewrite Hfl. eapply page_chain_frame; [|done]. intros y Hy.
    rewrite <- (Z.add_0_r y). change (y + 0) with (y + 8 * 0). apply free_kept; [done|unfold index_ok; lia].
  - intros x i Hx Hi. unfold entry. rewrite free_kept by done. by apply Hcl.
Qed.

Lemma walk_from_kept v : walk_from m' root v = walk_from m root v.
Proof.
  unfold walk_from. rewrite !tab_at_kept by auto with kern.
  destruct (tab_at m root [vpn 2 v]) as [a1|] eqn:E1; [destruct (tab_at m root [vpn 2 v; vpn 1 v]) as [a0|] eqn:E0|].
  - by rewrite (entry_kept [vpn 2 v; vpn 1 v]) by auto with kern.
  - by rewrite (entry_kept [vpn 2 v]) by auto with kern.
  - by rewrite (entry_kept []) by auto with kern.
Qed.
End Kept.

(** * The user pages of the active space *)

Definition vroot (m : mm) : Z := active_space_root m.

(** A user translation as the page and the offset in it. *)
Lemma user_page m free v p f : active_ok m free -> user_vma v -> translate m v = Some (p, f) ->
  p mod PAGE_SIZE = v mod PAGE_SIZE.
Proof.
  intros Hac Hv Ht. assert (Hw := translate_walk m free v Hac). rewrite (user_wellformed v Hv), Ht in Hw.
  destruct (mapped_slot m _ free v (p, f) (ac_vm _ _ Hac) (user_vpn2 v Hv) (eq_sym Hw)) as (a & Ha & _ & HV & HP).
  unfold walk_from in Hw. rewrite Ha in Hw. change [vpn 2 v; vpn 1 v] with ([vpn 2 v] ++ [vpn 1 v]) in Ha. rewrite tab_at_snoc in Ha.
  destruct (tab_at m _ [vpn 2 v]); [|done]. rewrite leaf_at_perm in Hw by done. injection Hw as -> _.
  rewrite Z.add_comm, Z_mod_plus_full, Z.mod_mod; done.
Qed.

Definition page_of (p : Z) : Z := p - p mod PAGE_SIZE.

Record user_ok (m : mm) (free : list Z) : Prop := {
  uo_active : active_ok m free;
  uo_sum : has (mm_sstatus m) RISCV_SSTATUS_SUM = true;
  uo_page v p f : user_vma v -> translate m v = Some (p, f) -> data_page m (vroot m) free (page_of p);
  uo_inj v v' p p' f f' : user_vma v -> user_vma v' -> translate m v = Some (p, f) -> translate m v' = Some (p', f') ->
    page_of p = page_of p' -> v / PAGE_SIZE = v' / PAGE_SIZE;
}.

(** The byte and the flags at a user address. *)
Definition uview (m : mm) (v : Z) : option (Z * Z) :=
  if decide (user_vma v) then option_map (fun pf => (byte_at m pf.1, pf.2)) (translate m v) else None.

Lemma uview_eq m v : user_vma v -> uview m v = option_map (fun pf => (byte_at m pf.1, pf.2)) (translate m v).
Proof. intros Hv. unfold uview. by rewrite decide_True. Qed.
Lemma uview_Some m v bf : user_vma v -> uview m v = Some bf <-> exists p, translate m v = Some (p, bf.2) /\ bf.1 = byte_at m p.
Proof.
  intros Hv. unfold uview. rewrite decide_True by done. destruct (translate m v) as [[p f]|]; cbn; split.
  - intros [= <-]. by exists p.
  - destruct bf as [b f']. cbn. by intros (q & [= <- <-] & ->).
  - done.
  - by intros (q & ? & _).
Qed.
Lemma uview_None m v : user_vma v -> uview m v = None <-> translate m v = None.
Proof. intros Hv. unfold uview. rewrite decide_True by done. by destruct (translate m v). Qed.

(** * Stores *)

(** A store by the kernel through the active space. *)
Definition st_user (m : mm) (v b : Z) : outcome mm :=
  match translate m v with
  | Some (p, f) =>
      guard! has f PTE_W && (negb (has f PTE_U) || has (mm_sstatus m) RISCV_SSTATUS_SUM) in st8 m p b
  | None => Fault
  end.
Fixpoint store_user (m : mm) (v : Z) (bs : list Z) : outcome mm :=
  match bs with
  | [] => Ret m
  | b :: bs => let! m := st_user m v b in store_user m (v + 1) bs
  end.

Lemma page_of_range p : page_of p <= p < page_of p + PAGE_SIZE /\ page_of p mod PAGE_SIZE = 0.
Proof. unfold page_of, PAGE_SIZE. Z.to_euclidean_division_equations. lia. Qed.

Lemma data_page_in_ram m root free p : data_page m root free (page_of p) -> in_ram p = true.
Proof. intros ((H1 & H2 & _) & _). destruct (page_of_range p) as [Hr _]. unfold in_ram. apply andb_true_iff. lia. Qed.

(** Other words than that of [p] are in other pages or other words of the page. *)
Lemma word_elsewhere p a i : page_ok a -> index_ok i -> a <> page_of p -> a + 8 * i <> p - p mod 8.
Proof.
  unfold page_ok, index_ok, page_of, PAGE_SIZE. intros (_ & _ & Ha) Hi Hne E. apply Hne. Z.to_euclidean_division_equations. lia.
Qed.

Lemma st_user_spec m free v b b0 f : user_ok m free -> user_vma v -> 0 <= b < 256 -> uview m v = Some (b0, f) -> has f PTE_W = true ->
  exists m', st_user m v b = Ret m' /\ user_ok m' free /\
    forall a, user_vma a -> uview m' a = if decide (a = v) then Some (b, f) else uview m a.
Proof.
  intros [Hac Hsum Hpg Hinj] Hv Hb Hview Hw. apply uview_Some in Hview as (p & Ht & _); [|done]. cbn [snd] in Ht.
  assert (Hdp := Hpg v p f Hv Ht). destruct (st8_spec m p b) as (m' & E & Hbyte & Hword & Hfl & Hsa & Hss); [by eapply data_page_in_ram|done|].
  exists m'. unfold st_user. rewrite Ht, Hw, Hsum, orb_true_r. cbn [andb]. split; [done|].
  assert (Hk : tables_kept m m' (vroot m) free).
  { intros a i Ha Hi Hn. apply Hword. apply word_elsewhere; [done|done|]. by intros ->. }
  assert (Hroot : vroot m' = vroot m) by (unfold vroot, active_space_root, active_space_mtag; by rewrite Hsa).
  assert (Hvm : vm_ok m' (vroot m) free) by (eapply vm_ok_kept; [apply Hac|done|done]).
  assert (Hac' : active_ok m' free) by (split; [rewrite Hsa; apply Hac..|]; rewrite <- Hroot in Hvm; exact Hvm).
  assert (Htr : forall a, translate m' a = translate m a).
  { intros a. rewrite (translate_walk m' free a Hac'), (translate_walk m free a Hac). fold (vroot m') (vroot m). rewrite Hroot.
    destruct (wellformed_vma a); [|done]. eapply walk_from_kept; [apply Hac|done]. }
  split.
  - constructor; [done|by rewrite Hss| |].
    + intros a q g Ha. rewrite Htr. intros Hq. destruct (Hpg a q g Ha Hq) as (H1 & H2 & H3). split_and!; [done|done|].
      intros pp Hpp. rewrite Hroot, (tab_at_kept m m' (vroot m) free) by (done || apply Hac). by apply H3.
    + intros a a' q q' g g' Ha Ha'. rewrite !Htr. by apply Hinj.
  - intros a Ha. unfold uview. rewrite decide_True, Htr by done. destruct (decide (a = v)) as [->|Hne].
    { rewrite Ht. cbn. rewrite Hbyte, decide_True by done. done. }
    rewrite decide_True by done. destruct (translate m a) as [[q g]|] eqn:Eq; [|done]. cbn. rewrite Hbyte, decide_False; [done|].
    intros ->. apply Hne. assert (Hp1 := user_page m free v q f Hac Hv Ht). assert (Hp2 := user_page m free a q g Hac Ha Eq).
    assert (Hd := Hinj v a q q f g Hv Ha Ht Eq eq_refl). unfold PAGE_SIZE in *. Z.to_euclidean_division_equations. lia.
Qed.

Lemma store_user_spec bs m free v : user_ok m free -> bytes_ok bs ->
  USER_START_VMA <= v -> v + Z.of_nat (length bs) <= USER_END_VMA ->
  (forall a, v <= a < v + Z.of_nat (length bs) -> exists b f, uview m a = Some (b, f) /\ has f PTE_W = true) ->
  exists m', store_user m v bs = Ret m' /\ user_ok m' free /\
    forall a, user_vma a ->
      uview m' a = if decide (v <= a < v + Z.of_nat (length bs))
                   then option_map (fun bf => (default 0 (bs !! Z.to_nat (a - v)), bf.2)) (uview m a) else uview m a.
Proof.
  revert m v; induction bs as [|b bs IH]; intros m v Hok Hb Hlo Hhi Hm; cbn [store_user length] in *.
  { exists m. split; [done|]. split; [done|]. intros a Ha. by rewrite decide_False by lia. }
  apply bytes_ok_cons in Hb as [Hb0 Hb]. destruct (Hm v ltac:(lia)) as (b0 & f & Hv & Hw).
  assert (Hu : user_vma v) by (unfold user_vma; lia).
  destruct (st_user_spec m free v b b0 f) as (m1 & -> & Hok1 & Hv1); [done..|]. cbn [obind].
  destruct (IH m1 (v + 1)) as (m2 & -> & Hok2 & Hv2); [done|done|lia|lia| |].
  { intros a Ha. rewrite Hv1 by (unfold user_vma; lia). rewrite decide_False by lia. apply Hm. lia. }
  exists m2. split; [done|]. split; [done|]. intros a Ha. rewrite Hv2, Hv1 by done.
  destruct (decide (a = v)) as [->|Hne].
  - rewrite decide_False, decide_True by lia. rewrite Z.sub_diag, Hv. done.
  - destruct (decide (v + 1 <= a < v + 1 + Z.of_nat (length bs))) as [Hin|Hout].
    + rewrite decide_True by lia. replace (Z.to_nat (a - v)) with (S (Z.to_nat (a - (v + 1)))) by lia. done.
    + by rewrite decide_False by lia.
Qed.

(** * Mapping *)

Lemma st64_sstatus m a w m' : st64 m a w = Ret m' -> mm_sstatus m' = mm_sstatus m.
Proof. unfold st64. kcase; [|done]. by intros [= <-]. Qed.
Lemma upd_pte_sstatus m t i g m' : upd_pte m t i g = Ret m' -> mm_sstatus m' = mm_sstatus m.
Proof. unfold upd_pte, st_pte. intros H. obind_inv H. by apply st64_sstatus in H. Qed.
Lemma alloc_page_sstatus m m' p : memory_alloc_page m = Ret (m', p) -> mm_sstatus m' = mm_sstatus m.
Proof. unfold memory_alloc_page. kcase; [done|]. intros H. obind_inv H. by injection H as <- _. Qed.

Lemma walk_pt_sstatus m root v c m' p : walk_pt m root v c = Ret (m', p) -> mm_sstatus m' = mm_sstatus m.
Proof.
  unfold walk_pt. intros H. obind_inv H. obind_inv H. destruct r0 as [m1 pt1].
  assert (H1 : mm_sstatus m1 = mm_sstatus m).
  { kcase_in Hm0; [by injection Hm0 as <- _|]. kcase_in Hm0; [by injection Hm0 as <- _|].
    obind_inv Hm0. destruct r0 as [m2 q]. obind_inv Hm0. injection Hm0 as <- _.
    apply upd_pte_sstatus in Hm2. apply alloc_page_sstatus in Hm1. congruence. }
  kcase_in H; [by injection H as <- _|]. obind_inv H. kcase_in H; [by injection H as <- _|]. kcase_in H; [by injection H as <- _|].
  obind_inv H. destruct r1 as [m2 q]. obind_inv H. injection H as <- _.
  apply upd_pte_sstatus in Hm3. apply alloc_page_sstatus in Hm2. congruence.
Qed.

Lemma map_page_sstatus m v f m' p : memory_alloc_and_map_page m v f = Ret (m', p) -> mm_sstatus m' = mm_sstatus m.
Proof.
  unfold memory_alloc_and_map_page. intros H. obind_inv H. destruct r as [m1 pt]. kcase_in H; [done|].
  obind_inv H. destruct r as [m2 page]. obind_inv H. obind_inv H. injection H as <- _.
  apply walk_pt_sstatus in Hm. apply alloc_page_sstatus in Hm0. apply upd_pte_sstatus in Hm1, Hm2. congruence.
Qed.

Lemma page_of_add a o : page_ok a -> 0 <= o < PAGE_SIZE -> page_of (a + o) = a.
Proof. unfold page_ok, page_of, PAGE_SIZE. intros (_ & _ & H) Ho. Z.to_euclidean_division_equations. lia. Qed.

(** Data pages keep their bytes when other memory changes. *)
Lemma byte_kept m m' root free p : data_kept m m' root free -> data_page m root free (page_of p) -> byte_at m' p = byte_at m p.
Proof.
  intros Hk (Hpg & Hf & Ht). unfold byte_at. do 2 f_equal.
  replace (p - p mod 8) with (page_of p + 8 * ((p - p mod 8 - page_of p) / 8)).
  - apply Hk; [done|unfold index_ok, page_of, PAGE_SIZE; Z.to_euclidean_division_equations; lia|done|auto].
  - destruct Hpg as (_ & _ & Hm). unfold page_of, PAGE_SIZE in *. Z.to_euclidean_division_equations. lia.
Qed.

Lemma user_mod_range v : 0 <= v mod PAGE_SIZE < PAGE_SIZE.
Proof. by apply Z.mod_pos_bound. Qed.

(** One page mapped: the new one is a data page of its own. *)
Lemma map_user_page m free v f : user_ok m free -> user_vma v -> (3 <= length free)%nat -> 0 <= f < 256 -> perm_ok f = true ->
  uview m v = None ->
  exists m' p free', memory_alloc_and_map_page m v f = Ret (m', p) /\ user_ok m' free' /\ (length free <= length free' + 3)%nat /\
    forall a, user_vma a ->
      if decide (a / PAGE_SIZE = v / PAGE_SIZE) then exists b, uview m' a = Some (b, map_flags f) else uview m' a = uview m a.
Proof.
  intros [Hac Hsum Hpg Hinj] Hv Hl Hf Hp Hn. apply uview_None in Hn; [|done].
  destruct (map_page_spec m free v f) as (m' & page & free' & E & [Ha' [pre [Hfr Hpre]] Ht Hsa _ Hk Hnew Htabs]); [done..|].
  assert (Hss := map_page_sstatus _ _ _ _ _ E). assert (Hroot : vroot m' = vroot m) by (unfold vroot, active_space_root, active_space_mtag; by rewrite Hsa).
  assert (Hnd := proj2 (vo_free _ _ _ (ac_vm _ _ Hac))).
  assert (Hpf : page ∈ free) by (rewrite Hfr, elem_of_app; right; by constructor).
  assert (Hpo : page_ok page) by (eapply free_pages_page_ok; [apply (ac_vm _ _ Hac)|done]).
  assert (Hpf' : page ∉ free') by (rewrite Hfr in Hnd; apply NoDup_app in Hnd as (_ & _ & Hnd); by apply NoDup_cons in Hnd as [? _]).
  assert (Hsub : forall x, x ∈ free' -> x ∈ free) by (intros x Hx; rewrite Hfr, elem_of_app; right; by constructor).
  assert (Hcase : forall a p g, user_vma a -> translate m' a = Some (p, g) ->
    a / PAGE_SIZE = v / PAGE_SIZE /\ page_of p = page \/ a / PAGE_SIZE <> v / PAGE_SIZE /\ translate m a = Some (p, g)).
  { intros a p g Ha. rewrite Ht by (unfold user_vma in Ha; mem_consts; lia). destruct (decide _); [|by right].
    intros [= <- _]. left. split; [done|]. apply page_of_add; [done|apply user_mod_range]. }
  exists m', (page + v mod PAGE_SIZE), free'. split; [done|]. split; [constructor; [done|by rewrite Hss|..]|split].
  - intros a p g Ha Hap. rewrite Hroot. destruct (Hcase a p g Ha Hap) as [[_ ->]|[_ Hap']]; [done|].
    destruct (Hpg a p g Ha Hap') as (H1 & H2 & H3). split_and!; [done|by intros ?%Hsub|].
    intros q Hq E'. destruct (Htabs q _ Hq E') as [?|?]; [by apply (H3 q)|done].
  - intros a a' p p' g g' Ha Haa' Hp1 Hp2 Epp.
    destruct (Hcase a p g Ha Hp1) as [[E1 Q1]|[E1 Q1]], (Hcase a' p' g' Haa' Hp2) as [[E2 Q2]|[E2 Q2]]; [congruence| | |by eapply Hinj].
    + exfalso. destruct (Hpg a' p' g' Haa' Q2) as (_ & H2 & _). apply H2. congruence.
    + exfalso. destruct (Hpg a p g Ha Q1) as (_ & H2 & _). apply H2. congruence.
  - rewrite Hfr, length_app. cbn. lia.
  - intros a Ha. rewrite !uview_eq by done. rewrite Ht by (unfold user_vma in Ha; mem_consts; lia).
    destruct (decide _); [by eexists|]. destruct (translate m a) as [[p g]|] eqn:Ea; [|done]. cbn. do 2 f_equal.
    eapply byte_kept; [done|]. by eapply Hpg.
Qed.

(** * Permissions *)

Lemma protect_user_page m free v f : user_ok m free -> user_vma v -> 0 <= f < 256 -> perm_ok f = true -> is_Some (uview m v) ->
  exists m', memory_set_page_flags m v f = Ret m' /\ user_ok m' free /\
    forall a, user_vma a -> uview m' a = if decide (a / PAGE_SIZE = v / PAGE_SIZE)
                                         then option_map (fun bf => (bf.1, map_flags f)) (uview m a) else uview m a.
Proof.
  intros [Hac Hsum Hpg Hinj] Hv Hf Hp [bf Hview]. apply uview_Some in Hview as (q & Ht & _); [|done].
  destruct (set_page_flags_spec m free v f _ Hac Hv Hf Hp Ht) as (m' & E & [Ha' Htr Hsa Hss Hk Htab]).
  assert (Hroot : vroot m' = vroot m) by (unfold vroot, active_space_root, active_space_mtag; by rewrite Hsa).
  assert (Hback : forall a p g, user_vma a -> translate m' a = Some (p, g) -> exists g', translate m a = Some (p, g')).
  { intros a p g Ha. rewrite Htr by (unfold user_vma in Ha; mem_consts; lia). destruct (decide _); [|eauto].
    destruct (translate m a) as [[p' g']|]; [|done]. intros [= -> _]. eauto. }
  exists m'. split; [done|]. split; [constructor; [done|by rewrite Hss|..]|].
  - intros a p g Ha Hap. destruct (Hback a p g Ha Hap) as [g' Hap']. destruct (Hpg a p g' Ha Hap') as (H1 & H2 & H3).
    rewrite Hroot. split_and!; [done|done|]. intros pp Hpp. fold (vroot m) in Htab. rewrite Htab by done. by apply H3.
  - intros a a' p p' g g' Ha Haa' Hp1 Hp2. destruct (Hback a p g Ha Hp1) as [? ?], (Hback a' p' g' Haa' Hp2) as [? ?]. by eapply Hinj.
  - intros a Ha. rewrite !uview_eq by done. rewrite Htr by (unfold user_vma in Ha; mem_consts; lia).
    destruct (translate m a) as [[p g]|] eqn:Ea; [|by destruct (decide _)].
    assert (Hb : byte_at m' p = byte_at m p) by (eapply byte_kept; [done|]; by eapply Hpg).
    destruct (decide _); cbn; by rewrite Hb.
Qed.

(** * Ranges *)

Lemma page_loop_ind (P : Z -> mm -> Prop) n size body i m :
  (forall j m, 0 <= j -> j + PAGE_SIZE <= size -> j mod PAGE_SIZE = 0 -> P j m -> exists m', body j m = Ret m' /\ P (j + PAGE_SIZE) m') ->
  0 <= i -> i mod PAGE_SIZE = 0 -> i + Z.of_nat n * PAGE_SIZE = size -> size < 2 ^ 31 -> P i m ->
  exists m', page_loop n i size body m = Ret m' /\ P size m'.
Proof.
  intros Hstep. revert i m; induction n as [|n IH]; intros i m Hi Hal Hsz Hlt HP; cbn [page_loop]; rewrite u64_small by (unfold PAGE_SIZE in *; lia).
  - replace (i <? size) with false by lia. exists m. split; [done|]. by replace size with i by lia.
  - unfold PAGE_SIZE in *. replace (i <? size) with true by lia.
    destruct (Hstep i m) as (m1 & -> & HP1); [lia|lia|done|done|]. cbn [obind]. rewrite i32_small by lia.
    apply IH; [lia|Z.to_euclidean_division_equations; lia|lia|done|done].
Qed.

(** Does [a] lie in the page that starts at [v + j]? *)
Lemma in_page v j a : v mod PAGE_SIZE = 0 -> j mod PAGE_SIZE = 0 ->
  (a / PAGE_SIZE = (v + j) / PAGE_SIZE <-> v + j <= a < v + j + PAGE_SIZE).
Proof. unfold PAGE_SIZE. intros. Z.to_euclidean_division_equations. lia. Qed.

Section Ranges.
Context (v f : Z) (n : nat).
Let size := Z.of_nat n * PAGE_SIZE.
Context (Hlo : USER_START_VMA <= v) (Hhi : v + size <= USER_END_VMA) (Hal : v mod PAGE_SIZE = 0).
Context (Hf : 0 <= f < 256) (Hp : perm_ok f = true).

Lemma size_bounds : 0 <= size < 2 ^ 31 /\ size mod PAGE_SIZE = 0 /\ Z.to_nat (size / PAGE_SIZE) = n.
Proof.
  assert (H1 := Hlo). assert (H2 := Hhi). unfold size in *. split; [mem_consts; lia|]. split; [by apply Z_mod_mult|].
  rewrite Z.div_mul by done. lia.
Qed.

Lemma map_user_range m free k : user_ok m free -> (3 * n + k <= length free)%nat ->
  (forall a, v <= a < v + size -> uview m a = None) ->
  exists m' free', memory_alloc_and_map_range m v size f = Ret (m', v) /\ user_ok m' free' /\ (k <= length free')%nat /\
    forall a, user_vma a ->
      if decide (v <= a < v + size) then exists b, uview m' a = Some (b, map_flags f) else uview m' a = uview m a.
Proof.
  intros Hok Hfree Hun. destruct size_bounds as (Hs & Hsm & Hn). unfold memory_alloc_and_map_range. rewrite Hsm, Hn. cbn [Z.eqb negb].
  destruct (page_loop_ind (fun i m' => exists free', user_ok m' free' /\ Z.of_nat k + 3 * ((size - i) / PAGE_SIZE) <= Z.of_nat (length free') /\
    forall a, user_vma a -> if decide (v <= a < v + i) then exists b, uview m' a = Some (b, map_flags f) else uview m' a = uview m a)
    n size (fun i m => let! (m, _) := memory_alloc_and_map_page m (u64 (v + i)) f in Ret m) 0 m) as (m' & E & free' & Hok' & Hl' & Hv');
    [|lia|done|lia|lia| |].
  - intros j m1 Hj Hjs Hjm (fr & Hok1 & Hl1 & Hv1). assert (Hlo' := Hlo). assert (Hhi' := Hhi).
    assert (Hu : user_vma (v + j)) by (unfold user_vma, PAGE_SIZE in *; lia). rewrite u64_small by (mem_consts; lia).
    assert (Hdiv : (size - j) / PAGE_SIZE = 1 + (size - (j + PAGE_SIZE)) / PAGE_SIZE)
      by (unfold PAGE_SIZE in *; Z.to_euclidean_division_equations; lia).
    assert (0 <= (size - (j + PAGE_SIZE)) / PAGE_SIZE) by (apply Z.div_pos; [lia|done]).
    destruct (map_user_page m1 fr (v + j) f) as (m2 & p & fr2 & -> & Hok2 & Hl2 & Hv2); [done|done|lia|done|done| |].
    { specialize (Hv1 (v + j) Hu). rewrite decide_False in Hv1 by lia. rewrite Hv1. apply Hun. unfold PAGE_SIZE in *. lia. }
    cbn [obind]. exists m2. split; [done|]. exists fr2. split; [done|]. split; [lia|]. intros a Ha. specialize (Hv1 a Ha). specialize (Hv2 a Ha).
    assert (Hip := in_page v j a Hal Hjm). unfold PAGE_SIZE in Hip at 3.
    destruct (decide (a / PAGE_SIZE = _)) as [Hin|Hout]; [rewrite decide_True by (unfold PAGE_SIZE in *; lia); done|].
    rewrite Hv2. destruct (decide (v <= a < v + j)); [rewrite decide_True by (unfold PAGE_SIZE in *; lia); done|].
    rewrite decide_False by (unfold PAGE_SIZE in *; lia). done.
  - exists free. split; [done|]. rewrite Z.sub_0_r. split; [unfold size in *; rewrite Z.div_mul by done; lia|].
    intros a Ha. by rewrite decide_False by lia.
  - rewrite E. cbn [obind]. exists m', free'. split; [done|]. split; [done|]. split; [|done].
    rewrite Z.sub_diag, Zdiv_0_l in Hl'. lia.
Qed.

Lemma protect_user_range m free : user_ok m free -> (forall a, v <= a < v + size -> is_Some (uview m a)) ->
  exists m', memory_set_range_flags m v size f = Ret m' /\ user_ok m' free /\
    forall a, user_vma a -> uview m' a = if decide (v <= a < v + size)
                                         then option_map (fun bf => (bf.1, map_flags f)) (uview m a) else uview m a.
Proof.
  intros Hok Hm. destruct size_bounds as (Hs & Hsm & Hn). unfold memory_set_range_flags. rewrite Hsm, Hn. cbn [Z.eqb negb].
  destruct (page_loop_ind (fun i m' => user_ok m' free /\ forall a, user_vma a ->
    uview m' a = if decide (v <= a < v + i) then option_map (fun bf => (bf.1, map_flags f)) (uview m a) else uview m a)
    n size (fun i m => memory_set_page_flags m (u64 (v + i)) f) 0 m) as (m' & E & Hok' & Hv'); [|lia|done|lia|lia| |by exists m'].
  - intros j m1 Hj Hjs Hjm [Hok1 Hv1]. assert (Hlo' := Hlo). assert (Hhi' := Hhi).
    assert (Hu : user_vma (v + j)) by (unfold user_vma, PAGE_SIZE in *; lia). rewrite u64_small by (mem_consts; lia).
    destruct (protect_user_page m1 free (v + j) f) as (m2 & -> & Hok2 & Hv2); [done|done|done|done| |].
    { rewrite Hv1 by done. rewrite decide_False by lia. apply Hm. unfold PAGE_SIZE in *. lia. }
    exists m2. split; [done|]. split; [done|]. intros a Ha. rewrite Hv2, Hv1 by done.
    assert (Hip := in_page v j a Hal Hjm). unfold PAGE_SIZE in Hip at 3.
    destruct (decide (a / PAGE_SIZE = _)) as [Hin|Hout].
    + rewrite decide_False, decide_True by (unfold PAGE_SIZE in *; lia). done.
    + destruct (decide (v <= a < v + j)); [rewrite decide_True by (unfold PAGE_SIZE in *; lia); done|].
      rewrite decide_False by (unfold PAGE_SIZE in *; lia). done.
  - split; [done|]. intros a Ha. by rewrite decide_False by lia.
Qed.
End Ranges.

(** * The implementation *)

#[export] Instance mm_user : UserMem mm := {
  um_map := memory_alloc_and_map_range;
  um_protect := memory_set_range_flags;
  um_store := store_user;
}.

#[export, program] Instance mm_user_spec : UserMemSpec mm := {
  um_ok m k := exists free, user_ok m free /\ (k <= length free)%nat;
  um_view := uview;
}.
Next Obligation.
  intros m k v n f (free & Hok & Hl) Hlo Hhi Hal Hf Hp Hun.
  destruct (map_user_range v f n Hlo Hhi Hal Hf Hp m free k Hok Hl Hun) as (m' & free' & E & Hok' & Hl' & Hv). exists m'. eauto.
Qed.
Next Obligation.
  intros m k v n f (free & Hok & Hl) Hlo Hhi Hal Hf Hp Hm.
  destruct (protect_user_range v f n Hlo Hhi Hal Hf Hp m free Hok Hm) as (m' & E & Hok' & Hv). exists m'. eauto.
Qed.
Next Obligation.
  intros m k v bs (free & Hok & Hl) Hb Hlo Hhi Hm.
  destruct (store_user_spec bs m free v Hok Hb Hlo Hhi Hm) as (m' & E & Hok' & Hv). exists m'. eauto.
Qed.
