(* ===== verification/BootMem.v ===== *)
(** The heap of the kernel over its memory (ezheap.c on memory.c): the pages
    and the bytes of the blocks come from the memory [memory_init] sets up, and
    taking blocks and clearing them leaves the page tables and the free pages
    as they were. *)

From Stdlib Require Import List.
From S2P Require Import Prelude Heap Memory PageTable MemInit UserMem.
From stdpp Require Import gmap list.
#[local] Open Scope Z_scope.

(** The [n] bytes from [p] on. *)
Fixpoint ld_bytes (n : nat) (m : mm) (p : Z) : outcome (list Z) :=
  match n with
  | O => Ret []
  | S n => let! b := ld8 m p in let! bs := ld_bytes n m (p + 1) in Ret (b :: bs)
  end.

(** [kmalloc] with what the block holds. *)
Definition kmalloc_bytes (a : heap * mm) (size : Z) : outcome ((heap * mm) * Z * list Z) :=
  let! (h, m, p) := kmalloc a.1 a.2 size in
  let! bs := ld_bytes (Z.to_nat size) m p in
  Ret ((h, m), p, bs).

Definition kcalloc_block (a : heap * mm) (n size : Z) : outcome ((heap * mm) * Z) :=
  let! (h, m, p) := kcalloc a.1 a.2 n size in Ret ((h, m), p).

(** * The invariant *)

(** The memory of the kernel before there are processes: the main tables are
    active; free pages, heap and tables are apart. *)
Record boot_mem (img : kimg) (a : heap * mm) (free : list Z) : Prop := {
  bm_tables : main_tables img a.2;
  bm_satp : satp a.2 = sv39_mtag (main_pt2 img);
  bm_free : free_pages a.2 free;
  bm_clean : clean a.2 free;
  bm_above x : x ∈ free -> kimg_end img <= x;
  bm_supply : supply_ok (regions a.1 free);
  bm_heap : kimg_end img <= heap_start a.1 /\ heap_end a.1 <= RAM_END_PMA;
}.

(** [m'] has other contents only in the block of [n] bytes at [x]. *)
Record block_only (m m' : mm) (x n : Z) : Prop := {
  bk_word b : b mod 8 = 0 -> b < x \/ x + n <= b -> word m' b = word m b;
  bk_free : free_list m' = free_list m;
  bk_satp : satp m' = satp m;
  bk_sstatus : mm_sstatus m' = mm_sstatus m;
}.

Lemma ld_bytes_spec n m p : RAM_START_PMA <= p -> p + Z.of_nat n <= RAM_END_PMA ->
  exists bs, ld_bytes n m p = Ret bs /\ length bs = n.
Proof.
  revert p; induction n as [|n IH]; intros p Hp Hn; cbn [ld_bytes]; [by exists []|].
  destruct (IH (p + 1)) as (bs & E & Hl); [lia..|]. unfold ld8, in_ram.
  replace ((RAM_START_PMA <=? p) && (p <? RAM_END_PMA)) with true by (symmetry; apply andb_true_iff; split; lia).
  cbn [obind]. rewrite E. cbn [obind]. eexists. split; [done|]. cbn. by rewrite Hl.
Qed.

Lemma memset_block m x c n : x mod 8 = 0 -> 0 <= c < 256 -> 0 <= n -> RAM_START_PMA <= x -> x + n <= RAM_END_PMA ->
  exists m', memset_bytes m x c n = Ret m' /\ block_only m m' x n.
Proof.
  intros Hx Hc Hn Hlo Hhi. unfold memset_bytes.
  destruct (for_range_inv (fun i m' => 0 <= i /\ block_only m m' x n) (fun i m => st8 m (x + i) c) 0 n 1 m) as (m' & i & E & [_ Hb] & _);
    [lia| |split; [lia|by split]|by exists m'].
  intros i m1 Hi [H0 [Hw Hf Hs Hss]]. destruct (st8_spec m1 (x + i) c) as (m2 & -> & _ & Hw2 & Hf2 & Hs2 & Hss2); [|done|].
  { unfold in_ram. apply andb_true_iff. split; lia. }
  exists m2. split; [done|]. split; [lia|]. split; [|congruence..]. intros b Hb8 Hb. rewrite Hw2; [by apply Hw|].
  Z.to_euclidean_division_equations. lia.
Qed.

Lemma kmalloc_mm h m n h' m' x : kmalloc h m n = Ret (h', m', x) -> ram m' = ram m /\ satp m' = satp m /\ mm_sstatus m' = mm_sstatus m.
Proof.
  unfold kmalloc. cbn [alloc_page mm_source]. destruct (PAGE_SIZE <? round16 n); [done|].
  destruct (round16 n <=? _); [by intros [= _ <- _]|]. unfold memory_alloc_page. destruct (free_list m =? 0); [done|].
  unfold ld64. destruct (_ && _); [|done]. cbn [obind]. destruct (_ <? _); by intros [= _ <- _].
Qed.

Section Boot.
Context (img : kimg) (Himg : kimg_ok img).

Lemma table_below t : t ∈ [main_pt2 img; main_pt1 img; main_pt0 img] -> page_ok t /\ t + PAGE_SIZE <= kimg_end img.
Proof. apply (table_page img Himg). Qed.

(** Changes within a block that is apart from everything else. *)
Lemma boot_mem_block h m m' free x n : boot_mem img (h, m) free -> block_only m m' x n -> kimg_end img <= x ->
  Forall (fun y => x + n <= y \/ y + PAGE_SIZE <= x) free -> boot_mem img (h, m') free.
Proof.
  intros [[H2 H1 H0] Hs Hf Hc Ha Hsup Hh] [Hw Hfl Hst _] Hx Hap. cbn [fst snd] in *.
  assert (Hent : forall t i, t ∈ [main_pt2 img; main_pt1 img; main_pt0 img] -> index_ok i -> entry m' t i = entry m t i).
  { intros t i Ht Hi. destruct (table_below t Ht) as [(_ & _ & Hal) Hb]. unfold entry. rewrite Hw; [done|..];
      unfold index_ok, PAGE_SIZE in *; Z.to_euclidean_division_equations; lia. }
  rewrite Forall_forall in Hap.
  assert (Hfr : forall y i, y ∈ free -> index_ok i -> word m' (y + 8 * i) = word m (y + 8 * i)).
  { intros y i Hy Hi. destruct (free_pages_page_ok _ _ _ Hf Hy) as (_ & _ & Hal). specialize (Hap y Hy).
    apply Hw; unfold index_ok, PAGE_SIZE in *; [Z.to_euclidean_division_equations; lia|]. lia. }
  split; cbn [fst snd]; [| |split|..]; try done.
  - split; intros i Hi; rewrite Hent by (done || set_solver); auto.
  - congruence.
  - rewrite Hfl. eapply page_chain_frame; [|apply Hf]. intros y Hy. rewrite <- (Z.add_0_r y). change (y + 0) with (y + 8 * 0).
    apply Hfr; [done|unfold index_ok; lia].
  - apply Hf.
  - intros y i Hy Hi. unfold entry. rewrite Hfr by done. by apply Hc.
Qed.

(** A block of the heap: where it is and what it is apart from. *)
Record block_ok (x n : Z) (free : list Z) : Prop := {
  bl_align : x mod 16 = 0;
  bl_range : kimg_end img <= x /\ x + n <= RAM_END_PMA;
  bl_apart : Forall (fun y => x + n <= y \/ y + PAGE_SIZE <= x) free;
}.

Lemma regions_range h m free r : boot_mem img (h, m) free -> r ∈ regions h free -> kimg_end img <= r.1 /\ r.1 + r.2 <= RAM_END_PMA.
Proof.
  intros Hb. unfold regions. intros [->|(y & -> & Hy)%list_elem_of_fmap]%elem_of_cons; cbn [fst snd page_region].
  - assert (Hh := bm_heap _ _ _ Hb). cbn [fst] in Hh. lia.
  - destruct (free_pages_page_ok _ _ _ (bm_free _ _ _ Hb) Hy) as (_ & ? & _). assert (Ha := bm_above _ _ _ Hb y Hy). cbn. lia.
Qed.

Lemma kmalloc_boot a free n : boot_mem img a free -> 0 <= n <= PAGE_SIZE -> free <> [] ->
  exists h' m' x free', kmalloc a.1 a.2 n = Ret (h', m', x) /\ boot_mem img (h', m') free' /\
    (length free <= S (length free'))%nat /\ block_ok x n free' /\ ram m' = ram a.2 /\ mm_sstatus m' = mm_sstatus a.2.
Proof.
  destruct a as [h m]. cbn [fst snd]. intros Hb Hn Hne. assert (Hb' := Hb). destruct Hb' as [Htab Hs Hf Hc Ha Hsup Hh]. cbn [fst snd] in *.
  destruct (@kmalloc_step mm mm_source mm_supply h m free n Hsup Hf Hn Hne) as (h' & m' & x & free' & E & Hf' & Hl & Hx & [Hsup' Hin Hap Hleft]).
  destruct (kmalloc_mm _ _ _ _ _ _ E) as (Hram & Hsat & Hss). exists h', m', x, free'. split; [done|].
  assert (Hsub : forall y, y ∈ free' -> y ∈ free).
  { intros y Hy. destruct Hl as [->|(z & ->)]; [done|by right]. }
  assert (Hwd : forall b, word m' b = word m b) by (intros b; unfold word; by rewrite Hram).
  assert (Hrange : forall r, Exists (inside r) (regions h free) -> kimg_end img <= r.1 /\ r.1 + r.2 <= RAM_END_PMA).
  { intros r (r0 & Hr0 & Hi)%Exists_exists. destruct (regions_range h m free r0 Hb) as [? ?]; [done|].
    unfold inside in Hi. lia. }
  destruct (round16_spec n Hn) as [Hr16 _]. split; [|split_and!; try done].
  - split; cbn [fst snd]; try done.
    + destruct Htab as [H2 H1 H0]. split; intros i Hi; unfold entry; rewrite Hwd; [by apply H2|by apply H1|by apply H0].
    + congruence.
    + intros y i Hy Hi. unfold entry. rewrite Hwd. by apply Hc; [apply Hsub|].
    + intros y Hy. by apply Ha, Hsub.
    + inversion Hleft as [|? ? Hl1 _]; subst. destruct (Hrange _ Hl1) as [? ?]. cbn [fst snd] in *. lia.
  - destruct Hl as [->|(z & ->)]; cbn; lia.
  - destruct (Hrange _ Hin) as [? ?]. cbn [fst snd] in *. split; [done|lia|].
    apply Forall_forall. intros y Hy. apply Forall_cons in Hap as [_ Hap]. rewrite Forall_forall in Hap.
    specialize (Hap (page_region y)). unfold disj, page_region in Hap. cbn [fst snd] in Hap.
    assert (Hd := Hap ltac:(apply list_elem_of_fmap; eauto)). lia.
Qed.

Lemma kmalloc_bytes_boot a free n : boot_mem img a free -> 0 <= n <= PAGE_SIZE -> free <> [] ->
  exists a' x bs free', kmalloc_bytes a n = Ret (a', x, bs) /\ boot_mem img a' free' /\ (length free <= S (length free'))%nat /\
    block_ok x n free' /\ Z.of_nat (length bs) = n /\ mm_sstatus a'.2 = mm_sstatus a.2.
Proof.
  intros Hb Hn Hne. destruct (kmalloc_boot a free n Hb Hn Hne) as (h' & m' & x & free' & E & Hb' & Hl & Hx & _ & Hss).
  unfold kmalloc_bytes. rewrite E. cbn [obind]. assert (Hk := proj1 (table_below (main_pt2 img) ltac:(set_solver))).
  destruct Hx as [Hal [Hlo Hhi] Hap]. destruct (table_below (main_pt2 img)) as [(? & _) ?]; [set_solver|].
  destruct (ld_bytes_spec (Z.to_nat n) m' x) as (bs & E2 & Hbs); [unfold PAGE_SIZE in *; lia|lia|].
  rewrite E2. cbn [obind]. exists (h', m'), x, bs, free'. split_and!; [done..| |done]. lia.
Qed.

Lemma kcalloc_block_boot a free n : boot_mem img a free -> 0 < n <= PAGE_SIZE -> free <> [] ->
  exists a' x free', kcalloc_block a 1 n = Ret (a', x) /\ boot_mem img a' free' /\ (length free <= S (length free'))%nat /\
    block_ok x n free' /\ mm_sstatus a'.2 = mm_sstatus a.2.
Proof.
  intros Hb Hn Hne. destruct (kmalloc_boot a free n Hb) as (h' & m' & x & free' & E & Hb' & Hl & Hx & _ & Hss); [lia|done|].
  destruct (table_below (main_pt2 img)) as [(? & _) ?]; [set_solver|]. assert (Hx' := Hx). destruct Hx' as [Hal [Hlo Hhi] Hap].
  destruct (memset_block m' x 0 n) as (m2 & E2 & Hbk); [Z.to_euclidean_division_equations; lia|lia|lia|unfold PAGE_SIZE in *; lia|done|].
  unfold kcalloc_block, kcalloc. replace (n =? 0) with false by (symmetry; lia). cbn [negb].
  assert (Hdiv : SIZE_MAX / n <? 1 = false).
  { apply Z.ltb_ge, Z.div_le_lower_bound; [lia|]. unfold SIZE_MAX, PAGE_SIZE in *. lia. }
  rewrite Hdiv, Z.mul_1_l, E. cbn [obind fill_bytes mm_source]. rewrite E2. cbn [obind].
  exists (h', m2), x, free'. split; [done|]. split; [by apply (boot_mem_block h' m' m2 free' x n)|]. split_and!; [done..|].
  cbn [snd]. by rewrite (bk_sstatus _ _ _ _ Hbk).
Qed.
End Boot.
