(* ===== verification/VmClone.v ===== *)
(** Copying a memory space ([memory_space_clone] of memory.c): the child gets
    pages of its own with the contents and permissions of the parent's, and
    the parent is not touched.

    Every write of the copy goes to a page that was free when it began;
    [framed] says so, and the parent's space follows from it. *)

From Stdlib Require Import List.
From S2P Require Import Prelude Heap Memory PageTable MemInit VmOps UserMem.
From stdpp Require Import gmap list.
#[local] Open Scope Z_scope.

(** * What stays when only the pages [T] are written *)

Record framed (m0 m : mm) (T : list Z) : Prop := {
  fr_word a i : page_ok a -> index_ok i -> a ∉ T -> word m (a + 8 * i) = word m0 (a + 8 * i);
  fr_satp : satp m = satp m0;
  fr_sstatus : mm_sstatus m = mm_sstatus m0;
  fr_main : main_mtag m = main_mtag m0;
}.

Lemma framed_refl m T : framed m m T.
Proof. by split. Qed.
Lemma framed_trans m1 m2 m3 T : framed m1 m2 T -> framed m2 m3 T -> framed m1 m3 T.
Proof. intros [W1 S1 U1 M1] [W2 S2 U2 M2]. split; [|congruence..]. intros a i Ha Hi HT. by rewrite W2, W1. Qed.

Section Framed.
Context (m0 m : mm) (T : list Z) (Hfr : framed m0 m T) (root : Z) (Hs : space_ok m0 root T).

Lemma entry_framed p a i : path_ok p -> tab_at m0 root p = Some a -> index_ok i -> entry m a i = entry m0 a i.
Proof. intros Hp Ha Hi. destruct (so_tab _ _ _ Hs _ _ Hp Ha). unfold entry. by rewrite (fr_word _ _ _ Hfr). Qed.

Lemma tab_at_framed p : path_ok p -> tab_at m root p = tab_at m0 root p.
Proof.
  induction p as [|i p IH] using rev_ind; intros Hp; [done|]. assert (Hp' := path_ok_app _ _ Hp). rewrite !tab_at_snoc, IH by done.
  destruct (tab_at m0 root p) as [a|] eqn:Ha; [|done]. rewrite (entry_framed p); [done..|].
  destruct Hp as [HF _]. apply Forall_app in HF as [_ HF]. by inversion HF.
Qed.

Lemma space_framed fr : (forall x, x ∈ fr -> x ∈ T) -> space_ok m root fr.
Proof.
  intros Hsub. split.
  - intros p a Hp. rewrite tab_at_framed by done. intros Ha. destruct (so_tab _ _ _ Hs _ _ Hp Ha). eauto.
  - intros p q a Hp Hq. rewrite !tab_at_framed by done. by apply (so_inj _ _ _ Hs).
  - intros p a i Hp. rewrite tab_at_framed by done. intros Ha Hi. rewrite (entry_framed p) by done. by apply (so_ent _ _ _ Hs).
Qed.

Lemma walk_framed v : walk_from m root v = walk_from m0 root v.
Proof.
  unfold walk_from. rewrite !tab_at_framed by auto with kern.
  destruct (tab_at m0 root [vpn 2 v]) as [a1|] eqn:E1; [destruct (tab_at m0 root [vpn 2 v; vpn 1 v]) as [a0|] eqn:E0|].
  - by rewrite (entry_framed [vpn 2 v; vpn 1 v]) by auto with kern.
  - by rewrite (entry_framed [vpn 2 v]) by auto with kern.
  - by rewrite (entry_framed []) by auto with kern.
Qed.
End Framed.

(** The slot of a user address: no table, an unused entry, or a leaf. *)
Lemma user_slot m root free v : vm_ok m root free -> user_vma v ->
  (tab_at m root [vpn 2 v; vpn 1 v] = None /\ walk_from m root v = None) \/
  exists a, tab_at m root [vpn 2 v; vpn 1 v] = Some a /\ page_ok a /\ a ∉ free /\
    let e := entry m a (vpn 0 v) in
    (has (pte_flags e) PTE_V = false /\ walk_from m root v = None \/
     has (pte_flags e) PTE_V = true /\ perm_ok (pte_flags e) = true /\
     walk_from m root v = Some (pte_ppn e * PAGE_SIZE + v mod PAGE_SIZE, pte_flags e)).
Proof.
  intros Hok Hv. destruct (tab_at m root [vpn 2 v; vpn 1 v]) as [a|] eqn:Ha.
  - right. exists a. destruct (so_tab _ _ _ (vo_space _ _ _ Hok) _ _ (vpath_ok v) Ha) as [Hpa Haf]. split_and!; [done..|]. cbv zeta.
    unfold walk_from. rewrite Ha. assert (Ha' := Ha). change [vpn 2 v; vpn 1 v] with ([vpn 2 v] ++ [vpn 1 v]) in Ha'. rewrite tab_at_snoc in Ha'.
    destruct (tab_at m root [vpn 2 v]); [|done].
    destruct (so_ent _ _ _ (vo_space _ _ _ Hok) _ _ _ (vpath_ok v) Ha (vpn_ok 0 v)) as [Hz|(HV & Hp & _)].
    + left. split; [by rewrite Hz|]. by apply leaf_at_none.
    + right. split_and!; [done|by apply Hp|]. by apply leaf_at_perm; [|apply Hp].
  - left. split; [done|]. destruct (walk_from m root v) as [r|] eqn:E; [|done].
    destruct (mapped_slot m root free v r Hok (user_vpn2 v Hv) E) as (a & Ha' & _). congruence.
Qed.

(** * Copying a page *)

(** [m'] differs from [m] only in the page [d]. *)
Definition page_only (m m' : mm) (d : Z) : Prop :=
  (forall a i, page_ok a -> index_ok i -> a <> d -> word m' (a + 8 * i) = word m (a + 8 * i)) /\
  free_list m' = free_list m /\ satp m' = satp m /\ mm_sstatus m' = mm_sstatus m /\ main_mtag m' = main_mtag m.

Lemma page_only_trans m1 m2 m3 d : page_only m1 m2 d -> page_only m2 m3 d -> page_only m1 m3 d.
Proof.
  intros (W1 & F1 & S1 & U1 & M1) (W2 & F2 & S2 & U2 & M2). split_and!; [|congruence..]. intros a i Ha Hi Hne. by rewrite W2, W1.
Qed.

Lemma put_page_only m d i e : page_ok d -> index_ok i -> page_only m (put m d i e) d.
Proof.
  intros Hd Hi. split; [|done]. intros a j Ha Hj Hne. unfold put. rewrite word_insert, decide_False; [done|].
  intros E. apply pte_slot_inj in E as [-> _]; done.
Qed.

Lemma copy_page_spec m d s : page_ok d -> page_ok s -> d <> s ->
  exists m', copy_page m d s = Ret m' /\ page_only m m' d /\
    forall i, index_ok i -> word m' (d + 8 * i) = word m (s + 8 * i).
Proof.
  intros Hd Hs Hne. set (I := fun (x : Z) (m' : mm) => 0 <= x <= 512 /\ page_only m m' d /\ forall i, 0 <= i < x -> word m' (d + 8 * i) = word m (s + 8 * i)).
  destruct (for_range_inv I (fun i m => let! w := ld64 m (s + 8 * i) in st64 m (d + 8 * i) w) 0 PTE_CNT 1 m) as (m' & x & E & (Hx & Hp & Hw) & Hge).
  - lia.
  - intros x m' Hx (Hx0 & (W & F) & Hw). assert (Hix : index_ok x) by (unfold index_ok; change PTE_CNT with 512 in Hx; lia).
    unfold ld64, st64. rewrite slot_in_ram by done. cbn [obind]. rewrite slot_in_ram by done. eexists. split; [done|].
    change PTE_CNT with 512 in Hx. split; [lia|]. split.
    + split; [|exact F]. intros a j Ha Hj Hna. rewrite word_insert, decide_False; [by apply W|]. intros E. apply pte_slot_inj in E as [-> _]; done.
    + intros i Hi. rewrite word_insert. destruct (decide (d + 8 * x = d + 8 * i)) as [E|E].
      * replace i with x by lia. by apply W.
      * apply Hw. lia.
  - split; [lia|]. split; [by split|lia].
  - exists m'. split; [exact E|]. split; [done|]. intros i Hi. apply Hw. change PTE_CNT with 512 in Hge. unfold index_ok in Hi. lia.
Qed.

(** Writes to a page that is not a table of the space keep the space. *)
Lemma page_only_vm m m' root free d : vm_ok m root free -> data_page m root free d -> page_only m m' d ->
  tables_kept m m' root free /\ vm_ok m' root free /\ forall v, walk_from m' root v = walk_from m root v.
Proof.
  intros Hok Hd (Hw & Hf & _). assert (Hk : tables_kept m m' root free).
  { intros a i Ha Hi Hn. apply Hw; [done|done|]. by intros ->. }
  split; [done|]. split; [by eapply vm_ok_kept|]. intros v. by eapply walk_from_kept.
Qed.

(** * The two halves of copying a page into another space *)

Lemma alloc_copy m root pp fr src : vm_ok m root (pp :: fr) -> page_ok src -> src <> pp ->
  exists m1 m2, memory_alloc_page m = Ret (m1, pp) /\ copy_page m1 pp src = Ret m2 /\ vm_ok m2 root fr /\ data_page m2 root fr pp /\
    (forall p, path_ok p -> tab_at m2 root p = tab_at m root p) /\ (forall v, walk_from m2 root v = walk_from m root v) /\
    (forall i, index_ok i -> word m2 (pp + 8 * i) = word m (src + 8 * i)) /\
    (forall a i, page_ok a -> index_ok i -> a <> pp -> word m2 (a + 8 * i) = word m (a + 8 * i)) /\
    satp m2 = satp m /\ mm_sstatus m2 = mm_sstatus m /\ main_mtag m2 = main_mtag m.
Proof.
  intros Hok Hsrc Hne. destruct (alloc_vm_ok m root pp fr Hok) as (m1 & Hal & Hok1 & Hpp & Hppf & ->).
  assert (Hnt : forall p, path_ok p -> tab_at m root p <> Some pp).
  { intros p Hp E. destruct (so_tab _ _ _ (vo_space _ _ _ Hok) _ _ Hp E) as [_ Hn]. apply Hn. by constructor. }
  assert (Hdp : data_page (with_free m (word m pp)) root fr pp) by (split_and!; [done|done|intros p Hp; rewrite tab_at_free; by apply Hnt]).
  destruct (copy_page_spec (with_free m (word m pp)) pp src Hpp Hsrc ltac:(congruence)) as (m2 & Hcp & Hpo & Hw).
  destruct (page_only_vm _ _ _ _ _ Hok1 Hdp Hpo) as (Hk & Hok2 & Hwalk). destruct Hpo as (Hwd & _ & Hsa & Hss & Hma).
  assert (Htab : forall p, path_ok p -> tab_at m2 root p = tab_at m root p) by (intros p Hp; rewrite (tab_at_kept _ _ _ _ Hok1 Hk p Hp); apply tab_at_free).
  eexists _, m2. split; [exact Hal|]. split; [exact Hcp|]. split; [done|]. split.
  { split_and!; [done|done|]. intros p Hp. rewrite Htab by done. by apply Hnt. }
  split; [done|]. split; [|done]. intros v. rewrite Hwalk. apply walk_from_free.
Qed.

(** The entry the two assignments leave. *)
Definition clone_entry (pp f : Z) (e : pte) : pte := set_ppn (pageptr_to_pagenum pp) (set_flags f e).

Lemma walk_leaf m root fr x pp f : vm_ok m root fr -> user_vma x -> (2 <= length fr)%nat -> page_ok pp ->
  0 <= f < 256 -> has f PTE_V = true -> perm_ok f = true ->
  exists m3 pt0 pre fr', walk_pt m root x true = Ret (m3, pt0) /\ page_ok pt0 /\ fr = pre ++ fr' /\ (length pre <= 2)%nat /\
    let m4 := put m3 pt0 (vpn 0 x) (clone_entry pp f (entry m3 pt0 (vpn 0 x))) in
    vm_ok m4 root fr' /\ data_kept m m3 root fr /\ data_kept m m4 root fr /\
    (forall v, walk_from m4 root v = if decide (same_page x v) then Some (pp + v mod PAGE_SIZE, f) else walk_from m root v) /\
    (forall p a, path_ok p -> tab_at m4 root p = Some a -> tab_at m root p = Some a \/ a ∈ fr) /\
    satp m4 = satp m /\ mm_sstatus m4 = mm_sstatus m /\ main_mtag m4 = main_mtag m.
Proof.
  intros Hok Hx Hl Hpp Hf HV Hp. destruct (walk_pt_create m root fr x) as (m3 & pt0 & pre & fr' & Hw & Hwk & Hfr & Hpre & Ht); auto using user_vpn2.
  assert (Hok3 := wk_ok _ _ _ _ _ Hwk). destruct (so_tab _ _ _ (vo_space _ _ _ Hok3) _ _ (vpath_ok x) Ht) as [Hpt _].
  exists m3, pt0, pre, fr'. split; [done|]. split; [done|]. split; [done|]. split; [done|]. cbv zeta.
  set (e := clone_entry pp f (entry m3 pt0 (vpn 0 x))). assert (Hpe : pte_ok e) by (unfold e, clone_entry, entry; auto with kern).
  assert (Hfl : pte_flags e = f) by (apply (Z.mod_small f (2 ^ 8)); lia). assert (Hpn : pte_ppn e * PAGE_SIZE = pp) by by apply pageptr_pagenum.
  split; [apply (vm_ok_leaf m3 root fr' x pt0 e); by rewrite ?Hfl|]. split; [apply Hwk|]. split; [|split; [|split; [|split_and!]]].
  - intros b i Hb Hi Hbf Hbt. rewrite <- (wk_data _ _ _ _ _ Hwk b i) by done. unfold put. rewrite word_insert, decide_False; [done|].
    intros E. apply pte_slot_inj in E as [-> _]; auto with kern. destruct (wk_new _ _ _ _ _ Hwk _ _ (vpath_ok x) Ht) as [E|?]; [|done].
    apply (Hbt _ (vpath_ok x)) in E; [done|]. right. by rewrite user_vpn2.
  - intros v. rewrite (walk_from_leaf m3 root fr' x pt0 e) by (rewrite ?Hfl; done). rewrite (wk_trans _ _ _ _ _ Hwk).
    destruct (decide _); [|done]. by rewrite leaf_at_perm, Hfl, Hpn by by rewrite Hfl.
  - intros p a Hpp'. rewrite (tab_at_leaf m3 root fr' x pt0 e) by (rewrite ?Hfl; done). by apply (wk_new _ _ _ _ _ Hwk).
  - apply (wk_satp _ _ _ _ _ Hwk).
  - change (mm_sstatus m3 = mm_sstatus m). by eapply walk_pt_sstatus.
  - apply (wk_main _ _ _ _ _ Hwk).
Qed.

(** * The loop *)

Section Clone.
Context (m0 : mm) (P : Z) (T : list Z) (N : Z).
Context (HP : vm_ok m0 P T) (HPa : active_space_root m0 = P).
Context (Hdata : forall v p f, user_vma v -> walk_from m0 P v = Some (p, f) -> page_ok (page_of p) /\ page_of p ∉ T).

(** [D] gives the copy of each user page (by its number) below [x]. *)
Record cloned (m : mm) (fr : list Z) (D : gmap Z Z) (x : Z) : Prop := {
  cl_frame : framed m0 m T;
  cl_sub y : y ∈ fr -> y ∈ T;
  cl_vm : vm_ok m N fr;
  cl_own p a : path_ok p -> own_path p -> tab_at m N p = Some a -> a ∈ T;
  cl_walk v : user_vma v -> walk_from m N v =
    match D !! (v / PAGE_SIZE) with
    | Some d => option_map (fun pf => (d + v mod PAGE_SIZE, pf.2)) (walk_from m0 P v)
    | None => None
    end;
  cl_dom v : user_vma v -> is_Some (D !! (v / PAGE_SIZE)) <->
    v / PAGE_SIZE < x / PAGE_SIZE /\ exists p f, walk_from m0 P v = Some (p, f) /\ has f PTE_U = true;
  cl_copy q d : D !! q = Some d -> d ∈ T /\ d ∉ fr /\ (forall p, path_ok p -> tab_at m N p <> Some d);
  cl_word v d p f i : user_vma v -> D !! (v / PAGE_SIZE) = Some d -> walk_from m0 P v = Some (p, f) -> index_ok i ->
    word m (d + 8 * i) = word m0 (page_of p + 8 * i);
  cl_inj q q' d : D !! q = Some d -> D !! q' = Some d -> q = q';
}.

(** The kernel part of the child does not change. *)
Definition kernel_same (m m' : mm) : Prop := forall v, vpn 2 v <> 3 -> walk_from m' N v = walk_from m N v.

Lemma parent_vm m fr D x : cloned m fr D x -> vm_ok m P fr.
Proof.
  intros [Hf Hsub [_ Hfp Hcl] _ _ _ _ _ _]. split; [|done|done]. eapply space_framed; [exact Hf|apply HP|done].
Qed.

Lemma T_page y : y ∈ T -> page_ok y.
Proof. intros Hy. eapply free_pages_page_ok; [apply HP|done]. Qed.

Lemma user_div v x : user_vma v -> user_vma x -> x mod PAGE_SIZE = 0 -> (same_page x v <-> v / PAGE_SIZE = x / PAGE_SIZE).
Proof.
  intros Hv Hx Hal. rewrite same_page_iff; [|done|unfold user_vma in Hv; mem_consts; lia|by apply user_wellformed]. split; congruence.
Qed.

(** Addresses of one page have one leaf. *)
Lemma same_leaf v x e a : user_vma v -> user_vma x -> same_page x v -> tab_at m0 P [vpn 2 x; vpn 1 x] = Some a ->
  e = entry m0 a (vpn 0 x) -> has (pte_flags e) PTE_V = true -> perm_ok (pte_flags e) = true ->
  walk_from m0 P v = Some (pte_ppn e * PAGE_SIZE + v mod PAGE_SIZE, pte_flags e).
Proof.
  intros Hv Hx (E2 & E1 & E0) Ha -> HV HP'. destruct (user_slot m0 P T v HP Hv) as [[Hn _]|(a' & Ha' & _ & _ & Hs)]; [congruence|].
  rewrite E2, E1 in Ha. rewrite Ha in Ha'. injection Ha' as <-. rewrite E0 in *. cbv zeta in Hs. destruct Hs as [[HV' _]|(_ & _ & ->)]; [congruence|done].
Qed.

(** A page that is not copied. *)
Lemma clone_skip m fr D x : cloned m fr D x -> user_vma x -> x mod PAGE_SIZE = 0 ->
  (forall v p f, user_vma v -> same_page x v -> walk_from m0 P v = Some (p, f) -> has f PTE_U = false) ->
  cloned m fr D (x + PAGE_SIZE).
Proof.
  intros [Hf Hs Hv Ho Hw Hd Hc Hwd Hi] Hx Hal Hno. split; [done..| |done|done|done]. intros v Hu. rewrite Hd by done.
  replace ((x + PAGE_SIZE) / PAGE_SIZE) with (x / PAGE_SIZE + 1) by (unfold PAGE_SIZE; Z.to_euclidean_division_equations; lia).
  split; [intros [? ?]; split; [lia|done]|]. intros [Hlt (p & f & E & HU)]. split; [|eauto].
  destruct (decide (v / PAGE_SIZE = x / PAGE_SIZE)) as [Eq|]; [|lia]. rewrite (Hno v p f) in HU; [done|done|by apply user_div|done].
Qed.

(** [clone_page] reads the slot of the parent. *)
Lemma clone_page_eq m fr D x new_mtag : cloned m fr D x -> user_vma x ->
  clone_page new_mtag x m =
  match tab_at m0 P [vpn 2 x; vpn 1 x] with
  | None => Ret m
  | Some a =>
      let e := entry m0 a (vpn 0 x) in
      if negb (has (pte_flags e) PTE_V) then Ret m
      else if has (pte_flags e) PTE_U then
        let! (m, pp) := memory_alloc_page m in
        let! m := copy_page m pp (pte_ppn e * PAGE_SIZE) in
        let! (m, new_entry) := walk_pt m (mtag_to_root new_mtag) x true in
        let! e := ld_pte m a (vpn 0 x) in
        let! m := upd_pte m new_entry (vpn 0 x) (set_flags (pte_flags e)) in
        upd_pte m new_entry (vpn 0 x) (set_ppn (pageptr_to_pagenum pp))
      else Ret m
  end.
Proof.
  intros Hcl Hx. assert (HPm := parent_vm _ _ _ _ Hcl). assert (Hf := cl_frame _ _ _ _ Hcl).
  unfold clone_page. replace (active_space_root m) with P by (rewrite <- HPa; unfold active_space_root, active_space_mtag; by rewrite (fr_satp _ _ _ Hf)).
  rewrite (walk_pt_find m P fr) by auto using user_vpn2. rewrite (tab_at_framed m0 m T Hf P (vo_space _ _ _ HP)) by auto with kern.
  destruct (tab_at m0 P [vpn 2 x; vpn 1 x]) as [a|] eqn:Ha; [|done]. destruct (so_tab _ _ _ (vo_space _ _ _ HP) _ _ (vpath_ok x) Ha) as [Hpa _].
  change (default 0 (Some a)) with a. cbn [obind]. replace (a =? 0) with false by (apply page_ok_nonzero in Hpa; lia).
  rewrite VPN0_vpn, ld_pte_ok by auto with kern. cbn [obind]. rewrite (entry_framed m0 m T Hf P (vo_space _ _ _ HP) [vpn 2 x; vpn 1 x]) by auto with kern.
  by rewrite pagenum_pageptr by apply pte_decode_ok.
Qed.

(** [m'] has the page of [x] mapped to [pp], a copy of the page at [src],
    with the flags [f]; pages in use keep their contents. *)
Record copied (m m' : mm) (fr fr' : list Z) (x pp f src : Z) : Prop := {
  cp_fresh : pp ∈ fr /\ pp ∉ fr' /\ forall y, y ∈ fr' -> y ∈ fr;
  cp_vm : vm_ok m' N fr';
  cp_walk v : walk_from m' N v = if decide (same_page x v) then Some (pp + v mod PAGE_SIZE, f) else walk_from m N v;
  cp_tab p b : path_ok p -> tab_at m' N p = Some b -> b <> pp /\ (tab_at m N p = Some b \/ b ∈ fr);
  cp_new i : index_ok i -> word m' (pp + 8 * i) = word m (src + 8 * i);
  cp_old b i : page_ok b -> index_ok i -> b ∉ fr -> (forall p, path_ok p -> own_path p -> tab_at m N p <> Some b) ->
    word m' (b + 8 * i) = word m (b + 8 * i);
  cp_regs : satp m' = satp m /\ mm_sstatus m' = mm_sstatus m /\ main_mtag m' = main_mtag m;
}.

(** The parent's page behind a leaf. *)
Lemma leaf_page x e : user_vma x -> walk_from m0 P x = Some (pte_ppn e * PAGE_SIZE + x mod PAGE_SIZE, pte_flags e) ->
  page_ok (pte_ppn e * PAGE_SIZE) /\ pte_ppn e * PAGE_SIZE ∉ T.
Proof.
  intros Hx Hw. destruct (Hdata x _ _ Hx Hw) as [H1 H2]. replace (page_of _) with (pte_ppn e * PAGE_SIZE) in *; [done|].
  unfold page_of, PAGE_SIZE. Z.to_euclidean_division_equations. lia.
Qed.

Lemma clone_eval m fr D x a new_mtag : cloned m fr D x -> user_vma x -> mtag_to_root new_mtag = N ->
  tab_at m0 P [vpn 2 x; vpn 1 x] = Some a -> (3 <= length fr)%nat -> let e := entry m0 a (vpn 0 x) in
  has (pte_flags e) PTE_V = true -> perm_ok (pte_flags e) = true -> has (pte_flags e) PTE_U = true ->
  walk_from m0 P x = Some (pte_ppn e * PAGE_SIZE + x mod PAGE_SIZE, pte_flags e) ->
  exists m' fr' pp, clone_page new_mtag x m = Ret m' /\ copied m m' fr fr' x pp (pte_flags e) (pte_ppn e * PAGE_SIZE) /\
    (length fr <= length fr' + 3)%nat.
Proof.
  intros Hcl Hx HN Ha Hlen e HV Hpm HU Hwx. assert (Hcl' := Hcl). destruct Hcl as [Hf Hs Hv Ho _ _ _ _ _].
  destruct (leaf_page x e Hx Hwx) as [Hpma HpmaT]. set (pma := pte_ppn e * PAGE_SIZE) in *.
  destruct (so_tab _ _ _ (vo_space _ _ _ HP) _ _ (vpath_ok x) Ha) as [Hpa HaT].
  destruct fr as [|pp fr1]; [cbn in Hlen; lia|]. assert (HppT : pp ∈ T) by (apply Hs; by constructor).
  destruct (alloc_copy m N pp fr1 pma Hv Hpma) as (m1 & m2 & Hal1 & Hcp & Hok2 & (Hpp & Hppn & Hppt) & Htab2 & Hwalk2 & Hpw & How & Hregs2); [by intros ->|].
  assert (Hfl : 0 <= pte_flags e < 256) by apply pte_decode_ok.
  destruct (walk_leaf m2 N fr1 x pp (pte_flags e)) as (m3 & pt0 & pre & fr' & Hwp & Hpt0 & Hfr & Hpre & Hok4 & Hk3 & Hk4 & Hwalk4 & Htab4 & Hregs4);
    [done|done|cbn in Hlen; lia|done|done|done|done|].
  assert (Hsub : forall y, y ∈ fr' -> y ∈ fr1) by (intros y Hy; rewrite Hfr, elem_of_app; by right).
  eexists _, fr', pp. split; [|split; [constructor|cbn [length]; rewrite Hfr, length_app; lia]].
  - rewrite (clone_page_eq m (pp :: fr1) D x new_mtag Hcl' Hx), Ha. cbv zeta. fold e. rewrite HV, HU. cbn [negb]. rewrite Hal1. cbn [obind]. fold pma. rewrite Hcp.
    cbn [obind]. rewrite HN, Hwp. cbn [obind]. rewrite ld_pte_ok by auto with kern. cbn [obind].
    assert (entry m3 a (vpn 0 x) = e) as ->.
    { unfold e, entry. f_equal. rewrite Hk3, How; [by apply (fr_word _ _ _ Hf); auto with kern|done|auto with kern|by intros ->|done|auto with kern| |].
      - intros Hy. apply HaT, Hs. by constructor.
      - intros p Hp Hu E. rewrite Htab2 in E by done. by apply HaT, (Ho p). }
    rewrite upd_pte_ok by auto with kern. cbn [obind]. rewrite upd_pte_ok by auto with kern. cbn [obind].
    rewrite entry_put_eq, put_put by (unfold entry; auto with kern). reflexivity.
  - split; [by constructor|]. split; [by intros ?%Hsub|]. intros y Hy. constructor. by apply Hsub.
  - exact Hok4.
  - intros v. rewrite Hwalk4, Hwalk2. done.
  - intros p b Hp E. destruct (Htab4 p b Hp E) as [E'|?]; [|split; [by intros ->|right; by constructor]].
    split; [intros ->; by apply (Hppt p)|]. left. by rewrite <- Htab2.
  - intros i Hi. rewrite Hk4, Hpw by auto. done.
  - intros b i Hb Hi Hbf Hbt. assert (b ∉ fr1) by (intros ?; apply Hbf; by constructor). rewrite Hk4, How; [done|done|done|intros ->; apply Hbf; by constructor|done..|].
    intros p Hp Hu. rewrite Htab2 by done. by apply Hbt.
  - destruct Hregs2 as (R1 & R2 & R3), Hregs4 as (Q1 & Q2 & Q3). split_and!; [exact (eq_trans Q1 R1)|exact (eq_trans Q2 R2)|exact (eq_trans Q3 R3)].
Qed.

Lemma copied_cloned m m' fr fr' D x pp e a : cloned m fr D x -> user_vma x -> x mod PAGE_SIZE = 0 ->
  tab_at m0 P [vpn 2 x; vpn 1 x] = Some a -> e = entry m0 a (vpn 0 x) ->
  has (pte_flags e) PTE_V = true -> perm_ok (pte_flags e) = true -> has (pte_flags e) PTE_U = true ->
  copied m m' fr fr' x pp (pte_flags e) (pte_ppn e * PAGE_SIZE) -> cloned m' fr' (<[x / PAGE_SIZE := pp]> D) (x + PAGE_SIZE).
Proof.
  intros [Hf Hs Hv Ho Hw Hd Hc Hwd Hi] Hx Hal Ha He HV Hpm HU [(Hppf & Hppf' & Hsub) Hok' Hwalk Htab Hnew Hold' Hregs].
  assert (Hleaf := fun v Hv' Hsp => same_leaf v x e a Hv' Hx Hsp Ha He HV Hpm).
  assert (Hwx := Hleaf x Hx (conj eq_refl (conj eq_refl eq_refl))). destruct (leaf_page x e Hx Hwx) as [Hpma HpmaT].
  assert (Hown : forall b, b ∉ T -> forall p, path_ok p -> own_path p -> tab_at m N p <> Some b) by (intros b Hb p Hp Hu E; by apply Hb, (Ho p)).
  assert (Hcase : forall v, user_vma v -> (if decide (same_page x v) then v / PAGE_SIZE = x / PAGE_SIZE else v / PAGE_SIZE <> x / PAGE_SIZE)).
  { intros v Hu. destruct (decide (same_page x v)) as [Hsp|Hsp]; rewrite (user_div v x) in Hsp by done; done. }
  assert (Hnx : (x + PAGE_SIZE) / PAGE_SIZE = x / PAGE_SIZE + 1) by (unfold PAGE_SIZE; Z.to_euclidean_division_equations; lia).
  constructor.
  - split; [|destruct Hregs as (R1 & R2 & R3); rewrite ?R1, ?R2, ?R3; apply Hf..]. intros b i Hb Hib HbT.
    rewrite Hold'; [by apply (fr_word _ _ _ Hf)|done|done|by intros ?%Hs|by apply Hown].
  - auto.
  - done.
  - intros p b Hp Hu Hb. destruct (Htab p b Hp Hb) as [_ [E|?]]; [by apply (Ho p)|by apply Hs].
  - intros v Hu. specialize (Hcase v Hu). rewrite Hwalk. destruct (decide (same_page x v)) as [Hsp|Hsp].
    + by rewrite Hcase, lookup_insert_eq, (Hleaf v Hu Hsp).
    + rewrite lookup_insert_ne by congruence. by apply Hw.
  - intros v Hu. specialize (Hcase v Hu). rewrite Hnx. destruct (decide (same_page x v)) as [Hsp|Hsp].
    + rewrite Hcase, lookup_insert_eq. split; [|by eexists]. intros _. split; [lia|]. eexists _, _. by rewrite (Hleaf v Hu Hsp).
    + rewrite lookup_insert_ne by congruence. rewrite Hd by done. split; intros [? ?]; (split; [lia|done]).
  - intros q d. rewrite lookup_insert_Some. intros [[<- <-]|[Hne Hq]].
    + split_and!; [by apply Hs|done|]. intros p Hp E. by destruct (Htab p pp Hp E).
    + destruct (Hc q d Hq) as (HdT & Hdf & Hdt). split_and!; [done|by intros ?%Hsub|]. intros p Hp E.
      destruct (Htab p d Hp E) as [_ [?|?]]; [by apply (Hdt p)|done].
  - intros v d p f i Hu. specialize (Hcase v Hu). destruct (decide (same_page x v)) as [Hsp|Hsp].
    + rewrite Hcase, lookup_insert_eq. intros [= <-]. rewrite (Hleaf v Hu Hsp). intros [= <- _] Hii.
      rewrite page_of_add by (done || apply user_mod_range). rewrite Hnew by done. by apply (fr_word _ _ _ Hf).
    + rewrite lookup_insert_ne by congruence. intros Hq Hwv Hii. destruct (Hc _ d Hq) as (HdT & Hdf & Hdt).
      rewrite Hold' by (auto using T_page). by eapply Hwd.
  - intros q q' d. rewrite !lookup_insert_Some. intros [[<- <-]|[Hne Hq]] [[E1 E2]|[Hne' Hq']]; [done| | |by eapply Hi].
    + by destruct (Hc q' pp Hq') as (_ & ? & _).
    + subst. by destruct (Hc q d Hq) as (_ & ? & _).
Qed.

Lemma same_page_refl x : same_page x x.
Proof. done. Qed.

(** One turn of the loop. *)
Lemma clone_turn m fr D x new_mtag : cloned m fr D x -> user_vma x -> x mod PAGE_SIZE = 0 -> mtag_to_root new_mtag = N ->
  (is_Some (walk_from m0 P x) -> (3 <= length fr)%nat) ->
  exists m' fr' D', clone_page new_mtag x m = Ret m' /\ cloned m' fr' D' (x + PAGE_SIZE) /\ kernel_same m m' /\
    (fr' = fr \/ is_Some (walk_from m0 P x) /\ (length fr <= length fr' + 3)%nat).
Proof.
  intros Hcl Hx Hal HN Hlen. assert (Hnone : forall v, user_vma v -> same_page x v -> walk_from m0 P x = None -> walk_from m0 P v = None).
  { intros v Hv Hsp Hn. destruct (user_slot m0 P T v HP Hv) as [[_ ?]|(a & Ha & _ & _ & [[_ ?]|(HV & Hp & _)])]; [done|done|exfalso].
    destruct Hsp as (E2 & E1 & E0). rewrite <- E2, <- E1 in Ha. rewrite <- E0 in HV, Hp. by rewrite (same_leaf x x _ a Hx Hx (same_page_refl x) Ha eq_refl HV Hp) in Hn. }
  assert (Hskip : (forall v p f, user_vma v -> same_page x v -> walk_from m0 P v = Some (p, f) -> has f PTE_U = false) -> clone_page new_mtag x m = Ret m ->
    exists m' fr' D', clone_page new_mtag x m = Ret m' /\ cloned m' fr' D' (x + PAGE_SIZE) /\ kernel_same m m' /\
      (fr' = fr \/ is_Some (walk_from m0 P x) /\ (length fr <= length fr' + 3)%nat)).
  { intros Hno E. exists m, fr, D. split; [done|]. split; [by apply clone_skip|]. by split; [|left]. }
  assert (Heq := clone_page_eq m fr D x new_mtag Hcl Hx).
  destruct (user_slot m0 P T x HP Hx) as [[Ht Hn]|(a & Ha & Hpa & _ & Hcase)].
  { apply Hskip; [|by rewrite Heq, Ht]. intros v p f Hv Hsp E. by rewrite (Hnone v Hv Hsp Hn) in E. }
  cbv zeta in Hcase. destruct Hcase as [[HV Hn]|(HV & Hpm & Hw)].
  { apply Hskip; [|by rewrite Heq, Ha; cbv zeta; rewrite HV]. intros v p f Hv Hsp E. by rewrite (Hnone v Hv Hsp Hn) in E. }
  destruct (has (pte_flags (entry m0 a (vpn 0 x))) PTE_U) eqn:HU.
  - destruct (clone_eval m fr D x a new_mtag Hcl Hx HN Ha) as (m' & fr' & pp & E & Hcp & Hl); [apply Hlen; by rewrite Hw|done..|].
    exists m', fr', (<[x / PAGE_SIZE := pp]> D). split; [done|]. split; [by eapply copied_cloned|]. split.
    + intros v Hv3. rewrite (cp_walk _ _ _ _ _ _ _ _ Hcp), decide_False; [done|]. intros (E2 & _). rewrite (user_vpn2 x Hx) in E2. congruence.
    + right. rewrite Hw. by split; [eexists|].
  - apply Hskip; [|by rewrite Heq, Ha; cbv zeta; rewrite HV, HU]. intros v p f Hv Hsp E.
    rewrite (same_leaf v x _ a Hv Hx Hsp Ha eq_refl HV Hpm) in E. by injection E as _ <-.
Qed.

Lemma pages_left (L : list Z) q :
  (length (filter (fun y => (q + 1 <= y)%Z) L) + (if decide (q ∈ L) then 1 else 0) <= length (filter (fun y => (q <= y)%Z) L))%nat.
Proof.
  induction L as [|y L IH]; [cbn; by rewrite decide_False by apply not_elem_of_nil|]. rewrite !filter_cons.
  destruct (decide (q = y)) as [<-|Hne].
  - rewrite (decide_True (P := q ∈ q :: L)) by constructor. rewrite (decide_False (P := q + 1 <= q)), (decide_True (P := q <= q)) by lia. cbn [length].
    destruct (decide (q ∈ L)); lia.
  - assert (Hiff : q ∈ y :: L <-> q ∈ L) by (rewrite elem_of_cons; tauto).
    destruct (decide (q ∈ L)), (decide (q ∈ y :: L)); try tauto; repeat destruct (decide (_ <= y)); cbn [length]; lia.
Qed.

(** The whole loop, with three free pages for each of the pages [L] that may
    be mapped. *)
Lemma clone_loop m fr D new_mtag L : cloned m fr D USER_START_VMA -> mtag_to_root new_mtag = N ->
  (forall v, user_vma v -> is_Some (walk_from m0 P v) -> v / PAGE_SIZE ∈ L) -> (3 * length L <= length fr)%nat ->
  exists m' fr' D', for_range USER_START_VMA USER_END_VMA PAGE_SIZE (clone_page new_mtag) m = Ret m' /\
    cloned m' fr' D' USER_END_VMA /\ kernel_same m m'.
Proof.
  intros Hcl HN HL Hlen.
  set (I := fun x m' => x mod PAGE_SIZE = 0 /\ USER_START_VMA <= x <= USER_END_VMA /\ exists fr' D', cloned m' fr' D' x /\ kernel_same m m' /\
    (3 * length (filter (fun y => x / PAGE_SIZE <= y)%Z L) <= length fr')%nat).
  destruct (for_range_inv I (clone_page new_mtag) USER_START_VMA USER_END_VMA PAGE_SIZE m) as (m' & x & E & (Hal & Hx & fr' & D' & Hcl' & Hks & _) & Hge).
  - done.
  - intros x s Hx (Hal & Hr & fr1 & D1 & Hc1 & Hk1 & Hl1). assert (Hu : user_vma x) by (unfold user_vma; lia).
    assert (Hleft := pages_left L (x / PAGE_SIZE)).
    destruct (clone_turn s fr1 D1 x new_mtag Hc1 Hu Hal HN) as (s' & fr2 & D2 & E & Hc2 & Hk2 & Hl2).
    { intros Hs. rewrite decide_True in Hleft by (by apply HL). lia. }
    exists s'. split; [done|]. split; [rewrite <- (Z.mul_1_l PAGE_SIZE) at 1; by rewrite Z_mod_plus_full|]. split; [mem_consts; Z.to_euclidean_division_equations; lia|].
    exists fr2, D2. split; [done|]. split; [intros v Hv; by rewrite Hk2, Hk1|].
    replace ((x + PAGE_SIZE) / PAGE_SIZE) with (x / PAGE_SIZE + 1) by (unfold PAGE_SIZE; Z.to_euclidean_division_equations; lia).
    destruct Hl2 as [->|[Hs Hl2]]; [lia|]. rewrite decide_True in Hleft by (by apply HL). lia.
  - split; [done|]. split; [by vm_compute|]. exists fr, D. split; [done|]. split; [done|]. assert (Hfl := length_filter (fun y => USER_START_VMA / PAGE_SIZE <= y) L). lia.
  - exists m', fr', D'. split; [exact E|]. replace USER_END_VMA with x by lia. done.
Qed.
End Clone.

(** * The new root *)

(** Where the page tables of the kernel image are. *)
Record kernel_tables (img : kimg) (m : mm) (free : list Z) : Prop := {
  kt_space : space_ok m (main_pt2 img) free;
  kt_pt1 : next_table (entry m (main_pt2 img) (VPN2 RAM_START_PMA)) = Some (main_pt1 img);
}.

Section Start.
Context (img : kimg) (m0 : mm) (P N : Z) (l : list Z).
Context (HP : vm_ok m0 P (N :: l)) (HK : kernel_tables img m0 (N :: l)).
Notation K := (main_pt2 img).

(** The root as the first part of [memory_space_clone] leaves it. *)
Record new_root (m : mm) : Prop := {
  nr_only : page_only (with_free m0 (word m0 N)) m N;
  nr_low i : 0 <= i < 2 -> entry m N i = entry m0 K i;
  nr_ram : entry m N 2 = ptab_pte (main_pt1 img) PTE_G;
  nr_high i : 3 <= i < 512 -> pte_flags (entry m N i) = 0;
}.

Lemma N_page : page_ok N /\ N ∉ l /\ free_pages (with_free m0 (word m0 N)) l /\ memory_alloc_page m0 = Ret (with_free m0 (word m0 N), N).
Proof. destruct (memory_alloc_page_spec m0 N l (vo_free _ _ _ HP)) as (H1 & H2 & H3 & H4). done. Qed.

Lemma K_page : page_ok K /\ K <> N.
Proof. destruct (so_tab _ _ _ (kt_space _ _ _ HK) [] K path_ok_nil eq_refl) as [H1 H2]. split; [done|]. intros E. apply H2. rewrite E. constructor. Qed.

Lemma new_root_frame m : new_root m -> framed m0 m (N :: l).
Proof.
  intros [(Hw & _ & S & U & M) _ _ _]. split; [|done..]. intros a i Ha Hi HaT. rewrite Hw; [done..|]. intros ->. apply HaT. constructor.
Qed.

Lemma pt1_page : page_ok (main_pt1 img).
Proof.
  destruct (so_tab _ _ _ (kt_space _ _ _ HK) [2] (main_pt1 img)) as [? _]; [by repeat constructor; cbn; lia| |done].
  cbn [tab_at]. change 2 with (VPN2 RAM_START_PMA). by rewrite (kt_pt1 _ _ _ HK).
Qed.

(** Below the first three entries are the tables of the kernel, below the
    others nothing. *)
Lemma new_root_tab m i r : new_root m -> path_ok (i :: r) ->
  tab_at m N (i :: r) = if decide (i < 3) then tab_at m0 K (i :: r) else None.
Proof.
  intros Hr Hp. assert (Hf := new_root_frame m Hr). assert (Hi : index_ok i) by (destruct Hp as [HF _]; by inversion HF).
  destruct (decide (i < 3)) as [Hlt|Hge]; [|cbn [tab_at]; rewrite no_flags_no_table; [done|apply Hr; unfold index_ok in Hi; lia]].
  rewrite <- (tab_at_framed m0 m (N :: l) Hf K (kt_space _ _ _ HK) (i :: r) Hp). cbn [tab_at].
  rewrite (entry_framed m0 m (N :: l) Hf K (kt_space _ _ _ HK) [] K i) by auto with kern.
  destruct (decide (i = 2)) as [->|Hne]; [|rewrite (nr_low _ Hr); [done|unfold index_ok in Hi; lia]].
  rewrite (nr_ram _ Hr), ptab_next by apply pt1_page. change 2 with (VPN2 RAM_START_PMA). by rewrite (kt_pt1 _ _ _ HK).
Qed.

Lemma new_root_space m : new_root m -> space_ok m N l.
Proof.
  intros Hr. assert (Hf := new_root_frame m Hr). destruct N_page as (HNp & HNl & _). assert (HK' := kt_space _ _ _ HK).
  assert (Hsub : forall i r a, path_ok (i :: r) -> tab_at m N (i :: r) = Some a -> tab_at m0 K (i :: r) = Some a /\ i < 3 /\ page_ok a /\ a <> N /\ a ∉ l).
  { intros i r a Hp Ha. rewrite (new_root_tab m i r Hr Hp) in Ha. destruct (decide (i < 3)); [|done].
    destruct (so_tab _ _ _ HK' _ _ Hp Ha) as [? Hn]. split_and!; try done; [intros ->; apply Hn; constructor|intros ?; apply Hn; by constructor]. }
  split.
  - intros [|i r] a Hp Ha; [injection Ha as <-; done|]. by destruct (Hsub i r a Hp Ha) as (_ & _ & ? & _ & ?).
  - intros [|i r] [|i' r'] a Hp Hq Ha Hb; [done| | |].
    + injection Ha as <-. by destruct (Hsub i' r' N Hq Hb) as (_ & _ & _ & ? & _).
    + injection Hb as <-. by destruct (Hsub i r N Hp Ha) as (_ & _ & _ & ? & _).
    + destruct (Hsub i r a Hp Ha) as (Ha' & _), (Hsub i' r' a Hq Hb) as (Hb' & _). by eapply (so_inj _ _ _ HK').
  - intros [|i r] a j Hp Ha Hj.
    + injection Ha as <-. destruct (decide (j < 2)) as [Hlt|]; [rewrite (nr_low _ Hr) by (unfold index_ok in Hj; lia); by apply (so_ent _ _ _ HK' [] K)|].
      destruct (decide (j = 2)) as [->|]; [|left; apply Hr; unfold index_ok in Hj; lia]. rewrite (nr_ram _ Hr). right. split; [done|]. split; done.
    + destruct (Hsub i r a Hp Ha) as (Ha' & _). rewrite (entry_framed m0 m (N :: l) Hf K HK' (i :: r)) by done. by apply (so_ent _ _ _ HK').
Qed.

Lemma new_root_vm m : new_root m -> vm_ok m N l.
Proof.
  intros Hr. destruct N_page as (HNp & HNl & [Hc Hnd] & _). destruct (nr_only _ Hr) as (Hw & Hfl & _). split; [by apply new_root_space| |].
  - split; [|done]. rewrite Hfl. eapply page_chain_frame; [|done]. intros y Hy. rewrite <- (Z.add_0_r y). change (y + 0) with (y + 8 * 0).
    assert (page_ok y) by (eapply (free_pages_page_ok m0 (N :: l)); [apply HP|by constructor]). apply Hw; [done|unfold index_ok; lia|by intros ->].
  - intros y i Hy Hi. assert (page_ok y) by (eapply (free_pages_page_ok m0 (N :: l)); [apply HP|by constructor]).
    unfold entry. rewrite Hw; [|done|done|by intros ->]. apply (vo_clean _ _ _ HP); [by constructor|done].
Qed.

Lemma new_root_cloned m : new_root m -> cloned m0 P (N :: l) N m l ∅ USER_START_VMA.
Proof.
  intros Hr. constructor.
  - by apply new_root_frame.
  - intros y Hy. by constructor.
  - by apply new_root_vm.
  - intros [|i r] a Hp Hu Ha; [injection Ha as <-; constructor|]. destruct Hu as [?|[= ->]]; [done|]. rewrite (new_root_tab m 3 r Hr Hp) in Ha. done.
  - intros v Hv. rewrite lookup_empty. unfold walk_from. rewrite (new_root_tab m _ [] Hr (vpath1_ok v)), (user_vpn2 v Hv).
    apply leaf_at_none. apply Hr. lia.
  - intros v Hv. rewrite lookup_empty. split; [by intros []|]. intros [Hlt _]. exfalso. unfold user_vma in Hv. mem_consts. Z.to_euclidean_division_equations; lia.
  - intros q d Hq. by rewrite lookup_empty in Hq.
  - intros v d p f i _ Hq. by rewrite lookup_empty in Hq.
  - intros q q' d Hq. by rewrite lookup_empty in Hq.
Qed.

Lemma new_root_kernel m v : new_root m -> vpn 2 v < 3 -> walk_from m N v = walk_from m0 K v.
Proof.
  intros Hr Hv. assert (Hf := new_root_frame m Hr). assert (HK' := kt_space _ _ _ HK). unfold walk_from.
  rewrite (new_root_tab m _ [] Hr (vpath1_ok v)), (new_root_tab m _ _ Hr (vpath_ok v)), !decide_True by done.
  destruct (tab_at m0 K [vpn 2 v]) as [a1|] eqn:E1; [destruct (tab_at m0 K [vpn 2 v; vpn 1 v]) as [a0|] eqn:E0|].
  - by rewrite (entry_framed m0 m (N :: l) Hf K HK' [vpn 2 v; vpn 1 v]) by auto with kern.
  - by rewrite (entry_framed m0 m (N :: l) Hf K HK' [vpn 2 v]) by auto with kern.
  - destruct (decide (vpn 2 v = 2)) as [E2|Hne]; [|rewrite (nr_low _ Hr); [done|assert (Hi := vpn_ok 2 v); unfold index_ok in Hi; lia]].
    exfalso. rewrite E2 in E1. cbn [tab_at] in E1. change 2 with (VPN2 RAM_START_PMA) in E1. by rewrite (kt_pt1 _ _ _ HK) in E1.
Qed.

Lemma clone_start asid : exists m, new_root m /\
  memory_space_clone img m0 asid =
  let! m' := for_range USER_START_VMA USER_END_VMA PAGE_SIZE (clone_page (sv39_mtag N)) m in Ret (m', sv39_mtag N).
Proof.
  destruct N_page as (HNp & _ & _ & Hal). destruct K_page as [HKp HKN]. set (mi := with_free m0 (word m0 N)) in *.
  set (mA := put mi N 0 (entry mi K 0)). set (mB := put mA N 1 (entry mA K 1)). set (mC := put mB N 2 (ptab_pte (main_pt1 img) PTE_G)).
  set (mD := with_ram mC (<[N := word mC K]> (ram mC))).
  assert (Hidx : forall i, 0 <= i < 3 -> index_ok i) by (unfold index_ok; lia).
  assert (HeK : forall mx i, index_ok i -> page_only mi mx N -> entry mx K i = entry m0 K i).
  { intros mx i Hi (Hw & _). unfold entry. by rewrite Hw. }
  assert (HA : page_only mi mA N) by (apply put_page_only; auto with lia). assert (HB : page_only mi mB N) by (eapply page_only_trans; [exact HA|apply put_page_only; auto with lia]).
  assert (HC : page_only mi mC N) by (eapply page_only_trans; [exact HB|apply put_page_only; auto with lia]).
  assert (HwD : forall b, word mD b = if decide (N = b) then word mC K else word mC b) by (intros b; apply word_insert).
  assert (HeN : forall i, index_ok i -> entry mD N i = if decide (i = 0) then entry mC K 0 else entry mC N i).
  { intros i Hi. unfold entry at 1. rewrite HwD. destruct (decide (i = 0)) as [->|]; [rewrite decide_True by lia; unfold entry; by rewrite Z.add_0_r|].
    by rewrite decide_False by lia. }
  assert (HD : page_only mi mD N).
  { eapply page_only_trans; [exact HC|]. split; [|done]. intros a i Ha Hi Hne. rewrite HwD, decide_False; [done|]. intros E.
    apply Hne. by destruct (pte_slot_inj N 0 a i) as [-> _]; [done|done|auto with lia|done|lia|]. }
  assert (HpK : forall mx i, pte_ok (entry mx K i)) by (intros; unfold entry; auto with kern).
  exists mD. split.
  - split; [done| | |].
    + intros i Hi. rewrite HeN by auto with lia. destruct (decide (i = 0)) as [->|]; [by apply HeK; auto with lia|].
      unfold mC. rewrite entry_put, decide_False by (auto with lia kern || (intros [_ ?]; lia)). unfold mB. assert (i = 1) as -> by lia.
      rewrite entry_put_eq by done. by apply HeK; auto with lia.
    + rewrite HeN, decide_False by auto with lia. unfold mC. by rewrite entry_put_eq by auto with kern.
    + intros i Hi. assert (index_ok i) by (unfold index_ok; lia). rewrite HeN, decide_False by (done || lia). unfold mC, mB, mA.
      rewrite !entry_put, !decide_False by (auto with lia kern || (intros [_ ?]; lia)). unfold mi. rewrite entry_free. apply (vo_clean _ _ _ HP); [constructor|done].
  - unfold memory_space_clone. rewrite Hal. cbn [obind]. fold mi. unfold for_range. change (Z.to_nat ((RAM_START_PMA - 0) / GIGA_SIZE + 1)) with 3%nat.
    cbn [for_loop]. change (0 <? RAM_START_PMA) with true. change (0 + GIGA_SIZE <? RAM_START_PMA) with true. change (0 + GIGA_SIZE + GIGA_SIZE <? RAM_START_PMA) with false.
    change (VPN2 0) with 0. change (VPN2 (0 + GIGA_SIZE)) with 1. change (VPN2 RAM_START_PMA) with 2. cbn iota.
    rewrite ld_pte_ok by auto with lia. cbn [obind]. rewrite st_pte_ok by auto with lia. fold mA. cbn [obind]. rewrite ld_pte_ok by auto with lia. cbn [obind]. rewrite st_pte_ok by auto with lia. fold mB. cbn [obind].
    rewrite st_pte_ok by auto with lia. fold mC. cbn [obind]. unfold copy_pte, ld64, st64.
    assert (Hin : forall a, page_ok a -> in_ram a && (a mod 8 =? 0) = true) by (intros a Ha; rewrite <- (Z.add_0_r a); apply (slot_in_ram a 0); auto with lia).
    rewrite Hin by done. cbn [obind]. rewrite Hin by done. cbn [obind]. done.
Qed.
End Start.

(** * Both spaces *)

Lemma tab_at_satp m s a p : tab_at (with_satp m s) a p = tab_at m a p.
Proof. revert a; induction p as [|i p IH]; intros a; cbn; [done|]. change (entry (with_satp m s) a i) with (entry m a i). by destruct (next_table _). Qed.
Lemma walk_from_satp m s root v : walk_from (with_satp m s) root v = walk_from m root v.
Proof. unfold walk_from. by rewrite !tab_at_satp. Qed.
Lemma vm_ok_satp m s root free : vm_ok m root free -> vm_ok (with_satp m s) root free.
Proof.
  intros [[St Si Se] [Hc Hn] Hcl]. split; [split|split|done].
  - intros p a. rewrite tab_at_satp. apply St.
  - intros p q a. rewrite !tab_at_satp. apply Si.
  - intros p a i. rewrite tab_at_satp. apply Se.
  - change (free_list (with_satp m s)) with (free_list m). eapply page_chain_frame; [|exact Hc]. done.
  - done.
Qed.

(** Bytes of pages with equal words. *)
Lemma byte_copy m m' d p : page_ok d -> page_ok (page_of p) -> (forall i, index_ok i -> word m' (d + 8 * i) = word m (page_of p + 8 * i)) ->
  byte_at m' (d + p mod PAGE_SIZE) = byte_at m p.
Proof.
  intros (_ & _ & Hd) (_ & _ & Hp) Hw. unfold byte_at. set (o := p mod PAGE_SIZE). assert (Ho : 0 <= o < PAGE_SIZE) by apply user_mod_range.
  assert (Hi : index_ok (o / 8)) by (unfold index_ok, PAGE_SIZE in *; Z.to_euclidean_division_equations; lia).
  replace ((d + o) mod 8) with (o mod 8) by (unfold PAGE_SIZE in *; Z.to_euclidean_division_equations; lia).
  replace (p mod 8) with (o mod 8) by (unfold o, PAGE_SIZE in *; Z.to_euclidean_division_equations; lia).
  replace (d + o - o mod 8) with (d + 8 * (o / 8)) by (Z.to_euclidean_division_equations; lia). rewrite Hw by done. do 3 f_equal.
  unfold page_of. fold o. Z.to_euclidean_division_equations; lia.
Qed.

Section Both.
Context (m0 : mm) (P N : Z) (T : list Z) (HPa : active_space_root m0 = P) (Hu0 : user_ok m0 T).
Context (m : mm) (fr : list Z) (D : gmap Z Z) (Hcl : cloned m0 P T N m fr D USER_END_VMA) (HN : page_ok N).

Let HP : vm_ok m0 P T.
Proof. rewrite <- HPa. apply Hu0. Qed.

Lemma user_walk v : user_vma v -> translate m0 v = walk_from m0 P v.
Proof. intros Hv. by rewrite (translate_walk m0 T v (uo_active _ _ Hu0)), (user_wellformed v Hv), HPa. Qed.

Lemma parent_root : active_space_root m = P.
Proof. rewrite <- HPa. unfold active_space_root, active_space_mtag. by rewrite (fr_satp _ _ _ (cl_frame _ _ _ _ _ _ _ _ Hcl)). Qed.

Lemma parent_active : active_ok m fr.
Proof.
  assert (Hs := fr_satp _ _ _ (cl_frame _ _ _ _ _ _ _ _ Hcl)). split; [rewrite Hs; apply Hu0..|]. rewrite parent_root. by eapply parent_vm.
Qed.

Lemma parent_translate v : translate m v = translate m0 v.
Proof.
  rewrite (translate_walk m fr v parent_active), (translate_walk m0 T v (uo_active _ _ Hu0)), parent_root, HPa.
  destruct (wellformed_vma v); [|done]. eapply walk_framed; [apply Hcl|apply HP].
Qed.

Lemma parent_user : user_ok m fr.
Proof.
  destruct Hu0 as [_ Hsum Hpg Hinj]. assert (Hf := cl_frame _ _ _ _ _ _ _ _ Hcl). constructor; [apply parent_active|by rewrite (fr_sstatus _ _ _ Hf)| |].
  - intros v p f Hv. rewrite parent_translate. intros Ht. destruct (Hpg v p f Hv Ht) as (H1 & H2 & H3). split_and!; [done|by intros ?%(cl_sub _ _ _ _ _ _ _ _ Hcl)|].
    intros q Hq. unfold vroot. rewrite parent_root, (tab_at_framed m0 m T Hf P (vo_space _ _ _ HP) q Hq), <- HPa. by apply H3.
  - intros v v' p p' f f' Hv Hv'. rewrite !parent_translate. by apply Hinj.
Qed.

Lemma parent_view v : user_vma v -> uview m v = uview m0 v.
Proof.
  intros Hv. rewrite !uview_eq, parent_translate by done. destruct (translate m0 v) as [[p f]|] eqn:E; [|done]. cbn. do 2 f_equal.
  destruct (uo_page _ _ Hu0 v p f Hv E) as (H1 & H2 & _). rewrite <- (byte_copy m0 m (page_of p) p) by (try done; intros i Hi; by apply (cl_frame _ _ _ _ _ _ _ _ Hcl)).
  f_equal. unfold page_of. lia.
Qed.

Let mc := with_satp m (sv39_mtag N).

Lemma child_root : 0 <= satp mc < 2 ^ 64 /\ satp mc / 2 ^ 60 = RISCV_SATP_MODE_Sv39 /\ active_space_root mc = N.
Proof.
  unfold active_space_root, active_space_mtag, mc. cbn [satp with_satp]. rewrite sv39_mtag_eq by done. destruct HN as (? & ? & ?).
  assert (Hr : 0 <= 8 * 2 ^ 60 + N / PAGE_SIZE < 2 ^ 64) by (mem_consts; Z.to_euclidean_division_equations; lia). rewrite mtag_to_root_eq by done.
  unfold RISCV_SATP_MODE_Sv39. split; [done|]. split; mem_consts; Z.to_euclidean_division_equations; lia.
Qed.

Lemma child_active : active_ok mc fr.
Proof. destruct child_root as (H1 & H2 & H3). split; [done|done|]. rewrite H3. apply vm_ok_satp, Hcl. Qed.

Lemma child_translate v : user_vma v -> translate mc v =
  match D !! (v / PAGE_SIZE) with Some d => option_map (fun pf => (d + v mod PAGE_SIZE, pf.2)) (translate m0 v) | None => None end.
Proof.
  intros Hv. rewrite (translate_walk mc fr v child_active), (user_wellformed v Hv), (proj2 (proj2 child_root)). unfold mc. rewrite walk_from_satp.
  rewrite (cl_walk _ _ _ _ _ _ _ _ Hcl v Hv). by rewrite user_walk.
Qed.

(** The copies the child maps. *)
Lemma child_page v p f : user_vma v -> translate mc v = Some (p, f) ->
  exists d p0, D !! (v / PAGE_SIZE) = Some d /\ page_ok d /\ page_of p = d /\ p = d + v mod PAGE_SIZE /\ translate m0 v = Some (p0, f).
Proof.
  intros Hv. rewrite child_translate by done. destruct (D !! (v / PAGE_SIZE)) as [d|] eqn:Ed; [|done].
  assert (page_ok d) by (eapply T_page; [exact HP|]; by eapply (cl_copy _ _ _ _ _ _ _ _ Hcl)).
  destruct (translate m0 v) as [[p0 f0]|] eqn:E; [|done]. cbn. intros [= <- <-]. exists d, p0. split_and!; [done|done| |done|done].
  apply page_of_add; [done|apply user_mod_range].
Qed.

Lemma child_user : user_ok mc fr.
Proof.
  constructor; [apply child_active|unfold mc; cbn [mm_sstatus with_satp]; rewrite (fr_sstatus _ _ _ (cl_frame _ _ _ _ _ _ _ _ Hcl)); apply Hu0| |].
  - intros v p f Hv Ht. destruct (child_page v p f Hv Ht) as (d & p0 & Ed & Hpd & -> & _). destruct (cl_copy _ _ _ _ _ _ _ _ Hcl _ _ Ed) as (_ & Hn & Htab).
    split_and!; [done|done|]. intros q Hq. unfold vroot. rewrite (proj2 (proj2 child_root)). unfold mc. rewrite tab_at_satp. by apply Htab.
  - intros v v' p p' f f' Hv Hv' Ht Ht' E. destruct (child_page v p f Hv Ht) as (d & p0 & Ed & _ & E1 & _), (child_page v' p' f' Hv' Ht') as (d' & p0' & Ed' & _ & E2 & _).
    assert (d' = d) as -> by congruence. by eapply (cl_inj _ _ _ _ _ _ _ _ Hcl).
Qed.

Lemma child_view v : user_vma v -> uview mc v = match uview m0 v with Some (b, f) => if has f PTE_U then Some (b, f) else None | None => None end.
Proof.
  intros Hv. rewrite !uview_eq by done. assert (Hd := cl_dom _ _ _ _ _ _ _ _ Hcl v Hv). rewrite <- user_walk in Hd by done.
  assert (Hlt : v / PAGE_SIZE < USER_END_VMA / PAGE_SIZE) by (unfold user_vma in Hv; mem_consts; Z.to_euclidean_division_equations; lia).
  assert (Ht := child_translate v Hv). destruct (translate m0 v) as [[p f]|] eqn:E.
  - cbn [option_map fst snd]. destruct (has f PTE_U) eqn:HU.
    + assert (Hs : is_Some (D !! (v / PAGE_SIZE))) by (apply Hd; eauto). destruct Hs as [d Ed]. rewrite Ed in Ht. rewrite Ht. cbn. do 2 f_equal.
      destruct (uo_page _ _ Hu0 v p f Hv E) as (Hpp & _). rewrite <- (user_page m0 T v p f (uo_active _ _ Hu0) Hv E).
      apply byte_copy; [eapply T_page; [exact HP|]; by eapply (cl_copy _ _ _ _ _ _ _ _ Hcl)|done|]. intros i Hi. change (word mc ?a) with (word m a).
      eapply (cl_word _ _ _ _ _ _ _ _ Hcl); [done|done| |done]. rewrite <- user_walk by done. exact E.
    + destruct (D !! (v / PAGE_SIZE)) as [d|] eqn:Ed; [|by rewrite Ht]. exfalso. destruct (proj1 Hd ltac:(eauto)) as (_ & p' & f' & [= <- <-] & HU'). congruence.
  - destruct (D !! (v / PAGE_SIZE)); by rewrite Ht.
Qed.

(** No page is shared. *)
Lemma spaces_apart v v' p p' f f' : user_vma v -> user_vma v' -> translate m v = Some (p, f) -> translate mc v' = Some (p', f') -> page_of p <> page_of p'.
Proof.
  intros Hv Hv' Ht Ht' E. rewrite parent_translate in Ht. destruct (uo_page _ _ Hu0 v p f Hv Ht) as (_ & Hn & _).
  destruct (child_page v' p' f' Hv' Ht') as (d & _ & Ed & _ & E' & _). apply Hn. rewrite E, E'. by eapply (cl_copy _ _ _ _ _ _ _ _ Hcl).
Qed.
End Both.

Lemma space_clone_spec img m free asid L :
  user_ok m free -> kernel_tables img m free ->
  (forall v, user_vma v -> is_Some (translate m v) -> v / PAGE_SIZE ∈ L) -> (3 * length L + 1 <= length free)%nat ->
  exists m' mtag free', memory_space_clone img m asid = Ret (m', mtag) /\
    user_ok m' free' /\ satp m' = satp m /\ (forall v, user_vma v -> uview m' v = uview m v) /\
    let child := with_satp m' mtag in
    user_ok child free' /\
    (forall v, user_vma v -> uview child v =
       match uview m v with Some (b, f) => if has f PTE_U then Some (b, f) else None | None => None end) /\
    (forall v v' p p' f f', user_vma v -> user_vma v' -> translate m' v = Some (p, f) -> translate child v' = Some (p', f') ->
       page_of p <> page_of p') /\
    (forall v, 0 <= v < USER_START_VMA -> translate child v = sv39_walk m 2 (main_pt2 img) v).
Proof.
  intros Hu HK HL Hlen. destruct free as [|N l]; [cbn in Hlen; lia|]. assert (HP := ac_vm _ _ (uo_active _ _ Hu)). set (P := active_space_root m) in *.
  destruct (N_page m P N l HP) as (HN & _). destruct (clone_start img m P N l HP HK asid) as (m1 & Hr & ->).
  assert (Hdata : forall v p f, user_vma v -> walk_from m P v = Some (p, f) -> page_ok (page_of p) /\ page_of p ∉ N :: l).
  { intros v p f Hv Ht. rewrite <- (user_walk m P (N :: l) eq_refl Hu v Hv) in Ht. by destruct (uo_page _ _ Hu v p f Hv Ht) as (? & ? & _). }
  assert (HNr : mtag_to_root (sv39_mtag N) = N) by (apply (child_root N m1 HN)).
  destruct (clone_loop m P (N :: l) N HP eq_refl Hdata m1 l ∅ (sv39_mtag N) L) as (m' & fr & D & -> & Hcl & Hks); [by apply (new_root_cloned img)|done| |cbn in Hlen; lia|].
  { intros v Hv. rewrite <- (user_walk m P (N :: l) eq_refl Hu v Hv). by apply HL. }
  cbn [obind]. exists m', (sv39_mtag N), fr. split; [done|]. split; [by eapply parent_user|]. split; [apply (cl_frame _ _ _ _ _ _ _ _ Hcl)|].
  split; [intros v Hv; by eapply parent_view|]. cbv zeta. split; [by eapply child_user|]. split; [intros v Hv; by eapply child_view|].
  split; [intros *; by eapply spaces_apart|]. intros v Hv.
  assert (Hv3 : vpn 2 v < 3) by (unfold vpn; change (2 ^ (12 + 9 * Z.of_nat 2)) with (2 ^ 30); mem_consts; Z.to_euclidean_division_equations; lia).
  assert (Hca : active_ok (with_satp m' (sv39_mtag N)) fr) by by eapply child_active.
  rewrite (translate_walk _ fr v Hca), (proj2 (proj2 (child_root N m' HN))), walk_from_satp, sv39_walk_tabs, Hks by lia.
  rewrite (new_root_kernel img m N l HK m1 v Hr Hv3). replace (wellformed_vma v) with true; [done|]. symmetry.
  unfold wellformed_vma, i64. rewrite (u64_small v) by (mem_consts; lia). replace (v <? 2 ^ 63) with true by (mem_consts; lia).
  rewrite Z.shiftr_div_pow2, Z.div_small by (mem_consts; lia). done.
Qed.

(** C11: [memory_space_clone] succeeds when three pages are free for each mapped
    user page and one for the root.  Afterwards the active space is as it was;
    the new space holds, at every user address that user mode may access, the
    same byte with the same permissions, in physical pages that it shares
    neither with itself nor with the old space; and below the user region it
    has the kernel's own translation. *)
Theorem space_clone_copies img m free asid L :
  user_ok m free -> kernel_tables img m free ->
  (forall v, user_vma v -> is_Some (translate m v) -> v / PAGE_SIZE ∈ L) -> (3 * length L + 1 <= length free)%nat ->
  exists m' mtag free', memory_space_clone img m asid = Ret (m', mtag) /\
    user_ok m' free' /\ satp m' = satp m /\ (forall v, user_vma v -> uview m' v = uview m v) /\
    let child := with_satp m' mtag in
    user_ok child free' /\
    (forall v, user_vma v -> uview child v =
       match uview m v with Some (b, f) => if has f PTE_U then Some (b, f) else None | None => None end) /\
    (forall v v' p p' f f', user_vma v -> user_vma v' -> translate m' v = Some (p, f) -> translate child v' = Some (p', f') ->
       page_of p <> page_of p') /\
    (forall v, 0 <= v < USER_START_VMA -> translate child v = sv39_walk m 2 (main_pt2 img) v).
Proof. apply space_clone_spec. Qed.

(** A page mapped after [memory_init], and a byte stored in it. *)
Module CloneDemo.
Definition st : mm :=
  match memory_alloc_and_map_page VmDemo.st 0xC0000000 RWU with
  | Ret (m, _) => match store_user m 0xC0000005 [42] with Ret m => m | _ => m end
  | _ => VmDemo.st
  end.

Lemma st0_user : user_ok VmDemo.st VmDemo.free.
Proof.
  constructor.
  - exact VmDemo.st_active.
  - vm_compute. reflexivity.
  - intros v q f Hv E. rewrite (VmDemo.st_unmapped v Hv) in E. discriminate E.
  - intros v v' q q' f f' Hv Hv' E. rewrite (VmDemo.st_unmapped v Hv) in E. discriminate E.
Qed.

Lemma st_user_ok : exists free, user_ok st free /\ (2010 <= length free)%nat /\
  (forall v, user_vma v -> is_Some (translate st v) -> v / PAGE_SIZE ∈ [0xC0000]) /\
  uview st 0xC0000005 = Some (42, map_flags RWU).
Proof.
  assert (Hu : user_vma 0xC0000000) by (unfold user_vma; mem_consts; lia). assert (Hu5 : user_vma 0xC0000005) by (unfold user_vma; mem_consts; lia).
  assert (Hn : uview VmDemo.st 0xC0000000 = None) by (apply uview_None; [exact Hu|exact (VmDemo.st_unmapped _ Hu)]).
  destruct (map_user_page VmDemo.st VmDemo.free 0xC0000000 RWU st0_user Hu) as (m1 & p & fr & E & Hok & Hl & Hv);
    [rewrite VmDemo.free_len; lia|vm_compute; split; [discriminate|reflexivity]|reflexivity|exact Hn|].
  assert (H5 := Hv _ Hu5). rewrite decide_True in H5 by reflexivity.
  destruct H5 as [b H5]. destruct (st_user_spec m1 fr 0xC0000005 42 b (map_flags RWU) Hok Hu5) as (m2 & E2 & Hok2 & Hv2); [lia|exact H5|reflexivity|].
  assert (Est : st = m2) by (unfold st; rewrite E; cbn [store_user]; rewrite E2; reflexivity). rewrite Est. exists fr. split; [exact Hok2|].
  split; [rewrite VmDemo.free_len in Hl; lia|]. split.
  - intros v Huv Hs. destruct (decide (v / PAGE_SIZE = 0xC0000000 / PAGE_SIZE)) as [Ev|Ev]; [rewrite Ev; constructor|exfalso].
    assert (Hvv := Hv v Huv). rewrite (decide_False _ _ Ev) in Hvv. assert (Hv2v := Hv2 v Huv). rewrite decide_False in Hv2v by (intros ->; apply Ev; reflexivity).
    rewrite Hvv in Hv2v. assert (H0 : uview VmDemo.st v = None) by (apply uview_None; [exact Huv|exact (VmDemo.st_unmapped _ Huv)]).
    rewrite H0 in Hv2v. apply uview_None in Hv2v; [|exact Huv]. rewrite Hv2v in Hs. by destruct Hs.
  - rewrite (Hv2 _ Hu5), decide_True by reflexivity. reflexivity.
Qed.

Lemma st_kernel free : user_ok st free -> kernel_tables MemDemo.img st free.
Proof.
  intros Hu. assert (Hr : active_space_root st = main_pt2 MemDemo.img) by (vm_compute; reflexivity).
  split; [rewrite <- Hr; apply Hu|vm_compute; reflexivity].
Qed.
End CloneDemo.

Lemma space_clone_copies_witness : exists m' mtag, memory_space_clone MemDemo.img CloneDemo.st 1 = Ret (m', mtag) /\
  uview m' 0xC0000005 = Some (42, map_flags RWU) /\ uview (with_satp m' mtag) 0xC0000005 = Some (42, map_flags RWU).
Proof.
  destruct CloneDemo.st_user_ok as (free & Hok & Hl & HL & H5). assert (Hu5 : user_vma 0xC0000005) by (unfold user_vma; mem_consts; lia).
  destruct (space_clone_copies MemDemo.img CloneDemo.st free 1 [0xC0000] Hok (CloneDemo.st_kernel free Hok) HL) as (m' & mtag & free' & E & _ & _ & Hp & _ & Hc & _).
  - cbn [length]. lia.
  - exists m', mtag. split; [exact E|]. split; [rewrite (Hp _ Hu5); exact H5|]. rewrite (Hc _ Hu5), H5. reflexivity.
Defined.
