(* ===== verification/Kfs.v ===== *)
(** The file system (src/src/kern/kfs.c).

    The disk is an I/O object given by its operation table; the blocks of the
    image are read into the three static buffers [boot_block], [inode] and
    [data_block], kept here as the bytes of the packed structures with
    accessors for their fields.  A file is designated by its index in
    [file_list].  [kfs_lock] is a flag: taking a held lock blocks, so a path
    that forgets to release it shows.

    kfs.c passes the address of a 32-bit offset to [IOCTL_SETPOS]; a device
    that reads a 64-bit position finds whatever lies behind it on the stack,
    [hi], in the upper half. *)

From Stdlib Require Import Ascii String.
From S2P Require Import Prelude KString IoIntf IoLit.
From stdpp Require Import list.
#[local] Open Scope Z_scope.

Definition FS_NAMELEN : Z := 32.
Definition FS_BLKSZ : Z := 4096.
Definition MAX_DENTRY_NUM : Z := 63.
Definition MAX_OPEN_FILES : Z := 32.
Definition F_IN_USE : Z := 1.
Definition F_NOT_USE : Z := 0.
Definition MAX_DB_PER_INODE : Z := 1023.

(** * Structures *)

(** [file_t]; [f_ops] tells whether [io.ops] is set. *)
Record file_t := {
  f_ops : bool;
  file_pos : Z;
  file_size : Z;
  inode_number : Z;
  flags : Z;
}.

(** A little-endian 32-bit field at a byte offset. *)
Definition u32_at (l : list Z) (off : Z) : Z := le_decode (take 4 (drop (Z.to_nat off) l)).

(** [boot_block_t] *)
Definition num_dentry (b : list Z) : Z := u32_at b 0.
Definition num_inodes (b : list Z) : Z := u32_at b 4.
Definition num_data (b : list Z) : Z := u32_at b 8.
(** [dentry_t], entry [i] of the boot block. *)
Definition dentry_off (i : Z) : Z := 64 + 64 * i.
Definition dentry_name (b : list Z) (i : Z) : list Z := take 32 (drop (Z.to_nat (dentry_off i)) b).
Definition dentry_inode (b : list Z) (i : Z) : Z := u32_at b (dentry_off i + 32).
(** [inode_t] *)
Definition byte_len (n : list Z) : Z := u32_at n 0.
Definition data_block_num (n : list Z) (k : Z) : Z := u32_at n (4 + 4 * k).

Record kfs (D : Type) := {
  boot_block : list Z;
  inode : list Z;
  data_block : list Z;
  file_list : list file_t;
  disk_io : option D;
  kfs_lock : bool;
}.
Arguments boot_block {D} _.
Arguments inode {D} _.
Arguments data_block {D} _.
Arguments file_list {D} _.
Arguments disk_io {D} _.
Arguments kfs_lock {D} _.

Section Ops.
Context {D : Type} (ops : io_ops D) (hi : Z).
Notation kfs := (kfs D).

Definition set_boot (s : kfs) (b : list Z) : kfs :=
  {| boot_block := b; inode := inode s; data_block := data_block s; file_list := file_list s; disk_io := disk_io s; kfs_lock := kfs_lock s |}.
Definition set_inode (s : kfs) (b : list Z) : kfs :=
  {| boot_block := boot_block s; inode := b; data_block := data_block s; file_list := file_list s; disk_io := disk_io s; kfs_lock := kfs_lock s |}.
Definition set_data (s : kfs) (b : list Z) : kfs :=
  {| boot_block := boot_block s; inode := inode s; data_block := b; file_list := file_list s; disk_io := disk_io s; kfs_lock := kfs_lock s |}.
Definition set_files (s : kfs) (l : list file_t) : kfs :=
  {| boot_block := boot_block s; inode := inode s; data_block := data_block s; file_list := l; disk_io := disk_io s; kfs_lock := kfs_lock s |}.
Definition set_disk (s : kfs) (d : D) : kfs :=
  {| boot_block := boot_block s; inode := inode s; data_block := data_block s; file_list := file_list s; disk_io := Some d; kfs_lock := kfs_lock s |}.
Definition set_lock (s : kfs) (b : bool) : kfs :=
  {| boot_block := boot_block s; inode := inode s; data_block := data_block s; file_list := file_list s; disk_io := disk_io s; kfs_lock := b |}.

Definition acquire (s : kfs) : outcome kfs := if kfs_lock s then Blocked else Ret (set_lock s true).
Definition release (s : kfs) : kfs := set_lock s false.

(** * Disk accesses: seek, then read or write one block *)

(** The calls through a null table entry are faults; [r] is converted to
    [int]. *)
Definition disk_ctl (d : D) (cmd : Z) (arg : ioarg) : outcome (D * Z) :=
  match op_ctl ops with
  | Some ctl => let! (d, r, _) := ctl d cmd arg in Ret (d, r)
  | None => Fault
  end.
Definition disk_read (d : D) (n : Z) : outcome (D * Z * list Z) :=
  match op_read ops with Some read => read d n | None => Fault end.
Definition disk_write (d : D) (b : list Z) : outcome (D * Z) :=
  match op_write ops with Some write => write d b | None => Fault end.

(** Reads a block at a 32-bit offset over the old contents of a buffer. *)
Definition read_block (s : kfs) (off : Z) (old : list Z) : outcome (kfs * Z * list Z) :=
  match disk_io s with
  | None => Fault
  | Some d =>
      let! (d, ret) := disk_ctl d IOCTL_SETPOS (Some (off + 2 ^ 32 * hi)) in
      if ret <? 0 then Ret (set_disk s d, - EIO, old)
      else
        let! (d, ret, bs) := disk_read d FS_BLKSZ in
        let! b := put_block old 0 bs in
        Ret (set_disk s d, if i32 ret =? FS_BLKSZ then 0 else - EIO, b)
  end.

Definition update_inode (s : kfs) (inode_number : Z) : outcome (kfs * Z) :=
  let inode_offset := u32 (FS_BLKSZ + inode_number * FS_BLKSZ) in
  let! (s, ret, b) := read_block s inode_offset (inode s) in
  Ret (set_inode s b, ret).

Definition data_offset (s : kfs) (data_block_idx : Z) : Z :=
  u32 (FS_BLKSZ + num_inodes (boot_block s) * FS_BLKSZ + data_block_idx * FS_BLKSZ).

Definition update_data_block (s : kfs) (data_block_idx : Z) : outcome (kfs * Z) :=
  let! (s, ret, b) := read_block s (data_offset s data_block_idx) (data_block s) in
  Ret (set_data s b, ret).

Definition write_data_block (s : kfs) (data_block_idx : Z) : outcome (kfs * Z) :=
  match disk_io s with
  | None => Fault
  | Some d =>
      let! (d, ret) := disk_ctl d IOCTL_SETPOS (Some (data_offset s data_block_idx + 2 ^ 32 * hi)) in
      if ret <? 0 then Ret (set_disk s d, - EIO)
      else
        let! (d, ret) := disk_write d (data_block s) in
        Ret (set_disk s d, if i32 ret =? FS_BLKSZ then 0 else - EIO)
  end.

(** Only a negative result is an error here. *)
Definition write_inode (s : kfs) (inode_number : Z) : outcome (kfs * Z) :=
  let inode_offset := u32 (FS_BLKSZ + inode_number * FS_BLKSZ) in
  match disk_io s with
  | None => Fault
  | Some d =>
      let! (d, ret) := disk_ctl d IOCTL_SETPOS (Some (inode_offset + 2 ^ 32 * hi)) in
      if ret <? 0 then Ret (set_disk s d, - EIO)
      else
        let! (d, ret) := disk_write d (inode s) in
        Ret (set_disk s d, if i32 ret <? 0 then - EIO else 0)
  end.

(** * Open files *)

Definition released : file_t := {| f_ops := false; file_pos := 0; file_size := 0; inode_number := 0; flags := F_NOT_USE |}.

(** A file pointer: [None] is null. *)
Definition release_file (s : kfs) (dt : option nat) : outcome (kfs * Z) :=
  match dt with
  | None => Ret (s, - EINVAL)
  | Some i => guard! (i <? length (file_list s))%nat in Ret (set_files s (<[i := released]> (file_list s)), 0)
  end.

Fixpoint release_all (n i : nat) (s : kfs) : outcome kfs :=
  match n with
  | O => Ret s
  | S n => let! (s, _) := release_file s (Some i) in release_all n (S i) s
  end.
Definition initialize_file_list (s : kfs) : outcome (kfs * Z) :=
  let! s := release_all (Z.to_nat MAX_OPEN_FILES) 0 s in Ret (s, 0).

(** The first unused entry. *)
Fixpoint find_unused (l : list file_t) (i : nat) : option nat :=
  match l with
  | [] => None
  | f :: r => if flags f =? F_NOT_USE then Some i else find_unused r (S i)
  end.

Definition allocate_file (s : kfs) (ino : Z) : kfs * option nat :=
  if num_inodes (boot_block s) <? ino then (s, None)
  else
    match find_unused (file_list s) 0 with
    | None => (s, None)
    | Some i =>
        let f := {| f_ops := match file_list s !! i with Some f => f_ops f | None => false end;
                    file_pos := 0; file_size := byte_len (inode s); inode_number := ino; flags := F_IN_USE |} in
        (set_files s (<[i := f]> (file_list s)), Some i)
    end.

Definition get_fd_by_io (io : option nat) : option nat := io.

Definition get_file (s : kfs) (i : nat) : outcome file_t :=
  match file_list s !! i with Some f => Ret f | None => Fault end.
Definition put_pos (s : kfs) (i : nat) (pos : Z) : kfs :=
  match file_list s !! i with
  | Some f => set_files s (<[i := {| f_ops := f_ops f; file_pos := pos; file_size := file_size f;
                                     inode_number := inode_number f; flags := flags f |}]> (file_list s))
  | None => s
  end.

(** * Mounting and opening *)

Definition fs_mount (s : kfs) (io : option D) : outcome (kfs * Z) :=
  match io with
  | None => Ret (s, - EINVAL)
  | Some d =>
      let s := set_lock s false in
      let! (d, ret) := disk_ctl d IOCTL_SETPOS (Some 0) in
      if ret <? 0 then Ret (s, ret)
      else
        let! (s, ret) := initialize_file_list s in
        if ret =? - EIO then Ret (s, - EIO)
        else
          let! (d, ret, bs) := disk_read d FS_BLKSZ in
          let! b := put_block (boot_block s) 0 bs in
          let s := set_boot s b in
          if negb (i32 ret =? FS_BLKSZ) then Ret (s, - EIO)
          else Ret (set_disk s d, 0)
  end.

(** The search loop; [dir_entries] has 63 elements. *)
Fixpoint find_dentry (n : nat) (b : list Z) (name : list Z) (i : Z) : outcome Z :=
  match n with
  | O => Ret (-1)
  | S n =>
      guard! i <? MAX_DENTRY_NUM in
      let! c := strncmp (dentry_name b i) name (Z.to_nat FS_NAMELEN) in
      if c =? 0 then Ret (i32 (dentry_inode b i)) else find_dentry n b name (i + 1)
  end.

(** Returns the file that [*ioptr] is set to. *)
Definition fs_open (s : kfs) (name : option (list Z)) (null_ioptr : bool) : outcome (kfs * Z * option nat) :=
  match name with
  | None => Ret (s, - EINVAL, None)
  | Some name =>
      if null_ioptr then Ret (s, - EINVAL, None)
      else
        let! s := acquire s in
        let! ino := find_dentry (Z.to_nat (num_dentry (boot_block s))) (boot_block s) name 0 in
        if ino =? -1 then Ret (release s, - ENOENT, None)
        else
          let! (s, ret) := update_inode s (u32 ino) in
          if ret <? 0 then Ret (release s, - EIO, None)
          else
            match allocate_file s (u32 ino) with
            | (s, None) => Ret (release s, - EBUSY, None)
            | (s, Some fd) =>
                let! f := get_file s fd in
                let f := {| f_ops := true; file_pos := file_pos f; file_size := file_size f;
                            inode_number := inode_number f; flags := flags f |} in
                Ret (release (set_files s (<[fd := f]> (file_list s))), 0, Some fd)
            end
  end.

Definition fs_close (s : kfs) (io : option nat) : outcome kfs :=
  match get_fd_by_io io with
  | Some fd => let! (s, _) := release_file s (Some fd) in Ret s
  | None => Ret s
  end.

(** * Reading and writing *)

(** The copy loop of [fs_write] from the file position [pos]: the result is
    the number of bytes written, or [None] for the error exit. *)
Fixpoint write_loop (fuel : nat) (s : kfs) (pos allocated_blocks : Z) (buf : list Z) (written_bytes : Z)
    : outcome (kfs * option Z) :=
  let n := Z.of_nat (length buf) in
  if written_bytes <? n then
    match fuel with
    | O => NoFuel
    | S fuel =>
        let byte_offset := u32 (pos + written_bytes) in
        let block_idx := byte_offset / FS_BLKSZ in
        let block_offset := byte_offset mod FS_BLKSZ in
        if (allocated_blocks <=? block_idx) || (MAX_DB_PER_INODE <=? block_idx) then Ret (s, Some written_bytes)
        else
          let! (s, ret) := update_data_block s (data_block_num (inode s) block_idx) in
          if ret <? 0 then Ret (s, None)
          else
            let bytes_in_block := FS_BLKSZ - block_offset in
            let bytes_left_to_write := u32 (n - written_bytes) in
            let bytes_to_copy := if bytes_in_block <? bytes_left_to_write then bytes_in_block else bytes_left_to_write in
            let! chunk := get_block buf written_bytes bytes_to_copy in
            let! data := put_block (data_block s) block_offset chunk in
            let! (s, ret) := write_data_block (set_data s data) (data_block_num (inode s) block_idx) in
            if ret <? 0 then Ret (s, None)
            else write_loop fuel s pos allocated_blocks buf (written_bytes + bytes_to_copy)
    end
  else Ret (s, Some written_bytes).

Definition allocated (ino : list Z) : Z := u32 (byte_len ino + FS_BLKSZ - 1) / FS_BLKSZ.

(** Enough turns for [n] bytes, the last of which may find no block. *)
Definition turns (n : Z) : nat := Z.to_nat (n / FS_BLKSZ + 3).

Definition fs_write (s : kfs) (io : option nat) (buf : option (list Z)) : outcome (kfs * Z) :=
  match io, buf with
  | Some io, Some buf =>
      let n := Z.of_nat (length buf) in
      if n =? 0 then Ret (s, n)
      else
        let! s := acquire s in
        let! fd := get_file s io in
        if num_inodes (boot_block s) <=? inode_number fd then Ret (release s, - EIO)
        else
          let! (s, ret) := update_inode s (inode_number fd) in
          if ret <? 0 then Ret (release s, - EIO)
          else
            let! (s, w) := write_loop (turns n) s (file_pos fd) (allocated (inode s)) buf 0 in
            match w with
            | None => Ret (release s, - EIO)
            | Some written_bytes =>
                let s := put_pos s io (u32 (file_pos fd + written_bytes)) in
                let! (s, ret) := write_inode s (inode_number fd) in
                if ret <? 0 then Ret (release s, - EIO) else Ret (release s, written_bytes)
            end
  | _, _ => Ret (s, - EINVAL)
  end.

(** The copy loop of [fs_read]; [out] is what has been stored in the caller's
    buffer. *)
Fixpoint read_loop (fuel : nat) (s : kfs) (pos allocated_blocks bytes_to_read : Z) (out : list Z)
    : outcome (kfs * bool * list Z) :=
  let read_bytes := Z.of_nat (length out) in
  if read_bytes <? bytes_to_read then
    match fuel with
    | O => NoFuel
    | S fuel =>
        let byte_offset := u32 (pos + read_bytes) in
        let block_idx := byte_offset / FS_BLKSZ in
        let block_offset := byte_offset mod FS_BLKSZ in
        if (allocated_blocks <=? block_idx) || (MAX_DB_PER_INODE <=? block_idx) then Ret (s, false, out)
        else
          let data_block_idx := data_block_num (inode s) block_idx in
          if num_data (boot_block s) <=? data_block_idx then Ret (s, false, out)
          else
            let! (s, ret) := update_data_block s data_block_idx in
            if ret <? 0 then Ret (s, false, out)
            else
              let bytes_in_block := FS_BLKSZ - block_offset in
              let bytes_left_to_read := bytes_to_read - read_bytes in
              let bytes_to_copy := u32 (if bytes_in_block <? bytes_left_to_read then bytes_in_block else bytes_left_to_read) in
              let! chunk := get_block (data_block s) block_offset bytes_to_copy in
              read_loop fuel s pos allocated_blocks bytes_to_read (out ++ chunk)
    end
  else Ret (s, true, out).

Definition fs_read (s : kfs) (io : option nat) (null_buf : bool) (n : Z) : outcome (kfs * Z * list Z) :=
  match io with
  | None => Ret (s, - EINVAL, [])
  | Some io =>
      if null_buf then Ret (s, - EINVAL, [])
      else if n =? 0 then Ret (s, n, [])
      else
        let! s := acquire s in
        let! fd := get_file s io in
        if file_size fd <=? file_pos fd then Ret (release s, 0, [])
        else if num_inodes (boot_block s) <=? inode_number fd then Ret (release s, - EIO, [])
        else
          let! (s, ret) := update_inode s (inode_number fd) in
          if ret <? 0 then Ret (release s, - EIO, [])
          else
            let bytes_remaining := u32 (file_size fd - file_pos fd) in
            let bytes_to_read := if n <? bytes_remaining then n else bytes_remaining in
            let! (s, ok, out) := read_loop (turns bytes_to_read) s (file_pos fd) (allocated (inode s)) bytes_to_read [] in
            if negb ok then Ret (release s, - EIO, out)
            else
              let read_bytes := Z.of_nat (length out) in
              Ret (release (put_pos s io (u32 (file_pos fd + read_bytes))), read_bytes, out)
  end.

(** * ioctl *)

Definition fs_getlen (s : kfs) (fd : nat) (arg : Z) : outcome (kfs * Z * ioarg) :=
  let! f := get_file s fd in Ret (s, 0, Some (set_lo32 arg (file_size f))).
Definition fs_getpos (s : kfs) (fd : nat) (arg : Z) : outcome (kfs * Z * ioarg) :=
  let! f := get_file s fd in Ret (s, 0, Some (set_lo32 arg (file_pos f))).
Definition fs_setpos (s : kfs) (fd : nat) (arg : Z) : outcome (kfs * Z * ioarg) :=
  let! s := acquire s in
  let! f := get_file s fd in
  let pos := u32 arg in
  if file_size f <? pos then Ret (release s, - EINVAL, Some arg)
  else Ret (release (put_pos s fd pos), 0, Some arg).
Definition fs_getblksz (s : kfs) (fd : nat) (arg : Z) : outcome (kfs * Z * ioarg) :=
  Ret (s, 0, Some (set_lo32 arg FS_BLKSZ)).

Definition fs_ioctl (s : kfs) (io : option nat) (cmd : Z) (arg : ioarg) : outcome (kfs * Z * ioarg) :=
  match get_fd_by_io io, arg with
  | Some fd, Some a =>
      if cmd =? IOCTL_GETLEN then fs_getlen s fd a
      else if cmd =? IOCTL_GETPOS then fs_getpos s fd a
      else if cmd =? IOCTL_SETPOS then fs_setpos s fd a
      else if cmd =? IOCTL_GETBLKSZ then fs_getblksz s fd a
      else Ret (s, - ENOTSUP, arg)
  | _, _ => Ret (s, - EINVAL, arg)
  end.

(** [fs_io_ops] for the file at [io]. *)
Definition fs_io_ops (io : nat) : io_ops kfs := {|
  op_close := Some (fun s => fs_close s (Some io));
  op_read := Some (fun s n => fs_read s (Some io) false n);
  op_write := Some (fun s b => fs_write s (Some io) (Some b));
  op_ctl := Some (fun s cmd arg => fs_ioctl s (Some io) cmd arg);
|}.
End Ops.

(** The block size as a natural number. *)
Definition BLK : nat := Z.to_nat FS_BLKSZ.
Lemma BLK_Z : Z.of_nat BLK = FS_BLKSZ.
Proof. unfold BLK, FS_BLKSZ. lia. Qed.
Lemma BLK_mul z : 0 <= z -> (BLK * Z.to_nat z)%nat = Z.to_nat (FS_BLKSZ * z).
Proof. intros. unfold BLK. by rewrite Z2Nat.inj_mul by (unfold FS_BLKSZ; lia). Qed.
Lemma blk_aligned b : (FS_BLKSZ * b) mod FS_BLKSZ = 0.
Proof. rewrite Z.mul_comm. by apply Z_mod_mult. Qed.
#[global] Opaque BLK.
Ltac blk_lia := pose proof BLK_Z; unfold FS_BLKSZ in *; lia.

(** * The disk

    What kfs.c relies on, from the description of the operations in io.h: a
    seek to a block offset inside the object succeeds, and a read or write of a
    whole block at a block offset inside it is complete and moves exactly that
    block.  Reading needs only [ReadDisk]. *)
Class ReadDisk {D : Type} (ops : io_ops D) (hi : Z) := {
  dk_wf : D -> Prop;
  dk_data : D -> list Z;
  dk_at : D -> Z -> Prop;
  dk_seek d off : dk_wf d -> 0 <= off < 2 ^ 31 -> off + FS_BLKSZ <= Z.of_nat (length (dk_data d)) ->
    exists d' r, disk_ctl ops d IOCTL_SETPOS (Some (off + 2 ^ 32 * hi)) = Ret (d', r) /\ 0 <= r /\
      dk_wf d' /\ dk_data d' = dk_data d /\ dk_at d' off;
  dk_rewind d : dk_wf d ->
    exists d' r, disk_ctl ops d IOCTL_SETPOS (Some 0) = Ret (d', r) /\ 0 <= r /\
      dk_wf d' /\ dk_data d' = dk_data d /\ dk_at d' 0;
  dk_read d off : dk_wf d -> dk_at d off -> 0 <= off < 2 ^ 31 -> off mod FS_BLKSZ = 0 ->
    off + FS_BLKSZ <= Z.of_nat (length (dk_data d)) ->
    exists d', disk_read ops d FS_BLKSZ = Ret (d', FS_BLKSZ, take BLK (drop (Z.to_nat off) (dk_data d))) /\
      dk_wf d' /\ dk_data d' = dk_data d;
}.

Class BlockDisk {D : Type} (ops : io_ops D) (hi : Z) `{!ReadDisk ops hi} := {
  dk_write d off b : dk_wf d -> dk_at d off -> 0 <= off < 2 ^ 31 -> off mod FS_BLKSZ = 0 ->
    off + FS_BLKSZ <= Z.of_nat (length (dk_data d)) -> Z.of_nat (length b) = FS_BLKSZ ->
    exists d', disk_write ops d b = Ret (d', FS_BLKSZ) /\ dk_wf d' /\ dk_data d' = splice (dk_data d) (Z.to_nat off) b;
}.

(** * Images *)

Definition blk (img : list Z) (b : Z) : list Z := take BLK (drop (Z.to_nat (FS_BLKSZ * b)) img).
Definition boot_of (img : list Z) : list Z := blk img 0.
Definition inode_of (img : list Z) (i : Z) : list Z := blk img (1 + i).
Definition data_pos (img : list Z) (j : Z) : Z := 1 + num_inodes (boot_of img) + j.
Definition data_of (img : list Z) (j : Z) : list Z := blk img (data_pos img j).

(** The numbers of the data blocks of an inode, their bytes, and the file. *)
Definition block_nums (n : list Z) : list Z := data_block_num n <$> seqZ 0 (allocated n).
Definition file_space (img : list Z) (i : Z) : list Z := concat (data_of img <$> block_nums (inode_of img i)).
Definition content (img : list Z) (i : Z) : list Z := take (Z.to_nat (byte_len (inode_of img i))) (file_space img i).

(** A consistent image. *)
Record img_ok (img : list Z) : Prop := {
  im_bytes : bytes_ok img;
  im_size : FS_BLKSZ * (1 + num_inodes (boot_of img) + num_data (boot_of img)) <= Z.of_nat (length img) < 2 ^ 31;
  im_dentries : num_dentry (boot_of img) <= MAX_DENTRY_NUM;
  im_len i : 0 <= i < num_inodes (boot_of img) -> byte_len (inode_of img i) <= MAX_DB_PER_INODE * FS_BLKSZ;
  im_nums i : 0 <= i < num_inodes (boot_of img) -> Forall (fun j => j < num_data (boot_of img)) (block_nums (inode_of img i));
}.

(** Blocks of one size side by side. *)
Lemma concat_lookup_block {A} (l : list (list A)) n k b : Forall (fun x => length x = n) l -> l !! k = Some b ->
  take n (drop (n * k) (concat l)) = b.
Proof.
  intros Hl. revert k; induction Hl as [|x l Hx Hl IH]; intros k; [done|]. destruct k as [|k]; cbn [concat].
  - intros [= <-]. rewrite Nat.mul_0_r, drop_0, <- Hx. apply take_app_length.
  - cbn. intros Hk. rewrite drop_app_ge by lia. replace (n * S k - length x)%nat with (n * k)%nat by lia. by apply IH.
Qed.

Lemma length_concat_block {A} (l : list (list A)) n : Forall (fun x => length x = n) l -> length (concat l) = (n * length l)%nat.
Proof. induction 1; cbn; [lia|]. rewrite length_app. lia. Qed.

Lemma concat_insert_block {A} (l : list (list A)) n k b : Forall (fun x => length x = n) l -> (k < length l)%nat -> length b = n ->
  concat (<[k := b]> l) = splice (concat l) (n * k) b.
Proof.
  intros Hl Hk Hb. revert k Hk; induction Hl as [|x l Hx Hl IH]; intros k Hk; [cbn in Hk; lia|].
  destruct k as [|k]; cbn [concat insert list_insert].
  - rewrite Nat.mul_0_r. unfold splice. rewrite take_0, Nat.add_0_l, Hb, <- Hx. by rewrite drop_app_length.
  - cbn in Hk. rewrite IH by lia. unfold splice. rewrite take_app_ge, drop_app_ge by lia.
    rewrite <- !app_assoc. f_equal. f_equal; [f_equal; lia|]. f_equal. f_equal. lia.
Qed.

(** A chunk of one block is a chunk of the whole. *)
Lemma chunk_of_block {A} (l : list (list A)) n k b o c : Forall (fun x => length x = n) l -> l !! k = Some b -> (o + c <= n)%nat ->
  take c (drop o b) = take c (drop (n * k + o) (concat l)).
Proof.
  intros Hl Hk Hc. rewrite <- (concat_lookup_block l n k b) by done. rewrite <- drop_drop.
  replace n with (o + (n - o))%nat at 1 by lia. rewrite <- take_drop_commute, take_take. f_equal. lia.
Qed.

Section Image.
Context (img : list Z) (Hok : img_ok img).
Local Notation ni := (num_inodes (boot_of img)).
Local Notation nd := (num_data (boot_of img)).

Lemma u32_at_range l off : bytes_ok l -> 0 <= u32_at l off < 2 ^ 32.
Proof.
  intros H. unfold u32_at. assert (Hb : bytes_ok (take 4 (drop (Z.to_nat off) l))) by auto with kern.
  apply le_decode_range in Hb. assert (256 ^ Z.of_nat (length (take 4 (drop (Z.to_nat off) l))) <= 256 ^ 4).
  { apply Z.pow_le_mono_r; [lia|]. rewrite length_take. lia. } lia.
Qed.

Lemma blk_bytes b : bytes_ok (blk img b).
Proof. unfold blk. apply bytes_ok_take, bytes_ok_drop, Hok. Qed.

Lemma blk_length b : 0 <= b < 1 + ni + nd -> length (blk img b) = BLK.
Proof.
  intros Hb. destruct (im_size _ Hok) as [Hs _]. unfold blk.
  rewrite length_take, length_drop. blk_lia.
Qed.

Lemma counts_range : 0 <= ni < 2 ^ 32 /\ 0 <= nd < 2 ^ 32.
Proof. split; apply u32_at_range, blk_bytes. Qed.

Lemma block_num_range i k : 0 <= i < ni -> 0 <= k < allocated (inode_of img i) ->
  0 <= data_block_num (inode_of img i) k < nd.
Proof.
  intros Hi Hk. destruct (u32_at_range (inode_of img i) (4 + 4 * k) (blk_bytes _)) as [H0 _]. split; [exact H0|].
  assert (HF := im_nums _ Hok i Hi). rewrite Forall_forall in HF. apply HF.
  assert (Hin : k ∈ seqZ 0 (allocated (inode_of img i))) by (apply elem_of_seqZ; lia).
  exact (list_elem_of_fmap_2 (data_block_num (inode_of img i)) _ _ Hin).
Qed.

(** How many blocks an inode has. *)
Lemma allocated_spec i : 0 <= i < ni -> let n := inode_of img i in
  0 <= byte_len n <= allocated n * FS_BLKSZ /\ allocated n * FS_BLKSZ < byte_len n + FS_BLKSZ /\ allocated n <= MAX_DB_PER_INODE.
Proof.
  intros Hi n. assert (Hl := im_len _ Hok i Hi). fold n in Hl.
  assert (Hr : 0 <= byte_len n < 2 ^ 32) by apply u32_at_range, blk_bytes.
  unfold allocated, MAX_DB_PER_INODE, FS_BLKSZ in *. rewrite u32_small by lia. Z.to_euclidean_division_equations; lia.
Qed.

Lemma block_nums_lookup n k : 0 <= k < allocated n -> block_nums n !! Z.to_nat k = Some (data_block_num n k).
Proof.
  intros Hk. unfold block_nums. rewrite list_lookup_fmap.
  assert (Hs : seqZ 0 (allocated n) !! Z.to_nat k = Some k) by (apply lookup_seqZ; lia). by rewrite Hs.
Qed.

Lemma space_blocks i : 0 <= i < ni -> Forall (fun x => length x = BLK) (data_of img <$> block_nums (inode_of img i)).
Proof.
  intros Hi. assert (HF := im_nums _ Hok i Hi). rewrite Forall_fmap.
  rewrite Forall_forall in HF |- *. intros j Hj. apply blk_length.
  assert (Hj' := Hj). apply HF in Hj'. unfold block_nums in Hj. apply list_elem_of_fmap in Hj as (k & -> & Hk).
  apply elem_of_seqZ in Hk. destruct (block_num_range i k Hi) as [? ?]; [lia|]. unfold data_pos.
  destruct counts_range. lia.
Qed.

Lemma space_lookup i k : 0 <= i < ni -> 0 <= k < allocated (inode_of img i) ->
  (data_of img <$> block_nums (inode_of img i)) !! Z.to_nat k = Some (data_of img (data_block_num (inode_of img i) k)).
Proof. intros Hi Hk. rewrite list_lookup_fmap, block_nums_lookup by done. done. Qed.

Lemma length_block_nums n : 0 <= allocated n -> length (block_nums n) = Z.to_nat (allocated n).
Proof. intros. unfold block_nums. by rewrite length_fmap, length_seqZ. Qed.

Lemma length_space i : 0 <= i < ni -> length (file_space img i) = Z.to_nat (allocated (inode_of img i) * FS_BLKSZ).
Proof.
  intros Hi. unfold file_space. rewrite (length_concat_block _ BLK) by by apply space_blocks.
  destruct (allocated_spec i Hi) as (H0 & H1 & _). rewrite length_fmap, length_block_nums, BLK_mul by (unfold FS_BLKSZ in *; lia). f_equal. lia.
Qed.

Lemma length_content i : 0 <= i < ni -> Z.of_nat (length (content img i)) = byte_len (inode_of img i).
Proof.
  intros Hi. unfold content. rewrite length_take, length_space by done.
  destruct (allocated_spec i Hi) as (H0 & _). lia.
Qed.

(** A chunk inside one block, of the space or of the file. *)
Lemma space_chunk i off c : 0 <= i < ni -> 0 <= off -> 0 <= c -> off / FS_BLKSZ < allocated (inode_of img i) ->
  off mod FS_BLKSZ + c <= FS_BLKSZ ->
  take (Z.to_nat c) (drop (Z.to_nat (off mod FS_BLKSZ)) (data_of img (data_block_num (inode_of img i) (off / FS_BLKSZ))))
  = take (Z.to_nat c) (drop (Z.to_nat off) (file_space img i)).
Proof.
  intros Hi Ho Hc Hk Hoc. assert (Hk0 : 0 <= off / FS_BLKSZ) by (apply Z.div_pos; [done|unfold FS_BLKSZ; lia]).
  assert (Hm := Z.mod_pos_bound off FS_BLKSZ ltac:(done)). assert (Hd := Z.div_mod off FS_BLKSZ ltac:(done)).
  unfold file_space. rewrite (chunk_of_block (data_of img <$> block_nums (inode_of img i)) BLK (Z.to_nat (off / FS_BLKSZ))
    (data_of img (data_block_num (inode_of img i) (off / FS_BLKSZ))));
    [|by apply space_blocks|by apply space_lookup|blk_lia].
  do 2 f_equal. rewrite BLK_mul by done. unfold FS_BLKSZ in *. lia.
Qed.

Lemma content_chunk i off c : 0 <= i < ni -> 0 <= off -> 0 <= c -> off + c <= byte_len (inode_of img i) ->
  take (Z.to_nat c) (drop (Z.to_nat off) (content img i)) = take (Z.to_nat c) (drop (Z.to_nat off) (file_space img i)).
Proof.
  intros Hi Ho Hc Hl. unfold content.
  replace (Z.to_nat (byte_len (inode_of img i))) with (Z.to_nat off + (Z.to_nat (byte_len (inode_of img i)) - Z.to_nat off))%nat by lia.
  rewrite <- take_drop_commute, take_take. f_equal. lia.
Qed.
End Image.

(** * Writing a data block of the image *)

(** A block inside a larger list. *)
Lemma splice_inner {A} (l b c : list A) a o : b = take (length b) (drop a l) -> (a + length b <= length l)%nat ->
  (o + length c <= length b)%nat -> splice l a (splice b o c) = splice l (a + o) c.
Proof.
  intros Hb Hl Hc. unfold splice at 1. rewrite length_splice by done. unfold splice.
  assert (E1 : take (a + o) l = take a l ++ take o b).
  { rewrite take_add. f_equal. rewrite Hb at 1. rewrite take_take. f_equal. lia. }
  assert (E2 : drop (a + o + length c) l = drop (o + length c) b ++ drop (a + length b) l).
  { rewrite Hb at 1. replace (drop (o + length c) (take (length b) (drop a l)))
      with (take (length b - (o + length c)) (drop (o + length c) (drop a l)))
      by (rewrite take_drop_commute; do 2 f_equal; lia).
    rewrite drop_drop. replace (a + length b)%nat with ((a + (o + length c)) + (length b - (o + length c)))%nat by lia.
    rewrite <- (drop_drop l _ (a + (o + length c))), take_drop, Nat.add_assoc. done. }
  by rewrite E1, E2, <- !app_assoc.
Qed.

Lemma blk_splice img b d b' : length d = BLK -> 0 <= b -> FS_BLKSZ * b + FS_BLKSZ <= Z.of_nat (length img) -> 0 <= b' ->
  blk (splice img (Z.to_nat (FS_BLKSZ * b)) d) b' = if decide (b = b') then d else blk img b'.
Proof.
  intros Hd Hb Hl Hb'. unfold blk. destruct (decide (b = b')) as [<-|Hn].
  - rewrite <- Hd. apply splice_mid. blk_lia.
  - destruct (Z.lt_ge_cases b b') as [Hlt|Hge].
    + rewrite drop_splice; [done|blk_lia|blk_lia].
    + apply list_eq. intros k. destruct (decide (k < BLK)%nat).
      * rewrite !lookup_take_lt, !lookup_drop by done. apply lookup_splice_out; [blk_lia|]. left. blk_lia.
      * rewrite !lookup_take_ge by lia. done.
Qed.

Definition img_upd (img : list Z) (j : Z) (d : list Z) : list Z := splice img (Z.to_nat (FS_BLKSZ * data_pos img j)) d.

(** [img'] is [img] with [d] written into the space of inode [i] at [pos]. *)
Record wrote (img img' : list Z) (i pos : Z) (d : list Z) : Prop := {
  wr_ok : img_ok img';
  wr_boot : boot_of img' = boot_of img;
  wr_inode i' : 0 <= i' < num_inodes (boot_of img) -> inode_of img' i' = inode_of img i';
  wr_space : file_space img' i = splice (file_space img i) (Z.to_nat pos) d;
  wr_other j : 0 <= j < num_data (boot_of img) -> j ∉ block_nums (inode_of img i) -> data_of img' j = data_of img j;
}.

Section Upd.
Context (img : list Z) (Hok : img_ok img) (j : Z) (d : list Z).
Context (Hj : 0 <= j < num_data (boot_of img)) (Hd : length d = BLK) (Hdb : bytes_ok d).
Local Notation ni := (num_inodes (boot_of img)).
Local Notation nd := (num_data (boot_of img)).

Lemma upd_blk b : 0 <= b -> blk (img_upd img j d) b = if decide (data_pos img j = b) then d else blk img b.
Proof.
  intros Hb. destruct (counts_range img Hok) as [Hni Hnd]. destruct (im_size _ Hok) as [Hs _].
  apply blk_splice; [done| | |done]; unfold data_pos, FS_BLKSZ in *; lia.
Qed.
Lemma upd_boot : boot_of (img_upd img j d) = boot_of img.
Proof.
  unfold boot_of at 1. rewrite upd_blk by lia. rewrite decide_False; [done|]. destruct (counts_range img Hok). unfold data_pos. lia.
Qed.
Lemma upd_inode i : 0 <= i < ni -> inode_of (img_upd img j d) i = inode_of img i.
Proof. intros Hi. unfold inode_of. rewrite upd_blk by lia. rewrite decide_False; [done|]. unfold data_pos. lia. Qed.
Lemma upd_data k : 0 <= k -> data_of (img_upd img j d) k = if decide (j = k) then d else data_of img k.
Proof.
  intros Hk. unfold data_of, data_pos at 1. rewrite upd_boot. fold (data_pos img k). destruct (counts_range img Hok).
  rewrite upd_blk by (unfold data_pos; lia). destruct (decide (j = k)) as [->|]; [by rewrite decide_True|].
  rewrite decide_False; [done|]. unfold data_pos. lia.
Qed.

Lemma upd_ok : img_ok (img_upd img j d).
Proof.
  destruct (im_size _ Hok) as [Hs Hs2]. destruct (counts_range img Hok) as [Hni Hnd].
  assert (Hl : length (img_upd img j d) = length img) by (unfold img_upd; apply length_splice; unfold data_pos; blk_lia).
  split; rewrite ?upd_boot, ?Hl; try done.
  - unfold img_upd. apply bytes_ok_splice; [apply Hok|done].
  - apply Hok.
  - intros i Hi. rewrite upd_inode by done. by apply Hok.
  - intros i Hi. rewrite upd_inode by done. by apply Hok.
Qed.
End Upd.

(** Writing part of block [k] of a file. *)
Lemma wrote_block img i k o c : img_ok img -> 0 <= i < num_inodes (boot_of img) -> NoDup (block_nums (inode_of img i)) ->
  0 <= k < allocated (inode_of img i) -> 0 <= o -> o + Z.of_nat (length c) <= FS_BLKSZ -> bytes_ok c ->
  let j := data_block_num (inode_of img i) k in
  wrote img (img_upd img j (splice (data_of img j) (Z.to_nat o) c)) i (FS_BLKSZ * k + o) c.
Proof.
  intros Hok Hi Hnd Hk Ho Hc Hcb j. assert (Hj := block_num_range img Hok i k Hi Hk). fold j in Hj.
  assert (Hbl : length (data_of img j) = BLK).
  { apply (blk_length img Hok). destruct (counts_range img Hok). unfold data_pos. lia. }
  set (d := splice (data_of img j) (Z.to_nat o) c).
  assert (Hd : length d = BLK) by (unfold d; rewrite length_splice; [done|blk_lia]).
  assert (Hdb : bytes_ok d) by (apply bytes_ok_splice; [apply (blk_bytes img Hok)|done]).
  split.
  - by apply upd_ok.
  - by apply upd_boot.
  - intros i' Hi'. by apply upd_inode.
  - unfold file_space. rewrite (upd_inode img Hok j d) by done. set (nums := block_nums (inode_of img i)).
    assert (Hlk : nums !! Z.to_nat k = Some j) by by apply block_nums_lookup.
    assert (E : data_of (img_upd img j d) <$> nums = <[Z.to_nat k := d]> (data_of img <$> nums)).
    { apply list_eq. intros n. rewrite list_lookup_fmap. destruct (decide (n = Z.to_nat k)) as [->|Hn].
      - rewrite Hlk, list_lookup_insert_eq by (rewrite length_fmap; by eapply lookup_lt_Some). cbn.
        rewrite (upd_data img Hok j d) by (done || lia). by rewrite decide_True.
      - rewrite list_lookup_insert_ne by done. rewrite list_lookup_fmap. destruct (nums !! n) as [j'|] eqn:Hn'; [|done]. cbn.
        assert (0 <= j') by (unfold nums, block_nums in Hn'; rewrite list_lookup_fmap in Hn';
          destruct (seqZ _ _ !! n); cbn in Hn'; [|done]; injection Hn' as <-; apply u32_at_range, (blk_bytes img Hok)).
        rewrite (upd_data img Hok j d) by done. rewrite decide_False; [done|]. intros <-. apply Hn.
        by eapply NoDup_lookup. }
    assert (HF := space_blocks img Hok i Hi). fold nums in HF.
    assert (Hkl : (Z.to_nat k < length (data_of img <$> nums))%nat) by (rewrite length_fmap; by eapply lookup_lt_Some).
    rewrite E, (concat_insert_block _ BLK) by done. unfold d. rewrite splice_inner.
    + f_equal. rewrite BLK_mul by lia. unfold FS_BLKSZ. lia.
    + rewrite Hbl. symmetry. apply concat_lookup_block; [done|]. by rewrite list_lookup_fmap, Hlk.
    + rewrite Hbl, (length_concat_block _ BLK) by done. nia.
    + rewrite Hbl. blk_lia.
  - intros j' Hj' Hn. rewrite (upd_data img Hok j d) by (done || lia). rewrite decide_False; [done|]. intros <-. apply Hn.
    eapply list_elem_of_lookup_2. by apply block_nums_lookup.
Qed.

Lemma wrote_nil img i pos : img_ok img -> wrote img img i pos [].
Proof. intros. split; try done. by rewrite splice_nil. Qed.

Lemma wrote_trans img1 img2 img3 i pos d1 d2 : wrote img1 img2 i pos d1 -> wrote img2 img3 i (pos + Z.of_nat (length d1)) d2 ->
  0 <= i < num_inodes (boot_of img1) -> 0 <= pos -> (Z.to_nat pos + length d1 + length d2 <= length (file_space img1 i))%nat ->
  wrote img1 img3 i pos (d1 ++ d2).
Proof.
  intros [O1 B1 I1 S1 D1] [O2 B2 I2 S2 D2] Hi Hp Hl. split; [done|congruence|..].
  - intros i' Hi'. rewrite I2, I1 by (rewrite ?B1; done). done.
  - rewrite S2, S1. replace (Z.to_nat (pos + Z.of_nat (length d1))) with (Z.to_nat pos + length d1)%nat by lia.
    by rewrite splice_splice.
  - intros j Hj Hn. rewrite D2; [by apply D1|by rewrite B1|by rewrite I1].
Qed.

(** * The mounted file system *)

Section Mounted.
Context {D : Type} (ops : io_ops D) (hi : Z) `{HR : !ReadDisk ops hi} `{HW : !BlockDisk ops hi}.
Notation kfs := (kfs D).

(** The buffers and the disk of a mounted file system with image [img]. *)
Record fsrep (s : kfs) (img : list Z) : Prop := {
  fr_disk : exists d, disk_io s = Some d /\ dk_wf d /\ dk_data d = img;
  fr_boot : boot_block s = boot_of img;
  fr_inode : length (inode s) = BLK;
  fr_data : length (data_block s) = BLK;
}.

(** Only the disk and the inode and data buffers differ. *)
Definition keeps (s s' : kfs) : Prop :=
  boot_block s' = boot_block s /\ file_list s' = file_list s /\ kfs_lock s' = kfs_lock s.

Lemma fs_keeps_trans s1 s2 s3 : keeps s1 s2 -> keeps s2 s3 -> keeps s1 s3.
Proof. unfold keeps. intros (? & ? & ?) (? & ? & ?). split_and!; congruence. Qed.

Section Rep.
Context (img : list Z) (Hok : img_ok img).
Local Notation ni := (num_inodes (boot_of img)).
Local Notation nd := (num_data (boot_of img)).

Lemma block_offset_ok b : 0 <= b < 1 + ni + nd -> 0 <= FS_BLKSZ * b < 2 ^ 31 /\ FS_BLKSZ * b + FS_BLKSZ <= Z.of_nat (length img) /\
  u32 (FS_BLKSZ * b) = FS_BLKSZ * b.
Proof.
  intros Hb. destruct (im_size _ Hok) as [Hs Hs2]. unfold FS_BLKSZ in *. split; [lia|]. split; [lia|]. apply u32_small. lia.
Qed.

Lemma read_block_spec s b old : fsrep s img -> 0 <= b < 1 + ni + nd -> length old = BLK ->
  exists d, read_block ops hi s (FS_BLKSZ * b) old = Ret (set_disk s d, 0, blk img b) /\ dk_wf d /\ dk_data d = img.
Proof.
  intros [(d & Hd & Hwf & Hdata) _ _ _] Hb Hold. destruct (block_offset_ok b Hb) as (Ho & Hl & _). unfold read_block. rewrite Hd.
  destruct (dk_seek d (FS_BLKSZ * b)) as (d1 & r & -> & Hr & Hwf1 & Hd1 & Hat); [done|lia|by rewrite Hdata|].
  cbn [obind]. replace (r <? 0) with false by lia.
  destruct (dk_read d1 (FS_BLKSZ * b)) as (d2 & -> & Hwf2 & Hd2); [done|done|lia|by apply blk_aligned|by rewrite Hd1, Hdata|].
  cbn [obind]. rewrite Hd1, Hdata in *. fold (blk img b). assert (Hbl := blk_length img Hok b Hb).
  rewrite put_block_Ret by (rewrite ?Hbl, ?Hold; lia). cbn [obind].
  exists d2. split; [|done]. change (i32 FS_BLKSZ =? FS_BLKSZ) with true. do 2 f_equal.
  change (Z.to_nat 0) with 0%nat. unfold splice. rewrite take_0, Nat.add_0_l, drop_ge by (rewrite Hbl, Hold; lia). by rewrite app_nil_r.
Qed.

Lemma update_inode_spec s i : fsrep s img -> 0 <= i < ni ->
  exists s', update_inode ops hi s i = Ret (s', 0) /\ fsrep s' img /\ keeps s s' /\ inode s' = inode_of img i.
Proof.
  intros Hr Hi. destruct (counts_range img Hok) as [_ Hnd]. assert (Hb : 0 <= 1 + i < 1 + ni + nd) by lia.
  destruct (block_offset_ok _ Hb) as (_ & _ & Hu). unfold update_inode.
  replace (FS_BLKSZ + i * FS_BLKSZ) with (FS_BLKSZ * (1 + i)) by lia. rewrite Hu.
  destruct (read_block_spec s (1 + i) (inode s) Hr Hb (fr_inode _ _ Hr)) as (d & -> & Hwf & Hd). cbn [obind].
  eexists. split; [reflexivity|]. split; [|split; [done|done]]. destruct Hr as [_ ? _ ?].
  split; [by exists d|done| |done]. cbn [inode set_inode]. by apply (blk_length img Hok).
Qed.

Lemma data_offset_spec (s : kfs) j : boot_block s = boot_of img -> 0 <= j < nd -> data_offset s j = FS_BLKSZ * data_pos img j /\
  0 <= data_pos img j < 1 + ni + nd.
Proof.
  intros Hb Hj. destruct (counts_range img Hok) as [Hni _]. assert (Hp : 0 <= data_pos img j < 1 + ni + nd) by (unfold data_pos; lia).
  split; [|done]. destruct (block_offset_ok _ Hp) as (_ & _ & Hu). unfold data_offset. rewrite Hb, <- Hu. f_equal. unfold data_pos. lia.
Qed.

Lemma update_data_spec s j : fsrep s img -> 0 <= j < nd ->
  exists s', update_data_block ops hi s j = Ret (s', 0) /\ fsrep s' img /\ keeps s s' /\ inode s' = inode s /\ data_block s' = data_of img j.
Proof.
  intros Hr Hj. destruct (data_offset_spec s j (fr_boot _ _ Hr) Hj) as [Ho Hp]. unfold update_data_block. rewrite Ho.
  destruct (read_block_spec s _ (data_block s) Hr Hp (fr_data _ _ Hr)) as (d & -> & Hwf & Hd). cbn [obind].
  eexists. split; [reflexivity|]. split; [|split; [done|done]]. destruct Hr as [_ ? ? _].
  split; [by exists d|done|done|]. cbn [data_block set_data]. by apply (blk_length img Hok).
Qed.

(** * Reading *)

Lemma read_loop_spec fuel i pos target : forall s out, fsrep s img -> inode s = inode_of img i -> 0 <= i < ni -> 0 <= pos -> 0 <= target ->
  pos + target <= byte_len (inode_of img i) -> Z.of_nat (length out) <= target ->
  out = take (length out) (drop (Z.to_nat pos) (content img i)) ->
  (Z.of_nat (length out) < target -> (pos + target - 1) / FS_BLKSZ - (pos + Z.of_nat (length out)) / FS_BLKSZ + 1 <= Z.of_nat fuel) ->
  exists s', read_loop ops hi fuel s pos (allocated (inode_of img i)) target out
      = Ret (s', true, take (Z.to_nat target) (drop (Z.to_nat pos) (content img i))) /\ fsrep s' img /\ keeps s s'.
Proof.
  induction fuel as [|fuel IH]; intros s out Hr Hin Hi Hp Ht Hlen Hout Heq Hf; cbn [read_loop];
    (destruct (Z.ltb_spec (Z.of_nat (length out)) target) as [Hlt|Hge];
     [|exists s; split; [|split; [done|done]]; replace (Z.to_nat target) with (length out) by lia; by rewrite <- Heq]).
  { assert ((pos + Z.of_nat (length out)) / FS_BLKSZ <= (pos + target - 1) / FS_BLKSZ) by (apply Z.div_le_mono; [done|lia]). lia. }
  destruct (allocated_spec img Hok i Hi) as (Ha1 & Ha2 & Ha3). set (off := pos + Z.of_nat (length out)) in *.
  rewrite u32_small by (unfold off, MAX_DB_PER_INODE, FS_BLKSZ in *; lia).
  assert (Hk : 0 <= off / FS_BLKSZ < allocated (inode_of img i)).
  { split; [apply Z.div_pos; [lia|done]|]. apply Z.div_lt_upper_bound; [done|]. unfold off. lia. }
  replace ((allocated (inode_of img i) <=? off / FS_BLKSZ) || (MAX_DB_PER_INODE <=? off / FS_BLKSZ)) with false by lia.
  rewrite Hin, (fr_boot _ _ Hr). destruct (block_num_range img Hok i _ Hi Hk) as [Hj0 Hj1].
  replace (nd <=? _) with false by lia. destruct (update_data_spec s _ Hr (conj Hj0 Hj1)) as (s1 & -> & Hr1 & Hk1 & Hi1 & Hd1).
  cbn [obind Z.ltb Z.compare]. rewrite Hd1. set (c := if _ <? _ then _ else _).
  assert (Hm := Z.mod_pos_bound off FS_BLKSZ ltac:(done)).
  assert (Hc : 0 < c <= target - Z.of_nat (length out) /\ off mod FS_BLKSZ + c <= FS_BLKSZ /\
    (c = target - Z.of_nat (length out) \/ off mod FS_BLKSZ + c = FS_BLKSZ)) by (unfold c; kcase; lia).
  rewrite u32_small by (unfold FS_BLKSZ in *; lia).
  assert (Hdl : length (data_of img (data_block_num (inode_of img i) (off / FS_BLKSZ))) = BLK).
  { apply (blk_length img Hok). unfold data_pos. destruct (counts_range img Hok). lia. }
  rewrite get_block_Ret by (rewrite ?Hdl; blk_lia). cbn [obind].
  rewrite (space_chunk img Hok i off c) by lia. rewrite <- (content_chunk img i off c) by (unfold off; lia).
  assert (Hoc : length (take (Z.to_nat c) (drop (Z.to_nat off) (content img i))) = Z.to_nat c).
  { rewrite length_take, length_drop. assert (Hlc := length_content img Hok i Hi). unfold off. lia. }
  destruct (IH s1 (out ++ take (Z.to_nat c) (drop (Z.to_nat off) (content img i)))) as (s2 & E & Hr2 & Hk2); try done.
  - by rewrite Hi1.
  - rewrite length_app, Hoc. lia.
  - rewrite length_app, Hoc. rewrite take_add, <- Heq, drop_drop. do 3 f_equal. unfold off. lia.
  - rewrite length_app, Hoc, Nat2Z.inj_add, Z2Nat.id by lia. intros Hmore.
    destruct Hc as (Hc1 & Hc2 & [Hc3|Hc3]); [lia|].
    assert ((pos + (Z.of_nat (length out) + c)) / FS_BLKSZ = off / FS_BLKSZ + 1).
    { replace (pos + (Z.of_nat (length out) + c)) with ((off / FS_BLKSZ + 1) * FS_BLKSZ); [by apply Z.div_mul|].
      assert (Hdm := Z.div_mod off FS_BLKSZ ltac:(done)). unfold off in *. lia. }
    lia.
  - exists s2. split; [exact E|]. split; [done|]. by eapply fs_keeps_trans.
Qed.

(** * Writing *)

Lemma write_block_spec s b d : fsrep s img -> 0 <= b < 1 + ni + nd -> length d = BLK ->
  exists d0 d1 r, disk_io s = Some d0 /\ disk_ctl ops d0 IOCTL_SETPOS (Some (FS_BLKSZ * b + 2 ^ 32 * hi)) = Ret (d1, r) /\ 0 <= r /\
  exists d2, disk_write ops d1 d = Ret (d2, FS_BLKSZ) /\ dk_wf d2 /\ dk_data d2 = splice img (Z.to_nat (FS_BLKSZ * b)) d.
Proof.
  intros [(d0 & Hd0 & Hwf & Hdata) _ _ _] Hb Hd. destruct (block_offset_ok b Hb) as (Ho & Hl & _).
  destruct (dk_seek d0 (FS_BLKSZ * b)) as (d1 & r & E & Hr & Hwf1 & Hd1 & Hat); [done|lia|by rewrite Hdata|].
  exists d0, d1, r. split_and!; try done.
  destruct (dk_write d1 (FS_BLKSZ * b) d) as (d2 & Ew & Hwf2 & Hd2); [done|done|lia|by apply blk_aligned|by rewrite Hd1, Hdata|blk_lia|].
  exists d2. split_and!; try done. by rewrite Hd2, Hd1, Hdata.
Qed.

Lemma write_data_spec s j : fsrep s img -> 0 <= j < nd -> bytes_ok (data_block s) ->
  exists s', write_data_block ops hi s j = Ret (s', 0) /\ fsrep s' (img_upd img j (data_block s)) /\ keeps s s' /\ inode s' = inode s.
Proof.
  intros Hr Hj Hby. destruct (data_offset_spec s j (fr_boot _ _ Hr) Hj) as [Ho Hp].
  destruct (write_block_spec s _ (data_block s) Hr Hp (fr_data _ _ Hr)) as (d0 & d1 & r & Hd & Ec & Hr0 & d2 & Ew & Hwf & Hd2).
  unfold write_data_block. rewrite Ho, Hd, Ec. cbn [obind]. replace (r <? 0) with false by lia. rewrite Ew. cbn [obind].
  eexists. split; [reflexivity|]. split; [|done]. destruct Hr as [_ ? ? ?]. split; try done.
  - by exists d2.
  - cbn. by rewrite upd_boot.
Qed.

(** Writing the inode back leaves the image as it is. *)
Lemma write_inode_spec s i : fsrep s img -> 0 <= i < ni -> inode s = inode_of img i ->
  exists s', write_inode ops hi s i = Ret (s', 0) /\ fsrep s' img /\ keeps s s'.
Proof.
  intros Hr Hi Hin. destruct (counts_range img Hok) as [_ Hnd]. assert (Hb : 0 <= 1 + i < 1 + ni + nd) by lia.
  destruct (block_offset_ok _ Hb) as (Ho & Hl & Hu).
  destruct (write_block_spec s (1 + i) (inode s) Hr Hb (fr_inode _ _ Hr)) as (d0 & d1 & r & Hd & Ec & Hr0 & d2 & Ew & Hwf & Hd2).
  unfold write_inode. replace (FS_BLKSZ + i * FS_BLKSZ) with (FS_BLKSZ * (1 + i)) by lia.
  rewrite Hu, Hd, Ec. cbn [obind]. replace (r <? 0) with false by lia. rewrite Ew. cbn [obind].
  eexists. split; [reflexivity|]. split; [|done]. destruct Hr as [_ ? ? ?]. split; try done.
  exists d2. split; [done|]. split; [done|]. rewrite Hd2, Hin. unfold inode_of, blk.
  assert (Hself : forall (l : list Z) a n, (a + n <= length l)%nat -> splice l a (take n (drop a l)) = l).
  { intros l a n Hn. unfold splice. rewrite length_take, length_drop.
    replace (a + n `min` (length l - a))%nat with (a + n)%nat by lia. rewrite <- drop_drop, take_drop. apply take_drop. }
  apply Hself. blk_lia.
Qed.
(** An open file of inode [i]. *)
Record open_file (s : kfs) (io : nat) (f : file_t) (i : Z) : Prop := {
  of_file : file_list s !! io = Some f;
  of_inode : inode_number f = i;
  of_range : 0 <= i < ni;
  of_size : file_size f = byte_len (inode_of img i);
  of_pos : 0 <= file_pos f < 2 ^ 32;
}.

Definition with_pos (f : file_t) (pos : Z) : file_t :=
  {| f_ops := f_ops f; file_pos := pos; file_size := file_size f; inode_number := inode_number f; flags := flags f |}.

Lemma put_pos_spec (s : kfs) io f pos : file_list s !! io = Some f -> put_pos s io pos = set_files s (<[io := with_pos f pos]> (file_list s)).
Proof. unfold put_pos. by intros ->. Qed.

Lemma turns_enough pos n : 0 <= pos -> 0 < n -> (pos + n - 1) / FS_BLKSZ - pos / FS_BLKSZ + 1 <= Z.of_nat (turns n) - 1.
Proof.
  intros Hp Hn. unfold turns, FS_BLKSZ. Z.to_euclidean_division_equations; lia.
Qed.

(** What is left to read of an open file. *)
Definition rest_of (f : file_t) : list Z := drop (Z.to_nat (file_pos f)) (content img (inode_number f)).

Lemma fs_read_spec s io f i n : fsrep s img -> kfs_lock s = false -> open_file s io f i -> 0 < n ->
  exists s' k, fs_read ops hi s (Some io) false n = Ret (s', Z.of_nat k, take k (rest_of f)) /\
    Z.of_nat k = Z.min n (Z.of_nat (length (rest_of f))) /\ fsrep s' img /\ kfs_lock s' = false /\
    file_list s' = <[io := with_pos f (file_pos f + Z.of_nat k)]> (file_list s).
Proof.
  intros Hr Hlk [Hf Hin Hi Hsz Hpos] Hn. unfold fs_read, acquire. replace (n =? 0) with false by lia. rewrite Hlk. cbn [obind].
  unfold get_file. cbn [set_lock file_list]. rewrite Hf. cbn [obind].
  assert (Hlc := length_content img Hok i Hi). assert (Hrest : Z.of_nat (length (rest_of f)) = Z.max 0 (file_size f - file_pos f)).
  { unfold rest_of. rewrite length_drop, Hin. lia. }
  assert (Hszr : 0 <= file_size f < 2 ^ 31).
  { rewrite Hsz. assert (Hl := im_len _ Hok i Hi). unfold MAX_DB_PER_INODE, FS_BLKSZ in Hl. lia. }
  assert (Hself : <[io := with_pos f (file_pos f + 0)]> (file_list s) = file_list s).
  { rewrite Z.add_0_r. replace (with_pos f (file_pos f)) with f by by destruct f. by apply list_insert_id. }
  destruct (Z.leb_spec (file_size f) (file_pos f)) as [Hend|Hmore].
  { exists (release (set_lock s true)), 0%nat. rewrite Hrest. split; [done|]. split; [lia|].
    split; [by destruct Hr; split|]. split; [done|]. change (Z.of_nat 0) with 0. by rewrite Hself. }
  cbn [set_lock boot_block]. rewrite (fr_boot _ _ Hr). replace (ni <=? inode_number f) with false by lia.
  assert (Hr0 : fsrep (set_lock s true) img) by by destruct Hr; split.
  destruct (update_inode_spec (set_lock s true) (inode_number f) Hr0) as (s1 & -> & Hr1 & Hk1 & Hi1); [by rewrite Hin|].
  cbn [obind Z.ltb Z.compare]. rewrite Hi1, Hin in *. rewrite u32_small by lia.
  set (t := if n <? _ then _ else _). assert (Ht : t = Z.min n (file_size f - file_pos f)) by (unfold t; kcase; lia).
  destruct (read_loop_spec (turns t) i (file_pos f) t s1 []) as (s2 & -> & Hr2 & Hk2); try done; try lia.
  { cbn [length]. lia. }
  { cbn [length]. intros _. change (Z.of_nat 0) with 0. rewrite Z.add_0_r. assert (Htn := turns_enough (file_pos f) t). lia. }
  cbn [obind negb]. assert (Hlen : length (take (Z.to_nat t) (rest_of f)) = Z.to_nat t) by (rewrite length_take; lia).
  unfold rest_of in Hlen. rewrite Hin in Hlen. rewrite Hlen, Z2Nat.id by lia. rewrite u32_small by lia.
  destruct (fs_keeps_trans _ _ _ Hk1 Hk2) as (Hb & Hfl & _). cbn [file_list set_lock] in Hfl.
  exists (release (put_pos s2 io (file_pos f + t))), (Z.to_nat t). rewrite Z2Nat.id by lia. unfold rest_of. rewrite Hin.
  split; [done|]. split; [unfold rest_of in Hrest; rewrite Hin in Hrest; lia|].
  rewrite (put_pos_spec s2 io f) by by rewrite Hfl. split; [by destruct Hr2; split|]. split; [done|]. cbn. by rewrite Hfl.
Qed.
End Rep.

(** The number of bytes [fs_write] takes. *)
Definition writable (img : list Z) (i pos n : Z) : Z := Z.min n (Z.max 0 (allocated (inode_of img i) * FS_BLKSZ - pos)).

Lemma write_loop_spec fuel i pos buf : forall s img w, img_ok img -> fsrep s img -> inode s = inode_of img i ->
  0 <= i < num_inodes (boot_of img) -> NoDup (block_nums (inode_of img i)) -> 0 <= pos < 2 ^ 32 ->
  bytes_ok buf -> Z.of_nat (length buf) < 2 ^ 32 -> 0 <= w <= writable img i pos (Z.of_nat (length buf)) ->
  (w < writable img i pos (Z.of_nat (length buf)) ->
    (pos + writable img i pos (Z.of_nat (length buf)) - 1) / FS_BLKSZ - (pos + w) / FS_BLKSZ + 1 <= Z.of_nat fuel - 1) ->
  (0 < fuel)%nat ->
  let k := writable img i pos (Z.of_nat (length buf)) in
  exists s' img', write_loop ops hi fuel s pos (allocated (inode_of img i)) buf w = Ret (s', Some k) /\
    fsrep s' img' /\ keeps s s' /\ inode s' = inode_of img i /\
    wrote img img' i (pos + w) (take (Z.to_nat (k - w)) (drop (Z.to_nat w) buf)).
Proof.
  induction fuel as [|fuel IH]; intros s img w Hok Hr Hin Hi Hnd Hp Hby Hlen Hw Hf Hf0 k; [lia|]. clear Hf0. cbn [write_loop].
  destruct (allocated_spec img Hok i Hi) as (Ha1 & Ha2 & Ha3).
  assert (Hdone : w = k -> exists s' img', Ret (s, Some w) = Ret (s', Some k) /\ fsrep s' img' /\ keeps s s' /\
    inode s' = inode_of img i /\ wrote img img' i (pos + w) (take (Z.to_nat (k - w)) (drop (Z.to_nat w) buf))).
  { intros ->. exists s, img. split_and!; try done. rewrite Z.sub_diag, take_0. by apply wrote_nil. }
  destruct (Z.ltb_spec w (Z.of_nat (length buf))) as [Hlt|Hge]; [|apply Hdone; unfold k, writable in *; lia].
  destruct (Z.ltb_spec w k) as [Hwk|Hwk].
  2:{ assert (w = k) by (unfold k in *; lia). rewrite u32_small by (unfold k, writable, MAX_DB_PER_INODE, FS_BLKSZ in *; lia).
      replace (_ || _) with true; [by apply Hdone|]. symmetry. apply orb_true_iff. left. apply Z.leb_le.
      apply Z.div_le_lower_bound; [done|]. unfold k, writable in *. lia. }
  assert (Hsp : pos + k <= allocated (inode_of img i) * FS_BLKSZ) by (unfold k, writable in *; lia).
  assert (Hfuel := Hf Hwk). fold k in Hfuel. set (off := pos + w) in *.
  rewrite u32_small by (unfold off, MAX_DB_PER_INODE, FS_BLKSZ in *; lia).
  assert (Hk : 0 <= off / FS_BLKSZ < allocated (inode_of img i)).
  { split; [apply Z.div_pos; [lia|done]|]. apply Z.div_lt_upper_bound; [done|]. unfold off. lia. }
  replace ((allocated (inode_of img i) <=? off / FS_BLKSZ) || (MAX_DB_PER_INODE <=? off / FS_BLKSZ)) with false by lia.
  rewrite Hin. set (j := data_block_num (inode_of img i) (off / FS_BLKSZ)).
  assert (Hj := block_num_range img Hok i _ Hi Hk). fold j in Hj.
  destruct (update_data_spec img Hok s j Hr Hj) as (s1 & -> & Hr1 & Hk1 & Hi1 & Hd1).
  cbn [obind Z.ltb Z.compare]. rewrite Hd1, u32_small by lia. set (c := if _ <? _ then _ else _).
  assert (Hm := Z.mod_pos_bound off FS_BLKSZ ltac:(done)). assert (Hdm := Z.div_mod off FS_BLKSZ ltac:(done)).
  assert (Hc : 0 < c <= k - w /\ off mod FS_BLKSZ + c <= FS_BLKSZ /\ (c = k - w \/ off mod FS_BLKSZ + c = FS_BLKSZ)).
  { assert (Hb : off + (FS_BLKSZ - off mod FS_BLKSZ) <= allocated (inode_of img i) * FS_BLKSZ) by nia.
    unfold c, k, writable, off in *. kcase; lia. }
  set (chunk := take (Z.to_nat c) (drop (Z.to_nat w) buf)).
  assert (Hcl : Z.of_nat (length chunk) = c) by (unfold chunk; rewrite length_take, length_drop; unfold k, writable in *; lia).
  assert (Hdl : length (data_of img j) = BLK) by (rewrite <- Hd1; apply Hr1).
  rewrite get_block_Ret by (unfold k, writable in *; lia). cbn [obind]. fold chunk.
  rewrite put_block_Ret by (rewrite ?Hdl; blk_lia). cbn [obind]. set (d := splice (data_of img j) _ chunk).
  assert (Hchb : bytes_ok chunk) by (unfold chunk; auto with kern).
  assert (Hwr := wrote_block img i (off / FS_BLKSZ) (off mod FS_BLKSZ) chunk Hok Hi Hnd Hk ltac:(lia) ltac:(lia) Hchb).
  cbv zeta in Hwr. fold j d in Hwr. rewrite <- Hdm in Hwr.
  assert (Hr1' : fsrep (set_data s1 d) img).
  { destruct Hr1. split; try done. cbn. unfold d. rewrite length_splice; [done|rewrite Hdl; blk_lia]. }
  destruct (write_data_spec img Hok (set_data s1 d) j Hr1' Hj) as (s2 & Ew & Hr2 & Hk2 & Hi2).
  { cbn. unfold d. apply bytes_ok_splice; [apply (blk_bytes img Hok)|done]. }
  rewrite Hi1, Hin. fold j. rewrite Ew. cbn [obind Z.ltb Z.compare]. cbn [data_block set_data] in Hr2.
  assert (Hino := wr_inode _ _ _ _ _ Hwr i Hi). assert (Hkw : writable (img_upd img j d) i pos (Z.of_nat (length buf)) = k)
    by (unfold writable; by rewrite Hino).
  assert (Hin2 : inode s2 = inode_of img i) by (rewrite Hi2; cbn; by rewrite Hi1).
  destruct (IH s2 (img_upd img j d) (w + c)) as (s3 & img3 & E3 & Hr3 & Hk3 & Hi3 & Hw3); rewrite ?Hkw, ?Hino.
  - apply Hwr.
  - exact Hr2.
  - exact Hin2.
  - rewrite (wr_boot _ _ _ _ _ Hwr). exact Hi.
  - exact Hnd.
  - exact Hp.
  - exact Hby.
  - exact Hlen.
  - lia.
  - intros Hmore. destruct Hc as (Hc1 & Hc2 & [Hc3|Hc3]); [lia|].
    replace ((pos + (w + c)) / FS_BLKSZ) with (off / FS_BLKSZ + 1); [lia|].
    replace (pos + (w + c)) with ((off / FS_BLKSZ + 1) * FS_BLKSZ) by (unfold off in *; lia). symmetry. by apply Z.div_mul.
  - assert (off / FS_BLKSZ <= (pos + k - 1) / FS_BLKSZ) by (apply Z.div_le_mono; [done|unfold off; lia]). lia.
  - rewrite Hkw in E3, Hw3. rewrite Hino in E3, Hi3. exists s3, img3. split; [exact E3|]. split; [exact Hr3|]. split.
    { eapply fs_keeps_trans; [exact Hk1|]. eapply fs_keeps_trans; [|exact Hk3]. exact Hk2. }
    split; [exact Hi3|]. replace (take (Z.to_nat (k - w)) (drop (Z.to_nat w) buf))
      with (chunk ++ take (Z.to_nat (k - (w + c))) (drop (Z.to_nat (w + c)) buf)).
    + eapply wrote_trans; [exact Hwr|rewrite Hcl; replace (off + c) with (pos + (w + c)) by (unfold off; lia); exact Hw3|exact Hi|lia|].
      rewrite (length_space img Hok i Hi), length_take, length_drop. unfold k, writable, off in *. lia.
    + unfold chunk. replace (Z.to_nat (k - w)) with (Z.to_nat c + Z.to_nat (k - (w + c)))%nat by lia. rewrite take_add, drop_drop.
      do 3 f_equal. lia.
Qed.

Lemma fs_write_spec s img io f i buf : img_ok img -> fsrep s img -> kfs_lock s = false -> open_file img s io f i ->
  NoDup (block_nums (inode_of img i)) -> bytes_ok buf -> 0 < Z.of_nat (length buf) < 2 ^ 32 ->
  let k := writable img i (file_pos f) (Z.of_nat (length buf)) in
  exists s' img', fs_write ops hi s (Some io) (Some buf) = Ret (s', k) /\ fsrep s' img' /\ kfs_lock s' = false /\
    file_list s' = <[io := with_pos f (file_pos f + k)]> (file_list s) /\ wrote img img' i (file_pos f) (take (Z.to_nat k) buf).
Proof.
  intros Hok Hr Hlk [Hf Hin Hi Hsz Hpos] Hnd Hby Hlen k. destruct (allocated_spec img Hok i Hi) as (Ha1 & Ha2 & Ha3).
  assert (Hk0 : 0 <= k) by (unfold k, writable; lia).
  assert (Hr0 : fsrep (set_lock s true) img) by (by destruct Hr; split).
  unfold fs_write, acquire. replace (Z.of_nat (length buf) =? 0) with false by lia. rewrite Hlk. cbn [obind].
  unfold get_file. cbn [set_lock file_list boot_block]. rewrite Hf. cbn [obind]. rewrite (fr_boot _ _ Hr), Hin.
  replace (num_inodes (boot_of img) <=? i) with false by lia.
  destruct (update_inode_spec img Hok (set_lock s true) i Hr0 Hi) as (s1 & -> & Hr1 & Hk1 & Hi1).
  cbn [obind Z.ltb Z.compare]. rewrite Hi1.
  destruct (write_loop_spec (turns (Z.of_nat (length buf))) i (file_pos f) buf s1 img 0 Hok Hr1 Hi1 Hi Hnd Hpos Hby)
    as (s2 & img2 & E2 & Hr2 & Hk2 & Hi2 & Hw2); fold k.
  - lia.
  - lia.
  - intros Hkp. rewrite Z.add_0_r. assert (Ht := turns_enough (file_pos f) (Z.of_nat (length buf))).
    assert ((file_pos f + k - 1) / FS_BLKSZ <= (file_pos f + Z.of_nat (length buf) - 1) / FS_BLKSZ)
      by (apply Z.div_le_mono; [done|unfold k, writable; lia]). lia.
  - unfold turns, FS_BLKSZ. Z.to_euclidean_division_equations; lia.
  - rewrite E2. cbn [obind]. fold k in Hw2. rewrite Z.add_0_r, Z.sub_0_r in Hw2. change (Z.to_nat 0) with 0%nat in Hw2. rewrite drop_0 in Hw2.
    rewrite u32_small by (unfold k, writable, MAX_DB_PER_INODE, FS_BLKSZ in *; lia).
    destruct (fs_keeps_trans _ _ _ Hk1 Hk2) as (Hb & Hfl & _). cbn [file_list set_lock] in Hfl.
    rewrite (put_pos_spec s2 io f) by by rewrite Hfl. set (s3 := set_files s2 _).
    assert (Hr3 : fsrep s3 img2) by (by destruct Hr2; split).
    destruct (write_inode_spec img2 (wr_ok _ _ _ _ _ Hw2) s3 i Hr3) as (s4 & -> & Hr4 & (_ & Hfl4 & _)).
    + by rewrite (wr_boot _ _ _ _ _ Hw2).
    + cbn. by rewrite Hi2, (wr_inode _ _ _ _ _ Hw2).
    + cbn [obind Z.ltb Z.compare]. exists (release s4), img2. split; [reflexivity|]. split; [by destruct Hr4; split|].
      split; [done|]. split; [|exact Hw2]. cbn. rewrite Hfl4. cbn. by rewrite Hfl.
Qed.

(** What a write does to the contents of files. *)
Lemma wrote_content img img' i pos d : img_ok img -> wrote img img' i pos d -> 0 <= i < num_inodes (boot_of img) -> 0 <= pos ->
  pos + Z.of_nat (length d) <= byte_len (inode_of img i) -> content img' i = splice (content img i) (Z.to_nat pos) d.
Proof.
  intros Hok [_ _ Hin Hsp _] Hi Hp Hl. unfold content. rewrite Hin, Hsp by done.
  assert (Hls := length_space img Hok i Hi). destruct (allocated_spec img Hok i Hi) as (Ha1 & _).
  apply list_eq. intros n. destruct (decide (n < Z.to_nat (byte_len (inode_of img i)))%nat) as [Hn|Hn].
  - rewrite lookup_take_lt by done.
    destruct (decide (Z.to_nat pos <= n < Z.to_nat pos + length d)%nat).
    + rewrite !lookup_splice_in; [done|rewrite ?length_take; lia..].
    + rewrite !lookup_splice_out; [|rewrite ?length_take; lia..]. by rewrite lookup_take_lt.
  - rewrite lookup_take_ge by lia. symmetry. apply lookup_ge_None. rewrite length_splice; rewrite length_take; lia.
Qed.

Lemma wrote_other_content img img' i pos d i' : img_ok img -> wrote img img' i pos d -> 0 <= i' < num_inodes (boot_of img) ->
  (forall j, j ∈ block_nums (inode_of img i') -> j ∉ block_nums (inode_of img i)) -> content img' i' = content img i'.
Proof.
  intros Hok [_ _ Hin _ Ho] Hi' Hd. unfold content, file_space. rewrite Hin by done. f_equal. f_equal.
  apply list_fmap_ext. intros n j Hj. apply list_elem_of_lookup_2 in Hj as Hj'. apply Ho; [|by apply Hd].
  assert (HF := im_nums _ Hok i' Hi'). rewrite Forall_forall in HF. split; [|by apply HF].
  unfold block_nums in Hj. rewrite list_lookup_fmap in Hj. destruct (seqZ _ _ !! n); cbn in Hj; [|done]. injection Hj as <-.
  apply u32_at_range, (blk_bytes img Hok).
Qed.
End Mounted.
