(* ===== verification/KfsFiles.v ===== *)
(** Files of a mounted file system (kfs.c): mounting, opening by name, and the
    bytes that reads and writes move, over any disk that keeps the contract of
    [BlockDisk]; an I/O literal is one. *)

From Stdlib Require Import Ascii String.
From S2P Require Import Prelude KString IoIntf IoLit Kfs.
From stdpp Require Import list.
#[local] Open Scope Z_scope.

(** * The directory *)

(** The inode number of the first of [n] entries from [i] on whose name has
    the characters [key]. *)
Fixpoint dir_find (n : nat) (b : list Z) (key : list Z) (i : Z) : option Z :=
  match n with
  | O => None
  | S n => if decide (cprefix (Z.to_nat FS_NAMELEN) (dentry_name b i) = Some key) then Some (dentry_inode b i)
           else dir_find n b key (i + 1)
  end.
Definition dir_lookup (img key : list Z) : option Z :=
  dir_find (Z.to_nat (num_dentry (boot_of img))) (boot_of img) key 0.

Lemma cprefix_full n l : (n <= length l)%nat -> exists a, cprefix n l = Some a.
Proof.
  revert l; induction n as [|n IH]; intros l Hl; cbn [cprefix]; [eauto|]. destruct l as [|c l]; [cbn in Hl; lia|].
  destruct (c =? 0); [eauto|]. destruct (IH l) as [a ->]; [cbn in Hl; lia|]. cbn. eauto.
Qed.

(** The inode numbers the directory may hold: [fs_open] keeps them in an [int]
    whose value -1 stands for no entry. *)
Definition inodes_ok (img : list Z) : Prop :=
  forall i, 0 <= i < num_dentry (boot_of img) -> 0 <= dentry_inode (boot_of img) i < num_inodes (boot_of img).

Section Directory.
Context (img : list Z) (Hok : img_ok img) (Hino : inodes_ok img).
Local Notation b := (boot_of img).

Lemma boot_length : length b = BLK.
Proof. apply (blk_length img Hok). destruct (counts_range img Hok). lia. Qed.

Lemma inode_count_small : num_inodes b < 2 ^ 31.
Proof. destruct (im_size _ Hok), (counts_range img Hok). unfold FS_BLKSZ in *. lia. Qed.

Lemma dentry_key i : 0 <= i < MAX_DENTRY_NUM -> exists a, cprefix (Z.to_nat FS_NAMELEN) (dentry_name b i) = Some a.
Proof.
  intros Hi. apply cprefix_full. unfold dentry_name, dentry_off. rewrite length_take, length_drop, boot_length.
  unfold MAX_DENTRY_NUM, FS_NAMELEN in *. blk_lia.
Qed.

Lemma find_dentry_spec n name key i : bytes_ok name -> cprefix (Z.to_nat FS_NAMELEN) name = Some key ->
  0 <= i -> i + Z.of_nat n <= num_dentry b ->
  find_dentry n b name i = Ret (default (-1) (dir_find n b key i)) /\
  (forall r, dir_find n b key i = Some r -> 0 <= r < num_inodes b).
Proof.
  intros Hn Hk. revert i; induction n as [|n IH]; intros i Hi Hle; cbn [find_dentry dir_find]; [done|].
  assert (Hmax := im_dentries _ Hok). replace (i <? MAX_DENTRY_NUM) with true by lia.
  destruct (dentry_key i) as [a Ha]; [lia|].
  destruct (strncmp_cases (dentry_name b i) name (Z.to_nat FS_NAMELEN) a key) as (z & -> & Hz); [|done..|].
  { unfold dentry_name. apply bytes_ok_take, bytes_ok_drop, (blk_bytes img Hok). }
  cbn [obind]. rewrite Ha. destruct (Z.eqb_spec z 0) as [->|Hnz].
  - rewrite decide_True by (f_equal; by apply Hz). cbn. assert (Hr := Hino i ltac:(lia)). assert (Hs := inode_count_small).
    rewrite i32_small by lia. split; [done|]. by intros r [= <-].
  - rewrite decide_False by (intros [= ->]; tauto). apply IH; lia.
Qed.
End Directory.

(** A file found in the directory has an inode. *)
Lemma dir_lookup_range img name key i : img_ok img -> inodes_ok img -> bytes_ok name ->
  cprefix (Z.to_nat FS_NAMELEN) name = Some key -> dir_lookup img key = Some i -> 0 <= i < num_inodes (boot_of img).
Proof.
  intros Hok Hino Hn Hk Hd.
  assert (0 <= num_dentry (boot_of img)) by apply u32_at_range, (blk_bytes img Hok).
  destruct (find_dentry_spec img Hok Hino (Z.to_nat (num_dentry (boot_of img))) name key 0 Hn Hk) as [_ Hr]; [lia|lia|].
  apply (Hr i Hd).
Qed.

(** * Mounting and opening *)

Section Files.
Context {D : Type} (ops : io_ops D) (hi : Z) `{HR : !ReadDisk ops hi} `{HW : !BlockDisk ops hi}.
Notation kfs := (kfs D).

Lemma release_all_spec rest : forall l0 (s : kfs), file_list s = l0 ++ rest ->
  release_all (length rest) (length l0) s = Ret (set_files s (l0 ++ replicate (length rest) released)).
Proof.
  induction rest as [|f rest IH]; intros l0 s Hl; cbn [release_all length replicate].
  - rewrite app_nil_r in *. rewrite <- Hl. by destruct s.
  - unfold release_file. rewrite Hl, (proj2 (Nat.ltb_lt _ _)) by (rewrite length_app; cbn; lia). cbn [obind].
    assert (E : <[length l0 := released]> (l0 ++ f :: rest) = (l0 ++ [released]) ++ rest).
    { rewrite <- (Nat.add_0_r (length l0)), insert_app_r, <- app_assoc. done. }
    rewrite E. specialize (IH (l0 ++ [released]) (set_files s ((l0 ++ [released]) ++ rest)) eq_refl).
    rewrite length_app in IH. cbn [length] in IH. rewrite Nat.add_comm in IH. cbn [Nat.add] in IH.
    rewrite IH. unfold set_files. cbn. by rewrite <- app_assoc.
Qed.

(** A file system ready for use: mounted, unlocked. *)
Record ready (s : kfs) (img : list Z) : Prop := {
  rd_rep : fsrep ops hi s img;
  rd_lock : kfs_lock s = false;
  rd_files : length (file_list s) = Z.to_nat MAX_OPEN_FILES;
}.

(** The static buffers before anything is mounted. *)
Record unmounted (s : kfs) : Prop := {
  um_boot : length (boot_block s) = BLK;
  um_inode : length (inode s) = BLK;
  um_data : length (data_block s) = BLK;
  um_files : length (file_list s) = Z.to_nat MAX_OPEN_FILES;
}.

Lemma fs_mount_spec s d : unmounted s -> dk_wf d -> img_ok (dk_data d) ->
  exists s', fs_mount ops s (Some d) = Ret (s', 0) /\ ready s' (dk_data d) /\
    file_list s' = replicate (Z.to_nat MAX_OPEN_FILES) released.
Proof.
  intros [Hub Hui Hud Huf] Hwf Hok. unfold fs_mount.
  destruct (dk_rewind d Hwf) as (d1 & r & -> & Hr & Hwf1 & Hd1 & Hat1). cbn [obind]. replace (r <? 0) with false by lia.
  unfold initialize_file_list. rewrite <- Huf.
  assert (E0 := release_all_spec (file_list s) [] (set_lock s false) eq_refl). cbn [length app] in E0. rewrite E0. cbn [obind].
  change (0 =? - EIO) with false. cbv iota.
  assert (Hb0 : 0 <= 0 < 1 + num_inodes (boot_of (dk_data d)) + num_data (boot_of (dk_data d)))
    by (destruct (counts_range _ Hok); lia).
  destruct (block_offset_ok _ Hok 0 Hb0) as (_ & Hl & _). rewrite Z.mul_0_r, Z.add_0_l in Hl.
  destruct (dk_read d1 0) as (d2 & -> & Hwf2 & Hd2); [done|done|lia|done|rewrite Hd1; lia|]. cbn [obind]. rewrite Hd1 in *.
  change (take BLK (drop (Z.to_nat 0) (dk_data d))) with (boot_of (dk_data d)).
  assert (Hbl := boot_length _ Hok). cbn [boot_block set_files set_lock].
  rewrite put_block_Ret by (rewrite ?Hbl, ?Hub; lia). cbn [obind]. change (i32 FS_BLKSZ =? FS_BLKSZ) with true. cbn [negb].
  assert (E : splice (boot_block s) (Z.to_nat 0) (boot_of (dk_data d)) = boot_of (dk_data d)).
  { change (Z.to_nat 0) with 0%nat. unfold splice. rewrite take_0, Nat.add_0_l, drop_ge by (rewrite Hbl, Hub; lia). by rewrite app_nil_r. }
  rewrite E. eexists. split; [reflexivity|]. split; [|done]. split; [|done|cbn; by rewrite length_replicate].
  split; [|done|done|done]. exists d2. done.
Qed.

Lemma find_unused_spec l i : match find_unused l i with
  | Some k => exists j f, k = (i + j)%nat /\ l !! j = Some f /\ flags f = F_NOT_USE /\
      forall j' f', (j' < j)%nat -> l !! j' = Some f' -> flags f' <> F_NOT_USE
  | None => forall f, f ∈ l -> flags f <> F_NOT_USE
  end.
Proof.
  revert i; induction l as [|f l IH]; intros i; cbn [find_unused].
  { intros f Hf. by apply elem_of_nil in Hf. }
  destruct (Z.eqb_spec (flags f) F_NOT_USE) as [E|E].
  - exists 0%nat, f. split; [lia|]. split; [done|]. split; [done|]. intros j' f' Hj'. lia.
  - specialize (IH (S i)). destruct (find_unused l (S i)) as [k|].
    + destruct IH as (j & g & -> & Hj & Hg & Hb). exists (S j), g. split; [lia|]. split; [done|]. split; [done|].
      intros [|j'] f' Hlt; [by intros [= <-]|]. apply Hb. lia.
    + intros g [->|Hg]%elem_of_cons; [done|by apply IH].
Qed.

Definition opened (img : list Z) (ino : Z) : file_t :=
  {| f_ops := true; file_pos := 0; file_size := byte_len (inode_of img ino); inode_number := ino; flags := F_IN_USE |}.

(** The result of [fs_open] by the state of the directory and of the table. *)
Definition open_result (s : kfs) (img key : list Z) : Z * option nat * list file_t :=
  match dir_lookup img key with
  | None => (- ENOENT, None, file_list s)
  | Some ino =>
      match find_unused (file_list s) 0 with
      | None => (- EBUSY, None, file_list s)
      | Some fd => (0, Some fd, <[fd := opened img ino]> (file_list s))
      end
  end.

Lemma fs_open_spec s img name key : img_ok img -> inodes_ok img -> ready s img -> bytes_ok name ->
  cprefix (Z.to_nat FS_NAMELEN) name = Some key ->
  exists s', fs_open ops hi s (Some name) false = Ret (s', (open_result s img key).1.1, (open_result s img key).1.2) /\
    ready s' img /\ file_list s' = (open_result s img key).2.
Proof.
  intros Hok Hino [Hr Hlk Hfl] Hn Hk. unfold fs_open, acquire. rewrite Hlk. cbn [obind set_lock boot_block].
  rewrite (fr_boot _ _ _ _ Hr). unfold open_result, dir_lookup. set (b := boot_of img).
  assert (Hnd : 0 <= num_dentry b) by apply u32_at_range, (blk_bytes img Hok).
  destruct (find_dentry_spec img Hok Hino (Z.to_nat (num_dentry b)) name key 0 Hn Hk) as [E Hr0]; [lia|fold b; lia|].
  fold b in E, Hr0. rewrite E. cbn [obind]. destruct (dir_find _ b key 0) as [ino|] eqn:Ed; cbn [default id].
  2:{ eexists. split; [reflexivity|]. split; [|done]. split; [by destruct Hr; split|done|done]. }
  assert (Hi := Hr0 ino eq_refl). assert (Hs := inode_count_small img Hok). fold b in Hs.
  replace (ino =? -1) with false by lia. rewrite u32_small by lia.
  assert (Hr1 : fsrep ops hi (set_lock s true) img) by (by destruct Hr; split).
  destruct (update_inode_spec ops hi img Hok (set_lock s true) ino Hr1 Hi) as (s1 & -> & Hr2 & (Hb1 & Hf1 & _) & Hi1).
  cbn [obind Z.ltb Z.compare]. unfold allocate_file. rewrite (fr_boot _ _ _ _ Hr2). fold b.
  replace (num_inodes b <? ino) with false by lia. rewrite Hf1. cbn [file_list set_lock].
  assert (Hfu := find_unused_spec (file_list s) 0). destruct (find_unused (file_list s) 0) as [fd|].
  - destruct Hfu as (j & f & -> & Hj & _). cbn [Nat.add] in *. cbn [file_list set_files].
    unfold get_file. cbn [file_list set_files]. assert (j < length (file_list s))%nat by by eapply lookup_lt_Some.
    rewrite list_lookup_insert_eq by done. cbn [obind file_list set_files flags file_pos file_size inode_number].
    rewrite list_insert_insert_eq. eexists. split; [reflexivity|]. split.
    + split; [by destruct Hr2; split|done|]. cbn. by rewrite length_insert.
    + cbn. unfold opened. by rewrite Hi1.
  - eexists. split; [reflexivity|]. split; [|done]. split; [by destruct Hr2; split|done|]. cbn. by rewrite Hf1.
Qed.

(** * Open files as I/O objects *)

(** A usable file system in which [io] is an open file. *)
Record file_ready (s : kfs) (img : list Z) (io : nat) (f : file_t) (i : Z) : Prop := {
  fy_ok : img_ok img;
  fy_ready : ready s img;
  fy_open : open_file img s io f i;
}.

Definition unread (io : nat) (s : kfs) : list Z :=
  match disk_io s, file_list s !! io with
  | Some d, Some f => rest_of (dk_data d) f
  | _, _ => []
  end.

Lemma unread_eq s img io f i : file_ready s img io f i -> unread io s = rest_of img f.
Proof.
  intros [_ [[(d & Hd & _ & Hdata) _ _ _] _ _] [Hf _ _ _ _]]. unfold unread. by rewrite Hd, Hf, Hdata.
Qed.

Lemma fs_read_ready s img io f i n : file_ready s img io f i -> 0 < n ->
  exists s' k, fs_read ops hi s (Some io) false n = Ret (s', Z.of_nat k, take k (rest_of img f)) /\
    Z.of_nat k = Z.min n (Z.of_nat (length (rest_of img f))) /\
    file_ready s' img io (with_pos f (file_pos f + Z.of_nat k)) i.
Proof.
  intros [Hok [Hr Hlk Hl] Ho] Hn.
  destruct (fs_read_spec ops hi img Hok s io f i n Hr Hlk Ho Hn) as (s' & k & E & Hk & Hr' & Hlk' & Hfl).
  exists s', k. split; [exact E|]. split; [exact Hk|]. destruct Ho as [Hf Hin Hi Hsz Hp].
  assert (Hb : file_pos f + Z.of_nat k < 2 ^ 32).
  { revert Hk. unfold rest_of. rewrite length_drop, Hin. assert (Hlc := length_content img Hok i Hi).
    assert (Hml := im_len _ Hok i Hi). unfold MAX_DB_PER_INODE, FS_BLKSZ in Hml. lia. }
  split; [done|split; [done|done|]|split; try done].
  - by rewrite Hfl, length_insert.
  - rewrite Hfl. apply list_lookup_insert_eq. by eapply lookup_lt_Some.
  - cbn. lia.
Qed.

(** Open files keep the contract of [read]; the image and the inode stay. *)
#[export, program] Instance fs_source (io : nat) (img : list Z) (i : Z) : IoSource (fun s n => fs_read ops hi s (Some io) false n) := {
  src_wf s := exists f, file_ready s img io f i;
  src_rest := unread io;
}.
Next Obligation.
  intros io img i s n (f & Hy) Hn. destruct (fs_read_ready s img io f i n Hy Hn) as (s' & k & E & Hk & Hy').
  exists s', k. rewrite (unread_eq s img io f i Hy), (unread_eq s' img io _ i Hy'). split; [exact E|]. split; [eauto|].
  split_and!; [|lia|lia|].
  - unfold rest_of. cbn [file_pos inode_number with_pos]. rewrite drop_drop. f_equal.
    destruct (of_pos _ _ _ _ _ (fy_open _ _ _ _ _ Hy)). lia.
  - intros Hne. destruct (rest_of img f); [done|]. cbn [length] in Hk. lia.
Qed.
End Files.

(** A literal is such a disk: it takes the low half of the offset cell. *)
Definition lit_disk_ok (lit : io_lit) : Prop :=
  lit_wf lit /\ lit_size lit = Z.of_nat (length (lit_data lit)) /\ lit_size lit < 2 ^ 31.

#[export, program] Instance lit_read_disk (hi : Z) : ReadDisk iolit_ops hi := {
  dk_wf := lit_disk_ok;
  dk_data := lit_data;
  dk_at lit off := lit_pos lit = off;
}.
Next Obligation.
  intros hi lit off (Hwf & Hs & Hb) Ho Hl. exists (set_lit_pos lit off), 0.
  assert (Hu : u32 (off + 2 ^ 32 * hi) = off) by (unfold u32; rewrite Z.mul_comm, Z_mod_plus_full; apply Z.mod_small; lia).
  unfold disk_ctl. cbn -[u32 Z.add Z.mul Z.pow]. rewrite Hu. replace (lit_size lit <? off) with false by (unfold FS_BLKSZ in Hl; lia).
  split; [done|]. split; [lia|]. split; [|done]. split; [|done]. unfold lit_wf in *. cbn. destruct (lit_buf lit); [|done].
  unfold FS_BLKSZ in Hl. lia.
Qed.
Next Obligation.
  intros _ lit (Hwf & Hs & Hb). exists (set_lit_pos lit 0), 0.
  assert (Hlt : (lit_size lit <? 0) = false) by lia.
  unfold disk_ctl. cbn -[u32]. change (u32 0) with 0. rewrite Hlt.
  split; [done|]. split; [lia|]. split; [|done]. split; [|done]. unfold lit_wf in *. cbn. destruct (lit_buf lit); [|done]. lia.
Qed.
Next Obligation.
  intros _ lit off (Hwf & Hs & Hb) <- Ho _ Hl. destruct (iolit_read_wf lit FS_BLKSZ Hwf) as (k & E & Hk & Hwf'); [done|].
  assert (k = BLK) as -> by blk_lia. assert (Hz := BLK_Z). exists (set_lit_pos lit (lit_pos lit + Z.of_nat BLK)).
  unfold disk_read. cbn [op_read iolit_ops]. rewrite E, Hz. split; [|split; [split; [by rewrite <- Hz|done]|done]].
  do 2 f_equal. unfold lit_rest. rewrite (take_ge (lit_data lit)) by lia. done.
Qed.

#[export] Instance lit_disk (hi : Z) : BlockDisk iolit_ops hi.
Proof.
  constructor. cbn [dk_wf dk_data dk_at lit_read_disk]. intros lit off b (Hwf & Hs & Hb) <- Ho _ Hl Hlen.
  destruct (lit_buf lit) as [l|] eqn:El; [|unfold lit_wf in Hwf; by rewrite El in Hwf].
  assert (Hdl : lit_data lit = l) by (unfold lit_data; by rewrite El). rewrite Hdl in *.
  destruct (iolit_write_wf lit l b Hwf El) as (k & E & Hk & Hwf'); [by intros ->|].
  assert (k = length b) as -> by (unfold FS_BLKSZ in *; lia). rewrite take_ge in E, Hwf' by lia.
  eexists. unfold disk_write. cbn [op_write iolit_ops]. rewrite E, Hlen. split; [done|]. split; [|done].
  rewrite Hlen in Hwf'. split; [exact Hwf'|]. cbn. rewrite length_splice by lia. done.
Qed.

(** * Properties *)

Section Properties.
Context {D : Type} (ops : io_ops D) (hi : Z) `{HR : !ReadDisk ops hi} `{HW : !BlockDisk ops hi}.

(** Reading through the interface; shared by the properties. *)
Lemma fs_ioread_full s img io f i buf bufsz :
  file_ready ops hi s img io f i -> 0 <= bufsz <= Z.of_nat (length buf) ->
  exists s' f', let data := take (Z.to_nat bufsz) (drop (Z.to_nat (file_pos f)) (content img i)) in
    ioread_full (fs_io_ops ops hi io) s buf bufsz = Ret (s', Z.of_nat (length data), splice buf 0 data) /\
    file_ready ops hi s' img io f' i /\ rest_of img f' = drop (length data) (rest_of img f).
Proof.
  intros Hy Hb. assert (Hu := unread_eq ops hi s img io f i Hy). assert (Hi : inode_number f = i) by apply Hy.
  assert (Hwf : exists f, file_ready ops hi s img io f i) by eauto.
  destruct (ioread_full_loop_spec _ (H := fs_source ops hi io img i) (S (Z.to_nat bufsz)) s buf bufsz 0 Hwf)
    as (s' & E & [f' Hy'] & Hr); [lia|lia|lia|].
  cbn [src_rest fs_source] in E, Hr. rewrite Z.sub_0_r, Hu in E, Hr. exists s', f'. unfold rest_of at 1 2 in E. rewrite Hi in E.
  split; [exact E|]. split; [exact Hy'|]. rewrite <- (unread_eq ops hi s' img io f' i Hy'), Hr.
  unfold rest_of. by rewrite Hi.
Qed.

(** A file of a freshly mounted file system, opened and read from its
    beginning. *)
Lemma fs_open_read s img name key i : img_ok img -> inodes_ok img -> ready ops hi s img ->
  file_list s = replicate (Z.to_nat MAX_OPEN_FILES) released -> bytes_ok name -> cprefix (Z.to_nat FS_NAMELEN) name = Some key ->
  dir_lookup img key = Some i ->
  exists s', fs_open ops hi s (Some name) false = Ret (s', 0, Some 0%nat) /\
    forall buf n, 0 <= n <= Z.of_nat (length buf) -> let data := take (Z.to_nat n) (content img i) in
      exists s2, ioread_full (fs_io_ops ops hi 0) s' buf n = Ret (s2, Z.of_nat (length data), splice buf 0 data).
Proof.
  intros Hok Hino Hr Hf Hn Hk Hdir. assert (Hi := dir_lookup_range img name key i Hok Hino Hn Hk Hdir).
  destruct (fs_open_spec ops hi s img name key Hok Hino Hr Hn Hk) as (s' & E & Hr' & Hf').
  assert (Ho : open_result s img key = (0, Some 0%nat, <[0%nat := opened img i]> (file_list s))) by (unfold open_result; by rewrite Hdir, Hf).
  rewrite Ho in E, Hf'. cbn [fst snd] in E, Hf'. exists s'. split; [exact E|]. intros buf n Hb.
  assert (Hy : file_ready ops hi s' img 0 (opened img i) i) by (split; [done|done|]; split; try done; by rewrite Hf', Hf).
  destruct (fs_ioread_full s' img 0 _ i buf n Hy Hb) as (s2 & f' & E2 & _). rewrite drop_0 in E2. by exists s2.
Qed.

(** Mounting a disk with a consistent image succeeds, and then opening a
    name (compared on its first 32 characters) finds the first directory entry
    of that name: it takes the first unused descriptor and sets it to the
    start of the file, with the length of the inode on disk; an unknown name
    gives -ENOENT and a full table -EBUSY, with no descriptor changed.  The
    lock is free again in every case. *)
Theorem fs_mount_open s0 d name key :
  unmounted s0 -> dk_wf d -> img_ok (dk_data d) -> inodes_ok (dk_data d) -> bytes_ok name ->
  cprefix (Z.to_nat FS_NAMELEN) name = Some key ->
  exists s1, fs_mount ops s0 (Some d) = Ret (s1, 0) /\ ready ops hi s1 (dk_data d) /\
    forall s, ready ops hi s (dk_data d) ->
      exists s' ret fd, fs_open ops hi s (Some name) false = Ret (s', ret, fd) /\ ready ops hi s' (dk_data d) /\
        match dir_lookup (dk_data d) key, find_unused (file_list s) 0 with
        | None, _ => ret = - ENOENT /\ fd = None /\ file_list s' = file_list s
        | Some _, None => ret = - EBUSY /\ fd = None /\ file_list s' = file_list s
        | Some ino, Some k => ret = 0 /\ fd = Some k /\ file_list s' = <[k := opened (dk_data d) ino]> (file_list s)
        end.
Proof.
  intros Hu Hwf Hok Hino Hn Hk. destruct (fs_mount_spec ops hi s0 d Hu Hwf Hok) as (s1 & E & Hr & _).
  exists s1. split; [exact E|]. split; [exact Hr|]. intros s Hs.
  destruct (fs_open_spec ops hi s _ name key Hok Hino Hs Hn Hk) as (s' & Eo & Hr' & Hf). eexists s', _, _. split; [exact Eo|].
  split; [exact Hr'|]. rewrite Hf. unfold open_result. destruct (dir_lookup _ key); [|done]. by destruct (find_unused _ _).
Qed.

(** C13: reading an open file through the I/O interface delivers exactly the
    next bytes of the file as its inode and data blocks on the disk define it,
    across block boundaries and up to the end of the file, and advances the
    position by what was read; the disk keeps its image and the lock is free
    again. *)
Theorem fs_read_file s img io f i buf bufsz :
  file_ready ops hi s img io f i -> 0 <= bufsz <= Z.of_nat (length buf) ->
  exists s' f', let data := take (Z.to_nat bufsz) (drop (Z.to_nat (file_pos f)) (content img i)) in
    ioread_full (fs_io_ops ops hi io) s buf bufsz = Ret (s', Z.of_nat (length data), splice buf 0 data) /\
    file_ready ops hi s' img io f' i /\ rest_of img f' = drop (length data) (rest_of img f).
Proof. apply fs_ioread_full. Qed.

Lemma fs_setpos_spec s img io f i pos : file_ready ops hi s img io f i -> 0 <= pos <= file_size f ->
  exists s', fs_ioctl s (Some io) IOCTL_SETPOS (Some pos) = Ret (s', 0, Some pos) /\ file_ready ops hi s' img io (with_pos f pos) i.
Proof.
  intros [Hok [Hr Hlk Hl] [Hf Hin Hi Hsz Hp]] Hpos. unfold fs_ioctl, fs_setpos, acquire. cbn. rewrite Hlk. cbn [obind].
  unfold get_file. cbn [file_list set_lock]. rewrite Hf. cbn [obind].
  assert (Hml := im_len _ Hok i Hi). unfold MAX_DB_PER_INODE, FS_BLKSZ in Hml. rewrite u32_small by lia.
  replace (file_size f <? pos) with false by lia.
  rewrite (put_pos_spec (set_lock s true) io f) by done. eexists. split; [reflexivity|].
  split; [done|split; [by destruct Hr; split|done|cbn; by rewrite length_insert]|split; try done].
  - apply list_lookup_insert_eq. by eapply lookup_lt_Some.
  - cbn. lia.
Qed.

(** C23: data written to an open file inside its length (over blocks that the
    inode lists once each) is what a read gives after seeking back to where it
    was written, every other byte of the file is as before, and so are all
    files that share no block with it. *)
Theorem fs_write_read s img io f i buf :
  file_ready ops hi s img io f i -> NoDup (block_nums (inode_of img i)) -> bytes_ok buf -> buf <> [] ->
  file_pos f + Z.of_nat (length buf) <= file_size f ->
  exists s1 s2 s3 img' a, fs_write ops hi s (Some io) (Some buf) = Ret (s1, Z.of_nat (length buf)) /\
    fs_ioctl s1 (Some io) IOCTL_SETPOS (Some (file_pos f)) = Ret (s2, 0, a) /\
    fs_read ops hi s2 (Some io) false (Z.of_nat (length buf)) = Ret (s3, Z.of_nat (length buf), buf) /\
    file_ready ops hi s3 img' io (with_pos f (file_pos f + Z.of_nat (length buf))) i /\
    content img' i = splice (content img i) (Z.to_nat (file_pos f)) buf /\
    forall i', 0 <= i' < num_inodes (boot_of img) ->
      (forall j, j ∈ block_nums (inode_of img i') -> j ∉ block_nums (inode_of img i)) -> content img' i' = content img i'.
Proof.
  intros Hy Hnd Hby Hne Hsz. assert (Hl0 : 0 < Z.of_nat (length buf)) by (destruct buf; cbn; [done|lia]).
  destruct Hy as [Hok [Hr Hlk Hl] Ho]. assert (Ho' := Ho). destruct Ho' as [Hf Hin Hi Hs Hp].
  destruct (allocated_spec img Hok i Hi) as (Ha1 & _ & Ha3).
  assert (Hk : writable img i (file_pos f) (Z.of_nat (length buf)) = Z.of_nat (length buf)) by (unfold writable; lia).
  destruct (fs_write_spec ops hi s img io f i buf Hok Hr Hlk Ho Hnd Hby) as (s1 & img' & E1 & Hr1 & Hlk1 & Hf1 & Hw);
    [unfold MAX_DB_PER_INODE, FS_BLKSZ in *; lia|].
  rewrite Hk in E1, Hf1, Hw. rewrite Nat2Z.id, take_ge in Hw by lia. assert (Hino := wr_inode _ _ _ _ _ Hw i Hi).
  assert (Hc := wrote_content img img' i (file_pos f) buf Hok Hw Hi ltac:(lia) ltac:(lia)).
  assert (Hy1 : file_ready ops hi s1 img' io (with_pos f (file_pos f + Z.of_nat (length buf))) i).
  { split; [apply Hw|split; [done|done|by rewrite Hf1, length_insert]|]. split; [|done| | |].
    - rewrite Hf1. apply list_lookup_insert_eq. by eapply lookup_lt_Some.
    - by rewrite (wr_boot _ _ _ _ _ Hw).
    - cbn. by rewrite Hino.
    - cbn. unfold MAX_DB_PER_INODE, FS_BLKSZ in *. lia. }
  destruct (fs_setpos_spec s1 img' io _ i (file_pos f) Hy1) as (s2 & E2 & Hy2); [cbn; lia|].
  destruct (fs_read_ready ops hi s2 img' io _ i (Z.of_nat (length buf)) Hy2) as (s3 & k & E3 & Hk3 & Hy3); [lia|].
  assert (Hrest : rest_of img' (with_pos (with_pos f (file_pos f + Z.of_nat (length buf))) (file_pos f))
    = drop (Z.to_nat (file_pos f)) (splice (content img i) (Z.to_nat (file_pos f)) buf)) by (unfold rest_of; cbn; by rewrite Hin, Hc).
  assert (Hlc := length_content img Hok i Hi).
  assert (k = length buf) as ->.
  { rewrite Hrest, length_drop, length_splice in Hk3 by lia. lia. }
  rewrite Hrest, splice_mid in E3 by lia. eexists s1, s2, s3, img', _. split; [exact E1|]. split; [exact E2|]. split; [exact E3|].
  split; [exact Hy3|]. split; [exact Hc|]. intros i' Hi' Hd. by eapply wrote_other_content.
Qed.
End Properties.

(** A disk image with one file, "hi", of five bytes, on a literal. *)
Module KfsDemo.
Definition zeros (n : Z) : list Z := replicate (Z.to_nat n) 0.
Definition name : list Z := cstr "hi".
Definition boot : list Z :=
  le_encode 4 1 ++ le_encode 4 1 ++ le_encode 4 1 ++ zeros 52 ++ cstr "hi" ++ zeros 29 ++ le_encode 4 0 ++ zeros (28 + 62 * 64).
Definition ino : list Z := le_encode 4 5 ++ le_encode 4 0 ++ zeros 4088.
Definition data : list Z := [104; 101; 108; 108; 111] ++ zeros 4091.
Definition img : list Z := boot ++ ino ++ data.
Definition disk : io_lit := iolit_init {| lit_ops := false; lit_buf := None; lit_size := 0; lit_pos := 0 |} img 12288.
Definition s0 : kfs io_lit :=
  {| boot_block := zeros 4096; inode := zeros 4096; data_block := zeros 4096; file_list := replicate 32 released;
     disk_io := None; kfs_lock := true |}.

Lemma data_eq : dk_data (ReadDisk := lit_read_disk 7) disk = img.
Proof. done. Qed.
Lemma img_len : length img = Z.to_nat 12288.
Proof. by vm_compute. Qed.
Lemma img_fine : img_ok img.
Proof.
  split.
  - apply bytes_ok_forallb. by vm_compute.
  - rewrite img_len. vm_compute. split; [discriminate|done].
  - by vm_compute.
  - intros i Hi. assert (num_inodes (boot_of img) = 1) as E by by vm_compute. rewrite E in Hi. assert (i = 0) as -> by lia. by vm_compute.
  - intros i Hi. assert (num_inodes (boot_of img) = 1) as E by by vm_compute. rewrite E in Hi. assert (i = 0) as -> by lia.
    apply (bool_decide_unpack _). by vm_compute.
Qed.

Lemma inodes_fine : inodes_ok img.
Proof.
  intros i Hi. assert (num_dentry (boot_of img) = 1) as E by by vm_compute. rewrite E in Hi. assert (i = 0) as -> by lia.
  vm_compute. split; [discriminate|done].
Qed.
Lemma disk_ok : lit_disk_ok disk.
Proof. split; [|split; [by vm_compute|by vm_compute]]. unfold lit_wf, disk, iolit_init. cbn [lit_buf lit_pos lit_size]. rewrite img_len. lia. Qed.
Lemma s0_ok : unmounted s0.
Proof. split; by vm_compute. Qed.
Lemma name_bytes : bytes_ok name.
Proof. apply bytes_ok_forallb. by vm_compute. Qed.

(** Mounted, with the file open; the upper half of the offset cell is junk. *)
Definition mounted : kfs io_lit := match fs_mount iolit_ops s0 (Some disk) with Ret (s, _) => s | _ => s0 end.
Definition st : kfs io_lit := match fs_open iolit_ops 7 mounted (Some name) false with Ret (s, _, _) => s | _ => s0 end.

Lemma st_ready : file_ready iolit_ops 7 st img 0 (opened img 0) 0.
Proof.
  destruct (fs_mount_spec iolit_ops 7 (HR := lit_read_disk 7) s0 disk s0_ok disk_ok img_fine) as (s1 & E1 & Hr1 & Hf1).
  destruct (fs_open_spec iolit_ops 7 s1 img name name img_fine inodes_fine Hr1 name_bytes) as (s2 & E2 & Hr2 & Hf2); [by vm_compute|].
  assert (Hor : open_result s1 img name = (0, Some 0%nat, <[0%nat := opened img 0]> (file_list s1))).
  { unfold open_result. rewrite Hf1. replace (dir_lookup img name) with (Some 0) by (by vm_compute). done. }
  rewrite Hor in E2, Hf2. cbn [fst snd] in E2, Hf2. unfold st, mounted. rewrite E1, E2.
  split; [apply img_fine|exact Hr2|]. split; [rewrite Hf2, Hf1; reflexivity|reflexivity| |reflexivity|cbn [file_pos opened]; lia].
  vm_compute. split; [discriminate|reflexivity].
Qed.
End KfsDemo.

Lemma fs_mount_open_witness : exists s1 s', fs_mount iolit_ops KfsDemo.s0 (Some KfsDemo.disk) = Ret (s1, 0) /\
  fs_open iolit_ops 7 s1 (Some KfsDemo.name) false = Ret (s', 0, Some 0%nat) /\
  file_list s' !! 0%nat = Some (opened KfsDemo.img 0).
Proof.
  destruct (fs_mount_open iolit_ops 7 KfsDemo.s0 KfsDemo.disk KfsDemo.name KfsDemo.name) as (s1 & E & Hr & Ho).
  - exact KfsDemo.s0_ok.
  - exact KfsDemo.disk_ok.
  - exact KfsDemo.img_fine.
  - exact KfsDemo.inodes_fine.
  - exact KfsDemo.name_bytes.
  - vm_compute. reflexivity.
  - destruct (fs_mount_spec iolit_ops 7 (HR := lit_read_disk 7) _ _ KfsDemo.s0_ok KfsDemo.disk_ok KfsDemo.img_fine) as (s2 & E2 & _ & Hf).
    rewrite E in E2. injection E2 as <-. destruct (Ho s1 Hr) as (s' & ret & fd & Eo & _ & Hm). rewrite Hf in Hm.
    replace (dir_lookup (dk_data KfsDemo.disk) KfsDemo.name) with (Some 0) in Hm by (vm_compute; reflexivity).
    destruct Hm as (-> & -> & Hfl). exists s1, s'. split; [exact E|]. split; [exact Eo|]. rewrite Hfl. reflexivity.
Defined.

Lemma fs_read_file_witness : exists s',
  ioread_full (fs_io_ops iolit_ops 7 0) KfsDemo.st (replicate 8 0) 8 = Ret (s', 5, cstr "hello" ++ [0; 0]).
Proof.
  destruct (fs_read_file iolit_ops 7 KfsDemo.st KfsDemo.img 0 (opened KfsDemo.img 0) 0 (replicate 8 0) 8) as (s' & f' & E & _).
  - exact KfsDemo.st_ready.
  - vm_compute. split; discriminate.
  - exists s'. rewrite E. vm_compute. reflexivity.
Defined.

Lemma fs_write_read_witness : exists s1 s2 s3 a,
  fs_write iolit_ops 7 KfsDemo.st (Some 0%nat) (Some [74]) = Ret (s1, 1) /\
  fs_ioctl s1 (Some 0%nat) IOCTL_SETPOS (Some 0) = Ret (s2, 0, a) /\
  fs_read iolit_ops 7 s2 (Some 0%nat) false 1 = Ret (s3, 1, [74]).
Proof.
  destruct (fs_write_read iolit_ops 7 KfsDemo.st KfsDemo.img 0 (opened KfsDemo.img 0) 0 [74])
    as (s1 & s2 & s3 & img' & a & E1 & E2 & E3 & _).
  - exact KfsDemo.st_ready.
  - apply (bool_decide_unpack _). vm_compute. exact I.
  - apply bytes_ok_forallb. reflexivity.
  - discriminate.
  - vm_compute. discriminate.
  - exists s1, s2, s3, a. split; [exact E1|]. split; [exact E2|exact E3].
Defined.

(** A write that runs past the end of the file is reported as done, but the
    length on disk and in the descriptor stays, and the position ends up past
    it. *)
Example fs_write_past_end :
  match fs_write iolit_ops 7 KfsDemo.st (Some 0%nat) (Some [1; 2; 3; 4; 5; 6; 7]) with
  | Ret (s, n) => n = 7 /\ byte_len (inode s) = 5 /\ option_map file_size (file_list s !! 0%nat) = Some 5 /\
      option_map file_pos (file_list s !! 0%nat) = Some 7
  | _ => False
  end.
Proof. vm_compute. repeat split. Qed.
