(* ===== verification/Virtio.v ===== *)
(** The VirtIO transport (src/src/kern/virtio.c and the inline functions of
    virtio.h).

    The device is not code of the kernel: the driver runs over any device whose
    registers can be read and written (class [VirtioMmio], one constructor of
    [vreg] per field of [struct virtio_mmio_regs] the driver uses).  What the
    VirtIO 1.2 specification says of these registers (section 4.2.2) is the
    register file [regfile]; class [VirtioRegs] states that the device behaves
    like it. *)

From S2P Require Import Prelude.
From stdpp Require Import list.
#[local] Open Scope Z_scope.

Definition VIRTIO_MAGIC : Z := 0x74726976.
Definition VIRTIO_STAT_ACKNOWLEDGE : Z := Z.shiftl 1 0.
Definition VIRTIO_STAT_DRIVER : Z := Z.shiftl 1 1.
Definition VIRTIO_STAT_FEATURES_OK : Z := Z.shiftl 1 3.
Definition VIRTIO_STAT_DRIVER_OK : Z := Z.shiftl 1 2.
Definition VIRTIO_F_INDIRECT_DESC : Z := 28.
Definition VIRTIO_F_RING_RESET : Z := 40.
Definition VIRTQ_DESC_F_NEXT : Z := Z.shiftl 1 0.
Definition VIRTQ_DESC_F_WRITE : Z := Z.shiftl 1 1.
Definition VIRTQ_DESC_F_INDIRECT : Z := Z.shiftl 1 2.
Definition VIRTIO_FEATLEN : Z := 4.
Definition VIRTIO_ID_NONE : Z := 0.
Definition VIRTIO_ID_BLOCK : Z := 2.
Definition VIRTIO_ID_CONSOLE : Z := 3.

(** The registers, by the names of the fields. *)
Inductive vreg :=
  | magic_value | version | device_id
  | device_features | device_features_sel | driver_features | driver_features_sel
  | queue_sel | queue_num | queue_ready | queue_notify | queue_reset
  | interrupt_status | interrupt_ack | status
  | queue_desc | queue_driver | queue_device
  | config_blk_size.

(** [struct virtq_desc] *)
Record virtq_desc := { d_addr : Z; d_len : Z; d_flags : Z; d_next : Z }.

Class VirtioMmio (HW : Type) := {
  vrd : HW -> vreg -> HW * Z;
  vwr : HW -> vreg -> Z -> HW;
}.

(** * Feature sets: four 32-bit words *)

Definition virtio_featset_init : list Z := replicate (Z.to_nat VIRTIO_FEATLEN) 0.
Definition virtio_featset_add (fts : list Z) (k : Z) : outcome (list Z) :=
  let! w := load fts (k / 32) in
  store fts (k / 32) (Z.lor w (u32 (Z.shiftl 1 (k mod 32)))).
Definition virtio_featset_test (fts : list Z) (k : Z) : outcome Z :=
  let! w := load fts (k / 32) in
  Ret (Z.land (Z.shiftr w (k mod 32)) 1).

(** * The driver *)
Section Driver.
Context {HW : Type} `{VirtioMmio HW}.

(** [regs->status |= bit] *)
Definition status_or (hw : HW) (bit : Z) : HW :=
  let (hw, v) := vrd hw status in vwr hw status (Z.lor v bit).

Definition virtio_check_feature (hw : HW) (k : Z) : HW * Z :=
  let hw := vwr hw device_features_sel (k / 32) in
  let (hw, v) := vrd hw device_features in
  (hw, Z.land (Z.shiftr v (k mod 32)) 1).

Definition virtio_notify_avail (hw : HW) (qid : Z) : HW := vwr hw queue_notify qid.
Definition virtio_enable_virtq (hw : HW) (qid : Z) : HW := vwr (vwr hw queue_sel qid) queue_ready 1.
Definition virtio_reset_virtq (hw : HW) (qid : Z) : HW := vwr (vwr hw queue_sel qid) queue_reset 1.

(** The first loop of [virtio_negotiate_features], from word [i] on: are all
    needed features offered? *)
Fixpoint check_needed (i : Z) (needed : list Z) (hw : HW) : HW * bool :=
  match needed with
  | [] => (hw, true)
  | w :: r =>
      if w =? 0 then check_needed (i + 1) r hw
      else
        let hw := vwr hw device_features_sel i in
        let (hw, f) := vrd hw device_features in
        if Z.land f w =? w then check_needed (i + 1) r hw else (hw, false)
  end.

(** The second loop; words of [enabled] for which nothing is wanted keep what
    they held. *)
Fixpoint request_wanted (i : Z) (wanted enabled : list Z) (hw : HW) : HW * list Z :=
  match wanted, enabled with
  | w :: ws, e :: es =>
      let (hw, e) :=
        if w =? 0 then (hw, e)
        else
          let hw := vwr hw device_features_sel i in
          let hw := vwr hw driver_features_sel i in
          let (hw, f) := vrd hw device_features in
          (vwr hw driver_features (Z.land f w), Z.land f w) in
      let (hw, es) := request_wanted (i + 1) ws es hw in
      (hw, e :: es)
  | _, _ => (hw, enabled)
  end.

Definition virtio_negotiate_features (hw : HW) (enabled wanted needed : list Z) : outcome (HW * list Z * Z) :=
  let (hw, ok) := check_needed 0 needed hw in
  if negb ok then Ret (hw, enabled, - ENOTSUP)
  else
    let (hw, enabled) := request_wanted 0 wanted enabled hw in
    let hw := status_or hw VIRTIO_STAT_FEATURES_OK in
    let (hw, v) := vrd hw status in
    assert! negb (Z.land v VIRTIO_STAT_FEATURES_OK =? 0) in Ret (hw, enabled, 0).

Definition virtio_attach_virtq (hw : HW) (qid len desc_addr used_addr avail_addr : Z) : HW :=
  let hw := vwr hw queue_sel qid in
  let hw := vwr hw queue_desc desc_addr in
  let hw := vwr hw queue_device used_addr in
  let hw := vwr hw queue_driver avail_addr in
  vwr hw queue_num len.

(** [viocons_attach] is only the weak definition. *)
Definition viocons_attach {A} (hw : HW) (a : A) : outcome (HW * A) := Panic.

(** [A] is the state of the kernel that [vioblk_attach] changes; the messages
    on the console are left out. *)
Definition virtio_attach {A} (vioblk_attach : HW -> A -> outcome (HW * A)) (hw : HW) (a : A) : outcome (HW * A) :=
  let (hw, magic) := vrd hw magic_value in
  if negb (magic =? VIRTIO_MAGIC) then Ret (hw, a)
  else
    let (hw, ver) := vrd hw version in
    if negb (ver =? 2) then Ret (hw, a)
    else
      let (hw, id) := vrd hw device_id in
      if id =? VIRTIO_ID_NONE then Ret (hw, a)
      else
        let hw := vwr hw status 0 in
        let hw := vwr hw status VIRTIO_STAT_ACKNOWLEDGE in
        let (hw, id) := vrd hw device_id in
        if id =? VIRTIO_ID_CONSOLE then viocons_attach hw a
        else if id =? VIRTIO_ID_BLOCK then vioblk_attach hw a
        else Ret (hw, a).
End Driver.

(** * The register file

    [rf_seen] is the available index up to which the device has taken
    requests; [rf_notified] tells that it was notified since.  Writing 0 to the
    status resets the device; a queue reset disables the queue. *)
Record regfile := {
  rf_magic : Z; rf_version : Z; rf_id : Z; rf_blksz : Z;
  rf_offered : list Z; rf_accepted : list Z;
  rf_dsel : Z; rf_gsel : Z;
  rf_status : Z; rf_intr : Z;
  rf_qsel : Z; rf_qready : Z; rf_qnum : Z; rf_qdesc : Z; rf_qdriver : Z; rf_qdevice : Z;
  rf_notified : bool; rf_seen : Z;
}.

Definition rf_set_features (f : regfile) (acc : list Z) (dsel gsel : Z) : regfile :=
  {| rf_magic := rf_magic f; rf_version := rf_version f; rf_id := rf_id f; rf_blksz := rf_blksz f;
     rf_offered := rf_offered f; rf_accepted := acc; rf_dsel := dsel; rf_gsel := gsel;
     rf_status := rf_status f; rf_intr := rf_intr f; rf_qsel := rf_qsel f; rf_qready := rf_qready f;
     rf_qnum := rf_qnum f; rf_qdesc := rf_qdesc f; rf_qdriver := rf_qdriver f; rf_qdevice := rf_qdevice f;
     rf_notified := rf_notified f; rf_seen := rf_seen f |}.
Definition rf_set_status (f : regfile) (v : Z) : regfile :=
  {| rf_magic := rf_magic f; rf_version := rf_version f; rf_id := rf_id f; rf_blksz := rf_blksz f;
     rf_offered := rf_offered f; rf_accepted := rf_accepted f; rf_dsel := rf_dsel f; rf_gsel := rf_gsel f;
     rf_status := v; rf_intr := rf_intr f; rf_qsel := rf_qsel f; rf_qready := rf_qready f;
     rf_qnum := rf_qnum f; rf_qdesc := rf_qdesc f; rf_qdriver := rf_qdriver f; rf_qdevice := rf_qdevice f;
     rf_notified := rf_notified f; rf_seen := rf_seen f |}.
Definition rf_set_queue (f : regfile) (sel ready num desc driver device : Z) : regfile :=
  {| rf_magic := rf_magic f; rf_version := rf_version f; rf_id := rf_id f; rf_blksz := rf_blksz f;
     rf_offered := rf_offered f; rf_accepted := rf_accepted f; rf_dsel := rf_dsel f; rf_gsel := rf_gsel f;
     rf_status := rf_status f; rf_intr := rf_intr f; rf_qsel := sel; rf_qready := ready;
     rf_qnum := num; rf_qdesc := desc; rf_qdriver := driver; rf_qdevice := device;
     rf_notified := rf_notified f; rf_seen := rf_seen f |}.
(** What notifications, requests and interrupts change. *)
Definition rf_set_work (f : regfile) (intr : Z) (notified : bool) (seen : Z) : regfile :=
  {| rf_magic := rf_magic f; rf_version := rf_version f; rf_id := rf_id f; rf_blksz := rf_blksz f;
     rf_offered := rf_offered f; rf_accepted := rf_accepted f; rf_dsel := rf_dsel f; rf_gsel := rf_gsel f;
     rf_status := rf_status f; rf_intr := intr; rf_qsel := rf_qsel f; rf_qready := rf_qready f;
     rf_qnum := rf_qnum f; rf_qdesc := rf_qdesc f; rf_qdriver := rf_qdriver f; rf_qdevice := rf_qdevice f;
     rf_notified := notified; rf_seen := seen |}.

Definition rf_reset (f : regfile) : regfile :=
  rf_set_work (rf_set_queue (rf_set_status (rf_set_features f (replicate (length (rf_accepted f)) 0) 0 0) 0) 0 0 0 0 0 0) 0 false 0.

(** The value a read returns; write-only registers have none. *)
Definition rf_read (f : regfile) (r : vreg) : option Z :=
  match r with
  | magic_value => Some (rf_magic f)
  | version => Some (rf_version f)
  | device_id => Some (rf_id f)
  | device_features => Some (default 0 (rf_offered f !! Z.to_nat (rf_dsel f)))
  | queue_ready => Some (rf_qready f)
  | interrupt_status => Some (rf_intr f)
  | status => Some (rf_status f)
  | config_blk_size => Some (rf_blksz f)
  | _ => None
  end.

(** The registers of a queue are those of queue 0, the only one. *)
Definition rf_write (f : regfile) (r : vreg) (v : Z) : regfile :=
  let q0 := rf_qsel f =? 0 in
  match r with
  | device_features_sel => rf_set_features f (rf_accepted f) v (rf_gsel f)
  | driver_features_sel => rf_set_features f (rf_accepted f) (rf_dsel f) v
  | driver_features => rf_set_features f (<[Z.to_nat (rf_gsel f) := v]> (rf_accepted f)) (rf_dsel f) (rf_gsel f)
  | status => if v =? 0 then rf_reset f else rf_set_status f v
  | queue_sel => rf_set_queue f v (rf_qready f) (rf_qnum f) (rf_qdesc f) (rf_qdriver f) (rf_qdevice f)
  | queue_ready => if q0 then rf_set_queue f 0 v (rf_qnum f) (rf_qdesc f) (rf_qdriver f) (rf_qdevice f) else f
  | queue_num => if q0 then rf_set_queue f 0 (rf_qready f) v (rf_qdesc f) (rf_qdriver f) (rf_qdevice f) else f
  | queue_desc => if q0 then rf_set_queue f 0 (rf_qready f) (rf_qnum f) v (rf_qdriver f) (rf_qdevice f) else f
  | queue_driver => if q0 then rf_set_queue f 0 (rf_qready f) (rf_qnum f) (rf_qdesc f) v (rf_qdevice f) else f
  | queue_device => if q0 then rf_set_queue f 0 (rf_qready f) (rf_qnum f) (rf_qdesc f) (rf_qdriver f) v else f
  | queue_reset => if q0 then rf_set_work (rf_set_queue f 0 0 0 0 0 0) (rf_intr f) false 0 else f
  | queue_notify => if v =? 0 then rf_set_work f (rf_intr f) true (rf_seen f) else f
  | interrupt_ack => rf_set_work f (Z.ldiff (rf_intr f) v) (rf_notified f) (rf_seen f)
  | _ => f
  end.

(** A device whose registers behave like the register file; reading these
    registers has no effect. *)
Class VirtioRegs (HW : Type) `{VirtioMmio HW} := {
  regs_of : HW -> regfile;
  vrd_spec : forall hw r v, rf_read (regs_of hw) r = Some v -> vrd hw r = (hw, v);
  vwr_spec : forall hw r v, regs_of (vwr hw r v) = rf_write (regs_of hw) r v;
}.

(** * Feature negotiation *)

Definition feature_word (l : list Z) (i : Z) : Z := default 0 (l !! Z.to_nat i).

(** Are the features of [needed], whose first word is word [i], offered? *)
Fixpoint features_in (offered : list Z) (i : Z) (needed : list Z) : bool :=
  match needed with
  | [] => true
  | w :: r => (Z.land (feature_word offered i) w =? w) && features_in offered (i + 1) r
  end.

(** The words agreed on: offered and wanted, or what was there before. *)
Fixpoint agreed (offered : list Z) (i : Z) (wanted old : list Z) : list Z :=
  match wanted, old with
  | w :: ws, e :: es => (if w =? 0 then e else Z.land (feature_word offered i) w) :: agreed offered (i + 1) ws es
  | _, _ => old
  end.

Section Negotiation.
Context {HW : Type} `{VirtioRegs HW}.
(** [P] is anything that register writes preserve. *)
Context (P : HW -> Prop) (HP : forall hw r v, P hw -> P (vwr hw r v)).

Lemma status_or_spec hw bit : Z.lor (rf_status (regs_of hw)) bit <> 0 ->
  regs_of (status_or hw bit) = rf_set_status (regs_of hw) (Z.lor (rf_status (regs_of hw)) bit) /\ (P hw -> P (status_or hw bit)).
Proof.
  intros Hn. unfold status_or. rewrite (vrd_spec hw status (rf_status (regs_of hw))) by done.
  rewrite vwr_spec. cbn [rf_write]. rewrite (proj2 (Z.eqb_neq _ _) Hn). auto.
Qed.

Lemma check_needed_spec i needed hw :
  exists hw' dsel, check_needed i needed hw = (hw', features_in (rf_offered (regs_of hw)) i needed) /\ (P hw -> P hw') /\
    regs_of hw' = rf_set_features (regs_of hw) (rf_accepted (regs_of hw)) dsel (rf_gsel (regs_of hw)).
Proof.
  revert i hw; induction needed as [|w r IH]; intros i hw; cbn [check_needed features_in].
  { exists hw, (rf_dsel (regs_of hw)). split_and!; [done|done|]. by destruct (regs_of hw). }
  destruct (Z.eqb_spec w 0) as [->|Hw].
  { rewrite Z.land_0_r. apply IH. }
  rewrite (vrd_spec _ device_features (feature_word (rf_offered (regs_of hw)) i)) by (rewrite vwr_spec; done).
  destruct (Z.land _ w =? w) eqn:E; cbn [andb].
  - destruct (IH (i + 1) (vwr hw device_features_sel i)) as (hw' & dsel & -> & HPw & Hr). exists hw', dsel.
    rewrite Hr, vwr_spec. split_and!; auto.
  - exists (vwr hw device_features_sel i), i. rewrite vwr_spec. auto.
Qed.

Lemma request_wanted_spec i wanted enabled hw :
  0 <= i -> length enabled = length wanted ->
  length (rf_accepted (regs_of hw)) = (Z.to_nat i + length wanted)%nat ->
  let acc := rf_accepted (regs_of hw) in
  exists hw' dsel gsel, request_wanted i wanted enabled hw = (hw', agreed (rf_offered (regs_of hw)) i wanted enabled) /\ (P hw -> P hw') /\
    regs_of hw' = rf_set_features (regs_of hw)
      (take (Z.to_nat i) acc ++ agreed (rf_offered (regs_of hw)) i wanted (drop (Z.to_nat i) acc)) dsel gsel.
Proof.
  revert i enabled hw; induction wanted as [|w ws IH]; intros i enabled hw Hi Hl Ha; cbv zeta in *.
  { exists hw, (rf_dsel (regs_of hw)), (rf_gsel (regs_of hw)). cbn. split_and!; [done|done|].
    rewrite take_drop. by destruct (regs_of hw). }
  destruct enabled as [|e es]; [done|]. cbn [length] in Hl, Ha.
  destruct (lookup_lt_is_Some_2 (rf_accepted (regs_of hw)) (Z.to_nat i)) as [a Hla]; [lia|].
  rewrite (drop_S _ a) by done. replace (S (Z.to_nat i)) with (Z.to_nat (i + 1)) by lia.
  cbn [request_wanted agreed]. destruct (Z.eqb_spec w 0) as [->|Hw].
  - destruct (IH (i + 1) es hw) as (hw' & dsel & gsel & -> & HPw & Hr); [lia|lia|lia|].
    exists hw', dsel, gsel. split_and!; [done|done|]. rewrite Hr.
    replace (Z.to_nat (i + 1)) with (S (Z.to_nat i)) by lia. rewrite (take_S_r _ _ a) by done. by rewrite <- app_assoc.
  - rewrite (vrd_spec _ device_features (feature_word (rf_offered (regs_of hw)) i)) by (rewrite !vwr_spec; done).
    set (v := Z.land _ w). set (hw1 := vwr _ driver_features v).
    assert (Hr1 : regs_of hw1 = rf_set_features (regs_of hw) (<[Z.to_nat i := v]> (rf_accepted (regs_of hw))) i i)
      by (unfold hw1; by rewrite !vwr_spec).
    destruct (IH (i + 1) es hw1) as (hw' & dsel & gsel & E & HPw & Hr); [lia|lia| |].
    { rewrite Hr1. cbn. rewrite length_insert. lia. }
    rewrite Hr1 in E. cbn [rf_set_features rf_offered] in E. rewrite E.
    exists hw', dsel, gsel. split_and!; [done| unfold hw1 in HPw; auto|]. rewrite Hr, Hr1. cbn [rf_set_features rf_accepted rf_offered].
    unfold rf_set_features. cbn. f_equal.
    replace (Z.to_nat (i + 1)) with (S (Z.to_nat i)) by lia.
    rewrite (take_S_r _ _ v) by (apply list_lookup_insert_eq; lia).
    rewrite take_insert_ge, drop_insert_lt by lia. by rewrite <- app_assoc.
Qed.

Lemma negotiate_spec hw enabled wanted needed :
  length enabled = length wanted -> length (rf_accepted (regs_of hw)) = length wanted ->
  0 <= rf_status (regs_of hw) ->
  let f := regs_of hw in
  exists hw' dsel gsel, (P hw -> P hw') /\
    if features_in (rf_offered f) 0 needed then
      virtio_negotiate_features hw enabled wanted needed = Ret (hw', agreed (rf_offered f) 0 wanted enabled, 0) /\
      regs_of hw' = rf_set_status (rf_set_features f (agreed (rf_offered f) 0 wanted (rf_accepted f)) dsel gsel)
        (Z.lor (rf_status f) VIRTIO_STAT_FEATURES_OK)
    else
      virtio_negotiate_features hw enabled wanted needed = Ret (hw', enabled, - ENOTSUP) /\
      regs_of hw' = rf_set_features f (rf_accepted f) dsel gsel.
Proof.
  intros Hl Ha Hs f. unfold virtio_negotiate_features.
  destruct (check_needed_spec 0 needed hw) as (hw1 & d1 & -> & HP1 & Hr1). fold f in Hr1 |- *.
  destruct (features_in (rf_offered f) 0 needed); cbn [negb].
  2: { by exists hw1, d1, (rf_gsel f). }
  destruct (request_wanted_spec 0 wanted enabled hw1) as (hw2 & d2 & g2 & E2 & HP2 & Hr2); [lia|done| |].
  { rewrite Hr1. by cbn. }
  rewrite E2. rewrite Hr1 in Hr2 |- *. cbn [rf_set_features rf_offered rf_accepted] in Hr2 |- *.
  rewrite take_0, drop_0 in Hr2. cbn [app] in Hr2.
  destruct (status_or_spec hw2 VIRTIO_STAT_FEATURES_OK) as [Hr3 HP3].
  { rewrite Hr2. cbn. fold f. intros E%Z.lor_eq_0_iff. by destruct E. }
  rewrite (vrd_spec _ status (Z.lor (rf_status f) VIRTIO_STAT_FEATURES_OK)) by (rewrite Hr3, Hr2; done).
  assert (Hb : Z.land (Z.lor (rf_status f) VIRTIO_STAT_FEATURES_OK) VIRTIO_STAT_FEATURES_OK = VIRTIO_STAT_FEATURES_OK).
  { rewrite Z.land_lor_distr_l, Z.land_diag. apply Z.bits_inj'. intros n Hn. rewrite Z.lor_spec, Z.land_spec.
    by destruct (Z.testbit VIRTIO_STAT_FEATURES_OK n), (Z.testbit (rf_status f) n). }
  rewrite Hb. cbn. exists (status_or hw2 VIRTIO_STAT_FEATURES_OK), d2, g2. split_and!; [auto|done|].
  rewrite Hr3, Hr2. done.
Qed.
End Negotiation.
