(* ===== verification/Vioblk.v ===== *)
(** The VirtIO block driver (src/src/kern/vioblk.c).

    The device structure is kept with its address and the offsets of the parts
    the device reaches by DMA.  Device and interrupt line act on their own:
    [script k] lists what they do around the [k]-th request ([Serve]: the device
    looks for a request; [Intr]: an interrupt is due), before and after each of
    the steps that disable interrupts, notify the device and put the thread to
    sleep.  Outside the sleep an interrupt is taken only when the hart has
    interrupts enabled; a broadcast wakes a thread that sleeps, and no other.
    Between requests there is nothing to serve and nothing to broadcast.  What
    the VirtIO specification says of a block device is the class [VirtioBlk]. *)

From Stdlib Require Import Ascii String.
From S2P Require Import Prelude KString IoIntf Plic Intr Device Virtio.
From stdpp Require Import list.
#[local] Open Scope Z_scope.

Definition VIOBLK_IRQ_PRIO : Z := 1.
Definition VIRTIO_BLK_F_BLK_SIZE : Z := 6.
Definition VIRTIO_BLK_F_TOPOLOGY : Z := 10.
Definition VIRTIO_REQUEST_HEADER_SIZE : Z := 16.
Definition VIRTIO_STATUS_SIZE : Z := 1.
Definition VIRTIO_DESC_SIZE : Z := 16.
Definition VIRTIO_QUEUE_SZ : Z := 1.
Definition VIRTIO_QUEUE_ID : Z := 0.
Definition VIRTIO_BLK_T_IN : Z := 0.
Definition VIRTIO_BLK_T_OUT : Z := 1.
Definition VIRTIO_BLK_S_OK : Z := 0.

(** The layout of [struct vioblk_device]. *)
Definition OFF_avail : Z := 88.
Definition OFF_used : Z := 96.
Definition OFF_desc : Z := 112.
Definition OFF_req_header : Z := 176.
Definition OFF_req_status : Z := 192.
Definition SIZEOF_vioblk_device : Z := 216.

(** The queue: rings, descriptors, request header and status. *)
Record vqueue := {
  avail_flags : Z; avail_idx : Z; avail_ring : Z;
  used_idx : Z;
  desc : list virtq_desc;
  req_type : Z; req_sector : Z; req_status : Z;
}.

(** [struct vioblk_device]; [used_updated] tells whether a thread waits on the
    condition. *)
Record vioblk_device := {
  vb_irqno : Z; opened : Z; readonly : Z;
  blksz : Z; pos : Z; size : Z; blkcnt : Z;
  used_updated : bool;
  vq : vqueue;
  bufblkno : Z;
  blkbuf : list Z;
}.

Definition set_vq (d : vioblk_device) (w : bool) (q : vqueue) (buf : list Z) : vioblk_device :=
  {| vb_irqno := vb_irqno d; opened := opened d; readonly := readonly d; blksz := blksz d; pos := pos d; size := size d;
     blkcnt := blkcnt d; used_updated := w; vq := q; bufblkno := bufblkno d; blkbuf := buf |}.
Definition set_pos (d : vioblk_device) (p b : Z) : vioblk_device :=
  {| vb_irqno := vb_irqno d; opened := opened d; readonly := readonly d; blksz := blksz d; pos := p; size := size d;
     blkcnt := blkcnt d; used_updated := used_updated d; vq := vq d; bufblkno := b; blkbuf := blkbuf d |}.
Definition set_opened (d : vioblk_device) (o p : Z) : vioblk_device :=
  {| vb_irqno := vb_irqno d; opened := o; readonly := readonly d; blksz := blksz d; pos := p; size := size d;
     blkcnt := blkcnt d; used_updated := used_updated d; vq := vq d; bufblkno := bufblkno d; blkbuf := blkbuf d |}.

(** What the device does on its own: from the address of the device structure,
    the queue and the block buffer. *)
Class VirtioDma (HW : Type) := { serve : HW -> Z -> vqueue -> list Z -> HW * vqueue * list Z }.

Inductive event := Serve | Intr.

(** What happens around one request: once it is in the queue, after interrupts
    are disabled, after the notification, and while the thread sleeps. *)
Record window := { on_submit : list event; on_disable : list event; on_notify : list event; on_sleep : list event }.

(** The driver: device, structure, [vio_lock], [sstatus] and the number of
    waits so far. *)
Record vio (HW : Type) := {
  v_hw : HW;
  v_dev : vioblk_device;
  vio_lock : bool;
  v_sstatus : Z;
  v_waits : nat;
}.
Arguments v_hw {HW} _.
Arguments v_dev {HW} _.
Arguments vio_lock {HW} _.
Arguments v_sstatus {HW} _.
Arguments v_waits {HW} _.

Section Driver.
Context {HW : Type} `{VirtioMmio HW} `{!VirtioDma HW} (base : Z) (script : nat -> window).
Notation vio := (vio HW).

Definition put_dev (s : vio) (d : vioblk_device) : vio :=
  {| v_hw := v_hw s; v_dev := d; vio_lock := vio_lock s; v_sstatus := v_sstatus s; v_waits := v_waits s |}.
Definition put_hw (s : vio) (hw : HW) : vio :=
  {| v_hw := hw; v_dev := v_dev s; vio_lock := vio_lock s; v_sstatus := v_sstatus s; v_waits := v_waits s |}.
Definition put_lock (s : vio) (b : bool) : vio :=
  {| v_hw := v_hw s; v_dev := v_dev s; vio_lock := b; v_sstatus := v_sstatus s; v_waits := v_waits s |}.
Definition put_sstatus (s : vio) (v : Z) : vio :=
  {| v_hw := v_hw s; v_dev := v_dev s; vio_lock := vio_lock s; v_sstatus := v; v_waits := v_waits s |}.

Definition vio_acquire (s : vio) : outcome vio := if vio_lock s then Blocked else Ret (put_lock s true).

(** * The service routine *)

(** [condition_broadcast] and the acknowledgement. *)
Definition vioblk_isr (s : vio) : vio :=
  let d := v_dev s in
  let (hw, st) := vrd (v_hw s) interrupt_status in
  let d := if negb (Z.land st 1 =? 0) then set_vq d false (vq d) (blkbuf d) else d in
  let (hw, st) := vrd hw interrupt_status in
  put_dev (put_hw s (vwr hw interrupt_ack st)) d.

Definition happen (e : event) (s : vio) : vio :=
  match e with
  | Serve =>
      let d := v_dev s in
      let '(hw, q, buf) := serve (v_hw s) base (vq d) (blkbuf d) in
      put_dev (put_hw s hw) (set_vq d (used_updated d) q buf)
  | Intr => vioblk_isr s
  end.

(** Events while a thread of the driver runs. *)
Definition arrive (s : vio) (e : event) : vio :=
  match e with
  | Serve => happen Serve s
  | Intr => if intr_enabled (v_sstatus s) then happen Intr s else s
  end.
Definition meanwhile (evs : list event) (s : vio) : vio := foldl arrive s evs.

(** Events while the thread sleeps and others run. *)
Fixpoint run_events (evs : list event) (s : vio) : outcome vio :=
  match evs with
  | [] => Blocked
  | e :: evs => let s := happen e s in if used_updated (v_dev s) then run_events evs s else Ret s
  end.

(** [condition_wait(&dev->vq.used_updated)] *)
Definition wait_used (s : vio) : outcome vio :=
  let d := v_dev s in
  run_events (on_sleep (script (v_waits s)))
    {| v_hw := v_hw s; v_dev := set_vq d true (vq d) (blkbuf d); vio_lock := vio_lock s;
       v_sstatus := v_sstatus s; v_waits := S (v_waits s) |}.

(** * One block *)

(** [dev->vq.desc[2].flags |= VIRTQ_DESC_F_WRITE] *)
Definition or_flags (b : Z) (d : virtq_desc) : virtq_desc :=
  {| d_addr := d_addr d; d_len := d_len d; d_flags := Z.lor (d_flags d) b; d_next := d_next d |}.

(** The request as it is put in the queue; header and status are reached
    through the descriptors. *)
Definition submit (q : vqueue) (sector type : Z) : outcome vqueue :=
  let! d1 := load (desc q) 1 in
  let! d3 := load (desc q) 3 in
  guard! d_addr d1 =? base + OFF_req_header in
  guard! d_addr d3 =? base + OFF_req_status in
  let! d2 := load (desc q) 2 in
  let! ds := if type =? VIRTIO_BLK_T_IN then store (desc q) 2 (or_flags VIRTQ_DESC_F_WRITE d2) else Ret (desc q) in
  Ret {| avail_flags := 0; avail_idx := u16 (avail_idx q + 1); avail_ring := 0; used_idx := used_idx q; desc := ds;
         req_type := type; req_sector := sector; req_status := 0 |}.

Definition operation_single_blk (s : vio) (sector datasz type : Z) : outcome (vio * Z) :=
  let d := v_dev s in
  let! q := submit (vq d) sector type in
  let now := script (v_waits s) in
  let s := meanwhile (on_submit now) (put_dev s (set_vq d (used_updated d) q (blkbuf d))) in
  let (sst, saved_intr_state) := intr_disable (v_sstatus s) in
  let s := meanwhile (on_disable now) (put_sstatus s sst) in
  let s := meanwhile (on_notify now) (put_hw s (virtio_notify_avail (v_hw s) 0)) in
  let! s := wait_used s in
  let s := put_sstatus s (intr_restore (v_sstatus s) saved_intr_state) in
  if negb (req_status (vq (v_dev s)) =? VIRTIO_BLK_S_OK) then Ret (s, - EIO)
  else Ret (s, blksz (v_dev s)).

(** * Reading and writing *)

(** The loop of [vioblk_read]; [out] is what has been stored from [buf] on. *)
Fixpoint read_sectors (fuel : nat) (s : vio) (bufsz bytes_read : Z) (out : list Z) : outcome (vio * Z * list Z) :=
  if 0 <? bufsz then
    match fuel with
    | O => NoFuel
    | S fuel =>
        let d := v_dev s in
        let sector_size := if bufsz <? blksz d then bufsz else blksz d in
        let! (s, result) := operation_single_blk s (u32 (bufblkno d)) sector_size VIRTIO_BLK_T_IN in
        if result <? 0 then Ret (put_lock s false, - EIO, out)
        else
          let d := v_dev s in
          let! chunk := get_block (blkbuf d) 0 (blksz d) in
          let s := put_dev s (set_pos d (u64 (pos d + blksz d)) (u64 (bufblkno d + 1))) in
          read_sectors fuel s (u64 (bufsz - result)) (bytes_read + result) (out ++ chunk)
    end
  else Ret (put_lock s false, bytes_read, out).

(** A division by a zero block size is not defined. *)
Definition vioblk_read (s : vio) (bufsz : Z) : outcome (vio * Z * list Z) :=
  let d := v_dev s in
  guard! negb (blksz d =? 0) in
  let s := put_dev s (set_pos d (pos d) (pos d / blksz d)) in
  assert! negb (opened d =? 0) in
  if bufsz =? 0 then Ret (s, 0, [])
  else if negb (bufsz mod blksz d =? 0) then Ret (s, - ENOTSUP, [])
  else
    let! s := vio_acquire s in
    read_sectors (S (Z.to_nat (bufsz / blksz d))) s bufsz 0 [].

(** The loop of [vioblk_write]; [off] is how far [buf] has advanced. *)
Fixpoint write_sectors (fuel : nat) (s : vio) (buf : list Z) (off n sector bytes_written : Z) : outcome (vio * Z) :=
  if 0 <? n then
    match fuel with
    | O => NoFuel
    | S fuel =>
        let d := v_dev s in
        let sector_size := if n <? blksz d then n else blksz d in
        let! chunk := get_block buf off (blksz d) in
        let! b := put_block (blkbuf d) 0 chunk in
        let s := put_dev s (set_vq d (used_updated d) (vq d) b) in
        let! (s, result) := operation_single_blk s (u32 sector) sector_size VIRTIO_BLK_T_OUT in
        if result <? 0 then Ret (put_lock s false, - EIO)
        else
          let d := v_dev s in
          let s := put_dev s (set_pos d (u64 (pos d + result)) (bufblkno d)) in
          write_sectors fuel s buf (off + result) (u64 (n - result)) (sector + 1) (bytes_written + result)
    end
  else Ret (put_lock s false, bytes_written).

Definition vioblk_write (s : vio) (buf : list Z) : outcome (vio * Z) :=
  let n := Z.of_nat (length buf) in
  let d := v_dev s in
  guard! negb (blksz d =? 0) in
  let s := put_dev s (set_pos d (pos d) (pos d / blksz d)) in
  assert! negb (opened d =? 0) in
  if negb (readonly d =? 0) then Ret (s, - EIO)
  else if n =? 0 then Ret (s, 0)
  else
    let! s := vio_acquire s in
    write_sectors (S (Z.to_nat (n / blksz d + 1))) s buf 0 n 0 0.

(** * Control *)

(** The argument is dereferenced without a check; results are converted to
    [int]. *)
Definition vioblk_getlen (s : vio) (v : Z) : outcome (vio * Z * ioarg) :=
  Ret (s, i32 (size (v_dev s)), Some (size (v_dev s))).
Definition vioblk_getpos (s : vio) (v : Z) : outcome (vio * Z * ioarg) :=
  Ret (s, i32 (pos (v_dev s)), Some (pos (v_dev s))).
Definition vioblk_setpos (s : vio) (v : Z) : outcome (vio * Z * ioarg) :=
  let! s := vio_acquire s in
  let s := put_dev s (set_pos (v_dev s) (u64 v) (bufblkno (v_dev s))) in
  let s := put_lock s false in
  Ret (s, i32 (pos (v_dev s)), Some v).
(** Only the lower half of the cell is written. *)
Definition vioblk_getblksz (s : vio) (v : Z) : outcome (vio * Z * ioarg) :=
  Ret (s, i32 (blksz (v_dev s)), Some (v - u32 v + blksz (v_dev s))).

Definition vioblk_ioctl (s : vio) (cmd : Z) (arg : ioarg) : outcome (vio * Z * ioarg) :=
  let deref (f : vio -> Z -> outcome (vio * Z * ioarg)) :=
    match arg with None => Fault | Some v => f s v end in
  if cmd =? IOCTL_GETLEN then deref vioblk_getlen
  else if cmd =? IOCTL_GETPOS then deref vioblk_getpos
  else if cmd =? IOCTL_SETPOS then deref vioblk_setpos
  else if cmd =? IOCTL_GETBLKSZ then deref vioblk_getblksz
  else Ret (s, - ENOTSUP, arg).

(** * Opening and closing *)

Definition vioblk_open {W} `{Mmio W} (st : intr_state W) (s : vio) (w : W) : outcome (vio * W * Z) :=
  let s := put_hw s (virtio_enable_virtq (v_hw s) 0) in
  let d := v_dev s in
  if negb (opened d =? 0) then Ret (s, w, - EBUSY)
  else
    let! w := intr_enable_irq st (vb_irqno d) w in
    Ret (put_dev s (set_opened d 1 0), w, 0).

Definition vioblk_close (s : vio) : outcome vio :=
  let d := v_dev s in
  assert! negb (opened d =? 0) in
  Ret (put_dev (put_hw s (virtio_reset_virtq (v_hw s) 0)) (set_opened d 0 (pos d))).

Definition virtio_ops : io_ops vio := {|
  op_close := Some vioblk_close;
  op_read := Some vioblk_read;
  op_write := Some vioblk_write;
  op_ctl := Some vioblk_ioctl;
|}.
End Driver.

(** * Attaching *)

(** The structure cleared and filled in; [blk] is what the block buffer behind
    it holds. *)
Definition vioblk_device_init (base irqno blksz : Z) (buf : list Z) : vioblk_device :=
  let d0 := {| d_addr := 0; d_len := 0; d_flags := 0; d_next := 0 |} in
  let set a l f n := {| d_addr := a; d_len := l; d_flags := Z.lor (d_flags d0) f; d_next := n |} in
  {| vb_irqno := u16 irqno; opened := 0; readonly := 0; blksz := u32 blksz; pos := 0; size := SIZEOF_vioblk_device;
     blkcnt := SIZEOF_vioblk_device / u32 blksz; used_updated := false;
     vq := {| avail_flags := 0; avail_idx := 0; avail_ring := 0; used_idx := 0;
              desc := [set (base + OFF_desc + VIRTIO_DESC_SIZE) (3 * VIRTIO_DESC_SIZE) VIRTQ_DESC_F_INDIRECT 0;
                       set (base + OFF_req_header) VIRTIO_REQUEST_HEADER_SIZE VIRTQ_DESC_F_NEXT 1;
                       set (base + SIZEOF_vioblk_device) (u32 blksz) VIRTQ_DESC_F_NEXT 2;
                       set (base + OFF_req_status) VIRTIO_STATUS_SIZE VIRTQ_DESC_F_WRITE 0];
              req_type := 0; req_sector := 0; req_status := 0 |};
     bufblkno := 0; blkbuf := buf |}.

(** The feature sets [vioblk_attach] builds. *)
Definition needed_features : outcome (list Z) :=
  let! f := virtio_featset_add virtio_featset_init VIRTIO_F_RING_RESET in
  virtio_featset_add f VIRTIO_F_INDIRECT_DESC.
Definition wanted_features : outcome (list Z) :=
  let! f := virtio_featset_add virtio_featset_init VIRTIO_BLK_F_BLK_SIZE in
  virtio_featset_add f VIRTIO_BLK_F_TOPOLOGY.

(** [kmalloc] takes memory from the state [A] of the allocator and gives the
    address and the contents of a block; [isr] and [opn] are the service routine
    and the open function with the device as their argument; [enabled] is the
    uninitialised set.  The result has the structure with its address and
    [vio_lock], initialised last; without a structure the driver has given
    up. *)
Definition vioblk_attach {HW W F A} `{VirtioMmio HW} (kmalloc : A -> Z -> outcome (A * Z * list Z))
    (isr : Z -> Z -> W -> outcome W) (opn : Z -> F) (enabled : list Z) (irqno : Z)
    (hw : HW) (st : intr_state W) (tab : devtab_t F) (a : A)
    : outcome (HW * intr_state W * devtab_t F * A * option (Z * vioblk_device * bool)) :=
  let hw := vwr hw status 0 in
  let hw := status_or hw VIRTIO_STAT_ACKNOWLEDGE in
  let hw := status_or hw VIRTIO_STAT_DRIVER in
  let (hw, id) := vrd hw device_id in
  assert! id =? VIRTIO_ID_BLOCK in
  let hw := status_or hw VIRTIO_STAT_DRIVER in
  let! needed := needed_features in
  let! wanted := wanted_features in
  let! (hw, enabled, result) := virtio_negotiate_features hw enabled wanted needed in
  if negb (result =? 0) then Ret (hw, st, tab, a, None)
  else
    let! has_blksz := virtio_featset_test enabled VIRTIO_BLK_F_BLK_SIZE in
    let (hw, blksz) := if negb (has_blksz =? 0) then vrd hw config_blk_size else (hw, 512) in
    let! (a, base, mem) := kmalloc a (SIZEOF_vioblk_device + blksz) in
    guard! negb (u32 blksz =? 0) in
    let dev := vioblk_device_init base irqno blksz (drop (Z.to_nat SIZEOF_vioblk_device) mem) in
    let hw := virtio_attach_virtq hw VIRTIO_QUEUE_ID VIRTIO_QUEUE_SZ (base + OFF_desc) (base + OFF_used) (base + OFF_avail) in
    let! st := intr_register_isr st irqno VIOBLK_IRQ_PRIO (isr base) in
    let! (tab, _) := device_register (F := F) tab (Some (cstr "blk")) (Some (opn base)) in
    let hw := status_or hw VIRTIO_STAT_DRIVER_OK in
    Ret (hw, st, tab, a, Some (base, dev, false)).

(** * What a block device does with a request

    The segments of a descriptor chain (address, length, device-writable),
    followed through an indirect table. *)
Definition segment := (Z * Z * bool)%type.
Definition flag_set (f b : Z) : bool := negb (Z.land f b =? 0).

Fixpoint walk_chain (fuel : nat) (tbl : list virtq_desc) (i : Z) : option (list segment) :=
  match fuel with
  | O => None
  | S fuel =>
      match tbl !! Z.to_nat i with
      | None => None
      | Some d =>
          let seg := (d_addr d, d_len d, flag_set (d_flags d) VIRTQ_DESC_F_WRITE) in
          if flag_set (d_flags d) VIRTQ_DESC_F_NEXT then cons seg <$> walk_chain fuel tbl (d_next d) else Some [seg]
      end
  end.

Definition request_segments (base : Z) (q : vqueue) : option (list segment) :=
  match desc q !! Z.to_nat (avail_ring q) with
  | None => None
  | Some d =>
      if flag_set (d_flags d) VIRTQ_DESC_F_INDIRECT then
        let first := (d_addr d - (base + OFF_desc)) / VIRTIO_DESC_SIZE in
        let n := Z.to_nat (d_len d / VIRTIO_DESC_SIZE) in
        walk_chain n (take n (drop (Z.to_nat first) (desc q))) 0
      else None
  end.

(** Header, data and status in their places, with the data writable exactly for
    a read. *)
Definition well_formed_request (base : Z) (q : vqueue) (buf : list Z) : Prop :=
  exists w, request_segments base q = Some
    [(base + OFF_req_header, VIRTIO_REQUEST_HEADER_SIZE, false);
     (base + SIZEOF_vioblk_device, Z.of_nat (length buf), w);
     (base + OFF_req_status, VIRTIO_STATUS_SIZE, true)] /\
  Z.of_nat (length buf) mod 512 = 0 /\
  (req_type q = VIRTIO_BLK_T_IN /\ w = true \/ req_type q = VIRTIO_BLK_T_OUT /\ w = false).

(** The device is live and knows the queue. *)
Definition rf_live (base : Z) (f : regfile) : Prop :=
  flag_set (rf_status f) VIRTIO_STAT_DRIVER_OK = true /\ rf_qready f = 1 /\ rf_qnum f = VIRTIO_QUEUE_SZ /\
  rf_qdesc f = base + OFF_desc /\ rf_qdriver f = base + OFF_avail /\ rf_qdevice f = base + OFF_used.

(** Sectors have 512 bytes whatever the block size. *)
Definition sectors (disk : list Z) (sector : Z) (n : nat) : list Z := take n (drop (Z.to_nat (512 * sector)) disk).

(** The disk, the queue and the buffer after a request. *)
Definition served (disk disk' : list Z) (q q' : vqueue) (buf buf' : list Z) : Prop :=
  avail_flags q' = avail_flags q /\ avail_idx q' = avail_idx q /\ avail_ring q' = avail_ring q /\ desc q' = desc q /\
  length buf' = length buf /\
  if (0 <=? req_sector q) && (512 * req_sector q + Z.of_nat (length buf) <=? Z.of_nat (length disk)) then
    req_status q' = VIRTIO_BLK_S_OK /\
    (if req_type q =? VIRTIO_BLK_T_IN then disk' = disk /\ buf' = sectors disk (req_sector q) (length buf)
     else disk' = splice disk (Z.to_nat (512 * req_sector q)) buf /\ buf' = buf)
  else req_status q' <> VIRTIO_BLK_S_OK /\ disk' = disk.

(** Has the driver accepted the feature of indirect descriptors? *)
Definition indirect_accepted (f : regfile) : bool := Z.testbit (feature_word (rf_accepted f) 0) VIRTIO_F_INDIRECT_DESC.

(** VirtIO 1.2, sections 2.7 and 5.2.6: a live device that was notified takes a
    well-formed request from the available ring, carries it out, and sets bit 0
    of the interrupt status; it does nothing without a request.  A request by an
    indirect descriptor is carried out when the driver has accepted that
    feature.  Without it the specification promises nothing (2.7.5.3 forbids the
    driver to use such descriptors): [lenient] says whether the device, as QEMU
    does, carries out these requests all the same. *)
Class VirtioBlk (HW : Type) `{VirtioRegs HW} `{!VirtioDma HW} := {
  disk_of : HW -> list Z;
  disk_vwr : forall hw r v, disk_of (vwr hw r v) = disk_of hw;
  lenient : Prop;
  serve_request : forall hw base q buf, indirect_accepted (regs_of hw) = true \/ lenient ->
    rf_live base (regs_of hw) -> rf_notified (regs_of hw) = true -> avail_idx q <> rf_seen (regs_of hw) ->
    avail_flags q = 0 -> well_formed_request base q buf ->
    exists hw' q' buf', serve hw base q buf = (hw', q', buf') /\
      regs_of hw' = rf_set_work (regs_of hw) (Z.lor (rf_intr (regs_of hw)) 1) false (avail_idx q) /\
      served (disk_of hw) (disk_of hw') q q' buf buf';
  serve_idle : forall hw base q buf,
    rf_notified (regs_of hw) = false -> serve hw base q buf = (hw, q, buf);
}.

(** * One request *)

(** Does the request get served and then an interrupt arrive? *)
Fixpoint wakes (served : bool) (evs : list event) : bool :=
  match evs with
  | [] => false
  | Serve :: evs => wakes true evs
  | Intr :: evs => served || wakes served evs
  end.

(** The request may be served before the thread sleeps; the interrupt then waits
    until it does. *)
Definition is_serve (e : event) : bool := match e with Serve => true | Intr => false end.
Definition answered (w : window) : bool := wakes (existsb is_serve (on_notify w)) (on_sleep w).

(** The descriptors of an attached device; the data descriptor is writable
    ([w]) once a block has been read. *)
Definition vio_desc (base blksz : Z) (w : bool) : list virtq_desc :=
  [{| d_addr := base + OFF_desc + 16; d_len := 48; d_flags := VIRTQ_DESC_F_INDIRECT; d_next := 0 |};
   {| d_addr := base + OFF_req_header; d_len := 16; d_flags := VIRTQ_DESC_F_NEXT; d_next := 1 |};
   {| d_addr := base + SIZEOF_vioblk_device; d_len := blksz;
      d_flags := if w then Z.lor VIRTQ_DESC_F_NEXT VIRTQ_DESC_F_WRITE else VIRTQ_DESC_F_NEXT; d_next := 2 |};
   {| d_addr := base + OFF_req_status; d_len := 1; d_flags := VIRTQ_DESC_F_WRITE; d_next := 0 |}].

Section Requests.
Context {HW : Type} `{VirtioBlk HW} (base : Z) (script : nat -> window).
Notation vio := (vio HW).

(** A live, open device of 512-byte blocks that carries out the requests of the
    driver, which are indirect, with none under way. *)
Record vio_ok (w : bool) (s : vio) : Prop := {
  vo_live : rf_live base (regs_of (v_hw s));
  vo_indirect : indirect_accepted (regs_of (v_hw s)) = true \/ lenient;
  vo_idle : rf_notified (regs_of (v_hw s)) = false;
  vo_intr : rf_intr (regs_of (v_hw s)) = 0;
  vo_seen : rf_seen (regs_of (v_hw s)) = avail_idx (vq (v_dev s));
  vo_idx : 0 <= avail_idx (vq (v_dev s)) < 2 ^ 16;
  vo_desc : desc (vq (v_dev s)) = vio_desc base 512 w;
  vo_open : opened (v_dev s) = 1;
  vo_readonly : readonly (v_dev s) = 0;
  vo_blksz : blksz (v_dev s) = 512;
  vo_buf : length (blkbuf (v_dev s)) = 512%nat;
  vo_sleep : used_updated (v_dev s) = false;
}.

(** The thread sleeps with device structure [d], device registers [f] and
    disk [dk]. *)
Definition asleep (d : vioblk_device) (f : regfile) (dk : list Z) (s : vio) : Prop :=
  v_dev s = d /\ used_updated d = true /\ regs_of (v_hw s) = f /\ disk_of (v_hw s) = dk.

Definition same_rest (s s' : vio) : Prop :=
  vio_lock s' = vio_lock s /\ v_sstatus s' = v_sstatus s /\ v_waits s' = v_waits s.

Lemma rf_work_same f : rf_intr f = 0 -> rf_set_work f 0 (rf_notified f) (rf_seen f) = f.
Proof. destruct f; cbn. by intros ->. Qed.

Lemma isr_spec s d f dk : asleep d f dk s ->
  exists hw', regs_of hw' = rf_set_work f 0 (rf_notified f) (rf_seen f) /\ disk_of hw' = dk /\
    vioblk_isr s = put_dev (put_hw s hw')
      (if negb (Z.land (rf_intr f) 1 =? 0) then set_vq d false (vq d) (blkbuf d) else d).
Proof.
  intros (<- & Hu & Hr & Hd). unfold vioblk_isr. rewrite !(vrd_spec _ interrupt_status (rf_intr f)) by (rewrite Hr; done).
  exists (vwr (v_hw s) interrupt_ack (rf_intr f)). rewrite vwr_spec, disk_vwr, Hr. cbn [rf_write]. rewrite Z.ldiff_diag. done.
Qed.

(** Once the request is served only an interrupt wakes the thread. *)
Lemma run_served evs s d f dk : asleep d f dk s -> rf_notified f = false -> rf_intr f = 1 ->
  if wakes true evs then
    exists s', run_events base evs s = Ret s' /\ same_rest s s' /\ v_dev s' = set_vq d false (vq d) (blkbuf d) /\
      regs_of (v_hw s') = rf_set_work f 0 false (rf_seen f) /\ disk_of (v_hw s') = dk
  else run_events base evs s = Blocked.
Proof.
  intros Ha Hn Hi. revert s Ha; induction evs as [|[] evs IH]; intros s Ha; cbn [wakes run_events]; [done| |].
  - pose proof Ha as (Hd & Hu & Hr & Hk). unfold happen. rewrite serve_idle by (by rewrite Hr).
    replace (set_vq _ _ _ _) with d by (rewrite Hd; by destruct d). cbn [put_dev put_hw v_dev]. rewrite Hu.
    specialize (IH (put_dev (put_hw s (v_hw s)) d)). destruct (wakes true evs).
    + destruct IH as (s' & E & Hs & Hrest); [done|]. exists s'. split_and!; try apply Hrest; [done|apply Hs..].
    + by apply IH.
  - destruct (isr_spec s d f dk Ha) as (hw' & Hr' & Hk' & E). cbn [happen orb]. rewrite E, Hi. cbn.
    eexists. split; [done|]. cbn. rewrite Hr', Hn. done.
Qed.

(** ** Events before the sleep *)

Lemma put_dev_same (s : vio) d : d = v_dev s -> put_dev (put_hw s (v_hw s)) (set_vq d (used_updated d) (vq d) (blkbuf d)) = s.
Proof. intros ->. by destruct s as [? [] ? ? ?]. Qed.

(** Without a request and an interrupt only acknowledgements of nothing
    happen. *)
Lemma meanwhile_idle evs s : let f := regs_of (v_hw s) in
  rf_notified f = false -> rf_intr f = 0 ->
  exists hw', meanwhile base evs s = put_hw s hw' /\ regs_of hw' = f /\ disk_of hw' = disk_of (v_hw s).
Proof.
  cbv zeta. revert s; induction evs as [|e evs IH]; intros s Hn Hi; cbn [meanwhile foldl].
  { exists (v_hw s). split; [by destruct s|done]. }
  assert (HE : exists hw', arrive base s e = put_hw s hw' /\ regs_of hw' = regs_of (v_hw s) /\ disk_of hw' = disk_of (v_hw s)).
  { destruct e; cbn [arrive happen].
    - rewrite serve_idle by done. rewrite put_dev_same by done. exists (v_hw s). split; [by destruct s|done].
    - destruct (intr_enabled _); [|exists (v_hw s); split; [by destruct s|done]].
      unfold vioblk_isr. rewrite !(vrd_spec _ interrupt_status 0) by (cbn; by rewrite Hi).
      change (negb (Z.land 0 1 =? 0)) with false. cbv iota. exists (vwr (v_hw s) interrupt_ack 0).
      rewrite vwr_spec, disk_vwr. cbn [rf_write]. rewrite Hi. split; [done|]. split; [|done].
      change (Z.ldiff 0 0) with 0. by apply rf_work_same. }
  destruct HE as (hw1 & -> & Hr1 & Hd1). destruct (IH (put_hw s hw1)) as (hw' & E & Hr & Hd); cbn [put_hw v_hw]; rewrite ?Hr1; try done.
  exists hw'. unfold meanwhile in E. rewrite E. cbn [put_hw v_hw] in Hr, Hd. split; [done|]. split; congruence.
Qed.

(** With interrupts disabled nothing at all happens once there is no request. *)
Lemma meanwhile_masked evs s : intr_enabled (v_sstatus s) = false -> rf_notified (regs_of (v_hw s)) = false -> meanwhile base evs s = s.
Proof.
  intros Hs Hn. unfold meanwhile. induction evs as [|e evs IH]; cbn [foldl]; [done|].
  replace (arrive base s e) with s; [done|]. destruct e; cbn [arrive happen]; [|by rewrite Hs].
  rewrite serve_idle by done. by rewrite put_dev_same.
Qed.

Lemma meanwhile_notified evs s : let d := v_dev s in let f := regs_of (v_hw s) in
  intr_enabled (v_sstatus s) = false -> rf_live base f -> indirect_accepted f = true \/ lenient -> rf_notified f = true ->
  rf_intr f = 0 -> avail_idx (vq d) <> rf_seen f -> avail_flags (vq d) = 0 -> well_formed_request base (vq d) (blkbuf d) ->
  if existsb is_serve evs then
    exists hw' q' buf', meanwhile base evs s = put_dev (put_hw s hw') (set_vq d (used_updated d) q' buf') /\
      regs_of hw' = rf_set_work f 1 false (avail_idx (vq d)) /\
      served (disk_of (v_hw s)) (disk_of hw') (vq d) q' (blkbuf d) buf'
  else meanwhile base evs s = s.
Proof.
  cbv zeta. intros Hs Hl Hind Hn Hi Hx Hf Hw. induction evs as [|[] evs IH]; cbn [existsb is_serve orb]; [done| |].
  - unfold meanwhile. cbn [foldl arrive happen].
    destruct (serve_request (v_hw s) base (vq (v_dev s)) (blkbuf (v_dev s))) as (hw' & q' & buf' & -> & Hr' & Hs'); [done..|].
    rewrite Hi in Hr'. exists hw', q', buf'. split; [|done]. apply meanwhile_masked; [done|]. cbn. by rewrite Hr'.
  - unfold meanwhile in *. cbn [foldl arrive]. rewrite Hs. exact IH.
Qed.

(** ** The sleep *)

Lemma run_pending evs s d f dk : asleep d f dk s -> rf_live base f -> indirect_accepted f = true \/ lenient -> rf_notified f = true -> rf_intr f = 0 ->
  avail_idx (vq d) <> rf_seen f -> avail_flags (vq d) = 0 -> well_formed_request base (vq d) (blkbuf d) ->
  if wakes false evs then
    exists s' q' buf', run_events base evs s = Ret s' /\ same_rest s s' /\ v_dev s' = set_vq d false q' buf' /\
      regs_of (v_hw s') = rf_set_work f 0 false (avail_idx (vq d)) /\ served dk (disk_of (v_hw s')) (vq d) q' (blkbuf d) buf'
  else run_events base evs s = Blocked.
Proof.
  intros Ha Hl Hind Hn Hi Hx Hf Hw. revert s Ha; induction evs as [|[] evs IH]; intros s Ha; cbn [wakes run_events]; [done| |].
  - pose proof Ha as (Hd & Hu & Hr & Hk). unfold happen. rewrite Hd.
    destruct (serve_request (v_hw s) base (vq d) (blkbuf d)) as (hw' & q' & buf' & -> & Hr' & Hs'); [by rewrite Hr..|done|done|].
    rewrite Hr, Hi in Hr'. rewrite Hk in Hs'. cbn [put_dev put_hw v_dev set_vq used_updated]. rewrite Hu.
    pose proof (run_served evs (put_dev (put_hw s hw') (set_vq d true q' buf')) (set_vq d true q' buf') (regs_of hw') (disk_of hw')) as HR.
    destruct (wakes true evs).
    + destruct HR as (s' & E & Hsr & Hd' & Hr'' & Hk'); [done|by rewrite Hr'|by rewrite Hr'|].
      exists s', q', buf'. split_and!; [done|apply Hsr..|by rewrite Hd'| |by rewrite Hk'].
      rewrite Hr'', Hr'. done.
    + apply HR; [done|by rewrite Hr'..].
  - destruct (isr_spec s d f dk Ha) as (hw' & Hr' & Hk' & E). cbn [happen orb]. rewrite E, Hi. change (negb (Z.land 0 1 =? 0)) with false. cbn [put_dev v_dev].
    pose proof Ha as (Hd & Hu & Hr & Hk). rewrite Hu.
    assert (Ha' : asleep d f dk (put_dev (put_hw s hw') d)).
    { split_and!; [done|done| |done]. cbn. rewrite Hr'. by apply rf_work_same. }
    specialize (IH _ Ha'). destruct (wakes false evs); [|done].
    destruct IH as (s' & q' & buf' & E' & Hsr & Hrest). exists s', q', buf'. split_and!; try apply Hrest; [done|apply Hsr..].
Qed.

(** The two types of request; only a read may follow a read. *)
Definition may_submit (t : Z) (w w' : bool) : Prop :=
  t = VIRTIO_BLK_T_IN /\ w' = true \/ t = VIRTIO_BLK_T_OUT /\ w = false /\ w' = false.

Lemma submit_spec w w' q sector t : desc q = vio_desc base 512 w -> may_submit t w w' ->
  submit base q sector t =
  Ret {| avail_flags := 0; avail_idx := u16 (avail_idx q + 1); avail_ring := 0; used_idx := used_idx q;
         desc := vio_desc base 512 w'; req_type := t; req_sector := sector; req_status := 0 |}.
Proof.
  intros Hd Ht. unfold submit. rewrite Hd.
  change (load (vio_desc base 512 w) 1) with (Ret {| d_addr := base + OFF_req_header; d_len := 16; d_flags := VIRTQ_DESC_F_NEXT; d_next := 1 |}).
  change (load (vio_desc base 512 w) 3) with (Ret {| d_addr := base + OFF_req_status; d_len := 1; d_flags := VIRTQ_DESC_F_WRITE; d_next := 0 |}).
  cbn [obind d_addr]. rewrite !Z.eqb_refl. by destruct Ht as [[-> ->]|(-> & -> & ->)]; [destruct w|].
Qed.

Lemma request_ok w q buf : desc q = vio_desc base 512 w -> avail_ring q = 0 -> length buf = 512%nat ->
  (req_type q = VIRTIO_BLK_T_IN /\ w = true \/ req_type q = VIRTIO_BLK_T_OUT /\ w = false) ->
  well_formed_request base q buf.
Proof.
  intros Hd Ha Hb Ht. exists w. rewrite Hb. split_and!; [|done|done].
  unfold request_segments. rewrite Hd, Ha.
  change (vio_desc base 512 w !! Z.to_nat 0)
    with (Some {| d_addr := base + OFF_desc + 16; d_len := 48; d_flags := VIRTQ_DESC_F_INDIRECT; d_next := 0 |}).
  cbn match. cbn [d_flags d_addr d_len].
  replace (base + OFF_desc + 16 - (base + OFF_desc)) with 16 by lia. by destruct w.
Qed.

(** What a request leaves alone. *)
Definition op_frame (s s' : vio) : Prop :=
  pos (v_dev s') = pos (v_dev s) /\ bufblkno (v_dev s') = bufblkno (v_dev s) /\ vio_lock s' = vio_lock s /\
  intr_enabled (v_sstatus s') = intr_enabled (v_sstatus s) /\ v_waits s' = S (v_waits s).

Definition in_range (dk : list Z) (sector : Z) : bool := (0 <=? sector) && (512 * sector + 512 <=? Z.of_nat (length dk)).

(** The request [submit] puts in the queue. *)
Definition request (q : vqueue) (w : bool) (sector t : Z) : vqueue :=
  {| avail_flags := 0; avail_idx := u16 (avail_idx q + 1); avail_ring := 0; used_idx := used_idx q;
     desc := vio_desc base 512 w; req_type := t; req_sector := sector; req_status := 0 |}.

(** The state in which the notification is made: the request is in the queue and
    interrupts are disabled. *)
Definition notified (s : vio) (w : bool) (sector t sst : Z) (hw : HW) : vio :=
  let d := v_dev s in
  put_hw (put_sstatus (put_dev s (set_vq d (used_updated d) (request (vq d) w sector t) (blkbuf d))) sst) (virtio_notify_avail hw 0).

(** From the notification to the wake-up. *)
Lemma wait_spec w w' s sector t sst hw : vio_ok w s -> may_submit t w w' -> intr_enabled sst = false ->
  regs_of hw = regs_of (v_hw s) -> disk_of hw = disk_of (v_hw s) ->
  let d := v_dev s in
  let q := request (vq d) w' sector t in
  let now := script (v_waits s) in
  let s1 := meanwhile base (on_notify now) (notified s w' sector t sst hw) in
  if answered now then
    exists s' q' buf', wait_used base script s1 = Ret s' /\ vio_ok w' s' /\ v_dev s' = set_vq d false q' buf' /\
      vio_lock s' = vio_lock s /\ v_sstatus s' = sst /\ v_waits s' = S (v_waits s) /\
      served (disk_of (v_hw s)) (disk_of (v_hw s')) q q' (blkbuf d) buf'
  else wait_used base script s1 = Blocked.
Proof.
  intros Hok Ht Hss Hreg Hdk d q now s1. set (f := regs_of (v_hw s)).
  assert (Hseen : u16 (avail_idx (vq d) + 1) <> rf_seen f).
  { unfold f, d. rewrite (vo_seen w s Hok). pose proof (vo_idx w s Hok). unfold u16.
    intros E. Z.to_euclidean_division_equations. lia. }
  assert (Hw : well_formed_request base q (blkbuf d)).
  { apply (request_ok w'); [done|done|apply Hok|]. destruct Ht as [[-> ->]|(-> & _ & ->)]; [by left|by right]. }
  set (s0 := notified s w' sector t sst hw) in s1.
  assert (Hr0 : regs_of (v_hw s0) = rf_set_work f 0 true (rf_seen f)).
  { unfold s0, notified. cbn [put_hw v_hw]. unfold virtio_notify_avail. rewrite vwr_spec, Hreg. cbn [rf_write]. unfold f. by rewrite (vo_intr w s Hok). }
  assert (Hd0 : disk_of (v_hw s0) = disk_of (v_hw s)) by (unfold s0; cbn; unfold virtio_notify_avail; by rewrite disk_vwr).
  pose proof (meanwhile_notified (on_notify now) s0) as HM. cbv zeta in HM. rewrite Hr0, Hd0 in HM.
  specialize (HM Hss (vo_live w s Hok) (vo_indirect w s Hok) eq_refl eq_refl Hseen eq_refl Hw).
  change (v_dev s0) with (set_vq d (used_updated d) q (blkbuf d)) in HM. unfold d in HM. rewrite (vo_sleep w s Hok) in HM. fold d in HM.
  unfold answered. destruct (existsb is_serve (on_notify now)).
  - destruct HM as (hw' & q' & buf' & E & Hr' & Hs). fold s1 in E. rewrite E. unfold wait_used. cbn [put_dev put_hw v_waits s0 notified put_sstatus].
    fold now. match goal with |- context [run_events base _ ?st] => set (s2 := st) end.
    pose proof (run_served (on_sleep now) s2 (set_vq d true q' buf') (regs_of hw') (disk_of hw') (conj eq_refl (conj eq_refl (conj eq_refl eq_refl)))) as HR.
    rewrite Hr' in HR. specialize (HR eq_refl eq_refl).
    destruct (wakes true (on_sleep now)); [|exact HR]. destruct HR as (s' & E' & (Hl' & Hss' & Hwt) & Hd' & Hr'' & Hk'). exists s', q', buf'.
    pose proof Hs as (Hq1 & Hq2 & Hq3 & Hq4 & Hb & _). rewrite Hk'. split_and!; try done.
    constructor; rewrite ?Hd', ?Hr''; cbn; try apply Hok; try done; [rewrite Hq2; apply u16_range|rewrite Hb; apply Hok].
  - fold s1 in HM. rewrite HM. unfold wait_used. change (v_waits s0) with (v_waits s). fold now.
    match goal with |- context [run_events base _ ?st] => set (s2 := st) end.
    assert (Ha : asleep (set_vq d true q (blkbuf d)) (rf_set_work f 0 true (rf_seen f)) (disk_of (v_hw s)) s2) by (by split_and!).
    pose proof (run_pending (on_sleep now) s2 _ _ _ Ha (vo_live w s Hok) (vo_indirect w s Hok) eq_refl eq_refl Hseen eq_refl Hw) as HR.
    destruct (wakes false (on_sleep now)); [|exact HR]. destruct HR as (s' & q' & buf' & E & (Hl & Hss' & Hwt) & Hd' & Hr' & Hs). exists s', q', buf'.
    pose proof Hs as (Hq1 & Hq2 & Hq3 & Hq4 & Hb & _). split_and!; try done.
    constructor; rewrite ?Hd', ?Hr'; cbn; try apply Hok; try done; [rewrite Hq2; apply u16_range|rewrite Hb; apply Hok].
Qed.

(** Up to the notification. *)
Lemma submit_quiet w s evs1 evs2 q buf sst : vio_ok w s ->
  exists hw, meanwhile base evs2 (put_sstatus (meanwhile base evs1 (put_dev s (set_vq (v_dev s) false q buf))) sst)
      = put_hw (put_sstatus (put_dev s (set_vq (v_dev s) false q buf)) sst) hw /\
    regs_of hw = regs_of (v_hw s) /\ disk_of hw = disk_of (v_hw s).
Proof.
  intros Hok. set (s1 := put_dev s _). destruct (meanwhile_idle evs1 s1) as (hw1 & -> & Hr1 & Hd1); [apply Hok..|].
  destruct (meanwhile_idle evs2 (put_sstatus (put_hw s1 hw1) sst)) as (hw2 & -> & Hr2 & Hd2); [cbn; rewrite Hr1; apply Hok..|].
  exists hw2. split; [done|]. split; [exact (eq_trans Hr2 Hr1)|exact (eq_trans Hd2 Hd1)].
Qed.

Lemma meanwhile_sstatus evs (s : vio) : v_sstatus (meanwhile base evs s) = v_sstatus s.
Proof.
  unfold meanwhile. revert s; induction evs as [|e evs IH]; intros s; cbn [foldl]; [done|]. rewrite IH.
  destruct e; cbn [arrive happen]; [by destruct (serve _ _ _ _) as [[]]|]. destruct (intr_enabled _); [|done].
  unfold vioblk_isr. destruct (vrd _ _) as [hw1 v1], (vrd hw1 _) as [hw2 v2]. done.
Qed.

Lemma op_spec w w' s sector datasz t : vio_ok w s -> may_submit t w w' ->
  if answered (script (v_waits s)) then
    exists s' r, operation_single_blk base script s sector datasz t = Ret (s', r) /\ vio_ok w' s' /\ op_frame s s' /\
      let dk := disk_of (v_hw s) in
      if in_range dk sector then r = 512 /\
        (if t =? VIRTIO_BLK_T_IN then disk_of (v_hw s') = dk /\ blkbuf (v_dev s') = sectors dk sector 512
         else disk_of (v_hw s') = splice dk (Z.to_nat (512 * sector)) (blkbuf (v_dev s)))
      else r = - EIO /\ disk_of (v_hw s') = dk
  else operation_single_blk base script s sector datasz t = Blocked.
Proof.
  intros Hok Ht. unfold operation_single_blk. rewrite (submit_spec w w') by (done || apply Hok). cbn [obind].
  rewrite meanwhile_sstatus. cbn [put_dev v_sstatus]. fold (request (vq (v_dev s)) w' sector t).
  destruct (intr_disable _) as [sst saved] eqn:Ei.
  assert (Hdis : intr_enabled sst = false) by (injection Ei as <- _; rewrite intr_enabled_bit, Z.ldiff_spec; apply andb_false_r).
  rewrite (vo_sleep w s Hok).
  destruct (submit_quiet w s (on_submit (script (v_waits s))) (on_disable (script (v_waits s))) (request (vq (v_dev s)) w' sector t) (blkbuf (v_dev s)) sst Hok)
    as (hw & E1 & Hr1 & Hd1). unfold put_dev in E1. unfold put_dev. rewrite E1.
  pose proof (wait_spec w w' s sector t sst hw Hok Ht Hdis Hr1 Hd1) as HR. cbn zeta in HR. unfold notified in HR. rewrite (vo_sleep w s Hok) in HR.
  cbn [put_hw v_hw]. unfold put_hw, put_sstatus, put_dev in HR |- *. cbn [v_hw v_dev vio_lock v_sstatus v_waits] in HR |- *.
  destruct (answered _); [|by rewrite HR].
  destruct HR as (s' & q' & buf' & E & Hok' & Hd' & Hl & Hss & Hwt & _ & _ & _ & _ & _ & Hs).
  rewrite E. cbn [obind put_sstatus v_dev]. rewrite Hd'. cbn [set_vq vq blksz].
  rewrite (vo_blksz w s Hok). set (s2 := {| v_hw := v_hw s' |}).
  assert (Hok2 : vio_ok w' s2) by (destruct Hok'; rewrite Hd' in *; by constructor).
  assert (Hfr : op_frame s s2).
  { unfold op_frame. cbn [s2 v_dev vio_lock v_waits v_sstatus]. rewrite Hl, Hwt, Hss. split_and!; try done.
    pose proof (intr_disable_restore_bit (v_sstatus s)) as Hb0. rewrite Ei in Hb0. apply Hb0. }
  assert (Hdev : blkbuf (v_dev s2) = buf') by (cbn; by rewrite ?Hd'). assert (Hhw : v_hw s2 = v_hw s') by done. clearbody s2.
  cbn [request req_sector req_type] in Hs. rewrite (vo_buf w s Hok) in Hs.
  change (Z.of_nat 512) with 512 in Hs. fold (in_range (disk_of (v_hw s)) sector) in Hs. destruct (in_range _ _).
  - destruct Hs as [-> Hs]. exists s2, 512. rewrite Hdev, Hhw. split_and!; [done|done|apply Hfr..|done|].
    destruct (t =? VIRTIO_BLK_T_IN); apply Hs.
  - destruct Hs as [Hs Hdk]. rewrite (proj2 (Z.eqb_neq _ _) Hs).
    exists s2, (- EIO). rewrite Hhw. split_and!; [done|done|apply Hfr..|done|done].
Qed.

(** * Reading *)

(** The [k] requests from the [n]-th on are all answered. *)
Definition all_answered (n k : nat) : bool := forallb (fun j => answered (script j)) (seq n k).

(** The sectors of the disk, and how many requests a read of [k] sectors from
    sector [b] makes: it stops at the first one beyond the end. *)
Definition nsectors (dk : list Z) : Z := Z.of_nat (length dk) / 512.
Definition fits (dk : list Z) (b : Z) (k : nat) : bool := (k =? 0)%nat || (b + Z.of_nat k <=? nsectors dk).
Definition requests (dk : list Z) (b : Z) (k : nat) : nat := if fits dk b k then k else S (Z.to_nat (nsectors dk - b)).

Lemma fits_S dk b k : b < nsectors dk -> fits dk b (S k) = fits dk (b + 1) k.
Proof.
  intros Hb. unfold fits. cbn [Nat.eqb orb]. destruct (Nat.eqb_spec k 0) as [->|]; cbn [orb]; [apply Z.leb_le; lia|].
  f_equal. lia.
Qed.
Lemma requests_S dk b k : b < nsectors dk -> requests dk b (S k) = S (requests dk (b + 1) k).
Proof.
  intros Hb. unfold requests. rewrite fits_S by done. destruct (fits dk (b + 1) k) eqn:E; [done|].
  unfold fits in E. apply orb_false_iff in E as [_ E%Z.leb_gt]. f_equal. lia.
Qed.

Lemma in_range_nsectors dk b : 0 <= b -> in_range dk b = (b <? nsectors dk).
Proof.
  intros Hb. unfold in_range, nsectors. rewrite (proj2 (Z.leb_le 0 b) Hb). cbn [andb].
  apply eq_true_iff_eq. rewrite Z.leb_le, Z.ltb_lt. Z.to_euclidean_division_equations. lia.
Qed.

Lemma sectors_app dk b k : 0 <= b ->
  sectors dk b 512 ++ sectors dk (b + 1) (512 * k) = sectors dk b (512 * S k).
Proof.
  intros Hb. unfold sectors. replace (512 * S k)%nat with (512 + 512 * k)%nat by lia. rewrite take_add, drop_drop.
  do 3 f_equal. lia.
Qed.

Record read_result (s s' : vio) (w : bool) : Prop := {
  rr_ok : vio_ok w s';
  rr_disk : disk_of (v_hw s') = disk_of (v_hw s);
  rr_lock : vio_lock s' = false;
  rr_intr : intr_enabled (v_sstatus s') = intr_enabled (v_sstatus s);
}.

(** The sector of a request has 32 bits: [t] is what is lost. *)
Lemma read_sectors_spec k fuel s w t b n out : (k < fuel)%nat -> vio_ok w s -> 0 <= b -> 0 <= t < 2 ^ 23 ->
  bufblkno (v_dev s) = b + 2 ^ 32 * t -> pos (v_dev s) = 512 * (b + 2 ^ 32 * t) -> b + Z.of_nat k < 2 ^ 32 ->
  let dk := disk_of (v_hw s) in
  if all_answered (v_waits s) (requests dk b k) then
    exists s' w', read_result s s' w' /\
      if fits dk b k then
        read_sectors base script fuel s (512 * Z.of_nat k) n out = Ret (s', n + 512 * Z.of_nat k, out ++ sectors dk b (512 * k)) /\
        pos (v_dev s') = pos (v_dev s) + 512 * Z.of_nat k /\ v_waits s' = (v_waits s + k)%nat
      else read_sectors base script fuel s (512 * Z.of_nat k) n out = Ret (s', - EIO, out ++ sectors dk b (512 * Z.to_nat (nsectors dk - b)))
  else read_sectors base script fuel s (512 * Z.of_nat k) n out = Blocked.
Proof.
  revert fuel s w b n out; induction k as [|k IH]; intros fuel s w b n out Hf Hok Hb0 Hb1 Hb Hp Hlt; cbv zeta;
    (destruct fuel as [|fuel]; [lia|]); cbn [read_sectors].
  { cbn. exists (put_lock s false), w. rewrite !Z.add_0_r, app_nil_r, Nat.add_0_r.
    split; [|done]. by destruct Hok. }
  rewrite (proj2 (Z.ltb_lt 0 _)) by lia. rewrite Hb.
  replace (u32 (b + 2 ^ 32 * t)) with b by (unfold u32; rewrite Z.mul_comm, Z_mod_plus_full; symmetry; apply Z.mod_small; lia).
  match goal with |- context [operation_single_blk _ _ s b ?z _] =>
    pose proof (op_spec w true s b z VIRTIO_BLK_T_IN Hok (or_introl (conj eq_refl eq_refl))) as HO end. cbv zeta in HO.
  rewrite (in_range_nsectors _ _ Hb0) in HO. destruct (Z.ltb_spec b (nsectors (disk_of (v_hw s)))) as [Hin|Hout].
  - rewrite requests_S, fits_S by done. unfold all_answered. cbn [seq forallb].
    destruct (answered (script (v_waits s))); cbn [andb]; [|by rewrite HO].
    destruct HO as (s' & r & -> & Hok' & (Hp' & Hb' & _ & Hi' & Hw') & -> & Hd' & Hbuf). cbn [obind].
    rewrite (vo_blksz true s' Hok'). change (512 <? 0) with false. cbn iota.
    pose proof (vo_buf true s' Hok') as Hlb. rewrite get_block_Ret by lia. cbn [obind].
    change (Z.to_nat 0) with 0%nat. rewrite drop_0, take_ge by lia. rewrite Hb', Hb, Hp', Hp, Hbuf.
    rewrite !u64_small by lia. replace (512 * Z.of_nat (S k) - 512) with (512 * Z.of_nat k) by lia.
    set (s1 := put_dev s' _).
    assert (Hok1 : vio_ok true s1) by (destruct Hok'; by constructor).
    specialize (IH fuel s1 true (b + 1) (n + 512) (out ++ sectors (disk_of (v_hw s)) b 512)
      ltac:(lia) Hok1 ltac:(lia) Hb1 ltac:(cbn; lia) ltac:(cbn; lia) ltac:(lia)). cbv zeta in IH.
    change (v_hw s1) with (v_hw s') in IH. change (v_waits s1) with (v_waits s') in IH. rewrite Hd', Hw' in IH.
    unfold all_answered in IH. destruct (forallb _ _); [|exact IH].
    destruct IH as (s'' & w' & [HR1 HR2 HR3 HR4] & HR). exists s'', w'. split.
    { constructor; [done| |done|]; [change (v_hw s1) with (v_hw s') in HR2|change (v_sstatus s1) with (v_sstatus s') in HR4]; congruence. }
    destruct (fits _ _ _).
    2: { rewrite HR, <- app_assoc, sectors_app by done. do 4 f_equal. lia. }
    destruct HR as (-> & Hp'' & Hw''). rewrite <- app_assoc, sectors_app by done.
    split_and!; [do 2 f_equal; f_equal; lia|rewrite Hp''; cbn; lia|lia].
  - assert (Hnf : fits (disk_of (v_hw s)) b (S k) = false) by (apply orb_false_iff; split; [done|apply Z.leb_gt; lia]).
    unfold requests. rewrite Hnf. replace (Z.to_nat (nsectors _ - b)) with 0%nat by lia. change (sectors _ _ (512 * 0)) with (@nil Z). rewrite app_nil_r.
    unfold all_answered. cbn [seq forallb]. rewrite andb_true_r. destruct (answered _); [|by rewrite HO].
    destruct HO as (s' & r & -> & Hok' & (_ & _ & _ & Hi' & _) & -> & Hd'). cbn [obind].
    exists (put_lock s' false), true. split; [|eauto]. by destruct Hok'.
Qed.

(** * Writing *)

(** One sector. *)
Lemma write_sector_spec s c i z : vio_ok false s -> length c = 512%nat -> 0 <= i < nsectors (disk_of (v_hw s)) ->
  answered (script (v_waits s)) = true ->
  exists s', operation_single_blk base script (put_dev s (set_vq (v_dev s) (used_updated (v_dev s)) (vq (v_dev s)) c)) i z VIRTIO_BLK_T_OUT
      = Ret (s', 512) /\ vio_ok false s' /\ pos (v_dev s') = pos (v_dev s) /\ v_waits s' = S (v_waits s) /\
    disk_of (v_hw s') = splice (disk_of (v_hw s)) (Z.to_nat (512 * i)) c.
Proof.
  intros Hok Hc Hi Hw. set (s1 := put_dev s _). assert (Hok1 : vio_ok false s1) by (destruct Hok; by constructor).
  pose proof (op_spec false false s1 i z VIRTIO_BLK_T_OUT Hok1 (or_intror (conj eq_refl (conj eq_refl eq_refl)))) as HO.
  cbv zeta in HO. change (v_hw s1) with (v_hw s) in HO. change (blkbuf (v_dev s1)) with c in HO.
  change (v_waits s1) with (v_waits s) in HO. rewrite Hw, in_range_nsectors, (proj2 (Z.ltb_lt i _)) in HO by apply Hi.
  destruct HO as (s' & r & E & Hok' & (Hp' & _ & _ & _ & Hw') & -> & Hd'). by exists s'.
Qed.

Lemma splice_sectors dk i buf off k : 0 <= i -> 0 <= off -> off + 512 * Z.of_nat (S k) <= Z.of_nat (length buf) ->
  i + Z.of_nat (S k) <= nsectors dk ->
  splice (splice dk (Z.to_nat (512 * i)) (take (Z.to_nat 512) (drop (Z.to_nat off) buf)))
    (Z.to_nat (512 * (i + 1))) (take (512 * k) (drop (Z.to_nat (off + 512)) buf)) =
  splice dk (Z.to_nat (512 * i)) (take (512 * S k) (drop (Z.to_nat off) buf)).
Proof.
  intros Hi Ho Hl Hn. unfold nsectors in Hn. pose proof (Z.mul_div_le (Z.of_nat (length dk)) 512).
  set (c := take (Z.to_nat 512) _). assert (Hc : length c = 512%nat) by (unfold c; rewrite length_take, length_drop; lia).
  replace (Z.to_nat (512 * (i + 1))) with (Z.to_nat (512 * i) + length c)%nat by lia.
  rewrite splice_splice by (rewrite length_take, length_drop; lia). f_equal.
  replace (512 * S k)%nat with (Z.to_nat 512 + 512 * k)%nat by lia. rewrite take_add, drop_drop. do 2 f_equal. f_equal. lia.
Qed.

Lemma write_sectors_spec k fuel s buf off i n : (k < fuel)%nat -> vio_ok false s -> 0 <= i -> i + Z.of_nat k < 2 ^ 31 ->
  0 <= off -> off + 512 * Z.of_nat k <= Z.of_nat (length buf) -> i + Z.of_nat k <= nsectors (disk_of (v_hw s)) ->
  0 <= pos (v_dev s) -> pos (v_dev s) + 512 * Z.of_nat k < 2 ^ 64 ->
  all_answered (v_waits s) k = true ->
  exists s', write_sectors base script fuel s buf off (512 * Z.of_nat k) i n = Ret (s', n + 512 * Z.of_nat k) /\
    vio_ok false s' /\ vio_lock s' = false /\ pos (v_dev s') = pos (v_dev s) + 512 * Z.of_nat k /\
    disk_of (v_hw s') = splice (disk_of (v_hw s)) (Z.to_nat (512 * i)) (take (512 * k) (drop (Z.to_nat off) buf)).
Proof.
  revert fuel s off i n; induction k as [|k IH]; intros fuel s off i n Hf Hok Hi Hi2 Ho Hl Hns Hp Hp2 Hw;
    (destruct fuel as [|fuel]; [lia|]); cbn [write_sectors].
  { exists (put_lock s false). rewrite !Z.add_0_r, take_0, splice_nil. split_and!; try done. by destruct Hok. }
  rewrite (proj2 (Z.ltb_lt 0 _)) by lia. rewrite (vo_blksz false s Hok).
  rewrite get_block_Ret by lia. cbn [obind]. set (c := take (Z.to_nat 512) (drop (Z.to_nat off) buf)).
  assert (Hlc : length c = 512%nat) by (unfold c; rewrite length_take, length_drop; lia).
  pose proof (vo_buf false s Hok) as Hlb. rewrite put_block_Ret by lia. cbn [obind].
  replace (splice (blkbuf (v_dev s)) (Z.to_nat 0) c) with c
    by (unfold splice; rewrite take_0, drop_ge by lia; by rewrite app_nil_r).
  unfold all_answered in Hw. cbn [seq forallb] in Hw. apply andb_true_iff in Hw as [Hw1 Hw].
  rewrite u32_small by lia. match goal with |- context [operation_single_blk _ _ _ i ?z _] =>
    destruct (write_sector_spec s c i z Hok Hlc ltac:(lia) Hw1) as (s' & -> & Hok' & Hp' & Hw' & Hd') end. cbn [obind].
  change (512 <? 0) with false. cbn iota. rewrite Hp', !u64_small by lia.
  replace (512 * Z.of_nat (S k) - 512) with (512 * Z.of_nat k) by lia. set (s2 := put_dev s' _).
  assert (Hlen : nsectors (disk_of (v_hw s2)) = nsectors (disk_of (v_hw s))).
  { change (v_hw s2) with (v_hw s'). unfold nsectors in Hns |- *. rewrite Hd', length_splice; [done|]. rewrite Hlc.
    pose proof (Z.mul_div_le (Z.of_nat (length (disk_of (v_hw s)))) 512). lia. }
  destruct (IH fuel s2 (off + 512) (i + 1) (n + 512)) as (s'' & E & Hok'' & Hl'' & Hp'' & Hd''); try lia.
  { destruct Hok'; by constructor. }
  { cbn. lia. }
  { cbn. lia. }
  { change (v_waits s2) with (v_waits s'). rewrite Hw'. exact Hw. }
  exists s''. rewrite E, Hp'', Hd''. change (v_hw s2) with (v_hw s'). change (pos (v_dev s2)) with (pos (v_dev s) + 512).
  split_and!; try done; [do 2 f_equal; lia|lia|]. rewrite Hd'. by apply splice_sectors.
Qed.
End Requests.
