(* ===== verification/VioblkFs.v ===== *)
(** The block driver at work: attaching and opening a device (vioblk.c,
    virtio.c), reading it under every behaviour of device and interrupt line,
    and the file system (kfs.c) mounted on it. *)

From Stdlib Require Import Ascii String.
From S2P Require Import Prelude KString IoIntf Plic Intr Device Virtio Vioblk Kfs KfsFiles.
From stdpp Require Import list.
#[local] Open Scope Z_scope.

(** * Attaching *)

Definition needed_words : list Z := [2 ^ 28; 2 ^ 8; 0; 0].
Definition wanted_words : list Z := [2 ^ 6 + 2 ^ 10; 0; 0; 0].

(** The block size the driver takes over. *)
Definition block_size (f : regfile) : Z := if Z.testbit (feature_word (rf_offered f) 0) 6 then rf_blksz f else 512.

Lemma blksz_feature offered e0 e1 e2 e3 :
  virtio_featset_test (agreed offered 0 wanted_words [e0; e1; e2; e3]) VIRTIO_BLK_F_BLK_SIZE =
  Ret (if Z.testbit (feature_word offered 0) 6 then 1 else 0).
Proof.
  unfold virtio_featset_test. cbn [wanted_words agreed]. change (VIRTIO_BLK_F_BLK_SIZE / 32) with 0.
  change (VIRTIO_BLK_F_BLK_SIZE mod 32) with 6. set (v := feature_word offered 0).
  match goal with |- context [load (?x :: ?l) 0] => change (load (x :: l) 0) with (Ret x) end. cbn [obind].
  change (2 ^ 6 + 2 ^ 10 =? 0) with false. cbn iota. f_equal. apply Z.bits_inj'. intros n Hn.
  rewrite Z.land_spec, Z.shiftr_spec, Z.land_spec by done.
  destruct (Z.eq_dec n 0) as [->|Hn0].
  - change (Z.testbit 1 0) with true. change (Z.testbit (2 ^ 6 + 2 ^ 10) (0 + 6)) with true. rewrite !andb_true_r.
    change (0 + 6) with 6. by destruct (Z.testbit v 6).
  - replace (Z.testbit 1 n) with false by (symmetry; apply (Z.pow2_bits_false 0); lia). rewrite andb_false_r.
    destruct (Z.testbit v 6); symmetry; [apply (Z.pow2_bits_false 0); lia|apply Z.bits_0].
Qed.

Section Attach.
Context {HW : Type} `{VirtioBlk HW} {W F A : Type} `{Mmio W}.

(** The registers once the status bits up to [DRIVER] are set. *)
Definition rf_greeted (f : regfile) : regfile := rf_set_status (rf_reset f) 3.

Lemma greet_spec hw :
  let hw' := status_or (status_or (status_or (vwr hw status 0) VIRTIO_STAT_ACKNOWLEDGE) VIRTIO_STAT_DRIVER) VIRTIO_STAT_DRIVER in
  regs_of hw' = rf_greeted (regs_of hw) /\ disk_of hw' = disk_of hw.
Proof.
  cbv zeta. assert (HP : forall h r v, disk_of h = disk_of hw -> disk_of (vwr h r v) = disk_of hw) by (intros; by rewrite disk_vwr).
  pose proof (vwr_spec hw status 0) as E0. cbn [rf_write] in E0. change (0 =? 0) with true in E0. cbn iota in E0.
  set (h0 := vwr hw status 0) in *. assert (D0 : disk_of h0 = disk_of hw) by apply disk_vwr.
  destruct (status_or_spec _ HP h0 VIRTIO_STAT_ACKNOWLEDGE) as [E1 D1]; [by rewrite E0|].
  destruct (status_or_spec _ HP (status_or h0 VIRTIO_STAT_ACKNOWLEDGE) VIRTIO_STAT_DRIVER) as [E2 D2]; [by rewrite E1, E0|].
  set (h2 := status_or (status_or h0 _) _) in *.
  destruct (status_or_spec _ HP h2 VIRTIO_STAT_DRIVER) as [E3 D3]; [by rewrite E2, E1, E0|].
  split; [by rewrite E3, E2, E1, E0|auto].
Qed.

Lemma greet_id hw : vrd (status_or (status_or (vwr hw status 0) VIRTIO_STAT_ACKNOWLEDGE) VIRTIO_STAT_DRIVER) device_id =
  (status_or (status_or (vwr hw status 0) VIRTIO_STAT_ACKNOWLEDGE) VIRTIO_STAT_DRIVER, rf_id (regs_of hw)).
Proof.
  apply vrd_spec. pose proof (vwr_spec hw status 0) as E0.
  destruct (status_or_spec (fun _ => True) (fun _ _ _ => id) (vwr hw status 0) VIRTIO_STAT_ACKNOWLEDGE) as [E1 _]; [by rewrite E0|].
  destruct (status_or_spec (fun _ => True) (fun _ _ _ => id) (status_or (vwr hw status 0) VIRTIO_STAT_ACKNOWLEDGE) VIRTIO_STAT_DRIVER) as [E2 _];
    [by rewrite E1, E0|]. by rewrite E2, E1, E0.
Qed.

(** The registers of a configured device. *)
Definition rf_configured (f : regfile) (base dsel gsel : Z) : regfile :=
  rf_set_status (rf_set_queue (rf_set_features (rf_reset f) (agreed (rf_offered f) 0 wanted_words [0; 0; 0; 0]) dsel gsel)
    0 0 VIRTIO_QUEUE_SZ (base + OFF_desc) (base + OFF_avail) (base + OFF_used)) 15.

Lemma attach_virtq_spec hw base f dsel gsel : regs_of hw = rf_set_status (rf_set_features (rf_greeted f) (agreed (rf_offered f) 0 wanted_words [0; 0; 0; 0]) dsel gsel) 11 ->
  let hw' := status_or (virtio_attach_virtq hw VIRTIO_QUEUE_ID VIRTIO_QUEUE_SZ (base + OFF_desc) (base + OFF_used) (base + OFF_avail)) VIRTIO_STAT_DRIVER_OK in
  regs_of hw' = rf_configured f base dsel gsel /\ disk_of hw' = disk_of hw.
Proof.
  intros Hr. cbv zeta. assert (HP : forall h r v, disk_of h = disk_of hw -> disk_of (vwr h r v) = disk_of hw) by (intros; by rewrite disk_vwr).
  set (h1 := virtio_attach_virtq _ _ _ _ _ _).
  assert (E1 : regs_of h1 = rf_set_queue (regs_of hw) 0 (rf_qready (regs_of hw)) VIRTIO_QUEUE_SZ (base + OFF_desc) (base + OFF_avail) (base + OFF_used)).
  { unfold h1, virtio_attach_virtq. by rewrite !vwr_spec. }
  assert (D1 : disk_of h1 = disk_of hw) by (unfold h1, virtio_attach_virtq; by rewrite !disk_vwr).
  destruct (status_or_spec _ HP h1 VIRTIO_STAT_DRIVER_OK) as [E2 D2]; [by rewrite E1, Hr|].
  split; [by rewrite E2, E1, Hr|auto].
Qed.

(** What [vioblk_attach] is given: a block device with 512-byte blocks, memory
    for the structure, a free interrupt source and a free device slot. *)
Record attachable (kmalloc : A -> Z -> outcome (A * Z * list Z)) (a a' : A) (base irqno : Z) (hw : HW) (st : intr_state W) : Prop := {
  at_id : rf_id (regs_of hw) = VIRTIO_ID_BLOCK;
  at_blksz : block_size (regs_of hw) = 512;
  at_accepted : length (rf_accepted (regs_of hw)) = 4%nat;
  at_mem : exists mem, kmalloc a 728 = Ret (a', base, mem) /\ length mem = 728%nat;
  at_irq : 0 <= irqno < NIRQ;
  at_intr : intr_wf st;
}.

Lemma attach_spec kmalloc isr (opn : Z -> F) enabled irqno base hw (st : intr_state W) (tab tab' : devtab_t F) (a a' : A) k :
  attachable kmalloc a a' base irqno hw st -> length enabled = 4%nat ->
  device_register tab (Some (cstr "blk")) (Some (opn base)) = Ret (tab', k) ->
  let f := regs_of hw in
  exists hw' dsel gsel, disk_of hw' = disk_of hw /\
    if features_in (rf_offered f) 0 needed_words then
      exists st' buf, vioblk_attach kmalloc isr opn enabled irqno hw st tab a
          = Ret (hw', st', tab', a', Some (base, vioblk_device_init base irqno 512 buf, false)) /\
        length buf = 512%nat /\ regs_of hw' = rf_configured f base dsel gsel /\
        isrtab st' !! Z.to_nat irqno = Some {| Intr.isr := Some (isr base); isr_prio := VIOBLK_IRQ_PRIO |} /\ intr_wf st' /\
        (forall j, j <> Z.to_nat irqno -> isrtab st' !! j = isrtab st !! j)
    else vioblk_attach kmalloc isr opn enabled irqno hw st tab a = Ret (hw', st, tab, a, None).
Proof.
  intros [Hid Hbs Hacc (mem & Hm & Hlm) Hirq Hst] Hen Hreg f. unfold vioblk_attach. rewrite greet_id, Hid, Z.eqb_refl.
  destruct (greet_spec hw) as [E3 D3]. set (h3 := status_or (status_or (status_or _ _) _) _) in *.
  change needed_features with (Ret needed_words). change wanted_features with (Ret wanted_words). cbn [obind].
  assert (HP : forall h r v, disk_of h = disk_of hw -> disk_of (vwr h r v) = disk_of hw) by (intros; by rewrite disk_vwr).
  destruct (negotiate_spec _ HP h3 enabled wanted_words needed_words) as (h4 & dsel & gsel & D4 & HN);
    [by rewrite Hen|rewrite E3; cbn; by rewrite length_replicate, Hacc|by rewrite E3|].
  specialize (D4 D3). rewrite E3 in HN. cbn [rf_greeted rf_set_status rf_reset rf_set_work rf_set_queue rf_set_features rf_offered rf_status rf_accepted] in HN.
  fold f in HN, Hacc. rewrite Hacc in HN. change (replicate 4 0) with [0; 0; 0; 0] in HN.
  destruct (features_in (rf_offered f) 0 needed_words).
  2: { destruct HN as [-> _]. by exists h4, dsel, gsel. }
  destruct HN as [-> E4]. cbn [obind]. change (0 =? 0) with true. cbn [negb].
  destruct enabled as [|e0 [|e1 [|e2 [|e3 [|]]]]]; try done. rewrite blksz_feature. cbn [obind].
  set (b6 := Z.testbit (feature_word (rf_offered f) 0) 6).
  match goal with |- context [let (_, _) := ?p in _] => replace p with (h4, 512) end.
  2: { unfold block_size in Hbs. fold f b6 in Hbs. destruct b6; [|done]. cbn.
       rewrite (vrd_spec h4 config_blk_size 512); [done|]. rewrite E4. cbn. by rewrite <- Hbs. }
  change (SIZEOF_vioblk_device + 512) with 728. rewrite Hm. cbn [obind]. change (u32 512 =? 0) with false. cbn [negb].
  destruct (attach_virtq_spec h4 base f dsel gsel E4) as [E5 D5].
  destruct (intr_register_isr_spec st irqno VIOBLK_IRQ_PRIO (isr base) Hst Hirq) as (st' & -> & Hwf' & Hisr & Hoth). cbn [obind].
  rewrite Hreg. cbn [obind]. eexists _, dsel, gsel. split; [by rewrite D5|]. eexists st', _. split; [reflexivity|].
  rewrite length_drop, Hlm. done.
Qed.

(** Opening the attached device leaves it ready for requests. *)
Lemma open_spec base irqno buf hw f dsel gsel sst (st : intr_state W) w p isr : length buf = 512%nat -> regs_of hw = rf_configured f base dsel gsel ->
  0 <= irqno < NIRQ -> isrtab st !! Z.to_nat irqno = Some {| Intr.isr := Some isr; isr_prio := p |} ->
  let s := {| v_hw := hw; v_dev := vioblk_device_init base irqno 512 buf; vio_lock := false; v_sstatus := sst; v_waits := 0%nat |} in
  exists s', vioblk_open st s w = Ret (s', plic_enable_irq w irqno p, 0) /\ (lenient -> vio_ok base false s') /\
    pos (v_dev s') = 0 /\ vio_lock s' = false /\ disk_of (v_hw s') = disk_of hw.
Proof.
  intros Hb Hr Hirq Hisr s. unfold vioblk_open. cbn [s put_hw v_dev vioblk_device_init Vioblk.opened vb_irqno].
  change (0 =? 0) with true. cbn [negb]. unfold intr_enable_irq.
  rewrite u16_small by (unfold NIRQ in Hirq; lia). rewrite (proj2 (load_Ret _ _ _)) by (split; [lia|exact Hisr]). cbn [obind Intr.isr isr_prio].
  eexists. split; [reflexivity|]. unfold virtio_enable_virtq. cbn [put_dev v_hw]. split_and!; [|done|done|cbn; by rewrite !disk_vwr].
  intros Hlen. constructor; cbn [put_dev put_hw v_hw v_dev]; rewrite ?vwr_spec; cbn [s v_hw]; rewrite ?Hr; by try right.
Qed.
End Attach.

(** * Reading *)

Section Read.
Context {HW : Type} `{VirtioBlk HW} (base : Z) (script : nat -> window).

Lemma vioblk_read_spec w (s : vio HW) t b k : vio_ok base w s -> vio_lock s = false -> 0 <= b -> 0 <= t < 2 ^ 23 ->
  pos (v_dev s) = 512 * (b + 2 ^ 32 * t) -> (0 < k)%nat -> b + Z.of_nat k < 2 ^ 32 ->
  let dk := disk_of (v_hw s) in
  let n := 512 * Z.of_nat k in
  if all_answered script (v_waits s) (requests dk b k) then
    exists s' w', read_result base s s' w' /\
      if fits dk b k then
        vioblk_read base script s n = Ret (s', n, sectors dk b (512 * k)) /\ pos (v_dev s') = pos (v_dev s) + n
      else vioblk_read base script s n = Ret (s', - EIO, sectors dk b (512 * Z.to_nat (nsectors dk - b)))
  else vioblk_read base script s n = Blocked.
Proof.
  intros Hok Hlk Hb Ht Hp Hk Hlt dk n. unfold vioblk_read. rewrite (vo_blksz _ _ _ Hok), (vo_open _ _ _ Hok).
  change (512 =? 0) with false. change (1 =? 0) with false. cbn [negb].
  replace (n =? 0) with false by (symmetry; unfold n; lia).
  replace (n mod 512) with 0 by (unfold n; rewrite Z.mul_comm, Z_mod_mult; done). change (0 =? 0) with true. cbn [negb].
  unfold vio_acquire. cbn [put_dev vio_lock]. rewrite Hlk. cbn [obind].
  replace (pos (v_dev s) / 512) with (b + 2 ^ 32 * t) by (rewrite Hp, (Z.mul_comm 512), Z_div_mult; done).
  replace (Z.to_nat (n / 512)) with k by (unfold n; rewrite Z.mul_comm, Z_div_mult by done; lia).
  set (s1 := put_lock _ true). assert (Hok1 : vio_ok base w s1) by (destruct Hok; by constructor).
  pose proof (read_sectors_spec base script k (S k) s1 w t b 0 [] ltac:(lia) Hok1 Hb Ht eq_refl Hp Hlt) as HR.
  cbv zeta in HR. change (v_hw s1) with (v_hw s) in HR. change (v_waits s1) with (v_waits s) in HR. fold dk n in HR.
  destruct (all_answered _ _ _); [|exact HR]. destruct HR as (s' & w' & [H1' H2' H3' H4'] & HR). exists s', w'.
  split; [by constructor|]. destruct (fits dk b k); [|exact HR]. destruct HR as (-> & Hp' & _). rewrite Hp'. done.
Qed.
End Read.

(** * The driver as a disk for the file system

    When every request is answered, the file system can be mounted on the device
    (read only: [vioblk_write] does not honour the position).  kfs.c hands over
    the address of a 32-bit offset and [vioblk_setpos] reads 64 bits: with [hi]
    in the upper half the offset is wrong by 2 ^ 32 [hi].  As the sector is cut
    to 32 bits, this does no harm when 512 divides [hi] (it is zero, say);
    otherwise the block lies beyond the end of every disk kfs can be on. *)
Section Disk.
Context {HW : Type} `{VirtioBlk HW} (base : Z) (script : nat -> window).
Context (Hfair : forall k, answered (script k) = true).
Notation ops := (virtio_ops base script).

Lemma fair_all n k : all_answered script n k = true.
Proof. apply forallb_forall. auto. Qed.

Definition vio_disk_ok (s : vio HW) : Prop := (exists w, vio_ok base w s) /\ vio_lock s = false.

Lemma setpos_spec s v : vio_disk_ok s -> 0 <= v < 2 ^ 64 ->
  exists s', disk_ctl ops s IOCTL_SETPOS (Some v) = Ret (s', i32 v) /\
    vio_disk_ok s' /\ disk_of (v_hw s') = disk_of (v_hw s) /\ pos (v_dev s') = v.
Proof.
  intros [[w Hok] Hlk] Ho. unfold disk_ctl. cbn. unfold vioblk_setpos, vio_acquire. rewrite Hlk. cbn [obind].
  rewrite u64_small by lia. eexists. split; [reflexivity|].
  split_and!; try done. split; [|done]. exists w. by destruct Hok.
Qed.

Context (hi : Z) (Hhi : 0 <= hi < 2 ^ 32).

(** The position after the control call, in sectors, and the lost part. *)
Lemma seek_position off : 0 <= off < 2 ^ 31 -> off mod FS_BLKSZ = 0 ->
  off + 2 ^ 32 * hi = 512 * (off / 512 + 2 ^ 23 * (hi mod 512) + 2 ^ 32 * (hi / 512)) /\
  0 <= off / 512 + 2 ^ 23 * (hi mod 512) /\ off / 512 + 2 ^ 23 * (hi mod 512) + 8 < 2 ^ 32 /\ 0 <= hi / 512 < 2 ^ 23 /\
  i32 (off + 2 ^ 32 * hi) = off.
Proof using Hhi.
  intros Ho Ha. split_and!.
  1-5: unfold FS_BLKSZ in Ha; Z.to_euclidean_division_equations; lia.
  unfold i32. replace (u32 (off + 2 ^ 32 * hi)) with off; [by rewrite (proj2 (Z.ltb_lt off _)) by lia|].
  unfold u32. rewrite (Z.mul_comm (2 ^ 32)), Z_mod_plus_full. symmetry. apply Z.mod_small. lia.
Qed.

(** One block from a position of this form. *)
Lemma read_block_at s b t : vio_disk_ok s -> 0 <= b -> 0 <= t < 2 ^ 23 -> pos (v_dev s) = 512 * (b + 2 ^ 32 * t) -> b + 8 < 2 ^ 32 ->
  let dk := disk_of (v_hw s) in
  exists s', vio_disk_ok s' /\ disk_of (v_hw s') = dk /\
    if fits dk b 8 then disk_read ops s FS_BLKSZ = Ret (s', FS_BLKSZ, sectors dk b (512 * 8))
    else disk_read ops s FS_BLKSZ = Ret (s', - EIO, sectors dk b (512 * Z.to_nat (nsectors dk - b))).
Proof using Hfair.
  intros [[w Hok] Hlk] Hb Ht Hp Hlt. cbv zeta.
  pose proof (vioblk_read_spec base script w s t b 8 Hok Hlk Hb Ht Hp ltac:(lia) ltac:(lia)) as HR.
  cbv zeta in HR. rewrite fair_all in HR. destruct HR as (s' & w' & [Hok' Hd' Hlk' _] & E). exists s'.
  split; [by split; [exists w'|]|]. split; [done|]. unfold disk_read. cbn [virtio_ops op_read]. change FS_BLKSZ with (512 * Z.of_nat 8).
  destruct (fits _ _ _); [by destruct E|done].
Qed.

#[export, program] Instance vio_disk (Hmod : hi mod 512 = 0) : ReadDisk ops hi := {
  dk_wf := vio_disk_ok;
  dk_data s := disk_of (v_hw s);
  dk_at s off := exists t, 0 <= t < 2 ^ 23 /\ pos (v_dev s) = off + 2 ^ 41 * t;
}.
Next Obligation.
  intros Hmod s off Hs Ho _. destruct (setpos_spec s (off + 2 ^ 32 * hi) Hs) as (s' & E & Hs' & Hd & Hp); [lia|].
  exists s', (i32 (off + 2 ^ 32 * hi)). split_and!; [exact E| |done|done|].
  - unfold i32, u32. rewrite (Z.mul_comm (2 ^ 32)), Z_mod_plus_full, Z.mod_small, (proj2 (Z.ltb_lt off _)) by lia. lia.
  - exists (hi / 512). rewrite Hp. Z.to_euclidean_division_equations; lia.
Qed.
Next Obligation.
  intros Hmod s Hs. destruct (setpos_spec s 0 Hs) as (s' & E & Hs' & Hd & Hp); [lia|]. exists s', 0. split_and!; [exact E|lia|done..|].
  exists 0. by split.
Qed.
Next Obligation.
  intros Hmod s off Hs (t & Ht & Hp) Ho Hal Hl.
  assert (Hb : off = 512 * (off / 512)) by (unfold FS_BLKSZ in Hal; Z.to_euclidean_division_equations; lia).
  destruct (read_block_at s (off / 512) t Hs ltac:(lia) Ht ltac:(lia) ltac:(lia)) as (s' & Hs' & Hd & HR).
  replace (fits _ _ _) with true in HR.
  2: { symmetry. unfold fits, nsectors. cbn [Nat.eqb orb]. apply Z.leb_le. unfold FS_BLKSZ in *. Z.to_euclidean_division_equations. lia. }
  exists s'. split; [|done]. rewrite HR. do 2 f_equal. unfold sectors. by rewrite <- Hb.
Qed.

(** With other bytes above the offset no block can be read. *)
Lemma read_block_fails (s : kfs (vio HW)) d off old : hi mod 512 <> 0 -> disk_io s = Some d -> vio_disk_ok d ->
  Z.of_nat (length (disk_of (v_hw d))) < 2 ^ 31 -> 0 <= off < 2 ^ 31 -> off mod FS_BLKSZ = 0 ->
  exists s' d', read_block ops hi s off old = Ret (set_disk s' d', - EIO, old).
Proof using Hfair Hhi.
  intros Hmod Hd Hwf Hlen Ho Ha. unfold read_block. rewrite Hd.
  destruct (seek_position off Ho Ha) as (Ep & Hb & Hb2 & Ht & Hr).
  destruct (setpos_spec d (off + 2 ^ 32 * hi) Hwf) as (d1 & -> & Hwf1 & Hd1 & Hp1); [lia|]. cbn [obind]. rewrite Hr, (proj2 (Z.ltb_ge off 0)) by lia.
  set (b := off / 512 + _) in *. rewrite Ep in Hp1.
  destruct (read_block_at d1 b (hi / 512) Hwf1 Hb Ht Hp1 Hb2) as (d2 & _ & _ & HR). rewrite Hd1 in HR.
  set (dk := disk_of (v_hw d)) in *.
  assert (Hn : nsectors dk < b) by (unfold nsectors, b; Z.to_euclidean_division_equations; lia).
  replace (fits dk b 8) with false in HR by (symmetry; unfold fits; cbn [Nat.eqb orb]; apply Z.leb_gt; lia).
  rewrite HR. replace (Z.to_nat (nsectors dk - b)) with 0%nat by lia. cbn [obind].
  change (sectors _ _ (512 * 0)) with (@nil Z). exists s, d2. rewrite put_block_Ret by (cbn; lia). cbn [obind]. by rewrite splice_nil.
Qed.

Lemma fs_open_fails (s : kfs (vio HW)) name key d : let img := disk_of (v_hw d) in hi mod 512 <> 0 ->
  disk_io s = Some d -> vio_disk_ok d -> boot_block s = boot_of img -> kfs_lock s = false -> Z.of_nat (length img) < 2 ^ 31 ->
  img_ok img -> inodes_ok img -> bytes_ok name -> cprefix (Z.to_nat FS_NAMELEN) name = Some key ->
  exists s', fs_open ops hi s (Some name) false = Ret (s', if dir_lookup img key then - EIO else - ENOENT, None).
Proof using Hfair Hhi.
  intros img Hmod Hd Hwf Hboot Hlk Hlen Hok Hino Hn Hk. unfold fs_open, acquire. rewrite Hlk. cbn [obind set_lock boot_block].
  rewrite Hboot. unfold dir_lookup. set (b := boot_of img).
  assert (Hnd : 0 <= num_dentry b) by apply u32_at_range, (blk_bytes img Hok).
  destruct (find_dentry_spec img Hok Hino (Z.to_nat (num_dentry b)) name key 0 Hn Hk) as [E Hr0]; [lia|fold b; lia|].
  fold b in E, Hr0. rewrite E. cbn [obind]. destruct (dir_find _ b key 0) as [ino|] eqn:Ed; cbn [default id].
  2: { eexists. reflexivity. }
  assert (Hi := Hr0 ino eq_refl). assert (Hs := inode_count_small img Hok). fold b in Hs.
  replace (ino =? -1) with false by lia. rewrite u32_small by lia. unfold update_inode.
  pose proof (counts_range img Hok) as Hcnt. fold b in Hcnt.
  destruct (block_offset_ok img Hok (1 + ino)) as (H1' & H2' & _); [fold b; lia|].
  replace (FS_BLKSZ + ino * FS_BLKSZ) with (FS_BLKSZ * (1 + ino)) by lia. rewrite u32_small by lia.
  destruct (read_block_fails (set_lock s true) d (FS_BLKSZ * (1 + ino)) (inode s) Hmod Hd Hwf Hlen H1') as (s' & d' & E1);
    [by rewrite Z.mul_comm, Z_mod_mult|]. cbn [inode set_lock] in *. rewrite E1. eexists. reflexivity.
Qed.
End Disk.

(** Mounting does not depend on these bytes. *)
Section Mount.
Context {HW : Type} `{VirtioBlk HW} (base : Z) (script : nat -> window) (Hfair : forall k, answered (script k) = true).
Notation ops := (virtio_ops base script).

Lemma hi_zero : 0 <= 0 < 2 ^ 32.
Proof. lia. Qed.
#[export] Instance vio_disk0 : ReadDisk ops 0 := vio_disk base script Hfair 0 hi_zero eq_refl.

Lemma vio_mount_spec (k0 : kfs (vio HW)) s : unmounted k0 -> vio_disk_ok base s -> img_ok (disk_of (v_hw s)) ->
  exists k1, fs_mount ops k0 (Some s) = Ret (k1, 0) /\ ready ops 0 k1 (disk_of (v_hw s)) /\
    file_list k1 = replicate (Z.to_nat MAX_OPEN_FILES) released.
Proof. exact (fs_mount_spec ops 0 k0 s). Qed.

Lemma ready_any hi Hhi Hmod (s : kfs (vio HW)) img : ready ops 0 s img ->
  ready ops hi (HR := vio_disk base script Hfair hi Hhi Hmod) s img.
Proof. intros [[H1' H2' H3' H4'] Hlk Hfl]. split; [|done|done]. split; done. Qed.

Lemma fs_open_blocked hi (k1 : kfs (vio HW)) img name key : 0 <= hi < 2 ^ 32 -> hi mod 512 <> 0 -> ready ops 0 k1 img -> img_ok img -> inodes_ok img ->
  bytes_ok name -> cprefix (Z.to_nat FS_NAMELEN) name = Some key ->
  exists k2, fs_open ops hi k1 (Some name) false = Ret (k2, if dir_lookup img key then - EIO else - ENOENT, None).
Proof.
  intros Hhi Hmod [[(d & Hd & Hwf & Hdata) Hboot _ _] Hlk _] Hok Hino Hn Hk. change (disk_of (v_hw d) = img) in Hdata. subst img.
  apply (fs_open_fails base script Hfair hi Hhi k1 name key d); try done. apply Hok.
Qed.
End Mount.

(** * Properties *)



(** On a device from which nothing has been read yet a write of whole
    blocks succeeds and advances the position, but stores the data in the first
    sectors of the disk, whatever the position is. *)
Theorem vioblk_write_from_zero {HW} `{VirtioBlk HW} base script (s : vio HW) buf k :
  vio_ok base false s -> vio_lock s = false -> (forall j, answered (script j) = true) -> (0 < k)%nat ->
  length buf = (512 * k)%nat -> Z.of_nat k <= nsectors (disk_of (v_hw s)) < 2 ^ 31 -> 0 <= pos (v_dev s) < 2 ^ 63 ->
  exists s', vioblk_write base script s buf = Ret (s', Z.of_nat (length buf)) /\ vio_ok base false s' /\ vio_lock s' = false /\
    pos (v_dev s') = pos (v_dev s) + Z.of_nat (length buf) /\ disk_of (v_hw s') = splice (disk_of (v_hw s)) 0 buf.
Proof.
  intros Hok Hlk Hf Hk Hl Hn Hp. unfold vioblk_write. rewrite (vo_blksz _ _ _ Hok), (vo_open _ _ _ Hok), (vo_readonly _ _ _ Hok).
  change (512 =? 0) with false. change (1 =? 0) with false. change (0 =? 0) with true. cbn [negb].
  replace (Z.of_nat (length buf)) with (512 * Z.of_nat k) by lia. replace (512 * Z.of_nat k =? 0) with false by (symmetry; lia).
  unfold vio_acquire. cbn [put_dev vio_lock]. rewrite Hlk. cbn [obind]. set (s1 := put_lock _ true).
  assert (Hok1 : vio_ok base false s1) by (destruct Hok; by constructor).
  replace (Z.to_nat (512 * Z.of_nat k / 512 + 1)) with (S k) by (rewrite Z.mul_comm, Z_div_mult by done; lia).
  destruct (write_sectors_spec base script k (S (S k)) s1 buf 0 0 0) as (s' & E & Hok' & Hlk' & Hp' & Hd'); try done; try lia; [cbn; lia..|by apply fair_all|].
  exists s'. rewrite E. split_and!; [done|done|done|exact Hp'|]. rewrite Hd', drop_0, take_ge by lia. done.
Qed.


(** * A device

    The register file with a disk, serving a request when notified. *)
Module VioDemo.
Record dev := { regs : regfile; disk : list Z }.
#[global] Instance dev_mmio : VirtioMmio dev := {
  vrd d r := (d, default 0 (rf_read (regs d) r));
  vwr d r v := {| regs := rf_write (regs d) r v; disk := disk d |};
}.
#[global, program] Instance dev_regs : VirtioRegs dev := { regs_of := regs }.
Next Obligation. intros d r v E. cbn in *. by rewrite E. Qed.
Next Obligation. done. Qed.

Definition dev_serve (d : dev) (base : Z) (q : vqueue) (buf : list Z) : dev * vqueue * list Z :=
  let n := length buf in
  if rf_notified (regs d) && negb (avail_idx q =? rf_seen (regs d)) then
    let r := rf_set_work (regs d) (Z.lor (rf_intr (regs d)) 1) false (avail_idx q) in
    let ok := (0 <=? req_sector q) && (512 * req_sector q + Z.of_nat n <=? Z.of_nat (length (disk d))) in
    let q' := {| avail_flags := avail_flags q; avail_idx := avail_idx q; avail_ring := avail_ring q; used_idx := u16 (used_idx q + 1);
                 desc := desc q; req_type := req_type q; req_sector := req_sector q; req_status := if ok then 0 else 1 |} in
    if ok then
      if req_type q =? VIRTIO_BLK_T_IN then ({| regs := r; disk := disk d |}, q', sectors (disk d) (req_sector q) n)
      else ({| regs := r; disk := splice (disk d) (Z.to_nat (512 * req_sector q)) buf |}, q', buf)
    else ({| regs := r; disk := disk d |}, q', buf)
  else (d, q, buf).
#[global] Instance dev_dma : VirtioDma dev := { serve := dev_serve }.

#[global, program] Instance dev_blk : VirtioBlk dev := { disk_of := disk; lenient := True }.
Next Obligation. done. Qed.
Next Obligation.
  intros d base q buf _ _ Hn Hx _ _. cbn in *. unfold dev_serve. rewrite Hn, (proj2 (Z.eqb_neq _ _) Hx). cbn [andb negb].
  unfold served. destruct ((0 <=? req_sector q) && _) eqn:Eo.
  - destruct (req_type q =? VIRTIO_BLK_T_IN) eqn:Et; eexists _, _, _; (split; [reflexivity|]);
      (split; [reflexivity|]); cbn; split_and!; try done.
    apply andb_true_iff in Eo as [E1%Z.leb_le E2%Z.leb_le]. unfold sectors. rewrite length_take, length_drop. lia.
  - eexists _, _, _. split; [reflexivity|]. split; [reflexivity|]. cbn. by split_and!.
Qed.
Next Obligation. intros d base q buf Hn. cbn in *. unfold dev_serve. by rewrite Hn. Qed.
Lemma dev_lenient : lenient (HW := dev).
Proof. exact I. Qed.

(** A powered-on device with the image of the file-system example. *)
Definition regs0 : regfile := {|
  rf_magic := VIRTIO_MAGIC; rf_version := 2; rf_id := VIRTIO_ID_BLOCK; rf_blksz := 512;
  rf_offered := [2 ^ 28 + 2 ^ 6; 2 ^ 8; 0; 0]; rf_accepted := [0; 0; 0; 0];
  rf_dsel := 0; rf_gsel := 0; rf_status := 0; rf_intr := 0;
  rf_qsel := 0; rf_qready := 0; rf_qnum := 0; rf_qdesc := 0; rf_qdriver := 0; rf_qdevice := 0;
  rf_notified := false; rf_seen := 0 |}.
Definition dev0 : dev := {| regs := regs0; disk := KfsDemo.img |}.
Definition base : Z := 0x80400000.
Definition alloc (a : unit) (n : Z) : outcome (unit * Z * list Z) := Ret (a, base, replicate (Z.to_nat n) 170).

(** The interrupt controller accepts every access. *)
#[global] Instance unit_mmio : Mmio unit := { mrd w _ := (w, 0); mwr w _ _ := w }.
Definition intr0 : intr_state unit :=
  {| Intr.sstatus := 2; sie := 0; sip := 0; intr_initialized := true; isrtab := replicate 32 {| Intr.isr := None; isr_prio := 0 |} |}.
Definition isr (aux irqno : Z) (w : unit) : outcome unit := Ret w.

(** Odd requests are served before the thread sleeps, even ones while it does;
    interrupts come too early and in time. *)
Definition script (k : nat) : window :=
  if Nat.odd k then {| on_submit := [Intr]; on_disable := [Serve]; on_notify := [Intr; Serve; Intr]; on_sleep := [Serve; Intr] |}
  else {| on_submit := []; on_disable := [Intr]; on_notify := []; on_sleep := [Intr; Serve; Serve; Intr] |}.
Lemma fair k : answered (script k) = true.
Proof. unfold script. by destruct (Nat.odd k). Qed.

Definition attached : outcome (dev * intr_state unit * devtab_t Z * unit * option (Z * vioblk_device * bool)) :=
  vioblk_attach alloc isr (fun b => b) [7; 7; 7; 7] 8 dev0 intr0 devtab0 tt.
Definition s0 : vio dev :=
  match attached with
  | Ret (hw, st, _, _, Some (_, d, _)) =>
      match vioblk_open st {| v_hw := hw; v_dev := d; vio_lock := false; v_sstatus := 2; v_waits := 0 |} tt with
      | Ret (s, _, _) => s
      | _ => {| v_hw := hw; v_dev := d; vio_lock := false; v_sstatus := 2; v_waits := 0 |}
      end
  | _ => {| v_hw := dev0; v_dev := vioblk_device_init 0 0 0 []; vio_lock := true; v_sstatus := 0; v_waits := 0 |}
  end.

Lemma vs0_ok : vio_ok base false s0.
Proof. constructor; try (right; exact I); vm_compute; repeat split; discriminate. Qed.
Definition k0 : kfs (vio dev) :=
  {| boot_block := KfsDemo.zeros 4096; inode := KfsDemo.zeros 4096; data_block := KfsDemo.zeros 4096; file_list := replicate 32 released;
     disk_io := None; kfs_lock := true |}.
Lemma k0_unmounted : unmounted k0.
Proof. split; vm_compute; reflexivity. Qed.
Lemma s0_lock : vio_lock s0 = false.
Proof. vm_compute. reflexivity. Qed.
End VioDemo.



Lemma vioblk_write_from_zero_witness : exists s,
  vioblk_write VioDemo.base VioDemo.script (put_dev VioDemo.s0 (set_pos (v_dev VioDemo.s0) 8192 0)) (replicate 512 9) = Ret (s, 512) /\
  take 513 (VioDemo.disk (v_hw s)) = replicate 512 9 ++ [0].
Proof.
  destruct (vioblk_write_from_zero VioDemo.base VioDemo.script (put_dev VioDemo.s0 (set_pos (v_dev VioDemo.s0) 8192 0)) (replicate 512 9) 1)
    as (s & E & _ & _ & _ & Hd).
  - constructor; try (right; exact I); vm_compute; repeat split; discriminate.
  - vm_compute. reflexivity.
  - exact VioDemo.fair.
  - lia.
  - reflexivity.
  - vm_compute. split; [discriminate|reflexivity].
  - vm_compute. split; [discriminate|reflexivity].
  - exists s. split; [exact E|]. change (VioDemo.disk (v_hw s)) with (disk_of (v_hw s)). rewrite Hd. vm_compute. reflexivity.
Defined.


(** A write that is not a whole number of blocks reads past the end of the
    caller's buffer. *)
Example vioblk_write_partial : vioblk_write VioDemo.base VioDemo.script VioDemo.s0 (replicate 100 1) = Fault.
Proof. vm_compute. reflexivity. Qed.

(** The data descriptor keeps its write flag after a read, so a later write
    request is not well-formed. *)
Example vioblk_write_after_read :
  match vioblk_read VioDemo.base VioDemo.script VioDemo.s0 512 with
  | Ret (s, _, _) =>
      match submit VioDemo.base (vq (v_dev s)) 0 VIRTIO_BLK_T_OUT with
      | Ret q => request_segments VioDemo.base q =
          Some [(VioDemo.base + OFF_req_header, 16, false); (VioDemo.base + SIZEOF_vioblk_device, 512, true);
                (VioDemo.base + OFF_req_status, 1, true)]
      | _ => False
      end
  | _ => False
  end.
Proof. vm_compute. reflexivity. Qed.
