(* ===== verification/Mkfs.v ===== *)
(** The image builder (src/src/util/mkfs.c), a host program: it lays out a boot
    block with the directory, an inode per file and the data blocks.

    A command line is the list of the paths with the contents of the files
    ([None]: the file cannot be opened and the program exits).  Paths are the
    characters without terminator; [printf] is left out.  The array of inodes is
    on the stack and not initialised: [junk] is what it holds. *)

From Stdlib Require Import Ascii String.
From S2P Require Import Prelude KString IoIntf IoLit Kfs KfsFiles.
From stdpp Require Import list.
#[local] Open Scope Z_scope.

(** [x = v] for a 32-bit field of a packed structure: the field has to be
    inside. *)
Definition set_u32 (l : list Z) (off v : Z) : outcome (list Z) := put_block l off (le_encode 4 v).

(** [xint] and [xshort]: the bytes of the result. *)
Definition xint (x : Z) : list Z := [u8 x; u8 (Z.shiftr x 8); u8 (Z.shiftr x 16); u8 (Z.shiftr x 24)].
Definition xshort (x : Z) : list Z := [u8 x; u8 (Z.shiftr x 8)].

Definition shortname (p : list Z) : list Z :=
  if bool_decide (take 12 p = chars "../user/bin/") then drop 12 p
  else if bool_decide (take 9 p = chars "user/bin/") then drop 9 p
  else p.

(** [strncpy(dst, s, FS_NAMELEN)] of the C library pads with zeros. *)
Definition padded (s : list Z) : list Z := take 32 (s ++ replicate 32 0).

(** The first loop: directory entries. *)
Fixpoint add_dentries (boot : list Z) (number_inodes : Z) (paths : list (list Z)) : outcome (list Z * Z) :=
  match paths with
  | [] => Ret (boot, number_inodes)
  | p :: paths =>
      let s := shortname p in
      assert! negb (existsb (Z.eqb 47) s) in
      guard! number_inodes <? MAX_DENTRY_NUM in
      let! boot := put_block boot (dentry_off number_inodes) (padded s) in
      let! boot := set_u32 boot (dentry_off number_inodes + 32) number_inodes in
      add_dentries boot (number_inodes + 1) paths
  end.

(** [for (j = 0; j < n; ++j) data_block_num[j] = data_block_idx++] *)
Fixpoint number_blocks (n : nat) (ino : list Z) (j data_block_idx : Z) : outcome (list Z * Z) :=
  match n with
  | O => Ret (ino, data_block_idx)
  | S n =>
      let! ino := set_u32 ino (4 + 4 * j) data_block_idx in
      number_blocks n ino (j + 1) (i32 (data_block_idx + 1))
  end.

(** The second loop: inodes. *)
Fixpoint add_inodes (junk : list (list Z)) (files : list (option (list Z))) (data_block_idx : Z) {struct files}
    : outcome (list (list Z) * Z) :=
  match files with
  | [] => Ret ([], data_block_idx)
  | None :: _ => Panic
  | Some data :: files =>
      match junk with
      | [] => Fault
      | ino :: junk =>
          let num_bytes := i32 (Z.of_nat (length data)) in
          let num_data_blocks_for_file := Z.quot num_bytes FS_BLKSZ + 1 in
          let! (ino, data_block_idx) := number_blocks (Z.to_nat num_data_blocks_for_file) ino 0 data_block_idx in
          let! ino := set_u32 ino 0 num_bytes in
          let! (inodes, data_block_idx) := add_inodes junk files data_block_idx in
          Ret (ino :: inodes, data_block_idx)
      end
  end.

(** [while (read(fd, buf, sizeof(buf)) > 0) write(fsfd, buf, FS_BLKSZ);] *)
Fixpoint copy_blocks (fuel : nat) (buf data : list Z) : list (list Z) :=
  match fuel with
  | O => []
  | S fuel =>
      match data with
      | [] => []
      | _ :: _ => let buf := splice buf 0 (take BLK data) in buf :: copy_blocks fuel buf (drop BLK data)
      end
  end.
Definition file_blocks (data : list Z) : list (list Z) := copy_blocks (length data) (replicate BLK 0) data.

(** The whole program; the result is the image. *)
Definition mkfs (junk : list (list Z)) (args : list (list Z * option (list Z))) : outcome (list Z) :=
  let! (boot, number_inodes) := add_dentries (replicate BLK 0) 0 args.*1 in
  let! (inodes, data_block_idx) := add_inodes junk args.*2 0 in
  let! boot := set_u32 boot 0 number_inodes in
  let! boot := set_u32 boot 4 number_inodes in
  let! boot := set_u32 boot 8 data_block_idx in
  Ret (boot ++ concat inodes ++ concat (concat (file_blocks <$> (default [] <$> args.*2)))).

(** * Fields of packed structures *)

Definition field (l : list Z) (o n : Z) : list Z := take (Z.to_nat n) (drop (Z.to_nat o) l).

(** [l'] differs from [l] at most in the [n] bytes from [o] on. *)
Record frame (l l' : list Z) (o n : Z) : Prop := {
  fm_length : length l' = length l;
  fm_bytes : bytes_ok l -> bytes_ok l';
  fm_field o' n' : 0 <= o' -> 0 <= n' -> o' + n' <= o \/ o + n <= o' -> field l' o' n' = field l o' n';
}.

Lemma frame_refl l o n : frame l l o n.
Proof. by constructor. Qed.
Lemma frame_trans l1 l2 l3 o n o1 n1 o2 n2 : frame l1 l2 o1 n1 -> frame l2 l3 o2 n2 ->
  o <= o1 -> o1 + n1 <= o + n -> o <= o2 -> o2 + n2 <= o + n -> frame l1 l3 o n.
Proof.
  intros [L1 B1 F1] [L2 B2 F2] ? ? ? ?. constructor; [congruence|auto|]. intros o' n' Ho Hn Hd.
  rewrite F2 by lia. apply F1; lia.
Qed.

Lemma field_splice l o d o' n' : 0 <= o -> o + Z.of_nat (length d) <= Z.of_nat (length l) -> 0 <= o' -> 0 <= n' ->
  o' + n' <= o \/ o + Z.of_nat (length d) <= o' -> field (splice l (Z.to_nat o) d) o' n' = field l o' n'.
Proof.
  intros Ho Hl Ho' Hn' [Hd|Hd]; unfold field.
  - apply list_eq. intros i. destruct (decide (i < Z.to_nat n')%nat) as [Hi|Hi].
    + rewrite !lookup_take_lt, !lookup_drop by done. apply lookup_splice_out; lia.
    + by rewrite !lookup_take_ge by lia.
  - f_equal. apply drop_splice; lia.
Qed.

Lemma put_field l o d : 0 <= o -> o + Z.of_nat (length d) <= Z.of_nat (length l) -> bytes_ok d ->
  exists l', put_block l o d = Ret l' /\ frame l l' o (Z.of_nat (length d)) /\ field l' o (Z.of_nat (length d)) = d.
Proof.
  intros Ho Hl Hd. rewrite put_block_Ret by done. eexists. split; [done|]. split.
  - constructor; [apply length_splice; lia|intros; by apply bytes_ok_splice|]. intros. by apply field_splice.
  - unfold field. rewrite Nat2Z.id. apply splice_mid. lia.
Qed.

Lemma set_u32_spec l o v : 0 <= o -> o + 4 <= Z.of_nat (length l) -> 0 <= v < 2 ^ 32 ->
  exists l', set_u32 l o v = Ret l' /\ frame l l' o 4 /\ u32_at l' o = v.
Proof.
  intros Ho Hl Hv. destruct (put_field l o (le_encode 4 v)) as (l' & E & Hf & Hs); [done|by rewrite length_le_encode|auto with kern|].
  rewrite length_le_encode in Hf, Hs. exists l'. split; [done|]. split; [done|].
  change (u32_at l' o) with (le_decode (field l' o 4)). change 4 with (Z.of_nat 4) at 1. rewrite Hs, le_decode_encode.
  apply Z.mod_small. change (256 ^ Z.of_nat 4) with (2 ^ 32). done.
Qed.

(** * The directory *)

Definition name_ok (p : list Z) : Prop := bytes_ok p /\ existsb (Z.eqb 47) (shortname p) = false.

Lemma padded_length s : length (padded s) = 32%nat.
Proof. unfold padded. rewrite length_take, length_app, length_replicate. lia. Qed.
Lemma shortname_bytes p : bytes_ok p -> bytes_ok (shortname p).
Proof. intros. unfold shortname. repeat case_bool_decide; auto with kern. Qed.
Lemma padded_bytes p : bytes_ok p -> bytes_ok (padded (shortname p)).
Proof.
  intros Hp. apply bytes_ok_take, bytes_ok_app. split; [by apply shortname_bytes|]. apply Forall_replicate. lia.
Qed.

Lemma add_dentries_spec paths boot k : Z.of_nat (length boot) = FS_BLKSZ -> 0 <= k -> k + Z.of_nat (length paths) <= MAX_DENTRY_NUM ->
  Forall name_ok paths ->
  exists boot', add_dentries boot k paths = Ret (boot', k + Z.of_nat (length paths)) /\
    frame boot boot' (dentry_off k) (64 * Z.of_nat (length paths)) /\
    forall j p, paths !! j = Some p ->
      dentry_name boot' (k + Z.of_nat j) = padded (shortname p) /\ dentry_inode boot' (k + Z.of_nat j) = k + Z.of_nat j.
Proof.
  intros Hl Hk Hn Hok. revert boot k Hl Hk Hn; induction Hok as [|p paths [Hb Hs] Hok IH]; intros boot k Hl Hk Hn; cbn [add_dentries length] in *.
  { exists boot. rewrite Z.add_0_r. split; [done|]. split; [apply frame_refl|done]. }
  unfold MAX_DENTRY_NUM, FS_BLKSZ, dentry_off in *. rewrite Hs. cbn [negb]. rewrite (proj2 (Z.ltb_lt _ _)) by lia.
  destruct (put_field boot (64 + 64 * k) (padded (shortname p))) as (b1 & -> & F1 & N1);
    [lia|rewrite padded_length; lia|by apply padded_bytes|]. rewrite padded_length in F1, N1. cbn [obind].
  destruct (set_u32_spec b1 (64 + 64 * k + 32) k) as (b2 & -> & F2 & I2); [lia|rewrite (fm_length _ _ _ _ F1); lia|lia|]. cbn [obind].
  assert (L2 : length b2 = length boot) by (rewrite (fm_length _ _ _ _ F2); apply F1).
  destruct (IH b2 (k + 1)) as (b3 & E & F3 & D3); [by rewrite L2|lia|lia|].
  exists b3. rewrite E. split; [do 2 f_equal; lia|]. split.
  { assert (F12 : frame boot b2 (64 + 64 * k) 64) by (eapply frame_trans; [exact F1|exact F2|lia..]).
    eapply frame_trans; [exact F12|exact F3|lia..]. }
  intros [|j] q; cbn [lookup list_lookup]; [intros [= <-]|intros Hq].
  - rewrite Z.add_0_r. unfold dentry_inode, dentry_off in *.
    change (field b3 (64 + 64 * k) 32 = padded (shortname p) /\ le_decode (field b3 (64 + 64 * k + 32) 4) = k).
    rewrite !(fm_field _ _ _ _ F3) by lia. rewrite (fm_field _ _ _ _ F2) by lia. split; [exact N1|exact I2].
  - replace (k + Z.of_nat (S j)) with (k + 1 + Z.of_nat j) by lia. by apply D3.
Qed.

(** * The inodes *)

(** The number of blocks an inode is given. *)
Definition nblocks (data : list Z) : Z := Z.of_nat (length data) / FS_BLKSZ + 1.

Definition data_ok (data : list Z) : Prop := bytes_ok data /\ Z.of_nat (length data) < MAX_DB_PER_INODE * FS_BLKSZ.

Lemma number_blocks_spec n ino j idx : 0 <= j -> 4 + 4 * (j + Z.of_nat n) <= Z.of_nat (length ino) -> 0 <= idx -> idx + Z.of_nat n < 2 ^ 31 ->
  exists ino', number_blocks n ino j idx = Ret (ino', idx + Z.of_nat n) /\ frame ino ino' (4 + 4 * j) (4 * Z.of_nat n) /\
    forall k, 0 <= k < Z.of_nat n -> data_block_num ino' (j + k) = idx + k.
Proof.
  revert ino j idx; induction n as [|n IH]; intros ino j idx Hj Hl Hi Hi2; cbn [number_blocks].
  { exists ino. rewrite Z.add_0_r. split; [done|]. split; [apply frame_refl|lia]. }
  destruct (set_u32_spec ino (4 + 4 * j) idx) as (i1 & -> & F1 & N1); [lia|lia|lia|]. cbn [obind].
  rewrite i32_small by lia. destruct (IH i1 (j + 1) (idx + 1)) as (i2 & -> & F2 & N2); [lia|rewrite (fm_length _ _ _ _ F1); lia|lia|lia|].
  exists i2. split; [do 2 f_equal; lia|]. split; [eapply frame_trans; [exact F1|exact F2|lia..]|].
  intros k Hk. destruct (Z.eq_dec k 0) as [->|Hk0].
  - rewrite !Z.add_0_r. rewrite <- N1. unfold data_block_num. change (u32_at i2 ?o) with (le_decode (field i2 o 4)).
    rewrite (fm_field _ _ _ _ F2) by lia. done.
  - replace (j + k) with (j + 1 + (k - 1)) by lia. rewrite N2 by lia. lia.
Qed.

(** An inode for [data] whose blocks are numbered from [start] on. *)
Record inode_for (ino data : list Z) (start : Z) : Prop := {
  if_length : length ino = BLK;
  if_bytes : bytes_ok ino;
  if_len : byte_len ino = Z.of_nat (length data);
  if_blocks k : 0 <= k < nblocks data -> data_block_num ino k = start + k;
}.

Lemma nblocks_range data : data_ok data -> 1 <= nblocks data <= MAX_DB_PER_INODE.
Proof.
  intros [_ H]. unfold nblocks, MAX_DB_PER_INODE, FS_BLKSZ in *. Z.to_euclidean_division_equations. lia.
Qed.

(** How the second loop numbers the blocks. *)
Fixpoint numbered (files : list (list Z)) (idx : Z) : Z :=
  match files with [] => idx | d :: files => numbered files (idx + nblocks d) end.

Lemma numbered_ge files idx : idx <= numbered files idx.
Proof.
  revert idx; induction files as [|d files IH]; intros idx; cbn [numbered]; [lia|]. specialize (IH (idx + nblocks d)).
  unfold nblocks, FS_BLKSZ in *. assert (0 <= Z.of_nat (length d) / 4096) by (apply Z.div_pos; lia). lia.
Qed.

Lemma add_inodes_spec files junk idx : length junk = length files -> Forall (fun i => length i = BLK /\ bytes_ok i) junk ->
  Forall data_ok files -> 0 <= idx -> numbered files idx < 2 ^ 31 ->
  exists inodes, add_inodes junk (Some <$> files) idx = Ret (inodes, numbered files idx) /\ length inodes = length files /\
    forall i d, files !! i = Some d -> exists ino, inodes !! i = Some ino /\ inode_for ino d (numbered (take i files) idx).
Proof.
  intros Hl Hj Hf. revert junk idx Hl Hj; induction Hf as [|d files Hd Hf IH]; intros junk idx Hl Hj Hi Hn.
  { exists []. split; [done|]. split; [done|]. intros i d Hd. by rewrite lookup_nil in Hd. }
  destruct junk as [|ino junk]; [done|]. apply Forall_cons in Hj as [[Hlb Hib] Hj]. cbn [fmap list_fmap add_inodes numbered] in *.
  pose proof (nblocks_range d Hd) as Hnb. pose proof (numbered_ge files (idx + nblocks d)) as Hge. destruct Hd as [Hdb Hdl].
  rewrite i32_small by (unfold MAX_DB_PER_INODE, FS_BLKSZ in *; lia). rewrite Z.quot_div_nonneg by (unfold FS_BLKSZ; lia).
  fold (nblocks d). unfold MAX_DB_PER_INODE in *.
  destruct (number_blocks_spec (Z.to_nat (nblocks d)) ino 0 idx) as (i1 & -> & F1 & N1); [lia|rewrite Hlb; blk_lia|lia|lia|]. cbn [obind].
  rewrite Z2Nat.id in * by lia.
  assert (L1 : length i1 = BLK) by (rewrite (fm_length _ _ _ _ F1); done).
  destruct (set_u32_spec i1 0 (Z.of_nat (length d))) as (i2 & -> & F2 & N2); [lia|rewrite L1; blk_lia|unfold FS_BLKSZ in *; lia|]. cbn [obind].
  destruct (IH junk (idx + nblocks d)) as (inodes & -> & Hli & HI); [by injection Hl|done|lia|lia|].
  exists (i2 :: inodes). cbn [obind length]. split; [done|]. split; [by f_equal|].
  intros [|i] q Hq; cbn [lookup list_lookup take numbered] in *; [|by apply HI].
  injection Hq as <-. exists i2. split; [done|]. constructor; [rewrite (fm_length _ _ _ _ F2); done|apply F2, F1, Hib|exact N2|].
  intros k Hk. rewrite <- (N1 k) by lia. unfold data_block_num. change (u32_at ?l ?o) with (le_decode (field l o 4)).
  rewrite (fm_field _ _ _ _ F2) by lia. done.
Qed.

(** * The data blocks *)

Definition block_ok (b : list Z) : Prop := length b = BLK /\ bytes_ok b.

Lemma copy_blocks_spec fuel buf data : block_ok buf -> bytes_ok data -> (length data <= fuel)%nat ->
  let l := copy_blocks fuel buf data in
  Forall block_ok l /\ take (length data) (concat l) = data /\
  Z.of_nat (length l) = (Z.of_nat (length data) + FS_BLKSZ - 1) / FS_BLKSZ.
Proof.
  revert buf data; induction fuel as [|fuel IH]; intros buf data Hb Hd Hf; cbn [copy_blocks].
  { destruct data; [done|cbn in Hf; lia]. }
  destruct data as [|c r] eqn:E; [done|]. rewrite <- E in *. set (b := splice buf 0 (take BLK data)).
  assert (Hlt : (length (take BLK data) <= BLK)%nat) by (rewrite length_take; lia).
  assert (Hbb : block_ok b).
  { destruct Hb as [Hl Hby]. split; [unfold b; rewrite length_splice; rewrite Hl; lia|]. apply bytes_ok_splice; auto with kern. }
  destruct (IH b (drop BLK data)) as (HF & HT & HL); [done|by auto with kern| |].
  { rewrite length_drop. assert (1 <= length data)%nat by (rewrite E; cbn; lia). blk_lia. }
  rewrite length_drop in HT, HL. cbn [length concat]. split; [by constructor|]. split.
  - assert (Hpre : take (length (take BLK data)) b = take BLK data) by (apply take_splice_0; rewrite (proj1 Hb); lia).
    rewrite length_take in Hpre. destruct (decide (BLK <= length data)%nat) as [Hle|Hgt].
    + rewrite Nat.min_l in Hpre by done. rewrite take_ge in Hpre by (rewrite (proj1 Hbb); lia).
      replace (length data) with (length b + (length data - BLK))%nat at 1 by (rewrite (proj1 Hbb); lia).
      rewrite take_app_add, HT, Hpre. apply take_drop.
    + rewrite Nat.min_r in Hpre by lia. rewrite take_app_le by (rewrite (proj1 Hbb); lia). rewrite Hpre. apply take_ge. lia.
  - rewrite Nat2Z.inj_succ, HL. pose proof BLK_Z. unfold FS_BLKSZ in *. assert (1 <= length data)%nat by (rewrite E; cbn; lia).
    Z.to_euclidean_division_equations. lia.
Qed.

Lemma file_blocks_spec data : bytes_ok data ->
  Forall block_ok (file_blocks data) /\ take (length data) (concat (file_blocks data)) = data /\
  Z.of_nat (length (file_blocks data)) = (Z.of_nat (length data) + FS_BLKSZ - 1) / FS_BLKSZ.
Proof.
  intros Hd. apply copy_blocks_spec; [|done|done]. split; [apply length_replicate|]. apply Forall_replicate. lia.
Qed.

(** A file whose length is not a multiple of the block size gets as many blocks
    as it was given numbers. *)
Definition fits_blocks (data : list Z) : Prop := Z.of_nat (length data) mod FS_BLKSZ <> 0.

Lemma file_blocks_count data : bytes_ok data -> fits_blocks data -> Z.of_nat (length (file_blocks data)) = nblocks data.
Proof.
  intros Hd Hf. rewrite (proj2 (proj2 (file_blocks_spec data Hd))). unfold fits_blocks, nblocks, FS_BLKSZ in *.
  Z.to_euclidean_division_equations. lia.
Qed.

Lemma numbered_blocks files idx : Forall data_ok files -> Forall fits_blocks files ->
  numbered files idx = idx + Z.of_nat (length (concat (file_blocks <$> files))).
Proof.
  intros Hd Hf. revert idx; induction files as [|d files IH]; intros idx; cbn [numbered fmap list_fmap concat length]; [lia|].
  apply Forall_cons in Hd as [Hd1 Hd], Hf as [Hf1 Hf]. rewrite IH, <- file_blocks_count by (done || apply Hd1). rewrite length_app. lia.
Qed.

Lemma concat_lookup_part {A} (l : list (list A)) i x k y : l !! i = Some x -> x !! k = Some y ->
  concat l !! (length (concat (take i l)) + k)%nat = Some y.
Proof.
  revert i; induction l as [|a l IH]; intros [|i]; cbn [lookup list_lookup take concat length]; try done.
  - intros [= ->] Hk. rewrite lookup_app_l by by eapply lookup_lt_Some. done.
  - intros Hi Hk. rewrite length_app, <- Nat.add_assoc, lookup_app_r by lia. replace (_ - _)%nat with (length (concat (take i l)) + k)%nat by lia.
    by apply IH.
Qed.

(** * The image *)

(** The blocks of an image made from the files [args] (path and contents). *)
Record layout (boot : list Z) (inodes : list (list Z)) (args : list (list Z * list Z)) : Prop := {
  ly_boot : block_ok boot;
  ly_inodes : length inodes = length args;
  ly_num_dentry : num_dentry boot = Z.of_nat (length args);
  ly_num_inodes : num_inodes boot = Z.of_nat (length args);
  ly_num_data : num_data boot = Z.of_nat (length (concat (file_blocks <$> args.*2)));
  ly_dentry i p d : args !! i = Some (p, d) ->
    dentry_name boot (Z.of_nat i) = padded (shortname p) /\ dentry_inode boot (Z.of_nat i) = Z.of_nat i;
  ly_inode i p d : args !! i = Some (p, d) ->
    exists ino, inodes !! i = Some ino /\ inode_for ino d (Z.of_nat (length (concat (file_blocks <$> take i args.*2))));
}.
Definition image (boot : list Z) (inodes : list (list Z)) (args : list (list Z * list Z)) : list (list Z) :=
  boot :: inodes ++ concat (file_blocks <$> args.*2).

(** The files: few enough, with distinct names, and together less than 2 GB. *)
Definition key_of (p : list Z) : option (list Z) := cprefix (Z.to_nat FS_NAMELEN) (shortname p ++ [0]).
Record files_ok (args : list (list Z * list Z)) : Prop := {
  fo_names : Forall name_ok args.*1;
  fo_data : Forall data_ok args.*2;
  fo_blocks : Forall fits_blocks args.*2;
  fo_count : Z.of_nat (length args) <= MAX_DENTRY_NUM;
  fo_distinct : NoDup (key_of <$> args.*1);
  fo_size : FS_BLKSZ * (1 + Z.of_nat (length args) + numbered args.*2 0) < 2 ^ 31;
}.

Definition with_data (args : list (list Z * list Z)) : list (list Z * option (list Z)) :=
  (fun pd => (pd.1, Some pd.2)) <$> args.
Lemma with_data_fst args : (with_data args).*1 = args.*1.
Proof. unfold with_data. rewrite <- list_fmap_compose. done. Qed.
Lemma with_data_snd args : (with_data args).*2 = Some <$> args.*2.
Proof. unfold with_data. rewrite <- !list_fmap_compose. done. Qed.

Lemma mkfs_layout junk args : files_ok args -> length junk = length args -> Forall block_ok junk ->
  exists boot inodes, mkfs junk (with_data args) = Ret (concat (image boot inodes args)) /\ layout boot inodes args.
Proof.
  intros [Hn Hd Hf Hc _ Hs] Hj Hjo. unfold mkfs. rewrite with_data_fst, with_data_snd.
  destruct (add_dentries_spec args.*1 (replicate BLK 0) 0) as (b0 & -> & F0 & D0); [rewrite length_replicate; apply BLK_Z|lia|by rewrite length_fmap|done|].
  cbn [obind]. pose proof (numbered_ge args.*2 0) as Hge.
  destruct (add_inodes_spec args.*2 junk 0) as (inodes & -> & Hli & HI); [by rewrite length_fmap|done|done|lia|unfold FS_BLKSZ in *; lia|].
  cbn [obind]. rewrite length_fmap in Hli. rewrite length_fmap, Z.add_0_l in *. unfold FS_BLKSZ, MAX_DENTRY_NUM in *. pose proof BLK_Z as HB. unfold FS_BLKSZ in HB.
  assert (L0 : length b0 = BLK) by (rewrite (fm_length _ _ _ _ F0); apply length_replicate).
  destruct (set_u32_spec b0 0 (Z.of_nat (length args))) as (b1 & -> & F1 & N1); [lia|lia|lia|].
  assert (L1 : length b1 = BLK) by (rewrite (fm_length _ _ _ _ F1); done). cbn [obind].
  destruct (set_u32_spec b1 4 (Z.of_nat (length args))) as (b2 & -> & F2 & N2); [lia|lia|lia|].
  assert (L2 : length b2 = BLK) by (rewrite (fm_length _ _ _ _ F2); done). cbn [obind].
  destruct (set_u32_spec b2 8 (numbered args.*2 0)) as (b3 & -> & F3 & N3); [lia|lia|lia|].
  assert (L3 : length b3 = BLK) by (rewrite (fm_length _ _ _ _ F3); done). cbn [obind].
  exists b3, inodes.
  assert (Ed : default [] <$> (Some <$> args.*2) = args.*2) by (rewrite <- list_fmap_compose; apply list_fmap_id).
  rewrite Ed. split; [unfold image; cbn [concat]; by rewrite concat_app|].
  assert (F13 : frame b0 b3 0 12) by (eapply frame_trans; [eapply (frame_trans _ _ _ 0 8); [exact F1|exact F2|lia..]|exact F3|lia..]).
  constructor.
  - split; [done|]. apply F13, F0. apply Forall_replicate. lia.
  - done.
  - rewrite <- N1. unfold num_dentry. change (u32_at ?l ?o) with (le_decode (field l o 4)).
    rewrite (fm_field _ _ _ _ F3), (fm_field _ _ _ _ F2) by lia. done.
  - rewrite <- N2. unfold num_inodes. change (u32_at ?l ?o) with (le_decode (field l o 4)). rewrite (fm_field _ _ _ _ F3) by lia. done.
  - unfold num_data. rewrite N3, numbered_blocks by done. done.
  - intros i p d Hi. assert (i < length args)%nat by by eapply lookup_lt_Some.
    destruct (D0 i p) as [Dn Di]; [by rewrite list_lookup_fmap, Hi|]. rewrite Z.add_0_l in Dn, Di. unfold dentry_inode in *.
    change (u32_at ?l ?o) with (le_decode (field l o 4)) in *. change (dentry_name ?b ?k) with (field b (dentry_off k) 32) in *.
    unfold dentry_off in *. rewrite !(fm_field _ _ _ _ F13) by lia. done.
  - intros i p d Hi. destruct (HI i d) as (ino & Hin & Hfor); [by rewrite list_lookup_fmap, Hi|].
    exists ino. split; [done|]. rewrite numbered_blocks in Hfor by (by apply Forall_take). exact Hfor.
Qed.

Lemma cprefix_padded n m s : (n <= m)%nat -> cprefix n (take n (s ++ replicate m 0)) = cprefix n (s ++ [0]).
Proof.
  revert m s; induction n as [|n IH]; intros m s Hm; [done|]. destruct s as [|c s].
  - destruct m as [|m]; [lia|]. done.
  - cbn [app take cprefix]. destruct (c =? 0); [done|]. by rewrite IH by lia.
Qed.

Section Layout.
Context (boot : list Z) (inodes : list (list Z)) (args : list (list Z * list Z)).
Context (Hly : layout boot inodes args) (Hok : files_ok args).
Local Notation img := (concat (image boot inodes args)).
Local Notation data := (concat (file_blocks <$> args.*2)).

Lemma args_lookup i : (i < length args)%nat -> exists p d, args !! i = Some (p, d).
Proof. intros [[p d] Hi]%lookup_lt_is_Some_2. eauto. Qed.

Lemma data_at i p d : args !! i = Some (p, d) -> data_ok d /\ fits_blocks d.
Proof.
  intros Hi. assert (Hd : args.*2 !! i = Some d) by (by rewrite list_lookup_fmap, Hi).
  split; eapply Forall_lookup_1; [apply (fo_data _ Hok)|done|apply (fo_blocks _ Hok)|done].
Qed.

Lemma image_blocks : Forall block_ok (image boot inodes args).
Proof.
  constructor; [apply Hly|]. apply Forall_app. split.
  - apply Forall_lookup. intros i ino Hi. assert (Hl : (i < length args)%nat) by (rewrite <- (ly_inodes _ _ _ Hly); by eapply lookup_lt_Some).
    destruct (args_lookup i Hl) as (p & d & Ha). destruct (ly_inode _ _ _ Hly i p d Ha) as (ino' & Hi' & [H1 H2 _ _]).
    rewrite Hi in Hi'. injection Hi' as <-. done.
  - apply Forall_concat, Forall_fmap. eapply Forall_impl; [apply (fo_data _ Hok)|]. intros d [Hd _]. by apply file_blocks_spec.
Qed.

Lemma blk_image k b : image boot inodes args !! k = Some b -> blk img (Z.of_nat k) = b.
Proof.
  intros Hk. unfold blk. rewrite <- BLK_mul, Nat2Z.id by lia. apply concat_lookup_block; [|done].
  eapply Forall_impl; [apply image_blocks|]. by intros x [].
Qed.

Lemma boot_image : boot_of img = boot.
Proof. by apply (blk_image 0). Qed.

Lemma inode_image i p d : args !! i = Some (p, d) ->
  inode_for (inode_of img (Z.of_nat i)) d (Z.of_nat (length (concat (file_blocks <$> take i args.*2)))).
Proof.
  intros Hi. destruct (ly_inode _ _ _ Hly i p d Hi) as (ino & Hin & Hf). unfold inode_of.
  replace (1 + Z.of_nat i) with (Z.of_nat (S i)) by lia. rewrite (blk_image (S i) ino); [done|].
  cbn. by apply lookup_app_l_Some.
Qed.

Lemma data_image k b : data !! k = Some b -> data_of img (Z.of_nat k) = b.
Proof.
  intros Hk. unfold data_of, data_pos. rewrite boot_image, (ly_num_inodes _ _ _ Hly).
  replace (1 + Z.of_nat (length args) + Z.of_nat k) with (Z.of_nat (S (length inodes + k))) by (rewrite (ly_inodes _ _ _ Hly); lia).
  apply blk_image. change ((inodes ++ data) !! (length inodes + k)%nat = Some b). rewrite lookup_app_r by lia. by replace (length inodes + k - length inodes)%nat with k by lia.
Qed.

Lemma allocated_image i p d : args !! i = Some (p, d) -> allocated (inode_of img (Z.of_nat i)) = nblocks d.
Proof.
  intros Hi. destruct (data_at i p d Hi) as [[_ Hl] Hf]. unfold allocated. rewrite (if_len _ _ _ (inode_image i p d Hi)).
  unfold MAX_DB_PER_INODE, fits_blocks, nblocks, FS_BLKSZ in *. rewrite u32_small by lia. Z.to_euclidean_division_equations. lia.
Qed.

(** The blocks of a file, in order. *)
Lemma space_image i p d : args !! i = Some (p, d) -> data_of img <$> block_nums (inode_of img (Z.of_nat i)) = file_blocks d.
Proof.
  intros Hi. destruct (data_at i p d Hi) as [[Hb Hl] Hf]. pose proof (inode_image i p d Hi) as [_ _ _ HN].
  unfold block_nums. rewrite (allocated_image i p d Hi), <- (file_blocks_count d Hb Hf).
  apply list_eq. intros k. rewrite !list_lookup_fmap. destruct (file_blocks d !! k) as [b|] eqn:Ek.
  - assert (k < length (file_blocks d))%nat by by eapply lookup_lt_Some. rewrite lookup_seqZ_lt by lia. cbn.
    rewrite HN by (rewrite <- file_blocks_count by done; lia). rewrite Z.add_0_l, <- Nat2Z.inj_add. f_equal. apply data_image.
    rewrite fmap_take. eapply concat_lookup_part; [|done]. by rewrite list_lookup_fmap, list_lookup_fmap, Hi.
  - apply lookup_ge_None in Ek. rewrite lookup_seqZ_ge by lia. done.
Qed.

Lemma content_image i p d : args !! i = Some (p, d) -> content img (Z.of_nat i) = d.
Proof.
  intros Hi. destruct (data_at i p d Hi) as [[Hb _] _]. unfold content, file_space. rewrite (space_image i p d Hi).
  rewrite (if_len _ _ _ (inode_image i p d Hi)), Nat2Z.id. by apply file_blocks_spec.
Qed.

Lemma image_length : Z.of_nat (length img) = FS_BLKSZ * (1 + Z.of_nat (length args) + Z.of_nat (length data)).
Proof.
  rewrite (length_concat_block _ BLK) by (eapply Forall_impl; [apply image_blocks|]; by intros x []).
  unfold image. cbn [length]. rewrite length_app, (ly_inodes _ _ _ Hly). pose proof BLK_Z. lia.
Qed.

Lemma nums_image i p d : args !! i = Some (p, d) -> Forall (fun j => j < num_data boot) (block_nums (inode_of img (Z.of_nat i))).
Proof.
  intros Hi. destruct (data_at i p d Hi) as [[Hb Hl] Hf]. rewrite (ly_num_data _ _ _ Hly).
  unfold block_nums. rewrite (allocated_image i p d Hi). apply Forall_fmap, Forall_forall. intros k [Hk0 Hk]%elem_of_seqZ.
  cbn. rewrite (if_blocks _ _ _ (inode_image i p d Hi)) by lia. rewrite <- file_blocks_count in Hk by done.
  destruct (lookup_lt_is_Some_2 (file_blocks d) (Z.to_nat k)) as [b Hkb]; [lia|].
  assert (Hs : data !! (length (concat (file_blocks <$> take i args.*2)) + Z.to_nat k)%nat = Some b).
  { rewrite fmap_take. eapply concat_lookup_part; [|done]. by rewrite list_lookup_fmap, list_lookup_fmap, Hi. }
  apply lookup_lt_Some in Hs. lia.
Qed.

Lemma image_ok : img_ok img /\ inodes_ok img.
Proof.
  assert (Hn : num_inodes (boot_of img) = Z.of_nat (length args)) by (rewrite boot_image; apply Hly).
  assert (Hi : forall i, 0 <= i < num_inodes (boot_of img) -> exists p d, args !! Z.to_nat i = Some (p, d) /\ i = Z.of_nat (Z.to_nat i)).
  { intros i Hr. destruct (args_lookup (Z.to_nat i)) as (p & d & Ha); [lia|]. exists p, d. split; [done|lia]. }
  split; [constructor|].
  - apply Forall_concat. eapply Forall_impl; [apply image_blocks|]. by intros x [].
  - rewrite image_length, Hn, boot_image, (ly_num_data _ _ _ Hly). split; [done|].
    pose proof (fo_size _ Hok) as Hs. rewrite numbered_blocks in Hs by apply Hok. exact Hs.
  - rewrite boot_image, (ly_num_dentry _ _ _ Hly). apply Hok.
  - intros i Hr. destruct (Hi i Hr) as (p & d & Ha & ->). rewrite (if_len _ _ _ (inode_image _ p d Ha)).
    destruct (data_at _ _ _ Ha) as [[_ Hl] _]. lia.
  - intros i Hr. destruct (Hi i Hr) as (p & d & Ha & ->). rewrite boot_image. by eapply nums_image.
  - intros i Hr. rewrite boot_image, (ly_num_dentry _ _ _ Hly) in Hr. rewrite Hn, boot_image.
    destruct (args_lookup (Z.to_nat i)) as (p & d & Ha); [lia|]. replace i with (Z.of_nat (Z.to_nat i)) at 1 2 by lia.
    destruct (ly_dentry _ _ _ Hly _ _ _ Ha) as [_ ->]. lia.
Qed.

Lemma dir_find_first b key i n i0 : 0 <= i0 <= i -> i < i0 + Z.of_nat n ->
  cprefix (Z.to_nat FS_NAMELEN) (dentry_name b i) = Some key ->
  (forall j, 0 <= j < i -> cprefix (Z.to_nat FS_NAMELEN) (dentry_name b j) <> Some key) ->
  dir_find n b key i0 = Some (dentry_inode b i).
Proof.
  intros H0 Hn Hi Hj. revert i0 H0 Hn; induction n as [|n IH]; intros i0 H0 Hn; [lia|]. cbn [dir_find].
  destruct (Z.eq_dec i0 i) as [->|Hne]; [by rewrite decide_True|]. rewrite decide_False by (apply Hj; lia). apply IH; lia.
Qed.

Lemma lookup_image i p d key : args !! i = Some (p, d) -> key_of p = Some key -> dir_lookup img key = Some (Z.of_nat i).
Proof.
  intros Hi Hk. unfold dir_lookup. rewrite boot_image, (ly_num_dentry _ _ _ Hly). assert (i < length args)%nat by by eapply lookup_lt_Some.
  assert (Hname : forall j q e, args !! j = Some (q, e) -> cprefix (Z.to_nat FS_NAMELEN) (dentry_name boot (Z.of_nat j)) = key_of q).
  { intros j q e Hj. rewrite (proj1 (ly_dentry _ _ _ Hly j q e Hj)). by apply cprefix_padded. }
  rewrite (dir_find_first boot key (Z.of_nat i)); [f_equal; by eapply (ly_dentry _ _ _ Hly)|lia|lia|by rewrite (Hname i p d Hi)|].
  intros j Hj. destruct (args_lookup (Z.to_nat j)) as (q & e & Hq); [lia|]. replace j with (Z.of_nat (Z.to_nat j)) by lia.
  rewrite (Hname _ q e Hq). intros E. assert (Z.to_nat j = i); [|lia]. eapply NoDup_lookup; [apply (fo_distinct _ Hok)| |].
  - by rewrite list_lookup_fmap, list_lookup_fmap, Hq.
  - rewrite list_lookup_fmap, list_lookup_fmap, Hi. cbn. congruence.
Qed.
End Layout.

(** * Properties *)

Lemma mkfs_spec junk args :
  files_ok args -> length junk = length args -> Forall block_ok junk ->
  exists img, mkfs junk (with_data args) = Ret img /\ img_ok img /\ inodes_ok img /\
    forall i p d key, args !! i = Some (p, d) -> key_of p = Some key ->
      dir_lookup img key = Some (Z.of_nat i) /\ content img (Z.of_nat i) = d.
Proof.
  intros Hok Hj Hjo. destruct (mkfs_layout junk args Hok Hj Hjo) as (boot & inodes & E & Hly).
  destruct (image_ok boot inodes args Hly Hok) as [H1 H2]. eexists. split; [exact E|]. split; [exact H1|]. split; [exact H2|].
  intros i p d key Hi Hk. split; [by eapply lookup_image|by eapply content_image].
Qed.


Module MkfsDemo.
Definition args : list (list Z * list Z) := [(chars "user/bin/init", [1; 2; 3]); (chars "../user/bin/sh", replicate 5 7)].
Definition junk : list (list Z) := replicate 2 (replicate BLK 9).
Lemma args_ok : files_ok args.
Proof.
  constructor.
  - do 2 (apply Forall_cons; split; [split; [apply bytes_ok_forallb|]; vm_compute; reflexivity|]). constructor.
  - do 2 (apply Forall_cons; split; [split; [apply bytes_ok_forallb|]; vm_compute; reflexivity|]). constructor.
  - repeat constructor; vm_compute; discriminate.
  - vm_compute. discriminate.
  - apply (bool_decide_unpack _). vm_compute. exact I.
  - vm_compute. reflexivity.
Qed.
Lemma junk_ok : Forall block_ok junk.
Proof. apply Forall_replicate. split; [apply length_replicate|]. apply Forall_replicate. lia. Qed.

(** A file of exactly one block, and one behind it. *)
Definition args' : list (list Z * list Z) := [(chars "a", replicate 4096 5); (chars "b", [1; 2; 3])].
End MkfsDemo.


(** A file whose length is a multiple of the block size is given one number
    more than it has blocks, so every file behind it is looked for one block too
    far: here beyond the end of the image. *)
Example mkfs_block_multiple :
  match mkfs MkfsDemo.junk (with_data MkfsDemo.args') with
  | Ret img => num_data (boot_of img) = 3 /\ Z.of_nat (length img) = 5 * FS_BLKSZ /\
      data_block_num (inode_of img 1) 0 = 2 /\ take 3 (data_of img 1) = [1; 2; 3] /\ content img 1 = []
  | _ => False
  end.
Proof. vm_compute. repeat split. Qed.
