(* ===== verification/Elf.v ===== *)
(** The program loader (src/src/kern/elf.c).

    The file is any I/O object, the memory any user memory ([UserMem]); the
    headers are kept as the bytes of the structures with accessors for their
    fields.  What the loader needs of a file, seeking and complete reads, is the
    class [IoFile]; I/O literals and open files of kfs.c are such files. *)

From Stdlib Require Import Ascii String.
From S2P Require Import Prelude KString IoIntf IoLit Memory PageTable VmOps UserMem Kfs KfsFiles.
From stdpp Require Import gmap list.
#[local] Open Scope Z_scope.

Definition ELFMAG0 : Z := 0x7f.
Definition ELFMAG1 : Z := 69.
Definition ELFMAG2 : Z := 76.
Definition ELFMAG3 : Z := 70.
Definition ELFDATA2LSB : Z := 1.
Definition ET_EXEC : Z := 2.
Definition EM_RISCV : Z := 243.
Definition PT_LOAD : Z := 1.
Definition PF_X : Z := 1.
Definition PF_W : Z := 2.
Definition PF_R : Z := 4.

(** A little-endian field of [n] bytes at an offset. *)
Definition le_at (l : list Z) (off : Z) (n : nat) : Z := le_decode (take n (drop (Z.to_nat off) l)).

(** [Elf64_Ehdr] *)
Definition SIZEOF_Ehdr : Z := 64.
Definition e_ident (h : list Z) (i : Z) : Z := le_at h i 1.
Definition e_type (h : list Z) : Z := le_at h 16 2.
Definition e_machine (h : list Z) : Z := le_at h 18 2.
Definition e_entry (h : list Z) : Z := le_at h 24 8.
Definition e_phoff (h : list Z) : Z := le_at h 32 8.
Definition e_phnum (h : list Z) : Z := le_at h 56 2.

(** [Elf64_Phdr] *)
Definition SIZEOF_Phdr : Z := 56.
Definition p_type (p : list Z) : Z := le_at p 0 4.
Definition p_flags (p : list Z) : Z := le_at p 4 4.
Definition p_offset (p : list Z) : Z := le_at p 8 8.
Definition p_vaddr (p : list Z) : Z := le_at p 16 8.
Definition p_filesz (p : list Z) : Z := le_at p 32 8.
Definition p_memsz (p : list Z) : Z := le_at p 40 8.

Definition verify_elf_header (h : list Z) : Z :=
  if negb (e_ident h 0 =? ELFMAG0) || negb (e_ident h 1 =? ELFMAG1) || negb (e_ident h 2 =? ELFMAG2) || negb (e_ident h 3 =? ELFMAG3)
  then - EINVAL
  else if negb (e_ident h 5 =? ELFDATA2LSB) then - EINVAL
  else if negb (e_machine h =? EM_RISCV) then - EINVAL
  else if negb (e_type h =? ET_EXEC) then - EINVAL
  else if (e_phoff h =? 0) || (e_phnum h =? 0) then - EINVAL
  else 0.

(** The permissions of a segment. *)
Definition seg_perms (flags : Z) : Z :=
  let perms := PTE_U in
  let perms := if Z.land flags PF_X =? 0 then perms else Z.lor perms PTE_X in
  let perms := if Z.land flags PF_W =? 0 then perms else Z.lor perms PTE_W in
  if Z.land flags PF_R =? 0 then perms else Z.lor perms PTE_R.

Section Loader.
Context {S M : Type} (ops : io_ops S) `{UserMem M}.

(** [ioread(io, &x, n) != n] for a local structure: its bytes, or [None]. *)
Definition read_struct (s : S) (n : Z) : outcome (S * option (list Z)) :=
  let! (s, cnt, bs) := ioread ops s n in
  if negb (cnt =? n) then Ret (s, None)
  else guard! Z.of_nat (length bs) =? n in Ret (s, Some bs).

(** [ioread_full] with the buffer in user memory at [addr]. *)
Fixpoint load_loop (fuel : nat) (read : S -> Z -> outcome (S * Z * list Z)) (s : S) (m : M) (addr n acc : Z) : outcome (S * M * Z) :=
  if acc <? n then
    match fuel with
    | O => NoFuel
    | Datatypes.S fuel =>
        let! (s, cnt, bs) := read s (n - acc) in
        let! m := um_store m (u64 (addr + acc)) bs in
        if cnt <? 0 then Ret (s, m, cnt)
        else if cnt =? 0 then Ret (s, m, acc)
        else load_loop fuel read s m addr n (acc + cnt)
    end
  else Ret (s, m, acc).
Definition load_full (s : S) (m : M) (addr n : Z) : outcome (S * M * Z) :=
  match op_read ops with
  | None => Ret (s, m, - ENOTSUP)
  | Some read => load_loop (Datatypes.S (Z.to_nat n)) read s m addr n 0
  end.

(** The part of the loop body after the test for [PT_LOAD]; a negative result
    is returned by [elf_load]. *)
Definition load_segment (s : S) (m : M) (ph : list Z) : outcome (S * M * Z) :=
  if (p_vaddr ph <? USER_START_VMA) || (USER_END_VMA <? u64 (p_vaddr ph + p_memsz ph)) then Ret (s, m, - EINVAL)
  else
    let! (s, r) := ioseek ops s (p_offset ph) in
    if r <? 0 then Ret (s, m, - EIO)
    else
      let load_addr := p_vaddr ph in
      let! (m, vp) := um_map m (p_vaddr ph) (p_memsz ph) (Z.lor (Z.lor PTE_U PTE_R) PTE_W) in
      if vp =? 0 then Ret (s, m, - EBUSY)
      else
        let! (s, m, bytes_read) := load_full s m load_addr (p_filesz ph) in
        if negb (u64 bytes_read =? p_filesz ph) then Ret (s, m, - EIO)
        else
          let! m :=
            if p_filesz ph <? p_memsz ph
            then um_store m (u64 (load_addr + p_filesz ph)) (replicate (Z.to_nat (p_memsz ph - p_filesz ph)) 0)
            else Ret m in
          let! m := um_protect m load_addr (p_memsz ph) (seg_perms (p_flags ph)) in
          Ret (s, m, 0).

(** The loop over the program headers from [i] on. *)
Fixpoint load_phdrs (n : nat) (s : S) (m : M) (phoff i : Z) : outcome (S * M * Z) :=
  match n with
  | O => Ret (s, m, 0)
  | Datatypes.S n =>
      let! (s, r) := ioseek ops s (u64 (phoff + i * SIZEOF_Phdr)) in
      if r <? 0 then Ret (s, m, - EIO)
      else
        let! (s, ph) := read_struct s SIZEOF_Phdr in
        match ph with
        | None => Ret (s, m, - EIO)
        | Some ph =>
            if negb (p_type ph =? PT_LOAD) then load_phdrs n s m phoff (i + 1)
            else
              let! (s, m, r) := load_segment s m ph in
              if r <? 0 then Ret (s, m, r) else load_phdrs n s m phoff (i + 1)
        end
  end.

(** The result, and what [*entryptr] is set to. *)
Definition elf_load (s : S) (m : M) : outcome (S * M * Z * option Z) :=
  let! (s, r) := ioseek ops s 0 in
  if r <? 0 then Ret (s, m, - EIO, None)
  else
    let! (s, h) := read_struct s SIZEOF_Ehdr in
    match h with
    | None => Ret (s, m, - EIO, None)
    | Some h =>
        let result := verify_elf_header h in
        if result <? 0 then Ret (s, m, result, None)
        else
          let! (s, m, r) := load_phdrs (Z.to_nat (e_phnum h)) s m (e_phoff h) 0 in
          Ret (s, m, r, Some (e_entry h))
    end.
End Loader.

(** * Files *)

(** An object on the bytes [data] at position [pos]: seeking inside succeeds,
    and a read is as long as the data allows. *)
Class IoFile {S : Type} (ops : io_ops S) := {
  fl_at : S -> list Z -> Z -> Prop;
  fl_seek : forall s data pos p, fl_at s data pos -> 0 <= p <= Z.of_nat (length data) ->
    exists s' r, ioseek ops s p = Ret (s', r) /\ 0 <= r /\ fl_at s' data p;
  fl_read : forall s data pos n, fl_at s data pos -> 0 < n ->
    let d := take (Z.to_nat n) (drop (Z.to_nat pos) data) in
    exists s' read, op_read ops = Some read /\ read s n = Ret (s', Z.of_nat (length d), d) /\
      fl_at s' data (pos + Z.of_nat (length d));
}.

(** * What a loaded program looks like *)

Definition in_segment (ph : list Z) (a : Z) : bool := (p_vaddr ph <=? a) && (a <? p_vaddr ph + p_memsz ph).
(** The byte and the flags at an address of a segment. *)
Definition segment_view (data ph : list Z) (a : Z) : Z * Z :=
  let o := a - p_vaddr ph in
  (if o <? p_filesz ph then default 0 (data !! Z.to_nat (p_offset ph + o)) else 0, map_flags (seg_perms (p_flags ph))).

(** The program headers of a file, and those to be loaded. *)
Definition elf_header (data : list Z) : list Z := take (Z.to_nat SIZEOF_Ehdr) data.
Definition phdr_at (data : list Z) (phoff i : Z) : list Z := take (Z.to_nat SIZEOF_Phdr) (drop (Z.to_nat (phoff + i * SIZEOF_Phdr)) data).
Definition is_load (ph : list Z) : bool := p_type ph =? PT_LOAD.
Fixpoint load_headers (data : list Z) (n : nat) (phoff i : Z) : list (list Z) :=
  match n with
  | O => []
  | S n => let r := load_headers data n phoff (i + 1) in
           let ph := phdr_at data phoff i in if is_load ph then ph :: r else r
  end.
Definition segments (data : list Z) : list (list Z) :=
  let h := elf_header data in load_headers data (Z.to_nat (e_phnum h)) (e_phoff h) 0.

(** The memory with segments [l] loaded over [old]. *)
Definition loaded (data : list Z) (l : list (list Z)) (old : Z -> option (Z * Z)) (a : Z) : option (Z * Z) :=
  match List.find (fun ph => in_segment ph a) l with Some ph => Some (segment_view data ph a) | None => old a end.

Record segment_ok (data ph : list Z) : Prop := {
  sg_align : p_vaddr ph mod PAGE_SIZE = 0;
  sg_pages : p_memsz ph mod PAGE_SIZE = 0;
  sg_low : USER_START_VMA <= p_vaddr ph;
  sg_high : p_vaddr ph + p_memsz ph <= USER_END_VMA;
  sg_filesz : p_filesz ph <= p_memsz ph;
  sg_data : p_offset ph + p_filesz ph <= Z.of_nat (length data);
  sg_perms : perm_ok (seg_perms (p_flags ph)) = true;
}.
Definition seg_npages (ph : list Z) : nat := Z.to_nat (p_memsz ph / PAGE_SIZE).

Lemma le_at_range l off n : bytes_ok l -> 0 <= le_at l off n < 256 ^ Z.of_nat n.
Proof.
  intros Hl. unfold le_at. assert (Hb : bytes_ok (take n (drop (Z.to_nat off) l))) by auto with kern.
  pose proof (le_decode_range _ Hb) as Hr. split; [lia|]. eapply Z.lt_le_trans; [apply Hr|]. apply Z.pow_le_mono_r; [lia|].
  rewrite length_take. lia.
Qed.

Lemma seg_perms_range f : 0 <= seg_perms f < 256.
Proof. unfold seg_perms. repeat kcase; vm_compute; (split; [discriminate|reflexivity]). Qed.

Section Load.
Context {S M : Type} (ops : io_ops S) `{!IoFile ops} `{UserMemSpec M}.

Definition RWU : Z := Z.lor (Z.lor PTE_U PTE_R) PTE_W.

Lemma load_full_spec s data p (m : M) k addr n : fl_at s data p -> bytes_ok data -> um_ok m k ->
  0 <= n -> 0 <= p -> p + n <= Z.of_nat (length data) -> USER_START_VMA <= addr -> addr + n <= USER_END_VMA ->
  (forall a, addr <= a < addr + n -> exists b f, um_view m a = Some (b, f) /\ has f PTE_W = true) ->
  exists s' m', load_full ops s m addr n = Ret (s', m', n) /\ um_ok m' k /\ fl_at s' data (p + n) /\
    forall a, user_vma a ->
      um_view m' a = if decide (addr <= a < addr + n)
                     then option_map (fun bf => (default 0 (data !! Z.to_nat (p + (a - addr))), bf.2)) (um_view m a) else um_view m a.
Proof.
  intros Hf Hb Hm Hn Hp Hl Hlo Hhi Hw. unfold load_full. destruct (fl_read s data p 1 Hf ltac:(lia)) as (_ & read & Er & _).
  rewrite Er. cbn [load_loop]. destruct (Z.ltb_spec 0 n) as [Hpos|Hz].
  2: { assert (n = 0) as -> by lia. exists s, m. rewrite Z.add_0_r. split_and!; try done. intros a Ha. by rewrite decide_False by lia. }
  destruct (fl_read s data p n Hf Hpos) as (s' & read' & Er' & E & Hf'). rewrite Er in Er'. injection Er' as <-.
  set (d := take (Z.to_nat n) (drop (Z.to_nat p) data)) in *.
  assert (Hd : Z.of_nat (length d) = n) by (unfold d; rewrite length_take, length_drop; lia).
  rewrite Z.sub_0_r, E, Hd. cbn [obind]. rewrite Z.add_0_r, u64_small by (mem_consts; lia).
  destruct (um_store_spec m k addr d) as (m' & -> & Hm' & Hv); [done|unfold d; auto with kern|lia|lia|by rewrite Hd|]. cbn [obind].
  replace (n <? 0) with false by lia. replace (n =? 0) with false by lia. rewrite Z.add_0_l.
  exists s', m'. split; [destruct (Z.to_nat n) as [|f] eqn:En; cbn [load_loop]; by replace (n <? n) with false by lia|].
  split; [done|]. split; [by rewrite <- Hd|]. intros a Ha. rewrite Hv, Hd by done. destruct (decide _) as [Hin|]; [|done].
  unfold d. rewrite lookup_take_lt, lookup_drop by lia. destruct (um_view m a); [|done]. cbn. do 3 f_equal. f_equal. lia.
Qed.

(** The part of a segment beyond the file is cleared. *)
Lemma zero_fill_spec (m : M) k v fs ms : um_ok m k -> 0 <= fs <= ms -> USER_START_VMA <= v -> v + ms <= USER_END_VMA ->
  (forall a, v <= a < v + ms -> exists b f, um_view m a = Some (b, f) /\ has f PTE_W = true) ->
  exists m', (if fs <? ms then um_store m (u64 (v + fs)) (replicate (Z.to_nat (ms - fs)) 0) else Ret m) = Ret m' /\ um_ok m' k /\
    forall a, user_vma a ->
      um_view m' a = if decide (v + fs <= a < v + ms) then option_map (fun bf => (0, bf.2)) (um_view m a) else um_view m a.
Proof.
  intros Hm Hfs Hlo Hhi Hw. destruct (Z.ltb_spec fs ms) as [Hlt|Hge].
  2: { exists m. split; [done|]. split; [done|]. intros a Ha. by rewrite decide_False by lia. }
  rewrite u64_small by (mem_consts; lia). set (z := replicate (Z.to_nat (ms - fs)) 0).
  assert (Hz : Z.of_nat (length z) = ms - fs) by (unfold z; rewrite length_replicate; lia).
  destruct (um_store_spec m k (v + fs) z) as (m' & -> & Hm' & Hv); [done|apply Forall_replicate; lia|lia|lia|intros a Ha; apply Hw; lia|].
  exists m'. split; [done|]. split; [done|]. intros a Ha. rewrite Hv, Hz by done. replace (v + fs + (ms - fs)) with (v + ms) by lia.
  destruct (decide _); [|done]. destruct (um_view m a); [|done]. cbn. do 2 f_equal. unfold z. rewrite lookup_replicate_2 by lia. done.
Qed.

Section Segment.
Context (data ph : list Z) (Hb : bytes_ok data) (Hph : bytes_ok ph) (Hok : segment_ok data ph).

Lemma seg_fields : 0 <= p_vaddr ph /\ 0 <= p_filesz ph /\ 0 <= p_offset ph /\ p_memsz ph = Z.of_nat (seg_npages ph) * PAGE_SIZE.
Proof.
  pose proof (le_at_range ph 16 8 Hph). pose proof (le_at_range ph 32 8 Hph). pose proof (le_at_range ph 8 8 Hph).
  pose proof (le_at_range ph 40 8 Hph) as Hm. fold (p_memsz ph) in Hm. split_and!; [apply H1|apply H2|apply H3|].
  unfold seg_npages. assert (0 <= p_memsz ph / PAGE_SIZE) by (apply Z.div_pos; [lia|done]). rewrite Z2Nat.id by lia.
  pose proof (Z.div_mod (p_memsz ph) PAGE_SIZE ltac:(done)). rewrite (sg_pages _ _ Hok) in *. lia.
Qed.

Lemma load_segment_spec s p (m : M) k : fl_at s data p -> um_ok m (3 * seg_npages ph + k) ->
  (forall a, in_segment ph a = true -> um_view m a = None) ->
  exists s' m' p', load_segment ops s m ph = Ret (s', m', 0) /\ um_ok m' k /\ fl_at s' data p' /\
    forall a, user_vma a -> um_view m' a = if in_segment ph a then Some (segment_view data ph a) else um_view m a.
Proof.
  intros Hf Hm Hun. destruct seg_fields as (Hv0 & Hfs & Hof & Hms). destruct Hok as [Hal _ Hlo Hhi Hfm Hdl Hpm].
  unfold load_segment. rewrite u64_small by (mem_consts; lia).
  replace ((p_vaddr ph <? USER_START_VMA) || (USER_END_VMA <? p_vaddr ph + p_memsz ph)) with false by lia.
  destruct (fl_seek s data p (p_offset ph) Hf) as (s1 & r & -> & Hr & Hf1); [lia|]. cbn [obind]. replace (r <? 0) with false by lia.
  rewrite Hms in *. fold RWU.
  destruct (um_map_spec m k (p_vaddr ph) (seg_npages ph) RWU) as (m1 & -> & Hm1 & Hv1); [done|done|done|done|done|done| |].
  { intros a Ha. apply Hun. unfold in_segment. rewrite Hms. lia. }
  cbn [obind]. replace (p_vaddr ph =? 0) with false by (mem_consts; lia).
  assert (Hwr : forall a, p_vaddr ph <= a < p_vaddr ph + Z.of_nat (seg_npages ph) * PAGE_SIZE ->
    exists b f, um_view m1 a = Some (b, f) /\ has f PTE_W = true).
  { intros a Ha. specialize (Hv1 a ltac:(unfold user_vma; lia)). rewrite decide_True in Hv1 by done. destruct Hv1 as [b ->]. by exists b, (map_flags RWU). }
  destruct (load_full_spec s1 data (p_offset ph) m1 k (p_vaddr ph) (p_filesz ph)) as (s2 & m2 & -> & Hm2 & Hf2 & Hv2);
    [done|done|done|lia|lia|lia|lia|lia|intros a Ha; apply Hwr; lia|]. cbn [obind].
  rewrite u64_small by (mem_consts; lia). rewrite Z.eqb_refl. cbn [negb].
  assert (Hwr2 : forall a, p_vaddr ph <= a < p_vaddr ph + Z.of_nat (seg_npages ph) * PAGE_SIZE ->
    exists b f, um_view m2 a = Some (b, f) /\ has f PTE_W = true).
  { intros a Ha. rewrite Hv2 by (unfold user_vma; lia). destruct (Hwr a Ha) as (b & f & -> & Hf'). destruct (decide _); cbn; eauto. }
  destruct (zero_fill_spec m2 k (p_vaddr ph) (p_filesz ph) (Z.of_nat (seg_npages ph) * PAGE_SIZE)) as (m3 & -> & Hm3 & Hv3);
    [done|lia|lia|lia|done|]. cbn [obind].
  destruct (um_protect_spec m3 k (p_vaddr ph) (seg_npages ph) (seg_perms (p_flags ph))) as (m4 & -> & Hm4 & Hv4);
    [done|done|done|done|apply seg_perms_range|done| |].
  { intros a Ha. rewrite Hv3 by (unfold user_vma; lia). destruct (Hwr2 a Ha) as (b & f & -> & _). destruct (decide _); eauto. }
  cbn [obind]. exists s2, m4, (p_offset ph + p_filesz ph). split; [done|]. split; [done|]. split; [done|]. intros a Ha.
  specialize (Hv1 a Ha). rewrite Hv4, Hv3, Hv2 by done. unfold in_segment. rewrite Hms.
  set (sz := Z.of_nat (seg_npages ph) * PAGE_SIZE) in *.
  destruct (decide (p_vaddr ph <= a < p_vaddr ph + sz)) as [Hin|Hout].
  - destruct Hv1 as [b ->]. replace ((p_vaddr ph <=? a) && (a <? p_vaddr ph + sz)) with true by lia. unfold segment_view.
    destruct (Z.ltb_spec (a - p_vaddr ph) (p_filesz ph)).
    + rewrite decide_False, decide_True by lia. done.
    + rewrite decide_True, decide_False by lia. done.
  - rewrite !decide_False by lia. replace ((p_vaddr ph <=? a) && (a <? p_vaddr ph + sz)) with false by lia. done.
Qed.
End Segment.

(** * The whole file *)

Fixpoint total_pages (l : list (list Z)) : nat :=
  match l with [] => 0 | ph :: l => (seg_npages ph + total_pages l)%nat end.

Fixpoint disjoint_segments (l : list (list Z)) : Prop :=
  match l with
  | [] => True
  | ph :: l => Forall (fun q => forall a, in_segment ph a = true -> in_segment q a = false) l /\ disjoint_segments l
  end.

Lemma read_struct_spec s data p n : fl_at s data p -> 0 < n -> 0 <= p -> p + n <= Z.of_nat (length data) ->
  exists s', read_struct ops s n = Ret (s', Some (take (Z.to_nat n) (drop (Z.to_nat p) data))) /\ fl_at s' data (p + n).
Proof.
  intros Hf Hn Hp Hl. destruct (fl_read s data p n Hf Hn) as (s' & read & Er & E & Hf'). unfold read_struct, ioread. rewrite Er, E. cbn [obind].
  assert (Hd : Z.of_nat (length (take (Z.to_nat n) (drop (Z.to_nat p) data))) = n) by (rewrite length_take, length_drop; lia).
  rewrite Hd in *. rewrite Z.eqb_refl. cbn [negb]. eauto.
Qed.

Lemma in_segment_user data ph a : segment_ok data ph -> in_segment ph a = true -> user_vma a.
Proof. intros Hok. unfold in_segment, user_vma. pose proof (sg_low _ _ Hok). pose proof (sg_high _ _ Hok). intros ?%andb_true_iff. lia. Qed.

Lemma find_disjoint ph l a : Forall (fun q => forall a, in_segment ph a = true -> in_segment q a = false) l ->
  in_segment ph a = true -> List.find (fun q => in_segment q a) l = None.
Proof.
  intros Hd Ha. induction Hd as [|q l Hq Hd IH]; [done|]. cbn. by rewrite (Hq a Ha).
Qed.

Context (data : list Z) (Hb : bytes_ok data) (Hlen : Z.of_nat (length data) < 2 ^ 63).

Lemma phdr_bytes phoff i : bytes_ok (phdr_at data phoff i).
Proof. unfold phdr_at. auto with kern. Qed.

Lemma load_phdrs_spec n s p (m : M) k phoff i : let l := load_headers data n phoff i in
  fl_at s data p -> um_ok m (3 * total_pages l + k) -> 0 <= i -> 0 <= phoff -> phoff + (i + Z.of_nat n) * SIZEOF_Phdr <= Z.of_nat (length data) ->
  Forall (segment_ok data) l -> disjoint_segments l ->
  Forall (fun ph => forall a, in_segment ph a = true -> um_view m a = None) l ->
  exists s' m' p', load_phdrs ops n s m phoff i = Ret (s', m', 0) /\ um_ok m' k /\ fl_at s' data p' /\
    forall a, user_vma a -> um_view m' a = loaded data l (um_view m) a.
Proof.
  cbv zeta. revert s p m k i; induction n as [|n IH]; intros s p m k i Hf Hm Hi Hpo Hl Hok Hdis Hun; cbn [load_headers load_phdrs] in *.
  { exists s, m, p. split_and!; try done. }
  unfold SIZEOF_Phdr in Hl. rewrite u64_small by (unfold SIZEOF_Phdr; lia).
  destruct (fl_seek s data p (phoff + i * SIZEOF_Phdr) Hf) as (s1 & r & -> & Hr & Hf1); [unfold SIZEOF_Phdr; lia|]. cbn [obind].
  replace (r <? 0) with false by lia.
  destruct (read_struct_spec s1 data (phoff + i * SIZEOF_Phdr) SIZEOF_Phdr Hf1) as (s2 & -> & Hf2); [done|unfold SIZEOF_Phdr; lia|unfold SIZEOF_Phdr; lia|].
  cbn [obind]. fold (phdr_at data phoff i). fold (is_load (phdr_at data phoff i)). set (ph := phdr_at data phoff i) in *.
  destruct (is_load ph) eqn:El; cbn [negb].
  2: { eapply IH; [done|done|lia|done|unfold SIZEOF_Phdr; lia|done|done|done]. }
  set (l := load_headers data n phoff (i + 1)) in *. apply Forall_cons in Hok as [Hok1 Hok], Hun as [Hun1 Hun].
  destruct Hdis as [Hd1 Hdis]. cbn [total_pages] in Hm.
  destruct (load_segment_spec data ph Hb (phdr_bytes phoff i) Hok1 s2 _ m (3 * total_pages l + k) Hf2) as (s3 & m1 & p3 & -> & Hm1 & Hf3 & Hv1);
    [by replace (3 * seg_npages ph + (3 * total_pages l + k))%nat with (3 * (seg_npages ph + total_pages l) + k)%nat by lia|done|].
  cbn [obind]. change (0 <? 0) with false. cbn iota.
  destruct (IH s3 p3 m1 k (i + 1)) as (s4 & m2 & p4 & E & Hm2 & Hf4 & Hv2); [done|done|lia|done|unfold SIZEOF_Phdr; lia|done|done| |].
  { apply Forall_forall. intros q Hq a Ha. rewrite Forall_forall in Hok, Hun, Hd1. fold l in Hq.
    rewrite Hv1 by (eapply in_segment_user; [by apply Hok|done]). destruct (in_segment ph a) eqn:Ep; [|by apply (Hun q Hq)].
    rewrite (Hd1 q Hq a Ep) in Ha. done. }
  exists s4, m2, p4. split; [exact E|]. split; [done|]. split; [done|]. intros a Ha. rewrite Hv2 by done. fold l. unfold loaded. cbn [List.find].
  specialize (Hv1 a Ha). destruct (in_segment ph a) eqn:Ep; [by rewrite (find_disjoint ph)|]. by rewrite Hv1.
Qed.
End Load.

(** A loadable file: a valid header, program headers inside, and segments that
    do not overlap. *)
Record elf_ok (data : list Z) : Prop := {
  eo_bytes : bytes_ok data;
  eo_length : SIZEOF_Ehdr <= Z.of_nat (length data) < 2 ^ 63;
  eo_header : verify_elf_header (elf_header data) = 0;
  eo_phdrs : e_phoff (elf_header data) + e_phnum (elf_header data) * SIZEOF_Phdr <= Z.of_nat (length data);
  eo_segments : Forall (segment_ok data) (segments data);
  eo_disjoint : disjoint_segments (segments data);
}.

Lemma verify_cases h : verify_elf_header h = 0 \/ verify_elf_header h = - EINVAL.
Proof. unfold verify_elf_header. repeat kcase; auto. Qed.

(** * Files that can be loaded *)

Definition lit_file_at (lit : io_lit) (data : list Z) (p : Z) : Prop :=
  lit_wf lit /\ lit_data lit = data /\ lit_size lit = Z.of_nat (length data) /\ lit_size lit < 2 ^ 32 /\ lit_pos lit = p.

#[export, program] Instance lit_file : IoFile iolit_ops := { fl_at := lit_file_at }.
Next Obligation.
  intros lit data p q (Hwf & Hd & Hs & Hb & Hp) Hq. exists (set_lit_pos lit q), 0. unfold ioseek. cbn -[u32].
  rewrite u32_small by lia. replace (lit_size lit <? q) with false by lia. split; [done|]. split; [lia|].
  split; [|done]. unfold lit_wf in *. cbn. destruct (lit_buf lit); [|done]. lia.
Qed.
Next Obligation.
  intros lit data p n (Hwf & Hd & Hs & Hb & Hp) Hn. cbv zeta. destruct (iolit_read_wf lit n Hwf Hn) as (k & E & Hk & Hwf').
  assert (Er : lit_rest lit = drop (Z.to_nat p) data) by (unfold lit_rest; rewrite Hd, take_ge, Hp by lia; done).
  assert (Hpr : 0 <= p <= lit_size lit) by (unfold lit_wf in Hwf; destruct (lit_buf lit); [lia|done]).
  assert (Et : take k (drop (Z.to_nat p) data) = take (Z.to_nat n) (drop (Z.to_nat p) data)).
  { destruct (Z.le_gt_cases n (lit_size lit - lit_pos lit)); [f_equal; lia|]. rewrite !take_ge; [done|rewrite length_drop; lia..]. }
  assert (El : length (take (Z.to_nat n) (drop (Z.to_nat p) data)) = k) by (rewrite <- Et, length_take, length_drop; lia).
  eexists _, _. split; [reflexivity|]. rewrite El, <- Et, <- Er. split; [exact E|]. split; [done|]. cbn. by rewrite Hp.
Qed.

Section FsFile.
Context {D : Type} (ops : io_ops D) (hi : Z) `{HR : !ReadDisk ops hi} (io : nat) (img : list Z) (i : Z).

#[export, program] Instance fs_file : IoFile (fs_io_ops ops hi io) := {
  fl_at s data p := exists f, file_ready ops hi s img io f i /\ data = content img i /\ p = file_pos f;
}.
Next Obligation.
  intros s data p q (f & Hy & -> & ->) Hq. assert (Hsz : file_size f = Z.of_nat (length (content img i))).
  { destruct Hy as [Hok _ [_ _ Hi Hsz _]]. rewrite Hsz. symmetry. apply (length_content img Hok i Hi). }
  destruct (fs_setpos_spec ops hi s img io f i q Hy) as (s' & E & Hy'); [lia|]. exists s', 0. unfold ioseek. cbn [ioctl fs_io_ops op_ctl].
  unfold ioctl. cbn [op_ctl fs_io_ops]. rewrite E. split; [done|]. split; [lia|]. by exists (with_pos f q).
Qed.
Next Obligation.
  intros s data p n (f & Hy & -> & ->) Hn. cbv zeta. destruct (fs_read_ready ops hi s img io f i n Hy Hn) as (s' & k & E & Hk & Hy').
  assert (Hin : inode_number f = i) by apply Hy. unfold rest_of in E, Hk. rewrite Hin in E, Hk. set (rest := drop (Z.to_nat (file_pos f)) (content img i)) in *.
  assert (Et : take k rest = take (Z.to_nat n) rest).
  { destruct (Z.le_gt_cases n (Z.of_nat (length rest))); [f_equal; lia|]. by rewrite !take_ge by lia. }
  assert (El : length (take (Z.to_nat n) rest) = k) by (rewrite <- Et, length_take; lia).
  eexists _, _. split; [reflexivity|]. rewrite El, <- Et. split; [exact E|]. by exists (with_pos f (file_pos f + Z.of_nat k)).
Qed.
End FsFile.

(** * Properties *)

Section Properties.
Context {S M : Type} (ops : io_ops S) `{HF : !IoFile ops} `{UserMemSpec M}.

Lemma elf_load_spec s data p (m : M) k :
  fl_at s data p -> elf_ok data -> um_ok m (3 * total_pages (segments data) + k) ->
  Forall (fun ph => forall a, in_segment ph a = true -> um_view m a = None) (segments data) ->
  exists s' m', elf_load ops s m = Ret (s', m', 0, Some (e_entry (elf_header data))) /\ um_ok m' k /\
    forall a, user_vma a -> um_view m' a = loaded data (segments data) (um_view m) a.
Proof.
  intros Hf [Hb Hl Hh Hph Hseg Hdis] Hm Hun. unfold elf_load.
  destruct (fl_seek s data p 0 Hf) as (s1 & r & -> & Hr & Hf1); [lia|]. cbn [obind]. replace (r <? 0) with false by lia.
  destruct (read_struct_spec ops s1 data 0 SIZEOF_Ehdr Hf1) as (s2 & -> & Hf2); [done|lia|lia|]. cbn [obind].
  change (drop (Z.to_nat 0) data) with data. fold (elf_header data). rewrite Hh. change (0 <? 0) with false. cbn iota.
  assert (Hhb : bytes_ok (elf_header data)) by (unfold elf_header; auto with kern).
  pose proof (le_at_range _ 32 8 Hhb) as Hpo. fold (e_phoff (elf_header data)) in Hpo.
  pose proof (le_at_range _ 56 2 Hhb) as Hpn. fold (e_phnum (elf_header data)) in Hpn.
  destruct (load_phdrs_spec ops data Hb ltac:(lia) (Z.to_nat (e_phnum (elf_header data))) s2 _ m k (e_phoff (elf_header data)) 0 Hf2)
    as (s3 & m1 & p3 & -> & Hm1 & _ & Hv); [done|lia|lia|rewrite Z2Nat.id by lia; lia|done|done|done|].
  cbn [obind]. eauto.
Qed.

(** C14: loading a well-formed executable into a space where its segments are not
    mapped yet, with three free pages for each of their pages, succeeds: the
    entry point is that of the header; afterwards every address of a loadable
    segment holds the byte of the file, or zero beyond the part in the file, with
    exactly the permissions of the program header for user mode, and no other
    address of user memory has changed. *)
Theorem elf_load_correct s data p (m : M) k :
  fl_at s data p -> elf_ok data -> um_ok m (3 * total_pages (segments data) + k) ->
  Forall (fun ph => forall a, in_segment ph a = true -> um_view m a = None) (segments data) ->
  exists s' m', elf_load ops s m = Ret (s', m', 0, Some (e_entry (elf_header data))) /\ um_ok m' k /\
    forall a, user_vma a -> um_view m' a = loaded data (segments data) (um_view m) a.
Proof. apply elf_load_spec. Qed.

(** A file too short for a header gives -EIO and one whose header is not that
    of a little-endian RISC-V executable with program headers gives -EINVAL, in
    both cases before any memory is touched or an entry point is set. *)
Theorem elf_load_rejects s data p (m : M) :
  fl_at s data p -> bytes_ok data ->
  Z.of_nat (length data) < SIZEOF_Ehdr \/ verify_elf_header (elf_header data) <> 0 ->
  exists s' e, elf_load ops s m = Ret (s', m, e, None) /\
    e = if Z.of_nat (length data) <? SIZEOF_Ehdr then - EIO else - EINVAL.
Proof.
  intros Hf Hb Hbad. unfold elf_load. destruct (fl_seek s data p 0 Hf) as (s1 & r & -> & Hr & Hf1); [lia|]. cbn [obind].
  replace (r <? 0) with false by lia. destruct (Z.ltb_spec (Z.of_nat (length data)) SIZEOF_Ehdr) as [Hs|Hs].
  - destruct (fl_read s1 data 0 SIZEOF_Ehdr Hf1 ltac:(done)) as (s2 & read & Er & E & _). unfold read_struct, ioread. rewrite Er, E. cbn [obind].
    assert (Hne : Z.of_nat (length (take (Z.to_nat SIZEOF_Ehdr) (drop (Z.to_nat 0) data))) <> SIZEOF_Ehdr)
      by (rewrite length_take, length_drop; unfold SIZEOF_Ehdr in *; lia).
    rewrite (proj2 (Z.eqb_neq _ _) Hne). cbn. eauto.
  - destruct (read_struct_spec ops s1 data 0 SIZEOF_Ehdr Hf1) as (s2 & -> & Hf2); [done|lia|lia|]. cbn [obind].
    change (drop (Z.to_nat 0) data) with data. fold (elf_header data).
    destruct (verify_cases (elf_header data)) as [E|E]; [destruct Hbad; [lia|done]|]. rewrite E. cbn. eauto.
Qed.
End Properties.

(** The test of the range lets a segment at the top of the address space pass,
    because the sum wraps: its page lies outside the user region. *)
Example elf_range_wraps :
  let v := 2 ^ 64 - PAGE_SIZE in
  ((v <? USER_START_VMA) || (USER_END_VMA <? u64 (v + PAGE_SIZE))) = false /\ (USER_END_VMA <? v) = true.
Proof. vm_compute. split; reflexivity. Qed.

(** A file with one segment of a page, three bytes of which are in the file. *)
Module ElfDemo.
Definition header : list Z :=
  [0x7f; 69; 76; 70; 2; 1; 1; 0] ++ replicate 8 0 ++ le_encode 2 2 ++ le_encode 2 243 ++ le_encode 4 1 ++ le_encode 8 0xC0000004 ++
  le_encode 8 64 ++ le_encode 8 0 ++ le_encode 4 0 ++ le_encode 2 64 ++ le_encode 2 56 ++ le_encode 2 1 ++ le_encode 2 0 ++ le_encode 2 0 ++ le_encode 2 0.
Definition phdr : list Z :=
  le_encode 4 1 ++ le_encode 4 5 ++ le_encode 8 120 ++ le_encode 8 0xC0000000 ++ le_encode 8 0 ++ le_encode 8 3 ++ le_encode 8 4096 ++ le_encode 8 4096.
Definition data : list Z := header ++ phdr ++ [11; 22; 33].
Definition file : io_lit := iolit_init {| lit_ops := false; lit_buf := None; lit_size := 0; lit_pos := 0 |} data 123.

Lemma file_at : lit_file_at file data 0.
Proof. split; [|vm_compute; auto]. vm_compute. split_and!; discriminate || reflexivity. Qed.
Lemma data_ok : elf_ok data.
Proof.
  constructor.
  - apply bytes_ok_forallb. vm_compute. reflexivity.
  - vm_compute. split; [discriminate|reflexivity].
  - vm_compute. reflexivity.
  - vm_compute. discriminate.
  - constructor; [|constructor]. constructor; vm_compute; discriminate || reflexivity.
  - split; constructor.
Qed.
Lemma pages : total_pages (segments data) = 1%nat.
Proof. vm_compute. reflexivity. Qed.

(** The memory after [memory_init]. *)
Lemma mem_ok : um_ok VmDemo.st 2013.
Proof.
  exists VmDemo.free. split; [|rewrite VmDemo.free_len; lia]. constructor.
  - exact VmDemo.st_active.
  - vm_compute. reflexivity.
  - intros v q f Hv E. rewrite (VmDemo.st_unmapped v Hv) in E. discriminate E.
  - intros v v' q q' f f' Hv Hv' E. rewrite (VmDemo.st_unmapped v Hv) in E. discriminate E.
Qed.
Lemma mem_empty a : user_vma a -> uview VmDemo.st a = None.
Proof. intros Ha. apply uview_None; [exact Ha|]. exact (VmDemo.st_unmapped a Ha). Qed.
End ElfDemo.

Lemma elf_load_correct_witness : exists s m, elf_load iolit_ops ElfDemo.file VmDemo.st = Ret (s, m, 0, Some 0xC0000004) /\
  uview m 0xC0000001 = Some (22, map_flags (Z.lor (Z.lor PTE_U PTE_X) PTE_R)) /\
  uview m 0xC0000003 = Some (0, map_flags (Z.lor (Z.lor PTE_U PTE_X) PTE_R)) /\ uview m 0xC0001000 = None.
Proof.
  destruct (elf_load_correct (HF := lit_file) iolit_ops ElfDemo.file ElfDemo.data 0 VmDemo.st 2010 ElfDemo.file_at ElfDemo.data_ok) as (s & m & E & _ & Hv).
  - rewrite ElfDemo.pages. exact ElfDemo.mem_ok.
  - apply Forall_forall. intros ph Hph a Ha. apply ElfDemo.mem_empty. eapply in_segment_user; [|exact Ha].
    assert (HF := eo_segments _ ElfDemo.data_ok). rewrite Forall_forall in HF. by apply HF.
  - exists s, m. split; [exact E|].
    assert (U1 : user_vma 0xC0000001) by (unfold user_vma; mem_consts; lia).
    assert (U2 : user_vma 0xC0000003) by (unfold user_vma; mem_consts; lia).
    assert (U3 : user_vma 0xC0001000) by (unfold user_vma; mem_consts; lia).
    split; [|split].
    + refine (eq_trans (Hv _ U1) _). vm_compute. reflexivity.
    + refine (eq_trans (Hv _ U2) _). vm_compute. reflexivity.
    + refine (eq_trans (Hv _ U3) _). unfold loaded. replace (List.find _ _) with (@None (list Z)) by (vm_compute; reflexivity). apply ElfDemo.mem_empty, U3.
Defined.

Lemma elf_load_rejects_witness : exists s,
  elf_load iolit_ops (iolit_init ElfDemo.file (0x7e :: drop 1 ElfDemo.data) 123) VmDemo.st = Ret (s, VmDemo.st, - EINVAL, None).
Proof.
  destruct (elf_load_rejects (HF := lit_file) iolit_ops (iolit_init ElfDemo.file (0x7e :: drop 1 ElfDemo.data) 123) (0x7e :: drop 1 ElfDemo.data) 0 VmDemo.st)
    as (s & e & E & He).
  - split; [|vm_compute; auto]. vm_compute. split_and!; discriminate || reflexivity.
  - apply bytes_ok_forallb. vm_compute. reflexivity.
  - right. vm_compute. discriminate.
  - exists s. rewrite E, He. reflexivity.
Defined.
