(* ===== verification/Process.v ===== *)
(** Processes (src/src/kern/process.c, process.h) and the state of the kernel
    they act on.

    [kern] puts the components together: threads, memory, heap, timer, the
    process table, the device table, the console, and the I/O objects.  The
    objects live in a world [W] given by the class [IoWorld]: an object is
    designated by the address of its [struct io_intf], which holds the operation
    table and the reference count.  The scheduler and the memory manager share
    [satp] and [sstatus]; [kview] and [kput] pass them between the two. *)

From Stdlib Require Import Ascii String.
From S2P Require Import Prelude KString IoIntf Intr Device Console Thread Timer Heap Memory PageTable VmOps UserMem Elf.
From stdpp Require Import gmap list.
#[local] Open Scope Z_scope.

Definition PROCESS_IOMAX : Z := 16.
Definition NPROC : Z := 16.
Definition MAIN_PID : Z := 0.
Definition USER_STACK_VMA : Z := USER_END_VMA.
Definition SIZEOF_process : Z := 144.
Definition SIZEOF_thread : Z := 200.

(** * I/O objects *)

(** The objects, with the part of the kernel that opens them. *)
Class IoWorld (W : Type) := {
  w_ops : W -> Z -> io_ops W;
  w_refcnt : W -> Z -> Z;
  w_set_refcnt : W -> Z -> Z -> W;
  (* the result and the object *)
  w_fs_open : W -> option (list Z) -> outcome (W * Z * Z);
  w_fs_close : W -> Z -> outcome W;
}.

(** The open function of a device. *)
Definition opener (W : Type) := W -> outcome (W * Z * Z).

Section Objects.
Context {W : Type} `{IoWorld W}.

Definition io_ioref (w : W) (io : Z) : W * Z :=
  let n := u32 (w_refcnt w io + 1) in (w_set_refcnt w io n, n).

Definition io_ioclose (w : W) (io : Z) : outcome W :=
  let n := u32 (w_refcnt w io - 1) in
  let w := w_set_refcnt w io n in
  match op_close (w_ops w io) with
  | Some close => if n =? 0 then close w else Ret w
  | None => Ret w
  end.
End Objects.

(** * State *)

Record process := {
  p_id : Z;
  p_tid : Z;
  p_mtag : Z;
  iotab : list (option Z);
}.
Definition with_iotab (p : process) (t : list (option Z)) : process :=
  {| p_id := p_id p; p_tid := p_tid p; p_mtag := p_mtag p; iotab := t |}.

Record kern (W : Type) := {
  k_thr : tsys;
  k_mm : mm;
  k_heap : heap;
  k_tm : timer;
  k_con : console;
  k_procs : gmap Z process;      (* the structures, by address *)
  k_proctab : list (option Z);
  k_devtab : list (device (opener W));
  k_w : W;
  procmgr_initialized : bool;
}.
Arguments k_thr {W} _.
Arguments k_mm {W} _.
Arguments k_heap {W} _.
Arguments k_tm {W} _.
Arguments k_con {W} _.
Arguments k_procs {W} _.
Arguments k_proctab {W} _.
Arguments k_devtab {W} _.
Arguments k_w {W} _.
Arguments procmgr_initialized {W} _.

(** What the memory of new blocks holds, which [kmalloc] does not clear, and
    the address of the alarm [sysusleep] has on its stack. *)
Record junk := { j_tid : Z; j_thread : thread; j_cond : condition; j_alarm : Z }.

(** How a call ends: with a value, with a value once the caller runs again, in
    a wait, with a jump to user mode, or not at all ([Panics] is a [panic] whose
    message is on the console). *)
Inductive ending :=
| Returns (r : Z)
| ReturnsLater (r : Z)
| Waits
| Jumps (usp upc : Z)
| Exits
| Halts
| Panics.

Section Kernel.
Context {W : Type} `{IoWorld W}.
(** The kernel image, the main thread and [main_proc]. *)
Context (img : kimg) (main main_proc : Z).
Notation kern := (kern W).

Definition set_thr (k : kern) (t : tsys) (m : mm) : kern :=
  {| k_thr := t; k_mm := m; k_heap := k_heap k; k_tm := k_tm k; k_con := k_con k; k_procs := k_procs k;
     k_proctab := k_proctab k; k_devtab := k_devtab k; k_w := k_w k; procmgr_initialized := procmgr_initialized k |}.
Definition set_mm (k : kern) (m : mm) : kern := set_thr k (k_thr k) m.
Definition set_heap (k : kern) (h : heap) (m : mm) : kern :=
  {| k_thr := k_thr k; k_mm := m; k_heap := h; k_tm := k_tm k; k_con := k_con k; k_procs := k_procs k;
     k_proctab := k_proctab k; k_devtab := k_devtab k; k_w := k_w k; procmgr_initialized := procmgr_initialized k |}.
Definition set_timer (k : kern) (t : timer) : kern :=
  {| k_thr := k_thr k; k_mm := k_mm k; k_heap := k_heap k; k_tm := t; k_con := k_con k; k_procs := k_procs k;
     k_proctab := k_proctab k; k_devtab := k_devtab k; k_w := k_w k; procmgr_initialized := procmgr_initialized k |}.
Definition set_con (k : kern) (c : console) : kern :=
  {| k_thr := k_thr k; k_mm := k_mm k; k_heap := k_heap k; k_tm := k_tm k; k_con := c; k_procs := k_procs k;
     k_proctab := k_proctab k; k_devtab := k_devtab k; k_w := k_w k; procmgr_initialized := procmgr_initialized k |}.
Definition set_procs (k : kern) (ps : gmap Z process) (tab : list (option Z)) : kern :=
  {| k_thr := k_thr k; k_mm := k_mm k; k_heap := k_heap k; k_tm := k_tm k; k_con := k_con k; k_procs := ps;
     k_proctab := tab; k_devtab := k_devtab k; k_w := k_w k; procmgr_initialized := procmgr_initialized k |}.
Definition set_world (k : kern) (w : W) : kern :=
  {| k_thr := k_thr k; k_mm := k_mm k; k_heap := k_heap k; k_tm := k_tm k; k_con := k_con k; k_procs := k_procs k;
     k_proctab := k_proctab k; k_devtab := k_devtab k; k_w := w; procmgr_initialized := procmgr_initialized k |}.

(** * Threads and memory together *)

Definition with_status (m : mm) (s ss : Z) : mm :=
  {| ram := ram m; free_list := free_list m; satp := s; mm_sstatus := ss; main_mtag := main_mtag m;
     memory_initialized := memory_initialized m |}.

(** The threads with the registers they share with the memory manager. *)
Definition kview (k : kern) : tsys :=
  with_sstatus (with_space (k_thr k) (satp (k_mm k))) (mm_sstatus (k_mm k)).

Fixpoint free_all (m : mm) (l : list Z) : outcome mm :=
  match l with
  | [] => Ret m
  | x :: r => let! m := memory_free_page m x in free_all m r
  end.

(** Takes the registers back and frees the stacks the scheduler gave up. *)
Definition kput (k : kern) (t : tsys) : outcome kern :=
  let! m := free_all (with_status (k_mm k) (space t) (ts_sstatus t)) (freed t) in
  Ret (set_thr k (with_cur t (thrs t) (curthr t) []) m).

(** [proc->mtag]. *)
Definition mtag_of (k : kern) (p : Z) : Z := from_option p_mtag 0 (k_procs k !! p).

(** * Processes *)

Definition get_proc (k : kern) (p : Z) : outcome process :=
  match k_procs k !! p with Some pr => Ret pr | None => Fault end.
Definition put_proc (k : kern) (p : Z) (pr : process) : kern := set_procs k (<[p := pr]> (k_procs k)) (k_proctab k).

(** The address of the process of the running thread; null is [None]. *)
Definition current_process (k : kern) : outcome (option Z) :=
  let! i := running_thread (k_thr k) in thread_process (k_thr k) i.

(** The process itself, for a caller that uses its members. *)
Definition current (k : kern) : outcome (Z * process) :=
  let! p := current_process k in
  match p with
  | None => Fault
  | Some p => let! pr := get_proc k p in Ret (p, pr)
  end.

Definition current_pid (k : kern) : outcome Z := let! (_, pr) := current k in Ret (p_id pr).

Definition procmgr_init (k : kern) : outcome kern :=
  let! i := running_thread (k_thr k) in
  let pr := {| p_id := MAIN_PID; p_tid := i; p_mtag := active_memory_space (k_mm k);
               iotab := replicate (Z.to_nat PROCESS_IOMAX) None |} in
  let! t := thread_set_process (k_thr k) i (Some main_proc) in
  let k := put_proc (set_thr k t (k_mm k)) main_proc pr in
  Ret {| k_thr := k_thr k; k_mm := k_mm k; k_heap := k_heap k; k_tm := k_tm k; k_con := k_con k; k_procs := k_procs k;
         k_proctab := k_proctab k; k_devtab := k_devtab k; k_w := k_w k; procmgr_initialized := true |}.

(** The levels of the page tables. *)
Definition WALK_DEPTH : nat := 3.

(** [csrs_sstatus] sets the bits of its argument, so SPP is left as it is. *)
Definition process_exec (k : kern) (exeio : Z) : outcome (kern * ending) :=
  let! m := memory_unmap_and_free_user WALK_DEPTH (k_mm k) in
  let! (w, m, ret, entry_point) := elf_load (w_ops (k_w k) exeio) (k_w k) m in
  let k := set_world (set_mm k m) w in
  if ret <? 0 then Ret (k, Returns ret)
  else
    match entry_point with
    | None => Fault
    | Some upc =>
        let (ss, _) := intr_disable (mm_sstatus m) in
        let sstatus := Z.lor (Z.ldiff ss RISCV_SSTATUS_SPP) RISCV_SSTATUS_SPIE in
        Ret (set_mm k (with_status m (satp m) (Z.lor ss sstatus)), Jumps USER_STACK_VMA upc)
    end.

(** The loop of [process_exit]: every object is closed, whatever its count. *)
Fixpoint close_all (tab : list (option Z)) (w : W) : outcome (W * list (option Z)) :=
  match tab with
  | [] => Ret (w, [])
  | e :: r =>
      let! w :=
        match e with
        | None => Ret w
        | Some io => match op_close (w_ops w io) with None => Fault | Some close => close w end
        end in
      let! (w, r) := close_all r w in
      Ret (w, None :: r)
  end.

Definition process_exit (k : kern) : outcome (kern * ending) :=
  let! m := memory_unmap_and_free_user WALK_DEPTH (k_mm k) in
  let! m := memory_space_reclaim WALK_DEPTH m in
  let k := set_mm k m in
  let! (p, proc) := current k in
  let! (w, tab) := close_all (iotab proc) (k_w k) in
  let k := set_world (put_proc k p (with_iotab proc tab)) w in
  let! ptab := store (k_proctab k) (p_id proc) None in
  let k := set_procs k (k_procs k) ptab in
  let! t := thread_exit (mtag_of k) main (kview k) in
  match t with
  | None => Ret (k, Halts)
  | Some t => let! k := kput k t in Ret (k, Exits)
  end.

(** The first empty slot of [proctab]. *)
Fixpoint empty_slot (rest : list (option Z)) (i : Z) : option Z :=
  match rest with
  | [] => None
  | None :: _ => Some i
  | Some _ :: rest => empty_slot rest (i + 1)
  end.

(** The loop that copies [iotab] and counts the new references. *)
Fixpoint share_files (tab : list (option Z)) (w : W) : W :=
  match tab with
  | [] => w
  | None :: r => share_files r w
  | Some io :: r => let (w, n) := io_ioref w io in share_files r (w_set_refcnt w io n)
  end.

(** Returns the child, [None] for null. *)
Definition process_fork (k : kern) (j : junk) (pid : Z) : outcome (kern * option Z) :=
  match empty_slot (k_proctab k) 0 with
  | None => Ret (k, None)
  | Some new_pid =>
      let! (h, m, child) := kmalloc (k_heap k) (k_mm k) SIZEOF_process in
      let! (m, mtag) := memory_space_clone img m new_pid in
      let k := set_heap k h m in
      let! e := load (k_proctab k) pid in
      match e with
      | None => Fault
      | Some parent =>
          let! pr := get_proc k parent in
          let child_proc := {| p_id := new_pid; p_tid := j_tid j; p_mtag := mtag; iotab := iotab pr |} in
          let k := set_world k (share_files (iotab pr) (k_w k)) in
          let! ptab := store (k_proctab k) new_pid (Some child) in
          Ret (set_procs k (<[child := child_proc]> (k_procs k)) ptab, Some child)
      end
  end.

(** [thread_fork_to_user]: the structure and the stack of the new thread, whose
    anchor points back to it, then the work of thread.c. *)
Definition fork_to_user (k : kern) (j : junk) (child_proc : Z) : outcome (kern * Z) :=
  let! (h, m, child) := kmalloc (k_heap k) (k_mm k) SIZEOF_thread in
  let! (m, page) := memory_alloc_page m in
  let anchor := page + PAGE_SIZE - 16 in
  let! m := st64 m anchor child in
  let! m := st64 m (anchor + 8) 0 in
  let k := set_heap k h m in
  let! pr := get_proc k child_proc in
  let! (t, tid) := thread_fork_to_user (mtag_of k) (kview k) child (j_thread j) (j_cond j) page child_proc in
  let k := put_proc k child_proc {| p_id := p_id pr; p_tid := tid; p_mtag := p_mtag pr; iotab := iotab pr |} in
  let! k := kput k t in
  Ret (k, p_id pr).
End Kernel.
