(* ===== verification/Syscall.v ===== *)
(** System calls (src/src/kern/syscall.c, scnum.h) and the exceptions that
    lead to them (excp.c, trap.h).

    The arguments are the saved registers of the user program; strings and
    buffers are read from and written to user memory through the active
    memory space, as the kernel does (a byte that is not mapped, or not with
    the permission the access needs, is a [Fault]).  The buffer of a write is
    taken whole, so all of it has to be readable; the cell of an ioctl is
    written back when the operation changed it. *)

From Stdlib Require Import Ascii String.
From S2P Require Import Prelude KString IoIntf Intr Device Console Thread Timer Heap Memory PageTable VmOps UserMem Elf Process.
From stdpp Require Import gmap list.
#[local] Open Scope Z_scope.

(** * Numbers (scnum.h, trap.h, csr.h) *)

Definition SYSCALL_EXIT : Z := 0.
Definition SYSCALL_MSGOUT : Z := 1.
Definition SYSCALL_DEVOPEN : Z := 10.
Definition SYSCALL_FSOPEN : Z := 11.
Definition SYSCALL_CLOSE : Z := 20.
Definition SYSCALL_READ : Z := 21.
Definition SYSCALL_WRITE : Z := 22.
Definition SYSCALL_IOCTL : Z := 23.
Definition SYSCALL_EXEC : Z := 30.
Definition SYSCALL_FORK : Z := 31.
Definition SYSCALL_USLEEP : Z := 40.
Definition SYSCALL_WAIT : Z := 41.
Definition SYSCALL_PIOREF : Z := 42.

Definition TFR_SP : nat := 2.
Definition TFR_A0 : nat := 10.
Definition TFR_A1 : nat := 11.
Definition TFR_A2 : nat := 12.
Definition TFR_A7 : nat := 17.

Definition RISCV_SCAUSE_ECALL_FROM_UMODE : Z := 8.
Definition RISCV_SCAUSE_LOAD_PAGE_FAULT : Z := 13.
Definition RISCV_SCAUSE_STORE_PAGE_FAULT : Z := 15.

Record trap_frame := { tf_x : list Z; tf_sstatus : Z; tf_sepc : Z }.

Definition reg (tfr : trap_frame) (r : nat) : Z := default 0 (tf_x tfr !! r).
Definition set_reg (tfr : trap_frame) (r : nat) (v : Z) : trap_frame :=
  {| tf_x := <[r := v]> (tf_x tfr); tf_sstatus := tf_sstatus tfr; tf_sepc := tf_sepc tfr |}.
Definition set_sepc (tfr : trap_frame) (v : Z) : trap_frame :=
  {| tf_x := tf_x tfr; tf_sstatus := tf_sstatus tfr; tf_sepc := v |}.

(** * Loads from user memory *)

Definition ld_user (m : mm) (v : Z) : outcome Z :=
  match translate m v with
  | Some (p, f) => guard! has f PTE_R && (negb (has f PTE_U) || has (mm_sstatus m) RISCV_SSTATUS_SUM) in ld8 m p
  | None => Fault
  end.

Fixpoint load_user (n : nat) (m : mm) (v : Z) : outcome (list Z) :=
  match n with
  | O => Ret []
  | S n => let! b := ld_user m v in let! bs := load_user n m (v + 1) in Ret (b :: bs)
  end.

(** The bytes of a string up to its null.  No run of readable memory is longer
    than [STR_MAX]. *)
Definition STR_MAX : positive := 4294967296.
Definition cstr_step (m : mm) (st : Z * list Z) : Z * list Z + outcome (list Z) :=
  let (v, acc) := st in
  match ld_user m v with
  | Ret b => if b =? 0 then inr (Ret (rev_append acc [0])) else inl (v + 1, b :: acc)
  | Panic => inr Panic | Fault => inr Fault | Blocked => inr Blocked | NoFuel => inr NoFuel
  end.
Definition user_cstr (m : mm) (v : Z) : outcome (list Z) :=
  match until (cstr_step m) STR_MAX (v, []) with inr r => r | inl _ => NoFuel end.

(** A pointer that may be null. *)
Definition user_str (m : mm) (v : Z) : outcome (option (list Z)) :=
  if v =? 0 then Ret None else let! s := user_cstr m v in Ret (Some s).

Section Calls.
Context {W : Type} `{IoWorld W}.
Context (img : kimg) (main : Z).
Notation kern := (kern W).

(** The console once interrupts are initialised. *)
Definition kprintf (k : kern) (fmt : list Z) (ap : list varg) : outcome kern :=
  let! (ss, c, _) := console_printf true (mm_sstatus (k_mm k)) (k_con k) fmt ap in
  Ret (set_con (set_mm k (with_status (k_mm k) (satp (k_mm k)) ss)) c).

Definition sysexit (k : kern) : outcome (kern * ending) := process_exit main k.

Definition sysmsgout (k : kern) (msg : Z) : outcome (kern * ending) :=
  let! i := running_thread (k_thr k) in
  let! name := thread_name (k_thr k) i in
  let! s := user_str (k_mm k) msg in
  let! k := kprintf k (chars "Thread <%s:%d> says: %s" ++ [10; 0]) [VStr name; VWord i; VStr s] in
  Ret (k, Returns 0).

(** * Descriptors *)

(** The process a caller uses through a pointer that may be null. *)
Definition deref (k : kern) (p : option Z) : outcome (Z * process) :=
  match p with
  | None => Fault
  | Some p => let! pr := get_proc k p in Ret (p, pr)
  end.

(** Puts an open object into the table of the process: at [fd], or at the
    first unused descriptor when [fd] is negative. *)
Definition install (close : W -> Z -> outcome W) (k : kern) (proc : option Z) (fd io : Z) : outcome (kern * ending) :=
  let fail e := let! w := close (k_w k) io in Ret (set_world k w, Returns (- e)) in
  if PROCESS_IOMAX <=? fd then fail EMFILE
  else
    let! (p, pr) := deref k proc in
    let set new_fd :=
      let! tab := store (iotab pr) new_fd (Some io) in
      Ret (put_proc (set_world k (w_set_refcnt (k_w k) io 1)) p (with_iotab pr tab), Returns new_fd) in
    if 0 <=? fd then
      let! e := load (iotab pr) fd in
      match e with
      | Some _ => fail EBADFD
      | None => set fd
      end
    else
      match empty_slot (iotab pr) 0 with
      | None => fail EMFILE
      | Some new_fd => set new_fd
      end.

Definition sysdevopen (k : kern) (fd name instno : Z) : outcome (kern * ending) :=
  let! proc := current_process k in
  if name =? 0 then Ret (k, Returns (- EINVAL))
  else
    let! s := user_cstr (k_mm k) name in
    let! (w, ret, io) := device_open (fun f : opener W => f (k_w k)) (fun e => (k_w k, e, 0)) (k_devtab k) (Some s) instno in
    let k := set_world k w in
    if ret <? 0 then Ret (k, Returns ret) else install io_ioclose k proc fd io.

Definition sysfsopen (k : kern) (fd name : Z) : outcome (kern * ending) :=
  let! proc := current_process k in
  if name =? 0 then Ret (k, Returns (- EINVAL))
  else
    let! s := user_cstr (k_mm k) name in
    let! (w, ret, io) := w_fs_open (k_w k) (Some s) in
    let k := set_world k w in
    if ret <? 0 then Ret (k, Returns ret) else install w_fs_close k proc fd io.

(** The object of an open descriptor, or [-EBADFD]. *)
Definition with_fd (k : kern) (fd : Z) (f : Z -> process -> Z -> outcome (kern * ending)) : outcome (kern * ending) :=
  let! proc := current_process k in
  if (fd <? 0) || (PROCESS_IOMAX <=? fd) then Ret (k, Returns (- EBADFD))
  else
    let! (p, pr) := deref k proc in
    let! e := load (iotab pr) fd in
    match e with
    | None => Ret (k, Returns (- EBADFD))
    | Some io => f p pr io
    end.

Definition clear_fd (k : kern) (p : Z) (pr : process) (fd : Z) : outcome kern :=
  let! tab := store (iotab pr) fd None in Ret (put_proc k p (with_iotab pr tab)).

Definition sysclose (k : kern) (fd : Z) : outcome (kern * ending) :=
  with_fd k fd (fun p pr io =>
    let! w := io_ioclose (k_w k) io in
    let! k := clear_fd (set_world k w) p pr fd in
    Ret (k, Returns 0)).

Definition sysread (k : kern) (fd buf bufsz : Z) : outcome (kern * ending) :=
  with_fd k fd (fun p pr io =>
    if buf =? 0 then Ret (k, Returns (- EINVAL))
    else
      let! (w, bytes_read, bs) := ioread (w_ops (k_w k) io) (k_w k) bufsz in
      let! m := store_user (k_mm k) buf bs in
      Ret (set_world (set_mm k m) w, Returns bytes_read)).

Definition syswrite (k : kern) (fd buf len : Z) : outcome (kern * ending) :=
  with_fd k fd (fun p pr io =>
    if buf =? 0 then Ret (k, Returns (- EINVAL))
    else
      let! bs := load_user (Z.to_nat len) (k_mm k) buf in
      let! (w, bytes_written) := iowrite (w_ops (k_w k) io) (k_w k) bs in
      Ret (set_world k w, Returns bytes_written)).

Definition ld_cell (m : mm) (arg : Z) : outcome ioarg :=
  if arg =? 0 then Ret None else let! bs := load_user 8 m arg in Ret (Some (le_decode bs)).
Definition st_cell (m : mm) (arg : Z) (old new : ioarg) : outcome mm :=
  match new with
  | Some v => if bool_decide (new = old) then Ret m else store_user m arg (le_encode 8 v)
  | None => Ret m
  end.

Definition sysioctl (k : kern) (fd cmd arg : Z) : outcome (kern * ending) :=
  with_fd k fd (fun p pr io =>
    let! a := ld_cell (k_mm k) arg in
    let! (w, result, a') := ioctl (w_ops (k_w k) io) (k_w k) cmd a in
    let! m := st_cell (k_mm k) arg a a' in
    Ret (set_world (set_mm k m) w, Returns (if result <? 0 then result else 0))).

(** * Processes *)

Definition sysexec (k : kern) (fd : Z) : outcome (kern * ending) :=
  with_fd k fd (fun p pr io => let! k := clear_fd k p pr fd in process_exec k io).

Definition sysfork (k : kern) (j : junk) : outcome (kern * ending) :=
  let! (_, proc) := current k in
  let! (k, child) := process_fork img k j (p_id proc) in
  match child with
  | None => Ret (k, Returns (- EBUSY))
  | Some child => let! (k, child_pid) := fork_to_user k j child in Ret (k, ReturnsLater child_pid)
  end.

Definition join_ending (k : kern) (r : tsys * Z + tsys) : outcome (kern * ending) :=
  match r with
  | inl (t, i) => let! k := kput k t in Ret (k, Returns i)
  | inr t => let! k := kput k t in Ret (k, Waits)
  end.

Definition syswait (k : kern) (i : Z) : outcome (kern * ending) :=
  let! r := if i =? 0 then thread_join_any (mtag_of k) (kview k) else thread_join (mtag_of k) (kview k) i in
  join_ending k r.

(** What a caller that waited does when it runs again. *)
Definition syswait_woken (k : kern) (i : Z) : outcome (kern * ending) :=
  if i =? 0 then
    let! (t, r) := thread_join_any_woken (kview k) in let! k := kput k t in Ret (k, Returns r)
  else
    let! e := tab_get (kview k) i in
    match e with
    | None => Fault
    | Some child => let! r := thread_join_turn (mtag_of k) (kview k) i child in join_ending k r
    end.

(** Microseconds to ticks on [unsigned long]. *)
Definition usleep_ticks (us : Z) : Z := u64 (us * TIMER_FREQ) / 1000000.

(** The thread that sleeps goes on with [alarm_sleep_woken] and returns 0. *)
Definition sysusleep (k : kern) (j : junk) (us : Z) : outcome (kern * ending) :=
  let (t, tm) := alarm_init (kview k) (k_tm k) (j_alarm j) (Some (cstr "usleep")) in
  let! (t, tm, slept) := alarm_sleep (mtag_of k) t tm (j_alarm j) (usleep_ticks us) in
  let! k := kput (set_timer k tm) t in
  Ret (k, match slept with Some _ => ReturnsLater 0 | None => Returns 0 end).

(** The loop of [syspioref]. *)
Definition print_ref (k : kern) (io : Z) : outcome kern :=
  let! i := running_thread (k_thr k) in
  let! name := thread_name (k_thr k) i in
  kprintf k (chars "Thread <%s:%d> says: refcnt = %d" ++ [10; 0]) [VStr name; VWord i; VWord (w_refcnt (k_w k) io)].
Fixpoint print_refs (k : kern) (tab : list (option Z)) : outcome kern :=
  match tab with
  | [] => Ret k
  | None :: r => print_refs k r
  | Some io :: r => let! k := print_ref k io in print_refs k r
  end.
Definition syspioref (k : kern) : outcome (kern * ending) :=
  let! (_, proc) := current k in
  let! k := print_refs k (iotab proc) in
  Ret (k, Returns 0).

(** * Dispatch *)

Definition syscall (k : kern) (j : junk) (num a0 a1 a2 : Z) : outcome (kern * ending) :=
  if num =? SYSCALL_EXIT then sysexit k
  else if num =? SYSCALL_MSGOUT then sysmsgout k a0
  else if num =? SYSCALL_DEVOPEN then sysdevopen k (i32 a0) a1 (i32 a2)
  else if num =? SYSCALL_FSOPEN then sysfsopen k (i32 a0) a1
  else if num =? SYSCALL_CLOSE then sysclose k (i32 a0)
  else if num =? SYSCALL_READ then sysread k (i32 a0) a1 a2
  else if num =? SYSCALL_WRITE then syswrite k (i32 a0) a1 a2
  else if num =? SYSCALL_IOCTL then sysioctl k (i32 a0) (i32 a1) a2
  else if num =? SYSCALL_EXEC then sysexec k (i32 a0)
  else if num =? SYSCALL_FORK then sysfork k j
  else if num =? SYSCALL_WAIT then syswait k (i32 a0)
  else if num =? SYSCALL_USLEEP then sysusleep k j a0
  else if num =? SYSCALL_PIOREF then syspioref k
  else Ret (k, Returns (- ENOTSUP)).

(** The value of a call that returns goes to [a0]. *)
Definition store_ret (tfr : trap_frame) (e : ending) : trap_frame :=
  match e with
  | Returns r | ReturnsLater r => set_reg tfr TFR_A0 (u64 r)
  | _ => tfr
  end.

Definition syscall_handler (k : kern) (j : junk) (tfr : trap_frame) : outcome (kern * trap_frame * ending) :=
  let! (k, e) := syscall k j (reg tfr TFR_A7) (reg tfr TFR_A0) (reg tfr TFR_A1) (reg tfr TFR_A2) in
  Ret (k, store_ret tfr e, e).

(** * Exceptions *)

Definition excp_names : list (option (list Z)) :=
  [ Some (cstr "Misaligned instruction address"); Some (cstr "Instruction access fault"); Some (cstr "Illegal instruction");
    Some (cstr "Breakpoint"); Some (cstr "Misaligned load address"); Some (cstr "Load access fault");
    Some (cstr "Misaligned store address"); Some (cstr "Store access fault"); Some (cstr "Environment call from U mode");
    Some (cstr "Environment call from S mode"); None; None; Some (cstr "Instruction page fault");
    Some (cstr "Load page fault"); None; Some (cstr "Store page fault") ].

Definition default_excp_handler (k : kern) (code : Z) (tfr : trap_frame) : outcome (kern * ending) :=
  let! name := if (0 <=? code) && (code <? Z.of_nat (length excp_names)) then load excp_names code else Ret None in
  let! k :=
    match name with
    | None => kprintf k (chars "Exception %d at %p" ++ [10; 0]) [VWord code; VWord (tf_sepc tfr)]
    | Some name => kprintf k (chars "%s at %p" ++ [10; 0]) [VStr (Some name); VWord (tf_sepc tfr)]
    end in
  Ret (k, Panics).

Definition smode_excp_handler (k : kern) (code : Z) (tfr : trap_frame) : outcome (kern * trap_frame * ending) :=
  let! (k, e) := default_excp_handler k code tfr in Ret (k, tfr, e).

(** A page fault that is handled ends with no value: the instruction is tried
    again.  The address that is mapped is that of the stack pointer. *)
Definition umode_excp_handler (k : kern) (j : junk) (code : Z) (tfr : trap_frame)
  : outcome (kern * trap_frame * option ending) :=
  if code =? RISCV_SCAUSE_ECALL_FROM_UMODE then
    let! (k, tfr, e) := syscall_handler k j (set_sepc tfr (u64 (tf_sepc tfr + 4))) in
    Ret (k, tfr, Some e)
  else if (code =? RISCV_SCAUSE_STORE_PAGE_FAULT) || (code =? RISCV_SCAUSE_LOAD_PAGE_FAULT) then
    let! m := memory_handle_page_fault (k_mm k) (reg tfr TFR_SP) in
    Ret (set_mm k m, tfr, None)
  else
    let! (k, e) := default_excp_handler k code tfr in
    Ret (k, tfr, Some e).
End Calls.
