(* ===== verification/TrapAsm.v ===== *)
(** The assembly of the kernel: trap entry (src/src/kern/trapasm.s) and the
    context switch (src/src/kern/thrasm.s).

    The code is straight-line code with a branch here and there: a sequence is
    a list of instructions, in the order of the source, and a routine is a
    function that executes its sequences and takes its branches.  Memory is what
    [ld] and [sd] see of it, by the address of the double word; the control
    registers are those of [Hart].  The C functions the routines call are
    arguments. *)

From S2P Require Import Prelude Plic Intr Csr Syscall.
From stdpp Require Import list.
#[local] Open Scope Z_scope.

(** * The processor *)

Record cpu (H : Type) := { gpr : nat -> Z; csrs : H; dmem : Z -> Z }.
Arguments gpr {H} _ _.
Arguments csrs {H} _.
Arguments dmem {H} _ _.

(** The registers by their number. *)
#[local] Notation ra := 1%nat.
#[local] Notation sp := 2%nat.
#[local] Notation tp := 4%nat.
#[local] Notation t0 := 5%nat.
#[local] Notation fp := 8%nat.
#[local] Notation s0 := 8%nat.
#[local] Notation s1 := 9%nat.
#[local] Notation a0 := 10%nat.
#[local] Notation a1 := 11%nat.
#[local] Notation a2 := 12%nat.
#[local] Notation a3 := 13%nat.
#[local] Notation a4 := 14%nat.
#[local] Notation a5 := 15%nat.
#[local] Notation a6 := 16%nat.
#[local] Notation a7 := 17%nat.
#[local] Notation s11 := 27%nat.
#[local] Notation t6 := 31%nat.

(** [La] and [Li] load a constant; [Call] is the link of a call, to the address
    behind it. *)
Inductive instr :=
| Sd (rs : nat) (off : Z) (base : nat)
| Ld (rd : nat) (off : Z) (base : nat)
| Addi (rd rs : nat) (imm : Z)
| Mv (rd rs : nat)
| Li (rd : nat) (imm : Z)
| Slli (rd rs : nat) (n : Z)
| Srli (rd rs : nat) (n : Z)
| Csrr (rd : nat) (c : csr)
| Csrw (c : csr) (rs : nat)
| Csrrw (rd : nat) (c : csr) (rs : nat)
| Csrs (c : csr) (rs : nat)
| Csrc (c : csr) (rs : nat)
| Csrsi (c : csr) (imm : Z).
#[local] Notation La := Li.

Section Cpu.
Context {H : Type} `{Hart H}.
Notation cpu := (cpu H).
Implicit Types s : cpu.

(** Register 0 is always 0. *)
Definition rx s (r : nat) : Z := match r with O => 0 | _ => gpr s r end.
Definition wx s (r : nat) (v : Z) : cpu :=
  {| gpr := fun r' => if Nat.eqb r' r then v else gpr s r'; csrs := csrs s; dmem := dmem s |}.
Definition wcsr s (h : H) : cpu := {| gpr := gpr s; csrs := h; dmem := dmem s |}.
Definition wmem s (a v : Z) : cpu :=
  {| gpr := gpr s; csrs := csrs s; dmem := fun a' => if a' =? a then v else dmem s a' |}.

(** An access that is not aligned is a fault. *)
Definition exec1 (i : instr) s : outcome cpu :=
  match i with
  | Sd rs off base => let a := u64 (rx s base + off) in guard! a mod 8 =? 0 in Ret (wmem s a (rx s rs))
  | Ld rd off base => let a := u64 (rx s base + off) in guard! a mod 8 =? 0 in Ret (wx s rd (dmem s a))
  | Addi rd rs imm => Ret (wx s rd (u64 (rx s rs + imm)))
  | Mv rd rs => Ret (wx s rd (rx s rs))
  | Li rd imm => Ret (wx s rd imm)
  | Slli rd rs n => Ret (wx s rd (u64 (Z.shiftl (rx s rs) n)))
  | Srli rd rs n => Ret (wx s rd (Z.shiftr (rx s rs) n))
  | Csrr rd c => Ret (wx s rd (csr_rd (csrs s) c))
  | Csrw c rs => Ret (wcsr s (csrrw (csrs s) c (rx s rs)).1)
  | Csrrw rd c rs => let (h, v) := csrrw (csrs s) c (rx s rs) in Ret (wx (wcsr s h) rd v)
  | Csrs c rs => Ret (wcsr s (Csr.csrrs (csrs s) c (rx s rs)).1)
  | Csrc c rs => Ret (wcsr s (Csr.csrrc (csrs s) c (rx s rs)).1)
  | Csrsi c imm => Ret (wcsr s (Csr.csrrs (csrs s) c imm).1)
  end.
Fixpoint exec (l : list instr) s : outcome cpu :=
  match l with [] => Ret s | i :: l => let! s := exec1 i s in exec l s end.

(** The branches [bgez] and [bnez]. *)
Definition bgez s (r : nat) : bool := rx s r <? 2 ^ 63.
Definition bnez s (r : nat) : bool := negb (rx s r =? 0).

(** * trapasm.s *)

(** Registers with the place where they are saved. *)
Definition store_to (base : nat) (l : list (nat * Z)) : list instr := map (fun '(r, k) => Sd r (k * 8) base) l.
Definition load_from (base : nat) (l : list (nat * Z)) : list instr := map (fun '(r, k) => Ld r (k * 8) base) l.

Definition gprs_except_t6_and_sp : list (nat * Z) :=
  map (fun r => (r, Z.of_nat r)) [1; 3; 4; 5; 6; 7; 8; 9; 10; 11; 12; 13; 14; 15; 16; 17; 18; 19; 20; 21; 22; 23; 24; 25; 26; 27; 28; 29; 30]%nat.
Definition save_gprs_except_t6_and_sp : list instr := store_to sp gprs_except_t6_and_sp.
Definition save_sstatus_and_sepc : list instr := [Csrr t6 SSTATUS; Sd t6 (32*8) sp; Csrr t6 SEPC; Sd t6 (33*8) sp].
Definition restore_sstatus_and_sepc : list instr := [Ld t6 (33*8) sp; Csrw SEPC t6; Ld t6 (32*8) sp; Csrw SSTATUS t6].
Definition restore_gprs_except_t6_and_sp : list instr := load_from sp (rev gprs_except_t6_and_sp).

(** The C functions the entry code continues in: [smode_excp_handler],
    [umode_excp_handler] and [intr_handler]. *)
Inductive target := ToSmodeExcp | ToUmodeExcp | ToIntr.

Section Traps.
(** The addresses of the entry points, and of the instruction behind the call. *)
Context (trap_entry_from_smode trap_entry_from_umode back : Z).

Definition trap_cont (excp : target) s : outcome (cpu * target) :=
  let! s := exec [Csrr a0 SCAUSE; Mv a1 sp] s in
  if bgez s a0 then Ret (s, excp)
  else let! s := exec [Slli a0 a0 1; Srli a0 a0 1] s in Ret (s, ToIntr).

(** Up to the handler, and from its return to [sret]. *)
Definition smode_enter s : outcome (cpu * target) :=
  let! s := exec ([Addi sp sp (-34*8); Sd t6 (31*8) sp; Addi t6 sp (34*8); Sd t6 (2*8) sp] ++
                  save_gprs_except_t6_and_sp ++ save_sstatus_and_sepc ++ [Li ra back]) s in
  trap_cont ToSmodeExcp s.
Definition smode_leave s : outcome cpu :=
  exec (restore_sstatus_and_sepc ++ restore_gprs_except_t6_and_sp ++ [Ld t6 (31*8) sp; Ld sp (2*8) sp]) s.

Definition umode_enter s : outcome (cpu * target) :=
  let! s := exec ([Csrrw sp SSCRATCH sp; Addi sp sp (-34*8); Sd t6 (31*8) sp; Csrr t6 SSCRATCH; Sd t6 (2*8) sp] ++
                  save_gprs_except_t6_and_sp ++ save_sstatus_and_sepc ++
                  [La t6 trap_entry_from_smode; Csrw STVEC t6; Li ra back]) s in
  trap_cont ToUmodeExcp s.
Definition umode_leave s : outcome cpu :=
  exec ([La t6 trap_entry_from_umode; Csrw STVEC t6; Addi t6 sp (34*8); Csrw SSCRATCH t6] ++
        restore_sstatus_and_sepc ++ restore_gprs_except_t6_and_sp ++ [Ld t6 (31*8) sp; Ld sp (2*8) sp]) s.

(** A trap from its entry to [sret], with the handler that is called. *)
Section Handler.
Context (handler : target -> cpu -> outcome cpu).
Definition trap_from_smode s : outcome cpu := let! (s, t) := smode_enter s in let! s := handler t s in smode_leave s.
Definition trap_from_umode s : outcome cpu := let! (s, t) := umode_enter s in let! s := handler t s in umode_leave s.
End Handler.

(** ** The machine-mode trap, up to [mret] *)
Definition mmode_intr_handler : list instr := [Li t0 0x20; Csrs MIP t0; Slli t0 t0 2; Csrc MIE t0].
Definition mmode_excp_handler : list instr := [Li t0 0x20; Csrc MIP t0; Slli t0 t0 2; Csrs MIE t0; Csrr t0 MEPC; Addi t0 t0 4; Csrw MEPC t0].
Definition mmode_trap_entry s : outcome cpu :=
  let! s := exec [Csrw MSCRATCH t0; Csrr t0 MCAUSE] s in
  let! s :=
    if bgez s t0 then
      let! s := exec [Addi t0 t0 (-9)] s in
      if bnez s t0 then Panic else exec mmode_excp_handler s
    else
      let! s := exec [Addi t0 t0 (-7); Slli t0 t0 1] s in
      if bnez s t0 then Panic else exec mmode_intr_handler s in
  exec [Csrr t0 MSCRATCH] s.

(** * thrasm.s *)

(** [struct thread_context]: s0 to s11, ra and sp. *)
Definition context_regs : list (nat * Z) :=
  [(8%nat, 0); (9%nat, 1); (18%nat, 2); (19%nat, 3); (20%nat, 4); (21%nat, 5); (22%nat, 6); (23%nat, 7);
   (24%nat, 8); (25%nat, 9); (26%nat, 10); (27%nat, 11); (ra, 12); (sp, 13)].

Definition thread_swtch s : outcome cpu :=
  exec (store_to tp context_regs ++ [Mv tp a0] ++ load_from tp (rev context_regs)) s.

(** The glue code is at [glue], which [jal] leaves in t0. *)
Definition thread_setup (glue : Z) s : outcome cpu :=
  exec ([Sd a1 (13*8) a0; Sd a2 (11*8) a0; Sd a3 (0*8) a0; Sd a4 (1*8) a0; Sd a5 (2*8) a0; Sd a6 (3*8) a0; Sd a7 (4*8) a0] ++
        [Li t0 glue; Sd t0 (12*8) a0]) s.
(** Where [jr s11] goes. *)
Definition thread_glue (thread_exit : Z) s : outcome (cpu * Z) :=
  let! s := exec [La ra thread_exit; Mv a0 s0; Mv a1 s1; Mv fp sp] s in Ret (s, rx s s11).

Definition thread_finish_jump s : outcome cpu :=
  exec [La t0 trap_entry_from_umode; Csrw STVEC t0; Csrw SSCRATCH a0; Mv sp a1; Csrw SEPC a2] s.

(** The registers of the child; x10 is set, x4 and x11 are left out, x11 is the
    base of the frame and comes last. *)
Definition fork_regs : list (nat * Z) := map (fun r => (r, Z.of_nat r))
  [31; 30; 29; 28; 27; 26; 25; 24; 23; 22; 21; 20; 19; 18; 17; 16; 15; 14; 13; 12]%nat.
Definition fork_regs_low : list (nat * Z) := map (fun r => (r, Z.of_nat r)) [9; 8; 7; 6; 5; 3; 2; 1]%nat.
Definition thread_finish_fork s : outcome cpu :=
  exec ([La t0 trap_entry_from_umode; Csrw STVEC t0; Ld t0 (15*8) a0; Csrw SSCRATCH t0;
         Ld t6 (33*8) a1; Csrw SEPC t6; Ld t6 (32*8) a1; Csrw SSTATUS t6] ++
        store_to tp context_regs ++ [Mv tp a0] ++
        load_from a1 fork_regs ++ [Li a0 0] ++ load_from a1 fork_regs_low ++ [Ld a1 (11*8) a1]) s.
End Traps.
End Cpu.

(** * Executing a sequence *)

Section Exec.
Context {H : Type} `{HartLaws H}.
Notation cpu := (cpu H).
Implicit Types s : cpu.

Lemma exec_app l1 l2 s : exec (l1 ++ l2) s = (let! s := exec l1 s in exec l2 s).
Proof. revert s; induction l1 as [|i l1 IH]; intros s; cbn [app exec obind]; [done|]. destruct (exec1 i s); cbn [obind]; [apply IH|done..]. Qed.

Lemma rx_wx s r v r' : r <> 0%nat -> rx (wx s r v) r' = if Nat.eqb r' r then v else rx s r'.
Proof. intros Hr. unfold rx. destruct r' as [|r']; [by rewrite (proj2 (Nat.eqb_neq _ _))|done]. Qed.
Lemma exec_cons i l s : exec (i :: l) s = (let! s := exec1 i s in exec l s).
Proof. done. Qed.

(** A structure of [n] double words at [B]. *)
Definition at_words (B n : Z) : Prop := 0 <= B /\ B mod 8 = 0 /\ B + n * 8 <= 2 ^ 64.

Lemma word_addr B n k : at_words B n -> 0 <= k < n -> u64 (B + k * 8) = B + k * 8 /\ (B + k * 8) mod 8 = 0.
Proof. intros (Hb & Hm & Hn) Hk. rewrite u64_small by lia. split; [done|]. Z.to_euclidean_division_equations; lia. Qed.

Lemma exec_sd s B n k r b l : rx s b = B -> at_words B n -> 0 <= k < n -> exec (Sd r (k * 8) b :: l) s = exec l (wmem s (B + k * 8) (rx s r)).
Proof. intros Hb Hn Hk. destruct (word_addr B n k Hn Hk) as [E1 E2]. cbn [exec exec1]. by rewrite Hb, E1, E2. Qed.
Lemma exec_ld s B n k r b l : rx s b = B -> at_words B n -> 0 <= k < n -> exec (Ld r (k * 8) b :: l) s = exec l (wx s r (dmem s (B + k * 8))).
Proof. intros Hb Hn Hk. destruct (word_addr B n k Hn Hk) as [E1 E2]. cbn [exec exec1]. by rewrite Hb, E1, E2. Qed.

Lemma exec_store b l s B n : rx s b = B -> at_words B n -> Forall (fun e => 0 <= e.2 < n) l -> NoDup l.*2 ->
  exists m, exec (store_to b l) s = Ret {| gpr := gpr s; csrs := csrs s; dmem := m |} /\
    (forall r k, (r, k) ∈ l -> m (B + k * 8) = rx s r) /\
    (forall a, (forall k, k ∈ l.*2 -> a <> B + k * 8) -> m a = dmem s a).
Proof.
  intros Hb Hn. revert s Hb. induction l as [|[r k] l IH]; intros s Hb Hf Hd.
  - exists (dmem s). split; [by destruct s|]. split; [|done]. intros r k Hin. by apply elem_of_nil in Hin.
  - apply Forall_cons in Hf as [Hk Hf]. cbn [fmap list_fmap snd] in Hd. apply NoDup_cons in Hd as [Hnk Hd].
    cbn [store_to map]. rewrite (exec_sd s B n k) by done. fold (store_to b l).
    destruct (IH (wmem s (B + k * 8) (rx s r))) as (m & -> & M1 & M2); [done..|]. exists m. split; [done|]. split.
    + intros r' k' [[= -> ->]|Hin]%elem_of_cons; [|by rewrite (M1 r' k' Hin)].
      rewrite M2; [cbn; by rewrite Z.eqb_refl|]. intros k' Hk' E. assert (k' = k) as -> by lia. done.
    + intros a Ha. rewrite M2 by (intros k' Hk'; apply Ha; cbn; by right). cbn.
      rewrite (proj2 (Z.eqb_neq _ _)); [done|]. apply Ha. cbn. by left.
Qed.

Lemma exec_load b l s B n : rx s b = B -> at_words B n -> Forall (fun e => 0 <= e.2 < n) l -> b ∉ l.*1 -> NoDup l.*1 ->
  exists g, exec (load_from b l) s = Ret {| gpr := g; csrs := csrs s; dmem := dmem s |} /\
    (forall r k, (r, k) ∈ l -> g r = dmem s (B + k * 8)) /\ (forall r, r ∉ l.*1 -> g r = gpr s r).
Proof.
  intros Hb Hn. revert s Hb. induction l as [|[r k] l IH]; intros s Hb Hf Hnb Hd.
  - exists (gpr s). split; [by destruct s|]. split; [|done]. intros r k Hin. by apply elem_of_nil in Hin.
  - apply Forall_cons in Hf as [Hk Hf]. cbn [fmap list_fmap fst] in Hd, Hnb. apply NoDup_cons in Hd as [Hnr Hd].
    apply not_elem_of_cons in Hnb as [Hne Hnb]. cbn [load_from map]. rewrite (exec_ld s B n k) by done. fold (load_from b l).
    destruct (IH (wx s r (dmem s (B + k * 8)))) as (g & -> & G1 & G2); [|done..|].
    { unfold rx, wx in *. destruct b; [done|]. cbn [gpr]. by rewrite (proj2 (Nat.eqb_neq _ _) Hne). }
    exists g. split; [done|]. split.
    + intros r' k' [[= -> ->]|Hin]%elem_of_cons; [|by rewrite (G1 r' k' Hin)]. rewrite G2 by done. cbn. by rewrite Nat.eqb_refl.
    + intros r' [Hr' Hr2]%not_elem_of_cons. rewrite G2 by done. cbn in *. by rewrite (proj2 (Nat.eqb_neq _ _) Hr').
Qed.

(** * The trap frame *)

(** The frame at [B]. *)
Definition frame_at (m : Z -> Z) (B : Z) : trap_frame :=
  {| tf_x := map (fun i => m (B + Z.of_nat i * 8)) (seq 0 32); tf_sstatus := m (B + 32 * 8); tf_sepc := m (B + 33 * 8) |}.

Lemma frame_reg m B i : (i < 32)%nat -> reg (frame_at m B) i = m (B + Z.of_nat i * 8).
Proof. intros Hi. unfold reg, frame_at. cbn [tf_x]. by rewrite list_lookup_fmap, lookup_seq_lt. Qed.

Lemma saved_places : Forall (fun e => 0 <= e.2 < 34) gprs_except_t6_and_sp /\ NoDup gprs_except_t6_and_sp.*2 /\
  Forall (fun e => 0 <= e.2 < 34) (rev gprs_except_t6_and_sp) /\ sp ∉ (rev gprs_except_t6_and_sp).*1 /\ NoDup (rev gprs_except_t6_and_sp).*1.
Proof. split_and!; apply (bool_decide_unpack _); vm_compute; exact I. Qed.
Lemma saved_regs r : (1 <= r < 31)%nat -> r <> sp -> (r, Z.of_nat r) ∈ gprs_except_t6_and_sp.
Proof.
  intros Hr Hne. unfold gprs_except_t6_and_sp. apply list_elem_of_fmap. exists r. split; [done|].
  assert (Hall : Forall (fun r => r = sp \/ r ∈ [1; 3; 4; 5; 6; 7; 8; 9; 10; 11; 12; 13; 14; 15; 16; 17; 18; 19; 20; 21; 22; 23; 24; 25; 26; 27; 28; 29; 30]%nat)
    (seq 1 30)) by (apply (bool_decide_unpack _); vm_compute; exact I).
  rewrite Forall_forall in Hall. destruct (Hall r) as [?|?]; [apply elem_of_seq; lia|done..].
Qed.
Lemma saved_only r k : (r, k) ∈ gprs_except_t6_and_sp -> k = Z.of_nat r /\ (1 <= r < 31)%nat /\ r <> sp.
Proof.
  intros Hin. assert (Hall : Forall (fun e => e.2 = Z.of_nat e.1 /\ (1 <= e.1)%nat /\ (e.1 < 31)%nat /\ e.1 <> sp) gprs_except_t6_and_sp)
    by (apply (bool_decide_unpack _); vm_compute; exact I).
  rewrite Forall_forall in Hall. specialize (Hall _ Hin). cbn in Hall. tauto.
Qed.

(** The registers but for sp and t6 in the frame, with sstatus and sepc. *)
Lemma save_frame s B : rx s sp = B -> at_words B 34 ->
  exists s', exec (save_gprs_except_t6_and_sp ++ save_sstatus_and_sepc) s = Ret s' /\ csrs s' = csrs s /\
    (forall r, r <> t6 -> gpr s' r = gpr s r) /\
    (forall r, (1 <= r < 31)%nat -> r <> sp -> dmem s' (B + Z.of_nat r * 8) = rx s r) /\
    dmem s' (B + 32 * 8) = csr_rd (csrs s) SSTATUS /\ dmem s' (B + 33 * 8) = csr_rd (csrs s) SEPC /\
    dmem s' (B + 2 * 8) = dmem s (B + 2 * 8) /\ dmem s' (B + 31 * 8) = dmem s (B + 31 * 8) /\
    (forall a, a < B \/ B + 34 * 8 <= a -> dmem s' a = dmem s a).
Proof.
  intros Hb HB. destruct saved_places as (F1 & D1 & _). rewrite exec_app.
  unfold save_gprs_except_t6_and_sp. destruct (exec_store sp _ s B 34 Hb HB F1 D1) as (m & -> & M1 & M2). cbn [obind]. unfold save_sstatus_and_sepc.
  rewrite exec_cons. cbn [exec1 obind]. rewrite (exec_sd _ B 34 32) by (done || lia). rewrite exec_cons. cbn [exec1 obind].
  rewrite (exec_sd _ B 34 33) by (done || lia). eexists. split; [reflexivity|]. cbn [exec wmem wx csrs dmem gpr rx].
  assert (Hout : forall k, (k = 2 \/ 30 < k) -> m (B + k * 8) = dmem s (B + k * 8)).
  { intros k Hk. apply M2. intros k' ((r & ?) & -> & Hin)%list_elem_of_fmap. cbn in *. apply saved_only in Hin. lia. }
  split; [done|]. split; [by intros r ->%Nat.eqb_neq|]. split.
  { intros r Hr Hne. rewrite !(proj2 (Z.eqb_neq _ _)) by lia. apply M1. by apply saved_regs. }
  rewrite !Z.eqb_refl, !(proj2 (Z.eqb_neq _ _)) by lia. split_and!; try done; try (apply Hout; lia).
  intros a Ha. rewrite !(proj2 (Z.eqb_neq _ _)) by lia. apply M2.
  intros k' ((r & ?) & -> & Hin)%list_elem_of_fmap. cbn in *. apply saved_only in Hin. lia.
Qed.

(** What is in a frame: a return address that sepc can hold. *)
Definition resumable (f : trap_frame) : Prop := 0 <= tf_sepc f < 2 ^ 64 /\ tf_sepc f mod 4 = 0.

(** The registers but sstatus and sepc. *)
Definition same_csrs (h h' : H) (but : list csr) : Prop := forall r, csr_file r ∉ but -> csr_rd h' r = csr_rd h r.

(** The processor in the state of a frame. *)
Record in_frame s (f : trap_frame) : Prop := {
  if_regs : forall r, (1 <= r < 32)%nat -> rx s r = reg f r;
  if_sepc : csr_rd (csrs s) SEPC = tf_sepc f;
  if_sstatus : same_bits (visible SSTATUS) (csr_rd (csrs s) SSTATUS) (tf_sstatus f);
}.

Lemma status_written h v : same_bits (visible SSTATUS) (csr_rd (csr_wr h SSTATUS v) SSTATUS) v.
Proof. intros i Hi. rewrite (csr_view _ SSTATUS i Hi I). exact (csr_set h SSTATUS v i Hi I). Qed.

Lemma restore_frame s B : rx s sp = B -> at_words B 34 -> resumable (frame_at (dmem s) B) ->
  exists s', exec (restore_sstatus_and_sepc ++ restore_gprs_except_t6_and_sp ++ [Ld t6 (31*8) sp; Ld sp (2*8) sp]) s = Ret s' /\
    in_frame s' (frame_at (dmem s) B) /\ same_csrs (csrs s) (csrs s') [SEPC; MSTATUS] /\ dmem s' = dmem s.
Proof.
  intros Hb HB [Hw Ha]. destruct saved_places as (_ & _ & F & Hn & D). cbn [tf_sepc frame_at] in Hw, Ha.
  rewrite exec_app. unfold restore_sstatus_and_sepc.
  rewrite (exec_ld _ B 34 33) by (done || lia). rewrite exec_cons. cbn [exec1 obind].
  rewrite (exec_ld _ B 34 32) by (done || lia). rewrite exec_cons. cbn [exec1 obind]. cbn [exec obind].
  set (s1 := wcsr _ _). rewrite exec_app. unfold restore_gprs_except_t6_and_sp.
  destruct (exec_load sp _ s1 B 34 Hb HB F Hn D) as (g & -> & G1 & G2). cbn [obind].
  assert (Gsp : g sp = B) by (by rewrite G2).
  rewrite (exec_ld _ B 34 31) by (done || lia). rewrite (exec_ld _ B 34 2) by (done || lia). eexists. split; [reflexivity|].
  cbn [s1 exec wx wcsr csrs dmem gpr rx csrrw fst snd Nat.eqb]. split; [split|].
  - intros r Hr. rewrite frame_reg, !rx_wx by lia.
    destruct (Nat.eqb_spec r sp) as [->|H2]; [done|]. destruct (Nat.eqb_spec r t6) as [->|H31]; [done|].
    destruct r as [|r]; [lia|]. apply G1. apply list_elem_of_In, in_rev, list_elem_of_In, saved_regs; [lia|done].
  - cbn [wx csrs]. rewrite csr_other by done. apply csr_same; [exact Hw|]. cbn. by apply Z.eqb_eq.
  - apply status_written.
  - split; [|done]. intros r Hr. apply not_elem_of_cons in Hr as [Hr1 [Hr2 _]%not_elem_of_cons]. cbn [wx csrs]. by rewrite !csr_other by (cbn; congruence).
Qed.

(** ** The entry code *)

(** What the handler is told: the exception code, or the code of an interrupt
    without its first bit. *)
Definition cause_code (c : Z) : Z := if c <? 2 ^ 63 then c else c - 2 ^ 63.
Definition cause_target (excp : target) (c : Z) : target := if c <? 2 ^ 63 then excp else ToIntr.

Lemma trap_cont_spec excp s : let c := csr_rd (csrs s) SCAUSE in
  exists s', trap_cont excp s = Ret (s', cause_target excp c) /\ rx s' a0 = cause_code c /\ rx s' a1 = rx s sp /\
    (forall r, r <> a0 -> r <> a1 -> gpr s' r = gpr s r) /\ csrs s' = csrs s /\ dmem s' = dmem s.
Proof.
  intros c. pose proof (csr_width (csrs s) SCAUSE) as Hc. fold c in Hc. unfold trap_cont. cbn [exec exec1 obind].
  unfold bgez, cause_code, cause_target. cbn [rx wx gpr csrs Nat.eqb]. fold c. destruct (Z.ltb_spec c (2 ^ 63)) as [Hlt|Hge].
  - eexists. split; [reflexivity|]. cbn [rx wx gpr csrs Nat.eqb dmem]. split_and!; try done. by intros r ->%Nat.eqb_neq ->%Nat.eqb_neq.
  - eexists. split; [reflexivity|]. cbn [rx wx gpr csrs Nat.eqb dmem]. split_and!; try done; [|by intros r ->%Nat.eqb_neq ->%Nat.eqb_neq].
    rewrite Z.shiftl_mul_pow2, Z.shiftr_div_pow2 by lia. unfold u64. Z.to_euclidean_division_equations; lia.
Qed.

Section Entry.
Context (trap_entry_from_smode trap_entry_from_umode back : Z).
Context (Hsmode : 0 <= trap_entry_from_smode < 2 ^ 64 /\ trap_entry_from_smode mod 4 = 0).
Context (Humode : 0 <= trap_entry_from_umode < 2 ^ 64 /\ trap_entry_from_umode mod 4 = 0).

(** The state [s1] in which the handler is called, for a trap in state [s]
    with the frame at [B]. *)
Record entered s s1 (B : Z) : Prop := {
  en_code : rx s1 a0 = cause_code (csr_rd (csrs s) SCAUSE);
  en_frame : rx s1 a1 = B;
  en_sp : rx s1 sp = B;
  en_regs : forall r, (1 <= r < 32)%nat -> reg (frame_at (dmem s1) B) r = rx s r;
  en_sstatus : tf_sstatus (frame_at (dmem s1) B) = csr_rd (csrs s) SSTATUS;
  en_sepc : tf_sepc (frame_at (dmem s1) B) = csr_rd (csrs s) SEPC;
  en_kept : forall r, r ∉ [ra; sp; a0; a1; t6] -> gpr s1 r = gpr s r;
  en_mem : forall a, a < B \/ B + 34 * 8 <= a -> dmem s1 a = dmem s a;
}.

(** The last part of both entries: [s0] has the frame at [B] with sp and t6 of
    [s] in it. *)
Lemma enter_frame s s0 B excp rest : rx s0 sp = B -> at_words B 34 ->
  (forall r, r <> sp -> r <> t6 -> gpr s0 r = gpr s r) -> dmem s0 (B + 2 * 8) = rx s sp -> dmem s0 (B + 31 * 8) = rx s t6 ->
  (forall a, a < B \/ B + 34 * 8 <= a -> dmem s0 a = dmem s a) ->
  (forall c, c = SSTATUS \/ c = SEPC -> csr_rd (csrs s0) c = csr_rd (csrs s) c) ->
  (forall s', exists s2, exec rest s' = Ret s2 /\ dmem s2 = dmem s' /\ (forall r, r <> t6 -> r <> ra -> gpr s2 r = gpr s' r) /\
     (csrs s' = csrs s0 -> csr_rd (csrs s2) SCAUSE = csr_rd (csrs s) SCAUSE)) ->
  exists s1, (let! s := exec (save_gprs_except_t6_and_sp ++ save_sstatus_and_sepc ++ rest) s0 in trap_cont excp s)
      = Ret (s1, cause_target excp (csr_rd (csrs s) SCAUSE)) /\ entered s s1 B /\
    exists s', csrs s' = csrs s0 /\ exists s2, exec rest s' = Ret s2 /\ csrs s1 = csrs s2.
Proof.
  intros Hb HB Hg H2 H31 Hout Hc Hrest. destruct (save_frame s0 B Hb HB) as (s' & E & Hcs & Hg' & Hm & M32 & M33 & M2 & M31 & Mo).
  rewrite app_assoc, exec_app, E. cbn [obind]. destruct (Hrest s') as (s2 & E2 & Hd2 & Hg2 & Hsc). rewrite E2. cbn [obind].
  destruct (trap_cont_spec excp s2) as (s1 & E1 & Ha0 & Ha1 & Hg1 & Hc1 & Hd1). rewrite (Hsc Hcs) in E1, Ha0.
  exists s1. split; [exact E1|]. split; [|exists s'; split; [done|]; exists s2; done].
  assert (Hsp : rx s2 sp = B) by (cbn [rx] in *; by rewrite Hg2, Hg').
  split; rewrite ?Hd1, ?Hd2.
  - done.
  - by rewrite Ha1.
  - cbn [rx] in *. by rewrite Hg1.
  - intros r Hr. rewrite frame_reg by lia. destruct (Nat.eq_dec r sp) as [->|Hne]; [change (Z.of_nat sp) with 2; by rewrite M2|].
    destruct (Nat.eq_dec r t6) as [->|Hn6]; [change (Z.of_nat t6) with 31; by rewrite M31|]. rewrite Hm by lia. destruct r as [|r]; [lia|]. cbn [rx]. by apply Hg.
  - cbn [tf_sstatus frame_at]. rewrite M32. apply Hc. by left.
  - cbn [tf_sepc frame_at]. rewrite M33. apply Hc. by right.
  - intros r Hr. rewrite !not_elem_of_cons in Hr. destruct Hr as (R1 & R2 & R3 & R4 & R5 & _). by rewrite Hg1, Hg2, Hg', Hg.
  - intros a Ha. by rewrite Mo, Hout.
Qed.

Lemma umode_enter_spec s : let ksp := csr_rd (csrs s) SSCRATCH in
  0 <= gpr s sp < 2 ^ 64 -> ksp mod 8 = 0 -> 34 * 8 <= ksp ->
  exists s1, umode_enter trap_entry_from_smode back s = Ret (s1, cause_target ToUmodeExcp (csr_rd (csrs s) SCAUSE)) /\
    entered s s1 (ksp - 34 * 8) /\ csr_rd (csrs s1) STVEC = trap_entry_from_smode /\ same_csrs (csrs s) (csrs s1) [STVEC; SSCRATCH].
Proof.
  intros ksp Hu Hal Hlo. pose proof (csr_width (csrs s) SSCRATCH) as Hw. fold ksp in Hw.
  assert (HB : at_words (ksp - 34 * 8) 34) by (split_and!; [lia|Z.to_euclidean_division_equations; lia|lia]).
  unfold umode_enter. rewrite exec_app, !exec_cons. cbn [exec1 csrrw obind]. fold ksp.
  change (-34 * 8) with (-272). rewrite !exec_cons. cbn [exec1 obind]. cbn [rx wx wcsr gpr csrs Nat.eqb].
  replace (u64 (ksp + -272)) with (ksp - 34 * 8) by (rewrite u64_small; lia).
  rewrite (exec_sd _ (ksp - 34 * 8) 34 31) by (done || lia). rewrite exec_cons. cbn [exec1 obind].
  rewrite (exec_sd _ (ksp - 34 * 8) 34 2) by (done || lia). cbn [exec obind].
  set (s0 := wmem _ _ _).
  assert (Hus : csr_rd (csr_wr (csrs s) SSCRATCH (gpr s sp)) SSCRATCH = gpr s sp) by (by apply csr_same).
  destruct (enter_frame s s0 (ksp - 34 * 8) ToUmodeExcp [La t6 trap_entry_from_smode; Csrw STVEC t6; Li ra back]) as (s1 & E & He & s' & Hc' & s2 & E2 & Hc2).
  - done.
  - done.
  - intros r R1 R2. cbn. by rewrite (proj2 (Nat.eqb_neq _ _) R1), (proj2 (Nat.eqb_neq _ _) R2).
  - cbn [s0 wmem dmem rx wx gpr csrs Nat.eqb wcsr]. by rewrite Z.eqb_refl, Hus.
  - cbn [s0 wmem dmem rx wx gpr csrs Nat.eqb wcsr]. by rewrite (proj2 (Z.eqb_neq _ _)), Z.eqb_refl by lia.
  - intros a Ha. cbn [s0 wmem dmem wx wcsr]. by rewrite !(proj2 (Z.eqb_neq _ _)) by lia.
  - intros c [-> | ->]; cbn [s0 wmem csrs wx wcsr]; by rewrite csr_other.
  - intros s'. eexists. split; [reflexivity|]. split; [done|]. split; [intros r R1 R2; cbn; by rewrite (proj2 (Nat.eqb_neq _ _) R1), (proj2 (Nat.eqb_neq _ _) R2)|].
    intros Hc'. cbn [csrs wx wcsr csrrw fst]. rewrite csr_other, Hc' by done. cbn [s0 wmem csrs wx wcsr]. by rewrite csr_other.
  - exists s1. split; [exact E|]. split; [exact He|]. cbn [exec exec1 obind] in E2. injection E2 as <-. rewrite Hc2. cbn [csrs wx wcsr csrrw fst rx gpr Nat.eqb].
    rewrite Hc'. cbn [s0 wmem csrs wx wcsr]. split; [apply csr_same; [apply Hsmode|apply Z.eqb_eq, Hsmode]|].
    intros r [R1 [R2 _]%not_elem_of_cons]%not_elem_of_cons. by rewrite !csr_other by (cbn; congruence).
Qed.

Lemma smode_enter_spec s : 0 <= gpr s sp < 2 ^ 64 -> gpr s sp mod 8 = 0 -> 34 * 8 <= gpr s sp ->
  exists s1, smode_enter back s = Ret (s1, cause_target ToSmodeExcp (csr_rd (csrs s) SCAUSE)) /\ entered s s1 (gpr s sp - 34 * 8) /\ csrs s1 = csrs s.
Proof.
  intros Hu Hal Hlo. set (B := gpr s sp - 34 * 8).
  assert (HB : at_words B 34) by (unfold B; split_and!; [lia|Z.to_euclidean_division_equations; lia|lia]).
  unfold smode_enter. rewrite exec_app, !exec_cons. cbn [exec1 obind]. change (-34 * 8) with (-272). cbn [rx wx gpr].
  replace (u64 (gpr s sp + -272)) with B by (rewrite u64_small; unfold B; lia).
  rewrite (exec_sd _ B 34 31) by (done || lia). rewrite exec_cons. cbn [exec1 obind]. cbn [rx wx wmem gpr Nat.eqb].
  replace (u64 (B + 34 * 8)) with (gpr s sp) by (rewrite u64_small; unfold B; lia).
  rewrite (exec_sd _ B 34 2) by (done || lia). cbn [exec obind]. set (s0 := wmem _ _ _).
  destruct (enter_frame s s0 B ToSmodeExcp [Li ra back]) as (s1 & E & He & s' & Hc' & s2 & E2 & Hc2).
  - done.
  - done.
  - intros r R1 R2. cbn. by rewrite (proj2 (Nat.eqb_neq _ _) R1), (proj2 (Nat.eqb_neq _ _) R2).
  - cbn [s0 wmem dmem rx wx gpr csrs Nat.eqb wcsr]. by rewrite Z.eqb_refl.
  - cbn [s0 wmem dmem rx wx gpr csrs Nat.eqb wcsr]. by rewrite (proj2 (Z.eqb_neq _ _)), Z.eqb_refl by lia.
  - intros a Ha. cbn [s0 wmem dmem wx wcsr]. by rewrite !(proj2 (Z.eqb_neq _ _)) by lia.
  - done.
  - intros s'. eexists. split; [reflexivity|]. split; [done|]. split; [intros r R1 R2; cbn; by rewrite (proj2 (Nat.eqb_neq _ _) R2)|].
    intros Hc'. cbn [csrs wx]. by rewrite Hc'.
  - exists s1. split; [exact E|]. split; [exact He|]. cbn [exec exec1 obind] in E2. injection E2 as <-. rewrite Hc2. cbn [csrs wx]. by rewrite Hc'.
Qed.

Lemma umode_leave_spec s B : rx s sp = B -> at_words B 35 -> resumable (frame_at (dmem s) B) ->
  exists s', umode_leave trap_entry_from_umode s = Ret s' /\ in_frame s' (frame_at (dmem s) B) /\
    csr_rd (csrs s') STVEC = trap_entry_from_umode /\ csr_rd (csrs s') SSCRATCH = B + 34 * 8 /\ dmem s' = dmem s.
Proof.
  intros Hb HB Hr. unfold umode_leave. rewrite exec_app. cbn [exec exec1 obind].
  set (s1 := wcsr _ _). assert (HB' : at_words B 34) by (destruct HB as (? & ? & ?); split_and!; [done..|lia]).
  destruct (restore_frame s1 B Hb HB' Hr) as (s' & E & Hf & Hc & Hd). exists s'. split; [exact E|]. split; [exact Hf|].
  rewrite !Hc by (rewrite !not_elem_of_cons; split_and!; [done..|apply not_elem_of_nil]).
  cbn [s1 wcsr csrs csrrw fst wx rx gpr Nat.eqb] in *. rewrite (csr_other _ SSCRATCH STVEC) by done. destruct HB as (B1 & B2 & B3).
  split; [apply csr_same; [apply Humode|apply Z.eqb_eq, Humode]|]. split; [|done]. cbn [rx] in Hb. rewrite Hb, u64_small by lia.
  apply csr_same; [lia|done].
Qed.

(** C5: a trap from user mode saves the whole state of the program and gives
    it back: the handler is called for the exception or with the code of the
    interrupt, with a frame on the kernel stack that holds the 31 registers,
    sstatus and sepc, and with the trap vector of supervisor mode; whatever it
    does, the program resumes in the state that is in the frame when it
    returns, with the trap vector and the kernel stack pointer of user mode.
    The thread pointer of the kernel is the tp of the program: the entry code
    does not load it from the stack anchor. *)
Theorem umode_trap_frame s handler : let ksp := csr_rd (csrs s) SSCRATCH in let B := ksp - 34 * 8 in
  0 <= gpr s sp < 2 ^ 64 -> ksp mod 8 = 0 -> 34 * 8 <= ksp -> ksp + 8 <= 2 ^ 64 ->
  (forall t s1, entered s s1 B -> exists s2, handler t s1 = Ret s2 /\ rx s2 sp = B /\ resumable (frame_at (dmem s2) B)) ->
  exists s1 s2 s3, entered s s1 B /\ rx s1 tp = rx s tp /\ csr_rd (csrs s1) STVEC = trap_entry_from_smode /\
    handler (cause_target ToUmodeExcp (csr_rd (csrs s) SCAUSE)) s1 = Ret s2 /\
    trap_from_umode trap_entry_from_smode trap_entry_from_umode back handler s = Ret s3 /\
    in_frame s3 (frame_at (dmem s2) B) /\ dmem s3 = dmem s2 /\
    csr_rd (csrs s3) STVEC = trap_entry_from_umode /\ csr_rd (csrs s3) SSCRATCH = ksp.
Proof.
  intros ksp B Hu Hal Hlo Hhi Hh. destruct (umode_enter_spec s Hu Hal Hlo) as (s1 & E1 & He & Hsv & _). fold ksp B in He.
  destruct (Hh (cause_target ToUmodeExcp (csr_rd (csrs s) SCAUSE)) s1 He) as (s2 & E2 & Hsp & Hr).
  destruct (umode_leave_spec s2 B Hsp) as (s3 & E3 & Hf & Hv & Hs & Hd); [unfold B; split_and!; [lia|Z.to_euclidean_division_equations; lia|lia]|done|].
  exists s1, s2, s3. split_and!; try done.
  - cbn [rx]. apply (en_kept _ _ _ He). apply (bool_decide_unpack _). vm_compute. exact I.
  - unfold trap_from_umode. rewrite E1. cbn [obind]. rewrite E2. exact E3.
  - rewrite Hs. unfold B. lia.
Qed.

(** The same for a trap in the kernel, whose frame is below its stack
    pointer. *)
Lemma smode_trap_frame s handler : let B := gpr s sp - 34 * 8 in
  0 <= gpr s sp < 2 ^ 64 -> gpr s sp mod 8 = 0 -> 34 * 8 <= gpr s sp ->
  (forall t s1, entered s s1 B -> exists s2, handler t s1 = Ret s2 /\ rx s2 sp = B /\ resumable (frame_at (dmem s2) B)) ->
  exists s1 s2 s3, entered s s1 B /\ handler (cause_target ToSmodeExcp (csr_rd (csrs s) SCAUSE)) s1 = Ret s2 /\
    trap_from_smode back handler s = Ret s3 /\ in_frame s3 (frame_at (dmem s2) B) /\ dmem s3 = dmem s2.
Proof.
  intros B Hu Hal Hlo Hh. destruct (smode_enter_spec s Hu Hal Hlo) as (s1 & E1 & He & _). fold B in He.
  destruct (Hh (cause_target ToSmodeExcp (csr_rd (csrs s) SCAUSE)) s1 He) as (s2 & E2 & Hsp & Hr).
  assert (HB : at_words B 34) by (unfold B; split_and!; [lia|Z.to_euclidean_division_equations; lia|lia]).
  destruct (restore_frame s2 B Hsp HB Hr) as (s3 & E3 & Hf & _ & Hd). exists s1, s2, s3. split_and!; try done.
  unfold trap_from_smode. rewrite E1. cbn [obind]. rewrite E2. exact E3.
Qed.
End Entry.

(** * Machine mode *)

(** A bit of mie or mip that is set or cleared; the others stay. *)
Lemma bit_set h r m i : csr_file r = r -> i ∈ writable r -> 0 <= i -> Z.testbit (csr_rd (Csr.csrrs h r m).1 r) i = Z.testbit (csr_rd h r) i || Z.testbit m i.
Proof. intros Hf Hi Hn. cbn [Csr.csrrs fst]. pose proof (csr_set h r (Z.lor (csr_rd h r) m) i Hi (delegated_self _ r i Hf)) as E. rewrite Hf in E. by rewrite E, Z.lor_spec. Qed.
Lemma bit_clear h r m i : csr_file r = r -> i ∈ writable r -> 0 <= i ->
  Z.testbit (csr_rd (Csr.csrrc h r m).1 r) i = Z.testbit (csr_rd h r) i && negb (Z.testbit m i).
Proof. intros Hf Hi Hn. cbn [Csr.csrrc fst]. pose proof (csr_set h r (Z.ldiff (csr_rd h r) m) i Hi (delegated_self _ r i Hf)) as E. rewrite Hf in E. by rewrite E, Z.ldiff_spec. Qed.

(** The timer interrupt of machine mode is on or off, the timer interrupt of
    supervisor mode is pending or not; the rest of mie and mip is as it was. *)
Definition timer_lines (h h' : H) (mtie stip : bool) : Prop :=
  (forall i, i ∈ writable MIE -> Z.testbit (csr_rd h' MIE) i = if i =? 7 then mtie else Z.testbit (csr_rd h MIE) i) /\
  (forall i, i ∈ writable MIP -> Z.testbit (csr_rd h' MIP) i = if i =? 5 then stip else Z.testbit (csr_rd h MIP) i).

Lemma bit_7 i : i ∈ writable MIE -> 0 <= i /\ Z.testbit 128 i = (i =? 7).
Proof. cbn. rewrite !elem_of_cons, elem_of_nil. intros Hi. repeat destruct Hi as [->|Hi]; done. Qed.
Lemma bit_5 i : i ∈ writable MIP -> 0 <= i /\ Z.testbit 32 i = (i =? 5).
Proof. cbn. rewrite !elem_of_cons, elem_of_nil. intros Hi. repeat destruct Hi as [->|Hi]; done. Qed.

Lemma timer_fires h : timer_lines h (Csr.csrrc (Csr.csrrs h MIP 32).1 MIE 128).1 false true.
Proof.
  split; intros i Hi.
  - destruct (bit_7 i Hi) as [Hn Hb]. rewrite bit_clear, Hb by done. cbn [Csr.csrrs fst]. rewrite csr_other by done.
    destruct (i =? 7); [apply andb_false_r|apply andb_true_r].
  - destruct (bit_5 i Hi) as [Hn Hb]. cbn [Csr.csrrc fst]. rewrite csr_other by done. rewrite bit_set, Hb by done.
    destruct (i =? 5); [apply orb_true_r|apply orb_false_r].
Qed.
Lemma timer_rearmed h : timer_lines h (Csr.csrrs (Csr.csrrc h MIP 32).1 MIE 128).1 true false.
Proof.
  split; intros i Hi.
  - destruct (bit_7 i Hi) as [Hn Hb]. rewrite bit_set, Hb by done. cbn [Csr.csrrc fst]. rewrite csr_other by done.
    destruct (i =? 7); [apply orb_true_r|apply orb_false_r].
  - destruct (bit_5 i Hi) as [Hn Hb]. cbn [Csr.csrrs fst]. rewrite csr_other by done. rewrite bit_clear, Hb by done.
    destruct (i =? 5); [apply andb_false_r|apply andb_true_r].
Qed.
Lemma timer_lines_eq h h1 h' a b : csr_rd h1 MIE = csr_rd h MIE -> csr_rd h1 MIP = csr_rd h MIP -> timer_lines h1 h' a b -> timer_lines h h' a b.
Proof. intros E1 E2 [T1 T2]. split; intros i Hi; [rewrite <- E1|rewrite <- E2]; auto. Qed.

(** Code that only uses t0. *)
Definition only_t0 s s' : Prop := dmem s' = dmem s /\ forall r, r <> t0 -> gpr s' r = gpr s r.
Lemma only_t0_wx s v h : only_t0 s (wx (wcsr s h) t0 v).
Proof. split; [done|]. intros r Hr. cbn. by rewrite (proj2 (Nat.eqb_neq _ _) Hr). Qed.
Lemma only_t0_trans s1 s2 s3 : only_t0 s1 s2 -> only_t0 s2 s3 -> only_t0 s1 s3.
Proof. intros [D1 G1] [D2 G2]. split; [congruence|]. intros r Hr. by rewrite G2, G1. Qed.
Lemma only_t0_csr s h : only_t0 s (wcsr s h).
Proof. by split. Qed.
#[local] Hint Resolve only_t0_wx only_t0_csr : core.

Lemma mmode_intr_spec s : exists s', exec mmode_intr_handler s = Ret s' /\ only_t0 s s' /\
  csrs s' = (Csr.csrrc (Csr.csrrs (csrs s) MIP 32).1 MIE 128).1.
Proof.
  eexists. split; [reflexivity|]. split; [|reflexivity]. split; [done|]. intros r Hr. cbn. by rewrite (proj2 (Nat.eqb_neq _ _) Hr).
Qed.
Lemma mmode_excp_spec s : let h := (Csr.csrrs (Csr.csrrc (csrs s) MIP 32).1 MIE 128).1 in
  exists s', exec mmode_excp_handler s = Ret s' /\ only_t0 s s' /\ csrs s' = csr_wr h MEPC (u64 (csr_rd h MEPC + 4)).
Proof.
  eexists. split; [reflexivity|]. split; [|reflexivity]. split; [done|]. intros r Hr. cbn. by rewrite (proj2 (Nat.eqb_neq _ _) Hr).
Qed.

(** The branches: what runs after t0 is in mscratch, and t0 comes back. *)
Lemma mmode_dispatch s : let h := csrs s in let c := csr_rd h MCAUSE in
  exists sx, only_t0 s sx /\ csrs sx = csr_wr h MSCRATCH (rx s t0) /\
    mmode_trap_entry s = (let! s' := if c =? 2 ^ 63 + 7 then exec mmode_intr_handler sx else if c =? 9 then exec mmode_excp_handler sx else Panic in
                          exec [Csrr t0 MSCRATCH] s').
Proof.
  intros h c. pose proof (csr_width h MCAUSE) as Hw. fold c in Hw.
  assert (Hc : csr_rd (csr_wr h MSCRATCH (rx s t0)) MCAUSE = c) by (by rewrite csr_other).
  unfold mmode_trap_entry. cbn [exec obind]. cbn [exec1 obind csrrw fst wcsr csrs]. fold h. rewrite Hc.
  unfold bgez at 1. cbn [rx wx gpr Nat.eqb]. destruct (Z.ltb_spec c (2 ^ 63)) as [Hlt|Hge].
  - rewrite (proj2 (Z.eqb_neq c (2 ^ 63 + 7))) by lia. unfold bnez. cbn [rx wx gpr Nat.eqb].
    replace (u64 (c + -9) =? 0) with (c =? 9) by (unfold u64; Z.to_euclidean_division_equations; lia).
    eexists. split; [|split; [|destruct (c =? 9); cbn [negb]; reflexivity]]; [|done].
    split; [done|]. intros r Hr. cbn. by rewrite (proj2 (Nat.eqb_neq _ _) Hr).
  - rewrite (proj2 (Z.eqb_neq c 9)) by lia. unfold bnez. cbn [rx wx gpr Nat.eqb]. rewrite Z.shiftl_mul_pow2 by lia.
    replace (u64 (u64 (c + -7) * 2 ^ 1) =? 0) with (c =? 2 ^ 63 + 7) by (unfold u64; Z.to_euclidean_division_equations; lia).
    eexists. split; [|split; [|destruct (c =? 2 ^ 63 + 7); cbn [negb]; reflexivity]]; [|done].
    split; [done|]. intros r Hr. cbn. by rewrite (proj2 (Nat.eqb_neq _ _) Hr).
Qed.

Lemma mmode_done s sx : only_t0 s sx -> csr_rd (csrs sx) MSCRATCH = rx s t0 ->
  exists s', exec [Csrr t0 MSCRATCH] sx = Ret s' /\ (forall r, rx s' r = rx s r) /\ dmem s' = dmem s /\ csrs s' = csrs sx.
Proof.
  intros [Hd Hg] Hm. eexists. split; [reflexivity|]. split; [|done]. intros r. rewrite rx_wx by done. destruct (Nat.eqb_spec r t0) as [->|Hne]; [done|].
  destruct r as [|r]; [done|]. cbn [rx]. by apply Hg.
Qed.

(** C18: the trap handler of machine mode passes the timer on: a timer
    interrupt becomes pending in supervisor mode and is turned off in machine
    mode, the call from supervisor mode turns it on again and continues behind
    the call, and neither changes a register of the program; every other trap
    ends in the panic. *)
Theorem mmode_trap_timer s : 0 <= gpr s t0 < 2 ^ 64 ->
  let h := csrs s in let mepc := csr_rd h MEPC in
  mepc mod 4 = 0 -> mepc + 4 < 2 ^ 64 ->
  if csr_rd h MCAUSE =? 2 ^ 63 + RISCV_MCAUSE_INTR_EXCODE_MTI then
    exists s', mmode_trap_entry s = Ret s' /\ (forall r, rx s' r = rx s r) /\ dmem s' = dmem s /\
      timer_lines h (csrs s') false true /\ csr_rd (csrs s') MEPC = mepc
  else if csr_rd h MCAUSE =? RISCV_SCAUSE_ECALL_FROM_SMODE then
    exists s', mmode_trap_entry s = Ret s' /\ (forall r, rx s' r = rx s r) /\ dmem s' = dmem s /\
      timer_lines h (csrs s') true false /\ csr_rd (csrs s') MEPC = mepc + 4
  else mmode_trap_entry s = Panic.
Proof.
  intros Ht0 h mepc Hal Hmax. pose proof (csr_width h MEPC) as Hw. fold mepc in Hw.
  unfold RISCV_MCAUSE_INTR_EXCODE_MTI, RISCV_SCAUSE_ECALL_FROM_SMODE.
  destruct (mmode_dispatch s) as (sx & Hx & Hcx & ->). fold h in Hcx |- *.
  assert (Hms : csr_rd (csrs sx) MSCRATCH = rx s t0) by (rewrite Hcx; by apply csr_same).
  assert (Hoth : forall r, csr_file r <> MSCRATCH -> csr_rd (csrs sx) r = csr_rd h r) by (intros r Hr; rewrite Hcx; apply csr_other; [by apply not_eq_sym|done]).
  destruct (_ =? 2 ^ 63 + 7); [|destruct (_ =? 9); [|done]].
  - destruct (mmode_intr_spec sx) as (s2 & -> & H2 & Hc2). cbn [obind].
    destruct (mmode_done s s2) as (s' & E & Hg & Hd & Hc); [by eapply only_t0_trans|rewrite Hc2; cbn [Csr.csrrc Csr.csrrs fst]; by rewrite !csr_other|].
    exists s'. rewrite Hc, Hc2. split_and!; try done.
    + apply (timer_lines_eq h (csrs sx)); [by apply Hoth..|apply timer_fires].
    + cbn [Csr.csrrc Csr.csrrs fst]. rewrite !csr_other by done. by apply Hoth.
  - destruct (mmode_excp_spec sx) as (s2 & -> & H2 & Hc2). cbn [obind].
    destruct (mmode_done s s2) as (s' & E & Hg & Hd & Hc); [by eapply only_t0_trans|rewrite Hc2; cbn [Csr.csrrc Csr.csrrs fst]; by rewrite !csr_other|].
    exists s'. rewrite Hc, Hc2. split_and!; try done.
    + apply (timer_lines_eq h (csrs sx)); [by apply Hoth..|]. destruct (timer_rearmed (csrs sx)) as [T1 T2].
      split; intros i Hi; rewrite csr_other by done; auto.
    + cbn [Csr.csrrc Csr.csrrs fst]. rewrite (csr_other _ MIE MEPC), (csr_other _ MIP MEPC), (Hoth MEPC) by done. fold mepc. rewrite u64_small by lia.
      apply csr_same; [lia|]. apply Z.eqb_eq. Z.to_euclidean_division_equations; lia.
Qed.

(** * The context switch *)

Lemma context_places : Forall (fun e => 0 <= e.2 < 14) context_regs /\ NoDup context_regs.*2 /\
  Forall (fun e => 0 <= e.2 < 14) (rev context_regs) /\ tp ∉ (rev context_regs).*1 /\ NoDup (rev context_regs).*1 /\ a0 ∉ (rev context_regs).*1.
Proof. split_and!; apply (bool_decide_unpack _); vm_compute; exact I. Qed.
Lemma context_reg r k : (r, k) ∈ context_regs -> r <> tp /\ r <> 0%nat /\ 0 <= k < 14.
Proof.
  intros Hin. assert (Hall : Forall (fun e => e.1 <> tp /\ e.1 <> 0%nat /\ 0 <= e.2 < 14) context_regs) by (apply (bool_decide_unpack _); vm_compute; exact I).
  rewrite Forall_forall in Hall. exact (Hall _ Hin).
Qed.

(** Structures that do not overlap. *)
Definition apart (B n C m : Z) : Prop := B + n * 8 <= C \/ C + m * 8 <= B.

Lemma store_context s T : rx s tp = T -> at_words T 14 ->
  exists m, exec (store_to tp context_regs) s = Ret {| gpr := gpr s; csrs := csrs s; dmem := m |} /\
    (forall r k, (r, k) ∈ context_regs -> m (T + k * 8) = rx s r) /\ (forall a, a < T \/ T + 14 * 8 <= a -> m a = dmem s a).
Proof.
  intros Ht HT. destruct context_places as (F & D & _). destruct (exec_store tp context_regs s T 14 Ht HT F D) as (m & E & M1 & M2).
  exists m. split_and!; [done..|]. intros a Ha. apply M2. intros k Hk Hak. rewrite Forall_forall in F.
  apply list_elem_of_fmap in Hk as (e & -> & He). specialize (F _ He). lia.
Qed.

Lemma thread_swtch_spec s T U : rx s tp = T -> rx s a0 = U -> at_words T 14 -> at_words U 14 -> apart T 14 U 14 ->
  exists s', thread_swtch s = Ret s' /\ csrs s' = csrs s /\ rx s' tp = U /\ rx s' a0 = U /\
    (forall r k, (r, k) ∈ context_regs -> dmem s' (T + k * 8) = rx s r /\ rx s' r = dmem s (U + k * 8)) /\
    (forall a, a < T \/ T + 14 * 8 <= a -> dmem s' a = dmem s a).
Proof.
  intros Ht Hu HT HU Hap. destruct context_places as (_ & _ & F & Hn & D & Ha0). unfold thread_swtch. rewrite !exec_app.
  destruct (store_context s T Ht HT) as (m & -> & M1 & M2). cbn [obind app]. rewrite exec_cons. cbn [exec1 obind]. set (s1 := wx _ _ _).
  destruct (exec_load tp (rev context_regs) s1 U 14 Hu HU F Hn D) as (g & -> & G1 & G2). eexists. split; [reflexivity|]. cbn [rx csrs dmem gpr].
  split; [done|]. split; [by rewrite G2|]. split; [by rewrite G2|]. split; [|exact M2].
  intros r k Hin. split; [by apply M1|]. destruct (context_reg r k Hin) as (_ & Hr & Hk). destruct r as [|r]; [done|]. cbn [rx gpr].
  rewrite (G1 _ k) by (by apply list_elem_of_In, in_rev, list_elem_of_In in Hin). cbn [s1 wx dmem]. apply M2. unfold apart in Hap. lia.
Qed.

(** A thread that switches away finds its registers again: after
    [_thread_swtch] has resumed another thread, the first switch back to it
    returns to its caller with its own stack pointer, return address and saved
    registers, whatever ran in between, as long as its context was left alone.
    What the routine returns is the thread that resumes. *)
Theorem swtch_roundtrip s s2 T U V : rx s tp = T -> rx s a0 = U -> at_words T 14 -> at_words U 14 -> apart T 14 U 14 ->
  rx s2 tp = V -> rx s2 a0 = T -> at_words V 14 -> apart V 14 T 14 ->
  exists s1, thread_swtch s = Ret s1 /\ rx s1 tp = U /\ rx s1 a0 = U /\
    (forall r k, (r, k) ∈ context_regs -> rx s1 r = dmem s (U + k * 8)) /\
    ((forall k, 0 <= k < 14 -> dmem s2 (T + k * 8) = dmem s1 (T + k * 8)) ->
     exists s3, thread_swtch s2 = Ret s3 /\ rx s3 tp = T /\ rx s3 a0 = T /\ (forall r k, (r, k) ∈ context_regs -> rx s3 r = rx s r)).
Proof.
  intros Ht Hu HT HU Hap Hv Ht2 HV Hap2. destruct (thread_swtch_spec s T U Ht Hu HT HU Hap) as (s1 & E1 & _ & T1 & A1 & R1 & _).
  destruct (thread_swtch_spec s2 V T Hv Ht2 HV HT Hap2) as (s3 & E3 & _ & T3 & A3 & R3 & _).
  exists s1. split_and!; try done; [intros r k Hin; by apply R1|]. intros Hkeep. exists s3. split_and!; try done.
  intros r k Hin. rewrite (proj2 (R3 r k Hin)), Hkeep by (by apply (context_reg r k)). by apply R1.
Qed.

(** ** New threads *)

(** The context that [_thread_setup] leaves for the thread at [C]. *)
Record set_up s s1 (C glue : Z) : Prop := {
  su_sp : dmem s1 (C + 13 * 8) = rx s a1;
  su_ra : dmem s1 (C + 12 * 8) = glue;
  su_start : dmem s1 (C + 11 * 8) = rx s a2;
  su_arg0 : dmem s1 (C + 0 * 8) = rx s a3;
  su_arg1 : dmem s1 (C + 1 * 8) = rx s a4;
  su_mem : forall a, a < C \/ C + 14 * 8 <= a -> dmem s1 a = dmem s a;
}.

Lemma thread_setup_spec s C glue : rx s a0 = C -> at_words C 14 -> exists s1, thread_setup glue s = Ret s1 /\ set_up s s1 C glue.
Proof.
  intros Hc HC. unfold thread_setup. cbn [app].
  rewrite (exec_sd _ C 14 13), (exec_sd _ C 14 11), (exec_sd _ C 14 0), (exec_sd _ C 14 1), (exec_sd _ C 14 2), (exec_sd _ C 14 3), (exec_sd _ C 14 4) by (done || lia).
  rewrite exec_cons. cbn [exec1 obind]. rewrite (exec_sd _ C 14 12) by (done || lia). eexists. split; [reflexivity|].
  split; [..|intros a Ha]; cbn [exec wmem wx dmem rx gpr Nat.eqb]; rewrite ?Z.eqb_refl, ?(proj2 (Z.eqb_neq _ _)) by lia; done.
Qed.

(** The first switch to the thread: it runs its start function with the two
    arguments, on its stack, and returns to [thread_exit]. *)
Lemma thread_starts s s1 s2 C V glue exit : set_up s s1 C glue -> at_words C 14 -> at_words V 14 -> apart V 14 C 14 ->
  rx s2 tp = V -> rx s2 a0 = C -> (forall k, 0 <= k < 14 -> dmem s2 (C + k * 8) = dmem s1 (C + k * 8)) ->
  exists s3 s4, thread_swtch s2 = Ret s3 /\ rx s3 ra = glue /\ thread_glue exit s3 = Ret (s4, rx s a2) /\
    rx s4 a0 = rx s a3 /\ rx s4 a1 = rx s a4 /\ rx s4 sp = rx s a1 /\ rx s4 fp = rx s a1 /\ rx s4 ra = exit /\ rx s4 tp = C /\
    csrs s4 = csrs s2 /\ (forall a, a < V \/ V + 14 * 8 <= a -> dmem s4 a = dmem s2 a).
Proof.
  intros [U1 U2 U3 U4 U5 _] HC HV Hap Hv Hc Hkeep.
  destruct (thread_swtch_spec s2 V C Hv Hc HV HC Hap) as (s3 & E3 & C3 & T3 & _ & R3 & M3). exists s3.
  assert (HR : forall r k, (r, k) ∈ context_regs -> rx s3 r = dmem s1 (C + k * 8)).
  { intros r k Hin. rewrite (proj2 (R3 r k Hin)). apply Hkeep, (context_reg r k Hin). }
  assert (Hs11 := HR s11 11 ltac:(apply (bool_decide_unpack _); vm_compute; exact I)).
  assert (Hs0 := HR s0 0 ltac:(apply (bool_decide_unpack _); vm_compute; exact I)).
  assert (Hs1 := HR 9%nat 1 ltac:(apply (bool_decide_unpack _); vm_compute; exact I)).
  assert (Hsp := HR sp 13 ltac:(apply (bool_decide_unpack _); vm_compute; exact I)).
  assert (Hra := HR ra 12 ltac:(apply (bool_decide_unpack _); vm_compute; exact I)).
  cbn [rx] in *. eexists. split; [done|]. split; [congruence|]. unfold thread_glue. cbn [exec exec1 obind]. cbn [rx wx gpr Nat.eqb].
  rewrite Hs11, U3. split; [reflexivity|]. cbn [rx wx gpr Nat.eqb csrs dmem]. split_and!; try congruence. exact M3.
Qed.

(** ** To user mode *)

Section ToUser.
Context (trap_entry_from_umode : Z) (Humode : 0 <= trap_entry_from_umode < 2 ^ 64 /\ trap_entry_from_umode mod 4 = 0).

(** Ready for [sret] into a program: the trap vector is the one of user mode
    and sscratch the stack of the thread. *)
Record user_ready s (stack pc : Z) : Prop := {
  ur_stvec : csr_rd (csrs s) STVEC = trap_entry_from_umode;
  ur_sscratch : csr_rd (csrs s) SSCRATCH = stack;
  ur_sepc : csr_rd (csrs s) SEPC = pc;
}.

Lemma thread_finish_jump_spec s : 0 <= gpr s a0 < 2 ^ 64 -> 0 <= gpr s a2 < 2 ^ 64 -> gpr s a2 mod 4 = 0 ->
  exists s', thread_finish_jump trap_entry_from_umode s = Ret s' /\ user_ready s' (gpr s a0) (gpr s a2) /\ rx s' sp = gpr s a1 /\
    (forall r, r <> sp -> r <> t0 -> rx s' r = rx s r) /\ csr_rd (csrs s') SSTATUS = csr_rd (csrs s) SSTATUS.
Proof.
  intros Hs Hp Hal. eexists. split; [reflexivity|]. cbn [exec1 rx wx wcsr gpr csrs csrrw fst Nat.eqb]. split; [split|].
  - cbn [csrs wcsr wx]. rewrite !(csr_other _ _ STVEC) by done. apply csr_same; [apply Humode|apply Z.eqb_eq, Humode].
  - cbn [csrs wcsr wx]. rewrite csr_other by done. by apply csr_same.
  - cbn [csrs wcsr wx]. apply csr_same; [done|by apply Z.eqb_eq].
  - split; [done|]. split; [|cbn [csrs wcsr wx]; by rewrite !csr_other].
    intros r R1 R2. destruct r as [|r]; [done|]. cbn [rx wx wcsr gpr]. by rewrite (proj2 (Nat.eqb_neq _ _) R1), (proj2 (Nat.eqb_neq _ _) R2).
Qed.

Lemma fork_places : Forall (fun e => 0 <= e.2 < 34) fork_regs /\ a1 ∉ fork_regs.*1 /\ NoDup fork_regs.*1 /\
  Forall (fun e => 0 <= e.2 < 34) fork_regs_low /\ a1 ∉ fork_regs_low.*1 /\ NoDup fork_regs_low.*1 /\
  a0 ∉ fork_regs_low.*1 /\ tp ∉ fork_regs_low.*1 /\ tp ∉ fork_regs.*1.
Proof. split_and!; apply (bool_decide_unpack _); vm_compute; exact I. Qed.
Lemma fork_covers r : (1 <= r < 32)%nat -> r <> a0 -> r <> a1 -> r <> tp ->
  ((r, Z.of_nat r) ∈ fork_regs /\ r ∉ fork_regs_low.*1) \/ (r, Z.of_nat r) ∈ fork_regs_low.
Proof.
  intros Hr R1 R2 R3.
  assert (Hall : Forall (fun r => r = a0 \/ r = a1 \/ r = tp \/ ((r, Z.of_nat r) ∈ fork_regs /\ r ∉ fork_regs_low.*1) \/ (r, Z.of_nat r) ∈ fork_regs_low)
    (seq 1 31)) by (apply (bool_decide_unpack _); vm_compute; exact I).
  rewrite Forall_forall in Hall. destruct (Hall r) as [?|[?|[?|?]]]; [apply elem_of_seq; lia|done..].
Qed.

(** The child resumes in the state of the frame, with 0 as the result of its
    call. *)
Lemma thread_finish_fork_spec s C F : rx s a0 = C -> rx s tp = C -> rx s a1 = F -> at_words C 16 -> at_words F 34 -> apart C 16 F 34 ->
  let f := frame_at (dmem s) F in let stack := dmem s (C + 15 * 8) in resumable f -> 0 <= stack < 2 ^ 64 ->
  exists s', thread_finish_fork trap_entry_from_umode s = Ret s' /\ user_ready s' stack (tf_sepc f) /\
    same_bits (visible SSTATUS) (csr_rd (csrs s') SSTATUS) (tf_sstatus f) /\
    (forall r, (1 <= r < 32)%nat -> r <> a0 -> r <> tp -> rx s' r = reg f r) /\ rx s' a0 = 0 /\ rx s' tp = C.
Proof.
  intros Hc Ht Hf HC HF Hap f stack [Hw Hal] Hst. unfold thread_finish_fork. rewrite exec_app. do 2 (rewrite exec_cons; cbn [exec1 obind]).
  rewrite (exec_ld _ C 16 15) by (done || lia). rewrite exec_cons. cbn [exec1 obind]. rewrite (exec_ld _ F 34 33) by (done || lia).
  rewrite exec_cons. cbn [exec1 obind]. rewrite (exec_ld _ F 34 32) by (done || lia). rewrite exec_cons. cbn [exec1 obind exec].
  cbn [rx wx wcsr gpr csrs dmem csrrw fst Nat.eqb]. fold stack. set (sA := wcsr _ _). rewrite exec_app.
  assert (HC' : at_words C 14) by (destruct HC as (? & ? & ?); split_and!; [done..|lia]).
  destruct (store_context sA C Ht HC') as (m & -> & _ & M2). cbn [obind app]. rewrite exec_cons. cbn [exec1 obind]. set (sB := wx _ _ _).
  destruct fork_places as (F1 & N1 & D1 & F2 & N2 & D2 & P1 & P2 & P3). rewrite exec_app.
  destruct (exec_load a1 fork_regs sB F 34 Hf HF F1 N1 D1) as (g & -> & G1 & G2). cbn [obind app]. rewrite exec_cons. cbn [exec1 obind]. set (sC := wx _ _ _).
  assert (Hsc : rx sC a1 = F) by (cbn; by rewrite G2).
  rewrite exec_app. destruct (exec_load a1 fork_regs_low sC F 34 Hsc HF F2 N2 D2) as (g2 & -> & K1 & K2). cbn [obind].
  rewrite (exec_ld _ F 34 11); [|cbn; by rewrite K2|done|lia]. eexists. split; [reflexivity|]. cbn [exec].
  assert (Hm : forall k, 0 <= k < 34 -> m (F + k * 8) = dmem s (F + k * 8)) by (intros k Hk; apply M2; unfold apart in Hap; lia).
  split; [split; cbn [csrs wx sC sB sA wcsr]|].
  - rewrite !(csr_other _ _ STVEC) by done. apply csr_same; [apply Humode|apply Z.eqb_eq, Humode].
  - rewrite !(csr_other _ _ SSCRATCH) by done. by apply csr_same.
  - rewrite csr_other by done. apply csr_same; [done|by apply Z.eqb_eq].
  - split; [apply status_written|]. split; [|split].
    + intros r Hr R1 R2. unfold f. rewrite frame_reg, rx_wx by lia. destruct (Nat.eqb_spec r a1) as [->|R3]; [by apply (Hm 11)|].
      destruct r as [|r]; [lia|]. cbn [rx gpr]. destruct (fork_covers (S r) Hr R1 R3 R2) as [[Hin Hlow]|Hin].
      * rewrite K2 by done. cbn [gpr sC wx]. rewrite (proj2 (Nat.eqb_neq _ _) R1), (G1 _ _ Hin). apply Hm. lia.
      * rewrite (K1 _ _ Hin). apply Hm. lia.
    + cbn [wx gpr Nat.eqb]. by rewrite K2.
    + cbn [wx gpr Nat.eqb]. rewrite K2 by done. cbn [sC wx gpr Nat.eqb]. by rewrite G2.
Qed.

(** C12: the child of a fork starts where its parent is: the context that
    [_thread_setup] writes for [_thread_finish_fork] makes the first switch to
    the child run it, and the child enters user mode with the 31 registers, the
    program counter and the status of the parent's trap frame, except that its
    call returns 0 and its tp is its own thread; its next trap uses its own
    kernel stack. *)
Theorem fork_child_starts s s2 C F V glue exit : rx s a0 = C -> rx s a3 = C -> rx s a4 = F ->
  at_words C 16 -> at_words F 34 -> at_words V 14 -> apart C 16 F 34 -> apart V 14 C 16 -> apart V 14 F 34 ->
  rx s2 tp = V -> rx s2 a0 = C ->
  let f := frame_at (dmem s2) F in let stack := dmem s2 (C + 15 * 8) in resumable f -> 0 <= stack < 2 ^ 64 ->
  exists s1, thread_setup glue s = Ret s1 /\
    ((forall k, 0 <= k < 14 -> dmem s2 (C + k * 8) = dmem s1 (C + k * 8)) ->
     exists s3 s4 s5, thread_swtch s2 = Ret s3 /\ rx s3 ra = glue /\ thread_glue exit s3 = Ret (s4, rx s a2) /\
       thread_finish_fork trap_entry_from_umode s4 = Ret s5 /\ user_ready s5 stack (tf_sepc f) /\
       same_bits (visible SSTATUS) (csr_rd (csrs s5) SSTATUS) (tf_sstatus f) /\
       (forall r, (1 <= r < 32)%nat -> r <> a0 -> r <> tp -> rx s5 r = reg f r) /\ rx s5 a0 = 0 /\ rx s5 tp = C).
Proof.
  intros Hc Hc3 Hf HC HF HV Hap1 Hap2 Hap3 Hv Hc2 f stack Hr Hst.
  assert (HC' : at_words C 14) by (destruct HC as (? & ? & ?); split_and!; [done..|lia]).
  destruct (thread_setup_spec s C glue Hc HC') as (s1 & E1 & Hs). exists s1. split; [done|]. intros Hkeep.
  assert (Hap2' : apart V 14 C 14) by (unfold apart in *; lia).
  destruct (thread_starts s s1 s2 C V glue exit Hs HC' HV Hap2' Hv Hc2 Hkeep) as (s3 & s4 & E3 & Hra & E4 & A0 & A1 & _ & _ & _ & T4 & _ & M4).
  assert (Hfr : frame_at (dmem s4) F = f).
  { unfold f, frame_at. f_equal; [|apply M4; unfold apart in *; lia..]. apply map_ext_in. intros i Hi%in_seq. apply M4. unfold apart in *. lia. }
  assert (Hstk : dmem s4 (C + 15 * 8) = stack) by (apply M4; unfold apart in *; lia).
  destruct (thread_finish_fork_spec s4 C F) as (s5 & E5 & Hu & Hss & Hregs & Z0 & Tp); rewrite ?Hfr, ?Hstk in *; [congruence..|done|done|].
  exists s3, s4, s5. by split_and!.
Qed.
End ToUser.
End Exec.

(** * Examples *)

Module AsmDemo.
Import HartDemo.
Definition regs : csr -> Z := fun r => match r with SSCRATCH => 0x80100000 | SCAUSE => 8 | SEPC => 0xC0000100 | MCAUSE => 9 | MEPC => 0x80000010 | _ => 0 end.
(** A program that makes a system call. *)
Definition user : cpu hart := {| gpr := fun r => Z.of_nat r * 16; csrs := regs; dmem := fun _ => 0 |}.
(** A handler that stores a result. *)
Definition B : Z := 0x80100000 - 34 * 8.
Definition answer (t : target) (s : cpu hart) : outcome (cpu hart) := Ret (wmem s (B + 10 * 8) 77).
Definition entry : Z := 0x80001000.

(** The parent at [_thread_setup], and the scheduler when it first runs the child. *)
Definition child : Z := 0x80200000.
Definition frame : Z := 0x80300000.
Definition parent : cpu hart :=
  {| gpr := fun r => match r with 10%nat | 13%nat => child | 11%nat => 0x80400ff0 | 12%nat => 0x80002000 | 14%nat => frame | _ => 0 end;
     csrs := regs; dmem := fun _ => 0 |}.
Definition scheduler : cpu hart :=
  {| gpr := fun r => match r with 1%nat => 0x80003000 | 2%nat => 0x80500f00 | 4%nat => 0x80500000 | 10%nat => child | _ => 0 end; csrs := regs;
     dmem := fun a => if a =? child + 13 * 8 then 0x80400ff0 else if a =? child + 12 * 8 then 0x80000500 else if a =? child + 11 * 8 then 0x80002000
       else if a =? child then child else if a =? child + 8 then frame else if a =? child + 15 * 8 then 0x80400ff0
       else if a =? frame + 33 * 8 then 0xC0000104 else if a =? frame + 15 * 8 then 55 else 0 |}.
(** The scheduler has switched to the child, which switches back; the context of
    the child. *)
Definition ran (o : outcome (cpu hart)) : cpu hart := match o with Ret s => s | _ => user end.
Definition switched : cpu hart := ran (thread_swtch scheduler).
Definition back (s : cpu hart) : cpu hart := wx s 10 0x80500000.
Definition ready : cpu hart := ran (thread_setup 0x80000500 parent).
End AsmDemo.

Lemma umode_trap_frame_witness : exists s3,
  trap_from_umode AsmDemo.entry AsmDemo.entry 0 AsmDemo.answer AsmDemo.user = Ret s3 /\
  rx s3 10 = 77 /\ rx s3 17 = 272 /\ rx s3 2 = 32 /\ csr_rd (csrs s3) SEPC = 0xC0000100.
Proof.
  destruct (umode_trap_frame AsmDemo.entry AsmDemo.entry 0 ltac:(vm_compute; repeat split; discriminate) ltac:(vm_compute; repeat split; discriminate)
    AsmDemo.user AsmDemo.answer) as (s1 & s2 & s3 & He & _ & _ & E2 & E3 & Hf & _).
  - vm_compute. split; [discriminate|reflexivity].
  - reflexivity.
  - vm_compute. discriminate.
  - vm_compute. discriminate.
  - intros t s1 He. eexists. split; [reflexivity|]. split; [exact (en_sp _ _ _ He)|].
    assert (Hp : tf_sepc (frame_at (dmem (wmem s1 (AsmDemo.B + 10 * 8) 77)) AsmDemo.B) = 0xC0000100) by exact (en_sepc _ _ _ He).
    unfold resumable. change (csr_rd (csrs AsmDemo.user) SSCRATCH - 34 * 8) with AsmDemo.B. rewrite Hp. split; [lia|reflexivity].
  - exists s3. injection E2 as <-. change (csr_rd (csrs AsmDemo.user) SSCRATCH - 34 * 8) with AsmDemo.B in *.
    split; [exact E3|]. rewrite !(if_regs _ _ Hf), (if_sepc _ _ Hf) by lia. split; [reflexivity|].
    split; [exact (en_regs _ _ _ He 17%nat ltac:(lia))|]. split; [exact (en_regs _ _ _ He 2%nat ltac:(lia))|exact (en_sepc _ _ _ He)].
Defined.

Lemma mmode_trap_timer_witness : exists s', mmode_trap_entry AsmDemo.user = Ret s' /\ rx s' 5 = 80 /\
  Z.testbit (csr_rd (csrs s') MIE) 7 = true /\ csr_rd (csrs s') MEPC = 0x80000014.
Proof.
  pose proof (mmode_trap_timer AsmDemo.user ltac:(vm_compute; split; [discriminate|reflexivity])) as HR. cbv zeta in HR.
  specialize (HR ltac:(vm_compute; reflexivity) ltac:(vm_compute; reflexivity)).
  change (csr_rd (csrs AsmDemo.user) MCAUSE) with 9 in HR. cbv iota in HR. cbn [Z.eqb] in HR.
  destruct HR as (s' & E & Hg & _ & [T _] & Hp). exists s'. split; [exact E|]. split; [exact (Hg 5%nat)|].
  split; [rewrite (T 7) by (cbn; do 3 right; left); reflexivity|exact Hp].
Defined.

Lemma swtch_roundtrip_witness : exists s3, thread_swtch (AsmDemo.back AsmDemo.switched) = Ret s3 /\
  rx s3 2 = 0x80500f00 /\ rx s3 1 = 0x80003000 /\ rx s3 10 = 0x80500000.
Proof.
  destruct (swtch_roundtrip AsmDemo.scheduler (AsmDemo.back AsmDemo.switched) 0x80500000 AsmDemo.child AsmDemo.child eq_refl eq_refl) as (s1 & E1 & _ & _ & _ & HR).
  - vm_compute. repeat split; discriminate.
  - vm_compute. repeat split; discriminate.
  - right. vm_compute. discriminate.
  - vm_compute. reflexivity.
  - vm_compute. reflexivity.
  - vm_compute. repeat split; discriminate.
  - left. vm_compute. discriminate.
  - destruct HR as (s3 & E3 & _ & A3 & R3).
    + intros k _. unfold AsmDemo.switched. rewrite E1. reflexivity.
    + exists s3. split; [exact E3|]. rewrite (R3 2%nat 13), (R3 1%nat 12) by (apply (bool_decide_unpack _); vm_compute; exact I).
      split; [reflexivity|]. split; [reflexivity|exact A3].
Defined.

Lemma fork_child_starts_witness : exists s4 s5, thread_finish_fork AsmDemo.entry s4 = Ret s5 /\ rx s5 10 = 0 /\ rx s5 15 = 55 /\ rx s5 4 = AsmDemo.child /\
  csr_rd (csrs s5) SEPC = 0xC0000104 /\ csr_rd (csrs s5) SSCRATCH = 0x80400ff0.
Proof.
  destruct (fork_child_starts AsmDemo.entry ltac:(vm_compute; repeat split; discriminate) AsmDemo.parent AsmDemo.scheduler AsmDemo.child AsmDemo.frame 0x80500000
    0x80000500 0x80000600 eq_refl eq_refl eq_refl) as (s1 & E1 & HR).
  - vm_compute. repeat split; discriminate.
  - vm_compute. repeat split; discriminate.
  - vm_compute. repeat split; discriminate.
  - left. vm_compute. discriminate.
  - right. vm_compute. discriminate.
  - right. vm_compute. discriminate.
  - reflexivity.
  - reflexivity.
  - vm_compute. repeat split; discriminate.
  - vm_compute. split; [discriminate|reflexivity].
  - destruct HR as (s3 & s4 & s5 & _ & _ & _ & E5 & [_ U2 U3] & _ & Hr & H0 & Ht).
    + intros k Hk. replace s1 with AsmDemo.ready by (unfold AsmDemo.ready; by rewrite E1).
      assert (Hall : Forall (fun k => dmem AsmDemo.scheduler (AsmDemo.child + k * 8) = dmem AsmDemo.ready (AsmDemo.child + k * 8)) (seqZ 0 14))
        by (repeat (apply Forall_cons_2; [vm_compute; reflexivity|]); apply Forall_nil_2).
      rewrite Forall_forall in Hall. apply Hall, elem_of_seqZ. lia.
    + exists s4, s5. split; [exact E5|]. split; [exact H0|]. split; [rewrite (Hr 15%nat) by (lia || discriminate); vm_compute; reflexivity|].
      split; [exact Ht|]. split; [exact U3|exact U2].
Defined.
