(* ===== verification/Descriptors.v ===== *)
(** File descriptors and reference counts across processes (process.c,
    syscall.c, io.h).

    [IoWorldSpec] states what the I/O objects promise to the kernel; against
    it, system calls keep the invariant [fd_inv]: the object of every open
    descriptor of every process is open, and its reference count is the number
    of descriptors that hold it. *)

From Stdlib Require Import List.
From S2P Require Import Prelude KString IoIntf Intr Device Console Thread Timer Heap Memory PageTable VmOps UserMem Elf Process Syscall.
From stdpp Require Import gmap list.
#[local] Open Scope Z_scope.

(** * What objects promise *)

(** The operations of a table preserve a property of the state. *)
Record ops_keep {S : Type} (ops : io_ops S) (P : S -> Prop) : Prop := {
  ok_read rd s n s' r bs : op_read ops = Some rd -> P s -> rd s n = Ret (s', r, bs) -> P s';
  ok_write wr s bs s' r : op_write ops = Some wr -> P s -> wr s bs = Ret (s', r) -> P s';
  ok_ctl ctl s c a s' r a' : op_ctl ops = Some ctl -> P s -> ctl s c a = Ret (s', r, a') -> P s';
}.

Section Relations.
Context {W : Type} `{IoWorld W} (ok : W -> Prop) (live : W -> Z -> Prop).

(** Another state of the same open objects. *)
Record kept (w w' : W) : Prop := {
  kt_ok : ok w';
  kt_live io : live w' io <-> live w io;
  kt_refs io : w_refcnt w' io = w_refcnt w io;
}.
(** One more object is open. *)
Record opened (w w' : W) (io : Z) : Prop := {
  od_ok : ok w';
  od_new : ~ live w io;
  od_live x : live w' x <-> x = io \/ live w x;
  od_refs x : live w x -> w_refcnt w' x = w_refcnt w x;
}.
(** One object less is open. *)
Record closed (w w' : W) (io : Z) : Prop := {
  cd_ok : ok w';
  cd_live x : live w' x <-> x <> io /\ live w x;
  cd_refs x : x <> io -> w_refcnt w' x = w_refcnt w x;
}.
(** A function that opens an object. *)
Definition opens (f : W -> outcome (W * Z * Z)) : Prop :=
  forall w w' r io, ok w -> f w = Ret (w', r, io) -> if r <? 0 then kept w w' else opened w w' io.

Lemma kept_trans w1 w2 w3 : kept w1 w2 -> kept w2 w3 -> kept w1 w3.
Proof. intros [_ L1 R1] [O2 L2 R2]. split; [done| |]; intros io; [by rewrite L2|by rewrite R2]. Qed.
End Relations.

(** [w_live w io]: the object at [io] is open. *)
Class IoWorldSpec (W : Type) `{IoWorld W} := {
  w_ok : W -> Prop;
  w_live : W -> Z -> Prop;
  refcnt_set w io n x : w_refcnt (w_set_refcnt w io n) x = if decide (io = x) then n else w_refcnt w x;
  live_set w io n x : w_live (w_set_refcnt w io n) x <-> w_live w x;
  ok_set w io n : w_ok w -> w_ok (w_set_refcnt w io n);
  w_ops_keep w io : w_ok w -> w_live w io -> ops_keep (w_ops w io) (kept w_ok w_live w);
  w_close w io close : w_ok w -> w_live w io -> op_close (w_ops w io) = Some close ->
    exists w', close w = Ret w' /\ closed w_ok w_live w w' io;
  w_fs_opens name : opens w_ok w_live (fun w => w_fs_open w name);
  w_fs_closes w io : w_ok w -> w_live w io -> exists w', w_fs_close w io = Ret w' /\ closed w_ok w_live w w' io;
}.

(** * Loops over the operations *)

Section Keep.
Context {S : Type} (ops : io_ops S) (P : S -> Prop) (Hk : ops_keep ops P).

Lemma ioread_keeps s n s' r bs : P s -> ioread ops s n = Ret (s', r, bs) -> P s'.
Proof.
  intros Hs. unfold ioread. destruct (op_read ops) as [rd|] eqn:E; [by apply (ok_read _ _ Hk)|]. by intros [= <- _ _].
Qed.
Lemma ioctl_keeps s c a s' r a' : P s -> ioctl ops s c a = Ret (s', r, a') -> P s'.
Proof.
  intros Hs. unfold ioctl. destruct (op_ctl ops) as [ctl|] eqn:E; [by apply (ok_ctl _ _ Hk)|]. by intros [= <- _ _].
Qed.
Lemma ioseek_keeps s p s' r : P s -> ioseek ops s p = Ret (s', r) -> P s'.
Proof. intros Hs Hr. unfold ioseek in Hr. peel Hr. injection Hr as <- _. by eapply ioctl_keeps. Qed.

Lemma iowrite_keeps s bs s' r : P s -> iowrite ops s bs = Ret (s', r) -> P s'.
Proof.
  unfold iowrite. destruct (op_write ops) as [wr|] eqn:Ew; [|by intros ? [= <- _]]. generalize 0 as acc.
  generalize (Datatypes.S (length bs)) as fuel. intros fuel acc. revert s acc; induction fuel as [|fuel IH]; intros s acc Hs Hr; cbn [iowrite_loop] in Hr; [done|].
  peel Hr; try (injection Hr as <- _); [..|done]; [| |eapply IH; [|exact Hr]]; by eapply (ok_write _ _ Hk).
Qed.

Lemma read_struct_keeps s n s' o : P s -> read_struct ops s n = Ret (s', o) -> P s'.
Proof. intros Hs Hr. unfold read_struct in Hr. peel Hr; injection Hr as <- _; by eapply ioread_keeps. Qed.

Context {M : Type} `{UserMem M}.

Lemma load_full_keeps s (m : M) a n s' m' r : P s -> load_full ops s m a n = Ret (s', m', r) -> P s'.
Proof.
  unfold load_full. destruct (op_read ops) as [rd|] eqn:Ew; [|by intros ? [= <- _ _]]. generalize 0 as acc.
  generalize (Datatypes.S (Z.to_nat n)) as fuel. intros fuel acc. revert s m acc; induction fuel as [|fuel IH]; intros s m acc Hs Hr; cbn [load_loop] in Hr.
  { peel Hr. by injection Hr as <- _ _. }
  peel Hr; try (injection Hr as <- _ _); [..|done]; [| |eapply IH; [|exact Hr]]; by eapply (ok_read _ _ Hk).
Qed.

Lemma load_segment_keeps s (m : M) ph s' m' r : P s -> load_segment ops s m ph = Ret (s', m', r) -> P s'.
Proof. intros Hs Hr. unfold load_segment in Hr. peel Hr; injection Hr as <- _ _; eauto using ioseek_keeps, load_full_keeps. Qed.

Lemma load_phdrs_keeps n : forall s (m : M) o i s' m' r, P s -> load_phdrs ops n s m o i = Ret (s', m', r) -> P s'.
Proof.
  induction n as [|n IH]; intros s m o i s' m' r Hs Hr; cbn [load_phdrs] in Hr; [by injection Hr as <- _ _|].
  peel Hr; try (injection Hr as <- _ _); try (eapply IH; [|exact Hr]); eauto using ioseek_keeps, read_struct_keeps, load_segment_keeps.
Qed.

Lemma elf_load_keeps s (m : M) s' m' r e : P s -> elf_load ops s m = Ret (s', m', r, e) -> P s'.
Proof.
  intros Hs Hr. unfold elf_load in Hr. peel Hr; injection Hr as <- _ _ _; eauto using ioseek_keeps, read_struct_keeps, load_phdrs_keeps.
Qed.
End Keep.

(** * Counting references *)

Definition cnt (io : Z) (tab : list (option Z)) : nat := length (filter (fun e => e = Some io) tab).

Lemma cnt_cons io e tab : cnt io (e :: tab) = ((if decide (e = Some io) then 1 else 0) + cnt io tab)%nat.
Proof. unfold cnt. rewrite filter_cons. by destruct (decide _). Qed.
Lemma cnt_replicate io n : cnt io (replicate n None) = 0%nat.
Proof. induction n as [|n IH]; [done|]. cbn [replicate]. by rewrite cnt_cons, IH. Qed.
Lemma cnt_le io tab : (cnt io tab <= length tab)%nat.
Proof. unfold cnt. apply length_filter. Qed.
Lemma cnt_pos io tab : (0 < cnt io tab)%nat <-> Some io ∈ tab.
Proof.
  induction tab as [|e tab IH]; [split; [cbn; lia|by intros ?%elem_of_nil]|]. rewrite cnt_cons, elem_of_cons, <- IH.
  destruct (decide (e = Some io)) as [->|]; split; [auto|lia|auto|]. intros [?|?]; [congruence|lia].
Qed.
Lemma cnt_insert io tab i e x : tab !! i = Some e ->
  (cnt io (<[i := x]> tab) + (if decide (e = Some io) then 1 else 0) = cnt io tab + (if decide (x = Some io) then 1 else 0))%nat.
Proof.
  revert i; induction tab as [|y tab IH]; intros [|i] He; try done; cbn [lookup list_lookup] in He.
  - injection He as ->. change (<[0%nat := x]> (e :: tab)) with (x :: tab). rewrite !cnt_cons. lia.
  - specialize (IH i He). change (<[S i := x]> (y :: tab)) with (y :: <[i := x]> tab). rewrite !cnt_cons. lia.
Qed.

(** The descriptors of a slot of [proctab]. *)
Definition tab_of (ps : gmap Z process) (e : option Z) : list (option Z) :=
  match e with Some p => from_option iotab [] (ps !! p) | None => [] end.

Definition refs (ps : gmap Z process) (tab : list (option Z)) (io : Z) : nat :=
  sum_list_with (fun e => cnt io (tab_of ps e)) tab.

Lemma sum_change {A} (f g : A -> nat) l i x y : l !! i = Some x ->
  (forall j z, l !! j = Some z -> j <> i -> g z = f z) ->
  (sum_list_with g (<[i := y]> l) + f x = sum_list_with f l + g y)%nat.
Proof.
  revert i; induction l as [|a l IH]; intros [|i] Hx Hg; try done; cbn [lookup list_lookup] in Hx.
  - injection Hx as ->. change (<[0%nat := y]> (x :: l)) with (y :: l). cbn [sum_list_with].
    enough (sum_list_with g l = sum_list_with f l) by lia. assert (Hl : forall j z, l !! j = Some z -> g z = f z).
    { intros j z Hz. apply (Hg (S j)); [done|lia]. }
    clear -Hl. induction l as [|a l IH]; [done|]. cbn [sum_list_with]. rewrite (Hl 0%nat a), IH; [done| |done]. intros j z. apply (Hl (S j)).
  - change (<[S i := y]> (a :: l)) with (a :: <[i := y]> l). cbn [sum_list_with]. rewrite (Hg 0%nat a) by done.
    enough (sum_list_with g (<[i := y]> l) + f x = sum_list_with f l + g y)%nat by lia.
    apply IH; [done|]. intros j z Hz Hj. apply (Hg (S j)); [done|lia].
Qed.

Lemma refs_le ps tab io b : (forall e, e ∈ tab -> (length (tab_of ps e) <= b)%nat) -> (refs ps tab io <= length tab * b)%nat.
Proof.
  unfold refs. induction tab as [|e tab IH]; intros Hb; cbn; [lia|]. assert (Hc := cnt_le io (tab_of ps e)).
  assert (length (tab_of ps e) <= b)%nat by (apply Hb; constructor). specialize (IH (fun e He => Hb e (list_elem_of_further _ _ _ He))). lia.
Qed.

Lemma refs_slot ps tab io i e : tab !! i = Some e -> (cnt io (tab_of ps e) <= refs ps tab io)%nat.
Proof.
  unfold refs. revert i; induction tab as [|a tab IH]; intros [|i] He; try done; cbn in *; [injection He as ->; lia|]. specialize (IH i He). lia.
Qed.

(** * The invariant *)

Section Invariant.
Context {W : Type} `{IoWorldSpec W}.
Notation kept := (kept w_ok w_live).
Notation opened := (opened w_ok w_live).
Notation closed := (closed w_ok w_live).

Record fdi (ps : gmap Z process) (tab : list (option Z)) (w : W) : Prop := {
  fi_ok : w_ok w;
  fi_len : length tab = Z.to_nat NPROC;
  fi_proc i p : tab !! i = Some (Some p) ->
    exists pr, ps !! p = Some pr /\ p_id pr = Z.of_nat i /\ length (iotab pr) = Z.to_nat PROCESS_IOMAX;
  fi_refs io : (0 < refs ps tab io)%nat -> w_live w io /\ w_refcnt w io = Z.of_nat (refs ps tab io);
}.

Lemma fdi_bound ps tab w io : fdi ps tab w -> (refs ps tab io <= 256)%nat.
Proof.
  intros [_ Hl Hp _]. rewrite (refs_le ps tab io 16), Hl; [done|]. intros [p|] He; [|cbn; lia].
  apply list_elem_of_lookup in He as (i & Hi). destruct (Hp i p Hi) as (pr & E & _ & Hl'). cbn. rewrite E. cbn. by rewrite Hl'.
Qed.

Lemma fdi_none ps tab w io : fdi ps tab w -> ~ w_live w io -> refs ps tab io = 0%nat.
Proof. intros Hi Hn. destruct (refs ps tab io) eqn:E; [done|]. destruct Hn. apply (fi_refs _ _ _ Hi). lia. Qed.

Lemma fdi_kept ps tab w w' : fdi ps tab w -> kept w w' -> fdi ps tab w'.
Proof.
  intros [Ho Hl Hp Hr] [Ho' Hv Hf]. split; [done..|]. intros io Hio. destruct (Hr io Hio) as [Hlv ->%symmetry]. by rewrite Hf, Hv.
Qed.

Lemma fdi_opened ps tab w w' io : fdi ps tab w -> opened w w' io -> fdi ps tab w' /\ refs ps tab io = 0%nat /\ w_live w' io.
Proof.
  intros Hi [Ho Hn Hv Hf]. assert (Hz := fdi_none _ _ _ _ Hi Hn). destruct Hi as [Ho0 Hl Hp Hr]. split_and!; [|done|apply Hv; by left].
  split; [done..|]. intros x Hx. destruct (Hr x Hx) as [Hlv Heq]. rewrite Hv, Hf by done. auto.
Qed.

Lemma fdi_closed ps tab w w' io : fdi ps tab w -> refs ps tab io = 0%nat -> closed w w' io -> fdi ps tab w'.
Proof.
  intros [Ho0 Hl Hp Hr] Hz [Ho Hv Hf]. split; [done..|]. intros x Hx. destruct (Hr x Hx) as [Hlv Heq].
  assert (x <> io) by (intros ->; lia). rewrite Hv, Hf by done. auto.
Qed.

Lemma fdi_set ps tab w io n : fdi ps tab w -> refs ps tab io = 0%nat -> fdi ps tab (w_set_refcnt w io n).
Proof.
  intros [Ho0 Hl Hp Hr] Hz. split; [by apply ok_set|done|done|]. intros x Hx. destruct (Hr x Hx) as [Hlv Heq].
  rewrite live_set, refcnt_set, decide_False by (intros ->; lia). auto.
Qed.

(** The table of one process changes. *)
Section Proc.
Context (ps : gmap Z process) (tab : list (option Z)) (i : nat) (p : Z) (pr : process).
Context (Hi : tab !! i = Some (Some p)) (Hp : ps !! p = Some pr).
Context (Huniq : forall j, tab !! j = Some (Some p) -> j = i).

Lemma refs_put t io : (refs (<[p := with_iotab pr t]> ps) tab io + cnt io (iotab pr) = refs ps tab io + cnt io t)%nat.
Proof.
  unfold refs. assert (Hs := sum_change (fun e => cnt io (tab_of ps e)) (fun e => cnt io (tab_of (<[p := with_iotab pr t]> ps) e)) tab i (Some p) (Some p) Hi).
  rewrite (list_insert_id tab i (Some p) Hi) in Hs. cbn [tab_of] in Hs. rewrite Hp, lookup_insert_eq in Hs. cbn [from_option with_iotab iotab] in Hs.
  apply Hs. intros j [q|] Hj Hne; [|done]. cbn. rewrite lookup_insert_ne; [done|]. intros ->. apply Hne. by apply Huniq.
Qed.

Lemma refs_clear io : (refs ps (<[i := None]> tab) io + cnt io (iotab pr) = refs ps tab io)%nat.
Proof.
  unfold refs. assert (Hs := sum_change (fun e => cnt io (tab_of ps e)) (fun e => cnt io (tab_of ps e)) tab i (Some p) None Hi).
  cbn [tab_of] in Hs. rewrite Hp in Hs. cbn [from_option] in Hs. rewrite Hs by done. change (cnt io []) with 0%nat. lia.
Qed.
End Proc.

Lemma refs_new ps tab i c pr io : tab !! i = Some None -> ps !! c = None -> (forall j, tab !! j <> Some (Some c)) ->
  refs (<[c := pr]> ps) (<[i := Some c]> tab) io = (refs ps tab io + cnt io (iotab pr))%nat.
Proof.
  intros Hi Hc Hn. unfold refs.
  assert (Hs := sum_change (fun e => cnt io (tab_of ps e)) (fun e => cnt io (tab_of (<[c := pr]> ps) e)) tab i None (Some c) Hi).
  cbn [tab_of] in Hs. rewrite lookup_insert_eq in Hs. cbn [from_option] in Hs. change (cnt io []) with 0%nat in Hs. rewrite Nat.add_0_r in Hs.
  apply Hs. intros j [q|] Hj Hne; [|done]. cbn. rewrite lookup_insert_ne; [done|]. intros ->. by apply (Hn j).
Qed.

Lemma fdi_unique ps tab w i j p : fdi ps tab w -> tab !! i = Some (Some p) -> tab !! j = Some (Some p) -> j = i.
Proof.
  intros Hi Ei Ej. destruct (fi_proc _ _ _ Hi i p Ei) as (pr & E & I1 & _), (fi_proc _ _ _ Hi j p Ej) as (pr' & E' & I2 & _).
  rewrite E in E'. injection E' as <-. lia.
Qed.

(** Replacing the descriptor table of a process keeps the rest. *)
Lemma fdi_put ps tab w w' i p pr t : fdi ps tab w -> tab !! i = Some (Some p) -> ps !! p = Some pr -> w_ok w' ->
  length t = length (iotab pr) ->
  (forall io n, n = (refs ps tab io + cnt io t - cnt io (iotab pr))%nat -> (0 < n)%nat -> w_live w' io /\ w_refcnt w' io = Z.of_nat n) ->
  fdi (<[p := with_iotab pr t]> ps) tab w'.
Proof.
  intros Hf Hi Hp Ho Hlt Hr. split; [done|apply Hf| |].
  - intros j q Hj. destruct (fi_proc _ _ _ Hf j q Hj) as (pr' & E & I & L). destruct (decide (q = p)) as [->|Hne].
    + rewrite lookup_insert_eq. eexists. split; [done|]. rewrite Hp in E. injection E as <-. cbn. by rewrite Hlt.
    + rewrite lookup_insert_ne by done. eauto.
  - intros io. assert (Hput := refs_put ps tab i p pr Hi Hp (fun j => fdi_unique _ _ _ _ _ _ Hf Hi) t io).
    assert (Hslot := refs_slot ps tab io i _ Hi). cbn in Hslot. rewrite Hp in Hslot. cbn in Hslot.
    intros Hpos. apply Hr; lia.
Qed.

(** ** The operations *)

Section Ops.
Context (ps : gmap Z process) (tab : list (option Z)) (w : W) (i : nat) (p : Z) (pr : process).
Context (Hf : fdi ps tab w) (Hi : tab !! i = Some (Some p)) (Hp : ps !! p = Some pr).

(** The references of the process are among all. *)
Lemma own_refs io : (cnt io (iotab pr) <= refs ps tab io)%nat.
Proof. assert (Hs := refs_slot ps tab io i _ Hi). cbn in Hs. by rewrite Hp in Hs. Qed.

Lemma held_live fd io : iotab pr !! fd = Some (Some io) ->
  (0 < cnt io (iotab pr))%nat /\ w_live w io /\ w_refcnt w io = Z.of_nat (refs ps tab io).
Proof.
  intros Hfd. assert (Hc : (0 < cnt io (iotab pr))%nat) by (apply cnt_pos; by eapply list_elem_of_lookup_2).
  split; [done|]. apply (fi_refs _ _ _ Hf). assert (Ho := own_refs io). lia.
Qed.

Lemma fdi_install fd io : iotab pr !! fd = Some None -> refs ps tab io = 0%nat -> w_live w io ->
  fdi (<[p := with_iotab pr (<[fd := Some io]> (iotab pr))]> ps) tab (w_set_refcnt w io 1).
Proof.
  intros Hfd Hz Hl. assert (Hf' := fdi_set _ _ _ io 1 Hf Hz). eapply fdi_put; [exact Hf'|done|done|apply Hf'|apply length_insert|].
  intros x n -> Hn. assert (Hc := cnt_insert x _ _ _ (Some io) Hfd). rewrite (decide_False (P := None = Some x)) in Hc by done.
  assert (Ho := own_refs x). rewrite live_set, refcnt_set. destruct (decide (io = x)) as [->|Hne].
  - rewrite decide_True in Hc by done. split; [done|]. lia.
  - rewrite decide_False in Hc by congruence. destruct (fi_refs _ _ _ Hf x ltac:(lia)) as [? ->]. split; [done|]. lia.
Qed.

(** Closing a descriptor drops one reference, and closes the object with the
    last one. *)
Lemma fdi_close fd io : iotab pr !! fd = Some (Some io) ->
  exists w', io_ioclose w io = Ret w' /\ fdi (<[p := with_iotab pr (<[fd := None]> (iotab pr))]> ps) tab w' /\
    (op_close (w_ops (w_set_refcnt w io 0) io) <> None -> w_live w' io <-> (1 < refs ps tab io)%nat).
Proof.
  intros Hfd. destruct (held_live fd io Hfd) as (Hc & Hl & Href). assert (Ho := own_refs io). assert (Hb := fdi_bound _ _ _ io Hf).
  unfold io_ioclose. rewrite Href, (u32_small (Z.of_nat _ - 1)) by lia. set (n := Z.of_nat (refs ps tab io) - 1).
  assert (Hother : forall w', w_ok w' -> (forall x, x <> io -> w_live w x -> w_live w' x /\ w_refcnt w' x = w_refcnt w x) ->
    ((1 < refs ps tab io)%nat -> w_live w' io /\ w_refcnt w' io = n) ->
    fdi (<[p := with_iotab pr (<[fd := None]> (iotab pr))]> ps) tab w').
  { intros w' Hok Hx Hio. eapply fdi_put; [exact Hf|done|done|done|apply length_insert|].
    intros x k -> Hk. assert (Hci := cnt_insert x _ _ _ None Hfd). rewrite (decide_False (P := None = Some x)) in Hci by done.
    assert (Hox := own_refs x). destruct (decide (x = io)) as [->|Hne].
    - rewrite decide_True in Hci by done. destruct Hio as [? ->]; [lia|]. split; [done|]. lia.
    - rewrite decide_False in Hci by congruence. destruct (fi_refs _ _ _ Hf x ltac:(lia)) as [Hlx Hrx].
      destruct (Hx x Hne Hlx) as [? ->]. split; [done|]. lia. }
  assert (Hok1 : w_ok (w_set_refcnt w io n)) by apply ok_set, Hf.
  assert (Hlive1 : w_live (w_set_refcnt w io n) io) by by apply live_set.
  assert (Hset : forall x, x <> io -> w_live w x -> w_live (w_set_refcnt w io n) x /\ w_refcnt (w_set_refcnt w io n) x = w_refcnt w x).
  { intros x Hne Hlx. by rewrite live_set, refcnt_set, decide_False by congruence. }
  destruct (Z.eqb_spec n 0) as [Hn0|Hn0].
  - rewrite Hn0 in *. destruct (op_close _) as [close|] eqn:Ec.
    + destruct (w_close _ io close Hok1 Hlive1 Ec) as (w' & -> & [Hw' Hlv Hrf]). exists w'. split; [done|]. split.
      * apply Hother; [done| |lia]. intros x Hne Hlx. destruct (Hset x Hne Hlx) as [? <-]. rewrite Hlv, Hrf by done. auto.
      * intros _. rewrite Hlv. split; [tauto|lia].
    + eexists. split; [done|]. split; [|done]. apply Hother; [done|done|lia].
  - exists (w_set_refcnt w io n). split; [by destruct (op_close _)|]. split; [|split; [lia|done]].
    apply Hother; [done|done|]. intros _. split; [done|]. by rewrite refcnt_set, decide_True.
Qed.

(** Dropping a descriptor without closing keeps the invariant when no other
    descriptor holds the object. *)
Lemma fdi_drop fd io : iotab pr !! fd = Some (Some io) -> w_refcnt w io = 1 ->
  fdi (<[p := with_iotab pr (<[fd := None]> (iotab pr))]> ps) tab w.
Proof.
  intros Hfd H1. destruct (held_live fd io Hfd) as (Hc & Hl & Href). eapply fdi_put; [exact Hf|done|done|apply Hf|apply length_insert|].
  intros x n -> Hn. assert (Hci := cnt_insert x _ _ _ None Hfd). rewrite (decide_False (P := None = Some x)) in Hci by done.
  assert (Hox := own_refs x). destruct (decide (x = io)) as [->|Hne]; [rewrite decide_True in Hci by done; lia|].
  rewrite decide_False in Hci by congruence. destruct (fi_refs _ _ _ Hf x ltac:(lia)) as [? ->]. split; [done|]. lia.
Qed.
End Ops.

(** Sharing every descriptor of a table. *)
Lemma share_files_spec tab w : w_ok w ->
  w_ok (share_files tab w) /\ (forall x, w_live (share_files tab w) x <-> w_live w x) /\
  forall x, w_refcnt w x = u32 (w_refcnt w x) -> w_refcnt (share_files tab w) x = u32 (w_refcnt w x + Z.of_nat (cnt x tab)).
Proof.
  revert w; induction tab as [|[io|] tab IH]; intros w Hok; cbn [share_files].
  - split_and!; [done|done|]. intros x Hx. cbn. by rewrite Z.add_0_r.
  - unfold io_ioref. set (n := u32 (w_refcnt w io + 1)). destruct (IH (w_set_refcnt (w_set_refcnt w io n) io n)) as (O & L & R); [by do 2 apply ok_set|].
    split_and!; [done|intros x; by rewrite L, !live_set|]. intros x Hx. rewrite R.
    + rewrite !refcnt_set, cnt_cons. destruct (decide (io = x)) as [->|Hne].
      * rewrite decide_True by done. unfold n, u32. rewrite Zplus_mod_idemp_l. f_equal. lia.
      * rewrite decide_False by congruence. done.
    + rewrite !refcnt_set. destruct (decide (io = x)) as [->|]; [|done]. unfold n, u32. by rewrite Z.mod_mod.
  - destruct (IH w Hok) as (O & L & R). split_and!; [done|done|]. intros x Hx. rewrite R by done. rewrite cnt_cons. done.
Qed.

Lemma fdi_fork ps tab w i p pr n c ch : fdi ps tab w -> tab !! i = Some (Some p) -> ps !! p = Some pr ->
  tab !! n = Some None -> ps !! c = None -> p_id ch = Z.of_nat n -> iotab ch = iotab pr ->
  fdi (<[c := ch]> ps) (<[n := Some c]> tab) (share_files (iotab pr) w).
Proof.
  intros Hf Hi Hp Hn Hc Hid Htab. assert (Hnc : forall j, tab !! j <> Some (Some c)).
  { intros j Hj. destruct (fi_proc _ _ _ Hf j c Hj) as (? & E & _). congruence. }
  destruct (fi_proc _ _ _ Hf i p Hi) as (pr' & Hp' & _ & Hlen). rewrite Hp in Hp'. injection Hp' as <-.
  destruct (share_files_spec (iotab pr) w (fi_ok _ _ _ Hf)) as (O & L & R). split; [done|rewrite length_insert; apply Hf| |].
  - intros j q. destruct (decide (j = n)) as [->|Hne].
    + rewrite list_lookup_insert_eq by (eapply lookup_lt_Some; exact Hn). intros [= <-]. rewrite lookup_insert_eq. exists ch. by rewrite Htab.
    + rewrite list_lookup_insert_ne by done. intros Hj. rewrite lookup_insert_ne by (intros ->; by apply (Hnc j)). by apply (fi_proc _ _ _ Hf).
  - intros x. rewrite (refs_new ps tab n c ch x) by done. rewrite Htab. intros Hpos. assert (Ho := own_refs ps tab i p pr Hi Hp x).
    assert (Hb := fdi_bound _ _ _ x Hf). destruct (fi_refs _ _ _ Hf x ltac:(lia)) as [Hl Hr]. rewrite L. split; [done|].
    rewrite R, Hr by (rewrite Hr, u32_small; lia). rewrite u32_small by lia. lia.
Qed.

(** Closing the objects of a table that holds each at most once. *)
Lemma close_all_spec t : forall w w' t', w_ok w -> (forall io, Some io ∈ t -> w_live w io) -> (forall io, (cnt io t <= 1)%nat) ->
  close_all t w = Ret (w', t') -> w_ok w' /\ length t' = length t /\ (forall io, cnt io t' = 0%nat) /\
    forall x, cnt x t = 0%nat -> (w_live w' x <-> w_live w x) /\ w_refcnt w' x = w_refcnt w x.
Proof.
  induction t as [|e t IH]; intros w w' t' Hok Hl Hc Hr; cbn [close_all] in Hr; [by injection Hr as <- <-|].
  assert (Hct : forall io, (cnt io t <= 1)%nat) by (intros io; specialize (Hc io); rewrite cnt_cons in Hc; lia). obind_inv Hr.
  assert (Hstep : w_ok r /\ (forall io, Some io ∈ t -> w_live r io) /\
    forall x, e <> Some x -> (w_live r x <-> w_live w x) /\ w_refcnt r x = w_refcnt w x).
  { destruct e as [io|].
    - destruct (op_close _) as [close|] eqn:Ec; [|done].
      destruct (w_close w io close Hok (Hl io ltac:(by left)) Ec) as (w1 & E & [O L R]). rewrite E in Hm. injection Hm as <-. split_and!; [done| |].
      + intros x Hx. apply L. split; [|apply Hl; by right]. intros ->. specialize (Hc io). rewrite cnt_cons, decide_True in Hc by done.
        apply cnt_pos in Hx. lia.
      + intros x Hx. rewrite L, R by congruence. split; [|done]. split; [tauto|]. intros ?. split; [congruence|done].
    - injection Hm as <-. split_and!; [done| |done]. intros x Hx. apply Hl. by right. }
  destruct Hstep as (Hok1 & Hl1 & Hx1). obind_inv Hr. destruct r0 as [w2 t2]. injection Hr as <- <-.
  destruct (IH r w2 t2 Hok1 Hl1 Hct Hm0) as (O & L & Z0 & X). split_and!; [done|cbn; by rewrite L|intros io; rewrite cnt_cons; apply Z0|].
  intros x Hx. rewrite cnt_cons in Hx. destruct (decide (e = Some x)); [lia|]. destruct (X x Hx) as [-> ->]. by apply Hx1.
Qed.

Lemma fdi_exit ps tab w i p pr w' t' : fdi ps tab w -> tab !! i = Some (Some p) -> ps !! p = Some pr ->
  (forall io, Some io ∈ iotab pr -> w_refcnt w io = 1) -> close_all (iotab pr) w = Ret (w', t') ->
  fdi (<[p := with_iotab pr t']> ps) (<[i := None]> tab) w'.
Proof.
  intros Hf Hi Hp H1 Hc. assert (Hown : forall io, (0 < cnt io (iotab pr))%nat -> refs ps tab io = 1%nat /\ w_live w io).
  { intros io Hpos. assert (Ho := own_refs ps tab i p pr Hi Hp io). destruct (fi_refs _ _ _ Hf io ltac:(lia)) as [? Hr].
    rewrite H1 in Hr by (by apply cnt_pos). split; [lia|done]. }
  destruct (close_all_spec (iotab pr) w w' t') as (O & L & Z0 & X); [apply Hf| | |done|].
  { intros io Hio. apply Hown. by apply cnt_pos. }
  { intros io. destruct (cnt io (iotab pr)) as [|c] eqn:E; [lia|]. destruct (Hown io ltac:(lia)) as [Hr _].
    assert (Ho := own_refs ps tab i p pr Hi Hp io). lia. }
  assert (Huniq : forall j, tab !! j = Some (Some p) -> j = i) by (intros j; by eapply fdi_unique).
  split; [done|rewrite length_insert; apply Hf| |].
  - intros j q. destruct (decide (j = i)) as [->|Hne]; [by rewrite list_lookup_insert_eq by (eapply lookup_lt_Some; exact Hi)|].
    rewrite list_lookup_insert_ne by done. intros Hj. rewrite lookup_insert_ne by (intros ->; by apply Hne, Huniq). by apply (fi_proc _ _ _ Hf).
  - intros x. assert (Hput := refs_put ps tab i p pr Hi Hp Huniq t' x). rewrite Z0 in Hput.
    assert (Hcl := refs_clear (<[p := with_iotab pr t']> ps) tab i p (with_iotab pr t') Hi (lookup_insert_eq _ _ _) x). cbn [iotab with_iotab] in Hcl. rewrite Z0 in Hcl.
    intros Hpos. assert (Hz : cnt x (iotab pr) = 0%nat).
    { destruct (cnt x (iotab pr)) eqn:E; [done|]. destruct (Hown x ltac:(lia)) as [? _]. lia. }
    destruct (X x Hz) as [-> ->]. destruct (fi_refs _ _ _ Hf x ltac:(lia)) as [? ->]. split; [done|]. lia.
Qed.
End Invariant.
