(* ===== verification/FdInv.v ===== *)
(** System calls keep the descriptors and the reference counts in step
    (syscall.c, process.c): every call, over any run of the processes. *)

From Stdlib Require Import List.
From S2P Require Import Prelude KString IoIntf Intr Device Console Thread Timer Heap Memory PageTable VmOps UserMem Elf Process Syscall Descriptors.
From stdpp Require Import gmap list.
#[local] Open Scope Z_scope.

Section Calls.
Context {W : Type} `{IoWorldSpec W} (img : kimg) (main : Z).
Notation kern := (kern W).
Implicit Types (k : kern) (pr : process).

Definition opener_ok (d : device (opener W)) : Prop :=
  match openfn d with Some f => opens w_ok w_live f | None => True end.

Definition fd_inv (k : kern) : Prop :=
  fdi (k_procs k) (k_proctab k) (k_w k) /\ Forall opener_ok (k_devtab k).

(** The running thread belongs to a process of the table. *)
Definition runs_process (k : kern) (p : Z) (pr : process) : Prop :=
  current k = Ret (p, pr) /\ k_proctab k !! Z.to_nat (p_id pr) = Some (Some p).

(** What the invariant is about. *)
Record same_fds (k k' : kern) : Prop := {
  sf_procs : k_procs k' = k_procs k;
  sf_tab : k_proctab k' = k_proctab k;
  sf_dev : k_devtab k' = k_devtab k;
  sf_world : k_w k' = k_w k;
}.

Lemma same_inv k k' : same_fds k k' -> fd_inv k -> fd_inv k'.
Proof. intros [E1 E2 E3 E4]. unfold fd_inv. by rewrite E1, E2, E3, E4. Qed.
Lemma same_refl k : same_fds k k.
Proof. by split. Qed.
Lemma same_trans k1 k2 k3 : same_fds k1 k2 -> same_fds k2 k3 -> same_fds k1 k3.
Proof. intros [] []. split; congruence. Qed.

Lemma kput_same k t k' : kput k t = Ret k' -> same_fds k k'.
Proof. intros Hr. unfold kput in Hr. peel Hr. by injection Hr as <-. Qed.
Lemma kprintf_same k f ap k' : kprintf k f ap = Ret k' -> same_fds k k'.
Proof. intros Hr. unfold kprintf in Hr. peel Hr. by injection Hr as <-. Qed.
Lemma print_ref_same k io k' : print_ref k io = Ret k' -> same_fds k k'.
Proof. intros Hr. unfold print_ref in Hr. peel Hr. exact (kprintf_same _ _ _ _ Hr). Qed.
Lemma print_refs_same tab : forall k k', print_refs k tab = Ret k' -> same_fds k k'.
Proof.
  induction tab as [|[io|] tab IH]; intros k k' Hr; cbn [print_refs] in Hr; [by injection Hr as <-| |by apply IH].
  obind_inv Hr. eapply same_trans; [by eapply print_ref_same|by apply IH].
Qed.

Lemma kept_inv k w : fd_inv k -> kept w_ok w_live (k_w k) w -> fd_inv (set_world k w).
Proof. intros [Hf Hd] Hk. split; [|done]. by eapply fdi_kept. Qed.

Lemma mm_inv k m : fd_inv k -> fd_inv (set_mm k m).
Proof. done. Qed.

Lemma current_get k p pr : current k = Ret (p, pr) -> k_procs k !! p = Some pr.
Proof. intros Hr. unfold current in Hr. peel Hr. injection Hr as <- <-. unfold get_proc in *. destruct (k_procs k !! z); [by simplify_eq|done]. Qed.

Lemma current_deref k q p pr : current_process k = Ret q -> deref k q = Ret (p, pr) -> current k = Ret (p, pr).
Proof. intros Hq Hr. unfold current. by rewrite Hq. Qed.

(** * Descriptor arguments *)

Lemma with_fd_inv k fd f k' e : with_fd k fd f = Ret (k', e) ->
  k' = k \/ exists p pr io, current k = Ret (p, pr) /\ 0 <= fd < PROCESS_IOMAX /\
    iotab pr !! Z.to_nat fd = Some (Some io) /\ f p pr io = Ret (k', e).
Proof.
  intros Hr. unfold with_fd in Hr. obind_inv Hr. destruct (_ || _) eqn:Hb; [left; by injection Hr|]. bool_to_prop.
  obind_inv Hr. destruct r0 as [p pr]. obind_inv Hr. apply load_Ret in Hm1 as [? Hl]. destruct r0 as [io|]; [|left; by injection Hr].
  right. exists p, pr, io. split_and!; try lia; [by eapply current_deref|done|done].
Qed.

Lemma clear_fd_eq k p pr fd k' : clear_fd k p pr fd = Ret k' ->
  k' = put_proc k p (with_iotab pr (<[Z.to_nat fd := None]> (iotab pr))).
Proof. intros Hr. unfold clear_fd in Hr. obind_inv Hr. apply store_Ret in Hm as [_ ->]. by injection Hr. Qed.

(** The first unused entry. *)
Lemma empty_slot_first tab : forall i n, empty_slot tab i = Some n ->
  i <= n /\ tab !! Z.to_nat (n - i) = Some None /\ forall j, (j < Z.to_nat (n - i))%nat -> tab !! j <> Some None.
Proof.
  induction tab as [|[x|] tab IH]; intros i n; cbn [empty_slot]; [done| |intros [= ->]; rewrite Z.sub_diag; split_and!; [lia|done|]].
  - intros (Hle & E & Hf)%IH. replace (Z.to_nat (n - i)) with (S (Z.to_nat (n - (i + 1)))) by lia. split_and!; [lia|done|].
    intros [|j] Hj; [done|]. apply Hf. lia.
  - cbn. lia.
Qed.
Lemma empty_slot_Some tab i n : empty_slot tab i = Some n -> i <= n /\ tab !! Z.to_nat (n - i) = Some None.
Proof. intros (? & ? & _)%empty_slot_first. auto. Qed.
Lemma empty_slot_None tab i j : empty_slot tab i = None -> tab !! j <> Some None.
Proof. revert i j; induction tab as [|[x|] tab IH]; intros i [|j]; cbn; try done. apply IH. Qed.

Section Call.
Context (k : kern) (p : Z) (pr : process) (Hk : fd_inv k) (Hrun : runs_process k p pr).

Lemma run_get : k_procs k !! p = Some pr.
Proof. by apply current_get, Hrun. Qed.

(** Calls through a descriptor, for an object that is held. *)
Lemma with_fd_held fd f k' e : with_fd k fd f = Ret (k', e) ->
  (forall io, 0 <= fd < PROCESS_IOMAX -> iotab pr !! Z.to_nat fd = Some (Some io) -> w_live (k_w k) io -> f p pr io = Ret (k', e) -> fd_inv k') ->
  fd_inv k'.
Proof.
  intros Hr Hx. apply with_fd_inv in Hr as [->|(p' & pr' & io & Hc & Hfd & Hio & Hr)]; [done|].
  destruct Hrun as [Hcur Htab]. rewrite Hcur in Hc. injection Hc as <- <-. eapply Hx; [done..| |done].
  by eapply (held_live _ _ _ _ _ _ (proj1 Hk) Htab run_get).
Qed.

Lemma sysclose_inv fd k' e : sysclose k fd = Ret (k', e) -> fd_inv k'.
Proof.
  intros Hr. eapply with_fd_held; [exact Hr|]. cbn beta. intros io Hfd Hio _ Hr'.
  destruct (fdi_close _ _ _ _ _ _ (proj1 Hk) (proj2 Hrun) run_get _ io Hio) as (w' & E & Hf' & _). rewrite E in Hr'. cbn [obind] in Hr'.
  peel Hr'. apply clear_fd_eq in Hm as ->. injection Hr' as <- _. split; [exact Hf'|apply Hk].
Qed.

Lemma sysread_inv fd buf n k' e : sysread k fd buf n = Ret (k', e) -> fd_inv k'.
Proof.
  intros Hr. eapply with_fd_held; [exact Hr|]. cbn beta. intros io Hfd Hio Hl Hr'. peel Hr'; injection Hr' as <- _; [done|].
  apply kept_inv; [done|]. eapply (ioread_keeps _ _ (w_ops_keep _ io (fi_ok _ _ _ (proj1 Hk)) Hl)); [|done]. split; [apply Hk|done..].
Qed.

(** An operation of a held object keeps all objects. *)
Lemma held_ops io : w_live (k_w k) io -> ops_keep (w_ops (k_w k) io) (kept w_ok w_live (k_w k)) /\ kept w_ok w_live (k_w k) (k_w k).
Proof. intros Hl. split; [apply w_ops_keep; [apply Hk|done]|]. split; [apply Hk|done..]. Qed.

Lemma syswrite_inv fd buf n k' e : syswrite k fd buf n = Ret (k', e) -> fd_inv k'.
Proof.
  intros Hr. eapply with_fd_held; [exact Hr|]. cbn beta. intros io Hfd Hio Hl Hr'. peel Hr'; injection Hr' as <- _; [done|].
  destruct (held_ops io Hl). apply kept_inv; [done|]. by eapply iowrite_keeps.
Qed.

Lemma sysioctl_inv fd cmd a k' e : sysioctl k fd cmd a = Ret (k', e) -> fd_inv k'.
Proof.
  intros Hr. eapply with_fd_held; [exact Hr|]. cbn beta. intros io Hfd Hio Hl Hr'. peel Hr'; injection Hr' as <- _.
  destruct (held_ops io Hl). apply kept_inv; [done|]. by eapply ioctl_keeps.
Qed.

(** The program is read after its descriptor is dropped. *)
Lemma sysexec_inv fd k' e : (forall io, iotab pr !! Z.to_nat fd = Some (Some io) -> w_refcnt (k_w k) io = 1) ->
  sysexec k fd = Ret (k', e) -> fd_inv k'.
Proof.
  intros H1 Hr. eapply with_fd_held; [exact Hr|]. cbn beta. intros io Hfd Hio Hl Hr'.
  assert (Hdrop := fdi_drop _ _ _ _ _ _ (proj1 Hk) (proj2 Hrun) run_get _ io Hio (H1 io Hio)).
  apply obind_Ret_inv in Hr' as (k1 & Hc & Hr'). apply clear_fd_eq in Hc as ->. destruct (held_ops io Hl) as [Hops Hrefl].
  assert (Hkept : forall w, kept w_ok w_live (k_w k) w -> fdi (k_procs (put_proc k p (with_iotab pr (<[Z.to_nat fd := None]> (iotab pr))))) (k_proctab k) w)
    by (intros w Hw; by eapply fdi_kept).
  unfold process_exec in Hr'. apply obind_Ret_inv in Hr' as (m1 & _ & Hr'). apply obind_Ret_inv in Hr' as ([[[w m2] ret] ent] & Hload & Hr').
  apply (elf_load_keeps _ _ Hops) in Hload; [|exact Hrefl]. peel Hr'; injection Hr' as <- _; (split; [by apply Hkept|apply Hk]).
Qed.

(** * Opening *)

Lemma install_inv close w fd io k' e :
  (forall w io, w_ok w -> w_live w io -> exists w', close w io = Ret w' /\
     forall ps tab, fdi ps tab w -> refs ps tab io = 0%nat -> fdi ps tab w') ->
  opened w_ok w_live (k_w k) w io -> install close (set_world k w) (Some p) fd io = Ret (k', e) -> fd_inv k'.
Proof.
  intros Hclose Hopen Hr. destruct (fdi_opened _ _ _ _ _ (proj1 Hk) Hopen) as (Hf & Hz & Hl). unfold install in Hr.
  assert (Hfail : forall err, (let! w' := close (k_w (set_world k w)) io in Ret (set_world (set_world k w) w', Returns (- err))) = Ret (k', e) -> fd_inv k').
  { intros err Hr'. destruct (Hclose w io (fi_ok _ _ _ Hf) Hl) as (w' & E & Hcl). cbn [k_w set_world] in Hr'. rewrite E in Hr'. injection Hr' as <- _.
    split; [|apply Hk]. by apply Hcl. }
  assert (Hset : forall n, iotab pr !! Z.to_nat n = Some None -> (let! tab := store (iotab pr) n (Some io) in
      Ret (put_proc (set_world (set_world k w) (w_set_refcnt (k_w (set_world k w)) io 1)) p (with_iotab pr tab), Returns n)) = Ret (k', e) -> fd_inv k').
  { intros n Hn Hr'. apply obind_Ret_inv in Hr' as (tab & Ht & Hr'). apply store_Ret in Ht as [_ ->]. injection Hr' as <- _.
    split; [|apply Hk]. by apply (fdi_install _ _ _ _ _ _ Hf (proj2 Hrun) run_get). }
  cbv zeta in Hr. destruct (PROCESS_IOMAX <=? fd); [by apply (Hfail EMFILE)|].
  apply obind_Ret_inv in Hr as ([p' pr'] & Hd & Hr).
  assert ((p', pr') = (p, pr)) as [= -> ->].
  { cbn in Hd. unfold get_proc in Hd. cbn [k_procs set_world] in Hd. rewrite run_get in Hd. by injection Hd as <- <-. }
  destruct (0 <=? fd).
  - apply obind_Ret_inv in Hr as (en & He & Hr). apply load_Ret in He as [_ He].
    destruct en as [x|]; [by apply (Hfail EBADFD)|by apply (Hset fd)].
  - destruct (empty_slot (iotab pr) 0) as [n|] eqn:Hs; [|by apply (Hfail EMFILE)]. apply (Hset n); [|done].
    apply empty_slot_Some in Hs as [_ Hs]. by rewrite Z.sub_0_r in Hs.
Qed.

Lemma run_process : current_process k = Ret (Some p).
Proof. destruct Hrun as [Hc _]. unfold current in Hc. peel Hc. by injection Hc as -> _. Qed.

Lemma sysfsopen_inv fd name k' e : sysfsopen k fd name = Ret (k', e) -> fd_inv k'.
Proof.
  intros Hr. unfold sysfsopen in Hr. rewrite run_process in Hr. cbn [obind] in Hr. destruct (name =? 0); [by injection Hr as <- _|].
  apply obind_Ret_inv in Hr as (s & _ & Hr). apply obind_Ret_inv in Hr as ([[w ret] io] & Ho & Hr). cbv zeta in Hr.
  apply (w_fs_opens (Some s)) in Ho; [|apply Hk]. destruct (ret <? 0); [injection Hr as <- _; by apply kept_inv|].
  eapply (install_inv w_fs_close); [|exact Ho|exact Hr]. intros w0 io0 Hok Hl. destruct (w_fs_closes w0 io0 Hok Hl) as (w' & E & Hc).
  exists w'. split; [done|]. intros ps tab Hf Hz. by eapply fdi_closed.
Qed.

Lemma ioclose_new w io : w_ok w -> w_live w io -> exists w', io_ioclose w io = Ret w' /\
  forall ps tab, fdi ps tab w -> refs ps tab io = 0%nat -> fdi ps tab w'.
Proof.
  intros Hok Hl. unfold io_ioclose. set (n := u32 _). assert (Hok' := ok_set w io n Hok). assert (Hl' := proj2 (live_set w io n io) Hl).
  destruct (op_close _) as [close|] eqn:Ec; [|eexists; split; [done|]; intros; by apply fdi_set].
  destruct (n =? 0); [|eexists; split; [done|]; intros; by apply fdi_set]. destruct (w_close _ io close Hok' Hl' Ec) as (w' & -> & Hc).
  exists w'. split; [done|]. intros ps tab Hf Hz. eapply fdi_closed; [|done|exact Hc]. by apply fdi_set.
Qed.

Lemma device_open_inv {F R} (call : F -> outcome R) enodev tab name i r : device_open call enodev tab name i = Ret r ->
  r = enodev (- ENODEV) \/ exists d f, d ∈ tab /\ openfn d = Some f /\ call f = Ret r.
Proof.
  intros Hr. unfold device_open in Hr. peel Hr; [left; by injection Hr|right]. apply load_Ret in Hm0 as [_ Hl]. eexists _, _.
  split; [by eapply list_elem_of_lookup_2|]. done.
Qed.

Lemma sysdevopen_inv fd name i k' e : sysdevopen k fd name i = Ret (k', e) -> fd_inv k'.
Proof.
  intros Hr. unfold sysdevopen in Hr. rewrite run_process in Hr. cbn [obind] in Hr. destruct (name =? 0); [by injection Hr as <- _|].
  apply obind_Ret_inv in Hr as (s & _ & Hr). apply obind_Ret_inv in Hr as ([[w ret] io] & Ho & Hr). cbv zeta in Hr.
  apply device_open_inv in Ho as [[= -> -> ->]|(d & f & Hd & Hf & Ho)]; [injection Hr as <- _; by destruct k|].
  assert (Hdev := proj2 Hk). rewrite Forall_forall in Hdev. specialize (Hdev d Hd). unfold opener_ok in Hdev. rewrite Hf in Hdev.
  apply Hdev in Ho; [|apply Hk]. destruct (ret <? 0); [injection Hr as <- _; by apply kept_inv|].
  eapply (install_inv io_ioclose); [apply ioclose_new|exact Ho|exact Hr].
Qed.

(** * Processes *)

Lemma sysexit_inv k' e : (forall io, Some io ∈ iotab pr -> w_refcnt (k_w k) io = 1) -> sysexit main k = Ret (k', e) -> fd_inv k'.
Proof.
  intros H1 Hr. unfold sysexit, process_exit in Hr. apply obind_Ret_inv in Hr as (m1 & _ & Hr). apply obind_Ret_inv in Hr as (m2 & _ & Hr).
  cbv zeta in Hr. change (current (set_mm k m2)) with (current k) in Hr. rewrite (proj1 Hrun) in Hr. cbn [obind] in Hr.
  apply obind_Ret_inv in Hr as ([w' t'] & Hc & Hr). apply obind_Ret_inv in Hr as (ptab & Hs & Hr). apply store_Ret in Hs as [_ ->].
  assert (Hf := fdi_exit _ _ _ _ _ _ w' t' (proj1 Hk) (proj2 Hrun) run_get H1 Hc). apply obind_Ret_inv in Hr as ([t|] & _ & Hr).
  - apply obind_Ret_inv in Hr as (k1 & Hput & Hr). apply kput_same in Hput. injection Hr as <- _. eapply same_inv; [exact Hput|].
    split; [exact Hf|apply Hk].
  - injection Hr as <- _. split; [exact Hf|apply Hk].
Qed.

Lemma fdi_same_proc ps tab (w : W) c pr1 pr2 : fdi ps tab w -> ps !! c = Some pr1 -> p_id pr2 = p_id pr1 -> iotab pr2 = iotab pr1 ->
  fdi (<[c := pr2]> ps) tab w.
Proof.
  intros Hf Hc Hid Ht. assert (Hrefs : forall io, refs (<[c := pr2]> ps) tab io = refs ps tab io).
  { intros io. unfold refs. clear Hf. induction tab as [|e tab IH]; [done|]. cbn. rewrite IH. f_equal. destruct e as [q|]; [|done]. cbn.
    destruct (decide (q = c)) as [->|]; [by rewrite lookup_insert_eq, Hc; cbn; rewrite Ht|by rewrite lookup_insert_ne]. }
  destruct Hf as [O L Pp R]. split; [done|done| |intros io; rewrite Hrefs; apply R]. intros i q Hi. destruct (Pp i q Hi) as (pr' & E & I & Ln).
  destruct (decide (q = c)) as [->|]; [rewrite lookup_insert_eq|rewrite lookup_insert_ne by done; eauto].
  rewrite Hc in E. injection E as <-. exists pr2. by rewrite Hid, Ht.
Qed.

Lemma process_fork_inv j k' ch : (forall h m c, kmalloc (k_heap k) (k_mm k) SIZEOF_process = Ret (h, m, c) -> k_procs k !! c = None) ->
  process_fork img k j (p_id pr) = Ret (k', ch) -> fd_inv k'.
Proof.
  intros Hfresh Hr. unfold process_fork in Hr. destruct (empty_slot _ 0) as [n|] eqn:Hs; [|by injection Hr as <- _].
  apply empty_slot_Some in Hs as [Hn Hs]. rewrite Z.sub_0_r in Hs.
  apply obind_Ret_inv in Hr as ([[h m] c] & Hm & Hr). apply obind_Ret_inv in Hr as ([m2 mt] & _ & Hr). cbv zeta in Hr.
  apply obind_Ret_inv in Hr as (en & He & Hr). apply load_Ret in He as [_ He]. change (k_proctab (set_heap k h m2)) with (k_proctab k) in He.
  rewrite (proj2 Hrun) in He. injection He as <-. apply obind_Ret_inv in Hr as (pr' & Hg & Hr).
  assert (pr' = pr) as -> by (unfold get_proc in Hg; cbn [k_procs set_heap] in Hg; rewrite run_get in Hg; by injection Hg).
  apply obind_Ret_inv in Hr as (ptab & Hst & Hr). apply store_Ret in Hst as [_ ->]. injection Hr as <- _. split; [|apply Hk].
  eapply fdi_fork; [apply Hk|apply Hrun|apply run_get|exact Hs|by eapply Hfresh|cbn; lia|done].
Qed.
End Call.

Lemma fork_to_user_inv k j c k' r : fd_inv k -> fork_to_user k j c = Ret (k', r) -> fd_inv k'.
Proof.
  intros [Hf Hd] Hr. unfold fork_to_user in Hr. peel Hr. injection Hr as <- _.
  lazymatch goal with
  | Hg : get_proc _ c = Ret ?pr, Hput : kput _ _ = Ret ?k' |- _ =>
      apply kput_same in Hput; eapply same_inv; [exact Hput|]; unfold get_proc in Hg; cbn [k_procs set_heap] in Hg
  end.
  destruct (k_procs k !! c) as [pr|] eqn:Hc; [|done]. simplify_eq. split; [|done]. eapply (fdi_same_proc _ _ _ c); [exact Hf|exact Hc|done|done].
Qed.

Lemma join_same k r k' e : join_ending k r = Ret (k', e) -> same_fds k k'.
Proof. intros Hr. unfold join_ending in Hr. peel Hr; injection Hr as <- _; by eapply kput_same. Qed.

(** * Any call *)

(** A call drops no object that another descriptor holds, and the address of
    a new process is not that of another. *)
Definition call_ok (k : kern) (num a0 : Z) : Prop :=
  exists p pr, runs_process k p pr /\
    (num = SYSCALL_EXIT -> forall io, Some io ∈ iotab pr -> w_refcnt (k_w k) io = 1) /\
    (num = SYSCALL_EXEC -> forall io, iotab pr !! Z.to_nat (i32 a0) = Some (Some io) -> w_refcnt (k_w k) io = 1) /\
    (num = SYSCALL_FORK -> forall h m c, kmalloc (k_heap k) (k_mm k) SIZEOF_process = Ret (h, m, c) -> k_procs k !! c = None).

Lemma syscall_inv k j num a0 a1 a2 k' e : fd_inv k -> call_ok k num a0 ->
  syscall img main k j num a0 a1 a2 = Ret (k', e) -> fd_inv k'.
Proof.
  intros Hk (p & pr & Hrun & Hex & Hxc & Hfk) Hr. unfold syscall in Hr.
  destruct (Z.eqb_spec num SYSCALL_EXIT) as [E|_]; [by eapply sysexit_inv; eauto|].
  destruct (num =? SYSCALL_MSGOUT).
  { unfold sysmsgout in Hr. peel Hr; injection Hr as <- _; eapply same_inv; [by eapply kprintf_same|done]. }
  destruct (num =? SYSCALL_DEVOPEN); [by eapply sysdevopen_inv; eauto|].
  destruct (num =? SYSCALL_FSOPEN); [by eapply sysfsopen_inv; eauto|].
  destruct (num =? SYSCALL_CLOSE); [by eapply sysclose_inv; eauto|].
  destruct (num =? SYSCALL_READ); [by eapply sysread_inv; eauto|].
  destruct (num =? SYSCALL_WRITE); [by eapply syswrite_inv; eauto|].
  destruct (num =? SYSCALL_IOCTL); [by eapply sysioctl_inv; eauto|].
  destruct (Z.eqb_spec num SYSCALL_EXEC) as [E|_]; [by eapply sysexec_inv; eauto|].
  destruct (Z.eqb_spec num SYSCALL_FORK) as [E|_].
  { unfold sysfork in Hr. rewrite (proj1 Hrun) in Hr. cbn [obind] in Hr. apply obind_Ret_inv in Hr as ([k1 ch] & Hf & Hr).
    apply (process_fork_inv k p pr Hk Hrun) in Hf; [|by apply Hfk]. peel Hr; injection Hr as <- _; [by eapply fork_to_user_inv|done]. }
  destruct (num =? SYSCALL_WAIT).
  { unfold syswait in Hr. apply obind_Ret_inv in Hr as (r & _ & Hr). apply join_same in Hr. by eapply same_inv. }
  destruct (num =? SYSCALL_USLEEP).
  { unfold sysusleep in Hr. peel Hr; injection Hr as <- _; (eapply same_inv; [eapply kput_same; eassumption|done]). }
  destruct (num =? SYSCALL_PIOREF).
  { unfold syspioref in Hr. peel Hr. injection Hr as <- _. eapply same_inv; [by eapply print_refs_same|done]. }
  by injection Hr as <- _.
Qed.
End Calls.
