(* ===== verification/SyscallProps.v ===== *)
(** What the system calls do to descriptors and processes: properties of
    syscall.c, process.c and excp.c over any I/O objects that keep the promise
    of [IoWorldSpec]. *)

From Stdlib Require Import List.
From S2P Require Import Prelude KString IoIntf Intr Device Console Thread Timer Heap Memory PageTable VmOps UserMem VmClone Elf Process Syscall Descriptors FdInv.
From stdpp Require Import gmap list.
#[local] Open Scope Z_scope.

Section Props.
Context {W : Type} `{IoWorldSpec W} (img : kimg) (main main_proc : Z).
Notation kern := (kern W).
Implicit Types (k : kern) (pr : process) (tfr : trap_frame).

(** * Runs *)

(** The states of the kernel: after [procmgr_init], after an exception of the
    running program, and after anything that changes only threads and memory
    (the scheduler, an interrupt, the program itself). *)
Inductive kreach : kern -> Prop :=
| KInit k0 k : w_ok (k_w k0) -> Forall opener_ok (k_devtab k0) ->
    k_proctab k0 = Some main_proc :: replicate 15 None -> procmgr_init main_proc k0 = Ret k -> kreach k
| KTrap k j code tfr k' tfr' e : kreach k -> call_ok k (reg tfr TFR_A7) (reg tfr TFR_A0) ->
    umode_excp_handler img main k j code tfr = Ret (k', tfr', e) -> kreach k'
| KSwitch k t m : kreach k -> kreach (set_thr k t m).

Lemma procmgr_init_inv k0 k : w_ok (k_w k0) -> Forall opener_ok (k_devtab k0) ->
  k_proctab k0 = Some main_proc :: replicate 15 None -> procmgr_init main_proc k0 = Ret k -> fd_inv k.
Proof.
  intros Hok Hd Ht Hr. unfold procmgr_init in Hr. peel Hr. injection Hr as <-. split; [|done]. cbn [k_procs k_proctab k_w put_proc set_procs set_thr].
  rewrite Ht. split; [done|done| |].
  - intros [|i] p Hi; [injection Hi as <-; rewrite lookup_insert_eq; by eexists|]. change (replicate 15 None !! i = Some (Some p)) in Hi.
    apply lookup_replicate in Hi as [? _]. done.
  - intros io. change (refs _ _ io) with (cnt io (tab_of (<[main_proc := {| p_id := MAIN_PID; p_tid := r; p_mtag := active_memory_space (k_mm k0);
      iotab := replicate (Z.to_nat PROCESS_IOMAX) None |}]> (k_procs k0)) (Some main_proc)) + 0)%nat. cbn [tab_of]. rewrite lookup_insert_eq. cbn [from_option iotab]. rewrite cnt_replicate. lia.
Qed.

Lemma default_same k code tfr k' e : default_excp_handler k code tfr = Ret (k', e) -> same_fds k k'.
Proof. intros Hr. unfold default_excp_handler in Hr. peel Hr. injection Hr as <- _. destruct r; exact (kprintf_same _ _ _ _ Hm0). Qed.

Lemma umode_excp_inv k j code tfr k' tfr' e : fd_inv k -> call_ok k (reg tfr TFR_A7) (reg tfr TFR_A0) ->
  umode_excp_handler img main k j code tfr = Ret (k', tfr', e) -> fd_inv k'.
Proof.
  intros Hk Hc Hr. unfold umode_excp_handler in Hr. destruct (code =? _).
  - unfold syscall_handler in Hr. peel Hr. injection Hr as <- _ _. peel Hm. injection Hm as <- _ _. by eapply (syscall_inv img main k).
  - destruct (_ || _); peel Hr; injection Hr as <- _ _; [done|]. eapply same_inv; [by eapply default_same|done].
Qed.

Lemma kreach_inv k : kreach k -> fd_inv k.
Proof. induction 1; [by eapply procmgr_init_inv|by eapply umode_excp_inv|done]. Qed.

(** C3: in every state that traps of the processes lead to from
    [procmgr_init], as long as no process exits or calls exec with an object
    that is shared and [kmalloc] does not hand out the address of a process in
    use ([call_ok]), the object of every open descriptor of every process of the
    table is open, and its reference count is the number of descriptors, over
    all processes, that hold it.  The condition is needed: exit closes what it
    holds whatever the count ([exit_closes_shared]), and exec drops its
    descriptor without touching the count. *)
Theorem fd_refcounts k i p pr fd io :
  kreach k -> k_proctab k !! i = Some (Some p) -> k_procs k !! p = Some pr -> iotab pr !! fd = Some (Some io) ->
  w_live (k_w k) io /\ w_refcnt (k_w k) io = Z.of_nat (refs (k_procs k) (k_proctab k) io).
Proof.
  intros Hr Hi Hp Hfd. apply kreach_inv in Hr as [Hf _]. by eapply (held_live _ _ _ _ _ _ Hf Hi Hp).
Qed.

(** C28: in a state where the counts are the numbers of descriptors ([fd_inv],
    as [kreach] keeps it; the exit of a process that shares an object breaks
    it), closing an open descriptor succeeds: it frees exactly that entry of the
    calling process, leaves one reference less, and closes the object when, and
    only when, no other descriptor of any process holds it. *)
Theorem sysclose_last k p pr fd io :
  fd_inv k -> runs_process k p pr -> 0 <= fd -> iotab pr !! Z.to_nat fd = Some (Some io) ->
  op_close (w_ops (w_set_refcnt (k_w k) io 0) io) <> None ->
  exists k' pr', sysclose k fd = Ret (k', Returns 0) /\ fd_inv k' /\
    k_procs k' = <[p := pr']> (k_procs k) /\ iotab pr' = <[Z.to_nat fd := None]> (iotab pr) /\
    S (refs (k_procs k') (k_proctab k') io) = refs (k_procs k) (k_proctab k) io /\
    (w_live (k_w k') io <-> (1 < refs (k_procs k) (k_proctab k) io)%nat).
Proof.
  intros Hk Hrun Hfd Hio Hc. assert (Hp := run_get k p pr Hrun). destruct Hk as [Hf Hd]. destruct Hrun as [Hcur Htab].
  assert (Hlen := lookup_lt_Some _ _ _ Hio). destruct (fi_proc _ _ _ Hf _ _ Htab) as (pr0 & Hp0 & _ & Hl). rewrite Hp in Hp0. injection Hp0 as <-.
  destruct (fdi_close _ _ _ _ _ _ Hf Htab Hp _ io Hio) as (w' & E & Hf' & Hlast).
  assert (Hsys : sysclose k fd = Ret (put_proc (set_world k w') p (with_iotab pr (<[Z.to_nat fd := None]> (iotab pr))), Returns 0)).
  { unfold sysclose, with_fd. rewrite (run_process k p pr); [|by split]. cbn [obind]. replace ((fd <? 0) || (PROCESS_IOMAX <=? fd)) with false
      by (unfold PROCESS_IOMAX in *; lia). cbn [deref]. unfold get_proc. rewrite Hp. cbn [obind]. rewrite (proj2 (load_Ret (iotab pr) fd (Some io)) (conj Hfd Hio)).
    cbn [obind]. rewrite E. cbn [obind]. unfold clear_fd. rewrite store_lt by lia. done. }
  exists (put_proc (set_world k w') p (with_iotab pr (<[Z.to_nat fd := None]> (iotab pr)))), (with_iotab pr (<[Z.to_nat fd := None]> (iotab pr))).
  split; [done|]. split; [by split|]. split; [done|]. split; [done|]. split; [|by apply Hlast].
  assert (Hput := refs_put _ _ _ p pr Htab Hp (fun j => fdi_unique _ _ _ _ _ _ Hf Htab) (<[Z.to_nat fd := None]> (iotab pr)) io).
  assert (Hci := cnt_insert io _ _ _ None Hio). rewrite decide_True, decide_False in Hci by done. cbn [k_procs k_proctab put_proc set_procs set_world].
  assert (Ho := own_refs _ _ _ p pr Htab Hp io). lia.
Qed.

(** * Opening *)

(** [r] is what opening answers for the request [fd] on a table: an unused
    descriptor (the requested one, or the lowest), or why there is none. *)
Definition open_answer (tab : list (option Z)) (fd r : Z) : Prop :=
  if r <? 0 then
    r = - EMFILE /\ (PROCESS_IOMAX <= fd \/ fd < 0 /\ forall j, tab !! j <> Some None) \/
    r = - EBADFD /\ 0 <= fd < PROCESS_IOMAX /\ tab !! Z.to_nat fd <> Some None
  else
    tab !! Z.to_nat r = Some None /\ (0 <= fd -> r = fd) /\ (fd < 0 -> forall j, (j < Z.to_nat r)%nat -> tab !! j <> Some None).

Lemma install_spec (close : W -> Z -> outcome W) k p pr fd io :
  fd_inv k -> runs_process k p pr -> refs (k_procs k) (k_proctab k) io = 0%nat -> w_live (k_w k) io ->
  (exists w', close (k_w k) io = Ret w' /\ closed w_ok w_live (k_w k) w' io) ->
  exists k' r, install close k (Some p) fd io = Ret (k', Returns r) /\ fd_inv k' /\ open_answer (iotab pr) fd r /\
    if r <? 0 then k_procs k' = k_procs k /\ ~ w_live (k_w k') io
    else k_procs k' = <[p := with_iotab pr (<[Z.to_nat r := Some io]> (iotab pr))]> (k_procs k) /\
         w_live (k_w k') io /\ w_refcnt (k_w k') io = 1.
Proof.
  intros Hk Hrun Hz Hl (w' & Ec & Hc). assert (Hp := run_get k p pr Hrun). destruct Hk as [Hf Hd]. destruct Hrun as [Hcur Htab].
  destruct (fi_proc _ _ _ Hf _ _ Htab) as (pr0 & Hp0 & _ & Hlen). rewrite Hp in Hp0. injection Hp0 as <-.
  assert (Hfail : forall e, 0 < e -> open_answer (iotab pr) fd (- e) -> exists k' r,
    (let! w := close (k_w k) io in Ret (set_world k w, Returns (- e))) = Ret (k', Returns r) /\ fd_inv k' /\ open_answer (iotab pr) fd r /\
    if r <? 0 then k_procs k' = k_procs k /\ ~ w_live (k_w k') io
    else k_procs k' = <[p := with_iotab pr (<[Z.to_nat r := Some io]> (iotab pr))]> (k_procs k) /\ w_live (k_w k') io /\ w_refcnt (k_w k') io = 1).
  { intros e He Ha. rewrite Ec. cbn [obind]. eexists _, (- e). split; [done|]. split; [split; [by eapply fdi_closed|done]|]. split; [done|].
    replace (- e <? 0) with true by lia. split; [done|]. cbn [k_w set_world]. rewrite (cd_live _ _ _ _ _ Hc). tauto. }
  assert (Hset : forall n, 0 <= n -> open_answer (iotab pr) fd n -> exists k' r,
    (let! tab := store (iotab pr) n (Some io) in
     Ret (put_proc (set_world k (w_set_refcnt (k_w k) io 1)) p (with_iotab pr tab), Returns n)) = Ret (k', Returns r) /\ fd_inv k' /\ open_answer (iotab pr) fd r /\
    if r <? 0 then k_procs k' = k_procs k /\ ~ w_live (k_w k') io
    else k_procs k' = <[p := with_iotab pr (<[Z.to_nat r := Some io]> (iotab pr))]> (k_procs k) /\ w_live (k_w k') io /\ w_refcnt (k_w k') io = 1).
  { intros n Hn Ha. assert (Hnone : iotab pr !! Z.to_nat n = Some None) by (unfold open_answer in Ha; replace (n <? 0) with false in Ha by lia; tauto).
    rewrite store_lt by (apply lookup_lt_Some in Hnone; lia). cbn [obind]. eexists _, n. split; [done|]. split.
    { split; [|done]. by apply (fdi_install _ _ _ _ _ _ Hf Htab Hp). }
    split; [done|]. replace (n <? 0) with false by lia. split; [done|]. cbn [k_w put_proc set_procs set_world].
    by rewrite live_set, refcnt_set, decide_True. }
  unfold install. cbv zeta. destruct (Z.leb_spec PROCESS_IOMAX fd) as [H16|H16]; [apply (Hfail EMFILE); [done|]; left; by auto|].
  cbn [deref]. unfold get_proc. rewrite Hp. cbn [obind]. destruct (Z.leb_spec 0 fd) as [Hlo|Hlo].
  - destruct (lookup_lt_is_Some_2 (iotab pr) (Z.to_nat fd)) as [en Hen]; [unfold PROCESS_IOMAX in *; lia|].
    rewrite (proj2 (load_Ret (iotab pr) fd en) (conj Hlo Hen)). cbn [obind]. destruct en as [x|].
    + apply (Hfail EBADFD); [done|]. right. rewrite Hen. by auto.
    + apply (Hset fd Hlo). unfold open_answer. replace (fd <? 0) with false by lia. split_and!; [done|done|lia].
  - destruct (empty_slot (iotab pr) 0) as [n|] eqn:Hs.
    + apply empty_slot_first in Hs as (Hn & Hs & Hfst). rewrite Z.sub_0_r in Hs, Hfst. apply (Hset n Hn). unfold open_answer.
      replace (n <? 0) with false by lia. split_and!; [done|lia|done].
    + apply (Hfail EMFILE); [done|]. left. split; [done|]. right. split; [done|]. intros j. by eapply empty_slot_None.
Qed.

(** Opening a file that exists either takes the requested descriptor, or
    the lowest unused one when none is requested, with a reference count of
    one, or fails with [-EMFILE] (out of range, or table full) or [-EBADFD] (in
    use); when it fails the descriptors are unchanged and the file is closed
    again, so that nothing leaks. *)
Theorem sysfsopen_descriptor k p pr fd name s w ret io :
  fd_inv k -> runs_process k p pr -> name <> 0 -> user_cstr (k_mm k) name = Ret s ->
  w_fs_open (k_w k) (Some s) = Ret (w, ret, io) -> 0 <= ret ->
  exists k' r, sysfsopen k fd name = Ret (k', Returns r) /\ fd_inv k' /\ open_answer (iotab pr) fd r /\
    if r <? 0 then k_procs k' = k_procs k /\ ~ w_live (k_w k') io
    else k_procs k' = <[p := with_iotab pr (<[Z.to_nat r := Some io]> (iotab pr))]> (k_procs k) /\
         w_live (k_w k') io /\ w_refcnt (k_w k') io = 1.
Proof.
  intros Hk Hrun Hname Hs Ho Hret. assert (Hop := w_fs_opens (Some s) _ _ _ _ (fi_ok _ _ _ (proj1 Hk)) Ho). replace (ret <? 0) with false in Hop by lia.
  destruct (fdi_opened _ _ _ _ _ (proj1 Hk) Hop) as (Hf & Hz & Hl).
  unfold sysfsopen. rewrite (run_process k p pr Hrun). cbn [obind]. replace (name =? 0) with false by lia. rewrite Hs. cbn [obind]. rewrite Ho. cbn [obind].
  replace (ret <? 0) with false by lia. apply (install_spec w_fs_close (set_world k w) p pr fd io); [split; [done|apply Hk]|done|done|done|].
  by apply w_fs_closes; [apply Hf|].
Qed.

(** * Errors *)

Definition not_open (tab : list (option Z)) (fd : Z) : Prop := tab !! Z.to_nat fd = Some None \/ fd < 0 \/ PROCESS_IOMAX <= fd.

Lemma with_fd_not_open k p pr fd f : runs_process k p pr -> not_open (iotab pr) fd -> with_fd k fd f = Ret (k, Returns (- EBADFD)).
Proof.
  intros Hrun Hb. unfold with_fd. rewrite (run_process k p pr Hrun). cbn [obind]. destruct (_ || _) eqn:E; [done|].
  cbn [deref]. unfold get_proc. rewrite (run_get k p pr Hrun). cbn [obind]. destruct Hb as [Hb|[Hb|Hb]]; [|lia|lia].
  rewrite (proj2 (load_Ret (iotab pr) fd None)); [done|]. split; [lia|done].
Qed.

Lemma with_fd_open k p pr fd f : runs_process k p pr -> length (iotab pr) = Z.to_nat PROCESS_IOMAX -> ~ not_open (iotab pr) fd ->
  exists io, iotab pr !! Z.to_nat fd = Some (Some io) /\ with_fd k fd f = f p pr io.
Proof.
  intros Hrun Hlen Hb. unfold not_open in Hb. unfold with_fd. rewrite (run_process k p pr Hrun). cbn [obind].
  destruct (_ || _) eqn:E; [exfalso; apply Hb; lia|]. cbn [deref]. unfold get_proc. rewrite (run_get k p pr Hrun). cbn [obind].
  destruct (lookup_lt_is_Some_2 (iotab pr) (Z.to_nat fd)) as [[io|] Hen]; [unfold PROCESS_IOMAX in *; lia| |tauto].
  exists io. split; [done|]. rewrite (proj2 (load_Ret (iotab pr) fd (Some io))); [done|]. split; [lia|done].
Qed.

(** A call that returns resumes the program behind its [ecall], with the
    result in [a0]. *)
Lemma ecall_returns k j tfr k' r :
  syscall img main k j (reg tfr TFR_A7) (reg tfr TFR_A0) (reg tfr TFR_A1) (reg tfr TFR_A2) = Ret (k', Returns r) ->
  umode_excp_handler img main k j RISCV_SCAUSE_ECALL_FROM_UMODE tfr
    = Ret (k', set_reg (set_sepc tfr (u64 (tf_sepc tfr + 4))) TFR_A0 (u64 r), Some (Returns r)).
Proof.
  intros E. unfold umode_excp_handler. cbn [Z.eqb RISCV_SCAUSE_ECALL_FROM_UMODE Pos.eqb]. unfold syscall_handler.
  change (reg (set_sepc tfr ?v) ?r) with (reg tfr r). rewrite E. done.
Qed.

(** C27: errors change nothing but the result: a call with an unknown number
    gives [-ENOTSUP], a call on a descriptor that is out of range or not open
    (close, read, write, ioctl, exec) [-EBADFD], and a null name (devopen,
    fsopen) or buffer of an open descriptor (read, write) [-EINVAL].  The null
    pointers of msgout and ioctl are not checked.  The program resumes behind
    its [ecall] with the error in [a0] and all other registers, the memory,
    the descriptors and the objects as they were. *)
Theorem syscall_errors k j p pr tfr num a0 a1 :
  runs_process k p pr -> length (iotab pr) = Z.to_nat PROCESS_IOMAX ->
  num = reg tfr TFR_A7 -> a0 = i32 (reg tfr TFR_A0) -> a1 = reg tfr TFR_A1 ->
  let result e := umode_excp_handler img main k j RISCV_SCAUSE_ECALL_FROM_UMODE tfr
    = Ret (k, set_reg (set_sepc tfr (u64 (tf_sepc tfr + 4))) TFR_A0 (u64 (- e)), Some (Returns (- e))) in
  (num ∉ [SYSCALL_EXIT; SYSCALL_MSGOUT; SYSCALL_DEVOPEN; SYSCALL_FSOPEN; SYSCALL_CLOSE; SYSCALL_READ; SYSCALL_WRITE; SYSCALL_IOCTL;
          SYSCALL_EXEC; SYSCALL_FORK; SYSCALL_USLEEP; SYSCALL_WAIT; SYSCALL_PIOREF] -> result ENOTSUP) /\
  (num ∈ [SYSCALL_CLOSE; SYSCALL_READ; SYSCALL_WRITE; SYSCALL_IOCTL; SYSCALL_EXEC] -> not_open (iotab pr) a0 -> result EBADFD) /\
  (num ∈ [SYSCALL_DEVOPEN; SYSCALL_FSOPEN] -> a1 = 0 -> result EINVAL) /\
  (num ∈ [SYSCALL_READ; SYSCALL_WRITE] -> ~ not_open (iotab pr) a0 -> a1 = 0 -> result EINVAL).
Proof.
  intros Hrun Hlen -> -> ->. cbv zeta. assert (Hsys := fun e => ecall_returns k j tfr k (- e)).
  split_and!.
  - rewrite !not_elem_of_cons. intros Hn. apply Hsys. unfold syscall. 
    repeat match goal with |- context [if reg tfr TFR_A7 =? ?c then _ else _] => destruct (Z.eqb_spec (reg tfr TFR_A7) c); [tauto|] end. done.
  - rewrite !elem_of_cons. intros Hn Hb. apply Hsys. assert (Hbad := fun f => with_fd_not_open k p pr (i32 (reg tfr TFR_A0)) f Hrun Hb).
    destruct Hn as [->|[->|[->|[->|[->|[]%elem_of_nil]]]]]; apply Hbad.
  - rewrite !elem_of_cons. intros Hn E0. apply Hsys. destruct Hn as [->|[->|[]%elem_of_nil]]; cbn -[sysdevopen sysfsopen];
      unfold sysdevopen, sysfsopen; by rewrite (run_process k p pr Hrun), E0.
  - rewrite !elem_of_cons. intros Hn Hb E0. apply Hsys.
    destruct Hn as [->|[->|[]%elem_of_nil]]; cbn -[sysread syswrite]; unfold sysread, syswrite; rewrite E0;
      (edestruct (with_fd_open k p pr (i32 (reg tfr TFR_A0))) as (io & _ & ->); [exact Hrun|exact Hlen|exact Hb|done]).
Qed.

(** * Forking *)

(** The views of a user page that user mode may access. *)
Definition user_part (view : option (Z * Z)) : option (Z * Z) :=
  match view with Some (b, f) => if has f PTE_U then Some (b, f) else None | None => None end.

(** What the child starts with. *)
Record forked (k k' : kern) (pr : process) (n c : Z) (ch : process) : Prop := {
  fk_procs : k_procs k' = <[c := ch]> (k_procs k);
  fk_tab : k_proctab k' = <[Z.to_nat n := Some c]> (k_proctab k);
  fk_id : p_id ch = n;
  fk_files : iotab ch = iotab pr;
  fk_refs io : Some io ∈ iotab pr -> w_refcnt (k_w k') io = w_refcnt (k_w k) io + Z.of_nat (cnt io (iotab pr));
  fk_parent v : user_vma v -> uview (k_mm k') v = uview (k_mm k) v;
  fk_child v : user_vma v -> uview (with_satp (k_mm k') (p_mtag ch)) v = user_part (uview (k_mm k) v);
}.

(** C22: a fork with the process table full answers [-EBUSY] and changes
    nothing.  Otherwise [process_fork] puts the child into the lowest empty
    slot, with the descriptors of the parent, whose objects each gain as many
    references as the parent has descriptors for them, and with a copy of the
    user memory of the parent in a space of its own; the parent's memory and
    the invariant on descriptors stay. *)
Theorem fork_child k j p pr free L :
  fd_inv k -> runs_process k p pr -> user_ok (k_mm k) free -> kernel_tables img (k_mm k) free ->
  (forall v, user_vma v -> is_Some (translate (k_mm k) v) -> v / PAGE_SIZE ∈ L) -> (3 * length L + 1 <= length free)%nat ->
  SIZEOF_process <= heap_end (k_heap k) - heap_start (k_heap k) < 2 ^ 64 ->
  k_procs k !! (heap_end (k_heap k) - SIZEOF_process) = None ->
  ((forall i, k_proctab k !! i <> Some None) -> sysfork img k j = Ret (k, Returns (- EBUSY))) /\
  (forall n, 0 <= n -> k_proctab k !! Z.to_nat n = Some None -> (forall i, (i < Z.to_nat n)%nat -> k_proctab k !! i <> Some None) ->
    exists k' c ch, process_fork img k j (p_id pr) = Ret (k', Some c) /\ fd_inv k' /\ forked k k' pr n c ch).
Proof.
  intros Hk Hrun Hu HK HL Hlen Hroom Hfresh. split.
  - intros Hfull. unfold sysfork. rewrite (proj1 Hrun). cbn [obind]. unfold process_fork. destruct (empty_slot (k_proctab k) 0) as [n|] eqn:Hs; [|done].
    apply empty_slot_Some in Hs as [_ Hs]. exfalso. by apply (Hfull (Z.to_nat (n - 0))).
  - intros n Hn0 Hn Hfirst. assert (Hs : empty_slot (k_proctab k) 0 = Some n).
    { destruct (empty_slot (k_proctab k) 0) as [n'|] eqn:Hs; [|by eapply empty_slot_None in Hs].
      apply empty_slot_first in Hs as (H1 & H2 & H3). rewrite Z.sub_0_r in *. f_equal. destruct (Z.lt_trichotomy n n') as [Hlt|[?|Hlt]]; [|done|].
      - exfalso. by apply (H3 (Z.to_nat n)); [lia|].
      - exfalso. by apply (Hfirst (Z.to_nat n')); [lia|]. }
    destruct (space_clone_spec img (k_mm k) free n L Hu HK HL Hlen) as (m' & mtag & free' & Ec & _ & _ & Hpar & _ & Hchild & _).
    set (c := heap_end (k_heap k) - SIZEOF_process) in *.
    assert (Em : exists h, kmalloc (k_heap k) (k_mm k) SIZEOF_process = Ret (h, k_mm k, c)).
    { eexists. unfold kmalloc. change (round16 SIZEOF_process) with SIZEOF_process. change (PAGE_SIZE <? SIZEOF_process) with false. cbn iota.
      rewrite u64_small by (unfold SIZEOF_process in *; lia). replace (SIZEOF_process <=? _) with true by lia. reflexivity. }
    destruct Em as [h Em]. assert (Hp := run_get k p pr Hrun). assert (Htab := proj2 Hrun).
    destruct (fi_proc _ _ _ (proj1 Hk) _ _ Htab) as (pr0 & Hp0 & Hid & Hl16). rewrite Hp in Hp0. injection Hp0 as <-. assert (Hid0 : 0 <= p_id pr) by lia.
    set (ch := {| p_id := n; p_tid := j_tid j; p_mtag := mtag; iotab := iotab pr |}).
    assert (E : process_fork img k j (p_id pr) = Ret (set_procs (set_world (set_heap k h m') (share_files (iotab pr) (k_w k))) (<[c := ch]> (k_procs k))
      (<[Z.to_nat n := Some c]> (k_proctab k)), Some c)).
    { unfold process_fork. rewrite Hs, Em. cbn [obind]. rewrite Ec. cbn [obind]. change (k_proctab (set_heap k h m')) with (k_proctab k).
      rewrite (proj2 (load_Ret (k_proctab k) (p_id pr) (Some p)) (conj Hid0 Htab)). cbn [obind]. unfold get_proc. cbn [k_procs set_heap]. rewrite Hp. cbn [obind].
      cbn [k_proctab set_world set_heap]. rewrite store_lt by (apply lookup_lt_Some in Hn; lia). done. }
    eexists _, c, ch. split; [exact E|]. split; [eapply process_fork_inv; [exact Hk|exact Hrun| |exact E]; intros h' m2 c' E'; rewrite Em in E'; by injection E' as _ _ <-|].
    split; [done..| |exact Hpar|exact Hchild]. intros io Hio. cbn [k_w set_procs set_world]. apply cnt_pos in Hio.
    destruct (share_files_spec (iotab pr) (k_w k) (fi_ok _ _ _ (proj1 Hk))) as (_ & _ & R). assert (Ho := own_refs _ _ _ p pr Htab Hp io).
    assert (Hb := fdi_bound _ _ _ io (proj1 Hk)). destruct (fi_refs _ _ _ (proj1 Hk) io ltac:(lia)) as [_ Hr]. rewrite R, Hr by (rewrite Hr, u32_small; lia).
    rewrite u32_small; lia.
Qed.

(** * Where the code departs from its intent *)

(** The loop of [process_exit] closes an object whatever its count, so also
    when another process holds a descriptor for it. *)
Lemma exit_closes_shared (w : W) io close : w_ok w -> w_live w io -> op_close (w_ops w io) = Some close ->
  exists w', close_all [Some io] w = Ret (w', [None]) /\ ~ w_live w' io.
Proof.
  intros Hok Hl Hc. destruct (w_close w io close Hok Hl Hc) as (w' & E & Hcl). exists w'. cbn [close_all]. rewrite Hc, E. cbn [obind].
  split; [done|]. rewrite (cd_live _ _ _ _ _ Hcl). tauto.
Qed.
End Props.

(** The product in [sysusleep] wraps: a sleep of about 21 days is none. *)
Example usleep_wraps : usleep_ticks 1844674407371 = 0.
Proof. vm_compute. reflexivity. Qed.
