(* ===== verification/TrapSyscall.v ===== *)
(** A system call from the [ecall] of the program to the instruction behind it:
    the entry code (trapasm.s), the handlers on the trap frame (excp.c,
    syscall.c) and the way back. *)

From S2P Require Import Prelude Plic Intr Csr Memory Process Syscall TrapAsm Descriptors SyscallProps.
From stdpp Require Import gmap list.
#[local] Open Scope Z_scope.

(** The C functions change the frame in memory; the other registers they leave
    are those of the caller, of which only sp matters. *)
Definition frame_words (f : trap_frame) : list Z := tf_x f ++ [tf_sstatus f; tf_sepc f].
Definition put_frame {H} (s : cpu H) (B : Z) (f : trap_frame) : cpu H :=
  {| gpr := gpr s; csrs := csrs s;
     dmem := fun a => if (B <=? a) && ((a - B) mod 8 =? 0) then default (dmem s a) (frame_words f !! Z.to_nat ((a - B) / 8)) else dmem s a |}.

Lemma put_word {H} (s : cpu H) B f k v : 0 <= k -> frame_words f !! Z.to_nat k = Some v -> dmem (put_frame s B f) (B + k * 8) = v.
Proof.
  intros Hk Hv. cbn [put_frame dmem]. replace (B <=? B + k * 8) with true by lia. replace (B + k * 8 - B) with (k * 8) by lia.
  rewrite Z.mod_mul, Z.div_mul, Hv by lia. done.
Qed.
Lemma frame_put {H} (s : cpu H) B f : length (tf_x f) = 32%nat -> frame_at (dmem (put_frame s B f)) B = f.
Proof.
  intros Hl. unfold frame_at. rewrite (put_word s B f 32 (tf_sstatus f)), (put_word s B f 33 (tf_sepc f)).
  - destruct f as [l ss pc]. cbn [tf_x tf_sstatus tf_sepc] in *. f_equal. apply list_eq. intros i. rewrite list_lookup_fmap.
    destruct (decide (i < 32)%nat) as [Hi|Hi].
    + rewrite lookup_seq_lt by done. cbn [fmap option_fmap option_map]. destruct (lookup_lt_is_Some_2 l i) as [v Hv]; [lia|].
      rewrite Hv. f_equal. apply put_word; [lia|]. rewrite Nat2Z.id. unfold frame_words. by rewrite lookup_app_l by (cbn; lia).
    + rewrite lookup_seq_ge, lookup_ge_None_2 by lia. done.
  - lia.
  - unfold frame_words. rewrite lookup_app_r by (rewrite Hl; lia). rewrite Hl. done.
  - lia.
  - unfold frame_words. rewrite lookup_app_r by (rewrite Hl; lia). rewrite Hl. done.
Qed.

Section Trap.
Context {W : Type} `{IoWorld W} {H0 : Type} `{HartLaws H0}.
Context (img : kimg) (main trap_entry_from_smode trap_entry_from_umode back : Z).
Notation kern := (kern W).

(** What [intr_handler] does on the kernel and the frame. *)
Context (on_intr : kern -> Z -> trap_frame -> outcome (kern * trap_frame * option ending)).

(** A trap of the program; the way back is taken when the handler returns. *)
Definition user_trap (k : kern) (j : junk) (s : cpu H0) : outcome (kern * cpu H0 * option ending) :=
  let! (s, t) := umode_enter trap_entry_from_smode back s in
  let B := rx s 11 in
  let f := frame_at (dmem s) B in
  let! (k, f, e) :=
    match t with
    | ToUmodeExcp => umode_excp_handler img main k j (u32 (rx s 10)) f
    | _ => on_intr k (i32 (rx s 10)) f
    end in
  let s := put_frame s B f in
  match e with
  | None | Some (Returns _) => let! s := umode_leave trap_entry_from_umode s in Ret (k, s, e)
  | Some _ => Ret (k, s, e)
  end.

Context (Hsmode : 0 <= trap_entry_from_smode < 2 ^ 64 /\ trap_entry_from_smode mod 4 = 0).
Context (Humode : 0 <= trap_entry_from_umode < 2 ^ 64 /\ trap_entry_from_umode mod 4 = 0).

(** The frame of a program is that of its registers. *)
Lemma entered_reg (s s1 : cpu H0) B r : entered s s1 B -> (1 <= r < 32)%nat -> reg (frame_at (dmem s1) B) r = rx s r.
Proof. intros He Hr. by apply (en_regs _ _ _ He). Qed.

Lemma set_reg_length f r v : length (tf_x (set_reg f r v)) = length (tf_x f).
Proof. apply length_insert. Qed.
Lemma reg_set_reg f r v i : length (tf_x f) = 32%nat -> (r < 32)%nat -> reg (set_reg f r v) i = if Nat.eqb i r then v else reg f i.
Proof.
  intros Hl Hr. unfold reg, set_reg. cbn [tf_x]. destruct (Nat.eqb_spec i r) as [->|Hne]; [by rewrite list_lookup_insert_eq by lia|].
  by rewrite list_lookup_insert_ne.
Qed.

(** A system call from end to end: for a program that executes [ecall] in
    user mode the kernel runs the call of the number in a7 with the arguments in
    a0, a1 and a2, and the program continues behind the [ecall] with the result
    in a0 and every other register and the status as they were; the next trap
    finds the trap vector and the kernel stack in place. *)
Theorem ecall_resumes k j (s : cpu H0) k' r : let ksp := csr_rd (csrs s) SSCRATCH in let pc := csr_rd (csrs s) SEPC in
  csr_rd (csrs s) SCAUSE = RISCV_SCAUSE_ECALL_FROM_UMODE ->
  0 <= gpr s 2 < 2 ^ 64 -> ksp mod 8 = 0 -> 34 * 8 <= ksp -> ksp + 8 <= 2 ^ 64 -> pc mod 4 = 0 -> pc + 4 < 2 ^ 64 ->
  syscall img main k j (rx s 17) (rx s 10) (rx s 11) (rx s 12) = Ret (k', Returns r) ->
  exists s', user_trap k j s = Ret (k', s', Some (Returns r)) /\ rx s' 10 = u64 r /\
    (forall i, i <> 10%nat -> (i < 32)%nat -> rx s' i = rx s i) /\ csr_rd (csrs s') SEPC = pc + 4 /\
    same_bits (visible SSTATUS) (csr_rd (csrs s') SSTATUS) (csr_rd (csrs s) SSTATUS) /\
    csr_rd (csrs s') STVEC = trap_entry_from_umode /\ csr_rd (csrs s') SSCRATCH = ksp.
Proof.
  intros ksp pc Hc Hu Hal Hlo Hhi Hpc Hpc2 Hcall. pose proof (csr_width (csrs s) SEPC) as Hw. fold pc in Hw.
  destruct (umode_enter_spec trap_entry_from_smode trap_entry_from_umode back Hsmode s Hu Hal Hlo) as (s1 & E1 & He & _ & _). fold ksp in He. set (B := ksp - 34 * 8) in *.
  set (f := frame_at (dmem s1) B). assert (Hl : length (tf_x f) = 32%nat) by reflexivity.
  assert (Hr : forall i, (1 <= i < 32)%nat -> reg f i = rx s i) by (intros i Hi; by apply entered_reg).
  assert (Hpcf : tf_sepc f = pc) by exact (en_sepc _ _ _ He).
  assert (Ex := ecall_returns img main k j f k' r). unfold TFR_A7, TFR_A0, TFR_A1, TFR_A2 in Ex. rewrite !Hr, Hpcf in Ex by lia. specialize (Ex Hcall).
  rewrite u64_small in Ex by lia. set (f' := set_reg _ 10 _) in Ex. set (s2 := put_frame s1 B f').
  assert (Hf' : frame_at (dmem s2) B = f') by (apply frame_put; unfold f'; by rewrite set_reg_length).
  destruct (umode_leave_spec trap_entry_from_umode Humode s2 B) as (s3 & E3 & Hin & Hv & Hs & _).
  { exact (en_sp _ _ _ He). }
  { unfold B. split_and!; [lia|Z.to_euclidean_division_equations; lia|lia]. }
  { rewrite Hf'. split; cbn; [lia|Z.to_euclidean_division_equations; lia]. }
  rewrite Hf' in Hin. assert (Hregs := if_regs _ _ Hin).
  exists s3. split; [|split; [|split; [|split; [|split]]]].
  - unfold user_trap. rewrite E1, Hc. cbn [obind]. change (cause_target ToUmodeExcp RISCV_SCAUSE_ECALL_FROM_UMODE) with ToUmodeExcp. cbv iota.
    rewrite (en_code _ _ _ He), (en_frame _ _ _ He), Hc. change (u32 (cause_code RISCV_SCAUSE_ECALL_FROM_UMODE)) with RISCV_SCAUSE_ECALL_FROM_UMODE.
    fold f. rewrite Ex. cbn [obind]. fold s2. rewrite E3. reflexivity.
  - rewrite Hregs by lia. unfold f'. rewrite reg_set_reg by (done || lia). done.
  - intros i Hi Hlt. destruct i as [|i]; [done|]. rewrite Hregs by lia. unfold f'. rewrite reg_set_reg by (done || lia).
    rewrite (proj2 (Nat.eqb_neq _ _) Hi). apply (Hr (S i)). lia.
  - rewrite (if_sepc _ _ Hin). done.
  - intros b Hb. rewrite (if_sstatus _ _ Hin b Hb). exact (f_equal (fun z => Z.testbit z b) (en_sstatus _ _ _ He)).
  - split; [done|]. rewrite Hs. unfold B. lia.
Qed.
End Trap.
