(* ===== verification/FsWorld.v ===== *)
(** The files of kfs.c as the I/O objects of the kernel: an instance of
    [IoWorld] and of its promise [IoWorldSpec].

    The object of the file with index [i] of [file_list] is designated by
    [i + 1]; its reference count, which kfs.c does not touch, is kept beside
    the file system. *)

From Stdlib Require Import List.
From S2P Require Import Prelude KString IoIntf IoLit Kfs KfsFiles Process Descriptors.
From stdpp Require Import gmap list.
#[local] Open Scope Z_scope.

Record fsworld (D : Type) := { fw_fs : kfs D; fw_refs : gmap Z Z }.
Arguments fw_fs {D} _.
Arguments fw_refs {D} _.

Section World.
Context {D : Type} (ops : io_ops D) (hi : Z).
Notation kfs := (kfs D).
Notation fsworld := (fsworld D).
Implicit Types (s : kfs) (w : fsworld).

Definition set_fs (w : fsworld) (s : kfs) : fsworld := {| fw_fs := s; fw_refs := fw_refs w |}.
Definition file_no (io : Z) : nat := Z.to_nat (io - 1).
Definition file_ptr (f : option nat) : Z := match f with Some i => Z.of_nat i + 1 | None => 0 end.

(** Operations of the file system as operations of the world. *)
Definition lift_ops (o : io_ops kfs) : io_ops fsworld := {|
  op_close := option_map (fun close w => let! s := close (fw_fs w) in Ret (set_fs w s)) (op_close o);
  op_read := option_map (fun read w n => let! (s, r, bs) := read (fw_fs w) n in Ret (set_fs w s, r, bs)) (op_read o);
  op_write := option_map (fun write w bs => let! (s, r) := write (fw_fs w) bs in Ret (set_fs w s, r)) (op_write o);
  op_ctl := option_map (fun ctl w c a => let! (s, r, a) := ctl (fw_fs w) c a in Ret (set_fs w s, r, a)) (op_ctl o);
|}.

#[export] Instance fs_world : IoWorld fsworld := {
  w_ops w io := lift_ops (fs_io_ops ops hi (file_no io));
  w_refcnt w io := default 0 (fw_refs w !! io);
  w_set_refcnt w io n := {| fw_fs := fw_fs w; fw_refs := <[io := n]> (fw_refs w) |};
  w_fs_open w name := let! (s, r, f) := fs_open ops hi (fw_fs w) name false in Ret (set_fs w s, r, file_ptr f);
  w_fs_close w io := let! s := fs_close (fw_fs w) (Some (file_no io)) in Ret (set_fs w s);
}.

(** * The file table through the operations *)

Definition in_use (s : kfs) (i : nat) : Prop := exists f, file_list s !! i = Some f /\ flags f <> F_NOT_USE.
Definition same_use (s s' : kfs) : Prop := forall i, in_use s' i <-> in_use s i.

Lemma files_use s s' : file_list s' = file_list s -> same_use s s'.
Proof. intros E i. unfold in_use. by rewrite E. Qed.
Lemma use_trans s1 s2 s3 : same_use s1 s2 -> same_use s2 s3 -> same_use s1 s3.
Proof. intros H1 H2 i. by rewrite (H2 i). Qed.

Lemma acquire_files s s' : acquire s = Ret s' -> file_list s' = file_list s.
Proof. unfold acquire. kcase; [done|]. by intros [= <-]. Qed.
Lemma read_block_files s off old s' r b : read_block ops hi s off old = Ret (s', r, b) -> file_list s' = file_list s.
Proof. intros Hr. unfold read_block in Hr. peel Hr; by injection Hr as <- _ _. Qed.
Lemma update_inode_files s n s' r : update_inode ops hi s n = Ret (s', r) -> file_list s' = file_list s.
Proof. intros Hr. unfold update_inode in Hr. peel Hr. injection Hr as <- _. exact (read_block_files _ _ _ _ _ _ Hm). Qed.
Lemma update_data_files s n s' r : update_data_block ops hi s n = Ret (s', r) -> file_list s' = file_list s.
Proof. intros Hr. unfold update_data_block in Hr. peel Hr. injection Hr as <- _. exact (read_block_files _ _ _ _ _ _ Hm). Qed.
Lemma write_data_files s n s' r : write_data_block ops hi s n = Ret (s', r) -> file_list s' = file_list s.
Proof. intros Hr. unfold write_data_block in Hr. peel Hr; by injection Hr as <- _. Qed.
Lemma write_inode_files s n s' r : write_inode ops hi s n = Ret (s', r) -> file_list s' = file_list s.
Proof. intros Hr. unfold write_inode in Hr. peel Hr; by injection Hr as <- _. Qed.

Lemma read_loop_files fuel : forall s pos al n out s' ok out', read_loop ops hi fuel s pos al n out = Ret (s', ok, out') -> file_list s' = file_list s.
Proof.
  induction fuel as [|fuel IH]; intros s pos al n out s' ok out' Hr; cbn [read_loop] in Hr; peel Hr; try (by injection Hr as <- _ _);
    try (injection Hr as <- _ _; by eapply update_data_files).
  rewrite (IH _ _ _ _ _ _ _ _ Hr). by eapply update_data_files.
Qed.

Lemma write_loop_files fuel : forall s pos al buf n s' r, write_loop ops hi fuel s pos al buf n = Ret (s', r) -> file_list s' = file_list s.
Proof.
  induction fuel as [|fuel IH]; intros s pos al buf n s' r Hr; cbn [write_loop] in Hr; peel Hr; try (by injection Hr as <- _);
    try (injection Hr as <- _);
    repeat match goal with
    | H : update_data_block _ _ _ _ = Ret _ |- _ => apply update_data_files in H
    | H : write_data_block _ _ _ _ = Ret _ |- _ => apply write_data_files in H; cbn [file_list set_data] in H
    end; try congruence.
  rewrite (IH _ _ _ _ _ _ _ Hr). congruence.
Qed.

Lemma put_pos_use s i p : same_use s (put_pos s i p).
Proof.
  intros j. unfold put_pos, in_use. destruct (file_list s !! i) as [f|] eqn:E; [|done]. cbn [file_list set_files].
  destruct (decide (i = j)) as [->|Hne]; [|by rewrite list_lookup_insert_ne].
  rewrite list_lookup_insert_eq by (by eapply lookup_lt_Some). rewrite E. split; intros (g & [= <-] & Hg); by eexists.
Qed.

Lemma fs_read_use s io n s' r bs : fs_read ops hi s (Some io) false n = Ret (s', r, bs) -> same_use s s'.
Proof.
  intros Hr. unfold fs_read in Hr. peel Hr; injection Hr as <- _ _; try done;
    repeat match goal with
    | H : acquire _ = Ret _ |- _ => apply acquire_files in H
    | H : update_inode _ _ _ _ = Ret _ |- _ => apply update_inode_files in H
    | H : read_loop _ _ _ _ _ _ _ _ = Ret _ |- _ => apply read_loop_files in H
    end; try (apply files_use; cbn [file_list release set_lock]; congruence).
  eapply use_trans; [apply files_use|apply put_pos_use]. congruence.
Qed.

Lemma fs_write_use s io bs s' r : fs_write ops hi s (Some io) (Some bs) = Ret (s', r) -> same_use s s'.
Proof.
  intros Hr. unfold fs_write in Hr. peel Hr; injection Hr as <- _; try done;
    repeat match goal with
    | H : acquire _ = Ret _ |- _ => apply acquire_files in H
    | H : update_inode _ _ _ _ = Ret _ |- _ => apply update_inode_files in H
    | H : write_loop _ _ _ _ _ _ _ _ = Ret _ |- _ => apply write_loop_files in H
    | H : write_inode _ _ _ _ = Ret _ |- _ => apply write_inode_files in H
    end; try (apply files_use; cbn [file_list release set_lock]; congruence).
  all: lazymatch goal with H : file_list ?k = file_list (put_pos ?t ?i ?p) |- same_use _ (release ?k) =>
    eapply (use_trans _ t); [apply files_use; congruence|eapply (use_trans _ (put_pos t i p)); [apply put_pos_use|by apply files_use]] end.
Qed.

Lemma fs_ioctl_use s io c a s' r a' : fs_ioctl s (Some io) c a = Ret (s', r, a') -> same_use s s'.
Proof.
  intros Hr. unfold fs_ioctl, get_fd_by_io, fs_getlen, fs_getpos, fs_setpos, fs_getblksz in Hr. peel Hr; injection Hr as <- _ _; try done.
  - apply files_use. exact (acquire_files _ _ Hm).
  - eapply use_trans; [apply files_use; exact (acquire_files _ _ Hm)|]. apply (use_trans _ (put_pos r0 io (u32 z))); [apply put_pos_use|by apply files_use].
Qed.

Lemma fs_close_use s i : in_use s i -> exists s', fs_close s (Some i) = Ret s' /\ forall j, in_use s' j <-> j <> i /\ in_use s j.
Proof.
  intros (f & Hf & _). assert (Hl := lookup_lt_Some _ _ _ Hf). unfold fs_close, get_fd_by_io, release_file. rewrite (proj2 (Nat.ltb_lt i _) Hl). cbn [obind].
  eexists. split; [done|]. intros j. unfold in_use. cbn [file_list set_files]. destruct (decide (j = i)) as [->|Hne].
  - rewrite list_lookup_insert_eq by done. split; [|tauto]. by intros (g & [= <-] & Hg).
  - rewrite list_lookup_insert_ne by done. tauto.
Qed.

Lemma allocate_use s ino s' f : allocate_file s ino = (s', f) ->
  match f with
  | None => file_list s' = file_list s
  | Some i => (i < length (file_list s))%nat /\ ~ in_use s i /\ exists g, file_list s' = <[i := g]> (file_list s) /\ flags g = F_IN_USE
  end.
Proof.
  unfold allocate_file. destruct (_ <? _); [by intros [= <- <-]|].
  assert (Hf := find_unused_spec (file_list s) 0). destruct (find_unused (file_list s) 0) as [i|]; intros [= <- <-]; [|done].
  destruct Hf as (j & g & -> & Hj & Hg & _). cbn [Nat.add]. split; [by eapply lookup_lt_Some|].
  split; [intros (g' & Hg' & Hne); congruence|]. by eexists.
Qed.

(** Opening takes an entry that was not in use. *)
Lemma fs_open_use s name s' r f : fs_open ops hi s name false = Ret (s', r, f) ->
  if r <? 0 then same_use s s' else exists i, f = Some i /\ ~ in_use s i /\ forall j, in_use s' j <-> j = i \/ in_use s j.
Proof.
  intros Hr. unfold fs_open in Hr. peel Hr; injection Hr as <- <- <-; try done;
    repeat match goal with
    | H : acquire _ = Ret _ |- _ => apply acquire_files in H
    | H : update_inode _ _ _ _ = Ret _ |- _ => apply update_inode_files in H
    end; try (apply files_use; cbn [file_list release set_lock]; congruence).
  - match goal with H : allocate_file _ _ = _ |- _ => destruct (allocate_use _ _ _ _ H) as (Hl & Hu & g & Hg & Hfl) end.
    assert (E : file_list k = file_list s) by congruence. cbn [Z.ltb Z.compare]. exists n. split; [done|].
    split; [by intros Hn; apply Hu; unfold in_use in *; rewrite E|]. intros x. unfold in_use. cbn [file_list release set_lock set_files].
    unfold get_file in Hm2. rewrite Hg, list_lookup_insert_eq in Hm2 by done. injection Hm2 as <-. rewrite Hg, list_insert_insert_eq, E.
    destruct (decide (x = n)) as [->|Hne].
    + rewrite list_lookup_insert_eq by congruence. split; [by left|]. intros _. eexists. split; [done|]. cbn [flags]. by rewrite Hfl.
    + rewrite list_lookup_insert_ne by done. tauto.
  - match goal with H : allocate_file _ _ = _ |- _ => apply allocate_use in H end.
    apply files_use. cbn [file_list release set_lock]. congruence.
Qed.

(** * The promise of the objects *)

Definition open_object w (io : Z) : Prop := 1 <= io /\ in_use (fw_fs w) (file_no io).

Lemma kept_use w w0 s' : kept (fun _ => True) open_object w0 w -> same_use (fw_fs w) s' -> kept (fun _ => True) open_object w0 (set_fs w s').
Proof.
  intros [_ L R] Hs. split; [done| |done]. intros io. rewrite <- L. unfold open_object. cbn [fw_fs set_fs]. by rewrite (Hs (file_no io)).
Qed.

Lemma fs_ops_keep w0 io : ops_keep (w_ops w0 io) (kept (fun _ => True) open_object w0).
Proof.
  split; cbn [w_ops fs_world lift_ops fs_io_ops op_read op_write op_ctl option_map].
  - intros rd w n w' r bs [= <-] Hw Hr. peel Hr. injection Hr as <- _ _. eapply kept_use; [done|]. by eapply fs_read_use.
  - intros wr w bs w' r [= <-] Hw Hr. peel Hr. injection Hr as <- _. eapply kept_use; [done|]. by eapply fs_write_use.
  - intros ctl w c a w' r a' [= <-] Hw Hr. peel Hr. injection Hr as <- _ _. eapply kept_use; [done|]. by eapply fs_ioctl_use.
Qed.

Lemma fs_close_object w io : open_object w io ->
  exists s', fs_close (fw_fs w) (Some (file_no io)) = Ret s' /\ closed (fun _ => True) open_object w (set_fs w s') io.
Proof.
  intros [Hio Hu]. destruct (fs_close_use _ _ Hu) as (s' & E & Hs). exists s'. split; [done|]. split; [done| |done].
  intros x. unfold open_object. cbn [fw_fs set_fs]. rewrite Hs. unfold file_no. split; [intros (? & ? & ?)|intros (? & ? & ?)]; repeat split; try done; [congruence|].
  intros E'. apply (f_equal Z.of_nat) in E'. lia.
Qed.

Lemma fs_open_object name : opens (fun _ => True) open_object (fun w => w_fs_open w name).
Proof.
  intros w w' r io _ Hr. cbn [w_fs_open fs_world] in Hr. peel Hr. injection Hr as <- <- <-. apply fs_open_use in Hm. destruct (_ <? 0).
  - by apply kept_use.
  - destruct Hm as (i & -> & Hu & Hs). assert (E : file_no (Z.of_nat i + 1) = i) by (unfold file_no; lia). split; [done| | |done].
    + intros [_ Hx]. cbn [file_ptr] in Hx. by rewrite E in Hx.
    + intros x. unfold open_object. cbn [fw_fs set_fs file_ptr]. rewrite Hs. split.
      * intros [? [Hx|?]]; [left|by right]. unfold file_no in Hx. lia.
      * intros [->|[? ?]]; [|tauto]. rewrite E. split; [lia|tauto].
Qed.

#[export] Instance fs_world_spec : IoWorldSpec fsworld.
Proof.
  refine {| w_ok := fun _ => True; w_live := open_object |}.
  - intros w io n x. cbn [w_refcnt w_set_refcnt fs_world fw_refs]. destruct (decide (io = x)) as [->|Hne];
      [by rewrite lookup_insert_eq|by rewrite lookup_insert_ne].
  - done.
  - done.
  - intros w io _ _. apply fs_ops_keep.
  - intros w io close _ Hl [= <-]. destruct (fs_close_object w io Hl) as (s' & E & Hc). exists (set_fs w s'). by rewrite E.
  - apply fs_open_object.
  - intros w io _ Hl. destruct (fs_close_object w io Hl) as (s' & E & Hc). exists (set_fs w s'). cbn [w_fs_close fs_world]. by rewrite E.
Defined.
End World.
