(* ===== verification/SyscallFs.v ===== *)
(** Files through system calls: what a user program sees of kfs.c through
    excp.c, syscall.c and the memory manager. *)

From Stdlib Require Import Ascii String.
From S2P Require Import Prelude KString IoIntf IoLit Intr Device Console Thread Timer Heap Memory PageTable MemInit VmOps UserMem VmClone Kfs KfsFiles Elf Process Syscall Descriptors FdInv SyscallProps FsWorld.
From stdpp Require Import gmap list.
#[local] Open Scope Z_scope.

(** * Strings in user memory *)

Lemma ld_user_spec m free v b f : user_ok m free -> user_vma v -> uview m v = Some (b, f) -> has f PTE_R = true -> ld_user m v = Ret b.
Proof.
  intros [Hac Hsum Hpg _] Hv Hb Hf. apply uview_Some in Hb as (p & Ht & Hb); [|done]. cbn [fst snd] in *. unfold ld_user. rewrite Ht, Hf, Hsum, orb_true_r. cbn [andb].
  unfold ld8. rewrite (data_page_in_ram m (vroot m) free p) by (by eapply Hpg). by rewrite Hb.
Qed.

(** The null-terminated string [s] at [v], readable by the program. *)
Definition user_string (m : mm) (v : Z) (s : list Z) : Prop :=
  Forall (fun c => c <> 0) s /\ forall i c, (s ++ [0]) !! i = Some c -> user_vma (v + Z.of_nat i) /\ exists f, uview m (v + Z.of_nat i) = Some (c, f) /\ has f PTE_R = true.

Lemma user_string_tail m v c s : user_string m v (c :: s) -> user_string m (v + 1) s.
Proof.
  intros [Hn Hs]. split; [by inversion Hn|]. intros i x Hx. specialize (Hs (S i) x Hx). by replace (v + 1 + Z.of_nat i) with (v + Z.of_nat (S i)) by lia.
Qed.

Lemma cstr_turns m free s : forall v acc, user_ok m free -> user_string m v s ->
  turns_of (cstr_step m) (S (length s)) (v, acc) = inr (Ret (rev_append acc (s ++ [0]))).
Proof.
  induction s as [|c s IH]; intros v acc Hu Hs; destruct (proj2 Hs 0%nat _ eq_refl) as (Hv & f & Hb & Hf); rewrite Z.add_0_r in Hv, Hb;
    cbn [turns_of length]; unfold cstr_step at 1; rewrite (ld_user_spec m free v _ f Hu Hv Hb Hf); [done|].
  assert (c <> 0) by (destruct Hs as [Hn _]; by inversion Hn). replace (c =? 0) with false by lia.
  apply (IH (v + 1) (c :: acc) Hu). by eapply user_string_tail.
Qed.

Lemma user_cstr_spec m free v s : user_ok m free -> user_string m v s -> user_cstr m v = Ret (s ++ [0]).
Proof.
  intros Hu Hs. unfold user_cstr. rewrite (until_done _ _ (S (length s)) _ (Ret (s ++ [0]))); [done| |by apply (cstr_turns m free)].
  assert (E : (s ++ [0]) !! length s = Some 0) by (by rewrite lookup_app_r, Nat.sub_diag by done). destruct (proj2 Hs _ _ E) as [Hv _].
  destruct (proj2 Hs 0%nat (default 0 ((s ++ [0]) !! 0%nat))) as [Hv0 _]; [by destruct s|].
  unfold user_vma, STR_MAX in *. mem_consts. lia.
Qed.

Lemma content_bytes img i : img_ok img -> bytes_ok (content img i).
Proof.
  intros Hok. unfold content, file_space. apply bytes_ok_take. induction (block_nums (inode_of img i)) as [|b l IH]; [constructor|].
  cbn [fmap list_fmap concat]. apply bytes_ok_app. split; [by apply (blk_bytes img Hok)|done].
Qed.

(** * Opening and reading *)

Section Files.
Context {D : Type} (ops : io_ops D) (hi : Z) `{HR : !ReadDisk ops hi}.
Context (img : kimg) (main : Z).
#[local] Instance files_world : IoWorld (fsworld D) := fs_world ops hi.
#[local] Instance files_spec : IoWorldSpec (fsworld D) := fs_world_spec ops hi.
Notation kern := (kern (fsworld D)).
Implicit Types (k : kern) (tfr : trap_frame).

(** The state after the file is opened at the descriptor [fd]. *)
Definition opened_at k p pr fd (i : nat) (s : kfs D) : kern :=
  put_proc (set_world k (w_set_refcnt (set_fs (k_w k) s) (Z.of_nat i + 1) 1)) p (with_iotab pr (<[Z.to_nat fd := Some (Z.of_nat i + 1)]> (iotab pr))).

Lemma sysfsopen_file k p pr free dimg name str key ino i req fd :
  runs_process k p pr -> user_ok (k_mm k) free -> user_string (k_mm k) name str -> bytes_ok str -> name <> 0 ->
  img_ok dimg -> inodes_ok dimg -> ready ops hi (fw_fs (k_w k)) dimg ->
  cprefix (Z.to_nat FS_NAMELEN) (str ++ [0]) = Some key -> dir_lookup dimg key = Some ino ->
  find_unused (file_list (fw_fs (k_w k))) 0 = Some i -> req < 0 -> empty_slot (iotab pr) 0 = Some fd ->
  exists s, sysfsopen k req name = Ret (opened_at k p pr fd i s, Returns fd) /\
    file_ready ops hi s dimg i (KfsFiles.opened dimg ino) ino.
Proof.
  intros Hrun Hu Hs Hb Hname Hok Hino Hrd Hkey Hdir Hfree Hreq Hslot.
  assert (Hb0 : bytes_ok (str ++ [0])) by (apply bytes_ok_app; split; [done|by repeat constructor; lia]).
  destruct (fs_open_spec ops hi (fw_fs (k_w k)) dimg (str ++ [0]) key Hok Hino Hrd Hb0 Hkey) as (s & Eo & Hrd' & Hfl).
  unfold open_result in Eo, Hfl. rewrite Hdir, Hfree in Eo, Hfl. cbn [fst snd] in Eo, Hfl. exists s. split.
  - unfold sysfsopen. rewrite (run_process k p pr Hrun). cbn [obind]. replace (name =? 0) with false by lia.
    rewrite (user_cstr_spec _ free _ _ Hu Hs). cbn [obind w_fs_open files_world fs_world]. rewrite Eo. cbn [obind file_ptr Z.ltb Z.compare].
    unfold install. replace (PROCESS_IOMAX <=? req) with false by (unfold PROCESS_IOMAX; lia). cbn [deref]. unfold get_proc. cbn [k_procs set_world]. rewrite (run_get k p pr Hrun). cbn [obind]. replace (0 <=? req) with false by lia.
    rewrite Hslot. apply empty_slot_Some in Hslot as [H0 Hslot]. rewrite Z.sub_0_r in Hslot. rewrite store_lt by (apply lookup_lt_Some in Hslot; lia). done.
  - split; [done|done|]. assert (Hir := dir_lookup_range dimg _ key ino Hok Hino Hb0 Hkey Hdir). split; [|done|done|done|cbn; lia].
    rewrite Hfl. apply list_lookup_insert_eq. assert (Hf := find_unused_spec (file_list (fw_fs (k_w k))) 0). rewrite Hfree in Hf.
    destruct Hf as (j & f & -> & Hj & _). by eapply lookup_lt_Some.
Qed.

Lemma opened_at_runs k p pr fd i s : runs_process k p pr ->
  runs_process (opened_at k p pr fd i s) p (with_iotab pr (<[Z.to_nat fd := Some (Z.of_nat i + 1)]> (iotab pr))).
Proof.
  intros Hrun. split; [|apply Hrun]. unfold current. change (current_process (opened_at k p pr fd i s)) with (current_process k).
  rewrite (run_process k p pr Hrun). cbn [obind]. unfold get_proc, opened_at. cbn [k_procs put_proc set_procs]. by rewrite lookup_insert_eq.
Qed.

(** Reading through a descriptor of an open file. *)
Lemma sysread_file k p pr free dimg i f ino fd buf n :
  runs_process k p pr -> user_ok (k_mm k) free -> 0 <= fd < PROCESS_IOMAX -> iotab pr !! Z.to_nat fd = Some (Some (Z.of_nat i + 1)) ->
  file_ready ops hi (fw_fs (k_w k)) dimg i f ino -> 0 < n -> USER_START_VMA <= buf -> buf + n <= USER_END_VMA ->
  (forall a, buf <= a < buf + n -> exists b g, uview (k_mm k) a = Some (b, g) /\ has g PTE_W = true) ->
  let data := take (Z.to_nat n) (rest_of dimg f) in
  exists k', sysread k fd buf n = Ret (k', Returns (Z.of_nat (length data))) /\ user_ok (k_mm k') free /\ k_procs k' = k_procs k /\
    file_ready ops hi (fw_fs (k_w k')) dimg i (with_pos f (file_pos f + Z.of_nat (length data))) ino /\
    forall a, user_vma a -> uview (k_mm k') a = if decide (buf <= a < buf + Z.of_nat (length data))
      then option_map (fun bf => (default 0 (data !! Z.to_nat (a - buf)), bf.2)) (uview (k_mm k) a) else uview (k_mm k) a.
Proof.
  intros Hrun Hu Hfd Hio Hy Hn Hlo Hhi Hw data. destruct (fs_read_ready ops hi (fw_fs (k_w k)) dimg i f ino n Hy Hn) as (s' & c & Er & Hc & Hy').
  assert (Hd : take c (rest_of dimg f) = data).
  { unfold data. destruct (Z.le_gt_cases n (Z.of_nat (length (rest_of dimg f)))); [by replace c with (Z.to_nat n) by lia|rewrite !take_ge by lia; done]. }
  assert (Hlen : length data = c) by (rewrite <- Hd, length_take; lia). rewrite Hd in Er.
  destruct (store_user_spec data (k_mm k) free buf Hu) as (m' & Es & Hu' & Hv).
  { rewrite <- Hd. apply bytes_ok_take. unfold rest_of. apply bytes_ok_drop, content_bytes, Hy. }
  { done. } { lia. } { intros a Ha. apply Hw. lia. }
  assert (E0 : (buf =? 0) = false) by (mem_consts; lia).
  exists (set_world (set_mm k m') (set_fs (k_w k) s')). rewrite Hlen in *. split_and!; [|done|done|done|done].
  unfold sysread, with_fd. rewrite (run_process k p pr Hrun). cbn [obind]. replace ((fd <? 0) || (PROCESS_IOMAX <=? fd)) with false by lia.
  cbn [deref]. unfold get_proc. rewrite (run_get k p pr Hrun). cbn [obind]. rewrite (proj2 (load_Ret (iotab pr) fd _) (conj (proj1 Hfd) Hio)). cbn [obind].
  rewrite E0. unfold ioread. cbn [w_ops files_world fs_world lift_ops fs_io_ops op_read option_map].
  replace (file_no (Z.of_nat i + 1)) with i by (unfold file_no; lia). rewrite Er. cbn [obind]. rewrite Es. done.
Qed.

(** C2: a program that opens the file of a name in its memory gets the lowest
    unused descriptor, and a read of that descriptor then puts the first bytes
    of the file, as the inode and the data blocks on the disk define it, into
    its buffer and returns how many they are; no other byte of the memory of the
    program, and no permission, changes.  Both calls go through the exception
    handler, the dispatch of system calls, the descriptor table, the page
    tables and the file system. *)
Theorem user_reads_file k j p pr free dimg name str key ino i fd buf n tfr1 :
  runs_process k p pr -> user_ok (k_mm k) free -> length (iotab pr) = Z.to_nat PROCESS_IOMAX ->
  img_ok dimg -> inodes_ok dimg -> ready ops hi (fw_fs (k_w k)) dimg ->
  user_string (k_mm k) name str -> bytes_ok str -> cprefix (Z.to_nat FS_NAMELEN) (str ++ [0]) = Some key ->
  dir_lookup dimg key = Some ino -> find_unused (file_list (fw_fs (k_w k))) 0 = Some i -> empty_slot (iotab pr) 0 = Some fd ->
  0 < n -> USER_START_VMA <= buf -> buf + n <= USER_END_VMA ->
  (forall a, buf <= a < buf + n -> exists b g, uview (k_mm k) a = Some (b, g) /\ has g PTE_W = true) ->
  reg tfr1 TFR_A7 = SYSCALL_FSOPEN -> i32 (reg tfr1 TFR_A0) < 0 -> reg tfr1 TFR_A1 = name ->
  let data := take (Z.to_nat n) (content dimg ino) in
  exists k1 tfr1', umode_excp_handler img main k j RISCV_SCAUSE_ECALL_FROM_UMODE tfr1 = Ret (k1, tfr1', Some (Returns fd)) /\
    (forall tfr2, reg tfr2 TFR_A7 = SYSCALL_READ -> i32 (reg tfr2 TFR_A0) = fd -> reg tfr2 TFR_A1 = buf -> reg tfr2 TFR_A2 = n ->
      exists k2, umode_excp_handler img main k1 j RISCV_SCAUSE_ECALL_FROM_UMODE tfr2
          = Ret (k2, set_reg (set_sepc tfr2 (u64 (tf_sepc tfr2 + 4))) TFR_A0 (Z.of_nat (length data)), Some (Returns (Z.of_nat (length data)))) /\
        forall a, user_vma a -> uview (k_mm k2) a = if decide (buf <= a < buf + Z.of_nat (length data))
          then option_map (fun bf => (default 0 (data !! Z.to_nat (a - buf)), bf.2)) (uview (k_mm k) a) else uview (k_mm k) a).
Proof.
  intros Hrun Hu Hlen Hok Hino Hrd Hstr Hb Hkey Hdir Hfree Hslot Hn Hlo Hhi Hw A7 A0 A1 data.
  assert (Hn0 : name <> 0).
  { destruct (proj2 Hstr 0%nat (default 0 ((str ++ [0]) !! 0%nat))) as [Hv0 _]; [by destruct str|]. unfold user_vma in Hv0. mem_consts. lia. }
  assert (Hfd : 0 <= fd < PROCESS_IOMAX).
  { apply empty_slot_Some in Hslot as [H0 Hslot]. apply lookup_lt_Some in Hslot. unfold PROCESS_IOMAX in *. lia. }
  destruct (sysfsopen_file k p pr free dimg name str key ino i (i32 (reg tfr1 TFR_A0)) fd) as (s & Eo & Hy); [done..|].
  eexists _, _. split; [apply ecall_returns; rewrite A7, A1; exact Eo|]. intros tfr2 B7 B0 B1 B2.
  destruct (sysread_file (opened_at k p pr fd i s) p _ free dimg i (KfsFiles.opened dimg ino) ino fd buf n
    (opened_at_runs k p pr fd i s Hrun)) as (k2 & Er & _ & _ & _ & Hv); [done|done| |done..|].
  { cbn [iotab with_iotab]. apply list_lookup_insert_eq. unfold PROCESS_IOMAX in *. lia. }
  change (rest_of dimg (KfsFiles.opened dimg ino)) with (content dimg ino) in Er, Hv. fold data in Er, Hv.
  assert (Hsm : u64 (Z.of_nat (length data)) = Z.of_nat (length data)) by (apply u64_small; unfold data; rewrite length_take; mem_consts; lia).
  exists k2. split; [|exact Hv]. rewrite (ecall_returns img main (opened_at k p pr fd i s) j tfr2 k2 (Z.of_nat (length data))), Hsm; [done|].
  rewrite B7, B1, B2. change (sysread (opened_at k p pr fd i s) (i32 (reg tfr2 TFR_A0)) buf n = Ret (k2, Returns (Z.of_nat (length data)))). by rewrite B0.
Qed.
End Files.
