(* ===== verification/Shell.v ===== *)
(** The shell of an earlier stage of the kernel (src/src/kern/main_shell.c,
    shell_main): it reads names from a terminal and runs the programs as
    threads.  The file is not part of a build; its [main] calls timer_start,
    which does not exist, and is left out. *)

From Stdlib Require Import Ascii String.
From S2P Require Import Prelude KString IoIntf IoTerm Thread Heap Memory UserMem Elf Process Syscall.
From stdpp Require Import gmap list.
#[local] Open Scope Z_scope.

Section Shell.
Context {W : Type} `{IoWorld W}.
(** The raw object of the terminal, and the fuel of its reads and lines. *)
Context (termio_raw : Z) (rfuel lfuel : nat).
Notation kern := (kern W).

(** The kernel, the flags of the terminal and the variables of [shell_main]. *)
Record shell := { sh_k : kern; sh_cr_out : bool; sh_cr_in : bool; cmdbuf : list Z }.
Definition with_k (st : shell) (k : kern) : shell :=
  {| sh_k := k; sh_cr_out := sh_cr_out st; sh_cr_in := sh_cr_in st; cmdbuf := cmdbuf st |}.

(** The terminal works on the objects of the kernel. *)
Definition term (st : shell) : io_term W := Build_io_term (k_w (sh_k st)) (sh_cr_out st) (sh_cr_in st).
Definition with_term (st : shell) (t : io_term W) : shell :=
  {| sh_k := set_world (sh_k st) (iot_raw t); sh_cr_out := iot_cr_out t; sh_cr_in := iot_cr_in t; cmdbuf := cmdbuf st |}.
Definition with_cmd (st : shell) (b : list Z) : shell :=
  {| sh_k := sh_k st; sh_cr_out := sh_cr_out st; sh_cr_in := sh_cr_in st; cmdbuf := b |}.
Definition raw (st : shell) : io_ops W := w_ops (k_w (sh_k st)) termio_raw.

Definition raw_close (w : W) : outcome W := io_ioclose w termio_raw.

(** [ioprintf(termio, ...)]. *)
Definition say (st : shell) (fmt : list Z) (ap : list varg) : outcome shell :=
  let! (t, _) := ioprintf (ioterm_ops (raw st) raw_close rfuel) (term st) fmt ap in Ret (with_term st t).

(** [thread_spawn] with the memory of the new thread. *)
Definition spawn (k : kern) (j : junk) (name : list Z) : outcome (kern * Z) :=
  let! (h, m, child) := kmalloc (k_heap k) (k_mm k) SIZEOF_thread in
  let! (m, page) := memory_alloc_page m in
  let anchor := page + PAGE_SIZE - 16 in
  let! m := st64 m anchor child in
  let! m := st64 m (anchor + 8) 0 in
  let k := set_heap k h m in
  let! (t, tid) := thread_spawn (kview k) child (j_thread j) (j_cond j) page (Some name) in
  let! k := kput k t in Ret (k, tid).

(** What a turn of the loop ends with: the next turn, the return of
    [shell_main], or the wait for the thread that runs the program. *)
Inductive turn_end := Again | Back | Joining (tid exeio : Z).

(** After [thread_join]. *)
Definition shell_joined (st : shell) (exeio : Z) : outcome (shell * turn_end) :=
  let! w := io_ioclose (k_w (sh_k st)) exeio in Ret (with_k st (set_world (sh_k st) w), Again).

Definition msg_missing : list Z := chars "%s: File not found" ++ [10; 0].
Definition msg_error : list Z := chars "%s: Error %d" ++ [10; 0].

(** A program that is open: two of the messages lack an argument. *)
Definition shell_run (st : shell) (j : junk) (exeio : Z) : outcome (shell * turn_end) :=
  let k := sh_k st in
  let! (w, m, result, _) := elf_load (w_ops (k_w k) exeio) (k_w k) (k_mm k) in
  let st := with_k st (set_world (set_mm k m) w) in
  if result <? 0 then
    let! st := say st msg_error [VWord (- result)] in shell_joined st exeio
  else
    let! (k, tid) := spawn (sh_k st) j (cmdbuf st) in
    let st := with_k st k in
    if tid <? 0 then let! st := say st msg_error [VWord (- result)] in shell_joined st exeio
    else
      let! r := thread_join (mtag_of k) (kview k) tid in
      let! (k, e) := join_ending k r in
      match e with Waits => Ret (with_k st k, Joining tid exeio) | _ => shell_joined (with_k st k) exeio end.

(** The command in the buffer. *)
Definition shell_command (st : shell) (j : junk) : outcome (shell * turn_end) :=
  let! c := load (cmdbuf st) 0 in
  if c =? 0 then Ret (st, Again)
  else
    let! r := strcmp (Some (cstr "exit")) (Some (cmdbuf st)) in
    if r =? 0 then Ret (st, Back)
    else
      let! (w, result, exeio) := w_fs_open (k_w (sh_k st)) (Some (cmdbuf st)) in
      let st := with_k st (set_world (sh_k st) w) in
      if result <? 0 then
        let! st :=
          if result =? - ENOENT then say st msg_missing [VStr (Some (cmdbuf st))]
          else say st msg_error [VStr (Some (cmdbuf st)); VWord (- result)] in
        Ret (st, Again)
      else shell_run st j exeio.

(** One turn: the prompt, a line of at most eight characters (a line that could
    not be echoed leaves the buffer without an end), the command. *)
Definition shell_turn (st : shell) (j : junk) : outcome (shell * turn_end) :=
  let! st := say st (cstr "CMD> ") [] in
  let! (t, l) := ioterm_getsn (raw st) raw_close lfuel rfuel (term st) (cmdbuf st) 9 in
  let st := with_term st t in
  match l with None => Fault | Some b => shell_command (with_cmd st b) j end.

(** Before the loop; the buffer is not initialised. *)
Definition shell_start (k : kern) (buf : list Z) : outcome shell :=
  let t := ioterm_init (k_w k) in
  let! (t, _) := ioputs (ioterm_ops (w_ops (k_w k) termio_raw) raw_close rfuel) t (chars "Enter executable name or " ++ [34] ++ chars "exit" ++ [34] ++ chars " to exit" ++ [0]) in
  Ret {| sh_k := set_world k (iot_raw t); sh_cr_out := iot_cr_out t; sh_cr_in := iot_cr_in t; cmdbuf := buf |}.

(** * What a command does *)

(** [exit] leaves the shell and nothing else changes; an empty line does
    nothing. *)
Lemma shell_exits st j : ctext (cmdbuf st) = Some (chars "exit") -> shell_command st j = Ret (st, Back).
Proof.
  intros Hc. unfold shell_command. destruct (cmdbuf st) as [|c b] eqn:E; [done|]. change (load (c :: b) 0) with (Ret c). cbn [obind].
  destruct (strcmp_ctext (cstr "exit") (c :: b) (chars "exit") (chars "exit") eq_refl Hc) as (z & -> & Hz). cbn [obind].
  rewrite bool_decide_true in Hz by done. rewrite Hz. cbn [ctext] in Hc. by destruct (c =? 0).
Qed.
Lemma shell_empty st j b : cmdbuf st = 0 :: b -> shell_command st j = Ret (st, Again).
Proof. intros E. unfold shell_command. by rewrite E. Qed.

(** A message without the argument its conversion asks for. *)
Lemma say_lacks_argument st n : say st msg_error [VWord n] = Fault.
Proof. reflexivity. Qed.

(** A name that is another command: what the file system answers decides. *)
Lemma shell_opens st j c b name w result exeio : cmdbuf st = c :: b -> ctext (c :: b) = Some name -> c <> 0 -> name <> chars "exit" ->
  w_fs_open (k_w (sh_k st)) (Some (c :: b)) = Ret (w, result, exeio) ->
  let st' := with_k st (set_world (sh_k st) w) in
  shell_command st j =
    if result <? 0 then
      let! st := if result =? - ENOENT then say st' msg_missing [VStr (Some (c :: b))] else say st' msg_error [VStr (Some (c :: b)); VWord (- result)] in
      Ret (st, Again)
    else shell_run st' j exeio.
Proof.
  intros E Hc Hc0 Hne Ho st'. unfold shell_command. rewrite E. change (load (c :: b) 0) with (Ret c). cbn [obind].
  rewrite (proj2 (Z.eqb_neq _ _) Hc0). destruct (strcmp_ctext (cstr "exit") (c :: b) (chars "exit") name eq_refl Hc) as (z & -> & Hz). cbn [obind].
  rewrite bool_decide_false in Hz by congruence. rewrite Hz, Ho. cbn [obind]. fold st'. change (cmdbuf st') with (cmdbuf st). by rewrite E.
Qed.

(** A program that does not load is answered by a message whose second argument
    is missing, so the shell reads an argument it was not given. *)
Lemma shell_bad_program st j c b name w exeio w1 m1 result ep :
  cmdbuf st = c :: b -> ctext (c :: b) = Some name -> c <> 0 -> name <> chars "exit" ->
  w_fs_open (k_w (sh_k st)) (Some (c :: b)) = Ret (w, 0, exeio) ->
  elf_load (w_ops w exeio) w (k_mm (sh_k st)) = Ret (w1, m1, result, ep) -> result < 0 -> shell_command st j = Fault.
Proof.
  intros E Hc Hc0 Hne Ho Hl Hr. rewrite (shell_opens st j c b name w 0 exeio E Hc Hc0 Hne Ho). change (0 <? 0) with false. cbv iota.
  unfold shell_run. change (k_w (sh_k (with_k st (set_world (sh_k st) w)))) with w.
  change (k_mm (sh_k (with_k st (set_world (sh_k st) w)))) with (k_mm (sh_k st)). rewrite Hl. cbn [obind].
  replace (result <? 0) with true by lia. reflexivity.
Qed.
End Shell.
