(* ===== verification/Preempt.v ===== *)
(** Preemption: an interrupt that takes the processor away from a program, and
    the way the program gets it back.  Composes the entry code and the context
    switch (trapasm.s, thrasm.s), the dispatch of interrupts (intr.c), the
    timer (timer.c) and the scheduler (thread.c). *)

From S2P Require Import Prelude Plic Csr Intr Thread ThreadLive Timer Memory Process Syscall TrapAsm.
From stdpp Require Import gmap list.
#[local] Open Scope Z_scope.

(** * [intr_handler] on the kernel *)

Section OnKernel.
Context {W : Type} `{IoWorld W, Mmio W}.
Notation kern := (kern W).

(** The devices are in the world of the kernel. *)
#[global] Instance kern_mmio : Mmio kern :=
  { mrd k a := let (w, v) := mrd (k_w k) a in (set_world k w, v); mwr k a v := set_world k (mwr (k_w k) a v) }.

(** The timer handler and [thread_yield] on the kernel. *)
Definition kern_timer_intr (k : kern) : outcome kern :=
  let! (t, tm) := timer_intr_handler (kview k) (k_tm k) in kput (set_timer k tm) t.
Definition kern_yield (k : kern) : outcome kern :=
  let! t := thread_yield (mtag_of k) (kview k) in kput k t.
Definition kern_intr_handler (st : intr_state kern) (code : Z) (tfr : trap_frame) (k : kern) : outcome kern :=
  intr_handler kern_timer_intr kern_yield st code (tf_sstatus tfr) k.

(** ** What an interrupt leaves alone *)

(** The threads keep their processes. *)
Definition same_procs (m m' : threads) : Prop := forall x, proc <$> m' !! x = proc <$> m !! x.
#[global] Instance same_procs_preorder : PreOrder same_procs.
Proof. split; [done|]. intros m1 m2 m3 H12 H23 x. by rewrite H23, H12. Qed.

Lemma upd_procs m p f m' : upd_thr m p f = Ret m' -> (forall t, proc (f t) = proc t) -> same_procs m m'.
Proof.
  unfold upd_thr. intros E Hf x. apply obind_Ret_inv in E as (t & Ht%get_thr_inv & E). injection E as <-.
  destruct (decide (p = x)) as [->|Hne]; [by rewrite lookup_insert_eq, Ht; cbn; rewrite Hf|by rewrite lookup_insert_ne].
Qed.
Lemma wake_all_procs fuel : forall m c thr m', wake_all fuel m c thr = Ret m' -> same_procs m m'.
Proof.
  induction fuel as [|fuel IH]; intros m c [x|] m' E; cbn [wake_all] in E; try discriminate; try (by injection E as <-).
  apply obind_Ret_inv in E as (t & _ & E). destruct (bool_decide _); [|discriminate]. destruct (bool_decide _); [|discriminate].
  apply obind_Ret_inv in E as (m1 & E1 & E). etrans; [by eapply upd_procs|by eapply IH].
Qed.
Lemma tlappend_procs m l0 l1 m' l0' l1' : tlappend m l0 l1 = Ret (m', l0', l1') -> same_procs m m'.
Proof.
  unfold tlappend. intros E. destruct (tl_head l0); [destruct (tl_tail l0); [|discriminate]|destruct (bool_decide _); [|discriminate]; by injection E as <- <- <-].
  destruct (tl_head l1); [|by injection E as <- <- <-]. destruct (tl_tail l1); [|discriminate].
  apply obind_Ret_inv in E as (m1 & E1 & E). injection E as <- <- <-. by eapply upd_procs.
Qed.

(** No stack is given up, the memory space stays. *)
Definition quiet_intr (st st' : tsys) : Prop := freed st' = freed st /\ space st' = space st /\ same_procs (thrs st) (thrs st').
#[global] Instance quiet_intr_preorder : PreOrder quiet_intr.
Proof. split; [by repeat split|]. intros s1 s2 s3 (? & ? & ?) (? & ? & ?). repeat split; [congruence..|by etrans]. Qed.

Lemma broadcast_quiet st c st' : condition_broadcast st c = Ret st' -> quiet_intr st st'.
Proof.
  unfold condition_broadcast. intros E. apply obind_Ret_inv in E as (cd & _ & E). destruct (tlempty _); [by injection E as <-|].
  destruct (intr_disable _) as [ss saved]. apply obind_Ret_inv in E as (m & E1%wake_all_procs & E). apply obind_Ret_inv in E as ([[m1 l0] l1] & E2%tlappend_procs & E).
  injection E as <-. repeat split. cbn. by etrans.
Qed.
Lemma wake_due_quiet fuel : forall st m hd now st' m' hd', wake_due fuel st m hd now = Ret (st', m', hd') -> quiet_intr st st'.
Proof.
  induction fuel as [|fuel IH]; intros st m [h|] now st' m' hd' E; cbn [wake_due] in E; try discriminate; try (by injection E as <- <- <-).
  apply obind_Ret_inv in E as (a & _ & E). destruct (_ <=? _); [|by injection E as <- <- <-].
  apply obind_Ret_inv in E as (st1 & E1%broadcast_quiet & E). apply obind_Ret_inv in E as (m1 & _ & E). apply IH in E. by etrans.
Qed.
Lemma timer_intr_quiet st tm st' tm' : timer_intr_handler st tm = Ret (st', tm') -> quiet_intr st st'.
Proof.
  unfold timer_intr_handler. intros E. apply obind_Ret_inv in E as ([[st1 m] hd] & E1%wake_due_quiet & E).
  apply obind_Ret_inv in E as (tm1 & _ & E). by injection E as <- <-.
Qed.
Lemma yield_freed mtag st st' : thread_yield mtag st = Ret st' -> freed st' = freed st.
Proof.
  unfold thread_yield. intros E. apply obind_Ret_inv in E as (t & _ & E). destruct (bool_decide _); [|discriminate].
  by eapply suspend_self_frees_nothing.
Qed.
(** Without stacks to free, the threads are put back as they are. *)
Lemma kput_plain (k : kern) t : freed t = [] ->
  kput k t = Ret (set_thr k (with_cur t (thrs t) (curthr t) []) (with_status (k_mm k) (space t) (ts_sstatus t))).
Proof. intros Hf. unfold kput. by rewrite Hf. Qed.

(** The scheduler does not look at the registers. *)
Lemma sched_inv_regs main idle st st' ready waits : thrs st' = thrs st -> conds st' = conds st -> thrtab st' = thrtab st ->
  ready_list st' = ready_list st -> curthr st' = curthr st -> sched_inv main idle st ready waits -> sched_inv main idle st' ready waits.
Proof.
  intros E1 E2 E3 E4 E5 [[HL Hr Hc] Hrun]. unfold running in *.
  split; [split|unfold running]; rewrite ?E1, ?E2, ?E3, ?E4, ?E5; done.
Qed.

(** ** The memory space follows the thread *)

(** The space of the process of thread [x], or the one that is active. *)
Definition space_of (mtag : Z -> Z) (st : tsys) (x : Z) : Z :=
  match thrs st !! x with
  | Some t => from_option mtag (space st) (proc t)
  | None => space st
  end.

Lemma tlremove_proc m l m' l' x t : tlremove m l = Ret (m', l', Some x) -> m' !! x = Some t -> exists t0, m !! x = Some t0 /\ proc t0 = proc t.
Proof.
  unfold tlremove. destruct (tl_head l) as [y|]; [|discriminate]. intros E Ht. apply obind_Ret_inv in E as (t1 & _ & E).
  apply obind_Ret_inv in E as (m1 & E1 & E). injection E as <- _ <-. unfold upd_thr in E1. apply obind_Ret_inv in E1 as (t2 & E2%get_thr_inv & E1).
  injection E1 as <-. rewrite lookup_insert_eq in Ht. injection Ht as <-. eauto.
Qed.
Lemma resume_kept st x prev st' : resume st x prev = Ret st' -> curthr st' = curthr st /\ space st' = space st.
Proof.
  unfold resume. intros E. apply obind_Ret_inv in E as (t & _ & E). destruct (context t); [|by injection E as <-].
  apply obind_Ret_inv in E as (p & _ & E). apply obind_Ret_inv in E as (st1 & E1 & E). injection E as <-. cbn.
  destruct (decide _); [|by injection E1 as <-]. apply obind_Ret_inv in E1 as (m & _ & E1). by injection E1 as <-.
Qed.
Lemma yield_space mtag st st' : thread_yield mtag st = Ret st' -> space st' = space_of mtag st (curthr st').
Proof.
  unfold thread_yield. intros E. apply obind_Ret_inv in E as (t & _ & E). destruct (bool_decide _); [|discriminate].
  unfold suspend_self in E. destruct (negb _); [|discriminate]. destruct (intr_disable _) as [ss saved].
  apply obind_Ret_inv in E as ([[m1 l1] nx] & E1 & E). destruct nx as [next|]; [|discriminate].
  apply obind_Ret_inv in E as (nt & Hnt%get_thr_inv & E). destruct (bool_decide _); [|discriminate].
  apply obind_Ret_inv in E as (m2 & _ & E). apply obind_Ret_inv in E as (sus & _ & E). apply obind_Ret_inv in E as ([m3 l3] & _ & E).
  destruct (intr_enable _) as [ss2 sv]. apply obind_Ret_inv in E as (m4 & _ & E). apply resume_kept in E as [Ec Es].
  destruct (tlremove_proc _ _ _ _ _ _ E1 Hnt) as (t0 & Ht0 & Hp). cbn [curthr with_cur] in Ec. rewrite Ec, Es. unfold space_of.
  cbn [thrs with_sstatus] in Ht0. rewrite Ht0, Hp. by destruct (proc nt).
Qed.

(** ** A timer interrupt in user mode *)

Section Tick.
Context (main idle : Z) (ist : intr_state kern).

(** [k'] is [k] after a timer interrupt that found the alarms [xs] sleeping:
    the waiters of the due alarms join the ready list, its head [x] runs in the
    memory space of its process and the interrupted thread is the last of the
    ready list. *)
Record preempted (k k' : kern) (xs ready : list Z) (waits : cond_id -> list Z) (x : Z) : Prop := {
  pe_cur : curthr (k_thr k') = x;
  pe_next : x <> curthr (k_thr k);
  pe_sched : exists r, ready ++ cond_waiters waits (due (alarms (k_tm k)) (mtime (k_tm k)) xs) = x :: r /\
    sched_inv main idle (k_thr k') (r ++ [curthr (k_thr k)]) (clear_all waits (due (alarms (k_tm k)) (mtime (k_tm k)) xs));
  pe_sleep : sleep_ok (k_tm k') (not_due (alarms (k_tm k)) (mtime (k_tm k)) xs);
  pe_mem : ram (k_mm k') = ram (k_mm k) /\ free_list (k_mm k') = free_list (k_mm k);
  pe_space : exists t, thrs (k_thr k) !! x = Some t /\ satp (k_mm k') = from_option (mtag_of k) (satp (k_mm k)) (proc t);
  pe_freed : freed (k_thr k') = [];
  pe_rest : k_procs k' = k_procs k /\ k_w k' = k_w k /\ k_heap k' = k_heap k /\ k_con k' = k_con k;
}.

Lemma kern_tick (k : kern) xs ready waits tfr : sched_inv main idle (k_thr k) ready waits -> curthr (k_thr k) <> idle -> freed (k_thr k) = [] ->
  sleep_ok (k_tm k) xs -> (forall a, a ∈ xs -> is_Some (conds (k_thr k) !! CondAt a)) -> Z.land (tf_sstatus tfr) RISCV_SSTATUS_SPP = 0 ->
  exists k' x, kern_intr_handler ist RISCV_SCAUSE_INTR_EXCODE_STI tfr k = Ret k' /\ preempted k k' xs ready waits x.
Proof.
  intros HI Hidle Hfr Hok HC Hspp. set (D := due (alarms (k_tm k)) (mtime (k_tm k)) xs).
  assert (HI0 : sched_inv main idle (kview k) ready waits) by (by apply (sched_inv_regs _ _ (k_thr k))).
  destruct (timer_intr_handler_spec id main idle (kview k) (k_tm k) xs ready waits HI0 Hok HC) as (t1 & tm1 & E1 & Hc1 & HI1 & Hok1 & _).
  fold D in HI1. destruct (timer_intr_quiet _ _ _ _ E1) as (Hf1 & Hs1 & Hp1). cbn [kview freed with_sstatus with_space space thrs curthr] in *.
  set (k1 := set_thr (set_timer k tm1) (with_cur t1 (thrs t1) (curthr t1) []) (with_status (k_mm k) (space t1) (ts_sstatus t1))).
  assert (Ek1 : kern_timer_intr k = Ret k1) by (unfold kern_timer_intr; rewrite E1; cbn [obind]; apply kput_plain; congruence).
  assert (HI2 : sched_inv main idle (kview k1) (ready ++ cond_waiters waits D) (clear_all waits D)) by (by apply (sched_inv_regs _ _ t1)).
  assert (Hcur : curthr (kview k1) = curthr (k_thr k)) by exact Hc1.
  destruct (ready_cons main idle (kview k1) _ _ (proj1 HI2)) as (x & r & Hxr); [by rewrite Hcur|]. rewrite Hxr in HI2.
  destruct (thread_yield_spec (mtag_of k1) main idle (kview k1) x r _ HI2) as (t2 & E2 & Hx & _ & HI3).
  pose proof (yield_freed _ _ _ E2) as Hf2. pose proof (yield_space _ _ _ E2) as Hs2. rewrite Hcur in HI3.
  exists (set_thr k1 (with_cur t2 (thrs t2) (curthr t2) []) (with_status (k_mm k1) (space t2) (ts_sstatus t2))), x. split.
  - unfold kern_intr_handler, intr_handler. cbn [Z.eqb RISCV_SCAUSE_INTR_EXCODE_STI RISCV_SCAUSE_INTR_EXCODE_SEI Pos.eqb].
    rewrite Ek1. cbn [obind]. rewrite Hspp. cbn [Z.eqb]. unfold kern_yield. rewrite E2. cbn [obind]. apply kput_plain. exact Hf2.
  - split; try done.
    + rewrite <- Hcur. apply (ready_not_current main idle (kview k1) (x :: r) (clear_all waits D)); [done|by left].
    + exists r. split; [exact Hxr|]. by apply (sched_inv_regs _ _ t2).
    + assert (Hin : x ∈ x :: r) by left. apply (l_ready _ _ _ _ _ _ _ _ (t_linv _ _ _ _ _ (proj1 HI2))) in Hin as (v & Hv & _).
      destruct (lookup_of_view _ _ _ Hv) as (t' & Ht' & _). change (thrs t1 !! x = Some t') in Ht'.
      specialize (Hp1 x). rewrite Ht' in Hp1. destruct (thrs (k_thr k) !! x) as [t|]; [|done]. cbn in Hp1. injection Hp1 as Hp1.
      exists t. split; [done|]. cbn [k_mm set_thr with_status satp k1]. rewrite Hs2, Hx. unfold space_of. change (thrs (kview k1)) with (thrs t1).
      rewrite Ht', Hp1. change (space (kview k1)) with (space t1). by rewrite Hs1.
Qed.
End Tick.
End OnKernel.

(** * On the processor *)

Section OnCpu.
Context {W : Type} `{IoW : IoWorld W} `{MmW : Mmio W} {H0 : Type} `{HartLaws H0}.
Notation kern := (kern W).

(** The compiled code of [intr_handler] from its entry down to the call
    [_thread_swtch(next)] of [suspend_self], and from there up to its return. *)
Record compiled := { down : cpu H0 -> Z -> cpu H0; up : cpu H0 -> cpu H0 }.

(** The trap frame and the saved contexts, which C code does not write. *)
Definition saved_state (k : kern) (B a : Z) : Prop :=
  B <= a < B + 34 * 8 \/ exists y t, thrs (k_thr k) !! y = Some t /\ y <= a < y + 14 * 8.

(** The calling convention: tp is the thread, a0 the argument; a function whose
    callee-saved registers and stack are as it left them returns with the stack
    pointer of its caller.  The stack of the thread goes down to [lo]. *)
Record follows_abi (c : compiled) (k : kern) (B lo : Z) : Prop := {
  abi_tp : forall s n, rx (down c s n) 4 = rx s 4;
  abi_arg : forall s n, rx (down c s n) 10 = n;
  abi_down : forall s n a, saved_state k B a -> dmem (down c s n) a = dmem s a;
  abi_up : forall s a, saved_state k B a -> dmem (up c s) a = dmem s a;
  abi_sp : forall s n s', rx s 2 = B -> (forall r i, (r, i) ∈ context_regs -> rx s' r = rx (down c s n) r) ->
    (forall a, lo <= a < B -> dmem s' a = dmem (down c s n) a) -> rx (up c s') 2 = B;
}.

(** The structures of the threads are apart from each other and from the stack
    between [lo] and [hi]. *)
Record laid_out (k : kern) (lo hi : Z) : Prop := {
  lo_thr : forall y t, thrs (k_thr k) !! y = Some t -> at_words y 14 /\ (y + 14 * 8 <= lo \/ hi <= y);
  lo_apart : forall y z t u, thrs (k_thr k) !! y = Some t -> thrs (k_thr k) !! z = Some u -> y <> z -> apart y 14 z 14;
}.

Lemma frame_at_ext m m' B : (forall a, B <= a < B + 34 * 8 -> m' a = m a) -> frame_at m' B = frame_at m B.
Proof. intros E. unfold frame_at. f_equal; [|apply E; lia..]. apply map_ext_in. intros i Hi%in_seq. apply E. lia. Qed.

Context (main idle trap_entry_from_smode trap_entry_from_umode back : Z) (ist : intr_state kern).
Context (Hsmode : 0 <= trap_entry_from_smode < 2 ^ 64 /\ trap_entry_from_smode mod 4 = 0).
Context (Humode : 0 <= trap_entry_from_umode < 2 ^ 64 /\ trap_entry_from_umode mod 4 = 0).

(** The state [s] of a program again. *)
Record same_program (s s' : cpu H0) : Prop := {
  sp_regs : forall i, (i < 32)%nat -> rx s' i = rx s i;
  sp_pc : csr_rd (csrs s') SEPC = csr_rd (csrs s) SEPC;
  sp_status : same_bits (visible SSTATUS) (csr_rd (csrs s') SSTATUS) (csr_rd (csrs s) SSTATUS);
  sp_vector : csr_rd (csrs s') STVEC = trap_entry_from_umode;
  sp_stack : csr_rd (csrs s') SSCRATCH = csr_rd (csrs s) SSCRATCH;
}.

(** Coming back: the frame is that of the program. *)
Lemma leave_same s s1 s4 B : B = csr_rd (csrs s) SSCRATCH - 34 * 8 -> entered s s1 B -> at_words B 35 -> csr_rd (csrs s) SEPC mod 4 = 0 ->
  rx s4 2 = B -> (forall a, B <= a < B + 34 * 8 -> dmem s4 a = dmem s1 a) ->
  exists s5, umode_leave trap_entry_from_umode s4 = Ret s5 /\ same_program s s5.
Proof.
  intros HB He Hw Hpc Hsp Hm. apply frame_at_ext in Hm.
  destruct (umode_leave_spec trap_entry_from_umode Humode s4 B Hsp Hw) as (s5 & E & [Hr Hp Hs] & Hv & Hk & _).
  { rewrite Hm. split; rewrite (en_sepc _ _ _ He); [apply csr_width|exact Hpc]. }
  rewrite Hm in Hr, Hp, Hs. exists s5. split; [exact E|]. split; [|rewrite Hp; apply (en_sepc _ _ _ He)| |exact Hv|rewrite Hk; lia].
  - intros i Hi. destruct i as [|i]; [done|]. rewrite Hr by lia. apply (en_regs _ _ _ He). lia.
  - intros b Hb. rewrite (Hs b Hb). exact (f_equal (fun z => Z.testbit z b) (en_sstatus _ _ _ He)).
Qed.

(** C4: preemption: a timer interrupt in a program wakes the threads of the
    alarms that are due, moves the interrupted thread to the end of the ready
    list and resumes the thread at its head, with its registers and in its
    memory space.  When, whatever ran in between, the interrupted thread is
    switched to again, its context and stack being as it left them, the program
    continues at the interrupted instruction with all its registers and its
    status as they were, and its next trap finds the trap vector and the kernel
    stack in place. *)
Theorem timer_preempts k xs ready waits (s : cpu H0) c lo :
  let ksp := csr_rd (csrs s) SSCRATCH in let B := ksp - 34 * 8 in let T := curthr (k_thr k) in
  sched_inv main idle (k_thr k) ready waits -> T <> idle -> freed (k_thr k) = [] ->
  sleep_ok (k_tm k) xs -> (forall a, a ∈ xs -> is_Some (conds (k_thr k) !! CondAt a)) ->
  csr_rd (csrs s) SCAUSE = 2 ^ 63 + RISCV_SCAUSE_INTR_EXCODE_STI -> Z.land (csr_rd (csrs s) SSTATUS) RISCV_SSTATUS_SPP = 0 ->
  csr_rd (csrs s) SEPC mod 4 = 0 -> 0 <= gpr s 2 < 2 ^ 64 -> rx s 4 = T ->
  ksp mod 8 = 0 -> 34 * 8 <= ksp -> ksp + 8 <= 2 ^ 64 -> lo <= B -> laid_out k lo ksp -> follows_abi c k B lo ->
  exists s1 k' x s2, umode_enter trap_entry_from_smode back s = Ret (s1, ToIntr) /\
    kern_intr_handler ist (i32 (rx s1 10)) (frame_at (dmem s1) (rx s1 11)) k = Ret k' /\ preempted main idle k k' xs ready waits x /\
    thread_swtch (down c s1 x) = Ret s2 /\ rx s2 4 = x /\ (forall r i, (r, i) ∈ context_regs -> rx s2 r = dmem s1 (x + i * 8)) /\
    forall s3 V t, thrs (k_thr k) !! V = Some t -> V <> T -> rx s3 4 = V -> rx s3 10 = T ->
      (forall a, T <= a < T + 14 * 8 \/ lo <= a < ksp -> dmem s3 a = dmem s2 a) ->
      exists s4 s5, thread_swtch s3 = Ret s4 /\ umode_leave trap_entry_from_umode (up c s4) = Ret s5 /\ same_program s s5.
Proof.
  intros ksp B T HI Hidle Hfr Hok HC Hcause Hspp Hpc Hsp Htp Hal Hlo Hhi HloB Hlay Habi.
  destruct (umode_enter_spec trap_entry_from_smode trap_entry_from_umode back Hsmode s Hsp Hal Hlo) as (s1 & E1 & He & _). fold ksp B in He.
  rewrite Hcause in E1. assert (Hcode : i32 (rx s1 10) = RISCV_SCAUSE_INTR_EXCODE_STI) by (rewrite (en_code _ _ _ He), Hcause; reflexivity).
  destruct (kern_tick main idle ist k xs ready waits (frame_at (dmem s1) B) HI Hidle Hfr Hok HC) as (k' & x & Ek & Hpre); [by rewrite (en_sstatus _ _ _ He)|].
  destruct (running_thr main idle _ _ _ HI) as (tT & HtT & _). fold T in HtT. destruct (pe_space _ _ _ _ _ _ _ _ Hpre) as (tx & Htx & _).
  pose proof (pe_next _ _ _ _ _ _ _ _ Hpre) as Hne. fold T in Hne.
  destruct (lo_thr _ _ _ Hlay T tT HtT) as [HT HTs]. destruct (lo_thr _ _ _ Hlay x tx Htx) as [Hx Hxs].
  assert (Hs1 : rx s1 4 = T) by (rewrite <- Htp; cbn [rx]; apply (en_kept _ _ _ He), (bool_decide_unpack _); vm_compute; exact I).
  destruct (thread_swtch_spec (down c s1 x) T x) as (s2 & E2 & _ & T2 & _ & R2 & M2);
    [by rewrite (abi_tp _ _ _ _ Habi)|apply (abi_arg _ _ _ _ Habi)|done|done|by apply (lo_apart _ _ _ Hlay _ _ tT tx)|].
  assert (Hctx : forall y t a, thrs (k_thr k) !! y = Some t -> y <= a < y + 14 * 8 -> saved_state k B a) by (intros y t a Hy Ha; right; eauto).
  exists s1, k', x, s2. split; [exact E1|]. rewrite (en_frame _ _ _ He), Hcode. split; [exact Ek|]. split; [exact Hpre|].
  split; [exact E2|]. split; [exact T2|]. split.
  { intros r i Hin. rewrite (proj2 (R2 r i Hin)). apply (abi_down _ _ _ _ Habi), (Hctx x tx); [done|]. apply context_reg in Hin. lia. }
  intros s3 V t HV HVT Hv Ht3 Hkeep. destruct (lo_thr _ _ _ Hlay V t HV) as [HwV HVs].
  destruct (thread_swtch_spec s3 V T Hv Ht3 HwV HT) as (s4 & E4 & _ & _ & _ & R4 & M4); [by apply (lo_apart _ _ _ Hlay _ _ t tT)|].
  assert (Hmem : forall a, lo <= a < ksp -> dmem s4 a = dmem (down c s1 x) a) by (intros a Ha; rewrite M4, Hkeep, M2; [done|lia..]).
  assert (Hframe : forall a, B <= a < B + 34 * 8 -> dmem (up c s4) a = dmem s1 a).
  { intros a Ha. rewrite (abi_up _ _ _ _ Habi), Hmem, (abi_down _ _ _ _ Habi); [done|by left|unfold B in *; lia|by left]. }
  destruct (leave_same s s1 (up c s4) B eq_refl He) as (s5 & E5 & Hs5); [unfold B; split_and!; [lia|Z.to_euclidean_division_equations; lia|lia]|done| |exact Hframe|].
  { apply (abi_sp _ _ _ _ Habi s1 x); [exact (en_sp _ _ _ He)| |intros a Ha; apply Hmem; unfold B in *; lia].
    intros r i Hin. pose proof (context_reg r i Hin) as (_ & _ & Hi). rewrite (proj2 (R4 r i Hin)), Hkeep by lia. by apply R2. }
  exists s4, s5. split; [exact E4|]. split; [exact E5|exact Hs5].
Qed.
End OnCpu.
