(* ===== verification/KernDemo.v ===== *)
(** A small kernel on which the properties of system calls are instantiated:
    a process with one page of memory, that holds the name of a file, over a
    mounted file system. *)

From Stdlib Require Import Ascii String.
From S2P Require Import Prelude KString IoIntf IoLit Intr Device Console Thread Timer Heap Memory PageTable MemInit VmOps UserMem VmClone Kfs KfsFiles Elf Process Syscall Descriptors FdInv SyscallProps FsWorld SyscallFs Plic Csr TrapAsm TrapSyscall Preempt.
From stdpp Require Import gmap list.
#[local] Open Scope Z_scope.

Module KernDemo.
(** A page at 0xC0000000 that starts with the name. *)
Definition page : Z := 0xC0000000.
Definition mem : mm :=
  match memory_alloc_and_map_page VmDemo.st page RWU with
  | Ret (m, _) => match store_user m page [104; 105; 0] with Ret m => m | _ => m end
  | _ => VmDemo.st
  end.

Lemma user_page_vma v : page <= v < page + PAGE_SIZE -> user_vma v /\ v / PAGE_SIZE = page / PAGE_SIZE.
Proof. unfold user_vma, page. mem_consts. intros. split; [lia|]. Z.to_euclidean_division_equations. lia. Qed.

Lemma kmem_ok : exists free, user_ok mem free /\ (2010 <= length free)%nat /\
  (forall v, user_vma v -> is_Some (translate mem v) -> v / PAGE_SIZE ∈ [0xC0000]) /\
  (forall v, page <= v < page + PAGE_SIZE -> exists b, uview mem v = Some (b, map_flags RWU)) /\
  forall i c, [104; 105; 0] !! i = Some c -> uview mem (page + Z.of_nat i) = Some (c, map_flags RWU).
Proof.
  destruct (user_page_vma page) as [Hu _]; [unfold PAGE_SIZE; lia|].
  assert (Hn : uview VmDemo.st page = None) by (apply uview_None; [exact Hu|exact (VmDemo.st_unmapped _ Hu)]).
  destruct (map_user_page VmDemo.st VmDemo.free page RWU CloneDemo.st0_user Hu) as (m1 & p & fr & E & Hok & Hl & Hv);
    [rewrite VmDemo.free_len; lia|vm_compute; split; [discriminate|reflexivity]|reflexivity|exact Hn|].
  assert (Hin : forall v, page <= v < page + PAGE_SIZE -> exists b, uview m1 v = Some (b, map_flags RWU)).
  { intros v Hr. destruct (user_page_vma v Hr) as [Huv Hp]. assert (Hvv := Hv v Huv). rewrite decide_True in Hvv by exact Hp. exact Hvv. }
  destruct (store_user_spec [104; 105; 0] m1 fr page Hok) as (m2 & E2 & Hok2 & Hv2).
  { by repeat constructor. }
  { unfold page. mem_consts. lia. }
  { unfold page. mem_consts. cbn [length]. lia. }
  { cbn [length]. intros a Ha. destruct (Hin a) as [b Hb]; [unfold PAGE_SIZE; lia|]. exists b, (map_flags RWU). split; [exact Hb|reflexivity]. }
  assert (Est : mem = m2) by (unfold mem; rewrite E, E2; reflexivity). rewrite Est. exists fr. split; [exact Hok2|].
  split; [rewrite VmDemo.free_len in Hl; lia|]. cbn [length] in Hv2. change (Z.of_nat 3) with 3 in Hv2. split; [|split].
  - intros v Huv Hs. destruct (decide (v / PAGE_SIZE = page / PAGE_SIZE)) as [Ev|Ev]; [rewrite Ev; constructor|exfalso].
    assert (Hvv := Hv v Huv). rewrite (decide_False _ _ Ev) in Hvv. assert (Hv2v := Hv2 v Huv).
    rewrite decide_False in Hv2v by (intros Hr; apply Ev, user_page_vma; unfold PAGE_SIZE; lia).
    rewrite Hvv in Hv2v. assert (H0 : uview VmDemo.st v = None) by (apply uview_None; [exact Huv|exact (VmDemo.st_unmapped _ Huv)]).
    rewrite H0 in Hv2v. apply uview_None in Hv2v; [|exact Huv]. rewrite Hv2v in Hs. by destruct Hs.
  - intros v Hr. destruct (user_page_vma v Hr) as [Huv _]. destruct (Hin v Hr) as [b Hb]. rewrite (Hv2 v Huv), Hb. destruct (decide _); eauto.
  - intros i c Hi. assert (Hil := lookup_lt_Some _ _ _ Hi). cbn [length] in Hil.
    assert (Hr : page <= page + Z.of_nat i < page + PAGE_SIZE) by (unfold PAGE_SIZE; lia). destruct (user_page_vma _ Hr) as [Huv _].
    destruct (Hin _ Hr) as [b Hb]. rewrite (Hv2 _ Huv), decide_True, Hb by lia. replace (Z.to_nat (page + Z.of_nat i - page)) with i by lia.
    cbn [option_map snd]. rewrite Hi. reflexivity.
Qed.

Lemma mem_name : user_string mem page [104; 105].
Proof.
  destruct kmem_ok as (free & _ & _ & _ & _ & Hn). split; [by repeat constructor|]. intros i c Hi. change ([104; 105] ++ [0]) with [104; 105; 0] in Hi.
  assert (Hl := lookup_lt_Some _ _ _ Hi). cbn [length] in Hl. split; [apply user_page_vma; unfold PAGE_SIZE; lia|].
  exists (map_flags RWU). split; [exact (Hn i c Hi)|reflexivity].
Qed.

(** * The kernel *)

#[global] Instance world : IoWorld (fsworld io_lit) := fs_world iolit_ops 7.
#[global] Instance world_spec : IoWorldSpec (fsworld io_lit) := fs_world_spec iolit_ops 7.

Definition tm : timer :=
  {| mtime := 0; mtcmp := 0; next_tick := 0; sleep_list := None; alarms := ∅; tm_sie := 0; mmode_intr := false; timer_initialized := true |}.
Definition con : console :=
  {| c_ier := 0; c_lcr := 0; c_dll := 0; c_dlm := 0; c_in := []; c_out := []; put_cprev := 0; get_cprev := 0; console_initialized := true |}.
Definition hp : heap := {| heap_start := 0x80100000; heap_end := 0x80101000; heap_initialized := true |}.
Definition j0 : junk := {| j_tid := 0; j_thread := Demo.blank; j_cond := Demo.ce0; j_alarm := 500 |}.

(** Before and after [procmgr_init]; the process of [main] is at 100. *)
Definition k0 : kern (fsworld io_lit) :=
  {| k_thr := Demo.st1; k_mm := mem; k_heap := hp; k_tm := tm; k_con := con; k_procs := ∅;
     k_proctab := Some 100 :: replicate 15 None; k_devtab := []; k_w := {| fw_fs := KfsDemo.mounted; fw_refs := ∅ |};
     procmgr_initialized := false |}.
Definition pr0 : process := {| p_id := 0; p_tid := 0; p_mtag := active_memory_space mem; iotab := replicate 16 None |}.
Definition thr1 : tsys := Demo.get Demo.dummy (thread_set_process Demo.st1 0 (Some 100)).
Definition k1 : kern (fsworld io_lit) :=
  {| k_thr := thr1; k_mm := mem; k_heap := hp; k_tm := tm; k_con := con; k_procs := <[100 := pr0]> ∅;
     k_proctab := Some 100 :: replicate 15 None; k_devtab := []; k_w := {| fw_fs := KfsDemo.mounted; fw_refs := ∅ |};
     procmgr_initialized := true |}.

Lemma k1_init : procmgr_init 100 k0 = Ret k1.
Proof.
  assert (E1 : running_thread Demo.st1 = Ret 0) by (vm_compute; reflexivity).
  assert (E2 : thread_set_process Demo.st1 0 (Some 100) = Ret thr1) by (vm_compute; reflexivity).
  unfold procmgr_init. cbn [k_thr k0]. rewrite E1. cbn [obind]. rewrite E2. reflexivity.
Qed.

Lemma k1_reach : kreach MemDemo.img 1 100 k1.
Proof. apply (KInit MemDemo.img 1 100 k0 k1); [exact I|constructor|reflexivity|exact k1_init]. Qed.

Lemma k1_inv : fd_inv k1.
Proof. exact (kreach_inv MemDemo.img 1 100 k1 k1_reach). Qed.

Lemma k1_runs : runs_process k1 100 pr0.
Proof.
  assert (E1 : running_thread thr1 = Ret 0) by (vm_compute; reflexivity).
  assert (E2 : thread_process thr1 0 = Ret (Some 100)) by (vm_compute; reflexivity).
  split; [|reflexivity]. unfold current, current_process. cbn [k_thr k1]. rewrite E1. cbn [obind]. rewrite E2. cbn [obind].
  unfold get_proc. cbn [k_procs k1]. rewrite lookup_insert_eq. reflexivity.
Qed.

Lemma mounted_ready : ready iolit_ops 7 KfsDemo.mounted KfsDemo.img /\ file_list KfsDemo.mounted = replicate 32 released.
Proof.
  destruct (fs_mount_spec iolit_ops 7 (HR := lit_read_disk 7) KfsDemo.s0 KfsDemo.disk KfsDemo.s0_ok KfsDemo.disk_ok KfsDemo.img_fine) as (s1 & E1 & Hr1 & Hf1).
  unfold KfsDemo.mounted. rewrite E1. split; [exact Hr1|exact Hf1].
Qed.

(** The registers of an [ecall]. *)
Definition call (num a0 a1 a2 : Z) : trap_frame :=
  {| tf_x := <[TFR_A7 := num]> (<[TFR_A0 := a0]> (<[TFR_A1 := a1]> (<[TFR_A2 := a2]> (replicate 32 0)))); tf_sstatus := 0; tf_sepc := 0xC0000100 |}.
Definition ECALL : Z := RISCV_SCAUSE_ECALL_FROM_UMODE.

Lemma free_fd : empty_slot (iotab pr0) 0 = Some 0.
Proof. reflexivity. Qed.
Lemma free_file : find_unused (file_list KfsDemo.mounted) 0 = Some 0%nat.
Proof. rewrite (proj2 mounted_ready). reflexivity. Qed.
Lemma dir_hi : dir_lookup KfsDemo.img (cstr "hi") = Some 0.
Proof. vm_compute. reflexivity. Qed.

(** The name has been opened at descriptor 0. *)
Definition k2 (s : kfs io_lit) : kern (fsworld io_lit) := opened_at iolit_ops 7 k1 100 pr0 0 0 s.

Lemma k2_open : exists s, sysfsopen k1 (-1) page = Ret (k2 s, Returns 0) /\
  file_ready iolit_ops 7 s KfsDemo.img 0 (KfsFiles.opened KfsDemo.img 0) 0.
Proof.
  destruct kmem_ok as (free & Hu & _).
  apply (sysfsopen_file iolit_ops 7 (HR := lit_read_disk 7) k1 100 pr0 free KfsDemo.img page [104; 105] (cstr "hi") 0 0 (-1) 0).
  - exact k1_runs.
  - exact Hu.
  - exact mem_name.
  - by repeat constructor.
  - discriminate.
  - exact KfsDemo.img_fine.
  - exact KfsDemo.inodes_fine.
  - exact (proj1 mounted_ready).
  - vm_compute. reflexivity.
  - exact dir_hi.
  - exact free_file.
  - lia.
  - exact free_fd.
Qed.

Lemma plain_call num a0 : num <> SYSCALL_EXIT -> num <> SYSCALL_EXEC -> num <> SYSCALL_FORK -> call_ok k1 num a0.
Proof. intros H1 H2 H3. exists 100, pr0. split; [exact k1_runs|]. split; [|split]; intros E; contradiction. Qed.

Lemma k2_reach : exists s, kreach MemDemo.img 1 100 (k2 s).
Proof.
  destruct k2_open as (s & E & _). exists s.
  apply (KTrap MemDemo.img 1 100 k1 j0 ECALL (call SYSCALL_FSOPEN (u64 (-1)) page 0) (k2 s)
    (set_reg (set_sepc (call SYSCALL_FSOPEN (u64 (-1)) page 0) (u64 (tf_sepc (call SYSCALL_FSOPEN (u64 (-1)) page 0) + 4))) TFR_A0 (u64 0)) (Some (Returns 0)) k1_reach).
  - apply plain_call; discriminate.
  - apply ecall_returns. exact E.
Qed.

Definition pr2 : process := with_iotab pr0 (<[0%nat := Some 1]> (replicate 16 None)).
Lemma k2_runs s : runs_process (k2 s) 100 pr2.
Proof. exact (opened_at_runs iolit_ops 7 k1 100 pr0 0 0 s k1_runs). Qed.

Lemma mem_kernel free : user_ok mem free -> kernel_tables MemDemo.img mem free.
Proof.
  intros Hu. assert (Hr : active_space_root mem = main_pt2 MemDemo.img) by (vm_compute; reflexivity).
  split; [rewrite <- Hr; apply Hu|vm_compute; reflexivity].
Qed.
End KernDemo.

Lemma fd_refcounts_witness : exists s, w_live (k_w (KernDemo.k2 s)) 1 /\ w_refcnt (k_w (KernDemo.k2 s)) 1 = 1.
Proof.
  destruct KernDemo.k2_reach as (s & Hr). exists s.
  exact (fd_refcounts MemDemo.img 1 100 (KernDemo.k2 s) 0 100 (with_iotab KernDemo.pr0 (<[0%nat := Some 1]> (replicate 16 None))) 0 1 Hr
    eq_refl eq_refl eq_refl).
Defined.

Lemma sysclose_last_witness : exists s k', sysclose (KernDemo.k2 s) 0 = Ret (k', Returns 0) /\ ~ w_live (k_w k') 1.
Proof.
  destruct KernDemo.k2_reach as (s & Hr). exists s.
  destruct (sysclose_last (KernDemo.k2 s) 100 KernDemo.pr2 0 1 (kreach_inv _ _ _ _ Hr) (KernDemo.k2_runs s)) as (k' & pr' & E & _ & _ & _ & _ & Hl).
  - lia.
  - reflexivity.
  - discriminate.
  - exists k'. split; [exact E|]. rewrite Hl. intros Hlt. change (1 < 1)%nat in Hlt. lia.
Defined.

Lemma sysfsopen_descriptor_witness : exists k' r, sysfsopen KernDemo.k1 3 KernDemo.page = Ret (k', Returns r) /\
  open_answer (replicate 16 None) 3 r.
Proof.
  destruct KernDemo.kmem_ok as (free & Hu & _).
  destruct (fs_open_spec iolit_ops 7 (HR := lit_read_disk 7) KfsDemo.mounted KfsDemo.img KfsDemo.name KfsDemo.name KfsDemo.img_fine
    KfsDemo.inodes_fine (proj1 KernDemo.mounted_ready) KfsDemo.name_bytes ltac:(vm_compute; reflexivity)) as (s & Eo & _).
  assert (Er : open_result KfsDemo.mounted KfsDemo.img KfsDemo.name = (0, Some 0%nat, <[0%nat := KfsFiles.opened KfsDemo.img 0]> (file_list KfsDemo.mounted)))
    by (unfold open_result; rewrite KernDemo.free_file; change KfsDemo.name with (cstr "hi"); rewrite KernDemo.dir_hi; reflexivity).
  rewrite Er in Eo. cbn [fst snd] in Eo.
  destruct (sysfsopen_descriptor KernDemo.k1 100 KernDemo.pr0 3 KernDemo.page ([104; 105] ++ [0])
    (set_fs (k_w KernDemo.k1) s) 0 1 KernDemo.k1_inv KernDemo.k1_runs) as (k' & r & E & _ & Ha & _).
  - discriminate.
  - exact (user_cstr_spec KernDemo.mem free KernDemo.page [104; 105] Hu KernDemo.mem_name).
  - change ([104; 105] ++ [0]) with KfsDemo.name. cbn [w_fs_open KernDemo.world fs_world k_w KernDemo.k1 fw_fs]. rewrite Eo. reflexivity.
  - lia.
  - exists k', r. split; [exact E|exact Ha].
Defined.

Lemma syscall_errors_witness :
  umode_excp_handler MemDemo.img 1 KernDemo.k1 KernDemo.j0 KernDemo.ECALL (KernDemo.call SYSCALL_READ 3 KernDemo.page 8)
    = Ret (KernDemo.k1, set_reg (set_sepc (KernDemo.call SYSCALL_READ 3 KernDemo.page 8) 0xC0000104) TFR_A0 (u64 (- EBADFD)), Some (Returns (- EBADFD))).
Proof.
  destruct (syscall_errors MemDemo.img 1 KernDemo.k1 KernDemo.j0 100 KernDemo.pr0 (KernDemo.call SYSCALL_READ 3 KernDemo.page 8) SYSCALL_READ 3 KernDemo.page
    KernDemo.k1_runs eq_refl eq_refl eq_refl eq_refl) as (_ & H & _).
  apply H; [apply elem_of_cons; right; apply elem_of_cons; left; reflexivity|left; reflexivity].
Defined.

Lemma fork_child_witness : exists s k' c ch, process_fork MemDemo.img (KernDemo.k2 s) KernDemo.j0 0 = Ret (k', Some c) /\
  iotab ch = iotab KernDemo.pr2 /\ w_refcnt (k_w k') 1 = 2 /\
  uview (with_satp (k_mm k') (p_mtag ch)) (KernDemo.page + 1) = Some (105, map_flags RWU).
Proof.
  destruct KernDemo.k2_reach as (s & Hr). destruct KernDemo.kmem_ok as (free & Hu & Hl & HL & _ & Hn). exists s.
  destruct (fork_child MemDemo.img (KernDemo.k2 s) KernDemo.j0 100 KernDemo.pr2 free [0xC0000] (kreach_inv _ _ _ _ Hr) (KernDemo.k2_runs s) Hu
    (KernDemo.mem_kernel free Hu) HL) as (_ & Hf).
  - cbn [length]. lia.
  - vm_compute. split; [discriminate|reflexivity].
  - reflexivity.
  - destruct (Hf 1 ltac:(lia) eq_refl) as (k' & c & ch & E & _ & [Hps Ht Hid Hfl Hrf _ Hc]).
    { intros [|i] Hi; [discriminate|lia]. }
    exists k', c, ch. assert (Hv1 : user_vma (KernDemo.page + 1)) by (apply KernDemo.user_page_vma; unfold PAGE_SIZE; lia).
    split; [exact E|split; [exact Hfl|split]].
    + rewrite Hrf; [reflexivity|]. apply list_elem_of_lookup. exists 0%nat. reflexivity.
    + rewrite (Hc _ Hv1). change (k_mm (KernDemo.k2 s)) with KernDemo.mem. change 1 with (Z.of_nat 1). rewrite (Hn 1%nat 105 eq_refl). reflexivity.
Defined.

Lemma user_reads_file_witness : exists k1 tfr1 k2 tfr2,
  umode_excp_handler MemDemo.img 1 KernDemo.k1 KernDemo.j0 KernDemo.ECALL (KernDemo.call SYSCALL_FSOPEN (u64 (-1)) KernDemo.page 0)
    = Ret (k1, tfr1, Some (Returns 0)) /\
  umode_excp_handler MemDemo.img 1 k1 KernDemo.j0 KernDemo.ECALL (KernDemo.call SYSCALL_READ 0 (KernDemo.page + 16) 8)
    = Ret (k2, tfr2, Some (Returns 5)) /\
  uview (k_mm k2) (KernDemo.page + 17) = Some (101, map_flags RWU).
Proof.
  destruct KernDemo.kmem_ok as (free & Hu & _ & _ & Hin & _).
  assert (Hw : forall a, KernDemo.page + 16 <= a < KernDemo.page + 16 + 8 -> exists b, uview KernDemo.mem a = Some (b, map_flags RWU))
    by (intros a Ha; apply Hin; unfold PAGE_SIZE; lia).
  destruct (user_reads_file iolit_ops 7 (HR := lit_read_disk 7) MemDemo.img 1 KernDemo.k1 KernDemo.j0 100 KernDemo.pr0 free KfsDemo.img KernDemo.page
    [104; 105] (cstr "hi") 0 0 0 (KernDemo.page + 16) 8 (KernDemo.call SYSCALL_FSOPEN (u64 (-1)) KernDemo.page 0) KernDemo.k1_runs Hu eq_refl
    KfsDemo.img_fine KfsDemo.inodes_fine (proj1 KernDemo.mounted_ready) KernDemo.mem_name) as (k1 & tfr1 & E1 & H2).
  - by repeat constructor.
  - vm_compute. reflexivity.
  - exact KernDemo.dir_hi.
  - exact KernDemo.free_file.
  - exact KernDemo.free_fd.
  - lia.
  - unfold KernDemo.page. mem_consts. lia.
  - unfold KernDemo.page. mem_consts. lia.
  - intros a Ha. destruct (Hw a Ha) as [b Hb]. exists b, (map_flags RWU). split; [exact Hb|reflexivity].
  - reflexivity.
  - vm_compute. reflexivity.
  - reflexivity.
  - destruct (H2 (KernDemo.call SYSCALL_READ 0 (KernDemo.page + 16) 8) eq_refl eq_refl eq_refl eq_refl) as (k2 & E2 & Hv).
    assert (Hd : take (Z.to_nat 8) (content KfsDemo.img 0) = [104; 101; 108; 108; 111]) by (vm_compute; reflexivity).
    rewrite Hd in E2, Hv. eexists k1, tfr1, k2, _. split; [exact E1|]. split; [exact E2|].
    assert (Hv1 : user_vma (KernDemo.page + 17)) by (apply KernDemo.user_page_vma; unfold PAGE_SIZE; lia).
    rewrite (Hv _ Hv1), decide_True by (cbn [length]; lia). change (k_mm KernDemo.k1) with KernDemo.mem.
    destruct (Hw (KernDemo.page + 17)) as [b Hb]; [lia|]. rewrite Hb. reflexivity.
Defined.

(** The registers of a program that reads a descriptor which is not open. *)
Definition reader_cpu : cpu HartDemo.hart :=
  {| gpr := fun r => match r with 17%nat => SYSCALL_READ | 10%nat => 3 | 11%nat => KernDemo.page | 12%nat => 8 | _ => 5 end;
     csrs := AsmDemo.regs; dmem := fun _ => 0 |}.
Lemma ecall_resumes_witness : exists s',
  user_trap MemDemo.img 1 AsmDemo.entry AsmDemo.entry 0 (fun k _ f => Ret (k, f, None)) KernDemo.k1 KernDemo.j0 reader_cpu
    = Ret (KernDemo.k1, s', Some (Returns (- EBADFD))) /\ rx s' 10 = u64 (- EBADFD) /\ rx s' 17 = SYSCALL_READ /\ csr_rd (csrs s') SEPC = 0xC0000104.
Proof.
  destruct (ecall_resumes MemDemo.img 1 AsmDemo.entry AsmDemo.entry 0 (fun k _ f => Ret (k, f, None))
    ltac:(vm_compute; repeat split; discriminate) ltac:(vm_compute; repeat split; discriminate) KernDemo.k1 KernDemo.j0 reader_cpu KernDemo.k1 (- EBADFD))
    as (s' & E & Ha & Hr & Hp & _).
  - reflexivity.
  - vm_compute. split; [discriminate|reflexivity].
  - reflexivity.
  - vm_compute. discriminate.
  - vm_compute. discriminate.
  - reflexivity.
  - vm_compute. reflexivity.
  - exact (with_fd_not_open KernDemo.k1 100 KernDemo.pr0 3 _ KernDemo.k1_runs (or_introl eq_refl)).
  - exists s'. split; [exact E|]. split; [exact Ha|]. split; [exact (Hr 17%nat ltac:(discriminate) ltac:(lia))|exact Hp].
Defined.

(** A kernel whose thread structures are apart, with an alarm that is due, and
    a program of the main thread. *)
Module PreemptDemo.
Definition T : Z := 0x80001000.
Definition st0 : outcome tsys := thread_init T 0x80002000 1000 0 2000 1000 2.
Definition st1 : tsys := Demo.get Demo.dummy (let! st := st0 in do_event id T st (EvSpawn 0x80003000 Demo.blank Demo.ce0 0x80100000 None)).
Definition st : tsys := condition_init (condition_init st1 (CondAt 100) None) (CondAt 200) None.
Definition k : kern (fsworld io_lit) := set_timer (set_thr KernDemo.k1 st KernDemo.mem) TimerDemo.tm.
#[global] Instance no_devices : Mmio (fsworld io_lit) := { mrd w _ := (w, 0); mwr w _ _ := w }.
Definition ist : intr_state (kern (fsworld io_lit)) :=
  {| sstatus := 0; Intr.sie := 0; Intr.sip := 0; intr_initialized := true; isrtab := [] |}.

Lemma threads_inv : exists ready waits, sched_inv T 0x80002000 st ready waits.
Proof.
  destruct (reachable_inv id T 0x80002000 st1) as (ready & waits & HI); [discriminate| |].
  - eapply (reach_step _ _ _ (Demo.get Demo.dummy st0) (EvSpawn 0x80003000 Demo.blank Demo.ce0 0x80100000 None)).
    + apply (reach_init _ _ _ 1000 0 2000 1000 2). vm_compute. reflexivity.
    + split_and!; vm_compute; reflexivity.
    + vm_compute. reflexivity.
  - exists ready, waits. apply condition_init_inv; [apply condition_init_inv; [exact HI|]|]; vm_compute; reflexivity.
Qed.

(** The handler has a stack frame of eight words. *)
Definition code : compiled (H0 := HartDemo.hart) :=
  {| down := fun s n => wx (wx s 2 (rx s 2 - 64)) 10 n; up := fun s => wx s 2 (rx s 2 + 64) |}.
Definition regs : csr -> Z :=
  fun r => match r with SSCRATCH => 0x80010000 | SCAUSE => 2 ^ 63 + 5 | SEPC => 0xC0000100 | _ => 0 end.
Definition program : cpu HartDemo.hart :=
  {| gpr := fun r => match r with 4%nat => T | _ => Z.of_nat r * 16 end; csrs := regs; dmem := fun _ => 0 |}.

Lemma code_abi B lo : follows_abi code k B lo.
Proof.
  split; try done. intros s n s' Hs Hr _. specialize (Hr 2%nat 13 ltac:(apply (bool_decide_unpack _); vm_compute; exact I)).
  cbn [code up wx gpr rx Nat.eqb down] in *. lia.
Qed.
Lemma three_threads y t : thrs (k_thr k) !! y = Some t -> y ∈ [T; 0x80002000; 0x80003000].
Proof.
  intros Hy. assert (Hall : forall y, y ∈ dom (thrs st) -> y ∈ [T; 0x80002000; 0x80003000]).
  { intros z Hz. apply elem_of_elements in Hz. revert z Hz. apply Forall_forall. apply (bool_decide_unpack _). vm_compute. exact I. }
  apply Hall, elem_of_dom. by exists t.
Qed.
Lemma k_layout : laid_out k 0x8000f000 0x80010000.
Proof.
  split.
  - intros y t Hy%three_threads. rewrite !elem_of_cons, elem_of_nil in Hy. unfold at_words, T in *.
    destruct Hy as [->|[->|[->|[]]]]; (split; [split_and!; [lia|reflexivity|lia]|lia]).
  - intros y z t u Hy%three_threads Hz%three_threads Hne. rewrite !elem_of_cons, elem_of_nil in Hy, Hz. unfold apart, T in *. lia.
Qed.
End PreemptDemo.

Lemma timer_preempts_witness : exists s1 k' s4 s5, umode_enter AsmDemo.entry 0 PreemptDemo.program = Ret (s1, ToIntr) /\
  kern_intr_handler PreemptDemo.ist (i32 (rx s1 10)) (frame_at (dmem s1) (rx s1 11)) PreemptDemo.k = Ret k' /\ curthr (k_thr k') <> PreemptDemo.T /\
  umode_leave AsmDemo.entry (up PreemptDemo.code s4) = Ret s5 /\ rx s5 15 = 240 /\ csr_rd (csrs s5) SEPC = 0xC0000100.
Proof.
  destruct PreemptDemo.threads_inv as (ready & waits & HI).
  destruct (timer_preempts PreemptDemo.T 0x80002000 AsmDemo.entry AsmDemo.entry 0 PreemptDemo.ist
    ltac:(vm_compute; repeat split; discriminate) ltac:(vm_compute; repeat split; discriminate)
    PreemptDemo.k [100; 200] ready waits PreemptDemo.program PreemptDemo.code 0x8000f000 HI) as (s1 & k' & x & s2 & E1 & Ek & Hp & E2 & T2 & _ & HR).
  - vm_compute. discriminate.
  - vm_compute. reflexivity.
  - exact TimerDemo.tm_ok.
  - intros a Ha. apply elem_of_cons in Ha as [->|Ha]; [vm_compute; eauto|]. apply list_elem_of_singleton in Ha as ->. vm_compute. eauto.
  - reflexivity.
  - reflexivity.
  - reflexivity.
  - vm_compute. split; [discriminate|reflexivity].
  - vm_compute. reflexivity.
  - reflexivity.
  - vm_compute. discriminate.
  - vm_compute. discriminate.
  - vm_compute. discriminate.
  - exact PreemptDemo.k_layout.
  - apply PreemptDemo.code_abi.
  - destruct (pe_space _ _ _ _ _ _ _ _ Hp) as (t & Ht & _). pose proof (pe_next _ _ _ _ _ _ _ _ Hp) as Hne.
    destruct (HR (wx s2 10 PreemptDemo.T) x t Ht) as (s4 & s5 & _ & E5 & Hs).
    + intros ->. apply Hne. vm_compute. reflexivity.
    + exact T2.
    + reflexivity.
    + reflexivity.
    + exists s1, k', s4, s5. split; [exact E1|]. split; [exact Ek|]. split; [rewrite (pe_cur _ _ _ _ _ _ _ _ Hp); intros ->; apply Hne; vm_compute; reflexivity|].
      split; [exact E5|]. split; [exact (sp_regs _ _ _ Hs 15%nat ltac:(lia))|exact (sp_pc _ _ _ Hs)].
Defined.
