(* ===== verification/Exec.v ===== *)
(** Running a program from the file system: exec through syscall.c, process.c,
    elf.c, kfs.c and memory.c, up to the jump to user mode. *)

From Stdlib Require Import Ascii String.
From S2P Require Import Prelude KString IoIntf IoLit Intr Device Console Thread Timer Heap Memory PageTable MemInit VmOps UserMem VmClone Kfs KfsFiles Mkfs Elf Process Syscall Descriptors FdInv SyscallProps FsWorld SyscallFs KernDemo.
From stdpp Require Import gmap list.
#[local] Open Scope Z_scope.

Section Exec.
Context {D : Type} (ops : io_ops D) (hi : Z) `{HR : !ReadDisk ops hi}.
Context (img : kimg) (main : Z).
#[local] Instance exec_world : IoWorld (fsworld D) := fs_world ops hi.
Notation kern := (kern (fsworld D)).
Implicit Types (k : kern) (tfr : trap_frame).

(** An operation table on the file system is a loadable file of the kernel
    when it is one of the file system. *)
#[local, program] Instance lift_file (o : io_ops (kfs D)) `{!IoFile o} : IoFile (lift_ops o) := {
  fl_at w data p := fl_at (fw_fs w) data p;
}.
Next Obligation.
  intros o HF w data p q Ha Hq. destruct (fl_seek (fw_fs w) data p q Ha Hq) as (s' & r & E & Hr & Ha'). exists (set_fs w s'), r.
  split; [|split; [done|exact Ha']]. unfold ioseek, ioctl in *. cbn [lift_ops op_ctl]. destruct (op_ctl o) as [ctl|]; cbn [option_map].
  - apply obind_Ret_inv in E as ([[s1 r1] a1] & E1 & E). rewrite E1. cbn [obind]. by injection E as -> ->.
  - injection E as <- <-. by destruct w.
Qed.
Next Obligation.
  intros o HF w data p n Ha Hn. cbv zeta. destruct (fl_read (fw_fs w) data p n Ha Hn) as (s' & read & Er & E & Ha').
  eexists (set_fs w s'), _. cbn [lift_ops op_read]. rewrite Er. cbn [option_map]. split; [done|]. cbv beta. rewrite E. cbn [obind]. done.
Qed.

(** The status register with which the program starts. *)
Lemma exec_status s : let ss := Z.ldiff s RISCV_SSTATUS_SIE in
  let t := Z.lor ss (Z.lor (Z.ldiff ss RISCV_SSTATUS_SPP) RISCV_SSTATUS_SPIE) in
  intr_disabled t = true /\ Z.testbit t 5 = true.
Proof.
  intros ss t. assert (H1 : Z.testbit t 1 = false).
  { unfold t, ss. rewrite !Z.lor_spec, !Z.ldiff_spec. cbn [Z.testbit RISCV_SSTATUS_SIE]. change (Z.testbit RISCV_SSTATUS_SIE 1) with true.
    change (Z.testbit RISCV_SSTATUS_SPIE 1) with false. by rewrite !andb_false_r. }
  split.
  - unfold intr_disabled. apply Z.eqb_eq, Z.bits_inj'. intros n Hn. rewrite Z.land_spec, Z.bits_0. destruct (Z.eq_dec n 1) as [->|Hne]; [by rewrite H1|].
    unfold RISCV_SSTATUS_SIE. rewrite Z.shiftl_spec, andb_comm by done. replace (Z.testbit 1 (n - 1)) with false; [done|].
    symmetry. destruct (Z.lt_ge_cases n 1); [apply Z.testbit_neg_r; lia|]. apply (Z.bits_above_log2 1); [lia|]. cbn. lia.
  - unfold t. rewrite !Z.lor_spec. change (Z.testbit RISCV_SSTATUS_SPIE 5) with true. by rewrite !orb_true_r.
Qed.

(** [process_exec] of a well-formed executable of the file system. *)
Lemma process_exec_loads k free dimg i f ino : user_ok (k_mm k) free ->
  (forall x, index_ok x -> has (pte_flags (entry (k_mm k) (active_space_root (k_mm k)) x)) PTE_U = false) ->
  file_ready ops hi (fw_fs (k_w k)) dimg i f ino ->
  let data := content dimg ino in
  elf_ok data -> (3 * total_pages (segments data) <= length free)%nat ->
  Forall (fun ph => forall a, in_segment ph a = true -> uview (k_mm k) a = None) (segments data) ->
  exists w' m', process_exec k (Z.of_nat i + 1) = Ret (
      set_mm (set_world (set_mm k m') w')
        (with_status m' (satp m') (Z.lor (Z.ldiff (mm_sstatus m') RISCV_SSTATUS_SIE)
          (Z.lor (Z.ldiff (Z.ldiff (mm_sstatus m') RISCV_SSTATUS_SIE) RISCV_SSTATUS_SPP) RISCV_SSTATUS_SPIE))),
      Jumps USER_STACK_VMA (e_entry (elf_header data))) /\
    forall a, user_vma a -> uview m' a = loaded data (segments data) (uview (k_mm k)) a.
Proof.
  intros Hu Hroot Hy data He Hl Hun. pose (HF := fs_file ops hi i dimg ino).
  assert (Hio' : file_no (Z.of_nat i + 1) = i) by (unfold file_no; lia).
  destruct (elf_load_spec (lift_ops (fs_io_ops ops hi i)) (k_w k) data (file_pos f) (k_mm k) 0) as (w' & m' & El & _ & Hv).
  { by exists f. } { done. } { exists free. rewrite Nat.add_0_r. auto. } { done. }
  exists w', m'. split; [|exact Hv]. unfold process_exec. change WALK_DEPTH with 3%nat.
  rewrite (unmap_nothing 2 (k_mm k) free (uo_active _ _ Hu) Hroot). cbn [obind w_ops exec_world fs_world]. rewrite Hio', El. done.
Qed.

(** C7: exec of a descriptor for a well-formed executable of the file system,
    whose segments are not mapped yet, with three free pages for each of their
    pages and no user page mapped at the root of the space, ends in the call of
    the user-mode entry at the entry point with the stack at the end of the user
    region: every segment holds the bytes of the file, zeros beyond them, and the
    permissions of its program header; every other user byte, those of the
    calling program too, is as it was, since the old pages are not unmapped;
    the descriptor is free again, and interrupts are disabled until the return
    with sret enables them.  The level of that return is the one SPP has, which
    exec does not set. *)
Theorem exec_runs_program k j p pr free dimg i f ino fd tfr :
  runs_process k p pr -> user_ok (k_mm k) free -> 0 <= fd < PROCESS_IOMAX ->
  (forall x, index_ok x -> has (pte_flags (entry (k_mm k) (active_space_root (k_mm k)) x)) PTE_U = false) ->
  iotab pr !! Z.to_nat fd = Some (Some (Z.of_nat i + 1)) -> file_ready ops hi (fw_fs (k_w k)) dimg i f ino ->
  let data := content dimg ino in
  elf_ok data -> (3 * total_pages (segments data) <= length free)%nat ->
  Forall (fun ph => forall a, in_segment ph a = true -> uview (k_mm k) a = None) (segments data) ->
  reg tfr TFR_A7 = SYSCALL_EXEC -> i32 (reg tfr TFR_A0) = fd ->
  exists k' tfr', umode_excp_handler img main k j RISCV_SCAUSE_ECALL_FROM_UMODE tfr
      = Ret (k', tfr', Some (Jumps USER_STACK_VMA (e_entry (elf_header data)))) /\
    (forall a, user_vma a -> uview (k_mm k') a = loaded data (segments data) (uview (k_mm k)) a) /\
    k_procs k' = <[p := with_iotab pr (<[Z.to_nat fd := None]> (iotab pr))]> (k_procs k) /\
    intr_disabled (mm_sstatus (k_mm k')) = true /\ Z.testbit (mm_sstatus (k_mm k')) 5 = true.
Proof.
  intros Hrun Hu Hfd Hroot Hio Hy data He Hl Hun A7 A0.
  set (k1 := put_proc k p (with_iotab pr (<[Z.to_nat fd := None]> (iotab pr)))).
  destruct (process_exec_loads k1 free dimg i f ino Hu Hroot Hy He Hl Hun) as (w' & m' & Ex & Hv). fold data in Ex, Hv.
  assert (E : sysexec k fd = process_exec k1 (Z.of_nat i + 1)).
  { unfold sysexec, with_fd. rewrite (run_process k p pr Hrun). cbn [obind]. replace ((fd <? 0) || (PROCESS_IOMAX <=? fd)) with false by lia.
    cbn [deref]. unfold get_proc. rewrite (run_get k p pr Hrun). cbn [obind]. rewrite (proj2 (load_Ret (iotab pr) fd _) (conj (proj1 Hfd) Hio)). cbn [obind].
    unfold clear_fd. rewrite store_lt by (apply lookup_lt_Some in Hio; lia). cbn [obind]. done. }
  rewrite Ex in E.
  eexists _, _. split.
  - unfold umode_excp_handler. cbn [Z.eqb RISCV_SCAUSE_ECALL_FROM_UMODE Pos.eqb]. unfold syscall_handler.
    change (reg (set_sepc tfr ?v) ?r) with (reg tfr r). rewrite A7. unfold syscall. cbn -[sysexec i32]. rewrite A0, E. done.
  - split; [exact Hv|]. split; [done|]. apply exec_status.
Qed.
End Exec.

(** The program of [ElfDemo], put on a disk by mkfs, mounted and open. *)
Module ExecDemo.
Definition args : list (list Z * list Z) := [(chars "user/bin/hi", ElfDemo.data)].
Definition junk : list (list Z) := [replicate BLK 9].

Lemma program_ok : files_ok args.
Proof.
  constructor.
  - apply Forall_cons. split; [split; [apply bytes_ok_forallb|]; vm_compute; reflexivity|constructor].
  - apply Forall_cons. split; [split; [apply bytes_ok_forallb|]; vm_compute; reflexivity|constructor].
  - repeat constructor; vm_compute; discriminate.
  - vm_compute. discriminate.
  - apply (bool_decide_unpack _). vm_compute. exact I.
  - vm_compute. reflexivity.
Qed.
Lemma inodes_junk : Forall block_ok junk.
Proof. apply Forall_cons. split; [|constructor]. split; [apply length_replicate|]. apply Forall_replicate. lia. Qed.

Definition disk (img : list Z) : io_lit :=
  iolit_init {| lit_ops := false; lit_buf := None; lit_size := 0; lit_pos := 0 |} img (Z.of_nat (length img)).

Lemma program_open : exists img s, img_ok img /\ content img 0 = ElfDemo.data /\
  file_ready iolit_ops 7 s img 0 (KfsFiles.opened img 0) 0.
Proof.
  destruct (mkfs_spec junk args program_ok eq_refl inodes_junk) as (img & _ & Hok & Hino & HR).
  destruct (HR 0%nat (chars "user/bin/hi") ElfDemo.data (cstr "hi") eq_refl) as [Hdir Hc]; [vm_compute; reflexivity|]. change (Z.of_nat 0) with 0 in Hdir, Hc.
  assert (Hwf : dk_wf (ReadDisk := lit_read_disk 7) (disk img)).
  { assert (Hs := im_size _ Hok). split; [|split; [reflexivity|exact (proj2 Hs)]]. unfold lit_wf, disk, iolit_init. cbn [lit_buf lit_pos lit_size]. lia. }
  destruct (fs_mount_spec iolit_ops 7 (HR := lit_read_disk 7) KfsDemo.s0 (disk img) KfsDemo.s0_ok Hwf Hok) as (s1 & _ & Hr1 & Hf1).
  change (dk_data (disk img)) with img in Hr1.
  destruct (fs_open_spec iolit_ops 7 s1 img (cstr "hi") (cstr "hi") Hok Hino Hr1 KfsDemo.name_bytes) as (s2 & _ & Hr2 & Hf2); [vm_compute; reflexivity|].
  unfold open_result in Hf2. rewrite Hdir, Hf1 in Hf2. change (find_unused (replicate (Z.to_nat MAX_OPEN_FILES) released) 0) with (Some 0%nat) in Hf2.
  cbn [snd] in Hf2. exists img, s2. split; [exact Hok|]. split; [exact Hc|]. split; [exact Hok|exact Hr2|].
  split; [rewrite Hf2; reflexivity|reflexivity| |reflexivity|cbn [file_pos KfsFiles.opened]; lia].
  apply (dir_lookup_range img (cstr "hi") (cstr "hi") 0 Hok Hino KfsDemo.name_bytes); [vm_compute; reflexivity|exact Hdir].
Qed.

(** A process without user memory that has the program at descriptor 0. *)
Definition k (s : kfs io_lit) : kern (fsworld io_lit) :=
  {| k_thr := KernDemo.thr1; k_mm := VmDemo.st; k_heap := KernDemo.hp; k_tm := KernDemo.tm; k_con := KernDemo.con;
     k_procs := <[100 := KernDemo.pr2]> ∅; k_proctab := Some 100 :: replicate 15 None; k_devtab := [];
     k_w := {| fw_fs := s; fw_refs := {[1 := 1]} |}; procmgr_initialized := true |}.

Lemma k_runs s : runs_process (k s) 100 KernDemo.pr2.
Proof.
  destruct KernDemo.k1_runs as [Hc _]. unfold current in Hc. apply obind_Ret_inv in Hc as (q & Hq & Hc). split; [|reflexivity].
  unfold current. change (current_process (k s)) with (current_process KernDemo.k1). rewrite Hq. cbn [obind]. destruct q as [q|]; [|discriminate Hc].
  apply obind_Ret_inv in Hc as (x & _ & Hc). injection Hc as -> _. unfold get_proc. cbn [k_procs k]. rewrite lookup_insert_eq. reflexivity.
Qed.

Lemma root_plain x : index_ok x -> has (pte_flags (entry VmDemo.st (active_space_root VmDemo.st) x)) PTE_U = false.
Proof.
  assert (Hc : forallb (fun i => negb (has (pte_flags (entry VmDemo.st (active_space_root VmDemo.st) i)) PTE_U)) (seqZ 0 512) = true)
    by (vm_compute; reflexivity).
  intros Hx. rewrite forallb_forall in Hc. apply negb_true_iff, Hc, list_elem_of_In, elem_of_seqZ. unfold index_ok in Hx. lia.
Qed.
End ExecDemo.

Lemma exec_runs_program_witness : exists s k' tfr,
  umode_excp_handler MemDemo.img 1 (ExecDemo.k s) KernDemo.j0 KernDemo.ECALL (KernDemo.call SYSCALL_EXEC 0 0 0)
    = Ret (k', tfr, Some (Jumps USER_STACK_VMA 0xC0000004)) /\
  uview (k_mm k') 0xC0000001 = Some (22, map_flags (Z.lor (Z.lor PTE_U PTE_X) PTE_R)).
Proof.
  destruct ExecDemo.program_open as (dimg & s & Hok & Hc & Hy). exists s.
  destruct (exec_runs_program iolit_ops 7 (HR := lit_read_disk 7) MemDemo.img 1 (ExecDemo.k s) KernDemo.j0 100 KernDemo.pr2 VmDemo.free dimg 0
    (KfsFiles.opened dimg 0) 0 0 (KernDemo.call SYSCALL_EXEC 0 0 0) (ExecDemo.k_runs s) CloneDemo.st0_user) as (k' & tfr & E & Hv & _).
  - unfold PROCESS_IOMAX. lia.
  - exact ExecDemo.root_plain.
  - reflexivity.
  - exact Hy.
  - rewrite Hc. exact ElfDemo.data_ok.
  - rewrite Hc, ElfDemo.pages, VmDemo.free_len. lia.
  - rewrite Hc. apply Forall_forall. intros ph Hph a Ha. apply ElfDemo.mem_empty. eapply in_segment_user; [|exact Ha].
    assert (HF := eo_segments _ ElfDemo.data_ok). rewrite Forall_forall in HF. exact (HF ph Hph).
  - reflexivity.
  - reflexivity.
  - rewrite Hc in E, Hv. exists k', tfr. split; [exact E|]. assert (U1 : user_vma 0xC0000001) by (unfold user_vma; mem_consts; lia).
    refine (eq_trans (Hv _ U1) _). vm_compute. reflexivity.
Defined.
