(* ===== verification/Boot.v ===== *)
(** The start of the kernel (src/src/kern/main.c) and how it stops (halt.c).

    [world] holds the I/O objects of the whole machine: the files of the
    mounted file system, the serial ports and the block devices, with the
    interrupt controller and the table of service routines.  The devices are
    kept by the address of their structure, which the heap has given them; a
    block device that is mounted is kept by the file system.  [main] runs the
    initialisation functions of the components in the order of the source, on
    one state.

    The registers [sstatus] and [sie] have a copy in the components that use
    them; [main] passes them on.  Every block device has its own copy of
    [vio_lock]: the kernel has one lock, and one block device uses it.
    [hi] is what the stack holds above the 32-bit positions that kfs.c passes to
    the block driver. *)

From Stdlib Require Import Ascii String.
From S2P Require Import Prelude KString IoIntf Plic Intr Device Uart Console Thread Timer Heap Memory PageTable MemInit VmOps UserMem BootMem Kfs KfsFiles Virtio Vioblk VioblkFs Elf Process Syscall Descriptors FsWorld.
From stdpp Require Import gmap list.
#[local] Open Scope Z_scope.

(** * The I/O objects of the machine *)

Record world (P HW : Type) := {
  bw_fs : fsworld (vio HW);
  bw_bus : P;                              (* behind the interrupt controller *)
  bw_intr : intr_state P;
  bw_uarts : gmap Z (uart_device * sched);
  bw_blks : gmap Z (vio HW);               (* the ones that are not mounted *)
  bw_disk : option Z;                      (* the one that is *)
}.
Arguments bw_fs {P HW} _.
Arguments bw_bus {P HW} _.
Arguments bw_intr {P HW} _.
Arguments bw_uarts {P HW} _.
Arguments bw_blks {P HW} _.
Arguments bw_disk {P HW} _.

(** Where the [io_intf] of a device is. *)
Definition UART_IO : Z := 16.
Definition VIOBLK_IO : Z := 8.

(** Operations on a part of a state as operations on the state. *)
Section Part.
Context {S T : Type} (get : S -> outcome T) (put : S -> T -> S).
Definition part_ops (o : io_ops T) : io_ops S := {|
  op_close := option_map (fun close w => let! t := get w in let! t := close t in Ret (put w t)) (op_close o);
  op_read := option_map (fun read w n => let! t := get w in let! (t, r, bs) := read t n in Ret (put w t, r, bs)) (op_read o);
  op_write := option_map (fun write w bs => let! t := get w in let! (t, r) := write t bs in Ret (put w t, r)) (op_write o);
  op_ctl := option_map (fun ctl w c a => let! t := get w in let! (t, r, a) := ctl t c a in Ret (put w t, r, a)) (op_ctl o);
|}.
End Part.

(** The operation table of [uart_attach]; there is no control operation. *)
Definition uart_ops {P} `{Mmio P} : io_ops (uart_device * sched * P) := {|
  op_close := Some (fun '(d, s, p) => let (d, p) := uart_close d p in Ret (d, s, p));
  op_read := Some (fun '(d, s, p) n => let! (d, s, r, bs) := uart_read d s n in Ret (d, s, p, r, bs));
  op_write := Some (fun '(d, s, p) bs => let! (d, s, r) := uart_write d s bs in Ret (d, s, p, r));
  op_ctl := None;
|}.

Definition set_uart_refcnt (d : uart_device) (n : Z) : uart_device :=
  {| ier := ier d; lcr := lcr d; dll := dll d; dlm := dlm d; rbr_log := rbr_log d; thr_log := thr_log d;
     ud_irqno := ud_irqno d; rxovrcnt := rxovrcnt d; refcnt := n; rx_waiting := rx_waiting d;
     tx_waiting := tx_waiting d; rxbuf := rxbuf d; txbuf := txbuf d |}.

Section Objects.
Context {P HW : Type} `{Mmio P} `{VirtioMmio HW} `{!VirtioDma HW}.
(** What the block device and its interrupt do around the requests, the four
    bytes above the position the file system passes (kfs.c:772, a [uint32_t]
    that [vioblk_setpos] reads as a [uint64_t]), and what the register RBR of a
    port holds when it is opened. *)
Context (script : nat -> Vioblk.window) (hi : Z) (rbr : Z -> Z).
Notation world := (world P HW).
Implicit Types w : world.

Definition put_fs w (s : kfs (vio HW)) : world :=
  {| bw_fs := set_fs (bw_fs w) s; bw_bus := bw_bus w; bw_intr := bw_intr w; bw_uarts := bw_uarts w; bw_blks := bw_blks w; bw_disk := bw_disk w |}.
Definition put_refs w (r : gmap Z Z) : world :=
  {| bw_fs := {| fw_fs := fw_fs (bw_fs w); fw_refs := r |}; bw_bus := bw_bus w; bw_intr := bw_intr w; bw_uarts := bw_uarts w;
     bw_blks := bw_blks w; bw_disk := bw_disk w |}.
Definition put_bus w (p : P) : world :=
  {| bw_fs := bw_fs w; bw_bus := p; bw_intr := bw_intr w; bw_uarts := bw_uarts w; bw_blks := bw_blks w; bw_disk := bw_disk w |}.
Definition put_intr w (st : intr_state P) : world :=
  {| bw_fs := bw_fs w; bw_bus := bw_bus w; bw_intr := st; bw_uarts := bw_uarts w; bw_blks := bw_blks w; bw_disk := bw_disk w |}.
Definition put_uarts w (u : gmap Z (uart_device * sched)) : world :=
  {| bw_fs := bw_fs w; bw_bus := bw_bus w; bw_intr := bw_intr w; bw_uarts := u; bw_blks := bw_blks w; bw_disk := bw_disk w |}.
Definition put_blks w (b : gmap Z (vio HW)) (d : option Z) : world :=
  {| bw_fs := bw_fs w; bw_bus := bw_bus w; bw_intr := bw_intr w; bw_uarts := bw_uarts w; bw_blks := b; bw_disk := d |}.

(** The block device at [base], mounted or not. *)
Definition blk_at w (base : Z) : option (vio HW) :=
  if bool_decide (bw_disk w = Some base) then disk_io (fw_fs (bw_fs w)) else bw_blks w !! base.
Definition put_blk w (base : Z) (s : vio HW) : world :=
  if bool_decide (bw_disk w = Some base) then put_fs w (set_disk (fw_fs (bw_fs w)) s)
  else put_blks w (<[base := s]> (bw_blks w)) (bw_disk w).

Definition get_uart (dev : Z) w : outcome (uart_device * sched * P) :=
  match bw_uarts w !! dev with Some (d, s) => Ret (d, s, bw_bus w) | None => Fault end.
Definition put_uart (dev : Z) w (t : uart_device * sched * P) : world :=
  let '(d, s, p) := t in put_bus (put_uarts w (<[dev := (d, s)]> (bw_uarts w))) p.
Definition get_blk (base : Z) w : outcome (vio HW) :=
  match blk_at w base with Some s => Ret s | None => Fault end.

(** An object is designated by the address of its [io_intf]; the files of the
    file system by their number, from 1. *)
Inductive object := OFile (i : nat) | OUart (dev : Z) | OBlk (base : Z).
Definition object_at w (io : Z) : object :=
  if (1 <=? io) && (io <=? MAX_OPEN_FILES) then OFile (file_no io)
  else match bw_uarts w !! (io - UART_IO) with
       | Some _ => OUart (io - UART_IO)
       | None => OBlk (io - VIOBLK_IO)
       end.

(** The operation table of the disk the file system is on. *)
Definition disk_ops w : io_ops (vio HW) := virtio_ops (default 0 (bw_disk w)) script.

Definition object_ops w (io : Z) : io_ops world :=
  match object_at w io with
  | OFile i => part_ops (fun w => Ret (fw_fs (bw_fs w))) put_fs (fs_io_ops (disk_ops w) hi i)
  | OUart dev => part_ops (get_uart dev) (put_uart dev) uart_ops
  | OBlk base => part_ops (get_blk base) (fun w s => put_blk w base s) (virtio_ops base script)
  end.

#[export] Instance boot_world : IoWorld world := {
  w_ops := object_ops;
  w_refcnt w io :=
    match object_at w io with
    | OUart dev => match bw_uarts w !! dev with Some (d, _) => refcnt d | None => 0 end
    | _ => default 0 (fw_refs (bw_fs w) !! io)
    end;
  w_set_refcnt w io n :=
    match object_at w io with
    | OUart dev => match bw_uarts w !! dev with
                   | Some (d, s) => put_uarts w (<[dev := (set_uart_refcnt d n, s)]> (bw_uarts w))
                   | None => w
                   end
    | _ => put_refs w (<[io := n]> (fw_refs (bw_fs w)))
    end;
  w_fs_open w name :=
    let! (s, r, f) := fs_open (disk_ops w) hi (fw_fs (bw_fs w)) name false in Ret (put_fs w s, r, file_ptr f);
  w_fs_close w io := let! s := fs_close (fw_fs (bw_fs w)) (Some (file_no io)) in Ret (put_fs w s);
}.

(** ** The open functions in the device table *)

Definition ebusy_opener : opener world := fun w => Ret (w, uart_open_ebusy, 0).
Definition uart_opener (dev : Z) : opener world := fun w =>
  let! (d, s, p) := get_uart dev w in
  let! (d, p, r) := uart_open (bw_intr w) d (rbr dev) p in
  Ret (put_uart dev w (d, s, p), r, if r =? 0 then dev + UART_IO else 0).
Definition blk_opener (base : Z) : opener world := fun w =>
  let! s := get_blk base w in
  let! (s, p, r) := vioblk_open (bw_intr w) s (bw_bus w) in
  Ret (put_bus (put_blk w base s) p, r, base + VIOBLK_IO).
End Objects.

(** * Halting

    The test device of the machine: the address and the value stored there
    stop it. *)
Definition TEST_DEVICE : Z := 0x100000.
Definition halt_success : Z * Z := (TEST_DEVICE, 0x5555).
Definition halt_failure : Z * Z := (TEST_DEVICE, 0x3333).

(** * The main program *)

Definition UART1_IOBASE : Z := 0x10000100.
Definition UART0_IRQNO : Z := 10.
Definition VIRT0_IRQNO : Z := 1.
Definition INIT_PROC : list Z := cstr "init7".

(** The machine when [main] is entered: the static data of the components,
    the memory, the slots of the VirtIO bus (at VIRT0_IOBASE and every 0x1000
    bytes from there) and what is behind the interrupt controller. *)
Record machine (P HW : Type) := {
  mc_con : console;
  mc_mm : mm;
  mc_intr : intr_state P;
  mc_bus : P;
  mc_tm : timer;
  mc_fs : kfs (vio HW);
  mc_slots : list HW;
}.
Arguments mc_con {P HW} _.
Arguments mc_mm {P HW} _.
Arguments mc_intr {P HW} _.
Arguments mc_bus {P HW} _.
Arguments mc_tm {P HW} _.
Arguments mc_fs {P HW} _.
Arguments mc_slots {P HW} _.

Section Main.
Context {P HW : Type} `{Mmio P} `{VirtioMmio HW} `{!VirtioDma HW}.
Context (script : nat -> Vioblk.window) (hi : Z) (rbr : Z -> Z).
(** The image, the addresses of the static structures, and the symbols of
    thrasm.s. *)
Context (img : kimg) (main_thread idle_thread main_proc : Z) (main_anchor main_lowest idle_anchor idle_lowest : Z).
(** [uart_isr] and [vioblk_isr] with a device as their argument; the interrupts
    that will arrive from a port; the uninitialised feature set. *)
Context (uart_isr_of vioblk_isr_of : Z -> Z -> P -> outcome P) (line : Z -> sched) (enabled : list Z).
Notation world := (world P HW).
Notation kern := (kern world).
Implicit Types k : kern.
#[local] Instance main_world : IoWorld world := boot_world script hi.

Definition panic k (msg : list Z) : outcome (kern * ending) :=
  let! c := console_puts (k_con k) msg in Ret (set_con k c, Panics).

(** The heap, the memory, the devices and the objects after an attachment. *)
Definition set_devices k (a : heap * mm) (tab : list (device (opener world))) (w : world) : kern :=
  {| k_thr := k_thr k; k_mm := a.2; k_heap := a.1; k_tm := k_tm k; k_con := k_con k; k_procs := k_procs k;
     k_proctab := k_proctab k; k_devtab := tab; k_w := w; procmgr_initialized := procmgr_initialized k |}.

Definition attach_uart (i : Z) k : outcome kern :=
  let mmio_base := UART0_IOBASE + (UART1_IOBASE - UART0_IOBASE) * i in
  let w := k_w k in
  let! (a, st, tab, d) := uart_attach kcalloc_block uart_isr_of ebusy_opener (uart_opener rbr) (bw_intr w) (k_devtab k)
    (k_heap k, k_mm k) mmio_base (UART0_IRQNO + i) in
  let w := put_intr w st in
  let w := match d with Some (dev, u) => put_uarts w (<[dev := (u, line dev)]> (bw_uarts w)) | None => w end in
  Ret (set_devices k a tab w).

(** [vioblk_attach] on the state of the kernel; the device takes the slot
    with it. *)
Definition attach_blk (irqno : Z) (hw : HW) k : outcome (HW * kern) :=
  let w := k_w k in
  let! (hw, st, tab, a, d) := vioblk_attach kmalloc_bytes vioblk_isr_of blk_opener enabled irqno hw (bw_intr w) (k_devtab k)
    (k_heap k, k_mm k) in
  let w := put_intr w st in
  let w := match d with
           | Some (base, dev, lock) =>
               put_blks w (<[base := {| v_hw := hw; v_dev := dev; vio_lock := lock; v_sstatus := mm_sstatus (k_mm k); v_waits := 0 |}]> (bw_blks w)) (bw_disk w)
           | None => w
           end in
  Ret (hw, set_devices k a tab w).

Fixpoint attach_uarts (n : nat) (i : Z) k : outcome kern :=
  match n with
  | O => Ret k
  | S n => let! k := attach_uart i k in attach_uarts n (i + 1) k
  end.

(** The slots from number [i] on. *)
Fixpoint attach_virtios (slots : list HW) (i : Z) k : outcome kern :=
  match slots with
  | [] => Ret k
  | hw :: r => let! (_, k) := virtio_attach (attach_blk (VIRT0_IRQNO + i)) hw k in attach_virtios r (i + 1) k
  end.

(** [fs_mount(blkio)], for the block device at [base]: the file system keeps
    the device. *)
Definition mount_blk k (base : Z) : outcome (kern * Z) :=
  let w := k_w k in
  let! d := get_blk base w in
  let d := put_sstatus d (mm_sstatus (k_mm k)) in
  let! (s, r) := fs_mount (virtio_ops base script) (fw_fs (bw_fs w)) (Some d) in
  Ret (set_world k (put_blks (put_fs w s) (delete base (bw_blks w)) (Some base)), r).

(** From [console_init] to [timer_init]. *)
Definition init_kernel (mc : machine P HW) : outcome kern :=
  let con := console_init (mc_con mc) in
  let! (m, h) := memory_init img (mc_mm mc) in
  let st := mc_intr mc in
  let (st, bus) := intr_init {| sstatus := mm_sstatus m; sie := sie st; sip := sip st;
                                intr_initialized := intr_initialized st; isrtab := isrtab st |} (mc_bus mc) in
  let m := with_status m (satp m) (sstatus st) in
  let! t := thread_init main_thread idle_thread main_anchor main_lowest idle_anchor idle_lowest (mm_sstatus m) in
  let w := {| bw_fs := {| fw_fs := mc_fs mc; fw_refs := ∅ |}; bw_bus := bus; bw_intr := st; bw_uarts := ∅; bw_blks := ∅; bw_disk := None |} in
  let! k := procmgr_init main_proc
    {| k_thr := t; k_mm := m; k_heap := h; k_tm := mc_tm mc; k_con := con; k_procs := ∅;
       k_proctab := Some main_proc :: replicate 15 None; k_devtab := devtab0; k_w := w; procmgr_initialized := false |} in
  let tm := k_tm k in
  let tm := timer_init {| mtime := mtime tm; mtcmp := mtcmp tm; next_tick := next_tick tm; sleep_list := sleep_list tm;
                          alarms := alarms tm; tm_sie := sie st; mmode_intr := mmode_intr tm; timer_initialized := timer_initialized tm |} in
  let st := {| sstatus := sstatus st; sie := tm_sie tm; sip := sip st; intr_initialized := intr_initialized st; isrtab := isrtab st |} in
  Ret (set_world (set_timer k tm) (put_intr w st)).

(** From the opening of the block device on. *)
Definition run_init k : outcome (kern * ending) :=
  let! (w, result, blkio) := device_open (fun f : opener world => f (k_w k)) (fun e => (k_w k, e, 0)) (k_devtab k) (Some (cstr "blk")) 0 in
  let k := set_world k w in
  if negb (result =? 0) then panic k (cstr "device_open failed")
  else
    let! (k, result) := mount_blk k (blkio - VIOBLK_IO) in
    if negb (result =? 0) then panic k (cstr "fs_mount failed")
    else
      let! (w, result, initio) := w_fs_open (k_w k) (Some INIT_PROC) in
      let k := set_world k w in
      if result <? 0 then panic k (cstr "init7: process image not found")
      else
        let! (k, e) := process_exec k initio in
        match e with
        | Jumps _ _ => Ret (k, e)
        | _ => panic k (cstr "init7: process_exec failed")
        end.

Definition main (mc : machine P HW) : outcome (kern * ending) :=
  let! k := init_kernel mc in
  let! k := attach_uarts 3 0 k in
  let! k := attach_virtios (mc_slots mc) 0 k in
  let (ss, _) := intr_enable (mm_sstatus (k_mm k)) in
  let k := set_mm k (with_status (k_mm k) (satp (k_mm k)) ss) in
  run_init k.
End Main.
