(* ===== verification/BootProps.v ===== *)
(** What [main] does: the devices are attached, the file system is mounted and
    the program init7 runs, through all components. *)

From Stdlib Require Import Ascii String.
From S2P Require Import Prelude KString IoIntf IoTerm Plic Intr Device Uart Console Thread Timer Heap Memory PageTable MemInit VmOps UserMem VmClone BootMem Kfs KfsFiles Virtio Vioblk VioblkFs Elf Process Syscall Descriptors FsWorld Exec Mkfs Boot.
From stdpp Require Import gmap list.
#[local] Open Scope Z_scope.

(** A part of a state that is a file makes the state one. *)
Section PartFile.
Context {S T : Type} (get : S -> T) (put : S -> T -> S) (Hget : forall s t, get (put s t) = t) (o : io_ops T) `{!IoFile o}.

#[program] Definition part_file : IoFile (part_ops (fun s => Ret (get s)) put o) := {|
  fl_at s data p := fl_at (get s) data p;
|}.
Next Obligation.
  intros s data p q Ha Hq. cbv beta in *. destruct (fl_seek (get s) data p q Ha Hq) as (t' & r & E & Hr & Ha').
  unfold ioseek, ioctl in *. cbn [part_ops op_ctl]. destruct (op_ctl o) as [ctl|]; cbn [option_map obind].
  - apply obind_Ret_inv in E as ([[t1 r1] a1] & E1 & E). rewrite E1. cbn [obind]. injection E as -> ->. eexists _, _. split; [done|].
    split; [done|]. by rewrite Hget.
  - injection E as <- <-. eexists _, _. split; [done|]. done.
Qed.
Next Obligation.
  intros s data p n Ha Hn. cbv zeta beta in *. destruct (fl_read (get s) data p n Ha Hn) as (t' & read & Er & E & Ha').
  eexists (put s t'), _. cbn [part_ops op_read]. rewrite Er. cbn [option_map obind]. split; [done|]. cbv beta. rewrite E. cbn [obind].
  split; [done|]. by rewrite Hget.
Qed.
End PartFile.

Section Boot.
Context {P HW : Type} `{Mmio P} `{VirtioBlk HW}.
Context (script : nat -> Vioblk.window) (hi : Z) (rbr : Z -> Z).
Context (img : kimg) (Himg : kimg_ok img) (main_thread idle_thread main_proc : Z) (ma ml ia il : Z).
Context (uart_isr_of vioblk_isr_of : Z -> Z -> P -> outcome P) (line : Z -> sched) (enabled : list Z).
Notation world := (world P HW).
Notation kern := (kern world).
Implicit Types k : kern.

(** * Attaching devices *)

(** The kernel while devices are attached: [regs] are registered. *)
Record attaching k (free : list Z) (regs : list (list Z * opener world)) : Prop := {
  ag_mem : boot_mem img (k_heap k, k_mm k) free;
  ag_tab : k_devtab k = table_of regs;
  ag_names : names_ok regs;
  ag_intr : intr_wf (bw_intr (k_w k));
}.

(** What attaching a device leaves alone. *)
Record same_kernel k k' : Prop := {
  sk_thr : k_thr k' = k_thr k;
  sk_con : k_con k' = k_con k;
  sk_procs : k_procs k' = k_procs k;
  sk_fs : bw_fs (k_w k') = bw_fs (k_w k);
  sk_disk : bw_disk (k_w k') = bw_disk (k_w k);
  sk_sstatus : mm_sstatus (k_mm k') = mm_sstatus (k_mm k);
}.
Lemma same_kernel_trans k1 k2 k3 : same_kernel k1 k2 -> same_kernel k2 k3 -> same_kernel k1 k3.
Proof. intros [] []. split; congruence. Qed.

Definition ser (f : opener world) : list Z * opener world := (cstr "ser", f).
Definition blk (f : opener world) : list Z * opener world := (cstr "blk", f).
Lemma names_snoc (regs : list (list Z * opener world)) r t : names_ok regs -> ctext r.1 = Some t -> names_ok (regs ++ [r]).
Proof. intros. apply Forall_app. split; [done|]. constructor; [by eexists|constructor]. Qed.

Notation attach_uart := (attach_uart rbr uart_isr_of line).
Notation attach_uarts := (attach_uarts rbr uart_isr_of line).

Lemma attach_uart0 k free regs : attaching k free regs -> Z.of_nat (length regs) < NDEV ->
  exists k', attach_uart 0 k = Ret k' /\ attaching k' free (regs ++ [ser ebusy_opener]) /\ same_kernel k k' /\ bw_blks (k_w k') = bw_blks (k_w k).
Proof.
  intros [Hm Ht Hn Hi] Hl. unfold Boot.attach_uart, uart_attach. change (UART0_IOBASE + (UART1_IOBASE - UART0_IOBASE) * 0 =? UART0_IOBASE) with true.
  cbv iota. rewrite Ht. pose proof (device_register_spec regs (ser ebusy_opener) (chars "ser") Hn ltac:(reflexivity) Hl) as E.
  cbn [ser fst snd] in E. rewrite E. cbn [obind]. eexists. split; [reflexivity|]. split; [|split; done].
  split; try done. by apply (names_snoc _ _ (chars "ser")).
Qed.

Lemma attach_uart_port k free regs i : attaching k free regs -> Z.of_nat (length regs) < NDEV -> 0 < i < 3 -> free <> [] ->
  exists k' free' dev, attach_uart i k = Ret k' /\ attaching k' free' (regs ++ [ser (uart_opener rbr dev)]) /\
    (length free <= S (length free'))%nat /\ same_kernel k k' /\ bw_blks (k_w k') = bw_blks (k_w k) /\
    bw_uarts (k_w k') = <[dev := (uart_attach_device (UART0_IRQNO + i), line dev)]> (bw_uarts (k_w k)).
Proof.
  intros [Hm Ht Hn Hi] Hl Hr Hne. unfold Boot.attach_uart, uart_attach.
  replace (UART0_IOBASE + (UART1_IOBASE - UART0_IOBASE) * i =? UART0_IOBASE) with false by (symmetry; unfold UART0_IOBASE, UART1_IOBASE; lia).
  cbv iota. destruct (kcalloc_block_boot img Himg _ free SIZEOF_uart_device Hm) as (a & dev & free' & E1 & Hm' & Hl' & _ & Hss); [done|done|].
  rewrite E1. cbn [obind].
  destruct (intr_register_isr_spec (bw_intr (k_w k)) (UART0_IRQNO + i) UART_IRQ_PRIO (uart_isr_of dev) Hi) as (st' & -> & Hwf & _);
    [unfold UART0_IRQNO, NIRQ; lia|]. cbn [obind]. rewrite Ht.
  pose proof (device_register_spec regs (ser (uart_opener rbr dev)) (chars "ser") Hn ltac:(reflexivity) Hl) as E.
  cbn [ser fst snd] in E. rewrite E. cbn [obind]. eexists _, free', dev. split; [reflexivity|]. split; [|by split_and!].
  split; try done; [by destruct a|]. by apply (names_snoc _ _ (chars "ser")).
Qed.

Lemma attach_uarts_spec k free : attaching k free [] -> (2 <= length free)%nat ->
  exists k' free' d1 d2, attach_uarts 3 0 k = Ret k' /\
    attaching k' free' [ser ebusy_opener; ser (uart_opener rbr d1); ser (uart_opener rbr d2)] /\
    (length free <= 2 + length free')%nat /\ same_kernel k k' /\ bw_blks (k_w k') = bw_blks (k_w k).
Proof.
  intros Ha Hf. cbn [Boot.attach_uarts].
  destruct (attach_uart0 k free [] Ha ltac:(done)) as (k1 & -> & Ha1 & Hs1 & Hb1). cbn [obind app] in *.
  destruct (attach_uart_port k1 free _ 1 Ha1 ltac:(done) ltac:(lia)) as (k2 & f2 & d1 & E2 & Ha2 & Hl2 & Hs2 & Hb2 & _);
    [by destruct free; cbn in Hf; [lia|]|].
  change (0 + 1) with 1. rewrite E2. cbn [obind app] in *.
  destruct (attach_uart_port k2 f2 _ 2 Ha2 ltac:(done) ltac:(lia)) as (k3 & f3 & d2 & E3 & Ha3 & Hl3 & Hs3 & Hb3 & _);
    [by destruct f2; cbn in Hl2; [lia|]|].
  change (1 + 1) with 2. rewrite E3. cbn [obind app] in *. exists k3, f3, d1, d2. split_and!; [done|done|lia| |congruence].
  by eapply same_kernel_trans; [|eapply same_kernel_trans].
Qed.

(** ** The slots of the VirtIO bus *)

(** A slot without a device the kernel has a driver for: [virtio_attach]
    leaves it alone. *)
Definition no_driver (hw : HW) : Prop :=
  let f := regs_of hw in
  rf_magic f <> VIRTIO_MAGIC \/ rf_version f <> 2 \/ (rf_id f <> VIRTIO_ID_BLOCK /\ rf_id f <> VIRTIO_ID_CONSOLE).

(** A block device of 512-byte blocks that offers what the driver needs. *)
Record block_slot (hw : HW) : Prop := {
  bs_magic : rf_magic (regs_of hw) = VIRTIO_MAGIC;
  bs_version : rf_version (regs_of hw) = 2;
  bs_id : rf_id (regs_of hw) = VIRTIO_ID_BLOCK;
  bs_blksz : block_size (regs_of hw) = 512;
  bs_accepted : length (rf_accepted (regs_of hw)) = 4%nat;
  bs_features : features_in (rf_offered (regs_of hw)) 0 needed_words = true;
}.

Notation attach_blk := (attach_blk vioblk_isr_of enabled).
Notation attach_virtios := (attach_virtios vioblk_isr_of enabled).

(** The reset and the first status bit before the driver is called. *)
Lemma greeted_regs hw : regs_of (vwr (vwr hw status 0) status VIRTIO_STAT_ACKNOWLEDGE) = rf_set_status (rf_reset (regs_of hw)) 1.
Proof. by rewrite !vwr_spec. Qed.

Lemma skip_slot irqno hw k : no_driver hw -> exists hw', virtio_attach (attach_blk irqno) hw k = Ret (hw', k).
Proof.
  intros Hn. unfold virtio_attach. rewrite (vrd_spec hw magic_value _ eq_refl). destruct (Z.eqb_spec (rf_magic (regs_of hw)) VIRTIO_MAGIC) as [E|]; cbn [negb]; [|eauto].
  rewrite (vrd_spec hw version _ eq_refl). destruct (Z.eqb_spec (rf_version (regs_of hw)) 2) as [E2|]; cbn [negb]; [|eauto].
  rewrite (vrd_spec hw device_id _ eq_refl). destruct (rf_id (regs_of hw) =? VIRTIO_ID_NONE) eqn:E0; [eauto|].
  rewrite (vrd_spec _ device_id (rf_id (regs_of hw))) by (rewrite greeted_regs; done).
  destruct Hn as [?|[?|[Hb Hc]]]; [done..|]. rewrite (proj2 (Z.eqb_neq _ _) Hb), (proj2 (Z.eqb_neq _ _) Hc). eauto.
Qed.

Lemma skip_slots slots i k : Forall no_driver slots -> attach_virtios slots i k = Ret k.
Proof.
  intros Hs. revert i; induction Hs as [|hw r Hhw Hr IH]; intros i; cbn [Boot.attach_virtios]; [done|].
  destruct (skip_slot (VIRT0_IRQNO + i) hw k Hhw) as (hw' & ->). cbn [obind]. apply IH.
Qed.

Lemma attach_virtios_app l r i k : attach_virtios (l ++ r) i k =
  (let! k := attach_virtios l i k in attach_virtios r (i + Z.of_nat (length l)) k).
Proof.
  revert i k; induction l as [|hw l IH]; intros i k; cbn [app Boot.attach_virtios length obind]; [by rewrite Z.add_0_r|].
  destruct (virtio_attach _ _ _) as [[hw' k']| | | |]; cbn [obind]; try done. rewrite IH. by replace (i + Z.of_nat (S (length l))) with (i + 1 + Z.of_nat (length l)) by lia.
Qed.

(** The device at [base] as it is after the attachment and before it is
    opened. *)
Record blk_attached k (base irqno : Z) (disk : list Z) : Prop := {
  ba_dev : exists hw f dsel gsel buf sst, bw_blks (k_w k) !! base =
      Some {| v_hw := hw; v_dev := vioblk_device_init base irqno 512 buf; vio_lock := false; v_sstatus := sst; v_waits := 0 |} /\
    length buf = 512%nat /\ regs_of hw = rf_configured f base dsel gsel /\ disk_of hw = disk;
  ba_irq : 0 <= irqno < NIRQ;
  ba_isr : exists isr p, isrtab (bw_intr (k_w k)) !! Z.to_nat irqno = Some {| Intr.isr := Some isr; isr_prio := p |};
}.

Lemma attach_slot hw k free regs i : attaching k free regs -> block_slot hw -> length enabled = 4%nat ->
  Z.of_nat (length regs) < NDEV -> 0 <= i < 8 -> free <> [] ->
  exists hw' k' free' base, virtio_attach (attach_blk (VIRT0_IRQNO + i)) hw k = Ret (hw', k') /\
    attaching k' free' (regs ++ [blk (blk_opener base)]) /\ (length free <= S (length free'))%nat /\ same_kernel k k' /\
    blk_attached k' base (VIRT0_IRQNO + i) (disk_of hw).
Proof.
  intros [Hm Ht Hn Hi] [B1 B2 B3 B4 B5 B6] Hen Hl Hr Hne. unfold virtio_attach.
  rewrite (vrd_spec hw magic_value _ eq_refl), B1, Z.eqb_refl, (vrd_spec hw version _ eq_refl), B2, Z.eqb_refl, (vrd_spec hw device_id _ eq_refl), B3. cbn [negb].
  change (VIRTIO_ID_BLOCK =? VIRTIO_ID_NONE) with false. cbv iota.
  rewrite (vrd_spec _ device_id VIRTIO_ID_BLOCK) by (rewrite greeted_regs; cbn; by rewrite B3).
  change (VIRTIO_ID_BLOCK =? VIRTIO_ID_CONSOLE) with false. rewrite Z.eqb_refl. cbv iota.
  set (hw1 := vwr (vwr hw status 0) status VIRTIO_STAT_ACKNOWLEDGE).
  assert (Hr1 : regs_of hw1 = rf_set_status (rf_reset (regs_of hw)) 1) by apply greeted_regs.
  assert (Hd1 : disk_of hw1 = disk_of hw) by (unfold hw1; by rewrite !disk_vwr).
  destruct (kmalloc_bytes_boot img Himg _ free 728 Hm) as (a & base & mem & free' & E1 & Hm' & Hl' & _ & Hbs & Hss); [unfold PAGE_SIZE; lia|done|].
  pose proof (device_register_spec regs (blk (blk_opener base)) (chars "blk") Hn ltac:(reflexivity) Hl) as E. cbn [blk fst snd] in E.
  destruct (attach_spec kmalloc_bytes vioblk_isr_of blk_opener enabled (VIRT0_IRQNO + i) base hw1 (bw_intr (k_w k)) (k_devtab k)
    (table_of (regs ++ [blk (blk_opener base)])) (k_heap k, k_mm k) a (Z.of_nat (length (instances (chars "blk") regs)))) as (hw' & dsel & gsel & D & HR).
  { split; try done; rewrite ?Hr1; cbn; try done; [by rewrite length_replicate|exists mem; split; [exact E1|lia]|unfold VIRT0_IRQNO, NIRQ; lia]. }
  { done. }
  { rewrite Ht. exact E. }
  rewrite Hr1 in HR. change (rf_offered (rf_set_status (rf_reset ?f) 1)) with (rf_offered f) in HR. rewrite B6 in HR.
  destruct HR as (st' & buf & E2 & Hb & Hrg & Hisr & Hwf & _). unfold Boot.attach_blk. rewrite E2. cbn [obind].
  eexists _, _, free', base. split; [reflexivity|]. split; [split; try done; [by destruct a|by apply (names_snoc _ _ (chars "blk"))]|].
  split; [done|]. split; [by split|]. split; [|unfold VIRT0_IRQNO, NIRQ; lia|by do 2 eexists].
  eexists _, _, dsel, gsel, buf, _. cbn [k_w set_devices bw_blks put_blks put_intr]. rewrite lookup_insert_eq. split; [done|]. split; [done|]. split; [exact Hrg|congruence].
Qed.

Lemma attach_virtios_spec before hw after k free regs : attaching k free regs -> block_slot hw -> length enabled = 4%nat ->
  Forall no_driver before -> Forall no_driver after -> length (before ++ hw :: after) = 8%nat -> Z.of_nat (length regs) < NDEV -> free <> [] ->
  exists k' free' base, attach_virtios (before ++ hw :: after) 0 k = Ret k' /\
    attaching k' free' (regs ++ [blk (blk_opener base)]) /\ (length free <= S (length free'))%nat /\ same_kernel k k' /\
    blk_attached k' base (VIRT0_IRQNO + Z.of_nat (length before)) (disk_of hw).
Proof.
  intros Ha Hb Hen Hpre Hpost Hl Hn Hne. rewrite attach_virtios_app, skip_slots by done. cbn [obind Boot.attach_virtios].
  rewrite length_app in Hl. cbn [length] in Hl. rewrite Z.add_0_l.
  destruct (attach_slot hw k free regs (Z.of_nat (length before)) Ha Hb Hen Hn ltac:(lia) Hne) as (hw' & k' & free' & base & -> & Hrest).
  cbn [obind]. rewrite skip_slots by done. eauto 10.
Qed.

(** * Initialisation *)

Lemma has_bit x n : 0 <= n -> has x (2 ^ n) = Z.testbit x n.
Proof.
  intros Hn. unfold has. destruct (Z.testbit x n) eqn:E; apply eq_true_iff_eq.
  - split; [done|]. intros _. apply negb_true_iff, Z.eqb_neq. intros Hz. apply (f_equal (fun z => Z.testbit z n)) in Hz.
    by rewrite Z.land_spec, E, Z.pow2_bits_true, Z.bits_0 in Hz.
  - split; [|done]. intros Hb%negb_true_iff%Z.eqb_neq. exfalso. apply Hb, Z.bits_inj'. intros i Hi. rewrite Z.land_spec, Z.bits_0.
    destruct (Z.eq_dec i n) as [->|]; [by rewrite E|]. rewrite Z.pow2_bits_false by lia. apply andb_false_r.
Qed.

Lemma memory_init_sum m m' h : memory_init img m = Ret (m', h) -> has (mm_sstatus m') RISCV_SSTATUS_SUM = true.
Proof.
  intros E. unfold memory_init in E. destruct (RAM_START_PMA =? kimg_start img); [|done]. destruct (MEGA_SIZE <? _); [done|].
  do 7 (apply obind_Ret_inv in E as (? & _ & E)). destruct (RAM_END_PMA <? _); [done|].
  do 2 (apply obind_Ret_inv in E as (? & _ & E)). injection E as <- <-. cbn [mm_sstatus]. unfold RISCV_SSTATUS_SUM.
  rewrite has_bit, Z.lor_spec by lia. change (Z.testbit (2 ^ 18) 18) with true. apply orb_true_r.
Qed.

(** The other bits of [sstatus] stay when interrupts are disabled or enabled. *)
Lemma sum_disable ss : has (Z.ldiff ss RISCV_SSTATUS_SIE) RISCV_SSTATUS_SUM = has ss RISCV_SSTATUS_SUM.
Proof. unfold RISCV_SSTATUS_SUM. rewrite !has_bit, Z.ldiff_spec by lia. change (Z.testbit RISCV_SSTATUS_SIE 18) with false. apply andb_true_r. Qed.
Lemma sum_enable ss : has (Z.lor ss RISCV_SSTATUS_SIE) RISCV_SSTATUS_SUM = has ss RISCV_SSTATUS_SUM.
Proof. unfold RISCV_SSTATUS_SUM. rewrite !has_bit, Z.lor_spec by lia. change (Z.testbit RISCV_SSTATUS_SIE 18) with false. apply orb_false_r. Qed.

Lemma thread_init_main ss : main_thread <> idle_thread ->
  exists st t, thread_init main_thread idle_thread ma ml ia il ss = Ret st /\ curthr st = main_thread /\
    thrs st !! main_thread = Some t /\ tid t = MAIN_TID /\ thrtab st !! 0%nat = Some (Some main_thread).
Proof.
  intros Hne. rewrite thread_init_eq by done. cbv zeta. set (main_t := {| context := _ |}). set (idle_t := {| tstate := THREAD_READY |}).
  cbn [tlinsert tl_nil tl_tail tl_head]. rewrite (upd_thr_spec _ idle_thread _ idle_t)
    by (rewrite lookup_insert_ne, lookup_singleton_eq by done; done).
  cbn [obind]. rewrite bool_decide_true by done. cbn [obind]. eexists _, main_t. split; [done|]. cbn [curthr thrs thrtab].
  rewrite lookup_insert_ne, lookup_insert_eq by done. done.
Qed.

(** The process the kernel starts with: no descriptor is open. *)
Definition first_process (mtag : Z) : process :=
  {| p_id := MAIN_PID; p_tid := MAIN_TID; p_mtag := mtag; iotab := replicate (Z.to_nat PROCESS_IOMAX) None |}.

(** The kernel before devices are attached. *)
Record initialised k (mc : machine P HW) : Prop := {
  in_mem : attaching k (page_list (first_free img) (free_cnt img)) [];
  in_con : k_con k = console_init (mc_con mc);
  in_procs : k_procs k = {[ main_proc := first_process (sv39_mtag (main_pt2 img)) ]};
  in_current : current_process k = Ret (Some main_proc);
  in_fs : bw_fs (k_w k) = {| fw_fs := mc_fs mc; fw_refs := ∅ |};
  in_disk : bw_disk (k_w k) = None;
  in_sum : has (mm_sstatus (k_mm k)) RISCV_SSTATUS_SUM = true;
}.

Lemma boot_mem_status h m ss free : boot_mem img (h, m) free -> boot_mem img (h, with_status m (satp m) ss) free.
Proof.
  intros [[T2 T1 T0] Hs [Hc Hd] Hcl Ha Hsup Hh]. cbn [fst snd] in *. split; [by split|done|split; [|done]|done..].
  by apply (page_chain_frame m).
Qed.

Lemma init_kernel_spec mc : main_thread <> idle_thread -> boot_ok img (mc_mm mc) -> intr_wf (mc_intr mc) ->
  exists k, init_kernel img main_thread idle_thread main_proc ma ml ia il mc = Ret k /\ initialised k mc.
Proof.
  intros Hne Hb Hi. unfold init_kernel. destruct (memory_init_spec img Himg (mc_mm mc) Hb) as (m & E & Htab & Hs & _ & Hf & Hc).
  rewrite E. cbn [obind]. unfold intr_init. cbn [sstatus sie sip intr_initialized isrtab]. cbn [intr_disable fst snd].
  set (ss := Z.ldiff (mm_sstatus m) RISCV_SSTATUS_SIE). cbn [sstatus].
  destruct (thread_init_main (mm_sstatus (with_status m (satp m) ss)) Hne) as (t & tm & -> & Hcur & Ht & Htid & Htb). cbn [obind].
  assert (Hload : load (thrtab t) 0 = Ret (Some main_thread)) by (apply load_Ret; split; [lia|exact Htb]).
  unfold procmgr_init, running_thread. cbn [k_thr k_mm]. rewrite Hcur, (get_thr_spec _ _ _ Ht). cbn [obind].
  unfold thread_set_process, tab_get. rewrite Htid. change MAIN_TID with 0. rewrite Hload. cbn [obind].
  rewrite (upd_thr_spec _ _ _ _ Ht). cbn [obind]. eexists. split; [reflexivity|]. split; try done.
  - split; [apply boot_mem_status|done|constructor|done]. split; cbn [fst snd]; try done.
    + intros x Hx%page_list_ge; [|done]. unfold PAGE_SIZE in Hx. lia.
    + by apply init_supply.
    + destruct (free_bounds img Himg) as (_ & _ & Hx1 & Hx2 & _). cbn -[Z.mul]. unfold PAGE_SIZE in Hx1. lia.
  - cbn. unfold active_memory_space, first_process. cbn. by rewrite Hs.
  - unfold current_process, running_thread. cbn [k_thr set_world set_timer put_proc set_procs set_thr with_thrs with_ready thrs curthr].
    rewrite Hcur, (get_thr_spec _ _ (set_proc (Some main_proc) tm)) by (by rewrite lookup_insert_eq). cbn [obind tid set_proc].
    unfold thread_process, thread_of, tab_get. rewrite Htid. change MAIN_TID with 0. cbn [thrtab with_thrs with_ready]. rewrite Hload. cbn [obind].
    cbn [thrs with_thrs with_ready]. rewrite (get_thr_spec _ _ (set_proc (Some main_proc) tm)) by (by rewrite lookup_insert_eq). done.
  - cbn [k_mm set_world set_timer with_status mm_sstatus]. unfold ss. change (has (Z.ldiff (mm_sstatus m) RISCV_SSTATUS_SIE) RISCV_SSTATUS_SUM = true).
    rewrite sum_disable. exact (memory_init_sum _ _ _ E).
Qed.

(** * Running the first program *)

Lemma boot_user a free : boot_mem img a free -> has (mm_sstatus a.2) RISCV_SSTATUS_SUM = true ->
  user_ok a.2 free /\ active_space_root a.2 = main_pt2 img /\ forall v, user_vma v -> uview a.2 v = None.
Proof.
  intros [Hm Hs Hf Hc Ha _ _] Hsum. destruct (main_active img Himg a.2 free Hm Hs Hf Hc Ha) as [Hr Hact].
  assert (Hno : forall v, user_vma v -> translate a.2 v = None).
  { intros v Hv. rewrite (translate_walk _ _ _ Hact), Hr. rewrite user_wellformed by done. apply (main_unmapped img Himg); [done| |by apply user_wellformed].
    unfold user_vma in Hv. mem_consts. lia. }
  split; [|split; [done|intros v Hv; by apply uview_None, Hno]].
  split; [done|done|..]; intros v; intros; rewrite Hno in *; done.
Qed.

Lemma root_not_user m i : main_tables img m -> index_ok i -> has (pte_flags (entry m (main_pt2 img) i)) PTE_U = false.
Proof.
  intros [H2' _ _] Hi. rewrite H2' by done. unfold pt2_spec. destruct (decide (i < 2)); [done|]. by destruct (decide (i = 2)).
Qed.

Notation ops base := (virtio_ops base script).
(** Requests are answered, indirect ones too; [hi] are the four bytes above the
    position. *)
Context (Hfair : forall j, answered (script j) = true) (Hlen : lenient) (Hhi : 0 <= hi < 2 ^ 32).
#[local] Instance run_world : IoWorld world := boot_world script hi.
Notation disk0 base := (vio_disk0 base script Hfair).
Notation disk_at base Hmod := (vio_disk base script Hfair hi Hhi Hmod).

(** The object of a file of the mounted file system. *)
Lemma file_ops k base i : bw_disk (k_w k) = Some base -> (i < 32)%nat ->
  w_ops (k_w k) (Z.of_nat i + 1) = part_ops (fun w : world => Ret (fw_fs (bw_fs w))) put_fs (fs_io_ops (ops base) hi i).
Proof.
  intros Hdisk Hi. cbn [w_ops run_world boot_world]. unfold object_ops, object_at, disk_ops, MAX_OPEN_FILES.
  replace ((1 <=? Z.of_nat i + 1) && (Z.of_nat i + 1 <=? 32)) with true by (symmetry; apply andb_true_iff; split; lia).
  rewrite Hdisk. cbn [default id from_option]. unfold file_no. by replace (Z.to_nat (Z.of_nat i + 1 - 1)) with i by lia.
Qed.

Lemma exec_boot (Hmod : hi mod 512 = 0) k free base dimg i f ino : boot_mem img (k_heap k, k_mm k) free -> has (mm_sstatus (k_mm k)) RISCV_SSTATUS_SUM = true ->
  bw_disk (k_w k) = Some base -> (i < 32)%nat ->
  file_ready (ops base) hi (HR := disk_at base Hmod) (fw_fs (bw_fs (k_w k))) dimg i f ino ->
  let data := content dimg ino in elf_ok data -> (3 * total_pages (segments data) <= length free)%nat ->
  exists k', process_exec k (Z.of_nat i + 1) = Ret (k', Jumps USER_STACK_VMA (e_entry (elf_header data))) /\
    (forall a, user_vma a -> uview (k_mm k') a = loaded data (segments data) (fun _ => None) a) /\
    k_procs k' = k_procs k /\ k_thr k' = k_thr k /\ k_devtab k' = k_devtab k /\ k_con k' = k_con k /\
    intr_disabled (mm_sstatus (k_mm k')) = true /\ Z.testbit (mm_sstatus (k_mm k')) 5 = true.
Proof.
  intros Hm Hsum Hdisk Hi Hy data He Hl. destruct (boot_user _ free Hm Hsum) as (Hu & Hroot & Hno). cbn [snd] in *.
  pose (HR := disk_at base Hmod). pose (HF := fs_file (ops base) hi i dimg ino).
  pose (HP := part_file (fun w : world => fw_fs (bw_fs w)) put_fs (fun _ _ => eq_refl) (fs_io_ops (ops base) hi i)).
  destruct (elf_load_spec (part_ops (fun w : world => Ret (fw_fs (bw_fs w))) put_fs (fs_io_ops (ops base) hi i)) (k_w k) data (file_pos f) (k_mm k) 0)
    as (w' & m' & El & _ & Hv).
  { by exists f. } { done. } { exists free. rewrite Nat.add_0_r. auto. }
  { apply Forall_forall. intros ph Hph a Ha. apply Hno. eapply in_segment_user; [|exact Ha].
    assert (HS := eo_segments _ He). rewrite Forall_forall in HS. exact (HS ph Hph). }
  unfold process_exec. change WALK_DEPTH with 3%nat.
  rewrite (unmap_nothing 2 (k_mm k) free (uo_active _ _ Hu)) by (rewrite Hroot; intros x; apply root_not_user, Hm). cbn [obind].
  rewrite (file_ops k base i Hdisk Hi), El. cbn [obind]. change (0 <? 0) with false. cbv iota. eexists. split; [reflexivity|]. split.
  - intros a Ha. refine (eq_trans (Hv a Ha) _). unfold loaded. destruct (List.find _ _); [done|]. by apply Hno.
  - split_and!; try done; apply exec_status.
Qed.

(** The file system on the device at [base] is mounted. *)
Record mounted_on k k' (base : Z) (dimg : list Z) : Prop := {
  mo_ready : ready (ops base) 0 (HR := disk0 base) (fw_fs (bw_fs (k_w k'))) dimg;
  mo_files : file_list (fw_fs (bw_fs (k_w k'))) = replicate (Z.to_nat MAX_OPEN_FILES) released;
  mo_disk : bw_disk (k_w k') = Some base;
  mo_mm : k_mm k' = k_mm k;
  mo_heap : k_heap k' = k_heap k;
  mo_rest : k_thr k' = k_thr k /\ k_con k' = k_con k /\ k_procs k' = k_procs k /\ k_devtab k' = k_devtab k;
}.

Lemma blk_instance (f0 f1 f2 f3 : opener world) : instances (chars "blk") [ser f0; ser f1; ser f2; blk f3] = [f3].
Proof. reflexivity. Qed.

Lemma open_and_mount k base irqno dimg f0 f1 f2 :
  k_devtab k = table_of [ser f0; ser f1; ser f2; blk (blk_opener base)] -> blk_attached k base irqno dimg -> bw_disk (k_w k) = None ->
  unmounted (fw_fs (bw_fs (k_w k))) -> img_ok dimg ->
  exists w k', device_open (fun f : opener world => f (k_w k)) (fun e => (k_w k, e, 0)) (k_devtab k) (Some (cstr "blk")) 0 = Ret (w, 0, base + VIOBLK_IO) /\
    mount_blk script (set_world k w) base = Ret (k', 0) /\ mounted_on k k' base dimg.
Proof.
  intros Ht [(hw & f & dsel & gsel & buf & sst & Hb & Hbl & Hr & Hd) Hirq (isr & p & Hisr)] Hdisk Hum Hok.
  assert (Hnm : names_ok [ser f0; ser f1; ser f2; blk (blk_opener base)]) by (repeat constructor; by eexists).
  rewrite Ht, (device_open_spec _ _ _ (cstr "blk") (chars "blk")) by (done || reflexivity).
  rewrite blk_instance. change ([blk_opener base] !! Z.to_nat 0) with (Some (blk_opener (P := P) (HW := HW) base)). cbv iota. unfold blk_opener.
  assert (Hg : get_blk base (k_w k) = Ret {| v_hw := hw; v_dev := vioblk_device_init base irqno 512 buf; vio_lock := false; v_sstatus := sst; v_waits := 0 |}).
  { unfold get_blk, blk_at. rewrite bool_decide_false by congruence. by rewrite Hb. }
  rewrite Hg. cbn [obind].
  destruct (open_spec base irqno buf hw f dsel gsel sst (bw_intr (k_w k)) (bw_bus (k_w k)) p isr Hbl Hr Hirq Hisr) as (s & -> & Hvo & _ & Hlk & Hds). specialize (Hvo Hlen).
  cbn [obind]. set (w1 := put_bus _ _). exists w1. set (d := put_sstatus s (mm_sstatus (k_mm k))).
  assert (Hg1 : get_blk base w1 = Ret s).
  { unfold get_blk, blk_at, w1, put_blk. rewrite (bool_decide_false (bw_disk (k_w k) = Some base)) by congruence. cbn [bw_disk put_bus put_blks bw_blks].
    rewrite bool_decide_false by congruence. by rewrite lookup_insert_eq. }
  assert (Hdk : vio_disk_ok base d) by (split; [exists false; by destruct Hvo|done]).
  assert (Hdd : disk_of (v_hw d) = dimg) by (cbn; congruence).
  assert (Hum' : unmounted (fw_fs (bw_fs w1))).
  { unfold w1, put_blk. rewrite bool_decide_false by congruence. done. }
  rewrite <- Hdd in Hok. destruct (vio_mount_spec base script Hfair (fw_fs (bw_fs w1)) d Hum' Hdk Hok) as (s' & E & Hrd & Hfl). rewrite Hdd in Hrd.
  eexists. split; [reflexivity|]. unfold mount_blk. cbn [k_w set_world k_mm]. rewrite Hg1. cbn [obind]. fold d. rewrite E. cbn [obind].
  split; [reflexivity|]. split; done.
Qed.

Lemma init_name : bytes_ok INIT_PROC /\ cprefix (Z.to_nat FS_NAMELEN) INIT_PROC = Some (cstr "init7").
Proof. split; [apply bytes_ok_forallb|]; vm_compute; reflexivity. Qed.

Lemma init_range dimg ino : img_ok dimg -> inodes_ok dimg -> dir_lookup dimg (cstr "init7") = Some ino ->
  0 <= ino < num_inodes (boot_of dimg).
Proof. intros Hok Hino. destruct init_name as [Hb Hk]. by apply (dir_lookup_range dimg INIT_PROC). Qed.

(** The devices [main] has registered, in order. *)
Definition registered (d1 d2 base : Z) : list (list Z * opener world) :=
  [ser ebusy_opener; ser (uart_opener rbr d1); ser (uart_opener rbr d2); blk (blk_opener base)].

(** Up to the call of [process_exec], when the file exists. *)
Lemma run_init_open (Hmod : hi mod 512 = 0) k d1 d2 base irqno dimg ino :
  k_devtab k = table_of (registered d1 d2 base) -> blk_attached k base irqno dimg -> bw_disk (k_w k) = None ->
  unmounted (fw_fs (bw_fs (k_w k))) -> img_ok dimg -> inodes_ok dimg -> dir_lookup dimg (cstr "init7") = Some ino ->
  exists k1, run_init script hi k
      = (let! (k, e) := process_exec k1 (Z.of_nat 0 + 1) in
         match e with Jumps _ _ => Ret (k, e) | _ => panic k (cstr "init7: process_exec failed") end) /\
    file_ready (ops base) hi (HR := disk_at base Hmod) (fw_fs (bw_fs (k_w k1))) dimg 0 (KfsFiles.opened dimg ino) ino /\
    bw_disk (k_w k1) = Some base /\ k_mm k1 = k_mm k /\ k_heap k1 = k_heap k /\ k_thr k1 = k_thr k /\ k_con k1 = k_con k /\
    k_procs k1 = k_procs k /\ k_devtab k1 = k_devtab k.
Proof.
  intros Ht Hb Hdisk Hum Hok Hino Hdir.
  destruct (open_and_mount k base irqno dimg _ _ _ Ht Hb Hdisk Hum Hok) as (w & k1 & E1 & E2 & [Hrd Hfl Hd Hmm Hhp (R1 & R2 & R3 & R4)]).
  unfold run_init. rewrite E1. cbn [obind]. change (negb (0 =? 0)) with false. cbv iota. replace (base + VIOBLK_IO - VIOBLK_IO) with base by lia.
  rewrite E2. cbn [obind]. change (negb (0 =? 0)) with false. cbv iota. pose (HR := disk_at base Hmod).
  destruct init_name as [Hnb Hnk]. apply (ready_any base script Hfair hi Hhi Hmod) in Hrd.
  destruct (fs_open_spec (ops base) hi (HR := HR) (fw_fs (bw_fs (k_w k1))) dimg INIT_PROC _ Hok Hino Hrd Hnb Hnk) as (s2 & E3 & Hr2 & Hf2).
  unfold open_result in E3, Hf2. rewrite Hdir, Hfl in E3, Hf2. change (find_unused (replicate (Z.to_nat MAX_OPEN_FILES) released) 0) with (Some 0%nat) in E3, Hf2.
  cbn [fst snd] in E3, Hf2. unfold main_world.
  assert (Eo : w_fs_open (IoWorld := boot_world script hi) (k_w k1) (Some INIT_PROC) = Ret (put_fs (k_w k1) s2, 0, 1)).
  { cbn [w_fs_open boot_world]. unfold disk_ops. rewrite Hd. cbn [default from_option id]. rewrite E3. reflexivity. }
  rewrite Eo. cbn [obind]. change (0 <? 0) with false. cbv iota. exists (set_world k1 (put_fs (k_w k1) s2)). split; [reflexivity|]. split; [|by split_and!].
  split; [done|done|]. split; [by cbn; rewrite Hf2|done|exact (init_range dimg ino Hok Hino Hdir)|done|cbn [file_pos KfsFiles.opened]; lia].
Qed.

Lemma run_init_spec (Hmod : hi mod 512 = 0) k free d1 d2 base irqno dimg ino :
  boot_mem img (k_heap k, k_mm k) free -> k_devtab k = table_of (registered d1 d2 base) -> blk_attached k base irqno dimg -> bw_disk (k_w k) = None ->
  has (mm_sstatus (k_mm k)) RISCV_SSTATUS_SUM = true -> unmounted (fw_fs (bw_fs (k_w k))) -> img_ok dimg -> inodes_ok dimg ->
  dir_lookup dimg (cstr "init7") = Some ino ->
  let data := content dimg ino in elf_ok data -> (3 * total_pages (segments data) <= length free)%nat ->
  exists k', run_init script hi k = Ret (k', Jumps USER_STACK_VMA (e_entry (elf_header data))) /\
    (forall a, user_vma a -> uview (k_mm k') a = loaded data (segments data) (fun _ => None) a) /\
    k_procs k' = k_procs k /\ k_thr k' = k_thr k /\ k_devtab k' = k_devtab k /\
    intr_disabled (mm_sstatus (k_mm k')) = true /\ Z.testbit (mm_sstatus (k_mm k')) 5 = true.
Proof.
  intros Hm Ht Hb Hdisk Hsum Hum Hok Hino Hdir data He Hl.
  destruct (run_init_open Hmod k d1 d2 base irqno dimg ino Ht Hb Hdisk Hum Hok Hino Hdir) as (k1 & -> & Hy & Hd & Hmm & Hhp & R1 & R2 & R3 & R4).
  rewrite <- Hmm, <- Hhp in Hm. rewrite <- Hmm in Hsum.
  destruct (exec_boot Hmod k1 free base dimg 0 (KfsFiles.opened dimg ino) ino Hm Hsum Hd ltac:(lia) Hy He Hl) as (k2 & E4 & Hv & P1 & P2 & P3 & P4 & P5 & P6).
  unfold run_world in *. rewrite E4. cbn [obind]. exists k2. split; [reflexivity|]. split_and!; try done; congruence.
Qed.

(** ** When it does not run *)

Definition newline : list Z := [CR; LF].

Lemma panic_spec k msg : Forall (fun c => c <> 0) msg -> wire (put_cprev (k_con k)) (msg ++ [LF]) = msg ++ newline ->
  exists k', panic k (msg ++ [0]) = Ret (k', Panics) /\ c_out (k_con k') = c_out (k_con k) ++ msg ++ newline.
Proof.
  intros Hm Hw. unfold panic. rewrite console_puts_putchars by done. cbn [obind]. eexists. split; [done|]. cbn [k_con set_con].
  by rewrite putchars_wire, Hw.
Qed.

(** The device table has no block device. *)
Lemma run_init_no_device k d1 d2 :
  k_devtab k = table_of [ser ebusy_opener; ser (uart_opener rbr d1); ser (uart_opener rbr d2)] ->
  exists k', run_init script hi k = Ret (k', Panics) /\ c_out (k_con k') = c_out (k_con k) ++ chars "device_open failed" ++ newline.
Proof.
  intros Ht. unfold run_init. rewrite Ht, (device_open_spec _ _ _ (cstr "blk") (chars "blk")); [|repeat constructor; by eexists|reflexivity|done|done].
  change (instances (chars "blk") _) with (@nil (opener world)). cbn [lookup list_lookup obind]. change (negb (- ENODEV =? 0)) with true. cbv iota.
  apply (panic_spec (set_world k (k_w k)) (chars "device_open failed")); [by repeat constructor|reflexivity].
Qed.

(** The file is not an executable for this machine. *)
Definition not_executable (data : list Z) : Prop :=
  bytes_ok data /\ (Z.of_nat (length data) < SIZEOF_Ehdr \/ verify_elf_header (elf_header data) <> 0).

Lemma exec_rejects (Hmod : hi mod 512 = 0) k free base dimg i f ino : boot_mem img (k_heap k, k_mm k) free -> has (mm_sstatus (k_mm k)) RISCV_SSTATUS_SUM = true ->
  bw_disk (k_w k) = Some base -> (i < 32)%nat ->
  file_ready (ops base) hi (HR := disk_at base Hmod) (fw_fs (bw_fs (k_w k))) dimg i f ino -> not_executable (content dimg ino) ->
  exists k' e, process_exec k (Z.of_nat i + 1) = Ret (k', Returns e) /\ k_con k' = k_con k.
Proof.
  intros Hm Hsum Hdisk Hi Hy [Hbytes Hbad]. destruct (boot_user _ free Hm Hsum) as (Hu & Hroot & Hno). cbn [snd] in *.
  pose (HR := disk_at base Hmod). pose (HF := fs_file (ops base) hi i dimg ino).
  pose (HP := part_file (fun w : world => fw_fs (bw_fs w)) put_fs (fun _ _ => eq_refl) (fs_io_ops (ops base) hi i)).
  destruct (elf_load_rejects (HF := HP) _ (k_w k) (content dimg ino) (file_pos f) (k_mm k)) as (w' & e & El & Ee); [by exists f|done|done|].
  unfold process_exec. change WALK_DEPTH with 3%nat.
  rewrite (unmap_nothing 2 (k_mm k) free (uo_active _ _ Hu)) by (rewrite Hroot; intros x; apply root_not_user, Hm). cbn [obind].
  rewrite (file_ops k base i Hdisk Hi), El. cbn [obind].
  replace (e <? 0) with true by (rewrite Ee; by destruct (_ <? _)). by eexists _, _.
Qed.

(** The file is not there, or its inode cannot be read. *)
Lemma init_not_opened base s dimg : ready (ops base) 0 (HR := disk0 base) s dimg -> img_ok dimg -> inodes_ok dimg ->
  dir_lookup dimg (cstr "init7") = None \/ hi mod 512 <> 0 ->
  exists s2 e, fs_open (ops base) hi s (Some INIT_PROC) false = Ret (s2, e, None) /\ e < 0.
Proof.
  intros Hrd Hok Hino Hcause. destruct init_name as [Hnb Hnk]. destruct (Z.eq_dec (hi mod 512) 0) as [Hmod|Hmod].
  - destruct Hcause as [Hdir|]; [|done]. apply (ready_any base script Hfair hi Hhi Hmod) in Hrd.
    destruct (fs_open_spec (ops base) hi (HR := disk_at base Hmod) s dimg INIT_PROC _ Hok Hino Hrd Hnb Hnk) as (s2 & E & _).
    unfold open_result in E. rewrite Hdir in E. by exists s2, (- ENOENT).
  - destruct (fs_open_blocked base script Hfair hi s dimg INIT_PROC _ Hhi Hmod Hrd Hok Hino Hnb Hnk) as (s2 & E). eexists s2, _. split; [exact E|].
    by destruct (dir_lookup _ _).
Qed.

Lemma run_init_panics k free d1 d2 base irqno dimg :
  boot_mem img (k_heap k, k_mm k) free -> k_devtab k = table_of (registered d1 d2 base) -> blk_attached k base irqno dimg -> bw_disk (k_w k) = None ->
  has (mm_sstatus (k_mm k)) RISCV_SSTATUS_SUM = true -> unmounted (fw_fs (bw_fs (k_w k))) -> img_ok dimg -> inodes_ok dimg ->
  (dir_lookup dimg (cstr "init7") = None \/ hi mod 512 <> 0 ->
   exists k', run_init script hi k = Ret (k', Panics) /\ c_out (k_con k') = c_out (k_con k) ++ chars "init7: process image not found" ++ newline) /\
  (forall ino, hi mod 512 = 0 -> dir_lookup dimg (cstr "init7") = Some ino -> not_executable (content dimg ino) ->
   exists k', run_init script hi k = Ret (k', Panics) /\ c_out (k_con k') = c_out (k_con k) ++ chars "init7: process_exec failed" ++ newline).
Proof.
  intros Hm Ht Hb Hdisk Hsum Hum Hok Hino. split.
  - intros Hcause.
    destruct (open_and_mount k base irqno dimg _ _ _ Ht Hb Hdisk Hum Hok) as (w & k1 & E1 & E2 & [Hrd Hfl Hd Hmm Hhp (R1 & R2 & R3 & R4)]).
    unfold run_init. rewrite E1. cbn [obind]. change (negb (0 =? 0)) with false. cbv iota. replace (base + VIOBLK_IO - VIOBLK_IO) with base by lia.
    rewrite E2. cbn [obind]. change (negb (0 =? 0)) with false. cbv iota.
    destruct (init_not_opened base (fw_fs (bw_fs (k_w k1))) dimg Hrd Hok Hino Hcause) as (s2 & e & E3 & He). unfold main_world.
    assert (Eo : w_fs_open (IoWorld := boot_world script hi) (k_w k1) (Some INIT_PROC) = Ret (put_fs (k_w k1) s2, e, 0)).
    { cbn [w_fs_open boot_world]. unfold disk_ops. rewrite Hd. cbn [default from_option id]. rewrite E3. reflexivity. }
    rewrite Eo. cbn [obind]. replace (e <? 0) with true by (symmetry; by apply Z.ltb_lt). cbv iota. rewrite <- R2.
    apply (panic_spec (set_world k1 _) (chars "init7: process image not found")); [by repeat constructor|reflexivity].
  - intros ino Hmod Hdir Hbad.
    destruct (run_init_open Hmod k d1 d2 base irqno dimg ino Ht Hb Hdisk Hum Hok Hino Hdir) as (k1 & -> & Hy & Hd & Hmm & Hhp & R1 & R2 & R3 & R4).
    rewrite <- Hmm, <- Hhp in Hm. rewrite <- Hmm in Hsum.
    destruct (exec_rejects Hmod k1 free base dimg 0 (KfsFiles.opened dimg ino) ino Hm Hsum Hd ltac:(lia) Hy Hbad) as (k2 & e & E & Hc).
    unfold run_world in *. rewrite E. cbn [obind]. rewrite <- R2, <- Hc.
    apply (panic_spec k2 (chars "init7: process_exec failed")); [by repeat constructor|reflexivity].
Qed.

(** * The whole program *)

(** The machine at power-on. *)
Record machine_ok (mc : machine P HW) : Prop := {
  mk_boot : boot_ok img (mc_mm mc);
  mk_intr : intr_wf (mc_intr mc);
  mk_fs : unmounted (mc_fs mc);
  mk_slots : length (mc_slots mc) = 8%nat;
}.

(** One of the slots holds a block device with disk [dimg], the others nothing
    the kernel has a driver for. *)
Definition one_disk (mc : machine P HW) (dimg : list Z) : Prop :=
  exists before hw after, mc_slots mc = before ++ hw :: after /\ Forall no_driver before /\ Forall no_driver after /\
    block_slot hw /\ disk_of hw = dimg.

Notation main := (main script hi rbr img main_thread idle_thread main_proc ma ml ia il uart_isr_of vioblk_isr_of line enabled).

(** The state in which [run_init] starts. *)
Record started k (mc : machine P HW) (free : list Z) : Prop := {
  sd_mem : boot_mem img (k_heap k, k_mm k) free;
  sd_pages : (Z.to_nat (free_cnt img) <= 3 + length free)%nat;
  sd_sum : has (mm_sstatus (k_mm k)) RISCV_SSTATUS_SUM = true;
  sd_fs : unmounted (fw_fs (bw_fs (k_w k)));
  sd_disk : bw_disk (k_w k) = None;
  sd_con : c_out (k_con k) = c_out (mc_con mc);
  sd_procs : k_procs k = {[ main_proc := first_process (sv39_mtag (main_pt2 img)) ]};
  sd_current : current_process k = Ret (Some main_proc);
}.

Lemma page_list_length first cnt : length (page_list first cnt) = Z.to_nat cnt.
Proof. unfold page_list. by rewrite length_map, length_seqZ. Qed.

(** The kernel with the serial ports attached. *)
Lemma start_uarts mc : main_thread <> idle_thread -> machine_ok mc ->
  exists k1 k free d1 d2, init_kernel img main_thread idle_thread main_proc ma ml ia il mc = Ret k1 /\ attach_uarts 3 0 k1 = Ret k /\
    attaching k free [ser ebusy_opener; ser (uart_opener rbr d1); ser (uart_opener rbr d2)] /\
    (Z.to_nat (free_cnt img) <= 2 + length free)%nat /\ free <> [] /\
    forall k', same_kernel k k' -> forall free', boot_mem img (k_heap k', k_mm k') free' -> (Z.to_nat (free_cnt img) <= 3 + length free')%nat ->
      started (set_mm k' (with_status (k_mm k') (satp (k_mm k')) (Z.lor (mm_sstatus (k_mm k')) RISCV_SSTATUS_SIE))) mc free'.
Proof.
  intros Hne [Hb Hi Hf Hs]. destruct (init_kernel_spec mc Hne Hb Hi) as (k1 & E1 & [Ha Hcon Hprocs Hcur Hfs Hdisk Hsum]).
  destruct (free_bounds img Himg) as (_ & _ & _ & Hcnt & _).
  destruct (attach_uarts_spec k1 _ Ha) as (k & free & d1 & d2 & E2 & Ha2 & Hl & Hsk & _); [rewrite page_list_length; lia|].
  rewrite page_list_length in Hl. exists k1, k, free, d1, d2. split_and!; [done..|lia| |].
  { intros ->. cbn in Hl. lia. }
  intros k' Hsk' free' Hm' Hl'. destruct (same_kernel_trans _ _ _ Hsk Hsk') as [T1 T2 T3 T4 T5 T6]. split; try done.
  - by apply boot_mem_status.
  - change (has (Z.lor (mm_sstatus (k_mm k')) RISCV_SSTATUS_SIE) RISCV_SSTATUS_SUM = true). by rewrite sum_enable, T6.
  - cbn [k_w set_mm set_thr]. by rewrite T4, Hfs.
  - cbn [k_w set_mm set_thr]. by rewrite T5.
  - cbn [k_con set_mm set_thr]. by rewrite T2, Hcon.
  - cbn [k_procs set_mm set_thr]. by rewrite T3.
  - unfold current_process in *. cbn [k_thr set_mm set_thr]. by rewrite T1.
Qed.

Lemma main_disk mc dimg : main_thread <> idle_thread -> machine_ok mc -> one_disk mc dimg -> length enabled = 4%nat ->
  exists k free d1 d2 base irqno, main mc = run_init script hi k /\ started k mc free /\ k_devtab k = table_of (registered d1 d2 base) /\
    blk_attached k base irqno dimg.
Proof.
  intros Hne Hmc (before & hw & after & Hsl & Hpre & Hpost & Hbs & Hd) Hen.
  destruct (start_uarts mc Hne Hmc) as (k1 & k2 & free & d1 & d2 & E1 & E2 & Ha & Hl & Hnf & Hst).
  unfold Boot.main. rewrite E1. cbn [obind]. rewrite E2. cbn [obind]. pose proof (mk_slots _ Hmc) as Hsl8. rewrite Hsl in Hsl8 |- *.
  destruct (attach_virtios_spec before hw after k2 free _ Ha Hbs Hen Hpre Hpost Hsl8 ltac:(done) Hnf) as (k3 & free3 & base & E3 & Ha3 & Hl3 & Hsk & Hba).
  rewrite E3. cbn [obind]. eexists _, free3, d1, d2, base, _. split; [reflexivity|]. destruct Ha3 as [Hm3 Ht3 _ _].
  split; [apply Hst; [done|done|lia]|]. split; [exact Ht3|]. rewrite Hd in Hba. destruct Hba as [A1 A2 A3]. split; [exact A1|exact A2|exact A3].
Qed.

Lemma main_no_disk mc : main_thread <> idle_thread -> machine_ok mc -> Forall no_driver (mc_slots mc) ->
  exists k free d1 d2, main mc = run_init script hi k /\ started k mc free /\
    k_devtab k = table_of [ser ebusy_opener; ser (uart_opener rbr d1); ser (uart_opener rbr d2)].
Proof.
  intros Hne Hmc Hnd. destruct (start_uarts mc Hne Hmc) as (k1 & k2 & free & d1 & d2 & E1 & E2 & Ha & Hl & Hnf & Hst).
  unfold Boot.main. rewrite E1. cbn [obind]. rewrite E2. cbn [obind]. rewrite skip_slots by done. cbn [obind].
  eexists _, free, d1, d2. split; [reflexivity|]. destruct Ha as [Hm Ht _ _]. split; [apply Hst; [done|done|lia]|]. exact Ht.
Qed.

(** C1: the kernel boots: on a machine with one block device that holds a file
    system with the executable init7, [main] attaches the devices, opens the
    disk with the driver's queue, mounts it and jumps to the entry point of
    init7 as [exec] does: the user memory is what the segments of the file say,
    the first process is the current one, the two free serial ports and the disk
    are in the device table, and interrupts come back with the return to user
    mode.  Three things outside the kernel are assumed: every request to the
    device is answered; the device carries out indirect requests although the
    driver has not accepted that feature ([lenient], as QEMU does); and the four
    bytes [hi] above the 32-bit position kfs.c passes to the driver, which reads
    64 bits, are zero or another multiple of 512. *)
Theorem main_runs_init mc dimg ino : hi mod 512 = 0 -> main_thread <> idle_thread -> machine_ok mc -> one_disk mc dimg -> length enabled = 4%nat ->
  img_ok dimg -> inodes_ok dimg -> dir_lookup dimg (cstr "init7") = Some ino ->
  let data := content dimg ino in
  elf_ok data -> (3 + 3 * total_pages (segments data) <= Z.to_nat (free_cnt img))%nat ->
  exists k d1 d2 base, main mc = Ret (k, Jumps USER_STACK_VMA (e_entry (elf_header data))) /\
    (forall a, user_vma a -> uview (k_mm k) a = loaded data (segments data) (fun _ => None) a) /\
    current_process k = Ret (Some main_proc) /\
    k_procs k = {[ main_proc := first_process (sv39_mtag (main_pt2 img)) ]} /\
    k_devtab k = table_of (registered d1 d2 base) /\
    intr_disabled (mm_sstatus (k_mm k)) = true /\ Z.testbit (mm_sstatus (k_mm k)) 5 = true.
Proof.
  intros Hmod Hne Hmc Hd Hen Hok Hino Hdir data He Hl. subst data.
  destruct (main_disk mc dimg Hne Hmc Hd Hen) as (k & free & d1 & d2 & base & irqno & -> & [S1 S2 S3 S4 S5 S6 S7 S8] & Ht & Hb).
  destruct (run_init_spec Hmod k free d1 d2 base irqno dimg ino S1 Ht Hb S5 S3 S4 Hok Hino Hdir He ltac:(lia)) as (k' & -> & Hv & P1 & P2 & P3 & P4 & P5).
  exists k', d1, d2, base. split; [reflexivity|]. split; [exact Hv|]. split; [|split_and!; congruence].
  unfold current_process in *. by rewrite P2.
Qed.

End Boot.

(** * Examples *)

Module BootDemo.
Definition args : list (list Z * list Z) := [(chars "user/bin/init7", ElfDemo.data)].
Lemma boot_args_ok : files_ok args.
Proof.
  constructor.
  - apply Forall_cons. split; [split; [apply bytes_ok_forallb|]; vm_compute; reflexivity|constructor].
  - apply Forall_cons. split; [split; [apply bytes_ok_forallb|]; vm_compute; reflexivity|constructor].
  - repeat constructor; vm_compute; discriminate.
  - vm_compute. discriminate.
  - apply (bool_decide_unpack _). vm_compute. exact I.
  - vm_compute. reflexivity.
Qed.

(** An empty slot of the VirtIO bus, and a slot with a disk. *)
Definition empty : VioDemo.dev :=
  {| VioDemo.regs := {| rf_magic := VIRTIO_MAGIC; rf_version := 2; rf_id := 0; rf_blksz := 0; rf_offered := []; rf_accepted := [];
       rf_dsel := 0; rf_gsel := 0; rf_status := 0; rf_intr := 0; rf_qsel := 0; rf_qready := 0; rf_qnum := 0; rf_qdesc := 0;
       rf_qdriver := 0; rf_qdevice := 0; rf_notified := false; rf_seen := 0 |}; VioDemo.disk := [] |}.
Definition with_disk (dimg : list Z) : VioDemo.dev := {| VioDemo.regs := VioDemo.regs0; VioDemo.disk := dimg |}.
Definition slots (dimg : list Z) : list VioDemo.dev := replicate 3 empty ++ with_disk dimg :: replicate 4 empty.

Definition con : console := 
  {| c_ier := 0; c_lcr := 0; c_dll := 0; c_dlm := 0; c_in := []; c_out := []; put_cprev := 0; get_cprev := 0; console_initialized := false |}.
Definition tm : timer :=
  {| mtime := 0; mtcmp := 0; next_tick := 0; sleep_list := None; alarms := ∅; tm_sie := 0; mmode_intr := false; timer_initialized := false |}.
Definition mc (l : list VioDemo.dev) : machine unit VioDemo.dev :=
  {| mc_con := con; mc_mm := MemDemo.boot; mc_intr := VioDemo.intr0; mc_bus := tt; mc_tm := tm; mc_fs := VioDemo.k0; mc_slots := l |}.
Definition line (dev : Z) : sched := [].
Definition boot (hi : Z) (l : list VioDemo.dev) : outcome (kern (world unit VioDemo.dev) * ending) :=
  main VioDemo.script hi (fun _ => 0) MemDemo.img 10 20 100 0 0 0 0 VioDemo.isr VioDemo.isr line [7; 7; 7; 7] (mc l).

Lemma none : no_driver empty.
Proof. right. right. split; discriminate. Qed.
Lemma mc_ok l : length l = 8%nat -> machine_ok MemDemo.img (mc l).
Proof. intros Hl. split; [exact MemDemo.boot_ok_demo|reflexivity| |exact Hl]. split; vm_compute; reflexivity. Qed.
Lemma disk_slot dimg : block_slot (with_disk dimg).
Proof. split; reflexivity. Qed.
Lemma mc_disk dimg : one_disk (mc (slots dimg)) dimg.
Proof.
  exists (replicate 3 empty), (with_disk dimg), (replicate 4 empty). split; [reflexivity|].
  split; [apply Forall_replicate, none|]. split; [apply Forall_replicate, none|]. split; [apply disk_slot|reflexivity].
Qed.
End BootDemo.

Lemma main_runs_init_witness : exists dimg k, BootDemo.boot 0 (BootDemo.slots dimg) = Ret (k, Jumps USER_STACK_VMA 0xC0000004) /\
  uview (k_mm k) 0xC0000001 = Some (22, map_flags (Z.lor (Z.lor PTE_U PTE_X) PTE_R)) /\ current_process k = Ret (Some 100).
Proof.
  destruct (mkfs_spec ExecDemo.junk BootDemo.args BootDemo.boot_args_ok eq_refl ExecDemo.inodes_junk) as (dimg & _ & Hok & Hino & HR).
  destruct (HR 0%nat (chars "user/bin/init7") ElfDemo.data (cstr "init7") eq_refl) as [Hdir Hc]; [vm_compute; reflexivity|].
  change (Z.of_nat 0) with 0 in Hdir, Hc. exists dimg.
  destruct (main_runs_init VioDemo.script 0 (fun _ => 0) MemDemo.img MemDemo.img_ok 10 20 100 0 0 0 0 VioDemo.isr VioDemo.isr BootDemo.line [7; 7; 7; 7]
    VioDemo.fair VioDemo.dev_lenient ltac:(lia) (BootDemo.mc (BootDemo.slots dimg)) dimg 0) as (k & d1 & d2 & base & E & Hv & Hcur & _).
  - reflexivity.
  - discriminate.
  - apply BootDemo.mc_ok. reflexivity.
  - apply BootDemo.mc_disk.
  - reflexivity.
  - exact Hok.
  - exact Hino.
  - exact Hdir.
  - rewrite Hc. exact ElfDemo.data_ok.
  - rewrite Hc, ElfDemo.pages. apply Nat.leb_le. vm_compute. reflexivity.
  - exists k. rewrite Hc in E, Hv. split; [exact E|]. split; [|exact Hcur].
    assert (U1 : user_vma 0xC0000001) by (unfold user_vma; mem_consts; lia). refine (eq_trans (Hv _ U1) _). vm_compute. reflexivity.
Defined.

