(* ===== verification/BootPorts.v ===== *)
(** The serial ports of the running kernel: who has opened one, and when it
    can be opened again. *)

From Stdlib Require Import Ascii String.
From S2P Require Import Prelude KString IoIntf Plic Intr Device Uart Kfs Virtio Vioblk VioblkFs Process FsWorld Boot BootProps.
From stdpp Require Import gmap list.
#[local] Open Scope Z_scope.

Section Ports.
Context {P HW : Type} `{Mmio P} `{VirtioMmio HW} `{!VirtioDma HW}.
Context (script : nat -> Vioblk.window) (hi : Z) (rbr : Z -> Z) (dev : Z) (Hdev : MAX_OPEN_FILES < dev).
Notation world := (world P HW).
Implicit Types w : world.
#[local] Instance ports_world : IoWorld world := boot_world script hi.

Lemma port_object w d s : bw_uarts w !! dev = Some (d, s) -> object_at w (dev + UART_IO) = OUart dev.
Proof.
  intros Hp. unfold object_at. replace ((1 <=? dev + UART_IO) && (dev + UART_IO <=? MAX_OPEN_FILES)) with false by (unfold UART_IO; lia).
  replace (dev + UART_IO - UART_IO) with dev by lia. by rewrite Hp.
Qed.

(** What the controller does for the interrupt of the port. *)
Definition has_isr w (d : uart_device) : Prop :=
  exists f p, load (isrtab (bw_intr w)) (ud_irqno d) = Ret {| Intr.isr := Some f; isr_prio := p |}.

Lemma put_same w d s : bw_uarts w !! dev = Some (d, s) -> put_uart dev w (d, s, bw_bus w) = w.
Proof. intros Hp. unfold put_uart, put_bus, put_uarts. cbn. rewrite insert_id by done. by destruct w. Qed.

Lemma open_busy w d s : bw_uarts w !! dev = Some (d, s) -> refcnt d <> 0 -> uart_opener rbr dev w = Ret (w, - EBUSY, 0).
Proof.
  intros Hp Hr. unfold uart_opener, get_uart. rewrite Hp. cbn [obind]. unfold uart_open. rewrite (proj2 (Z.eqb_neq _ _) Hr). cbn [negb obind].
  by rewrite put_same.
Qed.

Lemma open_free w d s : bw_uarts w !! dev = Some (d, s) -> refcnt d = 0 -> has_isr w d ->
  exists w' d', uart_opener rbr dev w = Ret (w', 0, dev + UART_IO) /\ bw_uarts w' !! dev = Some (d', s) /\ refcnt d' = 1 /\
    ier d' = IER_DREIE /\ rbuf_empty (rxbuf d') = true /\ rbuf_empty (txbuf d') = true /\
    ud_irqno d' = ud_irqno d /\ bw_intr w' = bw_intr w.
Proof.
  intros Hp Hr (f & p & Hi). unfold uart_opener, get_uart. rewrite Hp. cbn [obind]. unfold uart_open. rewrite Hr. cbn [Z.eqb negb].
  cbn [ud_irqno set_ier set_tx set_rx]. unfold intr_enable_irq. rewrite Hi. cbn [obind Intr.isr Intr.isr_prio]. eexists _, _. split; [reflexivity|].
  cbn. rewrite lookup_insert_eq. by split_and!.
Qed.

(** The close operation of the port: interrupts off, and the count of
    references as it was. *)
Lemma close_port w d s : bw_uarts w !! dev = Some (d, s) ->
  exists w', match op_close (w_ops w (dev + UART_IO)) with None => Fault | Some close => close w end = Ret w' /\
    bw_uarts w' !! dev = Some (set_ier d 0, s) /\ bw_intr w' = bw_intr w.
Proof.
  intros Hp. cbn [w_ops ports_world boot_world]. unfold object_ops. rewrite (port_object w d s Hp). cbn [part_ops op_close uart_ops option_map].
  unfold get_uart. rewrite Hp. cbn [obind uart_close]. eexists. split; [reflexivity|]. cbn. by rewrite lookup_insert_eq.
Qed.

(** [ioclose] of the last reference. *)
Lemma ioclose_port w d s : bw_uarts w !! dev = Some (d, s) -> refcnt d = 1 ->
  exists w', io_ioclose w (dev + UART_IO) = Ret w' /\ bw_uarts w' !! dev = Some (set_ier (set_uart_refcnt d 0) 0, s) /\ bw_intr w' = bw_intr w.
Proof.
  intros Hp Hr. unfold io_ioclose. cbn [w_refcnt w_set_refcnt ports_world boot_world]. rewrite (port_object w d s Hp), Hp, Hr.
  change (u32 (1 - 1)) with 0. set (w1 := put_uarts _ _).
  assert (Hp1 : bw_uarts w1 !! dev = Some (set_uart_refcnt d 0, s)) by (cbn; by rewrite lookup_insert_eq).
  destruct (close_port w1 _ s Hp1) as (w' & E & Hu & Hi). cbn [w_ops ports_world boot_world] in E. exists w'.
  destruct (op_close _); [|done]. by split_and!.
Qed.

(** C29: a serial port has one user at a time: the device that is free opens
    with empty buffers and the receive interrupt enabled; as long as it is open
    the next open is refused with EBUSY and changes nothing; after [ioclose] it
    opens again.  A process that exits calls the close operation and does not
    give its reference back: the port it had stays busy. *)
Theorem serial_port_exclusive w d s : bw_uarts w !! dev = Some (d, s) -> refcnt d = 0 -> has_isr w d ->
  exists w1 d1, uart_opener rbr dev w = Ret (w1, 0, dev + UART_IO) /\ bw_uarts w1 !! dev = Some (d1, s) /\
    ier d1 = IER_DREIE /\ rbuf_empty (rxbuf d1) = true /\ rbuf_empty (txbuf d1) = true /\
    uart_opener rbr dev w1 = Ret (w1, - EBUSY, 0) /\
    (exists w2 w3, io_ioclose w1 (dev + UART_IO) = Ret w2 /\ uart_opener rbr dev w2 = Ret (w3, 0, dev + UART_IO)) /\
    (exists w2, close_all [Some (dev + UART_IO)] w1 = Ret (w2, [None]) /\ uart_opener rbr dev w2 = Ret (w2, - EBUSY, 0)).
Proof.
  intros Hp Hr (f & p & Hi). destruct (open_free w d s Hp Hr) as (w1 & d1 & E1 & Hp1 & Hr1 & Hier & Hrx & Htx & Hirq & Hin); [by do 2 eexists|].
  exists w1, d1. split_and!; try done.
  - apply (open_busy w1 d1 s Hp1). by rewrite Hr1.
  - destruct (ioclose_port w1 d1 s Hp1 Hr1) as (w2 & E2 & Hp2 & Hi2).
    destruct (open_free w2 _ s Hp2 ltac:(done)) as (w3 & d3 & E3 & _); [exists f, p; cbn; by rewrite Hirq, Hi2, Hin|]. by exists w2, w3.
  - destruct (close_port w1 d1 s Hp1) as (w2 & E2 & Hp2 & _). exists w2. cbn [close_all]. rewrite E2. cbn [obind]. split; [done|].
    apply (open_busy w2 _ s Hp2). cbn. by rewrite Hr1.
Qed.
End Ports.

(** The second port of the machine, as it is after the attachment. *)
Definition port_demo : world unit VioDemo.dev := {|
  bw_fs := {| fw_fs := VioDemo.k0; fw_refs := ∅ |}; bw_bus := tt;
  bw_intr := {| Intr.sstatus := 0; sie := 0; sip := 0; intr_initialized := true;
                isrtab := replicate 32 {| Intr.isr := Some (VioDemo.isr 4096); isr_prio := UART_IRQ_PRIO |} |};
  bw_uarts := {[4096 := (uart_attach_device 11, [])]}; bw_blks := ∅; bw_disk := None |}.

Lemma serial_port_exclusive_witness : exists w1 w2,
  uart_opener (fun _ => 0) 4096 port_demo = Ret (w1, 0, 4112) /\
  close_all (H := boot_world VioDemo.script 0) [Some 4112] w1 = Ret (w2, [None]) /\ uart_opener (fun _ => 0) 4096 w2 = Ret (w2, - EBUSY, 0).
Proof.
  destruct (serial_port_exclusive VioDemo.script 0 (fun _ => 0) 4096 eq_refl port_demo (uart_attach_device 11) []) as (w1 & d1 & E1 & _ & _ & _ & _ & _ & _ & HR).
  - reflexivity.
  - reflexivity.
  - exists (VioDemo.isr 4096), UART_IRQ_PRIO. reflexivity.
  - destruct HR as (w2 & E2 & E3). exists w1, w2. split; [exact E1|]. split; [exact E2|exact E3].
Defined.
