(* ===== verification/Start.v ===== *)
(** The code before the kernel's [main] (src/src/kern/start.s), and before and
    below a program's [main] (src/src/user/start.s, syscall.S).

    The privilege level, [mret] and [sret] are those of the architecture; what
    start.s relies on beyond [HartLaws] is stated in [StartLaws]. *)

From S2P Require Import Prelude Plic Intr Csr Memory Process Syscall TrapAsm Descriptors SyscallProps TrapSyscall KernDemo Boot.
From stdpp Require Import gmap list.
#[local] Open Scope Z_scope.

(** * Privilege levels *)

Inductive priv := UMode | SMode | MMode.
#[export] Instance priv_eq_dec : EqDecision priv.
Proof. solve_decision. Defined.

(** The exceptions and the interrupts that can be passed to supervisor mode;
    the interrupts of machine mode. *)
Definition delegable : list Z := [0; 1; 2; 3; 4; 5; 6; 7; 8; 12; 13; 15].
Definition s_interrupts : list Z := [1; 5; 9].
Definition m_interrupts : list Z := [3; 7; 11].

(** The registers that start.s sets up: delegation bits can be set, and are
    never stuck at one; MPP takes every level; the first PMP entry can be
    written when it is not locked (its address in units of a page); the three
    counters can be opened. *)
Class StartLaws (H : Type) `{HartLaws H} := {
  deleg_excp : forall (h : H) v i, i ∈ delegable -> Z.testbit (csr_rd (csr_wr h MEDELEG v) MEDELEG) i = Z.testbit v i;
  deleg_intr : forall (h : H) v i, i ∈ s_interrupts -> Z.testbit (csr_rd (csr_wr h MIDELEG v) MIDELEG) i = Z.testbit v i;
  deleg_zero : forall (h : H) r v i, r = MEDELEG \/ r = MIDELEG -> 0 <= i < 64 -> Z.testbit v i = false -> Z.testbit (csr_rd (csr_wr h r v) r) i = false;
  mpp_set : forall (h : H) v i, (Z.testbit v 12 = true -> Z.testbit v 11 = true) -> i = 11 \/ i = 12 ->
    Z.testbit (csr_rd (csr_wr h MSTATUS v) MSTATUS) i = Z.testbit v i;
  pmp_cfg_set : forall (h : H) v i, Z.testbit (csr_rd h PMPCFG0) 7 = false -> Z.testbit v 0 = true -> 0 <= i < 5 ->
    Z.testbit (csr_rd (csr_wr h PMPCFG0 v) PMPCFG0) i = Z.testbit v i;
  pmp_addr_set : forall (h : H) v i, Z.testbit (csr_rd h PMPCFG0) 7 = false -> 10 <= i < 54 ->
    Z.testbit (csr_rd (csr_wr h PMPADDR0 v) PMPADDR0) i = Z.testbit v i;
  counteren_set : forall (h : H) r v i, r = MCOUNTEREN \/ r = SCOUNTEREN -> 0 <= i < 3 -> Z.testbit (csr_rd (csr_wr h r v) r) i = Z.testbit v i;
}.

Section Machine.
Context {H : Type} `{Hart H}.
Implicit Types s : cpu H.

(** The level in the MPP field. *)
Definition mpp (mstatus : Z) : priv :=
  match Z.testbit mstatus 12, Z.testbit mstatus 11 with true, _ => MMode | false, true => SMode | false, false => UMode end.

(** [mret]: to mepc at the level of MPP; MIE is MPIE, MPIE 1 and MPP user. *)
Definition mret s : cpu H * Z * priv :=
  let ms := csr_rd (csrs s) MSTATUS in
  let ms' := Z.lor (Z.ldiff ms 0x1888) (Z.lor 0x80 (if Z.testbit ms 7 then 0x8 else 0)) in
  (wcsr s (csr_wr (csrs s) MSTATUS ms'), csr_rd (csrs s) MEPC, mpp ms).

(** Where a trap goes: to supervisor mode when it comes from below machine mode
    and is delegated. *)
Definition trap_to (h : H) (from : priv) (intr : bool) (code : Z) : priv * Z :=
  if negb (bool_decide (from = MMode)) && Z.testbit (csr_rd h (if intr then MIDELEG else MEDELEG)) code
  then (SMode, csr_rd h STVEC) else (MMode, csr_rd h MTVEC).

(** The first PMP entry, as a range that starts at 0 (A is TOR), allows every
    access to an address. *)
Definition pmp_allows (h : H) (a : Z) : bool :=
  let cfg := csr_rd h PMPCFG0 in
  Z.testbit cfg 3 && negb (Z.testbit cfg 4) && (0 <=? a) && (a <? 4 * csr_rd h PMPADDR0) &&
  Z.testbit cfg 0 && Z.testbit cfg 1 && Z.testbit cfg 2.

(** * start.s of the kernel *)

Section Boot.
(** The addresses of [_mmode_trap_entry], [_trap_entry_from_smode], the label
    behind [mret] and [_main_stack_anchor]. *)
Context (mmode_trap_entry trap_entry_from_smode label1 main_stack_anchor : Z).

Definition start_delegate : list instr :=
  [Li 5 0xb1ff; Csrw MEDELEG 5; Li 5 0x222; Csrw MIDELEG 5; Csrsi MSTATUS 4].
Definition start_pmp : list instr := [Addi 5 0 (-1); Csrw PMPADDR0 5; Csrsi PMPCFG0 0xf].
Definition start_vectors : list instr :=
  [Li 5 mmode_trap_entry; Li 6 trap_entry_from_smode; Csrw MTVEC 5; Csrw STVEC 6].
Definition start_counters : list instr := [Csrsi MCOUNTEREN 7; Csrsi SCOUNTEREN 7].
Definition start_to_smode : list instr :=
  [Li 5 0x1080; Li 6 0x0800; Csrc MSTATUS 5; Csrs MSTATUS 6; Li 5 label1; Csrw MEPC 5].

(** Up to the call of [main]: the level it is called at. *)
Definition start (s : cpu H) : outcome (cpu H * priv) :=
  let! s := exec (start_delegate ++ start_pmp ++ start_vectors ++ start_counters ++ start_to_smode) s in
  let '(s, pc, p) := mret s in
  guard! pc =? label1 in
  let! s := exec [Li 2 main_stack_anchor; Mv 8 0] s in
  Ret (s, p).
(** When [main] has returned: what is written where. *)
Definition start_end (s : cpu H) : Z * Z := if bnez s 10 then halt_failure else halt_success.
End Boot.
End Machine.

(** ** The machine [main] starts on *)

Section Started.
Context {H : Type} `{StartLaws H}.
Context (mmode_trap_entry trap_entry_from_smode label1 main_stack_anchor : Z).
Context (Hm : 0 <= mmode_trap_entry < 2 ^ 64 /\ mmode_trap_entry mod 4 = 0).
Context (Hs : 0 <= trap_entry_from_smode < 2 ^ 64 /\ trap_entry_from_smode mod 4 = 0).
Context (Hl : 0 <= label1 < 2 ^ 64 /\ label1 mod 4 = 0).

(** A word whose bits [a] to [b] are set is at least their sum. *)
Lemma bits_ge x a b : 0 <= x -> 0 <= a <= b -> (forall i, a <= i < b -> Z.testbit x i = true) -> 2 ^ b - 2 ^ a <= x.
Proof.
  intros Hx Hab Hb. assert (E : Z.shiftr (x mod 2 ^ b) a = Z.ones (b - a)).
  { apply Z.bits_inj'. intros i Hi. rewrite Z.shiftr_spec, Z.testbit_ones by lia. replace (0 <=? i) with true by lia.
    destruct (Z.ltb_spec i (b - a)); [rewrite Z.mod_pow2_bits_low by lia; apply Hb; lia|apply Z.mod_pow2_bits_high; lia]. }
  rewrite Z.shiftr_div_pow2, Z.ones_equiv in E by lia. assert (Hpa : 0 < 2 ^ a) by (apply Z.pow_pos_nonneg; lia).
  assert (Hpb : 0 < 2 ^ b) by (apply Z.pow_pos_nonneg; lia).
  assert (Hp : 2 ^ b = 2 ^ (b - a) * 2 ^ a) by (rewrite <- Z.pow_add_r by lia; f_equal; lia).
  pose proof (Z.mul_div_le (x mod 2 ^ b) (2 ^ a) Hpa) as Hd. rewrite E in Hd. pose proof (Z.mod_le x (2 ^ b) Hx Hpb). nia.
Qed.

(** Code that uses only t0 and t1 and does [f] to the control registers. *)
Definition sets_csrs (l : list instr) (f : H -> H) : Prop := forall s : cpu H,
  exists s', exec l s = Ret s' /\ csrs s' = f (csrs s) /\ (forall r, r <> 5%nat -> r <> 6%nat -> gpr s' r = gpr s r) /\ dmem s' = dmem s.
Lemma sets_csrs_app l1 l2 f g : sets_csrs l1 f -> sets_csrs l2 g -> sets_csrs (l1 ++ l2) (fun h => g (f h)).
Proof.
  intros H12 H23 s. destruct (H12 s) as (s1 & E1 & C1 & G1 & D1). destruct (H23 s1) as (s2 & E2 & C2 & G2 & D2).
  exists s2. rewrite exec_app, E1. cbn [obind]. split; [exact E2|]. split; [congruence|]. split; [|congruence]. intros r R1 R2. by rewrite G2, G1.
Qed.
#[local] Ltac one_part := intros s; eexists; split; [reflexivity|]; split; [reflexivity|]; split; [|reflexivity];
  intros r R1 R2; cbn; by rewrite ?(proj2 (Nat.eqb_neq _ _) R1), ?(proj2 (Nat.eqb_neq _ _) R2).

(** The registers before [mret]. *)
Definition boot_csrs (h : H) : H :=
  let h := (Csr.csrrs (csr_wr (csr_wr h MEDELEG 0xb1ff) MIDELEG 0x222) MSTATUS 4).1 in
  let h := (Csr.csrrs (csr_wr h PMPADDR0 (u64 (-1))) PMPCFG0 0xf).1 in
  let h := csr_wr (csr_wr h MTVEC mmode_trap_entry) STVEC trap_entry_from_smode in
  let h := (Csr.csrrs (Csr.csrrs h MCOUNTEREN 7).1 SCOUNTEREN 7).1 in
  csr_wr (Csr.csrrs (Csr.csrrc h MSTATUS 0x1080).1 MSTATUS 0x800).1 MEPC label1.

Lemma start_exec :
  sets_csrs (start_delegate ++ start_pmp ++ start_vectors mmode_trap_entry trap_entry_from_smode ++ start_counters ++ start_to_smode label1) boot_csrs.
Proof.
  assert (P1 : sets_csrs start_delegate (fun h => (Csr.csrrs (csr_wr (csr_wr h MEDELEG 0xb1ff) MIDELEG 0x222) MSTATUS 4).1)) by one_part.
  assert (P2 : sets_csrs start_pmp (fun h => (Csr.csrrs (csr_wr h PMPADDR0 (u64 (-1))) PMPCFG0 0xf).1)) by one_part.
  assert (P3 : sets_csrs (start_vectors mmode_trap_entry trap_entry_from_smode)
    (fun h => csr_wr (csr_wr h MTVEC mmode_trap_entry) STVEC trap_entry_from_smode)) by one_part.
  assert (P4 : sets_csrs start_counters (fun h => (Csr.csrrs (Csr.csrrs h MCOUNTEREN 7).1 SCOUNTEREN 7).1)) by one_part.
  assert (P5 : sets_csrs (start_to_smode label1) (fun h => csr_wr (Csr.csrrs (Csr.csrrc h MSTATUS 0x1080).1 MSTATUS 0x800).1 MEPC label1)) by one_part.
  exact (sets_csrs_app _ _ _ _ P1 (sets_csrs_app _ _ _ _ P2 (sets_csrs_app _ _ _ _ P3 (sets_csrs_app _ _ _ _ P4 P5)))).
Qed.

#[local] Ltac other := unfold boot_csrs; cbn [Csr.csrrs Csr.csrrc fst]; repeat (rewrite csr_other by done).

Lemma boot_mpp h : mpp (csr_rd (boot_csrs h) MSTATUS) = SMode.
Proof.
  other. set (h9 := csr_wr _ SCOUNTEREN _). set (v := Z.ldiff (csr_rd h9 MSTATUS) 0x1080).
  assert (V12 : Z.testbit v 12 = false) by (unfold v; rewrite Z.ldiff_spec by lia; apply andb_false_r).
  set (w := Z.lor (csr_rd (csr_wr h9 MSTATUS v) MSTATUS) 0x800).
  assert (W12 : Z.testbit w 12 = false) by (unfold w; rewrite Z.lor_spec, mpp_set, V12; [done|congruence|by right]).
  assert (W11 : Z.testbit w 11 = true) by (unfold w; rewrite Z.lor_spec; apply orb_true_r).
  unfold mpp. rewrite !mpp_set, W12, W11; [done|done|by left|done|by right].
Qed.
Lemma boot_medeleg h i : i ∈ delegable -> Z.testbit (csr_rd (boot_csrs h) MEDELEG) i = true.
Proof.
  intros Hi. other. rewrite deleg_excp by done. revert i Hi. apply Forall_forall. apply (bool_decide_unpack _). vm_compute. exact I.
Qed.
Lemma boot_mideleg h i : i ∈ s_interrupts -> Z.testbit (csr_rd (boot_csrs h) MIDELEG) i = true.
Proof.
  intros Hi. other. rewrite deleg_intr by done. revert i Hi. apply Forall_forall. apply (bool_decide_unpack _). vm_compute. exact I.
Qed.
Lemma boot_ecall h : Z.testbit (csr_rd (boot_csrs h) MEDELEG) RISCV_SCAUSE_ECALL_FROM_SMODE = false.
Proof. other. apply deleg_zero; [by left|unfold RISCV_SCAUSE_ECALL_FROM_SMODE; lia|reflexivity]. Qed.
Lemma boot_m_intr h i : i ∈ m_interrupts -> Z.testbit (csr_rd (boot_csrs h) MIDELEG) i = false.
Proof.
  intros Hi. other. assert (Hz : 0 <= i < 64 /\ Z.testbit 0x222 i = false); [|apply deleg_zero; [by right|apply Hz..]].
  revert i Hi. apply Forall_forall. repeat (apply Forall_cons_2; [split; [lia|reflexivity]|]). apply Forall_nil_2.
Qed.
Lemma boot_vectors h : csr_rd (boot_csrs h) MTVEC = mmode_trap_entry /\ csr_rd (boot_csrs h) STVEC = trap_entry_from_smode /\
  csr_rd (boot_csrs h) MEPC = label1.
Proof. split_and!; other; apply csr_same; try apply Hm; try apply Hs; try apply Hl; cbn [csr_legal]; apply Z.eqb_eq; [apply Hm|apply Hs|apply Hl]. Qed.
Lemma boot_pmp h a : Z.land (csr_rd h PMPCFG0) 0x9f = 0 -> 0 <= a < 2 ^ 56 - 2 ^ 12 -> pmp_allows (boot_csrs h) a = true.
Proof.
  intros Hcfg Ha. assert (Hb : forall i, 0 <= i < 5 \/ i = 7 -> Z.testbit (csr_rd h PMPCFG0) i = false).
  { intros i Hi. assert (E : Z.testbit (Z.land (csr_rd h PMPCFG0) 0x9f) i = false) by (rewrite Hcfg; apply Z.bits_0).
    rewrite Z.land_spec in E. replace (Z.testbit 0x9f i) with true in E; [by rewrite andb_true_r in E|].
    assert (Hc : i = 0 \/ i = 1 \/ i = 2 \/ i = 3 \/ i = 4 \/ i = 7) by lia. by repeat destruct Hc as [->|Hc]; [..|subst i]. }
  unfold pmp_allows. set (cfg := csr_rd _ PMPCFG0). set (addr := csr_rd _ PMPADDR0).
  assert (Hc : forall i, 0 <= i < 5 -> Z.testbit cfg i = Z.testbit 0xf i).
  { intros i Hi. unfold cfg. other. rewrite pmp_cfg_set; [|other; by apply Hb; right|by rewrite Z.lor_spec, orb_true_r|done].
    other. by rewrite Z.lor_spec, Hb by lia. }
  assert (Haddr : 2 ^ 54 - 2 ^ 10 <= addr).
  { apply bits_ge; [apply csr_width|lia|]. intros i Hi. unfold addr. other. rewrite pmp_addr_set; [|other; by apply Hb; right|done].
    unfold u64. change (-1 mod 2 ^ 64) with (Z.ones 64). apply Z.ones_spec_low. lia. }
  rewrite !Hc by lia. change (Z.testbit 0xf 3) with true. change (Z.testbit 0xf 4) with false. change (Z.testbit 0xf 0) with true.
  change (Z.testbit 0xf 1) with true. change (Z.testbit 0xf 2) with true. cbn [negb andb]. rewrite !andb_true_r. apply andb_true_iff. lia.
Qed.
Lemma boot_counters h r i : r = MCOUNTEREN \/ r = SCOUNTEREN -> 0 <= i < 3 -> Z.testbit (csr_rd (boot_csrs h) r) i = true.
Proof.
  intros Hr Hi. assert (H7 : Z.testbit 7 i = true) by (assert (Hc : i = 0 \/ i = 1 \/ i = 2) by lia; by destruct Hc as [->|[->| ->]]).
  destruct Hr as [-> | ->]; other; (rewrite counteren_set; [|by (left + right)|done]); by rewrite Z.lor_spec, H7, orb_true_r.
Qed.

(** C17: start.s hands the machine over to [main] in supervisor mode: on the
    main stack, with physical memory and the counters open to supervisor mode;
    from then on the exceptions and interrupts of supervisor and user mode trap
    to [_trap_entry_from_smode], except that the [ecall] of the kernel, with the
    interrupts of machine mode, traps to [_mmode_trap_entry], which runs the
    timer. *)
Theorem start_routes_traps (s : cpu H) : Z.land (csr_rd (csrs s) PMPCFG0) 0x9f = 0 ->
  exists s', start mmode_trap_entry trap_entry_from_smode label1 main_stack_anchor s = Ret (s', SMode) /\
    rx s' 2 = main_stack_anchor /\ rx s' 8 = 0 /\ dmem s' = dmem s /\
    (forall from code, from <> MMode ->
       (code ∈ delegable -> trap_to (csrs s') from false code = (SMode, trap_entry_from_smode)) /\
       (code ∈ s_interrupts -> trap_to (csrs s') from true code = (SMode, trap_entry_from_smode)) /\
       (code ∈ m_interrupts -> trap_to (csrs s') from true code = (MMode, mmode_trap_entry))) /\
    trap_to (csrs s') SMode false RISCV_SCAUSE_ECALL_FROM_SMODE = (MMode, mmode_trap_entry) /\
    (forall a, 0 <= a < 2 ^ 56 - 2 ^ 12 -> pmp_allows (csrs s') a = true) /\
    (forall r i, r = MCOUNTEREN \/ r = SCOUNTEREN -> 0 <= i < 3 -> Z.testbit (csr_rd (csrs s') r) i = true).
Proof.
  intros Hcfg. destruct (start_exec s) as (s1 & E1 & Hc & _ & Hd). destruct (boot_vectors (csrs s)) as (V1 & V2 & V3).
  unfold start. rewrite E1. cbn [obind]. unfold mret. rewrite Hc, boot_mpp, V3, Z.eqb_refl. cbn [exec exec1 obind].
  eexists. split; [reflexivity|]. split; [reflexivity|]. split; [reflexivity|]. split; [exact Hd|]. cbn [wx wcsr csrs].
  set (h' := csr_wr _ MSTATUS _).
  assert (Hrd : forall r, csr_file r <> MSTATUS -> csr_rd h' r = csr_rd (boot_csrs (csrs s)) r) by (intros r Hr; apply csr_other; [cbn; congruence|done]).
  split; [|split; [|split]].
  - intros from code Hf. unfold trap_to. rewrite bool_decide_false by done. rewrite !Hrd, V1, V2 by done. cbn [negb andb].
    split_and!; intros Hin; [by rewrite boot_medeleg|by rewrite boot_mideleg|by rewrite boot_m_intr].
  - unfold trap_to. rewrite !Hrd, V1, V2, boot_ecall by done. done.
  - intros a Ha. unfold pmp_allows. rewrite !Hrd by done. by apply boot_pmp.
  - intros r i Hr Hi. rewrite Hrd by (by destruct Hr as [-> | ->]). by apply boot_counters.
Qed.
End Started.

(** The processor of the examples; it is reset with all registers 0. *)
Module StartDemo.
Import HartDemo.
#[global, program] Instance start_laws : StartLaws hart.
Next Obligation.
  intros h v i Hi. cbn [csr_rd csr_wr demo_hart]. assert (Hr : 0 <= i < 64).
  { revert i Hi. apply Forall_forall. repeat (apply Forall_cons_2; [lia|]). apply Forall_nil_2. }
  pose proof (wr_file h MEDELEG v i Hr) as E. cbn [csr_file wmask fit deleg] in E. by rewrite E, andb_diag, testbit_ones64, (proj2 (Z.ltb_lt _ _) (proj2 Hr)) by lia.
Qed.
Next Obligation.
  intros h v i Hi. cbn [csr_rd csr_wr demo_hart]. assert (Hr : 0 <= i < 64).
  { revert i Hi. apply Forall_forall. repeat (apply Forall_cons_2; [lia|]). apply Forall_nil_2. }
  pose proof (wr_file h MIDELEG v i Hr) as E. cbn [csr_file wmask fit deleg] in E. by rewrite E, andb_diag, testbit_ones64, (proj2 (Z.ltb_lt _ _) (proj2 Hr)) by lia.
Qed.
Next Obligation.
  intros h r v i Hr Hi Hv. cbn [csr_rd csr_wr demo_hart]. pose proof (wr_file h r v i Hi) as E.
  destruct Hr as [-> | ->]; cbn [csr_file wmask fit deleg] in E; by rewrite E, andb_diag, testbit_ones64, (proj2 (Z.ltb_lt _ _) (proj2 Hi)) by lia.
Qed.
Next Obligation.
  intros h v i _ Hi. cbn [csr_rd csr_wr demo_hart]. pose proof (wr_file h MSTATUS v i ltac:(lia)) as E. cbn [csr_file fit] in E. rewrite E.
  by destruct Hi as [-> | ->].
Qed.
Next Obligation.
  intros h v i _ _ Hi. cbn [csr_rd csr_wr demo_hart]. pose proof (wr_file h PMPCFG0 v i ltac:(lia)) as E. cbn [csr_file wmask fit deleg] in E.
  by rewrite E, andb_diag, testbit_ones64, (proj2 (Z.ltb_lt i 64)) by lia.
Qed.
Next Obligation.
  intros h v i _ Hi. cbn [csr_rd csr_wr demo_hart]. pose proof (wr_file h PMPADDR0 v i ltac:(lia)) as E. cbn [csr_file wmask fit deleg] in E.
  by rewrite E, andb_diag, testbit_ones64, (proj2 (Z.ltb_lt i 64)) by lia.
Qed.
Next Obligation.
  intros h r v i Hr Hi. cbn [csr_rd csr_wr demo_hart]. pose proof (wr_file h r v i ltac:(lia)) as E.
  destruct Hr as [-> | ->]; cbn [csr_file wmask fit deleg] in E; by rewrite E, andb_diag, testbit_ones64, (proj2 (Z.ltb_lt i 64)) by lia.
Qed.
Definition reset : cpu hart := {| gpr := fun _ => 0; csrs := fun _ => 0; dmem := fun _ => 0 |}.
End StartDemo.

Lemma start_routes_traps_witness : exists s', start 0x80001000 0x80002000 0x80000040 0x80011000 StartDemo.reset = Ret (s', SMode) /\
  rx s' 2 = 0x80011000 /\ trap_to (csrs s') UMode false 8 = (SMode, 0x80002000) /\ trap_to (csrs s') SMode true 7 = (MMode, 0x80001000) /\
  pmp_allows (csrs s') 0x80200000 = true.
Proof.
  destruct (start_routes_traps 0x80001000 0x80002000 0x80000040 0x80011000 ltac:(vm_compute; repeat split; discriminate)
    ltac:(vm_compute; repeat split; discriminate) ltac:(vm_compute; repeat split; discriminate) StartDemo.reset eq_refl)
    as (s' & E & Hsp & _ & _ & Ht & _ & Hp & _).
  exists s'. split; [exact E|]. split; [exact Hsp|]. split; [|split].
  - apply (Ht UMode 8); [discriminate|apply (bool_decide_unpack _); vm_compute; exact I].
  - apply (Ht SMode 7); [discriminate|apply (bool_decide_unpack _); vm_compute; exact I].
  - apply Hp. lia.
Defined.
