(* ===== verification/UserCalls.v ===== *)
(** System calls as a program makes them: the start-up code and the call stubs
    of user programs (src/src/user/start.s, syscall.S), from the call of a stub
    to its return, over the trap code and the system calls of the kernel. *)

From S2P Require Import Prelude IoLit PageTable VmOps UserMem VmClone Kfs KfsFiles Elf Plic Intr Csr Thread Memory MemInit Process Syscall TrapAsm Descriptors SyscallProps TrapSyscall KernDemo Exec Start.
From stdpp Require Import gmap list.
#[local] Open Scope Z_scope.

(** * The stubs *)

Inductive stub := u_exit | u_msgout | u_devopen | u_fsopen | u_close | u_read | u_write | u_ioctl | u_exec | u_fork | u_wait | u_usleep | u_pioref.

Definition stub_num (f : stub) : Z :=
  match f with
  | u_exit => SYSCALL_EXIT | u_msgout => SYSCALL_MSGOUT | u_devopen => SYSCALL_DEVOPEN | u_fsopen => SYSCALL_FSOPEN
  | u_close => SYSCALL_CLOSE | u_read => SYSCALL_READ | u_write => SYSCALL_WRITE | u_ioctl => SYSCALL_IOCTL
  | u_exec => SYSCALL_EXEC | u_fork => SYSCALL_FORK | u_wait => SYSCALL_WAIT | u_usleep => SYSCALL_USLEEP | u_pioref => SYSCALL_PIOREF
  end.
(** What is in front of the [ecall]. *)
Definition stub_code (f : stub) : list instr := [Li 17 (stub_num f)].

(** * Into the kernel and back *)

(** An exception in user mode, with its cause and the address of the
    instruction. *)
Class UserTraps (H : Type) `{HartLaws H} := {
  take_trap : H -> Z -> Z -> H;
  tt_cause : forall h c pc, 0 <= c < 2 ^ 63 -> csr_rd (take_trap h c pc) SCAUSE = c;
  tt_pc : forall h c pc, 0 <= pc < 2 ^ 64 -> pc mod 4 = 0 -> csr_rd (take_trap h c pc) SEPC = pc;
  tt_spp : forall h c pc, Z.testbit (csr_rd (take_trap h c pc) SSTATUS) 8 = false;
  tt_spie : forall h c pc, Z.testbit (csr_rd (take_trap h c pc) SSTATUS) 5 = Z.testbit (csr_rd h SSTATUS) 1;
  tt_other : forall h c pc r, csr_file r ∉ [SCAUSE; SEPC; STVAL; MSTATUS] -> csr_rd (take_trap h c pc) r = csr_rd h r;
}.

Section Calls.
Context {W : Type} `{IoW : IoWorld W} {HT : Type} `{UserTraps HT}.
Context (img : kimg) (main trap_entry_from_smode trap_entry_from_umode back : Z).
Context (on_intr : kern W -> Z -> trap_frame -> outcome (kern W * trap_frame * option ending)).
Notation kern := (kern W).
Implicit Types s : cpu HT.

(** [sret]: to sepc, at the level of SPP; SIE is SPIE, SPIE 1 and SPP user. *)
Definition sret s : cpu HT * Z * priv :=
  let ss := csr_rd (csrs s) SSTATUS in
  let ss' := Z.lor (Z.ldiff ss 0x122) (Z.lor 0x20 (if Z.testbit ss 5 then 0x2 else 0)) in
  (wcsr s (csr_wr (csrs s) SSTATUS ss'), csr_rd (csrs s) SEPC, if Z.testbit ss 8 then SMode else UMode).

(** [thread_jump_to_user] of the thread [t]: its arguments in a0 to a2. *)
Definition thread_jump_to_user (t : thread) (usp upc : Z) s : outcome (cpu HT) :=
  thread_finish_jump trap_entry_from_umode (wx (wx (wx s 10 (stack_base t)) 11 usp) 12 upc).

(** [_start]: the link of [main] is [_exit]. *)
Definition user_start (exit : Z) s : outcome (cpu HT) := exec [Li 1 exit] s.

(** A stub at [pc]: [li], [ecall] and, when the kernel has come back to the
    instruction behind the [ecall], [ret] to the address in ra.  The result is
    the state with the program counter and the level, or how the call ended
    when it does not come back. *)
Definition call_stub (k : kern) (j : junk) s (pc : Z) (f : stub) : outcome (kern * (cpu HT * Z * priv + ending)) :=
  let! s := exec (stub_code f) s in
  let s := wcsr s (take_trap (csrs s) RISCV_SCAUSE_ECALL_FROM_UMODE (pc + 4)) in
  let! (k, s, e) := user_trap img main trap_entry_from_smode trap_entry_from_umode back on_intr k j s in
  match e with
  | None | Some (Returns _) =>
      let '(s, pc', p) := sret s in
      guard! pc' =? pc + 8 in Ret (k, inl (s, rx s 1, p))
  | Some e => Ret (k, inr e)
  end.

(** A program from [_start] on: what runs when [main] returns is at the address
    in ra. *)
Definition user_program (exit : Z) (user_main : kern -> cpu HT -> outcome (kern * cpu HT)) (k : kern) (j : junk) s : outcome (kern * (cpu HT * Z * priv + ending)) :=
  let! s := user_start exit s in
  let! (k, s) := user_main k s in
  guard! rx s 1 =? exit in call_stub k j s exit u_exit.

(** * What the prototypes of syscall.h say *)

(** The function of the kernel behind each stub, on the arguments with the
    types of its prototype. *)
Definition stub_call (f : stub) (k : kern) (j : junk) (a0 a1 a2 : Z) : outcome (kern * ending) :=
  match f with
  | u_exit => sysexit main k
  | u_msgout => sysmsgout k a0
  | u_devopen => sysdevopen k (i32 a0) a1 (i32 a2)
  | u_fsopen => sysfsopen k (i32 a0) a1
  | u_close => sysclose k (i32 a0)
  | u_read => sysread k (i32 a0) a1 a2
  | u_write => syswrite k (i32 a0) a1 a2
  | u_ioctl => sysioctl k (i32 a0) (i32 a1) a2
  | u_exec => sysexec k (i32 a0)
  | u_fork => sysfork img k j
  | u_wait => syswait k (i32 a0)
  | u_usleep => sysusleep k j a0
  | u_pioref => syspioref k
  end.
Lemma stub_dispatch f k j a0 a1 a2 : syscall img main k j (stub_num f) a0 a1 a2 = stub_call f k j a0 a1 a2.
Proof. by destruct f. Qed.

(** * Properties *)

Context (Hsmode : 0 <= trap_entry_from_smode < 2 ^ 64 /\ trap_entry_from_smode mod 4 = 0).
Context (Humode : 0 <= trap_entry_from_umode < 2 ^ 64 /\ trap_entry_from_umode mod 4 = 0).

(** The way back to user mode. *)
Lemma sret_user s (h : HT) : Z.testbit (csr_rd (csrs s) SSTATUS) 8 = false -> Z.testbit (csr_rd (csrs s) SSTATUS) 5 = Z.testbit (csr_rd h SSTATUS) 1 ->
  exists s', sret s = (s', csr_rd (csrs s) SEPC, UMode) /\ (forall r, rx s' r = rx s r) /\
    Z.testbit (csr_rd (csrs s') SSTATUS) 1 = Z.testbit (csr_rd h SSTATUS) 1 /\
    forall r, csr_file r <> MSTATUS -> csr_rd (csrs s') r = csr_rd (csrs s) r.
Proof.
  intros H8 H5. unfold sret. rewrite H8, H5. eexists. split; [reflexivity|]. split; [done|]. cbn [wcsr csrs]. split.
  - rewrite (csr_view _ SSTATUS 1) by (done || (cbn; by left)). rewrite (csr_set _ SSTATUS _ 1) by (done || (cbn; by left)).
    rewrite Z.lor_spec, Z.ldiff_spec by lia. change (Z.testbit 0x122 1) with true. rewrite andb_false_r. cbn [orb].
    by destruct (Z.testbit (csr_rd h SSTATUS) 1).
  - intros r Hr. apply csr_other; [cbn; congruence|done].
Qed.

(** A bit of the status that shows through, when the two agree. *)
Lemma status_bit s (k : kern) i : same_bits (visible SSTATUS) (csr_rd (csrs s) SSTATUS) (mm_sstatus (k_mm k)) -> i ∈ visible SSTATUS ->
  Z.testbit (csr_rd (csrs s) SSTATUS) i = Z.testbit (mm_sstatus (k_mm k)) i.
Proof. intros Hs Hi. exact (Hs i Hi). Qed.

(** C8: when [process_exec] has loaded a program, [thread_jump_to_user] and
    [sret] start it at its entry point on the user stack with interrupts
    enabled; its traps go to [_trap_entry_from_umode] and its first trap finds
    the stack of the thread.  The level is the one in SPP, which [process_exec]
    leaves as it is: user mode if SPP was clear. *)
Theorem exec_enters_user k exeio k' usp upc t s : process_exec k exeio = Ret (k', Jumps usp upc) ->
  thrs (k_thr k') !! curthr (k_thr k') = Some t -> 0 <= stack_base t < 2 ^ 64 -> 0 <= upc < 2 ^ 64 -> upc mod 4 = 0 ->
  same_bits (visible SSTATUS) (csr_rd (csrs s) SSTATUS) (mm_sstatus (k_mm k')) ->
  exists s1 s2, thread_jump_to_user t usp upc s = Ret s1 /\
    sret s1 = (s2, upc, if Z.testbit (mm_sstatus (k_mm k')) 8 then SMode else UMode) /\
    rx s2 2 = USER_STACK_VMA /\ Z.testbit (csr_rd (csrs s2) SSTATUS) 1 = true /\
    csr_rd (csrs s2) STVEC = trap_entry_from_umode /\ csr_rd (csrs s2) SSCRATCH = stack_base t.
Proof.
  intros Hex Ht Hst Hupc Hal Hss. unfold process_exec in Hex. apply obind_Ret_inv in Hex as (m & _ & Hex).
  apply obind_Ret_inv in Hex as ([[[w m1] r] ep] & _ & Hex). destruct (r <? 0); [discriminate|]. destruct ep as [e|]; [|discriminate].
  destruct (intr_disable (mm_sstatus m1)) as [ss sv]. injection Hex as <- <- <-.
  assert (H5 : Z.testbit (csr_rd (csrs s) SSTATUS) 5 = true).
  { rewrite (status_bit s _ 5 Hss) by (cbn; right; left). cbn [k_mm set_mm set_thr with_status mm_sstatus].
    rewrite !Z.lor_spec. change (Z.testbit RISCV_SSTATUS_SPIE 5) with true. by rewrite !orb_true_r. }
  assert (H8 := status_bit s _ 8 Hss ltac:(cbn; do 2 right; left)).
  set (s0 := wx (wx (wx s 10 (stack_base t)) 11 USER_STACK_VMA) 12 e).
  destruct (thread_finish_jump_spec trap_entry_from_umode Humode s0 Hst Hupc Hal) as (s1 & E1 & [U1 U2 U3] & Hsp & _ & Hs1).
  exists s1. change (thread_jump_to_user t USER_STACK_VMA e s) with (thread_finish_jump trap_entry_from_umode s0). rewrite E1. change (csr_rd (csrs s0) SSTATUS) with (csr_rd (csrs s) SSTATUS) in Hs1.
  eexists. split; [reflexivity|]. unfold sret. rewrite Hs1, U3, H8, H5. split; [reflexivity|]. cbn [wcsr csrs]. split; [exact Hsp|]. split.
  - rewrite (csr_view _ SSTATUS 1) by (done || (cbn; by left)). rewrite (csr_set _ SSTATUS _ 1) by (done || (cbn; by left)). rewrite Z.lor_spec. by rewrite orb_true_r.
  - rewrite !csr_other by done. done.
Qed.

(** A call that does not come back to the program. *)
Lemma stub_ends k j s pc f k' e : let ksp := csr_rd (csrs s) SSCRATCH in
  0 <= gpr s 2 < 2 ^ 64 -> ksp mod 8 = 0 -> 34 * 8 <= ksp ->
  stub_call f k j (rx s 10) (rx s 11) (rx s 12) = Ret (k', e) -> (forall r, e <> Returns r) -> call_stub k j s pc f = Ret (k', inr e).
Proof.
  intros ksp Hu Hal Hlo Hcall He. unfold call_stub, stub_code. cbn [exec exec1 obind]. set (s1 := wcsr _ _).
  assert (Hr1 : forall i, i <> 17%nat -> rx s1 i = rx s i).
  { intros i Hi. change (rx s1 i) with (rx (wx s 17 (stub_num f)) i). by rewrite rx_wx, (proj2 (Nat.eqb_neq _ _) Hi). }
  assert (Hk : csr_rd (csrs s1) SSCRATCH = ksp) by (cbn [s1 wcsr csrs wx]; apply tt_other, (bool_decide_unpack _); vm_compute; exact I).
  assert (Hc : csr_rd (csrs s1) SCAUSE = RISCV_SCAUSE_ECALL_FROM_UMODE) by by apply tt_cause.
  destruct (umode_enter_spec trap_entry_from_smode trap_entry_from_umode back Hsmode s1 Hu) as (s2 & E2 & Hen & _); [by rewrite Hk..|].
  rewrite Hk in Hen. unfold user_trap. rewrite E2, Hc. cbn [obind]. change (cause_target ToUmodeExcp RISCV_SCAUSE_ECALL_FROM_UMODE) with ToUmodeExcp. cbv iota.
  rewrite (en_code _ _ _ Hen), (en_frame _ _ _ Hen), Hc. unfold umode_excp_handler.
  change (u32 (cause_code RISCV_SCAUSE_ECALL_FROM_UMODE) =? RISCV_SCAUSE_ECALL_FROM_UMODE) with true. cbv iota.
  set (f0 := frame_at _ _). assert (Hr : forall i, (1 <= i < 32)%nat -> reg f0 i = rx s1 i) by (intros i Hi; by apply entered_reg).
  unfold syscall_handler. cbn [set_sepc].
  unfold reg in *. cbn [tf_x set_sepc]. unfold TFR_A7, TFR_A0, TFR_A1, TFR_A2. rewrite !Hr by lia.
  rewrite (Hr1 10%nat), (Hr1 11%nat), (Hr1 12%nat) by done. change (rx s1 17) with (stub_num f). rewrite stub_dispatch, Hcall. cbn [obind].
  destruct e; try done. by destruct (He r).
Qed.

(** A program whose [main] returns exits: [_start] has left [_exit] as the
    return address. *)
Lemma main_returns_exits k j s exit user_main k1 s1 k' e : let ksp := csr_rd (csrs s1) SSCRATCH in
  (forall s0, rx s0 1 = exit -> user_main k s0 = Ret (k1, s1)) -> rx s1 1 = exit ->
  0 <= gpr s1 2 < 2 ^ 64 -> ksp mod 8 = 0 -> 34 * 8 <= ksp -> sysexit main k1 = Ret (k', e) -> (forall r, e <> Returns r) ->
  user_program exit user_main k j s = Ret (k', inr e).
Proof.
  intros ksp Hm Hra Hu Hal Hlo Hex He. unfold user_program, user_start. cbn [exec exec1 obind]. rewrite Hm by reflexivity. cbn [obind].
  rewrite Hra, Z.eqb_refl. by apply stub_ends.
Qed.

(** C6: a C program calls a stub of syscall.S like a function: the kernel runs
    the system call that the prototype in syscall.h names, on its arguments, and
    the stub returns to its caller in user mode with the result in a0; every
    other register is as it was, except a7, which holds the number of the call,
    and interrupts are on or off as before. *)
Theorem stub_returns k j s pc f k' r : let ksp := csr_rd (csrs s) SSCRATCH in
  0 <= pc -> pc mod 4 = 0 -> pc + 8 < 2 ^ 64 -> 0 <= gpr s 2 < 2 ^ 64 -> ksp mod 8 = 0 -> 34 * 8 <= ksp -> ksp + 8 <= 2 ^ 64 ->
  stub_call f k j (rx s 10) (rx s 11) (rx s 12) = Ret (k', Returns r) ->
  exists s', call_stub k j s pc f = Ret (k', inl (s', rx s 1, UMode)) /\ rx s' 10 = u64 r /\ rx s' 17 = stub_num f /\
    (forall i, i <> 10%nat -> i <> 17%nat -> (i < 32)%nat -> rx s' i = rx s i) /\
    Z.testbit (csr_rd (csrs s') SSTATUS) 1 = Z.testbit (csr_rd (csrs s) SSTATUS) 1 /\
    csr_rd (csrs s') STVEC = trap_entry_from_umode /\ csr_rd (csrs s') SSCRATCH = ksp.
Proof.
  intros ksp Hp0 Hp4 Hp8 Hu Hal Hlo Hhi Hcall. unfold call_stub, stub_code. cbn [exec exec1 obind].
  set (s1 := wcsr _ _). assert (Hr1 : forall i, i <> 17%nat -> rx s1 i = rx s i).
  { intros i Hi. change (rx s1 i) with (rx (wx s 17 (stub_num f)) i). by rewrite rx_wx, (proj2 (Nat.eqb_neq _ _) Hi). }
  assert (Hk : csr_rd (csrs s1) SSCRATCH = ksp) by (cbn [s1 wcsr csrs wx]; apply tt_other, (bool_decide_unpack _); vm_compute; exact I).
  assert (Hpc : csr_rd (csrs s1) SEPC = pc + 4) by (apply tt_pc; [lia|Z.to_euclidean_division_equations; lia]).
  destruct (ecall_resumes img main trap_entry_from_smode trap_entry_from_umode back on_intr Hsmode Humode k j s1 k' r)
    as (s2 & E2 & A2 & R2 & P2 & S2 & V2 & K2); rewrite ?Hk, ?Hpc; try done; try lia.
  - by apply tt_cause.
  - Z.to_euclidean_division_equations; lia.
  - rewrite (Hr1 10%nat), (Hr1 11%nat), (Hr1 12%nat) by done. change (rx s1 17) with (stub_num f). by rewrite stub_dispatch.
  - rewrite E2. cbn [obind]. rewrite Hpc in P2. rewrite Hk in K2.
    destruct (sret_user s2 (csrs s)) as (s3 & E3 & R3 & B3 & C3).
    { rewrite (S2 8) by (cbn; do 2 right; left). apply tt_spp. }
    { rewrite (S2 5) by (cbn; right; left). apply tt_spie. }
    rewrite E3, P2. replace (pc + 4 + 4 =? pc + 8) with true by lia. exists s3. split; [rewrite R3, R2, Hr1 by (done || lia); reflexivity|].
    rewrite !R3, (R2 17%nat) by (done || lia). split; [exact A2|]. split; [reflexivity|]. split.
    { intros i I1 I2 Hi. by rewrite R3, R2, Hr1. }
    split; [exact B3|]. by rewrite !C3.
Qed.
End Calls.

(** A processor that takes exceptions from user mode, and a program that calls
    [_read] of a descriptor which is not open. *)
Module CallDemo.
Import HartDemo.
Definition entered_status (ms : Z) : Z := Z.lor (Z.ldiff ms 0x122) (if Z.testbit ms 1 then 0x20 else 0).
Definition trap (h : hart) (c pc : Z) : hart := fun r =>
  match r with SCAUSE => c | SEPC => pc | STVAL => 0 | MSTATUS => entered_status (h MSTATUS) | r => h r end.
#[global, program] Instance traps : UserTraps hart := { take_trap := trap }.
Next Obligation. intros h c pc Hc. cbn [csr_rd demo_hart]. unfold rd. cbn [csr_file trap rmask deleg]. change (Z.land ones64 ones64) with (Z.ones 64). rewrite Z.land_ones, Z.mod_small by lia. done. Qed.
Next Obligation. intros h c pc Hc _. cbn [csr_rd demo_hart]. unfold rd. cbn [csr_file trap rmask deleg]. change (Z.land ones64 ones64) with (Z.ones 64). rewrite Z.land_ones, Z.mod_small by lia. done. Qed.
Next Obligation.
  intros h c pc. cbn [csr_rd demo_hart]. unfold rd. cbn [csr_file trap rmask deleg]. change (Z.land 0x40122 ones64) with 0x40122. unfold entered_status. rewrite Z.land_spec, Z.lor_spec, Z.ldiff_spec by lia.
  change (Z.testbit 0x122 8) with true. rewrite andb_false_r. by destruct (Z.testbit (h MSTATUS) 1).
Qed.
Next Obligation.
  intros h c pc. cbn [csr_rd demo_hart]. unfold rd. cbn [csr_file trap rmask deleg]. change (Z.land 0x40122 ones64) with 0x40122. unfold entered_status. rewrite !Z.land_spec, Z.lor_spec, Z.ldiff_spec by lia.
  change (Z.testbit 0x122 5) with true. rewrite andb_false_r. by destruct (Z.testbit (h MSTATUS) 1).
Qed.
Next Obligation.
  intros h c pc r Hr. cbn [csr_rd demo_hart]. unfold rd. replace (deleg (trap h c pc) r) with (deleg h r) by (by destruct r). f_equal.
  rewrite !not_elem_of_cons in Hr. destruct Hr as (R1 & R2 & R3 & R4 & _). by destruct (csr_file r).
Qed.
Definition program : cpu hart :=
  {| gpr := fun r => match r with 1%nat => 0xC0000200 | 2%nat => 0xD0000000 | 10%nat => 3 | 11%nat => KernDemo.page | 12%nat => 8 | _ => 5 end;
     csrs := AsmDemo.regs; dmem := fun _ => 0 |}.
End CallDemo.

Lemma stub_returns_witness : exists s',
  call_stub MemDemo.img 1 AsmDemo.entry AsmDemo.entry 0 (fun k _ f => Ret (k, f, None)) KernDemo.k1 KernDemo.j0 CallDemo.program 0xC0000400 u_read
    = Ret (KernDemo.k1, inl (s', 0xC0000200, UMode)) /\ rx s' 10 = u64 (- EBADFD) /\ rx s' 2 = 0xD0000000.
Proof.
  destruct (stub_returns MemDemo.img 1 AsmDemo.entry AsmDemo.entry 0 (fun k _ f => Ret (k, f, None))
    ltac:(vm_compute; repeat split; discriminate) ltac:(vm_compute; repeat split; discriminate) KernDemo.k1 KernDemo.j0 CallDemo.program 0xC0000400 u_read
    KernDemo.k1 (- EBADFD)) as (s' & E & Ha & _ & Hr & _).
  - lia.
  - reflexivity.
  - lia.
  - vm_compute. split; [discriminate|reflexivity].
  - reflexivity.
  - vm_compute. discriminate.
  - vm_compute. discriminate.
  - exact (with_fd_not_open KernDemo.k1 100 KernDemo.pr0 3 _ KernDemo.k1_runs (or_introl eq_refl)).
  - exists s'. split; [exact E|]. split; [exact Ha|]. exact (Hr 2%nat ltac:(discriminate) ltac:(discriminate) ltac:(lia)).
Defined.

(** The program of [ExecDemo] on the main thread, on a processor with the status
    that exec leaves. *)
Definition exec_cpu (status : Z) : cpu HartDemo.hart :=
  {| gpr := fun _ => 0; csrs := fun r => match r with MSTATUS => status | _ => 0 end; dmem := fun _ => 0 |}.
Lemma exec_cpu_status status : same_bits (visible SSTATUS) (csr_rd (csrs (exec_cpu status)) SSTATUS) status.
Proof.
  intros i Hi. cbn [csr_rd HartDemo.demo_hart exec_cpu csrs]. unfold HartDemo.rd. cbn [csr_file HartDemo.rmask HartDemo.deleg]. change (Z.land 0x40122 HartDemo.ones64) with 0x40122. rewrite Z.land_spec.
  assert (Hb : Z.testbit 0x40122 i = true); [|by rewrite Hb, andb_true_r].
  revert i Hi. apply Forall_forall. repeat (apply Forall_cons_2; [reflexivity|]). apply Forall_nil_2.
Qed.

Lemma exec_enters_user_witness : exists (s : kfs io_lit) k' t s1 s2 p, process_exec (ExecDemo.k s) 1 = Ret (k', Jumps USER_STACK_VMA 0xC0000004) /\
  thread_jump_to_user AsmDemo.entry t USER_STACK_VMA 0xC0000004 (exec_cpu (mm_sstatus (k_mm k'))) = Ret s1 /\
  sret s1 = (s2, 0xC0000004, p) /\ rx s2 2 = USER_STACK_VMA /\ csr_rd (csrs s2) STVEC = AsmDemo.entry.
Proof.
  destruct ExecDemo.program_open as (dimg & s & Hok & Hc & Hy). exists s.
  destruct (process_exec_loads iolit_ops 7 (HR := lit_read_disk 7) (ExecDemo.k s) VmDemo.free dimg 0 (KfsFiles.opened dimg 0) 0 CloneDemo.st0_user
    ExecDemo.root_plain Hy) as (w' & m' & E & _).
  - rewrite Hc. exact ElfDemo.data_ok.
  - rewrite Hc, ElfDemo.pages, VmDemo.free_len. lia.
  - rewrite Hc. apply Forall_forall. intros ph Hph a Ha. apply ElfDemo.mem_empty. eapply in_segment_user; [|exact Ha].
    assert (HF := eo_segments _ ElfDemo.data_ok). rewrite Forall_forall in HF. exact (HF ph Hph).
  - rewrite Hc in E. set (k' := set_mm _ _) in E.
    assert (Ht : exists t, thrs (k_thr k') !! curthr (k_thr k') = Some t /\ stack_base t = 1000)
      by (change (k_thr k') with KernDemo.thr1; vm_compute; eexists; split; reflexivity).
    destruct Ht as (t & Ht & Hb).
    destruct (exec_enters_user AsmDemo.entry ltac:(vm_compute; repeat split; discriminate) (ExecDemo.k s) 1 k' USER_STACK_VMA 0xC0000004 t
      (exec_cpu (mm_sstatus (k_mm k'))) E Ht) as (s1 & s2 & E1 & E2 & Hsp & _ & Hv & _).
    + rewrite Hb. lia.
    + lia.
    + reflexivity.
    + apply exec_cpu_status.
    + eexists k', t, s1, s2, _. split; [exact E|]. split; [exact E1|]. split; [exact E2|]. split; [exact Hsp|exact Hv].
Defined.
